(* ===== verification/_CoqProject ===== *)
-Q . S2P
Prelude.v
BfdPacket.v
BfdSession.v
BfdSessionProofs.v
BfdServer.v
BfdServerProofs.v
Fsm.v
LacpDefs.v
LacpPort.v
LacpTx.v
LacpPtx.v
LacpCdm.v
LacpMarker.v
LacpMux.v
LacpRx.v
LacpMain.v
LacpBits.v
LacpTxProofs.v
LacpPtxProofs.v
LacpCdmProofs.v
LacpMuxProofs.v
LacpRxProofs.v
LacpMarkerProofs.v
LacpExample.v
RingBuffer.v
PatriciaDB.v
PatriciaMap.v
PatriciaWalk.v
PatriciaDelete.v
PatriciaLongest.v
PatriciaAlias.v
PatriciaHeap.v
PatriciaHeapDelete.v
PatriciaRefine.v
BgpWire.v
BgpOpen.v
BgpOpenProofs.v
BgpAttr.v
BgpAttrProofs.v
BgpUpdate.v
BgpUpdateProofs.v
BgpSplit.v
BgpSplitProofs.v
BgpFsm.v
BgpFsmProofs.v
BgpFsmRuns.v
BgpManager.v
BgpManagerProofs.v
BgpExport.v
BgpExportProofs.v
BgpAnnounce.v
