(* ===== verification/Prelude.v ===== *)
(** * FlexSwitch: a verification of its protocol engines

    FlexSwitch is the software of a network switch: one daemon per protocol,
    each with an event loop that owns the protocol's state and is fed by
    packets, timers, configuration calls and the hardware daemon asicd.  This
    library models five of its parts and proves what they promise.

    ** The program and the files that model it

    - BFD, [l3/bfd/server]: detects the failure of a path.  A session is a
      small state machine with two timers; the server keeps the table of
      sessions and tells its clients, BGP among them, when one goes up or down.
      [BfdPacket] is the control packet and its authentication section
      (bfdControl.go, bfdAuth.go), [BfdSession] a session (bfdSession.go),
      [BfdServer] the table, the dispatch of packets, parameter sets and paging
      (bfdSessionServer.go, bfdSessionParam.go, bfdGlobalConf.go,
      bfdSessionGetBulk.go).  [BfdSessionProofs] and [BfdServerProofs] hold the
      theorems.
    - The state-machine library [utils/fsm] on which the layer-2 daemons build
      their machines: [Fsm].
    - LACP, [l2/lacp/protocol/lacp]: aggregates links.  A port has seven
      machines on the library of [Fsm]; they share the port's record and send
      each other events.  [LacpDefs] and [LacpPort] are the data, [LacpTx],
      [LacpPtx], [LacpCdm], [LacpMarker], [LacpMux] and [LacpRx] the machines
      (txmachine.go, periodictxmachine.go, churnDetectionMachine.go, rx.go and
      markerResponder.go, muxmachine.go, rxmachine.go and selection.go),
      [LacpMain] the operations that drive them (port.go, config.go).  The
      [Lacp..Proofs] files, [LacpBits] and [LacpExample] hold the theorems.
    - Containers: [RingBuffer] ([utils/ringBuffer]) and the Patricia trie of
      the routing daemons ([utils/patriciaDB]): [PatriciaDB] is the code,
      [PatriciaMap] to [PatriciaLongest] treat tries whose prefixes are lists of
      octets, [PatriciaAlias] to [PatriciaHeapDelete] show that sharing the
      arrays of slices makes no difference, [PatriciaRefine] compares the trie
      with a finite map.
    - BGP, [l3/bgp]: exchanges routes.  [BgpWire], [BgpOpen], [BgpAttr] and
      [BgpUpdate] are the codec ([packet/bgp.go], mpbgp.go, afisafi.go) and the
      functions of helpers.go that a received update passes through, [BgpSplit]
      the splitting of an update into messages, [BgpFsm] the state machine of a
      connection ([fsm/fsm.go], conn.go), [BgpManager] the manager of the
      machines of a neighbour ([fsm/fsm_manager.go]), [BgpExport] the rewriting
      of an update for a peer ([server/peer.go]).  The [Bgp..Proofs] files,
      [BgpFsmRuns] and [BgpAnnounce] hold the theorems.

    ** How code becomes definitions

    A function of the source is a definition of the same name; methods that
    share a name are prefixed by their type.  A struct is a record, an enum of
    named integers a set of constants or an inductive type, an interface with a
    fixed set of implementations an inductive type.  Integers are [Z] and are
    reduced at the width of their Go type wherever an operation can leave it
    ([u8], [u16], [u32], [i32]).  A function that can panic or fail to return
    has a result in [exec]: [Ok], [Panic] (nil dereference, index or slice out
    of range, failed type assertion), or [Hang] (a lock taken twice, a channel
    nobody serves, fuel used up).  An error that the code returns stays a value.
    Objects that several owners share are in a heap: the sessions of BFD, the
    ports and aggregators of LACP, the arrays behind the prefixes of the trie.
    Messages to other goroutines, frames and calls of other daemons are recorded
    in the order in which they happen.  A turn of a [select] is a step function
    on the state; theorems about runs quantify over all sequences of turns.
    A send that can block where a caller depends on it is [Hang] when it does:
    the unbuffered stop channels of a BFD session are the number of goroutines
    that listen ([chan_send]), and nil until the session is started; the
    channels of the BGP machines have their capacities ([capacity], [Mailbox]),
    and so has the channel to the BGP server ([fsmConnCh_capacity]).  The event
    channels of the LACP machines, of 10 and 1000 places, are lists: a sender
    that waits for a place is not distinguished from one that goes on.

    ** Parameters and hypotheses

    What is not in the repository, or not determined by it, is an argument:
    MD5 and SHA1 ([BfdPacket]); the order of map iteration, random draws and
    the answers of the routing daemon ([BfdEnv], with its law [BfdEnvOk]);
    asicd ([AsicD]) and the packet layers ([Layers]) for LACP; how [append]
    grows an array ([Growth]) for the trie; the outcome of reads and writes on
    sockets and the answer of the manager to the state machine of BGP; the
    spare capacity [room] of the attribute slice in [BgpSplit].  Each theorem
    with hypotheses is followed by an instance on concrete data, named after it
    with [_witness].

    ** Fuel

    Recursion that is not structural has fuel, and running out of it is [Hang],
    so a theorem that a function returns [Ok] shows that the fuel was enough.
    The loops of the trie take as much fuel as the trie is high and the key
    long; the event loops of LACP serve at most as many messages as are queued;
    the search for a BFD identifier uses one unit per random draw; the decoders
    of BGP use one unit per item of a list, and an item takes at least one octet
    of a message of at most 4096, except for the wrapped lengths for which
    [update_decode_never_ends] and [open_decode_never_ends] show [Hang] for
    every fuel.

    ** What the theorems show

    - BFD.  The codec is inverted by its decoder; the event handler implements
      the state machine of its comment; a session runs any sequence of packets,
      timeouts and commands without a panic and announces alternating states,
      and three packets bring two sessions up, both without authentication (with
      it the first transmission panics); the tables of the server agree in every
      state reached by commands that meet [command_ok], whatever the environment
      answers from one to the next, identifiers are fresh, creation and the
      deletion of started sessions do what their callers rely on.  The deletion
      of a session that is per-link, or not started yet, never returns.
    - LACP.  A machine is the automaton of its rule table; the flags of the
      actor and the partner are those of the mux and receive states whatever
      arrives, the former as long as LACP is not taken off a port, which
      overwrites them ([lacp_disable_overwrites_flags]); a PDU is recorded, with
      the code's rule for synchronisation, and [sync_rules_differ] says where
      this is not the rule of the standard; at most three PDUs leave per guard
      interval unless the machine is begun anew or LACP disabled in between.  On
      a fixed pair of systems two ports negotiate exactly when one is active.
      The marker responder answers once, and the partner churn machine raises
      false alarms.
    - Containers.  The ring is a bounded queue.  The trie answers exactly as a
      finite map ([map_answers]) where [Delete] is asked for stored keys and the
      longest-prefix lookup within the limits of [asked_well]; what it does
      outside of them is [trie_serve] and the theorems behind it.
    - BGP.  Every well-formed message is read back from its octets; an OPEN is
      understood as it was meant; an update is split into messages of legal
      size that carry its routes in order and once; the state machine never
      uses a connection it does not have and follows its transition table; two
      speakers become established; of two colliding connections both ends keep
      the one that the speaker with the larger number opened; the manager, while
      no channel it sends to stays full and no machine it hands something to
      waits for its mutex, returns with its mutex free and has told the server
      the truth; a path is called advertisable exactly when it may go to the peer
      and the peer is not in it; and an announcement without multiprotocol
      attributes that is rewritten, split, encoded and decoded arrives at an
      external peer with four-octet numbers with its routes, the speaker's number
      in front of the path, its address as next hop and the other attributes
      with their values.  Further theorems pin down where the code departs from
      this: decoders that never end, loop checks and exports that panic for
      two-octet AS numbers, route reflection that cuts off attributes, routes of
      multiprotocol attributes that are dropped, negotiated times that are
      forgotten, a deletion that blocks and an update that waits with the mutex
      taken for a machine that asks for it.

    ** Not modelled

    Of the parts above: sockets, goroutine scheduling inside a turn, thrift
    handlers, start-up and logging; creation and deletion of LACP ports and the
    configuration checks; the aggregation of BGP routes and attributes of local
    routes; the dense child list of the trie, which is never created.  Other
    parts of the program: the distributed relay of LACP (drcp), STP, LLDP, the
    BGP server with its path selection and policies, the routing daemon, OSPF,
    VRRP, ARP, NDP, DHCP and the policy engine are protocols or daemons of their
    own that the parts here do not call; the infrastructure daemons are glue
    around thrift, hardware libraries and the database; [net] and [netlink] are
    third-party packages.

    This file holds what all parts share: the outcome [exec] with its notation,
    functional update of records, machine integers and their octets, slices, and
    the tactics and hints for them. *)

From stdpp Require Export base gmap strings list numbers option fin_maps sets tactics.
From Stdlib Require Export ZArith Lia.
From Stdlib Require Import Btauto.

Open Scope Z_scope.

(** ** Run-time outcome of Go code

    A Go function returns, panics (nil dereference, index out of range), or
    has not returned within the draws or the fuel it was given.  [exec A] is the
    result of running it; errors that the code returns as values stay ordinary
    values inside [A]. *)

Inductive exec (A : Type) : Type :=
| Ok (a : A)
| Panic
| Hang.
Arguments Ok {A} _.
Arguments Panic {A}.
Arguments Hang {A}.

Definition exec_bind {A B} (m : exec A) (k : A -> exec B) : exec B :=
  match m with Ok a => k a | Panic => Panic | Hang => Hang end.

Definition returns {A} (m : exec A) (P : A -> Prop) : Prop :=
  exists a, m = Ok a /\ P a.

Definition of_option {A} (o : option A) : exec A :=
  match o with Some a => Ok a | None => Panic end.

Declare Scope go_scope.
Delimit Scope go_scope with go.
Open Scope go_scope.

Notation "'let!' x ':=' m 'in' k" := (exec_bind m (fun x => k))
  (at level 10, x pattern, m at level 100, k at level 200,
   format "'let!'  x  ':='  m  'in' '//' k") : go_scope.

(** ** Functional update of record fields

    A record type registers the eta-expansion of its values as an instance
    of [Settable]; the setter of a projection is then found by instance
    search: it is the eta-expansion with that projection rewritten. *)

Class Settable (R : Type) := eta_expand : R -> R.
Class Setter {R E : Type} (get : R -> E) := update : (E -> E) -> R -> R.

Ltac build_setter R E get :=
  let inst := constr:(_ : Settable R) in
  let e := eval hnf in inst in
  exact (fun (f : E -> E) (r : R) =>
    ltac:(let b := eval cbv beta in (e r) in
          let p := eval pattern (get r) in b in
          lazymatch p with
          | ?g _ => let t := eval cbv beta in (g (f (get r))) in exact t
          end)).

#[export] Hint Extern 1 (@Setter ?R ?E ?get) => build_setter R E get : typeclass_instances.

Notation "r <| get := v |>" := (@update _ _ get _ (fun _ => v) r)
  (at level 12, left associativity, get at level 9, v at level 200,
   format "r  <| get  :=  v |>") : go_scope.
Notation "r <| get ::= f |>" := (@update _ _ get _ f r)
  (at level 12, left associativity, get at level 9, f at level 200,
   format "r  <| get  ::=  f |>") : go_scope.

(** ** Machine integers

    Go's fixed-width integers are kept as [Z] in their range; every
    conversion and every arithmetic operation that may leave the range is
    followed by the wrap-around of its type.  Division truncates ([Z.quot]). *)

Definition u8 (x : Z) : Z := x mod 2 ^ 8.
Definition u16 (x : Z) : Z := x mod 2 ^ 16.
Definition u32 (x : Z) : Z := x mod 2 ^ 32.
Definition i32 (x : Z) : Z := (x + 2 ^ 31) mod 2 ^ 32 - 2 ^ 31.

Definition is_u8 (x : Z) : Prop := 0 <= x < 2 ^ 8.
Definition is_u16 (x : Z) : Prop := 0 <= x < 2 ^ 16.
Definition is_u32 (x : Z) : Prop := 0 <= x < 2 ^ 32.
Definition is_i32 (x : Z) : Prop := - 2 ^ 31 <= x < 2 ^ 31.

#[export] Instance is_u8_dec x : Decision (is_u8 x).
Proof. unfold is_u8. apply _. Defined.
#[export] Instance is_u16_dec x : Decision (is_u16 x).
Proof. unfold is_u16. apply _. Defined.
#[export] Instance is_u32_dec x : Decision (is_u32 x).
Proof. unfold is_u32. apply _. Defined.
#[export] Instance is_i32_dec x : Decision (is_i32 x).
Proof. unfold is_i32. apply _. Defined.

Create HintDb go discriminated.
Create Rewrite HintDb go_int.
Create Rewrite HintDb go_len.

Lemma u8_range x : is_u8 (u8 x).
Proof. apply Z.mod_pos_bound. lia. Qed.
Lemma u16_range x : is_u16 (u16 x).
Proof. apply Z.mod_pos_bound. lia. Qed.
Lemma u32_range x : is_u32 (u32 x).
Proof. apply Z.mod_pos_bound. lia. Qed.
Lemma i32_range x : is_i32 (i32 x).
Proof.
  unfold is_i32, i32. pose proof (Z.mod_pos_bound (x + 2 ^ 31) (2 ^ 32)). lia.
Qed.

Lemma u8_small x : is_u8 x -> u8 x = x.
Proof. apply Z.mod_small. Qed.
Lemma u16_small x : is_u16 x -> u16 x = x.
Proof. apply Z.mod_small. Qed.
Lemma u32_small x : is_u32 x -> u32 x = x.
Proof. apply Z.mod_small. Qed.
Lemma i32_small x : is_i32 x -> i32 x = x.
Proof. unfold is_i32, i32. intros. rewrite Z.mod_small; lia. Qed.

#[export] Hint Resolve u8_range u16_range u32_range i32_range : go.
#[export] Hint Rewrite u8_small u16_small u32_small i32_small
  using (unfold is_u8, is_u16, is_u32, is_i32 in *; lia) : go_int.

(** [b2z] is the bit a flag contributes to a packed octet. *)
Definition b2z (b : bool) (mask : Z) : Z := if b then mask else 0.

(** ** Bits and octets *)

(** Joining a shifted high part with a low part is addition. *)
Lemma lor_shiftl_low a b n :
  0 <= n -> 0 <= b < 2 ^ n -> Z.lor (Z.shiftl a n) b = a * 2 ^ n + b.
Proof.
  intros Hn Hb. rewrite <- Z.shiftl_mul_pow2 by done.
  rewrite <- Z.lxor_lor, <- Z.add_nocarry_lxor; try done;
  apply Z.bits_inj'; intros i Hi; rewrite Z.land_spec, Z.bits_0, Z.shiftl_spec by done;
  (destruct (decide (i < n));
   [ rewrite Z.testbit_neg_r by lia; done
   | rewrite <- (Z.mod_small b (2 ^ n)) by done;
     rewrite Z.mod_pow2_bits_high by lia; apply andb_false_r ]).
Qed.

Lemma land_ones_mod a n : 0 <= n -> Z.land a (2 ^ n - 1) = a mod 2 ^ n.
Proof. intros. rewrite <- Z.land_ones, Z.ones_equiv by done. f_equal; lia. Qed.

(** [binary.BigEndian] of Go's [encoding/binary], on octets kept as [Z]. *)
Definition PutUint16 (x : Z) : list Z := [u8 (Z.shiftr x 8); u8 x].
Definition PutUint32 (x : Z) : list Z :=
  [u8 (Z.shiftr x 24); u8 (Z.shiftr x 16); u8 (Z.shiftr x 8); u8 x].

Definition Uint16 (b0 b1 : Z) : Z := Z.lor (Z.shiftl b0 8) b1.
Definition Uint32 (b0 b1 b2 b3 : Z) : Z :=
  Z.lor (Z.shiftl (Z.lor (Z.shiftl (Z.lor (Z.shiftl b0 8) b1) 8) b2) 8) b3.

Lemma Uint32_value b0 b1 b2 b3 :
  is_u8 b0 -> is_u8 b1 -> is_u8 b2 -> is_u8 b3 ->
  Uint32 b0 b1 b2 b3 = ((b0 * 2 ^ 8 + b1) * 2 ^ 8 + b2) * 2 ^ 8 + b3.
Proof. unfold is_u8, Uint32. intros. rewrite !lor_shiftl_low by lia. done. Qed.

Lemma Uint32_range b0 b1 b2 b3 :
  is_u8 b0 -> is_u8 b1 -> is_u8 b2 -> is_u8 b3 -> is_u32 (Uint32 b0 b1 b2 b3).
Proof. intros. rewrite Uint32_value by done. unfold is_u8, is_u32 in *. lia. Qed.

Lemma Uint32_PutUint32 x :
  is_u32 x ->
  Uint32 (u8 (Z.shiftr x 24)) (u8 (Z.shiftr x 16)) (u8 (Z.shiftr x 8)) (u8 x) = x.
Proof.
  intros Hx. rewrite Uint32_value by auto with go.
  unfold u8, is_u32 in *. rewrite !Z.shiftr_div_pow2 by lia.
  Z.div_mod_to_equations. lia.
Qed.

Lemma PutUint32_Uint32 b0 b1 b2 b3 :
  is_u8 b0 -> is_u8 b1 -> is_u8 b2 -> is_u8 b3 ->
  PutUint32 (Uint32 b0 b1 b2 b3) = [b0; b1; b2; b3].
Proof.
  intros. rewrite Uint32_value by done. unfold PutUint32, u8, is_u8 in *.
  rewrite !Z.shiftr_div_pow2 by lia.
  repeat f_equal; Z.div_mod_to_equations; lia.
Qed.

(** A decidable property of octets holds of all of them when it holds of the
    256 values. *)
Lemma forall_u8 (P : Z -> Prop) `{!forall x, Decision (P x)} :
  forallb (fun x => bool_decide (P x)) (seqZ 0 256) = true -> forall x, is_u8 x -> P x.
Proof.
  intros Hall x Hx. rewrite forallb_forall in Hall.
  apply (bool_decide_eq_true_1 _ (Hall x (proj1 (list_elem_of_In _ _) (proj2 (elem_of_seqZ 0 256 x) Hx)))).
Qed.

Definition is_bytes (l : list Z) : Prop := Forall is_u8 l.

Lemma is_bytes_app l1 l2 : is_bytes (l1 ++ l2) <-> is_bytes l1 /\ is_bytes l2.
Proof. apply Forall_app. Qed.

Lemma PutUint32_bytes x : is_bytes (PutUint32 x).
Proof. unfold is_bytes, PutUint32. repeat constructor; apply u8_range. Qed.

#[export] Hint Resolve Uint32_range PutUint32_bytes : go.

Definition len {A} (l : list A) : Z := Z.of_nat (length l).

(** ** Slices

    [data[i]] and [data[lo:]] panic outside the length of the slice. *)
Definition index {A} (l : list A) (i : Z) : exec A :=
  if 0 <=? i then of_option (l !! Z.to_nat i) else Panic.

Definition slice_from {A} (l : list A) (lo : Z) : exec (list A) :=
  if (0 <=? lo) && (lo <=? len l) then Ok (drop (Z.to_nat lo) l) else Panic.

Definition slice_to {A} (l : list A) (hi : Z) : exec (list A) :=
  if (0 <=? hi) && (hi <=? len l) then Ok (take (Z.to_nat hi) l) else Panic.

(** [data[i] = v]. *)
Definition store {A} (l : list A) (i : Z) (v : A) : exec (list A) :=
  if (0 <=? i) && (i <? len l) then Ok (<[Z.to_nat i := v]> l) else Panic.

(** [append(data[:i], data[i+1:]...)]. *)
Definition remove_at {A} (l : list A) (i : Z) : exec (list A) :=
  let! front := slice_to l i in
  let! back := slice_from l (i + 1) in
  Ok (front ++ back).

(** A loop over a slice whose body may panic. *)
Fixpoint for_each {A S} (f : A -> S -> exec S) (l : list A) (s : S) : exec S :=
  match l with
  | [] => Ok s
  | x :: l => let! s := f x s in for_each f l s
  end.

Lemma for_each_app {A S} (f : A -> S -> exec S) l1 l2 s :
  for_each f (l1 ++ l2) s = let! s := for_each f l1 s in for_each f l2 s.
Proof.
  revert s. induction l1 as [|x l1 IH]; intros s; cbn; [done|].
  destruct (f x s); cbn; [apply IH | done | done].
Qed.

(** An invariant that every turn keeps holds after the loop, which returns. *)
Lemma for_each_inv {A S} (f : A -> S -> exec S) (P : S -> Prop) l s :
  (forall x s, x ∈ l -> P s -> returns (f x s) P) -> P s -> returns (for_each f l s) P.
Proof.
  revert s. induction l as [|x l IH]; intros s Hf Hs; cbn; [by exists s|].
  destruct (Hf x s) as (s' & -> & Hs'); [set_solver | done|]. cbn.
  apply IH; [|done]. intros. apply Hf; [set_solver | done].
Qed.

(** [binary.BigEndian.Uint32(data[off:off+4])]. *)
Definition uint32_at (data : list Z) (off : Z) : exec Z :=
  let! b0 := index data off in
  let! b1 := index data (off + 1) in
  let! b2 := index data (off + 2) in
  let! b3 := index data (off + 3) in
  Ok (Uint32 b0 b1 b2 b3).

Lemma len_nonneg {A} (l : list A) : 0 <= len l.
Proof. unfold len. lia. Qed.

Lemma len_cons {A} (x : A) l : len (x :: l) = 1 + len l.
Proof. unfold len. cbn [length]. lia. Qed.

Lemma len_app {A} (l1 l2 : list A) : len (l1 ++ l2) = len l1 + len l2.
Proof. unfold len. rewrite length_app. lia. Qed.

Lemma len_nil {A} : len (@nil A) = 0.
Proof. done. Qed.

#[export] Hint Rewrite @len_cons @len_app @len_nil : go_len.

Lemma index_at {A} (l : list A) i x : 0 <= i -> l !! Z.to_nat i = Some x -> index l i = Ok x.
Proof. intros Hi E. unfold index. rewrite (proj2 (Z.leb_le 0 i)) by lia. by rewrite E. Qed.

Lemma store_at {A} (l : list A) i x : 0 <= i < len l -> store l i x = Ok (<[Z.to_nat i := x]> l).
Proof.
  intros. unfold store. rewrite (proj2 (Z.leb_le 0 i)), (proj2 (Z.ltb_lt i (len l))) by lia. done.
Qed.

Lemma index_Ok {A} (l : list A) i : 0 <= i < len l -> exists x, index l i = Ok x.
Proof.
  unfold index, len. intros Hi. rewrite (proj2 (Z.leb_le 0 i)) by lia.
  destruct (lookup_lt_is_Some_2 l (Z.to_nat i)) as [x ->]; [lia|]. by exists x.
Qed.

Lemma index_Panic {A} (l : list A) i : len l <= i -> index l i = Panic.
Proof.
  unfold index, len. intros Hi. case_match; [|done].
  rewrite lookup_ge_None_2 by lia. done.
Qed.

Lemma uint32_at_Ok (l : list Z) off :
  0 <= off -> off + 4 <= len l -> exists x, uint32_at l off = Ok x.
Proof.
  intros. unfold uint32_at.
  destruct (index_Ok l off) as [? ->]; [lia|].
  destruct (index_Ok l (off + 1)) as [? ->]; [lia|].
  destruct (index_Ok l (off + 2)) as [? ->]; [lia|].
  destruct (index_Ok l (off + 3)) as [? ->]; [lia|]. cbn. eauto.
Qed.

Lemma index_no_hang {A} (l : list A) i : index l i <> Hang.
Proof. unfold index. case_match; [|done]. by destruct (l !! _). Qed.

Lemma bind_no_hang {A B} (m : exec A) (k : A -> exec B) :
  m <> Hang -> (forall a, m = Ok a -> k a <> Hang) -> exec_bind m k <> Hang.
Proof. destruct m; cbn; auto. Qed.

Lemma uint32_at_no_hang l off : uint32_at l off <> Hang.
Proof. unfold uint32_at. repeat (apply bind_no_hang; [apply index_no_hang | intros ? _]). done. Qed.

Lemma slice_from_no_hang {A} (l : list A) lo : slice_from l lo <> Hang.
Proof. unfold slice_from. by case_match. Qed.

#[export] Hint Resolve index_no_hang uint32_at_no_hang slice_from_no_hang : go.

(** ** Development-wide tactics *)

(** Compute record updates and the projections of their results. *)
Ltac simpl_rec := unfold update; cbn.
Tactic Notation "simpl_rec" "in" hyp(H) := unfold update in H; cbn in H.
Tactic Notation "simpl_rec" "in" "*" := unfold update in *; cbn in *.

(** Read a field of an updated record without unfolding the record. *)
Ltac simpl_get :=
  repeat match goal with
         | |- context [?g (@update ?R ?E ?get ?i ?f ?r)] =>
             let t := constr:(g (@update R E get i f r)) in
             first [ constr_eq g get; change t with (f (get r)); cbv beta
                   | change t with (g r) ]
         end.

(** Split every conjunction of the goal and every [if]/[match] the goal
    depends on, discarding impossible cases. *)
Ltac crush_cases :=
  repeat (first
    [ progress (cbn in * )
    | progress simplify_eq
    | case_match
    | done ]).

(** Evaluate reads at literal offsets of a list whose head is known. *)
Ltac eval_index :=
  unfold index;
  repeat match goal with
         | |- context [Z.to_nat ?k] =>
             let n := eval vm_compute in (Z.to_nat k) in
             progress change (Z.to_nat k) with n
         | |- context [0 <=? ?k] =>
             let b := eval vm_compute in (0 <=? k) in
             lazymatch b with
             | true => change (0 <=? k) with true
             | false => change (0 <=? k) with false
             end
         end.
Ltac eval_offsets := unfold uint32_at; eval_index.

(** Resolve every [decide P] of the goal that the context settles. *)
Ltac settle_decide :=
  repeat match goal with
         | |- context [if decide ?P then _ else _] =>
             first [ rewrite (decide_True (P := P)) by (first [tauto | lia | congruence])
                   | rewrite (decide_False (P := P)) by (first [tauto | lia | congruence]) ]
         end.

(** Settle a statement about one octet by evaluating it at all of them. *)
Ltac by_octets :=
  match goal with
  | |- forall x, is_u8 x -> @?P x => apply (forall_u8 P); vm_compute; reflexivity
  end.
