(* ===== verification/BfdPacket.v ===== *)
(** * BFD control packets (src/l3/bfd/server/bfdControl.go, bfdAuth.go)

    The control packet and its authentication header as the records of the
    source, the encoder [CreateBfdControlPacket], the decoder
    [DecodeBfdControlPacket] and the tables that print and parse the enums.
    Octets are [Z] in [0, 256); [md5] and [sha1] are the digests of the Go
    standard library, arguments of the definitions that call them. *)

From S2P Require Import Prelude.

(** ** Enumerations *)

Inductive BfdSessionState : Set :=
| STATE_ADMIN_DOWN | STATE_DOWN | STATE_INIT | STATE_UP.

#[export] Instance BfdSessionState_eq_dec : EqDecision BfdSessionState.
Proof. solve_decision. Defined.

(** The integer value of the constants, and the conversion
    [BfdSessionState(x)] on the two-bit values the decoder produces. *)
Definition BfdSessionState_val (s : BfdSessionState) : Z :=
  match s with
  | STATE_ADMIN_DOWN => 0 | STATE_DOWN => 1 | STATE_INIT => 2 | STATE_UP => 3
  end.

Definition BfdSessionState_of (x : Z) : BfdSessionState :=
  if decide (x = 0) then STATE_ADMIN_DOWN
  else if decide (x = 1) then STATE_DOWN
  else if decide (x = 2) then STATE_INIT
  else STATE_UP.

Inductive BfdSessionEvent : Set :=
| REMOTE_DOWN | REMOTE_INIT | REMOTE_UP | TIMEOUT | ADMIN_DOWN | ADMIN_UP
| REMOTE_ADMIN_DOWN.

#[export] Instance BfdSessionEvent_eq_dec : EqDecision BfdSessionEvent.
Proof. solve_decision. Defined.

(** [BfdDiagnostic] is an [int]: a received diagnostic may be any five-bit
    value, so the constants are integers. *)
Definition DIAG_NONE : Z := 0.
Definition DIAG_TIME_EXPIRED : Z := 1.
Definition DIAG_ECHO_FAILED : Z := 2.
Definition DIAG_NEIGHBOR_SIGNAL_DOWN : Z := 3.
Definition DIAG_FORWARD_PLANE_RESET : Z := 4.
Definition DIAG_PATH_DOWN : Z := 5.
Definition DIAG_CONCAT_PATH_DOWN : Z := 6.
Definition DIAG_ADMIN_DOWN : Z := 7.
Definition DIAG_REV_CONCAT_PATH_DOWN : Z := 8.

(** [AuthenticationType] is a [uint8]. *)
Definition BFD_AUTH_TYPE_RESERVED : Z := 0.
Definition BFD_AUTH_TYPE_SIMPLE : Z := 1.
Definition BFD_AUTH_TYPE_KEYED_MD5 : Z := 2.
Definition BFD_AUTH_TYPE_METICULOUS_MD5 : Z := 3.
Definition BFD_AUTH_TYPE_KEYED_SHA1 : Z := 4.
Definition BFD_AUTH_TYPE_METICULOUS_SHA1 : Z := 5.

(** ** Constants *)

Definition DEFAULT_BFD_VERSION : Z := 1.
Definition DEFAULT_DETECT_MULTI : Z := 3.
Definition DEFAULT_DESIRED_MIN_TX_INTERVAL : Z := 250000.
Definition DEFAULT_REQUIRED_MIN_RX_INTERVAL : Z := 250000.
Definition DEFAULT_REQUIRED_MIN_ECHO_RX_INTERVAL : Z := 0.
Definition DEFAULT_CONTROL_PACKET_LEN : Z := 24.
Definition STARTUP_TX_INTERVAL : Z := 2000000.
Definition STARTUP_RX_INTERVAL : Z := 2000000.
Definition TX_JITTER : Z := 10.

Definition BFD_MP : Z := 0x01.
Definition BFD_DEMAND : Z := 0x02.
Definition BFD_AUTH_PRESENT : Z := 0x04.
Definition BFD_CP_INDEPENDENT : Z := 0x08.
Definition BFD_FINAL : Z := 0x10.
Definition BFD_POLL : Z := 0x20.

(** ** Printing and parsing the enumerations *)

Definition ConvertBfdSessionStateValToStr (state : BfdSessionState) : string :=
  match state with
  | STATE_ADMIN_DOWN => "admin_down"
  | STATE_DOWN => "down"
  | STATE_INIT => "init"
  | STATE_UP => "up"
  end.

Definition ConvertBfdSessionDiagValToStr (diag : Z) : string :=
  if decide (diag = DIAG_NONE) then "None"
  else if decide (diag = DIAG_TIME_EXPIRED) then "Control detection timer expired"
  else if decide (diag = DIAG_ECHO_FAILED) then "Echo function failed"
  else if decide (diag = DIAG_NEIGHBOR_SIGNAL_DOWN) then "Neighbor signaled session down"
  else if decide (diag = DIAG_FORWARD_PLANE_RESET) then "Forwarding plane reset"
  else if decide (diag = DIAG_PATH_DOWN) then "Path down"
  else if decide (diag = DIAG_CONCAT_PATH_DOWN) then "Concatanated path down"
  else if decide (diag = DIAG_ADMIN_DOWN) then "Administratively down"
  else if decide (diag = DIAG_REV_CONCAT_PATH_DOWN) then "Reverse concatenated path down"
  else "".

Definition ConvertBfdAuthTypeStrToVal (authType : string) : Z :=
  if decide (authType = "simple") then BFD_AUTH_TYPE_SIMPLE
  else if decide (authType = "keyedmd5") then BFD_AUTH_TYPE_KEYED_MD5
  else if decide (authType = "metmd5") then BFD_AUTH_TYPE_METICULOUS_MD5
  else if decide (authType = "keyedsha1") then BFD_AUTH_TYPE_KEYED_SHA1
  else if decide (authType = "metsha1") then BFD_AUTH_TYPE_METICULOUS_SHA1
  else 0.

Definition ConvertBfdAuthTypeValToStr (authType : Z) : string :=
  if decide (authType = BFD_AUTH_TYPE_SIMPLE) then "simple"
  else if decide (authType = BFD_AUTH_TYPE_KEYED_MD5) then "keyedmd5"
  else if decide (authType = BFD_AUTH_TYPE_METICULOUS_MD5) then "metmd5"
  else if decide (authType = BFD_AUTH_TYPE_KEYED_SHA1) then "keyedsha1"
  else if decide (authType = BFD_AUTH_TYPE_METICULOUS_SHA1) then "metsha1"
  else "".

(** ** The packet *)

Record BfdAuthHeader := mkBfdAuthHeader {
  Type_ : Z;
  AuthKeyID : Z;
  SequenceNumber : Z;
  AuthData : list Z
}.
#[export] Instance BfdAuthHeader_settable : Settable BfdAuthHeader := fun h =>
  mkBfdAuthHeader (Type_ h) (AuthKeyID h) (SequenceNumber h) (AuthData h).

Record BfdControlPacket := mkBfdControlPacket {
  Version : Z;
  Diagnostic : Z;
  State : BfdSessionState;
  Poll : bool;
  Final : bool;
  ControlPlaneIndependent : bool;
  AuthPresent : bool;
  Demand : bool;
  Multipoint : bool;
  DetectMult : Z;
  MyDiscriminator : Z;
  YourDiscriminator : Z;
  DesiredMinTxInterval : Z;
  RequiredMinRxInterval : Z;
  RequiredMinEchoRxInterval : Z;
  AuthHeader : option BfdAuthHeader
}.
#[export] Instance BfdControlPacket_settable : Settable BfdControlPacket := fun p =>
  mkBfdControlPacket (Version p) (Diagnostic p) (State p) (Poll p) (Final p)
    (ControlPlaneIndependent p) (AuthPresent p) (Demand p) (Multipoint p)
    (DetectMult p) (MyDiscriminator p) (YourDiscriminator p)
    (DesiredMinTxInterval p) (RequiredMinRxInterval p)
    (RequiredMinEchoRxInterval p) (AuthHeader p).

Definition NewBfdControlPacketDefault : BfdControlPacket := {|
  Version := DEFAULT_BFD_VERSION;
  Diagnostic := DIAG_NONE;
  State := STATE_DOWN;
  Poll := false;
  Final := false;
  ControlPlaneIndependent := false;
  AuthPresent := false;
  Demand := false;
  Multipoint := false;
  DetectMult := DEFAULT_DETECT_MULTI;
  MyDiscriminator := 0;
  YourDiscriminator := 0;
  DesiredMinTxInterval := DEFAULT_DESIRED_MIN_TX_INTERVAL;
  RequiredMinRxInterval := DEFAULT_REQUIRED_MIN_RX_INTERVAL;
  RequiredMinEchoRxInterval := DEFAULT_REQUIRED_MIN_ECHO_RX_INTERVAL;
  AuthHeader := None
|}.

(** ** Encoding *)

Definition is_md5 (t : Z) : bool :=
  bool_decide (t = BFD_AUTH_TYPE_KEYED_MD5 \/ t = BFD_AUTH_TYPE_METICULOUS_MD5).
Definition is_sha1 (t : Z) : bool :=
  bool_decide (t = BFD_AUTH_TYPE_KEYED_SHA1 \/ t = BFD_AUTH_TYPE_METICULOUS_SHA1).

Definition createBfdAuthHeader (h : BfdAuthHeader) : list Z :=
  let length_ := if decide (Type_ h <> BFD_AUTH_TYPE_SIMPLE)
                 then u8 (len (AuthData h) + 8)
                 else u8 (len (AuthData h) + 3) in
  [Type_ h; length_; AuthKeyID h]
  ++ (if decide (Type_ h <> BFD_AUTH_TYPE_SIMPLE)
      then [0] ++ PutUint32 (SequenceNumber h) else [])
  ++ AuthData h.

Definition getBfdAuthenticationLength (h : BfdAuthHeader) : Z :=
  if decide (Type_ h = BFD_AUTH_TYPE_SIMPLE) then u8 (len (AuthData h) + 3)
  else if is_md5 (Type_ h) then 24
  else if is_sha1 (Type_ h) then 28
  else 0.

Section Encode.
Context (md5 sha1 : list Z -> list Z).

(** The header present in the encoding: the flag is set and the pointer is
    not nil. *)
Definition encoded_auth (p : BfdControlPacket) : option BfdAuthHeader :=
  if AuthPresent p then AuthHeader p else None.

(** The flag octet, without the state bits. *)
Definition packet_flags (p : BfdControlPacket) : Z :=
  let flags := 0 in
  let flags := if Poll p then Z.lor flags BFD_POLL else flags in
  let flags := if Final p then Z.lor flags BFD_FINAL else flags in
  let flags := if ControlPlaneIndependent p then Z.lor flags BFD_CP_INDEPENDENT else flags in
  let flags := match encoded_auth p with
               | Some _ => Z.lor flags BFD_AUTH_PRESENT | None => flags end in
  let flags := if Demand p then Z.lor flags BFD_DEMAND else flags in
  if Multipoint p then Z.lor flags BFD_MP else flags.

(** The authentication section appended to the 24 octets [buf]: the digests
    cover everything written so far followed by the key. *)
Definition auth_section (buf : list Z) (h : BfdAuthHeader) (authLength : Z) : list Z :=
  let pre := [Type_ h; authLength; AuthKeyID h]
             ++ (if decide (Type_ h <> BFD_AUTH_TYPE_SIMPLE)
                 then [0] ++ PutUint32 (SequenceNumber h) else []) in
  let copiedBuf := buf ++ pre in
  pre ++ (if decide (Type_ h = BFD_AUTH_TYPE_SIMPLE) then AuthData h
          else if is_md5 (Type_ h) then md5 (copiedBuf ++ AuthData h)
          else if is_sha1 (Type_ h) then sha1 (copiedBuf ++ AuthData h)
          else []).

Definition CreateBfdControlPacket (p : BfdControlPacket) : list Z :=
  let authLength := match encoded_auth p with
                    | Some h => getBfdAuthenticationLength h | None => 0 end in
  let length_ := match encoded_auth p with
                 | Some _ => u8 (DEFAULT_CONTROL_PACKET_LEN + authLength)
                 | None => DEFAULT_CONTROL_PACKET_LEN end in
  let buf :=
    [Z.lor (u8 (Z.shiftl (Version p) 5)) (Z.land (u8 (Diagnostic p)) 0x1f)]
    ++ [Z.lor (u8 (Z.shiftl (u8 (BfdSessionState_val (State p))) 6)) (packet_flags p)]
    ++ [DetectMult p] ++ [length_]
    ++ PutUint32 (MyDiscriminator p) ++ PutUint32 (YourDiscriminator p)
    ++ PutUint32 (u32 (DesiredMinTxInterval p))
    ++ PutUint32 (u32 (RequiredMinRxInterval p))
    ++ PutUint32 (u32 (RequiredMinEchoRxInterval p)) in
  match encoded_auth p with
  | Some h => if decide (0 < authLength) then buf ++ auth_section buf h authLength else buf
  | None => buf
  end.

End Encode.

(** ** Decoding *)

Inductive BfdPktError : Set :=
| ErrLengthMismatch | ErrTooShort | ErrMd5Length | ErrSha1Length | ErrAuthType.

#[export] Instance BfdPktError_eq_dec : EqDecision BfdPktError.
Proof. solve_decision. Defined.

Definition decodeBfdAuthHeader (data : list Z) : exec (BfdPktError + BfdAuthHeader) :=
  let! t := index data 0 in
  let! length_ := index data 1 in
  let h := mkBfdAuthHeader t 0 0 [] in
  if decide (0 < length_) then
    let! keyId := index data 2 in
    let h := h <| AuthKeyID := keyId |> in
    if decide (t = BFD_AUTH_TYPE_SIMPLE) then
      let! d := slice_from data 3 in
      Ok (inr (h <| AuthData := d |>))
    else if is_md5 t then
      let! sn := uint32_at data 4 in
      let! d := slice_from data 8 in
      if decide (len d <> 16) then Ok (inl ErrMd5Length)
      else Ok (inr (h <| SequenceNumber := sn |> <| AuthData := d |>))
    else if is_sha1 t then
      let! sn := uint32_at data 4 in
      let! d := slice_from data 8 in
      if decide (len d <> 20) then Ok (inl ErrSha1Length)
      else Ok (inr (h <| SequenceNumber := sn |> <| AuthData := d |>))
    else Ok (inl ErrAuthType)
  else Ok (inr h).

Definition testflag (b mask : Z) : bool := bool_decide (Z.land b mask <> 0).

Definition DecodeBfdControlPacket (data : list Z)
    : exec (option BfdControlPacket * option BfdPktError) :=
  let! d0 := index data 0 in
  let! d1 := index data 1 in
  let! d2 := index data 2 in
  let! d3 := index data 3 in
  if decide (u8 (len data) <> d3) then Ok (None, Some ErrLengthMismatch) else
  let! my := uint32_at data 4 in
  let! your := uint32_at data 8 in
  let! tx := uint32_at data 12 in
  let! rx := uint32_at data 16 in
  let! echo := uint32_at data 20 in
  let packet := {|
    Version := u8 (Z.shiftr (Z.land d0 0xE0) 5);
    Diagnostic := Z.land d0 0x1F;
    State := BfdSessionState_of (Z.shiftr (Z.land d1 0xD0) 6);
    Poll := testflag d1 0x20;
    Final := testflag d1 0x10;
    ControlPlaneIndependent := testflag d1 0x08;
    AuthPresent := testflag d1 0x04;
    Demand := testflag d1 0x02;
    Multipoint := testflag d1 0x01;
    DetectMult := d2;
    MyDiscriminator := my;
    YourDiscriminator := your;
    DesiredMinTxInterval := tx;
    RequiredMinRxInterval := rx;
    RequiredMinEchoRxInterval := echo;
    AuthHeader := None |} in
  if AuthPresent packet then
    if decide (len data > 24) then
      let! adata := slice_from data 24 in
      let! r := decodeBfdAuthHeader adata in
      match r with
      | inr h => Ok (Some (packet <| AuthHeader := Some h |>), None)
      | inl e => Ok (Some packet, Some e)
      end
    else Ok (Some packet, Some ErrTooShort)
  else Ok (Some packet, None).

(** ** Well-formed packets and what the wire carries *)

(** The header types the encoder knows how to size. *)
Definition supported_auth (t : Z) : bool :=
  bool_decide (t = BFD_AUTH_TYPE_SIMPLE) || is_md5 t || is_sha1 t.

Record wf_auth (h : BfdAuthHeader) : Prop := {
  wf_auth_key : is_u8 (AuthKeyID h);
  wf_auth_seq : is_u32 (SequenceNumber h);
  wf_auth_type : supported_auth (Type_ h) = true;
  wf_auth_simple : Type_ h = BFD_AUTH_TYPE_SIMPLE ->
                   SequenceNumber h = 0 /\ len (AuthData h) + 27 < 256
}.

Record wf_fixed (p : BfdControlPacket) : Prop := {
  wf_version : 0 <= Version p < 8;
  wf_diag : 0 <= Diagnostic p < 32;
  wf_my : is_u32 (MyDiscriminator p);
  wf_your : is_u32 (YourDiscriminator p);
  wf_tx : is_u32 (DesiredMinTxInterval p);
  wf_rx : is_u32 (RequiredMinRxInterval p);
  wf_echo : is_u32 (RequiredMinEchoRxInterval p)
}.

Definition wf_packet (p : BfdControlPacket) : Prop :=
  wf_fixed p /\ forall h, encoded_auth p = Some h -> wf_auth h.

Section WireProofs.
Context (md5 sha1 : list Z -> list Z).
Hypothesis md5_size : forall m, len (md5 m) = 16.
Hypothesis sha1_size : forall m, len (sha1 m) = 20.

(** The authentication data a receiver sees: the password itself, or the
    digest of the packet up to the digest, followed by the key. *)
Definition wire_auth_data (p : BfdControlPacket) (h : BfdAuthHeader) : list Z :=
  if decide (Type_ h = BFD_AUTH_TYPE_SIMPLE) then AuthData h else
  let covered := take 32 (CreateBfdControlPacket md5 sha1 p) ++ AuthData h in
  if is_md5 (Type_ h) then md5 covered else sha1 covered.

(** The packet a receiver reconstructs. *)
Definition on_wire (p : BfdControlPacket) : BfdControlPacket :=
  match encoded_auth p with
  | Some h => p <| AuthHeader := Some (h <| AuthData := wire_auth_data p h |>) |>
  | None => p <| AuthPresent := false |> <| AuthHeader := None |>
  end.

Lemma octet0_version v d :
  0 <= v < 8 -> 0 <= d < 32 ->
  u8 (Z.shiftr (Z.land (Z.lor (u8 (Z.shiftl v 5)) (Z.land (u8 d) 0x1f)) 0xE0) 5) = v
  /\ Z.land (Z.lor (u8 (Z.shiftl v 5)) (Z.land (u8 d) 0x1f)) 0x1F = d.
Proof.
  intros Hv Hd. rewrite (u8_small d) by (unfold is_u8; lia).
  rewrite (u8_small (Z.shiftl v 5)) by
    (unfold is_u8; rewrite Z.shiftl_mul_pow2 by lia; lia).
  change 0x1f with (2 ^ 5 - 1). rewrite (land_ones_mod d), (Z.mod_small d) by lia.
  rewrite Z.shiftr_land, lor_shiftl_low by lia.
  rewrite Z.shiftr_div_pow2 by lia. change (Z.shiftr 0xE0 5) with (2 ^ 3 - 1).
  rewrite !land_ones_mod by lia. rewrite u8_small; unfold is_u8; Z.div_mod_to_equations; lia.
Qed.

Lemma flag_octet (s : BfdSessionState) (po fi cp au de mu : bool) :
  let fl := Z.lor (Z.lor (Z.lor (Z.lor (Z.lor (b2z po 0x20) (b2z fi 0x10)) (b2z cp 0x08))
              (b2z au 0x04)) (b2z de 0x02)) (b2z mu 0x01) in
  let o := Z.lor (u8 (Z.shiftl (u8 (BfdSessionState_val s)) 6)) fl in
  BfdSessionState_of (Z.shiftr (Z.land o 0xD0) 6) = s
  /\ testflag o 0x20 = po /\ testflag o 0x10 = fi /\ testflag o 0x08 = cp
  /\ testflag o 0x04 = au /\ testflag o 0x02 = de /\ testflag o 0x01 = mu.
Proof. destruct s, po, fi, cp, au, de, mu; vm_compute; repeat split. Qed.

Lemma packet_flags_b2z p :
  packet_flags p =
  Z.lor (Z.lor (Z.lor (Z.lor (Z.lor (b2z (Poll p) 0x20) (b2z (Final p) 0x10))
    (b2z (ControlPlaneIndependent p) 0x08))
    (b2z (bool_decide (is_Some (encoded_auth p))) 0x04)) (b2z (Demand p) 0x02))
    (b2z (Multipoint p) 0x01).
Proof.
  unfold packet_flags. destruct (encoded_auth p);
  destruct (Poll p), (Final p), (ControlPlaneIndependent p), (Demand p), (Multipoint p);
  reflexivity.
Qed.

(** The decoder on a well-framed packet: the fixed part is read back and the
    rest is handed to the authentication decoder. *)
Lemma decode_frame d0 d1 d2 a b c d e rest :
  is_u32 a -> is_u32 b -> is_u32 c -> is_u32 d -> is_u32 e ->
  DecodeBfdControlPacket
    ([d0] ++ [d1] ++ [d2] ++ [u8 (24 + len rest)] ++ PutUint32 a ++ PutUint32 b
     ++ PutUint32 c ++ PutUint32 d ++ PutUint32 e ++ rest) =
  let packet := mkBfdControlPacket
    (u8 (Z.shiftr (Z.land d0 0xE0) 5)) (Z.land d0 0x1F)
    (BfdSessionState_of (Z.shiftr (Z.land d1 0xD0) 6))
    (testflag d1 0x20) (testflag d1 0x10) (testflag d1 0x08) (testflag d1 0x04)
    (testflag d1 0x02) (testflag d1 0x01) d2 a b c d e None in
  if testflag d1 0x04 then
    if decide (len rest > 0) then
      let! r := decodeBfdAuthHeader rest in
      match r with
      | inr h => Ok (Some (packet <| AuthHeader := Some h |>), None)
      | inl er => Ok (Some packet, Some er)
      end
    else Ok (Some packet, Some ErrTooShort)
  else Ok (Some packet, None).
Proof.
  intros Ha Hb Hc Hd He. unfold DecodeBfdControlPacket. eval_offsets.
  cbn -[u8 decide testflag len Z.shiftr Z.land Uint32].
  rewrite !Uint32_PutUint32 by done.
  autorewrite with go_len.
  replace (1 + _) with (24 + len rest) by lia.
  rewrite decide_False by tauto.
  case_match; [|done].
  destruct (decide (len rest > 0)); [rewrite decide_True by lia|by rewrite decide_False by lia].
  unfold slice_from. autorewrite with go_len.
  rewrite (proj2 (Z.leb_le 24 _)) by (pose proof (len_nonneg rest); lia). done.
Qed.

Lemma supported_auth_cases t :
  supported_auth t = true ->
  t = BFD_AUTH_TYPE_SIMPLE
  \/ (t <> BFD_AUTH_TYPE_SIMPLE /\ is_md5 t = true)
  \/ (t <> BFD_AUTH_TYPE_SIMPLE /\ is_md5 t = false /\ is_sha1 t = true).
Proof.
  unfold supported_auth. destruct (decide (t = BFD_AUTH_TYPE_SIMPLE)); [tauto|].
  rewrite bool_decide_eq_false_2 by done. destruct (is_md5 t), (is_sha1 t); naive_solver.
Qed.

Lemma auth_section_len buf h :
  wf_auth h -> len (auth_section md5 sha1 buf h (getBfdAuthenticationLength h))
               = getBfdAuthenticationLength h.
Proof.
  intros [Hk Hs Ht Hsim]. unfold auth_section, getBfdAuthenticationLength.
  destruct (supported_auth_cases _ Ht) as [E|[[E M]|(E & M & S)]].
  - destruct (Hsim E) as [_ Hl]. settle_decide.
    autorewrite with go_len. pose proof (len_nonneg (AuthData h)).
    rewrite u8_small by (unfold is_u8; lia). lia.
  - settle_decide; rewrite M; unfold PutUint32.
    autorewrite with go_len. rewrite md5_size. lia.
  - settle_decide; rewrite M, S; unfold PutUint32.
    autorewrite with go_len. rewrite sha1_size. lia.
Qed.

Lemma auth_length_pos h : wf_auth h -> 0 < getBfdAuthenticationLength h.
Proof.
  intros [_ _ Ht Hsim]. unfold getBfdAuthenticationLength.
  destruct (supported_auth_cases _ Ht) as [E|[[E M]|(E & M & S)]]; settle_decide;
    rewrite ?M, ?S; [|lia..].
  destruct (Hsim E) as [_ Hl]. pose proof (len_nonneg (AuthData h)).
  rewrite u8_small by (unfold is_u8; lia). lia.
Qed.

(** The octets of the authentication section before the digest. *)
Definition auth_prefix (h : BfdAuthHeader) : list Z :=
  [Type_ h; getBfdAuthenticationLength h; AuthKeyID h; 0] ++ PutUint32 (SequenceNumber h).

Definition digest (buf : list Z) (h : BfdAuthHeader) : list Z :=
  if is_md5 (Type_ h) then md5 (buf ++ auth_prefix h ++ AuthData h)
  else sha1 (buf ++ auth_prefix h ++ AuthData h).

Lemma auth_section_digest buf h :
  wf_auth h -> Type_ h <> BFD_AUTH_TYPE_SIMPLE ->
  auth_section md5 sha1 buf h (getBfdAuthenticationLength h) = auth_prefix h ++ digest buf h.
Proof.
  intros [Hk Hs Ht Hsim] E. unfold auth_section, digest, auth_prefix.
  rewrite decide_True, decide_False by done.
  destruct (supported_auth_cases _ Ht) as [?|[[_ M]|(_ & M & S)]]; [done|rewrite M|rewrite M, S];
  rewrite <- !app_assoc; reflexivity.
Qed.

Lemma decode_auth_section buf h :
  wf_auth h ->
  decodeBfdAuthHeader (auth_section md5 sha1 buf h (getBfdAuthenticationLength h))
  = Ok (inr (h <| AuthData := if decide (Type_ h = BFD_AUTH_TYPE_SIMPLE)
                              then AuthData h else digest buf h |>)).
Proof.
  intros Hwf. pose proof Hwf as [Hk Hs Ht Hsim].
  destruct (decide (Type_ h = BFD_AUTH_TYPE_SIMPLE)) as [E|E].
  - destruct (Hsim E) as [Hseq Hl]. pose proof (len_nonneg (AuthData h)).
    unfold auth_section, getBfdAuthenticationLength, decodeBfdAuthHeader.
    settle_decide.
    eval_offsets. cbn -[u8 decide len].
    rewrite u8_small by (unfold is_u8; lia).
    settle_decide. unfold slice_from. autorewrite with go_len.
    rewrite (proj2 (Z.leb_le 3 _)) by lia. eval_offsets. simpl_rec. rewrite Hseq. done.
  - rewrite auth_section_digest by done.
    pose proof (auth_length_pos h Hwf) as Hpos.
    unfold decodeBfdAuthHeader, auth_prefix, slice_from. eval_offsets.
    cbn -[u8 decide len digest Z.shiftr Uint32 is_md5 is_sha1].
    settle_decide; rewrite Uint32_PutUint32 by done; autorewrite with go_len.
    rewrite (proj2 (Z.leb_le 8 _)) by (pose proof (len_nonneg (digest buf h)); lia).
    destruct (supported_auth_cases _ Ht) as [?|[[_ M]|(_ & M & S)]]; [done|rewrite M|rewrite M, S];
    cbn -[len digest decide]; rewrite drop_0, decide_False;
    try done; unfold digest; rewrite M, ?md5_size, ?sha1_size; lia.
Qed.

(** The 24 octets every packet starts with. *)
Definition fixed_part (p : BfdControlPacket) (length_ : Z) : list Z :=
  [Z.lor (u8 (Z.shiftl (Version p) 5)) (Z.land (u8 (Diagnostic p)) 0x1f)]
  ++ [Z.lor (u8 (Z.shiftl (u8 (BfdSessionState_val (State p))) 6)) (packet_flags p)]
  ++ [DetectMult p] ++ [length_]
  ++ PutUint32 (MyDiscriminator p) ++ PutUint32 (YourDiscriminator p)
  ++ PutUint32 (u32 (DesiredMinTxInterval p))
  ++ PutUint32 (u32 (RequiredMinRxInterval p))
  ++ PutUint32 (u32 (RequiredMinEchoRxInterval p)).

Lemma create_auth p h :
  encoded_auth p = Some h -> wf_auth h ->
  let b := fixed_part p (u8 (24 + getBfdAuthenticationLength h)) in
  CreateBfdControlPacket md5 sha1 p
  = b ++ auth_section md5 sha1 b h (getBfdAuthenticationLength h).
Proof.
  intros E Hwf b. unfold CreateBfdControlPacket. rewrite E.
  rewrite decide_True by (by apply auth_length_pos). done.
Qed.

Lemma create_noauth p :
  encoded_auth p = None -> CreateBfdControlPacket md5 sha1 p = fixed_part p 24.
Proof. intros E. unfold CreateBfdControlPacket. rewrite E. done. Qed.

(** Decoding the fixed part followed by any authentication section. *)
Lemma decode_fixed_part p rest :
  wf_fixed p ->
  DecodeBfdControlPacket (fixed_part p (u8 (24 + len rest)) ++ rest) =
  let packet := p <| AuthPresent := bool_decide (is_Some (encoded_auth p)) |>
                  <| AuthHeader := None |> in
  if bool_decide (is_Some (encoded_auth p)) then
    if decide (len rest > 0) then
      let! r := decodeBfdAuthHeader rest in
      match r with
      | inr h => Ok (Some (packet <| AuthHeader := Some h |>), None)
      | inl er => Ok (Some packet, Some er)
      end
    else Ok (Some packet, Some ErrTooShort)
  else Ok (Some packet, None).
Proof.
  intros [Hv Hd Hm Hy Ht Hr He]. unfold fixed_part.
  rewrite <- !app_assoc, decode_frame by auto with go.
  rewrite !u32_small by done. rewrite packet_flags_b2z.
  destruct (octet0_version (Version p) (Diagnostic p)) as [-> ->]; [done..|].
  destruct (flag_octet (State p) (Poll p) (Final p) (ControlPlaneIndependent p)
    (bool_decide (is_Some (encoded_auth p))) (Demand p) (Multipoint p))
    as (-> & -> & -> & -> & -> & -> & ->).
  done.
Qed.

Lemma wire_auth_data_spec p h :
  encoded_auth p = Some h -> wf_auth h ->
  wire_auth_data p h =
  if decide (Type_ h = BFD_AUTH_TYPE_SIMPLE) then AuthData h
  else digest (fixed_part p (u8 (24 + getBfdAuthenticationLength h))) h.
Proof.
  intros E Hwf. unfold wire_auth_data, digest. case_decide; [done|].
  rewrite (create_auth p h), auth_section_digest by done.
  rewrite app_assoc, (take_app_length' _ _ 32) by done.
  rewrite <- app_assoc. done.
Qed.

(** Without authentication the octets decode to the packet itself. *)
Lemma create_decode_noauth p :
  wf_fixed p -> encoded_auth p = None ->
  DecodeBfdControlPacket (CreateBfdControlPacket md5 sha1 p)
  = Ok (Some (p <| AuthPresent := false |> <| AuthHeader := None |>), None).
Proof.
  intros Hp E. rewrite create_noauth by done. rewrite <- (app_nil_r (fixed_part p 24)).
  change 24 with (u8 (24 + len (@nil Z))). rewrite decode_fixed_part, E by done. done.
Qed.

(** C19: for every packet whose fields fit the wire format and whose
    authentication header, when present, is of a supported type, decoding the
    encoder's octets succeeds without error and gives the packet back; the
    authentication data seen by the receiver is the password, or the digest of
    everything before it followed by the key. *)
Theorem create_decode_roundtrip p :
  wf_packet p ->
  DecodeBfdControlPacket (CreateBfdControlPacket md5 sha1 p) = Ok (Some (on_wire p), None).
Proof.
  intros [Hp Hh]. unfold on_wire. destruct (encoded_auth p) as [h|] eqn:E.
  - assert (wf_auth h) as Hwf by (by apply Hh). rewrite (create_auth p h) by done. cbv zeta.
    rewrite <- (auth_section_len (fixed_part p (u8 (24 + getBfdAuthenticationLength h))) h) at 1 by done.
    rewrite decode_fixed_part, decode_auth_section by done. rewrite auth_section_len by done.
    pose proof (auth_length_pos h Hwf).
    rewrite E, (bool_decide_eq_true_2 (is_Some (Some h))) by eauto. cbv zeta.
    rewrite (decide_True (P := getBfdAuthenticationLength h > 0)) by lia.
    rewrite wire_auth_data_spec by done. simpl_rec.
    unfold encoded_auth in E. destruct (AuthPresent p); [done|discriminate].
  - by apply create_decode_noauth.
Qed.

(** a header of a type the encoder cannot size (neither simple, MD5 nor
    SHA1) still sets the authentication flag but contributes no section, so the
    receiver's decoder reports a truncated packet. *)
Theorem create_unsupported_auth p h :
  wf_fixed p -> encoded_auth p = Some h -> supported_auth (Type_ h) = false ->
  DecodeBfdControlPacket (CreateBfdControlPacket md5 sha1 p)
  = Ok (Some (p <| AuthPresent := true |> <| AuthHeader := None |>), Some ErrTooShort).
Proof.
  intros Hp E Hu. unfold supported_auth in Hu.
  apply orb_false_elim in Hu as [[Hs Hm]%orb_false_elim Hsh].
  apply bool_decide_eq_false in Hs.
  assert (getBfdAuthenticationLength h = 0) as Hz.
  { unfold getBfdAuthenticationLength. rewrite decide_False, Hm, Hsh by done. done. }
  unfold CreateBfdControlPacket. rewrite E, Hz. settle_decide.
  change (DecodeBfdControlPacket (fixed_part p 24) = Ok (Some (p <| AuthPresent := true |>
    <| AuthHeader := None |>), Some ErrTooShort)).
  rewrite <- (app_nil_r (fixed_part p 24)). change 24 with (u8 (24 + len (@nil Z))).
  rewrite decode_fixed_part, E by done. done.
Qed.
End WireProofs.

(** ** Where the decoder panics *)

(** The authentication sections that are shorter than the octets the decoder
    reads from them. *)
Definition short_auth (a : list Z) : bool :=
  match a with
  | t :: l :: rest =>
      (0 <? l) && ((len rest <? 1) || ((is_md5 t || is_sha1 t) && (len rest <? 6)))
  | _ => true
  end.

Lemma auth_digest_read (t l k : Z) a :
  6 <= len (k :: a) -> exists sn d,
  uint32_at (t :: l :: k :: a) 4 = Ok sn /\ slice_from (t :: l :: k :: a) 8 = Ok d.
Proof.
  intros H. destruct (uint32_at_Ok (t :: l :: k :: a) 4) as [sn Hsn];
    [lia | autorewrite with go_len in *; lia |].
  exists sn, (drop 8 (t :: l :: k :: a)). split; [done|]. unfold slice_from.
  autorewrite with go_len in *. rewrite (proj2 (Z.leb_le 8 _)) by lia. done.
Qed.

Lemma auth_digest_short (t l k : Z) a :
  len (k :: a) < 6 -> slice_from (t :: l :: k :: a) 8 = Panic.
Proof.
  intros H. unfold slice_from. autorewrite with go_len in *.
  rewrite (proj2 (Z.leb_gt 8 _)) by lia. done.
Qed.

Lemma decodeBfdAuthHeader_panics a :
  is_bytes a -> decodeBfdAuthHeader a = Panic <-> short_auth a = true.
Proof.
  intros Hb. unfold decodeBfdAuthHeader, short_auth.
  eval_index.
  destruct a as [|t [|l a]]; [done..|]. cbn -[len slice_from uint32_at decide is_md5 is_sha1 Z.ltb].
  destruct (decide (0 < l)) as [Hl|Hl];
    [rewrite (proj2 (Z.ltb_lt 0 l)) by done | rewrite (proj2 (Z.ltb_ge 0 l)) by lia; done].
  destruct a as [|k a]; [done|].
  rewrite (proj2 (Z.ltb_ge (len (k :: a)) 1)) by (rewrite len_cons; pose proof (len_nonneg a); lia).
  cbn -[len slice_from uint32_at decide is_md5 is_sha1 Z.ltb]. case_decide as Ht.
  - subst t. cbn -[len slice_from]. unfold slice_from. autorewrite with go_len.
    rewrite (proj2 (Z.leb_le 3 _)) by (pose proof (len_nonneg a); lia). done.
  - destruct (Z.ltb_spec (len (k :: a)) 6).
    + pose proof (uint32_at_no_hang (t :: l :: k :: a) 4).
      destruct (is_md5 t); [|destruct (is_sha1 t); [|done]];
      destruct (uint32_at _ 4); rewrite ?auth_digest_short by done; done.
    + destruct (auth_digest_read t l k a) as (sn & d & -> & ->); [done|].
      destruct (is_md5 t), (is_sha1 t); cbn -[len decide]; repeat case_decide; done.
Qed.

Lemma decodeBfdAuthHeader_no_hang a : decodeBfdAuthHeader a <> Hang.
Proof.
  unfold decodeBfdAuthHeader.
  repeat (first [ apply bind_no_hang; [solve [auto with go] | intros ? _] | case_decide | case_match ]); done.
Qed.

(** C26: on the packets the server hands it (24 octets or more), the decoder
    panics exactly when the length octet is right, the authentication flag is
    set and the authentication section is shorter than what its type makes the
    decoder read. *)
Theorem decode_panics_iff data :
  24 <= len data -> is_bytes data ->
  DecodeBfdControlPacket data = Panic <->
  match data !! 1%nat, data !! 3%nat with
  | Some d1, Some d3 => testflag d1 0x04 = true /\ d3 = u8 (len data) /\ 24 < len data
                        /\ short_auth (drop 24 data) = true
  | _, _ => False
  end.
Proof.
  intros Hl Hb. unfold DecodeBfdControlPacket. eval_offsets.
  do 24 (destruct data as [|? data]; [unfold len in Hl; cbn in Hl; lia|]).
  apply (Forall_drop _ 24) in Hb; cbn [drop] in Hb.
  cbn -[decide len testflag Z.shiftr Z.land u8 slice_from short_auth]. unfold slice_from.
  autorewrite with go_len in *. rewrite (proj2 (Z.leb_le 24 _)) by lia.
  change (Z.to_nat 24) with 24%nat.
  cbn -[decide len testflag Z.shiftr Z.land u8 short_auth].
  case_decide; [split; [done|naive_solver]|].
  case_match; [|naive_solver].
  case_decide; [|split; [done|lia]].
  pose proof (decodeBfdAuthHeader_panics data Hb).
  pose proof (decodeBfdAuthHeader_no_hang data).
  rewrite drop_0 in *. destruct (decodeBfdAuthHeader data) as [[|]| |]; [..|done].
  1, 2: split; [discriminate | intros (_ & _ & _ & Hs); apply H2 in Hs; discriminate].
  split; [intros _; split_and!; [done | done | lia | by apply H2] | done].
Qed.

Definition crash_packet : list Z :=
  [0x20; 0x44; 3; 25; 0; 0; 0; 1; 0; 0; 0; 0; 0; 3; 208; 144; 0; 3; 208; 144; 0; 0; 0; 0; 1].

(** A 25-octet packet with the authentication flag set makes the decoder,
    and with it the receive loop, panic. *)
Theorem short_packet_crashes :
  24 <= len crash_packet /\ DecodeBfdControlPacket crash_packet = Panic.
Proof. split; [vm_compute; discriminate | reflexivity]. Qed.

(** ** The encoding is canonical *)

Lemma octet0_canonical d0 :
  is_u8 d0 ->
  Z.lor (u8 (Z.shiftl (u8 (Z.shiftr (Z.land d0 0xE0) 5)) 5)) (Z.land (u8 (Z.land d0 0x1F)) 0x1f)
  = d0.
Proof. revert d0. by_octets. Qed.

Lemma octet1_canonical d1 :
  is_u8 d1 -> testflag d1 0x04 = false ->
  Z.lor (u8 (Z.shiftl (u8 (BfdSessionState_val
                (BfdSessionState_of (Z.shiftr (Z.land d1 0xD0) 6)))) 6))
    (Z.lor (Z.lor (Z.lor (Z.lor (Z.lor (b2z (testflag d1 0x20) 0x20) (b2z (testflag d1 0x10) 0x10))
      (b2z (testflag d1 0x08) 0x08)) (b2z false 0x04))
      (b2z (testflag d1 0x02) 0x02)) (b2z (testflag d1 0x01) 0x01)) = d1.
Proof. revert d1. by_octets. Qed.

(** a 24-octet packet that decodes without error and without
    authentication is re-encoded to the same octets: nothing is lost and no two
    octet strings decode to the same packet. *)
Theorem decode_create_canonical md5 sha1 data p :
  len data = 24 -> is_bytes data ->
  DecodeBfdControlPacket data = Ok (Some p, None) -> AuthPresent p = false ->
  CreateBfdControlPacket md5 sha1 p = data.
Proof.
  intros Hl Hb. do 24 (destruct data as [|? data]; [discriminate|]).
  destruct data; [|unfold len in Hl; cbn in Hl; lia].
  unfold is_bytes in Hb. do 24 (apply Forall_cons_iff in Hb as [? Hb]).
  unfold DecodeBfdControlPacket. rewrite Hl. eval_offsets.
  cbn -[decide testflag Z.shiftr Z.land u8 Uint32]. case_decide as Hlen; [done|].
  destruct (testflag z0 4) eqn:Ha; [done|].
  intros Hdec _. injection Hdec as <-. rewrite <- Hlen.
  rewrite create_noauth by done. unfold fixed_part. rewrite packet_flags_b2z.
  unfold encoded_auth. cbn -[u8 u32 PutUint32 Z.lor Z.shiftl Z.shiftr Z.land testflag Uint32 app b2z].
  rewrite !u32_small, !PutUint32_Uint32, octet0_canonical by auto with go.
  rewrite octet1_canonical by done. done.
Qed.

(** ** Witnesses *)

(** A session-up packet authenticated with keyed MD5, and stand-ins for the
    digests of the right size. *)
Definition demo_md5 (m : list Z) : list Z := replicate 16 (u8 (len m)).
Definition demo_sha1 (m : list Z) : list Z := replicate 20 (u8 (len m)).

Definition demo_packet (t : Z) : BfdControlPacket :=
  NewBfdControlPacketDefault
    <| State := STATE_UP |> <| Poll := true |> <| AuthPresent := true |>
    <| MyDiscriminator := 7 |> <| YourDiscriminator := 9 |>
    <| AuthHeader := Some (mkBfdAuthHeader t 1 5 [115; 101; 99]) |>.

Lemma demo_fixed t : wf_fixed (demo_packet t).
Proof. split; cbn; unfold is_u32; vm_compute; split; (discriminate || reflexivity). Defined.

Lemma create_decode_roundtrip_witness :
  DecodeBfdControlPacket (CreateBfdControlPacket demo_md5 demo_sha1
    (demo_packet BFD_AUTH_TYPE_KEYED_MD5))
  = Ok (Some (on_wire demo_md5 demo_sha1 (demo_packet BFD_AUTH_TYPE_KEYED_MD5)), None).
Proof.
  apply (create_decode_roundtrip demo_md5 demo_sha1).
  - reflexivity.
  - reflexivity.
  - split; [apply demo_fixed|]. intros h E. injection E as <-.
    split; cbn; [unfold is_u8; lia | unfold is_u32; lia | reflexivity | discriminate].
Defined.

Lemma create_unsupported_auth_witness :
  DecodeBfdControlPacket (CreateBfdControlPacket demo_md5 demo_sha1 (demo_packet 9))
  = Ok (Some (demo_packet 9 <| AuthPresent := true |> <| AuthHeader := None |>), Some ErrTooShort).
Proof.
  eapply (create_unsupported_auth demo_md5 demo_sha1 (demo_packet 9));
    [apply demo_fixed | reflexivity | reflexivity].
Defined.

Lemma decode_panics_iff_witness : DecodeBfdControlPacket crash_packet = Panic.
Proof.
  apply (decode_panics_iff crash_packet).
  - vm_compute. discriminate.
  - repeat constructor; discriminate.
  - vm_compute. repeat split.
Defined.

Lemma decode_create_canonical_witness :
  CreateBfdControlPacket demo_md5 demo_sha1 NewBfdControlPacketDefault
  = [32; 64; 3; 24; 0; 0; 0; 0; 0; 0; 0; 0; 0; 3; 208; 144; 0; 3; 208; 144; 0; 0; 0; 0].
Proof.
  apply (decode_create_canonical demo_md5 demo_sha1 _ NewBfdControlPacketDefault).
  - reflexivity.
  - repeat constructor; discriminate.
  - reflexivity.
  - reflexivity.
Defined.
