(* ===== verification/BfdSession.v ===== *)
(** * A BFD session (src/l3/bfd/server/bfdSession.go)

    The state of one session ([SessionState] and [BfdSession] of the source),
    its timers, and every operation of the session: the event handler of the
    protocol's state machine, the moves between states, packet reception,
    authentication, poll sequences and the periodic transmission.  A session
    operation maps a session to the session after it, or to a panic (a timer
    or an authentication header that is still nil).  What the session sends on
    the server's notification channel is appended to [notificationCh]. *)

From Stdlib Require Import Floats.SpecFloat.
From S2P Require Import Prelude BfdPacket.

(** ** Timers

    A [*time.Timer] is nil until the client goroutine creates it; afterwards
    it is stopped or armed with a duration in milliseconds. *)
Inductive timer : Set :=
| TimerNil
| TimerStopped
| TimerArmed (ms : Z).

#[export] Instance timer_eq_dec : EqDecision timer.
Proof. solve_decision. Defined.

Definition timer_Reset (t : timer) (ms : Z) : exec timer :=
  match t with TimerNil => Panic | _ => Ok (TimerArmed ms) end.
Definition timer_Stop (t : timer) : exec timer :=
  match t with TimerNil => Panic | _ => Ok TimerStopped end.

(** ** Channels without buffer

    [None] is a nil channel, [Some n] one that [n] goroutines wait to receive
    from.  A send hands over to one of them, which then leaves its loop; with
    nobody there, and on a nil channel, the sender waits. *)
Notation chan := (option nat) (only parsing).

Definition chan_send (c : chan) : exec chan :=
  match c with Some (S n) => Ok (Some n) | _ => Hang end.

(** A goroutine reaches the [select] in which it receives. *)
Definition chan_listen (c : chan) : chan := S <$> c.

(** ** Single-precision arithmetic of [ApplyTxJitter] *)
Definition f32_of (n : Z) : spec_float := binary_normalize 24 128 n 0 false.
Definition f32_div : spec_float -> spec_float -> spec_float := SFdiv 24 128.
Definition f32_sub : spec_float -> spec_float -> spec_float := SFsub 24 128.
Definition f32_mul : spec_float -> spec_float -> spec_float := SFmul 24 128.
Definition f32_trunc (f : spec_float) : Z :=
  match f with
  | S754_finite s m e =>
      let v := if 0 <=? e then Z.pos m * 2 ^ e else Z.pos m / 2 ^ (- e) in
      if s then - v else v
  | _ => 0
  end.

(** ** State *)

Record SessionState := mkSessionState {
  IpAddr : string;
  LocalAddr : string;
  SessionId : Z;
  ParamName : string;
  Interface : string;
  InterfaceSpecific : bool;
  PerLinkSession : bool;
  LocalMacAddr : list Z;
  RemoteMacAddr : list Z;
  RegisteredProtocols : list bool;
  SessionState_ : BfdSessionState;
  RemoteSessionState : BfdSessionState;
  LocalDiscriminator : Z;
  RemoteDiscriminator : Z;
  LocalDiagType : Z;
  s_DesiredMinTxInterval : Z;
  s_RequiredMinRxInterval : Z;
  RemoteMinRxInterval : Z;
  DetectionMultiplier : Z;
  RemoteDetectionMultiplier : Z;
  DemandMode : bool;
  RemoteDemandMode : bool;
  AuthType : Z;
  AuthSeqKnown : bool;
  ReceivedAuthSeq : Z;
  SentAuthSeq : Z;
  NumTxPackets : Z;
  NumRxPackets : Z;
  ToDownCount : Z;
  ToUpCount : Z;
  UpTime : Z
}.
#[export] Instance SessionState_settable : Settable SessionState := fun s =>
  mkSessionState (IpAddr s) (LocalAddr s) (SessionId s) (ParamName s) (Interface s)
    (InterfaceSpecific s) (PerLinkSession s) (LocalMacAddr s) (RemoteMacAddr s)
    (RegisteredProtocols s) (SessionState_ s) (RemoteSessionState s)
    (LocalDiscriminator s) (RemoteDiscriminator s) (LocalDiagType s)
    (s_DesiredMinTxInterval s) (s_RequiredMinRxInterval s) (RemoteMinRxInterval s)
    (DetectionMultiplier s) (RemoteDetectionMultiplier s) (DemandMode s)
    (RemoteDemandMode s) (AuthType s) (AuthSeqKnown s) (ReceivedAuthSeq s)
    (SentAuthSeq s) (NumTxPackets s) (NumRxPackets s) (ToDownCount s) (ToUpCount s)
    (UpTime s).

Record BfddNotifyMsg := mkBfddNotifyMsg { DestIp : string; NotifiedUp : bool }.

Record BfdSession := mkBfdSession {
  state : SessionState;
  rxInterval : Z;
  sessionTimer : timer;
  txInterval : Z;
  txTimer : timer;
  txJitter : Z;
  bfdPacket : BfdControlPacket;
  bfdPacketBuf : list Z;
  ReceivedPacketCh : list BfdControlPacket;
  SessionStopClientCh : chan;
  SessionStopServerCh : chan;
  pollSequence : bool;
  pollSequenceFinal : bool;
  pollChanged : bool;
  authEnabled : bool;
  authType : Z;
  authSeqNum : Z;
  authKeyId : Z;
  authData : list Z;
  useDedicatedMac : bool;
  paramChanged : bool;
  remoteParamChanged : bool;
  stateChanged : bool;
  isClientActive : bool;
  movedToDownState : bool;
  notifiedState : bool;
  notificationCh : list BfddNotifyMsg
}.
#[export] Instance BfdSession_settable : Settable BfdSession := fun s =>
  mkBfdSession (state s) (rxInterval s) (sessionTimer s) (txInterval s) (txTimer s)
    (txJitter s) (bfdPacket s) (bfdPacketBuf s) (ReceivedPacketCh s)
    (SessionStopClientCh s) (SessionStopServerCh s) (pollSequence s)
    (pollSequenceFinal s) (pollChanged s) (authEnabled s) (authType s) (authSeqNum s)
    (authKeyId s) (authData s) (useDedicatedMac s) (paramChanged s)
    (remoteParamChanged s) (stateChanged s) (isClientActive s) (movedToDownState s)
    (notifiedState s) (notificationCh s).

(** Assignment to a field of [session.state]. *)
Definition set_state (f : SessionState -> SessionState) (s : BfdSession) : BfdSession :=
  s <| state ::= f |>.
Arguments set_state f s /.

Definition session_state (s : BfdSession) : BfdSessionState := SessionState_ (state s).
Definition remote_state (s : BfdSession) : BfdSessionState := RemoteSessionState (state s).

(** ** Small operations *)

Definition IsSessionActive (s : BfdSession) : bool :=
  if isClientActive s then true else false.

Definition GetBfdSessionNotification (s : BfdSession) : bool :=
  bool_decide (SessionState_ (state s) = STATE_UP
               \/ SessionState_ (state s) = STATE_ADMIN_DOWN
               \/ RemoteSessionState (state s) = STATE_ADMIN_DOWN).

Definition SendBfdNotification (s : BfdSession) : BfdSession :=
  let bfdState := GetBfdSessionNotification s in
  if decide (bfdState <> notifiedState s) then
    s <| notifiedState := bfdState |>
      <| notificationCh ::= fun c => c ++ [mkBfddNotifyMsg (IpAddr (state s)) bfdState] |>
  else s.

Definition ApplyTxJitter (s : BfdSession) : Z :=
  i32 (f32_trunc (f32_mul (f32_of (txInterval s))
        (f32_sub (f32_of 1) (f32_div (f32_of (txJitter s)) (f32_of 100))))).

Definition NeedBfdPacketUpdate (s : BfdSession) : bool :=
  paramChanged s || remoteParamChanged s || pollChanged s || stateChanged s.

Definition InitiatePollSequence (s : BfdSession) : BfdSession :=
  if negb (pollSequence s)
  then s <| pollSequence := true |> <| pollChanged := true |>
  else s.

Definition ResetLocalSessionParams (s : BfdSession) : BfdSession :=
  s <| state ::= fun st => st <| SessionState_ := STATE_DOWN |> <| NumRxPackets := 0 |>
         <| NumTxPackets := 0 |> <| ToUpCount := 0 |> <| ToDownCount := 0 |> |>.

Definition ResetRemoteSessionParams (s : BfdSession) : BfdSession :=
  s <| state ::= fun st => st <| RemoteDiscriminator := 0 |>
         <| RemoteSessionState := STATE_DOWN |> |>
    <| remoteParamChanged := true |>.

(** [for i := BfdSessionOwner(1); i < MAX_APPS; i++]: owner 0 is not counted.
    The slice has [MAX_APPS] entries; a shorter one panics. *)
Definition MAX_APPS : Z := 5.

Fixpoint any_registered (l : list bool) (i : Z) (n : nat) : exec bool :=
  match n with
  | O => Ok false
  | S n => let! b := index l i in
           if (b : bool) then Ok true else any_registered l (i + 1) n
  end.

Definition CheckIfAnyProtocolRegistered (s : BfdSession) : exec bool :=
  any_registered (RegisteredProtocols (state s)) 1 (Z.to_nat (MAX_APPS - 1)).

(** ** Moves of the state machine *)

Section Moves.
(** The reading of [time.Now()] during the step. *)
Context (now : Z).

Definition LocalAdminDown (s : BfdSession) : exec BfdSession :=
  let s := s <| state ::= fun st => st <| SessionState_ := STATE_ADMIN_DOWN |>
                                       <| LocalDiagType := DIAG_ADMIN_DOWN |> |>
             <| stateChanged := true |> in
  let s := SendBfdNotification s in
  let s := s <| txInterval := Z.quot STARTUP_TX_INTERVAL 1000 |> in
  let! t := timer_Reset (txTimer s) 0 in
  let s := s <| txTimer := t |>
             <| rxInterval := Z.quot (i32 (STARTUP_RX_INTERVAL * DetectionMultiplier (state s))) 1000 |> in
  let! t := timer_Stop (sessionTimer s) in
  Ok (s <| sessionTimer := t |>).

Definition RemoteAdminDown (s : BfdSession) : exec BfdSession :=
  let s := s <| state ::= fun st => st <| RemoteSessionState := STATE_ADMIN_DOWN |>
                                       <| LocalDiagType := DIAG_NEIGHBOR_SIGNAL_DOWN |> |> in
  let s := SendBfdNotification s in
  let s := s <| txInterval := Z.quot STARTUP_TX_INTERVAL 1000 |> in
  let! t := timer_Reset (txTimer s) 0 in
  let s := s <| txTimer := t |>
             <| rxInterval := Z.quot (i32 (STARTUP_RX_INTERVAL * DetectionMultiplier (state s))) 1000 |> in
  let! t := timer_Stop (sessionTimer s) in
  Ok (s <| sessionTimer := t |>).

Definition MoveToDownState (s : BfdSession) : exec BfdSession :=
  let s := s <| state ::= fun st => st <| SessionState_ := STATE_DOWN |>
                                       <| ToDownCount ::= fun c => u32 (c + 1) |> |>
             <| movedToDownState := true |> <| useDedicatedMac := true |>
             <| stateChanged := true |> in
  let s := if decide (authType s = BFD_AUTH_TYPE_KEYED_MD5 \/ authType s = BFD_AUTH_TYPE_KEYED_SHA1)
           then s <| authSeqNum ::= fun n => u32 (n + 1) |> else s in
  let s := SendBfdNotification s in
  let s := s <| txInterval := Z.quot STARTUP_TX_INTERVAL 1000 |> in
  let! t := timer_Reset (txTimer s) (txInterval s) in
  let s := s <| txTimer := t |>
             <| rxInterval := Z.quot (i32 (STARTUP_RX_INTERVAL * DetectionMultiplier (state s))) 1000 |> in
  let! t := timer_Reset (sessionTimer s) (rxInterval s) in
  Ok (s <| sessionTimer := t |>).

Definition MoveToInitState (s : BfdSession) : BfdSession :=
  s <| state ::= fun st => st <| SessionState_ := STATE_INIT |> |>
    <| stateChanged := true |> <| useDedicatedMac := true |>
    <| movedToDownState := false |>.

Definition MoveToUpState (s : BfdSession) : BfdSession :=
  let s := s <| state ::= fun st => st <| SessionState_ := STATE_UP |> <| UpTime := now |>
                                       <| ToUpCount ::= fun c => u32 (c + 1) |> |>
             <| stateChanged := true |> <| movedToDownState := false |>
             <| state ::= fun st => st <| LocalDiagType := DIAG_NONE |> |> in
  SendBfdNotification s.

(** [EventHandler]; the boolean is false when it returns the error "Session
    is not active". *)
Definition EventHandler (event : BfdSessionEvent) (s : BfdSession) : exec (bool * BfdSession) :=
  if negb (IsSessionActive s) then Ok (false, s) else
  let! s :=
    match SessionState_ (state s) with
    | STATE_ADMIN_DOWN => Ok s
    | STATE_DOWN =>
        match event with
        | REMOTE_DOWN => Ok (MoveToInitState s)
        | REMOTE_INIT => Ok (MoveToUpState s)
        | ADMIN_UP => MoveToDownState s
        | ADMIN_DOWN => LocalAdminDown s
        | REMOTE_ADMIN_DOWN => RemoteAdminDown s
        | TIMEOUT | REMOTE_UP => Ok s
        end
    | STATE_INIT =>
        match event with
        | REMOTE_INIT | REMOTE_UP => Ok (MoveToUpState s)
        | TIMEOUT => MoveToDownState s
        | ADMIN_DOWN => LocalAdminDown s
        | REMOTE_ADMIN_DOWN => RemoteAdminDown s
        | REMOTE_DOWN | ADMIN_UP => Ok s
        end
    | STATE_UP =>
        match event with
        | REMOTE_DOWN | TIMEOUT => MoveToDownState s
        | ADMIN_DOWN => LocalAdminDown s
        | REMOTE_ADMIN_DOWN => RemoteAdminDown s
        | REMOTE_INIT | REMOTE_UP | ADMIN_UP => Ok s
        end
    end in
  Ok (true, s).

(** The callers drop the error. *)
Definition handle_event (event : BfdSessionEvent) (s : BfdSession) : exec BfdSession :=
  let! (_, s) := EventHandler event s in Ok s.

(** ** Reception *)

Definition CanProcessBfdControlPacket (p : BfdControlPacket) : bool :=
  let canProcess := true in
  let canProcess := if decide (Version p <> DEFAULT_BFD_VERSION) then false else canProcess in
  let canProcess := if decide (DetectMult p = 0) then false else canProcess in
  let canProcess := if Multipoint p then false else canProcess in
  if decide (MyDiscriminator p = 0) then false else canProcess.

Section Digests.
Context (md5 sha1 : list Z -> list Z).

(** [binary.Write(&binBuf, binary.BigEndian, copiedPacket)]: the packet has
    fields of type [int] and a pointer, which have no fixed size, so the call
    returns an error and writes nothing. *)
Definition binary_Write_packet (p : BfdControlPacket) : list Z := [].

Definition AuthenticateReceivedControlPacket (p : BfdControlPacket) (s : BfdSession) : exec bool :=
  if negb (AuthPresent p) then Ok true else
  let! h := of_option (AuthHeader p) in
  let keyId := AuthKeyID h in
  let seqNum := SequenceNumber h in
  if decide (Type_ h = authType s) then
    if decide (Type_ h = BFD_AUTH_TYPE_SIMPLE) then
      Ok (bool_decide (keyId = authKeyId s /\ AuthData h = authData s))
    else if decide (seqNum >= ReceivedAuthSeq (state s) /\ keyId = authKeyId s) then
      let copiedPacket := p <| AuthHeader := Some (h <| AuthData := authData s |>) |> in
      let binBuf := binary_Write_packet copiedPacket in
      if is_md5 (Type_ h) then Ok (bool_decide (AuthData h = md5 binBuf))
      else if is_sha1 (Type_ h) then Ok (bool_decide (AuthData h = sha1 binBuf))
      else Ok false
    else Ok false
  else Ok false.

Definition CheckAnyRemoteParamChanged (p : BfdControlPacket) (s : BfdSession) : BfdSession :=
  let s := if decide (RemoteSessionState (state s) <> State p
                      \/ RemoteDiscriminator (state s) <> MyDiscriminator p
                      \/ RemoteMinRxInterval (state s) <> i32 (RequiredMinRxInterval p))
           then s <| remoteParamChanged := true |> else s in
  s <| state ::= fun st => st <| RemoteSessionState := State p |>
         <| RemoteDiscriminator := MyDiscriminator p |>
         <| RemoteMinRxInterval := i32 (RequiredMinRxInterval p) |>
         <| RemoteDetectionMultiplier := DetectMult p |> |>.

Definition RemoteChangedDemandMode (p : BfdControlPacket) (s : BfdSession) : exec BfdSession :=
  let wasDemandMode := RemoteDemandMode (state s) in
  let s := s <| state ::= fun st => st <| RemoteDemandMode := Demand p |> |> in
  let isDemandMode := RemoteDemandMode (state s) in
  let! s := if isDemandMode
            then let! t := timer_Stop (txTimer s) in Ok (s <| txTimer := t |>)
            else Ok s in
  if wasDemandMode && negb isDemandMode
  then let! t := timer_Reset (txTimer s) (ApplyTxJitter s) in Ok (s <| txTimer := t |>)
  else Ok s.

Definition ProcessPollSequence (p : BfdControlPacket) (s : BfdSession) : BfdSession :=
  if decide (SessionState_ (state s) <> STATE_ADMIN_DOWN) then
    let s := if Poll p then s <| pollSequenceFinal := true |> <| pollChanged := true |> else s in
    if Final p then s <| pollSequence := false |> <| pollChanged := true |> else s
  else s.

(** The detection time a received packet sets, in milliseconds. *)
Definition received_rxInterval (p : BfdControlPacket) (s : BfdSession) : Z :=
  if decide (SessionState_ (state s) = STATE_UP /\ RemoteSessionState (state s) = STATE_UP)
  then Z.quot (i32 (i32 (DesiredMinTxInterval p) * i32 (DetectMult p))) 1000
  else Z.quot (i32 (STARTUP_RX_INTERVAL * i32 (DetectMult p))) 1000.

(** The event the remote state raises, with the assignments of its case. *)
Definition remote_event (s : BfdSession) : exec (BfdSessionEvent * BfdSession) :=
  match RemoteSessionState (state s) with
  | STATE_DOWN =>
      Ok (REMOTE_DOWN,
          if decide (SessionState_ (state s) <> STATE_DOWN)
          then s <| state ::= fun st => st <| LocalDiagType := DIAG_NEIGHBOR_SIGNAL_DOWN |> |>
          else s)
  | STATE_INIT => Ok (REMOTE_INIT, s)
  | STATE_UP =>
      if decide (SessionState_ (state s) = STATE_UP
                 /\ txInterval s <> Z.quot (s_DesiredMinTxInterval (state s)) 1000) then
        let s := s <| txInterval := Z.quot (s_DesiredMinTxInterval (state s)) 1000 |> in
        let! t := timer_Reset (txTimer s) 0 in
        Ok (REMOTE_UP, s <| txTimer := t |>)
      else Ok (REMOTE_UP, s)
  | STATE_ADMIN_DOWN => Ok (REMOTE_ADMIN_DOWN, s)
  end.

Definition ProcessBfdPacket (p : BfdControlPacket) (s : BfdSession) : exec BfdSession :=
  let! authenticated := AuthenticateReceivedControlPacket p s in
  if negb authenticated then Ok s else
  if negb (CanProcessBfdControlPacket p) then Ok s else
  let s := s <| rxInterval := received_rxInterval p s |> in
  let s := CheckAnyRemoteParamChanged p s in
  let! s := RemoteChangedDemandMode p s in
  let s := ProcessPollSequence p s in
  let! s := if decide (rxInterval s = 0 \/ SessionState_ (state s) = STATE_ADMIN_DOWN
                       \/ RemoteSessionState (state s) = STATE_ADMIN_DOWN)
            then let! t := timer_Stop (sessionTimer s) in Ok (s <| sessionTimer := t |>)
            else Ok s in
  let! (event, s) := remote_event s in
  handle_event event s.

(** One turn of [StartSessionServer]: the next packet of the channel. *)
Definition StartSessionServer_step (s : BfdSession) : exec BfdSession :=
  match ReceivedPacketCh s with
  | [] => Ok s
  | p :: rest =>
      let s := s <| ReceivedPacketCh := rest |>
                 <| state ::= fun st => st <| NumRxPackets ::= fun n => u32 (n + 1) |> |> in
      ProcessBfdPacket p s
  end.

(** ** Transmission *)

(** The assignments under [SessionState == UP && RemoteSessionState == UP]. *)
Definition update_up_packet (s : BfdSession) : exec BfdSession :=
  let s := if decide (DesiredMinTxInterval (bfdPacket s) = STARTUP_TX_INTERVAL
                      \/ RequiredMinRxInterval (bfdPacket s) = STARTUP_RX_INTERVAL)
           then InitiatePollSequence
                  (s <| bfdPacket ::= fun p =>
                          p <| DesiredMinTxInterval := s_DesiredMinTxInterval (state s) |>
                            <| RequiredMinRxInterval := s_RequiredMinRxInterval (state s) |> |>)
           else s in
  let wasDemand := Demand (bfdPacket s) in
  let s := s <| bfdPacket ::= fun p => p <| Demand := DemandMode (state s) |> |> in
  let isDemand := Demand (bfdPacket s) in
  let! s := if negb wasDemand && isDemand
            then let! t := timer_Stop (sessionTimer s) in Ok (s <| sessionTimer := t |>)
            else Ok s in
  if wasDemand && negb isDemand
  then let! t := timer_Reset (sessionTimer s) (rxInterval s) in Ok (s <| sessionTimer := t |>)
  else Ok s.

(** The authentication part: [AuthHeader] must not be nil. *)
Definition update_auth (s : BfdSession) : exec BfdSession :=
  if authEnabled s then
    let s := s <| bfdPacket ::= fun p => p <| AuthPresent := true |> |> in
    let! h := of_option (AuthHeader (bfdPacket s)) in
    let h := h <| Type_ := authType s |> in
    let h := if decide (authType s <> BFD_AUTH_TYPE_SIMPLE)
             then h <| SequenceNumber := authSeqNum s |> else h in
    let s := if decide (authType s = BFD_AUTH_TYPE_METICULOUS_MD5
                        \/ authType s = BFD_AUTH_TYPE_METICULOUS_SHA1)
             then s <| authSeqNum ::= fun n => u32 (n + 1) |> else s in
    let h := h <| AuthKeyID := u8 (authKeyId s) |> <| AuthData := authData s |> in
    Ok (s <| bfdPacket ::= fun p => p <| AuthHeader := Some h |> |>)
  else Ok (s <| bfdPacket ::= fun p => p <| AuthPresent := false |> |>).

Definition UpdateBfdSessionControlPacket (s : BfdSession) : exec BfdSession :=
  let s := s <| bfdPacket ::= fun p =>
      p <| Diagnostic := LocalDiagType (state s) |>
        <| State := SessionState_ (state s) |>
        <| DetectMult := u8 (DetectionMultiplier (state s)) |>
        <| MyDiscriminator := LocalDiscriminator (state s) |>
        <| YourDiscriminator := RemoteDiscriminator (state s) |> |> in
  let! s := if decide (SessionState_ (state s) = STATE_UP /\ RemoteSessionState (state s) = STATE_UP)
            then update_up_packet s
            else Ok (s <| bfdPacket ::= fun p =>
                            p <| DesiredMinTxInterval := STARTUP_TX_INTERVAL |>
                              <| RequiredMinRxInterval := STARTUP_RX_INTERVAL |> |>) in
  let s := s <| bfdPacket ::= fun p => p <| Poll := pollSequence s |> |>
             <| pollSequence := false |> in
  let s := s <| bfdPacket ::= fun p => p <| Final := pollSequenceFinal s |> |>
             <| pollSequenceFinal := false |> in
  let! s := update_auth s in
  Ok (s <| pollChanged := false |> <| paramChanged := false |>
        <| stateChanged := false |> <| remoteParamChanged := false |>).

(** Rebuild the packet and its octets. *)
Definition rebuild_packet (s : BfdSession) : exec BfdSession :=
  let! s := UpdateBfdSessionControlPacket s in
  Ok (s <| bfdPacketBuf := CreateBfdControlPacket md5 sha1 (bfdPacket s) |>).

(** [SendPeriodicControlPackets]: the octets handed to the connection and the
    session afterwards; [written] is whether the connection accepted them. *)
Definition SendPeriodicControlPackets (written : bool) (s : BfdSession)
    : exec (list Z * BfdSession) :=
  let packetUpdated := NeedBfdPacketUpdate s in
  let! s := if packetUpdated then rebuild_packet s else Ok s in
  let sent := bfdPacketBuf s in
  let s := if written
           then s <| state ::= fun st => st <| NumTxPackets ::= fun n => u32 (n + 1) |> |>
           else s in
  let! s := if packetUpdated then rebuild_packet s else Ok s in
  let s := if decide (SessionState_ (state s) = STATE_UP \/ RemoteSessionState (state s) = STATE_UP)
           then s <| txInterval := Z.quot (s_DesiredMinTxInterval (state s)) 1000 |> else s in
  let! t := timer_Reset (txTimer s) (ApplyTxJitter s) in
  Ok (sent, s <| txTimer := t |>).

End Digests.

(** ** Timeouts and administration *)

Definition HandleSessionTimeout (s : BfdSession) : exec BfdSession :=
  let s := if movedToDownState s
           then ResetRemoteSessionParams s <| movedToDownState := false |> else s in
  let s := s <| state ::= fun st => st <| LocalDiagType := DIAG_TIME_EXPIRED |> |> in
  let! s := handle_event TIMEOUT s in
  let! t := timer_Reset (sessionTimer s) (rxInterval s) in
  Ok (s <| sessionTimer := t |>).

Definition StopBfdSession (s : BfdSession) : exec BfdSession :=
  let! s := handle_event ADMIN_DOWN s in
  Ok (s <| state ::= fun st => st <| LocalDiagType := DIAG_ADMIN_DOWN |> |>).

Definition StartBfdSession (s : BfdSession) : exec BfdSession :=
  let! t := timer_Reset (sessionTimer s) (rxInterval s) in
  let s := s <| sessionTimer := t |> in
  let! t := timer_Reset (txTimer s) (ApplyTxJitter s) in
  let s := s <| txTimer := t |>
             <| state ::= fun st => st <| SessionState_ := STATE_DOWN |> |> in
  handle_event ADMIN_UP s.

End Moves.

(** [StartSessionClient]: [dialled] is whether the addresses resolve and the
    connection opens; the boolean result tells whether the session id was sent
    to [FailedSessionClientCh]. *)
Definition StartSessionClient (dialled : bool) (s : BfdSession) : bool * BfdSession :=
  if dialled then
    (false, s <| txTimer := TimerArmed (txInterval s) |>
              <| sessionTimer := TimerArmed (rxInterval s) |>
              <| isClientActive := true |> <| SessionStopClientCh ::= chan_listen |>)
  else (true, s).

(** The deferred calls when the client goroutine receives a stop. *)
Definition StartSessionClient_stop (s : BfdSession) : exec BfdSession :=
  let! t := timer_Stop (sessionTimer s) in
  let s := s <| sessionTimer := t |> in
  let! t := timer_Stop (txTimer s) in
  Ok (s <| txTimer := t |>).
