(* ===== verification/BfdSessionProofs.v ===== *)
(** * Properties of a BFD session

    The theorems about the operations of [BfdSession]: the event handler
    implements the state machine drawn in its comment, the operations of a
    started session never panic and announce alternating states, and what is
    sent is what the peer decodes.  [view] is the part of a session the other
    components see; the lemmas describe every operation by its effect on the
    view and by the fields it leaves alone. *)

From S2P Require Import Prelude BfdPacket BfdSession.

(** ** The state machine the comment of [EventHandler] draws

    [fsm_next] is the diagram of the source with the two administrative
    events; [None] means that the event causes no action. *)
Inductive fsm_action : Set := ToDown | ToInit | ToUp | LocalAdmin | RemoteAdmin.

#[export] Instance fsm_action_eq_dec : EqDecision fsm_action.
Proof. solve_decision. Defined.

Definition fsm_next (st : BfdSessionState) (e : BfdSessionEvent) : option fsm_action :=
  match st, e with
  | STATE_ADMIN_DOWN, _ => None
  | _, ADMIN_DOWN => Some LocalAdmin
  | _, REMOTE_ADMIN_DOWN => Some RemoteAdmin
  | STATE_DOWN, REMOTE_DOWN => Some ToInit
  | STATE_DOWN, REMOTE_INIT => Some ToUp
  | STATE_DOWN, ADMIN_UP => Some ToDown
  | STATE_INIT, (REMOTE_INIT | REMOTE_UP) => Some ToUp
  | STATE_INIT, TIMEOUT => Some ToDown
  | STATE_UP, (REMOTE_DOWN | TIMEOUT) => Some ToDown
  | _, _ => None
  end.

(** The part of a session other components see: both states, the transition
    counters and what was announced to the clients of BFD. *)
Record view := mkView {
  v_local : BfdSessionState; v_remote : BfdSessionState;
  v_diag : Z; v_ups : Z; v_downs : Z;
  v_notified : bool; v_sent : list bool
}.
#[export] Instance view_settable : Settable view := fun v =>
  mkView (v_local v) (v_remote v) (v_diag v) (v_ups v) (v_downs v) (v_notified v) (v_sent v).

Definition view_of (s : BfdSession) : view :=
  mkView (session_state s) (remote_state s) (LocalDiagType (state s)) (ToUpCount (state s))
    (ToDownCount (state s)) (notifiedState s) (NotifiedUp <$> notificationCh s).

(** The path to the neighbour is announced as usable while the session is up
    or administratively down at either end. *)
Definition usable (v : view) : bool :=
  match v_local v, v_remote v with
  | (STATE_UP | STATE_ADMIN_DOWN), _ | _, STATE_ADMIN_DOWN => true
  | _, _ => false
  end.

Definition announce (v : view) : view :=
  if bool_decide (usable v = v_notified v) then v
  else v <| v_notified := usable v |> <| v_sent ::= fun l => l ++ [usable v] |>.

Definition view_act (a : fsm_action) (v : view) : view :=
  match a with
  | ToDown => announce (v <| v_local := STATE_DOWN |> <| v_downs ::= fun c => u32 (c + 1) |>)
  | ToInit => v <| v_local := STATE_INIT |>
  | ToUp => announce (v <| v_local := STATE_UP |> <| v_ups ::= fun c => u32 (c + 1) |>
                        <| v_diag := DIAG_NONE |>)
  | LocalAdmin => announce (v <| v_local := STATE_ADMIN_DOWN |> <| v_diag := DIAG_ADMIN_DOWN |>)
  | RemoteAdmin => announce (v <| v_remote := STATE_ADMIN_DOWN |>
                               <| v_diag := DIAG_NEIGHBOR_SIGNAL_DOWN |>)
  end.

Definition view_event (e : BfdSessionEvent) (v : view) : view :=
  from_option (fun a => view_act a v) v (fsm_next (v_local v) e).

Definition live (s : BfdSession) : Prop := txTimer s <> TimerNil /\ sessionTimer s <> TimerNil.

Lemma GetBfdSessionNotification_usable s : GetBfdSessionNotification s = usable (view_of s).
Proof.
  unfold GetBfdSessionNotification, usable, view_of, session_state, remote_state. cbn.
  case_bool_decide; destruct (SessionState_ _), (RemoteSessionState _); naive_solver.
Qed.

Lemma view_SendBfdNotification s : view_of (SendBfdNotification s) = announce (view_of s).
Proof.
  unfold SendBfdNotification, announce. rewrite GetBfdSessionNotification_usable.
  change (v_notified (view_of s)) with (notifiedState s).
  case_decide; case_bool_decide; try done.
  unfold view_of. simpl_rec. rewrite fmap_app. done.
Qed.

(** [SendBfdNotification] touches nothing but the notifications. *)
Lemma SendBfdNotification_frame s :
  let s' := SendBfdNotification s in
  state s' = state s /\ txTimer s' = txTimer s /\ sessionTimer s' = sessionTimer s
  /\ bfdPacket s' = bfdPacket s /\ authEnabled s' = authEnabled s
  /\ isClientActive s' = isClientActive s /\ ReceivedPacketCh s' = ReceivedPacketCh s
  /\ rxInterval s' = rxInterval s /\ txInterval s' = txInterval s
  /\ authType s' = authType s /\ stateChanged s' = stateChanged s
  /\ movedToDownState s' = movedToDownState s.
Proof. unfold SendBfdNotification. case_decide; simpl_rec; done. Qed.

Lemma timer_Reset_live t ms : t <> TimerNil -> timer_Reset t ms = Ok (TimerArmed ms).
Proof. by destruct t. Qed.
Lemma timer_Stop_live t : t <> TimerNil -> timer_Stop t = Ok TimerStopped.
Proof. by destruct t. Qed.

(** The concrete move of an action. *)
Definition act (now : Z) (a : fsm_action) (s : BfdSession) : exec BfdSession :=
  match a with
  | ToDown => MoveToDownState s
  | ToInit => Ok (MoveToInitState s)
  | ToUp => Ok (MoveToUpState now s)
  | LocalAdmin => LocalAdminDown s
  | RemoteAdmin => RemoteAdminDown s
  end.

Lemma EventHandler_table now e s :
  isClientActive s = true ->
  EventHandler now e s =
  let! s' := from_option (fun a => act now a s) (Ok s) (fsm_next (session_state s) e) in
  Ok (true, s').
Proof.
  intros Ha. unfold EventHandler, IsSessionActive, session_state. rewrite Ha. cbn [negb].
  destruct (SessionState_ (state s)), e; cbn [fsm_next from_option act]; reflexivity.
Qed.

(** What no move of the state machine touches. *)
Record same_config (s s' : BfdSession) : Prop := {
  sc_packet : bfdPacket s' = bfdPacket s;
  sc_auth : authEnabled s' = authEnabled s;
  sc_active : isClientActive s' = isClientActive s;
  sc_queue : ReceivedPacketCh s' = ReceivedPacketCh s;
  sc_poll : pollSequence s' = pollSequence s /\ pollSequenceFinal s' = pollSequenceFinal s;
  sc_pollchg : pollChanged s' = pollChanged s;
  sc_ip : IpAddr (state s') = IpAddr (state s);
  sc_id : SessionId (state s') = SessionId (state s);
  sc_link : PerLinkSession (state s') = PerLinkSession (state s);
  sc_stops : SessionStopClientCh s' = SessionStopClientCh s /\ SessionStopServerCh s' = SessionStopServerCh s;
  sc_name : ParamName (state s') = ParamName (state s);
  sc_my : LocalDiscriminator (state s') = LocalDiscriminator (state s);
  sc_your : RemoteDiscriminator (state s') = RemoteDiscriminator (state s);
  sc_mult : DetectionMultiplier (state s') = DetectionMultiplier (state s);
  sc_tx : s_DesiredMinTxInterval (state s') = s_DesiredMinTxInterval (state s);
  sc_rx : s_RequiredMinRxInterval (state s') = s_RequiredMinRxInterval (state s);
  sc_apps : RegisteredProtocols (state s') = RegisteredProtocols (state s);
  sc_demand : RemoteDemandMode (state s') = RemoteDemandMode (state s);
  sc_changed : stateChanged s = true -> stateChanged s' = true;
  sc_remote_changed : remoteParamChanged s' = remoteParamChanged s
}.

#[export] Instance same_config_refl : Reflexive same_config.
Proof. by constructor. Qed.

Lemma SendBfdNotification_same s : same_config s (SendBfdNotification s).
Proof. unfold SendBfdNotification. case_decide; by constructor. Qed.

(** From here on its effect is known only through these lemmas. *)
#[local] Opaque SendBfdNotification.

Lemma same_config_trans s1 s2 s3 : same_config s1 s2 -> same_config s2 s3 -> same_config s1 s3.
Proof. intros [] []. constructor; try congruence; [naive_solver congruence | naive_solver congruence | auto]. Qed.

(** [t] is [s] after assignments that touch neither the configuration nor the
    timers. *)
Definition adjusted (s t : BfdSession) : Prop :=
  same_config s t /\ txTimer t = txTimer s /\ sessionTimer t = sessionTimer s.

Lemma notify_spec s t v :
  live s -> adjusted s t -> view_of t = v ->
  let n := SendBfdNotification t in live n /\ same_config s n /\ view_of n = announce v
  /\ (stateChanged t = true -> stateChanged n = true).
Proof.
  intros [Ht Hr] (Hc & Et & Er) <- n.
  destruct (SendBfdNotification_frame t) as (_ & Ft & Fr & _).
  split_and!; [| | apply view_SendBfdNotification | apply SendBfdNotification_same].
  - unfold live, n. by rewrite Ft, Fr, Et, Er.
  - eapply same_config_trans; [done | apply SendBfdNotification_same].
Qed.

Lemma bind_Reset {A} t ms (k : timer -> exec A) :
  t <> TimerNil -> exec_bind (timer_Reset t ms) k = k (TimerArmed ms).
Proof. by destruct t. Qed.
Lemma bind_Stop {A} t (k : timer -> exec A) :
  t <> TimerNil -> exec_bind (timer_Stop t) k = k TimerStopped.
Proof. by destruct t. Qed.

(** Run the timer operations of a live session. *)
Ltac run_timers Ht Hr :=
  repeat (first [ rewrite bind_Reset; [|first [exact Ht | exact Hr | done]]
                | rewrite bind_Stop; [|first [exact Ht | exact Hr | done]] ];
          cbv beta zeta).

(** How the moves end: transmission and detection fall back to the start-up
    rates, with the detection timer stopped or restarted. *)
Definition startup_rates (restart : bool) (s : BfdSession) : exec BfdSession :=
  let s := s <| txInterval := Z.quot STARTUP_TX_INTERVAL 1000 |> in
  let! t := timer_Reset (txTimer s) (if restart then txInterval s else 0) in
  let s := s <| txTimer := t |>
             <| rxInterval := Z.quot (i32 (STARTUP_RX_INTERVAL * DetectionMultiplier (state s))) 1000 |> in
  let! t := if restart then timer_Reset (sessionTimer s) (rxInterval s)
            else timer_Stop (sessionTimer s) in
  Ok (s <| sessionTimer := t |>).

Definition down_fields (s : BfdSession) : BfdSession :=
  let s := s <| state ::= fun st => st <| SessionState_ := STATE_DOWN |>
                                       <| ToDownCount ::= fun c => u32 (c + 1) |> |>
             <| movedToDownState := true |> <| useDedicatedMac := true |>
             <| stateChanged := true |> in
  if decide (authType s = BFD_AUTH_TYPE_KEYED_MD5 \/ authType s = BFD_AUTH_TYPE_KEYED_SHA1)
  then s <| authSeqNum ::= fun n => u32 (n + 1) |> else s.

Lemma MoveToDownState_eq s :
  MoveToDownState s = startup_rates true (SendBfdNotification (down_fields s)).
Proof. unfold MoveToDownState, startup_rates, down_fields. reflexivity. Qed.

Lemma LocalAdminDown_eq s :
  LocalAdminDown s = startup_rates false (SendBfdNotification
    (s <| state ::= fun st => st <| SessionState_ := STATE_ADMIN_DOWN |>
                                 <| LocalDiagType := DIAG_ADMIN_DOWN |> |>
       <| stateChanged := true |>)).
Proof. unfold LocalAdminDown, startup_rates. reflexivity. Qed.

Lemma RemoteAdminDown_eq s :
  RemoteAdminDown s = startup_rates false (SendBfdNotification
    (s <| state ::= fun st => st <| RemoteSessionState := STATE_ADMIN_DOWN |>
                                 <| LocalDiagType := DIAG_NEIGHBOR_SIGNAL_DOWN |> |>)).
Proof. unfold RemoteAdminDown, startup_rates. reflexivity. Qed.

Lemma down_fields_spec s :
  adjusted s (down_fields s)
  /\ view_of (down_fields s) = (view_of s) <| v_local := STATE_DOWN |>
                                 <| v_downs ::= fun c => u32 (c + 1) |>.
Proof. unfold down_fields. case_decide; (split; [split; [by constructor | done] | reflexivity]). Qed.

Lemma startup_rates_spec restart s :
  live s -> exists s', startup_rates restart s = Ok s' /\ live s' /\ same_config s s'
  /\ view_of s' = view_of s.
Proof.
  intros [Ht Hr]. unfold startup_rates. destruct restart; run_timers Ht Hr;
  (eexists; split; [reflexivity|]; split; [by split|]; split; [by constructor | reflexivity]).
Qed.

Lemma notify_startup restart s t v :
  live s -> adjusted s t -> view_of t = v ->
  exists s', startup_rates restart (SendBfdNotification t) = Ok s' /\ live s'
  /\ same_config s s' /\ view_of s' = announce v /\ (stateChanged t = true -> stateChanged s' = true).
Proof.
  intros Hl Ha Hv. destruct (notify_spec s t v Hl Ha Hv) as (Hn & Hc & Hvn & Hs).
  destruct (startup_rates_spec restart _ Hn) as (s' & E & ? & S & Vs). exists s'.
  split_and!; [done | done | by eapply same_config_trans | by rewrite Vs |].
  intros Ht. apply S, Hs, Ht.
Qed.

(** Whether an action makes the next transmission rebuild the packet. *)
Definition changes_state (a : option fsm_action) : bool :=
  match a with None | Some RemoteAdmin => false | Some _ => true end.

(** Every action succeeds on a live session, does to the view what the
    diagram says and keeps the configuration. *)
Lemma act_spec now a s :
  live s -> exists s', act now a s = Ok s' /\ live s' /\ same_config s s'
  /\ view_of s' = view_act a (view_of s)
  /\ (changes_state (Some a) = true -> stateChanged s' = true).
Proof.
  intros Hl. destruct a; cbn [act view_act].
  - rewrite MoveToDownState_eq. destruct (down_fields_spec s) as [Ha Hv].
    destruct (notify_startup true s _ _ Hl Ha Hv) as (s' & ? & ? & ? & ? & Hc). exists s'.
    split_and!; try done. intros _. apply Hc. unfold down_fields. by case_decide.
  - eexists; split; [reflexivity|]. split; [apply Hl|].
    split; [by constructor | split; reflexivity].
  - unfold MoveToUpState. eexists; split; [reflexivity|].
    match goal with |- context [SendBfdNotification ?t] =>
      destruct (notify_spec s t (view_of t) Hl) as (? & ? & V & Hc) end;
      [split; [by constructor | done] | done |].
    split_and!; [done | done | exact V | intros _; by apply Hc].
  - rewrite LocalAdminDown_eq.
    match goal with |- context [startup_rates ?r (SendBfdNotification ?t)] =>
      destruct (notify_startup r s t (view_of t) Hl) as (s' & E & ? & ? & V & Hc) end;
      [split; [by constructor | done] | done |].
    exists s'. split_and!; [done | done | done | exact V | intros _; by apply Hc].
  - rewrite RemoteAdminDown_eq.
    match goal with |- context [startup_rates ?r (SendBfdNotification ?t)] =>
      destruct (notify_startup r s t (view_of t) Hl) as (s' & E & ? & ? & V & Hc) end;
      [split; [by constructor | done] | done |].
    exists s'. by split_and!; [done | done | done | exact V |].
Qed.

(** C8: on an active session the event handler implements the state machine
    of its comment: it never panics, the local and remote states, the counters
    and the announcements change as the diagram and the two administrative
    events prescribe, every other event leaves the session alone; a session
    whose client is not running ignores the event and reports an error. *)
Theorem event_handler_refines now e s :
  live s ->
  if isClientActive s
  then exists s', EventHandler now e s = Ok (true, s') /\ live s'
       /\ view_of s' = view_event e (view_of s)
       /\ (fsm_next (session_state s) e = None -> s' = s)
  else EventHandler now e s = Ok (false, s).
Proof.
  intros Hl. destruct (isClientActive s) eqn:Ha.
  - rewrite EventHandler_table by done. unfold view_event. change (v_local _) with (session_state s).
    destruct (fsm_next (session_state s) e) as [a|]; cbn [from_option].
    + destruct (act_spec now a s Hl) as (s' & -> & ? & _ & ? & _). eexists. by split_and!.
    + eexists. by split_and!.
  - unfold EventHandler, IsSessionActive. rewrite Ha. reflexivity.
Qed.

(** ** Reception and transmission as compositions *)

(** The configuration no operation of a session changes. *)
Record kept (s s' : BfdSession) : Prop := {
  k_auth : authEnabled s' = authEnabled s;
  k_active : isClientActive s' = isClientActive s;
  k_queue : ReceivedPacketCh s' = ReceivedPacketCh s;
  k_my : LocalDiscriminator (state s') = LocalDiscriminator (state s);
  k_mult : DetectionMultiplier (state s') = DetectionMultiplier (state s);
  k_tx : s_DesiredMinTxInterval (state s') = s_DesiredMinTxInterval (state s);
  k_rx : s_RequiredMinRxInterval (state s') = s_RequiredMinRxInterval (state s);
  k_apps : RegisteredProtocols (state s') = RegisteredProtocols (state s);
  k_ip : IpAddr (state s') = IpAddr (state s);
  k_id : SessionId (state s') = SessionId (state s);
  k_link : PerLinkSession (state s') = PerLinkSession (state s);
  k_stops : SessionStopClientCh s' = SessionStopClientCh s /\ SessionStopServerCh s' = SessionStopServerCh s;
  k_name : ParamName (state s') = ParamName (state s)
}.

#[export] Instance kept_preorder : PreOrder kept.
Proof. split; [by constructor|]. intros s1 s2 s3 [] []. constructor; try congruence. naive_solver congruence. Qed.

Lemma same_config_kept s s' : same_config s s' -> kept s s'.
Proof. intros []. by constructor. Qed.
#[local] Hint Resolve same_config_kept : go.

(** The packet's values taken over, before any timer is touched. *)
Definition noted (p : BfdControlPacket) (s : BfdSession) : BfdSession :=
  CheckAnyRemoteParamChanged p (s <| rxInterval := received_rxInterval p s |>).

(** The detection timer does not run without an interval or while either end
    is administratively down. *)
Definition detection_stop (s : BfdSession) : exec BfdSession :=
  if decide (rxInterval s = 0 \/ SessionState_ (state s) = STATE_ADMIN_DOWN
             \/ RemoteSessionState (state s) = STATE_ADMIN_DOWN)
  then let! t := timer_Stop (sessionTimer s) in Ok (s <| sessionTimer := t |>)
  else Ok s.

Lemma ProcessBfdPacket_eq now md5 sha1 p s :
  ProcessBfdPacket now md5 sha1 p s =
  let! authenticated := AuthenticateReceivedControlPacket md5 sha1 p s in
  if negb authenticated then Ok s else
  if negb (CanProcessBfdControlPacket p) then Ok s else
  let! s3 := RemoteChangedDemandMode p (noted p s) in
  let! s5 := detection_stop (ProcessPollSequence p s3) in
  let! (event, s6) := remote_event s5 in
  handle_event now event s6.
Proof. unfold ProcessBfdPacket, noted, detection_stop. reflexivity. Qed.

(** A step that keeps the session alive and leaves the packet and the
    announcements alone. *)
Definition calm (s s' : BfdSession) : Prop :=
  (live s -> live s') /\ kept s s' /\ bfdPacket s' = bfdPacket s
  /\ notifiedState s' = notifiedState s /\ notificationCh s' = notificationCh s.

#[export] Instance calm_preorder : PreOrder calm.
Proof.
  unfold calm. split; [intros s; by split_and!|]. intros s1 s2 s3 (? & ? & ? & ? & ?) (? & ? & ? & ? & ?).
  split_and!; [auto | by etrans | congruence..].
Qed.

Ltac by_calm := unfold calm; split_and!; [done | by constructor | reflexivity..].

Lemma noted_spec p s :
  calm s (noted p s) /\ view_of (noted p s) = (view_of s) <| v_remote := State p |>
  /\ RemoteDiscriminator (state (noted p s)) = MyDiscriminator p
  /\ rxInterval (noted p s) = received_rxInterval p s.
Proof. unfold noted, CheckAnyRemoteParamChanged. case_decide; (split; [by_calm | done]). Qed.

(** A step of the prefix of [ProcessBfdPacket] after the packet is noted. *)
Definition rx_frame (s s' : BfdSession) : Prop :=
  calm s s' /\ state s' <| RemoteDemandMode := false |> = state s <| RemoteDemandMode := false |>
  /\ rxInterval s' = rxInterval s
  /\ remoteParamChanged s' = remoteParamChanged s /\ stateChanged s' = stateChanged s.

Lemma RemoteChangedDemandMode_spec p s :
  live s -> exists s', RemoteChangedDemandMode p s = Ok s' /\ rx_frame s s'
  /\ pollSequenceFinal s' = pollSequenceFinal s /\ pollSequence s' = pollSequence s
  /\ pollChanged s' = pollChanged s.
Proof.
  intros [Ht Hr]. unfold RemoteChangedDemandMode.
  change (RemoteDemandMode (state (s <| state ::= _ |>))) with (Demand p).
  destruct (Demand p), (RemoteDemandMode (state s)); cbn [negb andb];
  run_timers Ht Hr; cbn [exec_bind]; run_timers Ht Hr; eexists; (split; [reflexivity|]); split; try done;
  (split; [by_calm | done]).
Qed.

#[export] Instance rx_frame_preorder : PreOrder rx_frame.
Proof.
  unfold rx_frame. split; [intros s; by split_and!|].
  intros s1 s2 s3 (? & ? & ? & ? & ?) (? & ? & ? & ? & ?). split; [by etrans|]. split_and!; congruence.
Qed.

Lemma ProcessPollSequence_spec p s :
  rx_frame s (ProcessPollSequence p s)
  /\ (Poll p = true -> SessionState_ (state s) <> STATE_ADMIN_DOWN ->
      pollSequenceFinal (ProcessPollSequence p s) = true
      /\ pollChanged (ProcessPollSequence p s) = true).
Proof.
  unfold ProcessPollSequence. case_decide; [destruct (Poll p), (Final p)|];
  (split; [split; [by_calm | done] | naive_solver]).
Qed.

Lemma detection_stop_spec s :
  live s -> exists s', detection_stop s = Ok s' /\ rx_frame s s'
  /\ pollSequenceFinal s' = pollSequenceFinal s /\ pollSequence s' = pollSequence s
  /\ pollChanged s' = pollChanged s.
Proof.
  intros [Ht Hr]. unfold detection_stop. case_decide; run_timers Ht Hr;
  eexists; (split; [reflexivity|]); (split; [split; [by_calm | done] | done]).
Qed.

Definition event_of_state (st : BfdSessionState) : BfdSessionEvent :=
  match st with
  | STATE_DOWN => REMOTE_DOWN | STATE_INIT => REMOTE_INIT | STATE_UP => REMOTE_UP
  | STATE_ADMIN_DOWN => REMOTE_ADMIN_DOWN
  end.

(** The neighbour's down state is recorded as the diagnostic of a session that
    is not down itself. *)
Definition received_diag (s : BfdSession) : Z :=
  match RemoteSessionState (state s), SessionState_ (state s) with
  | STATE_DOWN, STATE_DOWN => LocalDiagType (state s)
  | STATE_DOWN, _ => DIAG_NEIGHBOR_SIGNAL_DOWN
  | _, _ => LocalDiagType (state s)
  end.

Lemma remote_event_spec s :
  live s -> exists s', remote_event s = Ok (event_of_state (remote_state s), s') /\ calm s s'
  /\ view_of s' = (view_of s) <| v_diag := received_diag s |>
  /\ RemoteDiscriminator (state s') = RemoteDiscriminator (state s)
  /\ pollSequenceFinal s' = pollSequenceFinal s /\ pollChanged s' = pollChanged s
  /\ remoteParamChanged s' = remoteParamChanged s
  /\ (session_state s <> STATE_UP -> txTimer s' = txTimer s).
Proof.
  intros [Ht Hr]. unfold remote_event, remote_state, view_of, received_diag.
  destruct (RemoteSessionState (state s)) eqn:E.
  - eexists; split; [reflexivity|]; destruct (SessionState_ (state s)); (split; [by_calm | done]).
  - case_decide as Hd; eexists; (split; [reflexivity|]); (split; [by_calm|]);
    destruct (SessionState_ (state s)) eqn:Es; try done; exfalso; congruence.
  - eexists; split; [reflexivity|]; (split; [by_calm | done]).
  - case_decide; run_timers Ht Hr; eexists; (split; [reflexivity|]); (split; [by_calm | ]); try done.
    unfold session_state; naive_solver.
Qed.

Lemma handle_event_spec now e s :
  live s -> exists s', handle_event now e s = Ok s' /\ live s' /\ same_config s s'
  /\ view_of s' = (if isClientActive s then view_event e (view_of s) else view_of s)
  /\ (isClientActive s = true -> changes_state (fsm_next (session_state s) e) = true ->
      stateChanged s' = true).
Proof.
  intros Hl. unfold handle_event. destruct (isClientActive s) eqn:Ha.
  - rewrite EventHandler_table by done. unfold view_event. change (v_local _) with (session_state s).
    destruct (fsm_next (session_state s) e) as [a|]; cbn [from_option].
    + destruct (act_spec now a s Hl) as (s' & -> & ? & ? & ? & ?). exists s'. split_and!; auto.
    + by exists s.
  - unfold EventHandler, IsSessionActive. rewrite Ha. by exists s.
Qed.

(** The view just before the event of a received packet is handled. *)
Definition heard (p : BfdControlPacket) (v : view) : view :=
  v <| v_remote := State p |>
    <| v_diag := match State p, v_local v with
                 | STATE_DOWN, STATE_DOWN => v_diag v
                 | STATE_DOWN, _ => DIAG_NEIGHBOR_SIGNAL_DOWN
                 | _, _ => v_diag v
                 end |>.

Lemma rx_frame_view s s' : rx_frame s s' -> view_of s' = view_of s.
Proof.
  intros ((_ & _ & _ & En & Ec) & Es & _). unfold view_of, session_state, remote_state.
  rewrite En, Ec. pose proof (f_equal SessionState_ Es). pose proof (f_equal RemoteSessionState Es).
  pose proof (f_equal LocalDiagType Es). pose proof (f_equal ToUpCount Es).
  pose proof (f_equal ToDownCount Es). cbn in *. congruence.
Qed.

Lemma rx_frame_your s s' :
  rx_frame s s' -> RemoteDiscriminator (state s') = RemoteDiscriminator (state s).
Proof. intros (_ & Es & _). exact (f_equal RemoteDiscriminator Es). Qed.

(** The steps of [ProcessBfdPacket] before the event is handled. *)
Lemma process_prefix p s :
  live s -> exists s6,
  (let! s3 := RemoteChangedDemandMode p (noted p s) in
   let! s5 := detection_stop (ProcessPollSequence p s3) in remote_event s5)
  = Ok (event_of_state (State p), s6)
  /\ calm s s6 /\ view_of s6 = heard p (view_of s)
  /\ RemoteDiscriminator (state s6) = MyDiscriminator p
  /\ (Poll p = true -> session_state s <> STATE_ADMIN_DOWN ->
      pollSequenceFinal s6 = true /\ pollChanged s6 = true).
Proof.
  intros Hl. destruct (noted_spec p s) as (C1 & V1 & D1 & _).
  destruct (RemoteChangedDemandMode_spec p (noted p s)) as (s3 & -> & F3 & _); [by apply C1|].
  cbn [exec_bind]. destruct (ProcessPollSequence_spec p s3) as [F4 P4].
  destruct (detection_stop_spec (ProcessPollSequence p s3)) as (s5 & -> & F5 & Q5 & _ & W5);
    [by apply F4, F3, C1|].
  assert (rx_frame (noted p s) s5) as F by (by do 2 (etrans; [eassumption|])).
  pose proof (rx_frame_view _ _ F) as V5. rewrite V1 in V5.
  pose proof (f_equal v_local V5) as VL. pose proof (f_equal v_remote V5) as VR.
  pose proof (f_equal v_diag V5) as VD. cbn in VL, VR, VD.
  destruct (remote_event_spec s5) as (s6 & E6 & C6 & V6 & Y6 & Q6 & W6 & _); [by apply F, C1|].
  exists s6. cbn [exec_bind]. rewrite E6, VR. split; [done|].
  split; [by etrans; [exact C1|]; etrans; [apply F|]|].
  split; [|split; [rewrite Y6, (rx_frame_your _ _ F); done|]].
  - rewrite V6, V5. unfold heard, received_diag. unfold remote_state, session_state in VR, VL.
    rewrite VR, VL, VD. done.
  - intros Hp Hs. rewrite Q6, W6, Q5, W5. apply P4; [done|].
    pose proof (f_equal v_local (rx_frame_view _ _ F3)) as V3. rewrite V1 in V3. cbn in V3.
    unfold session_state in *. congruence.
Qed.

(** An accepted packet is processed without a panic: its values are noted, the
    event of its state is handled and a poll is remembered for the answer. *)
Lemma process_accepted now md5 sha1 p s :
  live s -> AuthenticateReceivedControlPacket md5 sha1 p s = Ok true ->
  CanProcessBfdControlPacket p = true ->
  exists s', ProcessBfdPacket now md5 sha1 p s = Ok s' /\ live s' /\ kept s s'
  /\ bfdPacket s' = bfdPacket s
  /\ view_of s' = (if isClientActive s then view_event (event_of_state (State p)) (heard p (view_of s))
                   else heard p (view_of s))
  /\ RemoteDiscriminator (state s') = MyDiscriminator p
  /\ (Poll p = true -> session_state s <> STATE_ADMIN_DOWN ->
      pollSequenceFinal s' = true /\ pollChanged s' = true)
  /\ (isClientActive s = true ->
      changes_state (fsm_next (session_state s) (event_of_state (State p))) = true ->
      stateChanged s' = true).
Proof.
  intros Hl Hau Hcan. rewrite ProcessBfdPacket_eq, Hau. cbn [exec_bind negb]. rewrite Hcan. cbn [negb].
  destruct (process_prefix p s Hl) as (s6 & E & C & V & D & P).
  destruct (RemoteChangedDemandMode p (noted p s)) as [s3| |]; cbn [exec_bind] in *; [|done..].
  destruct (detection_stop _) as [s5| |]; cbn [exec_bind] in *; [|done..]. rewrite E. cbn [exec_bind].
  destruct (handle_event_spec now (event_of_state (State p)) s6) as (s' & -> & Hl' & S' & V' & X');
    [by apply C|].
  destruct C as (_ & K & B & _). rewrite (k_active _ _ K), V in V'.
  rewrite (k_active _ _ K) in X'. change (session_state s6) with (v_local (view_of s6)) in X'.
  rewrite V in X'.
  exists s'. split_and!; [done | done | | | done | | | exact X'].
  - etrans; [exact K | by apply same_config_kept].
  - by rewrite (sc_packet _ _ S').
  - by rewrite (sc_your _ _ S').
  - intros Hp Hs. destruct (sc_poll _ _ S') as [_ ->]. rewrite (sc_pollchg _ _ S'). auto.
Qed.

(** ** The packet a session builds *)

Definition both_up (s : BfdSession) : bool :=
  bool_decide (SessionState_ (state s) = STATE_UP /\ RemoteSessionState (state s) = STATE_UP).

(** The packet still carries the start-up intervals although both ends are up:
    the configured ones are put in and a poll sequence announces them. *)
Definition leaves_startup (s : BfdSession) : bool :=
  both_up s && bool_decide (DesiredMinTxInterval (bfdPacket s) = STARTUP_TX_INTERVAL
                            \/ RequiredMinRxInterval (bfdPacket s) = STARTUP_RX_INTERVAL).

Definition built_auth (s : BfdSession) : option BfdAuthHeader :=
  if authEnabled s then
    h ← AuthHeader (bfdPacket s);
    Some (mkBfdAuthHeader (authType s) (u8 (authKeyId s))
            (if decide (authType s = BFD_AUTH_TYPE_SIMPLE) then SequenceNumber h else authSeqNum s)
            (authData s))
  else AuthHeader (bfdPacket s).

Definition built_packet (s : BfdSession) : BfdControlPacket :=
  let old := bfdPacket s in
  {| Version := Version old; Diagnostic := LocalDiagType (state s);
     State := SessionState_ (state s);
     Poll := pollSequence s || leaves_startup s; Final := pollSequenceFinal s;
     ControlPlaneIndependent := ControlPlaneIndependent old;
     AuthPresent := authEnabled s;
     Demand := if both_up s then DemandMode (state s) else Demand old;
     Multipoint := Multipoint old;
     DetectMult := u8 (DetectionMultiplier (state s));
     MyDiscriminator := LocalDiscriminator (state s);
     YourDiscriminator := RemoteDiscriminator (state s);
     DesiredMinTxInterval :=
       if both_up s then
         if leaves_startup s then s_DesiredMinTxInterval (state s) else DesiredMinTxInterval old
       else STARTUP_TX_INTERVAL;
     RequiredMinRxInterval :=
       if both_up s then
         if leaves_startup s then s_RequiredMinRxInterval (state s) else RequiredMinRxInterval old
       else STARTUP_RX_INTERVAL;
     RequiredMinEchoRxInterval := RequiredMinEchoRxInterval old;
     AuthHeader := built_auth s |}.

Definition no_change (s : BfdSession) : Prop :=
  pollSequence s = false /\ pollSequenceFinal s = false /\ NeedBfdPacketUpdate s = false.

(** A step of the packet's update: only the packet, the poll flags and the
    timers change. *)
Definition tx_frame (s s' : BfdSession) : Prop :=
  (live s -> live s') /\ kept s s' /\ state s' = state s
  /\ notifiedState s' = notifiedState s /\ notificationCh s' = notificationCh s
  /\ (authSeqNum s' = authSeqNum s /\ authType s' = authType s /\ authKeyId s' = authKeyId s
     /\ authData s' = authData s)
  /\ pollSequenceFinal s' = pollSequenceFinal s.

#[export] Instance tx_frame_preorder : PreOrder tx_frame.
Proof.
  unfold tx_frame. split; [intros s; by split_and!|].
  intros s1 s2 s3 (? & ? & ? & ? & ? & (? & ? & ? & ?) & ?) (? & ? & ? & ? & ? & (? & ? & ? & ?) & ?).
  split_and!; [auto | by etrans | congruence..].
Qed.

Ltac by_tx_frame := unfold tx_frame; split_and!; [done | by constructor | reflexivity..].

Definition startup_left (s : BfdSession) : BfdSession :=
  if decide (DesiredMinTxInterval (bfdPacket s) = STARTUP_TX_INTERVAL
             \/ RequiredMinRxInterval (bfdPacket s) = STARTUP_RX_INTERVAL)
  then InitiatePollSequence
         (s <| bfdPacket ::= fun p =>
                 p <| DesiredMinTxInterval := s_DesiredMinTxInterval (state s) |>
                   <| RequiredMinRxInterval := s_RequiredMinRxInterval (state s) |> |>)
  else s.

Definition demand_part (s : BfdSession) : exec BfdSession :=
  let wasDemand := Demand (bfdPacket s) in
  let s := s <| bfdPacket ::= fun p => p <| Demand := DemandMode (state s) |> |> in
  let isDemand := Demand (bfdPacket s) in
  let! s := if negb wasDemand && isDemand
            then let! t := timer_Stop (sessionTimer s) in Ok (s <| sessionTimer := t |>)
            else Ok s in
  if wasDemand && negb isDemand
  then let! t := timer_Reset (sessionTimer s) (rxInterval s) in Ok (s <| sessionTimer := t |>)
  else Ok s.

Lemma startup_left_spec s :
  both_up s = true ->
  tx_frame s (startup_left s)
  /\ pollSequence (startup_left s) = (pollSequence s || leaves_startup s)
  /\ bfdPacket (startup_left s) = bfdPacket s
       <| DesiredMinTxInterval := if leaves_startup s then s_DesiredMinTxInterval (state s)
                                  else DesiredMinTxInterval (bfdPacket s) |>
       <| RequiredMinRxInterval := if leaves_startup s then s_RequiredMinRxInterval (state s)
                                   else RequiredMinRxInterval (bfdPacket s) |>.
Proof.
  intros Hup. unfold startup_left, leaves_startup, InitiatePollSequence. rewrite Hup. cbn [andb].
  case_decide as Hc.
  - rewrite bool_decide_eq_true_2 by done.
    change (pollSequence (s <| bfdPacket ::= _ |>)) with (pollSequence s).
    destruct (pollSequence s) eqn:Ep; cbn [negb orb]; (split; [by_tx_frame | done]).
  - rewrite bool_decide_eq_false_2, orb_false_r by done.
    split; [done|]. split; [done|]. by destruct (bfdPacket s).
Qed.

Lemma demand_part_spec s :
  live s -> exists s', demand_part s = Ok s' /\ tx_frame s s' /\ pollSequence s' = pollSequence s
  /\ bfdPacket s' = bfdPacket s <| Demand := DemandMode (state s) |>.
Proof.
  intros [Ht Hr]. unfold demand_part.
  change (Demand (bfdPacket (s <| bfdPacket ::= _ |>))) with (DemandMode (state s)).
  destruct (Demand (bfdPacket s)), (DemandMode (state s)); cbn [negb andb exec_bind];
  run_timers Ht Hr; cbn [exec_bind]; eexists; (split; [reflexivity|]); (split; [by_tx_frame | done]).
Qed.

Lemma update_up_packet_eq s : update_up_packet s = demand_part (startup_left s).
Proof. unfold update_up_packet, demand_part, startup_left. reflexivity. Qed.

(** The scalar fields written first. *)
Definition scalar_fields (s : BfdSession) : BfdSession :=
  s <| bfdPacket ::= fun p =>
      p <| Diagnostic := LocalDiagType (state s) |>
        <| State := SessionState_ (state s) |>
        <| DetectMult := u8 (DetectionMultiplier (state s)) |>
        <| MyDiscriminator := LocalDiscriminator (state s) |>
        <| YourDiscriminator := RemoteDiscriminator (state s) |> |>.

Definition intervals_part (s : BfdSession) : exec BfdSession :=
  if decide (SessionState_ (state s) = STATE_UP /\ RemoteSessionState (state s) = STATE_UP)
  then update_up_packet s
  else Ok (s <| bfdPacket ::= fun p =>
                  p <| DesiredMinTxInterval := STARTUP_TX_INTERVAL |>
                    <| RequiredMinRxInterval := STARTUP_RX_INTERVAL |> |>).

Definition poll_fields (s : BfdSession) : BfdSession :=
  let s := s <| bfdPacket ::= fun p => p <| Poll := pollSequence s |> |>
             <| pollSequence := false |> in
  s <| bfdPacket ::= fun p => p <| Final := pollSequenceFinal s |> |>
    <| pollSequenceFinal := false |>.

Lemma poll_fields_packet s :
  bfdPacket (poll_fields s)
  = bfdPacket s <| Poll := pollSequence s |> <| Final := pollSequenceFinal s |>.
Proof. reflexivity. Qed.

Definition clear_changes (s : BfdSession) : BfdSession :=
  s <| pollChanged := false |> <| paramChanged := false |>
    <| stateChanged := false |> <| remoteParamChanged := false |>.

Lemma Update_eq s :
  UpdateBfdSessionControlPacket s =
  let! s2 := intervals_part (scalar_fields s) in
  let! s4 := update_auth (poll_fields s2) in
  Ok (clear_changes s4).
Proof.
  unfold UpdateBfdSessionControlPacket, intervals_part, scalar_fields, poll_fields, clear_changes.
  reflexivity.
Qed.

Lemma intervals_part_spec s :
  live s -> exists s', intervals_part s = Ok s' /\ tx_frame s s'
  /\ pollSequence s' = (pollSequence s || leaves_startup s)
  /\ bfdPacket s' = bfdPacket s
       <| DesiredMinTxInterval :=
            if both_up s then if leaves_startup s then s_DesiredMinTxInterval (state s)
                              else DesiredMinTxInterval (bfdPacket s)
            else STARTUP_TX_INTERVAL |>
       <| RequiredMinRxInterval :=
            if both_up s then if leaves_startup s then s_RequiredMinRxInterval (state s)
                              else RequiredMinRxInterval (bfdPacket s)
            else STARTUP_RX_INTERVAL |>
       <| Demand := if both_up s then DemandMode (state s) else Demand (bfdPacket s) |>.
Proof.
  intros Hl. unfold intervals_part. case_decide as Hup.
  - assert (both_up s = true) as Hb by (by apply bool_decide_eq_true_2).
    rewrite update_up_packet_eq. destruct (startup_left_spec s Hb) as (F1 & P1 & B1).
    destruct (demand_part_spec (startup_left s)) as (s' & E & F2 & P2 & B2); [by apply F1|].
    exists s'. rewrite Hb. split_and!; [done | by etrans | congruence |].
    rewrite B2, B1. destruct F1 as (_ & _ & -> & _). done.
  - assert (both_up s = false) as Hb by (by apply bool_decide_eq_false_2).
    eexists. split; [reflexivity|]. split; [by_tx_frame|]. unfold leaves_startup. rewrite Hb.
    cbn [andb]. split; [cbn; by rewrite orb_false_r | done].
Qed.

Definition auth_ready (s : BfdSession) : Prop :=
  authEnabled s = true -> is_Some (AuthHeader (bfdPacket s)).

Lemma update_auth_spec s :
  auth_ready s -> exists s', update_auth s = Ok s' /\ (live s -> live s') /\ kept s s'
  /\ state s' = state s /\ notifiedState s' = notifiedState s /\ notificationCh s' = notificationCh s
  /\ pollSequence s' = pollSequence s /\ pollSequenceFinal s' = pollSequenceFinal s
  /\ bfdPacket s' = bfdPacket s <| AuthPresent := authEnabled s |> <| AuthHeader := built_auth s |>.
Proof.
  intros Ha. unfold update_auth, built_auth. destruct (authEnabled s) eqn:E.
  - destruct (Ha E) as [h Hh].
    change (AuthHeader (bfdPacket (s <| bfdPacket ::= _ |>))) with (AuthHeader (bfdPacket s)).
    rewrite Hh. cbn [of_option exec_bind mbind option_bind]. eexists. split; [reflexivity|].
    change (authType (s <| bfdPacket ::= _ |>)) with (authType s).
    repeat case_decide; split_and!; first [done | by constructor | congruence].
  - eexists. split; [reflexivity|]. split_and!; first [done | by constructor].
Qed.

(** The packet is rebuilt from the session's state, and all pending changes
    and poll flags are consumed. *)
Lemma update_spec s :
  live s -> auth_ready s -> exists s', UpdateBfdSessionControlPacket s = Ok s' /\ live s' /\ kept s s'
  /\ state s' = state s /\ notifiedState s' = notifiedState s /\ notificationCh s' = notificationCh s
  /\ bfdPacket s' = built_packet s /\ no_change s'.
Proof.
  intros Hl Ha. rewrite Update_eq.
  assert (tx_frame s (scalar_fields s)) as F0 by by_tx_frame.
  destruct (intervals_part_spec (scalar_fields s)) as (s2 & -> & F2 & P2 & B2); [by apply F0|].
  cbn [exec_bind]. destruct F2 as (L2 & K2 & S2 & N2 & C2 & (A2 & A2' & A2'' & A2''') & Q2).
  assert (kept s (poll_fields s2)) as K3 by (etrans; [apply F0|]; etrans; [exact K2 | by constructor]).
  assert (auth_ready (poll_fields s2)) as R3.
  { unfold auth_ready. rewrite (k_auth _ _ K3).
    change (AuthHeader (bfdPacket (poll_fields s2))) with (AuthHeader (bfdPacket s2)). rewrite B2. exact Ha. }
  destruct (update_auth_spec _ R3) as (s4 & -> & L4 & K4 & S4 & N4 & C4 & P4 & Q4 & B4).
  cbn [exec_bind]. exists (clear_changes s4). split; [done|].
  split; [apply L4, L2, F0, Hl|]. split; [etrans; [exact K3|]; etrans; [exact K4 | by constructor]|].
  split; [etrans; [exact S4 | exact S2]|]. split; [etrans; [exact N4 | exact N2]|].
  split; [etrans; [exact C4 | exact C2]|].
  assert (built_auth (poll_fields s2) = built_auth s) as Hau.
  { unfold built_auth. rewrite (k_auth _ _ K3).
    change (AuthHeader (bfdPacket (poll_fields s2))) with (AuthHeader (bfdPacket s2)). rewrite B2.
    change (authType (poll_fields s2)) with (authType s2).
    change (authKeyId (poll_fields s2)) with (authKeyId s2).
    change (authSeqNum (poll_fields s2)) with (authSeqNum s2).
    change (authData (poll_fields s2)) with (authData s2). rewrite A2, A2', A2'', A2'''. done. }
  split.
  - change (bfdPacket (clear_changes s4)) with (bfdPacket s4). rewrite B4, Hau, (k_auth _ _ K3).
    rewrite poll_fields_packet, P2, Q2, B2.
    change (both_up (scalar_fields s)) with (both_up s).
    change (leaves_startup (scalar_fields s)) with (leaves_startup s).
    change (state (scalar_fields s)) with (state s).
    unfold built_packet. generalize (both_up s) (leaves_startup s) (built_auth s). reflexivity.
  - unfold no_change. cbn. rewrite P4, Q4. done.
Qed.

Lemma built_auth_ready s s' :
  auth_ready s -> kept s s' -> bfdPacket s' = built_packet s -> auth_ready s'.
Proof.
  intros Ha K B E. rewrite (k_auth _ _ K) in E. destruct (Ha E) as [h Hh].
  rewrite B. cbn. unfold built_auth. rewrite E, Hh. by eexists.
Qed.

Section Transmission.
Context (md5 sha1 : list Z -> list Z).

Lemma rebuild_spec s :
  live s -> auth_ready s -> exists s', rebuild_packet md5 sha1 s = Ok s' /\ live s' /\ kept s s'
  /\ state s' = state s /\ notifiedState s' = notifiedState s /\ notificationCh s' = notificationCh s
  /\ bfdPacket s' = built_packet s
  /\ bfdPacketBuf s' = CreateBfdControlPacket md5 sha1 (built_packet s) /\ no_change s'.
Proof.
  intros Hl Ha. unfold rebuild_packet.
  destruct (update_spec s Hl Ha) as (s1 & -> & L & K & S & N & C & B & U). cbn [exec_bind].
  eexists. split; [reflexivity|]. split; [exact L|]. split; [etrans; [exact K | by constructor]|].
  split; [exact S|]. split; [exact N|]. split; [exact C|]. split; [exact B|]. split; [|exact U].
  change (CreateBfdControlPacket md5 sha1 (bfdPacket s1)
          = CreateBfdControlPacket md5 sha1 (built_packet s)). by rewrite B.
Qed.

(** The packet after the transmission's first rebuild, counted or not. *)
Definition counted (written : bool) (s : BfdSession) : BfdSession :=
  if written then s <| state ::= fun st => st <| NumTxPackets ::= fun n => u32 (n + 1) |> |> else s.

Definition retimed (s : BfdSession) : exec BfdSession :=
  let s := if decide (SessionState_ (state s) = STATE_UP \/ RemoteSessionState (state s) = STATE_UP)
           then s <| txInterval := Z.quot (s_DesiredMinTxInterval (state s)) 1000 |> else s in
  let! t := timer_Reset (txTimer s) (ApplyTxJitter s) in
  Ok (s <| txTimer := t |>).

Lemma SendPeriodic_eq written s :
  SendPeriodicControlPackets md5 sha1 written s =
  let! s1 := if NeedBfdPacketUpdate s then rebuild_packet md5 sha1 s else Ok s in
  let! s3 := if NeedBfdPacketUpdate s then rebuild_packet md5 sha1 (counted written s1)
             else Ok (counted written s1) in
  let! s4 := retimed s3 in
  Ok (bfdPacketBuf s1, s4).
Proof.
  unfold SendPeriodicControlPackets, counted, retimed.
  destruct (if NeedBfdPacketUpdate s then _ else _) as [s1| |]; [|reflexivity..]. cbn [exec_bind].
  destruct (if NeedBfdPacketUpdate s then _ else _) as [s3| |]; [|reflexivity..]. cbn [exec_bind].
  destruct (timer_Reset _ _); reflexivity.
Qed.

Definition tx_kept (s s' : BfdSession) : Prop :=
  kept s s' /\ view_of s' = view_of s
  /\ RemoteDiscriminator (state s') = RemoteDiscriminator (state s)
  /\ notifiedState s' = notifiedState s /\ notificationCh s' = notificationCh s.

Lemma counted_frame w s :
  (live s -> live (counted w s)) /\ tx_kept s (counted w s)
  /\ bfdPacket (counted w s) = bfdPacket s
  /\ (no_change s -> no_change (counted w s)) /\ both_up (counted w s) = both_up s
  /\ pollSequence (counted w s) = pollSequence s
  /\ pollSequenceFinal (counted w s) = pollSequenceFinal s.
Proof. destruct w; (split_and!; first [done | by constructor]). Qed.

Lemma retimed_spec s :
  live s -> exists s', retimed s = Ok s' /\ live s' /\ tx_kept s s' /\ bfdPacket s' = bfdPacket s
  /\ bfdPacketBuf s' = bfdPacketBuf s /\ (no_change s -> no_change s').
Proof.
  intros [Ht Hr]. unfold retimed.
  case_decide; run_timers Ht Hr; eexists; (split; [reflexivity|]);
  split_and!; first [done | by constructor].
Qed.

(** What one transmission does.  When a change is pending the octets sent are
    those of the rebuilt packet; the buffer is then rebuilt once more, and the
    next transmission, if nothing changes in between, sends that. *)
Lemma send_spec written s :
  live s -> auth_ready s -> exists sent s',
  SendPeriodicControlPackets md5 sha1 written s = Ok (sent, s') /\ live s' /\ auth_ready s'
  /\ tx_kept s s'
  /\ if NeedBfdPacketUpdate s
     then sent = CreateBfdControlPacket md5 sha1 (built_packet s) /\ no_change s'
          /\ bfdPacketBuf s' = CreateBfdControlPacket md5 sha1 (bfdPacket s')
          /\ exists s1, tx_kept s s1 /\ bfdPacket s1 = built_packet s /\ both_up s1 = both_up s
             /\ pollSequence s1 = false /\ pollSequenceFinal s1 = false
             /\ bfdPacket s' = built_packet s1
     else sent = bfdPacketBuf s /\ bfdPacketBuf s' = bfdPacketBuf s /\ bfdPacket s' = bfdPacket s.
Proof.
  intros Hl Ha. rewrite SendPeriodic_eq. destruct (NeedBfdPacketUpdate s).
  - destruct (rebuild_spec s Hl Ha) as (s1 & -> & L1 & K1 & S1 & N1 & C1 & B1 & O1 & U1).
    cbn [exec_bind]. destruct (counted_frame written s1) as (L2 & T2 & B2 & U2 & Up2 & P2 & Q2).
    pose proof (built_auth_ready _ _ Ha K1 B1) as A1.
    assert (auth_ready (counted written s1)) as A2.
    { unfold auth_ready. rewrite (k_auth _ _ (proj1 T2)), B2. exact A1. }
    destruct (rebuild_spec (counted written s1) (L2 L1) A2) as (s3 & -> & L3 & K3 & S3 & N3 & C3 & B3 & O3 & U3).
    cbn [exec_bind]. destruct (retimed_spec s3 L3) as (s4 & -> & L4 & T4 & B4 & O4 & U4).
    cbn [exec_bind]. exists (bfdPacketBuf s1), s4. split; [done|]. split; [done|].
    assert (kept s s4) as K by (etrans; [exact K1|]; etrans; [apply T2|]; etrans; [exact K3 | apply T4]).
    split.
    { unfold auth_ready. rewrite (k_auth _ _ (proj1 T4)), B4. by eapply built_auth_ready. }
    split.
    { destruct T2 as (_ & V2 & Y2 & N2 & C2), T4 as (_ & V4 & Y4 & N4 & C4).
      split; [done|]. split_and!; try congruence.
      rewrite V4. unfold view_of, session_state, remote_state in *. rewrite S3, N3, C3.
      etrans; [exact V2|]. by rewrite S1, N1, C1. }
    split; [done|]. split; [auto|]. split; [by rewrite O4, O3, B4, B3|].
    exists (counted written s1). rewrite B2, B4, B3, Up2, P2, Q2.
    split.
    { destruct T2 as (K2 & V2 & Y2 & N2 & C2).
      split; [etrans; [exact K1 | exact K2]|]. split_and!; try congruence.
      rewrite V2. unfold view_of, session_state, remote_state. by rewrite S1, N1, C1. }
    split; [done|].
    split; [unfold both_up; by rewrite S1|]. split_and!; [apply U1 | apply U1 | done].
  - cbn [exec_bind]. destruct (counted_frame written s) as (L2 & T2 & B2 & U2 & _).
    destruct (retimed_spec (counted written s) (L2 Hl)) as (s4 & -> & L4 & T4 & B4 & O4 & U4).
    cbn [exec_bind]. exists (bfdPacketBuf s), s4. split; [done|]. split; [done|].
    destruct T2 as (K2 & V2 & Y2 & N2 & C2), T4 as (K4 & V4 & Y4 & N4 & C4).
    split. { unfold auth_ready. rewrite (k_auth _ _ K4), (k_auth _ _ K2), B4, B2. exact Ha. }
    split. { split; [by etrans|]. split_and!; congruence. }
    split; [done|]. split; [rewrite O4; by destruct written | by rewrite B4].
Qed.

End Transmission.

(** ** Runs of a session

    What the goroutines, timers and the server's commands do to a session
    whose client has started. *)
Inductive session_op : Type :=
| OpDispatch (p : BfdControlPacket)   (* the dispatcher queues a decoded packet *)
| OpReceive                           (* the session server takes one *)
| OpTransmit (written : bool)         (* the transmission timer fires *)
| OpTimeout                           (* the detection timer fires *)
| OpAdminDown | OpAdminUp             (* StopBfdSession, StartBfdSession *)
| OpEvent (e : BfdSessionEvent).

Definition run_op (md5 sha1 : list Z -> list Z) (now : Z) (o : session_op) (s : BfdSession)
    : exec BfdSession :=
  match o with
  | OpDispatch p => Ok (s <| ReceivedPacketCh ::= fun q => q ++ [p] |>)
  | OpReceive => StartSessionServer_step now md5 sha1 s
  | OpTransmit written => let! (_, s) := SendPeriodicControlPackets md5 sha1 written s in Ok s
  | OpTimeout => HandleSessionTimeout now s
  | OpAdminDown => StopBfdSession now s
  | OpAdminUp => StartBfdSession now s
  | OpEvent e => handle_event now e s
  end.

Fixpoint run_ops md5 sha1 (now : Z) (l : list session_op) (s : BfdSession) : exec BfdSession :=
  match l with
  | [] => Ok s
  | o :: l => let! s := run_op md5 sha1 now o s in run_ops md5 sha1 (now + 1) l s
  end.

(** A packet as the decoder returns it without error. *)
Definition decoded (p : BfdControlPacket) : Prop :=
  AuthPresent p = true -> is_Some (AuthHeader p).

Definition op_ok (o : session_op) : Prop :=
  match o with OpDispatch p => decoded p | _ => True end.

(** A log of announcements in which every entry differs from the previous one
    (the first from [cur]); the result is the last one. *)
Fixpoint alternating (cur : bool) (l : list bool) : option bool :=
  match l with
  | [] => Some cur
  | b :: l => if bool_decide (b = cur) then None else alternating b l
  end.

Record wf_session (s : BfdSession) : Prop := {
  ws_live : live s;
  ws_auth : auth_ready s;
  ws_queue : Forall decoded (ReceivedPacketCh s);
  ws_log : alternating false (NotifiedUp <$> notificationCh s) = Some (notifiedState s)
}.

Lemma alternating_snoc cur l last b :
  alternating cur l = Some last -> b <> last -> alternating cur (l ++ [b]) = Some b.
Proof.
  revert cur. induction l as [|x l IH]; intros cur H Hb; cbn in *.
  - injection H as ->. by rewrite bool_decide_eq_false_2.
  - case_bool_decide; [done | by apply IH].
Qed.

Definition log_ok (v : view) : Prop := alternating false (v_sent v) = Some (v_notified v).

Lemma announce_log v : log_ok v -> log_ok (announce v).
Proof.
  unfold log_ok, announce. case_bool_decide as E; [done|]. simpl_rec.
  intros H. by eapply alternating_snoc.
Qed.

Lemma view_event_log e v : log_ok v -> log_ok (view_event e v).
Proof.
  unfold view_event. destruct (fsm_next (v_local v) e) as [[]|]; cbn [from_option view_act];
  intros H; try (apply announce_log); exact H.
Qed.

(** A step that keeps a session well formed: it stays alive, it keeps the
    authentication header and the queue, and its announcements alternate. *)
Lemma wf_step s s' :
  wf_session s -> live s' ->
  (auth_ready s -> auth_ready s') -> ReceivedPacketCh s' = ReceivedPacketCh s ->
  (log_ok (view_of s) -> log_ok (view_of s')) -> wf_session s'.
Proof.
  intros [? ? ? W] ? ? Eq Hlog. constructor; [done | auto | by rewrite Eq | by apply Hlog].
Qed.

(** The identity and configuration of a session, which no run changes. *)
Record stable (s s' : BfdSession) : Prop := {
  st_id : SessionId (state s') = SessionId (state s);
  st_link : PerLinkSession (state s') = PerLinkSession (state s);
  st_stops : SessionStopClientCh s' = SessionStopClientCh s /\ SessionStopServerCh s' = SessionStopServerCh s;
  st_ip : IpAddr (state s') = IpAddr (state s);
  st_name : ParamName (state s') = ParamName (state s);
  st_my : LocalDiscriminator (state s') = LocalDiscriminator (state s);
  st_apps : RegisteredProtocols (state s') = RegisteredProtocols (state s);
  st_auth : authEnabled s' = authEnabled s;
  st_active : isClientActive s' = isClientActive s
}.

#[export] Instance stable_preorder : PreOrder stable.
Proof. split; [by constructor|]. intros s1 s2 s3 [] []. constructor; try congruence. naive_solver congruence. Qed.

Lemma kept_stable s s' : kept s s' -> stable s s'.
Proof. intros []. by constructor. Qed.

Lemma wf_handle_event now e s :
  wf_session s -> exists s', handle_event now e s = Ok s' /\ wf_session s' /\ same_config s s'.
Proof.
  intros W. destruct (handle_event_spec now e s (ws_live _ W)) as (s' & E & L & S & V & _).
  exists s'. split; [done|]. split; [|done]. eapply wf_step; [done | done | | apply S |].
  - unfold auth_ready. by rewrite (sc_auth _ _ S), (sc_packet _ _ S).
  - rewrite V. case_match; [apply view_event_log | done].
Qed.

Lemma authenticate_total md5 sha1 p s :
  decoded p -> exists b, AuthenticateReceivedControlPacket md5 sha1 p s = Ok b.
Proof.
  intros Hd. unfold AuthenticateReceivedControlPacket. destruct (AuthPresent p) eqn:E; cbn [negb]; [|eauto].
  destruct (Hd E) as [h ->]. cbn [of_option exec_bind]. repeat case_match; eauto.
Qed.

Lemma wf_process now md5 sha1 p s :
  wf_session s -> decoded p ->
  exists s', ProcessBfdPacket now md5 sha1 p s = Ok s' /\ wf_session s' /\ stable s s'.
Proof.
  intros W Hd. destruct (authenticate_total md5 sha1 p s Hd) as [[] Ha].
  2: { rewrite ProcessBfdPacket_eq, Ha. by exists s. }
  destruct (CanProcessBfdControlPacket p) eqn:Hc.
  2: { rewrite ProcessBfdPacket_eq, Ha. cbn [exec_bind negb]. rewrite Hc. by exists s. }
  destruct (process_accepted now md5 sha1 p s (ws_live _ W) Ha Hc) as (s' & E & L & K & B & V & _).
  exists s'. split; [done|]. split; [|by apply kept_stable]. eapply wf_step; [done | done | | apply K |].
  - unfold auth_ready. by rewrite (k_auth _ _ K), B.
  - rewrite V. intros H. case_match; [apply view_event_log|]; exact H.
Qed.

Lemma wf_transmit md5 sha1 w s :
  wf_session s -> exists sent s',
  SendPeriodicControlPackets md5 sha1 w s = Ok (sent, s') /\ wf_session s' /\ stable s s'.
Proof.
  intros W. destruct (send_spec md5 sha1 w s (ws_live _ W) (ws_auth _ W))
    as (sent & s' & E & L & A & (K & V & _) & _).
  exists sent, s'. split; [done|]. split; [|by apply kept_stable]. eapply wf_step; [done | done | done | apply K |].
  by rewrite V.
Qed.

(** A change of fields that [wf_session] does not look at. *)
Lemma wf_fields s s' :
  wf_session s -> live s' -> kept s s' -> bfdPacket s' = bfdPacket s ->
  notifiedState s' = notifiedState s -> notificationCh s' = notificationCh s -> wf_session s'.
Proof.
  intros [? ? ? W] ? K B N C. constructor.
  - done.
  - unfold auth_ready. by rewrite (k_auth _ _ K), B.
  - by rewrite (k_queue _ _ K).
  - by rewrite N, C.
Qed.

Lemma wf_timeout now s :
  wf_session s -> exists s', HandleSessionTimeout now s = Ok s' /\ wf_session s' /\ stable s s'.
Proof.
  intros W. unfold HandleSessionTimeout.
  set (s1 := if movedToDownState s then _ else s).
  assert (wf_session (s1 <| state ::= fun st => st <| LocalDiagType := DIAG_TIME_EXPIRED |> |>)) as W1.
  { eapply wf_fields; [exact W|..]; unfold s1; destruct (movedToDownState s);
      first [apply W | by constructor | done]. }
  destruct (wf_handle_event now TIMEOUT _ W1) as (s2 & -> & W2 & C2). cbn [exec_bind].
  destruct (ws_live _ W2) as [Ht Hr]. rewrite bind_Reset by exact Hr. eexists. split; [reflexivity|].
  split; [eapply wf_fields; [exact W2|..]; first [by split | by constructor | done]|].
  apply same_config_kept, kept_stable in C2. etrans; [|etrans; [exact C2 | by constructor]].
  unfold s1. destruct (movedToDownState s); by constructor.
Qed.

Lemma wf_stop now s :
  wf_session s -> exists s', StopBfdSession now s = Ok s' /\ wf_session s' /\ stable s s'.
Proof.
  intros W. unfold StopBfdSession. destruct (wf_handle_event now ADMIN_DOWN s W) as (s1 & -> & W1 & C1).
  cbn [exec_bind]. eexists. split; [reflexivity|].
  split; [eapply wf_fields; [exact W1|..]; first [apply W1 | by constructor | done]|].
  apply same_config_kept, kept_stable in C1. etrans; [exact C1 | by constructor].
Qed.

Lemma wf_start now s :
  wf_session s -> exists s', StartBfdSession now s = Ok s' /\ wf_session s' /\ stable s s'.
Proof.
  intros W. unfold StartBfdSession. destruct (ws_live _ W) as [Ht Hr].
  rewrite bind_Reset by exact Hr. cbv zeta. rewrite bind_Reset by exact Ht.
  match goal with |- context [handle_event now ADMIN_UP ?t] =>
    destruct (wf_handle_event now ADMIN_UP t) as (s1 & -> & W1 & C1) end.
  - eapply wf_fields; [exact W|..]; first [by split | by constructor | done].
  - exists s1. split; [done|]. split; [done|]. apply same_config_kept, kept_stable in C1.
    etrans; [|exact C1]. by constructor.
Qed.

Lemma wf_run_op md5 sha1 now o s :
  wf_session s -> op_ok o ->
  exists s', run_op md5 sha1 now o s = Ok s' /\ wf_session s' /\ stable s s'.
Proof.
  intros W Ho. destruct o; cbn [run_op].
  - eexists. split; [reflexivity|]. split; [|by constructor]. destruct W. constructor; try done.
    apply Forall_app. by split; [|constructor].
  - unfold StartSessionServer_step. destruct (ReceivedPacketCh s) as [|p rest] eqn:Eq; [by exists s|].
    destruct W as [? ? Hq ?]. rewrite Eq in Hq. apply Forall_cons_iff in Hq as [Hp Hq].
    match goal with |- context [ProcessBfdPacket _ _ _ p ?t] =>
      destruct (wf_process now md5 sha1 p t) as (s' & E & W' & S') end; [by constructor | done |].
    exists s'. split; [done|]. split; [done|]. etrans; [|exact S']. by constructor.
  - destruct (wf_transmit md5 sha1 written s W) as (sent & s' & -> & W' & ?). by exists s'.
  - by apply wf_timeout.
  - by apply wf_stop.
  - by apply wf_start.
  - destruct (wf_handle_event now e s W) as (s' & E & ? & S'). exists s'. split; [done|].
    split; [done|]. by apply kept_stable, same_config_kept.
Qed.

Lemma wf_run_ops md5 sha1 l now s :
  wf_session s -> Forall op_ok l -> exists s', run_ops md5 sha1 now l s = Ok s' /\ wf_session s'.
Proof.
  revert now s. induction l as [|o l IH]; intros now s W Hl; cbn [run_ops]; [by exists s|].
  apply Forall_cons_iff in Hl as [Ho Hl].
  destruct (wf_run_op md5 sha1 now o s W Ho) as (s1 & -> & W1 & _). by apply IH.
Qed.

Lemma auth_ready_off s : authEnabled s = false -> auth_ready s.
Proof. intros E H. congruence. Qed.

(** ** Main properties of a session *)

(** C14: once its client has started, a session without authentication
    survives every sequence of received packets, timer
    expiries, transmissions and administrative commands: no operation panics,
    the session stays well formed, and the announcements to the clients of BFD
    alternate strictly between up and down, the last one being the state the
    session holds as announced. *)
Theorem session_runs_safely md5 sha1 now l s0 s :
  authEnabled s0 = false -> ReceivedPacketCh s0 = [] -> notificationCh s0 = [] ->
  notifiedState s0 = false -> StartSessionClient true s0 = (false, s) ->
  Forall op_ok l ->
  exists s', run_ops md5 sha1 now l s = Ok s' /\ wf_session s'
  /\ alternating false (NotifiedUp <$> notificationCh s') = Some (notifiedState s').
Proof.
  intros Ha Hq Hn Hs Hc Hl. cbn in Hc. injection Hc as <-.
  destruct (wf_run_ops md5 sha1 l now
    (s0 <| txTimer := TimerArmed (txInterval s0) |>
        <| sessionTimer := TimerArmed (rxInterval s0) |> <| isClientActive := true |>
        <| SessionStopClientCh ::= chan_listen |>))
    as (s' & E & W); [|done|].
  - constructor; [by split | by apply auth_ready_off | |].
    + change (Forall decoded (ReceivedPacketCh s0)). by rewrite Hq.
    + change (alternating false (NotifiedUp <$> notificationCh s0) = Some (notifiedState s0)).
      by rewrite Hn, Hs.
  - exists s'. split; [exact E|]. split; [done | apply W].
Qed.

(** The values a session puts into packets fit their fields. *)
Record fits_wire (s : BfdSession) : Prop := {
  fw_version : 0 <= Version (bfdPacket s) < 8;
  fw_diag : 0 <= LocalDiagType (state s) < 32;
  fw_my : is_u32 (LocalDiscriminator (state s));
  fw_your : is_u32 (RemoteDiscriminator (state s));
  fw_tx : is_u32 (s_DesiredMinTxInterval (state s)) /\ is_u32 (DesiredMinTxInterval (bfdPacket s));
  fw_rx : is_u32 (s_RequiredMinRxInterval (state s)) /\ is_u32 (RequiredMinRxInterval (bfdPacket s));
  fw_echo : is_u32 (RequiredMinEchoRxInterval (bfdPacket s))
}.

Lemma fits_wire_built s : fits_wire s -> wf_fixed (built_packet s).
Proof.
  intros [? ? ? ? [] [] ?]. assert (is_u32 2000000) by (unfold is_u32; lia).
  constructor; cbn; try done; destruct (both_up s), (leaves_startup s); done.
Qed.

Lemma built_noauth s : authEnabled s = false -> encoded_auth (built_packet s) = None.
Proof. intros E. unfold encoded_auth. cbn. by rewrite E. Qed.

(** What the peer reads in a packet of this session. *)
Record reports (s : BfdSession) (p : BfdControlPacket) : Prop := {
  r_state : State p = session_state s;
  r_diag : Diagnostic p = LocalDiagType (state s);
  r_mult : DetectMult p = u8 (DetectionMultiplier (state s));
  r_my : MyDiscriminator p = LocalDiscriminator (state s);
  r_your : YourDiscriminator p = RemoteDiscriminator (state s);
  r_final : Final p = pollSequenceFinal s;
  r_poll : Poll p = (pollSequence s || leaves_startup s);
  r_auth : AuthPresent p = false;
  r_version : Version p = Version (bfdPacket s);
  r_multipoint : Multipoint p = Multipoint (bfdPacket s);
  r_intervals :
    if both_up s
    then if leaves_startup s
         then DesiredMinTxInterval p = s_DesiredMinTxInterval (state s)
              /\ RequiredMinRxInterval p = s_RequiredMinRxInterval (state s)
         else DesiredMinTxInterval p = DesiredMinTxInterval (bfdPacket s)
              /\ RequiredMinRxInterval p = RequiredMinRxInterval (bfdPacket s)
    else DesiredMinTxInterval p = STARTUP_TX_INTERVAL /\ RequiredMinRxInterval p = STARTUP_RX_INTERVAL
}.

Lemma built_reports s :
  authEnabled s = false ->
  reports s (built_packet s <| AuthPresent := false |> <| AuthHeader := None |>).
Proof.
  intros E. constructor; try done. unfold built_packet. simpl_rec.
  destruct (both_up s), (leaves_startup s); done.
Qed.

Section OverTheWire.
Context (md5 sha1 : list Z -> list Z).

(** What a transmission with a pending change leaves behind. *)
Record sent_frame (s s' : BfdSession) : Prop := {
  sf_live : live s';
  sf_kept : tx_kept s s';
  sf_fits : fits_wire s';
  sf_fixed : wf_fixed (bfdPacket s');
  sf_buf : bfdPacketBuf s' = CreateBfdControlPacket md5 sha1 (bfdPacket s');
  sf_quiet : no_change s';
  sf_version : Version (bfdPacket s') = Version (bfdPacket s);
  sf_multipoint : Multipoint (bfdPacket s') = Multipoint (bfdPacket s);
  sf_noauth : encoded_auth (bfdPacket s') = None;
  sf_final : Final (bfdPacket s') = false;
  sf_poll : s_DesiredMinTxInterval (state s) <> STARTUP_TX_INTERVAL ->
            s_RequiredMinRxInterval (state s) <> STARTUP_RX_INTERVAL ->
            Poll (bfdPacket s') = false
}.

(** The second rebuild finds no start-up interval left to replace. *)
Lemma rebuilt_poll s s1 :
  kept s s1 -> bfdPacket s1 = built_packet s -> both_up s1 = both_up s -> pollSequence s1 = false ->
  s_DesiredMinTxInterval (state s) <> STARTUP_TX_INTERVAL ->
  s_RequiredMinRxInterval (state s) <> STARTUP_RX_INTERVAL ->
  Poll (built_packet s1) = false.
Proof.
  intros K B U P Ht Hr. cbn. rewrite P. cbn [orb]. unfold leaves_startup at 1. rewrite U, B. cbn.
  destruct (both_up s) eqn:Eu; [|done]. cbn [andb]. apply bool_decide_eq_false_2.
  unfold leaves_startup. rewrite Eu. cbn [andb]. case_bool_decide; tauto.
Qed.

Lemma fits_wire_kept s s' :
  fits_wire s -> tx_kept s s' -> wf_fixed (bfdPacket s') -> fits_wire s'.
Proof.
  intros [? ? ? ? [] [] ?] (K & V & Y & _) []. pose proof (f_equal v_diag V) as D. cbn in D.
  constructor; rewrite ?D, ?(k_my _ _ K), ?Y, ?(k_tx _ _ K), ?(k_rx _ _ K); done.
Qed.

Lemma send_reports w s :
  live s -> authEnabled s = false -> fits_wire s -> NeedBfdPacketUpdate s = true ->
  exists sent s' p, SendPeriodicControlPackets md5 sha1 w s = Ok (sent, s')
  /\ DecodeBfdControlPacket sent = Ok (Some p, None) /\ reports s p /\ sent_frame s s'.
Proof.
  intros Hl Ha Hf Hn.
  destruct (send_spec md5 sha1 w s Hl (auth_ready_off s Ha)) as (sent & s' & E & L & A & T & X).
  rewrite Hn in X. destruct X as (-> & U & O & s1 & K1 & B1 & X1 & X2 & X3 & X4).
  eexists _, s', _. split; [exact E|].
  split; [apply create_decode_noauth; [by apply fits_wire_built | by apply built_noauth]|].
  split; [by apply built_reports|].
  assert (authEnabled s1 = false) as A1 by (rewrite (k_auth _ _ (proj1 K1)); done).
  assert (fits_wire s1) as F1.
  { apply (fits_wire_kept s s1); [done | done |]. rewrite B1. by apply fits_wire_built. }
  assert (wf_fixed (bfdPacket s')) as W by (rewrite X4; by apply fits_wire_built).
  constructor; try done; try (rewrite X4; cbn; rewrite ?B1; done).
  - by apply (fits_wire_kept s s').
  - rewrite X4. by apply built_noauth.
  - intros. rewrite X4. eapply rebuilt_poll; [apply K1 | done..].
Qed.

(** C21: with a change pending, the octets a session without authentication
    sends decode without error, and the decoded packet carries the session's
    state, diagnostic, discriminators and multiplier, and poll and final bits;
    the start-up intervals unless both ends are up, the configured intervals
    when the session leaves the start-up ones, and after that the intervals the
    previous packet had, even when the pending change is one of the configured
    intervals. *)
Theorem sent_packet_reports_session w s :
  live s -> authEnabled s = false -> fits_wire s -> NeedBfdPacketUpdate s = true ->
  exists sent s' p, SendPeriodicControlPackets md5 sha1 w s = Ok (sent, s')
  /\ DecodeBfdControlPacket sent = Ok (Some p, None) /\ reports s p.
Proof.
  intros Hl Ha Hf Hn. destruct (send_reports w s Hl Ha Hf Hn) as (sent & s' & p & ? & ? & ? & _).
  by exists sent, s', p.
Qed.

(** ** Two sessions *)

(** One transmission of [a] received by [b]. *)
Definition exchange (now : Z) (a b : BfdSession) : exec (BfdSession * BfdSession) :=
  let! (sent, a) := SendPeriodicControlPackets md5 sha1 true a in
  let! r := DecodeBfdControlPacket sent in
  match r with
  | (Some p, None) => let! b := ProcessBfdPacket now md5 sha1 p b in Ok (a, b)
  | _ => Ok (a, b)
  end.

(** A started session without authentication whose packets are acceptable. *)
Record speaks (s : BfdSession) : Prop := {
  sp_live : live s;
  sp_active : isClientActive s = true;
  sp_auth : authEnabled s = false;
  sp_fits : fits_wire s;
  sp_version : Version (bfdPacket s) = DEFAULT_BFD_VERSION;
  sp_multipoint : Multipoint (bfdPacket s) = false;
  sp_mult : u8 (DetectionMultiplier (state s)) <> 0;
  sp_my : LocalDiscriminator (state s) <> 0
}.

Lemma speaks_acceptable s p : speaks s -> reports s p -> CanProcessBfdControlPacket p = true.
Proof.
  intros [] []. unfold CanProcessBfdControlPacket. cbv zeta.
  rewrite r_multipoint0, sp_multipoint0. settle_decide; congruence.
Qed.

Lemma unauthenticated_accepted p s :
  AuthPresent p = false -> AuthenticateReceivedControlPacket md5 sha1 p s = Ok true.
Proof. intros E. unfold AuthenticateReceivedControlPacket. by rewrite E. Qed.

(** The local state after an event. *)
Definition local_after (st : BfdSessionState) (e : BfdSessionEvent) : BfdSessionState :=
  match fsm_next st e with
  | Some ToDown => STATE_DOWN | Some ToInit => STATE_INIT | Some ToUp => STATE_UP
  | Some LocalAdmin => STATE_ADMIN_DOWN | Some RemoteAdmin | None => st
  end.

Lemma announce_frame v :
  v_local (announce v) = v_local v /\ v_remote (announce v) = v_remote v
  /\ v_diag (announce v) = v_diag v.
Proof. unfold announce. by case_bool_decide. Qed.

Lemma view_event_local e v : v_local (view_event e v) = local_after (v_local v) e.
Proof.
  unfold view_event, local_after. destruct (fsm_next (v_local v) e) as [[]|]; cbn [from_option view_act];
  rewrite ?(proj1 (announce_frame _)); done.
Qed.

Lemma view_event_diag e v : 0 <= v_diag v < 32 -> 0 <= v_diag (view_event e v) < 32.
Proof.
  unfold view_event. destruct (fsm_next (v_local v) e) as [[]|]; cbn [from_option view_act];
  rewrite ?(proj2 (proj2 (announce_frame _))); cbn; unfold DIAG_NONE, DIAG_ADMIN_DOWN, DIAG_NEIGHBOR_SIGNAL_DOWN; lia.
Qed.

Lemma heard_diag p v : 0 <= v_diag v < 32 -> 0 <= v_diag (heard p v) < 32.
Proof. unfold heard. cbn. unfold DIAG_NEIGHBOR_SIGNAL_DOWN. repeat case_match; lia. Qed.

Lemma speaks_sent s s' : speaks s -> sent_frame s s' -> speaks s'.
Proof.
  intros [] [L (K & _) F _ _ _ V M _ _ _]. destruct K. constructor; try done; congruence.
Qed.

Lemma fits_wire_received e p s s' :
  fits_wire s -> kept s s' -> bfdPacket s' = bfdPacket s ->
  view_of s' = view_event e (heard p (view_of s)) ->
  is_u32 (RemoteDiscriminator (state s')) -> fits_wire s'.
Proof.
  intros [? FD ? ? [] [] ?] [] B V Hy. pose proof (f_equal v_diag V) as VD. cbn in VD.
  constructor; rewrite ?B, ?k_my0, ?k_tx0, ?k_rx0; try done.
  rewrite VD. apply view_event_diag, heard_diag. done.
Qed.

(** One packet from [a] to [b]: [b] learns [a]'s state and discriminator and
    moves as the state machine says; [a] itself does not move. *)
Lemma exchange_spec now a b :
  speaks a -> speaks b -> NeedBfdPacketUpdate a = true ->
  exists a' b', exchange now a b = Ok (a', b') /\ speaks a' /\ speaks b'
  /\ view_of a' = view_of a
  /\ session_state b' = local_after (session_state b) (event_of_state (session_state a))
  /\ RemoteDiscriminator (state a') = RemoteDiscriminator (state a)
  /\ RemoteDiscriminator (state b') = LocalDiscriminator (state a)
  /\ LocalDiscriminator (state a') = LocalDiscriminator (state a)
  /\ LocalDiscriminator (state b') = LocalDiscriminator (state b)
  /\ (changes_state (fsm_next (session_state b) (event_of_state (session_state a))) = true ->
      NeedBfdPacketUpdate b' = true).
Proof.
  intros Sa Sb Hn.
  destruct (send_reports true a (sp_live _ Sa) (sp_auth _ Sa) (sp_fits _ Sa) Hn)
    as (sent & a' & p & E & D & R & F).
  pose proof (r_state _ _ R) as Rs.
  destruct (process_accepted now md5 sha1 p b (sp_live _ Sb)
    (unauthenticated_accepted p b (r_auth _ _ R)) (speaks_acceptable a p Sa R))
    as (b' & E' & L' & K' & B' & V' & D' & _ & X').
  rewrite (sp_active _ Sb) in V'. specialize (X' (sp_active _ Sb)). rewrite Rs in V', X'.
  exists a', b'. unfold exchange. rewrite E. cbn [exec_bind]. rewrite D. cbn [exec_bind].
  rewrite E'. split; [done|]. split; [exact (speaks_sent a a' Sa F)|].
  pose proof (f_equal v_local V') as VL. rewrite view_event_local in VL.
  split; [|split_and!].
  - assert (fits_wire b') as Fb.
    { eapply fits_wire_received; [apply Sb | done..|]. rewrite D', (r_my _ _ R). apply Sa. }
    destruct Sb, K'. constructor; try congruence; done.
  - apply F.
  - done.
  - apply F.
  - by rewrite D', (r_my _ _ R).
  - apply F.
  - apply K'.
  - intros Hc. unfold NeedBfdPacketUpdate. rewrite (X' Hc). apply orb_true_r.
Qed.

(** C17: three packets bring two sessions up that are both Down, have their
    clients running, use no authentication and have acceptable values for the
    fields of a packet ([speaks]), when the first one has a change to send: the
    first moves the receiver to init, the answer moves its sender's peer up,
    the third moves the other end up; each end then knows the other's
    discriminator. *)
Theorem three_way_handshake now a b :
  speaks a -> speaks b -> session_state a = STATE_DOWN -> session_state b = STATE_DOWN ->
  NeedBfdPacketUpdate a = true ->
  exists a1 b1 a2 b2 a3 b3,
    exchange now a b = Ok (a1, b1) /\ session_state b1 = STATE_INIT
    /\ exchange (now + 1) b1 a1 = Ok (b2, a2) /\ session_state a2 = STATE_UP
    /\ exchange (now + 2) a2 b2 = Ok (a3, b3)
    /\ session_state a3 = STATE_UP /\ session_state b3 = STATE_UP
    /\ RemoteDiscriminator (state a3) = LocalDiscriminator (state b3)
    /\ RemoteDiscriminator (state b3) = LocalDiscriminator (state a3).
Proof.
  intros Sa Sb Da Db Hn.
  destruct (exchange_spec now a b Sa Sb Hn) as (a1 & b1 & E1 & Sa1 & Sb1 & Va1 & Lb1 & _ & _ & Ma1 & Mb1 & N1).
  rewrite Da, Db in *. cbn in Lb1. specialize (N1 eq_refl).
  pose proof (f_equal v_local Va1) as La1. cbn in La1. rewrite Da in La1.
  destruct (exchange_spec (now + 1) b1 a1 Sb1 Sa1 N1) as (b2 & a2 & E2 & Sb2 & Sa2 & Vb2 & La2 & _ & Ra2 & Mb2 & Ma2 & N2).
  rewrite La1, Lb1 in *. cbn in La2. specialize (N2 eq_refl).
  pose proof (f_equal v_local Vb2) as Lb2. cbn in Lb2. rewrite Lb1 in Lb2.
  destruct (exchange_spec (now + 2) a2 b2 Sa2 Sb2 N2) as (a3 & b3 & E3 & _ & _ & Va3 & Lb3 & Ra3 & Rb3 & Ma3 & Mb3 & _).
  rewrite La2, Lb2 in *. cbn in Lb3.
  pose proof (f_equal v_local Va3) as La3. cbn in La3. rewrite La2 in La3.
  exists a1, b1, a2, b2, a3, b3. split_and!; try done; congruence.
Qed.

(** a packet with the poll bit that a session accepts is answered: the
    next packet the session sends carries the final bit, and the one after it,
    if nothing else changes, does not (nor a poll bit, unless a configured
    interval equals the start-up interval). *)
Theorem poll_answered_once now w p s :
  speaks s -> AuthPresent p = false -> CanProcessBfdControlPacket p = true ->
  is_u32 (MyDiscriminator p) -> Poll p = true -> session_state s <> STATE_ADMIN_DOWN ->
  s_DesiredMinTxInterval (state s) <> STARTUP_TX_INTERVAL ->
  s_RequiredMinRxInterval (state s) <> STARTUP_RX_INTERVAL ->
  exists s1 sent1 s2 q1 sent2 s3 q2,
    ProcessBfdPacket now md5 sha1 p s = Ok s1
    /\ SendPeriodicControlPackets md5 sha1 w s1 = Ok (sent1, s2)
    /\ DecodeBfdControlPacket sent1 = Ok (Some q1, None) /\ Final q1 = true
    /\ SendPeriodicControlPackets md5 sha1 w s2 = Ok (sent2, s3)
    /\ DecodeBfdControlPacket sent2 = Ok (Some q2, None) /\ Final q2 = false /\ Poll q2 = false.
Proof.
  intros S Hau Hcan Hmy Hp Hs Ht Hr.
  destruct (process_accepted now md5 sha1 p s (sp_live _ S) (unauthenticated_accepted p s Hau) Hcan)
    as (s1 & E1 & L1 & K1 & B1 & V1 & D1 & P1 & _).
  destruct (P1 Hp Hs) as [Pf Pc]. rewrite (sp_active _ S) in V1.
  assert (fits_wire s1) as F1.
  { eapply fits_wire_received; [apply S | done..|]. by rewrite D1. }
  assert (NeedBfdPacketUpdate s1 = true) as N1
    by (unfold NeedBfdPacketUpdate; rewrite Pc, ?orb_true_r; done).
  assert (authEnabled s1 = false) as A1 by (rewrite (k_auth _ _ K1); apply S).
  destruct (send_reports w s1 L1 A1 F1 N1) as (sent1 & s2 & q1 & E2 & Q1 & R1 & F2).
  assert (authEnabled s2 = false) as A2 by (rewrite (k_auth _ _ (proj1 (sf_kept _ _ F2))); done).
  destruct (send_spec md5 sha1 w s2 (sf_live _ _ F2) (auth_ready_off s2 A2)) as (sent2 & s3 & E3 & _ & _ & _ & X).
  destruct (sf_quiet _ _ F2) as (_ & _ & Hq). rewrite Hq in X. destruct X as [-> _].
  exists s1, sent1, s2, q1. eexists _, s3, _. split; [done|]. split; [done|]. split; [done|].
  split; [by rewrite (r_final _ _ R1)|]. split; [exact E3|]. rewrite (sf_buf _ _ F2).
  split; [apply create_decode_noauth; apply F2|]. split; [apply F2|].
  apply (sf_poll _ _ F2); [rewrite (k_tx _ _ K1); done | rewrite (k_rx _ _ K1); done].
Qed.

(** ** Detection time *)

Lemma i32_mul_l a b : i32 (i32 a * b) = i32 (a * b).
Proof.
  unfold i32. f_equal.
  set (q := (a + 2 ^ 31) / 2 ^ 32).
  replace ((a + 2 ^ 31) mod 2 ^ 32) with (a + 2 ^ 31 - 2 ^ 32 * q)
    by (unfold q; rewrite Z.mod_eq by lia; lia).
  replace ((a + 2 ^ 31 - 2 ^ 32 * q - 2 ^ 31) * b + 2 ^ 31)
    with (a * b + 2 ^ 31 + (- q * b) * 2 ^ 32) by ring.
  by rewrite Z_mod_plus_full.
Qed.

Lemma i32_wrapped x : 2 ^ 31 <= x -> i32 x <= x - 2 ^ 32.
Proof. unfold i32. intros. rewrite Z.mod_eq by lia. Z.div_mod_to_equations. lia. Qed.

(** for a packet received while both ends are up, the detection time is
    the peer's transmit interval times its multiplier, in milliseconds,
    exactly when that product fits a 32-bit signed integer; beyond it (from
    about 36 minutes on) the product wraps around. *)
Theorem detection_time_exact_iff p s :
  both_up s = true -> is_u32 (DesiredMinTxInterval p) -> is_u8 (DetectMult p) ->
  received_rxInterval p s = Z.quot (DesiredMinTxInterval p * DetectMult p) 1000
  <-> DesiredMinTxInterval p * DetectMult p < 2 ^ 31.
Proof.
  intros Hup Ht Hm. unfold received_rxInterval. apply bool_decide_eq_true_1 in Hup.
  rewrite decide_True by done. rewrite (i32_small (DetectMult p)) by (unfold is_i32, is_u8 in *; lia).
  rewrite i32_mul_l. unfold is_u32, is_u8 in *.
  assert (0 <= DesiredMinTxInterval p * DetectMult p) by nia.
  split; [|intros; rewrite i32_small by (unfold is_i32; lia); done].
  intros E. destruct (decide (DesiredMinTxInterval p * DetectMult p < 2 ^ 31)) as [|Hbig]; [done|].
  exfalso. pose proof (i32_wrapped (DesiredMinTxInterval p * DetectMult p)) as Hw.
  pose proof (Z.quot_le_mono (i32 (DesiredMinTxInterval p * DetectMult p))
    (DesiredMinTxInterval p * DetectMult p - 2 ^ 32) 1000) as Hq.
  assert (Z.quot (DesiredMinTxInterval p * DetectMult p - 2 ^ 32) 1000
          < Z.quot (DesiredMinTxInterval p * DetectMult p) 1000) by (Z.quot_rem_to_equations; lia).
  lia.
Qed.

(** C22: when the detection timer fires on an active session, an up or init
    session goes down with the diagnostic "time expired" and announces it; a
    session that is already down keeps its state; the second expiry in a row
    forgets the peer's discriminator; the detection timer always restarts. *)
Theorem timeout_tears_down now s :
  live s -> isClientActive s = true ->
  exists s', HandleSessionTimeout now s = Ok s' /\ live s'
  /\ sessionTimer s' = TimerArmed (rxInterval s')
  /\ RemoteDiscriminator (state s')
     = (if movedToDownState s then 0 else RemoteDiscriminator (state s))
  /\ view_of s' = view_event TIMEOUT
       ((view_of s) <| v_diag := DIAG_TIME_EXPIRED |>
                    <| v_remote := if movedToDownState s then STATE_DOWN else remote_state s |>).
Proof.
  intros Hl Ha. unfold HandleSessionTimeout.
  set (s1 := if movedToDownState s then _ else s).
  set (s2 := s1 <| state ::= _ |>).
  assert (live s2 /\ isClientActive s2 = true
    /\ RemoteDiscriminator (state s2) = (if movedToDownState s then 0 else RemoteDiscriminator (state s))
    /\ view_of s2 = (view_of s) <| v_diag := DIAG_TIME_EXPIRED |>
         <| v_remote := if movedToDownState s then STATE_DOWN else remote_state s |>)
    as (L & A & D & V).
  { unfold s2, s1. destruct (movedToDownState s); (split; [apply Hl | done]). }
  clearbody s2. destruct (handle_event_spec now TIMEOUT s2 L) as (s3 & -> & [Ht Hr] & S & V3 & _).
  cbn [exec_bind]. rewrite A, V in V3. rewrite bind_Reset by exact Hr.
  eexists. split; [reflexivity|]. split; [by split|]. split; [done|].
  split; [|exact V3]. etrans; [exact (sc_your _ _ S) | exact D].
Qed.

(** ** Authentication *)

(** with authentication enabled on a session whose packet has no
    authentication header (the packet every new session starts from), the
    first transmission after a change dereferences a nil header. *)
Theorem authenticated_transmission_panics w s :
  live s -> authEnabled s = true -> AuthHeader (bfdPacket s) = None ->
  NeedBfdPacketUpdate s = true ->
  SendPeriodicControlPackets md5 sha1 w s = Panic.
Proof.
  intros Hl Ha Hh Hn. rewrite SendPeriodic_eq, Hn. unfold rebuild_packet. rewrite Update_eq.
  destruct (intervals_part_spec (scalar_fields s)) as (s2 & -> & F2 & _ & B2); [apply Hl|].
  destruct F2 as (_ & K & _). cbn [exec_bind]. unfold update_auth.
  change (authEnabled (poll_fields s2)) with (authEnabled s2). rewrite (k_auth _ _ K).
  change (authEnabled (scalar_fields s)) with (authEnabled s). rewrite Ha.
  change (AuthHeader (bfdPacket (poll_fields s2 <| bfdPacket ::= _ |>))) with (AuthHeader (bfdPacket s2)).
  rewrite B2. change (AuthHeader _) with (AuthHeader (bfdPacket s)) at 1. rewrite Hh. done.
Qed.

(** for the digest types, a received packet is authenticated by comparing
    its digest with the digest of the empty string: the password of the
    session plays no role, nor does anything of the packet outside its
    authentication header. *)
Theorem digest_check_ignores_packet p q h s :
  AuthPresent p = true -> AuthPresent q = true ->
  AuthHeader p = Some h -> AuthHeader q = Some h -> Type_ h <> BFD_AUTH_TYPE_SIMPLE ->
  (forall key, AuthenticateReceivedControlPacket md5 sha1 p s
               = AuthenticateReceivedControlPacket md5 sha1 q (s <| authData := key |>))
  /\ (AuthenticateReceivedControlPacket md5 sha1 p s = Ok true <->
      Type_ h = authType s /\ AuthKeyID h = authKeyId s /\ SequenceNumber h >= ReceivedAuthSeq (state s)
      /\ ((is_md5 (Type_ h) = true /\ AuthData h = md5 [])
          \/ (is_md5 (Type_ h) = false /\ is_sha1 (Type_ h) = true /\ AuthData h = sha1 []))).
Proof.
  intros Pp Pq Hp Hq Ht. unfold AuthenticateReceivedControlPacket.
  rewrite Pp, Pq, Hp, Hq. cbn [negb of_option exec_bind]. unfold binary_Write_packet. cbv zeta.
  split.
  - intros key. change (authType (s <| authData := key |>)) with (authType s).
    change (authKeyId (s <| authData := key |>)) with (authKeyId s).
    change (state (s <| authData := key |>)) with (state s).
    destruct (decide (Type_ h = authType s)); [|done]. by rewrite !(decide_False (P := Type_ h = _)).
  - destruct (decide (Type_ h = authType s)) as [Et|]; [|naive_solver].
    rewrite (decide_False (P := Type_ h = _)) by done.
    case_decide; [|split; [done | tauto]].
    destruct (is_md5 (Type_ h)), (is_sha1 (Type_ h)); try case_bool_decide; naive_solver.
Qed.

(** enabling authentication does not make it required: a session with
    authentication enabled accepts a packet without it. *)
Theorem authentication_not_required now p s :
  live s -> AuthPresent p = false -> CanProcessBfdControlPacket p = true ->
  exists s', ProcessBfdPacket now md5 sha1 p s = Ok s'
  /\ RemoteDiscriminator (state s') = MyDiscriminator p
  /\ (isClientActive s = true ->
      session_state s' = local_after (session_state s) (event_of_state (State p))).
Proof.
  intros Hl Hp Hc.
  destruct (process_accepted now md5 sha1 p s Hl (unauthenticated_accepted p s Hp) Hc)
    as (s' & E & _ & _ & _ & V & D & _).
  exists s'. split; [done|]. split; [done|]. intros Ha. rewrite Ha in V.
  pose proof (f_equal v_local V) as VL. rewrite view_event_local in VL. exact VL.
Qed.

End OverTheWire.

(** ** Witnesses *)

(** A session as [NewNormalBfdSession] leaves it, with the given
    discriminator. *)
Definition demo_state (d : Z) : SessionState := {|
  IpAddr := "10.0.0.2"; LocalAddr := "10.0.0.1"; SessionId := d; ParamName := "default";
  Interface := ""; InterfaceSpecific := false; PerLinkSession := false;
  LocalMacAddr := []; RemoteMacAddr := [];
  RegisteredProtocols := [false; true; false; false; false];
  SessionState_ := STATE_DOWN; RemoteSessionState := STATE_DOWN;
  LocalDiscriminator := d; RemoteDiscriminator := 0; LocalDiagType := DIAG_NONE;
  s_DesiredMinTxInterval := 250000; s_RequiredMinRxInterval := 250000;
  RemoteMinRxInterval := 0; DetectionMultiplier := 3; RemoteDetectionMultiplier := 0;
  DemandMode := false; RemoteDemandMode := false; AuthType := 0; AuthSeqKnown := false;
  ReceivedAuthSeq := 0; SentAuthSeq := 0; NumTxPackets := 0; NumRxPackets := 0;
  ToDownCount := 0; ToUpCount := 0; UpTime := 0 |}.

Definition demo_new (d : Z) : BfdSession := {|
  state := demo_state d; rxInterval := 6000; sessionTimer := TimerNil; txInterval := 2000;
  txTimer := TimerNil; txJitter := 10; bfdPacket := NewBfdControlPacketDefault;
  bfdPacketBuf := []; ReceivedPacketCh := []; SessionStopClientCh := None;
  SessionStopServerCh := None; pollSequence := false; pollSequenceFinal := false;
  pollChanged := false; authEnabled := false; authType := 0; authSeqNum := 1; authKeyId := 1;
  authData := []; useDedicatedMac := true; paramChanged := true; remoteParamChanged := false;
  stateChanged := false; isClientActive := false; movedToDownState := false;
  notifiedState := false; notificationCh := [] |}.

Definition demo_session (d : Z) : BfdSession := snd (StartSessionClient true (demo_new d)).

(** The packet a neighbour with discriminator 9 sends in a state. *)
Definition demo_rx (st : BfdSessionState) (poll : bool) : BfdControlPacket :=
  NewBfdControlPacketDefault <| State := st |> <| Poll := poll |> <| MyDiscriminator := 9 |>.

(** A session up at both ends. *)
Definition demo_up : BfdSession :=
  demo_session 7 <| state ::= fun st => st <| SessionState_ := STATE_UP |>
                                           <| RemoteSessionState := STATE_UP |> |>.

Ltac fits := constructor; vm_compute; repeat split; congruence.

Lemma demo_live d : live (demo_session d).
Proof. split; discriminate. Defined.

Lemma demo_speaks : speaks (demo_session 7).
Proof. constructor; try (vm_compute; first [reflexivity | congruence]); [split; discriminate | fits]. Defined.
Lemma demo_speaks_peer : speaks (demo_session 9).
Proof. constructor; try (vm_compute; first [reflexivity | congruence]); [split; discriminate | fits]. Defined.

Lemma event_handler_refines_witness :
  exists s', EventHandler 0 REMOTE_DOWN (demo_session 7) = Ok (true, s')
  /\ live s' /\ view_of s' = view_event REMOTE_DOWN (view_of (demo_session 7))
  /\ (fsm_next (session_state (demo_session 7)) REMOTE_DOWN = None -> s' = demo_session 7).
Proof. exact (event_handler_refines 0 REMOTE_DOWN (demo_session 7) (demo_live 7)). Defined.

Lemma session_runs_safely_witness :
  exists s', run_ops demo_md5 demo_sha1 0
    [OpTransmit true; OpDispatch (demo_rx STATE_INIT false); OpReceive; OpTimeout; OpAdminDown]
    (demo_session 7) = Ok s' /\ wf_session s'
  /\ alternating false (NotifiedUp <$> notificationCh s') = Some (notifiedState s').
Proof.
  apply (session_runs_safely demo_md5 demo_sha1 0 _ (demo_new 7)); try reflexivity.
  repeat constructor. intros E. discriminate E.
Defined.

Lemma sent_packet_reports_session_witness :
  exists sent s' p, SendPeriodicControlPackets demo_md5 demo_sha1 true (demo_session 7) = Ok (sent, s')
  /\ DecodeBfdControlPacket sent = Ok (Some p, None) /\ reports (demo_session 7) p.
Proof.
  apply (sent_packet_reports_session demo_md5 demo_sha1 true (demo_session 7));
    [apply demo_live | reflexivity | fits | reflexivity].
Defined.

Lemma three_way_handshake_witness :
  exists a1 b1 a2 b2 a3 b3,
    exchange demo_md5 demo_sha1 0 (demo_session 7) (demo_session 9) = Ok (a1, b1)
    /\ session_state b1 = STATE_INIT
    /\ exchange demo_md5 demo_sha1 (0 + 1) b1 a1 = Ok (b2, a2) /\ session_state a2 = STATE_UP
    /\ exchange demo_md5 demo_sha1 (0 + 2) a2 b2 = Ok (a3, b3)
    /\ session_state a3 = STATE_UP /\ session_state b3 = STATE_UP
    /\ RemoteDiscriminator (state a3) = LocalDiscriminator (state b3)
    /\ RemoteDiscriminator (state b3) = LocalDiscriminator (state a3).
Proof.
  apply (three_way_handshake demo_md5 demo_sha1 0 (demo_session 7) (demo_session 9));
    [apply demo_speaks | apply demo_speaks_peer | reflexivity..].
Defined.

Lemma poll_answered_once_witness :
  exists s1 sent1 s2 q1 sent2 s3 q2,
    ProcessBfdPacket 0 demo_md5 demo_sha1 (demo_rx STATE_DOWN true) (demo_session 7) = Ok s1
    /\ SendPeriodicControlPackets demo_md5 demo_sha1 true s1 = Ok (sent1, s2)
    /\ DecodeBfdControlPacket sent1 = Ok (Some q1, None) /\ Final q1 = true
    /\ SendPeriodicControlPackets demo_md5 demo_sha1 true s2 = Ok (sent2, s3)
    /\ DecodeBfdControlPacket sent2 = Ok (Some q2, None) /\ Final q2 = false /\ Poll q2 = false.
Proof.
  apply (poll_answered_once demo_md5 demo_sha1 0 true (demo_rx STATE_DOWN true) (demo_session 7));
    [apply demo_speaks | reflexivity | reflexivity | vm_compute; split; congruence | reflexivity
    | discriminate | discriminate | discriminate].
Defined.

(** A peer sending every 20 seconds with multiplier 255: the detection time
    comes out as 805.032 seconds instead of 5100. *)
Definition slow_peer : BfdControlPacket :=
  NewBfdControlPacketDefault <| DetectMult := 255 |> <| DesiredMinTxInterval := 20000000 |>.

Lemma detection_time_exact_iff_witness :
  received_rxInterval slow_peer demo_up = 805032
  /\ received_rxInterval slow_peer demo_up <> Z.quot (20000000 * 255) 1000.
Proof.
  split; [reflexivity|]. intros E.
  assert (20000000 * 255 < 2 ^ 31) as H; [|vm_compute in H; discriminate H].
  apply (detection_time_exact_iff slow_peer demo_up);
    [reflexivity | split; (discriminate || reflexivity) | split; (discriminate || reflexivity) | exact E].
Defined.

Lemma timeout_tears_down_witness :
  exists s', HandleSessionTimeout 0 demo_up = Ok s' /\ live s'
  /\ sessionTimer s' = TimerArmed (rxInterval s')
  /\ RemoteDiscriminator (state s') = 0
  /\ view_of s' = mkView STATE_DOWN STATE_UP DIAG_TIME_EXPIRED 0 1 false [].
Proof. apply (timeout_tears_down 0 demo_up); [split; discriminate | reflexivity]. Defined.

Lemma authenticated_transmission_panics_witness :
  SendPeriodicControlPackets demo_md5 demo_sha1 true (demo_session 7 <| authEnabled := true |>) = Panic.
Proof.
  apply (authenticated_transmission_panics demo_md5 demo_sha1 true);
    [split; discriminate | reflexivity | reflexivity | reflexivity].
Defined.

(** A packet anyone can forge: the digest of the empty string. *)
Definition forged_header : BfdAuthHeader :=
  mkBfdAuthHeader BFD_AUTH_TYPE_KEYED_MD5 1 7 (demo_md5 []).

Lemma digest_check_ignores_packet_witness :
  AuthenticateReceivedControlPacket demo_md5 demo_sha1
    (demo_rx STATE_ADMIN_DOWN false <| AuthPresent := true |> <| AuthHeader := Some forged_header |>)
    (demo_session 7 <| authType := BFD_AUTH_TYPE_KEYED_MD5 |> <| authData := [115; 101; 99] |>)
  = Ok true.
Proof.
  eapply (digest_check_ignores_packet demo_md5 demo_sha1 _
    (demo_rx STATE_ADMIN_DOWN false <| AuthPresent := true |> <| AuthHeader := Some forged_header |>)
    forged_header); try reflexivity; [discriminate|].
  split_and!; try reflexivity; [discriminate | left; split; reflexivity].
Defined.

Lemma authentication_not_required_witness :
  exists s', ProcessBfdPacket 0 demo_md5 demo_sha1 (demo_rx STATE_DOWN false)
               (demo_session 7 <| authEnabled := true |>) = Ok s'
  /\ RemoteDiscriminator (state s') = 9
  /\ (isClientActive (demo_session 7 <| authEnabled := true |>) = true ->
      session_state s' = STATE_INIT).
Proof.
  apply (authentication_not_required demo_md5 demo_sha1 0 (demo_rx STATE_DOWN false));
    [split; discriminate | reflexivity | reflexivity].
Defined.
