(* ===== verification/BfdServer.v ===== *)
(** * The BFD server (src/l3/bfd/server)

    The table of sessions and the operations of the session manager:
    bfdSessionServer.go (creation, deletion, administration, dispatch of
    received packets, retry of clients), bfdSessionParam.go (parameter sets),
    bfdGlobalConf.go and bfdSessionGetBulk.go.  Sessions are objects shared by
    two maps, so they live in a heap and the maps hold references to it; a nil
    dereference is a panic.  The order in which Go walks a map, the answers of
    the routing daemon and the random draws are parameters.

    A stop channel has no buffer: stopping a session hands the message to a
    goroutine that waits for it, and waits for ever ([Hang]) when there is
    none.  [CreatedSessionCh] and [FailedSessionClientCh] have room for 1024
    identifiers and [ReceivedPacketCh] for 128 packets; their receivers take
    no lock, so a sender that finds them full waits for its turn and they are
    queues here. *)

From S2P Require Import Prelude BfdPacket BfdSession.

Definition MAX_NUM_SESSIONS : Z := 1024.

(** Owners of a session and operations on it (bfddCommonDefs). *)
Definition DISC : Z := 1.
Definition USER : Z := 2.
Definition BGP : Z := 3.
Definition OSPF : Z := 4.

Inductive BfdSessionOperation : Set := CREATE | DELETE | ADMINUP | ADMINDOWN | OtherOperation.

Definition ConvertBfdSessionOwnerStrToVal (owner : string) : Z :=
  if decide (owner = "discover") then DISC
  else if decide (owner = "user") then USER
  else if decide (owner = "bgp") then BGP
  else if decide (owner = "ospf") then OSPF
  else 0.

(** ** Interface indices *)
Definition IfTypePort : Z := 0.
Definition IfTypeLag : Z := 1.
Definition IfTypeVlan : Z := 2.

Definition GetTypeFromIfIndex (ifIndex : Z) : Z :=
  Z.shiftr (Z.land ifIndex 0x7f000000) 24.

(** ** State *)

Record SessionParamState := mkSessionParamState {
  sp_Name : string;
  sp_NumSessions : Z;
  sp_LocalMultiplier : Z;
  sp_DesiredMinTxInterval : Z;
  sp_RequiredMinRxInterval : Z;
  sp_RequiredMinEchoRxInterval : Z;
  sp_DemandEnabled : bool;
  sp_AuthenticationEnabled : bool;
  sp_AuthenticationType : Z;
  sp_AuthenticationKeyId : Z;
  sp_AuthenticationData : list Z
}.
#[export] Instance SessionParamState_settable : Settable SessionParamState := fun p =>
  mkSessionParamState (sp_Name p) (sp_NumSessions p) (sp_LocalMultiplier p)
    (sp_DesiredMinTxInterval p) (sp_RequiredMinRxInterval p) (sp_RequiredMinEchoRxInterval p)
    (sp_DemandEnabled p) (sp_AuthenticationEnabled p) (sp_AuthenticationType p)
    (sp_AuthenticationKeyId p) (sp_AuthenticationData p).

(** [&BfdSessionParam{}] *)
Definition zero_param : SessionParamState :=
  mkSessionParamState "" 0 0 0 0 0 false false 0 0 [].

Record SessionParamConfig := mkSessionParamConfig {
  pc_Name : string;
  pc_LocalMultiplier : Z;
  pc_DesiredMinTxInterval : Z;
  pc_RequiredMinRxInterval : Z;
  pc_RequiredMinEchoRxInterval : Z;
  pc_DemandEnabled : bool;
  pc_AuthenticationEnabled : bool;
  pc_AuthenticationType : Z;
  pc_AuthenticationKeyId : Z;
  pc_AuthenticationData : list Z
}.

Record BfdSessionMgmt := mkBfdSessionMgmt {
  m_DestIp : string;
  m_ParamName : string;
  m_Interface : string;
  m_Protocol : Z;
  m_PerLink : bool;
  m_ForceDel : bool
}.

Record SessionConfig := mkSessionConfig {
  c_DestIp : string;
  c_ParamName : string;
  c_Interface : string;
  c_PerLink : bool;
  c_Protocol : Z;
  c_Operation : BfdSessionOperation
}.

Record GlobalConfig := mkGlobalConfig { g_Vrf : string; g_Enable : bool }.

(** A reference to a session object. *)
Notation ref := nat (only parsing).

Record BFDServer := mkBFDServer {
  heap : list BfdSession;
  Vrf : string;
  Enabled : bool;
  NumSessions : Z;
  Sessions : gmap Z ref;
  SessionsIdSlice : list Z;
  SessionsByIp : gmap string ref;
  InactiveSessionsIdSlice : list Z;
  NumSessionParams : Z;
  SessionParams : gmap string SessionParamState;
  tobeCreatedSessions : gmap string BfdSessionMgmt;
  CreatedSessionCh : list Z;
  FailedSessionClientCh : list Z;
  startingClients : list (ref * bool);  (* client goroutines not yet running, per-link or not *)
  lagPropertyMap : gmap Z (list Z);     (* the links of a lag *)
  vlanPropertyMap : gmap Z string;
  portPropertyMap : gmap Z string;
  ribdTracked : list (string * bool)    (* TrackReachabilityStatus calls *)
}.
#[export] Instance BFDServer_settable : Settable BFDServer := fun v =>
  mkBFDServer (heap v) (Vrf v) (Enabled v) (NumSessions v) (Sessions v) (SessionsIdSlice v)
    (SessionsByIp v) (InactiveSessionsIdSlice v) (NumSessionParams v) (SessionParams v)
    (tobeCreatedSessions v) (CreatedSessionCh v) (FailedSessionClientCh v) (startingClients v)
    (lagPropertyMap v) (vlanPropertyMap v) (portPropertyMap v) (ribdTracked v).

Definition NewBFDServer : BFDServer :=
  mkBFDServer [] "" false 0 ∅ [] ∅ [] 0 ∅ ∅ [] [] [] ∅ ∅ ∅ [].

(** ** References *)

Definition deref (v : BFDServer) (r : ref) : exec BfdSession := of_option (heap v !! r).

Definition write (r : ref) (s : BfdSession) (v : BFDServer) : BFDServer :=
  v <| heap ::= fun h => <[r := s]> h |>.

(** Run a method of the session behind a reference. *)
Definition on_session (f : BfdSession -> exec BfdSession) (r : ref) (v : BFDServer) : exec BFDServer :=
  let! s := deref v r in
  let! s := f s in
  Ok (write r s v).

(** [server.bfdGlobal.Sessions[id]], used without a nil check. *)
Definition session_ref (v : BFDServer) (id : Z) : exec ref := of_option (Sessions v !! id).

Definition zero_state : SessionState := {|
  IpAddr := ""; LocalAddr := ""; SessionId := 0; ParamName := ""; Interface := "";
  InterfaceSpecific := false; PerLinkSession := false; LocalMacAddr := []; RemoteMacAddr := [];
  RegisteredProtocols := []; SessionState_ := STATE_ADMIN_DOWN;
  RemoteSessionState := STATE_ADMIN_DOWN; LocalDiscriminator := 0; RemoteDiscriminator := 0;
  LocalDiagType := 0; s_DesiredMinTxInterval := 0; s_RequiredMinRxInterval := 0;
  RemoteMinRxInterval := 0; DetectionMultiplier := 0; RemoteDetectionMultiplier := 0;
  DemandMode := false; RemoteDemandMode := false; AuthType := 0; AuthSeqKnown := false;
  ReceivedAuthSeq := 0; SentAuthSeq := 0; NumTxPackets := 0; NumRxPackets := 0;
  ToDownCount := 0; ToUpCount := 0; UpTime := 0 |}.

(** [&BfdSession{}] *)
Definition zero_session : BfdSession := {|
  state := zero_state; rxInterval := 0; sessionTimer := TimerNil; txInterval := 0;
  txTimer := TimerNil; txJitter := 0; bfdPacket := NewBfdControlPacketDefault;
  bfdPacketBuf := []; ReceivedPacketCh := []; SessionStopClientCh := None;
  SessionStopServerCh := None; pollSequence := false; pollSequenceFinal := false;
  pollChanged := false; authEnabled := false; authType := 0; authSeqNum := 0; authKeyId := 0;
  authData := []; useDedicatedMac := false; paramChanged := false; remoteParamChanged := false;
  stateChanged := false; isClientActive := false; movedToDownState := false;
  notifiedState := false; notificationCh := [] |}.

(** ** Environment *)

Class BfdEnv := {
  range_sessions : gmap Z ref -> list (Z * ref);
  range_waiting : gmap string BfdSessionMgmt -> list (string * BfdSessionMgmt);
  range_params : gmap string SessionParamState -> list (string * SessionParamState);
  IsLinkLocal6 : string -> bool;   (* net.ParseIP, To4 and IsLinkLocalUnicast *)
  GetRouteReachabilityInfo : string -> option (Z * string);
  InterfaceMac : string -> list Z; (* net.InterfaceByName *)
  Int31n : nat -> Z -> Z           (* the draws of math/rand *)
}.

(** Go visits every entry of a map once, in some order; [Int31n] is in
    range. *)
Class BfdEnvOk (E : BfdEnv) : Prop := {
  range_sessions_perm m : range_sessions m ≡ₚ map_to_list m;
  range_waiting_perm m : range_waiting m ≡ₚ map_to_list m;
  range_params_perm m : range_params m ≡ₚ map_to_list m;
  Int31n_range i n : 0 < n -> 0 <= Int31n i n < n
}.

Section Server.
Context `{Env : BfdEnv}.

(** The number of draws a call makes is bounded by [fuel]. *)
Context (fuel : nat) (now : Z).

(** ** Session identifiers *)

Fixpoint draw_session_id (n i : nat) (v : BFDServer) : exec Z :=
  match n with
  | O => Hang
  | S n =>
      let sessionId := Int31n i MAX_NUM_SESSIONS in
      match Sessions v !! sessionId with
      | Some _ => draw_session_id n (S i) v
      | None => if decide (sessionId <> 0) then Ok sessionId else draw_session_id n (S i) v
      end
  end.

Definition GetNewSessionId (v : BFDServer) : exec Z :=
  if decide (NumSessions v < MAX_NUM_SESSIONS) then draw_session_id fuel 0 v else Ok 0.

Definition GetTxJitter : Z := Int31n 0 TX_JITTER.

(** ** Creation *)

Definition getLinuxIntfName (ifIndex : Z) (v : BFDServer) : string + string :=
  let ifType := GetTypeFromIfIndex ifIndex in
  if decide (ifType = IfTypeVlan) then inr (default "" (vlanPropertyMap v !! ifIndex))
  else if decide (ifType = IfTypePort) then inr (default "" (portPropertyMap v !! ifIndex))
  else inl "Invalid Interface Type".

Definition GetIfIndexFromDestIp (DestIp : string) (v : BFDServer)
    : option (Z * string) * BFDServer :=
  let v := v <| ribdTracked ::= fun l => l ++ [(DestIp, true)] |> in
  (GetRouteReachabilityInfo DestIp, v).

(** 01:00:5E:90:00:01 *)
Definition bfdDedicatedMac : list Z := [1; 0; 94; 144; 0; 1].

(** What the parameter set gives a new session. *)
Definition use_param (q : SessionParamState) (s : BfdSession) : BfdSession :=
  s <| rxInterval := Z.quot (i32 (STARTUP_RX_INTERVAL * sp_LocalMultiplier q)) 1000 |>
    <| state ::= fun st => st <| s_DesiredMinTxInterval := sp_DesiredMinTxInterval q |>
                              <| s_RequiredMinRxInterval := sp_RequiredMinRxInterval q |>
                              <| DetectionMultiplier := sp_LocalMultiplier q |>
                              <| DemandMode := sp_DemandEnabled q |> |>
    <| authEnabled := sp_AuthenticationEnabled q |>
    <| authType := sp_AuthenticationType q |>
    <| authSeqNum := 1 |>
    <| authKeyId := u32 (sp_AuthenticationKeyId q) |>
    <| authData := sp_AuthenticationData q |>.

Definition NewNormalBfdSession (Interface_ LocalIp DestIp ParamName_ : string) (PerLink : bool)
    (Protocol : Z) (v : BFDServer) : exec (option ref * BFDServer) :=
  let! sessionId := GetNewSessionId v in
  if decide (sessionId = 0) then Ok (None, v) else
  let st := zero_state <| SessionId := sessionId |> <| IpAddr := DestIp |>
              <| LocalAddr := LocalIp |> <| Interface := Interface_ |>
              <| PerLinkSession := PerLink |> in
  let st := if PerLink
            then st <| LocalMacAddr := InterfaceMac Interface_ |>
                    <| RemoteMacAddr := bfdDedicatedMac |> else st in
  let! protocols := store (replicate (Z.to_nat MAX_APPS) false) Protocol true in
  let st := st <| RegisteredProtocols := protocols |>
               <| SessionState_ := STATE_DOWN |> <| RemoteSessionState := STATE_DOWN |>
               <| LocalDiscriminator := u32 sessionId |> <| LocalDiagType := DIAG_NONE |> in
  let name := match SessionParams v !! ParamName_ with
              | Some _ => ParamName_ | None => "default" end in
  let st := st <| ParamName := name |> in
  let! q := of_option (SessionParams v !! name) in
  let q := q <| sp_NumSessions ::= fun n => i32 (n + 1) |> in
  let s := use_param q (zero_session <| state := st |> <| useDedicatedMac := PerLink |>
             <| txInterval := Z.quot STARTUP_TX_INTERVAL 1000 |> <| txJitter := GetTxJitter |>) in
  let s := s <| paramChanged := true |> <| bfdPacket := NewBfdControlPacketDefault |> in
  let r := length (heap v) in
  Ok (Some r,
      v <| SessionParams ::= fun m => <[name := q]> m |>
        <| heap ::= fun h => h ++ [s] |>
        <| Sessions ::= fun m => <[sessionId := r]> m |>
        <| SessionsByIp ::= fun m => <[DestIp := r]> m |>
        <| NumSessions ::= fun n => u32 (n + 1) |>
        <| SessionsIdSlice ::= fun l => l ++ [sessionId] |>
        <| CreatedSessionCh ::= fun l => l ++ [sessionId] |>).

Definition NewPerLinkBfdSessions (IfIndex : Z) (LocalIp DestIp ParamName_ : string) (Protocol : Z)
    (v : BFDServer) : exec BFDServer :=
  match lagPropertyMap v !! IfIndex with
  | Some links =>
      for_each (fun _ v =>
        let IfName := match getLinuxIntfName IfIndex v with inr n => n | inl _ => "" end in
        let! (_, v) := NewNormalBfdSession IfName LocalIp DestIp ParamName_ true Protocol v in
        Ok v) links v
  | None => Ok v
  end.

(** The branch for a single session dereferences the session it just asked
    for. *)
Definition NewBfdSession (DestIp ParamName_ Interface_ : string) (Protocol : Z) (PerLink : bool)
    (v : BFDServer) : exec (option ref * BFDServer) :=
  let interfaceSpecific := bool_decide (Interface_ <> "") in
  let (info, v) := GetIfIndexFromDestIp DestIp v in
  match info with
  | None => Ok (None, v)
  | Some (IfIndex, localIp) =>
      let IfType := GetTypeFromIfIndex IfIndex in
      let wrongIntf := match getLinuxIntfName IfIndex v with
                       | inr IfName => interfaceSpecific && bool_decide (IfName <> Interface_)
                       | inl _ => false end in
      if wrongIntf then Ok (None, v) else
      if bool_decide (IfType = IfTypeLag) && PerLink then
        let! v := NewPerLinkBfdSessions IfIndex localIp DestIp ParamName_ Protocol v in
        Ok (None, v)
      else
        let! (o, v) := NewNormalBfdSession Interface_ localIp DestIp ParamName_ false Protocol v in
        let! r := of_option o in
        let! v := on_session (fun s =>
          Ok (s <| state ::= fun st => st <| InterfaceSpecific := interfaceSpecific |> |>)) r v in
        Ok (Some r, v)
  end.

(** ** Lookup *)

Fixpoint find_session (p : string -> bool) (l : list (Z * ref)) (v : BFDServer) : exec (option Z) :=
  match l with
  | [] => Ok None
  | (id, r) :: l =>
      let! s := deref v r in
      if p (IpAddr (state s)) then Ok (Some id) else find_session p l v
  end.

Definition FindBfdSession (DestIp : string) (v : BFDServer) : exec (option Z) :=
  find_session (fun ip => bool_decide (ip = DestIp)) (range_sessions (Sessions v)) v.

Definition FindBfdSessionContainingAddr (DestIp : string) (v : BFDServer) : exec (option Z) :=
  find_session (String.prefix DestIp) (range_sessions (Sessions v)) v.

(** The key of a session: a link-local address is qualified by its interface. *)
Definition session_ip (DestIp Interface_ : string) : string :=
  if decide (Interface_ <> "") then
    if IsLinkLocal6 DestIp then String.append DestIp (String.append "%" Interface_) else DestIp
  else DestIp.

(** [CreateBfdSession]; the boolean is false when it returns an error. *)
Definition CreateBfdSession (m : BfdSessionMgmt) (v : BFDServer) : exec (option ref * bool * BFDServer) :=
  let sessionIp := session_ip (m_DestIp m) (m_Interface m) in
  let! found := FindBfdSession sessionIp v in
  match found with
  | None =>
      let! (o, v) := NewBfdSession sessionIp (m_ParamName m) (m_Interface m) (m_Protocol m)
                       (m_PerLink m) v in
      match o with
      | Some r => Ok (Some r, true, v)
      | None =>
          let v := match tobeCreatedSessions v !! sessionIp with
                   | Some _ => v
                   | None => v <| tobeCreatedSessions ::= fun t => <[sessionIp := m]> t |>
                   end in
          Ok (None, false, v)
      end
  | Some sessionId =>
      let! r := session_ref v sessionId in
      let! v := on_session (fun s =>
        let! b := index (RegisteredProtocols (state s)) (m_Protocol m) in
        if (b : bool) then Ok s else
        let! l := store (RegisteredProtocols (state s)) (m_Protocol m) true in
        Ok (s <| state ::= fun st => st <| RegisteredProtocols := l |> |>)) r v in
      Ok (Some r, true, v)
  end.

(** ** Deletion *)

Definition index_of (x : Z) (l : list Z) : Z :=
  match list_find (x =.) l with Some (i, _) => Z.of_nat i | None => len l end.

(** The two sends that stop the goroutines of a session: to the client when it
    is active, then to the server. *)
Definition told_to_stop (s : BfdSession) : exec BfdSession :=
  let! s := if IsSessionActive s then
              let! c := chan_send (SessionStopClientCh s) in Ok (s <| SessionStopClientCh := c |>)
            else Ok s in
  let! c := chan_send (SessionStopServerCh s) in
  Ok (s <| SessionStopServerCh := c |>).

(** The part of [SessionDeleteHandler] under its condition. *)
Definition remove_session (r : ref) (v : BFDServer) : exec BFDServer :=
  let! s := deref v r in
  let sessionId := SessionId (state s) in
  let! s := told_to_stop s in
  let v := write r s v in
  let! q := of_option (SessionParams v !! ParamName (state s)) in
  let v := v <| SessionParams ::= fun m =>
                  <[ParamName (state s) := q <| sp_NumSessions ::= fun n => i32 (n - 1) |>]> m |>
             <| NumSessions ::= fun n => u32 (n - 1) |>
             <| Sessions ::= fun m => delete sessionId m |>
             <| SessionsByIp ::= fun m => delete (IpAddr (state s)) m |> in
  let! ids := remove_at (SessionsIdSlice v) (index_of sessionId (SessionsIdSlice v)) in
  Ok (v <| SessionsIdSlice := ids |>).

Definition SessionDeleteHandler (r : ref) (Protocol : Z) (ForceDel : bool) (v : BFDServer)
    : exec BFDServer :=
  let! v := on_session (fun s =>
    let! l := store (RegisteredProtocols (state s)) Protocol false in
    Ok (s <| state ::= fun st => st <| RegisteredProtocols := l |> |>)) r v in
  let! s := deref v r in
  let! registered := if ForceDel then Ok false else CheckIfAnyProtocolRegistered s in
  if ForceDel || negb registered then remove_session r v else Ok v.

(** Deleting the entry being visited does not disturb the walk. *)
Definition DeletePerLinkSessions (DestIp : string) (Protocol : Z) (ForceDel : bool) (v : BFDServer)
    : exec BFDServer :=
  for_each (fun e v =>
    let! s := deref v (snd e) in
    if decide (IpAddr (state s) = DestIp) then SessionDeleteHandler (snd e) Protocol ForceDel v
    else Ok v) (range_sessions (Sessions v)) v.

Definition DeleteBfdSession (m : BfdSessionMgmt) (v : BFDServer) : exec BFDServer :=
  let sessionIp := session_ip (m_DestIp m) (m_Interface m) in
  let! found := FindBfdSession sessionIp v in
  match found with
  | Some sessionId =>
      let! r := session_ref v sessionId in
      let! s := deref v r in
      let! v := if PerLinkSession (state s)
                then DeletePerLinkSessions sessionIp (m_Protocol m) (m_ForceDel m) v
                else SessionDeleteHandler r (m_Protocol m) (m_ForceDel m) v in
      Ok (v <| ribdTracked ::= fun l => l ++ [(m_DestIp m, false)] |>)
  | None => Ok v
  end.

(** The new server goroutine waits on the stop channel again. *)
Definition ResetBfdSession (sessionId : Z) (v : BFDServer) : exec BFDServer :=
  let! r := session_ref v sessionId in
  let! v := on_session (fun s =>
    let! s := told_to_stop s in
    Ok (ResetLocalSessionParams s <| isClientActive := false |>
          <| SessionStopServerCh ::= chan_listen |>)) r v in
  Ok (v <| startingClients ::= fun l => l ++ [(r, false)] |>).

(** ** Administration *)

Definition AdminPerLink (f : BfdSession -> exec BfdSession) (DestIp : string) (v : BFDServer)
    : exec BFDServer :=
  for_each (fun e v =>
    let! s := deref v (snd e) in
    if decide (IpAddr (state s) = DestIp) then on_session f (snd e) v else Ok v)
    (range_sessions (Sessions v)) v.

Definition AdminUpPerLinkBfdSessions : string -> BFDServer -> exec BFDServer :=
  AdminPerLink (StartBfdSession now).
Definition AdminDownPerLinkBfdSessions : string -> BFDServer -> exec BFDServer :=
  AdminPerLink (StopBfdSession now).

Definition AdminUpBfdSession (m : BfdSessionMgmt) (v : BFDServer) : exec BFDServer :=
  let! found := FindBfdSession (m_DestIp m) v in
  match found with
  | Some sessionId =>
      let! r := session_ref v sessionId in
      let! s := deref v r in
      if PerLinkSession (state s) then AdminUpPerLinkBfdSessions (m_DestIp m) v
      else on_session (StartBfdSession now) r v
  | None => Ok v
  end.

Definition AdminDownBfdSession (m : BfdSessionMgmt) (v : BFDServer) : exec BFDServer :=
  let! found := FindBfdSession (m_DestIp m) v in
  match found with
  | Some sessionId =>
      let! r := session_ref v sessionId in
      let! s := deref v r in
      if PerLinkSession (state s) then AdminDownPerLinkBfdSessions (m_DestIp m) v
      else on_session (StopBfdSession now) r v
  | None => Ok v
  end.

Definition SendAdminUpToAllNeighbors (v : BFDServer) : exec BFDServer :=
  for_each (fun e v => on_session (StartBfdSession now) (snd e) v) (range_sessions (Sessions v)) v.

Definition SendAdminDownToAllNeighbors (v : BFDServer) : exec BFDServer :=
  for_each (fun e v => on_session (StopBfdSession now) (snd e) v) (range_sessions (Sessions v)) v.

Definition SendDeleteToAllSessions (v : BFDServer) : exec BFDServer :=
  for_each (fun e v => on_session (fun s =>
    let! c := chan_send (SessionStopClientCh s) in
    let! c' := chan_send (SessionStopServerCh s) in
    Ok (s <| SessionStopClientCh := c |> <| SessionStopServerCh := c' |>)) (snd e) v)
    (range_sessions (Sessions v)) v.

Definition initBfdGlobalConfDefault (v : BFDServer) : BFDServer := v <| Enabled := true |>.

Definition processGlobalConfig (g : GlobalConfig) (v : BFDServer) : exec BFDServer :=
  let wasEnabled := Enabled v in
  let v := v <| Vrf := g_Vrf g |> <| Enabled := g_Enable g |> in
  let isEnabled := Enabled v in
  for_each (fun sessionId v =>
    if negb wasEnabled && isEnabled then
      let! r := session_ref v sessionId in on_session (StartBfdSession now) r v
    else if wasEnabled && negb isEnabled then
      let! r := session_ref v sessionId in on_session (StopBfdSession now) r v
    else Ok v) (SessionsIdSlice v) v.

(** ** Parameter sets *)

Definition apply_param (o : option SessionParamState) (s : BfdSession) : BfdSession :=
  let s := match o with
    | Some q =>
        s <| state ::= fun st => st <| s_DesiredMinTxInterval := sp_DesiredMinTxInterval q |>
                                    <| s_RequiredMinRxInterval := sp_RequiredMinRxInterval q |>
                                    <| DetectionMultiplier := sp_LocalMultiplier q |>
                                    <| DemandMode := sp_DemandEnabled q |> |>
          <| authEnabled := sp_AuthenticationEnabled q |>
          <| authType := sp_AuthenticationType q |>
          <| authKeyId := u32 (sp_AuthenticationKeyId q) |>
          <| authData := sp_AuthenticationData q |>
    | None =>
        s <| state ::= fun st => st <| s_DesiredMinTxInterval := DEFAULT_DESIRED_MIN_TX_INTERVAL |>
                                    <| s_RequiredMinRxInterval := DEFAULT_REQUIRED_MIN_RX_INTERVAL |>
                                    <| DetectionMultiplier := DEFAULT_DETECT_MULTI |>
                                    <| DemandMode := false |> |>
          <| authEnabled := false |>
    end in
  InitiatePollSequence (s <| paramChanged := true |>).

Definition UpdateBfdSessionsUsingParam (paramName : string) (v : BFDServer) : exec BFDServer :=
  let sessionParam := SessionParams v !! paramName in
  for_each (fun e v =>
    let! s := deref v (snd e) in
    if decide (ParamName (state s) = paramName)
    then Ok (write (snd e) (apply_param sessionParam s) v)
    else Ok v) (range_sessions (Sessions v)) v.

Definition createDefaultSessionParam (v : BFDServer) : exec BFDServer :=
  match SessionParams v !! "default" with
  | Some _ => Ok v
  | None =>
      let q := zero_param <| sp_Name := "default" |>
                 <| sp_LocalMultiplier := DEFAULT_DETECT_MULTI |>
                 <| sp_DesiredMinTxInterval := DEFAULT_DESIRED_MIN_TX_INTERVAL |>
                 <| sp_RequiredMinRxInterval := DEFAULT_REQUIRED_MIN_RX_INTERVAL |>
                 <| sp_RequiredMinEchoRxInterval := DEFAULT_REQUIRED_MIN_ECHO_RX_INTERVAL |>
                 <| sp_DemandEnabled := false |> <| sp_AuthenticationEnabled := false |> in
      UpdateBfdSessionsUsingParam "default"
        (v <| SessionParams ::= fun m => <["default" := q]> m |>
           <| NumSessionParams ::= fun n => u32 (n + 1) |>)
  end.

Definition processSessionParamConfig (c : SessionParamConfig) (v : BFDServer) : exec BFDServer :=
  let old := SessionParams v !! pc_Name c in
  let q := default zero_param old in
  let q := q <| sp_Name := pc_Name c |>
             <| sp_LocalMultiplier := pc_LocalMultiplier c |>
             <| sp_DesiredMinTxInterval := i32 (pc_DesiredMinTxInterval c * 1000) |>
             <| sp_RequiredMinRxInterval := i32 (pc_RequiredMinRxInterval c * 1000) |>
             <| sp_RequiredMinEchoRxInterval := i32 (pc_RequiredMinEchoRxInterval c * 1000) |>
             <| sp_DemandEnabled := pc_DemandEnabled c |>
             <| sp_AuthenticationEnabled := pc_AuthenticationEnabled c |>
             <| sp_AuthenticationType := pc_AuthenticationType c |>
             <| sp_AuthenticationKeyId := pc_AuthenticationKeyId c |>
             <| sp_AuthenticationData := pc_AuthenticationData c |> in
  let v := v <| SessionParams ::= fun m => <[pc_Name c := q]> m |> in
  let v := match old with
           | None => v <| NumSessionParams ::= fun n => u32 (n + 1) |> | Some _ => v end in
  UpdateBfdSessionsUsingParam (pc_Name c) v.

Definition processSessionParamDelete (paramName : string) (v : BFDServer) : exec BFDServer :=
  match SessionParams v !! paramName with
  | Some _ =>
      UpdateBfdSessionsUsingParam paramName
        (v <| SessionParams ::= fun m => delete paramName m |>
           <| NumSessionParams ::= fun n => u32 (n - 1) |>)
  | None => Ok v
  end.

(** ** Goroutines of the session manager *)

(** [DispatchReceivedBfdPacket]. *)
Definition DispatchReceivedBfdPacket (ipAddr : string) (p : BfdControlPacket) (v : BFDServer)
    : exec BFDServer :=
  let o := match Sessions v !! i32 (YourDiscriminator p) with
           | Some r => Some r
           | None => SessionsByIp v !! ipAddr
           end in
  match o with
  | None => Ok v
  | Some r =>
      on_session (fun s =>
        if IsSessionActive s && bool_decide (rxInterval s <> 0) then
          match sessionTimer s with
          | TimerNil => Ok s
          | _ => let! t := timer_Reset (sessionTimer s) (rxInterval s) in
                 Ok (s <| sessionTimer := t |> <| ReceivedPacketCh ::= fun q => q ++ [p] |>)
          end
        else Ok s) r v
  end.

(** The body of the receive loop of [StartBfdSesionServer] for one datagram. *)
Definition receive_datagram (ipAddr : string) (data : list Z) (v : BFDServer) : exec BFDServer :=
  if decide (len data >= DEFAULT_CONTROL_PACKET_LEN) then
    let! r := DecodeBfdControlPacket data in
    match r with
    | (Some p, None) => DispatchReceivedBfdPacket ipAddr p v
    | _ => Ok v
    end
  else Ok v.

(** One message of [StartBfdSessionRxTx]: a created session gets its channels
    and its goroutines, a failed client is put on the retry list.
    [StartSessionServer] waits on the stop channel of the server;
    [StartPerLinkSessionServer] never receives from it. *)
Definition RxTx_created (v : BFDServer) : exec BFDServer :=
  match CreatedSessionCh v with
  | [] => Ok v
  | id :: rest =>
      let v := v <| CreatedSessionCh := rest |> in
      match Sessions v !! id with
      | None => Ok v
      | Some r =>
          let! v := on_session (fun s =>
            Ok (s <| SessionStopClientCh := Some 0%nat |>
                  <| SessionStopServerCh :=
                       if PerLinkSession (state s) then Some 0%nat else chan_listen (Some 0%nat) |>
                  <| ReceivedPacketCh := [] |> <| isClientActive := false |>)) r v in
          let! s := deref v r in
          Ok (v <| startingClients ::= fun l => l ++ [(r, PerLinkSession (state s))] |>)
      end
  end.

Definition RxTx_failed (v : BFDServer) : BFDServer :=
  match FailedSessionClientCh v with
  | [] => v
  | id :: rest =>
      let v := v <| FailedSessionClientCh := rest |> in
      match Sessions v !! id with
      | Some _ => v <| InactiveSessionsIdSlice ::= fun l => l ++ [id] |>
      | None => v
      end
  end.

(** [StartPerLinkSessionClient] up to its loop: [opened] is whether the
    interface is found and its capture handle opens. *)
Definition StartPerLinkSessionClient (opened : bool) (s : BfdSession) : bool * BfdSession :=
  if opened then
    let sessionTimeoutMS := Z.quot (i32 (s_RequiredMinRxInterval (state s)
                                         * DetectionMultiplier (state s))) 1000 in
    let txTimerMS := Z.quot (s_DesiredMinTxInterval (state s)) 1000 in
    (false, s <| sessionTimer := TimerArmed sessionTimeoutMS |> <| txTimer := TimerArmed txTimerMS |>
              <| SessionStopClientCh ::= chan_listen |>)
  else (true, s).

(** A client goroutine starts: its addresses resolve and the connection opens,
    or the session is reported as failed. *)
Definition client_goroutine (dialled : bool) (v : BFDServer) : exec BFDServer :=
  match startingClients v with
  | [] => Ok v
  | (r, perLink) :: rest =>
      let v := v <| startingClients := rest |> in
      let! s := deref v r in
      let (failed, s') := if perLink : bool then StartPerLinkSessionClient dialled s
                          else StartSessionClient dialled s in
      let v := write r s' v in
      Ok (if failed : bool
          then v <| FailedSessionClientCh ::= fun l => l ++ [SessionId (state s)] |> else v)
  end.

(** One tick of [StartSessionRetryHandler]: the index keeps advancing over the
    slice it shortens. *)
Fixpoint retry_loop (n : nat) (i : Z) (v : BFDServer) : exec BFDServer :=
  match n with
  | O => Hang
  | S n =>
      if decide (i < len (InactiveSessionsIdSlice v)) then
        let! id := index (InactiveSessionsIdSlice v) i in
        match Sessions v !! id with
        | None => retry_loop n (i + 1) v
        | Some r =>
            let! s := deref v r in
            let v := if isClientActive s then v
                     else v <| startingClients ::= fun l => l ++ [(r, PerLinkSession (state s))] |> in
            let! l := remove_at (InactiveSessionsIdSlice v) i in
            retry_loop n (i + 1) (v <| InactiveSessionsIdSlice := l |>)
        end
      else Ok v
  end.

Definition StartSessionRetryHandler (v : BFDServer) : exec BFDServer :=
  retry_loop (S (length (InactiveSessionsIdSlice v))) 0 v.

(** An entry removed before it is reached is not visited. *)
Definition HandleNextHopChange (DestIp : string) (IfIndex : Z) (Reachable : bool) (v : BFDServer)
    : exec BFDServer :=
  if Reachable then
    for_each (fun e v =>
      match tobeCreatedSessions v !! fst e with
      | None => Ok v
      | Some m =>
          let! (_, ok, v) := CreateBfdSession m v in
          Ok (if ok : bool
              then v <| tobeCreatedSessions ::= fun t => delete (m_DestIp m) t |> else v)
      end) (range_waiting (tobeCreatedSessions v)) v
  else Ok v.

(** [processSessionConfig] and the select of [StartSessionHandler] that takes
    the message from the channel. *)
Definition processSessionConfig (c : SessionConfig) (v : BFDServer) : exec BFDServer :=
  let m := mkBfdSessionMgmt (c_DestIp c) (c_ParamName c) (c_Interface c) (c_Protocol c)
             (c_PerLink c) false in
  match c_Operation c with
  | CREATE => let! (_, _, v) := CreateBfdSession m v in Ok v
  | DELETE => DeleteBfdSession m v
  | ADMINUP => AdminUpBfdSession m v
  | ADMINDOWN => AdminDownBfdSession m v
  | OtherOperation => Ok v
  end.

(** ** Reading the state *)

(** [strings.Split(ip, "%")[0]] *)
Fixpoint before_percent (s : string) : string :=
  match s with
  | EmptyString => EmptyString
  | String c s => if decide (String c EmptyString = "%") then EmptyString else String c (before_percent s)
  end.

(** Every field but [LocalAddr] is copied. *)
Definition reported_state (s : BfdSession) : SessionState :=
  state s <| IpAddr ::= before_percent |> <| LocalAddr := "" |>.

Fixpoint fill_states (n : nat) (i : Z) (result : list SessionState) (v : BFDServer)
    : exec (list SessionState) :=
  match n with
  | O => Ok result
  | S n =>
      let! id := index (SessionsIdSlice v) i in
      let! r := session_ref v id in
      let! s := deref v r in
      let! result := store result i (reported_state s) in
      fill_states n (i + 1) result v
  end.

Definition GetBulkBfdSessionStates (idx cnt : Z) (v : BFDServer)
    : exec (Z * Z * list SessionState) :=
  let length_ := len (SessionsIdSlice v) in
  let '(count, nextIdx) :=
    if decide (idx + cnt >= length_) then (length_ - idx, 0) else (0, idx + 0 + 1) in
  if decide (count < 0) then Panic else
  let! result := fill_states (Z.to_nat (count - idx)) idx (replicate (Z.to_nat count) zero_state) v in
  Ok (nextIdx, count, result).

Definition GetBfdSessionState (ipAddr : string) (v : BFDServer) : exec (SessionState * bool) :=
  let! found := FindBfdSessionContainingAddr ipAddr v in
  match found with
  | Some id =>
      let! r := session_ref v id in
      let! s := deref v r in
      Ok (reported_state s, true)
  | None => Ok (zero_state, false)
  end.

Definition GetBulkBfdSessionParamStates (idx cnt : Z) (v : BFDServer)
    : exec (Z * Z * list SessionParamState) :=
  if decide (cnt < 0) then Panic else
  let! (i, result) := for_each (fun e acc =>
      let! result := store (snd acc) (fst acc) (snd e) in
      Ok (fst acc + 1, result)) (range_params (SessionParams v))
    (0, replicate (Z.to_nat cnt) zero_param) in
  Ok (0, i, result).

Definition GetBfdSessionParamState (paramName : string) (v : BFDServer) : SessionParamState * bool :=
  match SessionParams v !! paramName with
  | Some q => (q, true)
  | None => (zero_param, false)
  end.

End Server.
