(* ===== verification/BfdServerProofs.v ===== *)
(** * Properties of the BFD server

    The table of sessions stays consistent (the two maps, the slice of
    identifiers, the counter and the heap agree) under every operation, the
    identifiers are fresh, and lookups, registration, deletion, parameter
    updates, dispatch and paging behave as described by each theorem. *)

From S2P Require Import Prelude BfdPacket BfdSession BfdSessionProofs BfdServer.

(** ** What holds of each session and of the table *)

(** Both stop channels exist and whoever is told to stop is there to hear it:
    the client when it is active, the server unless it is the one of a
    per-link session, which does not listen. *)
Record listening (client server : chan) (active perLink : bool) : Prop := {
  li_made : is_Some client;
  li_client : active = true -> exists n, client = Some (S n);
  li_server : perLink = false -> exists n, server = Some (S n)
}.

Definition running (s : BfdSession) : Prop :=
  listening (SessionStopClientCh s) (SessionStopServerCh s) (isClientActive s)
    (PerLinkSession (state s)).

(** Nobody receives from the stop channel of the server. *)
Definition nobody_hears (c : chan) : Prop := c = None \/ c = Some 0%nat.

Record session_ok (s : BfdSession) : Prop := {
  so_active : isClientActive s = true -> live s;
  so_auth : authEnabled s = false;
  so_queue : Forall decoded (ReceivedPacketCh s);
  so_log : alternating false (NotifiedUp <$> notificationCh s) = Some (notifiedState s);
  so_apps : len (RegisteredProtocols (state s)) = MAX_APPS;
  so_link : PerLinkSession (state s) = true -> nobody_hears (SessionStopServerCh s)
}.

Record entry_ok (v : BFDServer) (id : Z) (s : BfdSession) : Prop := {
  eo_id : SessionId (state s) = id;
  eo_range : 0 < id < MAX_NUM_SESSIONS;
  eo_disc : LocalDiscriminator (state s) = id;
  eo_param : is_Some (SessionParams v !! ParamName (state s));
  eo_started : id ∈ CreatedSessionCh v \/ running s;
  eo_session : session_ok s
}.

(** The session behind [r] owns its address: the map by address leads to it and
    no other session has the address. *)
Definition owns_address (v : BFDServer) (id : Z) (r : ref) (s : BfdSession) : Prop :=
  SessionsByIp v !! IpAddr (state s) = Some r
  /\ forall id' r' s', Sessions v !! id' = Some r' -> heap v !! r' = Some s' ->
     IpAddr (state s') = IpAddr (state s) -> id' = id.

Definition valid_owner (p : Z) : Prop := 0 <= p < MAX_APPS.

Record wf_server (v : BFDServer) : Prop := {
  wv_entry id r : Sessions v !! id = Some r -> exists s, heap v !! r = Some s /\ entry_ok v id s;
  wv_byip ip r : SessionsByIp v !! ip = Some r ->
    exists s, heap v !! r = Some s /\ IpAddr (state s) = ip /\ Sessions v !! SessionId (state s) = Some r;
  wv_owns id r s : Sessions v !! id = Some r -> heap v !! r = Some s ->
    PerLinkSession (state s) = false -> owns_address v id r s;
  wv_slice : SessionsIdSlice v ≡ₚ (map_to_list (Sessions v)).*1;
  wv_count : NumSessions v = Z.of_nat (size (Sessions v));
  wv_default : is_Some (SessionParams v !! "default");
  wv_noauth n q : SessionParams v !! n = Some q -> sp_AuthenticationEnabled q = false;
  wv_clients : Forall (fun c => fst c < length (heap v))%nat (startingClients v);
  wv_waiting k m : tobeCreatedSessions v !! k = Some m -> valid_owner (m_Protocol m)
}.

(** An operation that returns a value in [P] or is still running, and never
    panics. *)
Definition safe {A} (m : exec A) (P : A -> Prop) : Prop :=
  match m with Ok a => P a | Panic => False | Hang => True end.

Lemma safe_bind {A B} (m : exec A) (k : A -> exec B) P Q :
  safe m P -> (forall a, P a -> safe (k a) Q) -> safe (exec_bind m k) Q.
Proof. destruct m; cbn; auto. Qed.

Lemma safe_mono {A} (m : exec A) (P Q : A -> Prop) : safe m P -> (forall a, P a -> Q a) -> safe m Q.
Proof. destruct m; cbn; auto. Qed.

Lemma returns_safe {A} (m : exec A) P : returns m P -> safe m P.
Proof. intros (a & -> & H). exact H. Qed.

Lemma for_each_safe {A S} (f : A -> S -> exec S) (P : S -> Prop) l s :
  (forall x s, x ∈ l -> P s -> safe (f x s) P) -> P s -> safe (for_each f l s) P.
Proof.
  revert s. induction l as [|x l IH]; intros s Hf Hs; cbn; [done|].
  eapply safe_bind; [apply Hf; [set_solver | done]|]. intros s' Hs'.
  apply IH; [|done]. intros. apply Hf; [set_solver | done].
Qed.

Lemma wf_ids_nodup v : wf_server v -> NoDup (SessionsIdSlice v).
Proof. intros W. rewrite (wv_slice _ W). apply NoDup_fst_map_to_list. Qed.

Lemma wf_ids_elem v id : wf_server v -> id ∈ SessionsIdSlice v <-> is_Some (Sessions v !! id).
Proof.
  intros W. rewrite (wv_slice _ W), list_elem_of_fmap. split.
  - intros ([id' r] & -> & H%elem_of_map_to_list). by exists r.
  - intros [r H]. exists (id, r). split; [done | by apply elem_of_map_to_list].
Qed.

Lemma wf_size v : wf_server v -> (size (Sessions v) <= 1023)%nat.
Proof.
  intros W. rewrite <- length_map_to_list, <- (length_fmap fst), <- (wv_slice _ W).
  change 1023%nat with (Z.to_nat 1023). rewrite <- (length_seqZ 1 1023).
  apply submseteq_length, NoDup_submseteq; [by apply wf_ids_nodup|].
  intros id Hid. apply wf_ids_elem in Hid as [r Hr]; [|done].
  destruct (wv_entry _ W _ _ Hr) as (s & _ & E). destruct (eo_range _ _ _ E).
  apply elem_of_seqZ. unfold MAX_NUM_SESSIONS in *. lia.
Qed.

Lemma wf_ref_inj v id1 id2 r :
  wf_server v -> Sessions v !! id1 = Some r -> Sessions v !! id2 = Some r -> id1 = id2.
Proof.
  intros W H1 H2. destruct (wv_entry _ W _ _ H1) as (s & E & ?), (wv_entry _ W _ _ H2) as (s' & E' & ?).
  rewrite E in E'. injection E' as <-. destruct H, H0. congruence.
Qed.

(** ** Writing a session back *)

(** What a method must keep of the session object for the table's sake. *)
Record same_entry (s s' : BfdSession) : Prop := {
  se_id : SessionId (state s') = SessionId (state s);
  se_ip : IpAddr (state s') = IpAddr (state s);
  se_name : ParamName (state s') = ParamName (state s);
  se_disc : LocalDiscriminator (state s') = LocalDiscriminator (state s);
  se_link : PerLinkSession (state s') = PerLinkSession (state s);
  se_running : running s -> running s'
}.

#[export] Instance same_entry_preorder : PreOrder same_entry.
Proof. split; [by constructor|]. intros s1 s2 s3 [] []. constructor; try congruence. auto. Qed.

Lemma lookup_write_Some v r s s' r' t :
  heap v !! r = Some s -> heap (write r s' v) !! r' = Some t ->
  (r' = r /\ t = s') \/ (r' <> r /\ heap v !! r' = Some t).
Proof.
  intros Hr H. cbn in H. apply list_lookup_insert_Some in H as [(-> & <- & _)|[? ?]]; [by left | right].
  by split.
Qed.

(** A written object was there before, with the same address and kind. *)
Lemma lookup_write_old v r s s' r' t :
  heap v !! r = Some s -> same_entry s s' -> heap (write r s' v) !! r' = Some t ->
  exists u, heap v !! r' = Some u /\ IpAddr (state t) = IpAddr (state u)
  /\ PerLinkSession (state t) = PerLinkSession (state u).
Proof.
  intros Hr [] H. destruct (lookup_write_Some v r s s' r' t Hr H) as [[-> ->]|[_ Ht]]; eauto.
Qed.

Lemma owns_write v r s s' :
  wf_server v -> heap v !! r = Some s -> same_entry s s' ->
  forall id r' t, Sessions v !! id = Some r' -> heap (write r s' v) !! r' = Some t ->
    PerLinkSession (state t) = false -> owns_address (write r s' v) id r' t.
Proof.
  intros W Hr He id r' t Hs Ht Hl.
  destruct (lookup_write_old v r s s' r' t Hr He Ht) as (u & Hu & Eu & Lu).
  destruct (wv_owns _ W id r' u Hs Hu) as [Hip Huniq]; [congruence|].
  split; rewrite Eu; [done|]. intros id' r'' t' Hs' Ht' E.
  destruct (lookup_write_old v r s s' r'' t' Hr He Ht') as (u' & Hu' & Eu' & _).
  apply (Huniq id' r'' u' Hs' Hu'). congruence.
Qed.

Lemma wf_write v r s s' :
  wf_server v -> heap v !! r = Some s -> same_entry s s' -> (session_ok s -> session_ok s') ->
  wf_server (write r s' v).
Proof.
  intros W Hr He Hs. pose proof (lookup_lt_Some _ _ _ Hr) as Hlt.
  pose proof (owns_write _ _ _ _ W Hr He) as Ho. destruct He as [Ei Ep En Ed El Eu].
  constructor; try apply W; try exact Ho; cbn.
  - intros id r' H. destruct (wv_entry _ W _ _ H) as (t & Ht & [T1 T2 T3 T4 T5 T6]).
    destruct (decide (r' = r)) as [->|].
    + rewrite Hr in Ht. injection Ht as <-. exists s'. rewrite list_lookup_insert_eq by done.
      split; [done|]. constructor; cbn; rewrite ?Ei, ?En, ?Ed; auto. naive_solver.
    + exists t. rewrite list_lookup_insert_ne by done. done.
  - intros ip r' H. destruct (wv_byip _ W _ _ H) as (t & Ht & ? & ?).
    destruct (decide (r' = r)) as [->|].
    + rewrite Hr in Ht. injection Ht as <-. exists s'. rewrite list_lookup_insert_eq, Ep, Ei by done. done.
    + exists t. rewrite list_lookup_insert_ne by done. done.
  - rewrite length_insert. apply W.
Qed.

(** An object no table refers to may change freely. *)
Lemma wf_write_dead v r s :
  wf_server v -> (forall id, Sessions v !! id <> Some r) -> wf_server (write r s v).
Proof.
  intros W Hd.
  assert (forall r' id, Sessions v !! id = Some r' -> heap (write r s v) !! r' = heap v !! r') as Hh.
  { intros r' id H. apply list_lookup_insert_ne. intros ->. by destruct (Hd id). }
  constructor; try apply W.
  - intros id r' H. destruct (wv_entry _ W _ _ H) as (t & Ht & []). exists t. rewrite (Hh _ _ H).
    split; [done | by constructor].
  - intros ip r' H. destruct (wv_byip _ W _ _ H) as (t & Ht & Et & Hst). exists t.
    by rewrite (Hh _ _ Hst).
  - intros id r' t H Ht Hl. rewrite (Hh _ _ H) in Ht.
    destruct (wv_owns _ W _ _ _ H Ht Hl) as [Hip Hu]. split; [done|]. intros id' r'' t' H' Ht'.
    rewrite (Hh _ _ H') in Ht'. by eapply Hu.
  - cbn. rewrite length_insert. apply W.
Qed.

Lemma deref_Some v r s : heap v !! r = Some s -> deref v r = Ok s.
Proof. intros H. unfold deref. by rewrite H. Qed.

Lemma wf_on_session v f r s :
  wf_server v -> heap v !! r = Some s ->
  safe (f s) (fun s' => same_entry s s' /\ (session_ok s -> session_ok s')) ->
  safe (on_session f r v) wf_server.
Proof.
  intros W Hr Hf. unfold on_session. rewrite (deref_Some _ _ _ Hr). cbn [exec_bind].
  eapply safe_bind; [exact Hf|]. intros s' [He Hs]. cbn. by eapply wf_write.
Qed.

(** Changing parts of the server the invariant does not look at. *)
Lemma wf_frame_started v v' :
  wf_server v -> heap v' = heap v -> Sessions v' = Sessions v -> SessionsByIp v' = SessionsByIp v ->
  SessionsIdSlice v' = SessionsIdSlice v -> NumSessions v' = NumSessions v ->
  SessionParams v' = SessionParams v -> tobeCreatedSessions v' = tobeCreatedSessions v ->
  (forall id r s, Sessions v !! id = Some r -> heap v !! r = Some s -> id ∈ CreatedSessionCh v ->
     id ∈ CreatedSessionCh v' \/ running s) ->
  Forall (fun c => fst c < length (heap v'))%nat (startingClients v') -> wf_server v'.
Proof.
  intros [] H1 H2 H3 H4 H5 H6 H7 H8 H9. constructor; rewrite ?H1, ?H2, ?H3, ?H4, ?H5, ?H6, ?H7; try done.
  - intros id r H. destruct (wv_entry0 id r H) as (s & Hs & []). exists s. split; [done|].
    constructor; rewrite ?H6; try done. naive_solver.
  - unfold owns_address. rewrite H1, H2, H3. done.
  - by rewrite <- H1.
Qed.

Lemma wf_frame v v' :
  wf_server v -> heap v' = heap v -> Sessions v' = Sessions v -> SessionsByIp v' = SessionsByIp v ->
  SessionsIdSlice v' = SessionsIdSlice v -> NumSessions v' = NumSessions v ->
  SessionParams v' = SessionParams v -> tobeCreatedSessions v' = tobeCreatedSessions v ->
  CreatedSessionCh v' = CreatedSessionCh v ->
  Forall (fun c => fst c < length (heap v'))%nat (startingClients v') -> wf_server v'.
Proof. intros W ? ? ? ? ? ? ? E ?. apply (wf_frame_started v); try done. rewrite E. auto. Qed.

Lemma wf_waiting v t :
  wf_server v -> (forall k m, t !! k = Some m -> valid_owner (m_Protocol m)) ->
  wf_server (v <| tobeCreatedSessions := t |>).
Proof.
  intros [] H. constructor; try done. intros id r Hr.
  destruct (wv_entry0 id r Hr) as (s & ? & []). exists s. split; [done | by constructor].
Qed.

Section ServerProofs.
Context {Env : BfdEnv} {EnvOk : BfdEnvOk Env}.
Context (fuel : nat) (now : Z).

(** ** Identifiers *)

Lemma draw_fresh n i v :
  safe (draw_session_id n i v) (fun id => Sessions v !! id = None /\ 0 < id < MAX_NUM_SESSIONS).
Proof.
  revert i. induction n as [|n IH]; intros i; cbn [draw_session_id]; [done|].
  destruct (Sessions v !! Int31n i MAX_NUM_SESSIONS) eqn:E; [apply IH|].
  case_decide; [|apply IH]. cbn. split; [done|].
  pose proof (Int31n_range i MAX_NUM_SESSIONS). unfold MAX_NUM_SESSIONS in *. lia.
Qed.

Lemma draw_returns n i k v :
  (k < n)%nat -> Sessions v !! Int31n (i + k)%nat MAX_NUM_SESSIONS = None ->
  Int31n (i + k)%nat MAX_NUM_SESSIONS <> 0 -> exists id, draw_session_id n i v = Ok id.
Proof.
  revert i k. induction n as [|n IH]; intros i k Hk Hf H0; [lia|]. cbn [draw_session_id].
  destruct k as [|k].
  - rewrite Nat.add_0_r in *. rewrite Hf. rewrite decide_True by done. eauto.
  - rewrite <- Nat.add_succ_comm in *. destruct (Sessions v !! Int31n i MAX_NUM_SESSIONS); [eapply (IH _ k); [lia | done..]|].
    case_decide; [eauto | eapply (IH _ k); [lia | done..]].
Qed.

Lemma draw_hangs n i v :
  (forall id, 0 < id < MAX_NUM_SESSIONS -> is_Some (Sessions v !! id)) ->
  draw_session_id n i v = Hang.
Proof.
  intros Hall. revert i. induction n as [|n IH]; intros i; cbn [draw_session_id]; [done|].
  pose proof (Int31n_range i MAX_NUM_SESSIONS) as Hr. unfold MAX_NUM_SESSIONS in *.
  destruct (decide (Int31n i 1024 = 0)) as [E|E].
  - rewrite E. destruct (Sessions v !! 0); [apply IH|]. by rewrite decide_False by tauto.
  - destruct (Hall (Int31n i 1024)) as [r ->]; [lia | apply IH].
Qed.

(** C25: a new identifier is between 1 and 1023 and not in use, and the
    search returns as soon as one of the draws is such a number. *)
Theorem new_session_id_fresh v k :
  wf_server v -> (k < fuel)%nat ->
  Sessions v !! Int31n k MAX_NUM_SESSIONS = None -> Int31n k MAX_NUM_SESSIONS <> 0 ->
  exists id, GetNewSessionId fuel v = Ok id /\ Sessions v !! id = None /\ 0 < id < MAX_NUM_SESSIONS.
Proof.
  intros W Hk Hf H0. unfold GetNewSessionId. rewrite (wv_count _ W). pose proof (wf_size _ W).
  rewrite decide_True by (unfold MAX_NUM_SESSIONS; lia).
  destruct (draw_returns fuel 0 k v) as [id E]; [done..|].
  pose proof (draw_fresh fuel 0 v) as Hd. rewrite E in *. by exists id.
Qed.

(** the check against the maximum does not count that identifier 0 is
    never used: with all 1023 identifiers taken there are fewer than 1024
    sessions, so the search starts and never returns. *)
Theorem session_ids_exhausted v :
  wf_server v -> (forall id, 0 < id < MAX_NUM_SESSIONS -> is_Some (Sessions v !! id)) ->
  NumSessions v < MAX_NUM_SESSIONS /\ GetNewSessionId fuel v = Hang.
Proof.
  intros W Hall. pose proof (wf_size _ W).
  assert (NumSessions v < MAX_NUM_SESSIONS) by (rewrite (wv_count _ W); unfold MAX_NUM_SESSIONS; lia).
  split; [done|]. unfold GetNewSessionId. rewrite decide_True by done. by apply draw_hangs.
Qed.

(** ** Creation *)

Lemma store_len {A} (l : list A) i x l' : store l i x = Ok l' -> len l' = len l.
Proof. unfold store. case_match; [|done]. intros E. injection E as <-. unfold len. by rewrite length_insert. Qed.

Lemma store_Ok {A} (l : list A) i x : 0 <= i < len l -> exists l', store l i x = Ok l'.
Proof. intros. eexists. by apply store_at. Qed.

(** A new session may take the address: nobody has it or, for a per-link
    session, only other per-link sessions have. *)
Definition address_free (ip : string) (perLink : bool) (v : BFDServer) : Prop :=
  forall id r s, Sessions v !! id = Some r -> heap v !! r = Some s -> IpAddr (state s) = ip ->
    perLink = true /\ PerLinkSession (state s) = true.

(** The entries after an insertion: the new one and the old ones. *)
Lemma insert_cases v id s id' r' t :
  wf_server v -> <[id := length (heap v)]> (Sessions v) !! id' = Some r' ->
  (heap v ++ [s]) !! r' = Some t ->
  (id' = id /\ r' = length (heap v) /\ t = s)
  \/ (id' <> id /\ Sessions v !! id' = Some r' /\ heap v !! r' = Some t).
Proof.
  intros W [[<- <-]|[Hne H]]%lookup_insert_Some Ht.
  - left. rewrite list_lookup_middle in Ht by done. by injection Ht as <-.
  - right. destruct (wv_entry _ W _ _ H) as (u & Hu & _).
    rewrite lookup_app_l in Ht by (by eapply lookup_lt_Some). done.
Qed.

Lemma owns_insert v id s :
  wf_server v -> address_free (IpAddr (state s)) (PerLinkSession (state s)) v ->
  forall id' r' t, <[id := length (heap v)]> (Sessions v) !! id' = Some r' ->
    (heap v ++ [s]) !! r' = Some t -> PerLinkSession (state t) = false ->
    <[IpAddr (state s) := length (heap v)]> (SessionsByIp v) !! IpAddr (state t) = Some r'
    /\ forall id2 r2 t2, <[id := length (heap v)]> (Sessions v) !! id2 = Some r2 ->
       (heap v ++ [s]) !! r2 = Some t2 -> IpAddr (state t2) = IpAddr (state t) -> id2 = id'.
Proof.
  intros W Hfree id' r' t H Ht Hl.
  destruct (insert_cases v id s id' r' t W H Ht) as [(-> & -> & ->)|(Hne & Hold & Ho)].
  - rewrite lookup_insert_eq. split; [done|]. intros id2 r2 t2 H2 Ht2 E.
    destruct (insert_cases v id s id2 r2 t2 W H2 Ht2) as [(-> & _)|(_ & H2' & Ho2)]; [done|].
    destruct (Hfree id2 r2 t2 H2' Ho2 E). congruence.
  - assert (IpAddr (state t) <> IpAddr (state s)) as Hip
      by (intros E; destruct (Hfree id' r' t Hold Ho E); congruence).
    destruct (wv_owns _ W _ _ _ Hold Ho Hl) as [Hb Hu].
    rewrite lookup_insert_ne by done. split; [done|]. intros id2 r2 t2 H2 Ht2 E.
    destruct (insert_cases v id s id2 r2 t2 W H2 Ht2) as [(_ & _ & ->)|(_ & H2' & Ho2)]; [congruence|].
    by eapply Hu.
Qed.

(** The structural effect of inserting a fresh session. *)
Lemma wf_insert v id s q name ip :
  wf_server v -> Sessions v !! id = None -> ParamName (state s) = name -> IpAddr (state s) = ip ->
  address_free ip (PerLinkSession (state s)) v -> 0 < id < MAX_NUM_SESSIONS -> SessionId (state s) = id -> LocalDiscriminator (state s) = id ->
  session_ok s -> sp_AuthenticationEnabled q = false ->
  let r := length (heap v) in
  wf_server (v <| SessionParams ::= fun m => <[name := q]> m |>
        <| heap ::= fun h => h ++ [s] |>
        <| Sessions ::= fun m => <[id := r]> m |>
        <| SessionsByIp ::= fun m => <[ip := r]> m |>
        <| NumSessions ::= fun n => u32 (n + 1) |>
        <| SessionsIdSlice ::= fun l => l ++ [id] |>
        <| CreatedSessionCh ::= fun l => l ++ [id] |>).
Proof.
  intros W Hf <- <- Hfree Hr Hid Hd Hs Hq r. pose proof (wf_size _ W).
  assert (forall x t, heap v !! x = Some t -> (heap v ++ [s]) !! x = Some t) as Hold
    by (intros; by apply lookup_app_l_Some).
  assert ((heap v ++ [s]) !! r = Some s) as Hnew by (by apply list_lookup_middle).
  assert (forall n, is_Some (SessionParams v !! n) ->
    is_Some (<[ParamName (state s) := q]> (SessionParams v) !! n)) as Hpar.
  { intros n Hn. apply lookup_insert_is_Some'. by right. }
  constructor; cbn.
  - intros id' r'. rewrite lookup_insert_Some. intros [[<- <-]|[Hne H']].
    + exists s. split; [done|]. constructor; try done; cbn; [by rewrite lookup_insert_eq|].
      left. set_solver.
    + destruct (wv_entry _ W _ _ H') as (t & Ht & []). exists t. split; [auto|].
      constructor; try done; [by apply Hpar|]. cbn. set_solver.
  - intros ip r'. rewrite lookup_insert_Some. intros [[<- <-]|[Hne H']].
    + exists s. rewrite Hid, lookup_insert_eq. done.
    + destruct (wv_byip _ W _ _ H') as (t & Ht & ? & Hst). exists t. split; [auto|]. split; [done|].
      rewrite lookup_insert_ne; [done|]. intros ->. congruence.
  - by apply (owns_insert v id s).
  - rewrite map_to_list_insert, fmap_cons by done. cbn. rewrite (wv_slice _ W).
    by rewrite Permutation_app_comm.
  - rewrite map_size_insert_None, (wv_count _ W) by done.
    rewrite u32_small by (unfold is_u32; lia). lia.
  - apply Hpar, W.
  - intros n q'. rewrite lookup_insert_Some. intros [[_ <-]|[_ H']]; [done | by eapply wv_noauth].
  - rewrite length_app. cbn. eapply Forall_impl; [|apply (wv_clients _ W)]. cbn. lia.
  - apply W.
Qed.

(** The session [NewNormalBfdSession] builds. *)
Lemma new_session_ok (st : SessionState) q jit ded :
  len (RegisteredProtocols st) = MAX_APPS -> sp_AuthenticationEnabled q = false ->
  session_ok (use_param q (zero_session <| state := st |> <| useDedicatedMac := ded |>
    <| txInterval := Z.quot STARTUP_TX_INTERVAL 1000 |> <| txJitter := jit |>)
    <| paramChanged := true |> <| bfdPacket := NewBfdControlPacketDefault |>).
Proof. intros. constructor; [done | done | constructor | done | done | by left]. Qed.

Lemma wf_NewNormal v i l d n pl p :
  wf_server v -> valid_owner p -> address_free d pl v ->
  safe (NewNormalBfdSession fuel i l d n pl p v) (fun x => wf_server (snd x)
    /\ (forall r, fst x = Some r -> exists s, heap (snd x) !! r = Some s)
    /\ (pl = true -> address_free d true (snd x))).
Proof.
  intros W Hp Hfree. unfold NewNormalBfdSession, GetNewSessionId. rewrite decide_True.
  2: { rewrite (wv_count _ W). pose proof (wf_size _ W). unfold MAX_NUM_SESSIONS. lia. }
  eapply safe_bind; [apply draw_fresh|]. intros id [Hf Hr].
  rewrite decide_False by lia.
  destruct (store_Ok (replicate (Z.to_nat MAX_APPS) false) p true) as [apps Ea]; [exact Hp|].
  rewrite Ea. cbn [exec_bind]. apply store_len in Ea.
  set (name := match SessionParams v !! n with Some _ => n | None => "default" end).
  assert (is_Some (SessionParams v !! name)) as [q Hq].
  { unfold name. destruct (SessionParams v !! n) eqn:E; [by eexists | apply W]. }
  rewrite Hq. cbn [of_option exec_bind safe fst snd].
  set (st := _ <| ParamName := name |>).
  assert (u32 id = id) as Hu by (apply u32_small; unfold is_u32, MAX_NUM_SESSIONS in *; lia).
  assert (PerLinkSession st = pl /\ IpAddr st = d /\ SessionId st = id /\ ParamName st = name
    /\ LocalDiscriminator st = id /\ len (RegisteredProtocols st) = MAX_APPS)
    as (Sl & Si & Sd & Sn & Su & Sa) by (unfold st; destruct pl; done).
  clearbody st. assert (sp_AuthenticationEnabled q = false) as Hq' by (by eapply wv_noauth).
  set (s := use_param _ _ <| paramChanged := true |> <| bfdPacket := _ |>).
  assert (session_ok s) as Hs by (by apply new_session_ok).
  assert (state s = st <| s_DesiredMinTxInterval := sp_DesiredMinTxInterval q |>
    <| s_RequiredMinRxInterval := sp_RequiredMinRxInterval q |>
    <| DetectionMultiplier := sp_LocalMultiplier q |> <| DemandMode := sp_DemandEnabled q |>) as Est
    by reflexivity.
  clearbody s. split_and!.
  - apply wf_insert; try done; rewrite Est; try done. cbn. by rewrite Sl.
  - intros r E. injection E as <-. exists s. by apply list_lookup_middle.
  - intros -> id' r' t H Ht Et.
    destruct (insert_cases v id s id' r' t W H Ht) as [(_ & _ & ->)|(_ & H' & Ht')].
    + by rewrite Est.
    + exact (Hfree id' r' t H' Ht' Et).
Qed.

Lemma wf_NewPerLink v ix l d n p :
  wf_server v -> valid_owner p -> address_free d true v ->
  safe (NewPerLinkBfdSessions fuel ix l d n p v) wf_server.
Proof.
  intros W Hp Hfree. unfold NewPerLinkBfdSessions. destruct (lagPropertyMap v !! ix); [|done].
  eapply safe_mono; [apply (for_each_safe _ (fun v => wf_server v /\ address_free d true v)); [|done]|].
  - intros _ v' _ [W' Hf']. eapply safe_bind; [by apply wf_NewNormal|].
    intros [o v''] (H & _ & Hf). by split; [|apply Hf].
  - by intros v' [].
Qed.

(** The only nil session the branch for one session can meet comes from a full
    table, which the invariant excludes. *)
Lemma wf_NewNormal_Some v i l d n pl p :
  wf_server v -> valid_owner p ->
  safe (NewNormalBfdSession fuel i l d n pl p v) (fun x => exists r, fst x = Some r).
Proof.
  intros W Hp. unfold NewNormalBfdSession, GetNewSessionId. rewrite decide_True.
  2: { rewrite (wv_count _ W). pose proof (wf_size _ W). unfold MAX_NUM_SESSIONS. lia. }
  eapply safe_bind; [apply draw_fresh|]. intros id [Hf Hr].
  rewrite decide_False by lia.
  destruct (store_Ok (replicate (Z.to_nat MAX_APPS) false) p true) as [apps ->]; [exact Hp|].
  cbn [exec_bind]. destruct (SessionParams v !! n) as [q|] eqn:Eq; [rewrite Eq; cbn; eauto|].
  destruct (wv_default _ W) as [q ->]. cbn. eauto.
Qed.

Lemma safe_and {A} (m : exec A) (P Q : A -> Prop) : safe m P -> safe m Q -> safe m (fun a => P a /\ Q a).
Proof. destruct m; cbn; auto. Qed.

Lemma wf_tracked v l : wf_server v -> wf_server (v <| ribdTracked := l |>).
Proof. intros W. apply (wf_frame v); try done. apply W. Qed.

Lemma wf_NewBfdSession v d n i p pl :
  wf_server v -> valid_owner p -> address_free d false v ->
  safe (NewBfdSession fuel d n i p pl v) (fun x => wf_server (snd x)).
Proof.
  intros W Hp Hfree. unfold NewBfdSession, GetIfIndexFromDestIp.
  apply (wf_tracked _ (ribdTracked v ++ [(d, true)])) in W.
  change (v <| ribdTracked ::= fun l => l ++ [(d, true)] |>)
    with (v <| ribdTracked := ribdTracked v ++ [(d, true)] |>).
  change (address_free d false (v <| ribdTracked := ribdTracked v ++ [(d, true)] |>)) in Hfree.
  set (v1 := v <| ribdTracked := _ |>) in *. clearbody v1.
  destruct (GetRouteReachabilityInfo d) as [[ix l]|]; [|done].
  destruct (match getLinuxIntfName ix v1 with inr _ => _ | inl _ => _ end); [done|].
  destruct (bool_decide _ && pl).
  - assert (address_free d true v1) by (intros id r s H Hs E; by destruct (Hfree id r s H Hs E)).
    eapply safe_bind; [by apply wf_NewPerLink|]. intros v' W'. exact W'.
  - eapply safe_bind; [apply safe_and; [by apply wf_NewNormal | by apply wf_NewNormal_Some]|].
    intros [o v'] [(W' & Hh & _) [r Hr]]. cbn in *. subst o. cbn [of_option exec_bind].
    destruct (Hh r eq_refl) as [s Hs].
    eapply safe_bind; [eapply wf_on_session; [done | exact Hs |]|intros v'' W''; exact W''].
    cbn. split; [by constructor|]. intros []. by constructor.
Qed.

(** ** Lookup *)

Lemma find_session_spec p l v :
  (forall id r, (id, r) ∈ l -> is_Some (heap v !! r)) ->
  exists o, find_session p l v = Ok o /\
  match o with
  | Some id => exists r s, (id, r) ∈ l /\ heap v !! r = Some s /\ p (IpAddr (state s)) = true
  | None => forall id r s, (id, r) ∈ l -> heap v !! r = Some s -> p (IpAddr (state s)) = false
  end.
Proof.
  induction l as [|[id r] l IH]; intros Hh; cbn [find_session].
  - exists None. split; [done|]. set_solver.
  - destruct (Hh id r) as [s Hs]; [set_solver|]. rewrite (deref_Some _ _ _ Hs). cbn [exec_bind].
    destruct (p (IpAddr (state s))) eqn:Ep.
    + exists (Some id). split; [done|]. exists r, s. set_solver.
    + destruct IH as (o & -> & Ho); [set_solver|]. exists o. split; [done|]. destruct o.
      * destruct Ho as (r' & s' & ? & ?). exists r', s'. set_solver.
      * intros id' r' s' [[=-> ->]|?]%elem_of_cons Hs'; [congruence | by eapply Ho].
Qed.

Lemma range_elem v id r : (id, r) ∈ range_sessions (Sessions v) <-> Sessions v !! id = Some r.
Proof. rewrite range_sessions_perm. apply elem_of_map_to_list. Qed.

Lemma Find_spec d v :
  wf_server v -> exists o, FindBfdSession d v = Ok o /\
  match o with
  | Some id => exists r s, Sessions v !! id = Some r /\ heap v !! r = Some s /\ IpAddr (state s) = d
  | None => forall id r s, Sessions v !! id = Some r -> heap v !! r = Some s -> IpAddr (state s) <> d
  end.
Proof.
  intros W. unfold FindBfdSession.
  destruct (find_session_spec (fun ip => bool_decide (ip = d)) (range_sessions (Sessions v)) v)
    as (o & -> & Ho).
  - intros id r H%range_elem. destruct (wv_entry _ W _ _ H) as (s & ? & _). by exists s.
  - exists o. split; [done|]. destruct o.
    + destruct Ho as (r & s & H%range_elem & ? & E%bool_decide_eq_true_1). by exists r, s.
    + intros id r s H Hs. apply range_elem in H. specialize (Ho _ _ _ H Hs).
      by apply bool_decide_eq_false_1 in Ho.
Qed.

(** ** Registration *)

Lemma wf_register v r s p :
  wf_server v -> heap v !! r = Some s -> session_ok s -> valid_owner p ->
  safe (on_session (fun s =>
        let! b := index (RegisteredProtocols (state s)) p in
        if (b : bool) then Ok s else
        let! l := store (RegisteredProtocols (state s)) p true in
        Ok (s <| state ::= fun st => st <| RegisteredProtocols := l |> |>)) r v) wf_server.
Proof.
  intros W Hs So Hp. eapply wf_on_session; [done | exact Hs|].
  destruct (index_Ok (RegisteredProtocols (state s)) p) as [b ->]; [rewrite (so_apps _ So); exact Hp|].
  cbn [exec_bind]. destruct b; [cbn; split; [by constructor | done]|].
  destruct (store_Ok (RegisteredProtocols (state s)) p true) as [l El]; [rewrite (so_apps _ So); exact Hp|].
  rewrite El. cbn. split; [by constructor|]. intros []. constructor; try done. cbn.
  by rewrite (store_len _ _ _ _ El).
Qed.

Lemma wf_Create m v :
  wf_server v -> valid_owner (m_Protocol m) ->
  safe (CreateBfdSession fuel m v) (fun x => wf_server (snd x)).
Proof.
  intros W Hp. unfold CreateBfdSession.
  destruct (Find_spec (session_ip (m_DestIp m) (m_Interface m)) v W) as (o & -> & Ho).
  cbn [exec_bind]. destruct o as [id|].
  - destruct Ho as (r & s & Hr & Hs & _). unfold session_ref. rewrite Hr. cbn [of_option exec_bind].
    destruct (wv_entry _ W _ _ Hr) as (s' & Hs' & E). rewrite Hs in Hs'. injection Hs' as <-.
    eapply safe_bind; [eapply wf_register; [done | done | apply E | done]|]. intros v' W'. exact W'.
  - eapply safe_bind; [apply wf_NewBfdSession; [done | done |]|].
    { intros id r s Hr Hs E. by destruct (Ho id r s Hr Hs). }
    intros [[r|] v'] W'; cbn in *; [done|].
    destruct (tobeCreatedSessions v' !! _); [done|]. apply (wf_waiting v'); [done|].
    intros k m' [[_ <-]|[_ H]]%lookup_insert_Some; [done | by eapply wv_waiting].
Qed.

(** ** Deletion *)

Lemma remove_at_elem (x : Z) l :
  x ∈ l -> exists l', remove_at l (index_of x l) = Ok l' /\ l ≡ₚ x :: l'.
Proof.
  intros Hx. unfold index_of.
  destruct (list_find_elem_of (x =.) l x Hx eq_refl) as [[i y] E]. rewrite E.
  apply list_find_Some in E as (Hi & <- & _). pose proof (lookup_lt_Some _ _ _ Hi).
  unfold remove_at, slice_to, slice_from, len.
  rewrite !(proj2 (Z.leb_le _ _)) by lia. cbn [andb exec_bind]. rewrite Nat2Z.id.
  replace (Z.to_nat (Z.of_nat i + 1)) with (S i) by lia.
  eexists. split; [reflexivity|]. rewrite <- (take_drop_middle _ _ _ Hi) at 1.
  by rewrite Permutation_middle.
Qed.

Definition gone (id : Z) (v : BFDServer) : Prop :=
  Sessions v !! id = None /\ id ∉ SessionsIdSlice v /\ forall ip r s,
    SessionsByIp v !! ip = Some r -> heap v !! r = Some s -> SessionId (state s) <> id.

(** Dropping an entry from all the tables. *)
Lemma wf_drop v r s q ids :
  wf_server v -> heap v !! r = Some s -> Sessions v !! SessionId (state s) = Some r ->
  SessionsIdSlice v ≡ₚ SessionId (state s) :: ids -> sp_AuthenticationEnabled q = false ->
  let v' := v <| SessionParams ::= fun m => <[ParamName (state s) := q]> m |>
              <| NumSessions ::= fun n => u32 (n - 1) |>
              <| Sessions ::= fun m => delete (SessionId (state s)) m |>
              <| SessionsByIp ::= fun m => delete (IpAddr (state s)) m |>
              <| SessionsIdSlice := ids |> in
  wf_server v' /\ gone (SessionId (state s)) v'.
Proof.
  intros W Hs Hr Hids Hq v'. pose proof (wf_size _ W).
  pose proof (map_size_delete_Some _ _ (mk_is_Some _ _ Hr)) as Hsz.
  pose proof (map_size_ne_0_lookup_2 (Sessions v) _ (mk_is_Some _ _ Hr)) as Hnz.
  pose proof (wf_ids_nodup _ W) as Hnd. rewrite Hids in Hnd.
  pose proof (NoDup_cons_1_1 _ _ Hnd) as Hnin. apply NoDup_cons_1_2 in Hnd.
  assert (forall n, is_Some (SessionParams v !! n) ->
    is_Some (<[ParamName (state s) := q]> (SessionParams v) !! n)) as Hpar.
  { intros n Hn. apply lookup_insert_is_Some'. by right. }
  assert (forall ip r' t, SessionsByIp v !! ip = Some r' -> ip <> IpAddr (state s) ->
    heap v !! r' = Some t -> IpAddr (state t) = ip -> Sessions v !! SessionId (state t) = Some r' ->
    SessionId (state t) <> SessionId (state s)) as Hne.
  { intros ip r' t _ Hip Ht Et Hst E. rewrite E, Hr in Hst. injection Hst as <-. congruence. }
  split; [constructor; cbn|].
  - intros id' r' [Hid H']%lookup_delete_Some. destruct (wv_entry _ W _ _ H') as (t & Ht & []).
    exists t. split; [done|]. constructor; try done. by apply Hpar.
  - intros ip r' [Hip H']%lookup_delete_Some. destruct (wv_byip _ W _ _ H') as (t & Ht & Et & Hst).
    exists t. split; [done|]. split; [done|]. rewrite lookup_delete_ne; [done|].
    apply not_eq_sym. by eapply Hne.
  - intros id' r' t [Hid H']%lookup_delete_Some Ht Hl. destruct (wv_owns _ W _ _ _ H' Ht Hl) as [Hb Hu].
    split; cbn.
    + rewrite lookup_delete_ne; [done|]. intros E. destruct Hid. exact (Hu _ _ _ Hr Hs E).
    + intros id2 r2 t2 [_ H2]%lookup_delete_Some. by apply Hu.
  - pose proof (wv_slice _ W) as Hp. rewrite Hids, <- (map_to_list_delete _ _ _ Hr), fmap_cons in Hp.
    cbn in Hp. by apply Permutation_cons_inv in Hp.
  - rewrite Hsz, (wv_count _ W). rewrite u32_small by (unfold is_u32; lia). lia.
  - apply Hpar, W.
  - intros n q'. rewrite lookup_insert_Some. intros [[_ <-]|[_ H']]; [done | by eapply wv_noauth].
  - apply W.
  - apply W.
  - unfold gone. cbn. split; [apply lookup_delete_eq|]. split; [done|].
    intros ip r' t [Hip H']%lookup_delete_Some Ht. destruct (wv_byip _ W _ _ H') as (t' & Ht' & Et & Hst).
    rewrite Ht in Ht'. injection Ht' as <-. by eapply Hne.
Qed.

Lemma told_to_stop_running s :
  running s -> PerLinkSession (state s) = false -> exists s', told_to_stop s = Ok s'.
Proof.
  intros [_ Hc Hv] Hl. unfold told_to_stop, IsSessionActive. destruct (Hv Hl) as [n En].
  destruct (isClientActive s) eqn:Ha; cbn [exec_bind].
  - destruct (Hc eq_refl) as [k ->]. cbn. rewrite En. cbn. eauto.
  - rewrite En. cbn. eauto.
Qed.

(** A session whose server does not listen makes whoever stops it wait. *)
Lemma told_to_stop_blocks s : nobody_hears (SessionStopServerCh s) -> told_to_stop s = Hang.
Proof.
  intros Hn. unfold told_to_stop. destruct (IsSessionActive s); cbn [exec_bind].
  - destruct (SessionStopClientCh s) as [[|n]|]; cbn; try done. by destruct Hn as [-> | ->].
  - by destruct Hn as [-> | ->].
Qed.

Lemma told_to_stop_no_panic s : told_to_stop s <> Panic.
Proof.
  unfold told_to_stop. destruct (IsSessionActive s); cbn [exec_bind].
  - destruct (SessionStopClientCh s) as [[|?]|]; cbn; try done.
    by destruct (SessionStopServerCh s) as [[|?]|].
  - by destruct (SessionStopServerCh s) as [[|?]|].
Qed.

(** Stopping touches the two channels only. *)
Lemma told_to_stop_frame s s' :
  told_to_stop s = Ok s' -> state s' = state s /\ authEnabled s' = authEnabled s
  /\ ReceivedPacketCh s' = ReceivedPacketCh s /\ notificationCh s' = notificationCh s
  /\ notifiedState s' = notifiedState s /\ is_Some (SessionStopServerCh s')
  /\ (is_Some (SessionStopClientCh s) -> is_Some (SessionStopClientCh s')).
Proof.
  unfold told_to_stop. destruct (IsSessionActive s); cbn [exec_bind].
  - destruct (SessionStopClientCh s) as [[|n]|] eqn:E1; cbn [chan_send exec_bind]; try done.
    destruct (SessionStopServerCh _) as [[|k]|]; cbn; try done. intros E. injection E as <-. naive_solver.
  - destruct (SessionStopServerCh s) as [[|k]|]; cbn; try done. intros E. injection E as <-. naive_solver.
Qed.

(** The session leaves every table as soon as its goroutines have stopped. *)
Lemma remove_session_spec v r s id :
  wf_server v -> Sessions v !! id = Some r -> heap v !! r = Some s ->
  exists v', remove_session r v = (let! s' := told_to_stop s in Ok (write r s' v'))
  /\ (forall s', wf_server (write r s' v')) /\ (forall s', gone id (write r s' v'))
  /\ heap v' = heap v /\ tobeCreatedSessions v' = tobeCreatedSessions v
  /\ forall id' r', id' <> id -> Sessions v' !! id' = Some r' <-> Sessions v !! id' = Some r'.
Proof.
  intros W Hr Hs. destruct (wv_entry _ W _ _ Hr) as (t & Ht & E). rewrite Hs in Ht. injection Ht as <-.
  pose proof (eo_id _ _ _ E) as Hid. destruct (eo_param _ _ _ E) as [q Hq].
  destruct (remove_at_elem id (SessionsIdSlice v)) as (ids & E1 & E2).
  { apply wf_ids_elem; [done|]. by exists r. }
  rewrite <- Hid in Hr, E1, E2.
  destruct (wf_drop v r s (q <| sp_NumSessions ::= fun n => i32 (n - 1) |>) ids W Hs Hr E2)
    as [W2 G2]; [exact (wv_noauth _ W _ _ Hq)|].
  match type of W2 with wf_server ?x => set (v' := x) in * end.
  assert (forall i, Sessions v' !! i <> Some r) as Hdead.
  { intros i H. unfold v' in H. cbn in H. apply lookup_delete_Some in H as [Hne H]. by destruct (Hne (wf_ref_inj _ _ _ _ W Hr H)). }
  exists v'. split_and!.
  - unfold remove_session. rewrite (deref_Some _ _ _ Hs). cbn [exec_bind].
    destruct (told_to_stop s) as [s'| |] eqn:Es; [|done..]. cbn [exec_bind].
    destruct (told_to_stop_frame s s' Es) as (-> & _).
    change (SessionParams (write r s' v)) with (SessionParams v). rewrite Hq. cbn [of_option exec_bind].
    change (SessionsIdSlice (_ <| SessionsByIp ::= _ |>)) with (SessionsIdSlice v). rewrite E1. done.
  - intros s'. by apply wf_write_dead.
  - intros s'. destruct G2 as (G1 & G2 & G3). rewrite Hid in *. split_and!; [done | done |].
    intros ip r' t Hip Ht. destruct (wv_byip _ W2 _ _ Hip) as (u & Hu & _ & Hsu).
    cbn in Ht. rewrite list_lookup_insert_ne in Ht by (intros ->; by destruct (Hdead (SessionId (state u)))).
    by eapply G3.
  - done.
  - done.
  - intros id' r' Hne. cbn. by rewrite Hid, lookup_delete_ne.
Qed.

Lemma any_registered_total l i n :
  0 <= i -> i + Z.of_nat n <= len l -> exists b, any_registered l i n = Ok b.
Proof.
  revert i. induction n as [|n IH]; intros i Hi Hn; cbn [any_registered]; [eauto|].
  destruct (index_Ok l i) as [b ->]; [lia|]. cbn. destruct b; [eauto | apply IH; lia].
Qed.

Lemma CheckIfAny_total s :
  session_ok s -> exists b, CheckIfAnyProtocolRegistered s = Ok b.
Proof.
  intros So. apply any_registered_total; [lia|]. rewrite (so_apps _ So). cbn. unfold MAX_APPS. lia.
Qed.

(** The session after the owner's registration is cleared. *)
Definition without_owner (apps : list bool) (s : BfdSession) : BfdSession :=
  s <| state ::= fun st => st <| RegisteredProtocols := apps |> |>.

(** Deleting a session for one owner: it is stopped and dropped from every
    table when it is forced or no owner is left, and stays otherwise. *)
Lemma SessionDelete_spec v r s id p force :
  wf_server v -> Sessions v !! id = Some r -> heap v !! r = Some s -> valid_owner p ->
  exists apps b v', store (RegisteredProtocols (state s)) p false = Ok apps
  /\ any_registered apps 1 4 = Ok b
  /\ SessionDeleteHandler r p force v =
       (if force || negb b then let! s' := told_to_stop (without_owner apps s) in Ok (write r s' v')
        else Ok (write r (without_owner apps s) v))
  /\ wf_server (write r (without_owner apps s) v)
  /\ (forall s', wf_server (write r s' v') /\ gone id (write r s' v'))
  /\ (forall r', r' <> r -> heap v' !! r' = heap v !! r')
  /\ forall id' r', id' <> id -> Sessions v' !! id' = Some r' <-> Sessions v !! id' = Some r'.
Proof.
  intros W Hr Hs Hp. destruct (wv_entry _ W _ _ Hr) as (t & Ht & E). rewrite Hs in Ht. injection Ht as <-.
  pose proof (eo_session _ _ _ E) as So.
  destruct (store_Ok (RegisteredProtocols (state s)) p false) as [apps Ea]; [by rewrite (so_apps _ So)|].
  pose proof (store_len _ _ _ _ Ea) as Hlen. rewrite (so_apps _ So) in Hlen.
  destruct (any_registered_total apps 1 4) as [b Eb]; [lia | rewrite Hlen; unfold MAX_APPS; lia|].
  set (s1 := without_owner apps s).
  assert (wf_server (write r s1 v)) as W1.
  { eapply wf_write; [done | exact Hs | by constructor|]. intros []. by constructor. }
  assert (heap (write r s1 v) !! r = Some s1) as Hs1
    by (apply list_lookup_insert_eq; by eapply lookup_lt_Some).
  destruct (remove_session_spec _ r s1 id W1 Hr Hs1) as (v' & Ev & W' & G & Eh & _ & Hoth).
  exists apps, b, v'. split; [done|]. split; [done|]. split.
  - unfold SessionDeleteHandler, on_session. rewrite (deref_Some _ _ _ Hs). cbn [exec_bind].
    rewrite Ea. cbn [exec_bind]. change (s <| state ::= _ |>) with s1.
    rewrite (deref_Some _ _ _ Hs1). cbn [exec_bind]. rewrite Ev. destruct force; cbn [exec_bind orb]; [done|].
    change (CheckIfAnyProtocolRegistered s1) with (any_registered apps 1 4). by rewrite Eb.
  - split_and!; [done | by split | | done]. intros r' Hne. rewrite Eh. by apply list_lookup_insert_ne.
Qed.

(** What is kept of the other sessions while one is deleted. *)
Lemma SessionDelete_safe v r s id p force :
  wf_server v -> Sessions v !! id = Some r -> heap v !! r = Some s -> valid_owner p ->
  safe (SessionDeleteHandler r p force v) (fun v' => wf_server v'
    /\ (forall r', r' <> r -> heap v' !! r' = heap v !! r')
    /\ forall id' r', id' <> id -> Sessions v !! id' = Some r' -> Sessions v' !! id' = Some r').
Proof.
  intros W Hr Hs Hp.
  destruct (SessionDelete_spec v r s id p force W Hr Hs Hp) as (apps & b & v' & _ & _ & -> & W1 & W2 & Hh & Ho).
  destruct (force || negb b).
  - destruct (told_to_stop _) as [s'| |] eqn:Es; [| |done].
    + cbn. split; [apply W2|]. split; [|by intros; apply Ho].
      intros r' Hne. rewrite list_lookup_insert_ne by done. by apply Hh.
    + by destruct (told_to_stop_no_panic _ Es).
  - cbn. split; [done|]. split; [|done]. intros r' Hne. by rewrite list_lookup_insert_ne.
Qed.

(** ** Walks over the sessions *)

(** A walk over a snapshot of the table: each turn may drop its own entry but
    no other. *)
Lemma walk_safe (f : Z * ref -> BFDServer -> exec BFDServer) (P : BFDServer -> Prop) l v :
  (forall id r v, P v -> Sessions v !! id = Some r ->
     safe (f (id, r) v) (fun v' => P v' /\ forall id' r', id' <> id ->
       Sessions v !! id' = Some r' -> Sessions v' !! id' = Some r')) ->
  NoDup l.*1 -> P v -> (forall id r, (id, r) ∈ l -> Sessions v !! id = Some r) ->
  safe (for_each f l v) P.
Proof.
  intros Hf. revert v. induction l as [|[id r] l IH]; intros v Hnd Hp Hl; [done|].
  cbn [for_each]. rewrite fmap_cons in Hnd. cbn in Hnd.
  pose proof (NoDup_cons_1_1 _ _ Hnd) as Hnin. apply NoDup_cons_1_2 in Hnd.
  eapply safe_bind; [apply Hf; [done | apply Hl; set_solver]|]. intros v' [Hp' Hoth].
  apply IH; [done | done |]. intros id' r' H'. apply Hoth; [|apply Hl; set_solver].
  intros ->. apply Hnin, list_elem_of_fmap. by exists (id, r').
Qed.

Lemma walk_sessions f (P : BFDServer -> Prop) v :
  (forall id r v, P v -> Sessions v !! id = Some r ->
     safe (f (id, r) v) (fun v' => P v' /\ forall id' r', id' <> id ->
       Sessions v !! id' = Some r' -> Sessions v' !! id' = Some r')) ->
  P v -> safe (for_each f (range_sessions (Sessions v)) v) P.
Proof.
  intros Hf Hp. apply walk_safe; [done | | done |].
  - rewrite range_sessions_perm. apply NoDup_fst_map_to_list.
  - intros id r. apply range_elem.
Qed.

Lemma write_sessions r s v : Sessions (write r s v) = Sessions v.
Proof. reflexivity. Qed.

Lemma on_session_safe v f r s :
  wf_server v -> heap v !! r = Some s ->
  safe (f s) (fun s' => same_entry s s' /\ (session_ok s -> session_ok s')) ->
  safe (on_session f r v) (fun v' => wf_server v' /\ Sessions v' = Sessions v).
Proof.
  intros W Hs Hf. apply safe_and; [by eapply wf_on_session|].
  unfold on_session. rewrite (deref_Some _ _ _ Hs). cbn [exec_bind].
  eapply safe_bind; [exact Hf|]. done.
Qed.

Lemma wf_DeletePerLink d p force v :
  wf_server v -> valid_owner p -> safe (DeletePerLinkSessions d p force v) wf_server.
Proof.
  intros W Hp. apply walk_sessions; [|done]. intros id r v' W' Hr.
  destruct (wv_entry _ W' _ _ Hr) as (s & Hs & E). cbn. rewrite (deref_Some _ _ _ Hs). cbn [exec_bind].
  case_decide; [|by split].
  eapply safe_mono; [by apply (SessionDelete_safe v' r s id p force)|]. intros v'' (? & _ & ?). done.
Qed.

Lemma wf_Delete m v :
  wf_server v -> valid_owner (m_Protocol m) -> safe (DeleteBfdSession m v) wf_server.
Proof.
  intros W Hp. unfold DeleteBfdSession.
  destruct (Find_spec (session_ip (m_DestIp m) (m_Interface m)) v W) as ([id|] & -> & Ho); [|done].
  destruct Ho as (r & s & Hr & Hs & _). cbn [exec_bind]. unfold session_ref. rewrite Hr.
  cbn [of_option exec_bind]. rewrite (deref_Some _ _ _ Hs). cbn [exec_bind].
  apply safe_bind with (P := wf_server).
  - destruct (PerLinkSession (state s)); [by apply wf_DeletePerLink|].
    eapply safe_mono; [by apply (SessionDelete_safe v r s id)|]. by intros v' [? _].
  - intros v' W'. by apply wf_tracked.
Qed.

(** A session that could be stopped is not per-link and starts again with its
    server listening. *)
Lemma restarted_frame s s1 :
  session_ok s -> told_to_stop s = Ok s1 ->
  let s' := ResetLocalSessionParams s1 <| isClientActive := false |>
              <| SessionStopServerCh ::= chan_listen |> in
  same_entry s s' /\ session_ok s'.
Proof.
  intros So E s'.
  destruct (told_to_stop_frame s s1 E) as (Est & Ea & Eq & En & Ef & [n Hn] & Hc).
  assert (PerLinkSession (state s) = false) as Hl.
  { apply not_true_iff_false. intros Hl. by rewrite (told_to_stop_blocks s (so_link _ So Hl)) in E. }
  assert (SessionStopServerCh s' = Some (S n)) as Hs'
    by (change (chan_listen (SessionStopServerCh s1) = Some (S n)); by rewrite Hn).
  split.
  - constructor; try (cbn; congruence). intros [Hm _ _].
    constructor; [apply Hc, Hm | done | rewrite Hs'; eauto].
  - constructor; cbn; rewrite ?Est, ?Ea, ?Eq, ?En, ?Ef; try apply So; congruence.
Qed.

Lemma wf_Reset id v :
  wf_server v -> is_Some (Sessions v !! id) -> safe (ResetBfdSession id v) wf_server.
Proof.
  intros W [r Hr]. destruct (wv_entry _ W _ _ Hr) as (s & Hs & E).
  unfold ResetBfdSession, session_ref. rewrite Hr. cbn [of_option exec_bind].
  unfold on_session. rewrite (deref_Some _ _ _ Hs). cbn [exec_bind].
  destruct (told_to_stop s) as [s1| |] eqn:Es; [|by destruct (told_to_stop_no_panic s)|done].
  cbn [exec_bind safe].
  destruct (restarted_frame s s1 (eo_session _ _ _ E) Es) as [Fe Fs].
  set (s' := _ <| SessionStopServerCh ::= chan_listen |>) in *.
  assert (wf_server (write r s' v)) as W' by (by eapply wf_write).
  clearbody s'. apply (wf_frame (write r s' v)); try done.
  apply Forall_app. split; [apply W'|]. constructor; [|done]. cbn. rewrite length_insert.
  by eapply lookup_lt_Some.
Qed.

(** ** Session operations inside the table *)

Lemma ok_wf s : session_ok s -> live s -> wf_session s.
Proof. intros [] L. constructor; try done. by apply auth_ready_off. Qed.

Lemma run_op_ok md5 sha1 o s :
  session_ok s -> live s -> op_ok o ->
  safe (run_op md5 sha1 now o s) (fun s' => same_entry s s' /\ (session_ok s -> session_ok s')).
Proof.
  intros So L Ho. destruct (wf_run_op md5 sha1 now o s (ok_wf _ So L) Ho) as (s' & -> & [] & [? ? [Ec Es] ? ? ? ? ? ?]).
  cbn. split; [constructor; try done; unfold running; congruence|].
  intros []. constructor; try congruence; try done. rewrite Es, st_link. done.
Qed.

Lemma stop_ok s :
  session_ok s ->
  safe (StopBfdSession now s) (fun s' => same_entry s s' /\ (session_ok s -> session_ok s')).
Proof.
  intros So. destruct (isClientActive s) eqn:Ha.
  - apply (run_op_ok (fun l => l) (fun l => l) OpAdminDown s So); [by apply So | done].
  - unfold StopBfdSession, handle_event, EventHandler, IsSessionActive. rewrite Ha. cbn.
    split; [by constructor|]. intros []. by constructor.
Qed.

Lemma wf_AdminDown m v : wf_server v -> safe (AdminDownBfdSession now m v) wf_server.
Proof.
  intros W. unfold AdminDownBfdSession.
  destruct (Find_spec (m_DestIp m) v W) as ([id|] & -> & Ho); [|done].
  destruct Ho as (r & s & Hr & Hs & _). cbn [exec_bind]. unfold session_ref. rewrite Hr.
  cbn [of_option exec_bind]. rewrite (deref_Some _ _ _ Hs). cbn [exec_bind].
  destruct (PerLinkSession (state s)).
  - apply walk_sessions; [|done]. intros id' r' v' W' Hr'.
    destruct (wv_entry _ W' _ _ Hr') as (s' & Hs' & E'). cbn. rewrite (deref_Some _ _ _ Hs'). cbn [exec_bind].
    case_decide; [|by split].
    eapply safe_mono; [eapply on_session_safe; [done | exact Hs' | apply stop_ok, E']|].
    intros v'' [? ->]. done.
  - destruct (wv_entry _ W _ _ Hr) as (s' & Hs' & E'). rewrite Hs in Hs'. injection Hs' as <-.
    eapply wf_on_session; [done | exact Hs | apply stop_ok, E'].
Qed.

(** The clients of the sessions whose address satisfies [Q] have started. *)
Definition all_live (Q : string -> Prop) (v : BFDServer) : Prop :=
  forall id r s, Sessions v !! id = Some r -> heap v !! r = Some s -> Q (IpAddr (state s)) -> live s.

Lemma start_step Q v id r s :
  wf_server v -> all_live Q v -> Sessions v !! id = Some r -> heap v !! r = Some s ->
  Q (IpAddr (state s)) ->
  safe (on_session (StartBfdSession now) r v)
    (fun v' => (wf_server v' /\ all_live Q v') /\ Sessions v' = Sessions v).
Proof.
  intros W Hl Hr Hs HQ. destruct (wv_entry _ W _ _ Hr) as (t & Ht & E). rewrite Hs in Ht. injection Ht as <-.
  pose proof (Hl _ _ _ Hr Hs HQ) as L. pose proof (eo_session _ _ _ E) as So.
  pose proof (run_op_ok (fun l => l) (fun l => l) OpAdminUp s So L I) as Hok.
  destruct (wf_run_op (fun l => l) (fun l => l) now OpAdminUp s (ok_wf _ So L) I) as (s' & Es & W' & _).
  unfold on_session. rewrite (deref_Some _ _ _ Hs). cbn [exec_bind]. cbn [run_op] in Hok, Es.
  rewrite Es in *. destruct Hok as [Fe Fs]. cbn. split; [split|done]; [by eapply wf_write|].
  intros id' r' u Hr' Hu HQ'. destruct (lookup_write_Some v r s s' r' u Hs Hu) as [[-> ->]|[_ Hu']].
  - apply W'.
  - by eapply Hl.
Qed.

Lemma wf_AdminUp m v :
  wf_server v -> all_live (fun ip => ip = m_DestIp m) v -> safe (AdminUpBfdSession now m v) wf_server.
Proof.
  intros W Hl. unfold AdminUpBfdSession.
  destruct (Find_spec (m_DestIp m) v W) as ([id|] & -> & Ho); [|done].
  destruct Ho as (r & s & Hr & Hs & Hip). cbn [exec_bind]. unfold session_ref. rewrite Hr.
  cbn [of_option exec_bind]. rewrite (deref_Some _ _ _ Hs). cbn [exec_bind].
  destruct (PerLinkSession (state s)).
  - eapply safe_mono; [apply (walk_sessions _ (fun v => wf_server v /\ all_live (fun ip => ip = m_DestIp m) v));
      [|done]|by intros v' []].
    intros id' r' v' [W' Hl'] Hr'.
    destruct (wv_entry _ W' _ _ Hr') as (s' & Hs' & E'). cbn. rewrite (deref_Some _ _ _ Hs'). cbn [exec_bind].
    case_decide; [|by split].
    eapply safe_mono; [by eapply start_step|]. intros v'' [? ->]. done.
  - eapply safe_mono; [by eapply start_step|]. by intros v' [[] _].
Qed.

Lemma stop_step v id r :
  wf_server v -> Sessions v !! id = Some r ->
  safe (on_session (StopBfdSession now) r v) (fun v' => wf_server v' /\ Sessions v' = Sessions v).
Proof.
  intros W Hr. destruct (wv_entry _ W _ _ Hr) as (s & Hs & E).
  eapply on_session_safe; [done | exact Hs | apply stop_ok, E].
Qed.

Lemma wf_Global g v :
  wf_server v -> (Enabled v = false -> g_Enable g = true -> all_live (fun _ => True) v) ->
  safe (processGlobalConfig now g v) wf_server.
Proof.
  intros W Hl. unfold processGlobalConfig.
  change (Enabled (v <| Vrf := g_Vrf g |> <| Enabled := g_Enable g |>)) with (g_Enable g).
  set (v1 := v <| Vrf := g_Vrf g |> <| Enabled := g_Enable g |>).
  assert (wf_server v1) as W1 by (apply (wf_frame v); try done; apply W).
  pose proof (fun id H => proj1 (wf_ids_elem v1 id W1) H) as Hids.
  set (P := fun w => Sessions w = Sessions v1 /\ wf_server w
              /\ (Enabled v = false -> g_Enable g = true -> all_live (fun _ => True) w)).
  eapply safe_mono; [apply (for_each_safe _ P); [|by split_and!]|by intros w (_ & ? & _)].
  intros id w Hid (Es & Ww & Hw). destruct (Hids id Hid) as [r Hr]. rewrite <- Es in Hr.
  unfold session_ref. rewrite Hr. cbn [of_option exec_bind].
  destruct (wv_entry _ Ww _ _ Hr) as (s & Hs & _).
  destruct (Enabled v) eqn:E1, (g_Enable g) eqn:E2; cbn [negb andb]; try (by split_and!).
  - eapply safe_mono; [by eapply stop_step|]. intros w' [? Es']. split_and!; [congruence | done | done].
  - eapply safe_mono; [by apply (start_step (fun _ => True) w id r s); [| apply Hw | | |]|].
    intros w' [[? ?] Es']. split_and!; [congruence | done | done].
Qed.

(** ** Parameters *)

Lemma InitiatePoll_frame s :
  same_entry s (InitiatePollSequence s) /\ (session_ok s -> session_ok (InitiatePollSequence s)).
Proof.
  unfold InitiatePollSequence. destruct (pollSequence s);
  (split; [by constructor | intros []; by constructor]).
Qed.

Lemma apply_param_frame o s :
  same_entry s (apply_param o s)
  /\ ((forall q, o = Some q -> sp_AuthenticationEnabled q = false) -> session_ok s -> session_ok (apply_param o s)).
Proof.
  unfold apply_param. cbv zeta. set (s1 := match o with Some _ => _ | None => _ end).
  destruct (InitiatePoll_frame (s1 <| paramChanged := true |>)) as [He Hok].
  assert (same_entry s (s1 <| paramChanged := true |>)) as H1 by (unfold s1; destruct o; by constructor).
  split; [by etrans|]. intros Hq So. apply Hok.
  assert (session_ok s1) as [] by (unfold s1; destruct So, o; constructor; try done; by apply Hq).
  by constructor.
Qed.

Lemma wf_UpdateParam n v : wf_server v -> safe (UpdateBfdSessionsUsingParam n v) wf_server.
Proof.
  intros W. unfold UpdateBfdSessionsUsingParam.
  assert (forall q, SessionParams v !! n = Some q -> sp_AuthenticationEnabled q = false) as Hq
    by (intros; by eapply wv_noauth).
  set (o := SessionParams v !! n) in *. clearbody o.
  apply walk_sessions; [|done]. intros id r v' W' Hr.
  destruct (wv_entry _ W' _ _ Hr) as (s & Hs & E). cbn. rewrite (deref_Some _ _ _ Hs). cbn [exec_bind].
  case_decide; [|by split]. cbn. split; [|done].
  destruct (apply_param_frame o s). eapply wf_write; [done | exact Hs | done | auto].
Qed.

(** The parameter sets may change as long as the ones in use stay. *)
Lemma wf_params_used v m n :
  wf_server v -> is_Some (m !! "default") ->
  (forall id r s, Sessions v !! id = Some r -> heap v !! r = Some s -> is_Some (m !! ParamName (state s))) ->
  (forall k q, m !! k = Some q -> sp_AuthenticationEnabled q = false) ->
  wf_server (v <| SessionParams := m |> <| NumSessionParams := n |>).
Proof.
  intros [] Hd Hk Hq. constructor; try done; cbn.
  intros id r H. destruct (wv_entry0 id r H) as (s & Hs & []). exists s. split; [done|].
  constructor; try done. by eapply Hk.
Qed.

Lemma wf_params v m n :
  wf_server v -> (forall k, is_Some (SessionParams v !! k) -> is_Some (m !! k)) ->
  (forall k q, m !! k = Some q -> sp_AuthenticationEnabled q = false) ->
  wf_server (v <| SessionParams := m |> <| NumSessionParams := n |>).
Proof.
  intros W Hk Hq. apply wf_params_used; [done | apply Hk, W | | done].
  intros id r s Hr Hs. destruct (wv_entry _ W _ _ Hr) as (t & Ht & E). rewrite Hs in Ht.
  injection Ht as <-. apply Hk, E.
Qed.

(** No session uses the parameter set. *)
Definition param_unused (n : string) (v : BFDServer) : Prop :=
  forall id r s, Sessions v !! id = Some r -> heap v !! r = Some s -> ParamName (state s) <> n.

Lemma wf_ParamDelete n v :
  wf_server v -> n <> "default" -> param_unused n v -> safe (processSessionParamDelete n v) wf_server.
Proof.
  intros W Hn Hu. unfold processSessionParamDelete. destruct (SessionParams v !! n) as [q0|]; [|done].
  apply wf_UpdateParam.
  apply (wf_params_used v (delete n (SessionParams v)) (u32 (NumSessionParams v - 1))); [done | | |].
  - rewrite lookup_delete_ne by done. apply W.
  - intros id r s Hr Hs. rewrite lookup_delete_ne by (symmetry; by eapply Hu).
    destruct (wv_entry _ W _ _ Hr) as (t & Ht & E). rewrite Hs in Ht. injection Ht as <-. apply E.
  - intros k q [_ H]%lookup_delete_Some. by eapply wv_noauth.
Qed.

Lemma wf_ParamConfig c v :
  wf_server v -> pc_AuthenticationEnabled c = false -> safe (processSessionParamConfig c v) wf_server.
Proof.
  intros W Hc. unfold processSessionParamConfig.
  set (q := default zero_param _ <| sp_Name := _ |> <| sp_LocalMultiplier := _ |>
    <| sp_DesiredMinTxInterval := _ |> <| sp_RequiredMinRxInterval := _ |>
    <| sp_RequiredMinEchoRxInterval := _ |> <| sp_DemandEnabled := _ |>
    <| sp_AuthenticationEnabled := _ |> <| sp_AuthenticationType := _ |>
    <| sp_AuthenticationKeyId := _ |> <| sp_AuthenticationData := _ |>).
  assert (sp_AuthenticationEnabled q = false) as Hq by exact Hc. clearbody q.
  pose proof (fun n => wf_params v (<[pc_Name c := q]> (SessionParams v)) n W) as Hw.
  destruct (SessionParams v !! pc_Name c); apply wf_UpdateParam;
    [apply (Hw (NumSessionParams v)) | apply (Hw (u32 (NumSessionParams v + 1)))].
  all: try (intros k Hk; apply lookup_insert_is_Some'; by right).
  all: intros k q' [[_ <-]|[_ H']]%lookup_insert_Some; [done | by eapply wv_noauth].
Qed.

(** ** Dispatch and the goroutines *)

(** The packets the decoder returns without error have the header their flag
    announces. *)
Lemma decode_decoded data p : DecodeBfdControlPacket data = Ok (Some p, None) -> decoded p.
Proof.
  unfold DecodeBfdControlPacket. intros E Hp.
  repeat (match type of E with
          | exec_bind ?m _ = _ => destruct m as [?| |]; [|discriminate..]; cbn [exec_bind] in E
          | (if decide ?c then _ else _) = _ => destruct (decide c); [try discriminate|]
          end); try discriminate.
  destruct (AuthPresent _) eqn:Ea in E; [|injection E as <-; congruence].
  destruct (decide (len data > 24)); [|discriminate].
  destruct (slice_from data 24) as [ad| |]; [|discriminate..]. cbn [exec_bind] in E.
  destruct (decodeBfdAuthHeader ad) as [[er|h]| |]; cbn [exec_bind] in E; try discriminate.
  injection E as <-. by eexists.
Qed.

Lemma wf_Dispatch ip p v :
  wf_server v -> decoded p -> safe (DispatchReceivedBfdPacket ip p v) wf_server.
Proof.
  intros W Hp. unfold DispatchReceivedBfdPacket.
  set (o := match Sessions v !! i32 (YourDiscriminator p) with Some r => Some r | None => _ end).
  assert (forall r, o = Some r -> exists s, heap v !! r = Some s) as Ho.
  { unfold o. intros r E. destruct (Sessions v !! i32 (YourDiscriminator p)) as [r'|] eqn:Er.
    - injection E as <-. destruct (wv_entry _ W _ _ Er) as (s & ? & _). by exists s.
    - destruct (wv_byip _ W _ _ E) as (s & ? & _). by exists s. }
  destruct o as [r|]; [|done]. destruct (Ho r eq_refl) as [s Hs].
  eapply wf_on_session; [done | exact Hs|].
  assert (forall ms, same_entry s (s <| sessionTimer := TimerArmed ms |>
      <| ReceivedPacketCh ::= fun q => q ++ [p] |>) /\ (session_ok s ->
    session_ok (s <| sessionTimer := TimerArmed ms |> <| ReceivedPacketCh ::= fun q => q ++ [p] |>))) as H.
  { intros ms. split; [by constructor|]. intros []. constructor; try done.
    - intros Ha. destruct (so_active0 Ha). by split.
    - apply Forall_app. split; [done | by constructor]. }
  destruct (IsSessionActive s && _); [|cbn; by split].
  destruct (sessionTimer s) eqn:Et; [cbn; by split | apply H | apply H].
Qed.

Lemma wf_datagram ip data v :
  wf_server v -> (24 <= len data -> DecodeBfdControlPacket data <> Panic) ->
  safe (receive_datagram ip data v) wf_server.
Proof.
  intros W Hd. unfold receive_datagram, DEFAULT_CONTROL_PACKET_LEN. case_decide; [|done].
  destruct (DecodeBfdControlPacket data) as [[[p|] [er|]]| |] eqn:E; cbn [exec_bind]; try done.
  - apply wf_Dispatch; [done | by eapply decode_decoded].
  - apply Hd; [lia | done].
Qed.

(** A started session is running. *)
Lemma started_frame s :
  let s' := s <| SessionStopClientCh := Some 0%nat |>
              <| SessionStopServerCh := if PerLinkSession (state s) then Some 0%nat
                                        else chan_listen (Some 0%nat) |>
              <| ReceivedPacketCh := [] |> <| isClientActive := false |> in
  running s' /\ same_entry s s' /\ (session_ok s -> session_ok s').
Proof.
  intros s'. assert (running s') as Hr.
  { constructor; [by eexists | done|]. cbn. intros ->. by exists 0%nat. }
  split; [done|]. split; [by constructor|]. intros []. constructor; try done. cbn. intros ->. by right.
Qed.

Lemma wf_created v : wf_server v -> safe (RxTx_created v) wf_server.
Proof.
  intros W. unfold RxTx_created. destruct (CreatedSessionCh v) as [|id rest] eqn:Ec; [done|].
  set (v1 := v <| CreatedSessionCh := rest |>). change (Sessions v1) with (Sessions v).
  destruct (Sessions v !! id) as [r|] eqn:Hr.
  2: { apply (wf_frame_started v); try done; [|apply W]. intros id' r' s' H' _ Hin. left. cbn.
       rewrite Ec in Hin. apply elem_of_cons in Hin as [-> |]; [congruence | done]. }
  destruct (wv_entry _ W _ _ Hr) as (s & Hs & E).
  unfold on_session. rewrite (deref_Some v1 r s Hs). cbn [exec_bind].
  destruct (started_frame s) as (Hrun & Fe & Fs). cbv zeta in *.
  set (s' := s <| SessionStopClientCh := _ |> <| SessionStopServerCh := _ |>
               <| ReceivedPacketCh := _ |> <| isClientActive := _ |>) in *. clearbody s'.
  assert (wf_server (write r s' v)) as W2 by (by eapply wf_write).
  pose proof (lookup_lt_Some _ _ _ Hs) as Hlt.
  assert (heap (write r s' v) !! r = Some s') as Hs' by (by apply list_lookup_insert_eq).
  rewrite (deref_Some (write r s' v1) r s' Hs').
  cbn [exec_bind safe]. apply (wf_frame_started (write r s' v)); try done.
  - intros id' r' t H' Ht Hin. cbn in Hin. rewrite Ec in Hin.
    apply elem_of_cons in Hin as [-> |]; [right | by left]. cbn in H'. congruence.
  - apply Forall_app. split; [apply W2|]. constructor; [|done]. cbn. by rewrite length_insert.
Qed.

Lemma wf_failed v : wf_server v -> wf_server (RxTx_failed v).
Proof.
  intros W. unfold RxTx_failed. destruct (FailedSessionClientCh v) as [|id rest]; [done|]. cbn.
  destruct (Sessions v !! id); apply (wf_frame v); try done; apply W.
Qed.

Lemma StartClient_frame (perLink dialled : bool) s :
  let s' := snd (if perLink then StartPerLinkSessionClient dialled s else StartSessionClient dialled s) in
  same_entry s s' /\ (session_ok s -> session_ok s').
Proof.
  assert (forall s', SessionStopClientCh s' = chan_listen (SessionStopClientCh s) ->
    SessionStopServerCh s' = SessionStopServerCh s ->
    PerLinkSession (state s') = PerLinkSession (state s) -> running s -> running s') as Hrun.
  { intros s' Ec Es El [[n Hn] _ Hv]. unfold running. rewrite Ec, Es, El, Hn.
    constructor; [by eexists | by exists n | done]. }
  destruct perLink, dialled; cbn; (split; [constructor; try done; by apply Hrun|];
    intros []; constructor; try done; intros; split; done).
Qed.

Lemma wf_client dialled v : wf_server v -> safe (client_goroutine dialled v) wf_server.
Proof.
  intros W. unfold client_goroutine. destruct (startingClients v) as [|[r pl] rest] eqn:Ec; [done|].
  pose proof (wv_clients _ W) as Hc. rewrite Ec in Hc. apply Forall_cons_iff in Hc as [Hr Hc].
  destruct (lookup_lt_is_Some_2 (heap v) r Hr) as [s Hs].
  set (v1 := v <| startingClients := rest |>).
  assert (wf_server v1) as W1 by (by apply (wf_frame v)).
  rewrite (deref_Some v1 r s Hs). cbn [exec_bind].
  pose proof (StartClient_frame pl dialled s) as F. cbv zeta in F.
  destruct (if pl then _ else _) as [failed s']. cbn in F. destruct F as [Fe Fs].
  assert (wf_server (write r s' v1)) as W2 by (eapply wf_write; eauto).
  destruct failed; [|done]. cbn. apply (wf_frame (write r s' v1)); try done. apply W2.
Qed.

Lemma wf_retry n i v : wf_server v -> 0 <= i -> safe (retry_loop n i v) wf_server.
Proof.
  revert i v. induction n as [|n IH]; intros i v W Hi; cbn [retry_loop]; [done|].
  case_decide as Hlt; [|done]. destruct (index_Ok (InactiveSessionsIdSlice v) i) as [id ->]; [lia|].
  cbn [exec_bind]. destruct (Sessions v !! id) as [r|] eqn:Hr; [|apply IH; [done | lia]].
  destruct (wv_entry _ W _ _ Hr) as (s & Hs & _). rewrite (deref_Some _ _ _ Hs). cbn [exec_bind].
  set (v1 := if isClientActive s then v else _).
  assert (wf_server v1) as W1.
  { unfold v1. destruct (isClientActive s); [done|]. apply (wf_frame v); try done.
    apply Forall_app. split; [apply W|]. constructor; [|done]. by eapply lookup_lt_Some. }
  assert (InactiveSessionsIdSlice v1 = InactiveSessionsIdSlice v) as ->
    by (unfold v1; by destruct (isClientActive s)).
  unfold remove_at, slice_to, slice_from. rewrite !(proj2 (Z.leb_le _ _)) by lia. cbn [andb exec_bind].
  apply IH; [|lia]. apply (wf_frame v1); try done. apply W1.
Qed.

Lemma wf_NextHop d ix b v : wf_server v -> safe (HandleNextHopChange fuel d ix b v) wf_server.
Proof.
  intros W. unfold HandleNextHopChange. destruct b; [|done].
  apply for_each_safe; [|done]. intros [k m0] v' _ W'. cbn.
  destruct (tobeCreatedSessions v' !! k) as [m|] eqn:Em; [|done].
  eapply safe_bind; [apply wf_Create; [done | by eapply wv_waiting]|].
  intros [[o ok] v''] W''. cbn in *. destruct ok; [|done]. apply (wf_waiting v''); [done|].
  intros k' m' [_ H]%lookup_delete_Some. by eapply wv_waiting.
Qed.

(** ** The whole server *)

(** What reaches the server: requests, configuration, packets, and the steps of
    its goroutines. *)
Inductive command : Type :=
| CmdCreate (m : BfdSessionMgmt) | CmdDelete (m : BfdSessionMgmt)
| CmdAdminUp (m : BfdSessionMgmt) | CmdAdminDown (m : BfdSessionMgmt) | CmdReset (id : Z)
| CmdGlobal (g : GlobalConfig)
| CmdParam (c : SessionParamConfig) | CmdParamDelete (n : string)
| CmdNextHop (ip : string) (ifIndex : Z) (reachable : bool)
| CmdDatagram (ip : string) (data : list Z)
| CmdCreated | CmdFailed | CmdClient (dialled : bool) | CmdRetry
| CmdSession (id : Z) (o : session_op).

Definition run_command (md5 sha1 : list Z -> list Z) (c : command) (v : BFDServer) : exec BFDServer :=
  match c with
  | CmdCreate m => let! (_, _, v) := CreateBfdSession fuel m v in Ok v
  | CmdDelete m => DeleteBfdSession m v
  | CmdAdminUp m => AdminUpBfdSession now m v
  | CmdAdminDown m => AdminDownBfdSession now m v
  | CmdReset id => ResetBfdSession id v
  | CmdGlobal g => processGlobalConfig now g v
  | CmdParam p => processSessionParamConfig p v
  | CmdParamDelete n => processSessionParamDelete n v
  | CmdNextHop ip ix b => HandleNextHopChange fuel ip ix b v
  | CmdDatagram ip data => receive_datagram ip data v
  | CmdCreated => RxTx_created v
  | CmdFailed => Ok (RxTx_failed v)
  | CmdClient dialled => client_goroutine dialled v
  | CmdRetry => StartSessionRetryHandler v
  | CmdSession id o => let! r := session_ref v id in on_session (run_op md5 sha1 now o) r v
  end.

(** The conditions under which the server survives a command: owners are valid,
    no parameter set turns authentication on, a parameter set is deleted only
    when it is neither the default nor in use, a session is brought up (by
    request or by the global configuration) only after its client has started,
    a reset or a session step names an existing session, a session step needs
    its client to have started, and the decoder survives the datagram. *)
Definition command_ok (c : command) (v : BFDServer) : Prop :=
  match c with
  | CmdCreate m | CmdDelete m => valid_owner (m_Protocol m)
  | CmdAdminUp m => all_live (fun ip => ip = m_DestIp m) v
  | CmdReset id => is_Some (Sessions v !! id)
  | CmdGlobal g => Enabled v = false -> g_Enable g = true -> all_live (fun _ => True) v
  | CmdParam p => pc_AuthenticationEnabled p = false
  | CmdParamDelete n => n <> "default" /\ param_unused n v
  | CmdDatagram _ data => 24 <= len data -> DecodeBfdControlPacket data <> Panic
  | CmdSession id o => op_ok o /\ exists r s, Sessions v !! id = Some r /\ heap v !! r = Some s /\ live s
  | _ => True
  end.

Lemma run_command_safe md5 sha1 c v :
  wf_server v -> command_ok c v -> safe (run_command md5 sha1 c v) wf_server.
Proof.
  intros W Hc. destruct c; cbn [run_command command_ok] in *.
  - eapply safe_bind; [by apply wf_Create|]. intros [[? ?] ?] H. exact H.
  - by apply wf_Delete.
  - by apply wf_AdminUp.
  - by apply wf_AdminDown.
  - by apply wf_Reset.
  - by apply wf_Global.
  - by apply wf_ParamConfig.
  - destruct Hc. by apply wf_ParamDelete.
  - by apply wf_NextHop.
  - by apply wf_datagram.
  - by apply wf_created.
  - by apply wf_failed.
  - by apply wf_client.
  - by apply wf_retry.
  - destruct Hc as [Ho (r & s & Hr & Hs & Hl)]. unfold session_ref. rewrite Hr. cbn [of_option exec_bind].
    destruct (wv_entry _ W _ _ Hr) as (s' & Hs' & E). rewrite Hs in Hs'. injection Hs' as <-.
    eapply wf_on_session; [done | exact Hs|]. apply run_op_ok; [apply E | done | done].
Qed.

(** The server as [InitServer] leaves it. *)
Lemma initial_server_wf :
  exists v, createDefaultSessionParam (initBfdGlobalConfDefault NewBFDServer) = Ok v /\ wf_server v.
Proof.
  unfold createDefaultSessionParam, initBfdGlobalConfDefault. cbn. rewrite lookup_empty.
  unfold UpdateBfdSessionsUsingParam. cbn [Sessions].
  assert (range_sessions ∅ = []) as Hr.
  { apply Permutation_nil. symmetry. rewrite range_sessions_perm, map_to_list_empty. done. }
  match goal with |- context [range_sessions (Sessions ?x)] =>
    change (Sessions x) with (∅ : gmap Z nat) end.
  rewrite Hr. eexists. split; [reflexivity|].
  constructor; cbn.
  - intros id r H. by rewrite lookup_empty in H.
  - intros ip r H. by rewrite lookup_empty in H.
  - intros id r s H. by rewrite lookup_empty in H.
  - by rewrite map_to_list_empty.
  - done.
  - rewrite lookup_insert_eq. by eexists.
  - intros n q [[_ <-]|[_ H]]%lookup_insert_Some; [done|]. by rewrite lookup_empty in H.
  - done.
  - intros k m H. by rewrite lookup_empty in H.
Qed.

(** ** Functional behaviour *)

(** What the walk of [UpdateBfdSessionsUsingParam] does to every session. *)
Lemma param_walk n o (l : list (Z * ref)) v :
  NoDup (l.*2) -> (forall id r, (id, r) ∈ l -> is_Some (heap v !! r)) ->
  exists v', for_each (fun e v =>
    let! s := deref v (snd e) in
    if decide (ParamName (state s) = n) then Ok (write (snd e) (apply_param o s) v) else Ok v) l v = Ok v'
  /\ v' = v <| heap := heap v' |>
  /\ forall r s, heap v !! r = Some s ->
     heap v' !! r = Some (if decide (ParamName (state s) = n /\ r ∈ l.*2) then apply_param o s else s).
Proof.
  revert v. induction l as [|[id r] l IH]; intros v Hnd Hh; cbn [for_each].
  - exists v. split; [done|]. split; [by destruct v|]. intros r s Hs. rewrite decide_False; [done|].
    intros [_ H]. by apply elem_of_nil in H.
  - rewrite fmap_cons in Hnd. cbn in Hnd. pose proof (NoDup_cons_1_1 _ _ Hnd) as Hnin.
    apply NoDup_cons_1_2 in Hnd. destruct (Hh id r) as [s Hs]; [set_solver|].
    cbn [snd]. rewrite (deref_Some _ _ _ Hs). cbn [exec_bind].
    pose proof (lookup_lt_Some _ _ _ Hs) as Hlt.
    set (s1 := if decide (ParamName (state s) = n) then apply_param o s else s).
    set (v1 := write r s1 v).
    assert ((if decide (ParamName (state s) = n) then Ok (write r (apply_param o s) v) else Ok v)
            = Ok v1) as ->.
    { unfold v1, s1. case_decide; [done|]. unfold write. f_equal. simpl_rec.
      rewrite list_insert_id by done. by destruct v. }
    cbn [exec_bind].
    assert (forall r' t, r' <> r -> heap v !! r' = Some t -> heap v1 !! r' = Some t) as Hoth
      by (intros; unfold v1; cbn; by rewrite list_lookup_insert_ne).
    destruct (IH v1 Hnd) as (v' & E & Ev & H').
    { intros id' r' Hin. assert (r' <> r).
      { intros ->. apply Hnin, list_elem_of_fmap. by exists (id', r). }
      destruct (Hh id' r') as [t Ht]; [set_solver|]. exists t. by apply Hoth. }
    exists v'. split; [done|]. split; [rewrite Ev; by destruct v|].
    intros r' t Ht. destruct (decide (r' = r)) as [->|Hne].
    + rewrite Hs in Ht. injection Ht as <-. rewrite (H' r s1) by (apply list_lookup_insert_eq; done).
      f_equal. rewrite decide_False by (intros [_ ?]; done). unfold s1.
      case_decide; case_decide as Hd; try done; [|naive_solver].
      exfalso. apply Hd. split; [done | set_solver].
    + rewrite (H' r' t) by auto. f_equal.
      assert (r' ∈ ((id, r) :: l).*2 <-> r' ∈ l.*2) as Hiff by (rewrite fmap_cons; set_solver).
      repeat case_decide; naive_solver.
Qed.

Lemma sessions_refs_nodup v : wf_server v -> NoDup (range_sessions (Sessions v)).*2.
Proof.
  intros W. rewrite range_sessions_perm. apply NoDup_fmap_2_strong; [|apply NoDup_map_to_list].
  intros [id r] [id' r'] H H' E. cbn in E. subst r'. apply elem_of_map_to_list in H, H'.
  by rewrite (wf_ref_inj v id id' r W H H').
Qed.

Lemma sessions_refs_elem v r :
  r ∈ (range_sessions (Sessions v)).*2 <-> exists id, Sessions v !! id = Some r.
Proof.
  rewrite list_elem_of_fmap. split.
  - intros ([id r'] & -> & H%range_elem). by exists id.
  - intros [id H]. exists (id, r). split; [done | by apply range_elem].
Qed.

Lemma update_param_spec n v :
  wf_server v -> exists v', UpdateBfdSessionsUsingParam n v = Ok v' /\ v' = v <| heap := heap v' |>
  /\ forall id r s, Sessions v !! id = Some r -> heap v !! r = Some s ->
     heap v' !! r = Some (if decide (ParamName (state s) = n)
                          then apply_param (SessionParams v !! n) s else s).
Proof.
  intros W. unfold UpdateBfdSessionsUsingParam.
  destruct (param_walk n (SessionParams v !! n) (range_sessions (Sessions v)) v) as (v' & E & Ev & H').
  - by apply sessions_refs_nodup.
  - intros id r H%range_elem. destruct (wv_entry _ W _ _ H) as (s & ? & _). by exists s.
  - exists v'. split; [exact E|]. split; [done|]. intros id r s Hr Hs. rewrite (H' r s Hs). f_equal.
    assert (r ∈ (range_sessions (Sessions v)).*2) by (apply sessions_refs_elem; by exists id).
    repeat case_decide; naive_solver.
Qed.

Lemma InitiatePoll_values s :
  state (InitiatePollSequence s) = state s /\ pollSequence (InitiatePollSequence s) = true
  /\ paramChanged (InitiatePollSequence s) = paramChanged s.
Proof. unfold InitiatePollSequence. destruct (pollSequence s) eqn:E; done. Qed.

Lemma apply_param_values q s :
  let s' := apply_param (Some q) s in
  s_DesiredMinTxInterval (state s') = sp_DesiredMinTxInterval q
  /\ s_RequiredMinRxInterval (state s') = sp_RequiredMinRxInterval q
  /\ DetectionMultiplier (state s') = sp_LocalMultiplier q
  /\ DemandMode (state s') = sp_DemandEnabled q
  /\ pollSequence s' = true /\ NeedBfdPacketUpdate s' = true.
Proof.
  unfold apply_param. cbv zeta.
  match goal with |- context [InitiatePollSequence ?t] =>
    destruct (InitiatePoll_values t) as (-> & Hp & Hc) end.
  unfold NeedBfdPacketUpdate. rewrite Hp, Hc. split_and!; reflexivity.
Qed.

(** configuring a parameter set changes exactly the sessions that use it,
    whatever order the table is walked in: they take over the intervals (in
    microseconds), multiplier and demand mode of the set and start a poll
    sequence; every other session is left as it is. *)
Theorem param_config_reaches_its_sessions c v id r s :
  wf_server v -> pc_AuthenticationEnabled c = false ->
  Sessions v !! id = Some r -> heap v !! r = Some s ->
  exists v' s', processSessionParamConfig c v = Ok v' /\ heap v' !! r = Some s'
  /\ if decide (ParamName (state s) = pc_Name c)
     then s_DesiredMinTxInterval (state s') = i32 (pc_DesiredMinTxInterval c * 1000)
          /\ s_RequiredMinRxInterval (state s') = i32 (pc_RequiredMinRxInterval c * 1000)
          /\ DetectionMultiplier (state s') = pc_LocalMultiplier c
          /\ DemandMode (state s') = pc_DemandEnabled c
          /\ pollSequence s' = true /\ NeedBfdPacketUpdate s' = true
     else s' = s.
Proof.
  intros W Hc Hr Hs. unfold processSessionParamConfig.
  set (q := default zero_param _ <| sp_Name := _ |> <| sp_LocalMultiplier := _ |>
    <| sp_DesiredMinTxInterval := _ |> <| sp_RequiredMinRxInterval := _ |>
    <| sp_RequiredMinEchoRxInterval := _ |> <| sp_DemandEnabled := _ |>
    <| sp_AuthenticationEnabled := _ |> <| sp_AuthenticationType := _ |>
    <| sp_AuthenticationKeyId := _ |> <| sp_AuthenticationData := _ |>).
  set (v1 := match SessionParams v !! pc_Name c with Some _ => _ | None => _ end).
  assert (wf_server v1 /\ Sessions v1 = Sessions v /\ heap v1 = heap v
    /\ SessionParams v1 !! pc_Name c = Some q) as (W1 & E1 & E2 & E3).
  { split.
    - unfold v1. pose proof (fun n => wf_params v (<[pc_Name c := q]> (SessionParams v)) n W) as Hw.
      destruct (SessionParams v !! pc_Name c);
        [apply (Hw (NumSessionParams v)) | apply (Hw (u32 (NumSessionParams v + 1)))].
      all: try (intros k Hk; apply lookup_insert_is_Some'; by right).
      all: intros k q' [[_ <-]|[_ H']]%lookup_insert_Some; [done | by eapply wv_noauth].
    - unfold v1. destruct (SessionParams v !! pc_Name c); (split; [done|]; split; [done|]);
      apply lookup_insert_eq. }
  clearbody v1. destruct (update_param_spec (pc_Name c) v1 W1) as (v' & E & _ & H').
  rewrite <- E1 in Hr. rewrite <- E2 in Hs. specialize (H' _ _ _ Hr Hs). rewrite E3 in H'.
  eexists v', _. split; [exact E|]. split; [exact H'|]. case_decide; [|done].
  exact (apply_param_values q s).
Qed.

(** deleting a parameter set that a session still uses leaves the session
    pointing at a set that no longer exists, and deleting that session, once
    started, dereferences nil. *)
Theorem delete_after_param_delete_panics v id r s p :
  wf_server v -> Sessions v !! id = Some r -> heap v !! r = Some s -> valid_owner p ->
  PerLinkSession (state s) = false -> id ∉ CreatedSessionCh v ->
  exists v', processSessionParamDelete (ParamName (state s)) v = Ok v'
  /\ Sessions v' !! id = Some r /\ SessionDeleteHandler r p true v' = Panic.
Proof.
  intros W Hr Hs Hp Hl Hc. destruct (wv_entry _ W _ _ Hr) as (t & Ht & E). rewrite Hs in Ht. injection Ht as <-.
  destruct (eo_started _ _ _ E) as [|Hrun]; [done|].
  destruct (eo_param _ _ _ E) as [q Hq]. unfold processSessionParamDelete. rewrite Hq.
  set (n := ParamName (state s)) in *.
  set (v1 := v <| SessionParams ::= _ |> <| NumSessionParams ::= _ |>).
  unfold UpdateBfdSessionsUsingParam.
  destruct (param_walk n (SessionParams v1 !! n) (range_sessions (Sessions v1)) v1) as (v' & E' & Ev & H').
  - by apply (sessions_refs_nodup v).
  - intros id' r' H%(range_elem v). destruct (wv_entry _ W _ _ H) as (t & ? & _). by exists t.
  - exists v'. split; [exact E'|]. specialize (H' r s Hs).
    assert (Sessions v' = Sessions v /\ SessionParams v' !! n = None) as [Es Ep].
    { rewrite Ev. split; [done|]. apply lookup_delete_eq. }
    split; [by rewrite Es|].
    set (s1 := if decide _ then _ else s) in H'.
    assert (same_entry s s1 /\ session_ok s1) as [Fe So].
    { unfold s1. change (SessionParams v1 !! n) with (delete n (SessionParams v) !! n).
      rewrite lookup_delete_eq. case_decide; [|split; [by constructor | apply E]].
      destruct (apply_param_frame None s) as [? Hok]. split; [done|]. apply Hok; [done | apply E]. }
    unfold SessionDeleteHandler, on_session. rewrite (deref_Some _ _ _ H'). cbn [exec_bind].
    destruct (store_Ok (RegisteredProtocols (state s1)) p false) as [apps ->]; [by rewrite (so_apps _ So)|].
    cbn [exec_bind].
    match goal with |- context [write r ?x v'] => set (s2 := x) end.
    assert (heap (write r s2 v') !! r = Some s2) as Hs2
      by (apply list_lookup_insert_eq; by eapply lookup_lt_Some).
    rewrite (deref_Some _ _ _ Hs2). cbn [exec_bind orb]. unfold remove_session. rewrite (deref_Some _ _ _ Hs2).
    cbn [exec_bind]. destruct Fe. destruct (told_to_stop_running s2) as [s3 E3];
      [by apply se_running0 | by etrans; [|exact Hl]|].
    rewrite E3. cbn [exec_bind]. destruct (told_to_stop_frame s2 s3 E3) as (-> & _).
    change (SessionParams (write r s3 (write r s2 v')) !! ParamName (state s2))
      with (SessionParams v' !! ParamName (state s1)).
    rewrite se_name0. change (ParamName (state s)) with n. by rewrite Ep.
Qed.

Definition has_owner (s : BfdSession) (p : Z) : Prop :=
  RegisteredProtocols (state s) !! Z.to_nat p = Some true.

Lemma store_lookup {A} (l : list A) i x l' : store l i x = Ok l' -> l' !! Z.to_nat i = Some x.
Proof.
  unfold store. case_match eqn:E; [|done]. intros H. injection H as <-.
  apply andb_true_iff in E as [H1%Z.leb_le H2%Z.ltb_lt]. unfold len in H2.
  apply list_lookup_insert_eq. lia.
Qed.

Lemma index_lookup {A} (l : list A) i x : index l i = Ok x -> l !! Z.to_nat i = Some x.
Proof. unfold index. case_match; [|done]. destruct (l !! _); [|done]. cbn. congruence. Qed.

(** A single session is created when a draw succeeds. *)
Lemma NewNormal_returns v i l d n p k :
  wf_server v -> valid_owner p -> (k < fuel)%nat ->
  Sessions v !! Int31n k MAX_NUM_SESSIONS = None -> Int31n k MAX_NUM_SESSIONS <> 0 ->
  exists id s v', NewNormalBfdSession fuel i l d n false p v = Ok (Some (length (heap v)), v')
  /\ heap v' = heap v ++ [s] /\ Sessions v' = <[id := length (heap v)]> (Sessions v)
  /\ SessionsByIp v' = <[d := length (heap v)]> (SessionsByIp v)
  /\ Sessions v !! id = None /\ SessionId (state s) = id
  /\ IpAddr (state s) = d /\ has_owner s p /\ session_state s = STATE_DOWN
  /\ NumSessions v' = u32 (NumSessions v + 1) /\ id ∈ CreatedSessionCh v'.
Proof.
  intros W Hp Hk Hf H0. unfold NewNormalBfdSession, GetNewSessionId. rewrite decide_True.
  2: { rewrite (wv_count _ W). pose proof (wf_size _ W). unfold MAX_NUM_SESSIONS. lia. }
  destruct (draw_returns fuel 0 k v Hk Hf H0) as [id Ed].
  pose proof (draw_fresh fuel 0 v) as Hd. rewrite Ed in *. destruct Hd as [Hid Hr].
  cbn [exec_bind]. rewrite decide_False by lia.
  destruct (store_Ok (replicate (Z.to_nat MAX_APPS) false) p true) as [apps Ea]; [exact Hp|].
  rewrite Ea. cbn [exec_bind].
  set (name := match SessionParams v !! n with Some _ => n | None => "default" end).
  assert (is_Some (SessionParams v !! name)) as [q Hq].
  { unfold name. destruct (SessionParams v !! n) eqn:E; [by eexists | apply W]. }
  rewrite Hq. cbn [of_option exec_bind]. eexists id, _, _. split; [reflexivity|].
  split; [reflexivity|]. split; [reflexivity|]. split; [reflexivity|]. split; [done|]. split; [done|]. split; [done|].
  split; [unfold has_owner; by apply store_lookup in Ea|]. split; [done|]. split; [done|].
  change (id ∈ CreatedSessionCh v ++ [id]). set_solver.
Qed.

(** C23: a request, naming no interface and not per-link, for a new destination
    that the routing daemon can reach creates a session in state down,
    registered for the requesting protocol and found through both maps (by its
    identifier and by its address), and queues it for its goroutines. *)
Theorem create_new_session m v ix l k :
  wf_server v -> valid_owner (m_Protocol m) -> m_Interface m = "" -> m_PerLink m = false ->
  (forall id r s, Sessions v !! id = Some r -> heap v !! r = Some s -> IpAddr (state s) <> m_DestIp m) ->
  GetRouteReachabilityInfo (m_DestIp m) = Some (ix, l) ->
  (k < fuel)%nat -> Sessions v !! Int31n k MAX_NUM_SESSIONS = None ->
  Int31n k MAX_NUM_SESSIONS <> 0 ->
  exists r s v', CreateBfdSession fuel m v = Ok (Some r, true, v') /\ heap v' !! r = Some s
  /\ IpAddr (state s) = m_DestIp m /\ Sessions v' !! SessionId (state s) = Some r
  /\ SessionsByIp v' !! m_DestIp m = Some r
  /\ has_owner s (m_Protocol m) /\ session_state s = STATE_DOWN
  /\ NumSessions v' = NumSessions v + 1 /\ SessionId (state s) ∈ CreatedSessionCh v'.
Proof.
  intros W Hp Hi Hl Hnew Hreach Hk Hf H0. unfold CreateBfdSession, session_ip. rewrite Hi, Hl.
  rewrite decide_False by tauto.
  destruct (Find_spec (m_DestIp m) v W) as ([id|] & -> & Ho).
  { destruct Ho as (r & s & Hr & Hs & Hip). by destruct (Hnew _ _ _ Hr Hs). }
  cbn [exec_bind]. unfold NewBfdSession, GetIfIndexFromDestIp. rewrite Hreach.
  rewrite (bool_decide_eq_false_2 ("" <> "")) by tauto. cbn [andb].
  set (v1 := v <| ribdTracked ::= _ |>).
  assert (wf_server v1) as W1 by (by apply wf_tracked).
  assert (match getLinuxIntfName ix v1 with inr _ => false | inl _ => false end = false) as ->
    by (by destruct (getLinuxIntfName ix v1)).
  rewrite andb_false_r.
  destruct (NewNormal_returns v1 "" l (m_DestIp m) (m_ParamName m) (m_Protocol m) k W1 Hp Hk Hf H0)
    as (id & s & v2 & -> & Eh & Es & Eb & Hid & Si & Sip & So & Sd & En & Ec).
  cbn [exec_bind of_option]. unfold on_session, deref.
  assert (heap v2 !! length (heap v1) = Some s) as Hs by (rewrite Eh; by apply list_lookup_middle).
  rewrite Hs. cbn [of_option exec_bind].
  eexists _, _, _. split; [reflexivity|].
  split; [cbn; apply list_lookup_insert_eq; by eapply lookup_lt_Some|].
  split; [exact Sip|]. split; [cbn; rewrite Si, Es; apply lookup_insert_eq|].
  split; [cbn; rewrite Eb; apply lookup_insert_eq|].
  split; [exact So|]. split; [exact Sd|]. split; [|cbn; by rewrite Si].
  cbn. rewrite En. change (NumSessions v1) with (NumSessions v). rewrite (wv_count _ W).
  pose proof (wf_size _ W). apply u32_small. unfold is_u32. lia.
Qed.

(** a request for a destination that already has a session creates
    nothing: it registers the protocol with the existing session and returns
    it; the table of sessions does not change. *)
Theorem create_existing_registers m v id r s :
  wf_server v -> valid_owner (m_Protocol m) -> Sessions v !! id = Some r -> heap v !! r = Some s ->
  IpAddr (state s) = session_ip (m_DestIp m) (m_Interface m) ->
  exists id' r' s' v', CreateBfdSession fuel m v = Ok (Some r', true, v')
  /\ Sessions v' = Sessions v /\ NumSessions v' = NumSessions v
  /\ Sessions v !! id' = Some r' /\ heap v' !! r' = Some s'
  /\ IpAddr (state s') = session_ip (m_DestIp m) (m_Interface m) /\ has_owner s' (m_Protocol m).
Proof.
  intros W Hp Hr Hs Hip. unfold CreateBfdSession.
  destruct (Find_spec (session_ip (m_DestIp m) (m_Interface m)) v W) as ([id'|] & -> & Ho);
    [|by destruct (Ho id r s)].
  destruct Ho as (r' & s' & Hr' & Hs' & Hip'). cbn [exec_bind]. unfold session_ref.
  rewrite Hr'. cbn [of_option exec_bind].
  destruct (wv_entry _ W _ _ Hr') as (t & Ht & E). rewrite Hs' in Ht. injection Ht as <-.
  pose proof (eo_session _ _ _ E) as So. unfold on_session. rewrite (deref_Some _ _ _ Hs'). cbn [exec_bind].
  destruct (index_Ok (RegisteredProtocols (state s')) (m_Protocol m)) as [b Eb];
    [rewrite (so_apps _ So); exact Hp|].
  rewrite Eb. cbn [exec_bind]. pose proof (lookup_lt_Some _ _ _ Hs') as Hlt. destruct b.
  - eexists id', r', s', _. split; [reflexivity|]. split; [done|]. split; [done|]. split; [done|].
    split; [by apply list_lookup_insert_eq|]. split; [done|]. by apply index_lookup in Eb.
  - destruct (store_Ok (RegisteredProtocols (state s')) (m_Protocol m) true) as [l El];
      [rewrite (so_apps _ So); exact Hp|].
    rewrite El. cbn [exec_bind]. eexists id', r', _, _. split; [reflexivity|]. split; [done|].
    split; [done|]. split; [done|]. split; [by apply list_lookup_insert_eq|].
    split; [done|]. by apply store_lookup in El.
Qed.

(** C24: deleting, for a protocol, a started session that is not per-link
    removes it from every table when no other protocol is registered (or the
    deletion is forced); otherwise it only clears the protocol's registration
    and the table is unchanged.  Either way the call returns. *)
Theorem delete_last_owner m v id r s :
  wf_server v -> valid_owner (m_Protocol m) ->
  FindBfdSession (session_ip (m_DestIp m) (m_Interface m)) v = Ok (Some id) ->
  Sessions v !! id = Some r -> heap v !! r = Some s -> PerLinkSession (state s) = false ->
  id ∉ CreatedSessionCh v ->
  exists apps others v', store (RegisteredProtocols (state s)) (m_Protocol m) false = Ok apps
  /\ any_registered apps 1 4 = Ok others /\ DeleteBfdSession m v = Ok v' /\ wf_server v'
  /\ if m_ForceDel m || negb others then gone id v'
     else Sessions v' = Sessions v
          /\ exists s', heap v' !! r = Some s' /\ RegisteredProtocols (state s') = apps.
Proof.
  intros W Hp Hfind Hr Hs Hpl Hc. unfold DeleteBfdSession. rewrite Hfind. cbn [exec_bind].
  unfold session_ref. rewrite Hr. cbn [of_option exec_bind]. rewrite (deref_Some _ _ _ Hs).
  cbn [exec_bind]. rewrite Hpl.
  destruct (SessionDelete_spec v r s id (m_Protocol m) (m_ForceDel m) W Hr Hs Hp)
    as (apps & b & v' & Ea & Eb & -> & W1 & W2 & _).
  exists apps, b. destruct (wv_entry _ W _ _ Hr) as (t & Ht & E). rewrite Hs in Ht. injection Ht as <-.
  destruct (eo_started _ _ _ E) as [|Hrun]; [done|].
  destruct (told_to_stop_running (without_owner apps s) Hrun Hpl) as [s' Es].
  destruct (m_ForceDel m || negb b).
  - rewrite Es. cbn [exec_bind]. eexists. split_and!; [done | done | reflexivity | by apply wf_tracked, W2|].
    apply (W2 s').
  - cbn [exec_bind]. eexists. split_and!; [done | done | reflexivity | by apply wf_tracked | done |].
    eexists. split; [apply list_lookup_insert_eq; by eapply lookup_lt_Some | done].
Qed.

(** A walk that meets an entry at which it must wait does not return. *)
Lemma walk_hangs (g : Z * ref -> BFDServer -> exec BFDServer) (P : BFDServer -> Prop) id r l v :
  (forall v, P v -> g (id, r) v = Hang) ->
  (forall id' r' v, id' <> id -> P v -> Sessions v !! id' = Some r' ->
     safe (g (id', r') v) (fun v' => P v' /\ forall id2 r2, id2 <> id' ->
       Sessions v !! id2 = Some r2 -> Sessions v' !! id2 = Some r2)) ->
  NoDup l.*1 -> (id, r) ∈ l -> P v -> (forall id' r', (id', r') ∈ l -> Sessions v !! id' = Some r') ->
  for_each g l v = Hang.
Proof.
  intros Hh Hg. revert v. induction l as [|[id' r'] l IH]; intros v Hnd Hin Hp Hl; [by apply elem_of_nil in Hin|].
  cbn [for_each]. rewrite fmap_cons in Hnd. cbn in Hnd.
  pose proof (NoDup_cons_1_1 _ _ Hnd) as Hnin. apply NoDup_cons_1_2 in Hnd.
  destruct (decide (id' = id)) as [->|Hne].
  - assert (r' = r) as -> by (apply elem_of_cons in Hin as [E|Hin]; [congruence|];
      destruct Hnin; apply list_elem_of_fmap; by exists (id, r)).
    by rewrite Hh.
  - pose proof (Hg id' r' v Hne Hp (Hl id' r' (list_elem_of_here _ _))) as Hs.
    destruct (g (id', r') v) as [v'| |]; [|done|done]. destruct Hs as [Hp' Hoth]. cbn [exec_bind].
    apply IH; [done | set_solver | done|]. intros id2 r2 H2. apply Hoth; [|apply Hl; set_solver].
    intros ->. apply Hnin, list_elem_of_fmap. by exists (id', r2).
Qed.

Lemma SessionDelete_hangs v r s id p force apps :
  wf_server v -> Sessions v !! id = Some r -> heap v !! r = Some s -> valid_owner p ->
  store (RegisteredProtocols (state s)) p false = Ok apps ->
  (force = true \/ any_registered apps 1 4 = Ok false) -> nobody_hears (SessionStopServerCh s) ->
  SessionDeleteHandler r p force v = Hang.
Proof.
  intros W Hr Hs Hp Ea Hlast Hn.
  destruct (SessionDelete_spec v r s id p force W Hr Hs Hp) as (apps' & b & w' & Ea' & Eb & -> & _).
  rewrite Ea in Ea'. injection Ea' as <-.
  replace (force || negb b) with true
    by (destruct Hlast as [-> | El]; [done | rewrite El in Eb; injection Eb as <-; by rewrite orb_true_r]).
  by rewrite (told_to_stop_blocks (without_owner apps s) Hn).
Qed.

(** C18: the deletion of a session for its last owner (or forced) never returns
    when the session is per-link, whose server goroutine does not listen for
    the stop, or when it has not been started yet and its stop channels are
    nil. *)
Theorem delete_never_returns m v id r s apps :
  wf_server v -> valid_owner (m_Protocol m) ->
  FindBfdSession (session_ip (m_DestIp m) (m_Interface m)) v = Ok (Some id) ->
  Sessions v !! id = Some r -> heap v !! r = Some s ->
  store (RegisteredProtocols (state s)) (m_Protocol m) false = Ok apps ->
  (m_ForceDel m = true \/ any_registered apps 1 4 = Ok false) ->
  (PerLinkSession (state s) = true \/ SessionStopServerCh s = None) ->
  DeleteBfdSession m v = Hang.
Proof.
  intros W Hp Hfind Hr Hs Ea Hlast Hwait. set (d := session_ip (m_DestIp m) (m_Interface m)) in *.
  assert (nobody_hears (SessionStopServerCh s)) as Hn.
  { destruct Hwait as [Hl|Hn]; [|by left]. destruct (wv_entry _ W _ _ Hr) as (t & Ht & E).
    rewrite Hs in Ht. injection Ht as <-. by apply (so_link _ (eo_session _ _ _ E)). }
  assert (IpAddr (state s) = d) as Hip.
  { destruct (Find_spec d v W) as (o & E & Ho). rewrite Hfind in E. injection E as <-.
    destruct Ho as (r' & s' & Hr' & Hs' & ?). congruence. }
  assert (forall w, wf_server w -> Sessions w !! id = Some r -> heap w !! r = Some s ->
    SessionDeleteHandler r (m_Protocol m) (m_ForceDel m) w = Hang) as Hhang
    by (intros; by eapply SessionDelete_hangs).
  unfold DeleteBfdSession. fold d. rewrite Hfind. cbn [exec_bind].
  unfold session_ref. rewrite Hr. cbn [of_option exec_bind]. rewrite (deref_Some _ _ _ Hs). cbn [exec_bind].
  destruct (PerLinkSession (state s)); [|by rewrite Hhang].
  unfold DeletePerLinkSessions. rewrite (walk_hangs _ (fun w => wf_server w
    /\ Sessions w !! id = Some r /\ heap w !! r = Some s) id r); [done | | | | | done |].
  - intros w (Ww & Hrw & Hsw). cbn. rewrite (deref_Some _ _ _ Hsw). cbn [exec_bind].
    rewrite decide_True by done. by apply Hhang.
  - intros id' r' w Hne (Ww & Hrw & Hsw) Hr'. cbn.
    destruct (wv_entry _ Ww _ _ Hr') as (s' & Hs' & _). rewrite (deref_Some _ _ _ Hs'). cbn [exec_bind].
    case_decide; [|by split]. assert (r' <> r) by (intros ->; destruct Hne; by eapply wf_ref_inj).
    eapply safe_mono; [by apply (SessionDelete_safe w r' s' id')|]. intros w' (? & Hh & Ho).
    split; [|done]. split_and!; [done | by apply Ho | by rewrite Hh].
  - rewrite range_sessions_perm. apply NoDup_fst_map_to_list.
  - by apply range_elem.
  - intros id' r'. apply range_elem.
Qed.

(** a received packet goes to the session its discriminator names or,
    failing that, to the session of the sender's address: that session, if its
    client runs and its detection interval is not zero, gets the packet queued
    and its detection timer restarted; all other sessions stay as they are. *)
Theorem dispatch_targets_session ip p v r s :
  wf_server v -> heap v !! r = Some s ->
  (Sessions v !! i32 (YourDiscriminator p) = Some r
   \/ Sessions v !! i32 (YourDiscriminator p) = None /\ SessionsByIp v !! ip = Some r) ->
  exists v', DispatchReceivedBfdPacket ip p v = Ok v'
  /\ (forall r', r' <> r -> heap v' !! r' = heap v !! r')
  /\ heap v' !! r = Some (if isClientActive s && bool_decide (rxInterval s <> 0) && bool_decide (sessionTimer s <> TimerNil)
                          then s <| sessionTimer := TimerArmed (rxInterval s) |>
                                 <| ReceivedPacketCh ::= fun q => q ++ [p] |>
                          else s)
  /\ Sessions v' = Sessions v.
Proof.
  intros W Hs Ht. unfold DispatchReceivedBfdPacket.
  assert (match Sessions v !! i32 (YourDiscriminator p) with
          | Some r => Some r | None => SessionsByIp v !! ip end = Some r) as ->.
  { destruct Ht as [-> | [-> ->]]; done. }
  unfold on_session. rewrite (deref_Some _ _ _ Hs). cbn [exec_bind].
  pose proof (lookup_lt_Some _ _ _ Hs) as Hlt.
  assert (IsSessionActive s = isClientActive s) as -> by (unfold IsSessionActive; by destruct (isClientActive s)).
  destruct (isClientActive s && bool_decide (rxInterval s <> 0)); cbn [andb].
  2: { eexists. split; [reflexivity|]. cbn. split_and!; [|by apply list_lookup_insert_eq | done].
       intros. by apply list_lookup_insert_ne. }
  destruct (sessionTimer s) eqn:Et; cbn [timer_Reset exec_bind];
    (eexists; split; [reflexivity|]); cbn;
    (split_and!; [intros; by apply list_lookup_insert_ne | by rewrite list_lookup_insert_eq | done]).
Qed.

(** ** Paging *)

Definition state_of_id (v : BFDServer) (id : Z) (st : SessionState) : Prop :=
  exists r s, Sessions v !! id = Some r /\ heap v !! r = Some s /\ st = reported_state s.

Lemma fill_states_spec v n i result :
  wf_server v -> (i + n <= length (SessionsIdSlice v))%nat -> (i + n <= length result)%nat ->
  exists result', fill_states n (Z.of_nat i) result v = Ok result'
  /\ length result' = length result
  /\ (forall j, (j < i)%nat -> result' !! j = result !! j)
  /\ forall j id, (i <= j < i + n)%nat -> SessionsIdSlice v !! j = Some id ->
     exists st, result' !! j = Some st /\ state_of_id v id st.
Proof.
  intros W. revert i result. induction n as [|n IH]; intros i result Hn Hlen; cbn [fill_states].
  - exists result. split_and!; try done. lia.
  - destruct (lookup_lt_is_Some_2 (SessionsIdSlice v) i) as [id Hid]; [lia|].
    assert (is_Some (Sessions v !! id)) as [r Hr].
    { apply wf_ids_elem; [done|]. by eapply list_elem_of_lookup_2. }
    destruct (wv_entry _ W _ _ Hr) as (s & Hs & _).
    unfold index. rewrite (proj2 (Z.leb_le 0 _)), Nat2Z.id, Hid by lia. cbn [of_option exec_bind].
    unfold session_ref. rewrite Hr. cbn [of_option exec_bind]. rewrite (deref_Some _ _ _ Hs).
    cbn [exec_bind]. unfold store at 1, len.
    rewrite (proj2 (Z.leb_le 0 _)), (proj2 (Z.ltb_lt _ _)), Nat2Z.id by lia. cbn [andb exec_bind].
    replace (Z.of_nat i + 1) with (Z.of_nat (S i)) by lia.
    destruct (IH (S i) (<[i := reported_state s]> result)) as (result' & E & El & Hold & Hnew);
      [lia | rewrite length_insert; lia|].
    exists result'. split; [exact E|]. rewrite length_insert in El. split; [done|]. split.
    + intros j Hj. rewrite Hold by lia. apply list_lookup_insert_ne. lia.
    + intros j id' Hj Hid'. destruct (decide (j = i)) as [->|Hne].
      * rewrite Hid in Hid'. injection Hid' as <-. rewrite Hold, list_lookup_insert_eq by lia.
        eexists. split; [done|]. by exists r, s.
      * apply Hnew; [lia | done].
Qed.

(** reading from index 0 with room for every session returns all of them,
    in the order of the identifier slice, and ends the paging. *)
Theorem get_bulk_all v cnt :
  wf_server v -> len (SessionsIdSlice v) <= cnt ->
  exists result, GetBulkBfdSessionStates 0 cnt v = Ok (0, len (SessionsIdSlice v), result)
  /\ Forall2 (state_of_id v) (SessionsIdSlice v) result.
Proof.
  intros W Hc. unfold GetBulkBfdSessionStates. rewrite decide_True by lia.
  rewrite decide_False by (pose proof (len_nonneg (SessionsIdSlice v)); lia).
  rewrite !Z.sub_0_r. unfold len. rewrite Nat2Z.id.
  destruct (fill_states_spec v (length (SessionsIdSlice v)) 0
    (replicate (length (SessionsIdSlice v)) zero_state) W) as (result & E & El & _ & Hr);
    [lia | rewrite length_replicate; lia|].
  change (Z.of_nat 0) with 0 in E. rewrite E. cbn [exec_bind]. exists result. split; [done|].
  rewrite length_replicate in El. apply Forall2_same_length_lookup_2; [done|].
  intros j id st Hid Hst. destruct (Hr j id) as (st' & Hst' & ?); [|done|congruence].
  pose proof (lookup_lt_Some _ _ _ Hid). lia.
Qed.

(** as soon as more sessions remain than were asked for, a page is empty:
    the count is read before it is set, and the next index only advances by
    one. *)
Theorem get_bulk_partial_empty v idx cnt :
  0 <= idx -> idx + cnt < len (SessionsIdSlice v) ->
  GetBulkBfdSessionStates idx cnt v = Ok (idx + 1, 0, []).
Proof.
  intros Hi Hc. unfold GetBulkBfdSessionStates. rewrite decide_False by lia.
  rewrite decide_False by lia. replace (Z.to_nat (0 - idx)) with 0%nat by lia. cbn.
  repeat f_equal. lia.
Qed.

(** Bringing up a session whose client has not started dereferences its
    nil timer. *)
Theorem admin_up_before_client_panics m v id r s :
  wf_server v -> FindBfdSession (m_DestIp m) v = Ok (Some id) ->
  Sessions v !! id = Some r -> heap v !! r = Some s -> PerLinkSession (state s) = false ->
  sessionTimer s = TimerNil -> AdminUpBfdSession now m v = Panic.
Proof.
  intros W Hf Hr Hs Hp Ht. unfold AdminUpBfdSession. rewrite Hf. cbn [exec_bind].
  unfold session_ref. rewrite Hr. cbn [of_option exec_bind]. rewrite (deref_Some _ _ _ Hs).
  cbn [exec_bind]. rewrite Hp. unfold on_session. rewrite (deref_Some _ _ _ Hs). cbn [exec_bind].
  unfold StartBfdSession. rewrite Ht. done.
Qed.

End ServerProofs.

(** ** The invariant of the server *)

(** The states the server goes through.  The answers of the routing daemon, the
    interfaces, the random draws and the clock may be others at every
    command. *)
Inductive reachable (md5 sha1 : list Z -> list Z) : BFDServer -> Prop :=
| reach_init (E : BfdEnv) v :
    BfdEnvOk E -> createDefaultSessionParam (initBfdGlobalConfDefault NewBFDServer) = Ok v ->
    reachable md5 sha1 v
| reach_step (E : BfdEnv) fuel now c v v' :
    BfdEnvOk E -> reachable md5 sha1 v -> command_ok c v ->
    run_command fuel now md5 sha1 c v = Ok v' -> reachable md5 sha1 v'.

(** C2: in every state the server reaches, whatever the environment answers at
    each command, the tables agree: the session map, the slice of identifiers,
    the counter and the heap describe the same sessions, every address leads to
    a session with that address, every session that is not per-link is found
    under its address and shares it with no other, identifiers are between 1
    and 1023 and equal the local discriminators, a session is queued for its
    start or listens on its stop channels, and the announcements of every
    session alternate; and none of the commands that meet [command_ok] panics
    there.  By [command_ok] owners are valid, parameter sets have no
    authentication and are deleted only when no session uses them, the default
    set never, sessions are brought up administratively, one by one or all, only
    once their clients run, only existing sessions are reset, packets are such
    that the decoder does not panic, and a client serves a session it was
    started for.  A command may still wait for ever at a stop channel
    ([delete_never_returns]) or for an identifier. *)
Theorem server_invariant md5 sha1 v :
  reachable md5 sha1 v ->
  wf_server v /\ forall (E : BfdEnv) fuel now c, BfdEnvOk E -> command_ok c v ->
    run_command fuel now md5 sha1 c v <> Panic.
Proof.
  intros Hv. assert (wf_server v) as W.
  { induction Hv as [E v HE Ev|E fuel now c v v' HE _ IH Hc Ev].
    - destruct initial_server_wf as (v' & E' & W). rewrite Ev in E'. by injection E' as ->.
    - pose proof (run_command_safe fuel now md5 sha1 c v IH Hc) as Hs. by rewrite Ev in Hs. }
  split; [done|]. intros E fuel now c HE Hc Ev.
  pose proof (run_command_safe fuel now md5 sha1 c v W Hc) as Hs. by rewrite Ev in Hs.
Qed.

(** ** Witnesses *)

(** An environment in which every destination is reachable through port 3 and
    the draws count down from 900. *)
#[export] Instance demo_env : BfdEnv := {|
  range_sessions := map_to_list; range_waiting := map_to_list; range_params := map_to_list;
  IsLinkLocal6 _ := false; GetRouteReachabilityInfo _ := Some (3, "10.0.0.1");
  InterfaceMac _ := []; Int31n i n := (900 - Z.of_nat i) mod n |}.

#[export] Instance demo_env_ok : BfdEnvOk demo_env.
Proof. split; try done. intros i n Hn. cbn. by apply Z.mod_pos_bound. Defined.

Definition demo_mgmt (owner : Z) (force : bool) : BfdSessionMgmt :=
  mkBfdSessionMgmt "10.0.0.2" "default" "" owner false force.

Definition the {A} (m : exec A) (d : A) : A := match m with Ok a => a | _ => d end.

Definition demo_server : BFDServer :=
  the (createDefaultSessionParam (initBfdGlobalConfDefault NewBFDServer)) NewBFDServer.

(** After one request of BGP. *)
Definition demo_server1 : BFDServer :=
  snd (the (CreateBfdSession 5 (demo_mgmt BGP false) demo_server) (None, false, demo_server)).

(** After the session's goroutines have been started. *)
Definition demo_server2 : BFDServer := the (RxTx_created demo_server1) demo_server1.

Lemma demo_reachable : reachable demo_md5 demo_sha1 demo_server2.
Proof.
  apply (reach_step demo_md5 demo_sha1 demo_env 5 0 CmdCreated demo_server1);
    [apply demo_env_ok | | by vm_compute | by vm_compute].
  apply (reach_step demo_md5 demo_sha1 demo_env 5 0 (CmdCreate (demo_mgmt BGP false)) demo_server);
    [apply demo_env_ok | apply (reach_init _ _ demo_env); [apply demo_env_ok | by vm_compute] | by vm_compute | by vm_compute].
Qed.

Lemma demo_server_wf : wf_server demo_server.
Proof. destruct initial_server_wf as (v & E & W). vm_compute in E. injection E as <-. exact W. Qed.

Lemma demo_create :
  run_command 5 0 demo_md5 demo_sha1 (CmdCreate (demo_mgmt BGP false)) demo_server = Ok demo_server1.
Proof. vm_compute. reflexivity. Qed.

Lemma demo_wf : wf_server demo_server1.
Proof.
  assert (command_ok (CmdCreate (demo_mgmt BGP false)) demo_server) as H
    by (vm_compute; split; congruence).
  pose proof (run_command_safe 5 0 demo_md5 demo_sha1 _ _ demo_server_wf H) as Hs.
  rewrite demo_create in Hs. exact Hs.
Qed.

Lemma demo_wf2 : wf_server demo_server2.
Proof. pose proof (wf_created demo_server1 demo_wf) as H. exact H. Qed.

(** Its only session. *)
Definition demo_obj : BfdSession := the (deref demo_server1 0) zero_session.

Lemma demo_lookup : Sessions demo_server1 !! 900 = Some 0%nat /\ heap demo_server1 !! 0%nat = Some demo_obj.
Proof. vm_compute. split; reflexivity. Qed.

Definition demo_obj2 : BfdSession := the (deref demo_server2 0) zero_session.

Lemma demo_lookup2 : Sessions demo_server2 !! 900 = Some 0%nat /\ heap demo_server2 !! 0%nat = Some demo_obj2.
Proof. vm_compute. split; reflexivity. Qed.

Lemma demo_started2 : 900 ∉ CreatedSessionCh demo_server2.
Proof. apply not_elem_of_nil. Qed.

Lemma demo_owner : valid_owner BGP /\ valid_owner OSPF.
Proof. vm_compute. repeat split; congruence. Qed.

Lemma server_invariant_witness :
  wf_server demo_server2 /\ forall (E : BfdEnv) fuel now c, BfdEnvOk E -> command_ok c demo_server2 ->
    run_command fuel now demo_md5 demo_sha1 c demo_server2 <> Panic.
Proof. exact (server_invariant demo_md5 demo_sha1 demo_server2 demo_reachable). Defined.

Lemma new_session_id_fresh_witness :
  exists id, GetNewSessionId 5 demo_server1 = Ok id /\ Sessions demo_server1 !! id = None
  /\ 0 < id < MAX_NUM_SESSIONS.
Proof.
  apply (new_session_id_fresh 5 demo_server1 1); [apply demo_wf | lia | by vm_compute | by vm_compute].
Defined.

Lemma param_config_reaches_its_sessions_witness :
  exists v' s', processSessionParamConfig
    (mkSessionParamConfig "default" 5 300 400 0 true false 0 0 []) demo_server1 = Ok v'
  /\ heap v' !! 0%nat = Some s' /\ s_DesiredMinTxInterval (state s') = 300000
  /\ pollSequence s' = true.
Proof.
  destruct (param_config_reaches_its_sessions
    (mkSessionParamConfig "default" 5 300 400 0 true false 0 0 []) demo_server1 900 0%nat demo_obj)
    as (v' & s' & E & Hs & H);
    [apply demo_wf | reflexivity | apply demo_lookup | apply demo_lookup|].
  exists v', s'. split; [exact E|]. split; [exact Hs|].
  rewrite decide_True in H by (vm_compute; reflexivity).
  destruct H as (H & _ & _ & _ & Hp & _). split; [exact H | exact Hp].
Defined.

Lemma delete_after_param_delete_panics_witness :
  exists v', processSessionParamDelete (ParamName (state demo_obj2)) demo_server2 = Ok v'
  /\ Sessions v' !! 900 = Some 0%nat /\ SessionDeleteHandler 0%nat BGP true v' = Panic.
Proof.
  apply (delete_after_param_delete_panics demo_server2 900 0%nat demo_obj2 BGP);
    [apply demo_wf2 | apply demo_lookup2 | apply demo_lookup2 | apply demo_owner
    | vm_compute; reflexivity | apply demo_started2].
Defined.

Lemma create_new_session_witness :
  exists r s v', CreateBfdSession 5 (demo_mgmt BGP false) demo_server = Ok (Some r, true, v')
  /\ heap v' !! r = Some s /\ IpAddr (state s) = "10.0.0.2"
  /\ Sessions v' !! SessionId (state s) = Some r /\ SessionsByIp v' !! "10.0.0.2" = Some r
  /\ has_owner s BGP /\ session_state s = STATE_DOWN
  /\ NumSessions v' = NumSessions demo_server + 1 /\ SessionId (state s) ∈ CreatedSessionCh v'.
Proof.
  apply (create_new_session 5 (demo_mgmt BGP false) demo_server 3 "10.0.0.1" 0);
    try reflexivity; [apply demo_server_wf | apply demo_owner | | lia | discriminate].
  intros id r s H. change (Sessions demo_server) with (∅ : gmap Z nat) in H.
  rewrite lookup_empty in H. discriminate H.
Defined.

Lemma create_existing_registers_witness :
  exists id' r' s' v', CreateBfdSession 5 (demo_mgmt OSPF false) demo_server1 = Ok (Some r', true, v')
  /\ Sessions v' = Sessions demo_server1 /\ NumSessions v' = NumSessions demo_server1
  /\ Sessions demo_server1 !! id' = Some r' /\ heap v' !! r' = Some s'
  /\ IpAddr (state s') = "10.0.0.2" /\ has_owner s' OSPF.
Proof.
  apply (create_existing_registers 5 (demo_mgmt OSPF false) demo_server1 900 0%nat demo_obj);
    [apply demo_wf | apply demo_owner | apply demo_lookup | apply demo_lookup | vm_compute; reflexivity].
Defined.

Lemma delete_last_owner_witness :
  exists apps others v', store (RegisteredProtocols (state demo_obj2)) BGP false = Ok apps
  /\ any_registered apps 1 4 = Ok others /\ DeleteBfdSession (demo_mgmt BGP false) demo_server2 = Ok v'
  /\ wf_server v' /\ if false || negb others then gone 900 v'
     else Sessions v' = Sessions demo_server2
          /\ exists s', heap v' !! 0%nat = Some s' /\ RegisteredProtocols (state s') = apps.
Proof.
  apply (delete_last_owner (demo_mgmt BGP false) demo_server2 900 0%nat demo_obj2);
    [apply demo_wf2 | apply demo_owner | vm_compute; reflexivity | apply demo_lookup2 | apply demo_lookup2
    | vm_compute; reflexivity | apply demo_started2].
Defined.

(** The same request before the session has been started. *)
Lemma delete_never_returns_witness : DeleteBfdSession (demo_mgmt BGP false) demo_server1 = Hang.
Proof.
  apply (delete_never_returns (demo_mgmt BGP false) demo_server1 900 0%nat demo_obj
           (replicate 5 false));
    [apply demo_wf | apply demo_owner | vm_compute; reflexivity | apply demo_lookup | apply demo_lookup
    | vm_compute; reflexivity | right; vm_compute; reflexivity | right; vm_compute; reflexivity].
Defined.

Lemma dispatch_targets_session_witness :
  exists v', DispatchReceivedBfdPacket "10.0.0.2" (demo_rx STATE_DOWN false) demo_server1 = Ok v'
  /\ (forall r', r' <> 0%nat -> heap v' !! r' = heap demo_server1 !! r')
  /\ heap v' !! 0%nat = Some demo_obj /\ Sessions v' = Sessions demo_server1.
Proof.
  destruct (dispatch_targets_session "10.0.0.2" (demo_rx STATE_DOWN false) demo_server1 0%nat demo_obj)
    as (v' & E & H1 & H2 & H3);
    [apply demo_wf | apply demo_lookup | right; vm_compute; split; reflexivity|].
  exists v'. split; [exact E|]. split; [exact H1|]. split; [|exact H3].
  assert (isClientActive demo_obj = false) as Hc by (vm_compute; reflexivity).
  rewrite Hc in H2. exact H2.
Defined.

Lemma get_bulk_all_witness :
  exists result, GetBulkBfdSessionStates 0 10 demo_server1 = Ok (0, 1, result)
  /\ Forall2 (state_of_id demo_server1) (SessionsIdSlice demo_server1) result.
Proof.
  apply (get_bulk_all demo_server1 10); [apply demo_wf | vm_compute; discriminate].
Defined.

Lemma get_bulk_partial_empty_witness :
  GetBulkBfdSessionStates 0 0 demo_server1 = Ok (0 + 1, 0, []).
Proof. apply get_bulk_partial_empty; [lia | vm_compute; reflexivity]. Defined.

Lemma admin_up_before_client_panics_witness :
  AdminUpBfdSession 0 (demo_mgmt BGP false) demo_server1 = Panic.
Proof.
  apply (admin_up_before_client_panics 0 (demo_mgmt BGP false) demo_server1 900 0%nat demo_obj);
    [apply demo_wf | vm_compute; reflexivity | apply demo_lookup | apply demo_lookup
    | vm_compute; reflexivity | vm_compute; reflexivity].
Defined.

(** A server in which the first [n] identifiers are taken by per-link sessions
    that wait for their start. *)
Definition full_entries (n : nat) : list (Z * ref) := (fun i => (Z.of_nat i + 1, i)) <$> seq 0 n.

Definition full_object (obj : BfdSession) (i : nat) : BfdSession :=
  obj <| state ::= fun st => st <| SessionId := Z.of_nat i + 1 |>
                                <| LocalDiscriminator := Z.of_nat i + 1 |>
                                <| PerLinkSession := true |> |>.

Definition full_server (n : nat) (obj : BfdSession) (v : BFDServer) : BFDServer :=
  v <| heap := full_object obj <$> seq 0 n |> <| Sessions := list_to_map (full_entries n) |>
    <| SessionsIdSlice := (full_entries n).*1 |> <| NumSessions := Z.of_nat n |>
    <| SessionsByIp := ∅ |> <| startingClients := [] |> <| CreatedSessionCh := (full_entries n).*1 |>.

Lemma full_nodup n : NoDup (full_entries n).*1.
Proof.
  unfold full_entries. rewrite <- list_fmap_compose. apply NoDup_fmap_2; [|apply NoDup_seq].
  intros i j E. cbn in E. lia.
Qed.

Lemma full_lookup n id r :
  (list_to_map (full_entries n) : gmap Z nat) !! id = Some r <-> id = Z.of_nat r + 1 /\ (r < n)%nat.
Proof.
  rewrite <- elem_of_list_to_map by apply full_nodup. unfold full_entries. rewrite list_elem_of_fmap. split.
  - intros (i & E & H%elem_of_seq). injection E as -> ->. split; [done | lia].
  - intros [-> H]. exists r. split; [done|]. apply elem_of_seq. lia.
Qed.

Lemma full_wf n obj v :
  (n <= 1023)%nat -> wf_server v -> session_ok obj -> SessionStopServerCh obj = None -> is_Some (SessionParams v !! ParamName (state obj)) ->
  wf_server (full_server n obj v).
Proof.
  intros Hmax [] So Hnil Hn. constructor; cbn; try done.
  - intros id r H. pose proof H as [-> Hr]%full_lookup. exists (full_object obj r). split.
    + rewrite list_lookup_fmap, lookup_seq_lt by done. done.
    + destruct So. constructor; try done; [unfold MAX_NUM_SESSIONS; lia | left | by constructor; try done; left].
      apply elem_of_list_to_map_2 in H. apply list_elem_of_fmap. by exists (Z.of_nat r + 1, r).
  - intros id r s _ Hs Hl. rewrite list_lookup_fmap in Hs. destruct (seq 0 n !! r); [|done].
    injection Hs as <-. done.
  - by rewrite map_to_list_to_map by apply full_nodup.
  - rewrite map_size_list_to_map by apply full_nodup. unfold full_entries. by rewrite length_fmap, length_seq.
Qed.

Lemma demo_obj_ok : session_ok demo_obj /\ is_Some (SessionParams demo_server1 !! ParamName (state demo_obj)).
Proof.
  destruct (wv_entry _ demo_wf 900 0%nat (proj1 demo_lookup)) as (s & Hs & E).
  rewrite (proj2 demo_lookup) in Hs. injection Hs as <-. split; apply E.
Qed.

Lemma session_ids_exhausted_witness :
  NumSessions (full_server 1023 demo_obj demo_server1) < MAX_NUM_SESSIONS
  /\ GetNewSessionId 100 (full_server 1023 demo_obj demo_server1) = Hang.
Proof.
  apply (session_ids_exhausted 100 (full_server 1023 demo_obj demo_server1)).
  - apply full_wf; [lia | apply demo_wf | apply demo_obj_ok | vm_compute; reflexivity | apply demo_obj_ok].
  - intros id Hid. exists (Z.to_nat (id - 1)). apply full_lookup. unfold MAX_NUM_SESSIONS in Hid. lia.
Defined.
