(* ===== verification/Fsm.v ===== *)
(** * The state-machine library of [utils/fsm]

    LACP, STP, LLDP and the other layer-2 daemons describe their protocol
    machines as rule tables: [Ruleset.AddRule] attaches a callback to a pair
    of state and event, [Machine.Start] opens the machine and
    [Machine.ProcessEvent] runs the callback of the current state.  The file
    models [fsm.go] and the [StateEvent] of [l2/lacp/protocol/utils/defs.go]
    that holds a machine's current and previous state and event.

    A callback is a closure over the machine's owner; here a machine is
    parameterised by a type [CB] of callback names, and running the callback
    named [cb] on the owner's state is the argument [call] of
    [ProcessEvent].  Log lines are not modelled. *)

From S2P Require Import Prelude.

(** [State] and [Event] are Go's [int]. *)
Notation State := Z (only parsing).
Notation Event := Z (only parsing).

Inductive FsmError :=
| ErrorMachineNotStarted
| InvalidStateEvent
| ErrorMachineStateEventExists.

#[export] Instance FsmError_eq_dec : EqDecision FsmError.
Proof. solve_decision. Defined.

(** ** [utils.StateEvent] *)

Record StateEvent := {
  s : State;        (* current state *)
  ps : State;       (* previous state *)
  e : Event;        (* current event *)
  pe : Event;       (* previous event *)
  esrc : string     (* event source *)
}.

#[export] Instance StateEvent_settable : Settable StateEvent :=
  fun r => {| s := s r; ps := ps r; e := e r; pe := pe r; esrc := esrc r |}.

Definition zero_StateEvent : StateEvent :=
  {| s := 0; ps := 0; e := 0; pe := 0; esrc := EmptyString |}.

Definition SetEvent (es : string) (ev : Event) (se : StateEvent) : StateEvent :=
  se <| esrc := es |> <| pe := e se |> <| e := ev |>.

Definition SetState (st : State) (se : StateEvent) : StateEvent :=
  se <| ps := s se |> <| s := st |>.

(** ** Rules and machines *)

Notation Ruleset CB := (gmap (Z * Z) CB) (only parsing).

Section Machine.
Context {CB : Type}.

Definition AddRule (r : Ruleset CB) (st : State) (ev : Event) (cb : CB)
  : Ruleset CB * option FsmError :=
  match r !! (st, ev) with
  | Some _ => (r, Some ErrorMachineStateEventExists)
  | None => (<[(st, ev) := cb]> r, None)
  end.

(** The [FSMBuild] functions add their rules one after the other and drop the
    error each [AddRule] returns. *)
Definition AddRules (rules : list (State * Event * CB)) : Ruleset CB :=
  foldl (fun r '(st, ev, cb) => (AddRule r st ev cb).1) ∅ rules.

Record Machine := {
  Begin : bool;
  Curr : StateEvent;
  Rules : Ruleset CB
}.

#[export] Instance Machine_settable : Settable Machine :=
  fun r => {| Begin := Begin r; Curr := Curr r; Rules := Rules r |}.

Definition CurrentState (m : Machine) : State := s (Curr m).

(** The machine the [Apply] methods leave: a zero [StateEvent] and the rules. *)
Definition Apply (r : Ruleset CB) : Machine :=
  {| Begin := false; Curr := zero_StateEvent; Rules := r |}.

Definition Start (st : State) (m : Machine) : Machine :=
  m <| Curr ::= SetState st |> <| Begin := true |>.

End Machine.
Arguments Machine : clear implicits.

(** [ProcessEvent] on a machine held inside a larger state [W]: [get] follows
    the owner's pointer to the machine, [set] updates the machine in place,
    [call] runs a callback, which sees the new event and the old state. *)
Section ProcessEvent.
Context {CB W D : Type}.
Context (get : W -> option (Machine CB)) (set : (Machine CB -> Machine CB) -> W -> W).
Context (call : CB -> D -> W -> exec (W * State)).

Definition ProcessEvent (es : string) (ev : Event) (cbdata : D) (w : W)
  : exec (W * option FsmError) :=
  let! m := of_option (get w) in
  if negb (Begin m) then Ok (w, Some ErrorMachineNotStarted) else
  match Rules m !! (CurrentState m, ev) with
  | Some f =>
      let w := set (fun m => m <| Curr ::= SetEvent es ev |>) w in
      let! (w, next) := call f cbdata w in
      Ok (set (fun m => m <| Curr ::= SetState next |>) w, None)
  | None => Ok (w, Some InvalidStateEvent)
  end.

End ProcessEvent.

(** ** Rule tables *)

(** The reference reading of a rule table: the first rule listed for the pair. *)
Fixpoint first_rule {CB} (rules : list (State * Event * CB)) (st : State) (ev : Event)
  : option CB :=
  match rules with
  | [] => None
  | (st', ev', cb) :: rules =>
      if (st' =? st) && (ev' =? ev) then Some cb else first_rule rules st ev
  end.

Lemma first_rule_app {CB} (l1 l2 : list (State * Event * CB)) st ev :
  first_rule (l1 ++ l2) st ev =
  match first_rule l1 st ev with Some cb => Some cb | None => first_rule l2 st ev end.
Proof.
  induction l1 as [|[[st' ev'] cb] l1 IH]; cbn; [done|]. by destruct ((st' =? st) && (ev' =? ev)).
Qed.

Lemma AddRule_lookup {CB} (r : Ruleset CB) st ev cb st' ev' :
  (AddRule r st ev cb).1 !! (st', ev') =
  match r !! (st', ev') with
  | Some cb' => Some cb'
  | None => if (st =? st') && (ev =? ev') then Some cb else None
  end.
Proof.
  unfold AddRule.
  destruct (Z.eqb_spec st st') as [<-|]; [destruct (Z.eqb_spec ev ev') as [<-|]|]; cbn.
  - destruct (r !! (st, ev)) eqn:E; cbn; [by rewrite E | apply lookup_insert_eq].
  - destruct (r !! (st, ev)); cbn; [|rewrite lookup_insert_ne by congruence];
      by destruct (r !! (st, ev')).
  - destruct (r !! (st, ev)); cbn; [|rewrite lookup_insert_ne by congruence];
      by destruct (r !! (st', ev')).
Qed.

Lemma AddRules_first {CB} (rules : list (State * Event * CB)) st ev :
  AddRules rules !! (st, ev) = first_rule rules st ev.
Proof.
  unfold AddRules. induction rules as [|[[st' ev'] cb] l IH] using rev_ind; [done|].
  rewrite foldl_app, first_rule_app. cbn. rewrite AddRule_lookup, IH. done.
Qed.

(** What holds of every row of a table holds of the rule found. *)
Lemma first_rule_forall {CB} (P : State -> Event -> CB -> bool) rules st ev cb :
  forallb (fun '(st, ev, cb) => P st ev cb) rules = true ->
  first_rule rules st ev = Some cb -> P st ev cb = true.
Proof.
  induction rules as [|[[st' ev'] cb'] l IH]; cbn; [done|]. intros [HP Hl]%andb_true_iff.
  destruct (Z.eqb_spec st' st) as [->|]; [destruct (Z.eqb_spec ev' ev) as [->|]|]; cbn;
    intros E; try by apply IH. by simplify_eq.
Qed.

(** ** Laws of [ProcessEvent] *)

Section Laws.
Context {CB W D : Type}.
Context (get : W -> option (Machine CB)) (set : (Machine CB -> Machine CB) -> W -> W).
Context (call : CB -> D -> W -> exec (W * State)).

Lemma ProcessEvent_run es ev d w m cb :
  get w = Some m -> Begin m = true -> Rules m !! (CurrentState m, ev) = Some cb ->
  ProcessEvent get set call es ev d w =
  let! (w', next) := call cb d (set (fun m => m <| Curr ::= SetEvent es ev |>) w) in
  Ok (set (fun m => m <| Curr ::= SetState next |>) w', None).
Proof. intros Hg Hb Hr. unfold ProcessEvent. rewrite Hg. cbn. by rewrite Hb, Hr. Qed.

Lemma ProcessEvent_ignore es ev d w m :
  get w = Some m -> Begin m = true -> Rules m !! (CurrentState m, ev) = None ->
  ProcessEvent get set call es ev d w = Ok (w, Some InvalidStateEvent).
Proof. intros Hg Hb Hr. unfold ProcessEvent. rewrite Hg. cbn. by rewrite Hb, Hr. Qed.

Lemma ProcessEvent_not_started es ev d w m :
  get w = Some m -> Begin m = false ->
  ProcessEvent get set call es ev d w = Ok (w, Some ErrorMachineNotStarted).
Proof. intros Hg Hb. unfold ProcessEvent. rewrite Hg. cbn. by rewrite Hb. Qed.

End Laws.

(** ** A machine is the automaton of its table *)

Section Automaton.
Context {CB W D : Type}.
Context (get : W -> option (Machine CB)) (set : (Machine CB -> Machine CB) -> W -> W).
Context (call : CB -> D -> W -> exec (W * State)).
Context (rules : list (State * Event * CB)) (target : CB -> State).

Definition process_all (d : D) (evs : list (string * Event)) (w : W) : exec W :=
  for_each (fun '(es, ev) w => let! (w, _) := ProcessEvent get set call es ev d w in Ok w) evs w.

(** The automaton: the first row listed decides, events without one are ignored. *)
Definition automaton : State -> list (string * Event) -> State :=
  foldl (fun st '(_, ev) => match first_rule rules st ev with Some cb => target cb | None => st end).

(** C20: A machine started in a state and fed any sequence of events is, when
    its callbacks return the state named for them and leave the machine itself
    alone in every owner state satisfying an invariant [P], the automaton of its rule list: every event is processed
    without a panic, a pair listed twice counts as its first row, and a pair
    not listed changes nothing. *)
Theorem machine_is_automaton (P : W -> Prop) d evs w m :
  (forall f w, get (set f w) = f <$> get w) -> (forall f w, P w -> P (set f w)) ->
  (forall cb w, P w -> exists w', call cb d w = Ok (w', target cb) /\ get w' = get w /\ P w') ->
  P w -> get w = Some m -> Begin m = true -> Rules m = AddRules rules ->
  exists w' m', process_all d evs w = Ok w' /\ get w' = Some m' /\
    CurrentState m' = automaton (CurrentState m) evs.
Proof.
  intros Hset HP Hcall. revert w m.
  induction evs as [|[es ev] evs IH]; intros w m Hw Hg Hb Hr; cbn [process_all for_each automaton foldl].
  { by exists w, m. }
  destruct (first_rule rules (CurrentState m) ev) as [cb|] eqn:Hrule.
  - rewrite (ProcessEvent_run _ _ _ es ev d w m cb Hg Hb) by by rewrite Hr, AddRules_first.
    destruct (Hcall cb (set (fun m => m <| Curr ::= SetEvent es ev |>) w)) as (w1 & -> & Hg1 & Hw1);
      [by apply HP|]. cbn [exec_bind]. rewrite Hset, Hg in Hg1.
    destruct (IH (set (fun m => m <| Curr ::= SetState (target cb) |>) w1)
      (m <| Curr ::= SetEvent es ev |> <| Curr ::= SetState (target cb) |>)) as (w2 & m2 & E & Hg2 & Hs);
      [by apply HP|by rewrite Hset, Hg1|exact Hb|exact Hr|]. by exists w2, m2.
  - rewrite (ProcessEvent_ignore _ _ _ es ev d w m Hg Hb) by by rewrite Hr, AddRules_first.
    cbn [exec_bind]. destruct (IH w m Hw Hg Hb Hr) as (w2 & m2 & E & Hg2 & Hs). by exists w2, m2.
Qed.

End Automaton.
