(* ===== verification/LacpDefs.v ===== *)
(** * LACP: constants, operational state bits, system and port information

    Models [defs.go], [timers.go], [system.go], the port-information
    functions of [port.go], the address conversions of [global.go] and
    [hw.go] of [l2/lacp/protocol/lacp].  Durations are nanoseconds. *)

From S2P Require Import Prelude.
From stdpp Require Import pretty.
From Stdlib Require Import Ascii.

Open Scope Z_scope.

(** ** Constants of [defs.go] *)

Definition Second : Z := 1000000000.
Definition LacpFastPeriodicTime : Z := Second * 1.
Definition LacpSlowPeriodicTime : Z := Second * 30.
Definition LacpShortTimeoutTime : Z := Second * 3.
Definition LacpLongTimeoutTime : Z := Second * 90.
Definition LacpChurnDetectionTime : Z := Second * 60.
Definition LacpAggregateWaitTime : Z := Second * 2.
Definition LacpActorSystemLacpVersion : Z := 1.

Definition LacpStateActivityBit : Z := 1.
Definition LacpStateTimeoutBit : Z := 2.
Definition LacpStateAggregationBit : Z := 4.
Definition LacpStateSyncBit : Z := 8.
Definition LacpStateCollectingBit : Z := 16.
Definition LacpStateDistributingBit : Z := 32.
Definition LacpStateDefaultedBit : Z := 64.
Definition LacpStateExpiredBit : Z := 128.

Definition LacpStateIndividual : Z := Z.lor LacpStateDefaultedBit LacpStateActivityBit.

Definition LacpStateAggregatibleUp : Z :=
  Z.lor LacpStateActivityBit (Z.lor LacpStateAggregationBit (Z.lor LacpStateSyncBit
    (Z.lor LacpStateCollectingBit (Z.lor LacpStateDistributingBit LacpStateDefaultedBit)))).

Definition LacpStateAggregatibleDown : Z :=
  Z.lor LacpStateActivityBit (Z.lor LacpStateAggregationBit LacpStateDefaultedBit).

Definition LacpModeOn : Z := 1.
Definition LacpModeActive : Z := 2.
Definition LacpModePassive : Z := 3.

Definition LacpStateSet (StateBits currState : Z) : Z := Z.lor currState StateBits.

(** [&= ^StateBits], the complement taken in eight bits. *)
Definition LacpStateClear (StateBits currState : Z) : Z :=
  Z.land currState (Z.lxor 255 StateBits).

Definition LacpStateIsSet (currState StateBits : Z) : bool :=
  Z.land currState StateBits =? StateBits.

Definition LacpModeGet (currState : Z) (lacpEnabled : bool) : Z :=
  if lacpEnabled then
    if LacpStateIsSet currState LacpStateActivityBit then LacpModeActive else LacpModePassive
  else LacpModeOn.

(** The names [DefsStrMapsCreate] registers, in the order of the tests of
    [LacpStateToStr]. *)
Definition MuxStateStrMap : list (Z * string) :=
  [(LacpStateActivityBit, "Activity"); (LacpStateTimeoutBit, "Timeout");
   (LacpStateAggregationBit, "Aggregation"); (LacpStateSyncBit, "Sync");
   (LacpStateCollectingBit, "Collecting"); (LacpStateDistributingBit, "Distributing");
   (LacpStateDefaultedBit, "Defaulted"); (LacpStateExpiredBit, "Expired")]%string.

Definition LacpStateToStr (state : Z) : string :=
  foldl (fun statestr '(bit, name) =>
           if LacpStateIsSet state bit then (statestr +:+ name +:+ ",")%string else statestr)
    EmptyString MuxStateStrMap.

(** ** Timers

    A [*time.Timer] is nil, stopped, or running with the duration it was last
    armed with. *)
Definition Timer : Type := option (option Z).

Definition timer_start (d : Z) (_ : Timer) : Timer := Some (Some d).
Definition timer_stop (t : Timer) : Timer :=
  match t with None => None | Some _ => Some None end.
Definition timer_running (t : Timer) : bool :=
  match t with Some (Some _) => true | _ => false end.

(** [Second()] and [Nanosecond()] of a [time.Time], kept as nanoseconds since
    the zero time. *)
Definition time_Second (t : Z) : Z := (t / Second) mod 60.
Definition time_Nanosecond (t : Z) : Z := t mod Second.

(** ** Addresses and system identifiers *)

(** [[6]uint8]. *)
Record Mac := mac { mac0 : Z; mac1 : Z; mac2 : Z; mac3 : Z; mac4 : Z; mac5 : Z }.

#[export] Instance Mac_eq_dec : EqDecision Mac.
Proof. solve_decision. Defined.

Definition zero_mac : Mac := mac 0 0 0 0 0 0.

(** [net.ParseMAC] of the Go library: two hexadecimal digits per octet,
    separated by colons or hyphens, or four digits per group, separated by
    dots; six, eight or twenty octets. *)
Definition hex_digit (c : ascii) : option Z :=
  let n := Z.of_N (N_of_ascii c) in
  if (48 <=? n) && (n <=? 57) then Some (n - 48)
  else if (97 <=? n) && (n <=? 102) then Some (n - 87)
  else if (65 <=? n) && (n <=? 70) then Some (n - 55)
  else None.

Definition xtoi2 (c1 c2 : ascii) : option Z :=
  h1 ← hex_digit c1; h2 ← hex_digit c2; Some (h1 * 16 + h2).

Fixpoint parse_octets (sep : ascii) (l : list ascii) : option (list Z) :=
  match l with
  | [c1; c2] => b ← xtoi2 c1 c2; Some [b]
  | c1 :: c2 :: e :: l =>
      if bool_decide (e = sep) then
        b ← xtoi2 c1 c2; bs ← parse_octets sep l; Some (b :: bs)
      else None
  | _ => None
  end.

Fixpoint parse_dotted (l : list ascii) : option (list Z) :=
  match l with
  | [c1; c2; c3; c4] => b1 ← xtoi2 c1 c2; b2 ← xtoi2 c3 c4; Some [b1; b2]
  | c1 :: c2 :: c3 :: c4 :: e :: l =>
      if bool_decide (e = "."%char) then
        b1 ← xtoi2 c1 c2; b2 ← xtoi2 c3 c4; bs ← parse_dotted l; Some (b1 :: b2 :: bs)
      else None
  | _ => None
  end.

(** The error is [None]; the callers then see a nil address. *)
Definition ParseMAC (str : string) : option (list Z) :=
  let l := String.list_ascii_of_string str in
  let n := len l in
  if n <? 14 then None else
  let s2 := nth 2 l zero in
  if bool_decide (s2 = ":"%char) || bool_decide (s2 = "-"%char) then
    let k := (n + 1) / 3 in
    if ((n + 1) mod 3 =? 0) && ((k =? 6) || (k =? 8) || (k =? 20)) then parse_octets s2 l
    else None
  else if bool_decide (nth 4 l zero = "."%char) then
    let k := 2 * (n + 1) / 5 in
    if ((n + 1) mod 5 =? 0) && ((k =? 6) || (k =? 8) || (k =? 20)) then parse_dotted l
    else None
  else None.

(** [mac[i]] panics when the slice is shorter. *)
Definition convertNetHwAddressToSysIdKey (m : list Z) : exec Mac :=
  let! b0 := index m 0 in let! b1 := index m 1 in let! b2 := index m 2 in
  let! b3 := index m 3 in let! b4 := index m 4 in let! b5 := index m 5 in
  Ok (mac b0 b1 b2 b3 b4 b5).

Definition convertSysIdKeyToNetHwAddress (m : Mac) : list Z :=
  [mac0 m; mac1 m; mac2 m; mac3 m; mac4 m; mac5 m].

Record LacpSystem := {
  Actor_System_priority : Z;
  Actor_System : Mac
}.

#[export] Instance LacpSystem_settable : Settable LacpSystem :=
  fun r => {| Actor_System_priority := Actor_System_priority r; Actor_System := Actor_System r |}.
#[export] Instance LacpSystem_eq_dec : EqDecision LacpSystem.
Proof. solve_decision. Defined.

Definition zero_LacpSystem : LacpSystem :=
  {| Actor_System_priority := 0; Actor_System := zero_mac |}.

Definition LacpSystemActorSystemIdSet (addr : list Z) (sys : LacpSystem) : exec LacpSystem :=
  let! m := convertNetHwAddressToSysIdKey addr in
  Ok (sys <| Actor_System := m |>).

Definition LacpSystemActorSystemPrioritySet (prio : Z) (sys : LacpSystem) : LacpSystem :=
  sys <| Actor_System_priority := prio |>.

(** The eight octets of the System Identifier, most significant first. *)
Definition LacpSystemIdGet (sys : LacpSystem) : list Z :=
  let m := Actor_System sys in
  [u8 (Z.land (Z.shiftr (Actor_System_priority sys) 8) 255);
   u8 (Z.land (Actor_System_priority sys) 255);
   mac0 m; mac1 m; mac2 m; mac3 m; mac4 m; mac5 m].

(** ** Port information *)

Record LacpPortInfo := {
  System : LacpSystem;
  Key : Z;
  Port_pri : Z;
  port : Z;
  State : Z
}.

#[export] Instance LacpPortInfo_settable : Settable LacpPortInfo :=
  fun r => {| System := System r; Key := Key r; Port_pri := Port_pri r; port := port r;
              State := State r |}.
#[export] Instance LacpPortInfo_eq_dec : EqDecision LacpPortInfo.
Proof. solve_decision. Defined.

Definition zero_LacpPortInfo : LacpPortInfo :=
  {| System := zero_LacpSystem; Key := 0; Port_pri := 0; port := 0; State := 0 |}.

(** The fields of gopacket's [layers.LACPPortInfo], [layers.LACP] and
    [layers.LAMP] the daemon reads and writes, less the type and length octets
    that gopacket fixes for each kind of TLV. *)
Record LACPPortInfo := {
  pkt_SystemId : Mac;
  pkt_SystemPriority : Z;
  pkt_Key : Z;
  pkt_PortPri : Z;
  pkt_Port : Z;
  pkt_State : Z
}.

Record LACP := {
  pkt_Version : Z;
  pkt_Actor : LACPPortInfo;
  pkt_Partner : LACPPortInfo;
  pkt_MaxDelay : Z
}.

Record LAMP := {
  Marker_TlvType : Z;
  Marker_Length : Z;
  Marker_Body : list Z
}.

#[export] Instance LAMP_settable : Settable LAMP :=
  fun r => {| Marker_TlvType := Marker_TlvType r; Marker_Length := Marker_Length r;
              Marker_Body := Marker_Body r |}.

(** Constants of the gopacket layers, which are not part of the repository. *)
Class Layers := {
  EthernetTypeSlowProtocol : Z;
  SlowProtocolTypeLACP : Z;
  SlowProtocolTypeLAMP : Z;
  LACPVersion1 : Z;
  LAMPTLVMarkerInfo : Z;
  LAMPTLVMarkerResponder : Z;
  LAMPMarkerTlvLength : Z
}.

#[export] Instance LACPPortInfo_eq_dec : EqDecision LACPPortInfo.
Proof. solve_decision. Defined.
#[export] Instance LACP_eq_dec : EqDecision LACP.
Proof. solve_decision. Defined.

Definition LacpCopyLacpPortInfoFromPkt (from : LACPPortInfo) (to : LacpPortInfo)
  : exec LacpPortInfo :=
  let to := to <| Key := pkt_Key from |> in
  let to := to <| port := pkt_Port from |> in
  let to := to <| Port_pri := pkt_PortPri from |> in
  let to := to <| State := pkt_State from |> in
  let! sys := LacpSystemActorSystemIdSet
                (convertSysIdKeyToNetHwAddress (pkt_SystemId from)) (System to) in
  let to := to <| System := sys |> in
  Ok (to <| System ::= LacpSystemActorSystemPrioritySet (pkt_SystemPriority from) |>).

Definition LacpCopyLacpPortInfo (from to : LacpPortInfo) : exec LacpPortInfo :=
  let to := to <| Key := Key from |> in
  let to := to <| port := port from |> in
  let to := to <| Port_pri := Port_pri from |> in
  let to := to <| State := State from |> in
  let! sys := LacpSystemActorSystemIdSet
                (convertSysIdKeyToNetHwAddress (Actor_System (System from))) (System to) in
  let to := to <| System := sys |> in
  Ok (to <| System ::= LacpSystemActorSystemPrioritySet (Actor_System_priority (System from)) |>).

Definition LacpLacpPktPortInfoIsEqual (a : LACPPortInfo) (b : LacpPortInfo) (StateBits : Z) : bool :=
  bool_decide (pkt_SystemId a = Actor_System (System b)) &&
  (pkt_SystemPriority a =? Actor_System_priority (System b)) &&
  (pkt_Port a =? port b) &&
  (pkt_PortPri a =? Port_pri b) &&
  (pkt_Key a =? Key b) &&
  (LacpStateIsSet (pkt_State a) StateBits && LacpStateIsSet (State b) StateBits).

Definition LacpLacpPortInfoIsEqual (a b : LacpPortInfo) (StateBits : Z) : bool :=
  bool_decide (Actor_System (System a) = Actor_System (System b)) &&
  (Actor_System_priority (System a) =? Actor_System_priority (System b)) &&
  (port a =? port b) &&
  (Port_pri a =? Port_pri b) &&
  (Key a =? Key b) &&
  (LacpStateIsSet (State a) StateBits && LacpStateIsSet (State b) StateBits).

(** [int(pId | prio<<16)]: the shift is done in [uint16]. *)
Definition LaConvertPortAndPriToPortId (pId prio : Z) : Z :=
  Z.lor pId (u16 (Z.shiftl prio 16)).

(** ** [hw.go] *)

Record PortConfig := { Name : string; IfIndex : Z }.

Definition GetIfIndexFromName (cfg : list PortConfig) (name : string) : Z :=
  match List.find (fun c => bool_decide (Name c = name)) cfg with
  | Some c => IfIndex c
  | None => 0
  end.

Fixpoint asicDPortBmpFormatGet (cfg : list PortConfig) (distPortList : list string) : string :=
  match distPortList with
  | [] => EmptyString
  | [name] => pretty (GetIfIndexFromName cfg name)
  | name :: rest =>
      (pretty (GetIfIndexFromName cfg name) +:+ "," +:+ asicDPortBmpFormatGet cfg rest)%string
  end.

Definition HASH_SEL_SRCDSTMAC : Z := 0.
Definition HASH_SEL_SRCDSTIP : Z := 6.

Definition asicDHashModeGet (hashmode : Z) : Z :=
  if hashmode =? 0 then HASH_SEL_SRCDSTMAC
  else if hashmode =? 1 then HASH_SEL_SRCDSTIP
  else HASH_SEL_SRCDSTMAC.
