(* ===== verification/LacpPort.v ===== *)
(** * LACP: ports, aggregators and the state their machines share

    The records of [port.go], [aggregator.go], [global.go] and of the seven
    protocol machines, the constants of their states and events, and the
    queries other components make of them ([LaFindPortById],
    [LaFindAggById], [LaSysGlobalTxCallbackListGet], ...).

    Ports and aggregators are shared objects: a [ref] stands for a Go
    pointer, [AggHeap] and [rest] for the objects.  A machine runs on a [St],
    the whole state of the daemon seen from one port: [prt] is the port whose
    goroutine runs, [rest] the other ports.  Channels are the lists of the
    messages sent and not yet received.  What leaves the daemon (frames,
    calls of asicd, callbacks, responses to a waiting caller) is recorded in
    order in [Effects]. *)

From S2P Require Import Prelude Fsm LacpDefs.

Notation ref := nat (only parsing).

(** ** States and events of the machines *)

Definition LacpRxmStateNone : Z := 1.
Definition LacpRxmStateInitialize : Z := 2.
Definition LacpRxmStatePortDisabled : Z := 3.
Definition LacpRxmStateExpired : Z := 4.
Definition LacpRxmStateLacpDisabled : Z := 5.
Definition LacpRxmStateDefaulted : Z := 6.
Definition LacpRxmStateCurrent : Z := 7.

Definition LacpRxmEventBegin : Z := 1.
Definition LacpRxmEventUnconditionalFallthrough : Z := 2.
Definition LacpRxmEventNotPortEnabledAndNotPortMoved : Z := 3.
Definition LacpRxmEventPortMoved : Z := 4.
Definition LacpRxmEventPortEnabledAndLacpEnabled : Z := 5.
Definition LacpRxmEventPortEnabledAndLacpDisabled : Z := 6.
Definition LacpRxmEventCurrentWhileTimerExpired : Z := 7.
Definition LacpRxmEventLacpEnabled : Z := 8.
Definition LacpRxmEventLacpPktRx : Z := 9.

Definition LacpMuxmStateNone : Z := 0.
Definition LacpMuxmStateDetached : Z := 1.
Definition LacpMuxmStateWaiting : Z := 2.
Definition LacpMuxmStateAttached : Z := 3.
Definition LacpMuxmStateCollecting : Z := 4.
Definition LacpMuxmStateDistributing : Z := 5.
Definition LacpMuxmStateCNone : Z := 6.
Definition LacpMuxmStateCDetached : Z := 7.
Definition LacpMuxmStateCWaiting : Z := 8.
Definition LacpMuxmStateCAttached : Z := 9.
Definition LacpMuxStateCCollectingDistributing : Z := 10.

Definition LacpMuxmEventBegin : Z := 1.
Definition LacpMuxmEventSelectedEqualSelected : Z := 2.
Definition LacpMuxmEventSelectedEqualStandby : Z := 3.
Definition LacpMuxmEventSelectedEqualUnselected : Z := 4.
Definition LacpMuxmEventSelectedEqualSelectedAndReady : Z := 5.
Definition LacpMuxmEventSelectedEqualSelectedAndPartnerSync : Z := 6.
Definition LacpMuxmEventNotPartnerSync : Z := 7.
Definition LacpMuxmEventNotPartnerCollecting : Z := 8.
Definition LacpMuxmEventSelectedEqualSelectedPartnerSyncCollecting : Z := 9.

Definition LacpPtxmStateNone : Z := 1.
Definition LacpPtxmStateNoPeriodic : Z := 2.
Definition LacpPtxmStateFastPeriodic : Z := 3.
Definition LacpPtxmStateSlowPeriodic : Z := 4.
Definition LacpPtxmStatePeriodicTx : Z := 5.

Definition LacpPtxmEventBegin : Z := 1.
Definition LacpPtxmEventLacpDisabled : Z := 2.
Definition LacpPtxmEventNotPortEnabled : Z := 3.
Definition LacpPtxmEventActorPartnerOperActivityPassiveMode : Z := 4.
Definition LacpPtxmEventUnconditionalFallthrough : Z := 5.
Definition LacpPtxmEventPartnerOperStateTimeoutLong : Z := 6.
Definition LacpPtxmEventPeriodicTimerExpired : Z := 7.
Definition LacpPtxmEventPartnerOperStateTimeoutShort : Z := 8.

Definition LacpTxmStateNone : Z := 1.
Definition LacpTxmStateOn : Z := 2.
Definition LacpTxmStateOff : Z := 3.
Definition LacpTxmStateDelayed : Z := 4.
Definition LacpTxmStateGuardTimerExpire : Z := 5.

Definition LacpTxmEventBegin : Z := 1.
Definition LacpTxmEventNtt : Z := 2.
Definition LacpTxmEventGuardTimer : Z := 3.
Definition LacpTxmEventDelayTx : Z := 4.
Definition LacpTxmEventLacpDisabled : Z := 5.
Definition LacpTxmEventLacpEnabled : Z := 6.

Definition LacpCdmStateNone : Z := 1.
Definition LacpCdmStateNoActorChurn : Z := 2.
Definition LacpCdmStateActorChurnMonitor : Z := 3.
Definition LacpCdmStateActorChurn : Z := 4.
Definition LacpCdmStateNoPartnerChurn : Z := 5.
Definition LacpCdmStatePartnerChurnMonitor : Z := 6.
Definition LacpCdmStatePartnerChurn : Z := 7.

Definition LacpCdmEventBegin : Z := 1.
Definition LacpCdmEventNotPortEnabled : Z := 2.
Definition LacpCdmEventActorOperPortStateSyncOn : Z := 3.
Definition LacpCdmEventActorOperPortStateSyncOff : Z := 4.
Definition LacpCdmEventActorChurnTimerExpired : Z := 5.
Definition LacpCdmEventPartnerOperPortStateSyncOn : Z := 6.
Definition LacpCdmEventPartnerOperPortStateSyncOff : Z := 7.
Definition LacpCdmEventPartnerChurnTimerExpired : Z := 8.

Definition LampMarkerResponderNone : Z := 1.
Definition LampMarkerResponderStateWaitForMarker : Z := 2.
Definition LampMarkerResponderStateRespondToMarker : Z := 3.

Definition LampMarkerResponderEventBegin : Z := 1.
Definition LampMarkerResponderEventLampPktRx : Z := 2.
Definition LampMarkerResponderEventIntentionalFallthrough : Z := 3.

Definition LacpAggSelected : Z := 1.
Definition LacpAggStandby : Z := 2.
Definition LacpAggUnSelected : Z := 3.

Definition RxMachineModuleStr : string := "Rx Machine".
Definition MuxMachineModuleStr : string := "Mux Machine".
Definition PtxMachineModuleStr : string := "Periodic TX Machine".
Definition TxMachineModuleStr : string := "Tx Machine".
Definition CdMachineModuleStr : string := "Actor Churn Detection Machine".
Definition PCdMachineModuleStr : string := "Partner Churn Detection Machine".
Definition MarkerResponderModuleStr : string := "LAMP Marker Responder".
Definition PortConfigModuleStr : string := "Port Config".
Definition RxModuleStr : string := "Rx Module".

(** ** Callbacks of the rule tables, one constructor per method *)

Inductive RxCallback :=
| LacpRxMachineInitialize_cb | LacpRxMachinePortDisabled_cb | LacpRxMachineExpired_cb
| LacpRxMachineLacpDisabled_cb | LacpRxMachineDefaulted_cb | LacpRxMachineCurrent_cb.

Inductive MuxCallback :=
| LacpMuxmDetached_cb | LacpMuxmWaiting_cb | LacpMuxmAttached_cb | LacpMuxmCollecting_cb
| LacpMuxmDistributing_cb | LacpMuxmCDetached_cb | LacpMuxmCWaiting_cb | LacpMuxmCAttached_cb
| LacpMuxmCCollectingDistributing_cb.

Inductive PtxCallback :=
| LacpPtxMachineNoPeriodic_cb | LacpPtxMachineFastPeriodic_cb | LacpPtxMachineSlowPeriodic_cb
| LacpPtxMachinePeriodicTx_cb.

Inductive TxCallbackName :=
| LacpTxMachineOn_cb | LacpTxMachineDelayed_cb | LacpTxMachineOff_cb | LacpTxMachineGuard_cb.

Inductive CdCallback :=
| LacpCdMachineNoActorChurn_cb | LacpCdMachineActorChurn_cb | LacpCdMachineActorChurnMonitor_cb
| LacpCdMachineNoPartnerChurn_cb | LacpCdMachinePartnerChurn_cb
| LacpCdMachinePartnerChurnMonitor_cb.

Inductive MarkerCallback :=
| LampMarkerResponderWaitForMarker_cb | LampMarkerResponderRespondToMarker_cb.

(** ** Machines *)

(** [utils.MachineEvent]; a caller that waits has set [ResponseChan]. *)
Record MachineEvent := { ev_E : Z; ev_Src : string; ev_ResponseChan : bool }.

Definition evt (code : Z) (src : string) : MachineEvent :=
  {| ev_E := code; ev_Src := src; ev_ResponseChan := false |}.

Record LacpRxMachine := {
  rxm_PreviousState : Z;
  rxm_Machine : Machine RxCallback;
  currentWhileTimerTimeout : Z;
  currentWhileTimer : Timer;
  RxmEvents : list MachineEvent;
  RxmPktRxEvent : list LACP
}.

Record LacpMuxMachine := {
  muxm_PreviousState : Z;
  muxm_Machine : Machine MuxCallback;
  waitWhileTimerTimeout : Z;
  waitWhileTimerRunning : bool;
  waitWhileTimer : Timer;
  MuxmEvents : list MachineEvent;
  actorSyncTransitionTimestamp : Z
}.

Record LacpPtxMachine := {
  ptxm_PreviousState : Z;
  ptxm_Machine : Machine PtxCallback;
  PeriodicTxTimerInterval : Z;
  periodicTxTimer : Timer;
  PtxmEvents : list MachineEvent
}.

Record LacpTxMachine := {
  txm_PreviousState : Z;
  txm_Machine : Machine TxCallbackName;
  txPending : Z;
  txPkts : Z;
  ntt : bool;
  txGuardTimer : Timer;
  TxmEvents : list MachineEvent
}.

Record LacpCdMachine := {
  cdm_PreviousState : Z;
  cdm_Machine : Machine CdCallback;
  churnTimerInterval : Z;
  churnTimer : Timer;
  CdmEvents : list MachineEvent;
  churnCountTimestamp : Z
}.

Record LampMarkerResponderMachine := {
  mr_PreviousState : Z;
  mr_Machine : Machine MarkerCallback;
  LampMarkerResponderEvents : list MachineEvent;
  LampMarkerResponderPktRxEvent : list LAMP
}.

#[export] Instance LacpRxMachine_settable : Settable LacpRxMachine :=
  fun r => {| rxm_PreviousState := rxm_PreviousState r; rxm_Machine := rxm_Machine r;
              currentWhileTimerTimeout := currentWhileTimerTimeout r;
              currentWhileTimer := currentWhileTimer r; RxmEvents := RxmEvents r;
              RxmPktRxEvent := RxmPktRxEvent r |}.
#[export] Instance LacpMuxMachine_settable : Settable LacpMuxMachine :=
  fun r => {| muxm_PreviousState := muxm_PreviousState r; muxm_Machine := muxm_Machine r;
              waitWhileTimerTimeout := waitWhileTimerTimeout r;
              waitWhileTimerRunning := waitWhileTimerRunning r;
              waitWhileTimer := waitWhileTimer r; MuxmEvents := MuxmEvents r;
              actorSyncTransitionTimestamp := actorSyncTransitionTimestamp r |}.
#[export] Instance LacpPtxMachine_settable : Settable LacpPtxMachine :=
  fun r => {| ptxm_PreviousState := ptxm_PreviousState r; ptxm_Machine := ptxm_Machine r;
              PeriodicTxTimerInterval := PeriodicTxTimerInterval r;
              periodicTxTimer := periodicTxTimer r; PtxmEvents := PtxmEvents r |}.
#[export] Instance LacpTxMachine_settable : Settable LacpTxMachine :=
  fun r => {| txm_PreviousState := txm_PreviousState r; txm_Machine := txm_Machine r;
              txPending := txPending r; txPkts := txPkts r; ntt := ntt r;
              txGuardTimer := txGuardTimer r; TxmEvents := TxmEvents r |}.
#[export] Instance LacpCdMachine_settable : Settable LacpCdMachine :=
  fun r => {| cdm_PreviousState := cdm_PreviousState r; cdm_Machine := cdm_Machine r;
              churnTimerInterval := churnTimerInterval r; churnTimer := churnTimer r;
              CdmEvents := CdmEvents r; churnCountTimestamp := churnCountTimestamp r |}.
#[export] Instance LampMarkerResponderMachine_settable : Settable LampMarkerResponderMachine :=
  fun r => {| mr_PreviousState := mr_PreviousState r; mr_Machine := mr_Machine r;
              LampMarkerResponderEvents := LampMarkerResponderEvents r;
              LampMarkerResponderPktRxEvent := LampMarkerResponderPktRxEvent r |}.

(** ** Ports *)

Definition u64 (x : Z) : Z := x mod 2 ^ 64.

Record AggPortStatsObject := {
  AggPortStatsLACPDUsRx : Z;
  AggPortStatsMarkerPDUsRx : Z;
  AggPortStatsMarkerResponsePDUsRx : Z;
  AggPortStatsUnknownRx : Z;
  AggPortStatsIllegalRx : Z;
  AggPortStatsLACPDUsTx : Z;
  AggPortStatsMarkerResponsePDUsTx : Z;
  AggPortStateMissMatchInfoRx : Z
}.

Record AggPortDebugInformationObject := {
  AggPortDebugRxState : Z;
  AggPortDebugMuxState : Z;
  AggPortDebugActorChurnState : Z;
  AggPortDebugPartnerChurnState : Z;
  AggPortDebugActorChurnPrevCnt : Z;
  AggPortDebugActorChurnCount : Z;
  AggPortDebugPartnerChurnPrevCount : Z;
  AggPortDebugPartnerChurnCount : Z;
  AggPortDebugActorSyncTransitionCount : Z
}.

Record LaAggPort := {
  portId : Z;
  IntfNum : string;
  port_Key : Z;
  PortNum : Z;
  portPriority : Z;
  port_AggId : Z;
  AggAttached : option ref;
  aggSelected : Z;
  lacpEnabled : bool;
  PortEnabled : bool;
  portMoved : bool;
  begin : bool;
  actorChurn : bool;
  partnerChurn : bool;
  readyN : bool;
  LinkOperStatus : bool;
  ActorAdmin : LacpPortInfo;
  ActorOper : LacpPortInfo;
  partnerAdmin : LacpPortInfo;
  PartnerOper : LacpPortInfo;
  RxMachineFsm : option LacpRxMachine;
  PtxMachineFsm : option LacpPtxMachine;
  TxMachineFsm : option LacpTxMachine;
  CdMachineFsm : option LacpCdMachine;
  PCdMachineFsm : option LacpCdMachine;
  MuxMachineFsm : option LacpMuxMachine;
  MarkerResponderFsm : option LampMarkerResponderMachine;
  LacpCounter : AggPortStatsObject;
  AggPortDebug : AggPortDebugInformationObject;
  port_DrniName : string;
  DrniSynced : bool
}.

#[export] Instance AggPortStatsObject_settable : Settable AggPortStatsObject :=
  fun r => {| AggPortStatsLACPDUsRx := AggPortStatsLACPDUsRx r;
              AggPortStatsMarkerPDUsRx := AggPortStatsMarkerPDUsRx r;
              AggPortStatsMarkerResponsePDUsRx := AggPortStatsMarkerResponsePDUsRx r;
              AggPortStatsUnknownRx := AggPortStatsUnknownRx r;
              AggPortStatsIllegalRx := AggPortStatsIllegalRx r;
              AggPortStatsLACPDUsTx := AggPortStatsLACPDUsTx r;
              AggPortStatsMarkerResponsePDUsTx := AggPortStatsMarkerResponsePDUsTx r;
              AggPortStateMissMatchInfoRx := AggPortStateMissMatchInfoRx r |}.
#[export] Instance AggPortDebug_settable : Settable AggPortDebugInformationObject :=
  fun r => {| AggPortDebugRxState := AggPortDebugRxState r;
              AggPortDebugMuxState := AggPortDebugMuxState r;
              AggPortDebugActorChurnState := AggPortDebugActorChurnState r;
              AggPortDebugPartnerChurnState := AggPortDebugPartnerChurnState r;
              AggPortDebugActorChurnPrevCnt := AggPortDebugActorChurnPrevCnt r;
              AggPortDebugActorChurnCount := AggPortDebugActorChurnCount r;
              AggPortDebugPartnerChurnPrevCount := AggPortDebugPartnerChurnPrevCount r;
              AggPortDebugPartnerChurnCount := AggPortDebugPartnerChurnCount r;
              AggPortDebugActorSyncTransitionCount := AggPortDebugActorSyncTransitionCount r |}.
#[export] Instance LaAggPort_settable : Settable LaAggPort :=
  fun r => {| portId := portId r; IntfNum := IntfNum r; port_Key := port_Key r;
              PortNum := PortNum r; portPriority := portPriority r; port_AggId := port_AggId r;
              AggAttached := AggAttached r; aggSelected := aggSelected r;
              lacpEnabled := lacpEnabled r; PortEnabled := PortEnabled r;
              portMoved := portMoved r; begin := begin r; actorChurn := actorChurn r;
              partnerChurn := partnerChurn r; readyN := readyN r;
              LinkOperStatus := LinkOperStatus r; ActorAdmin := ActorAdmin r;
              ActorOper := ActorOper r; partnerAdmin := partnerAdmin r;
              PartnerOper := PartnerOper r; RxMachineFsm := RxMachineFsm r;
              PtxMachineFsm := PtxMachineFsm r; TxMachineFsm := TxMachineFsm r;
              CdMachineFsm := CdMachineFsm r; PCdMachineFsm := PCdMachineFsm r;
              MuxMachineFsm := MuxMachineFsm r; MarkerResponderFsm := MarkerResponderFsm r;
              LacpCounter := LacpCounter r; AggPortDebug := AggPortDebug r;
              port_DrniName := port_DrniName r; DrniSynced := DrniSynced r |}.

(** ** Aggregators and the global tables *)

Record LacpConfigInfo := {
  Interval : Z;
  Mode : Z;
  SystemIdMac : string;
  SystemPriority : Z
}.

Record LaAggregator := {
  AggId : Z;
  HwAggId : Z;
  AggName : string;
  Config : LacpConfigInfo;
  ActorAdminKey : Z;
  ActorOperKey : Z;
  OperState : bool;
  ready : bool;
  PortNumList : list Z;
  DistributedPortNumList : list string;
  LagHash : Z;
  agg_DrniName : string
}.

#[export] Instance LaAggregator_settable : Settable LaAggregator :=
  fun r => {| AggId := AggId r; HwAggId := HwAggId r; AggName := AggName r; Config := Config r;
              ActorAdminKey := ActorAdminKey r; ActorOperKey := ActorOperKey r;
              OperState := OperState r; ready := ready r; PortNumList := PortNumList r;
              DistributedPortNumList := DistributedPortNumList r; LagHash := LagHash r;
              agg_DrniName := agg_DrniName r |}.

(** Transmit callbacks are known by the number they were registered with. *)
Record LacpSysGlobalInfo := {
  SysKey : LacpSystem;
  PortList : list ref;
  AggList : list ref;
  ActorStateDefaultParams : LacpPortInfo;
  TxCallbacks : gmap string (list nat)
}.

(** [LacpCbDb]: the owners registered for each notification. *)
Record LacpCbDbEntry := {
  PortUpDbList : list string;
  PortDownDbList : list string;
  AggOperUpDbList : list string
}.

(** ** What leaves the daemon *)

Inductive Effect :=
| TxLacp (callback : option nat) (portNum : Z) (pdu : LACP)
| TxLamp (callback : option nat) (portNum : Z) (pdu : LAMP)
| UpdateLag (client : nat) (hwAggId hash : Z) (ports : string)
| DeleteLag (client : nat) (hwAggId : Z)
| PortUp (owner : string) (ifindex : Z)
| PortDown (owner : string) (ifindex : Z)
| AggOperUp (owner : string) (ifindex : Z)
| ProcessLacpPortPartnerInfoMismatch (ifindex : Z)
| ProcessLacpPortPartnerInfoSync (ifindex : Z)
| SendResponse (module : string).

(** The asicd clients the daemon is linked with, in the order of
    [GetAsicDPluginList]: what each answers to a call may depend on all that
    happened before. *)
Class AsicD := {
  AsicDPluginList : list nat;
  UpdateLag_error : list Effect -> nat -> bool;
  DeleteLag_error : list Effect -> nat -> bool;
  GetPortLinkStatus : list Effect -> nat -> Z -> bool
}.

Record St := {
  self : ref;
  prt : LaAggPort;
  rest : gmap ref LaAggPort;
  AggHeap : gmap ref LaAggregator;
  gLacpSysGlobalInfoList : list LacpSysGlobalInfo;
  LacpCbDb : LacpCbDbEntry;
  PortConfigMap : list PortConfig;
  Now : Z;
  Effects : list Effect
}.

#[export] Instance St_settable : Settable St :=
  fun r => {| self := self r; prt := prt r; rest := rest r; AggHeap := AggHeap r;
              gLacpSysGlobalInfoList := gLacpSysGlobalInfoList r; LacpCbDb := LacpCbDb r;
              PortConfigMap := PortConfigMap r; Now := Now r; Effects := Effects r |}.

Definition emit (x : Effect) (st : St) : St := st <| Effects ::= fun l => l ++ [x] |>.

(** ** Queries *)

(** The object a port pointer points to. *)
Definition port_at (st : St) (r : ref) : option LaAggPort :=
  if bool_decide (r = self st) then Some (prt st) else rest st !! r.

Definition all_ports (st : St) : list ref := gLacpSysGlobalInfoList st ≫= PortList.
Definition all_aggs (st : St) : list ref := gLacpSysGlobalInfoList st ≫= AggList.

Definition LaFindPortById (st : St) (pId : Z) : option ref :=
  List.find (fun r => match port_at st r with
                      | Some p => PortNum p =? pId
                      | None => false
                      end) (all_ports st).

Definition LaFindAggById (st : St) (aggId : Z) : option ref :=
  List.find (fun r => match AggHeap st !! r with
                      | Some a => AggId a =? aggId
                      | None => false
                      end) (all_aggs st).

Definition IsPortAdminEnabled (p : LaAggPort) : bool := PortEnabled p.
Definition IsPortEnabled (p : LaAggPort) : bool := IsPortAdminEnabled p && LinkOperStatus p.
Definition ModeGet (p : LaAggPort) : Z := LacpModeGet (State (ActorOper p)) (lacpEnabled p).

(** The system identifier of the aggregator a port belongs to, zero when there
    is none; an address that does not parse is a nil slice and panics. *)
Definition port_sysId (st : St) : exec LacpSystem :=
  match LaFindAggById st (port_AggId (prt st)) with
  | Some r =>
      let! a := of_option (AggHeap st !! r) in
      let! m := convertNetHwAddressToSysIdKey (default [] (ParseMAC (SystemIdMac (Config a)))) in
      Ok {| Actor_System_priority := SystemPriority (Config a); Actor_System := m |}
  | None => Ok zero_LacpSystem
  end.

Definition gLacpSysGlobalInfo (st : St) (sysId : LacpSystem) : option LacpSysGlobalInfo :=
  List.find (fun g => bool_decide (SysKey g = sysId)) (gLacpSysGlobalInfoList st).

(** [None] stands for the function that only logs that nothing is registered. *)
Definition LaSysGlobalTxCallbackListGet (st : St) : exec (list (option nat)) :=
  let! sysId := port_sysId st in
  Ok (match gLacpSysGlobalInfo st sysId with
      | Some g =>
          match TxCallbacks g !! IntfNum (prt st) with
          | Some fList => Some <$> fList
          | None => [None]
          end
      | None => [None]
      end).

(** Run code on another port and come back. *)
Definition focus (r : ref) (st : St) : exec St :=
  if bool_decide (r = self st) then Ok st else
  let! q := of_option (rest st !! r) in
  Ok (st <| rest := <[self st := prt st]> (delete r (rest st)) |> <| self := r |> <| prt := q |>).

Definition on_port (r : ref) (f : St -> exec St) (st : St) : exec St :=
  let back := self st in
  let! st := focus r st in
  let! st := f st in
  focus back st.

(** ** Access to the machines of the running port *)

Definition upd_prt (f : LaAggPort -> LaAggPort) (st : St) : St := st <| prt ::= f |>.

Definition upd_rxm (f : LacpRxMachine -> LacpRxMachine) (st : St) : St :=
  upd_prt (fun p => p <| RxMachineFsm ::= fmap f |>) st.
Definition upd_muxm (f : LacpMuxMachine -> LacpMuxMachine) (st : St) : St :=
  upd_prt (fun p => p <| MuxMachineFsm ::= fmap f |>) st.
Definition upd_ptxm (f : LacpPtxMachine -> LacpPtxMachine) (st : St) : St :=
  upd_prt (fun p => p <| PtxMachineFsm ::= fmap f |>) st.
Definition upd_txm (f : LacpTxMachine -> LacpTxMachine) (st : St) : St :=
  upd_prt (fun p => p <| TxMachineFsm ::= fmap f |>) st.
Definition upd_cdm (f : LacpCdMachine -> LacpCdMachine) (st : St) : St :=
  upd_prt (fun p => p <| CdMachineFsm ::= fmap f |>) st.
Definition upd_pcdm (f : LacpCdMachine -> LacpCdMachine) (st : St) : St :=
  upd_prt (fun p => p <| PCdMachineFsm ::= fmap f |>) st.
Definition upd_mr (f : LampMarkerResponderMachine -> LampMarkerResponderMachine) (st : St) : St :=
  upd_prt (fun p => p <| MarkerResponderFsm ::= fmap f |>) st.

Definition get_rxm (st : St) : option (Machine RxCallback) := rxm_Machine <$> RxMachineFsm (prt st).
Definition get_muxm (st : St) : option (Machine MuxCallback) := muxm_Machine <$> MuxMachineFsm (prt st).
Definition get_ptxm (st : St) : option (Machine PtxCallback) := ptxm_Machine <$> PtxMachineFsm (prt st).
Definition get_txm (st : St) : option (Machine TxCallbackName) := txm_Machine <$> TxMachineFsm (prt st).
Definition get_cdm (st : St) : option (Machine CdCallback) := cdm_Machine <$> CdMachineFsm (prt st).
Definition get_pcdm (st : St) : option (Machine CdCallback) := cdm_Machine <$> PCdMachineFsm (prt st).
Definition get_mr (st : St) : option (Machine MarkerCallback) := mr_Machine <$> MarkerResponderFsm (prt st).

(** [m.Machine.Curr.CurrentState()] of a machine that may be nil. *)
Definition state_of {CB} (m : option (Machine CB)) : exec Z :=
  let! m := of_option m in Ok (CurrentState m).

(** [ch <- event]; sending through a nil machine pointer panics.  The channels
    have room for 10 events, that of the transmit machine for 1000, and a full
    one delays its sender.  The receive machine sends to the mux, periodic,
    transmit and churn machines, the periodic machine to the transmit machine,
    the mux machine to the transmit and churn machines, and none of the
    receivers waits for the sender; only the transmit machine sends to itself.
    The delay of a sender is left out here: the channels are queues. *)
Definition send_rxm (ev : MachineEvent) (st : St) : exec St :=
  let! _ := of_option (RxMachineFsm (prt st)) in
  Ok (upd_rxm (fun m => m <| RxmEvents ::= fun l => l ++ [ev] |>) st).
Definition send_muxm (ev : MachineEvent) (st : St) : exec St :=
  let! _ := of_option (MuxMachineFsm (prt st)) in
  Ok (upd_muxm (fun m => m <| MuxmEvents ::= fun l => l ++ [ev] |>) st).
Definition send_ptxm (ev : MachineEvent) (st : St) : exec St :=
  let! _ := of_option (PtxMachineFsm (prt st)) in
  Ok (upd_ptxm (fun m => m <| PtxmEvents ::= fun l => l ++ [ev] |>) st).
Definition send_txm (ev : MachineEvent) (st : St) : exec St :=
  let! _ := of_option (TxMachineFsm (prt st)) in
  Ok (upd_txm (fun m => m <| TxmEvents ::= fun l => l ++ [ev] |>) st).
Definition send_cdm (ev : MachineEvent) (st : St) : exec St :=
  let! _ := of_option (CdMachineFsm (prt st)) in
  Ok (upd_cdm (fun m => m <| CdmEvents ::= fun l => l ++ [ev] |>) st).
Definition send_pcdm (ev : MachineEvent) (st : St) : exec St :=
  let! _ := of_option (PCdMachineFsm (prt st)) in
  Ok (upd_pcdm (fun m => m <| CdmEvents ::= fun l => l ++ [ev] |>) st).
Definition send_mr (ev : MachineEvent) (st : St) : exec St :=
  let! _ := of_option (MarkerResponderFsm (prt st)) in
  Ok (upd_mr (fun m => m <| LampMarkerResponderEvents ::= fun l => l ++ [ev] |>) st).

(** [if event.ResponseChan != nil { utils.SendResponse(module, ...) }]. *)
Definition respond (module : string) (ev : MachineEvent) (st : St) : St :=
  if ev_ResponseChan ev then emit (SendResponse module) st else st.
