(* ===== verification/LacpTx.v ===== *)
(** * LACP: the transmit machine ([txmachine.go])

    At most three LACPDUs leave per guard interval: [LacpTxMachineOn] sends
    while [txPkts] is below three and counts the requests beyond in
    [txPending]; the guard timer clears [txPkts] and the event loop then
    sends the pending ones. *)

From S2P Require Import Prelude Fsm LacpDefs LacpPort.

Section LacpTx.
Context `{!Layers}.

(** ** Timer ([timers.go]) *)

Definition TxGuardTimerStart (txm : LacpTxMachine) : LacpTxMachine :=
  txm <| txGuardTimer ::= timer_start LacpFastPeriodicTime |>.
Definition TxGuardTimerStop (txm : LacpTxMachine) : LacpTxMachine :=
  txm <| txGuardTimer ::= timer_stop |>.

(** ** Callbacks *)

Definition lacp_info (i : LacpPortInfo) : LACPPortInfo :=
  {| pkt_SystemId := Actor_System (System i);
     pkt_SystemPriority := Actor_System_priority (System i);
     pkt_Key := Key i; pkt_PortPri := Port_pri i; pkt_Port := port i; pkt_State := State i |}.

(** The PDU a port sends. *)
Definition lacp_pdu (p : LaAggPort) : LACP :=
  {| pkt_Version := LACPVersion1; pkt_Actor := lacp_info (ActorOper p);
     pkt_Partner := lacp_info (PartnerOper p); pkt_MaxDelay := 0 |}.

Definition transmit (lacp : LACP) (callbacks : list (option nat)) (st : St) : St :=
  foldl (fun st ftx =>
           upd_prt (fun p => p <| LacpCounter ::= fun c =>
                      c <| AggPortStatsLACPDUsTx ::= fun n => u64 (n + 1) |> |>)
             (emit (TxLacp ftx (PortNum (prt st)) lacp) st))
    st callbacks.

Definition LacpTxMachineOn (st : St) : exec (St * Z) :=
  let! txm := of_option (TxMachineFsm (prt st)) in
  let st := upd_txm (fun m => m <| txm_PreviousState := CurrentState (txm_Machine txm) |>) st in
  if ntt txm then
    if txPkts txm <? 3 then
      let st := if txPkts txm =? 0 then upd_txm TxGuardTimerStart st else st in
      let st := upd_txm (fun m => m <| txPkts ::= fun n => n + 1 |>) st in
      let lacp := lacp_pdu (prt st) in
      let! callbacks := LaSysGlobalTxCallbackListGet st in
      let st := transmit lacp callbacks st in
      let st := upd_txm (fun m => m <| ntt := false |>) st in
      (* lets force another transmit *)
      if (0 <? txPending txm) && (txPkts txm + 1 <? 3) then
        let st := upd_txm (fun m => m <| txPending ::= fun n => n - 1 |>) st in
        let! st := send_txm (evt LacpTxmEventNtt TxMachineModuleStr) st in
        Ok (st, LacpTxmStateOn)
      else Ok (st, LacpTxmStateOn)
    else Ok (upd_txm (fun m => m <| txPending ::= fun n => n + 1 |>) st, LacpTxmStateDelayed)
  else Ok (st, LacpTxmStateOn).

Definition LacpTxMachineDelayed (st : St) : exec (St * Z) :=
  let! txm := of_option (TxMachineFsm (prt st)) in
  let st := upd_txm (fun m => m <| txm_PreviousState := CurrentState (txm_Machine txm) |>) st in
  if (0 <? txPending txm) && (3 <? txPkts txm) then Ok (st, LacpTxmStateDelayed)
  else
    let st := upd_txm (fun m => m <| txPending ::= fun n => n - 1 |>) st in
    let! st := send_txm (evt LacpTxmEventNtt TxMachineModuleStr) st in
    Ok (st, LacpTxmStateOn).

Definition LacpTxMachineOff (st : St) : exec (St * Z) :=
  Ok (upd_txm (fun m => TxGuardTimerStop
                          (m <| txPending := 0 |> <| txPkts := 0 |> <| ntt := false |>)) st,
      LacpTxmStateOff).

Definition LacpTxMachineGuard (st : St) : exec (St * Z) :=
  let! txm := of_option (TxMachineFsm (prt st)) in
  let st := upd_txm (fun m => m <| txPkts := 0 |>) st in
  Ok (st, if 0 <? txPending txm then LacpTxmStateGuardTimerExpire else LacpTxmStateOn).

Definition tx_callback (cb : TxCallbackName) (_ : unit) (st : St) : exec (St * Z) :=
  match cb with
  | LacpTxMachineOn_cb => LacpTxMachineOn st
  | LacpTxMachineDelayed_cb => LacpTxMachineDelayed st
  | LacpTxMachineOff_cb => LacpTxMachineOff st
  | LacpTxMachineGuard_cb => LacpTxMachineGuard st
  end.

(** ** The rule table and the machine *)

Definition tx_rules : list (Z * Z * TxCallbackName) :=
  [ (* BEGIN -> TX OFF *)
    (LacpTxmStateNone, LacpTxmEventBegin, LacpTxMachineOff_cb);
    (LacpTxmStateOn, LacpTxmEventBegin, LacpTxMachineOff_cb);
    (LacpTxmStateOff, LacpTxmEventBegin, LacpTxMachineOff_cb);
    (LacpTxmStateDelayed, LacpTxmEventBegin, LacpTxMachineOff_cb);
    (LacpTxmStateGuardTimerExpire, LacpTxmEventBegin, LacpTxMachineOff_cb);
    (* NTT -> TX ON *)
    (LacpTxmStateOn, LacpTxmEventNtt, LacpTxMachineOn_cb);
    (LacpTxmStateGuardTimerExpire, LacpTxmEventNtt, LacpTxMachineOn_cb);
    (LacpTxmStateDelayed, LacpTxmEventNtt, LacpTxMachineOn_cb);
    (* DELAY -> TX DELAY *)
    (LacpTxmStateOn, LacpTxmEventDelayTx, LacpTxMachineDelayed_cb);
    (LacpTxmStateDelayed, LacpTxmEventDelayTx, LacpTxMachineDelayed_cb);
    (* LACP ON -> TX ON *)
    (LacpTxmStateOff, LacpTxmEventLacpEnabled, LacpTxMachineOn_cb);
    (* LACP DISABLED -> TX OFF *)
    (LacpTxmStateNone, LacpTxmEventLacpDisabled, LacpTxMachineOff_cb);
    (LacpTxmStateOn, LacpTxmEventLacpDisabled, LacpTxMachineOff_cb);
    (LacpTxmStateDelayed, LacpTxmEventLacpDisabled, LacpTxMachineOff_cb);
    (* GUARD TIMER -> TX ON *)
    (LacpTxmStateOn, LacpTxmEventGuardTimer, LacpTxMachineGuard_cb);
    (LacpTxmStateDelayed, LacpTxmEventGuardTimer, LacpTxMachineGuard_cb) ].

(** The machine [LacpTxMachineFSMBuild] builds: the guard timer is created by
    a start and a stop. *)
Definition NewLacpTxMachine : LacpTxMachine :=
  TxGuardTimerStop (TxGuardTimerStart
    {| txm_PreviousState := LacpTxmStateNone; txm_Machine := Apply (AddRules tx_rules);
       txPending := 0; txPkts := 0; ntt := false; txGuardTimer := None; TxmEvents := [] |}).

Definition LacpTxMachineFSMBuild (st : St) : St :=
  upd_prt (fun p => p <| TxMachineFsm := Some NewLacpTxMachine |>) st.

Definition set_txm (f : Machine TxCallbackName -> Machine TxCallbackName) : St -> St :=
  upd_txm (fun m => m <| txm_Machine ::= f |>).

(** [txm.Machine.Start(txm.PrevState())]. *)
Definition LacpTxMachineMain_start (st : St) : St :=
  set_txm (Start LacpTxmStateNone) (LacpTxMachineFSMBuild st).

Definition tx_process (es : string) (ev : Z) (st : St) : exec (St * option FsmError) :=
  ProcessEvent get_txm set_txm tx_callback es ev tt st.

(** ** The event loop *)

(** [for m.txPending > 0 && m.txPkts < 3 { ... }]. *)
Fixpoint force_pending (fuel : nat) (st : St) : exec St :=
  let! txm := of_option (TxMachineFsm (prt st)) in
  if (0 <? txPending txm) && (txPkts txm <? 3) then
    match fuel with
    | O => Hang
    | S fuel =>
        let st := upd_txm (fun m => m <| txPending ::= fun n => n - 1 |> <| ntt := true |>) st in
        let! (st, _) := tx_process TxMachineModuleStr LacpTxmEventNtt st in
        force_pending fuel st
    end
  else Ok st.

(** One event received from [TxmEvents]. *)
Definition tx_event (ev : MachineEvent) (st : St) : exec St :=
  let st := if ev_E ev =? LacpTxmEventNtt
            then upd_txm (fun m => m <| ntt := true |>) st else st in
  let! (st, rv) := tx_process (ev_Src ev) (ev_E ev) st in
  let! st :=
    match rv with
    | Some _ => Ok st
    | None =>
        let! txm := of_option (TxMachineFsm (prt st)) in
        if (CurrentState (txm_Machine txm) =? LacpTxmStateGuardTimerExpire) &&
           (0 <? txPending txm) && (txPkts txm =? 0)
        then force_pending 3 st
        else Ok st
    end in
  Ok (respond TxMachineModuleStr ev st).

(** A turn of the goroutine of [LacpTxMachineMain]. *)
Definition LacpTxMachineMain (st : St) : exec St :=
  let! txm := of_option (TxMachineFsm (prt st)) in
  match TxmEvents txm with
  | [] => Ok st
  | ev :: evs => tx_event ev (upd_txm (fun m => m <| TxmEvents := evs |>) st)
  end.

(** The guard timer fires. *)
Definition LacpTxGuardGeneration (st : St) : exec St :=
  send_txm (evt LacpTxmEventGuardTimer TxMachineModuleStr) (upd_txm TxGuardTimerStop st).

End LacpTx.
