(* ===== verification/LacpPtx.v ===== *)
(** * LACP: the periodic transmission machine ([periodictxmachine.go])

    Chooses the interval at which the transmit machine is asked for a PDU:
    none while both ends are passive or the port or LACP is down, one second
    while the partner uses short timeouts, thirty seconds otherwise. *)

From S2P Require Import Prelude Fsm LacpDefs LacpPort.

(** ** Timer ([timers.go]) *)

Definition PeriodicTimerStart (m : LacpPtxMachine) : LacpPtxMachine :=
  m <| periodicTxTimer ::= timer_start (PeriodicTxTimerInterval m) |>.
Definition PeriodicTimerStop (m : LacpPtxMachine) : LacpPtxMachine :=
  m <| periodicTxTimer ::= timer_stop |>.
Definition PeriodicTimerIntervalSet (interval : Z) (m : LacpPtxMachine) : LacpPtxMachine :=
  m <| PeriodicTxTimerInterval := interval |>.

(** ** Callbacks *)

Definition LacpPtxMachineNoPeriodic (st : St) : exec (St * Z) :=
  Ok (upd_ptxm PeriodicTimerStop st, LacpPtxmStateNoPeriodic).

Definition LacpPtxMachineFastPeriodic (st : St) : exec (St * Z) :=
  let st := upd_ptxm (PeriodicTimerIntervalSet LacpFastPeriodicTime) st in
  Ok (upd_ptxm PeriodicTimerStart st, LacpPtxmStateFastPeriodic).

Definition LacpPtxMachineSlowPeriodic (st : St) : exec (St * Z) :=
  let st := upd_ptxm (PeriodicTimerIntervalSet LacpSlowPeriodicTime) st in
  Ok (upd_ptxm PeriodicTimerStart st, LacpPtxmStateSlowPeriodic).

Definition LacpPtxMachinePeriodicTx (st : St) : exec (St * Z) :=
  let! tx_state := state_of (get_txm st) in
  let! st := if negb (tx_state =? LacpTxmStateOff)
             then send_txm (evt LacpTxmEventNtt PtxMachineModuleStr) st
             else Ok st in
  Ok (st, LacpPtxmStatePeriodicTx).

Definition ptx_callback (cb : PtxCallback) (_ : unit) (st : St) : exec (St * Z) :=
  match cb with
  | LacpPtxMachineNoPeriodic_cb => LacpPtxMachineNoPeriodic st
  | LacpPtxMachineFastPeriodic_cb => LacpPtxMachineFastPeriodic st
  | LacpPtxMachineSlowPeriodic_cb => LacpPtxMachineSlowPeriodic st
  | LacpPtxMachinePeriodicTx_cb => LacpPtxMachinePeriodicTx st
  end.

(** ** The rule table and the machine *)

Definition ptx_rules : list (Z * Z * PtxCallback) :=
  [ (* BEGIN -> NO PERIODIC *)
    (LacpPtxmStateNone, LacpPtxmEventBegin, LacpPtxMachineNoPeriodic_cb);
    (LacpPtxmStateFastPeriodic, LacpPtxmEventBegin, LacpPtxMachineNoPeriodic_cb);
    (LacpPtxmStateSlowPeriodic, LacpPtxmEventBegin, LacpPtxMachineNoPeriodic_cb);
    (LacpPtxmStatePeriodicTx, LacpPtxmEventBegin, LacpPtxMachineNoPeriodic_cb);
    (* LACP DISABLED -> NO PERIODIC *)
    (LacpPtxmStateNone, LacpPtxmEventLacpDisabled, LacpPtxMachineNoPeriodic_cb);
    (LacpPtxmStateFastPeriodic, LacpPtxmEventLacpDisabled, LacpPtxMachineNoPeriodic_cb);
    (LacpPtxmStateSlowPeriodic, LacpPtxmEventLacpDisabled, LacpPtxMachineNoPeriodic_cb);
    (LacpPtxmStatePeriodicTx, LacpPtxmEventLacpDisabled, LacpPtxMachineNoPeriodic_cb);
    (* PORT DISABLED -> NO PERIODIC *)
    (LacpPtxmStateNone, LacpPtxmEventNotPortEnabled, LacpPtxMachineNoPeriodic_cb);
    (LacpPtxmStateFastPeriodic, LacpPtxmEventNotPortEnabled, LacpPtxMachineNoPeriodic_cb);
    (LacpPtxmStateSlowPeriodic, LacpPtxmEventNotPortEnabled, LacpPtxMachineNoPeriodic_cb);
    (LacpPtxmStatePeriodicTx, LacpPtxmEventNotPortEnabled, LacpPtxMachineNoPeriodic_cb);
    (* ACTOR/PARTNER OPER State ACTIVITY MODE == PASSIVE -> NO PERIODIC *)
    (LacpPtxmStateNone, LacpPtxmEventActorPartnerOperActivityPassiveMode,
     LacpPtxMachineNoPeriodic_cb);
    (LacpPtxmStateFastPeriodic, LacpPtxmEventActorPartnerOperActivityPassiveMode,
     LacpPtxMachineNoPeriodic_cb);
    (LacpPtxmStateSlowPeriodic, LacpPtxmEventActorPartnerOperActivityPassiveMode,
     LacpPtxMachineNoPeriodic_cb);
    (LacpPtxmStatePeriodicTx, LacpPtxmEventActorPartnerOperActivityPassiveMode,
     LacpPtxMachineNoPeriodic_cb);
    (* INTENTIONAL FALL THROUGH -> FAST PERIODIC *)
    (LacpPtxmStateNoPeriodic, LacpPtxmEventUnconditionalFallthrough,
     LacpPtxMachineFastPeriodic_cb);
    (* PARTNER OPER STAT LACP TIMEOUT == LONG -> SLOW PERIODIC *)
    (LacpPtxmStateFastPeriodic, LacpPtxmEventPartnerOperStateTimeoutLong,
     LacpPtxMachineSlowPeriodic_cb);
    (* PERIODIC TIMER EXPIRED -> PERIODIC TX *)
    (LacpPtxmStateFastPeriodic, LacpPtxmEventPeriodicTimerExpired, LacpPtxMachinePeriodicTx_cb);
    (* PARTNER OPER STAT LACP TIMEOUT == SHORT -> PERIODIC TX *)
    (LacpPtxmStateSlowPeriodic, LacpPtxmEventPartnerOperStateTimeoutShort,
     LacpPtxMachinePeriodicTx_cb);
    (* PERIODIC TIMER EXPIRED -> PERIODIC TX *)
    (LacpPtxmStateSlowPeriodic, LacpPtxmEventPeriodicTimerExpired, LacpPtxMachinePeriodicTx_cb);
    (* PARTNER OPER STAT LACP TIMEOUT == SHORT -> FAST PERIODIC *)
    (LacpPtxmStatePeriodicTx, LacpPtxmEventPartnerOperStateTimeoutShort,
     LacpPtxMachineFastPeriodic_cb);
    (* PARTNER OPER STAT LACP TIMEOUT == LONG -> SLOW PERIODIC *)
    (LacpPtxmStatePeriodicTx, LacpPtxmEventPartnerOperStateTimeoutLong,
     LacpPtxMachineSlowPeriodic_cb) ].

Definition NewLacpPtxMachine : LacpPtxMachine :=
  PeriodicTimerStop (PeriodicTimerStart
    {| ptxm_PreviousState := LacpPtxmStateNone; ptxm_Machine := Apply (AddRules ptx_rules);
       PeriodicTxTimerInterval := LacpSlowPeriodicTime; periodicTxTimer := None;
       PtxmEvents := [] |}).

Definition LacpPtxMachineFSMBuild (st : St) : St :=
  upd_prt (fun p => p <| PtxMachineFsm := Some NewLacpPtxMachine |>) st.

Definition set_ptxm (f : Machine PtxCallback -> Machine PtxCallback) : St -> St :=
  upd_ptxm (fun m => m <| ptxm_Machine ::= f |>).

Definition LacpPtxMachineMain_start (st : St) : St :=
  set_ptxm (Start LacpPtxmStateNone) (LacpPtxMachineFSMBuild st).

Definition ptx_process (es : string) (ev : Z) (st : St) : exec (St * option FsmError) :=
  ProcessEvent get_ptxm set_ptxm ptx_callback es ev tt st.

(** ** The event loop *)

Definition LacpPtxIsNoPeriodicExitCondition (st : St) : exec bool :=
  let p := prt st in
  let! cur := state_of (get_ptxm st) in
  Ok ((cur =? LacpPtxmStateNoPeriodic) && lacpEnabled p && IsPortEnabled p &&
      ((LacpModeGet (State (ActorOper p)) (lacpEnabled p) =? LacpModeActive) ||
       (LacpModeGet (State (PartnerOper p)) (lacpEnabled p) =? LacpModeActive))).

(** Leave PERIODIC TX for the interval the partner asks for. *)
Definition leave_periodic_tx (st : St) : exec St :=
  let! (st, _) :=
    if LacpStateIsSet (State (PartnerOper (prt st))) LacpStateTimeoutBit
    then ptx_process PtxMachineModuleStr LacpPtxmEventPartnerOperStateTimeoutShort st
    else ptx_process PtxMachineModuleStr LacpPtxmEventPartnerOperStateTimeoutLong st in
  Ok st.

(** [periodicTxTimer] fires. *)
Definition ptx_timer (st : St) : exec St :=
  let st := upd_ptxm PeriodicTimerStop st in
  let! (st, _) := ptx_process PtxMachineModuleStr LacpPtxmEventPeriodicTimerExpired st in
  let! cur := state_of (get_ptxm st) in
  if cur =? LacpPtxmStatePeriodicTx then leave_periodic_tx st else Ok st.

(** One event received from [PtxmEvents]. *)
Definition ptx_event (ev : MachineEvent) (st : St) : exec St :=
  let! (st, _) := ptx_process (ev_Src ev) (ev_E ev) st in
  let! exit := LacpPtxIsNoPeriodicExitCondition st in
  let! cur := state_of (get_ptxm st) in
  let! st :=
    if exit then
      let! (st, _) := ptx_process PtxMachineModuleStr LacpPtxmEventUnconditionalFallthrough st in
      Ok st
    else if cur =? LacpPtxmStatePeriodicTx then leave_periodic_tx st
    else Ok st in
  Ok (respond PtxMachineModuleStr ev st).

Definition LacpPtxMachineMain (st : St) : exec St :=
  let! m := of_option (PtxMachineFsm (prt st)) in
  match PtxmEvents m with
  | [] => Ok st
  | ev :: evs => ptx_event ev (upd_ptxm (fun m => m <| PtxmEvents := evs |>) st)
  end.
