(* ===== verification/LacpCdm.v ===== *)
(** * LACP: churn detection ([churnDetectionMachine.go])

    Two machines per port watch whether the actor's and the partner's
    synchronisation bit settle: from the monitor state sync leads to no
    churn, sixty seconds without it to churn. *)

From S2P Require Import Prelude Fsm LacpDefs LacpPort.

(** ** Timer ([timers.go]) *)

Definition ChurnDetectionTimerStart (m : LacpCdMachine) : LacpCdMachine :=
  m <| churnTimer ::= timer_start (churnTimerInterval m) |>.
Definition ChurnDetectionTimerStop (m : LacpCdMachine) : LacpCdMachine :=
  m <| churnTimer ::= timer_stop |>.

(** ** Callbacks of the actor machine *)

Definition upd_debug (f : AggPortDebugInformationObject -> AggPortDebugInformationObject)
  : St -> St := upd_prt (fun p => p <| AggPortDebug ::= f |>).

Definition LacpCdMachineNoActorChurn (st : St) : exec (St * Z) :=
  let st := upd_prt (fun p => p <| actorChurn := false |>) st in
  Ok (upd_cdm ChurnDetectionTimerStop st, LacpCdmStateNoActorChurn).

Definition LacpCdMachineActorChurn (st : St) : exec (St * Z) :=
  let st := upd_prt (fun p => p <| actorChurn := true |>) st in
  let! cdm := of_option (CdMachineFsm (prt st)) in
  let stamp := if time_Nanosecond (churnCountTimestamp cdm) =? 0 then Now st
               else churnCountTimestamp cdm in
  let st := upd_cdm (fun m => m <| churnCountTimestamp := stamp |>) st in
  let timeDiff := time_Second (Now st) - time_Second stamp in
  let d := AggPortDebug (prt st) in
  let st :=
    if (timeDiff <? 1) &&
       (AggPortDebugActorChurnCount d - AggPortDebugActorChurnPrevCnt d <? 5)
    then upd_debug (fun d => d <| AggPortDebugActorChurnCount ::= fun n => n + 1 |>) st
    else if 1 <? timeDiff then
      let st := upd_cdm (fun m => m <| churnCountTimestamp := Now st |>) st in
      upd_debug (fun d => d <| AggPortDebugActorChurnPrevCnt := AggPortDebugActorChurnCount d |>
                            <| AggPortDebugActorChurnCount ::= fun n => n + 1 |>) st
    else st in
  Ok (upd_cdm ChurnDetectionTimerStop st, LacpCdmStateActorChurn).

Definition LacpCdMachineActorChurnMonitor (st : St) : exec (St * Z) :=
  let st := upd_prt (fun p => p <| actorChurn := false |>) st in
  Ok (upd_cdm ChurnDetectionTimerStart st, LacpCdmStateActorChurnMonitor).

(** ** Callbacks of the partner machine *)

Definition LacpCdMachineNoPartnerChurn (st : St) : exec (St * Z) :=
  let st := upd_prt (fun p => p <| partnerChurn := false |>) st in
  Ok (upd_pcdm ChurnDetectionTimerStop st, LacpCdmStateNoPartnerChurn).

Definition LacpCdMachinePartnerChurn (st : St) : exec (St * Z) :=
  let st := upd_prt (fun p => p <| partnerChurn := true |>) st in
  let! cdm := of_option (PCdMachineFsm (prt st)) in
  let stamp := if time_Nanosecond (churnCountTimestamp cdm) =? 0 then Now st
               else churnCountTimestamp cdm in
  let st := upd_pcdm (fun m => m <| churnCountTimestamp := stamp |>) st in
  let timeDiff := time_Second (Now st) - time_Second stamp in
  let d := AggPortDebug (prt st) in
  let st :=
    if (timeDiff <? 1) &&
       (AggPortDebugPartnerChurnCount d - AggPortDebugPartnerChurnPrevCount d <? 5)
    then upd_debug (fun d => d <| AggPortDebugPartnerChurnCount ::= fun n => n + 1 |>) st
    else if 1 <=? timeDiff then
      let st := upd_pcdm (fun m => m <| churnCountTimestamp := Now st |>) st in
      upd_debug (fun d => d <| AggPortDebugPartnerChurnPrevCount := AggPortDebugPartnerChurnCount d |>
                            <| AggPortDebugPartnerChurnCount ::= fun n => n + 1 |>) st
    else st in
  Ok (upd_pcdm ChurnDetectionTimerStop st, LacpCdmStatePartnerChurn).

Definition LacpCdMachinePartnerChurnMonitor (st : St) : exec (St * Z) :=
  let st := upd_prt (fun p => p <| partnerChurn := false |>) st in
  Ok (upd_pcdm ChurnDetectionTimerStart st, LacpCdmStatePartnerChurnMonitor).

Definition cd_callback (cb : CdCallback) (_ : unit) (st : St) : exec (St * Z) :=
  match cb with
  | LacpCdMachineNoActorChurn_cb => LacpCdMachineNoActorChurn st
  | LacpCdMachineActorChurn_cb => LacpCdMachineActorChurn st
  | LacpCdMachineActorChurnMonitor_cb => LacpCdMachineActorChurnMonitor st
  | LacpCdMachineNoPartnerChurn_cb => LacpCdMachineNoPartnerChurn st
  | LacpCdMachinePartnerChurn_cb => LacpCdMachinePartnerChurn st
  | LacpCdMachinePartnerChurnMonitor_cb => LacpCdMachinePartnerChurnMonitor st
  end.

(** ** The rule tables and the machines *)

Definition actor_cd_rules : list (Z * Z * CdCallback) :=
  [ (* BEGIN -> ACTOR CHURN MONITOR *)
    (LacpCdmStateNone, LacpCdmEventBegin, LacpCdMachineActorChurnMonitor_cb);
    (LacpCdmStateActorChurn, LacpCdmEventBegin, LacpCdMachineActorChurnMonitor_cb);
    (LacpCdmStateNoActorChurn, LacpCdmEventBegin, LacpCdMachineActorChurnMonitor_cb);
    (LacpCdmStateActorChurnMonitor, LacpCdmEventBegin, LacpCdMachineActorChurnMonitor_cb);
    (* PORT ENABLED -> ACTOR CHURN MONITOR *)
    (LacpCdmStateActorChurn, LacpCdmEventNotPortEnabled, LacpCdMachineActorChurnMonitor_cb);
    (LacpCdmStateNoActorChurn, LacpCdmEventNotPortEnabled, LacpCdMachineActorChurnMonitor_cb);
    (LacpCdmStateActorChurnMonitor, LacpCdmEventNotPortEnabled, LacpCdMachineActorChurnMonitor_cb);
    (* SYNC ON -> NO CHURN *)
    (LacpCdmStateActorChurnMonitor, LacpCdmEventActorOperPortStateSyncOn,
     LacpCdMachineNoActorChurn_cb);
    (LacpCdmStateActorChurn, LacpCdmEventActorOperPortStateSyncOn, LacpCdMachineNoActorChurn_cb);
    (* SYNC OFF -> ACTOR CHURN MONITOR *)
    (LacpCdmStateNoActorChurn, LacpCdmEventActorOperPortStateSyncOff,
     LacpCdMachineActorChurnMonitor_cb);
    (* TIMEOUT -> CHURN *)
    (LacpCdmStateActorChurnMonitor, LacpCdmEventActorChurnTimerExpired,
     LacpCdMachineActorChurn_cb) ].

Definition partner_cd_rules : list (Z * Z * CdCallback) :=
  [ (* BEGIN -> PARTNER CHURN MONITOR *)
    (LacpCdmStateNone, LacpCdmEventBegin, LacpCdMachinePartnerChurnMonitor_cb);
    (LacpCdmStatePartnerChurn, LacpCdmEventBegin, LacpCdMachinePartnerChurnMonitor_cb);
    (LacpCdmStateNoPartnerChurn, LacpCdmEventBegin, LacpCdMachinePartnerChurnMonitor_cb);
    (LacpCdmStatePartnerChurnMonitor, LacpCdmEventBegin, LacpCdMachinePartnerChurnMonitor_cb);
    (* PORT ENABLED -> PARTNER CHURN MONITOR *)
    (LacpCdmStatePartnerChurn, LacpCdmEventNotPortEnabled, LacpCdMachinePartnerChurnMonitor_cb);
    (LacpCdmStateNoPartnerChurn, LacpCdmEventNotPortEnabled, LacpCdMachinePartnerChurnMonitor_cb);
    (LacpCdmStatePartnerChurnMonitor, LacpCdmEventNotPortEnabled,
     LacpCdMachinePartnerChurnMonitor_cb);
    (* SYNC ON -> NO CHURN *)
    (LacpCdmStatePartnerChurnMonitor, LacpCdmEventPartnerOperPortStateSyncOn,
     LacpCdMachineNoPartnerChurn_cb);
    (LacpCdmStatePartnerChurn, LacpCdmEventPartnerOperPortStateSyncOn,
     LacpCdMachineNoPartnerChurn_cb);
    (* SYNC OFF -> PARTNER CHURN MONITOR *)
    (LacpCdmStateNoPartnerChurn, LacpCdmEventPartnerOperPortStateSyncOff,
     LacpCdMachinePartnerChurnMonitor_cb);
    (* TIMEOUT -> CHURN *)
    (LacpCdmStatePartnerChurnMonitor, LacpCdmEventPartnerChurnTimerExpired,
     LacpCdMachinePartnerChurn_cb) ].

Definition new_cd_machine (rules : list (Z * Z * CdCallback)) : LacpCdMachine :=
  ChurnDetectionTimerStop (ChurnDetectionTimerStart
    {| cdm_PreviousState := LacpCdmStateNone; cdm_Machine := Apply (AddRules rules);
       churnTimerInterval := LacpChurnDetectionTime; churnTimer := None; CdmEvents := [];
       churnCountTimestamp := 0 |}).

Definition NewLacpActorCdMachine : LacpCdMachine := new_cd_machine actor_cd_rules.
Definition NewLacpPartnerCdMachine : LacpCdMachine := new_cd_machine partner_cd_rules.

Definition LacpActorCdMachineFSMBuild (st : St) : St :=
  upd_prt (fun p => p <| CdMachineFsm := Some NewLacpActorCdMachine |>) st.
Definition LacpPartnerCdMachineFSMBuild (st : St) : St :=
  upd_prt (fun p => p <| PCdMachineFsm := Some NewLacpPartnerCdMachine |>) st.

Definition set_cdm (f : Machine CdCallback -> Machine CdCallback) : St -> St :=
  upd_cdm (fun m => m <| cdm_Machine ::= f |>).
Definition set_pcdm (f : Machine CdCallback -> Machine CdCallback) : St -> St :=
  upd_pcdm (fun m => m <| cdm_Machine ::= f |>).

Definition LacpActorCdMachineMain_start (st : St) : St :=
  set_cdm (Start LacpCdmStateNone) (LacpActorCdMachineFSMBuild st).
Definition LacpPartnerCdMachineMain_start (st : St) : St :=
  set_pcdm (Start LacpCdmStateNone) (LacpPartnerCdMachineFSMBuild st).

Definition cd_process (es : string) (ev : Z) (st : St) : exec (St * option FsmError) :=
  ProcessEvent get_cdm set_cdm cd_callback es ev tt st.
Definition pcd_process (es : string) (ev : Z) (st : St) : exec (St * option FsmError) :=
  ProcessEvent get_pcdm set_pcdm cd_callback es ev tt st.

(** ** The event loops *)

(** The continuation both loops share: [sync] is the bit the machine watches,
    [process] its [ProcessEvent]. *)
Definition cd_continue (get : St -> option (Machine CdCallback))
    (process : string -> Z -> St -> exec (St * option FsmError)) (module : string)
    (sync : St -> bool) (rv : option FsmError) (st : St) : exec (St * option FsmError) :=
  let! cur := state_of (get st) in
  let! (st, rv) :=
    if bool_decide (rv = None) && (cur =? LacpCdmStateNoActorChurn) && negb (sync st)
    then process module LacpCdmEventActorOperPortStateSyncOff st
    else Ok (st, rv) in
  let! cur := state_of (get st) in
  if bool_decide (rv = None) &&
     ((cur =? LacpCdmStateActorChurnMonitor) || (cur =? LacpCdmStateActorChurn)) && sync st
  then process module LacpCdmEventActorOperPortStateSyncOn st
  else Ok (st, rv).

Definition actor_sync (st : St) : bool :=
  LacpStateIsSet (State (ActorOper (prt st))) LacpStateSyncBit.
Definition partner_sync (st : St) : bool :=
  LacpStateIsSet (State (PartnerOper (prt st))) LacpStateSyncBit.

Definition cd_event (ev : MachineEvent) (st : St) : exec St :=
  let! (st, rv) := cd_process (ev_Src ev) (ev_E ev) st in
  let! (st, _) := cd_continue get_cdm cd_process CdMachineModuleStr actor_sync rv st in
  Ok (respond CdMachineModuleStr ev st).

(** The partner loop tests and sends the constants of the actor machine. *)
Definition pcd_event (ev : MachineEvent) (st : St) : exec St :=
  let! (st, rv) := pcd_process (ev_Src ev) (ev_E ev) st in
  let! (st, _) := cd_continue get_pcdm pcd_process PCdMachineModuleStr partner_sync rv st in
  Ok (respond PCdMachineModuleStr ev st).

Definition cd_timer (st : St) : exec St :=
  let st := upd_cdm ChurnDetectionTimerStop st in
  let! (st, _) := cd_process CdMachineModuleStr LacpCdmEventActorChurnTimerExpired st in
  Ok st.
Definition pcd_timer (st : St) : exec St :=
  let st := upd_pcdm ChurnDetectionTimerStop st in
  let! (st, _) := pcd_process PCdMachineModuleStr LacpCdmEventPartnerChurnTimerExpired st in
  Ok st.

(** A turn of the goroutines: the state is published first. *)
Definition LacpActorCdMachineMain (st : St) : exec St :=
  let! m := of_option (CdMachineFsm (prt st)) in
  let st := upd_debug (fun d => d <| AggPortDebugActorChurnState := CurrentState (cdm_Machine m) |>) st in
  match CdmEvents m with
  | [] => Ok st
  | ev :: evs => cd_event ev (upd_cdm (fun m => m <| CdmEvents := evs |>) st)
  end.
Definition LacpPartnerCdMachineMain (st : St) : exec St :=
  let! m := of_option (PCdMachineFsm (prt st)) in
  let st := upd_debug (fun d => d <| AggPortDebugPartnerChurnState := CurrentState (cdm_Machine m) |>) st in
  match CdmEvents m with
  | [] => Ok st
  | ev :: evs => pcd_event ev (upd_pcdm (fun m => m <| CdmEvents := evs |>) st)
  end.
