(* ===== verification/LacpMarker.v ===== *)
(** * LACP: reception of frames ([rx.go]) and the marker responder
      ([markerResponder.go])

    [LaRxMain] sorts the frames of a port into LACPDUs, which go to the
    receive machine, and marker PDUs, which the marker responder answers by
    sending them back with another type. *)

From S2P Require Import Prelude Fsm LacpDefs LacpPort.

(** ** Frames

    The layers gopacket finds in a frame, as far as [rx.go] looks at them. *)

Record Packet := {
  pkt_Ethernet : option (list Z * Z);    (* DstMAC, EthernetType *)
  pkt_SlowProtocol : option Z;           (* SubType *)
  pkt_LACP : option LACP;
  pkt_LAMP : option LAMP
}.

Section LacpMarker.
Context `{!Layers}.

Definition slowProtocolMAC : list Z := [1; 128; 194; 0; 0; 2].

Definition upd_counter (f : AggPortStatsObject -> AggPortStatsObject) (p : LaAggPort)
  : LaAggPort := p <| LacpCounter ::= f |>.

(** Update a port found by its number, if it exists. *)
Definition at_port (pId : Z) (f : LaAggPort -> LaAggPort) (st : St) : St :=
  match LaFindPortById st pId with
  | Some r =>
      if bool_decide (r = self st) then upd_prt f st else st <| rest ::= alter f r |>
  | None => st
  end.

Definition IsControlFrame (pId : Z) (packet : Packet) (st : St) : St * (bool * bool) :=
  match pkt_Ethernet packet with
  | None => (st, (false, false))
  | Some (DstMAC, EthernetType) =>
      let isSlowProtocolMAC := bool_decide (DstMAC = slowProtocolMAC) in
      let isSlowProtocolEtherType := EthernetType =? EthernetTypeSlowProtocol in
      match pkt_SlowProtocol packet with
      | Some SubType =>
          if isSlowProtocolMAC && isSlowProtocolEtherType && (SubType =? SlowProtocolTypeLACP)
          then (st, (false, true))
          else if isSlowProtocolMAC && isSlowProtocolEtherType && (SubType =? SlowProtocolTypeLAMP)
          then (st, (true, false))
          else if (negb isSlowProtocolMAC && isSlowProtocolEtherType) ||
                  (isSlowProtocolMAC && negb isSlowProtocolEtherType)
          then (at_port pId (upd_counter (fun c =>
                  c <| AggPortStatsUnknownRx ::= fun n => u64 (n + 1) |>)) st, (false, false))
          else (st, (false, false))
      | None =>
          if isSlowProtocolMAC && isSlowProtocolEtherType
          then (at_port pId (upd_counter (fun c =>
                  c <| AggPortStatsIllegalRx ::= fun n => u64 (n + 1) |>)) st, (false, false))
          else (st, (false, false))
      end
  end.

Definition ProcessLacpFrame (pId : Z) (lacp : LACP) (st : St) : St :=
  at_port pId (fun p => p <| RxMachineFsm ::= fmap (fun m =>
                 m <| RxmPktRxEvent ::= fun l => l ++ [lacp] |>) |>) st.

Definition ProcessLampFrame (pId : Z) (lamp : LAMP) (st : St) : St :=
  at_port pId (fun p => p <| MarkerResponderFsm ::= fmap (fun m =>
                 m <| LampMarkerResponderPktRxEvent ::= fun l => l ++ [lamp] |>) |>) st.

(** One frame received on the channel of port [pId]. *)
Definition LaRxMain (pId : Z) (packet : Packet) (st : St) : St :=
  let '(st, (marker, lacp)) := IsControlFrame pId packet st in
  if lacp then
    match pkt_LACP packet with Some pdu => ProcessLacpFrame pId pdu st | None => st end
  else if marker then
    match pkt_LAMP packet with Some pdu => ProcessLampFrame pId pdu st | None => st end
  else st.

(** ** The marker responder *)


Definition LampMarkerResponderWaitForMarker (st : St) : exec (St * Z) :=
  Ok (st, LampMarkerResponderStateWaitForMarker).

Definition transmit_lamp (lamp : LAMP) (callbacks : list (option nat)) (st : St) : St :=
  foldl (fun st ftx =>
           upd_prt (upd_counter (fun c =>
                      c <| AggPortStatsMarkerResponsePDUsTx ::= fun n => u64 (n + 1) |>))
             (emit (TxLamp ftx (PortNum (prt st)) lamp) st))
    st callbacks.

Definition LampMarkerResponderRespondToMarker (lamp : LAMP) (st : St) : exec (St * Z) :=
  let count f st := upd_prt (upd_counter f) st in
  if negb (Marker_Length lamp =? LAMPMarkerTlvLength) then
    Ok (count (fun c => c <| AggPortStatsIllegalRx ::= fun n => u64 (n + 1) |>) st,
        LampMarkerResponderStateWaitForMarker)
  else if negb (Marker_TlvType lamp =? LAMPTLVMarkerInfo) then
    Ok (if Marker_TlvType lamp =? LAMPTLVMarkerResponder
        then count (fun c => c <| AggPortStatsMarkerResponsePDUsRx ::= fun n => u64 (n + 1) |>) st
        else count (fun c => c <| AggPortStatsIllegalRx ::= fun n => u64 (n + 1) |>) st,
        LampMarkerResponderStateWaitForMarker)
  else
    let st := count (fun c => c <| AggPortStatsMarkerPDUsRx ::= fun n => u64 (n + 1) |>) st in
    let! callbacks := LaSysGlobalTxCallbackListGet st in
    let st := transmit_lamp (lamp <| Marker_TlvType := LAMPTLVMarkerResponder |>) callbacks st in
    Ok (st, LampMarkerResponderStateRespondToMarker).

(** The type assertion on [data] panics when the callback is given nil. *)
Definition marker_callback (cb : MarkerCallback) (data : option LAMP) (st : St)
  : exec (St * Z) :=
  match cb with
  | LampMarkerResponderWaitForMarker_cb => LampMarkerResponderWaitForMarker st
  | LampMarkerResponderRespondToMarker_cb =>
      let! lamp := of_option data in LampMarkerResponderRespondToMarker lamp st
  end.

(** The table names the constants of the receive machine in three rows. *)
Definition marker_rules : list (Z * Z * MarkerCallback) :=
  [ (* BEGIN -> WAIT FOR MARKER *)
    (LacpRxmStateNone, LampMarkerResponderEventBegin, LampMarkerResponderWaitForMarker_cb);
    (LampMarkerResponderStateWaitForMarker, LacpRxmEventBegin,
     LampMarkerResponderWaitForMarker_cb);
    (LampMarkerResponderStateRespondToMarker, LacpRxmEventBegin,
     LampMarkerResponderWaitForMarker_cb);
    (* PKT RX -> RESPOND TO MARKER *)
    (LampMarkerResponderStateWaitForMarker, LampMarkerResponderEventLampPktRx,
     LampMarkerResponderRespondToMarker_cb);
    (* INTENTIONAL FALLTHROUGH -> WAIT FOR MARKER *)
    (LampMarkerResponderStateWaitForMarker, LampMarkerResponderEventIntentionalFallthrough,
     LampMarkerResponderWaitForMarker_cb) ].

Definition NewLampMarkerResponder : LampMarkerResponderMachine :=
  {| mr_PreviousState := LacpRxmStateNone; mr_Machine := Apply (AddRules marker_rules);
     LampMarkerResponderEvents := []; LampMarkerResponderPktRxEvent := [] |}.

Definition LampMarkerResponderFSMBuild (st : St) : St :=
  upd_prt (fun p => p <| MarkerResponderFsm := Some NewLampMarkerResponder |>) st.

Definition set_mr (f : Machine MarkerCallback -> Machine MarkerCallback) : St -> St :=
  upd_mr (fun m => m <| mr_Machine ::= f |>).

Definition LampMarkerResponderMain_start (st : St) : St :=
  set_mr (Start LacpRxmStateNone) (LampMarkerResponderFSMBuild st).

Definition mr_process (es : string) (ev : Z) (data : option LAMP) (st : St)
  : exec (St * option FsmError) :=
  ProcessEvent get_mr set_mr marker_callback es ev data st.

Definition mr_event (ev : MachineEvent) (st : St) : exec St :=
  let! (st, _) := mr_process (ev_Src ev) (ev_E ev) None st in
  Ok (respond RxMachineModuleStr ev st).

(** One PDU received from [LampMarkerResponderPktRxEvent]. *)
Definition mr_pkt (lamp : LAMP) (st : St) : exec St :=
  let st := upd_prt (upd_counter (fun c =>
              c <| AggPortStatsMarkerPDUsRx ::= fun n => u64 (n + 1) |>)) st in
  let! (st, _) := mr_process MarkerResponderModuleStr LampMarkerResponderEventLampPktRx
                    (Some lamp) st in
  let! cur := state_of (get_mr st) in
  if cur =? LampMarkerResponderStateRespondToMarker then
    let! (st, _) := mr_process MarkerResponderModuleStr
                      LampMarkerResponderEventIntentionalFallthrough (Some lamp) st in
    Ok st
  else Ok st.

(** A turn of the goroutine: [select] takes from either channel. *)
Definition LampMarkerResponderMain (from_pkts : bool) (st : St) : exec St :=
  let! m := of_option (MarkerResponderFsm (prt st)) in
  if from_pkts then
    match LampMarkerResponderPktRxEvent m with
    | [] => Ok st
    | lamp :: l => mr_pkt lamp (upd_mr (fun m => m <| LampMarkerResponderPktRxEvent := l |>) st)
    end
  else
    match LampMarkerResponderEvents m with
    | [] => Ok st
    | ev :: l => mr_event ev (upd_mr (fun m => m <| LampMarkerResponderEvents := l |>) st)
    end.

End LacpMarker.
