(* ===== verification/LacpMux.v ===== *)
(** * LACP: the mux machine ([muxmachine.go]) and the ready check of
      [selection.go]

    Attaches a port to its aggregator and turns collection and distribution
    on and off.  [LacpMuxCheckSelectionLogic] asks every port of the
    aggregator, each in a goroutine, whether it is ready; the model takes
    them in the order of [PortNumList].  The channel it reads has one message
    per port that exists, so a number in [PortNumList] without a port leaves
    it waiting for ever, which is [Hang]. *)

From S2P Require Import Prelude Fsm LacpDefs LacpPort.

Section LacpMux.
Context `{!AsicD}.

(** ** Timer ([timers.go]) *)

Definition WaitWhileTimerStart (m : LacpMuxMachine) : LacpMuxMachine :=
  m <| waitWhileTimer ::= timer_start (waitWhileTimerTimeout m) |>
    <| waitWhileTimerRunning := true |>.

Definition WaitWhileTimerStop (m : LacpMuxMachine) : LacpMuxMachine :=
  match waitWhileTimer m with
  | Some _ => m <| waitWhileTimer ::= timer_stop |> <| waitWhileTimerRunning := false |>
  | None => m
  end.

(** ** Helpers *)

Definition upd_agg (r : ref) (f : LaAggregator -> LaAggregator) (st : St) : St :=
  st <| AggHeap ::= alter f r |>.

Definition upd_actor_state (f : Z -> Z) : St -> St :=
  upd_prt (fun p => p <| ActorOper ::= fun i => i <| State ::= f |> |>).

(** [sort.Strings]. *)
Fixpoint insert_string (x : string) (l : list string) : list string :=
  match l with
  | [] => [x]
  | y :: l => if String.leb x y then x :: y :: l else y :: insert_string x l
  end.
Definition sort_strings (l : list string) : list string := foldr insert_string [] l.

Definition SendTxMachineNtt (st : St) : exec St :=
  let! tx_state := state_of (get_txm st) in
  if negb (tx_state =? LacpTxmStateOff)
  then send_txm (evt LacpTxmEventNtt MuxMachineModuleStr) st
  else Ok st.

(** Tell the actor churn machine, when it is in one of the given states. *)
Definition inform_cdm (states : list Z) (code : Z) (st : St) : exec St :=
  let! cur := state_of (get_cdm st) in
  if existsb (Z.eqb cur) states then send_cdm (evt code MuxMachineModuleStr) st else Ok st.

(** ** Operations on the aggregator *)

Definition AttachMuxToAggregator (st : St) : St :=
  match LaFindAggById st (port_AggId (prt st)) with
  | Some r =>
      upd_actor_state (LacpStateSet LacpStateAggregationBit)
        (upd_prt (fun p => p <| AggAttached := Some r |>) st)
  | None => st
  end.

(** [client.UpdateLag] for every client; [stop] when the code returns at the
    first error. *)
Fixpoint update_lags (stop : bool) (clients : list nat) (a : LaAggregator) (st : St)
  : St * bool :=
  match clients with
  | [] => (st, true)
  | c :: clients =>
      let st' := emit (UpdateLag c (HwAggId a) (asicDHashModeGet (LagHash a))
                         (asicDPortBmpFormatGet (PortConfigMap st) (DistributedPortNumList a))) st in
      if UpdateLag_error (Effects st) c && stop then (st', false)
      else update_lags stop clients a st'
  end.

Fixpoint delete_lags (clients : list nat) (a : LaAggregator) (st : St) : St * bool :=
  match clients with
  | [] => (st, true)
  | c :: clients =>
      let st' := emit (DeleteLag c (HwAggId a)) st in
      if DeleteLag_error (Effects st) c then (st', false) else delete_lags clients a st'
  end.

Definition notify (f : string -> Effect) (owners : list string) (st : St) : St :=
  foldl (fun st owner => emit (f owner) st) st owners.

Definition EnableDistributing (st : St) : exec St :=
  match AggAttached (prt st) with
  | None => Ok st
  | Some r =>
      let name := IntfNum (prt st) in
      let st := upd_agg r (fun a => a <| DistributedPortNumList ::=
                                        fun l => sort_strings (l ++ [name]) |>) st in
      let! a := of_option (AggHeap st !! r) in
      let '(st, _) := update_lags false AsicDPluginList a st in
      let st := notify (fun o => PortUp o (i32 (PortNum (prt st)))) (PortUpDbList (LacpCbDb st)) st in
      Ok (if len (DistributedPortNumList a) =? 1
          then notify (fun o => AggOperUp o (i32 (AggId a))) (AggOperUpDbList (LacpCbDb st)) st
          else st)
  end.

(** Drop the first occurrence. *)
Fixpoint remove_first (x : string) (l : list string) : list string :=
  match l with
  | [] => []
  | y :: l => if bool_decide (x = y) then l else y :: remove_first x l
  end.

Definition DisableDistributing (st : St) : exec St :=
  match AggAttached (prt st) with
  | None => Ok st
  | Some r =>
      let name := IntfNum (prt st) in
      let! a := of_option (AggHeap st !! r) in
      if existsb (String.eqb name) (DistributedPortNumList a) then
        let a := a <| DistributedPortNumList ::= fun l => sort_strings (remove_first name l) |> in
        let st := upd_agg r (fun _ => a) st in
        let '(st, ok) := update_lags true AsicDPluginList a st in
        if negb ok then Ok st else
        let empty := len (DistributedPortNumList a) =? 0 in
        let st := if empty
                  then notify (fun o => AggOperUp o (i32 (AggId a))) (AggOperUpDbList (LacpCbDb st)) st
                  else st in
        let st := notify (fun o => PortDown o (i32 (PortNum (prt st)))) (PortDownDbList (LacpCbDb st)) st in
        if empty then
          let '(st, ok) := delete_lags AsicDPluginList a st in
          if negb ok then Ok st else
          Ok (upd_agg r (fun a => a <| HwAggId := 0 |> <| OperState := false |>) st)
        else Ok st
      else Ok st
  end.

(** ** Callbacks *)

(** [DetachMuxFromAggregator], [EnableCollecting], [DisableCollecting],
    [EnableCollectingDistributing] and [DisableCollectingDistributing] only
    log. *)

Definition LacpMuxmDetached (st : St) : exec (St * Z) :=
  let st := upd_actor_state (LacpStateClear LacpStateSyncBit) st in
  let! st := inform_cdm [LacpCdmStateNoActorChurn] LacpCdmEventActorOperPortStateSyncOff st in
  let! st := DisableDistributing st in
  let st := upd_actor_state
              (LacpStateClear (Z.lor LacpStateDistributingBit LacpStateCollectingBit)) st in
  let! cur := state_of (get_muxm st) in
  let! st := if negb (cur =? LacpMuxmStateNone) then SendTxMachineNtt st else Ok st in
  Ok (st, LacpMuxmStateDetached).

Definition LacpMuxmWaiting (st : St) : exec (St * Z) :=
  let p := prt st in
  let! (st, skipWaitWhileTimer) :=
    match LaFindAggById st (port_AggId p) with
    | Some r =>
        let! a := of_option (AggHeap st !! r) in
        if ready a || (LacpModeGet (State (ActorAdmin p)) (lacpEnabled p) =? LacpModeOn)
        then Ok (upd_agg r (fun a => a <| ready := false |>) st, true)
        else Ok (st, false)
    | None => Ok (st, false)
    end in
  let st := if skipWaitWhileTimer : bool then upd_muxm WaitWhileTimerStop st
            else upd_muxm WaitWhileTimerStart st in
  Ok (st, LacpMuxmStateWaiting).

(** The debug counter of synchronisation transitions. *)
Definition count_actor_sync (st : St) : exec St :=
  let! muxm := of_option (MuxMachineFsm (prt st)) in
  let stamp := actorSyncTransitionTimestamp muxm in
  let bump st :=
    upd_muxm (fun m => m <| actorSyncTransitionTimestamp := Now st |>)
      (upd_prt (fun p => p <| AggPortDebug ::= fun d =>
                  d <| AggPortDebugActorSyncTransitionCount ::= fun n => n + 1 |> |>) st) in
  if AggPortDebugActorSyncTransitionCount (AggPortDebug (prt st)) =? 0 then Ok (bump st)
  else if 5 <? time_Second (Now st) - time_Second stamp then Ok (bump st)
  else Ok st.

Definition LacpMuxmAttached (st : St) : exec (St * Z) :=
  let st := AttachMuxToAggregator st in
  let st := upd_actor_state (LacpStateSet LacpStateSyncBit) st in
  let! st := inform_cdm [LacpCdmStateActorChurnMonitor; LacpCdmStateActorChurn]
               LacpCdmEventActorOperPortStateSyncOn st in
  let! st := count_actor_sync st in
  let st := upd_actor_state (LacpStateClear LacpStateCollectingBit) st in
  let st := emit (ProcessLacpPortPartnerInfoSync (i32 (PortNum (prt st)))) st in
  let! st := SendTxMachineNtt st in
  Ok (st, LacpMuxmStateAttached).

Definition LacpMuxmCollecting (st : St) : exec (St * Z) :=
  let st := upd_actor_state (LacpStateSet LacpStateCollectingBit) st in
  let! st := DisableDistributing st in
  let st := upd_actor_state (LacpStateClear LacpStateDistributingBit) st in
  let st := match AggAttached (prt st) with
            | Some r => upd_agg r (fun a =>
                if len (DistributedPortNumList a) =? 0 then a <| OperState := false |> else a) st
            | None => st
            end in
  let! st := SendTxMachineNtt st in
  Ok (st, LacpMuxmStateCollecting).

Definition LacpMuxmDistributing (st : St) : exec (St * Z) :=
  let st := upd_actor_state (LacpStateSet LacpStateDistributingBit) st in
  let! st := EnableDistributing st in
  let st := match AggAttached (prt st) with
            | Some r => upd_agg r (fun a => a <| OperState := true |>) st
            | None => st
            end in
  let! st := SendTxMachineNtt st in
  Ok (st, LacpMuxmStateDistributing).

Definition LacpMuxmCDetached (st : St) : exec (St * Z) :=
  let st := upd_actor_state (LacpStateClear (Z.lor LacpStateSyncBit LacpStateCollectingBit)) st in
  let! st := inform_cdm [LacpCdmStateNoActorChurn] LacpCdmEventActorOperPortStateSyncOff st in
  let st := upd_actor_state (LacpStateClear LacpStateDistributingBit) st in
  let st := emit (ProcessLacpPortPartnerInfoMismatch (i32 (PortNum (prt st)))) st in
  let! st := SendTxMachineNtt st in
  Ok (st, LacpMuxmStateDetached).

Definition LacpMuxmCWaiting (st : St) : exec (St * Z) :=
  Ok (upd_muxm WaitWhileTimerStart st, LacpMuxmStateWaiting).

Definition LacpMuxmCAttached (st : St) : exec (St * Z) :=
  let st := AttachMuxToAggregator st in
  let st := upd_actor_state (LacpStateSet LacpStateSyncBit) st in
  let! st := inform_cdm [LacpCdmStateActorChurnMonitor; LacpCdmStateActorChurn]
               LacpCdmEventActorOperPortStateSyncOn st in
  let st := upd_actor_state (LacpStateClear LacpStateCollectingBit) st in
  let st := upd_actor_state (LacpStateClear LacpStateDistributingBit) st in
  let st := emit (ProcessLacpPortPartnerInfoSync (i32 (PortNum (prt st)))) st in
  let! st := SendTxMachineNtt st in
  Ok (st, LacpMuxmStateWaiting).

Definition LacpMuxmCCollectingDistributing (st : St) : exec (St * Z) :=
  let st := upd_actor_state (LacpStateSet LacpStateDistributingBit) st in
  let st := upd_actor_state (LacpStateSet LacpStateDistributingBit) st in
  let! st := SendTxMachineNtt st in
  Ok (st, LacpMuxmStateWaiting).

Definition mux_callback (cb : MuxCallback) (_ : unit) (st : St) : exec (St * Z) :=
  match cb with
  | LacpMuxmDetached_cb => LacpMuxmDetached st
  | LacpMuxmWaiting_cb => LacpMuxmWaiting st
  | LacpMuxmAttached_cb => LacpMuxmAttached st
  | LacpMuxmCollecting_cb => LacpMuxmCollecting st
  | LacpMuxmDistributing_cb => LacpMuxmDistributing st
  | LacpMuxmCDetached_cb => LacpMuxmCDetached st
  | LacpMuxmCWaiting_cb => LacpMuxmCWaiting st
  | LacpMuxmCAttached_cb => LacpMuxmCAttached st
  | LacpMuxmCCollectingDistributing_cb => LacpMuxmCCollectingDistributing st
  end.

(** ** The rule table and the machine

    The rules of the coupled machine follow those of the independent one;
    four of them repeat a pair already present and are refused by
    [AddRule]. *)

Definition mux_rules : list (Z * Z * MuxCallback) :=
  [
    (* MUX *)
    (* BEGIN -> DETACHED *)
    (LacpMuxmStateNone, LacpMuxmEventBegin,
     LacpMuxmDetached_cb);
    (LacpMuxmStateDetached, LacpMuxmEventBegin,
     LacpMuxmDetached_cb);
    (LacpMuxmStateWaiting, LacpMuxmEventBegin,
     LacpMuxmDetached_cb);
    (LacpMuxmStateAttached, LacpMuxmEventBegin,
     LacpMuxmDetached_cb);
    (LacpMuxmStateCollecting, LacpMuxmEventBegin,
     LacpMuxmDetached_cb);
    (LacpMuxmStateDistributing, LacpMuxmEventBegin,
     LacpMuxmDetached_cb);
    (* SELECTED or STANDBY -> WAITING *)
    (LacpMuxmStateDetached, LacpMuxmEventSelectedEqualSelected,
     LacpMuxmWaiting_cb);
    (LacpMuxmStateDetached, LacpMuxmEventSelectedEqualStandby,
     LacpMuxmWaiting_cb);
    (* UNSELECTED -> DETACHED *)
    (LacpMuxmStateWaiting, LacpMuxmEventSelectedEqualUnselected,
     LacpMuxmDetached_cb);
    (* SELECTED && READY -> ATTACHED *)
    (LacpMuxmStateWaiting, LacpMuxmEventSelectedEqualSelectedAndReady,
     LacpMuxmAttached_cb);
    (* UNSELECTED or STANDBY -> DETACHED *)
    (LacpMuxmStateAttached, LacpMuxmEventSelectedEqualUnselected,
     LacpMuxmDetached_cb);
    (LacpMuxmStateAttached, LacpMuxmEventSelectedEqualStandby,
     LacpMuxmDetached_cb);
    (* SELECTED && PARTNER SYNC -> COLLECTING *)
    (LacpMuxmStateAttached, LacpMuxmEventSelectedEqualSelectedAndPartnerSync,
     LacpMuxmCollecting_cb);
    (* UNSELECTED or STANDBY or NOT PARTNER SYNC -> ATTACHED *)
    (LacpMuxmStateCollecting, LacpMuxmEventSelectedEqualUnselected,
     LacpMuxmAttached_cb);
    (LacpMuxmStateCollecting, LacpMuxmEventSelectedEqualStandby,
     LacpMuxmAttached_cb);
    (LacpMuxmStateCollecting, LacpMuxmEventNotPartnerSync,
     LacpMuxmAttached_cb);
    (* SELECTED && PARTNER SYNC && PARTNER COLLECTING -> DISTRIBUTING *)
    (LacpMuxmStateCollecting, LacpMuxmEventSelectedEqualSelectedPartnerSyncCollecting,
     LacpMuxmDistributing_cb);
    (* UNSELECTED or STANDBY or NOT PARTNER SYNC or NOT PARTNER COLLECTING -> COLLECTING *)
    (LacpMuxmStateDistributing, LacpMuxmEventSelectedEqualUnselected,
     LacpMuxmCollecting_cb);
    (LacpMuxmStateDistributing, LacpMuxmEventSelectedEqualStandby,
     LacpMuxmCollecting_cb);
    (LacpMuxmStateDistributing, LacpMuxmEventNotPartnerSync,
     LacpMuxmCollecting_cb);
    (LacpMuxmStateDistributing, LacpMuxmEventNotPartnerCollecting,
     LacpMuxmCollecting_cb);
    (* MUX Coupled *)
    (* BEGIN -> DETACHED *)
    (LacpMuxmStateNone, LacpMuxmEventBegin,
     LacpMuxmCDetached_cb);
    (LacpMuxmStateCDetached, LacpMuxmEventBegin,
     LacpMuxmCDetached_cb);
    (LacpMuxmStateCWaiting, LacpMuxmEventBegin,
     LacpMuxmCDetached_cb);
    (LacpMuxmStateCAttached, LacpMuxmEventBegin,
     LacpMuxmCDetached_cb);
    (LacpMuxStateCCollectingDistributing, LacpMuxmEventBegin,
     LacpMuxmCDetached_cb);
    (* SELECTED or STANDBY -> WAITING *)
    (LacpMuxmStateCDetached, LacpMuxmEventSelectedEqualSelected,
     LacpMuxmCWaiting_cb);
    (LacpMuxmStateCDetached, LacpMuxmEventSelectedEqualStandby,
     LacpMuxmCWaiting_cb);
    (* UNSELECTED -> DETACHED *)
    (LacpMuxmStateCWaiting, LacpMuxmEventSelectedEqualUnselected,
     LacpMuxmCDetached_cb);
    (* SELECTED && READY -> ATTACHED *)
    (LacpMuxmStateCWaiting, LacpMuxmEventSelectedEqualSelectedAndReady,
     LacpMuxmAttached_cb);
    (* UNSELECTED or STANDBY -> DETACHED *)
    (LacpMuxmStateCAttached, LacpMuxmEventSelectedEqualUnselected,
     LacpMuxmCDetached_cb);
    (LacpMuxmStateCAttached, LacpMuxmEventSelectedEqualStandby,
     LacpMuxmCDetached_cb);
    (* SELECTED && PARTNER SYNC -> COLLECTING-DISTRIBUTING *)
    (LacpMuxmStateCAttached, LacpMuxmEventSelectedEqualSelectedAndPartnerSync,
     LacpMuxmCCollectingDistributing_cb);
    (* UNSELECTED or STANDBY or NOT PARTNER SYNC -> ATTACHED *)
    (LacpMuxmStateCollecting, LacpMuxmEventSelectedEqualUnselected,
     LacpMuxmCAttached_cb);
    (LacpMuxmStateCollecting, LacpMuxmEventSelectedEqualStandby,
     LacpMuxmCAttached_cb);
    (LacpMuxmStateCollecting, LacpMuxmEventNotPartnerSync,
     LacpMuxmCAttached_cb) ].

Definition NewLacpMuxMachine : LacpMuxMachine :=
  WaitWhileTimerStop (WaitWhileTimerStart
    {| muxm_PreviousState := LacpMuxmStateNone; muxm_Machine := Apply (AddRules mux_rules);
       waitWhileTimerTimeout := LacpAggregateWaitTime; waitWhileTimerRunning := false;
       waitWhileTimer := None; MuxmEvents := []; actorSyncTransitionTimestamp := 0 |}).

Definition LacpMuxMachineFSMBuild (st : St) : St :=
  upd_prt (fun p => p <| MuxMachineFsm := Some NewLacpMuxMachine |>) st.

Definition set_muxm (f : Machine MuxCallback -> Machine MuxCallback) : St -> St :=
  upd_muxm (fun m => m <| muxm_Machine ::= f |>).

Definition LacpMuxMachineMain_start (st : St) : St :=
  set_muxm (Start LacpMuxmStateNone) (LacpMuxMachineFSMBuild st).

Definition mux_process (es : string) (ev : Z) (st : St) : exec (St * option FsmError) :=
  ProcessEvent get_muxm set_muxm mux_callback es ev tt st.

(** ** Readiness of the ports of an aggregator ([selection.go]) *)

(** The messages on [readyChan]. *)
Fixpoint all_ready (ids : list Z) (st : St) : exec bool :=
  match ids with
  | [] => Ok true
  | id :: ids =>
      match LaFindPortById st id ≫= port_at st with
      | None => Hang
      | Some q => let! others := all_ready ids st in Ok (readyN q && others)
      end
  end.

(** One of the goroutines that attach the ports. *)
Definition attach_if_ready (id : Z) (st : St) : exec St :=
  match LaFindPortById st id with
  | Some q =>
      match port_at st q with
      | Some port =>
          if readyN port then
            on_port q (fun st =>
              let! (st, _) := mux_process MuxMachineModuleStr
                                LacpMuxmEventSelectedEqualSelectedAndReady st in
              Ok st) st
          else Ok st
      | None => Ok st
      end
  | None => Ok st
  end.

Definition LacpMuxCheckSelectionLogic (r : ref) (st : St) : exec St :=
  let! a := of_option (AggHeap st !! r) in
  let! isReady := all_ready (PortNumList a) st in
  let st := upd_agg r (fun a => a <| ready := isReady |>) st in
  if isReady : bool then for_each attach_if_ready (PortNumList a) st else Ok st.

Definition LacpMuxmWaitingEvaluateSelected (st : St) : exec St :=
  if (aggSelected (prt st) =? LacpAggSelected) || (aggSelected (prt st) =? LacpAggStandby) then
    let st := upd_prt (fun p => p <| readyN := true |>) st in
    match LaFindAggById st (port_AggId (prt st)) with
    | Some r => LacpMuxCheckSelectionLogic r st
    | None => Ok st
    end
  else Ok st.

(** ** The event loop *)

Definition is_detached (cur : Z) : bool :=
  (cur =? LacpMuxmStateDetached) || (cur =? LacpMuxmStateCDetached).
Definition is_waiting (cur : Z) : bool :=
  (cur =? LacpMuxmStateWaiting) || (cur =? LacpMuxmStateCWaiting).
Definition is_attached (cur : Z) : bool :=
  (cur =? LacpMuxmStateAttached) || (cur =? LacpMuxmStateCAttached).

Definition mux_step (code : Z) (st : St) : exec St :=
  let! (st, _) := mux_process MuxMachineModuleStr code st in Ok st.

(** [for ; State > endState; State-- { ... }]. *)
Fixpoint unselect_down (n : nat) (st : St) : exec St :=
  match n with
  | O => Ok st
  | S n => let! st := mux_step LacpMuxmEventSelectedEqualUnselected st in unselect_down n st
  end.

(** A detached port whose aggregator is known is selected again at once; the
    loop then goes on as if the event had been the selection. *)
Definition reselect (code : Z) (st : St) : exec (St * Z) :=
  let p := prt st in
  let! cur := state_of (get_muxm st) in
  if is_detached cur && bool_decide (is_Some (AggAttached p)) && IsPortEnabled p && lacpEnabled p
  then
    let st := upd_prt (fun p => p <| aggSelected := LacpAggSelected |>) st in
    let st := upd_actor_state (LacpStateSet LacpStateAggregationBit) st in
    let! st := mux_step LacpMuxmEventSelectedEqualSelected st in
    Ok (st, LacpMuxmEventSelectedEqualSelected)
  else Ok (st, code).

(** The wait-while timer was not started: attach without waiting. *)
Definition fast_attach (code : Z) (st : St) : exec St :=
  let! muxm := of_option (MuxMachineFsm (prt st)) in
  if (code =? LacpMuxmEventSelectedEqualSelected) &&
     is_waiting (CurrentState (muxm_Machine muxm)) && negb (waitWhileTimerRunning muxm)
  then LacpMuxmWaitingEvaluateSelected st
  else Ok st.

Definition start_collecting (st : St) : exec St :=
  let p := prt st in
  let! cur := state_of (get_muxm st) in
  if is_attached cur && (aggSelected p =? LacpAggSelected) &&
     LacpStateIsSet (State (PartnerOper p)) LacpStateSyncBit
  then mux_step LacpMuxmEventSelectedEqualSelectedAndPartnerSync st
  else Ok st.

Definition start_distributing (st : St) : exec St :=
  let p := prt st in
  let! cur := state_of (get_muxm st) in
  if (cur =? LacpMuxmStateCollecting) && (aggSelected p =? LacpAggSelected) &&
     LacpStateIsSet (State (PartnerOper p)) LacpStateSyncBit &&
     LacpStateIsSet (State (PartnerOper p)) LacpStateCollectingBit
  then mux_step LacpMuxmEventSelectedEqualSelectedPartnerSyncCollecting st
  else Ok st.

Definition unselect (code : Z) (st : St) : exec St :=
  let! cur := state_of (get_muxm st) in
  if (code =? LacpMuxmEventSelectedEqualUnselected) && negb (is_detached cur) then
    let endState := if LacpMuxmStateDistributing <? cur then LacpMuxmStateCDetached
                    else LacpMuxmStateDetached in
    unselect_down (Z.to_nat (cur - endState)) st
  else Ok st.

Definition mux_event (ev : MachineEvent) (st : St) : exec St :=
  let! (st, rv) := mux_process (ev_Src ev) (ev_E ev) st in
  let! st :=
    match rv with
    | Some _ => Ok st
    | None =>
        let! (st, code) := reselect (ev_E ev) st in
        let! st := fast_attach code st in
        let! st := start_collecting st in
        let! st := start_distributing st in
        unselect code st
    end in
  Ok (respond MuxMachineModuleStr ev st).

(** [waitWhileTimer] fires; the flag [waitWhileTimerRunning] is left as it is. *)
Definition mux_timer (st : St) : exec St :=
  let st := upd_muxm (fun m => m <| waitWhileTimer ::= timer_stop |>) st in
  let! cur := state_of (get_muxm st) in
  if is_waiting cur then LacpMuxmWaitingEvaluateSelected st else Ok st.

Definition LacpMuxMachineMain (st : St) : exec St :=
  let! m := of_option (MuxMachineFsm (prt st)) in
  let st := upd_prt (fun p => p <| AggPortDebug ::= fun d =>
              d <| AggPortDebugMuxState := CurrentState (muxm_Machine m) |> |>) st in
  match MuxmEvents m with
  | [] => Ok st
  | ev :: evs => mux_event ev (upd_muxm (fun m => m <| MuxmEvents := evs |>) st)
  end.

End LacpMux.
