(* ===== verification/LacpRx.v ===== *)
(** * LACP: the receive machine ([rxmachine.go]) and the selection logic it
      drives ([selection.go])

    Records what the partner says, times it out, and tells the other machines
    what changed.  [checkConfigForSelection] sends an event to the mux machine
    and waits for its answer: in the model the mux goroutine then serves its
    queue before the caller goes on. *)

From S2P Require Import Prelude Fsm LacpDefs LacpPort LacpMux.

Section LacpRx.
Context `{!AsicD}.

(** ** Timer ([timers.go]) *)

Definition CurrentWhileTimerStart (m : LacpRxMachine) : LacpRxMachine :=
  m <| currentWhileTimer ::= timer_start (currentWhileTimerTimeout m) |>.
Definition CurrentWhileTimerStop (m : LacpRxMachine) : LacpRxMachine :=
  m <| currentWhileTimer ::= timer_stop |>.
Definition CurrentWhileTimerTimeoutSet (timeout : Z) (m : LacpRxMachine) : LacpRxMachine :=
  m <| currentWhileTimerTimeout := timeout |>.

(** [Some t]: the timeout does not agree with the actor's Timeout bit, [t] does. *)
Definition CurrentWhileTimerValid (st : St) : exec (option Z) :=
  let! rxm := of_option (RxMachineFsm (prt st)) in
  let short := LacpStateIsSet (State (ActorOper (prt st))) LacpStateTimeoutBit in
  if (currentWhileTimerTimeout rxm =? LacpShortTimeoutTime) && negb short
  then Ok (Some LacpLongTimeoutTime)
  else if (currentWhileTimerTimeout rxm =? LacpLongTimeoutTime) && short
  then Ok (Some LacpShortTimeoutTime)
  else Ok None.

(** ** Helpers *)

Definition upd_partner_state (f : Z -> Z) : St -> St :=
  upd_prt (fun p => p <| PartnerOper ::= fun i => i <| State ::= f |> |>).
Definition upd_partner_admin_state (f : Z -> Z) : St -> St :=
  upd_prt (fun p => p <| partnerAdmin ::= fun i => i <| State ::= f |> |>).

(** The state of a machine, [None] for a nil pointer. *)
Definition mux_cur (st : St) : option Z := CurrentState <$> get_muxm st.
Definition pcd_cur (st : St) : option Z := CurrentState <$> get_pcdm st.

Definition mux_in (test : Z -> bool) (st : St) : bool :=
  match mux_cur st with Some cur => test cur | None => false end.

Definition rx_send_mux (code : Z) : St -> exec St := send_muxm (evt code RxMachineModuleStr).
Definition rx_send_ptx (code : Z) : St -> exec St := send_ptxm (evt code RxMachineModuleStr).

Definition select_unselected (st : St) : St :=
  upd_prt (fun p => p <| aggSelected := LacpAggUnSelected |>) st.

(** ** Selection ([selection.go]) *)

(** The mux goroutine takes the events queued so far. *)
Fixpoint serve_mux (n : nat) (st : St) : exec St :=
  match n with
  | O => Ok st
  | S n => let! st := LacpMuxMachineMain st in serve_mux n st
  end.

Definition mux_queue (st : St) : nat :=
  match MuxMachineFsm (prt st) with Some m => length (MuxmEvents m) | None => 0 end.

(** [p.DistributeMachineEvents] with one event, for the mux machine, waiting
    for the response. *)
Definition ask_mux (code : Z) (st : St) : exec St :=
  let! st := send_muxm {| ev_E := code; ev_Src := PortConfigModuleStr; ev_ResponseChan := true |} st in
  serve_mux (mux_queue st) st.

Definition checkConfigForSelection (st : St) : exec (St * bool) :=
  let p := prt st in
  match (if port_AggId p =? 0 then None else LaFindAggById st (port_AggId p)) with
  | None => Ok (st, false)
  | Some r =>
      let! a := of_option (AggHeap st !! r) in
      match mux_cur st with
      | None => Ok (st, false)
      | Some cur =>
          if is_detached cur && (Key (ActorOper p) =? ActorOperKey a) &&
             (bool_decide (port_DrniName p = EmptyString) || DrniSynced p)
          then
            let st := upd_prt (fun p => p <| aggSelected := LacpAggSelected |>) st in
            let st := upd_actor_state (LacpStateSet LacpStateAggregationBit) st in
            let! st := ask_mux LacpMuxmEventSelectedEqualSelected st in
            Ok (st, true)
          else if negb (is_detached cur) then
            let! st := ask_mux LacpMuxmEventSelectedEqualUnselected (select_unselected st) in
            Ok (st, false)
          else Ok (st, false)
      end
  end.

(** The mux is told unless it waits: its timer will find the port unselected. *)
Definition unselect_unless_waiting (st : St) : exec St :=
  if mux_in (fun cur => negb (is_waiting cur)) st
  then rx_send_mux LacpMuxmEventSelectedEqualUnselected (select_unselected st)
  else Ok st.

Definition updateSelected (pdu : LACP) (st : St) : exec St :=
  let p := prt st in
  if negb (LacpLacpPktPortInfoIsEqual (pkt_Actor pdu) (PartnerOper p) LacpStateAggregationBit) &&
     (aggSelected p =? LacpAggSelected)
  then unselect_unless_waiting st
  else Ok st.

Definition updateDefaultSelected (st : St) : exec St :=
  let p := prt st in
  if negb (LacpLacpPortInfoIsEqual (partnerAdmin p) (PartnerOper p) LacpStateAggregationBit)
  then unselect_unless_waiting st
  else Ok st.

(** ** Recording ([rxmachine.go]) *)

Definition pcd_sync_on (st : St) : exec St :=
  match pcd_cur st with
  | Some _ => send_pcdm (evt LacpCdmEventPartnerOperPortStateSyncOn RxMachineModuleStr) st
  | None => Ok st
  end.

Definition recordDefault (st : St) : exec St :=
  let p := prt st in
  let! info := LacpCopyLacpPortInfo (partnerAdmin p) (PartnerOper p) in
  let st := upd_prt (fun p => p <| PartnerOper := info |>) st in
  let st := upd_actor_state (LacpStateSet LacpStateDefaultedBit) st in
  let! st :=
    if negb (LacpStateIsSet (State (PartnerOper (prt st))) LacpStateSyncBit)
    then pcd_sync_on (upd_partner_state (LacpStateSet LacpStateSyncBit) st)
    else Ok st in
  if mux_in is_attached st && (aggSelected (prt st) =? LacpAggSelected)
  then rx_send_mux LacpMuxmEventSelectedEqualSelectedAndPartnerSync st
  else Ok st.

(** Conditions (1), (2) and (3) of the comment of [recordPDU]. *)
Definition pdu_in_sync (pdu : LACP) (p : LaAggPort) : bool :=
  let actor := pkt_State (pkt_Actor pdu) in
  let partner := pkt_State (pkt_Partner pdu) in
  ((LacpLacpPktPortInfoIsEqual (pkt_Partner pdu) (ActorOper p) LacpStateAggregationBit &&
    LacpStateIsSet actor LacpStateSyncBit) ||
   (negb (LacpStateIsSet actor LacpStateAggregationBit) &&
    LacpStateIsSet actor LacpStateSyncBit)) &&
  (LacpStateIsSet actor LacpStateActivityBit ||
   (LacpStateIsSet (State (ActorOper p)) LacpStateActivityBit &&
    LacpStateIsSet partner LacpStateActivityBit)).

Definition collDist (cur : Z) : bool :=
  (cur =? LacpMuxmStateCollecting) || (cur =? LacpMuxmStateDistributing) ||
  (cur =? LacpMuxStateCCollectingDistributing).

Definition recordPDU (pdu : LACP) (st : St) : exec St :=
  let! info := LacpCopyLacpPortInfoFromPkt (pkt_Actor pdu) (PartnerOper (prt st)) in
  let st := upd_prt (fun p => p <| PartnerOper := info |>) st in
  let st := upd_actor_state (LacpStateClear LacpStateDefaultedBit) st in
  if pdu_in_sync pdu (prt st) then
    if negb (LacpStateIsSet (State (PartnerOper (prt st))) LacpStateSyncBit)
    then pcd_sync_on (upd_partner_state (LacpStateSet LacpStateSyncBit) st)
    else Ok st
  else
    if LacpStateIsSet (State (PartnerOper (prt st))) LacpStateSyncBit then
      let st := upd_partner_state (LacpStateClear LacpStateSyncBit) st in
      if mux_in collDist st then rx_send_mux LacpMuxmEventNotPartnerSync st else Ok st
    else Ok st.

Definition count_mismatch (st : St) : St :=
  upd_prt (fun p => p <| LacpCounter ::= fun c =>
             c <| AggPortStateMissMatchInfoRx ::= fun n => u64 (n + 1) |> |>)
    (emit (ProcessLacpPortPartnerInfoMismatch (i32 (PortNum (prt st)))) st).

(** A bit set on one side and clear on the other. *)
Definition bit_differs (a b bit : Z) : bool :=
  (LacpStateIsSet a bit && negb (LacpStateIsSet b bit)) ||
  (negb (LacpStateIsSet a bit) && LacpStateIsSet b bit).

Definition updateNTT (pdu : LACP) (st : St) : St * bool :=
  let p := prt st in
  let nttStateCompare := Z.lor LacpStateAggregationBit LacpStateSyncBit in
  let seen := pkt_State (pkt_Partner pdu) in
  let mine := State (ActorOper p) in
  if negb (LacpLacpPktPortInfoIsEqual (pkt_Partner pdu) (ActorOper p) nttStateCompare)
  then (count_mismatch st, true)
  else if bit_differs seen mine LacpStateTimeoutBit || bit_differs seen mine LacpStateActivityBit
  then (count_mismatch st, true)
  else (st, false).

Definition CheckPortMoved (PartnerOper : LacpPortInfo) (pktActor : LACPPortInfo) (st : St)
  : exec bool :=
  let! cur := state_of (get_rxm st) in
  Ok ((cur =? LacpRxmStatePortDisabled) && (port PartnerOper =? pkt_Port pktActor) &&
      bool_decide (Actor_System (System PartnerOper) = pkt_SystemId pktActor) &&
      (Actor_System_priority (System PartnerOper) =? pkt_SystemPriority pktActor)).

(** ** What the other machines are told after a PDU *)

Definition inform_mux (st : St) : exec St :=
  let partner := State (PartnerOper (prt st)) in
  if LacpStateIsSet partner LacpStateSyncBit then
    if aggSelected (prt st) =? LacpAggSelected then
      if mux_in is_attached st
      then rx_send_mux LacpMuxmEventSelectedEqualSelectedAndPartnerSync st
      else if mux_in (Z.eqb LacpMuxmStateCollecting) st
      then rx_send_mux LacpMuxmEventSelectedEqualSelectedPartnerSyncCollecting st
      else Ok st
    else Ok st
  else if mux_in (fun cur => (cur =? LacpMuxmStateDistributing) ||
                             (cur =? LacpMuxmStateCollecting)) st
  then rx_send_mux LacpMuxmEventNotPartnerSync st
  else if negb (LacpStateIsSet partner LacpStateCollectingBit) &&
          mux_in (Z.eqb LacpMuxmStateDistributing) st
  then rx_send_mux LacpMuxmEventNotPartnerCollecting st
  else Ok st.

(** The transmit machine's state is compared with the constant NO PERIODIC of
    the periodic machine. *)
Definition inform_ptx (st : St) : exec St :=
  let p := prt st in
  let actor := State (ActorOper p) in
  let partner := State (PartnerOper p) in
  let! tx_state := state_of (get_txm st) in
  let! ptxm := of_option (PtxMachineFsm p) in
  let! st :=
    if (tx_state =? LacpPtxmStateNoPeriodic) && begin p && lacpEnabled p &&
       LacpStateIsSet partner LacpStateActivityBit
    then rx_send_ptx LacpPtxmEventUnconditionalFallthrough st
    else if LacpStateIsSet partner LacpStateTimeoutBit &&
            (PeriodicTxTimerInterval ptxm =? LacpSlowPeriodicTime)
    then rx_send_ptx LacpPtxmEventPartnerOperStateTimeoutShort st
    else if negb (LacpStateIsSet partner LacpStateTimeoutBit) &&
            (PeriodicTxTimerInterval ptxm =? LacpFastPeriodicTime)
    then rx_send_ptx LacpPtxmEventPartnerOperStateTimeoutLong st
    else Ok st in
  if negb (LacpStateIsSet actor LacpStateActivityBit) &&
     negb (LacpStateIsSet partner LacpStateActivityBit)
  then rx_send_ptx LacpPtxmEventActorPartnerOperActivityPassiveMode st
  else Ok st.

Definition InformMachinesOfStateChanges (st : St) : exec St :=
  let p := prt st in
  if bool_decide (is_Some (MuxMachineFsm p)) && bool_decide (is_Some (PtxMachineFsm p)) &&
     bool_decide (is_Some (TxMachineFsm p))
  then
    let! st :=
      if mux_in is_detached st
      then let! (st, _) := checkConfigForSelection st in Ok st
      else Ok st in
    let! st := inform_mux st in
    inform_ptx st
  else Ok st.

(** ** Callbacks *)

Definition set_timeout_if_invalid (start : bool) (st : St) : exec St :=
  let! v := CurrentWhileTimerValid st in
  Ok (match v with
      | Some timeoutTime =>
          let st := upd_rxm (CurrentWhileTimerTimeoutSet timeoutTime) st in
          if start then upd_rxm CurrentWhileTimerStart st else st
      | None => st
      end).

Definition unselect_unless_detached (st : St) : exec St :=
  let st := select_unselected st in
  if mux_in (fun cur => negb (is_detached cur)) st
  then rx_send_mux LacpMuxmEventSelectedEqualUnselected st
  else Ok st.

Definition LacpRxMachineInitialize (st : St) : exec (St * Z) :=
  let! st := set_timeout_if_invalid true st in
  let st := upd_partner_state (LacpStateSet (State (partnerAdmin (prt st)))) st in
  let! st := unselect_unless_detached st in
  let! st := recordDefault st in
  let st := upd_actor_state (LacpStateClear LacpStateExpiredBit) st in
  let st := upd_prt (fun p => p <| portMoved := false |>) st in
  Ok (st, LacpRxmStateInitialize).

Definition pcd_sync_off (st : St) : exec St :=
  if bool_decide (pcd_cur st = Some LacpCdmStateNoPartnerChurn)
  then send_pcdm (evt LacpCdmEventPartnerOperPortStateSyncOff RxMachineModuleStr) st
  else Ok st.

Definition LacpRxMachinePortDisabled (st : St) : exec (St * Z) :=
  let st := upd_partner_state (LacpStateClear LacpStateSyncBit) st in
  let! st := pcd_sync_off st in
  let! st := if mux_in (fun cur => (cur =? LacpMuxmStateDistributing) ||
                                   (cur =? LacpMuxmStateCollecting) ||
                                   (cur =? LacpMuxStateCCollectingDistributing)) st
             then rx_send_mux LacpMuxmEventNotPartnerSync st
             else Ok st in
  Ok (st, LacpRxmStatePortDisabled).

Definition LacpRxMachineExpired (st : St) : exec (St * Z) :=
  let st := upd_partner_state (LacpStateClear LacpStateSyncBit) st in
  let! st := pcd_sync_off st in
  let! st := if mux_in (fun _ => true) st then rx_send_mux LacpMuxmEventNotPartnerSync st
             else Ok st in
  let st := upd_partner_state (LacpStateSet LacpStateTimeoutBit) st in
  let st := upd_rxm (CurrentWhileTimerTimeoutSet LacpShortTimeoutTime) st in
  let st := upd_rxm CurrentWhileTimerStart st in
  let st := upd_actor_state (LacpStateSet LacpStateExpiredBit) st in
  Ok (st, LacpRxmStateExpired).

Definition LacpRxMachineLacpDisabled (st : St) : exec (St * Z) :=
  let st := upd_rxm CurrentWhileTimerStop st in
  let! st := unselect_unless_detached st in
  let! st := recordDefault st in
  let st := upd_partner_state (LacpStateClear LacpStateAggregationBit) st in
  let st := upd_actor_state (LacpStateClear LacpStateExpiredBit) st in
  Ok (st, LacpRxmStateLacpDisabled).

Definition LacpRxMachineDefaulted (st : St) : exec (St * Z) :=
  let! st := updateDefaultSelected st in
  let! st := recordDefault st in
  let st := upd_actor_state (LacpStateClear LacpStateExpiredBit) st in
  let st := upd_partner_admin_state (LacpStateSet LacpStateAggregatibleUp) st in
  Ok (st, LacpRxmStateDefaulted).

Definition LacpRxMachineCurrent (pdu : LACP) (st : St) : exec (St * Z) :=
  let! st := updateSelected pdu st in
  let '(st, ntt) := updateNTT pdu st in
  let! st := recordPDU pdu st in
  let! st := set_timeout_if_invalid false st in
  let st := upd_rxm CurrentWhileTimerStart st in
  let st := upd_actor_state (LacpStateClear LacpStateExpiredBit) st in
  let! st := if ntt && bool_decide (is_Some (TxMachineFsm (prt st)))
             then send_txm (evt LacpTxmEventNtt RxMachineModuleStr) st
             else Ok st in
  let! st := InformMachinesOfStateChanges st in
  let st := upd_partner_admin_state (LacpStateSet LacpStateAggregatibleDown) st in
  Ok (st, LacpRxmStateCurrent).

(** A callback given nil where it expects a PDU panics. *)
Definition rx_callback (cb : RxCallback) (data : option LACP) (st : St) : exec (St * Z) :=
  match cb with
  | LacpRxMachineInitialize_cb => LacpRxMachineInitialize st
  | LacpRxMachinePortDisabled_cb => LacpRxMachinePortDisabled st
  | LacpRxMachineExpired_cb => LacpRxMachineExpired st
  | LacpRxMachineLacpDisabled_cb => LacpRxMachineLacpDisabled st
  | LacpRxMachineDefaulted_cb => LacpRxMachineDefaulted st
  | LacpRxMachineCurrent_cb =>
      let! pdu := of_option data in LacpRxMachineCurrent pdu st
  end.

(** ** The rule table and the machine *)

Definition rx_rules : list (Z * Z * RxCallback) :=
  [
    (* BEGIN -> INIT *)
    (LacpRxmStateNone, LacpRxmEventBegin,
     LacpRxMachineInitialize_cb);
    (LacpRxmStatePortDisabled, LacpRxmEventBegin,
     LacpRxMachineInitialize_cb);
    (LacpRxmStateExpired, LacpRxmEventBegin,
     LacpRxMachineInitialize_cb);
    (LacpRxmStateLacpDisabled, LacpRxmEventBegin,
     LacpRxMachineInitialize_cb);
    (LacpRxmStateDefaulted, LacpRxmEventBegin,
     LacpRxMachineInitialize_cb);
    (LacpRxmStateCurrent, LacpRxmEventBegin,
     LacpRxMachineInitialize_cb);
    (* INIT -> PORT_DISABLE *)
    (LacpRxmStateInitialize, LacpRxmEventUnconditionalFallthrough,
     LacpRxMachinePortDisabled_cb);
    (* NOT PORT ENABLED  && NOT PORT MOVED *)
    (LacpRxmStateInitialize, LacpRxmEventNotPortEnabledAndNotPortMoved,
     LacpRxMachinePortDisabled_cb);
    (LacpRxmStateExpired, LacpRxmEventNotPortEnabledAndNotPortMoved,
     LacpRxMachinePortDisabled_cb);
    (LacpRxmStateLacpDisabled, LacpRxmEventNotPortEnabledAndNotPortMoved,
     LacpRxMachinePortDisabled_cb);
    (LacpRxmStateDefaulted, LacpRxmEventNotPortEnabledAndNotPortMoved,
     LacpRxMachinePortDisabled_cb);
    (LacpRxmStateCurrent, LacpRxmEventNotPortEnabledAndNotPortMoved,
     LacpRxMachinePortDisabled_cb);
    (* PORT MOVED -> INIT *)
    (LacpRxmStatePortDisabled, LacpRxmEventPortMoved,
     LacpRxMachineInitialize_cb);
    (* PORT ENABLED && LACP ENABLED *)
    (LacpRxmStatePortDisabled, LacpRxmEventPortEnabledAndLacpEnabled,
     LacpRxMachineExpired_cb);
    (* PORT ENABLED && LACP DISABLED *)
    (LacpRxmStatePortDisabled, LacpRxmEventPortEnabledAndLacpDisabled,
     LacpRxMachineLacpDisabled_cb);
    (* CURRENT WHILE TIMER EXPIRED *)
    (LacpRxmStateExpired, LacpRxmEventCurrentWhileTimerExpired,
     LacpRxMachineDefaulted_cb);
    (LacpRxmStateCurrent, LacpRxmEventCurrentWhileTimerExpired,
     LacpRxMachineExpired_cb);
    (* LACP ENABLED *)
    (LacpRxmStateLacpDisabled, LacpRxmEventLacpEnabled,
     LacpRxMachinePortDisabled_cb);
    (* PKT RX *)
    (LacpRxmStateExpired, LacpRxmEventLacpPktRx,
     LacpRxMachineCurrent_cb);
    (LacpRxmStateDefaulted, LacpRxmEventLacpPktRx,
     LacpRxMachineCurrent_cb);
    (LacpRxmStateCurrent, LacpRxmEventLacpPktRx,
     LacpRxMachineCurrent_cb) ].

(** [currentWhileTimerTimeout] is not set: it starts at zero. *)
Definition NewLacpRxMachine : LacpRxMachine :=
  CurrentWhileTimerStop (CurrentWhileTimerStart
    {| rxm_PreviousState := LacpRxmStateNone; rxm_Machine := Apply (AddRules rx_rules);
       currentWhileTimerTimeout := 0; currentWhileTimer := None; RxmEvents := [];
       RxmPktRxEvent := [] |}).

Definition LacpRxMachineFSMBuild (st : St) : St :=
  upd_prt (fun p => p <| RxMachineFsm := Some NewLacpRxMachine |>) st.

Definition set_rxm (f : Machine RxCallback -> Machine RxCallback) : St -> St :=
  upd_rxm (fun m => m <| rxm_Machine ::= f |>).

Definition LacpRxMachineMain_start (st : St) : St :=
  set_rxm (Start LacpRxmStateNone) (LacpRxMachineFSMBuild st).

Definition rx_process (es : string) (ev : Z) (data : option LACP) (st : St)
  : exec (St * option FsmError) :=
  ProcessEvent get_rxm set_rxm rx_callback es ev data st.

(** ** The event loop *)

(** What the loop does in PORT DISABLED after an event. *)
Definition leave_port_disabled (st : St) : exec (St * option FsmError) :=
  let p := prt st in
  if lacpEnabled p && IsPortEnabled p
  then rx_process RxMachineModuleStr LacpRxmEventPortEnabledAndLacpEnabled None st
  else if negb (lacpEnabled p) && IsPortEnabled p
  then rx_process RxMachineModuleStr LacpRxmEventPortEnabledAndLacpDisabled None st
  else if portMoved p then rx_process RxMachineModuleStr LacpRxmEventPortMoved None st
  else Ok (st, None).

Definition rx_event (ev : MachineEvent) (st : St) : exec St :=
  let! (st, rv) := rx_process (ev_Src ev) (ev_E ev) None st in
  let! (st, rv) :=
    match rv with
    | Some _ => Ok (st, rv)
    | None =>
        let! cur := state_of (get_rxm st) in
        if cur =? LacpRxmStateInitialize
        then rx_process RxMachineModuleStr LacpRxmEventUnconditionalFallthrough None st
        else Ok (st, None)
    end in
  let! (st, _) :=
    match rv with
    | Some _ => Ok (st, rv)
    | None =>
        let! cur := state_of (get_rxm st) in
        if cur =? LacpRxmStatePortDisabled then leave_port_disabled st else Ok (st, None)
    end in
  Ok (respond RxMachineModuleStr ev st).

(** [currentWhileTimer] fires: a packet that waits is taken first. *)
Definition rx_timer (st : St) : exec St :=
  let st := upd_rxm CurrentWhileTimerStop st in
  let! rxm := of_option (RxMachineFsm (prt st)) in
  match RxmPktRxEvent rxm with
  | [] =>
      let! (st, _) := rx_process RxMachineModuleStr LacpRxmEventCurrentWhileTimerExpired None st in
      Ok st
  | _ :: _ => Ok st
  end.

(** One PDU received from [RxmPktRxEvent]. *)
Definition rx_pkt (pdu : LACP) (st : St) : exec St :=
  let st := upd_prt (fun p => p <| LacpCounter ::= fun c =>
              c <| AggPortStatsLACPDUsRx ::= fun n => u64 (n + 1) |> |>) st in
  let! moved := CheckPortMoved (PartnerOper (prt st)) (pkt_Actor pdu) st in
  let! (st, _) :=
    if moved : bool then
      rx_process RxModuleStr LacpRxmEventPortMoved None
        (upd_prt (fun p => p <| portMoved := true |>) st)
    else rx_process RxModuleStr LacpRxmEventLacpPktRx (Some pdu) st in
  Ok st.

(** A turn of the goroutine: [select] takes from either channel. *)
Definition LacpRxMachineMain (from_pkts : bool) (st : St) : exec St :=
  let! m := of_option (RxMachineFsm (prt st)) in
  let st := upd_prt (fun p => p <| AggPortDebug ::= fun d =>
              d <| AggPortDebugRxState := CurrentState (rxm_Machine m) |> |>) st in
  if from_pkts then
    match RxmPktRxEvent m with
    | [] => Ok st
    | pdu :: l => rx_pkt pdu (upd_rxm (fun m => m <| RxmPktRxEvent := l |>) st)
    end
  else
    match RxmEvents m with
    | [] => Ok st
    | ev :: l => rx_event ev (upd_rxm (fun m => m <| RxmEvents := l |>) st)
    end.

End LacpRx.
