(* ===== verification/LacpMain.v ===== *)
(** * LACP: the port operations that drive the machines ([port.go],
      [config.go])

    [DistributeMachineEvents] sends one event to each of several machines,
    from as many goroutines, and waits for their responses.  The model sends
    them in the order of the list and then lets each machine named serve its
    queue, in the same order; with nobody to wait for the caller waits for
    ever. *)

From S2P Require Import Prelude Fsm LacpDefs LacpPort LacpTx LacpPtx LacpCdm LacpMarker.
From S2P Require Import LacpMux LacpRx.

Section LacpMain.
Context `{!AsicD} `{!Layers}.

(** ** Distribution of events *)

Inductive Channel := ChRx | ChPtx | ChCd | ChPCd | ChMux | ChTx | ChMr.

#[export] Instance Channel_eq_dec : EqDecision Channel.
Proof. solve_decision. Defined.

Definition send_to (ch : Channel) (ev : MachineEvent) : St -> exec St :=
  match ch with
  | ChRx => send_rxm ev
  | ChPtx => send_ptxm ev
  | ChCd => send_cdm ev
  | ChPCd => send_pcdm ev
  | ChMux => send_muxm ev
  | ChTx => send_txm ev
  | ChMr => send_mr ev
  end.

(** One turn of the goroutine that reads the channel. *)
Definition turn (ch : Channel) : St -> exec St :=
  match ch with
  | ChRx => LacpRxMachineMain false
  | ChPtx => LacpPtxMachineMain
  | ChCd => LacpActorCdMachineMain
  | ChPCd => LacpPartnerCdMachineMain
  | ChMux => LacpMuxMachineMain
  | ChTx => LacpTxMachineMain
  | ChMr => LampMarkerResponderMain false
  end.

Definition queued {M} (events : M -> list MachineEvent) (m : option M) : nat :=
  match m with Some m => length (events m) | None => 0 end.

Definition queue_length (ch : Channel) (st : St) : nat :=
  let p := prt st in
  match ch with
  | ChRx => queued RxmEvents (RxMachineFsm p)
  | ChPtx => queued PtxmEvents (PtxMachineFsm p)
  | ChCd => queued CdmEvents (CdMachineFsm p)
  | ChPCd => queued CdmEvents (PCdMachineFsm p)
  | ChMux => queued MuxmEvents (MuxMachineFsm p)
  | ChTx => queued TxmEvents (TxMachineFsm p)
  | ChMr => queued LampMarkerResponderEvents (MarkerResponderFsm p)
  end.

Fixpoint turns (ch : Channel) (n : nat) (st : St) : exec St :=
  match n with
  | O => Ok st
  | S n => let! st := turn ch st in turns ch n st
  end.

Definition serve (ch : Channel) (st : St) : exec St := turns ch (queue_length ch st) st.

Definition DistributeMachineEvents (l : list (Channel * Z)) (waitForResponse : bool) (st : St)
  : exec St :=
  let! st := for_each (fun '(ch, code) =>
               send_to ch {| ev_E := code; ev_Src := PortConfigModuleStr;
                             ev_ResponseChan := waitForResponse |}) l st in
  if waitForResponse then
    if bool_decide (l = []) then Hang else for_each serve (remove_dups l.*1) st
  else Ok st.

(** ** [BEGIN] *)

Definition start_machines (st : St) : St :=
  let st := LacpMuxMachineMain_start st in
  let st := LacpPtxMachineMain_start st in
  let st := LacpActorCdMachineMain_start st in
  let st := LacpPartnerCdMachineMain_start st in
  let st := LacpRxMachineMain_start st in
  let st := LacpTxMachineMain_start st in
  LampMarkerResponderMain_start st.

Definition when {M} (m : option M) (x : Channel * Z) : list (Channel * Z) :=
  match m with Some _ => [x] | None => [] end.

Definition begin_events (p : LaAggPort) : list (Channel * Z) :=
  when (RxMachineFsm p) (ChRx, LacpRxmEventBegin) ++
  when (PtxMachineFsm p) (ChPtx, LacpPtxmEventBegin) ++
  when (CdMachineFsm p) (ChCd, LacpCdmEventBegin) ++
  when (PCdMachineFsm p) (ChPCd, LacpCdmEventBegin) ++
  when (MuxMachineFsm p) (ChMux, LacpMuxmEventBegin) ++
  when (TxMachineFsm p) (ChTx, LacpTxmEventBegin) ++
  when (MarkerResponderFsm p) (ChMr, LampMarkerResponderEventBegin).

Definition BEGIN (restart : bool) (st : St) : exec St :=
  let st := upd_prt (fun p => p <| begin := true |>) st in
  let st := if restart then st else start_machines st in
  DistributeMachineEvents (begin_events (prt st)) true st.

(** ** Port and LACP going up and down *)

(** A channel taken from a nil machine pointer panics. *)
Definition need {M} (m : option M) : exec unit := let! _ := of_option m in Ok tt.

Definition LaAggPortDisable (st : St) : exec St :=
  let st := upd_prt (fun p => p <| PortEnabled := false |>) st in
  let p := prt st in
  let! _ := if portMoved p then Ok tt else need (RxMachineFsm p) in
  let! _ := need (PtxMachineFsm p) in
  let! _ := need (CdMachineFsm p) in
  let! _ := need (PCdMachineFsm p) in
  let! _ := if lacpEnabled p then need (TxMachineFsm p) else Ok tt in
  DistributeMachineEvents
    ((if portMoved p then [] else [(ChRx, LacpRxmEventNotPortEnabledAndNotPortMoved)]) ++
     [(ChPtx, LacpPtxmEventNotPortEnabled); (ChCd, LacpCdmEventNotPortEnabled);
      (ChPCd, LacpCdmEventNotPortEnabled)] ++
     (if lacpEnabled p then [(ChTx, LacpTxmEventLacpDisabled)] else [])) true st.

(** The partner's synchronisation event goes to the channel of the actor's
    churn machine. *)
Definition LaAggPortEnabled (st : St) : exec St :=
  let st := upd_prt (fun p => p <| PortEnabled := true |>) st in
  let p := prt st in
  let! rx_state := state_of (get_rxm st) in
  let rx := if rx_state =? LacpRxmStatePortDisabled
            then [(ChRx, if lacpEnabled p then LacpRxmEventPortEnabledAndLacpEnabled
                         else LacpRxmEventPortEnabledAndLacpDisabled)]
            else [] in
  let! exit := LacpPtxIsNoPeriodicExitCondition st in
  let ptx := if exit : bool then [(ChPtx, LacpPtxmEventUnconditionalFallthrough)] else [] in
  let cd := if actor_sync st then [(ChCd, LacpCdmEventActorOperPortStateSyncOn)] else [] in
  let pcd := if partner_sync st then [(ChCd, LacpCdmEventPartnerOperPortStateSyncOn)] else [] in
  let tx := if lacpEnabled p then [(ChTx, LacpTxmEventLacpEnabled)] else [] in
  DistributeMachineEvents (rx ++ ptx ++ cd ++ pcd ++ tx) true st.

(** [LacpSysGlobalInfoByIdGet]: the entry is created when it is missing. *)
Definition LacpSysGlobalInfoInit (sysId : LacpSystem) (st : St) : St * LacpSysGlobalInfo :=
  match gLacpSysGlobalInfo st sysId with
  | Some g => (st, g)
  | None =>
      let g := {| SysKey := sysId; PortList := []; AggList := [];
                  ActorStateDefaultParams :=
                    zero_LacpPortInfo <| State ::= LacpStateSet LacpStateIndividual |>;
                  TxCallbacks := ∅ |} in
      (st <| gLacpSysGlobalInfoList ::= fun l => l ++ [g] |>, g)
  end.

Definition LaAggPortLacpDisable (st : St) : exec St :=
  let st := upd_prt (fun p => p <| lacpEnabled := false |>) st in
  let! st :=
    if PortEnabled (prt st) then
      let! rx_state := state_of (get_rxm st) in
      DistributeMachineEvents
        [(ChRx, if rx_state =? LacpRxmStatePortDisabled
                then LacpRxmEventPortEnabledAndLacpDisabled
                else LacpRxmEventNotPortEnabledAndNotPortMoved);
         (ChPtx, LacpPtxmEventLacpDisabled); (ChTx, LacpTxmEventLacpDisabled)] true st
    else Ok st in
  let! sysId := port_sysId st in
  let '(st, sgi) := LacpSysGlobalInfoInit sysId st in
  let dflt := State (ActorStateDefaultParams sgi) in
  Ok (upd_prt (fun p => p <| ActorAdmin ::= fun i => i <| State := dflt |> |>
                          <| ActorOper ::= fun i => i <| State := dflt |> |>) st).

Definition LaAggPortLacpEnabled (mode : Z) (st : St) : exec St :=
  let st := upd_prt (fun p => p <| lacpEnabled := true |>) st in
  let st := upd_prt (fun p => p <| ActorAdmin ::= fun i =>
              i <| State ::= LacpStateSet LacpStateAggregationBit |> |>) st in
  let st := upd_prt (fun p => p <| ActorAdmin ::= fun i =>
              i <| State ::= (if mode =? LacpModeActive then LacpStateSet LacpStateActivityBit
                              else LacpStateClear LacpStateActivityBit) |> |>) st in
  let p := prt st in
  if IsPortEnabled p && (aggSelected p =? LacpAggSelected) then
    let! rx_state := state_of (get_rxm st) in
    let rx := if rx_state =? LacpRxmStatePortDisabled
              then [(ChRx, LacpRxmEventPortEnabledAndLacpEnabled)]
              else if rx_state =? LacpRxmStateLacpDisabled
              then [(ChRx, LacpRxmEventLacpEnabled)]
              else [] in
    let! tx_state := state_of (get_txm st) in
    let tx := if tx_state =? LacpTxmStateOff then [(ChTx, LacpTxmEventLacpEnabled)] else [] in
    let! exit := LacpPtxIsNoPeriodicExitCondition st in
    let ptx := if exit : bool then [(ChPtx, LacpPtxmEventUnconditionalFallthrough)] else [] in
    DistributeMachineEvents (rx ++ tx ++ ptx) true st
  else Ok st.

(** ** Configuration of a running port *)

(** What [LaAggPortActorAdminInfoSet] and [LaAggPortActorOperInfoSet] do after
    changing the identifier. *)
Definition reselect_after_change (st : St) : exec St :=
  let st := select_unselected st in
  let p := prt st in
  if (ModeGet p =? LacpModeOn) || negb (lacpEnabled p) || negb (IsPortEnabled p) then Ok st
  else
    let st := upd_partner_state (LacpStateClear LacpStateSyncBit) st in
    let! (st, _) := checkConfigForSelection st in
    Ok st.

Definition LaAggPortActorAdminInfoSet (sysIdMac : Mac) (sysPrio : Z) (st : St) : exec St :=
  let sys := {| Actor_System_priority := sysPrio; Actor_System := sysIdMac |} in
  let st := upd_prt (fun p => p <| ActorAdmin ::= fun i => i <| System := sys |> |>) st in
  let st := if bool_decide (port_DrniName (prt st) = EmptyString)
            then upd_prt (fun p => p <| ActorOper ::= fun i => i <| System := sys |> |>) st
            else st in
  reselect_after_change st.

Definition LaAggPortActorOperInfoSet (sysIdMac : Mac) (sysPrio : Z) (st : St) : exec St :=
  let sys := {| Actor_System_priority := sysPrio; Actor_System := sysIdMac |} in
  let st := upd_prt (fun p => p <| ActorOper ::= fun i => i <| System := sys |> |>) st in
  reselect_after_change st.

Definition IsPortOperStatusUp (st : St) : St * bool :=
  let ifindex := GetIfIndexFromName (PortConfigMap st) (IntfNum (prt st)) in
  let st := foldl (fun st client =>
              upd_prt (fun p => p <| LinkOperStatus :=
                         GetPortLinkStatus (Effects st) client ifindex |>) st)
              st AsicDPluginList in
  (st, LinkOperStatus (prt st)).

(** [SetLaAggPortLacpMode] on the port it finds. *)
Definition SetLaAggPortLacpMode_port (mode : Z) (st : St) : exec St :=
  let prevMode := ModeGet (prt st) in
  if mode =? prevMode then Ok st
  else if mode =? LacpModeOn then
    let! st := LaAggPortLacpDisable st in
    let! st := BEGIN true st in
    let! (st, _) := checkConfigForSelection st in
    Ok st
  else if prevMode =? LacpModeOn then LaAggPortLacpEnabled mode st
  else
    let upd f st :=
      upd_actor_state f (upd_prt (fun p => p <| ActorAdmin ::= fun i => i <| State ::= f |> |>) st) in
    let! st :=
      if mode =? LacpModeActive then
        send_ptxm (evt LacpPtxmEventUnconditionalFallthrough PortConfigModuleStr)
          (upd (LacpStateSet LacpStateActivityBit) st)
      else
        let st := upd (LacpStateClear LacpStateActivityBit) st in
        if negb (LacpStateIsSet (State (PartnerOper (prt st))) LacpStateActivityBit)
        then send_ptxm (evt LacpPtxmEventActorPartnerOperActivityPassiveMode PortConfigModuleStr) st
        else Ok st in
    send_txm (evt LacpTxmEventNtt PortConfigModuleStr) st.

(** The configuration calls that do nothing when the port is not found. *)
Definition at_port_id (pId : Z) (f : St -> exec St) (st : St) : exec St :=
  match LaFindPortById st pId with
  | Some r => on_port r f st
  | None => Ok st
  end.

(** When no port is found the message is logged through the nil port. *)
Definition SetLaAggPortLacpMode (pId mode : Z) (st : St) : exec St :=
  match LaFindPortById st pId with
  | Some r => on_port r (SetLaAggPortLacpMode_port mode) st
  | None => Panic
  end.

Definition SetLaAggPortLacpPeriod (pId period : Z) (st : St) : exec St :=
  at_port_id pId (fun st =>
    let f := if period =? LacpFastPeriodicTime then LacpStateSet LacpStateTimeoutBit
             else LacpStateClear LacpStateTimeoutBit in
    let st := upd_prt (fun p => p <| ActorAdmin ::= fun i => i <| State ::= f |> |>) st in
    let st := upd_actor_state f st in
    let! st := set_timeout_if_invalid true st in
    send_txm (evt LacpTxmEventNtt PortConfigModuleStr) st) st.

Definition DisableLaAggPort (pId : Z) (st : St) : exec St := at_port_id pId LaAggPortDisable st.

(** [LaAggPortNumListPortIdExist]. *)
Definition LaFindAggByKey (st : St) (key : Z) : option ref :=
  List.find (fun r => match AggHeap st !! r with
                      | Some a => ActorAdminKey a =? key
                      | None => false
                      end) (all_aggs st).

Definition LaAggPortNumListPortIdExist (st : St) (key pId : Z) : bool :=
  match LaFindAggByKey st key ≫= fun r => AggHeap st !! r with
  | Some a => existsb (Z.eqb pId) (PortNumList a)
  | None => false
  end.

Definition EnableLaAggPort (pId : Z) (st : St) : exec St :=
  at_port_id pId (fun st =>
    if LaAggPortNumListPortIdExist st (port_Key (prt st)) pId then
      let! st := LaAggPortEnabled st in
      let p := prt st in
      let DrniEnabled := (negb (bool_decide (port_DrniName p = EmptyString)) && DrniSynced p) ||
                         bool_decide (port_DrniName p = EmptyString) in
      if DrniEnabled && IsPortEnabled p && (aggSelected p =? LacpAggUnSelected) then
        let! (st, _) := checkConfigForSelection st in Ok st
      else Ok st
    else Ok st) st.

End LacpMain.
