(* ===== verification/LacpBits.v ===== *)
(** * LACP: laws of the state octet

    [LacpStateSet], [LacpStateClear] and [LacpStateIsSet] on the eight flags
    of an actor or partner state, and of the comparison and copy of port
    information. *)

From S2P Require Import Prelude LacpDefs.

(** ** One flag at a time *)

(** The octet with the flag of weight [2 ^ k]. *)
Lemma IsSet_testbit a k : 0 <= k -> LacpStateIsSet a (2 ^ k) = Z.testbit a k.
Proof.
  intros Hk. unfold LacpStateIsSet.
  assert (E : Z.land a (2 ^ k) = if Z.testbit a k then 2 ^ k else 0).
  { apply Z.bits_inj'. intros i Hi. rewrite Z.land_spec, Z.pow2_bits_eqb by done.
    destruct (Z.eqb_spec k i) as [->|Hne].
    - destruct (Z.testbit a i) eqn:Ea; [by rewrite Z.pow2_bits_true | by rewrite Z.bits_0].
    - rewrite andb_false_r. destruct (Z.testbit a k); [|by rewrite Z.bits_0].
      by rewrite Z.pow2_bits_false. }
  rewrite E. destruct (Z.testbit a k); [apply Z.eqb_refl|].
  apply Z.eqb_neq. pose proof (Z.pow_pos_nonneg 2 k). lia.
Qed.

Lemma IsSet_Set a b k : 0 <= k ->
  LacpStateIsSet (LacpStateSet b a) (2 ^ k) = LacpStateIsSet a (2 ^ k) || Z.testbit b k.
Proof. intros. unfold LacpStateSet. by rewrite !IsSet_testbit, Z.lor_spec. Qed.

Lemma IsSet_Clear a b k : 0 <= k < 8 ->
  LacpStateIsSet (LacpStateClear b a) (2 ^ k) = LacpStateIsSet a (2 ^ k) && negb (Z.testbit b k).
Proof.
  intros. unfold LacpStateClear. rewrite !IsSet_testbit, Z.land_spec, Z.lxor_spec by lia.
  change 255 with (Z.ones 8). rewrite Z.ones_spec_low by lia. by rewrite xorb_true_l.
Qed.

Lemma Set_range a b : is_u8 a -> is_u8 b -> is_u8 (LacpStateSet b a).
Proof.
  unfold LacpStateSet. intros Ha Hb.
  replace (Z.lor a b) with (u8 (Z.lor a b)); [apply u8_range|].
  unfold u8. rewrite <- Z.land_ones, Z.land_lor_distr_l, !Z.land_ones by lia.
  unfold is_u8 in *. by rewrite !Z.mod_small.
Qed.

Lemma Clear_range a b : is_u8 a -> is_u8 b -> is_u8 (LacpStateClear b a).
Proof.
  unfold LacpStateClear. intros Ha _.
  replace (Z.land a (Z.lxor 255 b)) with (u8 (Z.land a (Z.lxor 255 b))); [apply u8_range|].
  unfold u8. rewrite <- Z.land_ones, <- Z.land_assoc, (Z.land_comm (Z.lxor _ _)), Z.land_assoc by lia.
  rewrite Z.land_ones by lia. unfold is_u8 in *. by rewrite Z.mod_small.
Qed.

#[export] Hint Resolve Set_range Clear_range : go.

Ltac bit_octet := vm_compute; split; [discriminate | reflexivity].

(** C29: on the octets a port keeps its state in, setting and clearing flags
    stays within eight bits, sets or clears exactly the flags named, and leaves
    every other flag as it was. *)
Theorem lacp_state_flags a b k :
  is_u8 a -> is_u8 b -> 0 <= k < 8 ->
  is_u8 (LacpStateSet b a) /\ is_u8 (LacpStateClear b a) /\
  LacpStateIsSet (LacpStateSet b a) (2 ^ k) =
    (LacpStateIsSet a (2 ^ k) || LacpStateIsSet b (2 ^ k)) /\
  LacpStateIsSet (LacpStateClear b a) (2 ^ k) =
    (LacpStateIsSet a (2 ^ k) && negb (LacpStateIsSet b (2 ^ k))).
Proof.
  intros Ha Hb Hk. split; [auto with go|]. split; [auto with go|].
  rewrite IsSet_Set, IsSet_Clear, (IsSet_testbit b) by lia. done.
Qed.

Lemma lacp_state_flags_witness :
  LacpStateIsSet (LacpStateClear LacpStateExpiredBit LacpStateAggregatibleUp) (2 ^ 3) = true.
Proof.
  rewrite (proj2 (proj2 (proj2 (lacp_state_flags LacpStateAggregatibleUp LacpStateExpiredBit 3
    ltac:(bit_octet) ltac:(bit_octet) ltac:(lia))))).
  vm_compute. reflexivity.
Defined.

(** ** Port information *)

Lemma convert_roundtrip m :
  convertNetHwAddressToSysIdKey (convertSysIdKeyToNetHwAddress m) = Ok m.
Proof. by destruct m. Qed.

(** Copying cannot panic and copies every field. *)
Lemma LacpCopyLacpPortInfo_eq from to : LacpCopyLacpPortInfo from to = Ok from.
Proof. destruct from as [[? []] ? ? ? ?], to as [[] ? ? ? ?]. done. Qed.

Definition info_of_pkt (i : LACPPortInfo) : LacpPortInfo :=
  {| System := {| Actor_System_priority := pkt_SystemPriority i; Actor_System := pkt_SystemId i |};
     Key := pkt_Key i; Port_pri := pkt_PortPri i; port := pkt_Port i; State := pkt_State i |}.

Lemma LacpCopyLacpPortInfoFromPkt_eq from to :
  LacpCopyLacpPortInfoFromPkt from to = Ok (info_of_pkt from).
Proof. destruct from as [[] ? ? ? ? ?], to as [[] ? ? ? ?]. done. Qed.

(** Same system, key, port and port priority. *)
Definition same_port (a b : LacpPortInfo) : Prop :=
  System a = System b /\ Key a = Key b /\ Port_pri a = Port_pri b /\ port a = port b.

Lemma LacpLacpPortInfoIsEqual_true a b bits :
  LacpLacpPortInfoIsEqual a b bits = true <->
  same_port a b /\ LacpStateIsSet (State a) bits = true /\ LacpStateIsSet (State b) bits = true.
Proof.
  unfold LacpLacpPortInfoIsEqual, same_port.
  rewrite !andb_true_iff, bool_decide_eq_true, !Z.eqb_eq.
  destruct a as [[] ? ? ? ?], b as [[] ? ? ? ?]. cbn. intuition congruence.
Qed.

Lemma LacpLacpPktPortInfoIsEqual_true a b bits :
  LacpLacpPktPortInfoIsEqual a b bits = true <->
  same_port (info_of_pkt a) b /\
  LacpStateIsSet (pkt_State a) bits = true /\ LacpStateIsSet (State b) bits = true.
Proof.
  unfold LacpLacpPktPortInfoIsEqual, same_port, info_of_pkt.
  rewrite !andb_true_iff, bool_decide_eq_true, !Z.eqb_eq.
  destruct a, b as [[] ? ? ? ?]. cbn. intuition congruence.
Qed.
