(* ===== verification/LacpTxProofs.v ===== *)
(** * LACP: the transmit machine keeps its rate

    Whatever the order of requests, at most three PDUs leave between two
    expiries of the guard timer, and no request is lost: each one is sent,
    counted as pending, or queued again. *)

From S2P Require Import Prelude Fsm LacpDefs LacpPort LacpTx.

Section TxProofs.
Context `{!Layers}.

(** ** What a step of the machine leaves alone *)

Record tx_frame (st st' : St) : Prop := {
  fr_self : self st' = self st;
  fr_rest : rest st' = rest st;
  fr_heap : AggHeap st' = AggHeap st;
  fr_glob : gLacpSysGlobalInfoList st' = gLacpSysGlobalInfoList st;
  fr_aggid : port_AggId (prt st') = port_AggId (prt st);
  fr_intf : IntfNum (prt st') = IntfNum (prt st)
}.

Lemma tx_frame_refl st : tx_frame st st.
Proof. by constructor. Qed.

Lemma tx_frame_trans st1 st2 st3 : tx_frame st1 st2 -> tx_frame st2 st3 -> tx_frame st1 st3.
Proof. intros [] []. constructor; congruence. Qed.

Lemma tx_frame_txm f st : tx_frame st (upd_txm f st).
Proof. by constructor. Qed.

Lemma tx_frame_counter f st :
  tx_frame st (upd_prt (fun p => p <| LacpCounter ::= f |>) st).
Proof. by constructor. Qed.

Lemma tx_frame_emit x st : tx_frame st (emit x st).
Proof. by constructor. Qed.

Lemma callbacks_frame st st' :
  tx_frame st st' -> LaSysGlobalTxCallbackListGet st' = LaSysGlobalTxCallbackListGet st.
Proof.
  intros [H1 H2 H3 H4 H5 H6].
  unfold LaSysGlobalTxCallbackListGet, port_sysId, LaFindAggById, all_aggs, gLacpSysGlobalInfo.
  by rewrite H3, H4, H5, H6.
Qed.

(** ** Counting *)

(** The number of LACPDUs handed to a transmit callback so far. *)
Definition is_tx (x : Effect) : bool := match x with TxLacp _ _ _ => true | _ => false end.
Definition sent (st : St) : Z := len (List.filter is_tx (Effects st)).

Lemma sent_emit x st : sent (emit x st) = sent st + (if is_tx x then 1 else 0).
Proof.
  unfold sent, emit. simpl_get. rewrite List.filter_app, len_app. f_equal.
  by cbn; destruct (is_tx x).
Qed.

Lemma sent_upd_prt f st : sent (upd_prt f st) = sent st.
Proof. done. Qed.

Lemma transmit_spec lacp cbs st :
  tx_frame st (transmit lacp cbs st) /\
  TxMachineFsm (prt (transmit lacp cbs st)) = TxMachineFsm (prt st) /\
  sent (transmit lacp cbs st) = sent st + len cbs.
Proof.
  revert st. induction cbs as [|c cbs IH]; intros st; cbn [transmit foldl].
  - split; [apply tx_frame_refl|]. split; [done|]. rewrite len_nil. lia.
  - destruct (IH (upd_prt (fun p => p <| LacpCounter ::= fun c =>
                      c <| AggPortStatsLACPDUsTx ::= fun n => u64 (n + 1) |> |>)
             (emit (TxLacp c (PortNum (prt st)) lacp) st))) as (Hf & Ht & Hs).
    split; [|split].
    + eapply tx_frame_trans; [|exact Hf].
      eapply tx_frame_trans; [apply tx_frame_emit|apply tx_frame_counter].
    + exact Ht.
    + etrans; [exact Hs|]. rewrite sent_upd_prt, sent_emit, len_cons. cbn. lia.
Qed.

(** ** The callbacks *)

(** The machine of a started transmit machine, with its rules. *)
Record tx_ready (st : St) (m : LacpTxMachine) : Prop := {
  tr_machine : TxMachineFsm (prt st) = Some m;
  tr_begin : Begin (txm_Machine m) = true;
  tr_rules : Rules (txm_Machine m) = AddRules tx_rules
}.

(** Requests not sent yet: pending ones and events in the queue. *)
Definition owed (m : LacpTxMachine) : Z := txPending m + len (TxmEvents m).

(** A step sends [x] PDUs through each of [n] callbacks; [req] requests came
    in with it. *)
Record tx_account (n x req : Z) (st st' : St) (m m' : LacpTxMachine) : Prop := {
  ta_frame : tx_frame st st';
  ta_sent : sent st' = sent st + n * x;
  ta_pkts : txPkts m' = txPkts m + x;
  ta_owed : owed m' + x = owed m + req
}.

Lemma On_spec st m cbs :
  TxMachineFsm (prt st) = Some m -> ntt m = true ->
  LaSysGlobalTxCallbackListGet st = Ok cbs ->
  exists st' m' x next,
    LacpTxMachineOn st = Ok (st', next) /\
    TxMachineFsm (prt st') = Some m' /\ txm_Machine m' = txm_Machine m /\
    tx_account (len cbs) x 1 st st' m m' /\
    x = (if txPkts m <? 3 then 1 else 0) /\
    next = (if txPkts m <? 3 then LacpTxmStateOn else LacpTxmStateDelayed).
Proof.
  intros Hm Hntt Hcb. unfold LacpTxMachineOn. rewrite Hm. cbn [of_option exec_bind].
  rewrite Hntt. destruct (Z.ltb_spec (txPkts m) 3).
  2: { eexists _, _, 0, _. split; [done|].
       split; [unfold upd_txm, upd_prt; simpl_get; rewrite Hm; done|].
       split; [done|]. split; [|done]. constructor; [| |simpl_rec; lia|unfold owed; simpl_rec; lia].
       - eapply tx_frame_trans; apply tx_frame_txm.
       - unfold sent, upd_txm, upd_prt. simpl_get. lia. }
  set (st1 := upd_txm (fun m0 => m0 <| txm_PreviousState := _ |>) st).
  set (st2 := if txPkts m =? 0 then upd_txm TxGuardTimerStart st1 else st1).
  set (st3 := upd_txm (fun m0 => m0 <| txPkts ::= fun n => n + 1 |>) st2).
  assert (H3 : tx_frame st st3 /\ sent st3 = sent st /\
               exists m3, TxMachineFsm (prt st3) = Some m3 /\ txm_Machine m3 = txm_Machine m /\
                 txPkts m3 = txPkts m + 1 /\ txPending m3 = txPending m /\
                 TxmEvents m3 = TxmEvents m).
  { subst st3 st2. destruct (txPkts m =? 0).
    - split; [eapply tx_frame_trans, tx_frame_txm; eapply tx_frame_trans; apply tx_frame_txm|].
      split; [done|]. subst st1. unfold upd_txm, upd_prt. simpl_get. rewrite Hm. eexists. by split_and!.
    - split; [eapply tx_frame_trans; apply tx_frame_txm|].
      split; [done|]. subst st1. unfold upd_txm, upd_prt. simpl_get. rewrite Hm. eexists. by split_and!. }
  clearbody st3. clear st1 st2. destruct H3 as (Hf3 & Hs3 & m3 & Hm3 & HM3 & Hp3 & Hpe3 & He3).
  rewrite (callbacks_frame _ _ Hf3), Hcb. cbn [exec_bind].
  destruct (transmit_spec (lacp_pdu (prt st3)) cbs st3) as (Hf4 & Hm4 & Hs4).
  set (st4 := transmit _ _ _) in *. clearbody st4. rewrite Hm3 in Hm4.
  assert (Hf : tx_frame st st4) by (eapply tx_frame_trans; eassumption).
  destruct (_ && _).
  - unfold send_txm, upd_txm, upd_prt. simpl_get. rewrite Hm4. cbn [fmap option_fmap option_map of_option exec_bind].
    eexists _, _, 1, _. split; [done|]. split; [simpl_get; rewrite Hm4; done|].
    split; [simpl_rec; done|]. split; [|done]. constructor.
    + destruct Hf. by constructor.
    + unfold sent in *. simpl_get. lia.
    + simpl_rec. lia.
    + unfold owed. simpl_rec. autorewrite with go_len. rewrite Hpe3, He3. lia.
  - eexists _, _, 1, _. split; [done|].
    split; [unfold upd_txm, upd_prt; simpl_get; rewrite Hm4; done|].
    split; [simpl_rec; done|]. split; [|done]. constructor.
    + destruct Hf. by constructor.
    + unfold sent, upd_txm, upd_prt in *. simpl_get. lia.
    + simpl_rec. lia.
    + unfold owed. simpl_rec. rewrite Hpe3, He3. lia.
Qed.

Lemma tx_set f st m :
  TxMachineFsm (prt st) = Some m ->
  TxMachineFsm (prt (set_txm f st)) = Some (m <| txm_Machine ::= f |>).
Proof. intros Hm. unfold set_txm, upd_txm, upd_prt. simpl_get. by rewrite Hm. Qed.

Lemma tx_get st m : TxMachineFsm (prt st) = Some m -> get_txm st = Some (txm_Machine m).
Proof. unfold get_txm. by intros ->. Qed.

(** The states in which a request is taken. *)
Definition tx_on (s : Z) : Prop :=
  s = LacpTxmStateOn \/ s = LacpTxmStateDelayed \/ s = LacpTxmStateGuardTimerExpire.

Lemma tx_rule m st ev cb :
  tx_ready st m -> first_rule tx_rules (CurrentState (txm_Machine m)) ev = cb ->
  Rules (txm_Machine m) !! (CurrentState (txm_Machine m), ev) = cb.
Proof. intros [_ _ ->] <-. apply AddRules_first. Qed.

(** Running a callback that keeps the machine part of the record. *)
Lemma tx_process_run es ev st m cb st1 m1 next :
  tx_ready st m -> first_rule tx_rules (CurrentState (txm_Machine m)) ev = Some cb ->
  tx_callback cb tt (set_txm (fun m => m <| Curr ::= SetEvent es ev |>) st) = Ok (st1, next) ->
  TxMachineFsm (prt st1) = Some m1 ->
  txm_Machine m1 = txm_Machine m <| Curr ::= SetEvent es ev |> ->
  tx_process es ev st = Ok (set_txm (fun m => m <| Curr ::= SetState next |>) st1, None) /\
  tx_ready (set_txm (fun m => m <| Curr ::= SetState next |>) st1)
    (m1 <| txm_Machine ::= fun m => m <| Curr ::= SetState next |> |>).
Proof.
  intros Hr Hrule Hcb Hm1 HM. pose proof Hr as [Hm Hb Hru]. split.
  - unfold tx_process.
    rewrite (ProcessEvent_run _ _ _ es ev tt st (txm_Machine m) cb);
      [by rewrite Hcb | by apply tx_get | done | by eapply tx_rule].
  - constructor; [by apply tx_set|..]; simpl_get; rewrite HM; simpl_get; done.
Qed.

Lemma tx_process_none es ev st m :
  tx_ready st m -> first_rule tx_rules (CurrentState (txm_Machine m)) ev = None ->
  tx_process es ev st = Ok (st, Some InvalidStateEvent).
Proof.
  intros Hr Hrule. pose proof Hr as [Hm Hb Hru]. unfold tx_process.
  apply (ProcessEvent_ignore _ _ _ es ev tt st (txm_Machine m));
    [by apply tx_get | done | by eapply tx_rule].
Qed.

Lemma CurrentState_set {CB} next (m : Machine CB) :
  CurrentState (m <| Curr ::= SetState next |>) = next.
Proof. done. Qed.

(** A request taken: sent at once while the window is open, else pending. *)
Lemma tx_process_ntt es st m cbs :
  tx_ready st m -> tx_on (CurrentState (txm_Machine m)) -> ntt m = true ->
  LaSysGlobalTxCallbackListGet st = Ok cbs ->
  exists st' m' x,
    tx_process es LacpTxmEventNtt st = Ok (st', None) /\ tx_ready st' m' /\
    tx_account (len cbs) x 1 st st' m m' /\ x = (if txPkts m <? 3 then 1 else 0) /\
    CurrentState (txm_Machine m') =
      (if txPkts m <? 3 then LacpTxmStateOn else LacpTxmStateDelayed).
Proof.
  intros Hr Hon Hntt Hcb. pose proof Hr as [Hm Hb Hru].
  set (st0 := set_txm (fun m => m <| Curr ::= SetEvent es LacpTxmEventNtt |>) st).
  destruct (On_spec st0 _ cbs (tx_set _ _ _ Hm)) as (st1 & m1 & x & next & Hrun & Hm1 & HM & Ha & Hx & Hn);
    [done | by rewrite (callbacks_frame st st0 (tx_frame_txm _ _)) |].
  edestruct (tx_process_run es LacpTxmEventNtt st m LacpTxMachineOn_cb st1 m1 next) as [Hp Hr'];
    [done | by destruct Hon as [-> | [-> | ->]] | done | done | done |].
  eexists _, _, x. split; [exact Hp|]. split; [exact Hr'|]. split; [|split; [exact Hx | exact Hn]].
  destruct Ha as [Hf Hs Hk Ho]. constructor.
  - eapply tx_frame_trans, tx_frame_txm. eapply tx_frame_trans, Hf. apply tx_frame_txm.
  - exact Hs.
  - exact Hk.
  - exact Ho.
Qed.

(** ** The loop that sends what was pending *)

Lemma force_pending_spec fuel st m cbs :
  tx_ready st m -> tx_on (CurrentState (txm_Machine m)) ->
  LaSysGlobalTxCallbackListGet st = Ok cbs ->
  0 <= txPkts m <= 3 -> 3 <= txPkts m + Z.of_nat fuel ->
  exists st' m' x,
    force_pending fuel st = Ok st' /\ tx_ready st' m' /\
    tx_account (len cbs) x 0 st st' m m' /\ 0 <= x /\ 0 <= txPkts m' <= 3 /\
    (0 < txPending m -> txPkts m < 3 -> 0 < x).
Proof.
  revert st m. induction fuel as [|fuel IH]; intros st m Hr Hon Hcb Hk Hfuel;
    pose proof Hr as [Hm Hb Hru]; cbn [force_pending]; rewrite Hm; cbn [of_option exec_bind];
    destruct (Z.ltb_spec 0 (txPending m)); destruct (Z.ltb_spec (txPkts m) 3); cbn [andb];
    try lia.
  all: lazymatch goal with
       | |- context [tx_process] => idtac
       | _ => exists st, m, 0; split; [done|]; split; [done|]; split; [|lia];
              constructor; [apply tx_frame_refl | lia..]
       end.
  set (st1 := upd_txm _ st).
  assert (Hr1 : tx_ready st1 (m <| txPending ::= fun n => n - 1 |> <| ntt := true |>)).
  { constructor; [|done|done]. unfold st1, upd_txm, upd_prt. simpl_get. by rewrite Hm. }
  assert (Hcb1 : LaSysGlobalTxCallbackListGet st1 = Ok cbs)
    by (by rewrite (callbacks_frame st st1 (tx_frame_txm _ _))).
  destruct (tx_process_ntt TxMachineModuleStr st1 _ cbs Hr1 Hon eq_refl Hcb1)
    as (st2 & m2 & x & -> & Hr2 & [Hf Hs Hp Ho] & Hx & Hst). cbn [exec_bind].
  unfold owed in Ho. change (x = (if txPkts m <? 3 then 1 else 0)) in Hx.
  change (txPkts m2 = txPkts m + x) in Hp.
  change (txPending m2 + len (TxmEvents m2) + x = txPending m - 1 + len (TxmEvents m) + 1) in Ho.
  destruct (Z.ltb_spec (txPkts m) 3); [|lia].
  destruct (IH st2 m2) as (st' & m' & y & Hrun & Hr' & [Hf' Hs' Hp' Ho'] & Hy & Hk' & _);
    [done | rewrite Hst; simpl_get; change (txPkts _) with (txPkts m);
            destruct (Z.ltb_spec (txPkts m) 3); [by left|lia]
    | by rewrite (callbacks_frame _ _ Hf) | lia | lia |].
  exists st', m', (x + y). split; [done|]. split; [done|]. split; [|lia].
  unfold owed in *. constructor; [|rewrite Z.mul_add_distr_l; change (sent st1) with (sent st) in Hs; lia|lia|unfold owed; lia].
  eapply tx_frame_trans, Hf'. eapply tx_frame_trans, Hf. apply tx_frame_txm.
Qed.

(** ** Events *)

Lemma respond_sent module ev st : sent (respond module ev st) = sent st.
Proof. unfold respond. destruct (ev_ResponseChan ev); [|done]. rewrite sent_emit. cbn. lia. Qed.

Lemma respond_frame module ev st : tx_frame st (respond module ev st).
Proof.
  unfold respond. destruct (ev_ResponseChan ev); [apply tx_frame_emit | apply tx_frame_refl].
Qed.

Lemma respond_ready module ev st m : tx_ready st m -> tx_ready (respond module ev st) m.
Proof. unfold respond. destruct (ev_ResponseChan ev); [|done]. intros []. by constructor. Qed.

(** What an event of a running machine may do: [x] PDUs per callback, and the
    window never holds more than three. *)
Record tx_bounded (n : Z) (reset : bool) (st st' : St) (m m' : LacpTxMachine) : Prop := {
  tb_frame : tx_frame st st';
  tb_ready : tx_ready st' m';
  tb_range : 0 <= txPkts m' <= 3;
  tb_sent : exists x, 0 <= x <= 3 /\ sent st' = sent st + n * x /\
            (reset = false -> txPkts m' = txPkts m + x)
}.

(** The events after which the window starts afresh. *)
Definition tx_resets (code : Z) : bool :=
  (code =? LacpTxmEventBegin) || (code =? LacpTxmEventLacpDisabled) ||
  (code =? LacpTxmEventGuardTimer).

Lemma On_quiet st m :
  TxMachineFsm (prt st) = Some m -> ntt m = false ->
  LacpTxMachineOn st =
    Ok (upd_txm (fun m0 => m0 <| txm_PreviousState := CurrentState (txm_Machine m) |>) st,
        LacpTxmStateOn).
Proof. intros Hm Hn. unfold LacpTxMachineOn. rewrite Hm. cbn [of_option exec_bind]. by rewrite Hn. Qed.

Record tx_cb_spec (n : Z) (cb : TxCallbackName) (next x : Z) (st st' : St)
    (m m' : LacpTxMachine) : Prop := {
  tc_frame : tx_frame st st';
  tc_machine : TxMachineFsm (prt st') = Some m';
  tc_x : 0 <= x <= 1;
  tc_sent : sent st' = sent st + n * x;
  tc_pkts : txPkts m' = (match cb with
                         | LacpTxMachineOn_cb | LacpTxMachineDelayed_cb => txPkts m + x
                         | _ => 0 end);
  tc_window : txPkts m <= 3 -> txPkts m' <= 3;
  tc_next : cb = LacpTxMachineGuard_cb \/ next <> LacpTxmStateGuardTimerExpire;
  tc_guard : cb = LacpTxMachineGuard_cb ->
             x = 0 /\ owed m' = owed m /\ txPending m' = txPending m /\ tx_on next /\
             (next = LacpTxmStateGuardTimerExpire <-> 0 < txPending m)
}.

Lemma tx_callback_spec cb st m cbs :
  TxMachineFsm (prt st) = Some m -> LaSysGlobalTxCallbackListGet st = Ok cbs ->
  exists st' m' x next,
    tx_callback cb tt st = Ok (st', next) /\ txm_Machine m' = txm_Machine m /\
    tx_cb_spec (len cbs) cb next x st st' m m'.
Proof.
  intros Hm Hcb. destruct cb; cbn [tx_callback].
  - destruct (ntt m) eqn:Hn.
    + destruct (On_spec st m cbs) as (st' & m' & x & next & -> & Hm' & HM & [] & Hx & ->); [done..|].
      exists st', m', x, (if txPkts m <? 3 then LacpTxmStateOn else LacpTxmStateDelayed).
      split; [done|]. split; [done|].
      destruct (Z.ltb_spec (txPkts m) 3); constructor; try done; try lia; right; discriminate.
    + rewrite (On_quiet st m) by done. eexists _, (m <| txm_PreviousState := CurrentState (txm_Machine m) |>), 0, _. split; [done|]. split; [done|].
      constructor; [apply tx_frame_txm | unfold upd_txm, upd_prt; simpl_get; rewrite Hm; done
                   | lia | unfold sent, upd_txm, upd_prt; simpl_get; lia
                   | simpl_rec; lia | simpl_rec; lia | right; discriminate | discriminate].
  - unfold LacpTxMachineDelayed. rewrite Hm. cbn [of_option exec_bind]. destruct (_ && _).
    + eexists _, (m <| txm_PreviousState := CurrentState (txm_Machine m) |>), 0, _. split; [done|]. split; [done|].
      constructor; [apply tx_frame_txm | unfold upd_txm, upd_prt; simpl_get; rewrite Hm; done
                   | lia | unfold sent, upd_txm, upd_prt; simpl_get; lia
                   | simpl_rec; lia | simpl_rec; lia | right; discriminate | discriminate].
    + unfold send_txm, upd_txm, upd_prt. simpl_get. rewrite Hm. cbn [fmap option_fmap option_map of_option exec_bind].
      eexists _, (m <| txm_PreviousState := CurrentState (txm_Machine m) |>
               <| txPending ::= fun n => n - 1 |>
               <| TxmEvents ::= fun l => l ++ [evt LacpTxmEventNtt TxMachineModuleStr] |>), 0, _. split; [done|]. split; [done|].
      constructor; [by constructor | simpl_get; rewrite Hm; done
                   | lia | unfold sent; simpl_get; lia
                   | simpl_rec; lia | simpl_rec; lia | right; discriminate | discriminate].
  - unfold LacpTxMachineOff. eexists _, (TxGuardTimerStop (m <| txPending := 0 |> <| txPkts := 0 |> <| ntt := false |>)), 0, _. split; [done|]. split; [done|].
    constructor; [apply tx_frame_txm | unfold upd_txm, upd_prt; simpl_get; rewrite Hm; done
                   | lia | unfold sent, upd_txm, upd_prt; simpl_get; lia
                   | simpl_rec; lia | simpl_rec; lia | right; discriminate | discriminate].
  - unfold LacpTxMachineGuard. rewrite Hm. cbn [of_option exec_bind].
    eexists _, (m <| txPkts := 0 |>), 0, _. split; [done|]. split; [done|].
    constructor; [apply tx_frame_txm | unfold upd_txm, upd_prt; simpl_get; rewrite Hm; done
                   | lia | unfold sent, upd_txm, upd_prt; simpl_get; lia
                   | simpl_rec; lia | simpl_rec; lia | by left |].
    intros _. split; [done|]. split; [done|]. split; [done|].
    destruct (Z.ltb_spec 0 (txPending m)); split; unfold tx_on; auto; split; try done; lia.
Qed.

(** The event loop on the callback the table names. *)
Lemma tx_event_taken ev st m cbs cb :
  tx_ready st m -> LaSysGlobalTxCallbackListGet st = Ok cbs ->
  first_rule tx_rules (CurrentState (txm_Machine m)) (ev_E ev) = Some cb ->
  exists st1 m1 x next,
    tx_cb_spec (len cbs) cb next x st st1 m m1 /\ tx_ready st1 m1 /\
    CurrentState (txm_Machine m1) = next /\
    tx_event ev st =
      (let! st2 := if (next =? LacpTxmStateGuardTimerExpire) && (0 <? txPending m1) &&
                      (txPkts m1 =? 0)
                   then force_pending 3 st1 else Ok st1 in
       Ok (respond TxMachineModuleStr ev st2)).
Proof.
  intros Hr Hcb Hrule. unfold tx_event.
  set (st0 := if _ =? _ then _ else st).
  assert (exists m0, tx_ready st0 m0 /\ tx_frame st st0 /\ sent st0 = sent st /\
            txm_Machine m0 = txm_Machine m /\ txPkts m0 = txPkts m /\
            txPending m0 = txPending m /\ TxmEvents m0 = TxmEvents m)
    as (m0 & Hr0 & Hf0 & Hs0 & HM0 & Hk0 & Hp0 & He0).
  { subst st0. destruct (_ =? _); [|exists m; split_and!; auto using tx_frame_refl].
    destruct Hr as [Hm Hb Hru]. exists (m <| ntt := true |>).
    split_and!; auto using tx_frame_txm.
    constructor; [|done..]. unfold upd_txm, upd_prt. simpl_get. by rewrite Hm. }
  clearbody st0. rewrite <- HM0 in Hrule. pose proof Hr0 as [Hm0 Hb0 Hru0].
  destruct (tx_callback_spec cb
              (set_txm (fun m => m <| Curr ::= SetEvent (ev_Src ev) (ev_E ev) |>) st0) _ cbs
              (tx_set _ _ _ Hm0)) as (st1 & m1 & x & next & Hrun & HM & []).
  { etrans; [apply callbacks_frame, (tx_frame_txm _ st0)|]. by rewrite (callbacks_frame _ _ Hf0). }
  destruct (tx_process_run (ev_Src ev) (ev_E ev) st0 m0 cb st1 m1 next Hr0 Hrule Hrun) as [Hp Hr'];
    [done | exact HM |].
  eexists _, _, x, next. split; [|split; [exact Hr'|split; [done|]]].
  - constructor.
    + eapply tx_frame_trans, tx_frame_txm. eapply tx_frame_trans, tc_frame0.
      eapply tx_frame_trans, tx_frame_txm. exact Hf0.
    + by apply tx_set.
    + exact tc_x0.
    + rewrite <- Hs0. exact tc_sent0.
    + rewrite <- Hk0. exact tc_pkts0.
    + rewrite <- Hk0. exact tc_window0.
    + exact tc_next0.
    + unfold owed. rewrite <- Hp0, <- He0. exact tc_guard0.
  - rewrite Hp. cbn [exec_bind]. by rewrite (tr_machine _ _ Hr').
Qed.

Lemma tx_event_ignored ev st m :
  tx_ready st m -> first_rule tx_rules (CurrentState (txm_Machine m)) (ev_E ev) = None ->
  exists st0 m0, tx_event ev st = Ok (respond TxMachineModuleStr ev st0) /\ tx_frame st st0 /\
    tx_ready st0 m0 /\ sent st0 = sent st /\ txPkts m0 = txPkts m.
Proof.
  intros Hr Hrule. unfold tx_event. destruct (_ =? _).
  - set (st0 := upd_txm _ st). destruct Hr as [Hm Hb Hru].
    assert (Hr0 : tx_ready st0 (m <| ntt := true |>)).
    { constructor; [|done..]. unfold st0, upd_txm, upd_prt. simpl_get. by rewrite Hm. }
    rewrite (tx_process_none _ _ _ _ Hr0 Hrule). cbn [exec_bind]. eexists _, _.
    split_and!; [done | apply tx_frame_txm | done | done | done].
  - rewrite (tx_process_none _ _ _ _ Hr Hrule). cbn [exec_bind].
    exists st, m. split_and!; auto using tx_frame_refl.
Qed.

Lemma tx_event_bounded ev st m cbs :
  tx_ready st m -> 0 <= txPkts m <= 3 -> LaSysGlobalTxCallbackListGet st = Ok cbs ->
  exists st' m', tx_event ev st = Ok st' /\
    tx_bounded (len cbs) (tx_resets (ev_E ev)) st st' m m'.
Proof.
  intros Hr Hk Hcb.
  destruct (first_rule tx_rules (CurrentState (txm_Machine m)) (ev_E ev)) as [cb|] eqn:Hrule.
  2: { destruct (tx_event_ignored ev st m Hr Hrule) as (st0 & m0 & -> & Hf & Hr0 & Hs & Hp).
       eexists _, m0. split; [done|]. constructor; [|by apply respond_ready|lia|].
       - eapply tx_frame_trans, respond_frame. exact Hf.
       - exists 0. rewrite respond_sent. lia. }
  destruct (tx_event_taken ev st m cbs cb Hr Hcb Hrule) as (st1 & m1 & x & next & [] & Hr1 & Hcur & ->).
  assert (Hres : tx_resets (ev_E ev) = false -> cb = LacpTxMachineOn_cb \/ cb = LacpTxMachineDelayed_cb).
  { intros Hn. pose proof (first_rule_forall
      (fun _ ev cb => tx_resets ev ||
         match cb with LacpTxMachineOn_cb | LacpTxMachineDelayed_cb => true | _ => false end)
      tx_rules _ _ _ eq_refl Hrule) as Hc.
    cbv beta in Hc. rewrite Hn in Hc. destruct cb; auto; discriminate Hc. }
  destruct ((next =? LacpTxmStateGuardTimerExpire) && (0 <? txPending m1) && (txPkts m1 =? 0)) eqn:Hg.
  - destruct tc_next0 as [->|Hne]; [|destruct (Z.eqb_spec next LacpTxmStateGuardTimerExpire); done].
    destruct (tc_guard0 eq_refl) as (-> & Ho & Hpe & Hon & _).
    destruct (force_pending_spec 3 st1 m1 cbs) as (st2 & m2 & y & -> & Hr2 & [] & Hy & Hk2 & _);
      [done | by rewrite Hcur | by rewrite (callbacks_frame _ _ tc_frame0) | lia | lia |].
    cbn [exec_bind]. eexists _, m2. split; [done|].
    constructor; [|by apply respond_ready|lia|].
    + eapply tx_frame_trans, respond_frame. by eapply tx_frame_trans.
    + exists (0 + y). rewrite respond_sent, Z.mul_add_distr_l. split; [lia|]. split; [lia|].
      intros Hn. by destruct (Hres Hn).
  - cbn [exec_bind]. eexists _, m1. split; [done|].
    constructor; [|by apply respond_ready|destruct cb; lia|].
    + eapply tx_frame_trans, respond_frame. done.
    + exists x. rewrite respond_sent. split; [lia|]. split; [lia|].
      intros Hn. destruct (Hres Hn); subst cb; exact tc_pkts0.
Qed.

(** C27: between two events that start the count anew (an expiry of the guard
    timer, BEGIN, or LACP being disabled) the transmit machine sends at most
    three PDUs through each callback, whatever other events arrive in between:
    a run without such an event returns, its transmissions are counted by
    [txPkts], and [txPkts] never exceeds three.  Every cycle of disabling and
    enabling LACP starts a new count. *)
Theorem tx_rate_limit st m cbs evs :
  tx_ready st m -> 0 <= txPkts m <= 3 -> LaSysGlobalTxCallbackListGet st = Ok cbs ->
  Forall (fun ev => tx_resets (ev_E ev) = false) evs ->
  returns (for_each tx_event evs st) (fun st' =>
    exists m', tx_ready st' m' /\ txPkts m <= txPkts m' <= 3 /\
      sent st' = sent st + len cbs * (txPkts m' - txPkts m)).
Proof.
  intros Hr Hk Hcb Hevs. revert st m Hr Hk Hcb.
  induction Hevs as [|ev evs Hev Hevs IH]; intros st m Hr Hk Hcb; cbn [for_each].
  - exists st. split; [done|]. exists m. split; [done|]. rewrite Z.sub_diag. lia.
  - destruct (tx_event_bounded ev st m cbs Hr Hk Hcb) as (st1 & m1 & -> & [Hf Hr1 Hk1 (x & Hx & Hs & Hp)]).
    cbn [exec_bind]. specialize (Hp Hev).
    destruct (IH st1 m1 Hr1 Hk1) as (st' & -> & m' & Hr' & Hk' & Hs');
      [by rewrite (callbacks_frame _ _ Hf)|].
    exists st'. split; [done|]. exists m'. split; [done|]. split; [lia|].
    rewrite Hs', Hs, Hp. ring.
Qed.

(** when the guard timer fires with requests pending, between one and three
    of them are sent at once and the rest stay pending or queued: no request
    is lost and the loop that sends them ends. *)
Theorem tx_guard_releases st m cbs :
  tx_ready st m -> 0 <= txPkts m <= 3 -> 0 <= txPending m ->
  CurrentState (txm_Machine m) = LacpTxmStateOn \/ CurrentState (txm_Machine m) = LacpTxmStateDelayed ->
  LaSysGlobalTxCallbackListGet st = Ok cbs ->
  returns (tx_event (evt LacpTxmEventGuardTimer TxMachineModuleStr) st) (fun st' =>
    exists m' x, tx_ready st' m' /\ sent st' = sent st + len cbs * x /\
      owed m' + x = owed m /\ 0 <= x <= 3 /\ (0 < txPending m -> 1 <= x) /\ txPkts m' = x).
Proof.
  intros Hr Hk Hp Hst Hcb.
  assert (Hrule : first_rule tx_rules (CurrentState (txm_Machine m)) LacpTxmEventGuardTimer
                  = Some LacpTxMachineGuard_cb) by (by destruct Hst as [-> | ->]).
  destruct (tx_event_taken (evt LacpTxmEventGuardTimer TxMachineModuleStr) st m cbs _ Hr Hcb Hrule)
    as (st1 & m1 & x & next & [] & Hr1 & Hcur & ->).
  destruct (tc_guard0 eq_refl) as (-> & Ho & Hpe & Hon & Hnext).
  destruct (Z.ltb_spec 0 (txPending m)).
  - rewrite (proj2 Hnext) in * by lia. rewrite Hpe, tc_pkts0.
    rewrite (proj2 (Z.ltb_lt 0 (txPending m))) by done. cbn [Z.eqb Pos.eqb andb].
    destruct (force_pending_spec 3 st1 m1 cbs) as (st2 & m2 & y & -> & Hr2 & [] & Hy & Hk2 & Hpos);
      [done | by rewrite Hcur | by rewrite (callbacks_frame _ _ tc_frame0) | lia | lia |].
    eexists. split; [done|]. exists m2, y. split_and!; [by apply respond_ready | rewrite respond_sent; lia | lia..].
  - rewrite (proj2 (Z.ltb_ge 0 (txPending m1))) by lia. rewrite andb_false_r. cbn [andb exec_bind].
    eexists. split; [done|]. exists m1, 0. split_and!; [by apply respond_ready | rewrite respond_sent; lia | lia..].
Qed.
End TxProofs.
