(* ===== verification/LacpPtxProofs.v ===== *)
(** * LACP: the periodic machine follows the partner

    After every event and every expiry of its timer the periodic machine
    rests in a state whose timer and interval agree with it, it never stays in
    NO PERIODIC while it may leave, and it polls at the rate the partner asked
    for. *)

From S2P Require Import Prelude Fsm LacpDefs LacpPort LacpPtx.

(** ** Frames *)

(** The part of the port the decisions of the machine depend on. *)
Definition ptx_view (p : LaAggPort) : Z * Z * bool * bool * bool * option Z :=
  (State (ActorOper p), State (PartnerOper p), lacpEnabled p, PortEnabled p, LinkOperStatus p,
   (fun m => CurrentState (txm_Machine m)) <$> TxMachineFsm p).

Record ptx_ready (st : St) (m : LacpPtxMachine) : Prop := {
  pr_machine : PtxMachineFsm (prt st) = Some m;
  pr_begin : Begin (ptxm_Machine m) = true;
  pr_rules : Rules (ptxm_Machine m) = AddRules ptx_rules;
  pr_tx : is_Some (TxMachineFsm (prt st))
}.

(** State, interval and timer agree. *)
Record ptx_rest (m : LacpPtxMachine) : Prop := {
  rest_state : CurrentState (ptxm_Machine m) = LacpPtxmStateNone \/
               CurrentState (ptxm_Machine m) = LacpPtxmStateNoPeriodic \/
               CurrentState (ptxm_Machine m) = LacpPtxmStateFastPeriodic \/
               CurrentState (ptxm_Machine m) = LacpPtxmStateSlowPeriodic;
  rest_fast : CurrentState (ptxm_Machine m) = LacpPtxmStateFastPeriodic ->
              PeriodicTxTimerInterval m = LacpFastPeriodicTime /\
              periodicTxTimer m = Some (Some LacpFastPeriodicTime);
  rest_slow : CurrentState (ptxm_Machine m) = LacpPtxmStateSlowPeriodic ->
              PeriodicTxTimerInterval m = LacpSlowPeriodicTime /\
              periodicTxTimer m = Some (Some LacpSlowPeriodicTime);
  rest_none : CurrentState (ptxm_Machine m) = LacpPtxmStateNoPeriodic ->
              timer_running (periodicTxTimer m) = false
}.

(** What running a callback leaves in the machine. *)
Definition ptx_shape (cb : PtxCallback) (m m' : LacpPtxMachine) : Prop :=
  match cb with
  | LacpPtxMachineNoPeriodic_cb =>
      CurrentState (ptxm_Machine m') = LacpPtxmStateNoPeriodic /\
      timer_running (periodicTxTimer m') = false
  | LacpPtxMachineFastPeriodic_cb =>
      CurrentState (ptxm_Machine m') = LacpPtxmStateFastPeriodic /\
      PeriodicTxTimerInterval m' = LacpFastPeriodicTime /\
      periodicTxTimer m' = Some (Some LacpFastPeriodicTime)
  | LacpPtxMachineSlowPeriodic_cb =>
      CurrentState (ptxm_Machine m') = LacpPtxmStateSlowPeriodic /\
      PeriodicTxTimerInterval m' = LacpSlowPeriodicTime /\
      periodicTxTimer m' = Some (Some LacpSlowPeriodicTime)
  | LacpPtxMachinePeriodicTx_cb =>
      CurrentState (ptxm_Machine m') = LacpPtxmStatePeriodicTx
  end.

Definition tx_queue (st : St) : list MachineEvent :=
  match TxMachineFsm (prt st) with Some m => TxmEvents m | None => [] end.

Definition tx_is_off (st : St) : bool :=
  match TxMachineFsm (prt st) with
  | Some m => CurrentState (txm_Machine m) =? LacpTxmStateOff
  | None => false
  end.

(** A poll is requested by PERIODIC TX only, unless the transmit machine is off. *)
Definition ptx_request (cb : PtxCallback) (st : St) : list MachineEvent :=
  match cb with
  | LacpPtxMachinePeriodicTx_cb =>
      if tx_is_off st then [] else [evt LacpTxmEventNtt PtxMachineModuleStr]
  | _ => []
  end.

Lemma ptx_set f st m :
  PtxMachineFsm (prt st) = Some m ->
  PtxMachineFsm (prt (set_ptxm f st)) = Some (m <| ptxm_Machine ::= f |>).
Proof. intros Hm. unfold set_ptxm, upd_ptxm, upd_prt. simpl_get. by rewrite Hm. Qed.

Lemma ptx_callback_spec cb st m :
  PtxMachineFsm (prt st) = Some m -> is_Some (TxMachineFsm (prt st)) ->
  exists st' m' next,
    ptx_callback cb tt st = Ok (st', next) /\ PtxMachineFsm (prt st') = Some m' /\
    ptxm_Machine m' = ptxm_Machine m /\ ptx_view (prt st') = ptx_view (prt st) /\
    tx_queue st' = tx_queue st ++ ptx_request cb st /\
    forall M, CurrentState M = next -> ptx_shape cb m (m' <| ptxm_Machine := M |>).
Proof.
  intros Hm [tx Htx]. destruct cb; cbn [ptx_callback].
  - eexists _, (PeriodicTimerStop m), _. split; [done|].
    split; [unfold upd_ptxm, upd_prt; simpl_get; by rewrite Hm|].
    split; [done|]. split; [done|]. split; [by rewrite app_nil_r|].
    intros M HM. split; [exact HM|]. simpl_get. unfold PeriodicTimerStop. simpl_get.
    by destruct (periodicTxTimer m).
  - eexists _, (PeriodicTimerStart (PeriodicTimerIntervalSet LacpFastPeriodicTime m)), _.
    split; [done|]. split; [unfold upd_ptxm, upd_prt; simpl_get; by rewrite Hm|].
    split; [done|]. split; [done|]. split; [by rewrite app_nil_r|]. by intros M HM.
  - eexists _, (PeriodicTimerStart (PeriodicTimerIntervalSet LacpSlowPeriodicTime m)), _.
    split; [done|]. split; [unfold upd_ptxm, upd_prt; simpl_get; by rewrite Hm|].
    split; [done|]. split; [done|]. split; [by rewrite app_nil_r|]. by intros M HM.
  - unfold LacpPtxMachinePeriodicTx, state_of, get_txm. rewrite Htx.
    cbn [fmap option_fmap option_map of_option exec_bind].
    unfold ptx_request, tx_is_off, tx_queue. rewrite Htx.
    destruct (_ =? _); cbn [negb].
    + cbn [exec_bind]. exists st, m, LacpPtxmStatePeriodicTx. rewrite Htx, app_nil_r. by split_and!.
    + unfold send_txm. rewrite Htx. cbn [of_option exec_bind].
      eexists _, m, _. split; [done|]. split; [done|]. split; [done|]. split; [|split; [|done]].
      * unfold ptx_view, upd_txm, upd_prt. simpl_get. by rewrite Htx.
      * unfold upd_txm, upd_prt. simpl_get. by rewrite Htx.
Qed.

(** [ProcessEvent] of the periodic machine. *)
Lemma ptx_process_spec es ev st m :
  ptx_ready st m ->
  match first_rule ptx_rules (CurrentState (ptxm_Machine m)) ev with
  | Some cb =>
      exists st' m', ptx_process es ev st = Ok (st', None) /\ ptx_ready st' m' /\
        ptx_shape cb m m' /\ ptx_view (prt st') = ptx_view (prt st) /\
        tx_queue st' = tx_queue st ++ ptx_request cb st
  | None => ptx_process es ev st = Ok (st, Some InvalidStateEvent)
  end.
Proof.
  intros [Hm Hb Hru Htx]. destruct (first_rule _ _ _) as [cb|] eqn:Hrule.
  - set (st0 := set_ptxm (fun m => m <| Curr ::= SetEvent es ev |>) st).
    destruct (ptx_callback_spec cb st0 _ (ptx_set _ _ _ Hm) Htx)
      as (st1 & m1 & next & Hrun & Hm1 & HM & Hv & Hq & Hsh).
    eexists _, (m1 <| ptxm_Machine ::= fun m => m <| Curr ::= SetState next |> |>). split.
    { unfold ptx_process.
      rewrite (ProcessEvent_run _ _ _ es ev tt st (ptxm_Machine m) cb);
        [fold st0; by rewrite Hrun | unfold get_ptxm; by rewrite Hm | done |].
      rewrite Hru, AddRules_first. exact Hrule. }
    split.
    { constructor; [by apply ptx_set | | |].
      - simpl_get. rewrite HM. exact Hb.
      - simpl_get. rewrite HM. exact Hru.
      - assert (Htx1 : is_Some ((fun m => CurrentState (txm_Machine m)) <$> TxMachineFsm (prt st1))).
        { unfold ptx_view in Hv. injection Hv as _ _ _ _ _ Hv. rewrite Hv.
          destruct Htx as [? Htx]. exists (CurrentState (txm_Machine x)).
          change (TxMachineFsm (prt st0)) with (TxMachineFsm (prt st)). by rewrite Htx. }
        change (is_Some (TxMachineFsm (prt st1))). destruct (TxMachineFsm (prt st1)); [done|].
        by destruct Htx1. }
    split; [by apply Hsh|]. split; [exact Hv | exact Hq].
  - unfold ptx_process.
    apply (ProcessEvent_ignore _ _ _ es ev tt st (ptxm_Machine m));
      [unfold get_ptxm; by rewrite Hm | done | by rewrite Hru, AddRules_first].
Qed.

(** ** Leaving PERIODIC TX and NO PERIODIC *)

Definition partner_short (st : St) : bool :=
  LacpStateIsSet (State (PartnerOper (prt st))) LacpStateTimeoutBit.

(** The machine polls at the rate the partner's timeout asks for. *)
Definition ptx_rate (short : bool) (m : LacpPtxMachine) : Prop :=
  if short then CurrentState (ptxm_Machine m) = LacpPtxmStateFastPeriodic /\
                periodicTxTimer m = Some (Some LacpFastPeriodicTime)
  else CurrentState (ptxm_Machine m) = LacpPtxmStateSlowPeriodic /\
       periodicTxTimer m = Some (Some LacpSlowPeriodicTime).

Lemma ptx_shape_rest cb m m' : ptx_shape cb m m' -> cb <> LacpPtxMachinePeriodicTx_cb -> ptx_rest m'.
Proof.
  intros Hs Hne. destruct cb; [| | |done].
  - destruct Hs as [Hs Ht]. constructor; rewrite Hs; try discriminate; auto.
  - destruct Hs as (Hs & Hi & Ht). constructor; rewrite Hs; try discriminate; auto.
  - destruct Hs as (Hs & Hi & Ht). constructor; rewrite Hs; try discriminate; auto.
Qed.

Lemma leave_periodic_tx_spec st m :
  ptx_ready st m -> CurrentState (ptxm_Machine m) = LacpPtxmStatePeriodicTx ->
  exists st' m', leave_periodic_tx st = Ok st' /\ ptx_ready st' m' /\ ptx_rest m' /\
    ptx_rate (partner_short st) m' /\ ptx_view (prt st') = ptx_view (prt st) /\
    tx_queue st' = tx_queue st.
Proof.
  intros Hr Hs. unfold leave_periodic_tx. change (LacpStateIsSet _ _) with (partner_short st).
  destruct (partner_short st).
  - pose proof (ptx_process_spec PtxMachineModuleStr LacpPtxmEventPartnerOperStateTimeoutShort st m Hr) as H.
    rewrite Hs in H. change (first_rule _ _ _) with (Some LacpPtxMachineFastPeriodic_cb) in H. cbv iota in H.
    destruct H as (st' & m' & -> & Hr' & Hsh & Hv & Hq). exists st', m'.
    split; [done|]. split; [done|]. split; [apply (ptx_shape_rest _ _ _ Hsh); discriminate|].
    destruct Hsh as (? & ? & ?). split; [done|]. split; [done|]. by rewrite Hq, app_nil_r.
  - pose proof (ptx_process_spec PtxMachineModuleStr LacpPtxmEventPartnerOperStateTimeoutLong st m Hr) as H.
    rewrite Hs in H. change (first_rule _ _ _) with (Some LacpPtxMachineSlowPeriodic_cb) in H. cbv iota in H.
    destruct H as (st' & m' & -> & Hr' & Hsh & Hv & Hq). exists st', m'.
    split; [done|]. split; [done|]. split; [apply (ptx_shape_rest _ _ _ Hsh); discriminate|].
    destruct Hsh as (? & ? & ?). split; [done|]. split; [done|]. by rewrite Hq, app_nil_r.
Qed.

(** The condition to leave NO PERIODIC, less the state. *)
Definition may_poll (p : LaAggPort) : bool :=
  lacpEnabled p && IsPortEnabled p &&
  ((LacpModeGet (State (ActorOper p)) (lacpEnabled p) =? LacpModeActive) ||
   (LacpModeGet (State (PartnerOper p)) (lacpEnabled p) =? LacpModeActive)).

Lemma may_poll_view p p' : ptx_view p = ptx_view p' -> may_poll p = may_poll p'.
Proof.
  unfold ptx_view, may_poll, IsPortEnabled, IsPortAdminEnabled. intros [= -> -> -> -> -> _]. done.
Qed.

Lemma exit_condition st m :
  ptx_ready st m ->
  LacpPtxIsNoPeriodicExitCondition st =
    Ok ((CurrentState (ptxm_Machine m) =? LacpPtxmStateNoPeriodic) && may_poll (prt st)).
Proof.
  intros [Hm _ _ _]. unfold LacpPtxIsNoPeriodicExitCondition, state_of, get_ptxm, may_poll.
  rewrite Hm. cbn [fmap option_fmap option_map of_option exec_bind]. by rewrite !andb_assoc.
Qed.

Lemma respond_ptx_ready module ev st m : ptx_ready st m -> ptx_ready (respond module ev st) m.
Proof. unfold respond. destruct (ev_ResponseChan ev); [|done]. intros []. by constructor. Qed.

Lemma respond_view module ev st : ptx_view (prt (respond module ev st)) = ptx_view (prt st).
Proof. unfold respond. by destruct (ev_ResponseChan ev). Qed.

(** whatever event the periodic machine of a port receives, it comes to
    rest with state, interval and timer in agreement, and it rests in NO
    PERIODIC only while LACP or the port is down or both ends are passive. *)
Theorem ptx_settles st m ev :
  ptx_ready st m -> ptx_rest m ->
  returns (ptx_event ev st) (fun st' => exists m', ptx_ready st' m' /\ ptx_rest m' /\
    (CurrentState (ptxm_Machine m') = LacpPtxmStateNoPeriodic -> may_poll (prt st') = false)).
Proof.
  intros Hr Hrest. unfold ptx_event.
  assert (H : exists st1 m1 rv, ptx_process (ev_Src ev) (ev_E ev) st = Ok (st1, rv) /\
            ptx_ready st1 m1 /\
            (ptx_rest m1 \/ CurrentState (ptxm_Machine m1) = LacpPtxmStatePeriodicTx)).
  { pose proof (ptx_process_spec (ev_Src ev) (ev_E ev) st m Hr) as H.
    destruct (first_rule _ _ _) as [cb|]; [|by exists st, m, (Some InvalidStateEvent); auto].
    destruct H as (st1 & m1 & Hp & Hr1 & Hsh & _). exists st1, m1, None.
    split; [done|]. split; [done|].
    destruct cb; [left; apply (ptx_shape_rest _ _ _ Hsh); discriminate..|right; exact Hsh]. }
  destruct H as (st1 & m1 & rv & -> & Hr1 & Hs1). cbn [exec_bind].
  rewrite (exit_condition st1 m1 Hr1). cbn [exec_bind].
  unfold state_of, get_ptxm. rewrite (pr_machine _ _ Hr1).
  cbn [fmap option_fmap option_map of_option exec_bind].
  destruct (Z.eqb_spec (CurrentState (ptxm_Machine m1)) LacpPtxmStateNoPeriodic) as [Hn|Hn];
    [destruct (may_poll (prt st1)) eqn:Hmp|]; cbn [andb].
  - pose proof (ptx_process_spec PtxMachineModuleStr LacpPtxmEventUnconditionalFallthrough st1 m1 Hr1) as H.
    rewrite Hn in H. change (first_rule _ _ _) with (Some LacpPtxMachineFastPeriodic_cb) in H. cbv iota in H.
    destruct H as (st2 & m2 & -> & Hr2 & Hsh & Hv & _). eexists. split; [done|]. exists m2.
    split; [by apply respond_ptx_ready|]. split; [apply (ptx_shape_rest _ _ _ Hsh); discriminate|].
    destruct Hsh as [-> _]. discriminate.
  - rewrite Hn. eexists. split; [done|]. exists m1. split; [by apply respond_ptx_ready|].
    split; [|by rewrite (may_poll_view _ _ (respond_view _ _ _))].
    destruct Hs1 as [|Hs1]; [done|]. by rewrite Hn in Hs1.
  - destruct (Z.eqb_spec (CurrentState (ptxm_Machine m1)) LacpPtxmStatePeriodicTx) as [Hp|Hp].
    + destruct (leave_periodic_tx_spec st1 m1 Hr1 Hp) as (st2 & m2 & -> & Hr2 & Hre & Hra & Hv & _).
      eexists. split; [done|]. exists m2. split; [by apply respond_ptx_ready|]. split; [done|].
      unfold ptx_rate in Hra. destruct (partner_short st1); destruct Hra as [-> _]; discriminate.
    + eexists. split; [done|]. exists m1. split; [by apply respond_ptx_ready|].
      split; [by destruct Hs1 | done].
Qed.

(** when the periodic timer fires, exactly one transmission is requested,
    unless the transmit machine is off, and the next interval is one second if
    the partner's Timeout bit is set and thirty seconds if it is not. *)
Theorem ptx_polls st m :
  ptx_ready st m ->
  CurrentState (ptxm_Machine m) = LacpPtxmStateFastPeriodic \/
  CurrentState (ptxm_Machine m) = LacpPtxmStateSlowPeriodic ->
  returns (ptx_timer st) (fun st' => exists m', ptx_ready st' m' /\ ptx_rest m' /\
    ptx_rate (partner_short st) m' /\
    tx_queue st' = tx_queue st ++
      (if tx_is_off st then [] else [evt LacpTxmEventNtt PtxMachineModuleStr])).
Proof.
  intros [Hm Hb Hru Htx] Hs. unfold ptx_timer. set (st0 := upd_ptxm PeriodicTimerStop st).
  assert (Hr0 : ptx_ready st0 (PeriodicTimerStop m)).
  { constructor; [|exact Hb|exact Hru|exact Htx]. unfold st0, upd_ptxm, upd_prt. simpl_get. by rewrite Hm. }
  pose proof (ptx_process_spec PtxMachineModuleStr LacpPtxmEventPeriodicTimerExpired st0 _ Hr0) as H.
  change (CurrentState (ptxm_Machine (PeriodicTimerStop m))) with (CurrentState (ptxm_Machine m)) in H.
  replace (first_rule _ _ _) with (Some LacpPtxMachinePeriodicTx_cb) in H
    by (by destruct Hs as [-> | ->]).
  destruct H as (st1 & m1 & -> & Hr1 & Hsh & Hv & Hq). cbn [exec_bind]. cbn in Hsh.
  unfold state_of, get_ptxm. rewrite (pr_machine _ _ Hr1).
  cbn [fmap option_fmap option_map of_option exec_bind]. rewrite Hsh. cbn [Z.eqb Pos.eqb].
  destruct (leave_periodic_tx_spec st1 m1 Hr1 Hsh) as (st2 & m2 & -> & Hr2 & Hre & Hra & Hv2 & Hq2).
  exists st2. split; [done|]. exists m2. split; [done|]. split; [done|]. split.
  - replace (partner_short st) with (partner_short st1); [done|].
    unfold partner_short. unfold ptx_view in Hv. by injection Hv as _ -> _ _ _ _.
  - by rewrite Hq2, Hq.
Qed.
