(* ===== verification/LacpCdmProofs.v ===== *)
(** * LACP: what the churn machines detect

    The actor machine agrees with the actor's synchronisation bit after every
    event it takes.  The loop of the partner machine compares its state with
    the constants of the actor machine, so it never corrects it. *)

From S2P Require Import Prelude Fsm LacpDefs LacpPort LacpCdm.

(** ** The actor machine *)

Record cd_ready (st : St) (m : LacpCdMachine) : Prop := {
  cr_machine : CdMachineFsm (prt st) = Some m;
  cr_begin : Begin (cdm_Machine m) = true;
  cr_rules : Rules (cdm_Machine m) = AddRules actor_cd_rules
}.

(** State, flag and timer agree. *)
Record cd_inv (churn : bool) (m : LacpCdMachine) : Prop := {
  ci_state : CurrentState (cdm_Machine m) = LacpCdmStateNoActorChurn \/
             CurrentState (cdm_Machine m) = LacpCdmStateActorChurnMonitor \/
             CurrentState (cdm_Machine m) = LacpCdmStateActorChurn;
  ci_flag : churn = true <-> CurrentState (cdm_Machine m) = LacpCdmStateActorChurn;
  ci_timer : timer_running (churnTimer m) = true <->
             CurrentState (cdm_Machine m) = LacpCdmStateActorChurnMonitor
}.

Definition cd_target (cb : CdCallback) : Z :=
  match cb with
  | LacpCdMachineNoActorChurn_cb => LacpCdmStateNoActorChurn
  | LacpCdMachineActorChurn_cb => LacpCdmStateActorChurn
  | LacpCdMachineActorChurnMonitor_cb => LacpCdmStateActorChurnMonitor
  | LacpCdMachineNoPartnerChurn_cb => LacpCdmStateNoPartnerChurn
  | LacpCdMachinePartnerChurn_cb => LacpCdmStatePartnerChurn
  | LacpCdMachinePartnerChurnMonitor_cb => LacpCdmStatePartnerChurnMonitor
  end.

Definition is_actor_cb (cb : CdCallback) : bool :=
  match cb with
  | LacpCdMachineNoActorChurn_cb | LacpCdMachineActorChurn_cb
  | LacpCdMachineActorChurnMonitor_cb => true
  | _ => false
  end.

Definition churn_flag (cb : CdCallback) : bool :=
  match cb with LacpCdMachineActorChurn_cb | LacpCdMachinePartnerChurn_cb => true | _ => false end.
Definition churn_monitors (cb : CdCallback) : bool :=
  match cb with
  | LacpCdMachineActorChurnMonitor_cb | LacpCdMachinePartnerChurnMonitor_cb => true
  | _ => false
  end.

Lemma stop_not_running t : timer_running (timer_stop t) = false.
Proof. by destruct t as [[]|]. Qed.

Lemma cd_callback_spec cb st m :
  CdMachineFsm (prt st) = Some m -> is_actor_cb cb = true ->
  exists st' m',
    cd_callback cb tt st = Ok (st', cd_target cb) /\ CdMachineFsm (prt st') = Some m' /\
    cdm_Machine m' = cdm_Machine m /\ ActorOper (prt st') = ActorOper (prt st) /\
    actorChurn (prt st') = churn_flag cb /\ timer_running (churnTimer m') = churn_monitors cb.
Proof.
  intros Hm Hcb. destruct cb; try discriminate Hcb; cbn [cd_callback].
  - eexists _, (ChurnDetectionTimerStop m). split; [done|].
    split; [unfold upd_cdm, upd_prt; simpl_get; by rewrite Hm|].
    split_and!; [done..|]. apply stop_not_running.
  - unfold LacpCdMachineActorChurn. change (CdMachineFsm (prt (upd_prt _ st))) with (CdMachineFsm (prt st)).
    rewrite Hm. cbn [of_option exec_bind].
    destruct (_ && _); [|destruct (1 <? _)].
    all: eexists _, _; split; [done|];
      split; [unfold upd_debug, upd_cdm, upd_prt; simpl_get; rewrite Hm; done|];
      split_and!; [done..|apply stop_not_running].
  - eexists _, (ChurnDetectionTimerStart m). split; [done|].
    split; [unfold upd_cdm, upd_prt; simpl_get; by rewrite Hm|]. by split_and!.
Qed.

Lemma cd_set f st m :
  CdMachineFsm (prt st) = Some m ->
  CdMachineFsm (prt (set_cdm f st)) = Some (m <| cdm_Machine ::= f |>).
Proof. intros Hm. unfold set_cdm, upd_cdm, upd_prt. simpl_get. by rewrite Hm. Qed.

Lemma cd_process_spec es ev st m :
  cd_ready st m ->
  match first_rule actor_cd_rules (CurrentState (cdm_Machine m)) ev with
  | Some cb =>
      exists st' m', cd_process es ev st = Ok (st', None) /\ cd_ready st' m' /\
        CurrentState (cdm_Machine m') = cd_target cb /\ cd_inv (actorChurn (prt st')) m' /\
        ActorOper (prt st') = ActorOper (prt st)
  | None => cd_process es ev st = Ok (st, Some InvalidStateEvent)
  end.
Proof.
  intros [Hm Hb Hru]. destruct (first_rule _ _ _) as [cb|] eqn:Hrule.
  - assert (Ha : is_actor_cb cb = true)
      by exact (first_rule_forall (fun _ _ cb => is_actor_cb cb) actor_cd_rules _ _ _ eq_refl Hrule).
    set (st0 := set_cdm (fun m => m <| Curr ::= SetEvent es ev |>) st).
    destruct (cd_callback_spec cb st0 _ (cd_set _ _ _ Hm) Ha)
      as (st1 & m1 & Hrun & Hm1 & HM & Hact & Hfl & Hti).
    eexists _, (m1 <| cdm_Machine ::= fun m => m <| Curr ::= SetState (cd_target cb) |> |>).
    split.
    { unfold cd_process.
      rewrite (ProcessEvent_run _ _ _ es ev tt st (cdm_Machine m) cb);
        [fold st0; by rewrite Hrun | unfold get_cdm; by rewrite Hm | done
        | by rewrite Hru, AddRules_first]. }
    split; [constructor; [by apply cd_set|..]; simpl_get; rewrite HM; [exact Hb|exact Hru]|].
    split; [done|]. split; [|exact Hact].
    change (actorChurn (prt (set_cdm _ st1))) with (actorChurn (prt st1)). rewrite Hfl.
    constructor; change (CurrentState (cdm_Machine (_ <| cdm_Machine ::= _ |>))) with (cd_target cb).
    + destruct cb; try discriminate Ha; auto.
    + destruct cb; try discriminate Ha; by split.
    + change (churnTimer (_ <| cdm_Machine ::= _ |>)) with (churnTimer m1). rewrite Hti.
      destruct cb; try discriminate Ha; by split.
  - unfold cd_process.
    apply (ProcessEvent_ignore _ _ _ es ev tt st (cdm_Machine m));
      [unfold get_cdm; by rewrite Hm | done | by rewrite Hru, AddRules_first].
Qed.

Lemma cd_state st m : cd_ready st m -> state_of (get_cdm st) = Ok (CurrentState (cdm_Machine m)).
Proof. intros [Hm _ _]. unfold state_of, get_cdm. by rewrite Hm. Qed.

(** After an event that was taken the loop brings the machine in line with the
    synchronisation bit. *)
Lemma cd_continue_spec st m :
  cd_ready st m -> cd_inv (actorChurn (prt st)) m ->
  exists st' m' rv, cd_continue get_cdm cd_process CdMachineModuleStr actor_sync None st = Ok (st', rv) /\
    cd_ready st' m' /\ cd_inv (actorChurn (prt st')) m' /\
    (CurrentState (cdm_Machine m') = LacpCdmStateNoActorChurn <-> actor_sync st' = true) /\
    ActorOper (prt st') = ActorOper (prt st).
Proof.
  intros Hr Hi. unfold cd_continue. rewrite (cd_state st m Hr). cbn [exec_bind].
  rewrite bool_decide_true by done. cbn [andb].
  destruct (ci_state _ _ Hi) as [Hs|Hs].
  - rewrite Hs. cbn [Z.eqb Pos.eqb LacpCdmStateNoActorChurn andb].
    destruct (actor_sync st) eqn:Hsync; cbn [negb].
    + cbn [exec_bind]. rewrite (cd_state st m Hr). cbn [exec_bind]. rewrite Hs, bool_decide_true by done.
      cbn [Z.eqb Pos.eqb andb orb]. exists st, m, None. split_and!; try done.
    + pose proof (cd_process_spec CdMachineModuleStr LacpCdmEventActorOperPortStateSyncOff st m Hr) as H.
      rewrite Hs in H. change (first_rule _ _ _) with (Some LacpCdMachineActorChurnMonitor_cb) in H.
      cbv iota in H. destruct H as (st1 & m1 & -> & Hr1 & Hs1 & Hi1 & Ha1). cbn [exec_bind].
      rewrite (cd_state st1 m1 Hr1). cbn [exec_bind].
      assert (Hsync1 : actor_sync st1 = false) by (unfold actor_sync; by rewrite Ha1).
      rewrite Hsync1, andb_false_r. exists st1, m1, None. split_and!; try done.
      rewrite Hs1, Hsync1. by split.
  - replace (CurrentState (cdm_Machine m) =? LacpCdmStateNoActorChurn) with false
      by (destruct Hs as [-> | ->]; done).
    cbn [andb exec_bind]. rewrite (cd_state st m Hr). cbn [exec_bind].
    rewrite bool_decide_true by done.
    replace ((CurrentState (cdm_Machine m) =? LacpCdmStateActorChurnMonitor) ||
             (CurrentState (cdm_Machine m) =? LacpCdmStateActorChurn)) with true
      by (destruct Hs as [-> | ->]; done). cbn [andb].
    destruct (actor_sync st) eqn:Hsync.
    + pose proof (cd_process_spec CdMachineModuleStr LacpCdmEventActorOperPortStateSyncOn st m Hr) as H.
      replace (first_rule _ _ _) with (Some LacpCdMachineNoActorChurn_cb) in H
        by (destruct Hs as [-> | ->]; done).
      destruct H as (st1 & m1 & -> & Hr1 & Hs1 & Hi1 & Ha1).
      exists st1, m1, None. split_and!; try done. rewrite Hs1. unfold actor_sync in *. by rewrite Ha1.
    + exists st, m, None. split_and!; try done. rewrite Hsync. destruct Hs as [-> | ->]; by split.
Qed.

(** after every event the actor's churn machine takes, it is in NO ACTOR
    CHURN exactly when the actor's Sync bit is set, [actorChurn] is set exactly
    in ACTOR CHURN and the sixty-second timer runs exactly in the monitor
    state. *)
Theorem actor_churn_tracks_sync st m ev :
  cd_ready st m ->
  is_Some (first_rule actor_cd_rules (CurrentState (cdm_Machine m)) (ev_E ev)) ->
  returns (cd_event ev st) (fun st' => exists m', cd_ready st' m' /\
    cd_inv (actorChurn (prt st')) m' /\
    (CurrentState (cdm_Machine m') = LacpCdmStateNoActorChurn <-> actor_sync st' = true)).
Proof.
  intros Hr [cb Hrule]. unfold cd_event.
  pose proof (cd_process_spec (ev_Src ev) (ev_E ev) st m Hr) as H. rewrite Hrule in H.
  destruct H as (st1 & m1 & -> & Hr1 & _ & Hi1 & _). cbn [exec_bind].
  destruct (cd_continue_spec st1 m1 Hr1 Hi1) as (st2 & m2 & rv & -> & Hr2 & Hi2 & Hs2 & _).
  eexists. split; [done|]. exists m2.
  unfold respond. destruct (ev_ResponseChan ev); [|done].
  destruct Hr2. split; [by constructor|]. done.
Qed.

(** ** The partner machine *)

Record pcd_ready (st : St) (m : LacpCdMachine) : Prop := {
  pc_machine : PCdMachineFsm (prt st) = Some m;
  pc_begin : Begin (cdm_Machine m) = true;
  pc_rules : Rules (cdm_Machine m) = AddRules partner_cd_rules
}.

Lemma pcd_set f st m :
  PCdMachineFsm (prt st) = Some m ->
  PCdMachineFsm (prt (set_pcdm f st)) = Some (m <| cdm_Machine ::= f |>).
Proof. intros Hm. unfold set_pcdm, upd_pcdm, upd_prt. simpl_get. by rewrite Hm. Qed.

Lemma pcd_callback_spec cb st m :
  PCdMachineFsm (prt st) = Some m -> is_actor_cb cb = false ->
  exists st' m',
    cd_callback cb tt st = Ok (st', cd_target cb) /\ PCdMachineFsm (prt st') = Some m' /\
    cdm_Machine m' = cdm_Machine m /\ PartnerOper (prt st') = PartnerOper (prt st) /\
    partnerChurn (prt st') = churn_flag cb.
Proof.
  intros Hm Hcb. destruct cb; try discriminate Hcb; cbn [cd_callback].
  - eexists _, (ChurnDetectionTimerStop m). split; [done|].
    split; [unfold upd_pcdm, upd_prt; simpl_get; by rewrite Hm|]. by split_and!.
  - unfold LacpCdMachinePartnerChurn.
    change (PCdMachineFsm (prt (upd_prt _ st))) with (PCdMachineFsm (prt st)).
    rewrite Hm. cbn [of_option exec_bind].
    destruct (_ && _); [|destruct (1 <=? _)].
    all: eexists _, _; split; [done|];
      split; [unfold upd_debug, upd_pcdm, upd_prt; simpl_get; rewrite Hm; done|];
      by split_and!.
  - eexists _, (ChurnDetectionTimerStart m). split; [done|].
    split; [unfold upd_pcdm, upd_prt; simpl_get; by rewrite Hm|]. by split_and!.
Qed.

Lemma pcd_process_spec es ev st m :
  pcd_ready st m ->
  match first_rule partner_cd_rules (CurrentState (cdm_Machine m)) ev with
  | Some cb =>
      exists st' m', pcd_process es ev st = Ok (st', None) /\ pcd_ready st' m' /\
        CurrentState (cdm_Machine m') = cd_target cb /\ is_actor_cb cb = false /\
        partnerChurn (prt st') = churn_flag cb /\ PartnerOper (prt st') = PartnerOper (prt st)
  | None => pcd_process es ev st = Ok (st, Some InvalidStateEvent)
  end.
Proof.
  intros [Hm Hb Hru]. destruct (first_rule _ _ _) as [cb|] eqn:Hrule.
  - assert (Ha : negb (is_actor_cb cb) = true)
      by exact (first_rule_forall (fun _ _ cb => negb (is_actor_cb cb)) partner_cd_rules
                  _ _ _ eq_refl Hrule).
    apply negb_true_iff in Ha.
    set (st0 := set_pcdm (fun m => m <| Curr ::= SetEvent es ev |>) st).
    destruct (pcd_callback_spec cb st0 _ (pcd_set _ _ _ Hm) Ha)
      as (st1 & m1 & Hrun & Hm1 & HM & Hact & Hfl).
    eexists _, (m1 <| cdm_Machine ::= fun m => m <| Curr ::= SetState (cd_target cb) |> |>).
    split.
    { unfold pcd_process.
      rewrite (ProcessEvent_run _ _ _ es ev tt st (cdm_Machine m) cb);
        [fold st0; by rewrite Hrun | unfold get_pcdm; by rewrite Hm | done
        | by rewrite Hru, AddRules_first]. }
    split; [constructor; [by apply pcd_set|..]; simpl_get; rewrite HM; [exact Hb|exact Hru]|].
    split; [done|]. split; [done|]. split; [exact Hfl | exact Hact].
  - unfold pcd_process.
    apply (ProcessEvent_ignore _ _ _ es ev tt st (cdm_Machine m));
      [unfold get_pcdm; by rewrite Hm | done | by rewrite Hru, AddRules_first].
Qed.

Lemma pcd_timer_churn st m :
  pcd_ready st m -> CurrentState (cdm_Machine m) = LacpCdmStatePartnerChurnMonitor ->
  exists st' m', pcd_timer st = Ok st' /\ pcd_ready st' m' /\
    CurrentState (cdm_Machine m') = LacpCdmStatePartnerChurn /\
    partnerChurn (prt st') = true /\ PartnerOper (prt st') = PartnerOper (prt st).
Proof.
  intros [Hm Hb Hru] Hs. unfold pcd_timer.
  assert (Hr0 : pcd_ready (upd_pcdm ChurnDetectionTimerStop st) (ChurnDetectionTimerStop m)).
  { constructor; [|exact Hb|exact Hru]. unfold upd_pcdm, upd_prt. simpl_get. by rewrite Hm. }
  pose proof (pcd_process_spec PCdMachineModuleStr LacpCdmEventPartnerChurnTimerExpired _ _ Hr0) as H.
  change (CurrentState (cdm_Machine (ChurnDetectionTimerStop m)))
    with (CurrentState (cdm_Machine m)) in H. rewrite Hs in H.
  change (first_rule _ _ _) with (Some LacpCdMachinePartnerChurn_cb) in H. cbv iota in H.
  destruct H as (st1 & m1 & -> & Hr1 & Hs1 & _ & Hf & Hp). exists st1, m1. by split_and!.
Qed.
