(* ===== verification/LacpMuxProofs.v ===== *)
(** * LACP: the mux machine keeps the actor's flags in step with its state

    Synchronisation, Collecting and Distributing of the actor are exactly the
    flags of the state the mux machine is in, on every port, whatever events
    and timer expiries the machines receive; and none of them panics. *)

From S2P Require Import Prelude Fsm LacpDefs LacpPort LacpMux LacpBits.

#[global] Instance MuxCallback_eq : EqDecision MuxCallback.
Proof. solve_decision. Defined.

(** ** The three flags *)

Definition bits (a : Z) : bool * bool * bool :=
  (LacpStateIsSet a LacpStateSyncBit, LacpStateIsSet a LacpStateCollectingBit,
   LacpStateIsSet a LacpStateDistributingBit).

Definition set_bits (b : Z) '(s, c, d) : bool * bool * bool :=
  (s || Z.testbit b 3, c || Z.testbit b 4, d || Z.testbit b 5).
Definition clear_bits (b : Z) '(s, c, d) : bool * bool * bool :=
  (s && negb (Z.testbit b 3), c && negb (Z.testbit b 4), d && negb (Z.testbit b 5)).

Lemma bits_set b a : bits (LacpStateSet b a) = set_bits b (bits a).
Proof.
  unfold bits, set_bits.
  change LacpStateSyncBit with (2 ^ 3). change LacpStateCollectingBit with (2 ^ 4).
  change LacpStateDistributingBit with (2 ^ 5). by rewrite !IsSet_Set.
Qed.

Lemma bits_clear b a : bits (LacpStateClear b a) = clear_bits b (bits a).
Proof.
  unfold bits, clear_bits.
  change LacpStateSyncBit with (2 ^ 3). change LacpStateCollectingBit with (2 ^ 4).
  change LacpStateDistributingBit with (2 ^ 5). by rewrite !IsSet_Clear.
Qed.

(** The flags the mux machine has no business with. *)
Definition other_bits (a : Z) : bool * bool * bool * bool :=
  (LacpStateIsSet a LacpStateActivityBit, LacpStateIsSet a LacpStateTimeoutBit,
   LacpStateIsSet a LacpStateDefaultedBit, LacpStateIsSet a LacpStateExpiredBit).

Definition foreign (b : Z) : bool :=
  Z.testbit b 0 || Z.testbit b 1 || Z.testbit b 6 || Z.testbit b 7.

Lemma other_bits_eq a :
  other_bits a = (Z.testbit a 0, Z.testbit a 1, Z.testbit a 6, Z.testbit a 7).
Proof.
  unfold other_bits. change LacpStateActivityBit with (2 ^ 0). change LacpStateTimeoutBit with (2 ^ 1).
  change LacpStateDefaultedBit with (2 ^ 6). change LacpStateExpiredBit with (2 ^ 7).
  by rewrite !IsSet_testbit.
Qed.

Lemma other_bits_set b a : foreign b = false -> other_bits (LacpStateSet b a) = other_bits a.
Proof.
  unfold foreign. rewrite !orb_false_iff, !other_bits_eq. intros (((H0 & H1) & H6) & H7).
  unfold LacpStateSet. by rewrite !Z.lor_spec, H0, H1, H6, H7, !orb_false_r.
Qed.

Lemma other_bits_clear b a : foreign b = false -> other_bits (LacpStateClear b a) = other_bits a.
Proof.
  unfold foreign. rewrite !orb_false_iff, !other_bits_eq. intros (((H0 & H1) & H6) & H7).
  unfold LacpStateClear. rewrite !Z.land_spec, !Z.lxor_spec, H0, H1, H6, H7.
  cbn. by rewrite !andb_true_r.
Qed.

(** What the mux machine leaves alone of a port. *)
Definition port_view (p : LaAggPort) :=
  (PortNum p, RxMachineFsm p, PtxMachineFsm p, PCdMachineFsm p, PartnerOper p, partnerAdmin p,
   other_bits (State (ActorOper p))).

Section MuxProofs.
Context {asicd : AsicD}.

(** ** What the operations of the machine rely on and leave alone *)

Record mux_pre (st : St) : Prop := {
  mp_mux : is_Some (MuxMachineFsm (prt st));
  mp_tx : is_Some (TxMachineFsm (prt st));
  mp_cd : is_Some (CdMachineFsm (prt st));
  mp_attached : forall r, AggAttached (prt st) = Some r -> is_Some (AggHeap st !! r)
}.

Definition agg_view (a : LaAggregator) : Z * list Z := (AggId a, PortNumList a).

(** [f] is what happens to the three flags. *)
Record mux_rel (f : bool * bool * bool -> bool * bool * bool) (st st' : St) : Prop := {
  mr_self : self st' = self st;
  mr_rest : rest st' = rest st;
  mr_glob : gLacpSysGlobalInfoList st' = gLacpSysGlobalInfoList st;
  mr_heap : forall r, agg_view <$> AggHeap st' !! r = agg_view <$> AggHeap st !! r;
  mr_view : port_view (prt st') = port_view (prt st);
  mr_machine : get_muxm st' = get_muxm st;
  mr_bits : bits (State (ActorOper (prt st'))) = f (bits (State (ActorOper (prt st))));
  mr_sel : aggSelected (prt st') = aggSelected (prt st) /\
           IsPortEnabled (prt st') = IsPortEnabled (prt st) /\
           lacpEnabled (prt st') = lacpEnabled (prt st);
  mr_pre : mux_pre st'
}.

Lemma mux_rel_refl st : mux_pre st -> mux_rel id st st.
Proof. intros. by constructor. Qed.

Lemma mux_rel_trans f g st1 st2 st3 :
  mux_rel f st1 st2 -> mux_rel g st2 st3 -> mux_rel (g ∘ f) st1 st3.
Proof.
  intros [] []. constructor; try congruence.
  - cbn. by rewrite mr_bits1, mr_bits0.
  - destruct mr_sel0 as (? & ? & ?), mr_sel1 as (? & ? & ?). split_and!; congruence.
Qed.

Lemma heap_some (st st' : St) r :
  (forall r, agg_view <$> AggHeap st' !! r = agg_view <$> AggHeap st !! r) ->
  is_Some (AggHeap st !! r) -> is_Some (AggHeap st' !! r).
Proof.
  intros Hh [a Ha]. specialize (Hh r). rewrite Ha in Hh. by destruct (AggHeap st' !! r).
Qed.

Lemma emit_rel x st : mux_pre st -> mux_rel id st (emit x st).
Proof. intros []. by repeat constructor. Qed.

Lemma upd_actor_rel g f st :
  (forall a, bits (g a) = f (bits a)) -> (forall a, other_bits (g a) = other_bits a) ->
  mux_pre st -> mux_rel f st (upd_actor_state g st).
Proof.
  intros Hg Ho []. constructor; try done; [|apply Hg].
  unfold port_view, upd_actor_state, upd_prt. simpl_get. by rewrite Ho.
Qed.

Lemma upd_agg_rel r g st :
  (forall a, agg_view (g a) = agg_view a) -> mux_pre st -> mux_rel id st (upd_agg r g st).
Proof.
  intros Hg Hp.
  assert (Hh : forall r', agg_view <$> AggHeap (upd_agg r g st) !! r' = agg_view <$> AggHeap st !! r').
  { intros r'. unfold upd_agg. simpl_get. destruct (decide (r = r')) as [->|].
    - rewrite lookup_alter_eq. destruct (AggHeap st !! r'); [|done]. cbn. by rewrite Hg.
    - by rewrite lookup_alter_ne. }
  destruct Hp. constructor; try done. constructor; try done.
  intros r' Hr'. eapply heap_some; [exact Hh|]. by apply mp_attached0.
Qed.

(** Updates of the mux machine that keep its state machine. *)
Lemma upd_muxm_rel g st :
  (forall m, muxm_Machine (g m) = muxm_Machine m) -> mux_pre st -> mux_rel id st (upd_muxm g st).
Proof.
  intros Hg Hp. pose proof Hp as [[m Hm] ? ? ?].
  assert (Hm' : MuxMachineFsm (prt (upd_muxm g st)) = Some (g m))
    by (unfold upd_muxm, upd_prt; simpl_get; by rewrite Hm).
  constructor; try done.
  unfold get_muxm. rewrite Hm, Hm'. cbn. by rewrite Hg.
Qed.

Lemma send_txm_rel ev st : mux_pre st -> exists st', send_txm ev st = Ok st' /\ mux_rel id st st'.
Proof.
  intros Hp. pose proof Hp as [? [m Hm] ? ?]. unfold send_txm. rewrite Hm. eexists. split; [done|].
  constructor; try done. constructor; try done. unfold upd_txm, upd_prt. simpl_get. by rewrite Hm.
Qed.

Lemma send_cdm_rel ev st : mux_pre st -> exists st', send_cdm ev st = Ok st' /\ mux_rel id st st'.
Proof.
  intros Hp. pose proof Hp as [? ? [m Hm] ?]. unfold send_cdm. rewrite Hm. eexists. split; [done|].
  constructor; try done. constructor; try done. unfold upd_cdm, upd_prt. simpl_get. by rewrite Hm.
Qed.

Lemma SendTxMachineNtt_rel st :
  mux_pre st -> exists st', SendTxMachineNtt st = Ok st' /\ mux_rel id st st'.
Proof.
  intros Hp. pose proof Hp as [? [m Hm] ? ?]. unfold SendTxMachineNtt, state_of, get_txm.
  rewrite Hm. cbn [fmap option_fmap option_map of_option exec_bind].
  destruct (negb _); [by apply send_txm_rel|]. exists st. split; [done|]. by apply mux_rel_refl.
Qed.

Lemma inform_cdm_rel l code st :
  mux_pre st -> exists st', inform_cdm l code st = Ok st' /\ mux_rel id st st'.
Proof.
  intros Hp. pose proof Hp as [? ? [m Hm] ?]. unfold inform_cdm, state_of, get_cdm.
  rewrite Hm. cbn [fmap option_fmap option_map of_option exec_bind].
  destruct (existsb _ _); [by apply send_cdm_rel|]. exists st. split; [done|]. by apply mux_rel_refl.
Qed.

Lemma mux_rel_id_trans st1 st2 st3 : mux_rel id st1 st2 -> mux_rel id st2 st3 -> mux_rel id st1 st3.
Proof. apply mux_rel_trans. Qed.

Lemma update_lags_rel stop cs a st : mux_pre st -> mux_rel id st (update_lags stop cs a st).1.
Proof.
  revert st. induction cs as [|c cs IH]; intros st Hp; cbn [update_lags]; [by apply mux_rel_refl|].
  pose proof (emit_rel (UpdateLag c (HwAggId a) (asicDHashModeGet (LagHash a))
    (asicDPortBmpFormatGet (PortConfigMap st) (DistributedPortNumList a))) st Hp) as He.
  destruct (_ && _); [exact He|]. eapply mux_rel_id_trans; [exact He|]. apply IH, He.
Qed.

Lemma delete_lags_rel cs a st : mux_pre st -> mux_rel id st (delete_lags cs a st).1.
Proof.
  revert st. induction cs as [|c cs IH]; intros st Hp; cbn [delete_lags]; [by apply mux_rel_refl|].
  pose proof (emit_rel (DeleteLag c (HwAggId a)) st Hp) as He.
  destruct (DeleteLag_error _ _); [exact He|]. eapply mux_rel_id_trans; [exact He|]. apply IH, He.
Qed.

Lemma notify_rel f owners st : mux_pre st -> mux_rel id st (notify f owners st).
Proof.
  unfold notify. revert st. induction owners as [|o l IH]; intros st Hp; cbn [foldl];
    [by apply mux_rel_refl|].
  eapply mux_rel_id_trans; [by apply emit_rel|]. apply IH. by apply (emit_rel (f o)).
Qed.

Lemma if_rel (b : bool) st st1 st2 :
  mux_rel id st st1 -> mux_rel id st st2 -> mux_rel id st (if b then st1 else st2).
Proof. by destruct b. Qed.

Lemma EnableDistributing_rel st :
  mux_pre st -> exists st', EnableDistributing st = Ok st' /\ mux_rel id st st'.
Proof.
  intros Hp. unfold EnableDistributing. destruct (AggAttached (prt st)) as [r|] eqn:Hr;
    [|exists st; split; [done|by apply mux_rel_refl]].
  set (st1 := upd_agg r _ st). assert (H1 : mux_rel id st st1) by by apply upd_agg_rel.
  destruct (mp_attached st1 (mr_pre _ _ _ H1) r Hr) as [a ->]. cbn [of_option exec_bind].
  pose proof (update_lags_rel false AsicDPluginList a st1 (mr_pre _ _ _ H1)) as H2.
  destruct (update_lags false AsicDPluginList a st1) as [st2 ok]. cbn [fst] in H2.
  set (st3 := notify _ _ st2).
  assert (H3 : mux_rel id st2 st3) by apply notify_rel, H2.
  assert (H03 : mux_rel id st st3) by (eapply mux_rel_id_trans, H3; by eapply mux_rel_id_trans).
  eexists. split; [done|]. apply if_rel; [|done].
  eapply mux_rel_id_trans; [exact H03|]. apply notify_rel, H03.
Qed.

Lemma DisableDistributing_rel st :
  mux_pre st -> exists st', DisableDistributing st = Ok st' /\ mux_rel id st st'.
Proof.
  intros Hp. unfold DisableDistributing. destruct (AggAttached (prt st)) as [r|] eqn:Hr;
    [|exists st; split; [done|by apply mux_rel_refl]].
  destruct (mp_attached st Hp r Hr) as [a Ha]. rewrite Ha. cbn [of_option exec_bind].
  destruct (existsb _ _); [|exists st; split; [done|by apply mux_rel_refl]].
  set (a1 := a <| DistributedPortNumList ::= _ |>).
  assert (H1 : mux_rel id st (upd_agg r (fun _ => a1) st)).
  { assert (Hh : forall r', agg_view <$> AggHeap (upd_agg r (fun _ => a1) st) !! r'
                           = agg_view <$> AggHeap st !! r').
    { intros r'. unfold upd_agg. simpl_get. destruct (decide (r = r')) as [<-|].
      - rewrite lookup_alter_eq, Ha. done.
      - by rewrite lookup_alter_ne. }
    destruct Hp. constructor; try done. constructor; try done.
    intros r' Hr'. eapply heap_some; [exact Hh|]. by apply mp_attached0. }
  set (st1 := upd_agg r _ st) in *. clearbody st1.
  pose proof (update_lags_rel true AsicDPluginList a1 st1 (mr_pre _ _ _ H1)) as H2.
  destruct (update_lags true AsicDPluginList a1 st1) as [st2 ok]. cbn [fst] in H2.
  assert (H02 : mux_rel id st st2) by by eapply mux_rel_id_trans.
  destruct ok; cbn [negb]; [|by exists st2].
  set (empty := len _ =? 0).
  set (st3 := if empty then _ else st2).
  assert (H03 : mux_rel id st st3).
  { apply if_rel; [|done]. eapply mux_rel_id_trans; [exact H02|]. apply notify_rel, H02. }
  clearbody st3. set (st4 := notify _ _ st3).
  assert (H04 : mux_rel id st st4)
    by (eapply mux_rel_id_trans; [exact H03|]; apply notify_rel, H03).
  clearbody st4. destruct empty; [|by exists st4].
  pose proof (delete_lags_rel AsicDPluginList a1 st4 (mr_pre _ _ _ H04)) as H5.
  destruct (delete_lags AsicDPluginList a1 st4) as [st5 ok]. cbn [fst] in H5.
  assert (H05 : mux_rel id st st5) by by eapply mux_rel_id_trans.
  destruct ok; cbn [negb]; [|by exists st5].
  eexists. split; [done|]. eapply mux_rel_id_trans; [exact H05|]. apply upd_agg_rel; [done|apply H05].
Qed.

Lemma count_actor_sync_rel st :
  mux_pre st -> exists st', count_actor_sync st = Ok st' /\ mux_rel id st st'.
Proof.
  intros Hp. pose proof Hp as [[m Hm] ? ? ?]. unfold count_actor_sync. rewrite Hm.
  cbn [of_option exec_bind].
  set (st1 := upd_muxm _ (upd_prt _ st)).
  assert (H1 : mux_rel id st st1).
  { eapply mux_rel_id_trans; [|apply upd_muxm_rel; [done|]].
    - by constructor.
    - by constructor. }
  destruct (_ =? _); [by exists st1|]. destruct (_ <? _); [by exists st1|].
  exists st. split; [done|]. by apply mux_rel_refl.
Qed.

Lemma LaFindAggById_some st id r :
  LaFindAggById st id = Some r -> exists a, AggHeap st !! r = Some a /\ AggId a = id.
Proof.
  intros Hf%find_some. destruct Hf as [_ Hf]. destruct (AggHeap st !! r) as [a|]; [|done].
  exists a. split; [done|]. by apply Z.eqb_eq.
Qed.

Lemma AttachMux_rel st : mux_pre st -> mux_rel id st (AttachMuxToAggregator st).
Proof.
  intros Hp. unfold AttachMuxToAggregator. destruct (LaFindAggById _ _) as [r|] eqn:Hf;
    [|by apply mux_rel_refl].
  destruct (LaFindAggById_some _ _ _ Hf) as (a & Ha & _). destruct Hp.
  eapply mux_rel_id_trans; [|apply upd_actor_rel].
  - constructor; try done. constructor; try done. intros r' Hr'.
    change (Some r = Some r') in Hr'. simplify_eq. by exists a.
  - intros x. rewrite bits_set. unfold set_bits, bits. cbn. by rewrite !orb_false_r.
  - intros x. by apply other_bits_set.
  - constructor; try done. intros r' Hr'. change (Some r = Some r') in Hr'. simplify_eq. by exists a.
Qed.

(** ** Callbacks *)

Definition cb_bits (cb : MuxCallback) : bool * bool * bool -> bool * bool * bool :=
  match cb with
  | LacpMuxmDetached_cb => clear_bits 48 ∘ clear_bits 8
  | LacpMuxmWaiting_cb | LacpMuxmCWaiting_cb => id
  | LacpMuxmAttached_cb => clear_bits 16 ∘ set_bits 8
  | LacpMuxmCollecting_cb => clear_bits 32 ∘ set_bits 16
  | LacpMuxmDistributing_cb => set_bits 32
  | LacpMuxmCDetached_cb => clear_bits 32 ∘ clear_bits 24
  | LacpMuxmCAttached_cb => clear_bits 32 ∘ (clear_bits 16 ∘ set_bits 8)
  | LacpMuxmCCollectingDistributing_cb => set_bits 32 ∘ set_bits 32
  end.

(** The state the callback returns. *)
Definition cb_target (cb : MuxCallback) : Z :=
  match cb with
  | LacpMuxmDetached_cb | LacpMuxmCDetached_cb => LacpMuxmStateDetached
  | LacpMuxmAttached_cb => LacpMuxmStateAttached
  | LacpMuxmCollecting_cb => LacpMuxmStateCollecting
  | LacpMuxmDistributing_cb => LacpMuxmStateDistributing
  | _ => LacpMuxmStateWaiting
  end.

Lemma mux_rel_then f st1 st2 st3 : mux_rel f st1 st2 -> mux_rel id st2 st3 -> mux_rel f st1 st3.
Proof. intros H1 H2. exact (mux_rel_trans f id _ _ _ H1 H2). Qed.

Lemma clear_rel b f st1 st2 :
  foreign b = false -> mux_rel f st1 st2 ->
  mux_rel (clear_bits b ∘ f) st1 (upd_actor_state (LacpStateClear b) st2).
Proof.
  intros Hb H1. eapply mux_rel_trans; [exact H1|].
  apply upd_actor_rel; [apply bits_clear|intros; by apply other_bits_clear|apply H1].
Qed.

Lemma set_rel b f st1 st2 :
  foreign b = false -> mux_rel f st1 st2 -> mux_rel (set_bits b ∘ f) st1 (upd_actor_state (LacpStateSet b) st2).
Proof.
  intros Hb H1. eapply mux_rel_trans; [exact H1|].
  apply upd_actor_rel; [apply bits_set|intros; by apply other_bits_set|apply H1].
Qed.

(** Run the next operation [L] of a callback, [H] relating the start to now. *)
Ltac rel_step L H :=
  let st := fresh "st" in let Hs := fresh "Hs" in
  destruct (L _ (mr_pre _ _ _ H)) as (st & -> & Hs); cbn [exec_bind];
  apply (mux_rel_then _ _ _ _ H) in Hs; clear H; rename Hs into H.

Lemma agg_flag_rel f g st1 st2 :
  (forall a, agg_view (g a) = agg_view a) -> mux_rel f st1 st2 ->
  mux_rel f st1 (match AggAttached (prt st2) with Some r => upd_agg r g st2 | None => st2 end).
Proof.
  intros Hg H1. destruct (AggAttached (prt st2)) as [r|]; [|done].
  eapply mux_rel_then; [exact H1|]. apply upd_agg_rel; [done|apply H1].
Qed.

(** The callback runs, moves to its state and sets the flags of that state. *)
Definition callback_ok (cb : MuxCallback) : Prop :=
  forall st, mux_pre st -> exists st', mux_callback cb tt st = Ok (st', cb_target cb) /\ mux_rel (cb_bits cb) st st'.

Ltac start_callback := intros st Hp; pose proof (mux_rel_refl st Hp) as H; cbn [mux_callback cb_bits cb_target].

Lemma Detached_ok : callback_ok LacpMuxmDetached_cb.
Proof.
  start_callback. unfold LacpMuxmDetached. apply (clear_rel LacpStateSyncBit) in H; [|done].
  rel_step (inform_cdm_rel [LacpCdmStateNoActorChurn] LacpCdmEventActorOperPortStateSyncOff) H.
  rel_step DisableDistributing_rel H.
  apply (clear_rel (Z.lor LacpStateDistributingBit LacpStateCollectingBit)) in H; [|done].
  destruct (mp_mux _ (mr_pre _ _ _ H)) as [m Hm]. unfold state_of, get_muxm. rewrite Hm.
  cbn [fmap option_fmap option_map of_option exec_bind].
  destruct (negb _); [rel_step SendTxMachineNtt_rel H|]; eauto.
Qed.

Lemma Waiting_ok : callback_ok LacpMuxmWaiting_cb.
Proof.
  start_callback. unfold LacpMuxmWaiting. destruct (LaFindAggById _ _) as [r|] eqn:Hf.
  - destruct (LaFindAggById_some _ _ _ Hf) as (a & -> & _). cbn [of_option exec_bind].
    destruct (_ || _); cbn [exec_bind]; eexists; (split; [done|]).
    + eapply mux_rel_id_trans; [apply (upd_agg_rel r (fun a => a <| ready := false |>)); done|].
      apply upd_muxm_rel; [|apply upd_agg_rel; done].
      intros m. unfold WaitWhileTimerStop. by destruct (waitWhileTimer m).
    + by apply upd_muxm_rel.
  - cbn [exec_bind]. eexists. split; [done|]. by apply upd_muxm_rel.
Qed.

Lemma Attached_ok : callback_ok LacpMuxmAttached_cb.
Proof.
  start_callback. unfold LacpMuxmAttached. eapply mux_rel_id_trans in H; [|by apply mux_rel_refl].
  pose proof (mux_rel_then _ _ _ _ H (AttachMux_rel st Hp)) as H1. clear H.
  apply (set_rel LacpStateSyncBit) in H1; [|done].
  rel_step (inform_cdm_rel [LacpCdmStateActorChurnMonitor; LacpCdmStateActorChurn]
              LacpCdmEventActorOperPortStateSyncOn) H1.
  rel_step count_actor_sync_rel H1.
  apply (clear_rel LacpStateCollectingBit) in H1; [|done].
  eapply mux_rel_then in H1; [|apply (emit_rel (ProcessLacpPortPartnerInfoSync (i32 (PortNum (prt (upd_actor_state (LacpStateClear LacpStateCollectingBit) st1)))))), H1].
  rel_step SendTxMachineNtt_rel H1. eauto.
Qed.

Lemma Collecting_ok : callback_ok LacpMuxmCollecting_cb.
Proof.
  start_callback. unfold LacpMuxmCollecting. apply (set_rel LacpStateCollectingBit) in H; [|done].
  rel_step DisableDistributing_rel H.
  apply (clear_rel LacpStateDistributingBit) in H; [|done].
  eapply (agg_flag_rel _ (fun a => if len (DistributedPortNumList a) =? 0
                                   then a <| OperState := false |> else a)) in H;
    [|intros a; by destruct (_ =? 0)].
  rel_step SendTxMachineNtt_rel H. eauto.
Qed.

Lemma Distributing_ok : callback_ok LacpMuxmDistributing_cb.
Proof.
  start_callback. unfold LacpMuxmDistributing. apply (set_rel LacpStateDistributingBit) in H; [|done].
  rel_step EnableDistributing_rel H.
  eapply (agg_flag_rel _ (fun a => a <| OperState := true |>)) in H; [|done].
  rel_step SendTxMachineNtt_rel H. eauto.
Qed.

Lemma CDetached_ok : callback_ok LacpMuxmCDetached_cb.
Proof.
  start_callback. unfold LacpMuxmCDetached. apply (clear_rel (Z.lor LacpStateSyncBit LacpStateCollectingBit)) in H; [|done].
  rel_step (inform_cdm_rel [LacpCdmStateNoActorChurn] LacpCdmEventActorOperPortStateSyncOff) H.
  apply (clear_rel LacpStateDistributingBit) in H; [|done].
  eapply mux_rel_then in H; [|apply (emit_rel (ProcessLacpPortPartnerInfoMismatch (i32 (PortNum (prt (upd_actor_state (LacpStateClear LacpStateDistributingBit) st0)))))), H].
  rel_step SendTxMachineNtt_rel H. eauto.
Qed.

Lemma CAttached_ok : callback_ok LacpMuxmCAttached_cb.
Proof.
  start_callback. unfold LacpMuxmCAttached.
  pose proof (mux_rel_then _ _ _ _ H (AttachMux_rel st Hp)) as H1. clear H.
  apply (set_rel LacpStateSyncBit) in H1; [|done].
  rel_step (inform_cdm_rel [LacpCdmStateActorChurnMonitor; LacpCdmStateActorChurn]
              LacpCdmEventActorOperPortStateSyncOn) H1.
  apply (clear_rel LacpStateCollectingBit) in H1; [|done].
  apply (clear_rel LacpStateDistributingBit) in H1; [|done].
  eapply mux_rel_then in H1; [|apply emit_rel, H1].
  rel_step SendTxMachineNtt_rel H1. eauto.
Qed.

Lemma mux_callback_spec cb st :
  mux_pre st -> exists st', mux_callback cb tt st = Ok (st', cb_target cb) /\
    mux_rel (cb_bits cb) st st'.
Proof.
  revert st. destruct cb; [apply Detached_ok | apply Waiting_ok | apply Attached_ok | apply Collecting_ok |
    apply Distributing_ok | apply CDetached_ok | | apply CAttached_ok |]; start_callback.
  - unfold LacpMuxmCWaiting. eexists. split; [done|]. by apply upd_muxm_rel.
  - unfold LacpMuxmCCollectingDistributing. apply (set_rel LacpStateDistributingBit) in H; [|done].
    apply (set_rel LacpStateDistributingBit) in H; [|done].
    rel_step SendTxMachineNtt_rel H. eauto.
Qed.

(** ** The state and the flags *)

(** The flags of the states of the machine in use. *)
Definition level_bits (s : Z) : bool * bool * bool :=
  (LacpMuxmStateAttached <=? s, LacpMuxmStateCollecting <=? s, LacpMuxmStateDistributing <=? s).

Definition running (s : Z) : bool :=
  (LacpMuxmStateDetached <=? s) && (s <=? LacpMuxmStateDistributing).

(** In the state before the first event the flags are whatever the
    configuration left in them. *)
Definition tracks (s : Z) (b : bool * bool * bool) : Prop :=
  s = LacpMuxmStateNone \/ (running s = true /\ b = level_bits s).

Definition row_ok (s : Z) (cb : MuxCallback) : bool :=
  if s =? LacpMuxmStateNone then bool_decide (cb = LacpMuxmDetached_cb)
  else negb (running s) ||
       (running (cb_target cb) && bool_decide (cb_bits cb (level_bits s) = level_bits (cb_target cb))).

Lemma rule_ok s ev cb : first_rule mux_rules s ev = Some cb -> row_ok s cb = true.
Proof.
  intros Hr. pose (P := fun s ev (_ : MuxCallback) =>
    match first_rule mux_rules s ev with Some cb => row_ok s cb | None => true end).
  assert (HP : P s ev cb = true)
    by (eapply (first_rule_forall P mux_rules); [vm_compute; reflexivity|exact Hr]).
  unfold P in HP. by rewrite Hr in HP.
Qed.

Lemma rule_tracks s ev cb b :
  first_rule mux_rules s ev = Some cb -> tracks s b ->
  tracks (cb_target cb) (cb_bits cb b) /\ cb_target cb <> LacpMuxmStateNone.
Proof.
  intros Hr%rule_ok Ht. unfold row_ok in Hr. destruct Ht as [->|[Hs ->]].
  - cbn in Hr. apply bool_decide_eq_true in Hr as ->. split; [|done]. right. split; [done|].
    destruct b as [[[] []] []]; reflexivity.
  - destruct (Z.eqb_spec s LacpMuxmStateNone) as [->|]; [done|]. rewrite Hs in Hr.
    apply andb_true_iff in Hr as [Hr1 Hr2%bool_decide_eq_true]. split; [|by intros E; rewrite E in Hr1].
    by right.
Qed.

(** ** Every port *)

Record port_ok (h : gmap ref LaAggregator) (p : LaAggPort) : Prop := {
  po_tx : is_Some (TxMachineFsm p);
  po_cd : is_Some (CdMachineFsm p);
  po_attached : forall r, AggAttached p = Some r -> is_Some (h !! r);
  po_machine : exists m, muxm_Machine <$> MuxMachineFsm p = Some m /\ Begin m = true /\
    (forall s ev, Rules m !! (s, ev) = first_rule mux_rules s ev) /\
    tracks (CurrentState m) (bits (State (ActorOper p)))
}.

Record sys_ok (st : St) : Prop := {
  so_ports : forall r p, port_at st r = Some p -> port_ok (AggHeap st) p;
  so_members : forall r a id, AggHeap st !! r = Some a -> id ∈ PortNumList a ->
    is_Some (LaFindPortById st id)
}.

Lemma port_at_self st : port_at st (self st) = Some (prt st).
Proof. unfold port_at. by rewrite bool_decide_eq_true_2. Qed.

Lemma sys_self st : sys_ok st -> port_ok (AggHeap st) (prt st).
Proof. intros H. eapply so_ports; [exact H|]. apply port_at_self. Qed.

Lemma sys_pre st : sys_ok st -> mux_pre st.
Proof.
  intros H%sys_self. destruct H as [? ? ? (m & Hm & _)]. constructor; try done.
  by destruct (MuxMachineFsm (prt st)).
Qed.

Lemma port_ok_heap (st st' : St) p :
  (forall r, agg_view <$> AggHeap st' !! r = agg_view <$> AggHeap st !! r) ->
  port_ok (AggHeap st) p -> port_ok (AggHeap st') p.
Proof.
  intros Hh []. constructor; try done. intros r Hr. eapply heap_some; [exact Hh|].
  by apply po_attached0.
Qed.

Lemma find_ext {A} (f g : A -> bool) l : (forall x, f x = g x) -> List.find f l = List.find g l.
Proof. intros H. induction l as [|x l IH]; cbn; [done|]. by rewrite H, IH. Qed.

(** The numbers of the ports decide which port an identifier names. *)
Lemma LaFindPortById_ext st st' id :
  (forall r, PortNum <$> port_at st' r = PortNum <$> port_at st r) ->
  gLacpSysGlobalInfoList st' = gLacpSysGlobalInfoList st ->
  LaFindPortById st' id = LaFindPortById st id.
Proof.
  intros Hn Hg. unfold LaFindPortById, all_ports. rewrite Hg. apply find_ext. intros r.
  specialize (Hn r). destruct (port_at st' r), (port_at st r); cbn in Hn; simplify_eq; try done.
  by rewrite Hn.
Qed.

(** What a step leaves alone outside the running port. *)
Record sys_rel (st st' : St) : Prop := {
  sr_self : self st' = self st;
  sr_view : forall r, port_view <$> port_at st' r = port_view <$> port_at st r;
  sr_glob : gLacpSysGlobalInfoList st' = gLacpSysGlobalInfoList st;
  sr_heap : forall r, agg_view <$> AggHeap st' !! r = agg_view <$> AggHeap st !! r
}.

#[global] Instance sys_rel_preorder : PreOrder sys_rel.
Proof.
  split; [done|]. intros st1 st2 st3 [] []. constructor; congruence.
Qed.

Lemma LaFindPortById_rel st st' id : sys_rel st st' -> LaFindPortById st' id = LaFindPortById st id.
Proof.
  intros [_ Hv Hg _]. apply LaFindPortById_ext; [|done]. intros r. specialize (Hv r).
  destruct (port_at st' r), (port_at st r); cbn in *; simplify_eq; [|done]. by f_equal.
Qed.

Lemma members_rel st st' :
  sys_rel st st' ->
  (forall r a id, AggHeap st !! r = Some a -> id ∈ PortNumList a -> is_Some (LaFindPortById st id)) ->
  forall r a id, AggHeap st' !! r = Some a -> id ∈ PortNumList a -> is_Some (LaFindPortById st' id).
Proof.
  intros Hrel Hm r a id Ha Hid. rewrite (LaFindPortById_rel st st' id Hrel).
  pose proof (sr_heap _ _ Hrel r) as Hh.
  rewrite Ha in Hh. destruct (AggHeap st !! r) as [a'|] eqn:Ha'; [|done].
  unfold agg_view in Hh. cbn in Hh. simplify_eq. eapply (Hm r a' id Ha'). congruence.
Qed.

(** A step of the running port: what it leaves alone, its own port included. *)
Record run_rel (st st' : St) : Prop := {
  rr_self : self st' = self st;
  rr_rest : rest st' = rest st;
  rr_glob : gLacpSysGlobalInfoList st' = gLacpSysGlobalInfoList st;
  rr_heap : forall r, agg_view <$> AggHeap st' !! r = agg_view <$> AggHeap st !! r;
  rr_view : port_view (prt st') = port_view (prt st);
  rr_sel : aggSelected (prt st') = aggSelected (prt st);
  rr_up : IsPortEnabled (prt st') = IsPortEnabled (prt st);
  rr_lacp : lacpEnabled (prt st') = lacpEnabled (prt st)
}.

#[global] Instance run_rel_preorder : PreOrder run_rel.
Proof. split; [done|]. intros st1 st2 st3 [] []. constructor; congruence. Qed.

Lemma mux_rel_run f st st' : mux_rel f st st' -> run_rel st st'.
Proof. intros []. destruct mr_sel0 as (? & ? & ?). by constructor. Qed.

Lemma run_rel_sys st st' : run_rel st st' -> sys_rel st st'.
Proof.
  intros []. constructor; try done. intros r. unfold port_at. rewrite rr_self0, rr_rest0.
  destruct (bool_decide _); [|done]. cbn. by rewrite rr_view0.
Qed.

(** A step of the running port that leaves that port well-formed. *)
Lemma sys_ok_step st st' :
  sys_rel st st' -> rest st' = rest st -> port_ok (AggHeap st') (prt st') -> sys_ok st -> sys_ok st'.
Proof.
  intros Hs Hrest Hp [Hports Hmem]. constructor.
  - intros r p. unfold port_at. rewrite (sr_self _ _ Hs), Hrest.
    destruct (bool_decide_reflect (r = self st)) as [->|Hne]; [by intros [= <-]|].
    intros E. eapply port_ok_heap; [apply Hs|]. apply (Hports r). unfold port_at.
    by rewrite bool_decide_eq_false_2.
  - by eapply members_rel.
Qed.

Lemma sys_ok_id st st' : mux_rel id st st' -> sys_ok st -> sys_ok st'.
Proof.
  intros Hr H. eapply sys_ok_step; [by eapply run_rel_sys, mux_rel_run|apply Hr| |exact H].
  destruct (sys_self _ H) as [_ _ _ (m & Hm & Hb & Hrl & Ht)]. destruct (mr_pre _ _ _ Hr).
  constructor; [done|done|done|]. exists m. change (muxm_Machine <$> MuxMachineFsm (prt st')) with (get_muxm st').
  rewrite (mr_machine _ _ _ Hr), (mr_bits _ _ _ Hr). by split_and!.
Qed.

(** ** One event of the machine *)

Lemma set_muxm_run g st : run_rel st (set_muxm g st).
Proof. by constructor. Qed.

Lemma set_muxm_get g st : get_muxm (set_muxm g st) = g <$> get_muxm st.
Proof.
  unfold get_muxm, set_muxm, upd_muxm, upd_prt. simpl_get. by destruct (MuxMachineFsm (prt st)).
Qed.

Lemma set_muxm_pre g st : mux_pre st -> mux_pre (set_muxm g st).
Proof.
  intros [[m Hm] ? ? ?]. constructor; try done. unfold set_muxm, upd_muxm, upd_prt. simpl_get.
  by rewrite Hm.
Qed.

Lemma set_muxm_bits g st : bits (State (ActorOper (prt (set_muxm g st)))) = bits (State (ActorOper (prt st))).
Proof. done. Qed.

Lemma mux_process_run es ev st m cb :
  sys_ok st -> get_muxm st = Some m -> first_rule mux_rules (CurrentState m) ev = Some cb ->
  exists st' m', mux_process es ev st = Ok (st', None) /\ sys_ok st' /\ run_rel st st' /\
    get_muxm st' = Some m' /\ CurrentState m' = cb_target cb.
Proof.
  intros H Hm Hr. destruct (sys_self _ H) as [_ _ _ (m0 & Hm0 & Hb & Hrl & Ht)].
  change (get_muxm st = Some m0) in Hm0. simplify_eq.
  set (st1 := set_muxm (fun m => m <| Curr ::= SetEvent es ev |>) st).
  destruct (mux_callback_spec cb st1) as (st2 & Hcb & H2); [by apply set_muxm_pre, sys_pre|].
  set (st3 := set_muxm (fun m => m <| Curr ::= SetState (cb_target cb) |>) st2).
  set (m3 := m <| Curr ::= SetEvent es ev |> <| Curr ::= SetState (cb_target cb) |>).
  assert (Hm3 : get_muxm st3 = Some m3).
  { unfold st3. rewrite set_muxm_get, (mr_machine _ _ _ H2). unfold st1. by rewrite set_muxm_get, Hm. }
  assert (Hrun : run_rel st st3).
  { transitivity st1; [apply set_muxm_run|]. transitivity st2; [by eapply mux_rel_run|].
    apply set_muxm_run. }
  exists st3, m3. split; [|split; [|done]].
  - unfold mux_process. rewrite (ProcessEvent_run _ _ _ _ _ _ _ m cb); [|done|done|].
    + fold st1. rewrite Hcb. done.
    + by rewrite Hrl.
  - eapply sys_ok_step; [by apply run_rel_sys|apply Hrun| |exact H].
    destruct (set_muxm_pre (fun m => m <| Curr ::= SetState (cb_target cb) |>) st2 (mr_pre _ _ _ H2)).
    constructor; [done|done|done|]. exists m3. split; [exact Hm3|]. split; [exact Hb|]. split; [exact Hrl|].
    unfold st3. rewrite set_muxm_bits, (mr_bits _ _ _ H2). unfold st1. rewrite set_muxm_bits.
    by eapply rule_tracks.
Qed.

Lemma mux_process_ignore es ev st m :
  sys_ok st -> get_muxm st = Some m -> first_rule mux_rules (CurrentState m) ev = None ->
  mux_process es ev st = Ok (st, Some InvalidStateEvent).
Proof.
  intros H Hm Hr. destruct (sys_self _ H) as [_ _ _ (m0 & Hm0 & Hb & Hrl & Ht)].
  change (get_muxm st = Some m0) in Hm0. simplify_eq. unfold mux_process.
  rewrite (ProcessEvent_ignore _ _ _ _ _ _ _ m); [done|done|done|]. by rewrite Hrl.
Qed.

(** The state the machine of a well-formed port is in. *)
Lemma sys_machine st :
  sys_ok st -> exists m, get_muxm st = Some m /\ state_of (get_muxm st) = Ok (CurrentState m).
Proof.
  intros H. destruct (sys_self _ H) as [_ _ _ (m & Hm & _)]. exists m. split; [exact Hm|].
  unfold get_muxm. by rewrite Hm.
Qed.

Definition ok_run (x : exec St) (st : St) : Prop :=
  exists st', x = Ok st' /\ sys_ok st' /\ run_rel st st'.

Lemma mux_process_ok es ev st :
  sys_ok st -> exists st' rv, mux_process es ev st = Ok (st', rv) /\ sys_ok st' /\ run_rel st st'.
Proof.
  intros H. destruct (sys_machine _ H) as (m & Hm & _).
  destruct (first_rule mux_rules (CurrentState m) ev) as [cb|] eqn:Hr.
  - destruct (mux_process_run es ev st m cb H Hm Hr) as (st' & m' & E & ? & ? & _). eauto.
  - rewrite (mux_process_ignore es ev st m H Hm Hr). exists st, (Some InvalidStateEvent). done.
Qed.

Lemma mux_step_ok code st : sys_ok st -> ok_run (mux_step code st) st.
Proof.
  intros H. unfold mux_step. destruct (mux_process_ok MuxMachineModuleStr code st H) as (st' & rv & -> & ?).
  by exists st'.
Qed.

(** ** Several ports *)

Definition ok_sys (x : exec St) (st : St) : Prop :=
  exists st', x = Ok st' /\ sys_ok st' /\ sys_rel st st'.

Lemma ok_run_sys x st : ok_run x st -> ok_sys x st.
Proof. intros (st' & ? & ? & ?%run_rel_sys). by exists st'. Qed.

Lemma ok_sys_ret st : sys_ok st -> ok_sys (Ok st) st.
Proof. by exists st. Qed.

Lemma ok_sys_bind x k st :
  ok_sys x st -> (forall st', sys_ok st' -> sys_rel st st' -> ok_sys (k st') st') ->
  ok_sys (let! st' := x in k st') st.
Proof.
  intros (st1 & -> & H1 & R1) Hk. cbn [exec_bind]. destruct (Hk st1 H1 R1) as (st2 & -> & H2 & R2).
  exists st2. split; [done|]. split; [done|]. by transitivity st1.
Qed.

(** Looking at the same objects from another port. *)
Record same_ports (st st' : St) : Prop := {
  sp_port : forall r, port_at st' r = port_at st r;
  sp_glob : gLacpSysGlobalInfoList st' = gLacpSysGlobalInfoList st;
  sp_heap : AggHeap st' = AggHeap st
}.

Lemma same_ports_sys st st' : same_ports st st' -> sys_ok st -> sys_ok st'.
Proof.
  intros [Hp Hg Hh] [H1 H2]. constructor.
  - intros r p. rewrite Hp, Hh. apply H1.
  - intros r a id. rewrite Hh. intros Ha Hid.
    rewrite (LaFindPortById_ext st st' id); [by eapply H2| |done]. intros r'. by rewrite Hp.
Qed.

Lemma focus_ok r st :
  is_Some (port_at st r) -> exists st', focus r st = Ok st' /\ self st' = r /\ same_ports st st'.
Proof.
  intros [q Hq]. unfold focus. unfold port_at in Hq.
  destruct (bool_decide_reflect (r = self st)) as [->|Hne]; [by exists st|].
  rewrite Hq. cbn [of_option exec_bind]. eexists. split; [done|]. split; [done|].
  constructor; [|done|done]. intros x. unfold port_at. simpl_get.
  destruct (bool_decide_reflect (x = r)) as [->|]; [by rewrite bool_decide_eq_false_2|].
  destruct (bool_decide_reflect (x = self st)) as [->|]; [by rewrite lookup_insert_eq|].
  rewrite lookup_insert_ne by done. by rewrite lookup_delete_ne.
Qed.

Lemma port_at_rel st st' r : sys_rel st st' -> is_Some (port_at st r) -> is_Some (port_at st' r).
Proof. intros [_ Hn _ _] [q Hq]. specialize (Hn r). rewrite Hq in Hn. by destruct (port_at st' r). Qed.

Lemma same_ports_view st1 st2 st3 st4 :
  same_ports st1 st2 -> sys_rel st2 st3 -> same_ports st3 st4 -> self st4 = self st1 ->
  sys_rel st1 st4.
Proof.
  intros [Hp1 Hg1 Hh1] [_ Hv Hg Hh] [Hp2 Hg2 Hh2] Hs. constructor; [done| | |].
  - intros r. by rewrite Hp2, Hv, Hp1.
  - congruence.
  - intros r. by rewrite Hh2, Hh, Hh1.
Qed.

Lemma on_port_ok r f st :
  is_Some (port_at st r) -> (forall st, sys_ok st -> ok_sys (f st) st) -> sys_ok st ->
  ok_sys (on_port r f st) st.
Proof.
  intros Hr Hf H. unfold on_port.
  destruct (focus_ok r st Hr) as (st1 & -> & Hself & H1). cbn [exec_bind].
  destruct (Hf st1) as (st2 & -> & H2 & R2); [by eapply same_ports_sys|]. cbn [exec_bind].
  destruct (focus_ok (self st) st2) as (st3 & -> & Hself3 & H3).
  { eapply port_at_rel; [exact R2|]. rewrite (sp_port _ _ H1), port_at_self. done. }
  exists st3. split; [done|]. split; [by eapply same_ports_sys|]. by eapply same_ports_view.
Qed.

Lemma for_each_ok {A} (f : A -> St -> exec St) l st :
  (forall x st, sys_ok st -> ok_sys (f x st) st) -> sys_ok st -> ok_sys (for_each f l st) st.
Proof.
  intros Hf. revert st. induction l as [|x l IH]; intros st H; cbn; [by apply ok_sys_ret|].
  apply ok_sys_bind; [by apply Hf|]. intros st' H' _. by apply IH.
Qed.

Lemma attach_if_ready_ok id st : sys_ok st -> ok_sys (attach_if_ready id st) st.
Proof.
  intros H. unfold attach_if_ready. destruct (LaFindPortById st id) as [q|]; [|by apply ok_sys_ret].
  destruct (port_at st q) as [port|] eqn:Hq; [|by apply ok_sys_ret].
  destruct (readyN port); [|by apply ok_sys_ret].
  apply on_port_ok; [done| |done]. intros st' H'. by apply ok_run_sys, mux_step_ok.
Qed.

Lemma find_port_at st id q : LaFindPortById st id = Some q -> is_Some (port_at st q).
Proof. intros [_ Hq]%find_some. by destruct (port_at st q). Qed.

Lemma all_ready_ok ids st :
  (forall id, id ∈ ids -> is_Some (LaFindPortById st id)) -> exists b, all_ready ids st = Ok b.
Proof.
  induction ids as [|id ids IH]; intros H; cbn; [by eexists|].
  destruct (H id) as [q Hq]; [set_solver|]. destruct (find_port_at st id q Hq) as [p Hp].
  rewrite Hq. cbn. rewrite Hp. destruct IH as [b ->]; [set_solver|]. by eexists.
Qed.

Lemma CheckSelection_ok r st :
  is_Some (AggHeap st !! r) -> sys_ok st -> ok_sys (LacpMuxCheckSelectionLogic r st) st.
Proof.
  intros [a Ha] H. unfold LacpMuxCheckSelectionLogic. rewrite Ha. cbn [of_option exec_bind].
  destruct (all_ready_ok (PortNumList a) st) as [b ->]; [intros; by eapply so_members|].
  cbn [exec_bind]. set (st1 := upd_agg r _ st).
  assert (R : mux_rel id st st1) by (apply upd_agg_rel; [done|by apply sys_pre]).
  assert (H1 : sys_ok st1) by by eapply sys_ok_id.
  assert (R1 : sys_rel st st1) by by eapply run_rel_sys, mux_rel_run.
  clearbody st1. destruct b; [|by exists st1].
  destruct (for_each_ok attach_if_ready (PortNumList a) st1) as (st2 & -> & ? & ?);
    [apply attach_if_ready_ok|done|]. exists st2. split; [done|]. split; [done|]. by transitivity st1.
Qed.

(** Changes of the running port outside what the invariant speaks of. *)
Lemma sys_ok_upd g st :
  PortNum (g (prt st)) = PortNum (prt st) -> port_ok (AggHeap st) (g (prt st)) ->
  sys_ok st -> sys_ok (upd_prt g st).
Proof.
  intros Hn Hg [H1 H2]. constructor.
  - intros r p. unfold port_at. change (self (upd_prt g st)) with (self st).
    destruct (bool_decide_reflect (r = self st)) as [->|Hne]; [by intros [= <-]|].
    intros E. apply (H1 r). unfold port_at. by rewrite bool_decide_eq_false_2.
  - intros r a id Ha Hid. rewrite (LaFindPortById_ext st (upd_prt g st) id); [by eapply H2| |done].
    intros x. unfold port_at. change (self (upd_prt g st)) with (self st).
    destruct (bool_decide _); [|done]. cbn. by rewrite <- Hn.
Qed.

Lemma sys_ok_prt g st :
  (forall p, port_view (g p) = port_view p) ->
  (forall h p, port_ok h p -> port_ok h (g p)) -> sys_ok st ->
  sys_ok (upd_prt g st) /\ sys_rel st (upd_prt g st).
Proof.
  intros Hn Hg H. split.
  - apply sys_ok_upd; [|by apply Hg, sys_self|done]. specialize (Hn (prt st)).
    unfold port_view in Hn. congruence.
  - constructor; try done. intros r. unfold port_at. change (self (upd_prt g st)) with (self st).
    destruct (bool_decide _); [|done]. cbn. by rewrite <- (Hn (prt st)).
Qed.

Lemma WaitingEvaluate_ok st : sys_ok st -> ok_sys (LacpMuxmWaitingEvaluateSelected st) st.
Proof.
  intros H. unfold LacpMuxmWaitingEvaluateSelected. destruct (_ || _); [|by apply ok_sys_ret].
  destruct (sys_ok_prt (fun p => p <| readyN := true |>) st) as [H1 R1]; [done| |done|].
  { intros h p []. by constructor. }
  set (st1 := upd_prt _ st) in *. clearbody st1.
  destruct (LaFindAggById _ _) as [r|] eqn:Hf; [|by exists st1].
  destruct (LaFindAggById_some _ _ _ Hf) as (a & Ha & _).
  destruct (CheckSelection_ok r st1) as (st2 & -> & ? & ?); [by eexists|done|].
  exists st2. split; [done|]. split; [done|]. by transitivity st1.
Qed.

(** ** The event loop *)

Lemma with_machine st k :
  sys_ok st -> (forall m, get_muxm st = Some m -> ok_sys (k (CurrentState m)) st) ->
  ok_sys (let! cur := state_of (get_muxm st) in k cur) st.
Proof. intros H Hk. destruct (sys_machine _ H) as (m & Hm & ->). by apply Hk. Qed.

Lemma step_sys code st : sys_ok st -> ok_sys (mux_step code st) st.
Proof. intros. by apply ok_run_sys, mux_step_ok. Qed.

Lemma reselect_ok code st :
  sys_ok st -> exists st' code', reselect code st = Ok (st', code') /\ sys_ok st' /\ sys_rel st st'.
Proof.
  intros H. unfold reselect. destruct (sys_machine _ H) as (m & _ & ->). cbn [exec_bind].
  destruct (_ && _); [|by exists st, code].
  destruct (sys_ok_prt (fun p => p <| aggSelected := LacpAggSelected |>) st) as [H1 R1]; [done| |done|].
  { intros h p []. by constructor. }
  set (st1 := upd_prt _ st) in *. clearbody st1.
  assert (R : mux_rel id st1 (upd_actor_state (LacpStateSet LacpStateAggregationBit) st1)).
  { apply upd_actor_rel; [|intros; by apply other_bits_set|by apply sys_pre]. intros x.
    rewrite bits_set. unfold set_bits, bits. cbn. by rewrite !orb_false_r. }
  pose proof (sys_ok_id _ _ R H1) as H2. apply mux_rel_run, run_rel_sys in R.
  set (st2 := upd_actor_state _ st1) in *. clearbody st2.
  destruct (step_sys LacpMuxmEventSelectedEqualSelected st2 H2) as (st3 & -> & H3 & R3).
  exists st3, LacpMuxmEventSelectedEqualSelected. split; [done|]. split; [done|].
  transitivity st1; [done|]. by transitivity st2.
Qed.

Lemma fast_attach_ok code st : sys_ok st -> ok_sys (fast_attach code st) st.
Proof.
  intros H. unfold fast_attach. destruct (mp_mux _ (sys_pre _ H)) as [m ->]. cbn [of_option exec_bind].
  destruct (_ && _); [by apply WaitingEvaluate_ok|by apply ok_sys_ret].
Qed.

Lemma start_collecting_ok st : sys_ok st -> ok_sys (start_collecting st) st.
Proof.
  intros H. unfold start_collecting. apply with_machine; [done|]. intros m _.
  destruct (_ && _); [by apply step_sys|by apply ok_sys_ret].
Qed.

Lemma start_distributing_ok st : sys_ok st -> ok_sys (start_distributing st) st.
Proof.
  intros H. unfold start_distributing. apply with_machine; [done|]. intros m _.
  destruct (_ && _); [by apply step_sys|by apply ok_sys_ret].
Qed.

Lemma unselect_ok code st : sys_ok st -> ok_sys (unselect code st) st.
Proof.
  intros H. unfold unselect. apply with_machine; [done|]. intros m _.
  destruct (_ && _); [|by apply ok_sys_ret]. generalize (Z.to_nat (CurrentState m -
    (if LacpMuxmStateDistributing <? CurrentState m then LacpMuxmStateCDetached
     else LacpMuxmStateDetached))). clear m. intros n. revert st H.
  induction n as [|n IH]; intros st H; cbn; [by apply ok_sys_ret|].
  apply ok_sys_bind; [by apply step_sys|]. intros st' H' _. by apply IH.
Qed.

Lemma respond_ok es ev st : sys_ok st -> sys_ok (respond es ev st) /\ sys_rel st (respond es ev st).
Proof.
  intros H. unfold respond. destruct (ev_ResponseChan ev); [|done].
  pose proof (emit_rel (SendResponse es) st (sys_pre _ H)) as R.
  split; [by eapply sys_ok_id|by eapply run_rel_sys, mux_rel_run].
Qed.

Lemma mux_event_ok ev st : sys_ok st -> ok_sys (mux_event ev st) st.
Proof.
  intros H. unfold mux_event.
  destruct (mux_process_ok (ev_Src ev) (ev_E ev) st H) as (st1 & rv & -> & H1 & R1%run_rel_sys).
  cbn [exec_bind]. enough (ok_sys (match rv with Some _ => Ok st1 | None => _ end) st1)
    as (st2 & -> & H2 & R2).
  { destruct (respond_ok MuxMachineModuleStr ev st2 H2) as [H3 R3]. eexists. split; [done|].
    split; [done|]. transitivity st1; [done|]. by transitivity st2. }
  destruct rv; [by apply ok_sys_ret|].
  destruct (reselect_ok (ev_E ev) st1 H1) as (st2 & code & -> & H2 & R2). cbn [exec_bind].
  enough (ok_sys (let! st := fast_attach code st2 in let! st := start_collecting st in
                  let! st := start_distributing st in unselect code st) st2) as (st3 & -> & H3 & R3).
  { exists st3. split; [done|]. split; [done|]. by transitivity st2. }
  apply ok_sys_bind; [by apply fast_attach_ok|]. intros st3 H3 _.
  apply ok_sys_bind; [by apply start_collecting_ok|]. intros st4 H4 _.
  apply ok_sys_bind; [by apply start_distributing_ok|]. intros st5 H5 _. by apply unselect_ok.
Qed.

Lemma mux_timer_ok st : sys_ok st -> ok_sys (mux_timer st) st.
Proof.
  intros H. unfold mux_timer. set (st1 := upd_muxm _ st).
  assert (R : mux_rel id st st1) by (apply upd_muxm_rel; [done|by apply sys_pre]).
  pose proof (sys_ok_id _ _ R H) as H1. apply mux_rel_run, run_rel_sys in R.
  clearbody st1. destruct (sys_machine _ H1) as (m & _ & ->). cbn [exec_bind].
  destruct (is_waiting _); [|by exists st1].
  destruct (WaitingEvaluate_ok st1 H1) as (st2 & -> & ? & ?). exists st2.
  split; [done|]. split; [done|]. by transitivity st1.
Qed.

(** ** Runs *)

(** What happens to the ports: an event or the timer of a mux machine, and in
    between whatever the other machines and the operator do to the selection,
    the partner's data, the link and the administrative state of a port, and
    to [lacpEnabled].  [LaAggPortLacpDisable] is not among them: it overwrites
    the flags themselves, in whatever state the mux machine is
    ([lacp_disable_overwrites_flags]). *)
Definition others (sel : Z) (up link lacp : bool) (partner : LacpPortInfo) (p : LaAggPort) : LaAggPort :=
  p <| aggSelected := sel |> <| PortEnabled := up |> <| LinkOperStatus := link |>
    <| lacpEnabled := lacp |> <| PartnerOper := partner |>.

Inductive mux_move : St -> St -> Prop :=
| move_event r ev st st' :
    is_Some (port_at st r) -> on_port r (mux_event ev) st = Ok st' -> mux_move st st'
| move_timer r st st' :
    is_Some (port_at st r) -> on_port r mux_timer st = Ok st' -> mux_move st st'
| move_other r p sel up link lacp partner st st' :
    port_at st r = Some p ->
    port_at st' r = Some (others sel up link lacp partner p) ->
    (forall r', r' <> r -> port_at st' r' = port_at st r') ->
    gLacpSysGlobalInfoList st' = gLacpSysGlobalInfoList st -> AggHeap st' = AggHeap st ->
    mux_move st st'.

Lemma mux_move_ok st st' : mux_move st st' -> sys_ok st -> sys_ok st'.
Proof.
  intros Hm H. destruct Hm as [r ev st st' Hr E|r st st' Hr E|r p sel up link lacp partner st st' Hp Hp' Hne Hg Hh].
  - destruct (on_port_ok r (mux_event ev) st Hr (mux_event_ok ev) H) as (st2 & E2 & ? & _).
    rewrite E in E2. by simplify_eq.
  - destruct (on_port_ok r mux_timer st Hr mux_timer_ok H) as (st2 & E2 & ? & _).
    rewrite E in E2. by simplify_eq.
  - constructor.
    + intros r' p'. rewrite Hh. destruct (decide (r' = r)) as [->|]; [|rewrite Hne by done; apply H].
      rewrite Hp'. intros [= <-]. destruct (so_ports _ H r p Hp) as [? ? ? ?]. by constructor.
    + intros r' a id. rewrite Hh. intros Ha Hid. rewrite (LaFindPortById_ext st st' id);
        [by eapply so_members| |done].
      intros x. destruct (decide (x = r)) as [->|]; [by rewrite Hp, Hp'|by rewrite Hne].
Qed.

(** Only the machine's own table moves it below the state it is in: each
    unselection takes one step down. *)
Lemma unselected_down es st m :
  sys_ok st -> get_muxm st = Some m -> LacpMuxmStateWaiting <= CurrentState m ->
  CurrentState m <= LacpMuxmStateDistributing ->
  exists st' m', mux_process es LacpMuxmEventSelectedEqualUnselected st = Ok (st', None) /\ sys_ok st' /\
    run_rel st st' /\ get_muxm st' = Some m' /\
    CurrentState m' = Z.max LacpMuxmStateDetached
                        (if CurrentState m =? LacpMuxmStateAttached then LacpMuxmStateDetached
                         else CurrentState m - 1).
Proof.
  intros H Hm H1 H2.
  assert (Hs : CurrentState m = 2 \/ CurrentState m = 3 \/ CurrentState m = 4 \/ CurrentState m = 5)
    by (unfold LacpMuxmStateWaiting, LacpMuxmStateDistributing in *; lia).
  destruct Hs as [Hs|[Hs|[Hs|Hs]]]; rewrite Hs;
    (edestruct (mux_process_run es LacpMuxmEventSelectedEqualUnselected) as (st' & m' & E & Hrest);
      [exact H|exact Hm|rewrite Hs; reflexivity|exists st', m'; exact (conj E Hrest)]).
Qed.

Lemma mux_step_process code st st' rv :
  mux_process MuxMachineModuleStr code st = Ok (st', rv) -> mux_step code st = Ok st'.
Proof. intros E. unfold mux_step. by rewrite E. Qed.

(** The downward loop ends in the detached state: it makes at least as many
    steps as there are states left. *)
Lemma unselect_down_detached n st m :
  sys_ok st -> get_muxm st = Some m ->
  LacpMuxmStateDetached <= CurrentState m <= LacpMuxmStateDistributing ->
  CurrentState m - LacpMuxmStateDetached <= Z.of_nat n ->
  exists st' m', unselect_down n st = Ok st' /\ sys_ok st' /\ run_rel st st' /\
    get_muxm st' = Some m' /\ CurrentState m' = LacpMuxmStateDetached.
Proof.
  unfold LacpMuxmStateDetached, LacpMuxmStateDistributing.
  revert st m. induction n as [|n IH]; intros st m H Hm Hs Hn.
  { exists st, m. cbn. split_and!; try done. lia. }
  cbn [unselect_down]. destruct (decide (CurrentState m = 1)) as [Hd|Hd].
  - rewrite (mux_step_process _ st st (Some InvalidStateEvent)).
    + cbn [exec_bind]. apply (IH st m); try done. lia.
    + apply (mux_process_ignore _ _ st m H Hm). by rewrite Hd.
  - destruct (unselected_down MuxMachineModuleStr st m) as (st1 & m1 & E & H1 & R1 & Hm1 & Hs1);
      [done|done|unfold LacpMuxmStateWaiting; lia|unfold LacpMuxmStateDistributing; lia|].
    rewrite (mux_step_process _ _ _ _ E). cbn [exec_bind].
    unfold LacpMuxmStateDetached, LacpMuxmStateAttached in Hs1.
    destruct (IH st1 m1) as (st2 & m2 & E2 & H2 & R2 & ?);
      [done|done|destruct (_ =? _) in Hs1; lia|destruct (_ =? _) in Hs1; lia|].
    exists st2, m2. split; [done|]. split; [done|]. split; [by transitivity st1|done].
Qed.

Lemma detached_flags st m :
  sys_ok st -> get_muxm st = Some m -> CurrentState m = LacpMuxmStateDetached ->
  bits (State (ActorOper (prt st))) = (false, false, false).
Proof.
  intros H Hm Hs. destruct (sys_self _ H) as [_ _ _ (m0 & Hm0 & _ & _ & Ht)].
  change (get_muxm st = Some m0) in Hm0. simplify_eq. rewrite Hs in Ht.
  by destruct Ht as [?|[_ ->]].
Qed.

(** C5: In a system whose ports have their machines and whose aggregators list
    existing ports only, whatever events and timer expiries the mux machines
    receive, and whatever happens in between to the selection, the partner's
    data, the link and the administrative state of the ports, as long as LACP
    is not taken off a port ([LaAggPortLacpDisable]), the Synchronisation,
    Collecting and Distributing flags of every port are those of the state its
    mux machine is in: nothing below ATTACHED, then one more flag per state;
    and no mux machine panics or is left waiting in the ready check.  (A full
    event channel delays its sender; this delay is not modelled.) *)
Theorem mux_flags_track_state st st' :
  sys_ok st -> rtc mux_move st st' ->
  (forall r p m, port_at st' r = Some p -> muxm_Machine <$> MuxMachineFsm p = Some m ->
     CurrentState m <> LacpMuxmStateNone ->
     bits (State (ActorOper p)) = level_bits (CurrentState m)) /\
  (forall r ev, is_Some (port_at st' r) -> exists st'', on_port r (mux_event ev) st' = Ok st'') /\
  (forall r, is_Some (port_at st' r) -> exists st'', on_port r mux_timer st' = Ok st'').
Proof.
  intros H Hrun. assert (H' : sys_ok st').
  { induction Hrun as [|st1 st2 st3 Hm _ IH]; [done|]. by apply IH, (mux_move_ok st1). }
  split; [|split].
  - intros r p m Hp Hm Hs. destruct (so_ports _ H' r p Hp) as [_ _ _ (m0 & Hm0 & _ & _ & Ht)].
    rewrite Hm in Hm0. simplify_eq. by destruct Ht as [?|[_ ?]].
  - intros r ev Hr. destruct (on_port_ok r _ st' Hr (mux_event_ok ev) H') as (st2 & ? & _). by exists st2.
  - intros r Hr. destruct (on_port_ok r _ st' Hr mux_timer_ok H') as (st2 & ? & _). by exists st2.
Qed.

Lemma start_skip st :
  sys_ok st -> aggSelected (prt st) <> LacpAggSelected ->
  start_collecting st = Ok st /\ start_distributing st = Ok st.
Proof.
  intros H Hs. unfold start_collecting, start_distributing.
  destruct (sys_machine _ H) as (m & _ & ->). cbn [exec_bind].
  rewrite (proj2 (Z.eqb_neq _ _) Hs). by rewrite !andb_false_r, !andb_false_l.
Qed.

(** C28: A port that is no longer selected and that the machine cannot select
    again (it is down, or LACP is off on it) is taken by one UNSELECTED event
    from any of WAITING, ATTACHED, COLLECTING and DISTRIBUTING all the way to
    DETACHED, with all three flags clear, in one pass of the event loop. *)
Theorem unselected_reaches_detached ev st m :
  sys_ok st -> get_muxm st = Some m ->
  LacpMuxmStateWaiting <= CurrentState m <= LacpMuxmStateDistributing ->
  ev_E ev = LacpMuxmEventSelectedEqualUnselected ->
  aggSelected (prt st) <> LacpAggSelected ->
  IsPortEnabled (prt st) && lacpEnabled (prt st) = false ->
  exists st' m', mux_event ev st = Ok st' /\ get_muxm st' = Some m' /\
    CurrentState m' = LacpMuxmStateDetached /\
    bits (State (ActorOper (prt st'))) = (false, false, false).
Proof.
  intros H Hm Hs He Hsel Hoff. unfold mux_event. rewrite He.
  destruct (unselected_down (ev_Src ev) st m) as (st1 & m1 & -> & H1 & R1 & Hm1 & Hs1);
    [done|done|apply Hs|apply Hs|]. cbn [exec_bind].
  assert (Hre : reselect LacpMuxmEventSelectedEqualUnselected st1 =
                Ok (st1, LacpMuxmEventSelectedEqualUnselected)).
  { unfold reselect. destruct (sys_machine _ H1) as (? & _ & ->). cbn [exec_bind].
    rewrite (rr_up _ _ R1), (rr_lacp _ _ R1), <- andb_assoc, Hoff. by rewrite andb_false_r. }
  rewrite Hre. cbn [exec_bind]. unfold fast_attach.
  destruct (mp_mux _ (sys_pre _ H1)) as [mm ->]. cbn [of_option exec_bind].
  change (LacpMuxmEventSelectedEqualUnselected =? LacpMuxmEventSelectedEqualSelected) with false.
  cbn [andb exec_bind].
  destruct (start_skip st1 H1) as [-> Hd]; [by rewrite (rr_sel _ _ R1)|]. cbn [exec_bind].
  rewrite Hd. cbn [exec_bind]. clear Hd.
  assert (exists st2 m2, unselect LacpMuxmEventSelectedEqualUnselected st1 = Ok st2 /\ sys_ok st2 /\
    get_muxm st2 = Some m2 /\ CurrentState m2 = LacpMuxmStateDetached) as (st2 & m2 & -> & H2 & Hm2 & Hs2).
  { assert (1 <= CurrentState m1 <= 5).
    { rewrite Hs1. unfold LacpMuxmStateDetached, LacpMuxmStateWaiting, LacpMuxmStateDistributing in *.
      destruct (_ =? _); lia. }
    unfold unselect. rewrite Hm1. cbn [state_of of_option exec_bind].
    rewrite (proj2 (Z.ltb_ge LacpMuxmStateDistributing (CurrentState m1)))
      by (unfold LacpMuxmStateDistributing; lia).
    destruct (is_detached (CurrentState m1)) eqn:Hdet; cbn [negb]; rewrite ?andb_false_r.
    - exists st1, m1. split_and!; try done. unfold is_detached in Hdet.
      apply orb_true_iff in Hdet as [E%Z.eqb_eq|E%Z.eqb_eq]; [done|].
      unfold LacpMuxmStateCDetached in E. lia.
    - rewrite andb_true_r. rewrite Z.eqb_refl.
      destruct (unselect_down_detached (Z.to_nat (CurrentState m1 - LacpMuxmStateDetached)) st1 m1)
        as (st2 & m2 & ? & ? & _ & ? & ?); [done|done| | |by exists st2, m2];
        unfold LacpMuxmStateDetached, LacpMuxmStateDistributing; lia. }
  cbn [exec_bind]. exists (respond MuxMachineModuleStr ev st2), m2.
  split; [done|]. split; [unfold respond; by destruct (ev_ResponseChan ev)|]. split; [done|].
  etransitivity; [|by eapply (detached_flags st2 m2)]. unfold respond. by destruct (ev_ResponseChan ev).
Qed.
End MuxProofs.
