(* ===== verification/LacpRxProofs.v ===== *)
(** * LACP: what the receive machine records

    The Expired and Defaulted flags follow the state of the machine, a PDU is
    recorded field by field with the partner's Synchronisation flag decided by
    the rule of [recordPDU], silence leads through EXPIRED to DEFAULTED, and
    nothing in this panics.  The effects on the other machines go through the
    invariant of [LacpMuxProofs]. *)

From S2P Require Import Prelude Fsm LacpDefs LacpPort LacpMux LacpRx LacpCdm LacpBits.
From S2P Require Import LacpMuxProofs LacpCdmProofs.

#[global] Instance RxCallback_eq : EqDecision RxCallback.
Proof. solve_decision. Defined.

Section RxProofs.
Context {asicd : AsicD}.

(** ** Operations that only talk to the other machines *)

(** What the receive machine has recorded. *)
Record recorded := {
  rec_machine : option (Machine RxCallback);
  rec_partner : LacpPortInfo;
  rec_admin : LacpPortInfo;
  rec_bits : bool * bool * bool * bool;
  rec_pcd : option LacpCdMachine
}.

Definition view (st : St) : recorded :=
  {| rec_machine := get_rxm st; rec_partner := PartnerOper (prt st);
     rec_admin := partnerAdmin (prt st); rec_bits := other_bits (State (ActorOper (prt st)));
     rec_pcd := PCdMachineFsm (prt st) |}.

#[local] Instance recorded_settable : Settable recorded :=
  fun r => {| rec_machine := rec_machine r; rec_partner := rec_partner r; rec_admin := rec_admin r;
              rec_bits := rec_bits r; rec_pcd := rec_pcd r |}.

(** The step leaves a good state and changes what is recorded by [f]. *)
Record records (f : recorded -> recorded) (st st' : St) : Prop := {
  re_sys : sys_ok st';
  re_self : self st' = self st;
  re_view : view st' = f (view st);
  re_rx : is_Some (RxMachineFsm (prt st')) <-> is_Some (RxMachineFsm (prt st));
  re_ptx : is_Some (PtxMachineFsm (prt st)) -> is_Some (PtxMachineFsm (prt st'))
}.

Notation quiet := (records id).

Lemma quiet_refl st : sys_ok st -> quiet st st.
Proof. by constructor. Qed.

Lemma records_trans f g st1 st2 st3 :
  records f st1 st2 -> records g st2 st3 -> records (g ∘ f) st1 st3.
Proof.
  intros [] []. constructor; [done|congruence| | |auto].
  - cbn. by rewrite re_view1, re_view0.
  - by rewrite re_rx1.
Qed.

Lemma records_ext f g st st' : f (view st) = g (view st) -> records f st st' -> records g st st'.
Proof. intros E []. constructor; try done. by rewrite re_view0. Qed.

Lemma records_quiet f st1 st2 st3 : records f st1 st2 -> quiet st2 st3 -> records f st1 st3.
Proof. intros H1 H2. exact (records_trans f id _ _ _ H1 H2). Qed.

Definition runs (f : recorded -> recorded) (x : exec St) (st : St) : Prop :=
  exists st', x = Ok st' /\ records f st st'.

Lemma runs_ret st : sys_ok st -> runs id (Ok st) st.
Proof. exists st. split; [done|]. by apply quiet_refl. Qed.

Lemma runs_bind f g x k st :
  runs f x st -> (forall st', records f st st' -> runs g (k st') st') ->
  runs (g ∘ f) (let! st' := x in k st') st.
Proof.
  intros (st1 & -> & H1) Hk. cbn [exec_bind]. destruct (Hk st1 H1) as (st2 & -> & H2).
  exists st2. split; [done|]. by eapply records_trans.
Qed.

(** Updates of the running port. *)
Lemma upd_records f g st :
  PortNum (g (prt st)) = PortNum (prt st) -> port_ok (AggHeap st) (g (prt st)) ->
  view (upd_prt g st) = f (view st) ->
  (is_Some (RxMachineFsm (g (prt st))) <-> is_Some (RxMachineFsm (prt st))) ->
  (is_Some (PtxMachineFsm (prt st)) -> is_Some (PtxMachineFsm (g (prt st)))) ->
  sys_ok st -> records f st (upd_prt g st).
Proof. intros Hn Hp Hv Hr Ht H. constructor; try done. by apply sys_ok_upd. Qed.

Lemma upd_muxm_quiet g st :
  (forall m, muxm_Machine (g m) = muxm_Machine m) -> sys_ok st -> quiet st (upd_muxm g st).
Proof.
  intros Hg H. apply upd_records; try done. destruct (sys_self _ H) as [? ? ? (m & Hm & Hrest)].
  constructor; [done..|]. exists m. split; [|done]. rewrite <- Hm.
  change (MuxMachineFsm (prt st <| MuxMachineFsm ::= fmap g |>)) with (g <$> MuxMachineFsm (prt st)).
  destruct (MuxMachineFsm (prt st)); cbn; [by rewrite Hg|done].
Qed.

Lemma upd_ptxm_quiet g st : sys_ok st -> quiet st (upd_ptxm g st).
Proof.
  intros H. apply upd_records; try done.
  - destruct (sys_self _ H). by constructor.
  - intros [m Hm]. change (is_Some (g <$> PtxMachineFsm (prt st))). by rewrite Hm.
Qed.

Lemma upd_txm_quiet g st : sys_ok st -> quiet st (upd_txm g st).
Proof.
  intros H. apply upd_records; try done. destruct (sys_self _ H) as [[m Hm] ? ? ?].
  constructor; try done. change (is_Some (g <$> TxMachineFsm (prt st))). by rewrite Hm.
Qed.

Lemma upd_rxm_quiet g st :
  (forall m, rxm_Machine (g m) = rxm_Machine m) -> sys_ok st -> quiet st (upd_rxm g st).
Proof.
  intros Hg H. apply upd_records; try done.
  - destruct (sys_self _ H). by constructor.
  - unfold view, get_rxm, id. change (RxMachineFsm (prt (upd_prt _ st))) with (g <$> RxMachineFsm (prt st)).
    f_equal. destruct (RxMachineFsm (prt st)); cbn; [by rewrite Hg|done].
  - change (is_Some (g <$> RxMachineFsm (prt st)) <-> is_Some (RxMachineFsm (prt st))).
    by rewrite fmap_is_Some.
Qed.

Lemma send_mux_quiet ev st : sys_ok st -> runs id (send_muxm ev st) st.
Proof.
  intros H. unfold send_muxm. destruct (mp_mux _ (sys_pre _ H)) as [m ->]. cbn [of_option exec_bind].
  eexists. split; [done|]. by apply upd_muxm_quiet.
Qed.

Lemma send_tx_quiet ev st : sys_ok st -> runs id (send_txm ev st) st.
Proof.
  intros H. unfold send_txm. destruct (mp_tx _ (sys_pre _ H)) as [m ->]. cbn [of_option exec_bind].
  eexists. split; [done|]. by apply upd_txm_quiet.
Qed.

Lemma send_ptx_quiet ev st : sys_ok st -> is_Some (PtxMachineFsm (prt st)) -> runs id (send_ptxm ev st) st.
Proof.
  intros H [m Hm]. unfold send_ptxm. rewrite Hm. cbn [of_option exec_bind].
  eexists. split; [done|]. by apply upd_ptxm_quiet.
Qed.

Lemma unselected_quiet st : sys_ok st -> quiet st (select_unselected st).
Proof. intros H. apply upd_records; try done. destruct (sys_self _ H). by constructor. Qed.

(** Changes of the actor's flags that do not concern the mux machine. *)
Lemma upd_actor_records g h st :
  let a := State (ActorOper (prt st)) in
  bits (g a) = bits a -> other_bits (g a) = h (other_bits a) -> sys_ok st ->
  records (fun v => v <| rec_bits ::= h |>) st (upd_actor_state g st).
Proof.
  intros a Hb Ho H. apply upd_records; try done.
  - destruct (sys_self _ H) as [? ? ? (m & Hm & Hbe & Hr & Ht)]. constructor; [done|done|done|].
    exists m. split_and!; try done. simpl_get. fold a. by rewrite Hb.
  - transitivity (view st <| rec_bits := other_bits (g a) |>); [done|]. by rewrite Ho.
Qed.

Lemma emit_quiet x st : sys_ok st -> quiet st (emit x st).
Proof.
  intros H. constructor; try done. eapply sys_ok_id; [|exact H]. by apply emit_rel, sys_pre.
Qed.

(** ** Asking the mux machine and waiting *)

Lemma sys_rel_view st st' : sys_rel st st' -> port_view (prt st') = port_view (prt st).
Proof.
  intros [Hs Hv _ _]. specialize (Hv (self st)). rewrite port_at_self, <- Hs, port_at_self in Hv.
  cbn in Hv. congruence.
Qed.

Lemma ok_sys_quiet x st : ok_sys x st -> runs id x st.
Proof.
  intros (st' & -> & H & R). exists st'. split; [done|]. pose proof (sys_rel_view _ _ R) as Hv.
  unfold port_view in Hv. injection Hv as ? Hrx Hptx Hpcd Hpo Hpa Hb1 Hb2 Hb3 Hb4.
  constructor; [done|apply R| | |].
  - unfold view, get_rxm, id, other_bits. rewrite Hrx, Hpcd, Hpo, Hpa, Hb1, Hb2, Hb3, Hb4. done.
  - by rewrite Hrx.
  - by rewrite Hptx.
Qed.

Lemma mux_main_quiet st : sys_ok st -> runs id (LacpMuxMachineMain st) st.
Proof.
  intros H. unfold LacpMuxMachineMain. destruct (mp_mux _ (sys_pre _ H)) as [m ->].
  cbn [of_option exec_bind]. set (st1 := upd_prt _ st).
  assert (Q1 : quiet st st1).
  { apply upd_records; try done. destruct (sys_self _ H). by constructor. }
  clearbody st1. destruct (MuxmEvents m) as [|ev evs]; [by exists st1|].
  set (st2 := upd_muxm _ st1).
  assert (Q2 : quiet st st2).
  { eapply records_quiet; [exact Q1|]. apply upd_muxm_quiet; [done|apply Q1]. }
  clearbody st2. destruct (ok_sys_quiet _ _ (mux_event_ok ev st2 (re_sys _ _ _ Q2))) as (st3 & -> & Q3).
  exists st3. split; [done|]. by eapply records_quiet.
Qed.

Lemma serve_mux_quiet n st : sys_ok st -> runs id (serve_mux n st) st.
Proof.
  revert st. induction n as [|n IH]; intros st H; cbn; [by apply runs_ret|].
  apply (runs_bind id id); [by apply mux_main_quiet|]. intros st' H'. by apply IH, H'.
Qed.

Lemma ask_mux_quiet code st : sys_ok st -> runs id (ask_mux code st) st.
Proof.
  intros H. unfold ask_mux. apply (runs_bind id id); [by apply send_mux_quiet|].
  intros st' H'. by apply serve_mux_quiet, H'.
Qed.

Lemma rx_mux_quiet code st : sys_ok st -> runs id (rx_send_mux code st) st.
Proof. intros. by apply send_mux_quiet. Qed.

Lemma runs_if (b : bool) f x y st : runs f x st -> runs f y st -> runs f (if b then x else y) st.
Proof. by destruct b. Qed.

Lemma runs_after f g x st st1 : records f st st1 -> runs g x st1 -> runs (g ∘ f) x st.
Proof. intros H (st2 & -> & H2). exists st2. split; [done|]. by eapply records_trans. Qed.

Lemma runs_quietly g x st st1 : quiet st st1 -> runs g x st1 -> runs g x st.
Proof. intros H H1. exact (runs_after id g x st st1 H H1). Qed.

Lemma send_if_quiet (b : bool) code st :
  sys_ok st -> runs id (if b then rx_send_mux code st else Ok st) st.
Proof. intros H. apply runs_if; [by apply rx_mux_quiet|by apply runs_ret]. Qed.

Lemma checkConfig_quiet st :
  sys_ok st -> exists st' b, checkConfigForSelection st = Ok (st', b) /\ quiet st st'.
Proof.
  intros H. unfold checkConfigForSelection.
  assert (Hret : forall b : bool, exists st' (b' : bool), Ok (st, b) = Ok (st', b') /\ quiet st st').
  { intros b. exists st, b. split; [done|]. by apply quiet_refl. }
  destruct (if _ =? 0 then _ else _) as [r|] eqn:Hf; [|apply Hret].
  assert (exists a, AggHeap st !! r = Some a) as [a ->].
  { destruct (_ =? 0) in Hf; [done|]. destruct (LaFindAggById_some _ _ _ Hf) as (a & ? & _). by exists a. }
  cbn [of_option exec_bind]. destruct (mux_cur st) as [cur|]; [|apply Hret].
  destruct (is_detached cur && _ && _).
  - set (st1 := upd_actor_state _ _). assert (Q1 : quiet st st1).
    { destruct (sys_self _ H).
      apply (records_ext ((fun v => v <| rec_bits ::= id |>) ∘ id)); [by destruct (view st)|].
      apply (records_trans id (fun v => v <| rec_bits ::= id |>) _
               (upd_prt (fun p => p <| aggSelected := LacpAggSelected |>) st)).
      - by apply upd_records.
      - apply upd_actor_records; [|by apply other_bits_set|by apply sys_ok_upd].
        rewrite bits_set. destruct (bits _) as [[b1 b2] b3]. unfold set_bits. cbn.
        by rewrite !orb_false_r. }
    clearbody st1. destruct (ask_mux_quiet LacpMuxmEventSelectedEqualSelected st1 (re_sys _ _ _ Q1))
      as (st2 & -> & Q2). exists st2, true. split; [done|]. by eapply records_quiet.
  - destruct (negb _); [|apply Hret]. pose proof (unselected_quiet st H) as Q1.
    destruct (ask_mux_quiet LacpMuxmEventSelectedEqualUnselected _ (re_sys _ _ _ Q1)) as (st2 & -> & Q2).
    exists st2, false. split; [done|]. by eapply records_quiet.
Qed.

Lemma unselect_unless_waiting_quiet st : sys_ok st -> runs id (unselect_unless_waiting st) st.
Proof.
  intros H. unfold unselect_unless_waiting. apply runs_if; [|by apply runs_ret].
  eapply runs_quietly; [by apply unselected_quiet|]. by apply rx_mux_quiet, unselected_quiet.
Qed.

Lemma unselect_unless_detached_quiet st : sys_ok st -> runs id (unselect_unless_detached st) st.
Proof.
  intros H. unfold unselect_unless_detached. cbv zeta. pose proof (unselected_quiet st H) as Q.
  eapply runs_quietly; [exact Q|].
  by apply send_if_quiet, Q.
Qed.

Lemma updateSelected_quiet pdu st : sys_ok st -> runs id (updateSelected pdu st) st.
Proof.
  intros H. unfold updateSelected.
  apply runs_if; [by apply unselect_unless_waiting_quiet|by apply runs_ret].
Qed.

Lemma updateDefaultSelected_quiet st : sys_ok st -> runs id (updateDefaultSelected st) st.
Proof.
  intros H. unfold updateDefaultSelected.
  apply runs_if; [by apply unselect_unless_waiting_quiet|by apply runs_ret].
Qed.

Lemma count_mismatch_quiet st : sys_ok st -> quiet st (count_mismatch st).
Proof.
  intros H. unfold count_mismatch. pose proof (emit_quiet (ProcessLacpPortPartnerInfoMismatch
    (i32 (PortNum (prt st)))) st H) as Q. eapply records_quiet; [exact Q|].
  destruct (sys_self _ (re_sys _ _ _ Q)). apply upd_records; try done. by apply Q.
Qed.

Lemma updateNTT_quiet pdu st : sys_ok st -> quiet st (updateNTT pdu st).1.
Proof.
  intros H. unfold updateNTT. destruct (negb _); [by apply count_mismatch_quiet|].
  destruct (_ || _); [by apply count_mismatch_quiet|by apply quiet_refl].
Qed.

Lemma set_timeout_quiet start st :
  sys_ok st -> is_Some (RxMachineFsm (prt st)) -> runs id (set_timeout_if_invalid start st) st.
Proof.
  intros H [m Hm]. unfold set_timeout_if_invalid, CurrentWhileTimerValid. rewrite Hm.
  cbn [of_option exec_bind].
  assert (Ht : forall t, quiet st (upd_rxm (CurrentWhileTimerTimeoutSet t) st))
    by (intros t; by apply upd_rxm_quiet).
  assert (Hv : forall v, runs id (Ok (match v with
      | Some t => if start then upd_rxm CurrentWhileTimerStart (upd_rxm (CurrentWhileTimerTimeoutSet t) st)
                  else upd_rxm (CurrentWhileTimerTimeoutSet t) st
      | None => st end)) st).
  { intros [t|]; [|by apply runs_ret]. eexists. split; [done|]. destruct start; [|apply Ht].
    eapply records_quiet; [apply (Ht t)|]. apply upd_rxm_quiet; [done|apply (Ht t)]. }
  destruct (_ && _); [apply (Hv (Some _))|]. destruct (_ && _); [apply (Hv (Some _))|apply (Hv None)].
Qed.

Lemma inform_mux_quiet st : sys_ok st -> runs id (inform_mux st) st.
Proof.
  intros H. unfold inform_mux.
  repeat (apply runs_if || apply rx_mux_quiet || apply runs_ret); done.
Qed.

Lemma inform_ptx_quiet st :
  sys_ok st -> is_Some (PtxMachineFsm (prt st)) -> runs id (inform_ptx st) st.
Proof.
  intros H [m Hm]. unfold inform_ptx, state_of, get_txm.
  destruct (mp_tx _ (sys_pre _ H)) as [t ->]. cbn [fmap option_fmap option_map of_option exec_bind].
  rewrite Hm. cbn [of_option exec_bind].
  assert (Hs : forall code st, sys_ok st -> is_Some (PtxMachineFsm (prt st)) ->
                 runs id (rx_send_ptx code st) st) by (intros; by apply send_ptx_quiet).
  apply (runs_bind id id).
  - repeat (apply runs_if || apply Hs || apply runs_ret); done.
  - intros st' Q. apply runs_if; [apply Hs|apply runs_ret]; try apply Q. by exists m.
Qed.

Lemma inform_quiet st : sys_ok st -> runs id (InformMachinesOfStateChanges st) st.
Proof.
  intros H. unfold InformMachinesOfStateChanges.
  destruct (bool_decide_reflect (is_Some (PtxMachineFsm (prt st)))) as [Hptx|];
    [|rewrite andb_false_r, andb_false_l; by apply runs_ret].
  destruct (_ && _); [|by apply runs_ret]. apply (runs_bind id id).
  - apply runs_if; [|by apply runs_ret].
    destruct (checkConfig_quiet st H) as (st' & b & -> & Q). by exists st'.
  - intros st1 Q1. apply (runs_bind id id); [by apply inform_mux_quiet, Q1|].
    intros st2 Q2. apply inform_ptx_quiet; [apply Q2|]. by apply Q2, Q1.
Qed.

(** ** What each callback records *)

Definition set_d (b : bool) (x : bool * bool * bool * bool) : bool * bool * bool * bool :=
  let '(a, t, _, e) := x in (a, t, b, e).
Definition set_e (b : bool) (x : bool * bool * bool * bool) : bool * bool * bool * bool :=
  let '(a, t, d, _) := x in (a, t, d, b).

Definition push_pcd (code : Z) : option LacpCdMachine -> option LacpCdMachine :=
  fmap (fun m => m <| CdmEvents ::= fun l => l ++ [evt code RxMachineModuleStr] |>).

Definition pcd_off (o : option LacpCdMachine) : option LacpCdMachine :=
  if bool_decide (CurrentState <$> (cdm_Machine <$> o) = Some LacpCdmStateNoPartnerChurn)
  then push_pcd LacpCdmEventPartnerOperPortStateSyncOff o else o.

Definition rec_default (v : recorded) : recorded :=
  v <| rec_partner := rec_admin v <| State ::= LacpStateSet LacpStateSyncBit |> |>
    <| rec_bits ::= set_d true |>
    <| rec_pcd ::= if LacpStateIsSet (State (rec_admin v)) LacpStateSyncBit then id
                   else push_pcd LacpCdmEventPartnerOperPortStateSyncOn |>.

(** The partner's flags of a PDU, given the verdict of the synchronisation rule. *)
Definition sync_state (in_sync : bool) (s : Z) : Z :=
  if in_sync then s else if LacpStateIsSet s LacpStateSyncBit then LacpStateClear LacpStateSyncBit s else s.

Definition rec_pdu (pdu : LACP) (in_sync : bool) (v : recorded) : recorded :=
  v <| rec_partner := info_of_pkt (pkt_Actor pdu) <| State ::= sync_state in_sync |> |>
    <| rec_bits ::= set_d false |>.

Lemma upd_partner_records g st :
  sys_ok st ->
  records (fun v => v <| rec_partner ::= fun i => i <| State ::= g |> |>) st (upd_partner_state g st).
Proof. intros H. apply upd_records; try done. destruct (sys_self _ H). by constructor. Qed.

Lemma set_partner_records i st :
  sys_ok st ->
  records (fun v => v <| rec_partner := i |>) st (upd_prt (fun p => p <| PartnerOper := i |>) st).
Proof. intros H. apply upd_records; try done. destruct (sys_self _ H). by constructor. Qed.

Lemma upd_admin_records g st :
  sys_ok st ->
  records (fun v => v <| rec_admin ::= fun i => i <| State ::= g |> |>) st (upd_partner_admin_state g st).
Proof. intros H. apply upd_records; try done. destruct (sys_self _ H). by constructor. Qed.

Lemma send_pcd_records code st :
  sys_ok st -> is_Some (PCdMachineFsm (prt st)) ->
  runs (fun v => v <| rec_pcd ::= push_pcd code |>) (send_pcdm (evt code RxMachineModuleStr) st) st.
Proof.
  intros H [m Hm]. unfold send_pcdm. rewrite Hm. cbn [of_option exec_bind]. eexists. split; [done|].
  apply upd_records; try done. destruct (sys_self _ H). by constructor.
Qed.

Lemma pcd_on_records st :
  sys_ok st ->
  runs (fun v => v <| rec_pcd ::= push_pcd LacpCdmEventPartnerOperPortStateSyncOn |>) (pcd_sync_on st) st.
Proof.
  intros H. unfold pcd_sync_on, pcd_cur, get_pcdm.
  destruct (PCdMachineFsm (prt st)) as [m|] eqn:Hm; cbn; [apply send_pcd_records; by rewrite ?Hm|].
  exists st. split; [done|]. constructor; try done. unfold view. rewrite Hm. done.
Qed.

Lemma pcd_off_records st :
  sys_ok st -> runs (fun v => v <| rec_pcd ::= pcd_off |>) (pcd_sync_off st) st.
Proof.
  intros H. unfold pcd_sync_off.
  assert (E : rec_pcd (view st <| rec_pcd ::= pcd_off |>) =
    if bool_decide (pcd_cur st = Some LacpCdmStateNoPartnerChurn)
    then push_pcd LacpCdmEventPartnerOperPortStateSyncOff (PCdMachineFsm (prt st))
    else PCdMachineFsm (prt st)) by done.
  destruct (bool_decide_reflect (pcd_cur st = Some LacpCdmStateNoPartnerChurn)) as [Hc|Hc].
  - destruct (send_pcd_records LacpCdmEventPartnerOperPortStateSyncOff st H) as (st' & -> & R).
    { unfold pcd_cur, get_pcdm in Hc. by destruct (PCdMachineFsm (prt st)). }
    exists st'. split; [done|]. eapply records_ext; [|exact R].
    transitivity (view st <| rec_pcd := rec_pcd (view st <| rec_pcd ::= pcd_off |>) |>); [|done].
    by rewrite E.
  - exists st. split; [done|]. constructor; try done.
    transitivity (view st <| rec_pcd := rec_pcd (view st <| rec_pcd ::= pcd_off |>) |>); [|done].
    by rewrite E.
Qed.

Lemma set_flag_records g h st :
  (forall a, bits (g a) = bits a) -> (forall a, other_bits (g a) = h (other_bits a)) -> sys_ok st ->
  records (fun v => v <| rec_bits ::= h |>) st (upd_actor_state g st).
Proof. intros Hb Ho H. by apply upd_actor_records. Qed.

Lemma disjoint_bit b c k : Z.land b c = 0 -> Z.testbit c k = true -> Z.testbit b k = false.
Proof.
  intros Hb Hk. assert (E : Z.testbit (Z.land b c) k = false) by (rewrite Hb; apply Z.bits_0).
  by rewrite Z.land_spec, Hk, andb_true_r in E.
Qed.

Lemma bits_keep_set b a : Z.land b 56 = 0 -> bits (LacpStateSet b a) = bits a.
Proof.
  intros Hb. rewrite bits_set. destruct (bits a) as [[b1 b2] b3]. unfold set_bits.
  by rewrite !(disjoint_bit _ 56), !orb_false_r.
Qed.

Lemma bits_keep_clear b a : Z.land b 56 = 0 -> bits (LacpStateClear b a) = bits a.
Proof.
  intros Hb. rewrite bits_clear. destruct (bits a) as [[b1 b2] b3]. unfold clear_bits.
  by rewrite !(disjoint_bit _ 56), !andb_true_r.
Qed.

Ltac flag_bits :=
  rewrite !other_bits_eq; unfold LacpStateSet, LacpStateClear;
  rewrite ?Z.lor_spec, ?Z.land_spec, ?Z.lxor_spec; cbn; by rewrite ?orb_false_r, ?andb_true_r, ?andb_false_r, ?orb_true_r.

Lemma set_defaulted st : sys_ok st ->
  records (fun v => v <| rec_bits ::= set_d true |>) st
    (upd_actor_state (LacpStateSet LacpStateDefaultedBit) st).
Proof. intros H. apply set_flag_records; [intros a; by apply bits_keep_set|intros a; flag_bits|done]. Qed.

Lemma clear_defaulted st : sys_ok st ->
  records (fun v => v <| rec_bits ::= set_d false |>) st
    (upd_actor_state (LacpStateClear LacpStateDefaultedBit) st).
Proof. intros H. apply set_flag_records; [intros a; by apply bits_keep_clear|intros a; flag_bits|done]. Qed.

Lemma set_expired st : sys_ok st ->
  records (fun v => v <| rec_bits ::= set_e true |>) st
    (upd_actor_state (LacpStateSet LacpStateExpiredBit) st).
Proof. intros H. apply set_flag_records; [intros a; by apply bits_keep_set|intros a; flag_bits|done]. Qed.

Lemma clear_expired st : sys_ok st ->
  records (fun v => v <| rec_bits ::= set_e false |>) st
    (upd_actor_state (LacpStateClear LacpStateExpiredBit) st).
Proof. intros H. apply set_flag_records; [intros a; by apply bits_keep_clear|intros a; flag_bits|done]. Qed.

Lemma Set_already b a : LacpStateIsSet a b = true -> LacpStateSet b a = a.
Proof.
  unfold LacpStateIsSet, LacpStateSet. intros E%Z.eqb_eq. rewrite <- E, Z.lor_comm.
  apply Z.bits_inj'. intros i _. rewrite Z.lor_spec, Z.land_spec.
  by destruct (Z.testbit a i), (Z.testbit b i).
Qed.

Lemma Set_already_info b i : LacpStateIsSet (State i) b = true -> i <| State ::= LacpStateSet b |> = i.
Proof.
  destruct i as [s k pp p a]. intros H%Set_already. cbn in H.
  transitivity (Build_LacpPortInfo s k pp p (LacpStateSet b a)); [done|]. by rewrite H.
Qed.

Lemma recordDefault_records st : sys_ok st -> runs rec_default (recordDefault st) st.
Proof.
  intros H. unfold recordDefault. rewrite LacpCopyLacpPortInfo_eq. cbn [exec_bind].
  pose proof (set_partner_records (partnerAdmin (prt st)) st H) as R1.
  set (st1 := upd_prt _ st) in *. assert (Ha : PartnerOper (prt st1) = partnerAdmin (prt st)) by done.
  pose proof (records_trans _ _ _ _ _ R1 (set_defaulted st1 (re_sys _ _ _ R1))) as R2.
  set (st2 := upd_actor_state _ st1) in *.
  assert (Ha2 : PartnerOper (prt st2) = partnerAdmin (prt st)) by exact Ha.
  clearbody st2. clear Ha R1. clear st1. rewrite Ha2.
  assert (runs rec_default (if negb (LacpStateIsSet (State (partnerAdmin (prt st))) LacpStateSyncBit)
    then pcd_sync_on (upd_partner_state (LacpStateSet LacpStateSyncBit) st2) else Ok st2) st)
    as (st3 & -> & R3).
  { destruct (LacpStateIsSet _ _) eqn:Hs; cbn [negb].
    - exists st2. split; [done|]. eapply records_ext; [|exact R2]. unfold rec_default.
      change (rec_admin (view st)) with (partnerAdmin (prt st)). rewrite Hs.
      by rewrite (Set_already_info _ _ Hs).
    - pose proof (upd_partner_records (LacpStateSet LacpStateSyncBit) st2 (re_sys _ _ _ R2)) as R3.
      destruct (pcd_on_records _ (re_sys _ _ _ R3)) as (st4 & -> & R4). exists st4. split; [done|].
      pose proof (records_trans _ _ _ _ _ R2 (records_trans _ _ _ _ _ R3 R4)) as R.
      eapply records_ext; [|exact R]. unfold rec_default.
      change (rec_admin (view st)) with (partnerAdmin (prt st)). rewrite Hs. done. }
  cbn [exec_bind]. apply (runs_after _ id _ _ st3 R3).
  by apply send_if_quiet, R3.
Qed.

Lemma in_sync_actor pdu p :
  pdu_in_sync pdu p = true -> LacpStateIsSet (pkt_State (pkt_Actor pdu)) LacpStateSyncBit = true.
Proof.
  unfold pdu_in_sync. rewrite andb_true_iff, orb_true_iff, !andb_true_iff. naive_solver.
Qed.

(** The rule looks at the actor's identity, Aggregation and Activity only. *)
Lemma in_sync_clear_defaulted pdu st :
  pdu_in_sync pdu (prt (upd_actor_state (LacpStateClear LacpStateDefaultedBit) st)) =
  pdu_in_sync pdu (prt st).
Proof.
  unfold pdu_in_sync, LacpLacpPktPortInfoIsEqual.
  change (State (ActorOper (prt (upd_actor_state (LacpStateClear LacpStateDefaultedBit) st))))
    with (LacpStateClear LacpStateDefaultedBit (State (ActorOper (prt st)))).
  assert (E : forall k, 0 <= k < 8 -> k <> 6 ->
    LacpStateIsSet (LacpStateClear LacpStateDefaultedBit (State (ActorOper (prt st)))) (2 ^ k) =
    LacpStateIsSet (State (ActorOper (prt st))) (2 ^ k)).
  { intros k Hk Hne. rewrite IsSet_Clear by done. change LacpStateDefaultedBit with (2 ^ 6).
    rewrite Z.pow2_bits_false by done. by rewrite andb_true_r. }
  change LacpStateAggregationBit with (2 ^ 2). change LacpStateActivityBit with (2 ^ 0).
  by rewrite !E.
Qed.

Lemma recordPDU_records pdu st :
  sys_ok st -> runs (rec_pdu pdu (pdu_in_sync pdu (prt st))) (recordPDU pdu st) st.
Proof.
  intros H. unfold recordPDU. rewrite LacpCopyLacpPortInfoFromPkt_eq. cbn [exec_bind].
  pose proof (set_partner_records (info_of_pkt (pkt_Actor pdu)) st H) as R1.
  set (st1 := upd_prt _ st) in *.
  pose proof (records_trans _ _ _ _ _ R1 (clear_defaulted st1 (re_sys _ _ _ R1))) as R2.
  rewrite in_sync_clear_defaulted. change (pdu_in_sync pdu (prt st1)) with (pdu_in_sync pdu (prt st)).
  set (st2 := upd_actor_state _ st1) in *.
  change (State (PartnerOper (prt st2))) with (pkt_State (pkt_Actor pdu)). clearbody st2. clear R1.
  unfold rec_pdu, sync_state. destruct (pdu_in_sync pdu (prt st)) eqn:Hs.
  { rewrite (in_sync_actor _ _ Hs). exists st2. split; [done|]. by eapply records_ext; [|exact R2]. }
  destruct (LacpStateIsSet (pkt_State (pkt_Actor pdu)) LacpStateSyncBit) eqn:Hp.
  - pose proof (records_trans _ _ _ _ _ R2 (upd_partner_records (LacpStateClear LacpStateSyncBit) st2
      (re_sys _ _ _ R2))) as R3. set (st3 := upd_partner_state _ st2) in *. clearbody st3.
    assert (runs id (if mux_in collDist st3 then rx_send_mux LacpMuxmEventNotPartnerSync st3 else Ok st3) st3)
      as (st4 & -> & R4) by by apply send_if_quiet, R3.
    exists st4. split; [done|]. eapply records_quiet; [|exact R4]. eapply records_ext; [|exact R3].
    unfold info_of_pkt. cbv beta. unfold compose.
    transitivity (view st <| rec_partner := info_of_pkt (pkt_Actor pdu) <| State ::=
      LacpStateClear LacpStateSyncBit |> |> <| rec_bits ::= set_d false |>); [done|].
    transitivity (view st <| rec_partner := info_of_pkt (pkt_Actor pdu) <| State :=
      if LacpStateIsSet (pkt_State (pkt_Actor pdu)) LacpStateSyncBit
      then LacpStateClear LacpStateSyncBit (pkt_State (pkt_Actor pdu))
      else pkt_State (pkt_Actor pdu) |> |> <| rec_bits ::= set_d false |>); [by rewrite Hp|done].
  - exists st2. split; [done|]. eapply records_ext; [|exact R2].
    transitivity (view st <| rec_partner := info_of_pkt (pkt_Actor pdu) <| State :=
      if LacpStateIsSet (pkt_State (pkt_Actor pdu)) LacpStateSyncBit
      then LacpStateClear LacpStateSyncBit (pkt_State (pkt_Actor pdu))
      else pkt_State (pkt_Actor pdu) |> |> <| rec_bits ::= set_d false |>); [by rewrite Hp|done].
Qed.

Definition rx_target (cb : RxCallback) : Z :=
  match cb with
  | LacpRxMachineInitialize_cb => LacpRxmStateInitialize
  | LacpRxMachinePortDisabled_cb => LacpRxmStatePortDisabled
  | LacpRxMachineExpired_cb => LacpRxmStateExpired
  | LacpRxMachineLacpDisabled_cb => LacpRxmStateLacpDisabled
  | LacpRxMachineDefaulted_cb => LacpRxmStateDefaulted
  | LacpRxMachineCurrent_cb => LacpRxmStateCurrent
  end.

Definition rx_effect (cb : RxCallback) (data : option LACP) (in_sync : bool) (v : recorded) : recorded :=
  match cb with
  | LacpRxMachineInitialize_cb => rec_default v <| rec_bits ::= set_e false |>
  | LacpRxMachinePortDisabled_cb =>
      v <| rec_partner ::= fun i => i <| State ::= LacpStateClear LacpStateSyncBit |> |>
        <| rec_pcd ::= pcd_off |>
  | LacpRxMachineExpired_cb =>
      v <| rec_partner ::= fun i => i <| State ::= LacpStateClear LacpStateSyncBit |>
                                      <| State ::= LacpStateSet LacpStateTimeoutBit |> |>
        <| rec_pcd ::= pcd_off |> <| rec_bits ::= set_e true |>
  | LacpRxMachineLacpDisabled_cb =>
      rec_default v <| rec_partner ::= fun i => i <| State ::= LacpStateClear LacpStateAggregationBit |> |>
        <| rec_bits ::= set_e false |>
  | LacpRxMachineDefaulted_cb =>
      rec_default v <| rec_bits ::= set_e false |>
        <| rec_admin ::= fun i => i <| State ::= LacpStateSet LacpStateAggregatibleUp |> |>
  | LacpRxMachineCurrent_cb =>
      match data with
      | Some pdu => rec_pdu pdu in_sync v <| rec_bits ::= set_e false |>
          <| rec_admin ::= fun i => i <| State ::= LacpStateSet LacpStateAggregatibleDown |> |>
      | None => v
      end
  end.

(** Run the next operation, known to satisfy [L]. *)
Ltac rec_step L R :=
  let st := fresh "st" in let Hs := fresh "Hs" in
  destruct L as (st & -> & Hs); cbn [exec_bind];
  apply (records_trans _ _ _ _ _ R) in Hs; clear R; rename Hs into R.

(** Go on after an update of the port. *)
Ltac rec_upd L R :=
  let Hs := fresh "Hs" in
  pose proof (records_trans _ _ _ _ _ R L) as Hs; clear R; rename Hs into R.

Ltac rec_send R :=
  match goal with
  | |- context [if ?b then rx_send_mux ?code ?st else _] =>
      rec_step (send_if_quiet b code st (re_sys _ _ _ R)) R
  end.

Lemma Initialize_records st :
  sys_ok st -> is_Some (RxMachineFsm (prt st)) ->
  exists st', LacpRxMachineInitialize st = Ok (st', LacpRxmStateInitialize) /\
    records (rx_effect LacpRxMachineInitialize_cb None false) st st'.
Proof.
  intros H Hm. unfold LacpRxMachineInitialize. pose proof (quiet_refl st H) as R.
  rec_step (set_timeout_quiet true st H Hm) R.
  rec_upd (upd_partner_records (LacpStateSet (State (partnerAdmin (prt st0)))) st0 (re_sys _ _ _ R)) R.
  rec_step (unselect_unless_detached_quiet _ (re_sys _ _ _ R)) R.
  rec_step (recordDefault_records _ (re_sys _ _ _ R)) R.
  rec_upd (clear_expired _ (re_sys _ _ _ R)) R.
  eexists. split; [done|]. eapply records_quiet; [eapply records_ext; [|exact R]|].
  - done.
  - destruct (sys_self _ (re_sys _ _ _ R)). apply upd_records; try done. by apply R.
Qed.

Lemma PortDisabled_records st :
  sys_ok st ->
  exists st', LacpRxMachinePortDisabled st = Ok (st', LacpRxmStatePortDisabled) /\
    records (rx_effect LacpRxMachinePortDisabled_cb None false) st st'.
Proof.
  intros H. unfold LacpRxMachinePortDisabled. pose proof (quiet_refl st H) as R.
  rec_upd (upd_partner_records (LacpStateClear LacpStateSyncBit) st (re_sys _ _ _ R)) R.
  rec_step (pcd_off_records _ (re_sys _ _ _ R)) R.
  rec_send R. eexists. split; [done|]. by eapply records_ext; [|exact R].
Qed.

Lemma Expired_records st :
  sys_ok st ->
  exists st', LacpRxMachineExpired st = Ok (st', LacpRxmStateExpired) /\
    records (rx_effect LacpRxMachineExpired_cb None false) st st'.
Proof.
  intros H. unfold LacpRxMachineExpired. pose proof (quiet_refl st H) as R.
  rec_upd (upd_partner_records (LacpStateClear LacpStateSyncBit) st (re_sys _ _ _ R)) R.
  rec_step (pcd_off_records _ (re_sys _ _ _ R)) R.
  rec_send R.
  rec_upd (upd_partner_records (LacpStateSet LacpStateTimeoutBit) _ (re_sys _ _ _ R)) R.
  rec_upd (upd_rxm_quiet (CurrentWhileTimerTimeoutSet LacpShortTimeoutTime) _ (fun _ => eq_refl)
             (re_sys _ _ _ R)) R.
  rec_upd (upd_rxm_quiet CurrentWhileTimerStart _ (fun _ => eq_refl) (re_sys _ _ _ R)) R.
  rec_upd (set_expired _ (re_sys _ _ _ R)) R.
  eexists. split; [done|]. by eapply records_ext; [|exact R].
Qed.

Lemma LacpDisabled_records st :
  sys_ok st ->
  exists st', LacpRxMachineLacpDisabled st = Ok (st', LacpRxmStateLacpDisabled) /\
    records (rx_effect LacpRxMachineLacpDisabled_cb None false) st st'.
Proof.
  intros H. unfold LacpRxMachineLacpDisabled. pose proof (quiet_refl st H) as R.
  rec_upd (upd_rxm_quiet CurrentWhileTimerStop _ (fun _ => eq_refl) (re_sys _ _ _ R)) R.
  rec_step (unselect_unless_detached_quiet _ (re_sys _ _ _ R)) R.
  rec_step (recordDefault_records _ (re_sys _ _ _ R)) R.
  rec_upd (upd_partner_records (LacpStateClear LacpStateAggregationBit) _ (re_sys _ _ _ R)) R.
  rec_upd (clear_expired _ (re_sys _ _ _ R)) R.
  eexists. split; [done|]. by eapply records_ext; [|exact R].
Qed.

Lemma Defaulted_records st :
  sys_ok st ->
  exists st', LacpRxMachineDefaulted st = Ok (st', LacpRxmStateDefaulted) /\
    records (rx_effect LacpRxMachineDefaulted_cb None false) st st'.
Proof.
  intros H. unfold LacpRxMachineDefaulted. pose proof (quiet_refl st H) as R.
  rec_step (updateDefaultSelected_quiet _ (re_sys _ _ _ R)) R.
  rec_step (recordDefault_records _ (re_sys _ _ _ R)) R.
  rec_upd (clear_expired _ (re_sys _ _ _ R)) R.
  rec_upd (upd_admin_records (LacpStateSet LacpStateAggregatibleUp) _ (re_sys _ _ _ R)) R.
  eexists. split; [done|]. by eapply records_ext; [|exact R].
Qed.

(** Neither the selection nor the need to transmit touch the actor's data. *)
Lemma updateSelected_actor pdu st st' :
  updateSelected pdu st = Ok st' -> ActorOper (prt st') = ActorOper (prt st).
Proof.
  unfold updateSelected, unselect_unless_waiting, rx_send_mux, send_muxm.
  destruct (_ && _); [|by intros [= <-]]. destruct (mux_in _ _); [|by intros [= <-]].
  destruct (MuxMachineFsm _); cbn [of_option exec_bind]; [by intros [= <-]|done].
Qed.

Lemma updateNTT_actor pdu st : ActorOper (prt (updateNTT pdu st).1) = ActorOper (prt st).
Proof. unfold updateNTT. destruct (negb _); [done|]. by destruct (_ || _). Qed.

Lemma in_sync_ext pdu p q : ActorOper p = ActorOper q -> pdu_in_sync pdu p = pdu_in_sync pdu q.
Proof. intros E. unfold pdu_in_sync. by rewrite E. Qed.

Lemma Current_records pdu st :
  sys_ok st -> is_Some (RxMachineFsm (prt st)) ->
  exists st', LacpRxMachineCurrent pdu st = Ok (st', LacpRxmStateCurrent) /\
    records (rx_effect LacpRxMachineCurrent_cb (Some pdu) (pdu_in_sync pdu (prt st))) st st'.
Proof.
  intros H Hm. unfold LacpRxMachineCurrent.
  destruct (updateSelected_quiet pdu st H) as (st1 & E1 & R). rewrite E1. cbn [exec_bind].
  apply updateSelected_actor in E1. pose proof (updateNTT_quiet pdu st1 (re_sys _ _ _ R)) as Q.
  pose proof (updateNTT_actor pdu st1) as E2. destruct (updateNTT pdu st1) as [st2 ntt].
  cbn [fst] in Q, E2. rec_upd Q R.
  pose proof (recordPDU_records pdu st2 (re_sys _ _ _ R)) as Hpdu.
  rewrite (in_sync_ext pdu (prt st2) (prt st)) in Hpdu by congruence. clear Q. rec_step Hpdu R.
  assert (Hm0 : is_Some (RxMachineFsm (prt st0))) by by apply R.
  rec_step (set_timeout_quiet false _ (re_sys _ _ _ R) Hm0) R.
  rec_upd (upd_rxm_quiet CurrentWhileTimerStart _ (fun _ => eq_refl) (re_sys _ _ _ R)) R.
  rec_upd (clear_expired _ (re_sys _ _ _ R)) R.
  match goal with |- context [if ?b then send_txm ?c ?s else _] =>
    assert (Q : runs id (if b then send_txm c s else Ok s) s)
      by (apply runs_if; [by apply send_tx_quiet, R|by apply runs_ret, R]) end.
  rec_step Q R. rec_step (inform_quiet _ (re_sys _ _ _ R)) R.
  rec_upd (upd_admin_records (LacpStateSet LacpStateAggregatibleDown) _ (re_sys _ _ _ R)) R.
  eexists. split; [done|]. by eapply records_ext; [|exact R].
Qed.

(** The verdict of the synchronisation rule on the data of a callback. *)
Definition verdict (data : option LACP) (p : LaAggPort) : bool :=
  match data with Some pdu => pdu_in_sync pdu p | None => false end.

Lemma rx_callback_records cb data st :
  sys_ok st -> is_Some (RxMachineFsm (prt st)) ->
  (cb = LacpRxMachineCurrent_cb -> is_Some data) ->
  exists st', rx_callback cb data st = Ok (st', rx_target cb) /\
    records (rx_effect cb data (verdict data (prt st))) st st'.
Proof.
  intros H Hm Hd. destruct cb; cbn [rx_callback rx_target].
  - by apply Initialize_records.
  - by apply PortDisabled_records.
  - by apply Expired_records.
  - by apply LacpDisabled_records.
  - by apply Defaulted_records.
  - destruct Hd as [pdu ->]; [done|]. by apply Current_records.
Qed.

(** ** One event of the machine *)

Record rx_ready (st : St) (m : Machine RxCallback) : Prop := {
  rd_sys : sys_ok st;
  rd_machine : get_rxm st = Some m;
  rd_begin : Begin m = true;
  rd_rules : forall s ev, Rules m !! (s, ev) = first_rule rx_rules s ev
}.

Lemma rx_some st m : get_rxm st = Some m -> is_Some (RxMachineFsm (prt st)).
Proof. unfold get_rxm. by destruct (RxMachineFsm (prt st)). Qed.

Lemma set_rxm_records f st :
  sys_ok st -> records (fun v => v <| rec_machine ::= fmap f |>) st (set_rxm f st).
Proof.
  intros H. apply upd_records; try done.
  - destruct (sys_self _ H). by constructor.
  - transitivity (view st <| rec_machine := get_rxm (set_rxm f st) |>); [done|].
    unfold get_rxm, set_rxm, upd_rxm, upd_prt. simpl_get. unfold view, get_rxm.
    by destruct (RxMachineFsm (prt st)).
  - change (is_Some ((fun m => m <| rxm_Machine ::= f |>) <$> RxMachineFsm (prt st)) <->
            is_Some (RxMachineFsm (prt st))). by rewrite fmap_is_Some.
Qed.


Lemma rx_effect_machine cb data b v f :
  rx_effect cb data b (v <| rec_machine ::= f |>) = rx_effect cb data b v <| rec_machine ::= f |>.
Proof. by destruct cb, data. Qed.

Lemma rx_effect_keeps cb data b v : rec_machine (rx_effect cb data b v) = rec_machine v.
Proof. by destruct cb, data. Qed.

Definition after (es : string) (ev next : Z) (m : Machine RxCallback) : Machine RxCallback :=
  m <| Curr ::= SetEvent es ev |> <| Curr ::= SetState next |>.

Lemma rx_process_run es ev data st m cb :
  rx_ready st m -> first_rule rx_rules (CurrentState m) ev = Some cb ->
  (cb = LacpRxMachineCurrent_cb -> is_Some data) ->
  exists st', rx_process es ev data st = Ok (st', None) /\
    rx_ready st' (after es ev (rx_target cb) m) /\
    view st' = rx_effect cb data (verdict data (prt st)) (view st)
                 <| rec_machine := Some (after es ev (rx_target cb) m) |>.
Proof.
  intros [H Hm Hb Hr] Hrule Hd.
  pose proof (set_rxm_records (fun m => m <| Curr ::= SetEvent es ev |>) st H) as R1.
  set (st1 := set_rxm _ st) in *.
  destruct (rx_callback_records cb data st1) as (st2 & Hcb & R2);
    [apply R1|apply R1; by eapply rx_some|done|].
  change (verdict data (prt st1)) with (verdict data (prt st)) in R2.
  pose proof (set_rxm_records (fun m => m <| Curr ::= SetState (rx_target cb) |>) st2 (re_sys _ _ _ R2)) as R3.
  pose proof (records_trans _ _ _ _ _ (records_trans _ _ _ _ _ R1 R2) R3) as R.
  assert (Hv : view (set_rxm (fun m => m <| Curr ::= SetState (rx_target cb) |>) st2) =
    rx_effect cb data (verdict data (prt st)) (view st) <| rec_machine := Some (after es ev (rx_target cb) m) |>).
  { rewrite (re_view _ _ _ R). cbn beta. unfold compose. rewrite rx_effect_machine.
    transitivity (rx_effect cb data (verdict data (prt st)) (view st) <| rec_machine :=
      fmap (fun m => m <| Curr ::= SetState (rx_target cb) |>)
        (fmap (fun m => m <| Curr ::= SetEvent es ev |>)
          (rec_machine (rx_effect cb data (verdict data (prt st)) (view st)))) |>); [done|].
    rewrite rx_effect_keeps. change (rec_machine (view st)) with (get_rxm st). by rewrite Hm. }
  eexists. split; [|split; [|exact Hv]].
  - unfold rx_process. rewrite (ProcessEvent_run _ _ _ _ _ _ _ m cb Hm Hb);
      [fold st1; by rewrite Hcb|by rewrite Hr].
  - constructor; [apply R| |exact Hb|exact Hr].
    by assert (E := f_equal rec_machine Hv).
Qed.

Lemma rx_process_ignore es ev data st m :
  rx_ready st m -> first_rule rx_rules (CurrentState m) ev = None ->
  rx_process es ev data st = Ok (st, Some InvalidStateEvent).
Proof.
  intros [H Hm Hb Hr] Hrule. unfold rx_process.
  apply (ProcessEvent_ignore _ _ _ _ _ _ _ m Hm Hb). by rewrite Hr.
Qed.

(** ** The flags and the state *)






(** ** The event loop *)












(** ** Silence *)

Lemma rx_ready_quiet st st' m : quiet st st' -> rx_ready st m -> rx_ready st' m.
Proof.
  intros Q [H Hm Hb Hr]. constructor; [apply Q| |done|done].
  rewrite <- Hm. exact (f_equal rec_machine (re_view _ _ _ Q)).
Qed.

(** No PDU is waiting. *)
Definition no_pdu (st : St) : Prop :=
  forall rxm, RxMachineFsm (prt st) = Some rxm -> RxmPktRxEvent rxm = [].

Lemma rx_timer_run st m cb :
  rx_ready st m -> no_pdu st ->
  first_rule rx_rules (CurrentState m) LacpRxmEventCurrentWhileTimerExpired = Some cb ->
  cb <> LacpRxMachineCurrent_cb ->
  exists st' m', rx_timer st = Ok st' /\ rx_ready st' m' /\ CurrentState m' = rx_target cb /\
    view st' = rx_effect cb None false (view st) <| rec_machine := Some m' |>.
Proof.
  intros Hr Hp Hrule Hcb. unfold rx_timer. set (st1 := upd_rxm CurrentWhileTimerStop st).
  assert (Q : quiet st st1) by (apply upd_rxm_quiet; [done|apply Hr]).
  assert (Hpk : forall rxm, RxMachineFsm (prt st1) = Some rxm -> RxmPktRxEvent rxm = []).
  { intros rxm. unfold st1, upd_rxm, upd_prt. simpl_get. intros (r0 & Hr0 & ->)%fmap_Some.
    exact (Hp r0 Hr0). }
  pose proof (rx_ready_quiet _ _ _ Q Hr) as Hr1. clearbody st1.
  destruct (rx_some _ _ (rd_machine _ _ Hr1)) as [rxm Hrxm]. rewrite Hrxm. cbn [of_option exec_bind].
  rewrite (Hpk _ Hrxm). destruct (rx_process_run RxMachineModuleStr LacpRxmEventCurrentWhileTimerExpired
    None st1 m cb Hr1 Hrule) as (st2 & -> & Hr2 & Hv); [done|]. cbn [exec_bind].
  eexists st2, _. split; [done|]. split; [exact Hr2|]. split; [done|].
  rewrite Hv, (re_view _ _ _ Q). done.
Qed.

(** A port whose partner has gone silent forgets it in two steps: when the
    current-while timer runs out in CURRENT the machine enters EXPIRED, the
    partner is out of sync and on the short timeout; when it runs out again
    the machine enters DEFAULTED and the partner's data are the configured
    defaults, taken to be in sync, and advertised as defaulted. *)
Theorem rx_silence_defaults st m :
  rx_ready st m -> CurrentState m = LacpRxmStateCurrent -> no_pdu st ->
  exists st1 m1, rx_timer st = Ok st1 /\ get_rxm st1 = Some m1 /\
    CurrentState m1 = LacpRxmStateExpired /\
    LacpStateIsSet (State (PartnerOper (prt st1))) LacpStateSyncBit = false /\
    LacpStateIsSet (State (PartnerOper (prt st1))) LacpStateTimeoutBit = true /\
    partnerAdmin (prt st1) = partnerAdmin (prt st) /\
    (no_pdu st1 ->
     exists st2 m2, rx_timer st1 = Ok st2 /\ get_rxm st2 = Some m2 /\
       CurrentState m2 = LacpRxmStateDefaulted /\
       PartnerOper (prt st2) = partnerAdmin (prt st) <| State ::= LacpStateSet LacpStateSyncBit |> /\
       LacpStateIsSet (State (ActorOper (prt st2))) LacpStateDefaultedBit = true /\
       LacpStateIsSet (State (ActorOper (prt st2))) LacpStateExpiredBit = false).
Proof.
  intros Hr Hs Hp.
  destruct (rx_timer_run st m LacpRxMachineExpired_cb Hr Hp) as (st1 & m1 & E1 & Hr1 & Hs1 & Hv1);
    [by rewrite Hs|done|].
  assert (Hpart : PartnerOper (prt st1) = PartnerOper (prt st)
            <| State ::= LacpStateClear LacpStateSyncBit |> <| State ::= LacpStateSet LacpStateTimeoutBit |>)
    by exact (f_equal rec_partner Hv1).
  assert (Hadm : partnerAdmin (prt st1) = partnerAdmin (prt st)) by exact (f_equal rec_admin Hv1).
  exists st1, m1. split; [done|]. split; [apply Hr1|]. split; [done|]. rewrite Hpart. simpl_get.
  split. { change LacpStateSyncBit with (2 ^ 3). rewrite IsSet_Set, IsSet_Clear by lia.
           by rewrite andb_false_r. }
  split. { change LacpStateTimeoutBit with (2 ^ 1). rewrite IsSet_Set by lia. by rewrite orb_true_r. }
  split; [done|]. intros Hp1.
  destruct (rx_timer_run st1 m1 LacpRxMachineDefaulted_cb Hr1 Hp1) as (st2 & m2 & E2 & Hr2 & Hs2 & Hv2);
    [by rewrite Hs1|done|].
  exists st2, m2. split; [done|]. split; [apply Hr2|]. split; [done|].
  split. { rewrite <- Hadm. exact (f_equal rec_partner Hv2). }
  pose proof (f_equal rec_bits Hv2) as Hb. cbn in Hb.
  destruct (other_bits (State (ActorOper (prt st1)))) as [[[x y] z] w]. cbn in Hb.
  unfold other_bits in Hb. by simplify_eq.
Qed.

(** ** A received PDU *)

Definition counted (st : St) : St :=
  upd_prt (fun p => p <| LacpCounter ::= fun c =>
             c <| AggPortStatsLACPDUsRx ::= fun n => u64 (n + 1) |> |>) st.

Lemma counted_quiet st : sys_ok st -> quiet st (counted st).
Proof. intros H. destruct (sys_self _ H). by apply upd_records. Qed.

Lemma rx_pkt_not_moved pdu st m :
  rx_ready st m -> CurrentState m <> LacpRxmStatePortDisabled ->
  rx_pkt pdu st =
  let! (st, _) := rx_process RxModuleStr LacpRxmEventLacpPktRx (Some pdu) (counted st) in Ok st.
Proof.
  intros Hr Hs. unfold rx_pkt, CheckPortMoved. fold (counted st).
  pose proof (rx_ready_quiet _ _ _ (counted_quiet st (rd_sys _ _ Hr)) Hr) as Hr1.
  rewrite (rd_machine _ _ Hr1). cbn [state_of of_option exec_bind].
  by rewrite (proj2 (Z.eqb_neq _ _) Hs).
Qed.

Definition listening (s : Z) : Prop :=
  s = LacpRxmStateExpired \/ s = LacpRxmStateDefaulted \/ s = LacpRxmStateCurrent.

Lemma rx_pkt_current pdu st m :
  rx_ready st m -> listening (CurrentState m) ->
  exists st' m', rx_pkt pdu st = Ok st' /\ rx_ready st' m' /\ CurrentState m' = LacpRxmStateCurrent /\
    view st' = rx_effect LacpRxMachineCurrent_cb (Some pdu) (pdu_in_sync pdu (prt st)) (view st)
                 <| rec_machine := Some m' |>.
Proof.
  intros Hr Hs. rewrite (rx_pkt_not_moved pdu st m Hr) by (destruct Hs as [->|[->| ->]]; done).
  pose proof (counted_quiet st (rd_sys _ _ Hr)) as Q.
  destruct (rx_process_run RxModuleStr LacpRxmEventLacpPktRx (Some pdu) (counted st) m
    LacpRxMachineCurrent_cb) as (st' & -> & Hr' & Hv);
    [by eapply rx_ready_quiet|destruct Hs as [->|[->| ->]]; done|done|].
  cbn [exec_bind]. eexists st', _. split; [done|]. split; [exact Hr'|]. split; [done|].
  rewrite Hv, (re_view _ _ _ Q). done.
Qed.

(** The rule the code follows: the comment of [recordPDU], with the comparison
    of the Aggregation bits as [LacpLacpPktPortInfoIsEqual] makes it, which asks
    for the bit to be set at both ends and not for equal bits. *)
Definition partner_in_sync (pdu : LACP) (p : LaAggPort) : Prop :=
  let actor := pkt_State (pkt_Actor pdu) in
  let partner := pkt_State (pkt_Partner pdu) in
  LacpStateIsSet actor LacpStateSyncBit = true /\
  ((same_port (info_of_pkt (pkt_Partner pdu)) (ActorOper p) /\
    LacpStateIsSet partner LacpStateAggregationBit = true /\
    LacpStateIsSet (State (ActorOper p)) LacpStateAggregationBit = true) \/
   LacpStateIsSet actor LacpStateAggregationBit = false) /\
  (LacpStateIsSet actor LacpStateActivityBit = true \/
   (LacpStateIsSet (State (ActorOper p)) LacpStateActivityBit = true /\
    LacpStateIsSet partner LacpStateActivityBit = true)).

Lemma pdu_in_sync_spec pdu p : pdu_in_sync pdu p = true <-> partner_in_sync pdu p.
Proof.
  unfold pdu_in_sync, partner_in_sync.
  rewrite andb_true_iff, !orb_true_iff, !andb_true_iff, negb_true_iff, LacpLacpPktPortInfoIsEqual_true.
  tauto.
Qed.

Lemma sync_state_flag b s k :
  (b = true -> LacpStateIsSet s LacpStateSyncBit = true) -> 0 <= k < 8 ->
  LacpStateIsSet (sync_state b s) (2 ^ k) = if k =? 3 then b else LacpStateIsSet s (2 ^ k).
Proof.
  intros Hb Hk. unfold sync_state. change LacpStateSyncBit with (2 ^ 3) in *.
  destruct (Z.eqb_spec k 3) as [->|Hne].
  - destruct b; [by apply Hb|]. destruct (LacpStateIsSet s (2 ^ 3)) eqn:E; [|done].
    rewrite IsSet_Clear by done. by rewrite andb_false_r.
  - destruct b; [done|]. destruct (LacpStateIsSet s (2 ^ 3)); [|done]. rewrite IsSet_Clear by done.
    rewrite Z.pow2_bits_false by done. by rewrite andb_true_r.
Qed.

(** The rule of the comment and of the standard: the partner's view of the port
    agrees with the port in the Aggregation bit as well. *)
Definition partner_in_sync_standard (pdu : LACP) (p : LaAggPort) : Prop :=
  let actor := pkt_State (pkt_Actor pdu) in
  let partner := pkt_State (pkt_Partner pdu) in
  LacpStateIsSet actor LacpStateSyncBit = true /\
  ((same_port (info_of_pkt (pkt_Partner pdu)) (ActorOper p) /\
    LacpStateIsSet partner LacpStateAggregationBit =
    LacpStateIsSet (State (ActorOper p)) LacpStateAggregationBit) \/
   LacpStateIsSet actor LacpStateAggregationBit = false) /\
  (LacpStateIsSet actor LacpStateActivityBit = true \/
   (LacpStateIsSet (State (ActorOper p)) LacpStateActivityBit = true /\
    LacpStateIsSet partner LacpStateActivityBit = true)).

(** The two rules agree but for a port that is not aggregatable, whose partner
    is aggregatable and knows the port as it is: the standard has it in sync,
    the code has not. *)
Theorem sync_rules_differ pdu p :
  partner_in_sync_standard pdu p /\ ~ partner_in_sync pdu p <->
  partner_in_sync_standard pdu p /\
  LacpStateIsSet (State (ActorOper p)) LacpStateAggregationBit = false /\
  LacpStateIsSet (pkt_State (pkt_Actor pdu)) LacpStateAggregationBit = true.
Proof.
  unfold partner_in_sync_standard, partner_in_sync.
  destruct (LacpStateIsSet (State (ActorOper p)) LacpStateAggregationBit),
    (LacpStateIsSet (pkt_State (pkt_Actor pdu)) LacpStateAggregationBit),
    (LacpStateIsSet (pkt_State (pkt_Partner pdu)) LacpStateAggregationBit); intuition congruence.
Qed.

(** C15: A PDU received in EXPIRED, DEFAULTED or CURRENT puts the machine in
    CURRENT; the port then knows the sender's system, key, priority, port and
    flags as the PDU gives them, except for Synchronisation, which is set
    exactly when the partner is in sync by the code's rule: the standard's,
    except that the Aggregation bit must be set at both ends where the standard
    compares it ([sync_rules_differ] says when the two disagree). *)
Theorem pdu_recorded pdu st m :
  rx_ready st m -> listening (CurrentState m) ->
  exists st' m', rx_pkt pdu st = Ok st' /\ get_rxm st' = Some m' /\
    CurrentState m' = LacpRxmStateCurrent /\
    same_port (PartnerOper (prt st')) (info_of_pkt (pkt_Actor pdu)) /\
    (LacpStateIsSet (State (PartnerOper (prt st'))) LacpStateSyncBit = true <->
     partner_in_sync pdu (prt st)) /\
    (forall k, 0 <= k < 8 -> k <> 3 ->
       LacpStateIsSet (State (PartnerOper (prt st'))) (2 ^ k) =
       LacpStateIsSet (pkt_State (pkt_Actor pdu)) (2 ^ k)) /\
    LacpStateIsSet (State (ActorOper (prt st'))) LacpStateDefaultedBit = false /\
    LacpStateIsSet (State (ActorOper (prt st'))) LacpStateExpiredBit = false.
Proof.
  intros Hr Hs. destruct (rx_pkt_current pdu st m Hr Hs) as (st' & m' & E & Hr' & Hs' & Hv).
  exists st', m'. split; [done|]. split; [apply Hr'|]. split; [done|].
  assert (Hp : PartnerOper (prt st') = info_of_pkt (pkt_Actor pdu)
                 <| State ::= sync_state (pdu_in_sync pdu (prt st)) |>) by exact (f_equal rec_partner Hv).
  rewrite Hp. split; [by split_and!|].
  assert (Hk : forall k, 0 <= k < 8 ->
    LacpStateIsSet (State (info_of_pkt (pkt_Actor pdu) <| State ::= sync_state (pdu_in_sync pdu (prt st)) |>))
      (2 ^ k) = if k =? 3 then pdu_in_sync pdu (prt st)
                else LacpStateIsSet (pkt_State (pkt_Actor pdu)) (2 ^ k)).
  { intros k Hk. apply sync_state_flag; [apply in_sync_actor|done]. }
  split. { change LacpStateSyncBit with (2 ^ 3). rewrite Hk by done. apply pdu_in_sync_spec. }
  split. { intros k Hk' Hne. rewrite Hk by done. by rewrite (proj2 (Z.eqb_neq _ _) Hne). }
  pose proof (f_equal rec_bits Hv) as Hb. cbn in Hb.
  destruct (other_bits (State (ActorOper (prt st)))) as [[[x y] z] w]. cbn in Hb.
  unfold other_bits in Hb. by simplify_eq.
Qed.

(** The partner churn machine is never told that the partner came into
    sync: a PDU that puts the partner in sync leaves the machine and its queue
    as they were, so a machine that monitors the partner declares churn when
    its timer runs out, although the partner is in sync. *)
Theorem partner_churn_false_alarm pdu st m c :
  rx_ready st m -> listening (CurrentState m) -> partner_in_sync pdu (prt st) ->
  pcd_ready st c -> CurrentState (cdm_Machine c) = LacpCdmStatePartnerChurnMonitor ->
  exists st1 st2, rx_pkt pdu st = Ok st1 /\ PCdMachineFsm (prt st1) = Some c /\
    LacpStateIsSet (State (PartnerOper (prt st1))) LacpStateSyncBit = true /\
    pcd_timer st1 = Ok st2 /\ partnerChurn (prt st2) = true /\
    LacpStateIsSet (State (PartnerOper (prt st2))) LacpStateSyncBit = true.
Proof.
  intros Hr Hs Hsync%pdu_in_sync_spec [Hc Hcb Hcr] Hcs.
  destruct (rx_pkt_current pdu st m Hr Hs) as (st1 & m1 & E & Hr1 & Hs1 & Hv).
  assert (Hc1 : PCdMachineFsm (prt st1) = Some c) by (rewrite <- Hc; exact (f_equal rec_pcd Hv)).
  assert (Hp : LacpStateIsSet (State (PartnerOper (prt st1))) LacpStateSyncBit = true).
  { replace (PartnerOper (prt st1)) with (info_of_pkt (pkt_Actor pdu)
      <| State ::= sync_state (pdu_in_sync pdu (prt st)) |>)
      by (symmetry; exact (f_equal rec_partner Hv)).
    rewrite Hsync. change (LacpStateIsSet (pkt_State (pkt_Actor pdu)) LacpStateSyncBit = true).
    by eapply in_sync_actor. }
  destruct (pcd_timer_churn st1 c) as (st2 & c2 & E2 & _ & _ & Hch & Hpo);
    [by constructor|done|]. exists st1, st2. rewrite Hpo. by split_and!.
Qed.

(** ** A port that moved *)

(** In PORT DISABLED a PDU from the partner the port already knows is taken
    as a sign that the port moved; the machine goes to INITIALIZE and stays
    there: the step to PORT DISABLED is only made when events are served, and
    every further PDU is counted and ignored. *)
Theorem port_moved_ignores_pdus pdu st m :
  rx_ready st m -> CurrentState m = LacpRxmStatePortDisabled ->
  port (PartnerOper (prt st)) = pkt_Port (pkt_Actor pdu) ->
  Actor_System (System (PartnerOper (prt st))) = pkt_SystemId (pkt_Actor pdu) ->
  Actor_System_priority (System (PartnerOper (prt st))) = pkt_SystemPriority (pkt_Actor pdu) ->
  exists st1 m1, rx_pkt pdu st = Ok st1 /\ get_rxm st1 = Some m1 /\
    CurrentState m1 = LacpRxmStateInitialize /\
    forall pdu', rx_pkt pdu' st1 = Ok (counted st1).
Proof.
  intros Hr Hs H1 H2 H3. unfold rx_pkt at 1, CheckPortMoved. fold (counted st).
  pose proof (counted_quiet st (rd_sys _ _ Hr)) as Q. pose proof (rx_ready_quiet _ _ _ Q Hr) as Hr1.
  rewrite (rd_machine _ _ Hr1). cbn [state_of of_option exec_bind]. rewrite Hs.
  change (PartnerOper (prt (counted st))) with (PartnerOper (prt st)).
  rewrite H1, H2, H3, !Z.eqb_refl, bool_decide_eq_true_2 by done. cbn [andb].
  set (st0 := upd_prt _ (counted st)).
  assert (Q0 : quiet (counted st) st0).
  { destruct (sys_self _ (rd_sys _ _ Hr1)). apply upd_records; try done. apply Hr1. }
  destruct (rx_process_run RxModuleStr LacpRxmEventPortMoved None st0 m LacpRxMachineInitialize_cb)
    as (st1 & -> & Hr2 & _); [by eapply rx_ready_quiet|by rewrite Hs|done|].
  cbn [exec_bind]. eexists st1, _. split; [done|]. split; [apply Hr2|]. split; [done|].
  intros pdu'. rewrite (rx_pkt_not_moved pdu' st1 _ Hr2) by done.
  rewrite (rx_process_ignore _ _ _ (counted st1) _ (rx_ready_quiet _ _ _ (counted_quiet st1 (rd_sys _ _ Hr2)) Hr2));
    [done|reflexivity].
Qed.
End RxProofs.
