(* ===== verification/LacpMarkerProofs.v ===== *)
(** * LACP: the marker responder answers one marker

    The row of the table that takes the responder back to its waiting state
    is attached to the waiting state itself: after the first marker the
    machine stays in RESPOND TO MARKER and every further PDU is dropped. *)

From S2P Require Import Prelude Fsm LacpDefs LacpPort LacpMarker.

Section MarkerProofs.
Context `{!Layers}.

Record mr_ready (st : St) (m : Machine MarkerCallback) : Prop := {
  mk_machine : get_mr st = Some m;
  mk_begin : Begin m = true;
  mk_rules : forall s ev, Rules m !! (s, ev) = first_rule marker_rules s ev
}.

Lemma set_mr_get f st : get_mr (set_mr f st) = f <$> get_mr st.
Proof. unfold get_mr, set_mr, upd_mr, upd_prt. simpl_get. by destruct (MarkerResponderFsm (prt st)). Qed.

(** What answering does: one frame per transmit callback. *)
Lemma transmit_lamp_frame lamp cbs st :
  get_mr (transmit_lamp lamp cbs st) = get_mr st /\
  Effects (transmit_lamp lamp cbs st) =
    Effects st ++ map (fun ftx => TxLamp ftx (PortNum (prt st)) lamp) cbs.
Proof.
  unfold transmit_lamp. revert st. induction cbs as [|cb cbs IH]; intros st; cbn [foldl map].
  - by rewrite app_nil_r.
  - match goal with |- context [foldl _ ?x cbs] => destruct (IH x) as [-> ->] end.
    split; [done|].
    change (Effects (upd_prt _ _)) with (Effects st ++ [TxLamp cb (PortNum (prt st)) lamp]).
    rewrite <- (assoc_L app). done.
Qed.

Lemma mr_stuck lamp st m :
  mr_ready st m -> CurrentState m = LampMarkerResponderStateRespondToMarker ->
  exists st', mr_pkt lamp st = Ok st' /\ mr_ready st' m /\ Effects st' = Effects st.
Proof.
  intros [Hm Hb Hr] Hs. unfold mr_pkt. set (st1 := upd_prt _ st).
  assert (Hm1 : get_mr st1 = Some m) by exact Hm. assert (He : Effects st1 = Effects st) by done.
  clearbody st1. unfold mr_process.
  rewrite (ProcessEvent_ignore _ _ _ _ _ _ _ m Hm1 Hb) by (rewrite Hr, Hs; done). cbn [exec_bind].
  rewrite Hm1. cbn [state_of of_option exec_bind]. rewrite Hs. cbn [Z.eqb Pos.eqb].
  rewrite Z.eqb_refl, (ProcessEvent_ignore _ _ _ _ _ _ _ m Hm1 Hb) by (rewrite Hr, Hs; done).
  exists st1. by split_and!.
Qed.

Definition well_formed (lamp : LAMP) : Prop :=
  Marker_Length lamp = LAMPMarkerTlvLength /\ Marker_TlvType lamp = LAMPTLVMarkerInfo.

(** The first marker. *)
Lemma mr_answers lamp st m cbs :
  mr_ready st m -> CurrentState m = LampMarkerResponderStateWaitForMarker -> well_formed lamp ->
  LaSysGlobalTxCallbackListGet st = Ok cbs ->
  exists st1 m1, mr_pkt lamp st = Ok st1 /\ mr_ready st1 m1 /\
    CurrentState m1 = LampMarkerResponderStateRespondToMarker /\
    Effects st1 = Effects st ++ map (fun ftx => TxLamp ftx (PortNum (prt st))
                    (lamp <| Marker_TlvType := LAMPTLVMarkerResponder |>)) cbs.
Proof.
  intros [Hm Hb Hr] Hs [Hlen Htype] Hcbs.
  unfold mr_pkt, mr_process. set (st0 := upd_prt _ st).
  rewrite (ProcessEvent_run _ _ _ _ _ _ st0 m LampMarkerResponderRespondToMarker_cb Hm Hb)
    by (rewrite Hr, Hs; done).
  set (st1 := set_mr _ st0). cbn [marker_callback of_option exec_bind].
  unfold LampMarkerResponderRespondToMarker. rewrite Hlen, Htype, !Z.eqb_refl. cbn [negb].
  match goal with |- context [LaSysGlobalTxCallbackListGet ?x] =>
    change (LaSysGlobalTxCallbackListGet x) with (LaSysGlobalTxCallbackListGet st); set (st2 := x) end.
  rewrite Hcbs. cbn [exec_bind]. set (lamp' := lamp <| Marker_TlvType := _ |>).
  assert (Hm2 : get_mr st2 = Some (m <| Curr ::= SetEvent MarkerResponderModuleStr
                  LampMarkerResponderEventLampPktRx |>)).
  { change (get_mr st2) with (get_mr st1). unfold st1. rewrite set_mr_get.
    change (get_mr st0) with (get_mr st). by rewrite Hm. }
  assert (He2 : Effects st2 = Effects st) by done.
  assert (Hn2 : PortNum (prt st2) = PortNum (prt st)) by done. clearbody st2.
  destruct (transmit_lamp_frame lamp' cbs st2) as [Hm3 He3].
  set (st3 := transmit_lamp lamp' cbs st2) in *. clearbody st3.
  set (st4 := set_mr _ st3). set (m4 := m <| Curr ::= SetEvent MarkerResponderModuleStr
    LampMarkerResponderEventLampPktRx |> <| Curr ::= SetState LampMarkerResponderStateRespondToMarker |>).
  assert (Hm4 : get_mr st4 = Some m4) by (unfold st4; by rewrite set_mr_get, Hm3, Hm2).
  assert (He4 : Effects st4 = Effects st3) by done. clearbody st4.
  rewrite Hm4. cbn [state_of of_option exec_bind].
  change (CurrentState m4) with LampMarkerResponderStateRespondToMarker. rewrite Z.eqb_refl.
  rewrite (ProcessEvent_ignore _ _ _ _ _ _ st4 m4 Hm4 Hb) by exact (Hr _ _).
  exists st4, m4. split; [done|]. split; [by constructor|]. split; [done|].
  by rewrite He4, He3, He2, Hn2.
Qed.

(** The first well-formed marker a waiting responder receives is sent back
    once through every transmit callback of the port with the type of a
    response; whatever PDUs follow, nothing is ever sent again. *)
Theorem marker_answered_once lamp later st m cbs :
  mr_ready st m -> CurrentState m = LampMarkerResponderStateWaitForMarker -> well_formed lamp ->
  LaSysGlobalTxCallbackListGet st = Ok cbs ->
  exists st1 st2, mr_pkt lamp st = Ok st1 /\
    Effects st1 = Effects st ++ map (fun ftx => TxLamp ftx (PortNum (prt st))
                    (lamp <| Marker_TlvType := LAMPTLVMarkerResponder |>)) cbs /\
    for_each mr_pkt later st1 = Ok st2 /\ Effects st2 = Effects st1.
Proof.
  intros R Hs Hwf Hcbs.
  destruct (mr_answers lamp st m cbs R Hs Hwf Hcbs) as (st1 & m1 & E1 & R1 & Hs1 & He1).
  assert (Hlater : forall st m, mr_ready st m ->
    CurrentState m = LampMarkerResponderStateRespondToMarker ->
    exists st', for_each mr_pkt later st = Ok st' /\ Effects st' = Effects st).
  { clear. induction later as [|l later IH]; intros st m R Hs; cbn; [by exists st|].
    destruct (mr_stuck l st m R Hs) as (st1 & -> & R1 & <-). cbn [exec_bind]. by apply (IH st1 m). }
  destruct (Hlater st1 m1 R1 Hs1) as (st2 & ? & ?). by exists st1, st2.
Qed.
End MarkerProofs.
