(* ===== verification/LacpExample.v ===== *)
(** * LACP: two ports negotiate

    Two systems with one port each in one aggregator, their machines started
    and fed each other's PDUs.  The file shows that the modelled machines
    negotiate an aggregation, and instantiates the theorems about them. *)

From S2P Require Import Prelude Fsm LacpDefs LacpPort LacpTx LacpPtx LacpCdm LacpMarker.
From S2P Require Import LacpMux LacpRx LacpMain LacpBits LacpTxProofs LacpPtxProofs.
From S2P Require Import LacpCdmProofs LacpMuxProofs LacpRxProofs LacpMarkerProofs.

(** ** The systems *)

#[export] Instance ex_asicd : AsicD :=
  {| AsicDPluginList := [0%nat]; UpdateLag_error := fun _ _ => false;
     DeleteLag_error := fun _ _ => false; GetPortLinkStatus := fun _ _ _ => true |}.

(** The values of IEEE 802.1AX, which gopacket uses. *)
#[export] Instance ex_layers : Layers :=
  {| EthernetTypeSlowProtocol := 34825; SlowProtocolTypeLACP := 1; SlowProtocolTypeLAMP := 2;
     LACPVersion1 := 1; LAMPTLVMarkerInfo := 1; LAMPTLVMarkerResponder := 2;
     LAMPMarkerTlvLength := 16 |}.

Definition ex_info (sys state : Z) : LacpPortInfo :=
  {| System := {| Actor_System_priority := 32768; Actor_System := mac 0 0 0 0 0 sys |};
     Key := 10; Port_pri := 1; port := 1; State := state |}.

(** Active or passive, with the short or the long timeout, aggregatable. *)
Definition ex_flags (active short : bool) : Z :=
  (if active then LacpStateActivityBit else 0) + (if short then LacpStateTimeoutBit else 0) +
  LacpStateAggregationBit.

Definition ex_partner : LacpPortInfo := zero_LacpPortInfo <| State := LacpStateAggregatibleUp |>.

Definition ex_port (sys : Z) (active short enabled : bool) : LaAggPort :=
  {| portId := 1; IntfNum := "eth1"; port_Key := 10; PortNum := 1; portPriority := 1;
     port_AggId := 5; AggAttached := Some 0%nat; aggSelected := LacpAggUnSelected;
     lacpEnabled := true; PortEnabled := enabled; portMoved := false; begin := false;
     actorChurn := false; partnerChurn := false; readyN := false; LinkOperStatus := true;
     ActorAdmin := ex_info sys (ex_flags active short);
     ActorOper := ex_info sys (ex_flags active short);
     partnerAdmin := ex_partner; PartnerOper := ex_partner;
     RxMachineFsm := None; PtxMachineFsm := None; TxMachineFsm := None; CdMachineFsm := None;
     PCdMachineFsm := None; MuxMachineFsm := None; MarkerResponderFsm := None;
     LacpCounter := Build_AggPortStatsObject 0 0 0 0 0 0 0 0;
     AggPortDebug := Build_AggPortDebugInformationObject 0 0 0 0 0 0 0 0 0;
     port_DrniName := ""; DrniSynced := false |}.

Definition ex_agg : LaAggregator :=
  {| AggId := 5; HwAggId := 9; AggName := "lag1";
     Config := {| Interval := Second; Mode := LacpModeActive;
                  SystemIdMac := "00:00:00:00:00:01"; SystemPriority := 32768 |};
     ActorAdminKey := 10; ActorOperKey := 10; OperState := false; ready := true;
     PortNumList := [1]; DistributedPortNumList := []; LagHash := 0; agg_DrniName := "" |}.

Definition ex_system (sys : Z) (active short enabled : bool) : St :=
  {| self := 0%nat; prt := ex_port sys active short enabled; rest := ∅;
     AggHeap := {[ 0%nat := ex_agg ]};
     gLacpSysGlobalInfoList :=
       [ {| SysKey := {| Actor_System_priority := 32768; Actor_System := mac 0 0 0 0 0 1 |};
            PortList := [0%nat]; AggList := [0%nat];
            ActorStateDefaultParams := zero_LacpPortInfo; TxCallbacks := {[ "eth1" := [0%nat] ]} |} ];
     LacpCbDb := {| PortUpDbList := ["l2"]; PortDownDbList := ["l2"]; AggOperUpDbList := ["l2"] |};
     PortConfigMap := [ {| Name := "eth1"; IfIndex := 1 |} ]; Now := 0; Effects := [] |}.

(** ** Running them *)

(** Every goroutine of the port serves its queue, and what that sent in turn. *)
Definition ex_settle (st : St) : exec St :=
  let all := [ChRx; ChPtx; ChCd; ChPCd; ChMux; ChTx; ChMr] in
  let! st := for_each serve all st in for_each serve all st.

Definition ex_start (sys : Z) (active short : bool) : exec St :=
  let! st := BEGIN false (ex_system sys active short true) in
  let! st := LaAggPortEnabled st in
  ex_settle st.

(** The periodic timer fires, and the guard of the transmit machine opens. *)
Definition ex_tick (st : St) : exec St :=
  let! st := ptx_timer st in let! st := ex_settle st in LacpTxGuardGeneration st.

Definition last_pdu (st : St) : option LACP :=
  foldl (fun o x => match x with TxLacp _ _ pdu => Some pdu | _ => o end) None (Effects st).

Definition ex_deliver (from to : St) : exec St :=
  match last_pdu from with
  | Some pdu => let! st := rx_pkt pdu to in ex_settle st
  | None => Ok to
  end.

(** Both periodic timers fire; the first end's PDU reaches the second, and the
    answer comes back. *)
Definition ex_round (a b : St) : exec (St * St) :=
  let! a := ex_tick a in
  let! b := ex_tick b in
  let! b := ex_deliver a b in
  let! a := ex_deliver b a in
  Ok (a, b).

Fixpoint ex_rounds (n : nat) (a b : St) : exec (St * St) :=
  match n with
  | O => Ok (a, b)
  | S n => let! (a, b) := ex_round a b in ex_rounds n a b
  end.

(** State of the receive and mux machine, and the ports that distribute. *)
Definition ex_summary (st : St) : option Z * option Z * option (list string) :=
  (CurrentState <$> get_rxm st, CurrentState <$> get_muxm st,
   DistributedPortNumList <$> AggHeap st !! 0%nat).

Definition ex_negotiate (active1 short1 active2 short2 : bool)
  : exec ((option Z * option Z * option (list string)) * (option Z * option Z * option (list string))) :=
  let! a := ex_start 1 active1 short1 in
  let! b := ex_start 2 active2 short2 in
  let! (a, b) := ex_rounds 3 a b in
  Ok (ex_summary a, ex_summary b).

(** For every choice of active or passive mode and of timeouts at the two
    ends of a link, two ports whose machines start from BEGIN and whose PDUs
    reach each other have both recorded the partner after three exchanges, and
    both are in DISTRIBUTING, with the port in the hardware's distribution
    list, exactly when at least one end is active; two passive ends attach and
    stop there. *)
Theorem lacp_negotiation active1 short1 active2 short2 :
  let seen := if active1 || active2
              then (Some LacpRxmStateCurrent, Some LacpMuxmStateDistributing, Some ["eth1"])
              else (Some LacpRxmStateCurrent, Some LacpMuxmStateAttached, Some []) in
  ex_negotiate active1 short1 active2 short2 = Ok (seen, seen).
Proof. destruct active1, short1, active2, short2; vm_compute; reflexivity. Qed.

(** ** Instances of the theorems *)

Definition ok_or (d : St) (x : exec St) : St := match x with Ok st => st | _ => d end.

Definition is_ok (x : exec St) : bool := match x with Ok _ => true | _ => false end.
Lemma ok_or_Ok d x : is_ok x = true -> x = Ok (ok_or d x).
Proof. by destruct x. Qed.

(** A port whose machines run, which has heard nothing. *)
Definition ex_up : St := ok_or (ex_system 1 true true true) (ex_start 1 true true).

(** Both ends after three exchanges. *)
Definition ex_a : St :=
  match (let! a := ex_start 1 true true in let! b := ex_start 2 true true in ex_rounds 3 a b) with
  | Ok (a, _) => a
  | _ => ex_up
  end.

(** A port that is administratively down. *)
Definition ex_down : St :=
  ok_or (ex_system 1 true true false)
    (let! st := BEGIN false (ex_system 1 true true false) in ex_settle st).

Definition ex_tx (st : St) : LacpTxMachine := default NewLacpTxMachine (TxMachineFsm (prt st)).
Definition ex_ptx (st : St) : LacpPtxMachine := default NewLacpPtxMachine (PtxMachineFsm (prt st)).
Definition ex_cd (st : St) : LacpCdMachine := default NewLacpActorCdMachine (CdMachineFsm (prt st)).
Definition ex_pcd (st : St) : LacpCdMachine := default NewLacpPartnerCdMachine (PCdMachineFsm (prt st)).
Definition ex_mux (st : St) : Machine MuxCallback := default (Apply ∅) (get_muxm st).
Definition ex_rx (st : St) : Machine RxCallback := default (Apply ∅) (get_rxm st).
Definition ex_mr (st : St) : Machine MarkerCallback := default (Apply ∅) (get_mr st).

(** The goal is a boolean or a number that evaluates to the value given. *)
Ltac by_vm := vm_compute; reflexivity.
Ltac in_range := vm_compute; split; discriminate.

#[local] Instance TxCallbackName_eq : EqDecision TxCallbackName.
Proof. solve_decision. Defined.
#[local] Instance PtxCallback_eq : EqDecision PtxCallback.
Proof. solve_decision. Defined.
#[local] Instance CdCallback_eq : EqDecision CdCallback.
Proof. solve_decision. Defined.
#[local] Instance MarkerCallback_eq : EqDecision MarkerCallback.
Proof. solve_decision. Defined.

Definition is_some {A} (o : option A) : bool := match o with Some _ => true | None => false end.
Lemma is_some_Some {A} (o : option A) : is_some o = true -> is_Some o.
Proof. by destruct o. Qed.
Lemma is_some_default {A} (d : A) (o : option A) : is_some o = true -> o = Some (default d o).
Proof. by destruct o. Qed.

(** A machine that was started with the rules of a list. *)
Definition has_rules {CB} `{!EqDecision CB} (m : Machine CB) (l : list (Z * Z * CB)) : bool :=
  Begin m && bool_decide (Rules m = AddRules l).

Lemma has_rules_spec {CB} `{!EqDecision CB} (m : Machine CB) l :
  has_rules m l = true -> Begin m = true /\ Rules m = AddRules l.
Proof. unfold has_rules. by intros [? ?%bool_decide_eq_true]%andb_true_iff. Qed.

Lemma rules_lookup {CB} (m : Machine CB) l :
  Rules m = AddRules l -> forall s ev, Rules m !! (s, ev) = first_rule l s ev.
Proof. intros -> s ev. apply AddRules_first. Qed.

(** [sys_ok] of a system with one port, decided. *)
Definition members_found (st : St) : bool :=
  forallb (fun '(_, a) => forallb (fun id => is_some (LaFindPortById st id)) (PortNumList a))
    (map_to_list (AggHeap st)).

Definition check_port (st : St) : bool :=
  is_some (TxMachineFsm (prt st)) && is_some (CdMachineFsm (prt st)) &&
  match AggAttached (prt st) with Some r => is_some (AggHeap st !! r) | None => true end &&
  is_some (get_muxm st) && has_rules (ex_mux st) mux_rules && running (CurrentState (ex_mux st)) &&
  bool_decide (bits (State (ActorOper (prt st))) = level_bits (CurrentState (ex_mux st))).

Definition check_sys (st : St) : bool :=
  (length (map_to_list (rest st)) =? 0)%nat && members_found st && check_port st.

Lemma members_found_spec st r a id :
  members_found st = true -> AggHeap st !! r = Some a -> id ∈ PortNumList a ->
  is_Some (LaFindPortById st id).
Proof.
  unfold members_found. rewrite forallb_forall. intros H Ha Hid.
  specialize (H (r, a)). cbn in H. rewrite forallb_forall in H.
  apply is_some_Some, H; [|by apply list_elem_of_In].
  by apply list_elem_of_In, elem_of_map_to_list.
Qed.

Lemma ex_mux_get st : is_some (get_muxm st) = true -> get_muxm st = Some (ex_mux st).
Proof. apply is_some_default. Qed.

Lemma ex_mux_machine st :
  is_some (get_muxm st) = true -> muxm_Machine <$> MuxMachineFsm (prt st) = Some (ex_mux st).
Proof. apply ex_mux_get. Qed.

Lemma check_port_spec st : check_port st = true -> port_ok (AggHeap st) (prt st).
Proof.
  unfold check_port. rewrite !andb_true_iff.
  intros ((((((Ht & Hc) & Ha) & Hm) & [Hb Hr]%has_rules_spec) & Hrun) & Hbits%bool_decide_eq_true).
  constructor; [by apply is_some_Some|by apply is_some_Some| |].
  - intros r Hr'. rewrite Hr' in Ha. by apply is_some_Some.
  - exists (ex_mux st). split; [by apply (is_some_default (Apply ∅))|]. split; [exact Hb|].
    split; [exact (rules_lookup _ _ Hr)|]. right. exact (conj Hrun Hbits).
Qed.

Lemma check_sys_spec st : check_sys st = true -> sys_ok st.
Proof.
  unfold check_sys. rewrite !andb_true_iff. intros ((Hrest%Nat.eqb_eq & Hmem) & Hp%check_port_spec).
  constructor.
  - intros r p. unfold port_at. destruct (bool_decide _); [by intros [= <-]|].
    rewrite length_map_to_list in Hrest. apply map_size_empty_inv in Hrest. rewrite Hrest. done.
  - intros r a id. by apply members_found_spec.
Qed.

Lemma ex_up_sys : sys_ok ex_up.
Proof. apply check_sys_spec. by_vm. Qed.

Lemma ex_a_sys : sys_ok ex_a.
Proof. apply check_sys_spec. by_vm. Qed.

Lemma ex_down_sys : sys_ok ex_down.
Proof. apply check_sys_spec. by_vm. Qed.

Lemma ex_rx_ready st :
  sys_ok st -> is_some (get_rxm st) && has_rules (ex_rx st) rx_rules = true -> rx_ready st (ex_rx st).
Proof.
  intros H1 [H2 [H3 H4]%has_rules_spec]%andb_true_iff. constructor; [exact H1| |exact H3|].
  - by apply (is_some_default (Apply ∅)).
  - exact (rules_lookup _ _ H4).
Qed.

Lemma ex_tx_ready st :
  is_some (TxMachineFsm (prt st)) && has_rules (txm_Machine (ex_tx st)) tx_rules = true ->
  tx_ready st (ex_tx st).
Proof.
  intros [H2 [H3 H4]%has_rules_spec]%andb_true_iff.
  constructor; [by apply (is_some_default NewLacpTxMachine)|exact H3|exact H4].
Qed.

Lemma ex_ptx_ready st :
  is_some (PtxMachineFsm (prt st)) && is_some (TxMachineFsm (prt st)) &&
  has_rules (ptxm_Machine (ex_ptx st)) ptx_rules = true -> ptx_ready st (ex_ptx st).
Proof.
  intros [[H1 H2]%andb_true_iff [H3 H4]%has_rules_spec]%andb_true_iff.
  constructor; [by apply (is_some_default NewLacpPtxMachine)|exact H3|exact H4|by apply is_some_Some].
Qed.

Lemma ex_cd_ready st :
  is_some (CdMachineFsm (prt st)) && has_rules (cdm_Machine (ex_cd st)) actor_cd_rules = true ->
  cd_ready st (ex_cd st).
Proof.
  intros [H2 [H3 H4]%has_rules_spec]%andb_true_iff.
  constructor; [by apply (is_some_default NewLacpActorCdMachine)|exact H3|exact H4].
Qed.

Lemma ex_pcd_ready st :
  is_some (PCdMachineFsm (prt st)) && has_rules (cdm_Machine (ex_pcd st)) partner_cd_rules = true ->
  pcd_ready st (ex_pcd st).
Proof.
  intros [H2 [H3 H4]%has_rules_spec]%andb_true_iff.
  constructor; [by apply (is_some_default NewLacpPartnerCdMachine)|exact H3|exact H4].
Qed.

Lemma ex_mr_ready st :
  is_some (get_mr st) && has_rules (ex_mr st) marker_rules = true -> mr_ready st (ex_mr st).
Proof.
  intros [H2 [H3 H4]%has_rules_spec]%andb_true_iff.
  constructor; [by apply (is_some_default (Apply ∅))|exact H3|exact (rules_lookup _ _ H4)].
Qed.

Lemma tx_rate_limit_witness :
  returns (for_each tx_event (repeat (evt LacpTxmEventNtt PtxMachineModuleStr) 5) ex_up) (fun st' =>
    exists m', tx_ready st' m' /\ txPkts (ex_tx ex_up) <= txPkts m' <= 3 /\
      sent st' = sent ex_up + 1 * (txPkts m' - txPkts (ex_tx ex_up))).
Proof.
  apply (tx_rate_limit ex_up (ex_tx ex_up) [Some 0%nat]);
    [apply ex_tx_ready; by_vm | in_range | by_vm | repeat constructor].
Defined.

Lemma tx_guard_releases_witness :
  returns (tx_event (evt LacpTxmEventGuardTimer TxMachineModuleStr) ex_up) (fun st' =>
    exists m' x, tx_ready st' m' /\ sent st' = sent ex_up + 1 * x /\
      owed m' + x = owed (ex_tx ex_up) /\ 0 <= x <= 3 /\
      (0 < txPending (ex_tx ex_up) -> 1 <= x) /\ txPkts m' = x).
Proof.
  apply (tx_guard_releases ex_up (ex_tx ex_up) [Some 0%nat]);
    [apply ex_tx_ready; by_vm | in_range | vm_compute; discriminate | left; by_vm | by_vm].
Defined.

Lemma ptx_settles_witness :
  returns (ptx_event (evt LacpPtxmEventBegin PortConfigModuleStr) ex_up) (fun st' =>
    exists m', ptx_ready st' m' /\ ptx_rest m' /\
      (CurrentState (ptxm_Machine m') = LacpPtxmStateNoPeriodic -> may_poll (prt st') = false)).
Proof.
  apply (ptx_settles ex_up (ex_ptx ex_up)); [apply ex_ptx_ready; by_vm|].
  constructor; vm_compute; [tauto|..]; intros E; try discriminate E; split; reflexivity.
Defined.

Lemma ptx_polls_witness :
  returns (ptx_timer ex_up) (fun st' => exists m', ptx_ready st' m' /\ ptx_rest m' /\
    ptx_rate (partner_short ex_up) m' /\
    tx_queue st' = tx_queue ex_up ++
      (if tx_is_off ex_up then [] else [evt LacpTxmEventNtt PtxMachineModuleStr])).
Proof. apply (ptx_polls ex_up (ex_ptx ex_up)); [apply ex_ptx_ready; by_vm|left; by_vm]. Defined.

Lemma actor_churn_tracks_sync_witness :
  returns (cd_event (evt LacpCdmEventBegin PortConfigModuleStr) ex_up) (fun st' => exists m',
    cd_ready st' m' /\ cd_inv (actorChurn (prt st')) m' /\
    (CurrentState (cdm_Machine m') = LacpCdmStateNoActorChurn <-> actor_sync st' = true)).
Proof.
  apply (actor_churn_tracks_sync ex_up (ex_cd ex_up)); [apply ex_cd_ready; by_vm|apply is_some_Some; by_vm].
Defined.

(** Losing the partner's synchronisation. *)
Definition ex_no_sync : MachineEvent := evt LacpMuxmEventNotPartnerSync RxMachineModuleStr.
Definition ex_lost : St := ok_or ex_a (on_port 0 (mux_event ex_no_sync) ex_a).

Lemma mux_flags_track_state_witness :
  bits (State (ActorOper (prt ex_lost))) = level_bits (CurrentState (ex_mux ex_lost)).
Proof.
  assert (E : on_port 0 (mux_event ex_no_sync) ex_a = Ok ex_lost)
    by (unfold ex_lost; apply ok_or_Ok; by_vm).
  apply (proj1 (mux_flags_track_state ex_a ex_lost ex_a_sys
    (rtc_once _ _ (move_event 0 ex_no_sync ex_a ex_lost (is_some_Some (port_at ex_a 0) ltac:(by_vm)) E)))
    (self ex_lost) (prt ex_lost) (ex_mux ex_lost)).
  - apply port_at_self.
  - apply (ex_mux_machine ex_lost). by_vm.
  - vm_compute. discriminate.
Defined.

(** Taking LACP off the port of the negotiated aggregation overwrites its
    flags while its mux machine stays in DISTRIBUTING, with its event still
    waiting. *)
Theorem lacp_disable_overwrites_flags :
  exists st', LaAggPortLacpDisable ex_a = Ok st' /\
    CurrentState (ex_mux ex_a) = LacpMuxmStateDistributing /\
    bits (State (ActorOper (prt ex_a))) = (true, true, true) /\
    CurrentState (ex_mux st') = LacpMuxmStateDistributing /\
    bits (State (ActorOper (prt st'))) = (false, false, false).
Proof.
  exists (ok_or ex_a (LaAggPortLacpDisable ex_a)). split; [apply ok_or_Ok; by_vm|].
  split_and!; by_vm.
Qed.

(** The port of the negotiated aggregation, switched off. *)
Definition ex_off : St :=
  upd_prt (fun p => p <| PortEnabled := false |> <| aggSelected := LacpAggUnSelected |>) ex_a.

Lemma ex_off_sys : sys_ok ex_off.
Proof. apply check_sys_spec. by_vm. Qed.

Lemma unselected_reaches_detached_witness :
  exists st' m', mux_event (evt LacpMuxmEventSelectedEqualUnselected RxMachineModuleStr) ex_off = Ok st' /\
    get_muxm st' = Some m' /\ CurrentState m' = LacpMuxmStateDetached /\
    bits (State (ActorOper (prt st'))) = (false, false, false).
Proof.
  apply (unselected_reaches_detached _ ex_off (ex_mux ex_off) ex_off_sys);
    [apply ex_mux_get; by_vm|in_range|reflexivity|vm_compute; discriminate|by_vm].
Defined.

(** ** The receive machine *)

Definition ex_pkt (i : LacpPortInfo) : LACPPortInfo :=
  {| pkt_SystemId := Actor_System (System i); pkt_SystemPriority := Actor_System_priority (System i);
     pkt_Key := Key i; pkt_PortPri := Port_pri i; pkt_Port := port i; pkt_State := State i |}.

(** A partner in sync that has seen the port. *)
Definition ex_pdu (st : St) : LACP :=
  {| pkt_Version := 1; pkt_MaxDelay := 0;
     pkt_Actor := ex_pkt (ex_info 2 (LacpStateSet LacpStateSyncBit (ex_flags true true)));
     pkt_Partner := ex_pkt (ActorOper (prt st)) |}.

Lemma ex_up_rx : rx_ready ex_up (ex_rx ex_up).
Proof. apply (ex_rx_ready ex_up ex_up_sys). by_vm. Qed.

Lemma ex_a_rx : rx_ready ex_a (ex_rx ex_a).
Proof. apply (ex_rx_ready ex_a ex_a_sys). by_vm. Qed.

Lemma ex_down_rx : rx_ready ex_down (ex_rx ex_down).
Proof. apply (ex_rx_ready ex_down ex_down_sys). by_vm. Qed.



Lemma rx_silence_defaults_witness :
  exists st1 m1, rx_timer ex_a = Ok st1 /\ get_rxm st1 = Some m1 /\
    CurrentState m1 = LacpRxmStateExpired.
Proof.
  destruct (rx_silence_defaults ex_a (ex_rx ex_a) ex_a_rx) as (st1 & m1 & H1 & H2 & H3 & _);
    [by_vm| |exists st1, m1; exact (conj H1 (conj H2 H3))].
  intros rxm. vm_compute. intros [= <-]. reflexivity.
Defined.

Lemma pdu_recorded_witness :
  exists st' m', rx_pkt (ex_pdu ex_up) ex_up = Ok st' /\ get_rxm st' = Some m' /\
    CurrentState m' = LacpRxmStateCurrent /\
    same_port (PartnerOper (prt st')) (info_of_pkt (pkt_Actor (ex_pdu ex_up))).
Proof.
  destruct (pdu_recorded (ex_pdu ex_up) ex_up (ex_rx ex_up) ex_up_rx) as (st' & m' & H1 & H2 & H3 & H4 & _);
    [left; by_vm|exists st', m'; exact (conj H1 (conj H2 (conj H3 H4)))].
Defined.

Lemma partner_churn_false_alarm_witness :
  exists st1 st2, rx_pkt (ex_pdu ex_up) ex_up = Ok st1 /\
    LacpStateIsSet (State (PartnerOper (prt st1))) LacpStateSyncBit = true /\
    pcd_timer st1 = Ok st2 /\ partnerChurn (prt st2) = true.
Proof.
  destruct (partner_churn_false_alarm (ex_pdu ex_up) ex_up (ex_rx ex_up) (ex_pcd ex_up) ex_up_rx)
    as (st1 & st2 & H1 & _ & H2 & H3 & H4 & _);
    [left; by_vm|apply pdu_in_sync_spec; by_vm|apply ex_pcd_ready; by_vm|by_vm|
     exists st1, st2; exact (conj H1 (conj H2 (conj H3 H4)))].
Defined.

(** A PDU of the partner the port starts with. *)
Definition ex_moved : LACP :=
  {| pkt_Version := 1; pkt_MaxDelay := 0; pkt_Actor := ex_pkt ex_partner; pkt_Partner := ex_pkt ex_partner |}.

Lemma port_moved_ignores_pdus_witness :
  exists st1 m1, rx_pkt ex_moved ex_down = Ok st1 /\ get_rxm st1 = Some m1 /\
    CurrentState m1 = LacpRxmStateInitialize /\
    forall pdu', rx_pkt pdu' st1 = Ok (counted st1).
Proof.
  apply (port_moved_ignores_pdus ex_moved ex_down (ex_rx ex_down) ex_down_rx); by_vm.
Defined.

(** ** The marker responder and the machine library *)

Definition ex_lamp : LAMP := {| Marker_TlvType := 1; Marker_Length := 16; Marker_Body := [1; 2; 3] |}.

Lemma marker_answered_once_witness :
  exists st1 st2, mr_pkt ex_lamp ex_up = Ok st1 /\
    Effects st1 = Effects ex_up ++ map (fun ftx => TxLamp ftx (PortNum (prt ex_up))
      (ex_lamp <| Marker_TlvType := LAMPTLVMarkerResponder |>)) [Some 0%nat] /\
    for_each mr_pkt [ex_lamp; ex_lamp] st1 = Ok st2 /\ Effects st2 = Effects st1.
Proof.
  apply (marker_answered_once ex_lamp [ex_lamp; ex_lamp] ex_up (ex_mr ex_up) [Some 0%nat]);
    [|by_vm|split; reflexivity|by_vm].
  apply ex_mr_ready. by_vm.
Defined.

(** The mux machine, run through its table from DETACHED. *)
Lemma machine_is_automaton_witness :
  exists st' m',
    process_all get_muxm set_muxm mux_callback tt
      (map (pair "") [LacpMuxmEventSelectedEqualSelected; LacpMuxmEventSelectedEqualSelectedAndReady;
                      LacpMuxmEventSelectedEqualSelectedAndPartnerSync]) ex_down = Ok st' /\
    get_muxm st' = Some m' /\ CurrentState m' = LacpMuxmStateCollecting.
Proof.
  destruct (machine_is_automaton get_muxm set_muxm mux_callback mux_rules cb_target mux_pre tt
    (map (pair "") [LacpMuxmEventSelectedEqualSelected; LacpMuxmEventSelectedEqualSelectedAndReady;
                    LacpMuxmEventSelectedEqualSelectedAndPartnerSync]) ex_down (ex_mux ex_down))
    as (st' & m' & E & Hm & Hs).
  - exact set_muxm_get.
  - exact set_muxm_pre.
  - intros cb w Hw. destruct (mux_callback_spec cb w Hw) as (w' & E & R).
    exists w'. split; [exact E|]. split; [apply R|apply R].
  - apply sys_pre, ex_down_sys.
  - apply ex_mux_get. by_vm.
  - by_vm.
  - apply (has_rules_spec (ex_mux ex_down) mux_rules). by_vm.
  - exists st', m'. split; [exact E|]. split; [exact Hm|]. rewrite Hs. by_vm.
Defined.
