(* ===== verification/RingBuffer.v ===== *)
(** * The ring buffer of [utils/ringBuffer]

    The fault manager, the event store and the platform daemon keep their
    histories in a ring: a slice with a write pointer at the newest entry, or
    at -1 when the ring is empty, and a read pointer at the oldest.  The file
    models every operation of [ringBuffer.go] and shows that a ring whose
    capacity was set is a queue that drops its oldest entry when it is full.

    An [interface{}] is an [option V]; the slice of a ring that was never
    used is [None].  An index is reduced with Go's [%], which keeps the sign
    of the dividend and panics on a slice of length zero. *)

From S2P Require Import Prelude.

Definition DefCapacity : Z := 10.

Record RingBuffer (V : Type) := mkRing {
  wPtr : Z;
  rPtr : Z;
  buffer : option (list (option V))
}.
Arguments mkRing {V} _ _ _.
Arguments wPtr {V} _.
Arguments rPtr {V} _.
Arguments buffer {V} _.
#[export] Instance RingBuffer_settable V : Settable (RingBuffer V) :=
  fun r => mkRing (wPtr r) (rPtr r) (buffer r).

(** [new(RingBuffer)]. *)
Definition zero_ring {V} : RingBuffer V := mkRing 0 0 None.

Section Operations.
Context {V : Type}.
Implicit Types (rB : RingBuffer V) (intf : option V).

(** The slice as a list: a nil slice has length zero. *)
Definition slots rB : list (option V) := default [] (buffer rB).

Definition verifyInit rB : RingBuffer V :=
  match buffer rB with
  | None => mkRing (-1) 0 (Some (replicate (Z.to_nat DefCapacity) None))
  | Some _ => rB
  end.

(** [make] panics on a negative size; after the re-slicing the size left to
    add is zero. *)
Definition IncCapacity rB (size : Z) : exec (RingBuffer V) :=
  if size =? len (slots rB) then Ok rB else
  let! b := (if size <? len (slots rB) then slice_to (slots rB) size else Ok (slots rB)) in
  let newbuffer := replicate (Z.to_nat (size - len b)) None in
  Ok (rB <| buffer := Some (b ++ newbuffer) |>).

Definition SetRingBufferCapacity rB (size : Z) : exec (RingBuffer V) :=
  IncCapacity (verifyInit rB) size.

Definition GetRingBufferCapacity rB : Z := len (slots rB).

Definition Modulo rB (idx : Z) : exec Z :=
  if len (slots rB) =? 0 then Panic else Ok (Z.rem idx (len (slots rB))).

Definition Set_ rB (ptr : Z) intf : exec (RingBuffer V) :=
  let! p := Modulo rB ptr in
  let! b := store (slots rB) p intf in
  Ok (rB <| buffer := Some b |>).

Definition Get rB (ptr : Z) : exec (option V) :=
  let! p := Modulo rB ptr in
  index (slots rB) p.

Definition InsertIntoRingBuffer rB intf : exec (RingBuffer V * (Z * option V)) :=
  let rB := verifyInit rB in
  let! oldVal := Get rB (wPtr rB + 1) in
  let! rB := Set_ rB (wPtr rB + 1) intf in
  let old := wPtr rB in
  let! w := Modulo rB (wPtr rB + 1) in
  let rB := rB <| wPtr := w |> in
  let! rB := (if negb (old =? -1) && (wPtr rB =? rPtr rB) then
                let! r := Modulo rB (rPtr rB + 1) in
                Ok (rB <| rPtr := r |>)
              else Ok rB) in
  Ok (rB, (wPtr rB, oldVal)).

Definition DeleteFromRingBuffer rB : exec (RingBuffer V * option V) :=
  let rB := verifyInit rB in
  if wPtr rB =? -1 then Ok (rB, None) else
  let! intf := Get rB (rPtr rB) in
  if wPtr rB =? rPtr rB then Ok (rB <| wPtr := -1 |> <| rPtr := 0 |>, intf) else
  let! r := Modulo rB (rPtr rB + 1) in
  Ok (rB <| rPtr := r |>, intf).

Definition PeekIntoRingBuffer rB : exec (RingBuffer V * option V) :=
  let rB := verifyInit rB in
  if wPtr rB =? -1 then Ok (rB, None) else
  let! intf := Get rB (rPtr rB) in
  Ok (rB, intf).

(** The loop of [GetListOfEntriesFromRingBuffer] with [n] turns left. *)
Fixpoint entries_from rB (n : nat) (idx : Z) (intfSlice : list (option V)) : exec (list (option V)) :=
  match n with
  | O => Ok intfSlice
  | S n =>
      let! ptr := Modulo rB (rPtr rB + idx) in
      let! e := index (slots rB) ptr in
      let intfSlice := intfSlice ++ [e] in
      if ptr =? wPtr rB then Ok intfSlice else entries_from rB n (idx + 1) intfSlice
  end.

Definition GetListOfEntriesFromRingBuffer rB : exec (list (option V)) :=
  if wPtr rB =? -1 then Ok [] else
  entries_from rB (Z.to_nat (GetRingBufferCapacity rB)) 0 [].

Definition UpdateEntryInRingBuffer rB intf (idx : Z) : exec (RingBuffer V) :=
  let! ptr := Modulo rB idx in
  let! b := store (slots rB) ptr intf in
  Ok (rB <| buffer := Some b |>).

Definition GetEntryFromRingBuffer rB (idx : Z) : exec (option V) :=
  let! ptr := Modulo rB idx in
  index (slots rB) ptr.

Definition FlushRingBuffer rB : RingBuffer V :=
  let rB := verifyInit rB in
  if wPtr rB =? -1 then rB else rB <| wPtr := -1 |> <| rPtr := 0 |>.

End Operations.

(** ** The queue a ring promises to be

    The entries oldest first, the capacity beside them. *)

Inductive ring_op (V : Type) :=
| OpInsert (v : option V)
| OpDelete
| OpPeek
| OpList
| OpFlush
| OpUpdateLast (v : option V).
Arguments OpInsert {V} _.
Arguments OpDelete {V}.
Arguments OpPeek {V}.
Arguments OpList {V}.
Arguments OpFlush {V}.
Arguments OpUpdateLast {V} _.

Section Queue.
Context {V : Type}.
Implicit Types (q : list (option V)) (op : ring_op V).

(** What the caller of an operation sees, and the queue after it.  The
    caller of an insertion reads the entry at the index it was given;
    [OpUpdateLast] rewrites the entry at the index the last insertion
    returned, as the fault manager does when a fault is resolved. *)
Definition queue_step (cap : nat) q op : list (option V) * list (option V) :=
  match op with
  | OpInsert v => ((if (length q =? cap)%nat then tail q else q) ++ [v], [v])
  | OpDelete => (tail q, [mjoin (head q)])
  | OpPeek => (q, [mjoin (head q)])
  | OpList => (q, q)
  | OpFlush => ([], [])
  | OpUpdateLast v => (match q with [] => [] | _ => removelast q ++ [v] end, [])
  end.

Definition ring_step (rB : RingBuffer V) op : exec (RingBuffer V * list (option V)) :=
  match op with
  | OpInsert v =>
      let! (rB, (idx, _)) := InsertIntoRingBuffer rB v in
      let! e := GetEntryFromRingBuffer rB idx in
      Ok (rB, [e])
  | OpDelete => let! (rB, v) := DeleteFromRingBuffer rB in Ok (rB, [v])
  | OpPeek => let! (rB, v) := PeekIntoRingBuffer rB in Ok (rB, [v])
  | OpList => let! l := GetListOfEntriesFromRingBuffer rB in Ok (rB, l)
  | OpFlush => Ok (FlushRingBuffer rB, [])
  | OpUpdateLast v =>
      if wPtr rB =? -1 then Ok (rB, [])
      else let! rB := UpdateEntryInRingBuffer rB v (wPtr rB) in Ok (rB, [])
  end.

Fixpoint queue_run (cap : nat) q (ops : list (ring_op V)) : list (option V) * list (list (option V)) :=
  match ops with
  | [] => (q, [])
  | op :: ops =>
      let '(q, out) := queue_step cap q op in
      let '(q, outs) := queue_run cap q ops in
      (q, out :: outs)
  end.

Fixpoint ring_run (rB : RingBuffer V) (ops : list (ring_op V)) : exec (RingBuffer V * list (list (option V))) :=
  match ops with
  | [] => Ok (rB, [])
  | op :: ops =>
      let! (rB, out) := ring_step rB op in
      let! (rB, outs) := ring_run rB ops in
      Ok (rB, out :: outs)
  end.

(** ** The ring that represents a queue *)

Inductive ring_queue (n : Z) : RingBuffer V -> list (option V) -> Prop :=
| ring_empty b :
    0 < n -> len b = n -> ring_queue n (mkRing (-1) 0 (Some b)) []
| ring_full_to r b q :
    0 < len q <= n -> 0 <= r < n -> len b = n ->
    (forall i, 0 <= i < len q -> b !! Z.to_nat ((r + i) mod n) = q !! Z.to_nat i) ->
    ring_queue n (mkRing ((r + len q - 1) mod n) r (Some b)) q.

End Queue.

(** ** The operations on a represented queue *)

Section Refinement.
Context {V : Type}.
Implicit Types (rB : RingBuffer V) (q : list (option V)) (b : list (option V)).

Lemma Modulo_mod w r b idx :
  0 < len b -> 0 <= idx -> Modulo (mkRing w r (Some b)) idx = Ok (idx mod len b).
Proof.
  intros Hb Hi. unfold Modulo, slots. cbn. rewrite (proj2 (Z.eqb_neq _ _)) by lia.
  by rewrite Z.rem_mod_nonneg by lia.
Qed.

Lemma len_insert b i x : len (<[i := x]> b) = len b.
Proof. unfold len. by rewrite length_insert. Qed.

(** Distinct offsets of less than [n] name distinct slots. *)
Lemma mod_inj n r i j :
  0 <= i < n -> 0 <= j < n -> (r + i) mod n = (r + j) mod n -> i = j.
Proof.
  intros Hi Hj E. assert (0 < n) by lia.
  pose proof (Z.div_mod (r + i) n). pose proof (Z.div_mod (r + j) n).
  assert ((r + i) / n - (r + j) / n = 0) by nia. lia.
Qed.

Lemma mod_slot n p : 0 < n -> 0 <= p mod n < n.
Proof. intros. apply Z.mod_pos_bound. lia. Qed.

Lemma queue_lookup q i : 0 <= i < len q -> exists x, q !! Z.to_nat i = Some x.
Proof. intros. apply lookup_lt_is_Some_2. unfold len in *. lia. Qed.

Lemma slot_lookup b p n : len b = n -> 0 < n -> exists x, b !! Z.to_nat (p mod n) = Some x.
Proof. intros Hb Hn. apply queue_lookup. rewrite Hb. apply mod_slot. lia. Qed.

(** Appending to the entries, with the slot after them written. *)
Lemma slots_snoc n r b q v :
  0 < n -> 0 <= len q < n -> len b = n ->
  (forall i, 0 <= i < len q -> b !! Z.to_nat ((r + i) mod n) = q !! Z.to_nat i) ->
  forall i, 0 <= i < len (q ++ [v]) ->
    <[Z.to_nat ((r + len q) mod n) := v]> b !! Z.to_nat ((r + i) mod n) = (q ++ [v]) !! Z.to_nat i.
Proof.
  intros Hn Hq Hb H i. autorewrite with go_len. intros Hi.
  pose proof (mod_slot n (r + i) Hn). pose proof (mod_slot n (r + len q) Hn).
  destruct (decide (i = len q)) as [->|Hne].
  - rewrite list_lookup_insert_eq by (unfold len in *; lia).
    rewrite lookup_app_r by (unfold len; lia). unfold len. by rewrite Nat2Z.id, Nat.sub_diag.
  - rewrite list_lookup_insert_ne.
    + rewrite lookup_app_l by (unfold len in *; lia). apply H. lia.
    + intros E. apply Hne. symmetry. apply (mod_inj n r); [lia..|]. lia.
Qed.

(** Forgetting the oldest entry. *)
Lemma slots_tail n r b x q :
  0 < n ->
  (forall i, 0 <= i < len (x :: q) -> b !! Z.to_nat ((r + i) mod n) = (x :: q) !! Z.to_nat i) ->
  forall i, 0 <= i < len q -> b !! Z.to_nat (((r + 1) mod n + i) mod n) = q !! Z.to_nat i.
Proof.
  intros Hn H i Hi. rewrite Zplus_mod_idemp_l. replace (r + 1 + i) with (r + (i + 1)) by lia.
  rewrite H by (rewrite len_cons; lia). by rewrite Z.add_1_r, Z2Nat.inj_succ by lia.
Qed.

(** The write pointer is one before the slot after the entries. *)
Lemma next_slot n r q : 0 < n -> ((r + len q - 1) mod n + 1) mod n = (r + len q) mod n.
Proof. intros. rewrite Zplus_mod_idemp_l. f_equal. lia. Qed.

(** The steps of [InsertIntoRingBuffer] before the read pointer is looked
    at. *)
Lemma insert_unfold w r b v :
  0 < len b -> -1 <= w ->
  let p := (w + 1) mod len b in
  let b' := <[Z.to_nat p := v]> b in
  exists old, InsertIntoRingBuffer (mkRing w r (Some b)) v =
    if negb (w =? -1) && (p =? r) then
      let! r := Modulo (mkRing p r (Some b')) (r + 1) in
      Ok (mkRing p r (Some b'), (p, old))
    else Ok (mkRing p r (Some b'), (p, old)).
Proof.
  intros Hb Hw p b'. destruct (slot_lookup b (w + 1) (len b)) as [old Hold]; [done..|].
  exists old. pose proof (mod_slot (len b) (w + 1) Hb).
  unfold InsertIntoRingBuffer, Get, Set_. cbn. rewrite !Modulo_mod by lia. cbn.
  rewrite (index_at _ _ old), store_at by (done || lia). simpl_rec.
  rewrite Modulo_mod by (rewrite ?len_insert; lia). cbn. rewrite len_insert.
  fold p. fold b'. destruct (_ && _); cbn; [|done].
  by destruct (Modulo (mkRing p r (Some b')) (r + 1)).
Qed.

Lemma entry_written w r b v :
  0 <= w < len b ->
  GetEntryFromRingBuffer (mkRing w r (Some (<[Z.to_nat w := v]> b))) w = Ok v.
Proof.
  intros Hw. unfold GetEntryFromRingBuffer. rewrite Modulo_mod by (rewrite ?len_insert; lia). cbn.
  rewrite len_insert, Z.mod_small by lia. apply index_at; [lia|].
  apply list_lookup_insert_eq. unfold len in *. lia.
Qed.

Lemma ring_queue_intro n w r b q :
  0 < len q <= n -> 0 <= r < n -> len b = n -> w = (r + len q - 1) mod n ->
  (forall i, 0 <= i < len q -> b !! Z.to_nat ((r + i) mod n) = q !! Z.to_nat i) ->
  ring_queue n (mkRing w r (Some b)) q.
Proof. intros ??? ->. by constructor. Qed.

(** The ring after an insertion that leaves the read pointer alone. *)
Lemma ring_queue_snoc n r b q v :
  0 < n -> 0 <= len q < n -> 0 <= r < n -> len b = n ->
  (forall i, 0 <= i < len q -> b !! Z.to_nat ((r + i) mod n) = q !! Z.to_nat i) ->
  let p := (r + len q) mod n in
  ring_queue n (mkRing p r (Some (<[Z.to_nat p := v]> b))) (q ++ [v]).
Proof.
  intros Hn Hq Hr Hb Hslots p. apply ring_queue_intro; rewrite ?len_insert; autorewrite with go_len.
  - lia.
  - done.
  - done.
  - unfold p. f_equal. lia.
  - intros i Hi. apply slots_snoc; autorewrite with go_len; done || lia.
Qed.

(** The ring after an insertion that drops the oldest entry. *)
Lemma ring_queue_shift n r b x q v :
  0 < n -> len (x :: q) = n -> 0 <= r < n -> len b = n ->
  (forall i, 0 <= i < len (x :: q) -> b !! Z.to_nat ((r + i) mod n) = (x :: q) !! Z.to_nat i) ->
  ring_queue n (mkRing r ((r + 1) mod n) (Some (<[Z.to_nat r := v]> b))) (q ++ [v]).
Proof.
  intros Hn Hq Hr Hb Hslots. pose proof (slots_tail n r b x q Hn Hslots) as Htail.
  rewrite len_cons in Hq. pose proof (mod_slot n (r + 1) Hn).
  assert (Hp : ((r + 1) mod n + len q) mod n = r).
  { rewrite Zplus_mod_idemp_l. replace (r + 1 + len q) with (r + 1 * n) by lia.
    rewrite Z.mod_add, Z.mod_small by lia. done. }
  pose proof (ring_queue_snoc n ((r + 1) mod n) b q v) as H'. rewrite Hp in H'.
  apply H'; (done || (pose proof (len_nonneg q); lia)).
Qed.

Lemma insert_spec n rB q v :
  ring_queue n rB q ->
  exists rB' old, InsertIntoRingBuffer rB v = Ok (rB', (wPtr rB', old)) /\
    ring_queue n rB' ((if len q =? n then tail q else q) ++ [v]) /\
    GetEntryFromRingBuffer rB' (wPtr rB') = Ok v.
Proof.
  intros [b Hn Hb | r b q' Hq Hr Hb Hslots].
  - destruct (insert_unfold (-1) 0 b v) as [old ->]; [lia..|]. cbn.
    rewrite Z.mod_0_l by lia. eexists (mkRing _ _ (Some _)), old. split; [done|]. split; [|apply entry_written; cbn; lia].
    change (len (@nil (option V))) with 0. rewrite (proj2 (Z.eqb_neq 0 n)) by lia.
    apply (ring_queue_snoc n 0 b [] v); change (len (@nil (option V))) with 0; lia.
  - pose proof (mod_slot n (r + len q' - 1)). pose proof (mod_slot n (r + len q')).
    destruct (insert_unfold ((r + len q' - 1) mod n) r b v) as [old ->]; [lia..|].
    rewrite Hb, next_slot, (proj2 (Z.eqb_neq ((r + len q' - 1) mod n) (-1))) by lia. cbn [negb andb].
    destruct (Z.eqb_spec (len q') n) as [Hfull|Hfree].
    + assert (E : (r + len q') mod n = r)
        by (rewrite Hfull, <- (Z.mul_1_l n) at 1; rewrite Z.mod_add, Z.mod_small by lia; done).
      rewrite E, Z.eqb_refl, Modulo_mod by (rewrite ?len_insert; lia). cbn. rewrite len_insert, Hb.
      eexists (mkRing _ _ (Some _)), old. split; [done|]. split; [|apply entry_written; cbn; lia].
      destruct q' as [|x q']; [rewrite len_nil in *; lia|]. apply (ring_queue_shift n r b x); done || lia.
    + assert (E : (r + len q') mod n <> r).
      { intros E. rewrite <- (Z.mod_small r n), <- (Z.add_0_r r) in E at 2 by lia.
        apply mod_inj in E; lia. }
      rewrite (proj2 (Z.eqb_neq _ _) E).
      exists (mkRing ((r + len q') mod n) r (Some (<[Z.to_nat ((r + len q') mod n) := v]> b))), old.
      split; [done|]. split; [apply ring_queue_snoc; done || lia | cbn; apply entry_written; lia].
Qed.

Lemma head_slot n r b x q :
  0 <= r < n ->
  (forall i, 0 <= i < len (x :: q) -> b !! Z.to_nat ((r + i) mod n) = (x :: q) !! Z.to_nat i) ->
  b !! Z.to_nat r = Some x.
Proof.
  intros Hr H. specialize (H 0). rewrite Z.add_0_r, Z.mod_small in H by lia.
  apply H. rewrite len_cons. pose proof (len_nonneg q). lia.
Qed.

Lemma get_oldest w r b x q :
  0 <= r < len b ->
  (forall i, 0 <= i < len (x :: q) -> b !! Z.to_nat ((r + i) mod len b) = (x :: q) !! Z.to_nat i) ->
  Get (mkRing w r (Some b)) r = Ok x.
Proof.
  intros Hr H. unfold Get. rewrite Modulo_mod by lia. cbn. rewrite Z.mod_small by lia.
  apply index_at; [lia|]. by apply (head_slot (len b) r b x q).
Qed.

Lemma delete_spec n rB q :
  ring_queue n rB q ->
  exists rB', DeleteFromRingBuffer rB = Ok (rB', mjoin (head q)) /\ ring_queue n rB' (tail q).
Proof.
  intros [b Hn Hb | r b q' Hq Hr Hb Hslots]; [eexists; split; [done | by constructor]|].
  destruct q' as [|x q']; [rewrite len_nil in *; lia|]. pose proof (mod_slot n (r + len (x :: q') - 1)).
  unfold DeleteFromRingBuffer. cbn -[len Z.eqb]. rewrite (proj2 (Z.eqb_neq _ (-1))) by lia.
  rewrite (get_oldest _ r b x q') by (rewrite ?Hb; done). cbn -[len].
  rewrite len_cons in *. replace (r + (1 + len q') - 1) with (r + len q') in * by lia.
  destruct (Z.eqb_spec ((r + len q') mod n) r) as [E|E].
  - exists (mkRing (-1) 0 (Some b)). split; [done|].
    assert (Hz : len q' = 0).
    { pose proof (len_nonneg q'). rewrite <- (Z.mod_small r n), <- (Z.add_0_r r) in E at 2 by lia.
      apply mod_inj in E; lia. }
    destruct q'; [|rewrite len_cons in Hz; pose proof (len_nonneg q'); lia]. constructor; lia.
  - rewrite Modulo_mod by lia. eexists (mkRing _ _ (Some _)). split; [done|]. cbn. rewrite Hb.
    assert (0 < len q').
    { pose proof (len_nonneg q'). destruct (decide (len q' = 0)) as [Hz|]; [|lia].
      rewrite Hz, Z.add_0_r, Z.mod_small in E by lia. done. }
    apply ring_queue_intro; [lia | apply mod_slot; lia | done | |].
    + rewrite Zminus_mod, Zplus_mod_idemp_l, <- Zminus_mod. f_equal. lia.
    + intros i Hi. apply (slots_tail n r b x q'); [lia | | done]. intros j. rewrite len_cons. apply Hslots.
Qed.

Lemma peek_spec n rB q :
  ring_queue n rB q -> PeekIntoRingBuffer rB = Ok (rB, mjoin (head q)).
Proof.
  intros [b Hn Hb | r b q' Hq Hr Hb Hslots]; [done|].
  destruct q' as [|x q']; [rewrite len_nil in *; lia|]. pose proof (mod_slot n (r + len (x :: q') - 1)).
  unfold PeekIntoRingBuffer. cbn -[len Z.eqb]. rewrite (proj2 (Z.eqb_neq _ (-1))) by lia.
  by rewrite (get_oldest _ r b x q') by (rewrite ?Hb; done).
Qed.

Lemma entries_from_spec r b q k idx acc :
  0 <= r < len b -> 0 <= idx < len q -> len q <= len b -> Z.of_nat k = len b - idx ->
  (forall i, 0 <= i < len q -> b !! Z.to_nat ((r + i) mod len b) = q !! Z.to_nat i) ->
  entries_from (mkRing ((r + len q - 1) mod len b) r (Some b)) k idx acc =
  Ok (acc ++ drop (Z.to_nat idx) q).
Proof.
  intros Hr Hidx Hq Hk Hslots. revert idx acc Hidx Hk. induction k as [|k IH]; intros idx acc Hidx Hk.
  - lia.
  - cbn -[len Z.eqb Z.sub]. rewrite Modulo_mod by lia. cbn -[len Z.eqb Z.sub].
    destruct (queue_lookup q idx Hidx) as [x Hx].
    pose proof (mod_slot (len b) (r + idx)).
    rewrite (index_at _ _ x) by (rewrite ?Hslots; done || lia). cbn -[len Z.eqb Z.sub].
    rewrite (drop_S _ _ _ Hx).
    destruct (Z.eqb_spec ((r + idx) mod len b) ((r + len q - 1) mod len b)) as [E|E].
    + replace (r + len q - 1) with (r + (len q - 1)) in E by lia. apply mod_inj in E; [|lia..].
      rewrite (drop_ge q (S _)) by (unfold len in *; lia). done.
    + rewrite IH.
      * by rewrite <- app_assoc, Z.add_1_r, Z2Nat.inj_succ by lia.
      * assert (idx <> len q - 1) by (intros ->; apply E; f_equal; lia). lia.
      * lia.
Qed.

Lemma list_spec n rB q :
  ring_queue n rB q -> GetListOfEntriesFromRingBuffer rB = Ok q.
Proof.
  intros [b Hn Hb | r b q' Hq Hr Hb Hslots]; [done|]. subst n.
  pose proof (mod_slot (len b) (r + len q' - 1)).
  unfold GetListOfEntriesFromRingBuffer, GetRingBufferCapacity, slots. cbn -[len Z.eqb].
  rewrite (proj2 (Z.eqb_neq _ (-1))) by lia. by rewrite entries_from_spec by lia || done.
Qed.

Lemma flush_spec n rB q : ring_queue n rB q -> ring_queue n (FlushRingBuffer rB) [].
Proof.
  intros [b Hn Hb | r b q' Hq Hr Hb Hslots]; [by constructor|].
  unfold FlushRingBuffer. cbn -[Z.eqb]. case_match; [|constructor; lia].
  pose proof (mod_slot n (r + len q' - 1)). lia.
Qed.

Lemma update_last_spec n rB q v :
  ring_queue n rB q -> wPtr rB <> -1 ->
  exists rB', UpdateEntryInRingBuffer rB v (wPtr rB) = Ok rB' /\
    ring_queue n rB' (removelast q ++ [v]).
Proof.
  intros [b Hn Hb | r b q' Hq Hr Hb Hslots]; [done|]. cbn [wPtr]. intros _.
  pose proof (mod_slot n (r + len q' - 1)).
  unfold UpdateEntryInRingBuffer. rewrite Modulo_mod by lia. cbn -[len].
  rewrite Hb, Z.mod_mod, store_at by lia. eexists (mkRing _ _ (Some _)). split; [done|].
  cbn [wPtr rPtr]. clear rB q. destruct q' as [|x q _] using rev_ind; [unfold len in Hq; cbn in Hq; lia|].
  rewrite removelast_last. autorewrite with go_len in *.
  replace (r + (len q + (1 + 0)) - 1) with (r + len q) in * by lia.
  apply ring_queue_snoc; [lia | pose proof (len_nonneg q); lia | done | done|].
  intros i Hi. rewrite Hslots by lia. apply lookup_app_l. unfold len in *. lia.
Qed.

Lemma ring_step_refines (cap : nat) rB q op :
  ring_queue (Z.of_nat cap) rB q ->
  exists rB', ring_step rB op = Ok (rB', snd (queue_step cap q op)) /\
    ring_queue (Z.of_nat cap) rB' (fst (queue_step cap q op)).
Proof.
  intros H. destruct op as [v| | | | |v]; cbn -[Z.eqb].
  - destruct (insert_spec _ rB q v H) as (rB' & old & -> & H' & He). exists rB'.
    cbn -[Z.eqb]. rewrite He. split; [done|].
    replace ((length q =? cap)%nat) with (len q =? Z.of_nat cap); [done|].
    unfold len. destruct (Nat.eqb_spec (length q) cap), (Z.eqb_spec (Z.of_nat (length q)) (Z.of_nat cap)); done || lia.
  - destruct (delete_spec _ rB q H) as (rB' & -> & H'). by exists rB'.
  - rewrite (peek_spec _ rB q H). by exists rB.
  - rewrite (list_spec _ rB q H). by exists rB.
  - exists (FlushRingBuffer rB). split; [done|]. by eapply flush_spec.
  - destruct (Z.eqb_spec (wPtr rB) (-1)) as [E|E].
    + exists rB. split; [done|]. destruct H as [|r b q' ? ?]; [by constructor|]. cbn in E.
      pose proof (mod_slot (Z.of_nat cap) (r + len q' - 1)). lia.
    + destruct (update_last_spec _ rB q v H E) as (rB' & -> & H'). exists rB'. split; [done|].
      destruct q; [|done]. inversion H; subst; [done | unfold len in *; cbn in *; lia].
Qed.

Lemma ring_run_refines (cap : nat) ops rB q :
  ring_queue (Z.of_nat cap) rB q ->
  exists rB', ring_run rB ops = Ok (rB', snd (queue_run cap q ops)) /\
    ring_queue (Z.of_nat cap) rB' (fst (queue_run cap q ops)).
Proof.
  revert rB q. induction ops as [|op ops IH]; intros rB q H; cbn; [by exists rB|].
  destruct (ring_step_refines cap rB q op H) as (rB1 & -> & H1). cbn.
  destruct (queue_step cap q op) as [q1 out]. cbn in *.
  destruct (IH rB1 q1 H1) as (rB2 & -> & H2). cbn.
  destruct (queue_run cap q1 ops) as [q2 outs]. by exists rB2.
Qed.

(** A new capacity truncates the slice or fills it up, and leaves the
    pointers alone. *)
Lemma inc_capacity w r b size :
  0 <= size ->
  IncCapacity (mkRing w r (Some b)) size =
  Ok (mkRing w r (Some (take (Z.to_nat size) b ++ replicate (Z.to_nat (size - len b)) None))).
Proof.
  intros Hs. unfold IncCapacity. change (slots (mkRing w r (Some b))) with b.
  destruct (Z.eqb_spec size (len b)) as [->|E].
  - rewrite Z.sub_diag. cbn. by rewrite take_ge, app_nil_r by (unfold len; lia).
  - destruct (Z.ltb_spec size (len b)).
    + unfold slice_to. rewrite (proj2 (Z.leb_le 0 size)), (proj2 (Z.leb_le size (len b))) by lia. simpl_rec.
      assert (El : len (take (Z.to_nat size) b) = size) by (unfold len in *; rewrite length_take; lia).
      rewrite El, Z.sub_diag. by replace (Z.to_nat (size - len b)) with O by lia.
    + simpl_rec. by rewrite take_ge by (unfold len in *; lia).
Qed.

Lemma len_inc_capacity b size :
  0 <= size -> len (take (Z.to_nat size) b ++ replicate (Z.to_nat (size - len b)) None) = size.
Proof. intros. unfold len. rewrite length_app, length_take, length_replicate. lia. Qed.

(** Setting the capacity of a new ring. *)
Lemma set_capacity_new (cap : nat) :
  (0 < cap)%nat ->
  exists rB : RingBuffer V, SetRingBufferCapacity zero_ring (Z.of_nat cap) = Ok rB /\
    ring_queue (Z.of_nat cap) rB [].
Proof.
  intros Hcap. unfold SetRingBufferCapacity.
  change (verifyInit zero_ring) with (mkRing (-1) 0 (Some (replicate 10 (@None V)))).
  rewrite inc_capacity by lia. eexists (mkRing _ _ (Some _)). split; [done|].
  constructor; [lia | apply len_inc_capacity; lia].
Qed.

(** What a ring holds after it grows: the slots past the end of the old slice
    come between the entries before it and those that had wrapped around. *)
Definition grown (n r size : Z) (q : list (option V)) : list (option V) :=
  if r + len q <=? n then q
  else take (Z.to_nat (n - r)) q ++ replicate (Z.to_nat (size - n)) None ++ drop (Z.to_nat (n - r)) q.

Lemma grow_slots n r b size q :
  0 < n <= size -> 0 < len q <= n -> 0 <= r < n -> len b = n ->
  (forall i, 0 <= i < len q -> b !! Z.to_nat ((r + i) mod n) = q !! Z.to_nat i) ->
  ring_queue size (mkRing ((r + len q - 1) mod n) r
    (Some (take (Z.to_nat size) b ++ replicate (Z.to_nat (size - n)) None))) (grown n r size q).
Proof.
  intros Hn Hq Hr Hb Hslots. rewrite take_ge by (unfold len in *; lia).
  unfold grown. destruct (Z.leb_spec (r + len q) n) as [Hle|Hgt].
  - rewrite Z.mod_small by lia. apply ring_queue_intro; [lia | lia | | |].
    + unfold len in *. rewrite length_app, length_replicate. lia.
    + rewrite Z.mod_small; lia.
    + intros i Hi. rewrite Z.mod_small, lookup_app_l by (unfold len in *; lia).
      rewrite <- Hslots, Z.mod_small by lia. done.
  - assert (Hlen : len (take (Z.to_nat (n - r)) q ++ replicate (Z.to_nat (size - n)) None ++
                        drop (Z.to_nat (n - r)) q) = len q + (size - n)).
    { unfold len in *. rewrite !length_app, length_take, length_replicate, length_drop. lia. }
    assert (Hw : (r + len q - 1) mod n = r + len q - 1 - n).
    { replace (r + len q - 1) with (r + len q - 1 - n + 1 * n) by lia.
      rewrite Z.mod_add, Z.mod_small by lia. lia. }
    apply ring_queue_intro; [lia | lia | | |].
    + unfold len in *. rewrite length_app, length_replicate. lia.
    + rewrite Hw, Hlen. replace (r + (len q + (size - n)) - 1) with (r + len q - 1 - n + 1 * size) by lia.
      rewrite Z.mod_add, Z.mod_small by lia. done.
    + intros i Hi. rewrite Hlen in Hi.
      destruct (Z.lt_ge_cases i (n - r)); [|destruct (Z.lt_ge_cases i (size - r))].
      * rewrite Z.mod_small, !lookup_app_l by (unfold len in *; rewrite ?length_take; lia).
        rewrite lookup_take_lt, <- Hslots, Z.mod_small by lia. done.
      * rewrite Z.mod_small by lia. rewrite lookup_app_r by (unfold len in *; lia).
        rewrite (lookup_app_r (take _ _)) by (unfold len in *; rewrite length_take; lia).
        rewrite lookup_app_l by (unfold len in *; rewrite length_take, length_replicate; lia).
        rewrite !lookup_replicate_2; [done | |]; unfold len in *; rewrite ?length_take; lia.
      * replace (r + i) with (r + i - size + 1 * size) by lia.
        rewrite Z.mod_add, Z.mod_small, lookup_app_l by (unfold len in *; lia).
        rewrite lookup_app_r by (unfold len in *; rewrite length_take; lia).
        rewrite lookup_app_r by (unfold len in *; rewrite length_take, length_replicate; lia).
        rewrite lookup_drop, length_take, length_replicate.
        replace (Z.to_nat (n - r) + _)%nat with (Z.to_nat (i - (size - n))) by (unfold len in *; lia).
        rewrite <- Hslots by lia. f_equal. f_equal.
        replace (r + (i - (size - n))) with (r + i - size + 1 * n) by lia.
        rewrite Z.mod_add, Z.mod_small by lia. done.
Qed.

End Refinement.

(** ** What callers of the ring rely on *)

(** C16: A new ring whose capacity was set to a positive number runs every sequence
    of insertions, deletions, peeks, listings, flushes and updates without a
    panic; what each of them returns, and the entries left, are those of the
    queue of that capacity that drops its oldest entry when it is full, and
    the index an insertion returns names the entry inserted. *)
Theorem ring_is_bounded_queue V (cap : nat) (ops : list (ring_op V)) :
  (0 < cap)%nat ->
  exists rB0 rB,
    SetRingBufferCapacity zero_ring (Z.of_nat cap) = Ok rB0 /\
    ring_run rB0 ops = Ok (rB, snd (queue_run cap [] ops)) /\
    GetListOfEntriesFromRingBuffer rB = Ok (fst (queue_run cap [] ops)) /\
    (length (fst (queue_run cap [] ops)) <= cap)%nat.
Proof.
  intros Hcap. destruct (set_capacity_new (V := V) cap Hcap) as (rB0 & E0 & H0).
  destruct (ring_run_refines cap ops rB0 [] H0) as (rB & E & H). exists rB0, rB.
  split; [done|]. split; [done|]. split; [by apply (list_spec (Z.of_nat cap))|].
  destruct H; cbn; [lia | unfold len in *; lia].
Qed.

Lemma ring_is_bounded_queue_witness :
  (0 < 2)%nat /\
  exists rB0 rB,
    SetRingBufferCapacity zero_ring 2 = Ok rB0 /\
    ring_run rB0 [OpInsert (Some 1%Z); OpInsert (Some 2); OpInsert (Some 3); OpPeek; OpDelete] =
      Ok (rB, [[Some 1]; [Some 2]; [Some 3]; [Some 2]; [Some 2]]) /\
    GetListOfEntriesFromRingBuffer rB = Ok [Some 3] /\ (1 <= 2)%nat.
Proof.
  split; [lia|].
  exact (ring_is_bounded_queue Z 2
    [OpInsert (Some 1); OpInsert (Some 2); OpInsert (Some 3); OpPeek; OpDelete] ltac:(lia)).
Defined.

(** A ring in use whose capacity is raised keeps its entries in order when
    they have not wrapped around the end of the slice; when they have, the new
    slots appear as nil entries between the older and the newer ones. *)
Theorem ring_growth V (cap : nat) (ops : list (ring_op V)) rB0 rB outs size :
  (0 < cap)%nat -> Z.of_nat cap <= size ->
  SetRingBufferCapacity zero_ring (Z.of_nat cap) = Ok rB0 ->
  ring_run rB0 ops = Ok (rB, outs) ->
  exists rB', SetRingBufferCapacity rB size = Ok rB' /\
    GetListOfEntriesFromRingBuffer rB' =
      Ok (grown (Z.of_nat cap) (rPtr rB) size (fst (queue_run cap [] ops))).
Proof.
  intros Hcap Hsize E0 E. destruct (set_capacity_new (V := V) cap Hcap) as (rB0' & E0' & H0).
  destruct (ring_run_refines cap ops rB0' [] H0) as (rB1 & E1 & H1).
  rewrite E0' in E0. injection E0 as ->. rewrite E1 in E. injection E as <- <-.
  destruct H1 as [b Hn Hb | r b q Hq Hr Hb Hslots]; unfold SetRingBufferCapacity, verifyInit; cbn [buffer];
    rewrite inc_capacity by lia; eexists; (split; [done|]).
  - unfold grown. rewrite (proj2 (Z.leb_le _ _)) by (unfold len; cbn; lia). done.
  - rewrite Hb. apply (list_spec size). apply grow_slots; done || lia.
Qed.

(** A ring of two whose three insertions wrapped around grows to four. *)
Lemma ring_growth_witness :
  let rB0 := mkRing (-1) 0 (Some [None; None]) in
  let rB := mkRing 0 1 (Some [Some 3; Some 2]) in
  SetRingBufferCapacity zero_ring 2 = Ok rB0 /\
  ring_run rB0 [OpInsert (Some 1%Z); OpInsert (Some 2); OpInsert (Some 3)] =
    Ok (rB, [[Some 1]; [Some 2]; [Some 3]]) /\
  exists rB', SetRingBufferCapacity rB 4 = Ok rB' /\
    GetListOfEntriesFromRingBuffer rB' = Ok [Some 2; None; None; Some 3].
Proof.
  intros rB0 rB. split; [reflexivity|]. split; [reflexivity|].
  exact (ring_growth Z 2 [OpInsert (Some 1); OpInsert (Some 2); OpInsert (Some 3)] rB0 rB
    [[Some 1]; [Some 2]; [Some 3]] 4 ltac:(lia) ltac:(lia) eq_refl eq_refl).
Defined.
