(* ===== verification/PatriciaDB.v ===== *)
(** * The Patricia trie of [utils/patriciaDB]

    The routing and the policy daemon keep their tables in this trie: every
    node holds at most four octets of the keys below it, an optional item and
    a list of children whose prefixes start with different octets.  The file
    models [patricia.go] and the sparse child list of [children.go] (the
    dense list is never created: [add] returns before its constructor).

    A prefix is a Go slice.  [compact] extends one in place when its array has
    room, so two prefixes may share storage, and the operations are written
    against an interface of slices: [Slices] has an instance in which a slice
    is a window on an array of a heap, and one in which it is the list of its
    octets.  A node is owned by its parent, so a node pointer is the list of
    the child indices that lead to it.  An [Item] is an [interface{}]; nil is
    [None].  Octets are [Z]. *)

From S2P Require Import Prelude.
From stdpp Require Import sorting.

Open Scope nat_scope.

Definition DefaultMaxPrefixPerNode : nat := 4.

(** ** Slices *)

(** [rd] reads the octets of a slice, [sub_to s k] is [s[:k]], [sub_from s k]
    is [s[k:]], both for [k] up to the length of [s], and [append_to] is
    [append], whose first argument may be nil. *)
Class Slices (S P : Type) := {
  rd : S -> P -> list Z;
  sub_to : P -> nat -> P;
  sub_from : P -> nat -> P;
  append_to : S -> option P -> list Z -> S * option P
}.

(** A slice of Go: a window of [s_len] octets, extensible to [s_cap], on the
    array number [s_arr] of the heap. *)
Record Slice := mkSlice { s_arr : nat; s_off : nat; s_len : nat; s_cap : nat }.

Notation Heap := (list (list Z)).

Definition array (h : Heap) (a : nat) : list Z := default [] (h !! a).

Definition slice_read (h : Heap) (s : Slice) : list Z :=
  take (s_len s) (drop (s_off s) (array h (s_arr s))).

(** Overwriting the octets of an array from position [i] on. *)
Definition overwrite (i : nat) (bs a : list Z) : list Z := take i a ++ bs ++ drop (i + length bs) a.

(** How much capacity [append] reserves beyond the need is up to the Go
    runtime. *)
Class Growth := growth : nat -> nat -> nat.

Definition slice_append `{Growth} (h : Heap) (o : option Slice) (bs : list Z) : Heap * option Slice :=
  let s := default (mkSlice 0 0 0 0) o in
  let n := s_len s + length bs in
  match o, bs with
  | None, [] => (h, None)
  | _, _ =>
      if n <=? s_cap s then
        (alter (overwrite (s_off s + s_len s) bs) (s_arr s) h,
         Some (mkSlice (s_arr s) (s_off s) n (s_cap s)))
      else
        let extra := growth (s_cap s) n in
        (h ++ [slice_read h s ++ bs ++ replicate extra 0%Z],
         Some (mkSlice (length h) 0 n (n + extra)))
  end.

#[export] Instance go_slices `{Growth} : Slices Heap Slice := {
  rd := slice_read;
  sub_to s k := mkSlice (s_arr s) (s_off s) k (s_cap s);
  sub_from s k := mkSlice (s_arr s) (s_off s + k) (s_len s - k) (s_cap s - k);
  append_to := slice_append
}.

(** Slices whose octets nobody else can change. *)
#[export] Instance value_slices : Slices unit (list Z) := {
  rd _ bs := bs;
  sub_to bs k := take k bs;
  sub_from bs k := drop k bs;
  append_to _ o bs :=
    (tt, match o, bs with None, [] => None | _, _ => Some (default [] o ++ bs) end)
}.

(** ** Nodes *)

Inductive Trie (P Item : Type) :=
| mkTrie (prefix : option P) (item : option Item) (children : list (Trie P Item)).
Arguments mkTrie {P Item} _ _ _.

Section Operations.
Context {S P Item : Type} `{Slices S P}.
Implicit Types (h : S) (t node child : Trie P Item) (cs : list (Trie P Item)).

Definition prefix t : option P := let '(mkTrie p _ _) := t in p.
Definition Item_ t : option Item := let '(mkTrie _ i _) := t in i.
Definition children t : list (Trie P Item) := let '(mkTrie _ _ cs) := t in cs.

Definition set_prefix (p : option P) t := mkTrie p (Item_ t) (children t).
Definition set_item (i : option Item) t := mkTrie (prefix t) i (children t).
Definition set_children cs t := mkTrie (prefix t) (Item_ t) cs.

Definition octets h (p : option P) : list Z := match p with Some p => rd h p | None => [] end.
Definition bytes h t : list Z := octets h (prefix t).

Definition NewTrie : Trie P Item := mkTrie None None [].

Fixpoint height t : nat :=
  match t with mkTrie _ _ cs => Datatypes.S (max_list (map height cs)) end.

(** ** The child list *)

Definition add child cs : list (Trie P Item) := cs ++ [child].

(** [node.prefix[0]]. *)
Definition first h node : exec Z := of_option (head (bytes h node)).

(** The index and the child that starts with [b]. *)
Fixpoint next h (b : Z) cs : exec (option (nat * Trie P Item)) :=
  match cs with
  | [] => Ok None
  | child :: cs =>
      let! b' := first h child in
      if (b' =? b)%Z then Ok (Some (0, child))
      else let! r := next h b cs in Ok (prod_map Datatypes.S id <$> r)
  end.

Fixpoint replace h (b : Z) child cs : exec (list (Trie P Item)) :=
  match cs with
  | [] => Ok []
  | node :: cs =>
      let! b' := first h node in
      if (b' =? b)%Z then Ok (child :: cs)
      else let! cs := replace h b child cs in Ok (node :: cs)
  end.

Fixpoint remove h child cs : exec (list (Trie P Item)) :=
  match cs with
  | [] => Panic
  | node :: cs =>
      let! b' := first h node in
      let! b := first h child in
      if (b' =? b)%Z then Ok cs
      else let! cs := remove h child cs in Ok (node :: cs)
  end.

(** The child that starts with [b], or else the one that starts with the
    largest smaller octet. *)
Fixpoint nextWithLongestPrefixMatch h (b : Z) (longestPrefixChild : option (Trie P Item)) cs
  : option (Trie P Item) * bool :=
  match cs with
  | [] => (longestPrefixChild, false)
  | child :: cs =>
      match head (bytes h child) with
      | None => nextWithLongestPrefixMatch h b longestPrefixChild cs
      | Some b' =>
          if (b' =? b)%Z then (Some child, true)
          else if (b' <? b)%Z then
            match longestPrefixChild with
            | None => nextWithLongestPrefixMatch h b (Some child) cs
            | Some l =>
                if (default 0 (head (bytes h l)) <? b')%Z
                then nextWithLongestPrefixMatch h b (Some child) cs
                else nextWithLongestPrefixMatch h b longestPrefixChild cs
            end
          else nextWithLongestPrefixMatch h b longestPrefixChild cs
      end
  end.

(** ** Search *)

Fixpoint common_length (a b : list Z) : nat :=
  match a, b with
  | x :: a, y :: b => if (x =? y)%Z then Datatypes.S (common_length a b) else 0
  | _, _ => 0
  end.

Definition longestCommonPrefixLength h t (key : list Z) : nat := common_length key (bytes h t).

(** The loop of [findSubtree]: the indices that lead to the node, whether it
    was found, and what is left of its prefix.  A child that is entered
    matches at least one octet of the key. *)
Fixpoint find_loop (fuel : nat) h (root : Trie P Item) (key : list Z)
  : exec (list nat * bool * list Z) :=
  match fuel with
  | 0 => Hang
  | Datatypes.S fuel =>
      let common := longestCommonPrefixLength h root key in
      let key := drop common key in
      match key with
      | [] => Ok ([], true, drop common (bytes h root))
      | b :: _ =>
          if common <? length (bytes h root) then Ok ([], false, drop common (bytes h root))
          else
            let! r := next h b (children root) in
            match r with
            | None => Ok ([], false, [])
            | Some (i, child) =>
                let! (pos, found, leftover) := find_loop fuel h child key in
                Ok (i :: pos, found, leftover)
            end
      end
  end.

Definition findSubtree h t (key : list Z) : exec (list nat * bool * list Z) :=
  find_loop (Datatypes.S (length key)) h t key.

(** The node a pointer refers to. *)
Fixpoint node_at (pos : list nat) t : option (Trie P Item) :=
  match pos with
  | [] => Some t
  | i :: pos => match children t !! i with Some child => node_at pos child | None => None end
  end.

Definition Get h t (key : list Z) : exec (option Item) :=
  let! (pos, found, leftover) := findSubtree h t key in
  if negb found || negb (length leftover =? 0) then Ok None
  else let! node := of_option (node_at pos t) in Ok (Item_ node).

Definition Match h t (key : list Z) : exec bool :=
  let! item := Get h t key in Ok (match item with Some _ => true | None => false end).

(** ** Insertion *)

Definition compact h t : S * option (Trie P Item) :=
  match children t with
  | [child] =>
      match Item_ t, Item_ child with
      | None, None =>
          if length (bytes h t) + length (bytes h child) <=? DefaultMaxPrefixPerNode then
            let '(h', p) := append_to h (prefix t) (bytes h child) in
            (h', Some (set_prefix p child))
          else (h, None)
      | _, _ => (h, None)
      end
  | _ => (h, None)
  end.

(** The code at the label InsertItem. *)
Definition insert_item (item : option Item) (rep : bool) node : Trie P Item * bool :=
  match rep, Item_ node with
  | false, Some _ => (node, false)
  | _, _ => (set_item item node, true)
  end.

(** The code at the label AppendChild; every turn consumes four octets. *)
Fixpoint append_children (fuel : nat) h (key : P) (item : option Item) (rep : bool) node
  : exec (Trie P Item * bool) :=
  if length (rd h key) =? 0 then Ok (insert_item item rep node) else
  match fuel with
  | 0 => Hang
  | Datatypes.S fuel =>
      if length (rd h key) <=? DefaultMaxPrefixPerNode then
        let '(child, inserted) := insert_item item rep (set_prefix (Some key) NewTrie) in
        Ok (set_children (add child (children node)) node, inserted)
      else
        let child := set_prefix (Some (sub_to key DefaultMaxPrefixPerNode)) NewTrie in
        let! (child, inserted) :=
          append_children fuel h (sub_from key DefaultMaxPrefixPerNode) item rep child in
        Ok (set_children (add child (children node)) node, inserted)
  end.

(** The code at the label SplitPrefix: the node keeps the first [common]
    octets and a copy of it becomes its child. *)
Definition split_prefix h (common : nat) node : S * Trie P Item :=
  let child := set_prefix ((fun p => sub_from p common) <$> prefix node) node in
  let '(h, c) := compact h child in
  (h, mkTrie ((fun p => sub_to p common) <$> prefix node) None [default child c]).

Fixpoint put_loop (fuel : nat) h node (key : P) (item : option Item) (rep : bool)
  : exec (S * Trie P Item * bool) :=
  match fuel with
  | 0 => Hang
  | Datatypes.S fuel =>
      let common := longestCommonPrefixLength h node (rd h key) in
      let key := sub_from key common in
      if common <? length (bytes h node) then
        let '(h, node) := split_prefix h common node in
        let! (node, inserted) := append_children (length (rd h key)) h key item rep node in
        Ok (h, node, inserted)
      else
        match rd h key with
        | [] => let '(node, inserted) := insert_item item rep node in Ok (h, node, inserted)
        | b :: _ =>
            let! r := next h b (children node) in
            match r with
            | None =>
                let! (node, inserted) := append_children (length (rd h key)) h key item rep node in
                Ok (h, node, inserted)
            | Some (i, child) =>
                let! (h, child, inserted) := put_loop fuel h child key item rep in
                Ok (h, set_children (<[i := child]> (children node)) node, inserted)
            end
        end
  end.

Definition put h t (key : option P) (item : option Item) (rep : bool)
  : exec (S * Trie P Item * bool) :=
  match key with
  | None => Panic
  | Some key =>
      match prefix t with
      | Some _ => put_loop (Datatypes.S (length (rd h key))) h t key item rep
      | None =>
          if length (rd h key) <=? DefaultMaxPrefixPerNode then
            let '(t, inserted) := insert_item item rep (set_prefix (Some key) t) in
            Ok (h, t, inserted)
          else
            let node := set_prefix (Some (sub_to key DefaultMaxPrefixPerNode)) t in
            let! (t, inserted) :=
              append_children (length (rd h key)) h (sub_from key DefaultMaxPrefixPerNode) item rep node in
            Ok (h, t, inserted)
      end
  end.

Definition Insert h t (key : option P) (item : option Item) : exec (S * Trie P Item * bool) :=
  put h t key item false.

Definition Set_ h t (key : option P) (item : option Item) : exec (S * Trie P Item) :=
  let! (h, t, _) := put h t key item true in Ok (h, t).

(** ** Longest prefix *)

(** The byte-wise comparison of two leftovers of the same length. *)
Fixpoint none_above (leftover prefixLeftover : list Z) : bool :=
  match leftover, prefixLeftover with
  | lti :: l, prti :: p => if (prti <? lti)%Z then false else none_above l p
  | _, _ => true
  end.

(** The loop of [GetLongestPrefixNode]: the item it returns, or the value of
    [lastNonNilPrefix] when it breaks.  Each turn enters a child, so the
    height of the trie bounds the turns. *)
Fixpoint longest_loop (fuel : nat) h t (inpPrefix : list Z) (root : Trie P Item) (key : list Z)
    (prefixlen lastNonNilPrefix : nat) : exec (option Item + nat) :=
  match fuel with
  | 0 => Hang
  | Datatypes.S fuel =>
      if length key <? length (bytes h root) then Ok (inr lastNonNilPrefix) else
      let common := longestCommonPrefixLength h root key in
      let prefixlen := prefixlen + common in
      let! stored := Get h t (take prefixlen inpPrefix) in
      let lastNonNilPrefix := match stored with Some _ => prefixlen | None => lastNonNilPrefix end in
      let key := drop common key in
      match key with
      | [] => Ok (inr lastNonNilPrefix)
      | b :: _ =>
          let descend :=
            match fst (nextWithLongestPrefixMatch h b None (children root)) with
            | None => Ok (inr lastNonNilPrefix)
            | Some child => longest_loop fuel h t inpPrefix child key prefixlen lastNonNilPrefix
            end in
          if common <? length (bytes h root) then
            if (common =? 0) && (prefixlen =? 0) then Ok (inr lastNonNilPrefix) else
            let leftover := drop common (bytes h root) in
            let prefixLeftover := drop prefixlen inpPrefix in
            if negb (length prefixLeftover =? length leftover) then Ok (inr lastNonNilPrefix)
            else if none_above leftover prefixLeftover then Ok (inl (Item_ root))
            else descend
          else descend
      end
  end.

Definition GetLongestPrefixNode h t (inpPrefix : list Z) : exec (option Item) :=
  let! r := longest_loop (height t) h t inpPrefix t inpPrefix 0 0 in
  match r with
  | inl item => Ok item
  | inr lastNonNilPrefix => Get h t (take lastNonNilPrefix inpPrefix)
  end.

(** ** Visits *)

(** The errors a visitor returns. *)
Inductive visit_error := SkipSubtree | VisitError (msg : string).

(** Go's order on strings. *)
Fixpoint lex_le (a b : list Z) : bool :=
  match a, b with
  | [], _ => true
  | _ :: _, [] => false
  | x :: a, y :: b => if (x <? y)%Z then true else if (y <? x)%Z then false else lex_le a b
  end.

(** [sort.Sort(list.children)]: the prefixes of siblings differ, so every
    sorting method gives this list. *)
Definition sort_children h cs : list (Trie P Item) :=
  merge_sort (fun c c' => Is_true (lex_le (bytes h c) (bytes h c'))) cs.

Section Visit.
Context {St : Type} (visitor : list Z -> Item -> St -> St * option visit_error).

(** The loop of [sparseChildList.walk] over sorted children; [down] walks the
    children of one of them.  The lists of children are sorted in place, so
    the walk returns them. *)
Fixpoint walk_loop h (down : list Z -> list (Trie P Item) -> St ->
      exec (list (Trie P Item) * St * option visit_error)) (pre : list Z) cs (st : St)
  : exec (list (Trie P Item) * St * option visit_error) :=
  match cs with
  | [] => Ok ([], st, None)
  | child :: rest =>
      let here := pre ++ bytes h child in
      let '(st, err) := match Item_ child with Some i => visitor here i st | None => (st, None) end in
      match err with
      | Some SkipSubtree =>
          let! (rest, st, err) := walk_loop h down pre rest st in
          Ok (child :: rest, st, err)
      | Some err => Ok (child :: rest, st, Some err)
      | None =>
          let! (below, st, err) := down here (children child) st in
          let child := set_children below child in
          match err with
          | Some err => Ok (child :: rest, st, Some err)
          | None =>
              let! (rest, st, err) := walk_loop h down pre rest st in
              Ok (child :: rest, st, err)
          end
      end
  end.

Fixpoint walk_children (fuel : nat) h (pre : list Z) cs (st : St)
  : exec (list (Trie P Item) * St * option visit_error) :=
  match fuel with
  | 0 => Hang
  | Datatypes.S fuel => walk_loop h (walk_children fuel h) pre (sort_children h cs) st
  end.

Definition walk h t (st : St) : exec (Trie P Item * St * option visit_error) :=
  let '(st, err) := match Item_ t with Some i => visitor (bytes h t) i st | None => (st, None) end in
  match err with
  | Some SkipSubtree => Ok (t, st, None)
  | Some err => Ok (t, st, Some err)
  | None =>
      let! (cs, st, err) := walk_children (height t) h (bytes h t) (children t) st in
      Ok (set_children cs t, st, err)
  end.

Definition Visit h t (st : St) : exec (Trie P Item * St * option visit_error) := walk h t st.

End Visit.

(** ** Deletion *)

(** Whether no node holds an item; the walk leaves the children sorted. *)
Definition empty h t : exec (Trie P Item * bool) :=
  let! (t, isEmpty, _) := walk (fun _ _ _ => (false, Some SkipSubtree)) h t true in
  Ok (t, isEmpty).

Definition reset t : Trie P Item := mkTrie None (Item_ t) [].

(** Deletion of the item of the root. *)
Definition delete_root h node : exec (S * Trie P Item) :=
  let node := set_item None node in
  let '(h, compacted) := compact h node in
  let node := default node compacted in
  let! (node, isEmpty) := empty h node in
  Ok (h, if isEmpty then reset node else node).

(** Deletion of the item of child number [i] of a parent.  A compacted node is
    replaced by its only child, which the walk of [empty] still reaches through
    the node; the parent may then become a copy of that child. *)
Definition delete_child h (i : nat) (parent : Trie P Item) : exec (S * Trie P Item) :=
  let! node := of_option (children parent !! i) in
  let node := set_item None node in
  let parent := set_children (<[i := node]> (children parent)) parent in
  let '(h, compacted) := compact h node in
  match compacted with
  | None =>
      let! (node, isEmpty) := empty h node in
      let parent := set_children (<[i := node]> (children parent)) parent in
      if isEmpty then
        let! cs := remove h node (children parent) in
        Ok (h, set_children cs parent)
      else Ok (h, parent)
  | Some child =>
      let! b := first h node in
      let! cs := replace h b child (children parent) in
      let parent := set_children cs parent in
      let '(h, merged) := compact h parent in
      let! (node, isEmpty) := empty h (set_children [default child merged] node) in
      let! child := of_option (head (children node)) in
      let parent := match merged with
                    | Some _ => child
                    | None => set_children (<[i := child]> (children parent)) parent
                    end in
      if isEmpty then
        let! cs := remove h node (children parent) in
        Ok (h, set_children cs parent)
      else Ok (h, parent)
  end.

(** Run [f] on the node at a position. *)
Fixpoint at_node (f : Trie P Item -> exec (S * Trie P Item)) (pos : list nat) t : exec (S * Trie P Item) :=
  match pos with
  | [] => f t
  | i :: pos =>
      let! child := of_option (children t !! i) in
      let! (h, child) := at_node f pos child in
      Ok (h, set_children (<[i := child]> (children t)) t)
  end.

Definition Delete h t (key : option P) : exec (S * Trie P Item * bool) :=
  match key with
  | None => Panic
  | Some key =>
      match prefix t with
      | None => Ok (h, t, false)
      | Some _ =>
          let! (pos, _, leftover) := findSubtree h t (rd h key) in
          if negb (length leftover =? 0) then Ok (h, t, false) else
          let! node := of_option (node_at pos t) in
          match Item_ node with
          | None => Ok (h, t, false)
          | Some _ =>
              let! (h, t) := match last pos with
                             | None => delete_root h t
                             | Some i => at_node (delete_child h i) (removelast pos) t
                             end in
              Ok (h, t, true)
          end
      end
  end.

End Operations.
