(* ===== verification/PatriciaMap.v ===== *)
(** * The Patricia trie is a finite map

    The operations of [PatriciaDB] on tries whose prefixes are lists of
    octets.  [den t] is the map a trie stands for, as a function from keys to
    items; [wf] says that the prefixes of the children of a node are not empty
    and start with different octets.  Every operation is described by [den]. *)

From S2P Require Import Prelude PatriciaDB.
From stdpp Require Import sorting.
From S2P Require Import PatriciaDB.

Open Scope nat_scope.

Notation VTrie Item := (Trie (list Z) Item).

Section Denotation.
Context {Item : Type}.
Implicit Types (t c : VTrie Item) (cs : list (VTrie Item)) (k r : list Z).

Lemma Trie_ind' (Q : VTrie Item -> Prop) :
  (forall p i cs, Forall Q cs -> Q (mkTrie p i cs)) -> forall t, Q t.
Proof.
  intros HQ. fix IH 1. intros [p i cs]. apply HQ. induction cs; constructor; auto.
Qed.

(** What is left of [k] after the prefix [p]. *)
Fixpoint strip (p k : list Z) : option (list Z) :=
  match p, k with
  | [], _ => Some k
  | x :: p, y :: k => if (x =? y)%Z then strip p k else None
  | _ :: _, [] => None
  end.

Fixpoint first_some {A B} (f : A -> option B) (l : list A) : option B :=
  match l with
  | [] => None
  | x :: l => match f x with Some y => Some y | None => first_some f l end
  end.

Fixpoint den t : list Z -> option Item :=
  match t with
  | mkTrie p i cs => fun k =>
      match strip (octets tt p) k with
      | None => None
      | Some [] => i
      | Some r => first_some (fun c => den c r) cs
      end
  end.

Definition den_children cs r : option Item := first_some (fun c => den c r) cs.

Notation pbytes := (bytes (S := unit) (P := list Z) (Item := Item) tt).

(** The first octets of the prefixes of siblings. *)
Definition firsts cs : list (option Z) := (fun c => head (pbytes c)) <$> cs.

Definition siblings cs : Prop := NoDup (firsts cs) /\ None ∉ firsts cs.

Fixpoint wf t : Prop :=
  match t with
  | mkTrie p i cs =>
      siblings cs /\
      (fix all cs := match cs with [] => True | c :: cs => wf c /\ all cs end) cs
  end.

(** A trie that holds nothing has a nil prefix, or a root with one. *)
Definition wf_root t : Prop :=
  wf t /\ (prefix t = None -> Item_ t = None /\ children t = []).

Definition has_item t : Prop := exists k v, den t k = Some v.

(** No node below the root is a dead end. *)
Fixpoint live t : Prop :=
  match t with
  | mkTrie _ _ cs =>
      (fix all cs := match cs with [] => True | c :: cs => has_item c /\ live c /\ all cs end) cs
  end.

Lemma wf_unfold t :
  wf t <-> siblings (children t) /\ Forall wf (children t).
Proof.
  destruct t as [p i cs]. cbn [wf children]. f_equiv.
  induction cs as [|c cs IH]; [split; auto using Forall_nil|]. rewrite Forall_cons, IH. done.
Qed.

Lemma live_unfold t : live t <-> Forall (fun c => has_item c /\ live c) (children t).
Proof.
  destruct t as [p i cs]. cbn [live children].
  induction cs as [|c cs IH]; [split; auto using Forall_nil|]. rewrite Forall_cons, IH. tauto.
Qed.

Lemma strip_app p k : strip p (p ++ k) = Some k.
Proof. induction p as [|x p IH]; cbn; [done|]. by rewrite Z.eqb_refl. Qed.

Lemma strip_Some p k r : strip p k = Some r <-> k = p ++ r.
Proof.
  split; [|intros ->; apply strip_app]. revert k.
  induction p as [|x p IH]; intros k E; cbn in *; [congruence|].
  destruct k as [|y k]; [done|]. destruct (Z.eqb_spec x y) as [->|]; [|done]. by rewrite (IH k).
Qed.

Lemma strip_self p : strip p p = Some [].
Proof. rewrite <- (app_nil_r p) at 2. apply strip_app. Qed.

Lemma den_unfold t k :
  den t k = match strip (pbytes t) k with
            | None => None
            | Some [] => Item_ t
            | Some r => den_children (children t) r
            end.
Proof. by destruct t. Qed.

Lemma den_app t r :
  den t (pbytes t ++ r) = match r with [] => Item_ t | _ => den_children (children t) r end.
Proof. by rewrite den_unfold, strip_app. Qed.

(** A key that does not start with the prefix of a node is not below it. *)
Lemma den_miss t k : (forall r, k <> pbytes t ++ r) -> den t k = None.
Proof.
  intros H. rewrite den_unfold. destruct (strip (pbytes t) k) as [r|] eqn:E; [|done].
  apply strip_Some in E. by destruct (H r).
Qed.

Lemma den_first c b r b' : head (pbytes c) = Some b' -> b' <> b -> den c (b :: r) = None.
Proof.
  intros Hc Hb. apply den_miss. intros r' E. destruct (pbytes c); cbn in *; congruence.
Qed.

Lemma first_some_None {A B} (f : A -> option B) l :
  first_some f l = None <-> Forall (fun x => f x = None) l.
Proof.
  induction l as [|x l IH]; cbn; [by split|]. rewrite Forall_cons, <- IH.
  destruct (f x); split; naive_solver.
Qed.

Lemma first_some_Some {A B} (f : A -> option B) l y :
  first_some f l = Some y -> exists x, x ∈ l /\ f x = Some y.
Proof.
  induction l as [|x l IH]; cbn; [done|]. destruct (f x) eqn:E; intros H.
  - exists x. split; [left | congruence].
  - destruct (IH H) as (x' & ? & ?). exists x'. split; [by right | done].
Qed.

(** ** Children *)

Lemma firsts_elem cs c : c ∈ cs -> head (pbytes c) ∈ firsts cs.
Proof. intros. apply (list_elem_of_fmap_2 (fun c => head (pbytes c))). done. Qed.

Lemma first_nonempty cs c : None ∉ firsts cs -> c ∈ cs -> exists b p, pbytes c = b :: p.
Proof.
  intros Hn Hc. destruct (pbytes c) as [|b p] eqn:E; [|by exists b, p].
  destruct Hn. replace None with (head (pbytes c)) by (by rewrite E). by apply firsts_elem.
Qed.

Lemma siblings_nonempty cs c : siblings cs -> c ∈ cs -> exists b p, pbytes c = b :: p.
Proof. intros []. by apply first_nonempty. Qed.

Lemma siblings_cons c cs :
  siblings (c :: cs) <->
  (exists b p, pbytes c = b :: p) /\ head (pbytes c) ∉ firsts cs /\ siblings cs.
Proof.
  unfold siblings, firsts. cbn. fold (firsts cs). rewrite NoDup_cons, not_elem_of_cons.
  split; [|intros ((b & p & E) & ?); rewrite E in *; naive_solver].
  intros ([? ?] & Hne & ?). destruct (pbytes c) as [|b p]; [done|]. split; [by exists b, p | done].
Qed.

(** Siblings that start alike are the same child. *)
Lemma siblings_inj cs i j c c' :
  siblings cs -> cs !! i = Some c -> cs !! j = Some c' ->
  head (pbytes c) = head (pbytes c') -> i = j.
Proof.
  intros [Hnd _] Hi Hj E. apply (NoDup_lookup (firsts cs) i j (head (pbytes c))); [done| |];
    unfold firsts; rewrite list_lookup_fmap, ?Hi, ?Hj; cbn; congruence.
Qed.

(** The only child a key can be below is the one that starts like it. *)
Lemma den_children_at cs c b r :
  siblings cs -> c ∈ cs -> head (pbytes c) = Some b ->
  den_children cs (b :: r) = den c (b :: r).
Proof.
  intros Hs Hc Hb. destruct (den_children cs (b :: r)) as [v|] eqn:E.
  - apply first_some_Some in E as (c' & Hc' & E).
    destruct (siblings_nonempty cs c' Hs Hc') as (b' & p & Ep).
    assert (b' = b) as ->.
    { destruct (decide (b' = b)) as [|Hne]; [done|].
      rewrite (den_first c' b r b') in E by (by rewrite ?Ep). done. }
    apply list_elem_of_lookup_1 in Hc as [i Hi], Hc' as [j Hj].
    rewrite (siblings_inj cs i j c c') in Hi by (done || by rewrite Hb, Ep). congruence.
  - unfold den_children in E. rewrite first_some_None, Forall_forall in E. by rewrite E.
Qed.

Lemma den_children_none cs b r :
  siblings cs -> Some b ∉ firsts cs -> den_children cs (b :: r) = None.
Proof.
  intros Hs Hb. apply first_some_None, Forall_forall. intros c Hc.
  destruct (siblings_nonempty cs c Hs Hc) as (b' & p & Ep).
  apply (den_first _ _ _ b'); [by rewrite Ep|]. intros ->. apply Hb.
  replace (Some b) with (head (pbytes c)) by (by rewrite Ep). by apply firsts_elem.
Qed.

(** ** Search *)

Lemma common_spec (a b : list Z) :
  exists l a' b', a = l ++ a' /\ b = l ++ b' /\ common_length a b = length l /\
    (forall x a'' y b'', a' = x :: a'' -> b' = y :: b'' -> x <> y).
Proof.
  revert b. induction a as [|x a IH]; intros b; [by exists [], [], b|].
  destruct b as [|y b]; [by exists [], (x :: a), []|]. cbn.
  destruct (Z.eqb_spec x y) as [->|Hne].
  - destruct (IH b) as (l & a' & b' & -> & -> & -> & H). by exists (y :: l), a', b'.
  - exists [], (x :: a), (y :: b). split; [done|]. split; [done|]. split; [done|].
    intros ???? [= <- _] [= <- _]. done.
Qed.

Lemma next_spec cs b :
  siblings cs ->
  (next tt b cs = Ok None /\ Some b ∉ firsts cs) \/
  (exists i c, next tt b cs = Ok (Some (i, c)) /\ cs !! i = Some c /\ head (pbytes c) = Some b).
Proof.
  induction cs as [|c cs IH]; [left; split; [done | by apply not_elem_of_nil]|].
  rewrite siblings_cons. intros ((b' & p & Ep) & Hn & Hs). cbn. unfold first. rewrite Ep. cbn.
  destruct (Z.eqb_spec b' b) as [->|Hne].
  - right. exists 0, c. by rewrite Ep.
  - destruct (IH Hs) as [[-> H] | (i & c' & -> & Hi & Hb)].
    + left. split; [done|]. apply not_elem_of_cons. split; [congruence | done].
    + right. by exists (S i), c'.
Qed.

(** The octets on the way to a node, its own included. *)
Fixpoint path_to (pos : list nat) t : list Z :=
  pbytes t ++
  match pos with
  | [] => []
  | i :: pos => match children t !! i with Some c => path_to pos c | None => [] end
  end.

(** Where [findSubtree] stops, and what that says of the key. *)
Inductive search_end t k : list nat -> bool -> list Z -> Prop :=
| end_found pos node leftover :
    node_at pos t = Some node -> k ++ leftover = path_to pos t ->
    den t k = (if length leftover =? 0 then Item_ node else None) ->
    search_end t k pos true leftover
| end_partial pos node x leftover :
    node_at pos t = Some node -> den t k = None -> search_end t k pos false (x :: leftover)
| end_no_child pos node b r :
    node_at pos t = Some node -> k = path_to pos t ++ b :: r ->
    Some b ∉ firsts (children node) -> den t k = None ->
    search_end t k pos false [].

Lemma search_end_child t i c k pos found leftover b r :
  wf t -> children t !! i = Some c -> head (pbytes c) = Some b -> k = pbytes t ++ b :: r ->
  search_end c (b :: r) pos found leftover -> search_end t k (i :: pos) found leftover.
Proof.
  intros Hwf Hi Hb -> Hend. rewrite wf_unfold in Hwf. destruct Hwf as [Hs Hall].
  assert (Hden : den t (pbytes t ++ b :: r) = den c (b :: r)).
  { rewrite den_app. apply den_children_at; [done | by eapply list_elem_of_lookup_2 | done]. }
  destruct Hend as [pos node leftover Hn Hk Hd | pos node x leftover Hn Hd | pos node b' r' Hn Hk Hb' Hd].
  - apply (end_found _ _ _ node); cbn; rewrite ?Hi; [done | | by rewrite Hden].
    by rewrite <- Hk, <- app_assoc.
  - apply (end_partial _ _ _ node); cbn; rewrite ?Hi; [done | by rewrite Hden].
  - apply (end_no_child _ _ _ node b' r'); cbn; rewrite ?Hi; [done | | done | by rewrite Hden].
    by rewrite Hk, app_assoc.
Qed.

(** How many turns a search for [k] from [t] may take: every node entered
    through its parent matches at least one octet. *)
Definition turns t k : nat := length k + (if common_length k (pbytes t) =? 0 then 1 else 0).

Lemma turns_child t c fuel l b r :
  pbytes t = l -> turns t (l ++ b :: r) <= S fuel -> head (pbytes c) = Some b ->
  turns c (b :: r) <= fuel.
Proof.
  unfold turns. intros <- Ht Hb. destruct (pbytes c) as [|b' p]; [done|]. cbn in Hb. injection Hb as ->.
  cbn [common_length]. rewrite Z.eqb_refl, length_app in *. cbn in *.
  destruct (pbytes t) as [|x p']; cbn in *; [lia|]. rewrite Z.eqb_refl in Ht. cbn in Ht. lia.
Qed.

Lemma find_loop_spec fuel t k :
  wf t -> turns t k <= fuel ->
  exists pos found leftover,
    find_loop fuel tt t k = Ok (pos, found, leftover) /\ search_end t k pos found leftover.
Proof.
  revert t k. induction fuel as [|fuel IH]; intros t k Hwf Hfuel.
  { unfold turns in Hfuel. destruct k; cbn in Hfuel; lia. }
  cbn [find_loop]. unfold longestCommonPrefixLength.
  destruct (common_spec k (pbytes t)) as (l & k' & p' & Ek & Ep & -> & Hdiff).
  rewrite Ep. subst k. rewrite !drop_app_length.
  destruct k' as [|b r]; [|destruct p' as [|x p']].
  - do 3 eexists. split; [done|]. apply (end_found _ _ _ t); [done | cbn; rewrite Ep, !app_nil_r; done|].
    rewrite app_nil_r. destruct p' as [|x p'].
    + rewrite app_nil_r in Ep. by rewrite <- Ep, <- (app_nil_r (pbytes t)), den_app.
    + apply den_miss. intros r E. rewrite Ep in E. apply (f_equal length) in E.
      rewrite !length_app in E. cbn in E. lia.
  - rewrite app_nil_r in *. rewrite Nat.ltb_irrefl.
    pose proof Hwf as [Hs Hall]%wf_unfold.
    destruct (next_spec (children t) b Hs) as [[-> Hno] | (i & c & -> & Hi & Hb)]; cbn [exec_bind].
    + do 3 eexists. split; [done|]. rewrite <- Ep.
      apply (end_no_child _ _ _ t b r); [done | cbn; by rewrite app_nil_r | done|].
      rewrite den_app. by apply den_children_none.
    + rewrite Forall_forall in Hall.
      destruct (IH c (b :: r)) as (pos & found & leftover & -> & Hend).
      { apply Hall. by eapply list_elem_of_lookup_2. }
      { by eapply turns_child. }
      do 3 eexists. split; [done|]. by eapply search_end_child; [done..| by rewrite Ep | done].
  - rewrite (proj2 (Nat.ltb_lt _ _)) by (rewrite length_app; cbn; lia).
    do 3 eexists. split; [done|]. apply (end_partial _ _ _ t); [done|]. apply den_miss.
    intros r' E. rewrite Ep, <- app_assoc in E. apply app_inv_head in E. injection E as -> ->.
    by apply (Hdiff x (p' ++ r') x p').
Qed.

Lemma findSubtree_spec t k :
  wf t -> exists pos found leftover,
    findSubtree tt t k = Ok (pos, found, leftover) /\ search_end t k pos found leftover.
Proof. intros. apply find_loop_spec; [done|]. unfold turns. case_match; lia. Qed.

(** [Get] reads the map. *)
Lemma Get_den t k : wf t -> Get tt t k = Ok (den t k).
Proof.
  intros Hwf. unfold Get. destruct (findSubtree_spec t k Hwf) as (pos & found & leftover & -> & Hend). cbn.
  destruct Hend as [pos node leftover Hn Hk Hd | pos node x leftover Hn Hd | pos node b' r' Hn Hk Hb' Hd];
    rewrite Hd; cbn; [|done..]. destruct (length leftover =? 0); cbn; [by rewrite Hn | done].
Qed.

(** ** Compaction and splitting keep the map *)

Lemma strip_app_l p p' k :
  strip (p ++ p') k = match strip p k with Some r => strip p' r | None => None end.
Proof.
  revert k. induction p as [|x p IH]; intros k; [done|]. cbn. destruct k as [|y k]; [done|].
  by destruct (x =? y)%Z.
Qed.

(** [t'] stands for the same map as [t]. *)
Definition same_map t t' : Prop := forall k, den t' k = den t k.

Lemma compacted_map p p' p'' cs :
  octets tt p'' = octets tt p ++ octets tt p' -> octets tt p' <> [] ->
  same_map (mkTrie p None [mkTrie p' None cs]) (mkTrie p'' None cs).
Proof.
  intros E Hne k. cbn. rewrite E, strip_app_l. destruct (strip (octets tt p) k) as [[|b r]|]; [| |done].
  - by destruct (octets tt p').
  - cbn. destruct (strip (octets tt p') (b :: r)) as [[|]|]; [done| |done]. by case_match.
Qed.

Lemma siblings_singleton c : siblings [c] <-> pbytes c <> [].
Proof.
  rewrite siblings_cons. unfold siblings, firsts. cbn. split.
  - intros ((b & p & ->) & _). done.
  - intros Hne. destruct (pbytes c) as [|b p]; [done|]. split; [by exists b, p|].
    split; [apply not_elem_of_nil|]. split; [constructor | apply not_elem_of_nil].
Qed.

(** The node [compact] returns, the node itself when nothing can be merged. *)
Definition compacted t : VTrie Item := default t (snd (compact tt t)).

Lemma compact_cases t :
  wf t ->
  compact tt t = (tt, None) \/
  exists p p' cs q, t = mkTrie p None [mkTrie p' None cs] /\
    octets tt p' <> [] /\ q = octets tt p ++ octets tt p' /\
    length q <= 4 /\
    compact tt t = (tt, Some (mkTrie (Some q) None cs)).
Proof.
  intros [Hs _]%wf_unfold. destruct t as [p i cs]. unfold compact. cbn [children Item_] in *.
  destruct cs as [|[p' i' cs'] [|]]; [by left | | by left].
  destruct i; [by left|]. destruct i'; [by left|]. cbn [Item_]. case_match eqn:El; [|by left].
  right. apply siblings_singleton in Hs. cbn in Hs.
  exists p, p', cs', (octets tt p ++ octets tt p'). split; [done|]. split; [done|]. split; [done|].
  split; [rewrite length_app; by apply Nat.leb_le in El|].
  unfold bytes in *. cbn in *. destruct p as [p|]; [done|]. by destruct (octets tt p').
Qed.

Lemma compacted_spec t :
  wf t ->
  same_map t (compacted t) /\ wf (compacted t) /\
  (exists r, pbytes (compacted t) = pbytes t ++ r) /\ Item_ (compacted t) = Item_ t /\
  (live t -> live (compacted t)).
Proof.
  intros Hwf. unfold compacted. destruct (compact_cases t Hwf) as [E | (p & p' & cs & q & -> & Hne & -> & _ & E)];
    rewrite E; cbn [snd default id from_option].
  - split; [done|]. split; [done|]. split; [exists []; by rewrite app_nil_r|]. done.
  - split; [by apply compacted_map|]. apply wf_unfold in Hwf as [_ Hall]. inversion_clear Hall.
    split; [done|]. split; [by exists (octets tt p')|]. split; [done|].
    intros Hl. apply live_unfold in Hl. inversion_clear Hl. naive_solver.
Qed.

Lemma split_map l p' i c p0 cs :
  p' <> [] -> same_map (mkTrie (Some p') i cs) c -> octets tt p0 = l ++ p' ->
  same_map (mkTrie p0 i cs) (mkTrie (Some l) None [c]).
Proof.
  intros Hne Hm Hp0 k. rewrite (den_unfold (mkTrie p0 i cs)).
  change (pbytes (mkTrie p0 i cs)) with (octets tt p0). rewrite Hp0, strip_app_l. cbn.
  destruct (strip l k) as [[|b r]|]; [by destruct p' | | done]. rewrite Hm. cbn. by case_match.
Qed.

(** The node [split_prefix] leaves: it ends where the key leaves the prefix. *)
Lemma split_prefix_spec t l x p' :
  wf t -> pbytes t = l ++ x :: p' ->
  exists t', split_prefix tt (length l) t = (tt, t') /\
    wf t' /\ same_map t t' /\ prefix t' = Some l /\ Item_ t' = None /\
    firsts (children t') = [Some x] /\
    (has_item t -> live t -> live t').
Proof.
  intros Hwf Ep. destruct t as [[p|] i cs]; [|by destruct l].
  unfold bytes in Ep. cbn in Ep. subst p.
  set (child := mkTrie (Some (drop (length l) (l ++ x :: p'))) i cs).
  assert (Es : split_prefix tt (length l) (mkTrie (Some (l ++ x :: p')) i cs) =
               (tt, mkTrie (Some (take (length l) (l ++ x :: p'))) None [compacted child])).
  { unfold split_prefix, compacted. cbn. change (set_prefix _ _) with child. by destruct (compact tt child) as [[] oc]. }
  rewrite take_app_length in Es. rewrite Es. eexists. split; [done|]. clear Es.
  assert (Ec : child = mkTrie (Some (x :: p')) i cs) by (unfold child; by rewrite drop_app_length).
  clearbody child. subst child. set (child := mkTrie (Some (x :: p')) i cs) in *.
  destruct (compacted_spec child Hwf) as (Hm & Hw & (r & Hb) & Hi & Hl). cbn in Hb.
  split.
  { apply wf_unfold. cbn. split; [by apply siblings_singleton; rewrite Hb | by repeat constructor]. }
  split; [by apply (split_map l (x :: p'))|]. split; [done|]. split; [done|].
  split; [by cbn; rewrite Hb|].
  intros (k & v & Hk) Hlive. apply live_unfold. repeat constructor; [|by apply Hl].
  pose proof (split_map l (x :: p') i (compacted child) (Some (l ++ x :: p')) cs) as Hs.
  specialize (Hs ltac:(done) Hm eq_refl k). rewrite Hk in Hs. cbn in Hs.
  destruct (strip l k) as [[|b r']|]; [done| |done]. exists (b :: r'), v. by case_match.
Qed.

(** ** Insertion *)

(** The item a key has after [put], and what [put] answers. *)
Definition put_value (rep : bool) (item old : option Item) : option Item :=
  match rep, old with false, Some _ => old | _, _ => item end.
Definition put_answer (rep : bool) (old : option Item) : bool :=
  match rep, old with false, Some _ => false | _, _ => true end.

Definition point_update (k : list Z) (v : option Item) t t' : Prop :=
  forall k', den t' k' = if decide (k' = k) then v else den t k'.

(** [t'] and the answer are what [put] makes of [t]. *)
Record put_result (rep : bool) (item : option Item) t k t' (inserted : bool) : Prop := {
  pr_wf : wf t';
  pr_map : point_update k (put_value rep item (den t k)) t t';
  pr_answer : inserted = put_answer rep (den t k)
}.

(** An insertion of an item leaves no dead end. *)
Definition keeps_live (item : option Item) t t' : Prop := item <> None -> live t -> live t'.

Lemma insert_item_spec rep item t :
  wf t ->
  exists t' inserted, insert_item item rep t = (t', inserted) /\
    put_result rep item t (pbytes t) t' inserted /\ prefix t' = prefix t /\
    children t' = children t.
Proof.
  intros Hwf. destruct t as [p i cs].
  assert (Hd : den (mkTrie p i cs) (octets tt p) = i).
  { rewrite <- (app_nil_r (octets tt p)). apply (den_app (mkTrie p i cs) []). }
  assert (H : put_result rep item (mkTrie p i cs) (octets tt p)
                (mkTrie p (put_value rep item i) cs) (put_answer rep i)).
  { split; rewrite ?Hd; [done | | done]. intros k. cbn.
    destruct (strip (octets tt p) k) as [r|] eqn:E.
    - apply strip_Some in E. subst k. destruct r as [|b r].
      + by rewrite app_nil_r, decide_True.
      + rewrite decide_False; [done|]. intros E. apply (f_equal length) in E.
        rewrite length_app in E. cbn in E. lia.
    - rewrite decide_False; [done|]. intros ->. by rewrite strip_self in E. }
  unfold insert_item. destruct rep, i; (do 2 eexists; split; [reflexivity | split; [exact H | done]]).
Qed.

Lemma den_children_app cs cs' r :
  den_children (cs ++ cs') r =
  match den_children cs r with Some v => Some v | None => den_children cs' r end.
Proof.
  unfold den_children. induction cs as [|c cs IH]; [done|]. cbn. by destruct (den c r).
Qed.

Lemma siblings_snoc cs c b p :
  siblings cs -> pbytes c = b :: p -> Some b ∉ firsts cs -> siblings (cs ++ [c]).
Proof.
  intros [Hnd Hn] Hc Hb. unfold siblings, firsts. rewrite fmap_app. cbn. rewrite Hc.
  split; [apply NoDup_app; split; [done|]; split; [set_solver | apply NoDup_singleton] | set_solver].
Qed.

(** A new last child that holds [k] only, with nothing below a child that
    starts like it before. *)
Lemma add_child_spec rep item t c k b r :
  wf t -> Some b ∉ firsts (children t) -> k = b :: r ->
  wf c -> head (pbytes c) = Some b -> (item <> None -> live c) ->
  (forall k', den c k' = if decide (k' = k) then item else None) ->
  let t' := set_children (add c (children t)) t in
  put_result rep item t (pbytes t ++ k) t' true /\ keeps_live item t t'.
Proof.
  intros Hwf Hb -> Hwc Hc Hlc Hd. pose proof Hwf as [Hs Hall]%wf_unfold. destruct t as [p i cs].
  assert (Hold : den (mkTrie p i cs) (pbytes (mkTrie p i cs) ++ b :: r) = None).
  { rewrite den_app. by apply den_children_none. }
  intros t'. split; [split; rewrite ?Hold|].
  - apply wf_unfold. cbn. split; [|by apply Forall_app; repeat constructor].
    destruct (pbytes c) as [|b' p'] eqn:E; [done|]. injection Hc as ->. by apply (siblings_snoc _ _ b p').
  - intros k'. replace (put_value rep item None) with item by (by destruct rep).
    unfold bytes. cbn. destruct (strip (octets tt p) k') as [r'|] eqn:E.
    + apply strip_Some in E. subst k'. destruct r' as [|b' r'].
      * rewrite decide_False; [done|]. intros E%app_inv_head. done.
      * unfold add. fold (den_children (cs ++ [c]) (b' :: r')) (den_children cs (b' :: r')).
        rewrite den_children_app. destruct (decide (b' = b)) as [->|Hne].
        -- rewrite (den_children_none cs b r') by done. cbn. rewrite Hd.
           destruct (decide (r' = r)) as [->|Hr].
           ++ rewrite !decide_True by done. by destruct item.
           ++ rewrite !decide_False; [done| |congruence]. intros ?%app_inv_head. congruence.
        -- rewrite decide_False by (intros ?%app_inv_head; congruence). cbn.
           rewrite Hd, decide_False by congruence. by destruct (den_children cs (b' :: r')).
    + rewrite decide_False; [done|]. intros ->. by rewrite strip_app in E.
  - by destruct rep.
  - intros Hi Hl. apply live_unfold. apply live_unfold in Hl. cbn in *.
    apply Forall_app. split; [done|]. repeat constructor; [|by apply Hlc].
    destruct item as [v|]; [|done]. exists (b :: r), v. by rewrite Hd, decide_True.
Qed.

Lemma empty_node_den q k : den (mkTrie (Some q) None [] : VTrie Item) k = None.
Proof. cbn. by destruct (strip q k) as [[|]|]. Qed.

Lemma empty_node_wf q : wf (mkTrie (Some q) None [] : VTrie Item).
Proof. apply wf_unfold. split; [split; [constructor | apply not_elem_of_nil] | constructor]. Qed.

(** What a chain of new nodes holds. *)
Lemma new_node_den rep item q k c ins :
  put_result rep item (mkTrie (Some q) None []) k c ins ->
  ins = true /\ wf c /\ forall k', den c k' = if decide (k' = k) then item else None.
Proof.
  intros [Hw Hm ->]. rewrite empty_node_den in *. split; [by destruct rep|]. split; [done|].
  intros k'. rewrite Hm, empty_node_den. by destruct rep.
Qed.

Lemma append_children_spec rep item fuel t k :
  wf t -> length k <= fuel -> (forall b r, k = b :: r -> Some b ∉ firsts (children t)) ->
  exists t' inserted, append_children fuel tt k item rep t = Ok (t', inserted) /\
    put_result rep item t (pbytes t ++ k) t' inserted /\ prefix t' = prefix t /\
    keeps_live item t t'.
Proof.
  revert t k. induction fuel as [|fuel IH]; intros t k Hwf Hfuel Hb; destruct k as [|b r].
  1,3: destruct (insert_item_spec rep item t Hwf) as (t' & ins & E & H & Hp & Hc);
       exists t', ins; rewrite app_nil_r; cbn; rewrite E; repeat split; try done; try apply H;
       intros _; by rewrite !live_unfold, Hc.
  { cbn in Hfuel. lia. }
  specialize (Hb b r eq_refl). set (k := b :: r) in *. cbn [append_children rd value_slices].
  change (length k =? 0) with false. cbn iota. destruct (length k <=? DefaultMaxPrefixPerNode) eqn:El.
  - destruct (insert_item_spec rep item (mkTrie (Some k) None []) (empty_node_wf k)) as (c & ins & E & H & Hp & Hc).
    change (set_prefix (Some k) NewTrie) with (mkTrie (Some k) None [] : VTrie Item). rewrite E. apply new_node_den in H as (-> & Hw & Hd).
    eexists _, _. split; [done|].
    destruct (add_child_spec rep item t c k b r) as [H Hl]; [done..| | |done|].
    + unfold bytes. by rewrite Hp.
    + intros _. apply live_unfold. by rewrite Hc.
    + split; [done|]. split; [by destruct t | done].
  - apply Nat.leb_gt in El.
    set (q := take DefaultMaxPrefixPerNode k). set (k' := drop DefaultMaxPrefixPerNode k).
    destruct (IH (mkTrie (Some q) None []) k') as (c & ins & E & H & Hp & Hl); [apply empty_node_wf | | |].
    { unfold k'. rewrite length_drop. unfold DefaultMaxPrefixPerNode in *. lia. }
    { intros ??. cbn. intros _. apply not_elem_of_nil. }
    cbn [sub_to sub_from value_slices]. fold q k'.
    change (set_prefix (Some q) NewTrie) with (mkTrie (Some q) None [] : VTrie Item). rewrite E. cbn [exec_bind].
    apply new_node_den in H as (-> & Hw & Hd). unfold bytes in Hd. cbn [octets prefix rd value_slices] in Hd.
    unfold q, k' in Hd. rewrite take_drop in Hd. eexists _, _. split; [done|].
    destruct (add_child_spec rep item t c k b r) as [Hr Hl']; [done..| | |done|].
    + unfold bytes. by rewrite Hp.
    + intros Hi. apply Hl; [done|]. by apply live_unfold; constructor.
    + split; [done|]. split; [by destruct t | done].
Qed.

(** A child replaced by one that starts alike. *)
Lemma firsts_replace cs i c c' :
  cs !! i = Some c -> head (pbytes c') = head (pbytes c) -> firsts (<[i := c']> cs) = firsts cs.
Proof.
  intros Hi E. unfold firsts. rewrite list_fmap_insert, E.
  apply list_insert_id. by rewrite list_lookup_fmap, Hi.
Qed.

Lemma wf_replace t i c c' :
  wf t -> children t !! i = Some c -> head (pbytes c') = head (pbytes c) -> wf c' ->
  wf (set_children (<[i := c']> (children t)) t).
Proof.
  rewrite (wf_unfold t), (wf_unfold (set_children _ _)). destruct t as [p it cs]. cbn.
  intros [[Hnd Hn] Hall] Hi E Hc'.
  split; [|by apply Forall_insert]. unfold siblings. by rewrite (firsts_replace cs i c c').
Qed.

Lemma den_replace t i c c' b k :
  wf t -> children t !! i = Some c -> head (pbytes c) = Some b -> head (pbytes c') = Some b ->
  den (set_children (<[i := c']> (children t)) t) k =
  match strip (pbytes t) k with
  | Some (b' :: r) => if decide (b' = b) then den c' (b' :: r) else den t k
  | _ => den t k
  end.
Proof.
  intros [Hs _]%wf_unfold Hi Hb Hb'. destruct t as [p it cs]. cbn [children set_children] in *.
  assert (Hs' : siblings (<[i := c']> cs)).
  { unfold siblings. by rewrite (firsts_replace cs i c c') by congruence. }
  change (set_children (<[i := c']> cs) (mkTrie p it cs)) with (mkTrie p it (<[i := c']> cs)).
  rewrite !den_unfold. cbn [children Item_ prefix].
  change (pbytes (mkTrie p it (<[i := c']> cs))) with (octets tt p).
  change (pbytes (mkTrie p it cs)) with (octets tt p).
  destruct (strip (octets tt p) k) as [[|b' r]|]; [done| |done]. destruct (decide (b' = b)) as [->|Hne].
  - apply den_children_at; [done| |done]. apply list_elem_of_lookup. exists i.
    apply list_lookup_insert_eq. by eapply lookup_lt_Some.
  - destruct (decide (Some b' ∈ firsts cs)) as [Hin|Hnin].
    + apply list_elem_of_fmap in Hin as (d & Hd & Hin). apply list_elem_of_lookup in Hin as [j Hj].
      assert (j <> i) by (intros ->; congruence).
      rewrite (den_children_at cs d), (den_children_at _ d); [done..| | |done| |]; try done.
      * apply list_elem_of_lookup. exists j. by rewrite list_lookup_insert_ne.
      * apply list_elem_of_lookup. by exists j.
    + rewrite !den_children_none; [done..|]. by rewrite (firsts_replace cs i c c') by congruence.
Qed.

Lemma live_replace t i c' :
  live t -> has_item c' -> live c' -> live (set_children (<[i := c']> (children t)) t).
Proof.
  rewrite (live_unfold t), (live_unfold (set_children _ _)). destruct t. cbn. intros. by apply Forall_insert.
Qed.

Lemma put_result_child rep item t i c b r c' ins :
  wf t -> children t !! i = Some c -> head (pbytes c) = Some b -> head (pbytes c') = Some b ->
  put_result rep item c (b :: r) c' ins ->
  put_result rep item t (pbytes t ++ b :: r) (set_children (<[i := c']> (children t)) t) ins.
Proof.
  intros Hwf Hi Hb Hb' [Hw Hm Ha].
  assert (Hd : forall r, den t (pbytes t ++ b :: r) = den c (b :: r)).
  { intros r'. rewrite den_app. apply wf_unfold in Hwf as [Hs _].
    apply den_children_at; [done | by eapply list_elem_of_lookup_2 | done]. }
  split; rewrite ?Hd; [by apply (wf_replace _ _ c); rewrite ?Hb, ?Hb' | | done].
  intros k. rewrite (den_replace t i c c' b) by done.
  destruct (strip (pbytes t) k) as [r'|] eqn:E.
  - apply strip_Some in E. subst k. destruct r' as [|b' r'].
    + rewrite decide_False; [done|]. intros E%app_inv_head. done.
    + destruct (decide (b' = b)) as [->|Hne].
      * rewrite Hm, Hd. destruct (decide (r' = r)) as [->|]; [by rewrite !decide_True|].
        rewrite !decide_False; [done| |congruence]. intros ?%app_inv_head. congruence.
      * rewrite decide_False; [done|]. intros ?%app_inv_head. congruence.
  - rewrite decide_False; [done|]. intros ->. by rewrite strip_app in E.
Qed.

Lemma put_result_same rep item t t1 k t' ins :
  same_map t t1 -> put_result rep item t1 k t' ins -> put_result rep item t k t' ins.
Proof.
  intros Hs [Hw Hm Ha]. rewrite Hs in *. split; [done| |done]. intros k'. by rewrite Hm, Hs.
Qed.

Lemma put_result_has rep item t k t' ins :
  item <> None -> put_result rep item t k t' ins -> has_item t'.
Proof.
  intros Hi [_ Hm _]. specialize (Hm k). rewrite decide_True in Hm by done.
  destruct item as [v|]; [|done]. unfold has_item. exists k.
  destruct rep; cbn in Hm; [by exists v|]. destruct (den t k) as [v'|]; [by exists v' | by exists v].
Qed.

Lemma put_loop_spec rep item fuel t k :
  wf t -> turns t k <= fuel ->
  exists t' ins, put_loop fuel tt t k item rep = Ok (tt, t', ins) /\
    put_result rep item t k t' ins /\
    (forall b, head (pbytes t) = Some b -> head k = Some b -> head (pbytes t') = Some b) /\
    (has_item t -> keeps_live item t t') /\ (prefix t <> None -> prefix t' <> None).
Proof.
  revert t k. induction fuel as [|fuel IH]; intros t k Hwf Hfuel.
  { unfold turns in Hfuel. destruct k; cbn in Hfuel; lia. }
  cbn [put_loop rd value_slices sub_from]. unfold longestCommonPrefixLength.
  destruct (common_spec k (pbytes t)) as (l & k' & p' & Ek & Ep & Ec & Hdiff).
  rewrite Ec, Ek, drop_app_length.
  destruct p' as [|x p'].
  - rewrite app_nil_r in Ep. rewrite Ep, Nat.ltb_irrefl. destruct k' as [|b r].
    + destruct (insert_item_spec rep item t Hwf) as (t' & ins & -> & H & Hp & Hc).
      exists t', ins. rewrite app_nil_r, <- Ep. split; [done|]. split; [done|]. unfold bytes. rewrite Hp. split; [done|].
      split; [intros _ _; by rewrite !live_unfold, Hc | done].
    + pose proof Hwf as [Hs Hall]%wf_unfold. cbn [exec_bind].
      destruct (next_spec (children t) b Hs) as [[-> Hno] | (i & c & -> & Hi & Hb)]; cbn [exec_bind].
      * destruct (append_children_spec rep item (length (b :: r)) t (b :: r)) as (t' & ins & -> & H & Hp & Hl);
          [done | done | congruence|]. exists t', ins. rewrite <- Ep. split; [done|]. split; [done|].
        unfold bytes. by rewrite Hp.
      * rewrite Forall_forall in Hall.
        destruct (IH c (b :: r)) as (c' & ins & -> & H & Hh & Hl & _).
        { apply Hall. by eapply list_elem_of_lookup_2. }
        { subst k. by eapply turns_child. }
        specialize (Hh b Hb eq_refl). eexists _, ins. split; [done|].
        split; [rewrite <- Ep; by apply (put_result_child _ _ _ i c)|].
        split; [rewrite <- Ep; by destruct t|]. split; [|by destruct t].
        intros _ Hitem Hlive. apply live_replace; [done | by eapply put_result_has|].
        apply live_unfold in Hlive. rewrite Forall_forall in Hlive.
        destruct (Hlive c) as [? ?]; [by eapply list_elem_of_lookup_2|]. by apply Hl.
  - rewrite Ep, (proj2 (Nat.ltb_lt _ _)) by (rewrite length_app; cbn; lia).
    destruct (split_prefix_spec t l x p' Hwf Ep) as (t1 & -> & Hw1 & Hm1 & Hp1 & Hi1 & Hf1 & Hl1).
    destruct (append_children_spec rep item (length k') t1 k') as (t' & ins & -> & H & Hp & Hl); [done | done | |].
    { intros b r ->. rewrite Hf1, list_elem_of_singleton. intros [= ->]. by apply (Hdiff x r x p'). }
    exists t', ins. split; [done|]. unfold bytes in H |- *. rewrite Hp, Hp1 in *.
    split; [by apply (put_result_same _ _ _ t1)|]. split; [|split; [|done]].
    + intros b Hb Hk. destruct l as [|y l]; [|done]. cbn in *.
      destruct k' as [|z k']; [done|]. cbn in Hk. exfalso. apply (Hdiff z k' x p'); [done..|]. congruence.
    + intros Hh Hitem Hlive. apply Hl; [done|]. by apply Hl1.
Qed.

(** The whole trie: nothing but its root may have a nil prefix. *)
Definition live_root t : Prop := live t /\ (prefix t = None \/ has_item t).

Lemma put_spec rep item t k :
  wf_root t ->
  exists t' ins, put tt t (Some k) item rep = Ok (tt, t', ins) /\
    put_result rep item t k t' ins /\ wf_root t' /\
    (item <> None -> live_root t -> live_root t').
Proof.
  intros [Hwf Hnil].
  assert (Hroot : exists t' ins, put tt t (Some k) item rep = Ok (tt, t', ins) /\
    put_result rep item t k t' ins /\ prefix t' <> None /\ (item <> None -> live_root t -> live t')).
  { unfold put. destruct (prefix t) as [p|] eqn:Et.
    - destruct (put_loop_spec rep item (S (length k)) t k Hwf) as (t' & ins & E & H & _ & Hl & Hp).
      { unfold turns. case_match; lia. }
      exists t', ins. rewrite Et in Hp. split; [done|]. split; [done|]. split; [by apply Hp|].
      intros Hi [Hlive [?|?]]; [congruence | by apply Hl].
    - destruct (Hnil eq_refl) as [Hi Hc]. destruct t as [q i cs]. cbn in Et, Hi, Hc. subst q i cs.
      assert (Hsame : forall q, same_map (mkTrie None None []) (mkTrie (Some q) None [] : VTrie Item)).
      { intros q k'. rewrite empty_node_den. by destruct k'. }
      cbn [rd value_slices]. destruct (length k <=? DefaultMaxPrefixPerNode) eqn:El.
      + destruct (insert_item_spec rep item (mkTrie (Some k) None []) (empty_node_wf k)) as (t' & ins & E & H & Hp & Hch).
        cbn [set_prefix Item_ children]. change (set_prefix (Some k) (mkTrie None None [])) with (mkTrie (Some k) None [] : VTrie Item).
        rewrite E. exists t', ins. split; [done|]. split; [by eapply put_result_same|]. rewrite Hp. split; [done|].
        intros _ _. apply live_unfold. by rewrite Hch.
      + cbn [sub_to sub_from value_slices]. set (q := take _ k). set (k' := drop _ k).
        change (set_prefix (Some q) (mkTrie None None [])) with (mkTrie (Some q) None [] : VTrie Item).
        destruct (append_children_spec rep item (length k) (mkTrie (Some q) None []) k') as (t' & ins & E & H & Hp & Hl).
        { apply empty_node_wf. } { unfold k'. rewrite length_drop. lia. } { intros ???. apply not_elem_of_nil. }
        rewrite E. exists t', ins. split; [done|].
        unfold bytes in H. cbn [octets prefix rd value_slices] in H. unfold q, k' in H. rewrite take_drop in H.
        split; [eapply put_result_same; [apply Hsame | done]|]. rewrite Hp. split; [done|].
        intros Hi' _. apply Hl; [done|]. by apply live_unfold; constructor. }
  destruct Hroot as (t' & ins & E & H & Hp & Hl). exists t', ins. split; [done|]. split; [done|].
  split; [split; [apply H | done]|]. intros Hi Hlr. split; [by apply Hl|]. right. by eapply put_result_has.
Qed.
End Denotation.
