(* ===== verification/PatriciaWalk.v ===== *)
(** * Walking a Patricia trie

    A walk sorts the children of the nodes it enters in place, which changes
    neither the map nor the shape of the trie ([reorder]).  [Visit] calls the
    visitor on the entries of the map in the order of their keys, and [empty]
    tells whether the map is empty. *)

From S2P Require Import Prelude PatriciaDB.
From stdpp Require Import sorting.
From S2P Require Import PatriciaDB PatriciaMap.

Open Scope nat_scope.

(** ** Reordered children *)

Inductive reorder {P Item} : Trie P Item -> Trie P Item -> Prop :=
| reorder_node p i cs cs1 cs' :
    cs ≡ₚ cs1 -> Forall2 reorder cs1 cs' -> reorder (mkTrie p i cs) (mkTrie p i cs').

Section Walk.
Context {Item : Type}.
Implicit Types (t c : VTrie Item) (cs : list (VTrie Item)) (k r : list Z).

Notation pbytes := (bytes (S := unit) (P := list Z) (Item := Item) tt).

Lemma reorder_refl t : reorder t t.
Proof.
  induction t as [p i cs IH] using Trie_ind'. apply (reorder_node _ _ _ cs); [done|].
  induction IH; constructor; done.
Qed.

Lemma reorder_prefix t t' : reorder t t' -> prefix t' = prefix t.
Proof. by intros []. Qed.
Lemma reorder_item t t' : reorder t t' -> Item_ t' = Item_ t.
Proof. by intros []. Qed.
Lemma reorder_bytes t t' : reorder t t' -> pbytes t' = pbytes t.
Proof. by intros []. Qed.

Lemma firsts_perm cs cs' : cs ≡ₚ cs' -> firsts cs ≡ₚ firsts cs'.
Proof. apply fmap_Permutation. Qed.

Lemma siblings_perm cs cs' : cs ≡ₚ cs' -> siblings cs -> siblings cs'.
Proof.
  intros Hp [Hnd Hn]. apply firsts_perm in Hp. split; [by rewrite <- Hp | by rewrite <- Hp].
Qed.

Lemma den_children_nil cs : siblings cs -> den_children cs [] = None.
Proof.
  intros Hs. apply first_some_None, Forall_forall. intros c Hc.
  destruct (siblings_nonempty cs c Hs Hc) as (b & p & E). apply den_miss. rewrite E. done.
Qed.

(** Two lists of siblings with the same first octets and, for each octet, a
    child with the same map. *)
Lemma den_children_perm cs cs' r : siblings cs -> cs ≡ₚ cs' -> den_children cs' r = den_children cs r.
Proof.
  intros Hs Hp. pose proof (siblings_perm _ _ Hp Hs) as Hs'.
  destruct r as [|b r]; [by rewrite !den_children_nil|].
  destruct (decide (Some b ∈ firsts cs)) as [Hin|Hnin].
  - apply list_elem_of_fmap in Hin as (d & Hd & Hin).
    rewrite (den_children_at cs d), (den_children_at cs' d); try done. by rewrite <- Hp.
  - rewrite !den_children_none; try done. by rewrite <- (firsts_perm _ _ Hp).
Qed.

Lemma den_children_Forall2 cs cs' r :
  Forall2 (fun c c' => same_map c c') cs cs' -> den_children cs' r = den_children cs r.
Proof.
  unfold den_children. induction 1 as [|c c' cs cs' Hc _ IH]; [done|]. cbn. by rewrite Hc, IH.
Qed.

Lemma firsts_Forall2 cs cs' :
  Forall2 (fun c c' => pbytes c' = pbytes c) cs cs' -> firsts cs' = firsts cs.
Proof. unfold firsts. induction 1 as [|c c' cs cs' Hc _ IH]; [done|]. cbn. by rewrite Hc, IH. Qed.

Record alike t t' : Prop := {
  alike_wf : wf t -> wf t';
  alike_map : wf t -> same_map t t';
  alike_live : wf t -> live t -> live t'
}.

Lemma reorder_alike t t' : reorder t t' -> alike t t'.
Proof.
  revert t'. induction t as [p i cs IH] using Trie_ind'. intros t' H. inversion_clear H as [? ? ? cs1 cs' Hp Hall].
  assert (IH1 : Forall (fun c => forall t', reorder c t' -> alike c t') cs1) by (by rewrite <- Hp).
  assert (Halike : Forall2 (fun c c' => alike c c' /\ pbytes c' = pbytes c) cs1 cs').
  { clear -IH1 Hall. induction Hall as [|c c' cs1 cs' Hc _ IH]; [constructor|].
    inversion_clear IH1. constructor; [|auto]. split; [auto | by apply reorder_bytes]. }
  clear IH IH1 Hall.
  assert (Hw : wf (mkTrie p i cs) -> siblings cs /\ siblings cs1 /\ Forall wf cs1 /\ siblings cs' /\
               Forall2 (fun c c' => same_map c c') cs1 cs' /\ Forall wf cs').
  { intros [Hs Hwf]%wf_unfold. cbn in *. pose proof (siblings_perm _ _ Hp Hs) as Hs1.
    rewrite Hp in Hwf. split; [done|]. split; [done|]. split; [done|].
    split; [unfold siblings; rewrite (firsts_Forall2 cs1 cs'); [done|]; by eapply Forall2_impl; [done|]; cbn; intros ?? []|].
    clear -Hwf Halike. induction Halike as [|c c' cs1 cs' [[Hw Hm Hl] _] _ IH]; [split; constructor|].
    inversion_clear Hwf. destruct IH as [? ?]; [done|]. split; constructor; auto. }
  split.
  - intros Hwf. destruct (Hw Hwf) as (_ & _ & _ & Hs' & _ & Hwf'). by apply wf_unfold.
  - intros Hwf k. destruct (Hw Hwf) as (Hs & Hs1 & _ & _ & Hm & _).
    rewrite !den_unfold. cbn [children Item_]. change (pbytes (mkTrie p i _)) with (octets tt p).
    destruct (strip (octets tt p) k) as [[|b r]|]; [done| |done].
    by rewrite (den_children_Forall2 cs1 cs'), (den_children_perm cs cs1).
  - intros Hwf Hl. destruct (Hw Hwf) as (_ & _ & Hwf1 & _ & Hm & _).
    apply live_unfold. apply live_unfold in Hl. cbn in *. rewrite Hp in Hl.
    clear -Hl Halike Hwf1. induction Halike as [|c c' cs1 cs' [[Hw Hm Hli] _] _ IH]; [constructor|].
    inversion_clear Hl as [|? ? [(k & v & Hk) ?] ?]. inversion_clear Hwf1.
    constructor; [|auto]. split; [|auto]. exists k, v. by rewrite Hm.
Qed.

(** ** Items below a node *)

Lemma has_item_here t v : Item_ t = Some v -> has_item t.
Proof.
  intros Hi. exists (pbytes t), v. rewrite <- (app_nil_r (pbytes t)), den_app. done.
Qed.

Lemma has_item_child t c : wf t -> c ∈ children t -> has_item c -> has_item t.
Proof.
  intros [Hs _]%wf_unfold Hc (k & v & Hk). exists (pbytes t ++ k), v. rewrite den_app.
  destruct (siblings_nonempty _ c Hs Hc) as (b & p & E).
  rewrite den_unfold in Hk. destruct (strip (pbytes c) k) as [r|] eqn:Er; [|done].
  apply strip_Some in Er. subst k. rewrite E. cbn [app].
  rewrite (den_children_at _ c) by (done || by rewrite E). rewrite den_unfold, E.
  change (b :: p ++ r) with ((b :: p) ++ r). by rewrite strip_app.
Qed.

Lemma has_item_inv t : has_item t -> Item_ t <> None \/ exists c, c ∈ children t /\ has_item c.
Proof.
  intros (k & v & Hk). rewrite den_unfold in Hk. destruct (strip (pbytes t) k) as [[|b r]|]; [| |done].
  - left. congruence.
  - right. apply first_some_Some in Hk as (c & Hc & Hd). exists c. split; [done|]. by exists (b :: r), v.
Qed.

Lemma height_child t c : c ∈ children t -> height c < height t.
Proof.
  destruct t as [p i cs]. cbn. intros Hc. apply Nat.lt_succ_r, max_list_elem_of_le.
  by apply (list_elem_of_fmap_2 height).
Qed.

Lemma height_pos t : 0 < height t.
Proof. destruct t. cbn. lia. Qed.

(** The children of a node are low enough for the fuel of its walk. *)
Definition low (fuel : nat) cs : Prop := 0 < fuel /\ Forall (fun c => height c < fuel) cs.

Lemma low_root t : low (height t) (children t).
Proof. split; [apply height_pos|]. apply Forall_forall. intros. by apply height_child. Qed.

Lemma low_child fuel cs c : low (S fuel) cs -> c ∈ cs -> low fuel (children c).
Proof.
  intros [_ Hall] Hc. rewrite Forall_forall in Hall. specialize (Hall c Hc). pose proof (height_pos c).
  split; [lia|]. apply Forall_forall. intros d Hd. pose proof (height_child c d Hd). lia.
Qed.

Lemma sort_children_perm cs : sort_children tt cs ≡ₚ cs.
Proof. apply merge_sort_Permutation. Qed.

Lemma low_perm fuel cs cs' : cs ≡ₚ cs' -> low fuel cs -> low fuel cs'.
Proof. intros Hp [? ?]. split; [done|]. by rewrite <- Hp. Qed.

(** ** [empty] *)

Definition skip_visitor : list Z -> Item -> bool -> bool * option visit_error :=
  fun _ _ _ => (false, Some SkipSubtree).

(** The answer after some nodes: false as soon as one of them holds an item. *)
Definition empty_state (st st' : bool) (holds : Prop) : Prop :=
  (st' = st /\ ~ holds) \/ (st' = false /\ holds).

Lemma empty_loop down pre cs st :
  Forall wf cs ->
  (forall c pre st, c ∈ cs -> Item_ c = None -> exists below st',
     down pre (children c) st = Ok (below, st', None) /\ reorder c (set_children below c) /\
     empty_state st st' (has_item c)) ->
  exists cs' st', walk_loop skip_visitor tt down pre cs st = Ok (cs', st', None) /\
    Forall2 reorder cs cs' /\ empty_state st st' (exists c, c ∈ cs /\ has_item c).
Proof.
  revert st. induction cs as [|c cs IH]; intros st Hwf Hdown.
  { exists [], st. split; [done|]. split; [constructor|]. left. split; [done|].
    intros (c & Hc & _). by apply elem_of_nil in Hc. }
  apply Forall_cons in Hwf as [Hc Hwf].
  assert (IH' : forall st, exists cs' st', walk_loop skip_visitor tt down pre cs st = Ok (cs', st', None) /\
    Forall2 reorder cs cs' /\ empty_state st st' (exists c, c ∈ cs /\ has_item c)).
  { intros st1. apply IH; [done|]. intros c1 ?? Hin. apply Hdown. by right. }
  clear IH. cbn [walk_loop]. destruct (Item_ c) as [v|] eqn:Ei; cbn [skip_visitor].
  - destruct (IH' false) as (cs' & st' & -> & Hr & Hst). cbn. exists (c :: cs'), st'. split; [done|].
    split; [by constructor; [apply reorder_refl|]|]. right.
    split; [destruct Hst as [[? _]|[? _]]; done|]. exists c. split; [left | by eapply has_item_here].
  - destruct (Hdown c (pre ++ pbytes c) st) as (below & st1 & -> & Hr1 & Hst1); [left | done|]. cbn [exec_bind].
    destruct (IH' st1) as (cs' & st' & -> & Hr & Hst). cbn. eexists _, st'. split; [done|].
    split; [by constructor|].
    destruct Hst1 as [[-> Hn1]|[-> H1]], Hst as [[-> Hn]|[-> H]].
    + left. split; [done|]. intros (d & [->|Hd]%elem_of_cons & Hh); [done|]. apply Hn. by exists d.
    + right. split; [done|]. destruct H as (d & Hd & Hh). exists d. split; [by right | done].
    + right. split; [done|]. exists c. split; [left | done].
    + right. split; [done|]. exists c. split; [left | done].
Qed.

Lemma empty_children fuel pre cs st :
  low fuel cs -> siblings cs -> Forall wf cs ->
  exists cs' st', walk_children skip_visitor fuel tt pre cs st = Ok (cs', st', None) /\
    (exists cs1, cs ≡ₚ cs1 /\ Forall2 reorder cs1 cs') /\
    empty_state st st' (exists c, c ∈ cs /\ has_item c).
Proof.
  revert pre cs st. induction fuel as [|fuel IH]; intros pre cs st Hlow Hs Hwf; [destruct Hlow; lia|].
  cbn [walk_children]. set (cs1 := sort_children tt cs).
  assert (Hp : cs1 ≡ₚ cs) by apply sort_children_perm.
  assert (Hwf1 : Forall wf cs1) by (by rewrite Hp).
  destruct (empty_loop (walk_children skip_visitor fuel tt) pre cs1 st Hwf1) as (cs' & st' & -> & Hr & Hst).
  { intros c pre' st1 Hc Hi. rewrite Forall_forall in Hwf1. pose proof (Hwf1 c Hc) as Hwc.
    pose proof Hwc as [Hsc Hac]%wf_unfold.
    destruct (IH pre' (children c) st1) as (below & st2 & -> & (cs2 & Hp2 & Hr2) & Hst2); [|done|done|].
    { eapply low_child; [|done]. by eapply low_perm. }
    exists below, st2. split; [done|]. split.
    - destruct c as [p i cc]. by apply (reorder_node _ _ _ cs2).
    - destruct Hst2 as [[-> Hn]|[-> (d & Hd & Hh)]]; [left | right]; (split; [done|]).
      + intros [?|?]%has_item_inv; [done|]. by apply Hn.
      + by eapply has_item_child. }
  exists cs', st'. split; [done|]. split; [by exists cs1|].
  assert (Heq : (exists c, c ∈ cs1 /\ has_item c) <-> (exists c, c ∈ cs /\ has_item c)) by (by setoid_rewrite Hp).
  unfold empty_state in *. by rewrite Heq in Hst.
Qed.

(** [empty] answers whether the node and all below it are without items, and
    at most reorders children. *)
Lemma empty_spec t :
  wf t -> exists t' isEmpty, empty tt t = Ok (t', isEmpty) /\ reorder t t' /\
    (if isEmpty then ~ has_item t else has_item t).
Proof.
  intros Hwf. unfold empty, walk. destruct (Item_ t) as [v|] eqn:Ei; cbn.
  - exists t, false. split; [done|]. split; [apply reorder_refl | by eapply has_item_here].
  - pose proof Hwf as [Hs Ha]%wf_unfold.
    destruct (empty_children (height t) (pbytes t) (children t) true (low_root t) Hs Ha)
      as (cs' & st' & E & (cs1 & Hp & Hr) & Hst).
    fold skip_visitor. rewrite E. cbn. eexists _, st'. split; [done|].
    split; [destruct t as [p i cs]; by apply (reorder_node _ _ _ cs1)|].
    destruct Hst as [[-> Hn]|[-> (d & Hd & Hh)]]; [|by eapply has_item_child].
    intros [?|?]%has_item_inv; [done|]. by apply Hn.
Qed.

(** ** The order of visits *)

(** Strict order of keys. *)
Fixpoint lex_lt (a b : list Z) : bool :=
  match a, b with
  | _, [] => false
  | [], _ :: _ => true
  | x :: a, y :: b => (x <? y)%Z || ((x =? y)%Z && lex_lt a b)
  end.

Lemma lex_lt_app p a b : lex_lt (p ++ a) (p ++ b) = lex_lt a b.
Proof. induction p as [|x p IH]; [done|]. cbn. by rewrite Z.ltb_irrefl, Z.eqb_refl. Qed.

Lemma lex_le_total a b : lex_le a b = true \/ lex_le b a = true.
Proof.
  revert b. induction a as [|x a IH]; intros [|y b]; cbn; auto.
  destruct (Z.ltb_spec x y), (Z.ltb_spec y x); auto; lia.
Qed.

(** The entries below a node, with their keys from its prefix on, in the order
    of the lists of children. *)
Fixpoint entries t : list (list Z * Item) :=
  match t with
  | mkTrie p i cs =>
      prod_map (app (octets tt p)) id <$>
      (match i with Some v => [([], v)] | None => [] end ++ concat (map entries cs))
  end.

Definition child_entries cs : list (list Z * Item) := concat (map entries cs).

Lemma entries_unfold t :
  entries t = prod_map (app (pbytes t)) id <$>
              (match Item_ t with Some v => [([], v)] | None => [] end ++ child_entries (children t)).
Proof. by destruct t. Qed.

Lemma elem_of_child_entries cs e : e ∈ child_entries cs <-> exists c, c ∈ cs /\ e ∈ entries c.
Proof.
  unfold child_entries. induction cs as [|c cs IH]; cbn.
  - split; [by intros ?%elem_of_nil | intros (c & Hc & _); by apply elem_of_nil in Hc].
  - rewrite elem_of_app, IH. setoid_rewrite elem_of_cons. naive_solver.
Qed.

Lemma entries_den t k v : wf t -> (k, v) ∈ entries t <-> den t k = Some v.
Proof.
  revert k v. induction t as [p i cs IH] using Trie_ind'. intros k v [Hs Hall]%wf_unfold. cbn in Hs, Hall.
  rewrite entries_unfold, den_unfold, list_elem_of_fmap. cbn [children Item_].
  set (bs := pbytes (mkTrie p i cs)). split.
  - intros ([r v'] & E & Hin). cbn in E. injection E as -> ->. rewrite strip_app.
    rewrite elem_of_app, elem_of_child_entries in Hin.
    destruct Hin as [Hin|(c & Hc & Hin)].
    + destruct i as [w|]; [|by apply elem_of_nil in Hin]. apply list_elem_of_singleton in Hin.
      by injection Hin as -> ->.
    + rewrite Forall_forall in IH, Hall. apply IH in Hin; [|done|by apply Hall].
      destruct (siblings_nonempty cs c Hs Hc) as (b & q & Eb).
      pose proof Hin as Hin'. rewrite den_unfold in Hin'. destruct (strip (pbytes c) r) as [r'|] eqn:Er; [|done].
      apply strip_Some in Er. rewrite Eb in Er. subst r. cbn [app] in *.
      by rewrite (den_children_at cs c) by (done || by rewrite Eb).
  - destruct (strip bs k) as [r|] eqn:Er; [|done]. apply strip_Some in Er. subst k. intros Hd.
    exists (r, v). split; [done|]. rewrite elem_of_app, elem_of_child_entries.
    destruct r as [|b r]; [left; subst i; by apply list_elem_of_singleton|]. right.
    apply first_some_Some in Hd as (c & Hc & Hd). exists c. split; [done|].
    rewrite Forall_forall in IH, Hall. apply IH; [done | by apply Hall | done].
Qed.

(** Children in the order of their first octets, at every node. *)
Definition first_lt c c' : Prop :=
  exists b p b' p', pbytes c = b :: p /\ pbytes c' = b' :: p' /\ (b < b')%Z.

Fixpoint ordered t : Prop :=
  match t with
  | mkTrie _ _ cs =>
      StronglySorted first_lt cs /\ (fix all cs := match cs with [] => True | c :: cs => ordered c /\ all cs end) cs
  end.

Lemma ordered_unfold t : ordered t <-> StronglySorted first_lt (children t) /\ Forall ordered (children t).
Proof.
  destruct t as [p i cs]. cbn. f_equiv. induction cs as [|c cs IH]; [split; auto using Forall_nil|].
  rewrite Forall_cons, IH. done.
Qed.

Definition key_lt (e e' : list Z * Item) : Prop := lex_lt (fst e) (fst e') = true.

Lemma key_lt_fmap p l :
  StronglySorted key_lt l -> StronglySorted key_lt (prod_map (app p) id <$> l).
Proof.
  induction 1 as [|e l _ IH Hall]; cbn; constructor; [done|].
  apply Forall_fmap. eapply Forall_impl; [done|]. intros e' He.
  unfold key_lt in *. destruct e, e'. cbn. by rewrite lex_lt_app.
Qed.

Lemma entry_first t k v : (k, v) ∈ entries t -> exists r, k = pbytes t ++ r.
Proof.
  rewrite entries_unfold. intros ([r v'] & [= -> ->] & _)%list_elem_of_fmap. by exists r.
Qed.

Lemma first_lt_entries c c' e e' : first_lt c c' -> e ∈ entries c -> e' ∈ entries c' -> key_lt e e'.
Proof.
  destruct e as [k v], e' as [k' v']. intros (b & p & b' & p' & E & E' & Hlt) H H'.
  apply entry_first in H as [r ->], H' as [r' ->]. rewrite E, E'. unfold key_lt. cbn.
  by rewrite (proj2 (Z.ltb_lt b b')).
Qed.

Lemma child_entries_sorted cs :
  StronglySorted first_lt cs -> Forall (fun c => StronglySorted key_lt (entries c)) cs ->
  StronglySorted key_lt (child_entries cs).
Proof.
  induction 1 as [|c cs _ IH Hall]; intros Hcs; [constructor|]. inversion_clear Hcs.
  unfold child_entries. cbn. fold (child_entries cs). apply StronglySorted_app_2; [|done | auto].
  intros e e' He (d & Hd & He')%elem_of_child_entries. rewrite Forall_forall in Hall.
  by apply (first_lt_entries c d); [apply Hall| |].
Qed.

Lemma entries_sorted t : wf t -> ordered t -> StronglySorted key_lt (entries t).
Proof.
  induction t as [p i cs IH] using Trie_ind'. intros [Hs Hw]%wf_unfold [Ho Ha]%ordered_unfold. cbn in *.
  apply key_lt_fmap. assert (Hc : StronglySorted key_lt (child_entries cs)).
  { apply child_entries_sorted; [done|]. apply Forall_forall. intros c Hc. rewrite Forall_forall in *. auto. }
  destruct i as [v|]; [|done]. cbn. constructor; [done|]. apply Forall_forall.
  intros [k w] (c & Hcs & Hin)%elem_of_child_entries. apply entry_first in Hin as [r ->].
  destruct (siblings_nonempty cs c Hs Hcs) as (b & q & E). unfold key_lt. cbn. by rewrite E.
Qed.

(** Sorting children by their prefixes sorts them by first octet. *)
Lemma sort_children_sorted cs : siblings cs -> StronglySorted first_lt (sort_children tt cs).
Proof.
  intros Hs. pose proof (sort_children_perm cs) as Hp.
  assert (Hs' : siblings (sort_children tt cs)) by (by eapply siblings_perm; [symmetry|]).
  assert (Hsort : Sorted (fun c c' => Is_true (lex_le (pbytes c) (pbytes c'))) (sort_children tt cs)).
  { apply Sorted_merge_sort. intros c c'. destruct (lex_le_total (pbytes c) (pbytes c')) as [->| ->]; auto. }
  revert Hs' Hsort. generalize (sort_children tt cs). clear. intros cs Hs Hsort.
  apply Sorted_StronglySorted.
  { intros c1 c2 c3 (b1 & p1 & b2 & p2 & E1 & E2 & ?) (b2' & p2' & b3 & p3 & E2' & E3 & ?).
    exists b1, p1, b3, p3. rewrite E2 in E2'. injection E2' as -> ->. split; [done|]. split; [done|]. lia. }
  induction Hsort as [|c cs Hsort IH Hhd]; [constructor|].
  apply siblings_cons in Hs as ((b & p & Eb) & Hn & Hs). constructor; [by apply IH|].
  destruct Hhd as [|c' cs Hle]; constructor. pose proof Hs as ((b' & p' & Eb') & _ & _)%siblings_cons.
  exists b, p, b', p'. split; [done|]. split; [done|]. rewrite Eb, Eb' in Hle. cbn in Hle.
  destruct (Z.ltb_spec b b'); [done|]. destruct (Z.ltb_spec b' b); [done|].
  exfalso. apply Hn. assert (b = b') as -> by lia. rewrite Eb.
  replace (head (b' :: p)) with (head (pbytes c')) by (by rewrite Eb'). apply firsts_elem. left.
Qed.

(** ** Visits that no visitor breaks off *)

Section Visiting.
Context {St : Type} (visitor : list Z -> Item -> St -> St * option visit_error).
Hypothesis never_fails : forall k v st, snd (visitor k v st) = None.

(** The state after the visitor saw the entries of a list below [pre]. *)
Definition visits (pre : list Z) (es : list (list Z * Item)) (st : St) : St :=
  fold_left (fun st e => fst (visitor (pre ++ fst e) (snd e) st)) es st.

Lemma visits_app pre es es' st : visits pre (es ++ es') st = visits pre es' (visits pre es st).
Proof. apply fold_left_app. Qed.

Lemma visits_fmap pre p es st :
  visits pre (prod_map (app p) id <$> es) st = visits (pre ++ p) es st.
Proof.
  revert st. induction es as [|[k v] es IH]; intros st; [done|]. cbn. rewrite <- app_assoc. apply IH.
Qed.

Lemma visits_entries pre t st :
  visits pre (entries t) st =
  visits (pre ++ pbytes t) (child_entries (children t))
    match Item_ t with Some v => fst (visitor (pre ++ pbytes t) v st) | None => st end.
Proof.
  rewrite entries_unfold, visits_fmap, visits_app. f_equal. destruct (Item_ t); cbn; [|done].
  by rewrite app_nil_r.
Qed.

(** One child, visited with all below it. *)
Definition visited fuel c : Prop :=
  forall pre st, exists below,
    walk_children visitor fuel tt pre (children c) st = Ok (below, visits pre (child_entries below) st, None) /\
    reorder c (set_children below c) /\ ordered (set_children below c).

Lemma visit_loop fuel pre cs st :
  Forall (visited fuel) cs ->
  exists cs', walk_loop visitor tt (walk_children visitor fuel tt) pre cs st =
      Ok (cs', visits pre (child_entries cs') st, None) /\
    Forall2 reorder cs cs' /\ Forall ordered cs'.
Proof.
  revert st. induction cs as [|c cs IH]; intros st Hv.
  { exists []. split; [done|]. split; constructor. }
  apply Forall_cons in Hv as [Hc Hcs]. cbn [walk_loop].
  set (st1 := match Item_ c with Some v => fst (visitor (pre ++ pbytes c) v st) | None => st end).
  assert (E : (match Item_ c with Some i => visitor (pre ++ pbytes c) i st | None => (st, None) end) = (st1, None)).
  { unfold st1. destruct (Item_ c) as [v|]; [|done]. specialize (never_fails (pre ++ pbytes c) v st).
    destruct (visitor (pre ++ pbytes c) v st). cbn in *. by rewrite never_fails. }
  rewrite E. cbn iota beta.
  destruct (Hc (pre ++ pbytes c) st1) as (below & -> & Hr & Ho). cbn [exec_bind].
  destruct (IH (visits (pre ++ pbytes c) (child_entries below) st1) Hcs) as (cs' & -> & Hrs & Hos).
  cbn [exec_bind]. exists (set_children below c :: cs').
  split; [|split; by constructor]. unfold child_entries at 3. cbn [map concat]. fold (child_entries cs').
  rewrite visits_app, visits_entries. by destruct c.
Qed.

Lemma visit_children fuel pre cs st :
  low fuel cs -> siblings cs -> Forall wf cs ->
  exists cs' cs1, walk_children visitor fuel tt pre cs st =
      Ok (cs', visits pre (child_entries cs') st, None) /\
    cs ≡ₚ cs1 /\ Forall2 reorder cs1 cs' /\ StronglySorted first_lt cs' /\ Forall ordered cs'.
Proof.
  revert pre cs st. induction fuel as [|fuel IH]; intros pre cs st Hlow Hs Hwf; [destruct Hlow; lia|].
  cbn [walk_children]. pose proof (sort_children_perm cs) as Hp.
  destruct (visit_loop fuel pre (sort_children tt cs) st) as (cs' & -> & Hr & Ho).
  { rewrite Hp. apply Forall_forall. intros c Hc pre' st'. rewrite Forall_forall in Hwf.
    pose proof (Hwf c Hc) as [Hsc Hac]%wf_unfold.
    destruct (IH pre' (children c) st') as (below & cs1 & -> & Hp1 & Hr1 & Hs1 & Ho1); [|done|done|].
    { by eapply low_child. }
    exists below. split; [done|]. destruct c as [p i cc].
    split; [by apply (reorder_node _ _ _ cs1) | by apply ordered_unfold]. }
  exists cs', (sort_children tt cs). split; [done|]. split; [done|]. split; [done|]. split; [|done].
  pose proof (sort_children_sorted cs Hs) as Hsort. revert Hsort Hr. generalize (sort_children tt cs). clear. intros cs Hsort. revert cs'.
  induction Hsort as [|c cs _ IH Hall]; intros cs' Hr; inversion_clear Hr as [|? c' ? cs1 Hc Hcs]; constructor; [by apply IH|].
  clear IH. induction Hcs as [|d d' cs cs1 Hd _ IH]; constructor; inversion_clear Hall as [|? ? Hlt ?]; [|auto].
  destruct Hlt as (b & q & b' & q' & E & E' & Hlt). exists b, q, b', q'.
  by rewrite (reorder_bytes c c'), (reorder_bytes d d').
Qed.

(** A visit calls the visitor on the entries of the map, in the order of their
    keys, and leaves the map alone. *)
Lemma visit_spec t st :
  wf t ->
  exists t' es, Visit visitor tt t st = Ok (t', visits [] es st, None) /\
    reorder t t' /\ StronglySorted key_lt es /\ (forall k v, (k, v) ∈ es <-> den t k = Some v).
Proof.
  intros Hwf. pose proof Hwf as [Hs Ha]%wf_unfold. unfold Visit, walk.
  set (st1 := match Item_ t with Some v => fst (visitor (pbytes t) v st) | None => st end).
  assert (E : (match Item_ t with Some i => visitor (pbytes t) i st | None => (st, None) end) = (st1, None)).
  { unfold st1. destruct (Item_ t) as [v|]; [|done]. specialize (never_fails (pbytes t) v st).
    destruct (visitor (pbytes t) v st). cbn in *. by rewrite never_fails. }
  rewrite E. cbn iota beta.
  destruct (visit_children (height t) (pbytes t) (children t) st1 (low_root t) Hs Ha)
    as (cs' & cs1 & -> & Hp & Hr & Hsort & Ho). cbn [exec_bind].
  assert (Hre : reorder t (set_children cs' t)) by (destruct t; by apply (reorder_node _ _ _ cs1)).
  exists (set_children cs' t), (entries (set_children cs' t)).
  destruct (reorder_alike _ _ Hre) as [Hw Hm _].
  split; [rewrite visits_entries; by destruct t|]. split; [done|].
  split; [apply entries_sorted; [by apply Hw | by apply ordered_unfold; destruct t]|].
  intros k v. rewrite entries_den by (by apply Hw). by rewrite Hm.
Qed.

End Visiting.
End Walk.
