(* ===== verification/PatriciaDelete.v ===== *)
(** * Deletion from a Patricia trie

    [Delete] removes the item of the node at which its search stops.  On a
    trie without dead ends it returns and changes the map at one key only;
    that key is the one asked for when it is stored, but a proper prefix of it
    when the search stopped for want of a child. *)

From S2P Require Import Prelude PatriciaDB.
From stdpp Require Import sorting.
From S2P Require Import PatriciaDB PatriciaMap PatriciaWalk.

Open Scope nat_scope.

Section Deletion.
Context {Item : Type}.
Implicit Types (t c node parent : VTrie Item) (cs : list (VTrie Item)) (k r : list Z).

Notation pbytes := (bytes (S := unit) (P := list Z) (Item := Item) tt).

(** ** Child lists by index *)

Lemma replace_spec cs i c c' b :
  siblings cs -> cs !! i = Some c -> head (pbytes c) = Some b ->
  PatriciaDB.replace tt b c' cs = Ok (<[i := c']> cs).
Proof.
  revert i. induction cs as [|d cs IH]; intros i Hs Hi Hb; [done|].
  pose proof Hs as ((b' & p & Ep) & Hn & Hs')%siblings_cons. cbn. unfold first. rewrite Ep. cbn.
  destruct i as [|i]; cbn in Hi.
  - injection Hi as ->. rewrite Ep in Hb. cbn in Hb. injection Hb as ->. by rewrite Z.eqb_refl.
  - destruct (Z.eqb_spec b' b) as [->|]; [|by rewrite (IH i)].
    destruct Hn. rewrite Ep. cbn. rewrite <- Hb. apply firsts_elem. by eapply list_elem_of_lookup_2.
Qed.

Lemma remove_spec cs i c c' :
  siblings cs -> cs !! i = Some c -> head (pbytes c') = head (pbytes c) ->
  remove tt c' cs = Ok (delete i cs).
Proof.
  revert i. induction cs as [|d cs IH]; intros i Hs Hi Hb; [done|].
  pose proof Hs as ((b' & p & Ep) & Hn & Hs')%siblings_cons.
  destruct (siblings_nonempty _ c Hs) as (b & q & Eq); [by eapply list_elem_of_lookup_2|].
  cbn. unfold first. rewrite Ep, Hb, Eq. cbn.
  destruct i as [|i]; cbn in Hi.
  - injection Hi as ->. rewrite Ep in Eq. injection Eq as -> ->. by rewrite Z.eqb_refl.
  - destruct (Z.eqb_spec b' b) as [->|]; [|by rewrite (IH i)].
    destruct Hn. rewrite Ep. replace (head (b :: p)) with (head (pbytes c)) by (by rewrite Eq).
    apply firsts_elem. by eapply list_elem_of_lookup_2.
Qed.

Lemma siblings_delete cs i : siblings cs -> siblings (delete i cs).
Proof.
  intros [Hnd Hn]. unfold siblings, firsts in *. rewrite list_fmap_delete.
  split; [by eapply sublist_NoDup, sublist_delete|].
  intros H. apply Hn. by eapply list_elem_of_delete_inv.
Qed.

(** Removing a child without items. *)
Lemma drop_dead_child t i c :
  wf t -> children t !! i = Some c -> ~ has_item c ->
  let t' := set_children (delete i (children t)) t in
  wf t' /\ same_map t t' /\ (live t -> live t').
Proof.
  intros [Hs Hall]%wf_unfold Hi Hdead t'. pose proof (delete_Permutation _ _ _ Hi) as Hp.
  assert (Hdel : Forall wf (delete i (children t))) by (rewrite Hp in Hall; by apply Forall_cons in Hall as [_ ?]).
  destruct t as [p it cs]. cbn [children set_children] in *. split; [|split].
  - apply wf_unfold. split; [by apply siblings_delete | done].
  - intros k. rewrite !den_unfold. unfold t'. cbn [children set_children Item_].
    change (pbytes (set_children (delete i cs) (mkTrie p it cs))) with (octets tt p).
    change (pbytes (mkTrie p it cs)) with (octets tt p).
    destruct (strip (octets tt p) k) as [[|b r]|]; [done| |done].
    rewrite <- (den_children_perm cs (c :: delete i cs)) by done. unfold den_children at 2. cbn.
    destruct (den c (b :: r)) eqn:E; [|done]. destruct Hdead. by exists (b :: r), i0.
  - rewrite !live_unfold. cbn [children t' set_children]. rewrite Hp at 1. by intros [_ ?]%Forall_cons.
Qed.

(** ** Removing an item *)

(** [t'] is [t] without the key [k], and may replace it below its parent. *)
Record removed t k t' : Prop := {
  rm_put : put_result true None t k t' true;
  rm_first : forall b, head (pbytes t) = Some b -> head (pbytes t') = Some b;
  rm_prefix : prefix t <> None -> prefix t' <> None
}.

Lemma removed_same t k t1 t2 :
  removed t k t1 -> wf t2 -> same_map t1 t2 ->
  (forall b, head (pbytes t1) = Some b -> head (pbytes t2) = Some b) ->
  (prefix t1 <> None -> prefix t2 <> None) -> removed t k t2.
Proof.
  intros [[Hw Hm Ha] Hf Hp] Hw2 Hs Hf2 Hp2. split; [split|auto|auto].
  - done.
  - intros k'. by rewrite Hs, Hm.
  - done.
Qed.

Lemma removed_item t : wf t -> removed t (pbytes t) (set_item None t).
Proof.
  intros Hwf. destruct (insert_item_spec true None t Hwf) as (t' & ins & E & H & Hp & _).
  cbn in E. injection E as <- <-. split; [done | by destruct t | by destruct t].
Qed.

Lemma removed_child t i c c' b r :
  wf t -> children t !! i = Some c -> head (pbytes c) = Some b ->
  removed c (b :: r) c' ->
  removed t (pbytes t ++ b :: r) (set_children (<[i := c']> (children t)) t).
Proof.
  intros Hwf Hi Hb [Hput Hf _]. split; [|by destruct t|by destruct t].
  by apply (put_result_child _ _ _ i c); [..|apply Hf|].
Qed.

Lemma head_app_first (p r : list Z) b : head p = Some b -> head (p ++ r) = Some b.
Proof. by destruct p. Qed.

Lemma compacted_prefix t : wf t -> prefix t <> None -> prefix (compacted t) <> None.
Proof.
  intros Hwf Hp. unfold compacted. destruct (compact_cases t Hwf) as [E | (p & p' & cs & q & -> & _ & _ & _ & E)];
    by rewrite E.
Qed.

Lemma removed_compacted t k t' : removed t k t' -> removed t k (compacted t').
Proof.
  intros H. pose proof (pr_wf _ _ _ _ _ _ (rm_put _ _ _ H)) as Hw.
  destruct (compacted_spec t' Hw) as (Hm & Hw' & (r & Hb) & _ & _).
  apply (removed_same t k t'); [done | done | done | |by apply compacted_prefix].
  intros b Hb'. rewrite Hb. by apply head_app_first.
Qed.

Lemma removed_reorder t k t' t'' : removed t k t' -> reorder t' t'' -> removed t k t''.
Proof.
  intros H Hr. pose proof (pr_wf _ _ _ _ _ _ (rm_put _ _ _ H)) as Hw.
  destruct (reorder_alike _ _ Hr) as [Hw' Hm _].
  apply (removed_same t k t'); [done | auto | auto | |]; by rewrite ?(reorder_bytes _ _ Hr), ?(reorder_prefix _ _ Hr).
Qed.

Lemma removed_wf t k t' : removed t k t' -> wf t'.
Proof. intros H. apply H. Qed.

(** ** The item of the root *)

Lemma delete_root_spec t v :
  wf t -> prefix t <> None -> Item_ t = Some v ->
  exists t', delete_root tt t = Ok (tt, t') /\ wf_root t' /\
    point_update (pbytes t) None t t' /\ (live t -> live_root t').
Proof.
  intros Hwf Hp Hi. unfold delete_root. set (node := set_item None t).
  pose proof (removed_item t Hwf) as Hrm. fold node in Hrm.
  pose proof (removed_wf _ _ _ Hrm) as Hwn.
  replace (compact tt node) with (tt, snd (compact tt node)) by (by destruct (compact tt node) as [[] ?]).
  cbn iota beta. fold (compacted node).
  destruct (compacted_spec node Hwn) as (_ & Hwc & _ & Hic & Hlc).
  apply removed_compacted in Hrm. destruct (empty_spec (compacted node) Hwc) as (t' & e & -> & Hr & He). cbn [exec_bind].
  eapply removed_reorder in Hrm; [|done]. destruct Hrm as [[Hw Hm _] _ Hpt].
  destruct (reorder_alike _ _ Hr) as [_ Hmr Hlr].
  eexists. split; [done|]. destruct e.
  - assert (Hdead : forall k, den t' k = None).
    { intros k. destruct (den t' k) eqn:E; [|done]. destruct He. exists k, i. by rewrite <- Hmr. }
    assert (Hit : Item_ t' = None) by (rewrite (reorder_item _ _ Hr), Hic; by destruct t).
    assert (Hzero : forall k, den (reset t') k = None).
    { intros k. unfold reset. cbn. rewrite Hit. by destruct k. }
    split; [split; [apply wf_unfold; split; [split; [constructor | apply not_elem_of_nil] | constructor] | by cbn]|].
    split; [intros k; by rewrite Hzero, <- Hm, Hdead|].
    intros _. split; [by apply live_unfold; constructor | by left].
  - split; [split; [done|]; intros E; by destruct (Hpt Hp)|]. split; [done|].
    intros Hl. split; [apply Hlr, Hlc; [done|]; apply live_unfold; apply live_unfold in Hl; by destruct t|].
    right. destruct He as (k & v' & Hk). exists k, v'. by rewrite Hmr.
Qed.

(** ** The item of a child *)

(** A parent whose child number [i] was replaced, and replaced again. *)
Lemma set_children_twice t i c c' :
  set_children (<[i := c']> (children (set_children (<[i := c]> (children t)) t)))
               (set_children (<[i := c]> (children t)) t) =
  set_children (<[i := c']> (children t)) t.
Proof. destruct t. cbn. by rewrite list_insert_insert_eq. Qed.

Lemma child_at_replaced t i c c' :
  children t !! i = Some c -> children (set_children (<[i := c']> (children t)) t) !! i = Some c'.
Proof. destruct t. cbn. intros Hi. apply list_lookup_insert_eq. by eapply lookup_lt_Some. Qed.

Lemma compact_pair t : compact tt t = (tt, snd (compact tt t)).
Proof. by destruct (compact tt t) as [[] ?]. Qed.

Lemma has_item_same t t' : same_map t t' -> has_item t -> has_item t'.
Proof. intros Hm (k & v & Hk). exists k, v. by rewrite Hm. Qed.

Lemma has_item_compacted t : wf t -> has_item t -> has_item (compacted t).
Proof. intros Hwf. apply has_item_same, compacted_spec, Hwf. Qed.

(** A node that was merged with its child had items below that child. *)
Lemma merged_has_item t c :
  wf t -> live t -> compact tt t = (tt, Some c) -> has_item c.
Proof.
  intros Hwf Hl E. replace c with (compacted t) by (unfold compacted; by rewrite E).
  apply has_item_compacted; [done|].
  destruct (compact_cases t Hwf) as [E' | (p & p' & cs & q & -> & _)]; [congruence|].
  apply live_unfold in Hl. inversion_clear Hl as [|? ? [Hh _] _].
  eapply has_item_child; [done| |exact Hh]. left.
Qed.

Lemma merged_nonempty t c : wf t -> compact tt t = (tt, Some c) -> pbytes c <> [].
Proof.
  intros Hwf E. destruct (compact_cases t Hwf) as [E' | (p & p' & cs & q & -> & Hne & -> & _ & E')]; [congruence|].
  rewrite E in E'. injection E' as ->. unfold bytes. cbn. by destruct (octets tt p).
Qed.

Lemma live_child t i c : live t -> children t !! i = Some c -> live c.
Proof.
  rewrite live_unfold, Forall_forall. intros Hl Hi. apply Hl. by eapply list_elem_of_lookup_2.
Qed.

Lemma wf_only_child t c : wf c -> pbytes c <> [] -> wf (set_children [c] t).
Proof.
  intros Hw Hne. apply wf_unfold. split; [by apply siblings_singleton | by repeat constructor].
Qed.

Lemma reorder_only_child x t t' :
  reorder (set_children [x] t) t' ->
  exists x', children t' = [x'] /\ reorder x x' /\ pbytes t' = pbytes t.
Proof.
  destruct t as [p it cs]. intros Hr. inversion_clear Hr as [? ? ? cs1 cs' Hp Hall].
  apply Permutation_singleton_l in Hp. subst cs1. inversion_clear Hall as [|? x' ? ? Hx Hnil].
  inversion_clear Hnil. by exists x'.
Qed.

Lemma has_item_reorder t t' : wf t -> reorder t t' -> has_item t' -> has_item t.
Proof.
  intros Hwf Hr (k & v & Hk). exists k, v. by rewrite <- (alike_map _ _ (reorder_alike _ _ Hr) Hwf).
Qed.

(** Removing the child that starts with [b], if there is one. *)
Lemma remove_any cs c b :
  siblings cs -> head (pbytes c) = Some b ->
  (exists j d, cs !! j = Some d /\ head (pbytes d) = Some b /\ remove tt c cs = Ok (delete j cs)) \/
  (remove tt c cs = Panic /\ Some b ∉ firsts cs).
Proof.
  induction cs as [|d cs IH]; intros Hs Hb; [right; split; [done | apply not_elem_of_nil]|].
  pose proof Hs as ((b' & p & Ep) & Hn & Hs')%siblings_cons. cbn. unfold first. rewrite Ep, Hb. cbn.
  destruct (Z.eqb_spec b' b) as [->|Hne]; [left; exists 0, d; by rewrite Ep|].
  destruct (IH Hs' Hb) as [(j & e & Hj & He & ->) | [-> Hno]]; cbn.
  - left. by exists (S j), e.
  - right. split; [done|]. apply not_elem_of_cons. split; [congruence | done].
Qed.

Section Child.
Variables (parent : VTrie Item) (i : nat) (node : VTrie Item) (b : Z) (q : list Z).
Hypothesis (Hwf : wf parent) (Hi : children parent !! i = Some node) (Hb : pbytes node = b :: q).

Lemma removed_in_parent c :
  removed node (b :: q) c ->
  removed parent (pbytes parent ++ b :: q) (set_children (<[i := c]> (children parent)) parent).
Proof. intros Hc. apply (removed_child _ _ node); [done | done | by rewrite Hb | done]. Qed.

Lemma node_wf : wf node.
Proof.
  apply wf_unfold in Hwf as [_ Hall]. rewrite Forall_forall in Hall. apply Hall.
  by eapply list_elem_of_lookup_2.
Qed.

(** The node stays in place, unless nothing is left in it. *)
Lemma delete_child_kept :
  compact tt (set_item None node) = (tt, None) ->
  exists parent', delete_child tt i parent = Ok (tt, parent') /\
    removed parent (pbytes parent ++ b :: q) parent'.
Proof.
  intros Hc. unfold delete_child. rewrite Hi. cbn [of_option exec_bind]. rewrite Hc.
  pose proof (removed_item node node_wf) as Hrm. rewrite Hb in Hrm.
  destruct (empty_spec (set_item None node) (removed_wf _ _ _ Hrm)) as (node' & e & -> & Hr & He). cbn [exec_bind].
  rewrite set_children_twice. pose proof (removed_reorder _ _ _ _ Hrm Hr) as Hrm'.
  pose proof (removed_in_parent node' Hrm') as Hp. destruct e; [|by eexists].
  set (parent1 := set_children (<[i := node']> (children parent)) parent) in *.
  pose proof (removed_wf _ _ _ Hp) as Hwp. pose proof Hwp as [Hs _]%wf_unfold.
  assert (Hi1 : children parent1 !! i = Some node') by (by eapply child_at_replaced).
  rewrite (remove_spec _ i node') by done. cbn [exec_bind]. eexists. split; [done|].
  destruct (drop_dead_child parent1 i node' Hwp Hi1) as (Hw & Hm & _).
  { intros (k & v & Hk). apply He. exists k, v. rewrite <- Hk. symmetry.
    apply (alike_map _ _ (reorder_alike _ _ Hr)). by eapply removed_wf, removed_item, node_wf. }
  by apply (removed_same _ _ parent1); [..|destruct parent1|destruct parent1].
Qed.

(** The trie between the merge of the node into its child [c] and the walk of
    [empty]: the parent above [c], and the node [x] the walk finds. *)
Lemma compacted_pieces c :
  compact tt (set_item None node) = (tt, Some c) ->
  let parent1 := set_children (<[i := c]> (children parent)) parent in
  let m := snd (compact tt parent1) in
  let x := default c m in
  removed node (b :: q) c /\ wf x /\ pbytes x <> [] /\ (live parent -> has_item x) /\
  (m <> None -> removed parent (pbytes parent ++ b :: q) x).
Proof.
  intros Hc parent1 m x. set (node0 := set_item None node) in *.
  assert (Hrm : removed node (b :: q) node0) by (rewrite <- Hb; apply removed_item, node_wf).
  assert (Ec : c = compacted node0) by (unfold compacted; by rewrite Hc).
  assert (Hrc : removed node (b :: q) c) by (rewrite Ec; by apply removed_compacted).
  assert (Hbc : head (pbytes c) = Some b) by (apply Hrc; by rewrite Hb).
  pose proof (removed_in_parent c Hrc) as Hrp. pose proof (removed_wf _ _ _ Hrp) as Hwp.
  assert (Hitem : live parent -> has_item c).
  { intros Hl. apply (merged_has_item node0); [by eapply removed_wf| |done].
    pose proof (live_child _ _ _ Hl Hi) as Hln. clear -Hln. by destruct node. }
  split; [done|]. subst x. destruct m as [d|] eqn:Em; cbn [default from_option id].
  - assert (E : compact tt parent1 = (tt, Some d)) by (rewrite compact_pair; by f_equal).
    assert (Ed : d = compacted parent1) by (unfold compacted; by rewrite E).
    split; [rewrite Ed; by apply compacted_spec|]. split; [by eapply merged_nonempty|].
    split; [|intros _; rewrite Ed; by apply removed_compacted].
    intros Hl. rewrite Ed. apply has_item_compacted; [done|]. apply (has_item_child _ c); [done| |by apply Hitem].
    eapply list_elem_of_lookup_2. by eapply child_at_replaced.
  - split; [by eapply removed_wf|]. split; [by destruct (pbytes c)|]. done.
Qed.

(** The node is replaced by its only child.  The walk of [empty] finds nothing
    only when there is a dead end below the node; then the removal that
    follows may find no child and panic. *)
Lemma delete_child_compacted c :
  compact tt (set_item None node) = (tt, Some c) ->
  (exists parent', delete_child tt i parent = Ok (tt, parent') /\
     removed parent (pbytes parent ++ b :: q) parent') \/
  (delete_child tt i parent = Panic /\ ~ live parent).
Proof.
  intros Hc. destruct (compacted_pieces c Hc) as (Hrc & Hwx & Hnx & Hhx & Hmx).
  unfold delete_child. rewrite Hi. cbn [of_option exec_bind]. rewrite Hc.
  set (node0 := set_item None node) in *.
  assert (Hrm : removed node (b :: q) node0) by (rewrite <- Hb; apply removed_item, node_wf).
  assert (Hb0 : head (pbytes node0) = Some b) by (apply Hrm; by rewrite Hb).
  assert (Hbc : head (pbytes c) = Some b) by (apply Hrc; by rewrite Hb).
  unfold first. rewrite Hb0. cbn [of_option exec_bind].
  pose proof (removed_wf _ _ _ (removed_in_parent node0 Hrm)) as [Hs0 _]%wf_unfold.
  rewrite (replace_spec _ i node0 c b); [|done | by eapply child_at_replaced | done]. cbn [exec_bind].
  rewrite set_children_twice. set (parent1 := set_children (<[i := c]> (children parent)) parent) in *.
  rewrite (compact_pair parent1). set (m := snd (compact tt parent1)) in *. set (x := default c m) in *.
  destruct (empty_spec (set_children [x] node0)) as (node' & e & -> & Hr & He); [by apply wf_only_child|].
  cbn [exec_bind]. destruct (reorder_only_child x node0 node' Hr) as (x' & -> & Hrx & Hbn).
  cbn [head of_option exec_bind]. set (parent2 := match m with Some _ => x' | None => _ end).
  assert (Hp2 : removed parent (pbytes parent ++ b :: q) parent2).
  { unfold parent2, parent1. destruct m as [d|] eqn:Em.
    - by eapply removed_reorder; [apply Hmx|].
    - rewrite set_children_twice. apply removed_in_parent. by apply (removed_reorder _ _ c). }
  destruct e; [|left; by eexists].
  assert (Hdead : ~ has_item x').
  { intros Hh. apply He, (has_item_child _ x); [by apply wf_only_child | left|].
    by apply (has_item_reorder x x'). }
  pose proof (removed_wf _ _ _ Hp2) as Hw2.
  assert (Hb' : head (pbytes node') = Some b) by (by rewrite Hbn).
  assert (Hall : forall j d, children parent2 !! j = Some d -> head (pbytes d) = Some b -> ~ has_item d).
  { intros j d Hj Hd Hh. apply Hdead. unfold parent2 in *. destruct m as [y|].
    - apply (has_item_child x' d); [done | by eapply list_elem_of_lookup_2 | done].
    - assert (Hi2 : children (set_children (<[i := x']> (children parent1)) parent1) !! i = Some x').
      { eapply child_at_replaced. by eapply child_at_replaced. }
      apply wf_unfold in Hw2 as [Hs2 _].
      assert (j = i) as -> by (apply (siblings_inj _ _ _ d x' Hs2 Hj Hi2); by rewrite Hd, (reorder_bytes x x')).
      congruence. }
  destruct (remove_any (children parent2) node' b) as [(j & d & Hj & Hd & ->) | [-> Hnone]];
    [by apply wf_unfold in Hw2 as [? _] | done | |]; cbn [exec_bind].
  - left. eexists. split; [done|].
    destruct (drop_dead_child parent2 j d Hw2 Hj (Hall j d Hj Hd)) as (Hw & Hm & _).
    by apply (removed_same _ _ parent2); [..|destruct parent2|destruct parent2].
  - right. split; [done|]. intros Hl. apply He, (has_item_child _ x); [by apply wf_only_child | left | by apply Hhx].
Qed.
End Child.

Lemma delete_child_spec parent i node v :
  wf parent -> children parent !! i = Some node -> Item_ node = Some v ->
  (exists parent', delete_child tt i parent = Ok (tt, parent') /\
     removed parent (pbytes parent ++ pbytes node) parent') \/
  (delete_child tt i parent = Panic /\ ~ live parent).
Proof.
  intros Hwf Hi Hv. pose proof Hwf as [Hs _]%wf_unfold.
  destruct (siblings_nonempty _ node Hs) as (b & q & Hb); [by eapply list_elem_of_lookup_2|]. rewrite Hb.
  destruct (snd (compact tt (set_item None node))) as [c|] eqn:E.
  - apply (delete_child_compacted parent i node b q) with c; try done. by rewrite compact_pair, E.
  - left. apply (delete_child_kept parent i node b q); try done. by rewrite compact_pair, E.
Qed.

(** ** The node a search stops at *)

Lemma node_at_snoc pos i t :
  node_at (pos ++ [i]) t = match node_at pos t with Some p => children p !! i | None => None end.
Proof.
  revert t. induction pos as [|j pos IH]; intros t; cbn; [by case_match|].
  destruct (children t !! j); [apply IH | done].
Qed.

Lemma node_at_wf pos t node : wf t -> node_at pos t = Some node -> wf node.
Proof.
  revert t. induction pos as [|j pos IH]; intros t Hwf E; cbn in E; [by injection E as <-|].
  destruct (children t !! j) as [c|] eqn:Ej; [|done]. apply (IH c); [|done].
  apply wf_unfold in Hwf as [_ Hall]. rewrite Forall_forall in Hall. apply Hall. by eapply list_elem_of_lookup_2.
Qed.

Lemma node_at_live pos t node : live t -> node_at pos t = Some node -> live node.
Proof.
  revert t. induction pos as [|j pos IH]; intros t Hl E; cbn in E; [by injection E as <-|].
  destruct (children t !! j) as [c|] eqn:Ej; [|done]. apply (IH c); [|done]. by eapply live_child.
Qed.

Lemma path_to_snoc pos i t p c :
  node_at pos t = Some p -> children p !! i = Some c ->
  path_to (pos ++ [i]) t = path_to pos t ++ pbytes c.
Proof.
  revert t. induction pos as [|j pos IH]; intros t Hp Hc; cbn in Hp |- *.
  - injection Hp as ->. by rewrite Hc, !app_nil_r.
  - destruct (children t !! j) as [d|]; [|done]. by rewrite (IH d), app_assoc.
Qed.

(** The keys that go through a node are below it. *)
Lemma den_path_app pos t node r :
  wf t -> node_at pos t = Some node ->
  den t (path_to pos t ++ r) = match r with [] => Item_ node | _ => den_children (children node) r end.
Proof.
  revert t. induction pos as [|j pos IH]; intros t Hwf E; cbn in E |- *.
  - injection E as ->. by rewrite app_nil_r, den_app.
  - destruct (children t !! j) as [c|] eqn:Ej; [|done]. pose proof Hwf as [Hs Hall]%wf_unfold.
    pose proof (list_elem_of_lookup_2 _ _ _ Ej) as Hc.
    destruct (siblings_nonempty _ c Hs Hc) as (b & p & Eb).
    rewrite <- app_assoc, den_app. rewrite Forall_forall in Hall. specialize (IH c (Hall c Hc) E).
    assert (exists r', path_to pos c ++ r = b :: r') as [r' Er]
      by (destruct pos; cbn; rewrite Eb; cbn; eauto).
    rewrite Er in *. by rewrite (den_children_at _ c) by (done || by rewrite Eb).
Qed.

Lemma den_path pos t node : wf t -> node_at pos t = Some node -> den t (path_to pos t) = Item_ node.
Proof. intros. rewrite <- (app_nil_r (path_to pos t)). by rewrite (den_path_app pos t node). Qed.

(** Removing an item at a node below [t]. *)
Lemma at_node_removed f pos t p p' r :
  wf t -> node_at pos t = Some p -> f p = Ok (tt, p') -> removed p (pbytes p ++ r) p' ->
  exists t', at_node f pos t = Ok (tt, t') /\ removed t (path_to pos t ++ r) t'.
Proof.
  intros Hwf Hp Hf Hrm. revert t Hwf Hp. induction pos as [|i pos IH]; intros t Hwf Hp; cbn in Hp |- *.
  - injection Hp as ->. exists p'. by rewrite app_nil_r.
  - destruct (children t !! i) as [c|] eqn:Ei; [|done]. cbn [of_option exec_bind].
    pose proof Hwf as [Hs Hall]%wf_unfold. pose proof (list_elem_of_lookup_2 _ _ _ Ei) as Hc.
    destruct (siblings_nonempty _ c Hs Hc) as (b & q & Eb). rewrite Forall_forall in Hall.
    destruct (IH c (Hall c Hc) Hp) as (c' & -> & Hrc). cbn [exec_bind]. eexists. split; [done|].
    assert (exists r', path_to pos c ++ r = b :: r') as [r' Er]
      by (destruct pos; cbn; rewrite Eb; cbn; eauto).
    rewrite <- app_assoc, Er in *. by apply (removed_child t i c); rewrite ?Eb.
Qed.

Lemma at_node_panic f pos t p :
  node_at pos t = Some p -> f p = Panic -> at_node f pos t = (Panic : exec (unit * VTrie Item)).
Proof.
  intros Hp Hf. revert t Hp. induction pos as [|i pos IH]; intros t Hp; cbn in Hp |- *; [congruence|].
  destruct (children t !! i) as [c|]; [|done]. cbn [of_option exec_bind]. by rewrite IH.
Qed.

Lemma delete_node_spec t pos node v :
  wf_root t -> prefix t <> None -> node_at pos t = Some node -> Item_ node = Some v ->
  let m := match last pos with
           | None => delete_root tt t
           | Some i => at_node (delete_child tt i) (removelast pos) t
           end in
  (exists t', m = Ok (tt, t') /\ wf_root t' /\ point_update (path_to pos t) None t t') \/
  (m = Panic /\ ~ live t).
Proof.
  intros [Hwf _] Hp Hn Hv. destruct pos as [|i pos _] using rev_ind; cbn zeta.
  - left. cbn in Hn. injection Hn as ->. destruct (delete_root_spec node v) as (t' & E & Hw & Hm & _); [done..|].
    exists t'. cbn. rewrite app_nil_r. done.
  - rewrite last_snoc, removelast_last. rewrite node_at_snoc in Hn.
    destruct (node_at pos t) as [p|] eqn:Ep; [|done].
    destruct (delete_child_spec p i node v) as [(p' & E & Hrm) | [E Hdead]];
      [by eapply node_at_wf | done | done | |].
    + left. destruct (at_node_removed _ pos t p p' _ Hwf Ep E Hrm) as (t' & Et & [[Hw Hm _] _ Hp']).
      exists t'. split; [done|]. split; [split; [done | intros E'; by destruct (Hp' Hp)]|].
      by rewrite (path_to_snoc pos i t p node).
    + right. split; [by eapply at_node_panic|]. intros Hl. apply Hdead. by eapply node_at_live.
Qed.

(** ** [Delete] *)

(** What [Delete] may do: refuse a key that is not stored, remove the item of
    the key or of a proper prefix of a key that is not stored, or panic on a
    trie with a dead end. *)
Inductive delete_outcome t k : exec (unit * VTrie Item * bool) -> Prop :=
| delete_refused : den t k = None -> delete_outcome t k (Ok (tt, t, false))
| delete_removed k0 r t' :
    k = k0 ++ r -> den t k0 <> None -> (r <> [] -> den t k = None) ->
    wf_root t' -> point_update k0 None t t' -> delete_outcome t k (Ok (tt, t', true))
| delete_panic : ~ live t -> delete_outcome t k Panic.

Lemma wf_root_nil t k : wf_root t -> prefix t = None -> den t k = None.
Proof.
  intros [_ Hnil] Hp. destruct (Hnil Hp) as [Hi Hc]. destruct t as [q i cs]. cbn in Hp, Hi, Hc. subst.
  by destruct k.
Qed.

(** The end of [Delete], once the search has stopped at a node. *)
Lemma delete_at t k pos node r :
  wf_root t -> prefix t <> None -> node_at pos t = Some node -> k = path_to pos t ++ r ->
  (r <> [] -> den t k = None) ->
  delete_outcome t k
    (match Item_ node with
     | None => Ok (tt, t, false)
     | Some _ =>
         let! (h, t) := match last pos with
                        | None => delete_root tt t
                        | Some i => at_node (delete_child tt i) (removelast pos) t
                        end in
         Ok (h, t, true)
     end).
Proof.
  intros Hwr Hp Hn Hk Hr. pose proof Hwr as [Hwf _].
  pose proof (den_path pos t node Hwf Hn) as Hd. destruct (Item_ node) as [v|] eqn:Ei.
  - destruct (delete_node_spec t pos node v Hwr Hp Hn Ei) as [(t' & -> & Hw & Hm) | [-> Hdead]]; cbn [exec_bind].
    + apply (delete_removed t k (path_to pos t) r); [done | congruence | done..].
    + by apply delete_panic.
  - apply delete_refused. destruct r as [|b r]; [|by apply Hr]. subst k. by rewrite app_nil_r.
Qed.

Lemma Delete_spec t k : wf_root t -> delete_outcome t k (Delete tt t (Some k)).
Proof.
  intros Hwr. pose proof Hwr as [Hwf _]. unfold Delete. destruct (prefix t) as [p|] eqn:Ep.
  2: { apply delete_refused. by apply wf_root_nil. }
  cbn [rd value_slices]. destruct (findSubtree_spec t k Hwf) as (pos & found & leftover & -> & Hend).
  cbn [exec_bind]. destruct Hend as [pos node leftover Hn Hk Hd | pos node x leftover Hn Hd | pos node b r Hn Hk Hb Hd].
  - destruct leftover as [|x leftover]; cbn [length Nat.eqb negb] in *; [|by apply delete_refused].
    rewrite Hn. cbn [of_option exec_bind]. apply (delete_at t k pos node []); [done | congruence | done | | done].
    by rewrite <- Hk, !app_nil_r.
  - cbn. by apply delete_refused.
  - cbn [length Nat.eqb negb]. rewrite Hn. cbn [of_option exec_bind].
    apply (delete_at t k pos node (b :: r)); [done | congruence | done..].
Qed.

(** A stored key is deleted. *)
Lemma Delete_stored t k v :
  wf_root t -> live t -> den t k = Some v ->
  exists t', Delete tt t (Some k) = Ok (tt, t', true) /\ wf_root t' /\ point_update k None t t'.
Proof.
  intros Hwr Hl Hv. destruct (Delete_spec t k Hwr) as [Hn | k0 r t' Hk Hk0 Hr Hw Hm | Hdead]; [congruence| |done].
  exists t'. split; [done|]. split; [done|]. destruct r as [|b r]; [|rewrite Hr in Hv; done].
  rewrite app_nil_r in Hk. by subst k0.
Qed.

(** A key that is not stored, and is not below a stored key that ends at a
    node without a child for it, is refused. *)
Lemma Delete_absent t k :
  wf_root t -> den t k = None ->
  (forall k0 b r, k = k0 ++ b :: r -> den t k0 <> None -> exists k1, den t (k0 ++ b :: k1) <> None) ->
  Delete tt t (Some k) = Ok (tt, t, false).
Proof.
  intros [Hwf _] Hv Hno. unfold Delete. destruct (prefix t) as [p|]; [|done].
  cbn [rd value_slices]. destruct (findSubtree_spec t k Hwf) as (pos & found & leftover & -> & Hend).
  cbn [exec_bind]. destruct Hend as [pos node leftover Hn Hk Hd | pos node x leftover Hn Hd | pos node b r Hn Hk Hb Hd].
  - destruct leftover as [|x leftover]; [|done]. cbn in *. rewrite Hn. cbn. by rewrite <- Hd, Hv.
  - done.
  - cbn. rewrite Hn. cbn. destruct (Item_ node) as [v|] eqn:Ei; [|done].
    destruct (Hno _ _ _ Hk) as [k1 Hk1]; [by rewrite (den_path pos t node), Ei|]. destruct Hk1.
    rewrite (den_path_app pos t node) by done. apply den_children_none; [|done].
    by apply wf_unfold, (node_at_wf pos t node).
Qed.

Lemma common_length_app (p a : list Z) : common_length (p ++ a) p = length p.
Proof. induction p as [|x p IH]; cbn; [by destruct a|]. by rewrite Z.eqb_refl, IH. Qed.

(** A key below a stored key, in a direction in which nothing is stored: the
    search stops at the node of the stored key. *)
Lemma find_above fuel t k0 b r v :
  wf t -> live t -> den t k0 = Some v -> (forall k1, den t (k0 ++ b :: k1) = None) ->
  turns t (k0 ++ b :: r) <= fuel ->
  exists pos node, find_loop fuel tt t (k0 ++ b :: r) = Ok (pos, false, []) /\
    node_at pos t = Some node /\ path_to pos t = k0 /\ Item_ node = Some v.
Proof.
  revert t k0. induction fuel as [|fuel IH]; intros t k0 Hwf Hl Hv Hno Hfuel.
  { unfold turns in Hfuel. rewrite length_app in Hfuel. cbn in Hfuel. lia. }
  destruct (strip (pbytes t) k0) as [r0|] eqn:E0; [|by rewrite den_unfold, E0 in Hv].
  apply strip_Some in E0. subst k0. pose proof Hwf as [Hs Hall]%wf_unfold. rewrite Forall_forall in Hall.
  cbn [find_loop]. unfold longestCommonPrefixLength.
  rewrite <- app_assoc, common_length_app, drop_app_length, Nat.ltb_irrefl. rewrite den_app in Hv.
  destruct r0 as [|b0 r0]; cbn [app].
  - destruct (next_spec (children t) b Hs) as [[-> _] | (i & c & -> & Hi & Hb)]; cbn [exec_bind].
    + exists [], t. split; [done|]. split; [done|]. split; [done|]. done.
    + exfalso. pose proof (list_elem_of_lookup_2 _ _ _ Hi) as Hc.
      apply live_unfold in Hl. rewrite Forall_forall in Hl. destruct (Hl c Hc) as [(k & w & Hk) _].
      destruct (strip (pbytes c) k) as [r'|] eqn:E; [|by rewrite den_unfold, E in Hk]. apply strip_Some in E. subst k.
      destruct (pbytes c) as [|b' p] eqn:Ep; [done|]. cbn in Hb. injection Hb as ->.
      specialize (Hno (p ++ r')). rewrite <- app_assoc, den_app in Hno. cbn in Hno.
      rewrite (den_children_at _ c) in Hno by (done || by rewrite Ep). cbn in Hk. congruence.
  - destruct (next_spec (children t) b0 Hs) as [[_ Hn] | (i & c & -> & Hi & Hb)]; cbn [exec_bind].
    { by rewrite den_children_none in Hv. }
    pose proof (list_elem_of_lookup_2 _ _ _ Hi) as Hc.
    rewrite (den_children_at _ c) in Hv by done.
    destruct (IH c (b0 :: r0)) as (pos & node & E & Hn & Hp & Hit);
      [by apply Hall | by eapply live_child | done | | |].
    + intros k1. specialize (Hno k1). rewrite <- app_assoc, den_app in Hno. cbn in Hno |- *.
      by rewrite (den_children_at _ c) in Hno.
    + rewrite <- app_assoc in Hfuel. by eapply turns_child.
    + cbn in E. rewrite E. cbn [exec_bind]. exists (i :: pos), node. cbn. rewrite Hi.
      split; [done|]. split; [done|]. split; [by rewrite Hp | done].
Qed.

(** Deleting a key that is not stored removes the longest key above it, when
    nothing is stored beyond that key in its direction. *)
Lemma Delete_above t k0 b r v :
  wf_root t -> live t -> den t k0 = Some v -> (forall k1, den t (k0 ++ b :: k1) = None) ->
  exists t', Delete tt t (Some (k0 ++ b :: r)) = Ok (tt, t', true) /\ wf_root t' /\ point_update k0 None t t'.
Proof.
  intros Hwr Hl Hv Hno. pose proof Hwr as [Hwf Hnil]. unfold Delete. destruct (prefix t) as [p|] eqn:Ep.
  2: { destruct (Hnil eq_refl) as [Hi Hc]. destruct t as [q i cs]. cbn in Ep, Hi, Hc. subst. by destruct k0. }
  cbn [rd value_slices]. unfold findSubtree.
  destruct (find_above (S (length (k0 ++ b :: r))) t k0 b r v) as (pos & node & -> & Hn & <- & Hit); [done..| |].
  { unfold turns. case_match; lia. }
  cbn [exec_bind length Nat.eqb negb]. rewrite Hn. cbn [of_option exec_bind]. rewrite Hit.
  destruct (delete_node_spec t pos node v) as [(t' & E & Hw & Hm) | [_ Hdead]]; [done | congruence | done..| |done].
  exists t'. by rewrite E.
Qed.
End Deletion.
