(* ===== verification/PatriciaLongest.v ===== *)
(** * The longest-prefix lookup of the Patricia trie

    [GetLongestPrefixNode] follows the key as long as nodes match it and keeps
    the longest stored key it passed.  Where no child matches it goes on with
    the child of the next smaller octet, and returns the item of a node that
    has exactly as many octets left as the key and none of them larger.  So it
    returns the item of the longest stored prefix when every stored key is
    shorter than the one looked up, and may return another item, or nil,
    otherwise. *)

From S2P Require Import Prelude PatriciaDB.
From stdpp Require Import sorting.
From S2P Require Import PatriciaDB PatriciaMap PatriciaWalk PatriciaDelete.

Open Scope nat_scope.

Section Longest.
Context {Item : Type}.
Implicit Types (t c root : VTrie Item) (cs : list (VTrie Item)) (k q : list Z).

Notation pbytes := (bytes (S := unit) (P := list Z) (Item := Item) tt).

(** [r] is the item of the longest stored prefix of [q], or nil when none is
    stored. *)
Definition longest t q (r : option Item) : Prop :=
  (r = None /\ forall m, m <= length q -> den t (take m q) = None) \/
  (exists n, n <= length q /\ r <> None /\ den t (take n q) = r /\
     forall m, n < m <= length q -> den t (take m q) = None).

(** ** The child to go on with *)

Lemma next_longest_acc cs b acc :
  siblings cs -> Some b ∉ firsts cs ->
  exists o, nextWithLongestPrefixMatch tt b acc cs = (o, false) /\ forall c, o = Some c -> c ∈ cs \/ acc = Some c.
Proof.
  revert acc. induction cs as [|c cs IH]; intros acc Hs Hn; [exists acc; by auto|].
  apply siblings_cons in Hs as ((b' & p & Ep) & _ & Hs).
  assert (Hn' : Some b ∉ firsts cs) by (intros H; apply Hn; by right).
  assert (Hne : b' <> b).
  { intros ->. apply Hn. change (Some b) with (head (b :: p)). rewrite <- Ep. left. }
  assert (Hthere : forall acc', acc' = acc \/ acc' = Some c ->
    exists o, nextWithLongestPrefixMatch tt b acc' cs = (o, false) /\
      forall d, o = Some d -> d ∈ c :: cs \/ acc = Some d).
  { intros acc' Hacc. destruct (IH acc' Hs Hn') as (o & -> & Ho). exists o. split; [done|].
    intros d Hd. destruct (Ho d Hd) as [?|Ed]; [left; by right|].
    destruct Hacc as [-> | ->]; [by right|]. injection Ed as ->. left. left. }
  cbn. rewrite Ep. cbn. rewrite (proj2 (Z.eqb_neq b' b)) by done.
  repeat case_match; apply Hthere; auto.
Qed.

Lemma next_longest_none cs b :
  siblings cs -> Some b ∉ firsts cs ->
  forall c, fst (nextWithLongestPrefixMatch tt b None cs) = Some c -> c ∈ cs.
Proof.
  intros Hs Hn c. destruct (next_longest_acc cs b None Hs Hn) as (o & -> & Ho). cbn. intros E.
  by destruct (Ho c E).
Qed.

Lemma next_longest_exact cs b c acc :
  siblings cs -> c ∈ cs -> head (pbytes c) = Some b ->
  nextWithLongestPrefixMatch tt b acc cs = (Some c, true).
Proof.
  revert acc. induction cs as [|d cs IH]; intros acc Hs Hc Hb; [by apply elem_of_nil in Hc|].
  pose proof Hs as ((b' & p & Ep) & Hn & Hs')%siblings_cons. cbn. rewrite Ep. cbn.
  apply elem_of_cons in Hc as [<-|Hc].
  - rewrite Ep in Hb. cbn in Hb. injection Hb as ->. by rewrite Z.eqb_refl.
  - rewrite (proj2 (Z.eqb_neq b' b)).
    + repeat case_match; by apply IH.
    + intros ->. apply Hn. rewrite Ep. cbn. rewrite <- Hb. by apply firsts_elem.
Qed.

(** ** The loop *)

Section Query.
Variables (t : VTrie Item) (q : list Z).
Hypothesis Hwf : wf t.

(** [last] is the longest stored prefix of length up to [n]; 0 stands for
    none as well. *)
Record best (n last : nat) : Prop := {
  best_le : last <= n;
  best_stored : last = 0 \/ den t (take last q) <> None;
  best_none : forall m, last < m <= n -> den t (take m q) = None
}.

(** What the loop may answer: the longest prefix, or the item of a node whose
    path is no shorter than the key, when the key is not stored. *)
Definition loop_result (r : option Item + nat) : Prop :=
  match r with
  | inr last => best (length q) last
  | inl item => den t q = None /\ exists pos node,
      node_at pos t = Some node /\ item = Item_ node /\ length q <= length (path_to pos t)
  end.

Lemma best_step n n' last :
  best n last -> n <= n' <= length q ->
  (forall m, n < m < n' -> den t (take m q) = None) ->
  best n' (match den t (take n' q) with Some _ => n' | None => last end).
Proof.
  intros [Hle Hst Hno] Hn Hmid. destruct (den t (take n' q)) as [v|] eqn:E.
  - split; [lia | right; congruence | lia].
  - split; [lia | done|]. intros m Hm. destruct (decide (m = n')) as [->|]; [done|].
    destruct (decide (m <= n)); [apply Hno; lia | apply Hmid; lia].
Qed.

(** Once nothing longer can be stored, a further lookup changes nothing. *)
Lemma best_stays n last :
  best (length q) last -> last <= n -> n <= length q ->
  match den t (take n q) with Some _ => n | None => last end = last.
Proof.
  intros [Hle Hst Hno] Hn Hq. destruct (den t (take n q)) eqn:E; [|done].
  destruct (decide (n = last)) as [|Hne]; [done|]. rewrite Hno in E by lia. done.
Qed.

Lemma best_extend n last :
  best n last -> n <= length q -> (forall m, n < m <= length q -> den t (take m q) = None) ->
  best (length q) last.
Proof.
  intros [Hle Hst Hno] Hn Hrest. split; [lia | done|]. intros m Hm.
  destruct (decide (m <= n)); [apply Hno | apply Hrest]; lia.
Qed.

Lemma best_unstored last n : best (length q) last -> last <= n < length q -> den t q = None.
Proof.
  intros [_ _ Hno] Hn. specialize (Hno (length q)). rewrite take_ge in Hno by done. apply Hno. lia.
Qed.

Lemma next_longest_in cs b c :
  siblings cs -> fst (nextWithLongestPrefixMatch tt b None cs) = Some c -> c ∈ cs.
Proof.
  intros Hs. destruct (decide (Some b ∈ firsts cs)) as [Hin|Hnin]; [|by apply next_longest_none].
  apply list_elem_of_fmap in Hin as (d & Hd & Hin). rewrite (next_longest_exact cs b d) by done.
  cbn. intros [= ->]. done.
Qed.

(** The last two thirds of a turn, after the lookup: what is left of the key
    does not match the prefix, or there is no child to go on with. *)
Lemma loose_turn pos root (l p' key' : list Z) n last descend :
  best (length q) last -> last <= n + length l -> n + length l + length key' = length q ->
  node_at pos t = Some root -> pbytes root = l ++ p' ->
  n + length (pbytes root) <= length (path_to pos t) -> key' <> [] ->
  (exists r : option Item + nat, descend = Ok r /\ loop_result r) ->
  exists r,
    (if length l <? length (pbytes root) then
       if (length l =? 0) && (n + length l =? 0) then Ok (inr last) else
       if negb (length (drop (n + length l) q) =? length (drop (length l) (pbytes root))) then Ok (inr last)
       else if none_above (drop (length l) (pbytes root)) (drop (n + length l) q) then Ok (inl (Item_ root))
       else descend
     else descend) = Ok r /\ loop_result r.
Proof.
  intros Hb Hn Hq Hnode Ep Hpath Hk Hd.
  destruct (length l <? length (pbytes root)) eqn:El; [|done]. apply Nat.ltb_lt in El.
  destruct (_ && _); [by exists (inr last)|].
  destruct (Nat.eqb_spec (length (drop (n + length l) q)) (length (drop (length l) (pbytes root)))) as [E|E];
    cbn [negb]; [|by exists (inr last)].
  destruct (none_above _ _); [|done]. exists (inl (Item_ root)). split; [done|].
  rewrite !length_drop in E. destruct key' as [|b key']; [done|]. cbn in Hq.
  split; [apply (best_unstored last (n + length l)); [done | lia]|].
  exists pos, root. split; [done|]. split; [done|]. lia.
Qed.

Lemma child_pos pos root c :
  node_at pos t = Some root -> c ∈ children root ->
  exists i, node_at (pos ++ [i]) t = Some c /\ path_to (pos ++ [i]) t = path_to pos t ++ pbytes c.
Proof.
  intros Hn [i Hi]%list_elem_of_lookup. exists i. split; [by rewrite node_at_snoc, Hn|].
  by apply path_to_snoc with root.
Qed.

(** After the search left the key, the longest prefix is known. *)
Lemma loose_loop fuel pos root key n last :
  best (length q) last -> last <= n -> n + length key = length q ->
  node_at pos t = Some root -> n + length (pbytes root) <= length (path_to pos t) ->
  height root <= fuel ->
  exists r, longest_loop fuel tt t q root key n last = Ok r /\ loop_result r.
Proof.
  revert pos root key n last. induction fuel as [|fuel IH]; intros pos root key n last Hb Hn Hq Hnode Hpath Hh.
  { pose proof (height_pos root). lia. }
  cbn [longest_loop]. destruct (length key <? length (pbytes root)); [by exists (inr last)|].
  unfold longestCommonPrefixLength.
  destruct (common_spec key (pbytes root)) as (l & key' & p' & Ek & Ep & -> & _).
  rewrite Get_den by done. cbn [exec_bind]. rewrite Ek, length_app in Hq.
  rewrite best_stays by (done || lia). rewrite Ek, drop_app_length.
  destruct key' as [|b key']; [by exists (inr last)|].
  apply (loose_turn pos root l p' (b :: key')); try done; [lia | lia|].
  destruct (fst _) as [c|] eqn:Ec; [|by exists (inr last)].
  pose proof (node_at_wf pos t root Hwf Hnode) as [Hs _]%wf_unfold.
  apply next_longest_in in Ec; [|done].
  destruct (child_pos pos root c Hnode Ec) as (i & Hc & Hpc).
  apply (IH (pos ++ [i])); [done | lia | cbn in *; lia | done | |].
  - rewrite Hpc, length_app. rewrite Ep, length_app in Hpath. lia.
  - pose proof (height_child root c Ec). lia.
Qed.

(** The search is at [root] and has followed the octets [a] of the key. *)
Definition followed (root : VTrie Item) (a key : list Z) : Prop :=
  q = a ++ key /\ forall r, r <> [] -> head r = head key -> den t (a ++ r) = den root r.

(** The prefixes of [q] that end inside [key] are looked up at [root]. *)
Lemma followed_take root a key m :
  followed root a key -> length a < m <= length q -> den t (take m q) = den root (take (m - length a) key).
Proof.
  intros [Eq Hf] Hm. assert (Hq : length q = length a + length key) by (rewrite Eq, length_app; lia).
  rewrite Eq, take_app_ge by lia. apply Hf.
  - intros E. apply (f_equal length) in E. rewrite length_take in E. cbn in E. lia.
  - destruct key as [|x key]; [cbn in *; lia|]. by destruct (m - length a) eqn:Em; [lia|].
Qed.

(** What is shorter than the prefix of the node is not stored below it. *)
Lemma followed_short root a key m :
  followed root a key -> length a < m <= length q -> m < length a + length (pbytes root) -> den t (take m q) = None.
Proof.
  intros Hf Hm Hs. rewrite (followed_take root a key) by done. apply den_miss. intros r' E.
  apply (f_equal length) in E. rewrite length_take, length_app in E. lia.
Qed.

(** When the search leaves the key at [root], nothing longer is stored. *)
Lemma followed_leave pos root a l b key' p' m :
  followed root a (l ++ b :: key') -> node_at pos t = Some root -> pbytes root = l ++ p' ->
  (forall x k y p, b :: key' = x :: k -> p' = y :: p -> x <> y) ->
  (p' <> [] \/ Some b ∉ firsts (children root)) -> length a + length l < m <= length q -> den t (take m q) = None.
Proof.
  intros Hf Hnode Ep Hdiff Hor Hm. rewrite (followed_take root a _ m Hf) by lia.
  rewrite take_app_ge by lia. rewrite den_unfold, Ep, strip_app_l, strip_app.
  assert (exists r', take (m - length a - length l) (b :: key') = b :: r') as [r' ->].
  { destruct (m - length a - length l) eqn:Em; [lia|]. by eexists. }
  destruct p' as [|x p'].
  - destruct Hor as [?|Hor]; [done|]. cbn.
    pose proof (node_at_wf pos t root Hwf Hnode) as [Hs _]%wf_unfold. by apply den_children_none.
  - cbn. destruct (Z.eqb_spec x b) as [->|]; [|done]. exfalso. by apply (Hdiff b key' b p').
Qed.

(** The key goes on below an exact child. *)
Lemma followed_child root a l b key' c :
  followed root a (l ++ b :: key') -> wf root -> pbytes root = l -> c ∈ children root -> head (pbytes c) = Some b ->
  followed c (a ++ l) (b :: key').
Proof.
  intros [Eq Hf] [Hs _]%wf_unfold Ep Hin Hc. split; [by rewrite <- app_assoc|].
  intros r Hne Hr. destruct r as [|b' r]; [done|]. cbn in Hr. injection Hr as ->. rewrite <- app_assoc, Hf.
  - rewrite <- Ep, den_app. by apply den_children_at.
  - by destruct l.
  - by destruct l.
Qed.

(** While the search follows the key. *)
Lemma exact_loop fuel pos root a key last :
  followed root a key -> best (length a) last ->
  node_at pos t = Some root -> length (path_to pos t) = length a + length (pbytes root) ->
  height root <= fuel ->
  exists r, longest_loop fuel tt t q root key (length a) last = Ok r /\ loop_result r.
Proof.
  revert pos root a key last. induction fuel as [|fuel IH]; intros pos root a key last Hf Hb Hnode Hpath Hh.
  { pose proof (height_pos root). lia. }
  assert (Hq : length q = length a + length key) by (destruct Hf as [-> _]; rewrite length_app; lia).
  cbn [longest_loop]. destruct (Nat.ltb_spec (length key) (length (pbytes root))) as [Hlt|Hge].
  { exists (inr last). split; [done|]. apply (best_extend (length a)); [done | lia|].
    intros m Hm. apply (followed_short root a key); [done | done | lia]. }
  unfold longestCommonPrefixLength.
  destruct (common_spec key (pbytes root)) as (l & key' & p' & Ek & Ep & -> & Hdiff).
  rewrite Get_den by done. cbn [exec_bind].
  assert (Hb' : best (length a + length l)
    (match den t (take (length a + length l) q) with Some _ => length a + length l | None => last end)).
  { apply (best_step (length a)); [done | rewrite Hq, Ek, length_app; lia|]. intros m Hm.
    apply (followed_short root a key); [done | rewrite Hq, Ek, length_app; lia | rewrite Ep, length_app; lia]. }
  set (last' := match den t _ with Some _ => _ | None => _ end) in *.
  rewrite Ek, drop_app_length. rewrite Ek, length_app in Hq. rewrite Ek in Hf.
  destruct key' as [|b key'].
  { exists (inr last'). split; [done|]. cbn. cbn in Hq. by replace (length q) with (length a + length l) by lia. }
  pose proof (node_at_wf pos t root Hwf Hnode) as Hwr. pose proof Hwr as [Hs _]%wf_unfold.
  destruct (decide (p' = [] /\ Some b ∈ firsts (children root))) as [[-> Hin]|Hor].
  - rewrite app_nil_r in Ep. rewrite Ep, Nat.ltb_irrefl.
    apply list_elem_of_fmap in Hin as (c & Hc & Hin).
    rewrite (next_longest_exact _ b c) by done. cbn [fst].
    destruct (child_pos pos root c Hnode Hin) as (i & Hci & Hpc).
    replace (length a + length l) with (length (a ++ l)) in * by (by rewrite length_app).
    apply (IH (pos ++ [i])); [by apply (followed_child root) | done | done | |].
    + rewrite Hpc, !length_app, Hpath, Ep. lia.
    + pose proof (height_child root c Hin). lia.
  - assert (Hbq : best (length q) last').
    { apply (best_extend (length a + length l)); [done | lia|]. intros m Hm.
      apply (followed_leave pos root a l b key' p'); try done.
      destruct (decide (p' = [])); [right | by left]. naive_solver. }
    destruct Hb' as [Hle _ _].
    apply (loose_turn pos root l p' (b :: key')); try done; [lia | by rewrite Hpath|].
    destruct (fst _) as [c|] eqn:Ec; [|by exists (inr last')].
    apply next_longest_in in Ec; [|done].
    destruct (child_pos pos root c Hnode Ec) as (i & Hci & Hpc).
    apply (loose_loop fuel (pos ++ [i])); [done | done | lia | done | |].
    + rewrite Hpc, length_app, Hpath, Ep, length_app. lia.
    + pose proof (height_child root c Ec). lia.
Qed.

(** The lookup returns, and returns the item of the longest stored prefix or,
    when the key itself is not stored, possibly the item of a node whose path
    is not shorter than the key. *)
Lemma longest_spec :
  exists r, GetLongestPrefixNode tt t q = Ok r /\
    (longest t q r \/
     (den t q = None /\ exists pos node,
        node_at pos t = Some node /\ r = Item_ node /\ length q <= length (path_to pos t))).
Proof.
  unfold GetLongestPrefixNode.
  destruct (exact_loop (height t) [] t [] q 0) as (r & E & Hr); [done | split; [done | by left | cbn; lia] | done | | done|].
  { cbn. by rewrite app_nil_r. }
  cbn [length] in E. rewrite E. cbn [exec_bind]. clear E. destruct r as [item|last].
  - exists item. split; [done|]. by right.
  - rewrite Get_den by done. eexists. split; [done|]. left. destruct Hr as [Hle Hst Hno].
    destruct (den t (take last q)) as [v|] eqn:E.
    + right. exists last. rewrite E. done.
    + left. split; [done|]. destruct Hst as [->|?]; [|done]. intros m Hm.
      destruct (decide (m = 0)) as [->|]; [done|]. apply Hno. lia.
Qed.
End Query.
End Longest.
