(* ===== verification/PatriciaAlias.v ===== *)
(** * Shared prefixes of the Patricia trie

    A prefix is a window on an array that other prefixes, and the caller's
    key, may share; [compact] appends to it in place.  [erase] reads a trie
    out of the heap.  [placed], in the next file, says where its prefixes lie: each array has an
    origin, the octets above it in the trie, and a prefix at offset [o] of an
    array is [o] octets below that origin and spells, with what precedes it in
    the array, the path to its node.  So whatever in-place append writes is
    already there for every other prefix of the array that reaches so far, and
    the operations on the heap compute what they compute on the octets. *)

From S2P Require Import Prelude PatriciaDB.
From stdpp Require Import sorting.
From S2P Require Import PatriciaDB PatriciaMap PatriciaWalk PatriciaDelete PatriciaLongest.

Open Scope nat_scope.

Notation GTrie Item := (Trie Slice Item).

Section Erase.
Context {Item : Type} `{Growth}.
Implicit Types (h : Heap) (t c : GTrie Item) (cs : list (GTrie Item)).

Fixpoint erase h t : VTrie Item :=
  match t with mkTrie p i cs => mkTrie (slice_read h <$> p) i (map (erase h) cs) end.

Lemma GTrie_ind' (Q : GTrie Item -> Prop) :
  (forall p i cs, Forall Q cs -> Q (mkTrie p i cs)) -> forall t, Q t.
Proof.
  intros HQ. fix IH 1. intros [p i cs]. apply HQ. induction cs; constructor; auto.
Qed.

Lemma erase_prefix h t : prefix (erase h t) = slice_read h <$> prefix t.
Proof. by destruct t. Qed.
Lemma erase_item h t : Item_ (erase h t) = Item_ t.
Proof. by destruct t. Qed.
Lemma erase_children h t : children (erase h t) = map (erase h) (children t).
Proof. by destruct t. Qed.
Lemma erase_bytes h t : bytes tt (erase h t) = bytes h t.
Proof. by destruct t as [[]]. Qed.
Lemma erase_set_item h i t : erase h (set_item i t) = set_item i (erase h t).
Proof. by destruct t. Qed.
Lemma erase_set_children h cs t : erase h (set_children cs t) = set_children (map (erase h) cs) (erase h t).
Proof. by destruct t. Qed.

Lemma map_insert {A B} (f : A -> B) i x (l : list A) : map f (<[i := x]> l) = <[i := f x]> (map f l).
Proof. apply list_fmap_insert. Qed.

Lemma map_lookup {A B} (f : A -> B) i (l : list A) : map f l !! i = f <$> (l !! i).
Proof. apply list_lookup_fmap. Qed.

Lemma erase_height h t : height (erase h t) = height t.
Proof.
  induction t as [p i cs IH] using GTrie_ind'. cbn. do 2 f_equal. rewrite map_map.
  induction IH as [|c cs Hc _ IH]; cbn; [done|]. by rewrite Hc, IH.
Qed.

(** ** Reading *)

Lemma erase_first h c : first tt (erase h c) = first h c.
Proof. unfold first. by rewrite erase_bytes. Qed.

Lemma erase_next h b cs :
  next tt b (map (erase h) cs) = let! r := next h b cs in Ok (prod_map id (erase h) <$> r).
Proof.
  induction cs as [|c cs IH]; cbn; [done|]. rewrite erase_first. destruct (first h c) as [b'| |]; cbn; [|done..].
  destruct (b' =? b)%Z; [done|]. rewrite IH. destruct (next h b cs) as [[[]|]| |]; done.
Qed.

Lemma erase_find fuel h t k : find_loop fuel tt (erase h t) k = find_loop fuel h t k.
Proof.
  revert t k. induction fuel as [|fuel IH]; intros t k; cbn [find_loop]; [done|].
  unfold longestCommonPrefixLength. rewrite erase_bytes, erase_children.
  destruct (drop _ k) as [|b r]; [done|]. case_match; [done|]. rewrite erase_next.
  destruct (next h b (children t)) as [[[i c]|]| |]; cbn; [|done..]. by rewrite IH.
Qed.

Lemma erase_node_at h pos t : node_at pos (erase h t) = erase h <$> node_at pos t.
Proof.
  revert t. induction pos as [|i pos IH]; intros t; [done|]. cbn. rewrite erase_children, map_lookup.
  destruct (children t !! i); cbn; [apply IH | done].
Qed.

Lemma erase_Get h t k : Get tt (erase h t) k = Get h t k.
Proof.
  unfold Get, findSubtree. rewrite erase_find. destruct (find_loop _ h t k) as [[[pos found] l]| |]; cbn; [|done..].
  case_match; [done|]. rewrite erase_node_at. destruct (node_at pos t) as [node|]; cbn; [|done].
  by rewrite erase_item.
Qed.

Lemma erase_next_longest h b acc cs :
  nextWithLongestPrefixMatch tt b (erase h <$> acc) (map (erase h) cs) =
  prod_map (fmap (erase h)) id (nextWithLongestPrefixMatch h b acc cs).
Proof.
  revert acc. induction cs as [|c cs IH]; intros acc; cbn; [done|]. rewrite erase_bytes.
  destruct (head (bytes h c)) as [b'|]; [|apply IH]. destruct (b' =? b)%Z; [done|].
  destruct (b' <? b)%Z; [|apply IH]. destruct acc as [l|]; cbn; [|apply (IH (Some c))].
  rewrite erase_bytes. case_match; [apply (IH (Some c)) | apply (IH (Some l))].
Qed.

Lemma erase_longest fuel h t q root k n last :
  longest_loop fuel tt (erase h t) q (erase h root) k n last = longest_loop fuel h t q root k n last.
Proof.
  revert root k n last. induction fuel as [|fuel IH]; intros root k n last; cbn [longest_loop]; [done|].
  unfold longestCommonPrefixLength. rewrite !erase_bytes, erase_Get, erase_item, erase_children.
  case_match; [done|]. destruct (Get h t _) as [o| |]; cbn [exec_bind]; [|done..].
  destruct (drop _ k) as [|b r]; [done|].
  rewrite (erase_next_longest h b None (children root) : nextWithLongestPrefixMatch tt b None _ = _).
  destruct (nextWithLongestPrefixMatch h b None (children root)) as [[c|] e]; cbn [prod_map fst fmap option_fmap option_map];
    [|done]. by rewrite IH.
Qed.

Lemma erase_GetLongest h t q : GetLongestPrefixNode tt (erase h t) q = GetLongestPrefixNode h t q.
Proof.
  unfold GetLongestPrefixNode. rewrite erase_height, erase_longest.
  destruct (longest_loop _ h t q t q 0 0) as [[|]| |]; cbn; [done| |done|done]. apply erase_Get.
Qed.

(** ** Walking *)

Section MergeSort.
Context {A B : Type} (f : A -> B) (R : relation B) (R' : relation A).
Context `{!RelDecision R, !RelDecision R'}.
Hypothesis HR : forall x y, R (f x) (f y) <-> R' x y.

Lemma list_merge_map l1 l2 : list_merge R (map f l1) (map f l2) = map f (list_merge R' l1 l2).
Proof.
  revert l2. induction l1 as [|x l1 IH1]; intros l2; induction l2 as [|y l2 IH2]; cbn; try done.
  rewrite (decide_ext (R (f x) (f y)) (R' x y)) by apply HR.
  destruct (decide (R' x y)); cbn; f_equal; [apply (IH1 (y :: l2)) | apply IH2].
Qed.

Lemma merge_sort_map l : merge_sort R (map f l) = map f (merge_sort R' l).
Proof.
  assert (Hst : forall st l, merge_list_to_stack R (map (fmap (map f)) st) (map f l) =
                        map (fmap (map f)) (merge_list_to_stack R' st l)).
  { intros st. induction st as [|[l'|] st IH]; intros l0; cbn; [done| |done].
    by rewrite list_merge_map, IH. }
  assert (Hms : forall st, merge_stack R (map (fmap (map f)) st) = map f (merge_stack R' st)).
  { intros st. induction st as [|[l'|] st IH]; cbn; [done| |done]. by rewrite IH, list_merge_map. }
  unfold merge_sort. change (@nil (option (list B))) with (map (fmap (map f)) (@nil (option (list A)))).
  generalize (@nil (option (list A))). induction l as [|x l IH]; intros st; cbn; [apply Hms|].
  change [f x] with (map f [x]). by rewrite Hst, IH.
Qed.
End MergeSort.

Lemma erase_sort h cs : sort_children tt (map (erase h) cs) = map (erase h) (sort_children h cs).
Proof. apply merge_sort_map. intros. by rewrite !erase_bytes. Qed.

Section Visit.
Context {St : Type} (visitor : list Z -> Item -> St -> St * option visit_error).

Definition erase_walk h (r : list (GTrie Item) * St * option visit_error)
  : list (VTrie Item) * St * option visit_error :=
  let '(cs, st, e) := r in (map (erase h) cs, st, e).

Lemma erase_walk_loop h down down' pre cs st :
  (forall pre c st, c ∈ cs -> down' pre (map (erase h) (children c)) st =
     let! r := down pre (children c) st in Ok (erase_walk h r)) ->
  walk_loop visitor tt down' pre (map (erase h) cs) st =
  let! r := walk_loop visitor h down pre cs st in Ok (erase_walk h r).
Proof.
  revert st. induction cs as [|c cs IH]; intros st Hd; [done|].
  assert (IH' : forall st, walk_loop visitor tt down' pre (map (erase h) cs) st =
    let! r := walk_loop visitor h down pre cs st in Ok (erase_walk h r)).
  { intros st'. apply IH. intros pre' d st'' Hin. apply Hd. by right. }
  cbn [walk_loop map]. rewrite erase_item, erase_bytes, erase_children.
  destruct (match Item_ c with Some i => _ | None => _ end) as [st1 [[|msg]|]].
  - rewrite IH'. by destruct (walk_loop visitor h down pre cs st1) as [[[rest st2] e]| |].
  - done.
  - rewrite Hd by left. destruct (down _ (children c) st1) as [[[below st2] e]| |]; cbn; [|done..].
    destruct e as [e|]; cbn; [by destruct c|].
    rewrite IH'. destruct (walk_loop visitor h down pre cs st2) as [[[rest st3] e]| |]; cbn; [|done..].
    by destruct c.
Qed.

Lemma erase_walk_children fuel h pre cs st :
  walk_children visitor fuel tt pre (map (erase h) cs) st =
  let! r := walk_children visitor fuel h pre cs st in Ok (erase_walk h r).
Proof.
  revert pre cs st. induction fuel as [|fuel IH]; intros pre cs st; [done|]. cbn [walk_children].
  rewrite erase_sort. apply erase_walk_loop. intros. apply IH.
Qed.

Lemma erase_Visit h t st :
  Visit visitor tt (erase h t) st =
  let! (t', st', e) := Visit visitor h t st in Ok (erase h t', st', e).
Proof.
  unfold Visit, walk. rewrite erase_item, erase_bytes, erase_children, erase_height.
  destruct (match Item_ t with Some i => _ | None => _ end) as [st1 [[|msg]|]]; [done | done|].
  rewrite erase_walk_children.
  destruct (walk_children visitor (height t) h (bytes h t) (children t) st1) as [[[cs st2] e]| |]; cbn; [|done..].
  by destruct t.
Qed.
End Visit.

Lemma erase_empty h t : empty tt (erase h t) = let! (t', e) := empty h t in Ok (erase h t', e).
Proof.
  unfold empty. pose proof (erase_Visit (fun _ _ _ => (false, Some SkipSubtree)) h t true) as E.
  unfold Visit in E. rewrite E. by destruct (walk _ h t true) as [[[t' st'] e]| |].
Qed.

Lemma erase_replace h b c cs :
  PatriciaDB.replace tt b (erase h c) (map (erase h) cs) =
  let! cs := PatriciaDB.replace h b c cs in Ok (map (erase h) cs).
Proof.
  induction cs as [|d cs IH]; cbn; [done|]. rewrite erase_first. destruct (first h d) as [b'| |]; cbn; [|done..].
  destruct (b' =? b)%Z; [done|]. rewrite IH. by destruct (PatriciaDB.replace h b c cs).
Qed.

Lemma erase_remove h c cs :
  remove tt (erase h c) (map (erase h) cs) = let! cs := remove h c cs in Ok (map (erase h) cs).
Proof.
  induction cs as [|d cs IH]; cbn; [done|]. rewrite !erase_first. destruct (first h d) as [b'| |]; cbn; [|done..].
  destruct (first h c) as [b| |]; cbn; [|done..].
  destruct (b' =? b)%Z; [done|]. rewrite IH. by destruct (remove h c cs).
Qed.
End Erase.
