(* ===== verification/PatriciaHeap.v ===== *)
(** * Writing to shared prefixes of the Patricia trie

    The only write to an array that prefixes share is the append of [compact].
    [placed] says where the prefixes of a trie lie; [keeps] says which
    prefixes read the same after a write.  With them, [put] and [Delete] on
    the heap are [put] and [Delete] on the octets. *)

From S2P Require Import Prelude PatriciaDB.
From stdpp Require Import sorting.
From S2P Require Import PatriciaDB PatriciaMap PatriciaWalk PatriciaDelete PatriciaAlias.

Open Scope nat_scope.

Section Slices.
Context `{Growth}.
Implicit Types (h : Heap) (os : list (list Z)) (s : Slice) (above bs : list Z).

Lemma read_sub_from h s k : slice_read h (sub_from s k) = drop k (slice_read h s).
Proof. unfold slice_read. cbn. by rewrite skipn_firstn_comm, drop_drop. Qed.

Lemma read_sub_to h s k : k <= s_len s -> slice_read h (sub_to s k) = take k (slice_read h s).
Proof. intros. unfold slice_read. cbn. rewrite take_take. f_equal. lia. Qed.

(** The octets above an array in the trie. *)
Definition origin os (a : nat) : list Z := default [] (os !! a).

(** The prefix [s] of a node [above] octets below the root: it lies within its
    array, and what precedes it there is what precedes it in the trie. *)
Record node_ok h os above s : Prop := {
  ok_arr : s_arr s < length h;
  ok_len : s_len s <= s_cap s;
  ok_cap : s_off s + s_cap s <= length (array h (s_arr s));
  ok_above : above = origin os (s_arr s) ++ take (s_off s) (array h (s_arr s))
}.

Lemma read_length h os above s : node_ok h os above s -> length (slice_read h s) = s_len s.
Proof. intros [_ Hl Hc _]. unfold slice_read. rewrite length_take, length_drop. lia. Qed.

(** The path to a node, read off the array of its prefix. *)
Lemma path_in_array h os above s :
  node_ok h os above s ->
  above ++ slice_read h s = origin os (s_arr s) ++ take (s_off s + s_len s) (array h (s_arr s)).
Proof.
  intros [_ Hl Hc Ha]. rewrite Ha at 1. rewrite <- app_assoc. f_equal. unfold slice_read.
  rewrite take_drop_commute. rewrite <- (take_drop (s_off s) (take (s_off s + s_len s) _)) at 2.
  rewrite take_take. by replace (s_off s `min` (s_off s + s_len s)) with (s_off s) by lia.
Qed.

Lemma node_ok_sub_from h os above s k :
  node_ok h os above s -> k <= s_len s ->
  node_ok h os (above ++ take k (slice_read h s)) (sub_from s k).
Proof.
  intros Hok Hk. pose proof Hok as [Ha Hl Hc Hab].
  assert (Hok' : node_ok h os above (mkSlice (s_arr s) (s_off s) k (s_cap s))) by (split; cbn; done || lia).
  split; cbn; [done | lia | lia|].
  rewrite <- read_sub_to by done. rewrite (path_in_array h os above (sub_to s k)) by exact Hok'. done.
Qed.

Lemma node_ok_sub_to h os above s k :
  node_ok h os above s -> k <= s_len s -> node_ok h os above (sub_to s k).
Proof. intros [Ha Hl Hc Hab] Hk. split; cbn; done || lia. Qed.

(** ** Append *)

(** The path [F] is not disturbed when [bs] is appended to the prefix that
    ends at [FP]: it does not go beyond [FP], or it agrees with [bs] there. *)
Definition undisturbed (FP bs F : list Z) : Prop :=
  (forall x r, F <> FP ++ x :: r) \/ (exists r r', F ++ r = FP ++ bs ++ r').

(** Prefixes whose path is safe keep their place and their octets. *)
Definition keeps h os h' os' (safe : list Z -> Prop) : Prop :=
  forall above s, node_ok h os above s -> safe (above ++ slice_read h s) ->
    node_ok h' os' above s /\ slice_read h' s = slice_read h s.

Lemma length_overwrite i bs a : i + length bs <= length a -> length (overwrite i bs a) = length a.
Proof. intros. unfold overwrite. rewrite !length_app, length_take, length_drop. lia. Qed.

Lemma take_overwrite_le i bs a k : k <= i -> i <= length a -> take k (overwrite i bs a) = take k a.
Proof.
  intros. unfold overwrite. rewrite take_app_le by (rewrite length_take; lia).
  rewrite take_take. f_equal. lia.
Qed.

(** What is read up to [m] stays when it agrees with what is written. *)
Lemma take_overwrite_agrees i bs a m r r' :
  i + length bs <= length a -> m <= length a -> take m a ++ r = take i a ++ bs ++ r' ->
  take m (overwrite i bs a) = take m a.
Proof.
  intros Hi Hm E.
  assert (Ek : forall k, k <= m -> take k a = take k (take i a ++ bs ++ r')).
  { intros k Hk. rewrite <- E, take_app_le, take_take by (rewrite length_take; lia). f_equal. lia. }
  unfold overwrite. destruct (decide (m <= i + length bs)).
  - rewrite (Ek m) by lia. rewrite !(app_assoc (take i a) bs).
    by rewrite !(take_app_le (take i a ++ bs)) by (rewrite length_app, length_take; lia).
  - specialize (Ek (i + length bs)). rewrite app_assoc, take_app_length' in Ek
      by (rewrite length_app, length_take; lia).
    by rewrite app_assoc, <- Ek, take_drop by lia.
Qed.

Lemma array_alter_eq h a f : a < length h -> array (alter f a h) a = f (array h a).
Proof.
  intros Ha. unfold array. rewrite list_lookup_alter_eq.
  destruct (lookup_lt_is_Some_2 h a Ha) as [x ->]. done.
Qed.

Lemma array_alter_ne h a b f : a <> b -> array (alter f a h) b = array h b.
Proof. intros. unfold array. by rewrite list_lookup_alter_ne. Qed.

Lemma array_app h x a : a < length h -> array (h ++ [x]) a = array h a.
Proof. intros. unfold array. by rewrite lookup_app_l. Qed.

Lemma array_new h x : array (h ++ [x]) (length h) = x.
Proof. unfold array. by rewrite list_lookup_middle. Qed.

Lemma read_as_drop h s : slice_read h s = drop (s_off s) (take (s_off s + s_len s) (array h (s_arr s))).
Proof. unfold slice_read. apply take_drop_commute. Qed.

(** A prefix keeps its place when its array keeps the octets up to its end. *)
Lemma node_ok_stable h os h' os' above s :
  node_ok h os above s -> length h <= length h' ->
  origin os' (s_arr s) = origin os (s_arr s) ->
  length (array h' (s_arr s)) = length (array h (s_arr s)) ->
  take (s_off s + s_len s) (array h' (s_arr s)) = take (s_off s + s_len s) (array h (s_arr s)) ->
  node_ok h' os' above s /\ slice_read h' s = slice_read h s.
Proof.
  intros [Ha Hl Hc Hab] Hh Ho Hlen Ht. split; [|by rewrite !read_as_drop, Ht].
  split; [lia | done | lia|]. rewrite Hab, Ho. f_equal. apply (f_equal (take (s_off s))) in Ht.
  rewrite !take_take in Ht. by replace (s_off s `min` (s_off s + s_len s)) with (s_off s) in Ht by lia.
Qed.

Lemma append_in_place h os above s bs :
  node_ok h os above s -> s_len s + length bs <= s_cap s ->
  let h' := alter (overwrite (s_off s + s_len s) bs) (s_arr s) h in
  let s' := mkSlice (s_arr s) (s_off s) (s_len s + length bs) (s_cap s) in
  node_ok h' os above s' /\ slice_read h' s' = slice_read h s ++ bs /\
  keeps h os h' os (undisturbed (above ++ slice_read h s) bs).
Proof.
  intros Hok Hn h' s'. pose proof Hok as [Ha Hl Hc Hab].
  set (a := array h (s_arr s)) in *. set (i := s_off s + s_len s) in *.
  assert (Ea : array h' (s_arr s) = overwrite i bs a) by (by apply array_alter_eq).
  assert (Hlen : length (overwrite i bs a) = length a) by (apply length_overwrite; lia).
  split; [|split].
  - split; cbn; [unfold h'; by rewrite length_alter | done | rewrite Ea, Hlen; lia|].
    rewrite Ea, take_overwrite_le by lia. done.
  - rewrite read_as_drop. cbn. rewrite Ea. unfold overwrite.
    rewrite app_assoc, take_app_le by (rewrite length_app, length_take; lia).
    rewrite take_ge by (rewrite length_app, length_take; lia).
    rewrite drop_app_le by (rewrite length_take; lia). by rewrite read_as_drop.
  - intros above0 s0 Hok0 Hsafe. apply (node_ok_stable h os); [done | unfold h'; by rewrite length_alter | done| |];
      (destruct (decide (s_arr s0 = s_arr s)) as [E|]; [|unfold h'; by rewrite array_alter_ne]);
      rewrite E, Ea; fold a; [done|].
    pose proof (path_in_array _ _ _ _ Hok) as Ef. pose proof (path_in_array _ _ _ _ Hok0) as Ef0.
    rewrite E in Ef0. fold a i in Ef, Ef0. set (m := s_off s0 + s_len s0) in *.
    assert (Hm : m <= length a) by (destruct Hok0 as [_ ? Hc0 _]; rewrite E in Hc0; unfold m, a; lia).
    destruct (decide (m <= i)); [apply take_overwrite_le; lia|].
    (* the path goes beyond the prefix, so it agrees with [bs] *)
    destruct Hsafe as [Hno | (r & r' & Hag)]; rewrite ?Ef, ?Ef0 in *.
    + exfalso. destruct (drop i (take m a)) as [|x r] eqn:Ed.
      { apply (f_equal length) in Ed. rewrite length_drop, length_take in Ed. cbn in Ed. lia. }
      apply (Hno x r). rewrite <- Ed, <- app_assoc. f_equal.
      rewrite <- (take_drop i (take m a)) at 1. rewrite take_take. do 2 f_equal. lia.
    + rewrite <- !app_assoc in Hag. apply app_inv_head in Hag.
      apply (take_overwrite_agrees i bs a m r r'); [lia | done | done].
Qed.

Lemma keeps_mono h os h' os' (safe safe' : list Z -> Prop) :
  keeps h os h' os' safe -> (forall F, safe' F -> safe F) -> keeps h os h' os' safe'.
Proof. intros Hk Hs above s Hok HF. apply Hk; auto. Qed.

Lemma keeps_refl h os safe : keeps h os h os safe.
Proof. by intros above s Hok _. Qed.

Lemma keeps_trans h0 os0 h1 os1 h2 os2 safe :
  keeps h0 os0 h1 os1 safe -> keeps h1 os1 h2 os2 safe -> keeps h0 os0 h2 os2 safe.
Proof.
  intros H1 H2 above s Hok HF. destruct (H1 above s Hok HF) as [Hok1 E1].
  destruct (H2 above s Hok1) as [Hok2 E2]; [by rewrite E1|]. split; [done | congruence].
Qed.

(** A new array disturbs nobody. *)
Lemma keeps_alloc h os x o safe : length os = length h -> keeps h os (h ++ [x]) (os ++ [o]) safe.
Proof.
  intros Hl above s Hok _. pose proof (ok_arr _ _ _ _ Hok) as Ha.
  apply (node_ok_stable h os); [done | rewrite length_app; lia | | by rewrite array_app..].
  unfold origin. by rewrite lookup_app_l by lia.
Qed.

Lemma node_ok_new h os above x n :
  length os = length h -> n <= length x ->
  node_ok (h ++ [x]) (os ++ [above]) above (mkSlice (length h) 0 n (length x)).
Proof.
  intros Hl Hn. split; cbn; [rewrite length_app; cbn; lia | done | by rewrite array_new|].
  unfold origin. rewrite <- Hl, list_lookup_middle by done. by rewrite app_nil_r.
Qed.

Definition opt_ok h os above (o : option Slice) : Prop :=
  match o with Some s => node_ok h os above s | None => True end.

(** [append] to a prefix of the trie. *)
Lemma append_ok h os above o bs :
  length os = length h -> opt_ok h os above o -> bs <> [] ->
  exists h' os' s', slice_append h o bs = (h', Some s') /\ length os' = length h' /\
    node_ok h' os' above s' /\ slice_read h' s' = octets h o ++ bs /\
    keeps h os h' os' (undisturbed (above ++ octets h o) bs).
Proof.
  intros Hl Ho Hbs. set (s := default (mkSlice 0 0 0 0) o).
  assert (Es : slice_append h o bs =
    if s_len s + length bs <=? s_cap s then
      (alter (overwrite (s_off s + s_len s) bs) (s_arr s) h,
       Some (mkSlice (s_arr s) (s_off s) (s_len s + length bs) (s_cap s)))
    else (h ++ [slice_read h s ++ bs ++ replicate (growth (s_cap s) (s_len s + length bs)) 0%Z],
          Some (mkSlice (length h) 0 (s_len s + length bs)
                  (s_len s + length bs + growth (s_cap s) (s_len s + length bs))))).
  { unfold slice_append. destruct o, bs; done. }
  assert (Er : slice_read h s = octets h o /\ length (slice_read h s) = s_len s).
  { destruct o as [s0|]; cbn in *; [|done]. split; [done | by eapply read_length]. }
  destruct Er as [Er Erl]. rewrite Es. destruct (Nat.leb_spec (s_len s + length bs) (s_cap s)) as [Hle|Hgt].
  - destruct o as [s0|]; cbn in *; [|destruct bs; cbn in *; [done | lia]].
    destruct (append_in_place h os above s0 bs Ho Hle) as (Hok & Hrd & Hk).
    eexists _, os, _. split; [done|]. rewrite length_alter. done.
  - set (x := slice_read h s ++ bs ++ _). exists (h ++ [x]), (os ++ [above]). eexists. split; [done|].
    assert (Hx : length x = s_len s + length bs + growth (s_cap s) (s_len s + length bs)).
    { unfold x. rewrite !length_app, Erl, length_replicate. lia. }
    split; [rewrite !length_app; cbn; lia|]. rewrite <- Hx.
    split; [apply node_ok_new; [done | lia]|]. split; [|by apply keeps_alloc].
    unfold slice_read at 1. cbn. rewrite array_new, drop_0. unfold x. rewrite Er, app_assoc, take_app_le.
    + apply take_ge. rewrite length_app, <- Er. lia.
    + rewrite length_app, <- Er. lia.
Qed.
End Slices.

(** ** Where the prefixes of a trie lie *)

Section Placed.
Context {Item : Type} `{Growth}.
Implicit Types (h : Heap) (os : list (list Z)) (t c : GTrie Item) (cs : list (GTrie Item)) (above : list Z).

Fixpoint placed h os above t : Prop :=
  match t with
  | mkTrie p i cs =>
      opt_ok h os above p /\
      (fix all cs := match cs with [] => True | c :: cs => placed h os (above ++ octets h p) c /\ all cs end) cs
  end.

Lemma placed_unfold h os above t :
  placed h os above t <->
  opt_ok h os above (prefix t) /\ Forall (placed h os (above ++ bytes h t)) (children t).
Proof.
  destruct t as [p i cs]. cbn [placed prefix children]. f_equiv. unfold bytes. cbn [prefix].
  induction cs as [|c cs IH]; [split; auto using Forall_nil|]. rewrite Forall_cons, IH. done.
Qed.

Lemma opt_keeps h os h' os' safe above o :
  keeps h os h' os' safe -> opt_ok h os above o -> safe (above ++ octets h o) ->
  opt_ok h' os' above o /\ octets h' o = octets h o.
Proof. intros Hk Ho Hs. destruct o as [s|]; [|done]. by apply Hk. Qed.

(** A trie none of whose paths is disturbed reads the same. *)
Lemma placed_keeps h os h' os' safe above t :
  keeps h os h' os' safe -> placed h os above t -> (forall r, safe (above ++ bytes h t ++ r)) ->
  placed h' os' above t /\ erase h' t = erase h t.
Proof.
  intros Hk. revert above. induction t as [p i cs IH] using GTrie_ind'. intros above Hp Hs.
  apply placed_unfold in Hp as [Ho Hall]. cbn [prefix children] in *. unfold bytes in *. cbn [prefix] in *.
  destruct (opt_keeps _ _ _ _ _ above p Hk Ho) as [Ho' Eo].
  { specialize (Hs []). by rewrite app_nil_r in Hs. }
  assert (Hcs : Forall (fun c => placed h' os' (above ++ octets h p) c /\ erase h' c = erase h c) cs).
  { rewrite Forall_forall in *. intros c Hc. apply (IH c Hc); [by apply Hall|].
    intros r. rewrite <- app_assoc. apply Hs. }
  split.
  - apply placed_unfold. unfold bytes. cbn [prefix children]. rewrite Eo. split; [done|].
    eapply Forall_impl; [done|]. by intros c [].
  - cbn. f_equal; [destruct p as [s|]; [cbn in *; by rewrite Eo | done]|].
    apply map_ext_in. intros c Hc%list_elem_of_In. rewrite Forall_forall in Hcs. by apply Hcs.
Qed.

Lemma placed_children_keeps h os h' os' safe above cs :
  keeps h os h' os' safe -> Forall (placed h os above) cs ->
  (forall c r, c ∈ cs -> safe (above ++ bytes h c ++ r)) ->
  Forall (placed h' os' above) cs /\ map (erase h') cs = map (erase h) cs.
Proof.
  intros Hk Hall Hs.
  assert (H' : Forall (fun c => placed h' os' above c /\ erase h' c = erase h c) cs).
  { rewrite Forall_forall in *. intros c Hc. eapply placed_keeps; [done | by apply Hall|]. intros r. by apply Hs. }
  split; [eapply Forall_impl; [done|]; by intros c []|].
  apply map_ext_in. intros c Hc%list_elem_of_In. rewrite Forall_forall in H'. by apply H'.
Qed.

(** ** [compact] *)

(** What a step that writes to the heap leaves. *)
Record step h os (safe : list Z -> Prop) h' os' : Prop := {
  st_len : length os' = length h';
  st_keeps : keeps h os h' os' safe
}.

Lemma compact_heap h os above t :
  length os = length h -> placed h os above t -> wf (erase h t) ->
  (compact h t = (h, None) /\ compact tt (erase h t) = (tt, None)) \/
  (exists h' os' c d, compact h t = (h', Some c) /\ compact tt (erase h t) = (tt, Some (erase h' c)) /\
     children t = [d] /\ bytes h' c = bytes h t ++ bytes h d /\ placed h' os' above c /\
     step h os (undisturbed (above ++ bytes h t) (bytes h d)) h' os').
Proof.
  intros Hl Hp [Hs _]%wf_unfold. destruct t as [p i cs]. rewrite erase_children in Hs. cbn [children map] in Hs.
  unfold compact. rewrite erase_children, erase_item. cbn [children Item_].
  destruct cs as [|[p' i' cs'] [|]]; [by left | | by left]. cbn [map]. rewrite erase_item. cbn [Item_].
  destruct i; [by left|]. destruct i'; [by left|]. rewrite !erase_bytes.
  destruct (_ <=? _) eqn:El; [right | by left].
  apply siblings_singleton in Hs. rewrite erase_bytes in Hs.
  set (d := mkTrie p' None cs') in *. set (bs := bytes h d) in *.
  apply placed_unfold in Hp as [Ho Hall]. cbn [prefix children] in Ho, Hall. inversion_clear Hall as [|? ? Hd _].
  destruct (append_ok h os above p bs Hl Ho Hs) as (h' & os' & s' & Ea & Hl' & Hok & Hrd & Hk).
  apply placed_unfold in Hd as [_ Hcs]. unfold d in Hcs. cbn [prefix children] in Hcs. fold d in Hcs.
  cbn [append_to go_slices prefix]. rewrite Ea.
  destruct (placed_children_keeps h os h' os' _ _ cs' Hk Hcs) as [Hcs' Ecs].
  { intros c r _. right. exists [], (bytes h c ++ r). unfold bytes, bs. cbn [prefix].
    by rewrite app_nil_r, <- !app_assoc. }
  exists h', os', (set_prefix (Some s') d), d. split; [done|].
  assert (Eb : bytes h' (set_prefix (Some s') d) = octets h p ++ bs) by exact Hrd.
  split.
  { cbn [append_to value_slices prefix erase]. unfold d. cbn. rewrite Ecs, Hrd.
    destruct p as [s|]; cbn; [done|]. clearbody bs. by destruct bs. }
  split; [done|]. split; [done|]. split; [|split; [done | exact Hk]].
  apply placed_unfold. cbn [prefix children set_prefix d]. split; [done|].
  rewrite Eb. rewrite <- app_assoc in Hcs'. exact Hcs'.
Qed.

(** ** Insertion *)

Lemma erase_insert_item h item rep t :
  insert_item item rep (erase h t) = prod_map (erase h) id (insert_item item rep t).
Proof. unfold insert_item. rewrite erase_item. destruct rep, t as [p [i|] cs]; done. Qed.

Lemma placed_set_item h os above i t : placed h os above (set_item i t) <-> placed h os above t.
Proof. by destruct t. Qed.

Lemma placed_insert_item h os above item rep t t' ins :
  insert_item item rep t = (t', ins) -> placed h os above t -> placed h os above t'.
Proof.
  unfold insert_item. intros E Hp.
  destruct rep, (Item_ t); injection E as <- <-; by rewrite ?placed_set_item.
Qed.

Lemma placed_add h os above t c :
  placed h os above t -> placed h os (above ++ bytes h t) c ->
  placed h os above (set_children (add c (children t)) t).
Proof.
  rewrite (placed_unfold h os above t), (placed_unfold h os above (set_children _ _)).
  destruct t as [p i cs]. intros [Ho Hall] Hc. cbn [prefix children set_children] in *.
  split; [done|]. apply Forall_app. split; [done | by repeat constructor].
Qed.

(** A new node with a prefix. *)
Definition leaf {P} (p : P) : Trie P Item := set_prefix (Some p) NewTrie.

Lemma erase_leaf h s : erase h (leaf s) = leaf (slice_read h s).
Proof. done. Qed.

Lemma placed_leaf h os above s : node_ok h os above s -> placed h os above (leaf s).
Proof. intros Hok. apply placed_unfold. split; [done | constructor]. Qed.

Lemma append_children_heap item rep fuel h os above t key :
  placed h os above t -> node_ok h os (above ++ bytes h t) key -> length (slice_read h key) <= fuel ->
  exists t' ins, append_children fuel h key item rep t = Ok (t', ins) /\
    append_children fuel tt (slice_read h key) item rep (erase h t) = Ok (erase h t', ins) /\
    placed h os above t'.
Proof.
  revert above t key. induction fuel as [|fuel IH]; intros above t key Hp Hk Hfuel; cbn [append_children rd go_slices value_slices].
  all: destruct (length (slice_read h key) =? 0) eqn:E0.
  1,3: destruct (insert_item item rep t) as [t' ins] eqn:E; exists t', ins; rewrite erase_insert_item, E;
       (split; [done|]); (split; [done|]); by eapply placed_insert_item.
  { apply Nat.eqb_neq in E0. lia. }
  destruct (length (slice_read h key) <=? DefaultMaxPrefixPerNode) eqn:E4.
  - fold (leaf key) (leaf (slice_read h key)). rewrite <- erase_leaf, erase_insert_item.
    destruct (insert_item item rep (leaf key)) as [c ins] eqn:E.
    cbn [prod_map id]. eexists _, ins. split; [done|].
    split; [by rewrite erase_children, erase_set_children; unfold add; rewrite map_app|].
    apply placed_add; [done|]. eapply placed_insert_item; [done|]. by apply placed_leaf.
  - apply Nat.leb_gt in E4. pose proof (read_length _ _ _ _ Hk) as Hkl.
    cbn [sub_to sub_from go_slices value_slices].
    set (k4 := mkSlice (s_arr key) (s_off key) _ _). set (k' := mkSlice _ _ (s_len key - _) _).
    assert (Er4 : slice_read h k4 = take DefaultMaxPrefixPerNode (slice_read h key)) by (apply read_sub_to; lia).
    assert (Er' : slice_read h k' = drop DefaultMaxPrefixPerNode (slice_read h key)) by apply read_sub_from.
    destruct (IH (above ++ bytes h t) (leaf k4) k') as (c & ins & E & Ev & Hc).
    { apply placed_leaf. apply node_ok_sub_to; [done | lia]. }
    { unfold bytes. cbn [prefix leaf set_prefix octets rd go_slices]. rewrite Er4. apply node_ok_sub_from; [done | lia]. }
    { rewrite Er', length_drop. unfold DefaultMaxPrefixPerNode in *. lia. }
    rewrite <- Er4, <- Er'. fold (leaf k4) (leaf (slice_read h k4)). rewrite E, <- erase_leaf, Ev.
    cbn [exec_bind]. eexists _, ins. split; [done|].
    split; [by rewrite erase_children, erase_set_children; unfold add; rewrite map_app|]. by apply placed_add.
Qed.

(** The part of the trie below a node and starting with its first octet; a
    step below the node leaves everything else alone. *)
Definition outside above (bs F : list Z) : Prop :=
  match bs with [] => False | b :: _ => forall r, F <> above ++ b :: r end.

Lemma undisturbed_outside above bs bs' F :
  bs <> [] -> outside above bs F -> undisturbed (above ++ bs) bs' F.
Proof.
  destruct bs as [|b bs]; [done|]. intros _ Ho. left. intros x r ->. apply (Ho (bs ++ x :: r)).
  by rewrite <- app_assoc.
Qed.

Lemma split_heap h os above t l x p' :
  length os = length h -> placed h os above t -> wf (erase h t) -> bytes h t = l ++ x :: p' ->
  exists h' os' t', split_prefix h (length l) t = (h', t') /\
    split_prefix tt (length l) (erase h t) = (tt, erase h' t') /\
    bytes h' t' = l /\ placed h' os' above t' /\
    step h os (fun F => forall r, F <> above ++ bytes h t ++ r) h' os'.
Proof.
  intros Hl Hp Hwf Eb. destruct t as [[s|] i cs]; [|by destruct l].
  pose proof Hp as [Hok Hcs]%placed_unfold. cbn [prefix children opt_ok] in Hok, Hcs.
  unfold bytes in Eb, Hcs. cbn [prefix octets rd go_slices] in Eb, Hcs.
  pose proof (read_length _ _ _ _ Hok) as Hlen. rewrite Eb, length_app in Hlen. cbn in Hlen.
  set (child := mkTrie (Some (sub_from s (length l))) i cs).
  assert (Ec : slice_read h (sub_from s (length l)) = x :: p') by (by rewrite read_sub_from, Eb, drop_app_length).
  assert (Hchild : placed h os (above ++ l) child).
  { apply placed_unfold. unfold bytes. cbn [prefix children child octets rd go_slices]. split.
    - cbn. replace l with (take (length l) (slice_read h s)) at 1 by (by rewrite Eb, take_app_length).
      apply node_ok_sub_from; [done | lia].
    - rewrite Ec, <- app_assoc. by rewrite Eb in Hcs. }
  assert (Hwc : wf (erase h child)) by exact Hwf.
  assert (Hnode : node_ok h os above (sub_to s (length l))) by (apply node_ok_sub_to; [done | lia]).
  assert (Enode : slice_read h (sub_to s (length l)) = l) by (by rewrite read_sub_to, Eb, take_app_length by lia).
  assert (Es : split_prefix h (length l) (mkTrie (Some s) i cs) =
    let '(h', c) := compact h child in (h', mkTrie (Some (sub_to s (length l))) None [default child c])) by done.
  assert (Ev : split_prefix tt (length l) (erase h (mkTrie (Some s) i cs)) =
    let '(h', c) := compact tt (erase h child) in (h', mkTrie (Some l) None [default (erase h child) c])).
  { assert (Echild : erase h child = mkTrie (Some (x :: p')) i (map (erase h) cs)) by (rewrite <- Ec; done).
    rewrite Echild. unfold split_prefix. cbn. by rewrite Eb, drop_app_length, take_app_length. }
  rewrite Es, Ev. clear Es Ev. set (node := sub_to s (length l)) in *. clearbody node.
  set (F := fun F => forall r, F <> above ++ bytes h (mkTrie (Some s) i cs) ++ r).
  destruct (compact_heap h os (above ++ l) child Hl Hchild Hwc) as
    [[-> ->] | (h' & os' & c & d & -> & -> & _ & _ & Hc & [Hl' Hk])].
  - eexists h, os, _. split; [done|]. cbn [default from_option id].
    split; [by cbn; rewrite Enode|]. split; [done|].
    split; [apply placed_unfold; cbn [prefix children]; split; [done|]; constructor; [|done]|].
    + unfold bytes. cbn [prefix octets rd go_slices]. by rewrite Enode.
    + split; [done | apply keeps_refl].
  - assert (Hk' : keeps h os h' os' F).
    { eapply keeps_mono; [done|]. intros G HG. left. intros y r ->. apply (HG (y :: r)).
      unfold bytes, child. cbn [prefix octets rd go_slices]. rewrite Ec, Eb. by rewrite <- !app_assoc. }
    destruct (Hk' above node) as [Hnode' Enode']; [done| |].
    { intros r E. apply (f_equal length) in E. unfold bytes in E. cbn [prefix octets rd go_slices] in E.
      rewrite Enode, Eb, !length_app in E. cbn in E. lia. }
    eexists h', os', _. split; [done|]. cbn [default from_option id].
    split; [by cbn; rewrite Enode', Enode|]. rewrite Enode in Enode'. split; [done|].
    split; [apply placed_unfold; cbn [prefix children]; split; [done|]; constructor; [|done]|].
    + unfold bytes. cbn [prefix octets rd go_slices]. by rewrite Enode'.
    + split; done.
Qed.

Lemma next_lookup h b cs i c : next h b cs = Ok (Some (i, c)) -> cs !! i = Some c.
Proof.
  revert i. induction cs as [|d cs IH]; intros i; cbn; [done|].
  destruct (first h d) as [b'| |]; cbn; [|done..]. destruct (b' =? b)%Z; [by intros [= <- <-]|].
  destruct (next h b cs) as [[[j e]|]| |]; cbn; [|done..]. intros [= <- <-]. by apply IH.
Qed.

Lemma outside_child above bs bs' F :
  bs' <> [] -> outside above bs F -> outside (above ++ bs) bs' F.
Proof.
  destruct bs as [|b bs]; [done|]. destruct bs' as [|b' bs']; [done|]. intros _ Ho r ->.
  apply (Ho (bs ++ b' :: r)). by rewrite <- app_assoc.
Qed.

(** A child replaced after a step below it. *)
Lemma placed_replace h os h' os' above t j d d' :
  placed h os above t -> wf (erase h t) -> children t !! j = Some d ->
  keeps h os h' os' (outside (above ++ bytes h t) (bytes h d)) ->
  placed h' os' (above ++ bytes h t) d' ->
  let t' := set_children (<[j := d']> (children t)) t in
  placed h' os' above t' /\ erase h' t' = set_children (<[j := erase h' d']> (children (erase h t))) (erase h t).
Proof.
  intros Hp [Hs _]%wf_unfold Hj Hk Hd'. rewrite erase_children in Hs.
  apply placed_unfold in Hp as [Ho Hall].
  assert (Hne : exists b p, bytes h d = b :: p).
  { rewrite <- erase_bytes. apply (siblings_nonempty _ _ Hs), list_elem_of_lookup. exists j. by rewrite map_lookup, Hj. }
  destruct Hne as (b & p & Eb).
  destruct (opt_keeps _ _ _ _ _ above (prefix t) Hk Ho) as [Ho' Eo].
  { rewrite Eb. intros r E. apply (f_equal length) in E. unfold bytes in E. rewrite !length_app in E. cbn in E. lia. }
  assert (Hcs : forall i c, i <> j -> children t !! i = Some c ->
    placed h' os' (above ++ bytes h t) c /\ erase h' c = erase h c).
  { intros i c Hij Hi. rewrite Forall_lookup in Hall. apply (placed_keeps h os h' os' _ _ c Hk (Hall i c Hi)).
    intros r. rewrite Eb. intros r' E. apply app_inv_head in E.
    assert (Hc : exists b' p', bytes h c = b' :: p').
    { rewrite <- erase_bytes. apply (siblings_nonempty _ _ Hs), list_elem_of_lookup. exists i. by rewrite map_lookup, Hi. }
    destruct Hc as (b' & p' & Ec). rewrite Ec in E. injection E as -> _. apply Hij.
    apply (siblings_inj _ _ _ (erase h c) (erase h d) Hs); [by rewrite map_lookup, Hi | by rewrite map_lookup, Hj|].
    by rewrite !erase_bytes, Ec, Eb. }
  destruct t as [q it cs]. cbn [children prefix set_children] in *.
  assert (Eb' : bytes h' (set_children (<[j := d']> cs) (mkTrie q it cs)) = bytes h (mkTrie q it cs)) by exact Eo.
  split.
  - apply placed_unfold. rewrite Eb'. unfold set_children. cbn [prefix children]. split; [done|]. apply Forall_lookup. intros i c Hi.
    destruct (decide (i = j)) as [->|Hij].
    + rewrite list_lookup_insert_eq in Hi by (by eapply lookup_lt_Some). by injection Hi as <-.
    + rewrite list_lookup_insert_ne in Hi by done. by eapply Hcs.
  - cbn. unfold set_children. cbn. f_equal; [destruct q; [cbn in Eo |- *; by rewrite Eo | done]|].
    apply list_eq. intros i. destruct (decide (i = j)) as [->|Hij].
    + rewrite map_lookup, !list_lookup_insert_eq; [done| |by eapply lookup_lt_Some].
      rewrite length_map. by eapply lookup_lt_Some.
    + rewrite map_lookup, !list_lookup_insert_ne, map_lookup by done.
      destruct (cs !! i) as [c|] eqn:Ei; [|done]. cbn. f_equal. by eapply Hcs.
Qed.

(** The key of an insertion: what was consumed of it is above the node. *)
(** The key leaves the prefix in the middle: the node is split there. *)
Lemma put_split_heap item rep h os above t l x p' key k :
  length os = length h -> placed h os above t -> wf (erase h t) -> bytes h t = l ++ x :: p' ->
  node_ok h os (above ++ l) key -> slice_read h key = k -> (forall y k' z p, k = y :: k' -> x :: p' = z :: p -> y <> z) ->
  exists h' os' t1 t' ins, split_prefix h (length l) t = (h', t1) /\
    split_prefix tt (length l) (erase h t) = (tt, erase h' t1) /\
    append_children (length (slice_read h' key)) h' key item rep t1 = Ok (t', ins) /\
    append_children (length k) tt k item rep (erase h' t1) = Ok (erase h' t', ins) /\
    placed h' os' above t' /\ step h os (outside above (bytes h t)) h' os'.
Proof.
  intros Hl Hp Hwf Ep Hk Ek Hdiff.
  destruct (split_heap h os above t l x p' Hl Hp Hwf Ep) as (h1 & os1 & t1 & E1 & E2 & Eb1 & Hp1 & [Hl1 Hk1]).
  destruct (Hk1 (above ++ l) key) as [Hk1' Ek1']; [done| |].
  { rewrite Ek, Ep. intros r E. rewrite <- !app_assoc in E. apply app_inv_head in E. apply app_inv_head in E.
    cbn in E. by apply (Hdiff x (p' ++ r) x p'). }
  rewrite Ek in Ek1'. rewrite <- Eb1 in Hk1'.
  destruct (append_children_heap item rep (length (slice_read h1 key)) h1 os1 above t1 key)
    as (t' & ins & E & Ev & Hp'); [done..|].
  rewrite Ek1' in Ev. exists h1, os1, t1, t', ins. do 5 (split; [done|]). split; [done|].
  eapply keeps_mono; [done|]. intros F HF r ->. rewrite Ep in HF. destruct (l ++ x :: p') as [|b bs] eqn:Ebs.
  { by destruct l. }
  by apply (HF (bs ++ r)).
Qed.

Lemma put_loop_heap item rep fuel h os above t key :
  length os = length h -> placed h os above t -> wf (erase h t) ->
  node_ok h os above key -> turns (erase h t) (slice_read h key) <= fuel ->
  exists h' os' t' ins, put_loop fuel h t key item rep = Ok (h', t', ins) /\
    put_loop fuel tt (erase h t) (slice_read h key) item rep = Ok (tt, erase h' t', ins) /\
    placed h' os' above t' /\ step h os (outside above (bytes h t)) h' os'.
Proof.
  revert h os above t key. induction fuel as [|fuel IH]; intros h os above t key Hl Hp Hwf Hk Hfuel.
  { unfold turns in Hfuel. destruct (slice_read h key); cbn in Hfuel; lia. }
  cbn [put_loop rd go_slices value_slices sub_from]. unfold longestCommonPrefixLength. rewrite erase_bytes.
  destruct (common_spec (slice_read h key) (bytes h t)) as (l & k' & p' & Ek & Ep & -> & Hdiff).
  pose proof (read_length _ _ _ _ Hk) as Hkl. rewrite Ek, length_app in Hkl.
  set (key' := mkSlice _ _ _ _).
  assert (Ek' : slice_read h key' = k') by (unfold key'; rewrite (read_sub_from h key (length l)), Ek; apply drop_app_length).
  assert (Hk' : node_ok h os (above ++ l) key').
  { replace l with (take (length l) (slice_read h key)) at 1 by (by rewrite Ek, take_app_length).
    apply node_ok_sub_from; [done | lia]. }
  rewrite Ek, drop_app_length. destruct p' as [|x p'].
  - rewrite app_nil_r in Ep. rewrite Ep, Nat.ltb_irrefl. rewrite <- Ep in Hk'.
    rewrite Ek'. destruct k' as [|b r].
    + rewrite erase_insert_item. destruct (insert_item item rep t) as [t' ins] eqn:E. cbn [prod_map id].
      exists h, os, t', ins. split; [done|]. split; [done|]. split; [by eapply placed_insert_item|].
      split; [done | apply keeps_refl].
    + pose proof Hwf as [Hs Hall]%wf_unfold. rewrite erase_children in *.
      rewrite erase_next. destruct (next_spec _ b Hs) as [[En _] | (i & c & En & Hi & Hb)];
        rewrite erase_next in En; destruct (next h b (children t)) as [[[j d]|]| |] eqn:Enx; try done; cbn in En.
      * cbn [exec_bind]. destruct (append_children_heap item rep (length (slice_read h key')) h os above t key')
          as (t' & ins & E & Ev & Hp'); [done..|]. rewrite Ek' in E, Ev. rewrite E, Ev. cbn [exec_bind].
        exists h, os, t', ins. do 3 (split; [done|]). split; [done | apply keeps_refl].
      * cbn [exec_bind fmap option_fmap option_map prod_map id]. injection En as -> <-.
        pose proof (next_lookup _ _ _ _ _ Enx) as Hj. clear Hi.
        pose proof Hp as [_ Hcs]%placed_unfold. rewrite Forall_lookup in Hcs. rewrite Forall_lookup in Hall. cbn [fst snd].
        assert (Hwd : wf (erase h d)) by (apply (Hall i); by rewrite map_lookup, Hj).
        destruct (IH h os (above ++ bytes h t) d key') as (h1 & os1 & d' & ins & E & Ev & Hd' & [Hl1 Hk1]);
          [done | by eapply Hcs | done | done | |].
        { rewrite Ek'. apply (turns_child (erase h t)) with l; [by rewrite erase_bytes| |done]. by rewrite <- Ek. }
        rewrite Ek' in Ev. rewrite E, Ev. cbn [exec_bind].
        destruct (placed_replace h os h1 os1 above t i d d' Hp Hwf Hj Hk1 Hd') as [Hp' Ee].
        eexists h1, os1, _, ins. split; [done|]. split; [by rewrite Ee, erase_children|]. split; [done|].
        split; [done|]. eapply keeps_mono; [done|]. intros F HF. rewrite Ep. apply outside_child; [|done].
        rewrite erase_bytes in Hb. by destruct (bytes h d).
  - rewrite Ep, (proj2 (Nat.ltb_lt _ _)) by (rewrite length_app; cbn; lia).
    destruct (put_split_heap item rep h os above t l x p' key' k' Hl Hp Hwf Ep Hk' Ek' Hdiff)
      as (h1 & os1 & t1 & t' & ins & -> & -> & -> & -> & Hp' & Hst). rewrite Ep in Hst. by exists h1, os1, t', ins.
Qed.

Lemma put_heap item rep h os t key :
  length os = length h -> placed h os [] t -> wf_root (erase h t) -> node_ok h os [] key ->
  exists h' os' t' ins, put h t (Some key) item rep = Ok (h', t', ins) /\
    put tt (erase h t) (Some (slice_read h key)) item rep = Ok (tt, erase h' t', ins) /\
    length os' = length h' /\ placed h' os' [] t'.
Proof.
  intros Hl Hp [Hwf Hnil] Hk. unfold put. rewrite erase_prefix in *.
  destruct (prefix t) as [s|] eqn:Et; cbn [fmap option_fmap option_map].
  - destruct (put_loop_heap item rep (Datatypes.S (length (slice_read h key))) h os [] t key)
      as (h' & os' & t' & ins & E & Ev & Hp' & [Hl' _]); [done..| |].
    { unfold turns. case_match; lia. }
    exists h', os', t', ins. done.
  - destruct (Hnil eq_refl) as [Hi Hc]. rewrite erase_item in Hi. rewrite erase_children in Hc. destruct t as [q i cs]. cbn in Et, Hi, Hc.
    apply map_eq_nil in Hc. subst q i cs. change (erase h (mkTrie None None [])) with (mkTrie None None [] : VTrie Item).
    cbn [rd go_slices value_slices]. pose proof (read_length _ _ _ _ Hk) as Hkl.
    destruct (length (slice_read h key) <=? DefaultMaxPrefixPerNode) eqn:E4.
    + change (set_prefix (Some key) (mkTrie None None [])) with (leaf key).
      change (set_prefix (Some (slice_read h key)) (mkTrie None None [])) with (erase h (leaf key)).
      rewrite erase_insert_item. destruct (insert_item item rep (leaf key)) as [t' ins] eqn:E.
      cbn [prod_map id]. exists h, os, t', ins. split; [done|]. split; [done|]. split; [done|].
      eapply placed_insert_item; [done|]. by apply placed_leaf.
    + apply Nat.leb_gt in E4. set (k4 := sub_to key DefaultMaxPrefixPerNode). set (k' := sub_from key DefaultMaxPrefixPerNode).
      assert (Er4 : slice_read h k4 = take DefaultMaxPrefixPerNode (slice_read h key)) by (apply read_sub_to; lia).
      assert (Er' : slice_read h k' = drop DefaultMaxPrefixPerNode (slice_read h key)) by apply read_sub_from.
      destruct (append_children_heap item rep (length (slice_read h key)) h os [] (leaf k4) k') as (t' & ins & E & Ev & Hp').
      { apply placed_leaf. apply node_ok_sub_to; [done | lia]. }
      { unfold bytes. cbn [prefix leaf set_prefix octets rd go_slices]. rewrite Er4. apply node_ok_sub_from; [done | lia]. }
      { rewrite Er', length_drop. lia. }
      change (set_prefix (Some k4) (mkTrie None None [])) with (leaf k4). rewrite E. cbn [exec_bind].
      cbn [sub_to sub_from value_slices]. rewrite <- Er4, <- Er'.
      change (set_prefix (Some (slice_read h k4)) (mkTrie None None [])) with (erase h (leaf k4)). rewrite Ev.
      exists h, os, t', ins. done.
Qed.

(** ** Deletion *)

Lemma reorder_same t : reorder t t.
Proof.
  induction t as [p i cs IH] using GTrie_ind'. apply (reorder_node _ _ _ cs); [done|].
  induction IH; constructor; done.
Qed.

(** A walk leaves the trie it walked, with children reordered. *)
Lemma walk_loop_reorder {St} (visitor : list Z -> Item -> St -> St * option visit_error) h down pre cs st cs' st' e :
  (forall pre c st below st' e, c ∈ cs -> down pre (children c) st = Ok (below, st', e) ->
     reorder c (set_children below c)) ->
  walk_loop visitor h down pre cs st = Ok (cs', st', e) -> Forall2 reorder cs cs'.
Proof.
  revert st cs' st' e. induction cs as [|c cs IH]; intros st cs' st' e Hd E; cbn [walk_loop] in E; [by injection E as <- _ _|].
  assert (IH' : forall st cs' st' e, walk_loop visitor h down pre cs st = Ok (cs', st', e) -> Forall2 reorder cs cs').
  { intros. eapply IH; [|done]. intros. eapply Hd; [by right | done]. }
  assert (Hrefl : Forall2 reorder cs cs) by (clear; induction cs; constructor; [apply reorder_same | done]).
  destruct (match Item_ c with Some i => _ | None => _ end) as [st1 [[|msg]|]].
  - destruct (walk_loop visitor h down pre cs st1) as [[[rest st2] e']| |] eqn:Ew; [|done..]. cbn in E.
    injection E as <- _ _. constructor; [apply reorder_same | by eapply IH'].
  - injection E as <- _ _. constructor; [apply reorder_same | done].
  - destruct (down _ (children c) st1) as [[[below st2] e1]| |] eqn:Ed; [|done..]. cbn in E.
    pose proof (Hd _ _ _ _ _ _ ltac:(left) Ed) as Hc. destruct e1 as [e1|].
    + injection E as <- _ _. by constructor.
    + destruct (walk_loop visitor h down pre cs st2) as [[[rest st3] e']| |] eqn:Ew; [|done..]. cbn in E.
      injection E as <- _ _. constructor; [done | by eapply IH'].
Qed.

Lemma walk_children_reorder {St} (visitor : list Z -> Item -> St -> St * option visit_error) fuel h pre cs st cs' st' e :
  walk_children visitor fuel h pre cs st = Ok (cs', st', e) ->
  exists cs1, cs ≡ₚ cs1 /\ Forall2 reorder cs1 cs'.
Proof.
  revert pre cs st cs' st' e. induction fuel as [|fuel IH]; intros pre cs st cs' st' e E; [done|]. cbn [walk_children] in E.
  exists (sort_children h cs). split; [symmetry; apply merge_sort_Permutation|].
  eapply walk_loop_reorder; [|done]. intros pre' c st1 below st2 e1 _ Ed.
  apply IH in Ed as (cs1 & Hp & Hr). destruct c. by apply (reorder_node _ _ _ cs1).
Qed.

Lemma empty_reorder h t t' e : empty h t = Ok (t', e) -> reorder t t'.
Proof.
  unfold empty, walk. intros E. destruct (Item_ t) as [v|]; cbn in E.
  - injection E as <- _. apply reorder_same.
  - destruct (walk_children _ _ h _ _ true) as [[[cs st2] e']| |] eqn:Ew; [|done..]. cbn in E. injection E as <- _.
    apply walk_children_reorder in Ew as (cs1 & Hp & Hr). destruct t. by apply (reorder_node _ _ _ cs1).
Qed.

Lemma placed_reorder h os above t t' : reorder t t' -> placed h os above t -> placed h os above t'.
Proof.
  revert above t'. induction t as [p i cs IH] using GTrie_ind'. intros above t' Hr Hp.
  inversion_clear Hr as [? ? ? cs1 cs' Hperm Hall]. apply placed_unfold in Hp as [Ho Hcs]. apply placed_unfold.
  cbn [prefix children] in *. split; [done|].
  change (bytes h (mkTrie p i cs')) with (octets h p). change (bytes h (mkTrie p i cs)) with (octets h p) in Hcs.
  rewrite Hperm in IH, Hcs. clear Hperm. induction Hall as [|c c' cs1 cs' Hc _ IHall]; [constructor|].
  inversion_clear IH as [|? ? Hc1 Hcs1]. inversion_clear Hcs as [|? ? Hp1 Hp2]. constructor; [by apply Hc1 | by apply IHall].
Qed.
End Placed.
