(* ===== verification/PatriciaHeapDelete.v ===== *)
(** * Deletion from a Patricia trie in the heap

    [Delete] merges up to two nodes, each time appending to a prefix in place.
    The lemmas follow it step by step and show that it does to the heap trie
    what it does to the trie of octets, panics included. *)

From S2P Require Import Prelude PatriciaDB.
From stdpp Require Import sorting.
From S2P Require Import PatriciaDB PatriciaMap PatriciaWalk PatriciaDelete PatriciaAlias PatriciaHeap.

Open Scope nat_scope.

Section HeapDelete.
Context {Item : Type} `{Growth}.
Implicit Types (h : Heap) (os : list (list Z)) (t c : GTrie Item) (cs : list (GTrie Item)) (above : list Z).

(** The heap step [m] does what the step [v] on octets does, on a trie
    [above] octets below the root. *)
Definition mirrors h os above (safe : list Z -> Prop) (m : exec (Heap * GTrie Item)) (v : exec (unit * VTrie Item)) : Prop :=
  match v with
  | Ok (_, vt) => exists h' os' t', m = Ok (h', t') /\ vt = erase h' t' /\ placed h' os' above t' /\ step h os safe h' os'
  | Panic => m = Panic
  | Hang => m = Hang
  end.

Lemma placed_set_children h os above t cs :
  placed h os above t -> Forall (placed h os (above ++ bytes h t)) cs -> placed h os above (set_children cs t).
Proof.
  rewrite (placed_unfold h os above t), (placed_unfold h os above (set_children _ _)).
  by intros [Ho _].
Qed.

Lemma placed_children h os above t i c :
  placed h os above t -> children t !! i = Some c -> placed h os (above ++ bytes h t) c.
Proof. intros [_ Hall]%placed_unfold Hi. rewrite Forall_lookup in Hall. by eapply Hall. Qed.

Lemma placed_set_child h os above t i c :
  placed h os above t -> placed h os (above ++ bytes h t) c ->
  placed h os above (set_children (<[i := c]> (children t)) t).
Proof.
  intros Hp Hc. apply placed_set_children; [done|]. apply Forall_insert; [|done].
  by apply placed_unfold in Hp as [_ ?].
Qed.

Lemma remove_all (Q : GTrie Item -> Prop) h c cs cs' : remove h c cs = Ok cs' -> Forall Q cs -> Forall Q cs'.
Proof.
  revert cs'. induction cs as [|d cs IH]; intros cs' E Hall; cbn in E; [done|].
  inversion_clear Hall. destruct (first h d) as [b'| |], (first h c) as [b| |]; cbn in E; try done.
  destruct (b' =? b)%Z; [by injection E as <-|]. destruct (remove h c cs) as [cs1| |]; cbn in E; [|done..].
  injection E as <-. constructor; [done | by apply IH].
Qed.

Lemma replace_all (Q : GTrie Item -> Prop) h b c cs cs' :
  PatriciaDB.replace h b c cs = Ok cs' -> Q c -> Forall Q cs -> Forall Q cs'.
Proof.
  intros E Hc. revert cs' E. induction cs as [|d cs IH]; intros cs' E Hall; cbn in E; [injection E as <-; constructor|].
  inversion_clear Hall. destruct (first h d) as [b'| |]; cbn in E; try done.
  destruct (b' =? b)%Z; [injection E as <-; by constructor|].
  destruct (PatriciaDB.replace h b c cs) as [cs1| |]; cbn in E; [|done..].
  injection E as <-. constructor; [done | by apply IH].
Qed.

Lemma erase_reset h t : erase h (reset t) = reset (erase h t).
Proof. by destruct t. Qed.

Lemma wf_set_item_erase h i t : wf (erase h t) -> wf (erase h (set_item i t)).
Proof. by destruct t. Qed.

(** The end of a deletion: the answer of [empty] decides. *)
Lemma delete_root_heap h os t :
  length os = length h -> placed h os [] t -> wf (erase h t) ->
  mirrors h os [] (fun _ => False) (delete_root h t) (delete_root tt (erase h t)).
Proof.
  intros Hl Hp Hwf. unfold delete_root. rewrite <- erase_set_item. set (node := set_item None t).
  assert (Hpn : placed h os [] node) by (by apply placed_set_item).
  assert (Hwn : wf (erase h node)) by (by apply wf_set_item_erase).
  assert (Hend : forall h' os' x, placed h' os' [] x -> step h os (fun _ => False) h' os' ->
    mirrors h os [] (fun _ => False)
      (let! (node, isEmpty) := empty h' x in Ok (h', if isEmpty then reset node else node))
      (let! (node, isEmpty) := empty tt (erase h' x) in Ok (tt, if isEmpty then reset node else node))).
  { intros h' os' x Hx Hst. rewrite erase_empty. destruct (empty h' x) as [[x' e]| |] eqn:Ee; cbn; [|done..].
    pose proof (placed_reorder _ _ _ _ _ (empty_reorder _ _ _ _ Ee) Hx) as Hx'.
    eexists h', os', _. split; [done|]. destruct e; [rewrite erase_reset|]; (split; [done|]); (split; [|done]); [|done].
    apply placed_unfold. split; [done | constructor]. }
  destruct (compact_heap h os [] node Hl Hpn Hwn) as [[-> ->] | (h' & os' & c & d & -> & -> & _ & _ & Hc & [Hl' Hk])];
    cbn [default from_option id].
  - apply (Hend h os); [done|]. split; [done | apply keeps_refl].
  - apply (Hend h' os'); [done|]. split; [done|]. eapply keeps_mono; [done|]. done.
Qed.

Lemma outside_undisturbed above bs bs1 bs' F :
  outside above bs F -> undisturbed (above ++ bs ++ bs1) bs' F.
Proof.
  destruct bs as [|b bs]; [done|]. intros Ho. left. intros x r ->.
  apply (Ho ((bs ++ bs1) ++ x :: r)). by rewrite <- !app_assoc.
Qed.

(** The removal of an empty node from its parent. *)
Lemma finish_heap h0 os0 safe h os above parent node (isEmpty : bool) :
  step h0 os0 safe h os -> placed h os above parent ->
  mirrors h0 os0 above safe
    (if isEmpty then let! cs := remove h node (children parent) in Ok (h, set_children cs parent) else Ok (h, parent))
    (if isEmpty then let! vcs := remove tt (erase h node) (children (erase h parent)) in
                     Ok (tt, set_children vcs (erase h parent)) else Ok (tt, erase h parent)).
Proof.
  intros Hst Hp. destruct isEmpty; [|by exists h, os, parent].
  rewrite erase_children, erase_remove. destruct (remove h node (children parent)) as [cs| |] eqn:E; cbn; [|done..].
  exists h, os, (set_children cs parent). split; [done|]. split; [by rewrite erase_set_children|]. split; [|done].
  apply placed_set_children; [done|]. eapply remove_all; [done|]. by apply placed_unfold in Hp as [_ ?].
Qed.

Lemma only_child_reorder x t t' :
  reorder (set_children [x] t) t' -> exists x' : GTrie Item, children t' = [x'] /\ reorder x x'.
Proof.
  destruct t as [p it cs]. intros Hr. inversion_clear Hr as [? ? ? cs1 cs' Hp Hall].
  apply Permutation_singleton_l in Hp. subst cs1. inversion_clear Hall as [|? x' ? ? Hx Hnil].
  inversion_clear Hnil. by exists x'.
Qed.

Section Child.
Variables (h : Heap) (os : list (list Z)) (above : list Z) (parent : GTrie Item) (i : nat) (node : GTrie Item).
Hypothesis (Hl : length os = length h) (Hp : placed h os above parent) (Hwf : wf (erase h parent))
  (Hi : children parent !! i = Some node).

Let node0 := set_item None node.
Let parent0 := set_children (<[i := node0]> (children parent)) parent.

Lemma node0_placed : placed h os (above ++ bytes h parent) node0.
Proof. apply placed_set_item. by eapply placed_children. Qed.

Lemma erase_node_at_i : children (erase h parent) !! i = Some (erase h node).
Proof. by rewrite erase_children, map_lookup, Hi. Qed.

Lemma node_wf_heap : wf (erase h node).
Proof.
  apply wf_unfold in Hwf as [_ Hall]. rewrite Forall_lookup in Hall. by apply (Hall i), erase_node_at_i.
Qed.

Lemma node_nonempty : exists b q, bytes h node = b :: q.
Proof.
  rewrite <- erase_bytes. apply wf_unfold in Hwf as [Hs _]. apply (siblings_nonempty _ _ Hs).
  eapply list_elem_of_lookup_2, erase_node_at_i.
Qed.

Lemma bytes_node0 h' : bytes h' node0 = bytes h' node.
Proof. unfold node0. by destruct node. Qed.

Lemma wf_parent0 : wf (erase h parent0).
Proof.
  unfold parent0, node0. rewrite erase_set_children, map_insert, <- erase_children, erase_set_item.
  apply (wf_replace _ i (erase h node)); [done | apply erase_node_at_i | by destruct (erase h node)|].
  pose proof node_wf_heap as Hw. by destruct (erase h node).
Qed.

Lemma parent0_placed : placed h os above parent0.
Proof. apply placed_set_child; [done | apply node0_placed]. Qed.

(** The node stays: nothing was written. *)
Lemma delete_child_heap_kept :
  compact h node0 = (h, None) -> compact tt (erase h node0) = (tt, None) ->
  mirrors h os above (outside above (bytes h parent)) (delete_child h i parent) (delete_child tt i (erase h parent)).
Proof.
  intros Ec Ev. unfold delete_child. rewrite Hi, erase_node_at_i. cbn [of_option exec_bind].
  rewrite <- erase_set_item. fold node0. rewrite Ec, Ev.
  rewrite erase_children, <- map_insert, <- erase_set_children. fold parent0.
  rewrite erase_empty. destruct (empty h node0) as [[node' e]| |] eqn:Ee; cbn [exec_bind]; [|done..].
  rewrite erase_children, <- map_insert, <- erase_set_children.
  apply (finish_heap h os _ h os); [split; [done | apply keeps_refl]|].
  apply placed_set_child; [apply parent0_placed|]. eapply placed_reorder; [by eapply empty_reorder|].
  replace (bytes h parent0) with (bytes h parent); [apply node0_placed|]. unfold parent0. by destruct parent.
Qed.

(** The trie after the node was merged into its child [c]. *)
Lemma merged_heap h1 os1 c d :
  children node0 = [d] -> bytes h1 c = bytes h node0 ++ bytes h d ->
  placed h1 os1 (above ++ bytes h parent) c ->
  step h os (undisturbed ((above ++ bytes h parent) ++ bytes h node0) (bytes h d)) h1 os1 ->
  placed h1 os1 (above ++ bytes h parent) node0 /\ erase h1 node0 = erase h node0 /\
  placed h1 os1 above parent0 /\ erase h1 parent0 = erase h parent0 /\ bytes h1 parent0 = bytes h parent.
Proof.
  intros Hd Hbc Hc [Hl1 Hk].
  pose proof node0_placed as Hp0. pose proof Hp0 as [Ho Hall]%placed_unfold. rewrite Hd in Hall.
  inversion_clear Hall as [|? ? Hpd _].
  destruct (opt_keeps _ _ _ _ _ _ (prefix node0) Hk Ho) as [Ho1 Eo1].
  { left. intros x r E. apply (f_equal length) in E. rewrite !length_app in E. unfold bytes in E. cbn in E. lia. }
  destruct (placed_keeps _ _ _ _ _ _ d Hk Hpd) as [Hpd1 Ed1].
  { intros r. right. exists [], r. by rewrite app_nil_r. }
  assert (Eb1 : bytes h1 node0 = bytes h node0) by exact Eo1.
  assert (Hp1 : placed h1 os1 (above ++ bytes h parent) node0).
  { apply placed_unfold. rewrite Eb1, Hd. split; [done | by repeat constructor]. }
  assert (Ee1 : erase h1 node0 = erase h node0).
  { clear -Eo1 Ed1 Hd. destruct node0 as [p it cs]. cbn in Hd, Eo1. subst cs. cbn. rewrite Ed1.
    f_equal. destruct p; [cbn in *; by rewrite Eo1 | done]. }
  split; [done|]. split; [done|].
  destruct (placed_replace h os h1 os1 above parent i node node0 Hp Hwf Hi) as [Hpp Eep]; [|done|].
  { eapply keeps_mono; [done|]. intros F HF. rewrite bytes_node0. apply undisturbed_outside; [|done].
    destruct node_nonempty as (b & q & ->). done. }
  split; [done|]. assert (E : erase h1 parent0 = erase h parent0).
  { unfold parent0. rewrite Eep, Ee1, erase_set_children, map_insert, erase_children. done. }
  split; [done|]. rewrite <- erase_bytes, E, erase_bytes. unfold parent0. by destruct parent.
Qed.

(** The parent with [c] in the place of the node. *)
Lemma merged_parent h1 os1 c b q :
  compact tt (erase h node0) = (tt, Some (erase h1 c)) -> erase h1 node0 = erase h node0 -> bytes h1 node0 = b :: q ->
  head (bytes h1 c) = Some b -> placed h1 os1 (above ++ bytes h parent) c ->
  placed h1 os1 above parent0 -> erase h1 parent0 = erase h parent0 -> bytes h1 parent0 = bytes h parent ->
  exists cs1, PatriciaDB.replace h1 b c (children parent0) = Ok cs1 /\
    map (erase h1) cs1 = <[i := erase h1 c]> (map (erase h1) (children parent0)) /\
    placed h1 os1 above (set_children cs1 parent0) /\ wf (erase h1 (set_children cs1 parent0)) /\
    bytes h1 (set_children cs1 parent0) = bytes h parent.
Proof.
  intros Ev Ee1 Eb0 Hbc Hpc Hpp1 Eep1 Ebp1.
  pose proof wf_parent0 as Hw0. rewrite <- Eep1 in Hw0. pose proof Hw0 as [Hs0 _]%wf_unfold.
  assert (Hi0g : children parent0 !! i = Some node0).
  { unfold parent0. destruct parent. cbn. apply list_lookup_insert_eq. by eapply lookup_lt_Some. }
  assert (Hi0 : children (erase h1 parent0) !! i = Some (erase h1 node0)) by (by rewrite erase_children, map_lookup, Hi0g).
  pose proof (replace_spec _ i _ (erase h1 c) b Hs0 Hi0) as Er.
  rewrite erase_bytes, Eb0 in Er. specialize (Er eq_refl). rewrite erase_children, erase_replace in Er.
  destruct (PatriciaDB.replace h1 b c (children parent0)) as [cs1| |] eqn:Erg; [|done..]. cbn [exec_bind] in *.
  assert (Ecs1 : map (erase h1) cs1 = <[i := erase h1 c]> (map (erase h1) (children parent0))) by congruence.
  exists cs1. split; [done|]. split; [done|]. split; [|split].
  - apply placed_set_children; [done|]. eapply replace_all; [done | by rewrite Ebp1|].
    by apply placed_unfold in Hpp1 as [_ ?].
  - rewrite erase_set_children, Ecs1, <- erase_children.
    apply (wf_replace _ i (erase h1 node0)); [done | done | by rewrite !erase_bytes, Hbc, Eb0|].
    destruct (compacted_spec (erase h1 node0)) as (_ & Hwc & _).
    + rewrite Ee1. apply wf_set_item_erase, node_wf_heap.
    + unfold compacted in Hwc. rewrite Ee1, Ev in Hwc. done.
  - rewrite <- Ebp1. by destruct parent0.
Qed.

(** The node with the merged child is read the same after the parent has been
    merged as well. *)
Lemma merged_node_erased h1 os1 h2 os2 m (d : GTrie Item) :
  placed h1 os1 (above ++ bytes h parent) node0 -> bytes h1 node0 = bytes h node0 ->
  keeps h1 os1 h2 os2 (undisturbed (above ++ bytes h parent) (bytes h node0 ++ bytes h d)) ->
  erase h2 (set_children [m] node0) = set_children [erase h2 m] (erase h1 node0).
Proof.
  intros [Ho1 _]%placed_unfold Eb1 Hk2. destruct (opt_keeps _ _ _ _ _ _ (prefix node0) Hk2 Ho1) as [_ Eo2].
  - right. exists (bytes h d), []. change (octets h1 (prefix node0)) with (bytes h1 node0).
    by rewrite Eb1, app_nil_r, <- !app_assoc.
  - clear -Eo2. destruct node0 as [p it cs]. cbn in *. unfold set_children. cbn. f_equal.
    destruct p; [cbn in *; by rewrite Eo2 | done].
Qed.

(** The rest of the deletion, from the heap in which the node was merged. *)
Lemma delete_child_heap_merged h1 os1 c d :
  compact h node0 = (h1, Some c) -> compact tt (erase h node0) = (tt, Some (erase h1 c)) ->
  children node0 = [d] -> bytes h1 c = bytes h node0 ++ bytes h d ->
  placed h1 os1 (above ++ bytes h parent) c ->
  step h os (undisturbed ((above ++ bytes h parent) ++ bytes h node0) (bytes h d)) h1 os1 ->
  mirrors h os above (outside above (bytes h parent)) (delete_child h i parent) (delete_child tt i (erase h parent)).
Proof.
  intros Ec Ev Hd Hbc Hpc Hst1.
  destruct (merged_heap h1 os1 c d Hd Hbc Hpc Hst1) as (Hp1 & Ee1 & Hpp1 & Eep1 & Ebp1).
  destruct Hst1 as [Hl1 Hk1]. destruct node_nonempty as (b & q & Eb).
  assert (En0 : bytes h1 node0 = bytes h node0) by (by rewrite <- erase_bytes, Ee1, erase_bytes).
  assert (Eb0 : bytes h1 node0 = b :: q) by (by rewrite En0, bytes_node0).
  assert (Hout1 : keeps h os h1 os1 (outside above (bytes h parent))).
  { eapply keeps_mono; [done|]. intros F HF. rewrite <- app_assoc. by apply outside_undisturbed. }
  unfold delete_child. rewrite Hi, erase_node_at_i. cbn [of_option exec_bind].
  rewrite <- erase_set_item. fold node0. rewrite Ec, Ev.
  rewrite erase_children, <- map_insert, <- erase_set_children. fold parent0.
  rewrite <- Ee1, <- Eep1. unfold first. rewrite erase_bytes, Eb0. cbn [head of_option exec_bind].
  rewrite (erase_children h1 parent0), erase_replace.
  destruct (merged_parent h1 os1 c b q) as (cs1 & -> & Ecs1 & Hp1' & Hw1 & Eb1); try done.
  { by rewrite Hbc, bytes_node0, Eb. }
  cbn [exec_bind]. rewrite <- erase_set_children. set (parent1 := set_children cs1 parent0) in *.
  destruct (compact_heap h1 os1 above parent1 Hl1 Hp1' Hw1) as
    [[-> ->] | (h2 & os2 & m & dd & -> & -> & Hdd & _ & Hpm & [Hl2 Hk2])]; cbn [default from_option id].
  - assert (Ex : set_children [erase h1 c] (erase h1 node0) = erase h1 (set_children [c] node0)) by (by rewrite erase_set_children).
    rewrite Ex, erase_empty. destruct (empty h1 (set_children [c] node0)) as [[node' e]| |] eqn:Ee; cbn [exec_bind]; [|done..].
    destruct (only_child_reorder _ _ _ (empty_reorder _ _ _ _ Ee)) as (x' & Hx' & Hr).
    rewrite erase_children, Hx'. cbn [map head of_option exec_bind].
    rewrite (erase_children h1 parent1), <- map_insert, <- erase_set_children.
    apply (finish_heap h os _ h1 os1); [split; done|]. apply placed_set_child; [done|].
    eapply placed_reorder; [done|]. by rewrite Eb1.
  - assert (Edd : bytes h1 dd = bytes h1 c).
    { change (children parent1) with (children (set_children cs1 parent0)) in Hdd.
      assert (cs1 = [dd]) as -> by (by destruct parent0).
      apply (f_equal (lookup i)) in Ecs1. rewrite list_lookup_insert_eq in Ecs1.
      - destruct i as [|j]; [|done]. cbn in Ecs1. injection Ecs1 as E1. by rewrite <- erase_bytes, E1, erase_bytes.
      - rewrite length_map. unfold parent0. destruct parent. cbn. rewrite length_insert. by eapply lookup_lt_Some. }
    rewrite Eb1, Edd, Hbc in Hk2. rewrite <- (merged_node_erased h1 os1 h2 os2 m d Hp1 En0 Hk2), erase_empty.
    destruct (empty h2 (set_children [m] node0)) as [[node' e]| |] eqn:Ee; cbn [exec_bind]; [|done..].
    destruct (only_child_reorder _ _ _ (empty_reorder _ _ _ _ Ee)) as (x' & Hx' & Hr).
    rewrite erase_children, Hx'. cbn [map head of_option exec_bind].
    apply (finish_heap h os _ h2 os2); [|by eapply placed_reorder].
    split; [done|]. eapply keeps_trans; [done|]. eapply keeps_mono; [done|]. intros F HF.
    rewrite <- (app_nil_r (bytes h parent)). by apply outside_undisturbed.
Qed.

(** [Delete] of the item of a child does to the heap what it does to the
    octets. *)
Lemma delete_child_heap_at :
  mirrors h os above (outside above (bytes h parent)) (delete_child h i parent) (delete_child tt i (erase h parent)).
Proof.
  destruct (compact_heap h os (above ++ bytes h parent) node0 Hl node0_placed) as
    [[Ec Ev] | (h1 & os1 & c & d & Ec & Ev & Hd & Hb & Hc & Hst)].
  - apply wf_set_item_erase, node_wf_heap.
  - by apply delete_child_heap_kept.
  - by apply (delete_child_heap_merged h1 os1 c d).
Qed.
End Child.

(** A step that is mirrored below a position is mirrored at the top. *)
Lemma at_node_heap f fv pos h os above t :
  (forall above t, placed h os above t -> wf (erase h t) ->
     mirrors h os above (outside above (bytes h t)) (f t) (fv (erase h t))) ->
  placed h os above t -> wf (erase h t) ->
  mirrors h os above (outside above (bytes h t)) (at_node f pos t) (at_node fv pos (erase h t)).
Proof.
  intros Hf. revert above t. induction pos as [|j pos IH]; intros above t Hp Hwf; cbn [at_node]; [by apply Hf|].
  rewrite erase_children, map_lookup. destruct (children t !! j) as [d|] eqn:Hj; [|done]. cbn [fmap option_fmap option_map of_option exec_bind].
  pose proof Hwf as [Hs Hall]%wf_unfold. rewrite erase_children in Hs, Hall.
  assert (Hd : map (erase h) (children t) !! j = Some (erase h d)) by (by rewrite map_lookup, Hj).
  assert (Hwd : wf (erase h d)) by (rewrite Forall_lookup in Hall; by eapply Hall).
  assert (Hne : bytes h d <> []).
  { destruct (siblings_nonempty _ (erase h d) Hs) as (b & q & E); [by eapply list_elem_of_lookup_2|].
    rewrite erase_bytes in E. by rewrite E. }
  specialize (IH _ d (placed_children _ _ _ _ _ _ Hp Hj) Hwd). unfold mirrors in *.
  destruct (at_node fv pos (erase h d)) as [[u vd]| |]; cbn [exec_bind]; [|by rewrite IH..].
  destruct IH as (h' & os' & d' & -> & -> & Hpd & [Hl' Hk]). cbn [exec_bind].
  assert (Hk' : keeps h os h' os' (outside above (bytes h t))).
  { eapply keeps_mono; [done|]. intros F HF. by apply outside_child. }
  destruct (placed_replace h os h' os' above t j d d' Hp Hwf Hj Hk Hpd) as [Hpt Et].
  eexists h', os', _. split; [done|]. by rewrite Et, erase_children.
Qed.

(** [Delete] does to the heap what it does to the octets. *)
Lemma Delete_heap h os t key :
  length os = length h -> placed h os [] t -> wf_root (erase h t) ->
  match Delete tt (erase h t) (Some (slice_read h key)) with
  | Ok (_, vt, r) => exists h' os' t', Delete h t (Some key) = Ok (h', t', r) /\ vt = erase h' t' /\
                       length os' = length h' /\ placed h' os' [] t'
  | Panic => Delete h t (Some key) = Panic
  | Hang => Delete h t (Some key) = Hang
  end.
Proof.
  intros Hl Hp [Hwf _]. unfold Delete. rewrite erase_prefix.
  destruct (prefix t) as [s|]; cbn [fmap option_fmap option_map]; [|by exists h, os, t].
  unfold findSubtree. cbn [rd go_slices value_slices]. rewrite erase_find.
  destruct (find_loop _ h t (slice_read h key)) as [[[pos found] rest]| |]; cbn [exec_bind]; [|done..].
  destruct (negb _); [by exists h, os, t|]. rewrite erase_node_at.
  destruct (node_at pos t) as [node|]; cbn [fmap option_fmap option_map of_option exec_bind]; [|done].
  rewrite erase_item. destruct (Item_ node); [|by exists h, os, t].
  assert (Hm : exists safe, mirrors h os [] safe
     (match last pos with None => delete_root h t | Some i => at_node (delete_child h i) (removelast pos) t end)
     (match last pos with None => delete_root tt (erase h t)
      | Some i => at_node (delete_child tt i) (removelast pos) (erase h t) end)).
  { destruct (last pos) as [k|]; eexists; [|by apply delete_root_heap].
    apply at_node_heap; [|done..]. intros above x Hx Hwx. destruct (children x !! k) as [c|] eqn:Hi.
    - by eapply delete_child_heap_at.
    - unfold delete_child. by rewrite erase_children, map_lookup, Hi. }
  destruct Hm as [safe Hm]. unfold mirrors in Hm.
  match goal with |- context [exec_bind ?v _] => destruct v as [[u vt]| |] end; cbn [exec_bind]; [|by rewrite Hm..].
  destruct Hm as (h' & os' & t' & -> & -> & Hp' & [Hl' _]). by exists h', os', t'.
Qed.
End HeapDelete.
