(* ===== verification/PatriciaRefine.v ===== *)
(** * The Patricia trie as a database

    The callers of the trie give it a key that they built for the call.  The
    requests below are run on the heap, where every key is a new array with
    some slack behind it, and compared with a finite map ([map_answer],
    [map_effect]).  [trie_serve] is what the trie answers to any request: as the
    map, except that [Delete] of a key that is not stored may remove a stored
    prefix of it, that [Delete] may panic on a trie from which something was
    deleted before, and that the longest-prefix lookup of a key that is not
    stored may return nothing, or an item stored under a key that is not shorter
    than the one asked for.  Requests that avoid these cases ([asked_well]) are
    answered as by the map. *)

From S2P Require Import Prelude PatriciaDB.
From stdpp Require Import sorting.
From S2P Require Import PatriciaDB PatriciaMap PatriciaWalk PatriciaDelete PatriciaLongest PatriciaAlias PatriciaHeap PatriciaHeapDelete.

Open Scope nat_scope.

Inductive request (Item : Type) :=
| RInsert (k slack : list Z) (item : option Item)
| RSet (k slack : list Z) (item : option Item)
| RGet (k : list Z)
| RDelete (k slack : list Z)
| RLongest (k : list Z)
| RVisit.
Arguments RInsert {Item} _ _ _.
Arguments RSet {Item} _ _ _.
Arguments RGet {Item} _.
Arguments RDelete {Item} _ _.
Arguments RLongest {Item} _.
Arguments RVisit {Item}.

Inductive answer (Item : Type) :=
| ADone
| ABool (b : bool)
| AItem (o : option Item)
| AEntries (es : list (list Z * Item)).
Arguments ADone {Item}.
Arguments ABool {Item} _.
Arguments AItem {Item} _.
Arguments AEntries {Item} _.

Section Database.
Context {Item : Type} `{Growth}.
Implicit Types (h : Heap) (t : GTrie Item) (m : gmap (list Z) Item) (r : request Item) (k : list Z).

(** A key in an array of its own. *)
Definition new_key h (k slack : list Z) : Slice := mkSlice (length h) 0 (length k) (length (k ++ slack)).

(** A visitor that notes what it sees. *)
Definition collect (k : list Z) (v : Item) (es : list (list Z * Item)) : list (list Z * Item) * option visit_error :=
  (es ++ [(k, v)], None).

Definition serve h t r : exec (Heap * GTrie Item * answer Item) :=
  match r with
  | RInsert k slack item =>
      let! (h, t, b) := Insert (h ++ [k ++ slack]) t (Some (new_key h k slack)) item in Ok (h, t, ABool b)
  | RSet k slack item =>
      let! (h, t) := Set_ (h ++ [k ++ slack]) t (Some (new_key h k slack)) item in Ok (h, t, ADone)
  | RGet k => let! o := Get h t k in Ok (h, t, AItem o)
  | RDelete k slack =>
      let! (h, t, b) := Delete (h ++ [k ++ slack]) t (Some (new_key h k slack)) in Ok (h, t, ABool b)
  | RLongest k => let! o := GetLongestPrefixNode h t k in Ok (h, t, AItem o)
  | RVisit => let! (t, es, _) := Visit collect h t [] in Ok (h, t, AEntries es)
  end.

Fixpoint serve_all h t (rs : list (request Item)) : exec (Heap * GTrie Item * list (answer Item)) :=
  match rs with
  | [] => Ok (h, t, [])
  | r :: rs =>
      let! (h, t, a) := serve h t r in
      let! (h, t, l) := serve_all h t rs in
      Ok (h, t, a :: l)
  end.

(** ** The finite map *)

Definition stored (o : option Item) : option Item -> option Item := fun _ => o.

Definition map_effect m r : gmap (list Z) Item :=
  match r with
  | RInsert k _ item => partial_alter (put_value false item) k m
  | RSet k _ item => partial_alter (stored item) k m
  | RDelete k _ => delete k m
  | RGet _ | RLongest _ | RVisit => m
  end.

(** The item of the longest of the first [n] octets and fewer that is stored. *)
Fixpoint longest_prefix m k (n : nat) : option Item :=
  match m !! take n k, n with
  | Some v, _ => Some v
  | None, O => None
  | None, S n => longest_prefix m k n
  end.

Inductive map_answer m : request Item -> answer Item -> Prop :=
| map_insert k s item : map_answer m (RInsert k s item) (ABool (put_answer false (m !! k)))
| map_set k s item : map_answer m (RSet k s item) ADone
| map_get k : map_answer m (RGet k) (AItem (m !! k))
| map_delete k s : map_answer m (RDelete k s) (ABool (bool_decide (is_Some (m !! k))))
| map_longest k : map_answer m (RLongest k) (AItem (longest_prefix m k (length k)))
| map_visit es :
    StronglySorted key_lt es -> (forall k v, (k, v) ∈ es <-> m !! k = Some v) ->
    map_answer m RVisit (AEntries es).

Definition map_run m (rs : list (request Item)) : gmap (list Z) Item := fold_left map_effect rs m.

Inductive map_answers m : list (request Item) -> list (answer Item) -> Prop :=
| map_end : map_answers m [] []
| map_next r a rs l : map_answer m r a -> map_answers (map_effect m r) rs l -> map_answers m (r :: rs) (a :: l).

(** ** What the trie does *)

(** The answer of the longest-prefix lookup. *)
Inductive trie_longest m k : option Item -> Prop :=
| longest_found n v :
    n <= length k -> m !! take n k = Some v ->
    (forall j, n < j <= length k -> m !! take j k = None) -> trie_longest m k (Some v)
| longest_none : (forall j, j <= length k -> m !! take j k = None) -> trie_longest m k None
| longest_lost : m !! k = None -> trie_longest m k None
| longest_wrong k' v : m !! k = None -> length k <= length k' -> m !! k' = Some v -> trie_longest m k (Some v).

Inductive trie_serve m : request Item -> gmap (list Z) Item -> answer Item -> Prop :=
| trie_insert k s item :
    trie_serve m (RInsert k s item) (partial_alter (put_value false item) k m) (ABool (put_answer false (m !! k)))
| trie_set k s item : trie_serve m (RSet k s item) (partial_alter (stored item) k m) ADone
| trie_get k : trie_serve m (RGet k) m (AItem (m !! k))
| trie_refused k s : m !! k = None -> trie_serve m (RDelete k s) m (ABool false)
| trie_deleted k s : m !! k <> None -> trie_serve m (RDelete k s) (delete k m) (ABool true)
| trie_deleted_above k0 b k s :
    m !! (k0 ++ b :: k) = None -> m !! k0 <> None ->
    trie_serve m (RDelete (k0 ++ b :: k) s) (delete k0 m) (ABool true)
| trie_longest_prefix k o : trie_longest m k o -> trie_serve m (RLongest k) m (AItem o)
| trie_visit es :
    StronglySorted key_lt es -> (forall k v, (k, v) ∈ es <-> m !! k = Some v) ->
    trie_serve m RVisit m (AEntries es).

Inductive trie_serve_all m : list (request Item) -> gmap (list Z) Item -> list (answer Item) -> Prop :=
| trie_end : trie_serve_all m [] m []
| trie_next r m1 a rs m2 l :
    trie_serve m r m1 a -> trie_serve_all m1 rs m2 l -> trie_serve_all m (r :: rs) m2 (a :: l).

(** ** The relation *)

(** The trie [t] in the heap [h] holds the map [m]. *)
Definition represents h t m : Prop :=
  (exists os, length os = length h /\ placed h os [] t) /\ wf_root (erase h t) /\
  forall k, den (erase h t) k = m !! k.

Lemma represents_new : represents [] NewTrie ∅.
Proof.
  split; [exists []; split; [done|]; by apply placed_unfold|].
  split; [|intros k; rewrite lookup_empty; by destruct k]. split; [|done].
  apply wf_unfold. split; [|constructor]. split; [constructor|]. apply not_elem_of_nil.
Qed.

Lemma read_new_key h k slack : slice_read (h ++ [k ++ slack]) (new_key h k slack) = k.
Proof. unfold slice_read. cbn. by rewrite array_new, drop_0, take_app_length. Qed.

(** The caller builds a key. *)
Lemma represents_alloc h os t k slack :
  length os = length h -> placed h os [] t ->
  let h' := h ++ [k ++ slack] in
  let os' := os ++ [[]] in
  length os' = length h' /\ placed h' os' [] t /\ erase h' t = erase h t /\
  node_ok h' os' [] (new_key h k slack).
Proof.
  intros Hl Hp h' os'. split; [unfold h', os'; rewrite !length_app; cbn; lia|].
  destruct (placed_keeps h os h' os' (fun _ => True) [] t) as [Hp' E];
    [by apply keeps_alloc | done | done|].
  split; [done|]. split; [done|]. apply node_ok_new; [done|]. rewrite length_app. lia.
Qed.

Lemma put_represents rep item h t m k slack :
  represents h t m ->
  exists h' t', put (h ++ [k ++ slack]) t (Some (new_key h k slack)) item rep = Ok (h', t', put_answer rep (m !! k)) /\
    represents h' t' (partial_alter (put_value rep item) k m) /\
    (item <> None -> live_root (erase h t) -> live_root (erase h' t')).
Proof.
  intros ((os & Hl & Hp) & Hwf & Hm). destruct (represents_alloc h os t k slack Hl Hp) as (Hl1 & Hp1 & E1 & Hk).
  destruct (put_heap item rep _ _ t (new_key h k slack) Hl1 Hp1) as (h' & os' & t' & ins & -> & Ev & Hl' & Hp'); [by rewrite E1 | done|].
  rewrite E1, read_new_key in Ev.
  destruct (put_spec rep item (erase h t) k Hwf) as (vt & ins' & Ev' & [_ Hup Ha] & Hwf' & Hlive).
  rewrite Ev in Ev'. injection Ev' as <- <-. rewrite Hm in Ha. subst ins.
  exists h', t'. split; [done|]. split; [|done]. split; [by exists os'|]. split; [done|].
  intros k'. rewrite Hup, Hm, lookup_partial_alter. case_decide as Hd.
  - subst. by rewrite decide_True.
  - by rewrite decide_False by (by intros ->).
Qed.

Lemma get_represents h t m k : represents h t m -> Get h t k = Ok (m !! k).
Proof. intros (_ & [Hwf _] & Hm). by rewrite <- erase_Get, Get_den, Hm. Qed.

Lemma delete_point vt vt' k m :
  (forall k, den vt k = m !! k) -> point_update k None vt vt' -> forall k', den vt' k' = delete k m !! k'.
Proof.
  intros Hm Hup k'. rewrite Hup, Hm, lookup_delete. case_decide as Hd.
  - subst. by rewrite decide_True.
  - by rewrite decide_False by (by intros ->).
Qed.

(** The deletion, from what it does to the octets. *)
Lemma delete_represents h t m k slack :
  represents h t m ->
  let d := Delete (h ++ [k ++ slack]) t (Some (new_key h k slack)) in
  match Delete tt (erase h t) (Some k) with
  | Ok (_, vt, b) => exists h' t', d = Ok (h', t', b) /\ vt = erase h' t' /\ exists os', length os' = length h' /\ placed h' os' [] t'
  | Panic => d = Panic
  | Hang => d = Hang
  end.
Proof.
  intros ((os & Hl & Hp) & Hwf & Hm) d. destruct (represents_alloc h os t k slack Hl Hp) as (Hl1 & Hp1 & E1 & Hk).
  pose proof (Delete_heap _ _ t (new_key h k slack) Hl1 Hp1) as Hd. rewrite E1, read_new_key in Hd.
  specialize (Hd Hwf). fold d in Hd. destruct (Delete tt (erase h t) (Some k)) as [[[u vt] b]| |]; [|done..].
  destruct Hd as (h' & os' & t' & ? & ? & ? & ?). by exists h', t'; repeat (split; [done|]); exists os'.
Qed.

Lemma path_in_den pos (vt : VTrie Item) node v :
  wf vt -> node_at pos vt = Some node -> Item_ node = Some v -> den vt (path_to pos vt) = Some v.
Proof. intros Hwf Hn Hv. by rewrite (den_path pos vt node). Qed.

Lemma longest_represents h t m k :
  represents h t m -> exists o, GetLongestPrefixNode h t k = Ok o /\ trie_longest m k o.
Proof.
  intros (_ & [Hwf _] & Hm). destruct (longest_spec (erase h t) k Hwf) as (o & E & Ho).
  exists o. rewrite <- erase_GetLongest. split; [done|].
  destruct Ho as [[[-> Hn] | (n & Hle & Hs & Hd & Hmax)] | (Hk & pos & node & Hn & -> & Hle)].
  - apply longest_none. intros j Hj. by rewrite <- Hm, Hn.
  - destruct o as [v|]; [|done]. apply (longest_found m k n); [done | by rewrite <- Hm | intros; by rewrite <- Hm, Hmax].
  - rewrite Hm in Hk. destruct (Item_ node) as [v|] eqn:Ev; [|by apply longest_lost].
    apply (longest_wrong m k (path_to pos (erase h t)) v); [done | done|]. rewrite <- Hm. by eapply path_in_den.
Qed.

Lemma visits_collect es st : visits collect [] es st = st ++ es.
Proof.
  revert st. induction es as [|[k v] es IH]; intros st; [by rewrite app_nil_r|].
  change (visits collect [] es (st ++ [(k, v)]) = st ++ (k, v) :: es). by rewrite IH, <- app_assoc.
Qed.

Lemma erase_reorder h t vt : reorder (erase h t) vt -> wf_root (erase h t) -> wf_root vt.
Proof.
  intros Hr [Hwf Hnil]. destruct (reorder_alike _ _ Hr) as [Hw _ _]. split; [by apply Hw|].
  inversion Hr as [p i cs cs1 cs' Hp Hall E1 E2]. subst vt. rewrite <- E1 in Hnil. cbn in *.
  intros Hn. destruct (Hnil Hn) as [-> ->]. split; [done|]. apply Permutation_nil_l in Hp. subst cs1. by inversion Hall.
Qed.

Lemma Visit_reorder {St} (visitor : list Z -> Item -> St -> St * option visit_error) h t st t' st' e :
  Visit visitor h t st = Ok (t', st', e) -> reorder t t'.
Proof.
  unfold Visit, walk. destruct (match Item_ t with Some i => _ | None => _ end) as [st1 [[|msg]|]]; intros E;
    [injection E as <- _ _; apply reorder_same..|].
  destruct (walk_children _ _ h _ _ st1) as [[[cs st2] e']| |] eqn:Ew; [|done..]. cbn in E. injection E as <- _ _.
  apply walk_children_reorder in Ew as (cs1 & Hp & Hr). destruct t. by apply (reorder_node _ _ _ cs1).
Qed.

(** A visit calls the visitor on the entries of the map in the order of their
    keys. *)
Lemma visit_represents {St} (visitor : list Z -> Item -> St -> St * option visit_error) h t m st :
  (forall k v st, snd (visitor k v st) = None) -> represents h t m ->
  exists t' es, Visit visitor h t st = Ok (t', visits visitor [] es st, None) /\ represents h t' m /\
    (live_root (erase h t) -> live_root (erase h t')) /\
    StronglySorted key_lt es /\ (forall k v, (k, v) ∈ es <-> m !! k = Some v).
Proof.
  intros Hv ((os & Hl & Hp) & Hwf & Hm). pose proof Hwf as [Hw _].
  destruct (visit_spec visitor Hv (erase h t) st Hw) as (vt & es & E & Hr & Hs & He).
  rewrite erase_Visit in E. destruct (Visit visitor h t st) as [[[t' st'] e]| |] eqn:Ev; [|done..].
  cbn in E. injection E as <- -> ->. exists t', es. split; [done|].
  destruct (reorder_alike _ _ Hr) as [_ Hsame Hlive]. specialize (Hsame Hw).
  split; [split; [|split]|split; [|split]].
  - exists os. split; [done|]. eapply placed_reorder; [by eapply Visit_reorder | done].
  - by eapply erase_reorder.
  - intros k. by rewrite Hsame, Hm.
  - intros [Hlv Hh]. split; [by apply Hlive|]. destruct Hh as [Hn | (k & v & Hk)].
    + left. rewrite erase_prefix in *. apply Visit_reorder in Ev. by inversion Ev; subst.
    + right. exists k, v. by rewrite Hsame.
  - done.
  - intros k v. by rewrite He, Hm.
Qed.

(** ** One request *)

Definition is_delete r : bool := match r with RDelete _ _ => true | _ => false end.

(** Requests that leave no dead end behind. *)
Definition gentle r : bool :=
  match r with RInsert _ _ None | RSet _ _ None | RDelete _ _ => false | _ => true end.

Lemma serve_represents h t m r :
  represents h t m ->
  (exists h' t' a m', serve h t r = Ok (h', t', a) /\ trie_serve m r m' a /\ represents h' t' m' /\
     (gentle r = true -> live_root (erase h t) -> live_root (erase h' t'))) \/
  (serve h t r = Panic /\ is_delete r = true /\ ~ live (erase h t)).
Proof.
  intros Hrep. destruct r as [k s item|k s item|k|k s|k|]; cbn [serve].
  - left. destruct (put_represents false item h t m k s Hrep) as (h' & t' & E & Hr & Hlive).
    unfold Insert. rewrite E. cbn. eexists h', t', _, _. split; [done|]. split; [constructor|]. split; [done|].
    intros Hg. apply Hlive. by destruct item.
  - left. destruct (put_represents true item h t m k s Hrep) as (h' & t' & E & Hr & Hlive).
    unfold Set_. rewrite E. cbn. eexists h', t', _, _. split; [done|]. split; [constructor|]. split; [done|].
    intros Hg. apply Hlive. by destruct item.
  - left. rewrite (get_represents h t m k Hrep). eexists h, t, _, _. split; [done|]. split; [constructor | done].
  - pose proof (delete_represents h t m k s Hrep) as Hd. destruct Hrep as (_ & Hwf & Hm).
    destruct (Delete_spec (erase h t) k Hwf) as [Hn | k0 r vt Hk Hk0 Hno Hw Hup | Hdead]; cbv zeta beta iota in Hd.
    + destruct Hd as (h' & t' & -> & Ee & os' & Hl & Hp). left. eexists h', t', _, m. split; [done|].
      split; [constructor; by rewrite <- Hm|]. split; [|done]. rewrite Ee in Hwf, Hm. split; [by exists os' | done].
    + destruct Hd as (h' & t' & -> & -> & os' & Hl & Hp). left. eexists h', t', _, (delete k0 m). split; [done|].
      rewrite Hm in Hk0. subst k. split; [|split; [|done]].
      * destruct r as [|b r]; [rewrite app_nil_r; by constructor|]. constructor; [|done]. rewrite <- Hm. by apply Hno.
      * split; [by exists os'|]. split; [done|]. by eapply delete_point.
    + right. by rewrite Hd.
  - left. destruct (longest_represents h t m k Hrep) as (o & -> & Ho). eexists h, t, _, _. split; [done|].
    split; [by constructor | done].
  - left. destruct (visit_represents collect h t m [] (fun _ _ _ => eq_refl) Hrep) as (t' & es & -> & Hr & Hlive & Hs & He).
    cbn. rewrite visits_collect. eexists h, t', _, m. split; [done|]. split; [by constructor|]. done.
Qed.

Lemma serve_all_represents rs h t m :
  represents h t m ->
  (exists h' t' l m', serve_all h t rs = Ok (h', t', l) /\ trie_serve_all m rs m' l /\ represents h' t' m' /\
     (forallb gentle rs = true -> live_root (erase h t) -> live_root (erase h' t'))) \/
  (serve_all h t rs = Panic /\ 
     exists rs0 r rs1, rs = rs0 ++ r :: rs1 /\ is_delete r = true /\
       (live_root (erase h t) -> forallb gentle rs0 = false)).
Proof.
  revert h t m. induction rs as [|r rs IH]; intros h t m Hrep; cbn [serve_all].
  { left. exists h, t, [], m. split; [done|]. split; [constructor | done]. }
  destruct (serve_represents h t m r Hrep) as [(h1 & t1 & a & m1 & -> & Hs & Hr & Hg) | (-> & Hd & Hdead)]; cbn [exec_bind].
  - destruct (IH h1 t1 m1 Hr) as [(h2 & t2 & l & m2 & -> & Hss & Hr2 & Hg2) | (-> & Hp)]; cbn [exec_bind].
    + left. exists h2, t2, (a :: l), m2. split; [done|]. split; [by econstructor|]. split; [done|].
      cbn. rewrite andb_true_iff. intros [? ?] ?. auto.
    + right. split; [done|]. destruct Hp as (rs0 & d & rs1 & -> & Hd & Hn).
      exists (r :: rs0), d, rs1. split; [done|]. split; [done|]. intros Hlive. cbn.
      destruct (gentle r) eqn:Eg; [|done]. by apply Hn, Hg.
  - right. split; [done|]. exists [], r, rs. split; [done|]. split; [done|]. by intros [Hlive _].
Qed.

(** Requests without deletion and nil items change the contents as the map. *)
Lemma gentle_contents rs m m' l :
  trie_serve_all m rs m' l -> forallb gentle rs = true -> m' = map_run m rs.
Proof.
  induction 1 as [m|m r m1 a rs m2 l Hs _ IH]; [done|]. cbn [forallb]. rewrite andb_true_iff. intros [Hr Hrs].
  unfold map_run. cbn [fold_left]. rewrite IH by done. unfold map_run. f_equal. by destruct Hs.
Qed.

End Database.

(** ** What the trie promises *)

Section Claims.
Context {Item : Type} `{Growth}.
Implicit Types (h : Heap) (t : GTrie Item) (m : gmap (list Z) Item) (rs : list (request Item)) (k : list Z).

Lemma live_new : live_root (erase [] (NewTrie : GTrie Item)).
Proof. split; [by apply live_unfold; constructor | by left]. Qed.

(** Every node of a trie without dead ends has an item at or below it. *)
Lemma live_below pos (vt node : VTrie Item) :
  wf vt -> live_root vt -> node_at pos vt = Some node -> prefix vt <> None ->
  exists r v, den vt (path_to pos vt ++ r) = Some v.
Proof.
  intros Hwf [Hl Hh] Hn Hp. destruct Hh as [|Hh]; [done|]. clear Hp.
  assert (Hitem : has_item node).
  { revert vt Hwf Hl Hh Hn. induction pos as [|i pos IH]; intros vt Hwf Hl Hh Hn; cbn in Hn; [congruence|].
    destruct (children vt !! i) as [c|] eqn:Ei; [|done]. apply live_unfold in Hl. apply wf_unfold in Hwf as [_ Hw].
    rewrite Forall_lookup in Hl, Hw. destruct (Hl i c Ei). eapply IH; [by eapply Hw | done..]. }
  destruct Hitem as (k & v & Hk). exists (drop (length (bytes tt node)) k), v.
  pose proof Hk as Hk'. rewrite den_unfold in Hk. destruct (strip (bytes tt node) k) as [r|] eqn:Es; [|done].
  apply strip_Some in Es. subst k. rewrite drop_app_length. destruct r as [|b r].
  - rewrite app_nil_r. by rewrite (den_path pos vt node).
  - by rewrite (den_path_app pos vt node).
Qed.

(** [o] is the item of the longest stored prefix of [q], nil when none is. *)
Definition longest_in m (q : list Z) (o : option Item) : Prop :=
  (o = None /\ forall j, j <= length q -> m !! take j q = None) \/
  exists n v, o = Some v /\ n <= length q /\ m !! take n q = Some v /\
    forall j, n < j <= length q -> m !! take j q = None.

Lemma longest_in_prefix m q o : longest_in m q o -> o = longest_prefix m q (length q).
Proof.
  assert (Hnone : forall n, (forall j, j <= n -> m !! take j q = None) -> longest_prefix m q n = None).
  { induction n as [|n IH]; intros Hn; cbn; rewrite (Hn _ (le_n _)); [done|]. apply IH. intros. apply Hn. lia. }
  assert (Hfound : forall n v d, m !! take n q = Some v -> (forall j, n < j <= n + d -> m !! take j q = None) ->
    longest_prefix m q (n + d) = Some v).
  { intros n v d Hv. induction d as [|d IH]; intros Hn.
    - rewrite Nat.add_0_r. destruct n; cbn [longest_prefix]; by rewrite Hv.
    - rewrite Nat.add_succ_r. cbn [longest_prefix]. rewrite Hn by lia. apply IH. intros. apply Hn. lia. }
  intros [[-> Hn] | (n & v & -> & Hle & Hv & Hmax)]; [by rewrite Hnone|].
  replace (length q) with (n + (length q - n)) by lia. symmetry. apply Hfound; [done|]. intros. apply Hmax. lia.
Qed.

(** The lookup is exact for a stored key and, without dead ends, for a key
    longer than all that are stored. *)
Lemma longest_exact h t m q :
  represents h t m ->
  m !! q <> None \/ (live_root (erase h t) /\ forall k v, m !! k = Some v -> length k < length q) ->
  exists o, serve h t (RLongest q) = Ok (h, t, AItem o) /\ longest_in m q o.
Proof.
  intros Hr Hq. pose proof Hr as (_ & Hwf & Hm). pose proof Hwf as [Hw _].
  destruct (longest_spec (erase h t) q Hw) as (o & Eo & Ho). exists o. cbn [serve].
  rewrite <- erase_GetLongest, Eo. split; [done|].
  destruct Ho as [[[-> Hn] | (n & Hle & Hsm & Hd & Hmax)] | (Hk & pos & node & Hn & -> & Hle)].
  - left. split; [done|]. intros j Hj. by rewrite <- Hm, Hn.
  - right. destruct o as [v|]; [|done]. exists n, v. split; [done|]. split; [done|].
    split; [by rewrite <- Hm | intros; by rewrite <- Hm, Hmax].
  - rewrite Hm in Hk. destruct Hq as [Hq|[Hl Hq]]; [done|]. destruct (prefix (erase h t)) as [p|] eqn:Ep.
    + destruct (live_below pos _ node Hw Hl Hn) as (r & v & Hv); [congruence|]. rewrite Hm in Hv.
      apply Hq in Hv. rewrite length_app in Hv. lia.
    + left. split; [|intros; rewrite <- Hm; by apply wf_root_nil].
      destruct (Item_ node) as [v|] eqn:Ev; [|done].
      by rewrite <- (wf_root_nil _ (path_to pos (erase h t)) Hwf Ep), (path_in_den pos _ node v).
Qed.

(** The requests the trie answers as the map does: [Delete] of a stored key,
    and the longest-prefix lookup of a stored key or, while [clean] (nothing
    was deleted and no nil item inserted), of a key longer than all that are
    stored.  Everything else is answered as by the map at any time. *)
Definition request_ok (clean : bool) m (r : request Item) : Prop :=
  match r with
  | RDelete k _ => m !! k <> None
  | RLongest q => m !! q <> None \/ (clean = true /\ forall k v, m !! k = Some v -> length k < length q)
  | _ => True
  end.

Fixpoint asked_well (clean : bool) m rs : Prop :=
  match rs with
  | [] => True
  | r :: rs => request_ok clean m r /\ asked_well (clean && gentle r) (map_effect m r) rs
  end.

Lemma serve_exact clean h t m r :
  represents h t m -> (clean = true -> live_root (erase h t)) -> request_ok clean m r ->
  (exists h' t' a, serve h t r = Ok (h', t', a) /\ map_answer m r a /\ represents h' t' (map_effect m r) /\
     (clean && gentle r = true -> live_root (erase h' t'))) \/
  (serve h t r = Panic /\ is_delete r = true /\ clean = false).
Proof.
  intros Hrep Hl Hok.
  destruct (serve_represents h t m r Hrep) as [(h' & t' & a & m' & E & Hs & Hr & Hg) | (E & Hd & Hdead)].
  2: { right. split; [done|]. split; [done|]. destruct clean; [|done]. by destruct (Hl eq_refl). }
  left. exists h', t'.
  assert (Hlive : clean && gentle r = true -> live_root (erase h' t')).
  { rewrite andb_true_iff. intros [Hc Hr']. auto. }
  assert (Hdone : map_answer m r a -> m' = map_effect m r -> exists a, serve h t r = Ok (h', t', a) /\
    map_answer m r a /\ represents h' t' (map_effect m r) /\ (clean && gentle r = true -> live_root (erase h' t'))).
  { intros Ha <-. by exists a. }
  destruct Hs as [k s item|k s item|k|k s Hn|k s Hn|k0 b k s Hn Hk0|k o Ho|es Hs He]; cbn [request_ok] in Hok;
    try done; try (by apply Hdone; [constructor|]).
  - apply Hdone; [|done]. rewrite <- (bool_decide_true (is_Some (m !! k))); [constructor|].
    destruct (m !! k); [by eexists | done].
  - destruct (longest_exact h t m k Hrep) as (o' & E' & Ho'); [destruct Hok as [|[]]; auto|].
    rewrite E' in E. injection E as <- <- <-. apply Hdone; [|done].
    rewrite (longest_in_prefix m k o' Ho'). constructor.
Qed.

Lemma serve_all_exact rs clean h t m :
  represents h t m -> (clean = true -> live_root (erase h t)) -> asked_well clean m rs ->
  (exists h' t' l, serve_all h t rs = Ok (h', t', l) /\ map_answers m rs l /\ represents h' t' (map_run m rs)) \/
  (serve_all h t rs = Panic /\
     exists rs0 r rs1, rs = rs0 ++ r :: rs1 /\ is_delete r = true /\ clean && forallb gentle rs0 = false).
Proof.
  revert clean h t m. induction rs as [|r rs IH]; intros clean h t m Hrep Hl Hok; cbn [serve_all].
  { left. exists h, t, []. split; [done|]. by split; [constructor|]. }
  destruct Hok as [Hr Hrs].
  destruct (serve_exact clean h t m r Hrep Hl Hr) as [(h1 & t1 & a & -> & Ha & Hrep1 & Hl1) | (-> & Hd & Hc)]; cbn [exec_bind].
  - destruct (IH _ h1 t1 _ Hrep1 Hl1 Hrs) as [(h2 & t2 & l & -> & Has & Hrep2) | (-> & rs0 & d & rs1 & -> & Hd & Hc)]; cbn [exec_bind].
    + left. exists h2, t2, (a :: l). split; [done|]. split; [by constructor | done].
    + right. split; [done|]. exists (r :: rs0), d, rs1. split; [done|]. split; [done|]. cbn. by rewrite andb_assoc.
  - right. split; [done|]. exists [], r, rs. split; [done|]. split; [done|]. by rewrite Hc.
Qed.

(** C3: Requests served from an empty trie, in which [Delete] is only asked for
    stored keys and the longest-prefix lookup only for stored keys or, as long
    as nothing was deleted and no nil item inserted, for keys longer than all
    that are stored, are answered exactly as by a finite map, and leave the
    trie representing it; nothing runs forever, and nothing panics but a
    [Delete] after an earlier [Delete] or after the insertion of a nil item. *)
Theorem trie_serves_map rs :
  asked_well true ∅ rs ->
  match serve_all [] NewTrie rs with
  | Ok (h, t, l) => map_answers ∅ rs l /\ represents h t (map_run ∅ rs)
  | Panic => exists rs0 r rs1, rs = rs0 ++ r :: rs1 /\ is_delete r = true /\ forallb gentle rs0 = false
  | Hang => False
  end.
Proof.
  intros Hok. destruct (serve_all_exact rs true [] NewTrie ∅ represents_new (fun _ => live_new) Hok) as
    [(h & t & l & -> & Hs & Hr) | (-> & rs0 & r & rs1 & -> & Hd & Hn)]; [done|].
  by exists rs0, r, rs1.
Qed.

(** Requests without a deletion and without nil items are all served, and
    leave a trie with no dead end. *)
Lemma gentle_served rs :
  forallb gentle rs = true ->
  exists h t l, serve_all [] NewTrie rs = Ok (h, t, l) /\ trie_serve_all ∅ rs (map_run ∅ rs) l /\
    represents h t (map_run ∅ rs) /\ live_root (erase h t).
Proof.
  intros Hg. destruct (serve_all_represents rs [] NewTrie ∅ represents_new) as
    [(h & t & l & m & E & Hs & Hr & Hl) | (_ & rs0 & r & rs1 & -> & _ & Hn)].
  - rewrite <- (gentle_contents rs ∅ m l Hs Hg). exists h, t, l. repeat (split; [done|]). apply Hl; [done | apply live_new].
  - rewrite forallb_app, Hn in Hg; [done | apply live_new].
Qed.

(** A removal from the octets is a removal from the map. *)
Lemma delete_removes h t m k slack k0 vt :
  represents h t m -> Delete tt (erase h t) (Some k) = Ok (tt, vt, true) ->
  wf_root vt -> point_update k0 None (erase h t) vt ->
  exists h' t', serve h t (RDelete k slack) = Ok (h', t', ABool true) /\ represents h' t' (delete k0 m).
Proof.
  intros Hrep Ed Hw Hup. pose proof (delete_represents h t m k slack Hrep) as Hd. rewrite Ed in Hd.
  destruct Hd as (h' & t' & E & -> & os' & Hl & Hp). exists h', t'. cbn [serve]. rewrite E. split; [done|].
  split; [by exists os'|]. split; [done|]. eapply delete_point; [|done]. by apply Hrep.
Qed.

(** C30: After insertions of items, [Delete] of a stored key removes that key and
    nothing else. *)
Theorem delete_stored_key rs k slack :
  forallb gentle rs = true ->
  exists h t l, serve_all [] NewTrie rs = Ok (h, t, l) /\ trie_serve_all ∅ rs (map_run ∅ rs) l /\
    (map_run ∅ rs !! k <> None ->
     exists h' t', serve h t (RDelete k slack) = Ok (h', t', ABool true) /\ represents h' t' (delete k (map_run ∅ rs))).
Proof.
  intros Hg. destruct (gentle_served rs Hg) as (h & t & l & E & Hs & Hr & Hl & _). exists h, t, l.
  split; [done|]. split; [done|]. intros Hk. pose proof Hr as (_ & Hwf & Hm).
  destruct (map_run ∅ rs !! k) as [v|] eqn:Ek; [|done].
  destruct (Delete_stored (erase h t) k v Hwf Hl) as (vt & Ed & Hw & Hup); [by rewrite Hm|].
  by eapply delete_removes.
Qed.

(** After insertions of items, [Delete] of a key that is not stored removes
    the stored key [k0] above it, and reports success, when nothing is stored
    beyond [k0] in the direction of the key. *)
Theorem delete_absent_key_removes_prefix rs k0 b k slack :
  forallb gentle rs = true ->
  exists h t l, serve_all [] NewTrie rs = Ok (h, t, l) /\ trie_serve_all ∅ rs (map_run ∅ rs) l /\
    (map_run ∅ rs !! k0 <> None -> (forall k1, map_run ∅ rs !! (k0 ++ b :: k1) = None) ->
     exists h' t', serve h t (RDelete (k0 ++ b :: k) slack) = Ok (h', t', ABool true) /\
       represents h' t' (delete k0 (map_run ∅ rs))).
Proof.
  intros Hg. destruct (gentle_served rs Hg) as (h & t & l & E & Hs & Hr & Hl & _). exists h, t, l.
  split; [done|]. split; [done|]. intros Hk Hno. pose proof Hr as (_ & Hwf & Hm).
  destruct (map_run ∅ rs !! k0) as [v|] eqn:Ek; [|done].
  destruct (Delete_above (erase h t) k0 b k v Hwf Hl) as (vt & Ed & Hw & Hup); [by rewrite Hm | intros; by rewrite Hm|].
  by eapply delete_removes.
Qed.

(** C31: After insertions of items, and nothing else that changes the trie, the
    longest-prefix lookup of a key that is stored, or that is longer than all
    that are stored, returns the item of its longest stored prefix. *)
Theorem longest_prefix_found rs q :
  forallb gentle rs = true ->
  exists h t l, serve_all [] NewTrie rs = Ok (h, t, l) /\ trie_serve_all ∅ rs (map_run ∅ rs) l /\
    (map_run ∅ rs !! q <> None \/ (forall k v, map_run ∅ rs !! k = Some v -> length k < length q) ->
     exists o, serve h t (RLongest q) = Ok (h, t, AItem o) /\ longest_in (map_run ∅ rs) q o).
Proof.
  intros Hg. destruct (gentle_served rs Hg) as (h & t & l & E & Hs & Hr & Hl). exists h, t, l.
  split; [done|]. split; [done|]. intros Hq. apply longest_exact; [done|]. destruct Hq; auto.
Qed.
End Claims.

(** ** Runs

    With an allocator that reserves nothing beyond the need. *)

#[local] Instance tight : Growth := fun _ _ => 0.

Notation key := (list Z).

Definition answers (rs : list (request nat)) : exec (list (answer nat)) :=
  let! (_, _, l) := serve_all [] NewTrie rs in Ok l.

Definition ins (k : key) (v : nat) : request nat := RInsert k [] (Some v).

(** Four keys are inserted and deleted again, and the last [Delete] panics.
    The first three leave an empty node for [1.2.3] below the one for [1.2];
    the last merges the node for [1.2] into it and the root into the result,
    finds nothing stored, and asks the merged root, which has no child, to
    remove the node. *)
Theorem delete_panics :
  answers [ins [1;2;3;4]%Z 1; ins [1;2;3;9]%Z 2; ins [1;2]%Z 3; ins [1;9]%Z 4;
           RDelete [1;9]%Z []; RDelete [1;2;3;4]%Z []; RDelete [1;2;3;9]%Z []] =
    Ok [ABool true; ABool true; ABool true; ABool true; ABool true; ABool true; ABool true] /\
  answers [ins [1;2;3;4]%Z 1; ins [1;2;3;9]%Z 2; ins [1;2]%Z 3; ins [1;9]%Z 4;
           RDelete [1;9]%Z []; RDelete [1;2;3;4]%Z []; RDelete [1;2;3;9]%Z []; RDelete [1;2]%Z []] = Panic.
Proof. split; vm_compute; reflexivity. Qed.

(** The longest-prefix lookup of [1.5] returns nil although its prefix [1] is
    stored, and returns the item of [1.3] although that is no prefix of it. *)
Theorem longest_prefix_lost :
  answers [ins [1]%Z 1; ins [1;3;7]%Z 2; ins [1;3;9]%Z 3; RLongest [1;5]%Z] =
    Ok [ABool true; ABool true; ABool true; AItem None] /\
  answers [ins [1]%Z 1; ins [1;3]%Z 2; RLongest [1;5]%Z] = Ok [ABool true; ABool true; AItem (Some 2)].
Proof. split; vm_compute; reflexivity. Qed.

(** A [compact] of the trie writes into the array of a key that a caller
    passed to [Insert]: after the five requests the key [1.2.3.4] of the first
    one reads [1.2.5.4].  All five are answered as by the map. *)
Theorem compact_writes_caller_key :
  exists h t, serve_all [] NewTrie
    [ins [1;2;3;4]%Z 1; ins [1;2;5;6]%Z 2; RDelete [1;2;3;4]%Z []; ins [1;2;5;7]%Z 3; ins [1;9]%Z 4] =
    Ok (h, t, [ABool true; ABool true; ABool true; ABool true; ABool true]) /\
  slice_read h (new_key [] [1;2;3;4]%Z []) = [1;2;5;4]%Z.
Proof. eexists _, _. split; vm_compute; reflexivity. Qed.

(** Three keys, of which the last is below the second. *)
Definition three_keys : list (request nat) := [ins [1;2;3;4;5;6]%Z 1; ins [1;2;7]%Z 2; ins [1;2;7;8]%Z 3].

(** A session with every kind of request. *)
Definition well_asked : list (request nat) :=
  three_keys ++ [RLongest [1;2;7;9;9;9;9]%Z; RSet [1;2;7]%Z [] (Some 4); RGet [1;2;7]%Z;
                 RDelete [1;2;7;8]%Z [0]%Z; RGet [1;2;7;8]%Z; RLongest [1;2;7]%Z; RVisit].

Lemma trie_serves_map_witness :
  exists h t l, serve_all [] NewTrie well_asked = Ok (h, t, l) /\
    l = [ABool true; ABool true; ABool true; AItem (Some 2); ADone; AItem (Some 4);
         ABool true; AItem None; AItem (Some 4); AEntries [([1;2;3;4;5;6]%Z, 1); ([1;2;7]%Z, 4)]] /\
    map_answers ∅ well_asked l /\ represents h t (map_run ∅ well_asked).
Proof.
  pose proof (trie_serves_map well_asked) as Hw.
  destruct (serve_all [] NewTrie well_asked) as [[[h t] l]| |] eqn:E; [|vm_compute in E; discriminate E..].
  exists h, t, l. split; [reflexivity|]. split; [vm_compute in E; injection E as _ _ <-; reflexivity|].
  apply Hw. cbn [asked_well well_asked three_keys app request_ok]. repeat split; try (left; vm_compute; discriminate);
    try (vm_compute; discriminate).
  right. split; [reflexivity|]. intros k v Hk.
  assert (Forall (fun e => length e.1 < 7) (map_to_list (map_run ∅ three_keys))) as Hall
    by (vm_compute; repeat constructor; lia).
  rewrite Forall_forall in Hall. apply (Hall (k, v)). by apply elem_of_map_to_list.
Defined.

Lemma delete_stored_key_witness :
  forallb gentle three_keys = true /\
  answers (three_keys ++ [RDelete [1;2;7]%Z [0]%Z; RVisit]) =
    Ok [ABool true; ABool true; ABool true; ABool true;
        AEntries [([1;2;3;4;5;6]%Z, 1); ([1;2;7;8]%Z, 3)]] /\
  exists h t l, serve_all [] NewTrie three_keys = Ok (h, t, l) /\ trie_serve_all ∅ three_keys (map_run ∅ three_keys) l /\
    (map_run ∅ three_keys !! [1;2;7]%Z <> None ->
     exists h' t', serve h t (RDelete [1;2;7]%Z [0]%Z) = Ok (h', t', ABool true) /\
       represents h' t' (delete [1;2;7]%Z (map_run ∅ three_keys))).
Proof.
  split; [reflexivity|]. split; [vm_compute; reflexivity|].
  apply (delete_stored_key three_keys [1;2;7]%Z [0]%Z). reflexivity.
Defined.

Lemma delete_absent_key_removes_prefix_witness :
  forallb gentle three_keys = true /\
  answers (three_keys ++ [RDelete [1;2;7;8;9]%Z []; RVisit]) =
    Ok [ABool true; ABool true; ABool true; ABool true;
        AEntries [([1;2;3;4;5;6]%Z, 1); ([1;2;7]%Z, 2)]] /\
  exists h t l, serve_all [] NewTrie three_keys = Ok (h, t, l) /\ trie_serve_all ∅ three_keys (map_run ∅ three_keys) l /\
    (map_run ∅ three_keys !! [1;2;7;8]%Z <> None -> (forall k1, map_run ∅ three_keys !! ([1;2;7;8]%Z ++ 9%Z :: k1) = None) ->
     exists h' t', serve h t (RDelete ([1;2;7;8]%Z ++ 9%Z :: []) []) = Ok (h', t', ABool true) /\
       represents h' t' (delete [1;2;7;8]%Z (map_run ∅ three_keys))).
Proof.
  split; [reflexivity|]. split; [vm_compute; reflexivity|].
  apply (delete_absent_key_removes_prefix three_keys [1;2;7;8]%Z 9%Z [] []). reflexivity.
Defined.

Lemma longest_prefix_found_witness :
  forallb gentle three_keys = true /\
  answers (three_keys ++ [RLongest [1;2;7;8]%Z; RLongest [1;2;7;8;9;9;9]%Z; RLongest [1;2;7;9;9;9;9]%Z]) =
    Ok [ABool true; ABool true; ABool true; AItem (Some 3); AItem (Some 3); AItem (Some 2)] /\
  exists h t l, serve_all [] NewTrie three_keys = Ok (h, t, l) /\ trie_serve_all ∅ three_keys (map_run ∅ three_keys) l /\
    (map_run ∅ three_keys !! [1;2;7;8]%Z <> None \/ (forall k v, map_run ∅ three_keys !! k = Some v -> length k < length [1;2;7;8]%Z) ->
     exists o, serve h t (RLongest [1;2;7;8]%Z) = Ok (h, t, AItem o) /\ longest_in (map_run ∅ three_keys) [1;2;7;8]%Z o).
Proof.
  split; [reflexivity|]. split; [vm_compute; reflexivity|].
  apply (longest_prefix_found three_keys [1;2;7;8]%Z). reflexivity.
Defined.
