(* ===== verification/BgpWire.v ===== *)
(** * Octets, errors and buffers of the BGP codec

    The decoders of [l3/bgp/packet] return an error value that the state
    machine turns into a NOTIFICATION: [result] is the pair of Go results with
    exactly one of them set, and a decoder is an [exec] of it, since it may
    also index out of range or loop.  The text of an error is only logged and
    is left out.  The encoders fill a buffer made beforehand: [put_at] is an
    assignment to some of its octets, which panics outside, [copy_at] is
    [copy], which stops at the end of the buffer. *)

From S2P Require Import Prelude.

Record BGPMessageError := mkMsgErr {
  TypeCode : Z;
  SubTypeCode : Z;
  Data : list Z
}.

Inductive result (A : Type) :=
| Val (a : A)
| Err (e : BGPMessageError).
Arguments Val {A} _.
Arguments Err {A} _.

Definition result_bind {A B} (m : exec (result A)) (k : A -> exec (result B)) : exec (result B) :=
  match m with
  | Ok (Val a) => k a
  | Ok (Err e) => Ok (Err e)
  | Panic => Panic
  | Hang => Hang
  end.

Notation "'let?' x ':=' m 'in' k" := (result_bind m (fun x => k))
  (at level 10, x pattern, m at level 100, k at level 200,
   format "'let?'  x  ':='  m  'in' '//' k") : go_scope.

Definition fail {A} (code sub : Z) (data : list Z) : exec (result A) := Ok (Err (mkMsgErr code sub data)).

Notation val a := (Ok (Val a)).

(** An encoder that calls another one: [None] is an error. *)
Definition encode_bind {A B} (m : exec (option A)) (k : A -> exec (option B)) : exec (option B) :=
  match m with
  | Ok (Some a) => k a
  | Ok None => Ok None
  | Panic => Panic
  | Hang => Hang
  end.

Notation "'let^' x ':=' m 'in' k" := (encode_bind m (fun x => k))
  (at level 10, x pattern, m at level 100, k at level 200,
   format "'let^'  x  ':='  m  'in' '//' k") : go_scope.

Definition to_exec {A} (m : exec A) : exec (option A) := let! a := m in Ok (Some a).

(** ** Buffers *)

Definition make (n : Z) : list Z := replicate (Z.to_nat n) 0.

Definition put_at (pkt : list Z) (i : Z) (bs : list Z) : exec (list Z) :=
  if (0 <=? i) && (i + len bs <=? len pkt)
  then Ok (take (Z.to_nat i) pkt ++ bs ++ drop (Z.to_nat i + length bs) pkt)
  else Panic.

Definition copy_at (pkt : list Z) (i : Z) (bs : list Z) : exec (list Z) :=
  if (0 <=? i) && (i <=? len pkt)
  then put_at pkt i (take (length pkt - Z.to_nat i) bs)
  else Panic.

(** [pkt[lo:hi]]. *)
Definition slice {A} (l : list A) (lo hi : Z) : exec (list A) :=
  if (lo <=? hi) then let! l := slice_to l hi in slice_from l lo else Panic.

(** [binary.BigEndian.Uint16(data[off:])]. *)
Definition uint16_at (data : list Z) (off : Z) : exec Z :=
  let! b0 := index data off in
  let! b1 := index data (off + 1) in
  Ok (Uint16 b0 b1).

(** [copy(make([]byte, n), src)]. *)
Definition copy_make (n : Z) (src : list Z) : list Z :=
  let k := Z.to_nat n in
  take k src ++ replicate (k - length src) 0.

(** [net.IP.To4]: four octets, or the last four of an IPv4-mapped address;
    [None] is nil. *)
Definition v4InV6Prefix : list Z := replicate 10 0 ++ [255; 255].

Definition To4 (ip : list Z) : option (list Z) :=
  if (length ip =? 4)%nat then Some ip
  else if (length ip =? 16)%nat && bool_decide (take 12 ip = v4InV6Prefix) then Some (drop 12 ip)
  else None.

(** ** Lemmas *)

Lemma put_at_app pre mid post bs :
  length mid = length bs -> put_at (pre ++ mid ++ post) (len pre) bs = Ok (pre ++ bs ++ post).
Proof.
  intros Hl. unfold put_at.
  assert (E : (0 <=? len pre) && (len pre + len bs <=? len (pre ++ mid ++ post)) = true).
  { rewrite !len_app. unfold len. rewrite Hl. apply andb_true_iff. split; [apply Z.leb_le | apply Z.leb_le]; lia. }
  rewrite E. unfold len. rewrite Nat2Z.id, take_app_length. do 2 f_equal.
  rewrite app_assoc, <- Hl, <- length_app, drop_app_length. done.
Qed.

Lemma put_at_make pre n bs k :
  k = len pre -> len bs <= n ->
  put_at (pre ++ make n) k bs = Ok (pre ++ bs ++ make (n - len bs)).
Proof.
  intros -> Hn. replace (make n) with (make (len bs) ++ make (n - len bs)).
  - apply put_at_app. unfold make. rewrite length_replicate. unfold len. lia.
  - unfold make. rewrite <- replicate_add. f_equal. unfold len in *. lia.
Qed.

Lemma make_0 n : n <= 0 -> make n = [].
Proof. intros. unfold make. by replace (Z.to_nat n) with 0%nat by lia. Qed.

Lemma len_make n : 0 <= n -> len (make n) = n.
Proof. intros. unfold len, make. rewrite length_replicate. lia. Qed.

Lemma uint16_at_no_hang l off : uint16_at l off <> Hang.
Proof. unfold uint16_at. repeat (apply bind_no_hang; [apply index_no_hang | intros ? _]). done. Qed.

Lemma Uint16_value b0 b1 : is_u8 b0 -> is_u8 b1 -> Uint16 b0 b1 = b0 * 2 ^ 8 + b1.
Proof. unfold is_u8, Uint16. intros. by rewrite lor_shiftl_low by lia. Qed.

Lemma Uint16_PutUint16 x : is_u16 x -> Uint16 (u8 (Z.shiftr x 8)) (u8 x) = x.
Proof.
  intros Hx. rewrite Uint16_value by auto with go.
  unfold u8, is_u16 in *. rewrite !Z.shiftr_div_pow2 by lia. Z.div_mod_to_equations. lia.
Qed.

Lemma bind_panic {A B} (m : exec A) (k : A -> exec B) : m <> Hang -> (forall a, k a = Panic) -> exec_bind m k = Panic.
Proof. intros Hm Hk. by destruct m; cbn. Qed.

Lemma slice_no_hang {A} (l : list A) lo hi : slice l lo hi <> Hang.
Proof.
  unfold slice, slice_to. case_match; [|done]. case_match; [|done]. cbn. apply slice_from_no_hang.
Qed.

(** Reading behind a known beginning. *)
Lemma index_app_r {A} (pre l : list A) k i :
  k = len pre + i -> 0 <= i -> index (pre ++ l) k = index l i.
Proof.
  intros -> Hi. unfold index. pose proof (len_nonneg pre).
  rewrite !(proj2 (Z.leb_le _ _)) by lia.
  rewrite lookup_app_r by (unfold len; lia). do 2 f_equal. unfold len. lia.
Qed.

Lemma index_hd {A} (x : A) l : index (x :: l) 0 = Ok x.
Proof. done. Qed.

Lemma index_tl {A} (x : A) l i : 0 < i -> index (x :: l) i = index l (i - 1).
Proof. intros. apply (index_app_r [x]); [change (len [x]) with 1; lia | lia]. Qed.

Lemma slice_from_app {A} (pre l : list A) k : k = len pre -> slice_from (pre ++ l) k = Ok l.
Proof.
  intros ->. unfold slice_from. rewrite len_app. pose proof (len_nonneg pre). pose proof (len_nonneg l).
  rewrite !(proj2 (Z.leb_le _ _)) by lia. unfold len. by rewrite Nat2Z.id, drop_app_length.
Qed.

Lemma slice_to_app {A} (pre l : list A) k : k = len pre -> slice_to (pre ++ l) k = Ok pre.
Proof.
  intros ->. unfold slice_to. rewrite len_app. pose proof (len_nonneg pre). pose proof (len_nonneg l).
  rewrite !(proj2 (Z.leb_le _ _)) by lia. unfold len. by rewrite Nat2Z.id, take_app_length.
Qed.

Lemma slice_mid {A} (pre l post : list A) lo hi :
  lo = len pre -> hi = len pre + len l -> slice (pre ++ l ++ post) lo hi = Ok l.
Proof.
  intros -> ->. unfold slice. pose proof (len_nonneg l). rewrite (proj2 (Z.leb_le _ _)) by lia.
  rewrite app_assoc, slice_to_app by (by rewrite len_app). cbn [exec_bind]. by apply slice_from_app.
Qed.

Lemma uint16_at_put pre x l k : k = len pre -> is_u16 x -> uint16_at (pre ++ PutUint16 x ++ l) k = Ok x.
Proof.
  intros -> Hx. unfold uint16_at. rewrite (index_app_r pre _ _ 0), (index_app_r pre _ _ 1) by lia.
  eval_index. cbn. by rewrite Uint16_PutUint16.
Qed.

Lemma uint32_at_put pre x l k : k = len pre -> is_u32 x -> uint32_at (pre ++ PutUint32 x ++ l) k = Ok x.
Proof.
  intros -> Hx. unfold uint32_at.
  rewrite (index_app_r pre _ _ 0), (index_app_r pre _ _ 1), (index_app_r pre _ _ 2), (index_app_r pre _ _ 3) by lia.
  eval_index. cbn. by rewrite Uint32_PutUint32.
Qed.

Lemma uint16_hd x l : is_u16 x -> uint16_at (PutUint16 x ++ l) 0 = Ok x.
Proof. by apply (uint16_at_put []). Qed.
Lemma uint32_hd x l : is_u32 x -> uint32_at (PutUint32 x ++ l) 0 = Ok x.
Proof. by apply (uint32_at_put []). Qed.

Lemma len_map {A B} (f : A -> B) l : len (map f l) = len l.
Proof. unfold len. by rewrite length_map. Qed.

Lemma len_PutUint16 x : len (PutUint16 x) = 2.
Proof. done. Qed.
Lemma len_PutUint32 x : len (PutUint32 x) = 4.
Proof. done. Qed.

#[export] Hint Rewrite len_PutUint16 len_PutUint32 @len_map : go_len.
#[export] Hint Resolve uint16_at_no_hang slice_no_hang : go.

(** Arithmetic with lengths and integer ranges. *)
Ltac len_lia := autorewrite with go_len in *; unfold is_u8, is_u16, is_u32 in *; lia.
