(* ===== verification/BgpOpen.v ===== *)
(** * BGP messages: header, OPEN, KEEPALIVE, NOTIFICATION

    The first half of [l3/bgp/packet/bgp.go] and the helpers that build and
    read the capabilities of an OPEN ([helpers.go], [afisafi.go]).  A buffer
    that is received has no capacity beyond its length, so a slice past the
    end panics.  A struct that embeds a base struct carries it as a field. *)

From S2P Require Import Prelude BgpWire.

(** ** Constants *)

Definition BGPASTrans : Z := 23456.
Definition BGPHeaderMarkerLen : Z := 16.
Definition BGPMsgTypeOpen : Z := 1.
Definition BGPMsgTypeUpdate : Z := 2.
Definition BGPMsgTypeNotification : Z := 3.
Definition BGPMsgTypeKeepAlive : Z := 4.
Definition BGPUpdateMsgMinLen : Z := 23.
Definition BGPMsgHeaderLen : Z := 19.
Definition BGPMsgMaxLen : Z := 4096.
Definition BGPMsgHeaderError : Z := 1.
Definition BGPOpenMsgError : Z := 2.
Definition BGPUpdateMsgError : Z := 3.
Definition BGPHoldTimerExpired : Z := 4.
Definition BGPFSMError : Z := 5.
Definition BGPCease : Z := 6.
Definition BGPUnspecific : Z := 0.
Definition BGPUnsupportedOptionalParam : Z := 4.
Definition BGPOptParamTypeCapability : Z := 2.
Definition BGPCapTypeMPExt : Z := 1.
Definition BGPCapTypeAS4Path : Z := 65.
Definition BGPCapTypeAddPath : Z := 69.
Definition BGPCapAddPathRx : Z := 1.
Definition BGPCapAddPathTx : Z := 2.

(** ** Header *)

Record BGPHeader := mkHeader { h_Length : Z; h_Type : Z }.

Definition BGPHeader_Encode (header : BGPHeader) : exec (list Z) :=
  let pkt := make 19 in
  let! pkt := put_at pkt 0 (replicate (Z.to_nat BGPHeaderMarkerLen) 255) in
  let! pkt := put_at pkt 16 (PutUint16 (h_Length header)) in
  put_at pkt 18 [h_Type header].

Definition BGPHeader_Decode (pkt : list Z) : exec (result BGPHeader) :=
  let! length := uint16_at pkt 16 in
  let! type := index pkt 18 in
  val (mkHeader length type).

Definition BGPHeader_Len (header : BGPHeader) : Z := h_Length header.

(** ** Capabilities *)

Record BGPCapabilityBase := mkCapBase { c_Type : Z; c_Len : Z }.

Record AddPathAFISAFI := mkAddPath { ap_AFI : Z; ap_SAFI : Z; ap_Flags : Z }.

Inductive BGPCapability :=
| BGPCapMPExt (base : BGPCapabilityBase) (AFI Reserved SAFI : Z)
| BGPCapAS4Path (base : BGPCapabilityBase) (Value : Z)
| BGPCapAddPath (base : BGPCapabilityBase) (Value : list AddPathAFISAFI)
| BGPCapUnknown (base : BGPCapabilityBase) (Value : list Z).

Definition cap_base (c : BGPCapability) : BGPCapabilityBase :=
  match c with
  | BGPCapMPExt b _ _ _ | BGPCapAS4Path b _ | BGPCapAddPath b _ | BGPCapUnknown b _ => b
  end.

Definition BGPCapabilityBase_TotalLen (msg : BGPCapabilityBase) : Z := u16 (c_Len msg + 2).
Definition BGPCapability_TotalLen (c : BGPCapability) : Z := BGPCapabilityBase_TotalLen (cap_base c).
Definition BGPCapability_GetCode (c : BGPCapability) : Z := c_Type (cap_base c).

Definition BGPCapabilityBase_Encode (msg : BGPCapabilityBase) : exec (list Z) :=
  let pkt := make (BGPCapabilityBase_TotalLen msg) in
  put_at pkt 0 [c_Type msg; c_Len msg].

Definition BGPCapabilityBase_Decode (pkt : list Z) : exec (result BGPCapabilityBase) :=
  if len pkt <? 2 then fail BGPOpenMsgError BGPUnspecific [] else
  let! type := index pkt 0 in
  let! length := index pkt 1 in
  let msg := mkCapBase type length in
  if len pkt <? BGPCapabilityBase_TotalLen msg then fail BGPUpdateMsgError BGPUnspecific []
  else val msg.

Definition BGPCapMPExt_Decode (pkt : list Z) : exec (result BGPCapability) :=
  let? base := BGPCapabilityBase_Decode pkt in
  let! afi := uint16_at pkt 2 in
  let! safi := index pkt 5 in
  val (BGPCapMPExt base afi 0 safi).

Definition NewBGPCapMPExt (afi safi : Z) : BGPCapability :=
  BGPCapMPExt (mkCapBase BGPCapTypeMPExt 4) afi 0 safi.

Definition BGPCapAS4Path_Decode (pkt : list Z) : exec (result BGPCapability) :=
  let? base := BGPCapabilityBase_Decode pkt in
  let! value := uint32_at pkt 2 in
  val (BGPCapAS4Path base value).

Definition NewBGPCap4ByteASPath (as_ : Z) : BGPCapability :=
  BGPCapAS4Path (mkCapBase BGPCapTypeAS4Path 4) as_.

Definition AddPathAFISAFI_Len : Z := 4.

Definition AddPathAFISAFI_Encode (a : AddPathAFISAFI) : list Z :=
  PutUint16 (ap_AFI a) ++ [ap_SAFI a; ap_Flags a].

Definition AddPathAFISAFI_Decode (pkt : list Z) : exec (result AddPathAFISAFI) :=
  if len pkt <? 4 then fail BGPOpenMsgError BGPUnspecific [] else
  let! afi := uint16_at pkt 0 in
  let! safi := index pkt 2 in
  let! flags := index pkt 3 in
  val (mkAddPath afi safi flags).

(** The offset of the encoder is an octet. *)
Fixpoint add_paths_encode (pkt : list Z) (offset : Z) (vs : list AddPathAFISAFI) : exec (list Z) :=
  match vs with
  | [] => Ok pkt
  | v :: vs =>
      let! pkt := put_at pkt offset (AddPathAFISAFI_Encode v) in
      add_paths_encode pkt (u8 (offset + AddPathAFISAFI_Len)) vs
  end.

(** Each turn advances the offset by four, up to a length of at most 255. *)
Fixpoint add_paths_decode (fuel : nat) (pkt : list Z) (length offset : Z) (value : list AddPathAFISAFI)
  : exec (result (Z * list AddPathAFISAFI)) :=
  match fuel with
  | O => Hang
  | S fuel =>
      if offset <? length then
        let! rest := slice_from pkt offset in
        let? v := AddPathAFISAFI_Decode rest in
        add_paths_decode fuel pkt length (u16 (offset + AddPathAFISAFI_Len)) (value ++ [v])
      else val (offset, value)
  end.

Definition BGPCapAddPath_Decode (pkt : list Z) : exec (result BGPCapability) :=
  let? base := BGPCapabilityBase_Decode pkt in
  let? (offset, value) := add_paths_decode 65 pkt (c_Len base) 2 [] in
  if u8 (c_Len base + 2) <? offset then fail BGPOpenMsgError BGPUnspecific []
  else val (BGPCapAddPath base value).

Definition NewBGPCapAddPath : BGPCapability := BGPCapAddPath (mkCapBase BGPCapTypeAddPath 0) [].

Definition AddAddPathAFISAFI (c : BGPCapability) (a : AddPathAFISAFI) : BGPCapability :=
  match c with
  | BGPCapAddPath base value =>
      BGPCapAddPath (mkCapBase (c_Type base) (u8 (c_Len base + AddPathAFISAFI_Len))) (value ++ [a])
  | _ => c
  end.

(** [copy] into the nil slice [Value] copies nothing. *)
Definition BGPCapUnknown_Decode (pkt : list Z) : exec (result BGPCapability) :=
  let? base := BGPCapabilityBase_Decode pkt in
  let! _ := slice pkt 2 (BGPCapabilityBase_TotalLen base) in
  val (BGPCapUnknown base []).

Definition BGPCapMPExt_Encode (base : BGPCapabilityBase) (afi safi : Z) : exec (list Z) :=
  let! pkt := BGPCapabilityBase_Encode base in
  let! pkt := put_at pkt 2 (PutUint16 afi) in
  let! pkt := put_at pkt 4 [0] in
  put_at pkt 5 [safi].

Definition BGPCapAS4Path_Encode (base : BGPCapabilityBase) (value : Z) : exec (list Z) :=
  let! pkt := BGPCapabilityBase_Encode base in
  put_at pkt 2 (PutUint32 value).

Definition BGPCapAddPath_Encode (base : BGPCapabilityBase) (value : list AddPathAFISAFI) : exec (list Z) :=
  let! pkt := BGPCapabilityBase_Encode base in
  add_paths_encode pkt 2 value.

Definition BGPCapUnknown_Encode (base : BGPCapabilityBase) (value : list Z) : exec (list Z) :=
  let! pkt := BGPCapabilityBase_Encode base in
  copy_at pkt 2 value.

Definition BGPCapability_Encode (c : BGPCapability) : exec (list Z) :=
  match c with
  | BGPCapMPExt base afi _ safi => BGPCapMPExt_Encode base afi safi
  | BGPCapAS4Path base value => BGPCapAS4Path_Encode base value
  | BGPCapAddPath base value => BGPCapAddPath_Encode base value
  | BGPCapUnknown base value => BGPCapUnknown_Encode base value
  end.

(** [GetCapParam] makes a zero capability of the type named by the first
    octet; here it gives the decoder of that type. *)
Definition GetCapParam (pkt : list Z) : exec (list Z -> exec (result BGPCapability)) :=
  let! capParamType := index pkt 0 in
  Ok (if capParamType =? BGPCapTypeMPExt then BGPCapMPExt_Decode
      else if capParamType =? BGPCapTypeAS4Path then BGPCapAS4Path_Decode
      else if capParamType =? BGPCapTypeAddPath then BGPCapAddPath_Decode
      else BGPCapUnknown_Decode).

(** ** Optional parameters *)

Record BGPOptParamBase := mkOptBase { o_Type : Z; o_Len : Z }.

Inductive BGPOptParam :=
| BGPOptParamCapability (base : BGPOptParamBase) (Value : list BGPCapability)
| BGPOptParamUnknown (base : BGPOptParamBase) (Value : list Z).

Definition opt_base (p : BGPOptParam) : BGPOptParamBase :=
  match p with BGPOptParamCapability b _ | BGPOptParamUnknown b _ => b end.

(** The total length is an octet and wraps. *)
Definition BGPOptParamBase_TotalLen (msg : BGPOptParamBase) : Z := u8 (o_Len msg + 2).
Definition BGPOptParam_TotalLen (p : BGPOptParam) : Z := BGPOptParamBase_TotalLen (opt_base p).
Definition BGPOptParam_GetCode (p : BGPOptParam) : Z := o_Type (opt_base p).

Definition BGPOptParamBase_Encode (msg : BGPOptParamBase) : list Z := [o_Type msg; o_Len msg].

Definition BGPOptParamBase_Decode (pkt : list Z) : exec (result BGPOptParamBase) :=
  if len pkt <? 2 then fail BGPOpenMsgError BGPUnspecific [] else
  let! type := index pkt 0 in
  let! length := index pkt 1 in
  let msg := mkOptBase type length in
  if len pkt <? BGPOptParamBase_TotalLen msg then fail BGPUpdateMsgError BGPUnspecific []
  else val msg.

Fixpoint caps_encode (cs : list BGPCapability) : exec (list Z) :=
  match cs with
  | [] => Ok []
  | c :: cs =>
      let! bytes := BGPCapability_Encode c in
      let! rest := caps_encode cs in
      Ok (bytes ++ rest)
  end.

Definition BGPOptParam_Encode (p : BGPOptParam) : exec (list Z) :=
  let pkt := BGPOptParamBase_Encode (opt_base p) in
  match p with
  | BGPOptParamCapability _ value =>
      let! bytes := caps_encode value in
      Ok (pkt ++ bytes)
  | BGPOptParamUnknown _ value => copy_at pkt 2 value
  end.

(** A capability has at least two octets, so [paramsLen] bounds the turns. *)
Fixpoint caps_decode (fuel : nat) (pkt : list Z) (offset paramsLen : Z) (value : list BGPCapability)
  : exec (result (Z * list BGPCapability)) :=
  match fuel with
  | O => Hang
  | S fuel =>
      if 0 <? paramsLen then
        let! rest := slice_from pkt offset in
        let! decode := GetCapParam rest in
        let? capParam := decode rest in
        caps_decode fuel pkt (u16 (offset + BGPCapability_TotalLen capParam))
          (paramsLen - BGPCapability_TotalLen capParam) (value ++ [capParam])
      else val (paramsLen, value)
  end.

Definition BGPOptParamCapability_Decode (pkt : list Z) : exec (result BGPOptParam) :=
  let? base := BGPOptParamBase_Decode pkt in
  let? (paramsLen, value) := caps_decode (S (Z.to_nat (o_Len base))) pkt 2 (o_Len base) [] in
  if paramsLen <? 0 then fail BGPOpenMsgError BGPUnspecific []
  else val (BGPOptParamCapability base value).

Definition NewBGPOptParamCapability (capabilities : list BGPCapability) : BGPOptParam :=
  let paramsLen := fold_left (fun n c => u16 (n + BGPCapability_TotalLen c)) capabilities 0 in
  BGPOptParamCapability (mkOptBase BGPOptParamTypeCapability (u8 paramsLen)) capabilities.

(** ** OPEN *)

Record BGPOpen := mkOpen {
  Version : Z;
  MyAS : Z;
  HoldTime : Z;
  BGPId : list Z;
  OptParamLen : Z;
  OptParams : list BGPOptParam
}.

Fixpoint params_encode (pkt : list Z) (paramsLen : Z) (ps : list BGPOptParam) : exec (list Z * Z) :=
  match ps with
  | [] => Ok (pkt, paramsLen)
  | p :: ps =>
      let! bytes := BGPOptParam_Encode p in
      params_encode (pkt ++ bytes) (u8 (paramsLen + BGPOptParam_TotalLen p)) ps
  end.

Definition BGPOpen_Encode (msg : BGPOpen) : exec (list Z) :=
  let pkt := make 10 in
  let! pkt := put_at pkt 0 [Version msg] in
  let! pkt := put_at pkt 1 (PutUint16 (u16 (MyAS msg))) in
  let! pkt := put_at pkt 3 (PutUint16 (HoldTime msg)) in
  let! pkt := put_at pkt 5 (take 4 (default [] (To4 (BGPId msg)))) in
  let! (pkt, paramsLen) := params_encode pkt 0 (OptParams msg) in
  put_at pkt 9 [paramsLen].

(** The decoder of the only known parameter, or the error for the others. *)
Definition GetOptParam (pkt : list Z) : exec (result (list Z -> exec (result BGPOptParam))) :=
  let! optParamType := index pkt 0 in
  if optParamType =? BGPOptParamTypeCapability then val BGPOptParamCapability_Decode
  else fail BGPOpenMsgError BGPUnsupportedOptionalParam [].

(** A parameter whose total length wraps to zero makes no progress, so the
    number of turns is not bounded by the message. *)
Fixpoint params_decode (fuel : nat) (pkt : list Z) (offset paramsLen : Z) (optParams : list BGPOptParam)
  : exec (result (Z * list BGPOptParam)) :=
  match fuel with
  | O => Hang
  | S fuel =>
      if 0 <? paramsLen then
        let! rest := slice_from pkt offset in
        let? decode := GetOptParam rest in
        let? optParam := decode rest in
        params_decode fuel pkt (u8 (offset + BGPOptParam_TotalLen optParam))
          (paramsLen - BGPOptParam_TotalLen optParam) (optParams ++ [optParam])
      else val (paramsLen, optParams)
  end.

Definition BGPOpen_Decode (fuel : nat) (pkt : list Z) : exec (result BGPOpen) :=
  let! version := index pkt 0 in
  let! myAS := uint16_at pkt 1 in
  let! holdTime := uint16_at pkt 3 in
  let! bgpId := slice pkt 5 9 in
  let! optParamLen := index pkt 9 in
  let? (paramsLen, optParams) := params_decode fuel pkt 10 optParamLen [] in
  if paramsLen <? 0 then fail BGPOpenMsgError BGPUnspecific []
  else val (mkOpen version myAS holdTime (default [] (To4 bgpId)) optParamLen optParams).

(** ** NOTIFICATION *)

Record BGPNotification := mkNotification { ErrorCode : Z; ErrorSubcode : Z; n_Data : list Z }.

Definition BGPNotification_Encode (msg : BGPNotification) : list Z :=
  [ErrorCode msg; ErrorSubcode msg] ++ n_Data msg.

Definition BGPNotification_Decode (pkt : list Z) : exec (result BGPNotification) :=
  let! code := index pkt 0 in
  let! sub := index pkt 1 in
  let! data := (if 2 <? len pkt then slice_from pkt 2 else Ok []) in
  val (mkNotification code sub data).

(** ** Address families *)

Definition AfiIP : Z := 1.
Definition AfiIP6 : Z := 2.
Definition SafiUnicast : Z := 1.

(** The shift is of a [uint16], so the address family keeps its low octet. *)
Definition GetProtocolFamily (afi safi : Z) : Z := Z.lor (u16 (Z.shiftl afi 8)) safi.
Definition GetAfiSafi (protocolFamily : Z) : Z * Z := (u16 (Z.shiftr protocolFamily 8), Z.land protocolFamily 255).

Definition capabilities_of (p : BGPOptParam) : list BGPCapability :=
  match p with BGPOptParamCapability _ value => value | BGPOptParamUnknown _ _ => [] end.

Definition GetProtocolFromOpenMsg (openMsg : BGPOpen) : gset Z :=
  list_to_set
    (c ← OptParams openMsg ≫= capabilities_of;
     match c with BGPCapMPExt _ afi _ safi => [GetProtocolFamily afi safi] | _ => [] end).

(** The range over the map of families has no order: the families are a list
    of its keys in the order of the range. *)
Definition ConstructOptParams (as_ : Z) (families : list Z) (addPathsRx : bool) (addPathsMaxTx : Z)
  : list BGPOptParam :=
  let addPathFlags := Z.lor (b2z addPathsRx BGPCapAddPathRx) (b2z (0 <? addPathsMaxTx) BGPCapAddPathTx) in
  let '(capParams, capAddPaths) :=
    fold_left (fun '(caps, addPaths) protoFamily =>
                 let '(afi, safi) := GetAfiSafi protoFamily in
                 (caps ++ [NewBGPCapMPExt afi safi],
                  AddAddPathAFISAFI addPaths (mkAddPath afi safi addPathFlags)))
              families ([NewBGPCap4ByteASPath as_], NewBGPCapAddPath) in
  let capParams := if addPathFlags =? 0 then capParams else capParams ++ [capAddPaths] in
  [NewBGPOptParamCapability capParams].

Definition GetASSize (openMsg : BGPOpen) : Z :=
  if existsb (fun p => (BGPOptParam_GetCode p =? BGPOptParamTypeCapability) &&
                       existsb (fun c => BGPCapability_GetCode c =? BGPCapTypeAS4Path) (capabilities_of p))
             (OptParams openMsg)
  then 4 else 2.

(** The first entry for a family decides; only the first capability is read. *)
Definition GetAddPathFamily (openMsg : BGPOpen) : gmap (Z * Z) Z :=
  match (c ← OptParams openMsg ≫= capabilities_of;
         match c with BGPCapAddPath _ value => [value] | _ => [] end) with
  | [] => ∅
  | value :: _ =>
      fold_left (fun m v => match m !! (ap_AFI v, ap_SAFI v) with
                            | Some _ => m
                            | None => <[(ap_AFI v, ap_SAFI v) := ap_Flags v]> m
                            end) value ∅
  end.

Definition IsAddPathsTxEnabledForIPv4 (addPathFamily : gmap (Z * Z) Z) : bool :=
  existsb (fun e => negb (Z.land (snd e) BGPCapAddPathTx =? 0)) (map_to_list addPathFamily).

(** The body of [NewBGPOpenMessage], given the address that its string
    parses to. *)
Definition NewBGPOpenMessage (myAS holdTime : Z) (bgpId : list Z) (optParams : list BGPOptParam) : BGPOpen :=
  let optParamsLen := fold_left (fun n p => u8 (n + BGPOptParam_TotalLen p)) optParams 0 in
  let myAS := if 65535 <? myAS then BGPASTrans else myAS in
  mkOpen 4 myAS holdTime bgpId optParamsLen optParams.
