(* ===== verification/BgpOpenProofs.v ===== *)
(** * The OPEN codec

    Round trip of well-formed OPEN messages, the OPEN that a speaker sends as
    its peer reads it, and the messages that crash or hang the decoder. *)

From S2P Require Import Prelude BgpWire BgpOpen.

#[export] Instance BGPOpen_settable : Settable BGPOpen :=
  fun o => mkOpen (Version o) (MyAS o) (HoldTime o) (BGPId o) (OptParamLen o) (OptParams o).

(** ** Well-formed capabilities *)

Definition wf_addpath (a : AddPathAFISAFI) : Prop :=
  is_u16 (ap_AFI a) /\ is_u8 (ap_SAFI a) /\ is_u8 (ap_Flags a).

(** The base of a capability names its type and the length of its value; the
    value of an unknown capability is not kept. *)
Definition wf_cap (c : BGPCapability) : Prop :=
  match c with
  | BGPCapMPExt b afi reserved safi =>
      b = mkCapBase BGPCapTypeMPExt 4 /\ is_u16 afi /\ reserved = 0 /\ is_u8 safi
  | BGPCapAS4Path b value => b = mkCapBase BGPCapTypeAS4Path 4 /\ is_u32 value
  | BGPCapAddPath b value =>
      b = mkCapBase BGPCapTypeAddPath (4 * len value) /\ 4 * len value < 256 /\ Forall wf_addpath value
  | BGPCapUnknown b value =>
      value = [] /\ is_u8 (c_Len b) /\ is_u8 (c_Type b) /\
      c_Type b <> BGPCapTypeMPExt /\ c_Type b <> BGPCapTypeAS4Path /\ c_Type b <> BGPCapTypeAddPath
  end.

Definition cap_value (c : BGPCapability) : list Z :=
  match c with
  | BGPCapMPExt _ afi _ safi => PutUint16 afi ++ [0; safi]
  | BGPCapAS4Path _ value => PutUint32 value
  | BGPCapAddPath _ value => concat (map AddPathAFISAFI_Encode value)
  | BGPCapUnknown b _ => make (c_Len b)
  end.

Definition cap_bytes (c : BGPCapability) : list Z :=
  [c_Type (cap_base c); c_Len (cap_base c)] ++ cap_value c.

Lemma len_addpaths vs : len (concat (map AddPathAFISAFI_Encode vs)) = 4 * len vs.
Proof.
  induction vs as [|v vs IH]; [done|]. cbn [map concat]. rewrite len_app, IH, len_cons.
  unfold AddPathAFISAFI_Encode. autorewrite with go_len. lia.
Qed.

Lemma len_cap_value c : wf_cap c -> len (cap_value c) = c_Len (cap_base c).
Proof.
  destruct c; cbn; intros H.
  - by destruct H as (-> & _).
  - by destruct H as (-> & _).
  - destruct H as (-> & _). apply len_addpaths.
  - destruct H as (_ & H & _). apply len_make. apply H.
Qed.

Lemma wf_cap_len c : wf_cap c -> is_u8 (c_Len (cap_base c)).
Proof.
  destruct c as [b ? ? ?|b ?|b vs|b ?]; cbn; intros H.
  - by destruct H as (-> & _).
  - by destruct H as (-> & _).
  - destruct H as (-> & H & _). cbn. pose proof (len_nonneg vs). unfold is_u8. lia.
  - tauto.
Qed.

Lemma cap_total c : wf_cap c -> BGPCapability_TotalLen c = len (cap_bytes c).
Proof.
  intros H. unfold BGPCapability_TotalLen, BGPCapabilityBase_TotalLen, cap_bytes.
  rewrite len_app, len_cap_value by done. pose proof (wf_cap_len c H) as Hl.
  rewrite u16_small by (unfold is_u8, is_u16 in *; lia). autorewrite with go_len. lia.
Qed.

Lemma cap_total_pos c : wf_cap c -> 2 <= BGPCapability_TotalLen c.
Proof.
  intros H. rewrite cap_total by done. unfold cap_bytes. autorewrite with go_len.
  pose proof (len_nonneg (cap_value c)). lia.
Qed.

(** ** Encoding a capability *)

Lemma base_encode b : is_u8 (c_Len b) -> BGPCapabilityBase_Encode b = Ok ([c_Type b; c_Len b] ++ make (c_Len b)).
Proof.
  intros Hb. unfold BGPCapabilityBase_Encode, BGPCapabilityBase_TotalLen, is_u8 in *.
  rewrite u16_small by (unfold is_u16; lia).
  change (make (c_Len b + 2)) with ([] ++ make (c_Len b + 2)).
  rewrite put_at_make; [|done|autorewrite with go_len; lia].
  autorewrite with go_len. cbn [app]. by replace (c_Len b + 2 - (1 + (1 + 0))) with (c_Len b) by lia.
Qed.

Lemma add_paths_encode_spec vs pre n :
  4 * len vs <= n -> len pre + 4 * len vs <= 258 -> 0 <= len pre - 2 ->
  add_paths_encode (pre ++ make n) (len pre) vs =
  Ok (pre ++ concat (map AddPathAFISAFI_Encode vs) ++ make (n - 4 * len vs)).
Proof.
  revert pre n. induction vs as [|v vs IH]; intros pre n Hn Hp Hpos; cbn [add_paths_encode map concat].
  { change (len (@nil AddPathAFISAFI)) with 0. by rewrite Z.mul_0_r, Z.sub_0_r. }
  rewrite len_cons in *. pose proof (len_nonneg vs).
  assert (Hv : len (AddPathAFISAFI_Encode v) = 4) by done.
  rewrite put_at_make; [|done|lia]. cbn [exec_bind]. rewrite Hv.
  unfold AddPathAFISAFI_Len. destruct vs as [|w vs].
  { rewrite app_nil_r. cbn [add_paths_encode]. by change (len (@nil AddPathAFISAFI)) with 0. }
  rewrite len_cons in *. pose proof (len_nonneg vs).
  rewrite u8_small by (unfold is_u8; lia). rewrite app_assoc.
  replace (len pre + 4) with (len (pre ++ AddPathAFISAFI_Encode v)) by (rewrite len_app; lia).
  rewrite IH by (rewrite ?len_app, ?len_cons; lia). rewrite <- !app_assoc.
  by replace (n - 4 - 4 * (1 + len vs)) with (n - 4 * (1 + (1 + len vs))) by lia.
Qed.

Lemma cap_encode c : wf_cap c -> BGPCapability_Encode c = Ok (cap_bytes c).
Proof.
  intros H. pose proof (base_encode (cap_base c) (wf_cap_len c H)) as Eb. unfold cap_bytes.
  destruct c as [b afi res safi|b v|b vs|b v]; cbn [cap_base cap_value] in *; cbn in H; cbn [BGPCapability_Encode];
    unfold BGPCapMPExt_Encode, BGPCapAS4Path_Encode, BGPCapAddPath_Encode, BGPCapUnknown_Encode; rewrite Eb; cbn [exec_bind]; clear Eb.
  - destruct H as (-> & _). cbn [c_Type c_Len].
    rewrite put_at_make; [|done|done]. cbn [exec_bind].
    change (4 - len (PutUint16 afi)) with 2. rewrite app_assoc.
    rewrite put_at_make; [|done|done]. cbn [exec_bind]. rewrite app_assoc.
    rewrite put_at_make; [|done|done]. by rewrite <- !app_assoc.
  - destruct H as (-> & _). cbn [c_Type c_Len]. rewrite put_at_make; [|done|done].
    by rewrite make_0, app_nil_r.
  - destruct H as (-> & Hn & _). cbn [c_Type c_Len]. pose proof (len_nonneg vs).
    rewrite (add_paths_encode_spec vs [_; _]) by (unfold len in *; cbn; lia). by rewrite make_0, app_nil_r by lia.
  - destruct H as (-> & Hl & _). unfold copy_at. autorewrite with go_len.
    pose proof (len_nonneg (make (c_Len b))). rewrite !(proj2 (Z.leb_le _ _)) by lia. cbn [andb].
    rewrite take_nil. rewrite put_at_make; [|done|change (len (@nil Z)) with 0; unfold is_u8 in *; lia].
    change (len (@nil Z)) with 0. by rewrite Z.sub_0_r.
Qed.

(** ** Decoding a capability *)

Lemma base_decode b v rest :
  is_u8 (c_Len b) -> c_Len b = len v -> BGPCapabilityBase_Decode (([c_Type b; c_Len b] ++ v) ++ rest) = val b.
Proof.
  intros Hb Hv. unfold BGPCapabilityBase_Decode, BGPCapabilityBase_TotalLen. autorewrite with go_len.
  pose proof (len_nonneg v). pose proof (len_nonneg rest).
  rewrite (proj2 (Z.ltb_ge _ _)) by lia. eval_index. cbn [app lookup list_lookup of_option exec_bind].
  cbn [c_Len]. rewrite u16_small by (unfold is_u8, is_u16 in *; lia).
  rewrite (proj2 (Z.ltb_ge _ _)) by lia. by destruct b.
Qed.

Lemma add_path_decode a rest : wf_addpath a -> AddPathAFISAFI_Decode (AddPathAFISAFI_Encode a ++ rest) = val a.
Proof.
  intros (Hafi & Hsafi & Hfl). unfold AddPathAFISAFI_Decode, AddPathAFISAFI_Encode. autorewrite with go_len.
  pose proof (len_nonneg rest). rewrite (proj2 (Z.ltb_ge _ _)) by lia. rewrite <- app_assoc.
  rewrite uint16_hd by done. cbn [exec_bind]. eval_index. cbn. by destruct a.
Qed.

Lemma add_paths_decode_spec vs fuel pre rest acc L :
  Forall wf_addpath vs -> (length vs < fuel)%nat -> L = len pre + 4 * len vs - 2 -> L < 256 -> 2 <= len pre ->
  add_paths_decode fuel (pre ++ concat (map AddPathAFISAFI_Encode vs) ++ rest) L (len pre) acc =
  val (len pre + 4 * len vs, acc ++ vs).
Proof.
  revert fuel pre acc. induction vs as [|v vs IH]; intros fuel pre acc Hv Hf HL HL' Hp.
  { destruct fuel; [lia|]. cbn [add_paths_decode]. change (len (@nil AddPathAFISAFI)) with 0 in *. rewrite (proj2 (Z.ltb_ge _ _)) by lia.
    by rewrite app_nil_r, Z.mul_0_r, Z.add_0_r. }
  inversion_clear Hv as [|? ? Hv1 Hvs]. destruct fuel as [|fuel]; [lia|]. cbn [add_paths_decode map concat].
  rewrite len_cons in *. pose proof (len_nonneg vs). rewrite (proj2 (Z.ltb_lt _ _)) by lia.
  rewrite slice_from_app by done. cbn [exec_bind]. rewrite <- app_assoc, add_path_decode by done. cbn [result_bind].
  unfold AddPathAFISAFI_Len. rewrite u16_small by (unfold is_u16; lia).
  replace (len pre + 4) with (len (pre ++ AddPathAFISAFI_Encode v)) by (rewrite len_app; done).
  rewrite app_assoc. rewrite IH; [|done|cbn in Hf; lia|rewrite len_app; change (len (AddPathAFISAFI_Encode v)) with 4; lia|lia|rewrite len_app; change (len (AddPathAFISAFI_Encode v)) with 4; lia].
  rewrite len_app, <- app_assoc. change (len (AddPathAFISAFI_Encode v)) with 4. do 3 f_equal. lia.
Qed.

Lemma cap_decode c rest :
  wf_cap c -> exists decode, GetCapParam (cap_bytes c ++ rest) = Ok decode /\ decode (cap_bytes c ++ rest) = val c.
Proof.
  intros H. unfold GetCapParam. assert (Ei : index (cap_bytes c ++ rest) 0 = Ok (c_Type (cap_base c))) by done.
  rewrite Ei. cbn [exec_bind].
  assert (Eb : BGPCapabilityBase_Decode (cap_bytes c ++ rest) = val (cap_base c)).
  { apply base_decode; [by apply wf_cap_len | by rewrite len_cap_value]. }
  destruct c as [b afi res safi|b v|b vs|b v]; cbn [cap_base] in *; cbn in H.
  - destruct H as (-> & Hafi & -> & Hsafi). eexists. split; [done|]. cbn [c_Type]. unfold BGPCapMPExt_Decode.
    change (BGPCapTypeMPExt =? BGPCapTypeMPExt) with true. cbn iota beta. rewrite Eb. cbn [result_bind].
    unfold cap_bytes, cap_value. rewrite <- !app_assoc, (uint16_at_put [_; _]) by done. done.
  - destruct H as (-> & Hv). eexists. split; [done|]. cbn [c_Type]. change (BGPCapTypeAS4Path =? BGPCapTypeMPExt) with false.
    change (BGPCapTypeAS4Path =? BGPCapTypeAS4Path) with true. unfold BGPCapAS4Path_Decode. cbn iota beta. rewrite Eb. cbn [result_bind]. unfold cap_bytes, cap_value. rewrite <- !app_assoc, (uint32_at_put [_; _]) by done. done.
  - destruct H as (-> & Hn & Hvs). eexists. split; [done|]. cbn [c_Type]. unfold BGPCapAddPath_Decode.
    change (BGPCapTypeAddPath =? BGPCapTypeMPExt) with false. change (BGPCapTypeAddPath =? BGPCapTypeAS4Path) with false.
    change (BGPCapTypeAddPath =? BGPCapTypeAddPath) with true. cbn iota beta. rewrite Eb. cbn [result_bind c_Len].
    unfold cap_bytes, cap_value. rewrite <- !app_assoc. cbn [cap_base c_Type c_Len].
    pose proof (len_nonneg vs).
    rewrite (add_paths_decode_spec vs 65 [BGPCapTypeAddPath; 4 * len vs] rest []); [|done| |len_lia|lia|len_lia].
    2: { unfold len in *. lia. }
    cbn [result_bind]. change (len [BGPCapTypeAddPath; 4 * len vs]) with 2.
    rewrite u8_small by (unfold is_u8; lia). rewrite (proj2 (Z.ltb_ge _ _)) by lia. done.
  - destruct H as (-> & Hl & Ht & H1 & H2 & H3). eexists. split; [done|].
    rewrite !(proj2 (Z.eqb_neq _ _)) by done. unfold BGPCapUnknown_Decode. cbv beta. rewrite Eb. cbn [result_bind].
    unfold cap_bytes, cap_value. rewrite <- !app_assoc. cbn [cap_base].
    rewrite (slice_mid [_; _]); [done | done|].
    unfold BGPCapabilityBase_TotalLen. rewrite u16_small by (unfold is_u8, is_u16 in *; lia).
    rewrite len_make by (unfold is_u8 in *; lia). len_lia.
Qed.

(** ** Lists of capabilities *)

Definition caps_bytes (cs : list BGPCapability) : list Z := concat (map cap_bytes cs).

Lemma caps_encode_spec cs : Forall wf_cap cs -> caps_encode cs = Ok (caps_bytes cs).
Proof.
  induction 1 as [|c cs Hc _ IH]; [done|]. cbn [caps_encode]. by rewrite cap_encode, IH.
Qed.

Lemma len_caps_cons c cs : len (caps_bytes (c :: cs)) = len (cap_bytes c) + len (caps_bytes cs).
Proof. apply len_app. Qed.

(** The loop over the capabilities of a parameter; [fuel] bounds it when it
    exceeds the octets left. *)
Lemma caps_decode_spec cs fuel pre rest acc :
  Forall wf_cap cs -> len (caps_bytes cs) < Z.of_nat fuel -> len pre + len (caps_bytes cs) < 65536 ->
  caps_decode fuel (pre ++ caps_bytes cs ++ rest) (len pre) (len (caps_bytes cs)) acc = val (0, acc ++ cs).
Proof.
  intros Hwf. revert fuel pre acc. induction Hwf as [|c cs Hc _ IH]; intros fuel pre acc Hf Hl.
  { change (len (caps_bytes [])) with 0 in *. destruct fuel; [lia|]. cbn. by rewrite app_nil_r. }
  rewrite len_caps_cons in *. pose proof (cap_total_pos c Hc) as Hpos. rewrite cap_total in Hpos by done.
  pose proof (len_nonneg (caps_bytes cs)). pose proof (len_nonneg pre).
  destruct fuel as [|fuel]; [lia|]. cbn [caps_decode]. rewrite (proj2 (Z.ltb_lt _ _)) by lia.
  rewrite slice_from_app by done. cbn [exec_bind]. change (caps_bytes (c :: cs)) with (cap_bytes c ++ caps_bytes cs).
  rewrite <- app_assoc. destruct (cap_decode c (caps_bytes cs ++ rest) Hc) as (d & -> & Ed). cbn [exec_bind].
  rewrite Ed. cbn [result_bind]. rewrite cap_total by done. rewrite u16_small by (unfold is_u16; lia).
  replace (len (cap_bytes c) + len (caps_bytes cs) - len (cap_bytes c)) with (len (caps_bytes cs)) by lia.
  rewrite <- len_app, app_assoc. rewrite IH by (rewrite ?len_app; lia). by rewrite <- app_assoc.
Qed.

(** ** Optional parameters *)

Definition wf_param (p : BGPOptParam) : Prop :=
  match p with
  | BGPOptParamCapability b cs =>
      b = mkOptBase BGPOptParamTypeCapability (len (caps_bytes cs)) /\ len (caps_bytes cs) < 256 /\ Forall wf_cap cs
  | BGPOptParamUnknown _ _ => False
  end.

Definition param_bytes (p : BGPOptParam) : list Z :=
  [o_Type (opt_base p); o_Len (opt_base p)] ++ caps_bytes (capabilities_of p).

Definition params_bytes (ps : list BGPOptParam) : list Z := concat (map param_bytes ps).

Lemma param_encode p : wf_param p -> BGPOptParam_Encode p = Ok (param_bytes p).
Proof.
  destruct p as [b cs|]; [|done]. intros (-> & _ & Hcs). cbn [BGPOptParam_Encode opt_base].
  by rewrite caps_encode_spec.
Qed.

Lemma param_decode p rest :
  wf_param p -> GetOptParam (param_bytes p ++ rest) = val BGPOptParamCapability_Decode /\
  BGPOptParamCapability_Decode (param_bytes p ++ rest) = val p.
Proof.
  destruct p as [b cs|]; [|done]. intros (-> & Hl & Hcs). split; [done|].
  unfold BGPOptParamCapability_Decode, BGPOptParamBase_Decode, param_bytes. cbn [opt_base o_Type o_Len capabilities_of].
  pose proof (len_nonneg (caps_bytes cs)) as Hpos. pose proof (len_nonneg rest).
  rewrite (proj2 (Z.ltb_ge _ _)) by len_lia.
  cbn [app]. rewrite index_hd, index_tl by lia. cbn [exec_bind]. change (1 - 1) with 0. rewrite index_hd. cbn [exec_bind].
  unfold BGPOptParamBase_TotalLen. cbn [o_Len].
  rewrite (proj2 (Z.ltb_ge _ _)).
  2: { pose proof (Z.mod_le (len (caps_bytes cs) + 2) (2 ^ 8)). unfold u8. len_lia. }
  cbn [result_bind o_Len].
  change (BGPOptParamTypeCapability :: len (caps_bytes cs) :: caps_bytes cs ++ rest)
    with ([BGPOptParamTypeCapability; len (caps_bytes cs)] ++ caps_bytes cs ++ rest).
  change 2 with (len [BGPOptParamTypeCapability; len (caps_bytes cs)]) at 1.
  rewrite caps_decode_spec; [done | done | lia | len_lia].
Qed.

Lemma param_total p : wf_param p -> BGPOptParam_TotalLen p = u8 (len (param_bytes p)).
Proof.
  destruct p as [b cs|]; [|done]. intros (-> & Hl & Hcs). unfold BGPOptParam_TotalLen, BGPOptParamBase_TotalLen.
  cbn [opt_base o_Len]. unfold param_bytes. f_equal. cbn [capabilities_of]. len_lia.
Qed.

(** ** OPEN *)

(** The parameters fit: their lengths do not wrap and each starts within the
    range of the octet that counts the position. *)
Fixpoint fits (offset : Z) (ps : list BGPOptParam) : Prop :=
  match ps with
  | [] => True
  | p :: ps => offset < 256 /\ len (param_bytes p) < 256 /\ fits (offset + len (param_bytes p)) ps
  end.

Record wf_open (o : BGPOpen) : Prop := {
  wo_version : is_u8 (Version o);
  wo_as : is_u16 (MyAS o);
  wo_hold : is_u16 (HoldTime o);
  wo_id : length (BGPId o) = 4%nat;
  wo_params : Forall wf_param (OptParams o);
  wo_fits : fits 10 (OptParams o);
  wo_len : OptParamLen o = len (params_bytes (OptParams o));
  wo_short : len (params_bytes (OptParams o)) < 256
}.

(** The ten octets before the parameters. *)
Definition fixed_bytes (o : BGPOpen) : list Z :=
  [Version o] ++ PutUint16 (MyAS o) ++ PutUint16 (HoldTime o) ++ BGPId o ++ [OptParamLen o].

Definition open_bytes (o : BGPOpen) : list Z := fixed_bytes o ++ params_bytes (OptParams o).

Lemma len_params_cons p ps : len (params_bytes (p :: ps)) = len (param_bytes p) + len (params_bytes ps).
Proof. apply len_app. Qed.

Lemma param_bytes_pos p : 2 <= len (param_bytes p).
Proof. unfold param_bytes. pose proof (len_nonneg (caps_bytes (capabilities_of p))). len_lia. Qed.

Lemma params_encode_spec ps pkt n :
  Forall wf_param ps -> 0 <= n -> n + len (params_bytes ps) < 256 ->
  params_encode pkt n ps = Ok (pkt ++ params_bytes ps, n + len (params_bytes ps)).
Proof.
  intros Hps. revert pkt n. induction Hps as [|p ps Hp _ IH]; intros pkt n Hn Hl; cbn [params_encode].
  { cbn. by rewrite app_nil_r, Z.add_0_r. }
  rewrite len_params_cons in *. pose proof (param_bytes_pos p). pose proof (len_nonneg (params_bytes ps)).
  rewrite param_encode by done. cbn [exec_bind]. rewrite param_total by done.
  rewrite (u8_small (len _)), u8_small by (unfold is_u8; lia). rewrite IH by lia.
  rewrite <- app_assoc. cbn [params_bytes map concat]. by rewrite Z.add_assoc.
Qed.

Lemma To4_four id : length id = 4%nat -> To4 id = Some id.
Proof. intros H. unfold To4. by rewrite H. Qed.

Lemma open_encode o : wf_open o -> BGPOpen_Encode o = Ok (open_bytes o).
Proof.
  intros [Hv Has Hh Hid Hps _ Hlen Hl]. unfold BGPOpen_Encode.
  assert (Hi : len (BGPId o) = 4) by (unfold len; rewrite Hid; done).
  rewrite To4_four by done. cbn [default from_option id]. rewrite take_ge by lia.
  rewrite (u16_small (MyAS o)) by done.
  change (make 10) with ([] ++ make 10). rewrite put_at_make; [|done|len_lia]. cbn [exec_bind app].
  change (put_at (Version o :: make (10 - len [Version o])) 1) with (put_at ([Version o] ++ make 9) 1).
  rewrite put_at_make; [|done|len_lia]. cbn [exec_bind]. rewrite app_assoc.
  rewrite put_at_make; [|done|len_lia]. cbn [exec_bind]. rewrite app_assoc.
  rewrite put_at_make; [|done|len_lia]. cbn [exec_bind]. rewrite Hi. autorewrite with go_len.
  change (make (9 - 2 - 2 - 4)) with [0].
  rewrite params_encode_spec by (done || lia). cbn [exec_bind].
  rewrite <- (app_assoc _ _ (params_bytes _)), <- (app_assoc (BGPId o)).
  rewrite (app_assoc _ (BGPId o)). rewrite <- Hlen.
  rewrite <- (Z.add_0_l (OptParamLen o)).
  replace 9 with (len (((([Version o] ++ PutUint16 (MyAS o)) ++ PutUint16 (HoldTime o)) ++ BGPId o))) at 1
    by (autorewrite with go_len; lia).
  rewrite (put_at_app _ [0]) by done. unfold open_bytes, fixed_bytes. by rewrite <- !app_assoc, Z.add_0_l.
Qed.

Lemma params_decode_spec ps fuel pre acc :
  Forall wf_param ps -> fits (len pre) ps -> (length ps < fuel)%nat ->
  params_decode fuel (pre ++ params_bytes ps) (u8 (len pre)) (len (params_bytes ps)) acc = val (0, acc ++ ps).
Proof.
  intros Hwf. revert fuel pre acc. induction Hwf as [|p ps Hp _ IH]; intros fuel pre acc Hfit Hf.
  { destruct fuel; [lia|]. cbn [params_decode]. change (len (params_bytes [])) with 0.
    by rewrite (app_nil_r acc). }
  destruct Hfit as (Ho & Hl & Hfit). pose proof (param_bytes_pos p). pose proof (len_nonneg (params_bytes ps)).
  pose proof (len_nonneg pre). rewrite len_params_cons. destruct fuel as [|fuel]; [lia|]. cbn [params_decode].
  rewrite (proj2 (Z.ltb_lt _ _)) by lia. rewrite u8_small by (unfold is_u8; lia).
  rewrite slice_from_app by done. cbn [exec_bind]. change (params_bytes (p :: ps)) with (param_bytes p ++ params_bytes ps).
  destruct (param_decode p (params_bytes ps) Hp) as [-> Ed]. cbn [result_bind]. rewrite Ed. cbn [result_bind].
  rewrite param_total by done. rewrite (u8_small (len (param_bytes p))) by (unfold is_u8; lia).
  replace (len (param_bytes p) + len (params_bytes ps) - len (param_bytes p)) with (len (params_bytes ps)) by lia.
  rewrite <- len_app, app_assoc. rewrite IH; [by rewrite <- app_assoc | by rewrite len_app | cbn in Hf; lia].
Qed.

Record wf_fields (o : BGPOpen) : Prop := {
  wf_as : is_u16 (MyAS o);
  wf_hold : is_u16 (HoldTime o);
  wf_id : length (BGPId o) = 4%nat
}.

Lemma len_id o : wf_fields o -> len (BGPId o) = 4.
Proof. intros [_ _ H]. unfold len. by rewrite H. Qed.

Lemma len_fixed o : wf_fields o -> len (fixed_bytes o) = 10.
Proof. intros H%len_id. unfold fixed_bytes. len_lia. Qed.

(** The decoder up to the parameters. *)
Lemma open_fields o rest fuel :
  wf_fields o ->
  BGPOpen_Decode fuel (fixed_bytes o ++ rest) =
  let? (paramsLen, optParams) := params_decode fuel (fixed_bytes o ++ rest) 10 (OptParamLen o) [] in
  if paramsLen <? 0 then fail BGPOpenMsgError BGPUnspecific []
  else val (mkOpen (Version o) (MyAS o) (HoldTime o) (BGPId o) (OptParamLen o) optParams).
Proof.
  intros Hwf. pose proof (len_id o Hwf) as Hi. destruct Hwf as [Has Hh Hid]. unfold BGPOpen_Decode.
  set (pkt := fixed_bytes o ++ rest).
  assert (E1 : index pkt 0 = Ok (Version o)) by done.
  assert (E2 : uint16_at pkt 1 = Ok (MyAS o)).
  { unfold pkt, fixed_bytes. rewrite <- !app_assoc. by rewrite (uint16_at_put [_]). }
  assert (E3 : uint16_at pkt 3 = Ok (HoldTime o)).
  { unfold pkt, fixed_bytes. rewrite <- !app_assoc, (app_assoc [_]). by rewrite uint16_at_put. }
  assert (E4 : slice pkt 5 9 = Ok (BGPId o)).
  { unfold pkt, fixed_bytes. rewrite <- !app_assoc, (app_assoc [_]), (app_assoc ([_] ++ _)). apply slice_mid; len_lia. }
  assert (E5 : index pkt 9 = Ok (OptParamLen o)).
  { unfold pkt, fixed_bytes. rewrite <- !app_assoc, (app_assoc [_]), (app_assoc ([_] ++ _)), (app_assoc (([_] ++ _) ++ _)).
    by rewrite (index_app_r _ _ _ 0) by len_lia. }
  rewrite E1, E2, E3, E4, E5. cbn [exec_bind]. by rewrite To4_four.
Qed.

Lemma open_decode o fuel :
  wf_open o -> (length (OptParams o) < fuel)%nat -> BGPOpen_Decode fuel (open_bytes o) = val o.
Proof.
  intros Hwf Hf. pose proof Hwf as [_ Has Hh Hid Hps Hfit Hlen Hl]. assert (Hf' : wf_fields o) by done.
  unfold open_bytes. rewrite open_fields by done. pose proof (len_fixed o Hf') as Hpre.
  change 10 with (u8 10). rewrite Hlen, <- Hpre, params_decode_spec by (done || by rewrite Hpre).
  cbn. destruct o. cbn in *. by rewrite <- Hlen.
Qed.

(** Decoding the octets of a well-formed OPEN gives it back: the version, the
    hold time, the identifier and every capability of every parameter. *)
Theorem open_roundtrip o fuel :
  wf_open o -> (length (OptParams o) < fuel)%nat ->
  exists pkt, BGPOpen_Encode o = Ok pkt /\ BGPOpen_Decode fuel pkt = val o.
Proof. intros Hwf Hf. exists (open_bytes o). split; [by apply open_encode | by apply open_decode]. Qed.

(** ** Messages that break the decoder *)

(** An OPEN whose first parameter is a list of capabilities of 254 octets is
    decoded for ever: the total length 256 wraps to zero, so the loop reads the
    same parameter again and again and appends it each time. *)
Theorem open_decode_never_ends o cs rest fuel :
  wf_fields o -> 0 < OptParamLen o -> Forall wf_cap cs -> len (caps_bytes cs) = 254 ->
  BGPOpen_Decode fuel (fixed_bytes o ++ [BGPOptParamTypeCapability; 254] ++ caps_bytes cs ++ rest) = Hang.
Proof.
  intros Hwf Hpos Hcs Hlen.
  set (p := BGPOptParamCapability (mkOptBase BGPOptParamTypeCapability 254) cs).
  assert (Hp : wf_param p) by (cbn; rewrite Hlen; done).
  change ([BGPOptParamTypeCapability; 254] ++ caps_bytes cs ++ rest) with (param_bytes p ++ rest).
  rewrite open_fields by done.
  assert (Hloop : forall acc, params_decode fuel (fixed_bytes o ++ param_bytes p ++ rest) 10 (OptParamLen o) acc = Hang).
  { induction fuel as [|fuel IH]; intros acc; [done|]. cbn [params_decode].
    rewrite (proj2 (Z.ltb_lt _ _)) by lia. rewrite slice_from_app by (by rewrite len_fixed). cbn [exec_bind].
    destruct (param_decode p rest Hp) as [-> Ed]. cbn [result_bind]. rewrite Ed. cbn [result_bind].
    change (BGPOptParam_TotalLen p) with 0. by rewrite Z.sub_0_r. }
  by rewrite Hloop.
Qed.

(** An OPEN whose body is shorter than ten octets crashes the decoder, and so
    does a multiprotocol capability of length zero at the end of the message:
    the body is sized by the length in the header, which is not checked. *)
Theorem open_decode_crashes fuel :
  (forall pkt, len pkt < 10 -> BGPOpen_Decode fuel pkt = Panic) /\
  (forall o, wf_fields o -> OptParamLen o = 4 -> (0 < fuel)%nat ->
     BGPOpen_Decode fuel (fixed_bytes o ++ [BGPOptParamTypeCapability; 2; BGPCapTypeMPExt; 0]) = Panic).
Proof.
  split.
  - intros pkt Hl. unfold BGPOpen_Decode. do 4 (apply bind_panic; [auto with go | intros ?]).
    by rewrite index_Panic by lia.
  - intros o Hwf Ho Hf. destruct fuel as [|fuel]; [lia|]. rewrite open_fields by done. rewrite Ho.
    cbn [params_decode]. change (0 <? 4) with true. cbn iota.
    rewrite slice_from_app by (by rewrite len_fixed). reflexivity.
Qed.

(** ** The OPEN a speaker sends *)

Section Sent.
Variables (as_ holdTime : Z) (addPathsRx : bool) (addPathsMaxTx : Z).

Definition addPathFlags : Z :=
  Z.lor (b2z addPathsRx BGPCapAddPathRx) (b2z (0 <? addPathsMaxTx) BGPCapAddPathTx).

Definition family_cap (f : Z) : BGPCapability := NewBGPCapMPExt (fst (GetAfiSafi f)) (snd (GetAfiSafi f)).
Definition family_add_path (f : Z) : AddPathAFISAFI := mkAddPath (fst (GetAfiSafi f)) (snd (GetAfiSafi f)) addPathFlags.

Definition sent_caps (families : list Z) : list BGPCapability :=
  NewBGPCap4ByteASPath as_ :: map family_cap families ++
  (if addPathFlags =? 0 then []
   else [BGPCapAddPath (mkCapBase BGPCapTypeAddPath (4 * len families)) (map family_add_path families)]).

Lemma families_fold families caps vs :
  4 * (len vs + len families) < 256 ->
  fold_left (fun '(caps, addPaths) protoFamily =>
               let '(afi, safi) := GetAfiSafi protoFamily in
               (caps ++ [NewBGPCapMPExt afi safi],
                AddAddPathAFISAFI addPaths (mkAddPath afi safi addPathFlags)))
            families (caps, BGPCapAddPath (mkCapBase BGPCapTypeAddPath (4 * len vs)) vs) =
  (caps ++ map family_cap families,
   BGPCapAddPath (mkCapBase BGPCapTypeAddPath (4 * (len vs + len families))) (vs ++ map family_add_path families)).
Proof.
  revert caps vs. induction families as [|f fs IH]; intros caps vs Hl; cbn [fold_left map].
  { rewrite !app_nil_r. by rewrite len_nil, Z.add_0_r. }
  rewrite len_cons in *. pose proof (len_nonneg fs). pose proof (len_nonneg vs).
  destruct (GetAfiSafi f) as [afi safi] eqn:Ef. cbn [AddAddPathAFISAFI c_Type c_Len].
  unfold AddPathAFISAFI_Len. rewrite u8_small by (unfold is_u8; lia).
  replace (4 * len vs + 4) with (4 * len (vs ++ [mkAddPath afi safi addPathFlags])) by len_lia.
  rewrite IH by len_lia. rewrite len_app, <- !app_assoc. unfold family_cap at 2, family_add_path at 2. rewrite Ef.
  cbn [fst snd app]. do 4 f_equal. len_lia.
Qed.

Lemma caps_total cs n :
  Forall wf_cap cs -> 0 <= n -> n + len (caps_bytes cs) < 65536 ->
  fold_left (fun n c => u16 (n + BGPCapability_TotalLen c)) cs n = n + len (caps_bytes cs).
Proof.
  intros Hcs. revert n. induction Hcs as [|c cs Hc _ IH]; intros n Hn Hl; cbn [fold_left].
  { change (len (caps_bytes [])) with 0. lia. }
  rewrite len_caps_cons in *. pose proof (len_nonneg (caps_bytes cs)). pose proof (len_nonneg (cap_bytes c)).
  rewrite cap_total, u16_small by (done || unfold is_u16; lia). rewrite IH by lia. lia.
Qed.

Lemma family_range f : is_u16 (fst (GetAfiSafi f)) /\ is_u8 (snd (GetAfiSafi f)).
Proof.
  cbn. split; [apply u16_range|]. change 255 with (2 ^ 8 - 1). rewrite land_ones_mod by lia. apply Z.mod_pos_bound. lia.
Qed.

Lemma addPathFlags_range : is_u8 addPathFlags.
Proof. unfold addPathFlags. by destruct addPathsRx, (0 <? addPathsMaxTx). Qed.

Lemma sent_caps_wf families : is_u32 as_ -> 4 * len families < 256 -> Forall wf_cap (sent_caps families).
Proof.
  intros Has Hn. unfold sent_caps. constructor; [done|]. apply Forall_app. split.
  - apply Forall_map, Forall_true. intros f. pose proof (family_range f) as [? ?]. done.
  - destruct (addPathFlags =? 0); constructor; [|constructor]. cbn [wf_cap]. rewrite len_map.
    split; [done|]. split; [done|]. apply Forall_map, Forall_true. intros f. pose proof (family_range f) as [? ?].
    split; [done|]. split; [done|]. apply addPathFlags_range.
Qed.

Lemma len_sent_caps families :
  len (caps_bytes (sent_caps families)) <= 6 + 6 * len families + (2 + 4 * len families).
Proof.
  unfold sent_caps, caps_bytes. cbn [map concat]. rewrite map_app, concat_app, !len_app.
  assert (Hf : len (concat (map cap_bytes (map family_cap families))) = 6 * len families).
  { induction families as [|f fs IH]; [done|]. cbn [map concat]. rewrite len_app, IH, len_cons.
    change (len (cap_bytes (family_cap f))) with 6. lia. }
  rewrite Hf. change (len (cap_bytes (NewBGPCap4ByteASPath as_))) with 6. pose proof (len_nonneg families).
  destruct (addPathFlags =? 0); cbn [map concat].
  - change (len (@nil Z)) with 0. lia.
  - rewrite app_nil_r. unfold cap_bytes. cbn [cap_base cap_value]. rewrite len_app, len_addpaths. len_lia.
Qed.

Lemma construct_params families :
  4 * len families < 256 ->
  ConstructOptParams as_ families addPathsRx addPathsMaxTx = [NewBGPOptParamCapability (sent_caps families)].
Proof.
  intros Hn. unfold ConstructOptParams. fold addPathFlags.
  pose proof (families_fold families [NewBGPCap4ByteASPath as_] []) as E. rewrite len_nil in E.
  change (4 * 0) with 0 in E. unfold NewBGPCapAddPath. rewrite E by lia. clear E. unfold sent_caps. cbn [app].
  rewrite Z.add_0_l. destruct (addPathFlags =? 0); [by rewrite app_nil_r | done].
Qed.

Lemma new_param families :
  is_u32 as_ -> len families <= 24 ->
  NewBGPOptParamCapability (sent_caps families) =
  BGPOptParamCapability (mkOptBase BGPOptParamTypeCapability (len (caps_bytes (sent_caps families)))) (sent_caps families).
Proof.
  intros Has Hn. pose proof (len_sent_caps families). pose proof (len_nonneg (caps_bytes (sent_caps families))).
  unfold NewBGPOptParamCapability. rewrite caps_total; [|apply sent_caps_wf; [done | lia] | lia | lia].
  rewrite Z.add_0_l, u8_small by (unfold is_u8; lia). done.
Qed.

Lemma family_roundtrip f : is_u16 f -> GetProtocolFamily (fst (GetAfiSafi f)) (snd (GetAfiSafi f)) = f.
Proof.
  intros Hf. unfold GetProtocolFamily. cbn. change 255 with (2 ^ 8 - 1). rewrite land_ones_mod by lia.
  unfold is_u16 in Hf. rewrite Z.shiftr_div_pow2 by lia. assert (0 <= f / 2 ^ 8 < 2 ^ 8) by (Z.div_mod_to_equations; lia).
  rewrite (u16_small (f / 2 ^ 8)) by (unfold is_u16; lia).
  rewrite Z.shiftl_mul_pow2, u16_small by (unfold is_u16; lia). rewrite <- Z.shiftl_mul_pow2 by lia.
  rewrite lor_shiftl_low by (Z.div_mod_to_equations; lia). Z.div_mod_to_equations. lia.
Qed.

Lemma sent_families families p0 :
  Forall is_u16 families ->
  GetProtocolFromOpenMsg (p0 <| OptParams := [NewBGPOptParamCapability (sent_caps families)] |>) = list_to_set families.
Proof.
  intros Hf. unfold GetProtocolFromOpenMsg. simpl_get. cbn [mbind list_bind capabilities_of NewBGPOptParamCapability].
  rewrite app_nil_r. unfold sent_caps. cbn [mbind list_bind app]. f_equal. rewrite bind_app.
  assert (E : (c ← map family_cap families; match c with BGPCapMPExt _ afi _ safi => [GetProtocolFamily afi safi] | _ => [] end) = families).
  { induction Hf as [|f fs Hf _ IH]; [done|]. cbn [map mbind list_bind]. unfold family_cap at 1, NewBGPCapMPExt at 1.
    cbn [app]. rewrite family_roundtrip by done. f_equal. exact IH. }
  rewrite E. destruct (addPathFlags =? 0); cbn; by rewrite app_nil_r.
Qed.

(** All entries of the add-path capability carry the same flags. *)
Lemma add_path_map (families : list Z) (m : gmap (Z * Z) Z) :
  (forall k f, m !! k = Some f -> f = addPathFlags) ->
  let m' := fold_left (fun m v => match m !! (ap_AFI v, ap_SAFI v) with
                                  | Some _ => m
                                  | None => <[(ap_AFI v, ap_SAFI v) := ap_Flags v]> m
                                  end) (map family_add_path families) m in
  (forall k f, m' !! k = Some f -> f = addPathFlags) /\ (m' = ∅ -> m = ∅ /\ families = []).
Proof.
  revert m. induction families as [|f fs IH]; intros m Hm; cbn [map fold_left]; [done|].
  set (key := (ap_AFI (family_add_path f), ap_SAFI (family_add_path f))).
  destruct (m !! key) as [x|] eqn:Ek.
  - destruct (IH m Hm) as [Ha He]. split; [done|]. intros E. apply He in E as [-> _]. by rewrite lookup_empty in Ek.
  - destruct (IH (<[key := ap_Flags (family_add_path f)]> m)) as [Ha He].
    + intros k fl [[<- <-]|[_ ?]]%lookup_insert_Some; [done | by eapply Hm].
    + split; [done|]. intros E. apply He in E as [E _]. by apply insert_non_empty in E.
Qed.

Lemma existsb_false {A} (f : A -> bool) l : (forall x, x ∈ l -> f x = false) -> existsb f l = false.
Proof.
  induction l as [|x l IH]; intros H; [done|]. cbn. rewrite H by left. cbn. apply IH. intros y Hy. apply H. by right.
Qed.

Lemma flags_tx : (Z.land addPathFlags BGPCapAddPathTx =? 0) = negb (0 <? addPathsMaxTx).
Proof. unfold addPathFlags. by destruct addPathsRx, (0 <? addPathsMaxTx). Qed.

Lemma add_path_enabled (m : gmap (Z * Z) Z) :
  (forall k f, m !! k = Some f -> f = addPathFlags) ->
  IsAddPathsTxEnabledForIPv4 m = (0 <? addPathsMaxTx) && negb (bool_decide (m = ∅)).
Proof.
  intros Hm. unfold IsAddPathsTxEnabledForIPv4. destruct (0 <? addPathsMaxTx) eqn:Etx; cbn [andb].
  - destruct (map_to_list m) as [|[k f] l] eqn:El.
    + apply map_to_list_empty_iff in El. subst. cbn. by rewrite bool_decide_true.
    + assert (Hk : m !! k = Some f) by (apply elem_of_map_to_list; rewrite El; left).
      cbn. rewrite (Hm k f Hk), flags_tx, Etx. cbn. rewrite bool_decide_false; [done|]. intros ->.
      by rewrite lookup_empty in Hk.
  - apply existsb_false. intros [k f] Hin. cbn. apply elem_of_map_to_list in Hin.
    by rewrite (Hm k f Hin), flags_tx, Etx.
Qed.

Lemma sent_add_paths families p0 :
  IsAddPathsTxEnabledForIPv4
    (GetAddPathFamily (p0 <| OptParams := [NewBGPOptParamCapability (sent_caps families)] |>)) =
  (0 <? addPathsMaxTx) && negb (bool_decide (families = [])).
Proof.
  unfold GetAddPathFamily. simpl_get. cbn [mbind list_bind capabilities_of NewBGPOptParamCapability].
  rewrite app_nil_r. unfold sent_caps. cbn [mbind list_bind app]. rewrite bind_app.
  assert (E : (c ← map family_cap families; match c with BGPCapAddPath _ value => [value] | _ => [] end) = []).
  { clear. induction families as [|f fs IH]; [done|]. cbn [map mbind list_bind]. exact IH. }
  rewrite E. cbn [app]. destruct (addPathFlags =? 0) eqn:Ef.
  - cbn. pose proof flags_tx as Ht. apply Z.eqb_eq in Ef. rewrite Ef in Ht. cbn in Ht.
    by destruct (0 <? addPathsMaxTx).
  - cbn [mbind list_bind app]. destruct (add_path_map families ∅) as [Ha He]; [by intros k f; rewrite lookup_empty|].
    rewrite add_path_enabled by done. f_equal. f_equal. apply bool_decide_ext. split.
    + intros E0. by apply He in E0 as [_ ?].
    + by intros ->.
Qed.

Lemma sent_open_spec families bgpId id :
  is_u32 as_ -> is_u16 holdTime -> To4 bgpId = Some id -> Forall is_u16 families -> len families <= 24 ->
  let open := NewBGPOpenMessage as_ holdTime bgpId (ConstructOptParams as_ families addPathsRx addPathsMaxTx) in
  exists o, wf_open o /\ BGPOpen_Encode open = Ok (open_bytes o) /\ len (OptParams o) = 1 /\
    Version o = 4 /\ MyAS o = (if 65535 <? as_ then BGPASTrans else as_) /\ HoldTime o = holdTime /\ BGPId o = id /\
    GetASSize o = 4 /\ GetProtocolFromOpenMsg o = list_to_set families /\
    IsAddPathsTxEnabledForIPv4 (GetAddPathFamily o) = (0 <? addPathsMaxTx) && negb (bool_decide (families = [])).
Proof.
  intros Has Hh Hid Hfam Hn open. pose proof (len_nonneg families).
  assert (Hid4 : length id = 4%nat).
  { unfold To4 in Hid. case_match; [injection Hid as <-; by apply Nat.eqb_eq|].
    case_match eqn:E; [|done]. injection Hid as <-. apply andb_true_iff in E as [E _]. apply Nat.eqb_eq in E.
    rewrite length_drop. lia. }
  set (o := open <| BGPId := id |>).
  assert (Eo : o = o <| OptParams := [NewBGPOptParamCapability (sent_caps families)] |>).
  { unfold o, open. rewrite construct_params by lia. done. }
  assert (Ee : BGPOpen_Encode open = BGPOpen_Encode o).
  { unfold BGPOpen_Encode, o. simpl_get. change (BGPId open) with bgpId. by rewrite Hid, To4_four. }
  pose proof (len_sent_caps families) as Hlc. pose proof (len_nonneg (caps_bytes (sent_caps families))) as Hpos.
  assert (Hwp : wf_param (NewBGPOptParamCapability (sent_caps families))).
  { rewrite new_param by done. split; [done|]. split; [lia|]. apply sent_caps_wf; [done | lia]. }
  assert (Hlp : len (param_bytes (NewBGPOptParamCapability (sent_caps families))) = 2 + len (caps_bytes (sent_caps families))).
  { unfold param_bytes. cbn [capabilities_of NewBGPOptParamCapability]. len_lia. }
  assert (Hwf : wf_open o).
  { assert (Eps : OptParams o = [NewBGPOptParamCapability (sent_caps families)]) by (by rewrite Eo).
    assert (Epb : len (params_bytes (OptParams o)) = 2 + len (caps_bytes (sent_caps families))).
    { rewrite Eps, len_params_cons, Hlp. change (len (params_bytes [])) with 0. lia. }
    split; [done | | done | done | by rewrite Eps; constructor; [done | constructor] | rewrite Eps; cbn [fits]; lia | | lia].
    - unfold o. simpl_get. unfold open. cbn. unfold is_u16, is_u32 in *. destruct (Z.ltb_spec 65535 as_); [done | lia].
    - rewrite Epb. unfold o. simpl_get. unfold open. cbn [NewBGPOpenMessage OptParamLen].
      rewrite construct_params by lia. cbn [fold_left]. rewrite param_total by done.
      rewrite Hlp, Z.add_0_l. rewrite (u8_small (2 + _)), u8_small by (unfold is_u8; lia). done. }
  exists o. rewrite Ee. split; [done|]. split; [by apply open_encode|]. split; [by rewrite Eo|].
  do 4 (split; [done|]). rewrite Eo.
  split; [|split; [by apply sent_families | apply sent_add_paths]].
  unfold GetASSize. simpl_get. cbn. by rewrite orb_true_r || done.
Qed.
(** C32: The OPEN that a speaker builds from its configuration is read by its peer
    as it was meant: version 4, the AS number or AS_TRANS, the hold time and the
    identifier, four-octet AS numbers, exactly the configured families, and the
    willingness to send additional paths. *)
Theorem sent_open_understood families bgpId id fuel :
  is_u32 as_ -> is_u16 holdTime -> To4 bgpId = Some id -> Forall is_u16 families -> len families <= 24 ->
  (1 < fuel)%nat ->
  let open := NewBGPOpenMessage as_ holdTime bgpId (ConstructOptParams as_ families addPathsRx addPathsMaxTx) in
  exists pkt o, BGPOpen_Encode open = Ok pkt /\ BGPOpen_Decode fuel pkt = val o /\
    Version o = 4 /\ MyAS o = (if 65535 <? as_ then BGPASTrans else as_) /\ HoldTime o = holdTime /\ BGPId o = id /\
    GetASSize o = 4 /\ GetProtocolFromOpenMsg o = list_to_set families /\
    IsAddPathsTxEnabledForIPv4 (GetAddPathFamily o) = (0 <? addPathsMaxTx) && negb (bool_decide (families = [])).
Proof.
  intros Has Hh Hid Hfam Hn Hfuel open.
  destruct (sent_open_spec families bgpId id Has Hh Hid Hfam Hn) as (o & Hwf & He & Hl & Hrest).
  exists (open_bytes o), o. split; [done|]. split; [|done]. apply open_decode; [done|]. unfold len in Hl. lia.
Qed.
End Sent.

(** ** Examples *)

Definition demo_caps : list BGPCapability := [NewBGPCap4ByteASPath 65551; NewBGPCapMPExt AfiIP6 SafiUnicast].

Definition demo_open : BGPOpen :=
  mkOpen 4 BGPASTrans 180 [10; 0; 0; 1] 14
    [BGPOptParamCapability (mkOptBase BGPOptParamTypeCapability 12) demo_caps].

Lemma demo_open_wf : wf_open demo_open.
Proof.
  assert (Hc : Forall wf_cap demo_caps) by (constructor; [done | constructor; [done | constructor]]).
  split; [done | done | done | done | | cbn [fits demo_open OptParams]; repeat split; done | done | done].
  constructor; [|constructor]. split; [done|]. by split.
Qed.

Lemma open_roundtrip_witness :
  wf_open demo_open /\ (length (OptParams demo_open) < 2)%nat /\
  exists pkt, BGPOpen_Encode demo_open = Ok pkt /\ BGPOpen_Decode 2 pkt = val demo_open.
Proof.
  split; [exact demo_open_wf|]. split; [cbn; lia|].
  apply (open_roundtrip demo_open 2); [exact demo_open_wf | cbn; lia].
Defined.

(** 127 empty capabilities of an unknown type. *)
Definition filler : list BGPCapability := replicate 127 (BGPCapUnknown (mkCapBase 0 0) []).

Lemma open_decode_never_ends_witness :
  wf_fields demo_open /\ 0 < OptParamLen demo_open /\ len (caps_bytes filler) = 254 /\
  BGPOpen_Decode 100 (fixed_bytes demo_open ++ [BGPOptParamTypeCapability; 254] ++ caps_bytes filler ++ []) = Hang.
Proof.
  assert (Hf : wf_fields demo_open) by done.
  split; [exact Hf|]. split; [cbn; lia|]. split; [vm_compute; reflexivity|].
  apply (open_decode_never_ends demo_open filler [] 100); [exact Hf | cbn; lia | | vm_compute; reflexivity].
  apply Forall_replicate. done.
Defined.

Lemma sent_open_understood_witness :
  is_u32 65551 /\ To4 [10; 0; 0; 1] = Some [10; 0; 0; 1] /\ Forall is_u16 [257; 513] /\
  exists pkt o, BGPOpen_Encode (NewBGPOpenMessage 65551 180 [10; 0; 0; 1] (ConstructOptParams 65551 [257; 513] true 2)) = Ok pkt /\
    BGPOpen_Decode 2 pkt = val o /\
    Version o = 4 /\ MyAS o = (if 65535 <? 65551 then BGPASTrans else 65551) /\ HoldTime o = 180 /\ BGPId o = [10; 0; 0; 1] /\
    GetASSize o = 4 /\ GetProtocolFromOpenMsg o = list_to_set [257; 513] /\
    IsAddPathsTxEnabledForIPv4 (GetAddPathFamily o) = (0 <? 2) && negb (bool_decide ([257; 513] = [])).
Proof.
  assert (Hf : Forall is_u16 [257; 513]) by (constructor; [done | constructor; [done | constructor]]).
  split; [done|]. split; [reflexivity|]. split; [exact Hf|].
  apply (sent_open_understood 65551 180 true 2 [257; 513] [10; 0; 0; 1] [10; 0; 0; 1] 2);
    [done | done | reflexivity | exact Hf | done | lia].
Defined.
