(* ===== verification/BgpAttr.v ===== *)
(** * BGP path attributes

    Prefixes, path attributes and the multiprotocol attributes of
    [l3/bgp/packet/bgp.go] and [mpbgp.go].  An IP address is the list of its
    octets: the slices the code builds for one have no capacity beyond their
    length, so [cap] is the length.  The [Clone] methods copy deeply; in a
    model of values they are the identity. *)

From S2P Require Import Prelude BgpWire BgpOpen.

Definition BGPMalformedAttrList : Z := 1.
Definition BGPUnrecognizedWellKnownAttr : Z := 2.
Definition BGPMissingWellKnownAttr : Z := 3.
Definition BGPAttrFlagsError : Z := 4.
Definition BGPAttrLenError : Z := 5.
Definition BGPInvalidNetworkField : Z := 10.

Definition BGPPathAttrFlagExtendedLen : Z := 16.
Definition BGPPathAttrFlagPartial : Z := 32.
Definition BGPPathAttrFlagTransitive : Z := 64.
Definition BGPPathAttrFlagOptional : Z := 128.
Definition BGPPathAttrFlagAllMinusExtendedLen : Z := 224.

Definition BGPPathAttrTypeOrigin : Z := 1.
Definition BGPPathAttrTypeASPath : Z := 2.
Definition BGPPathAttrTypeNextHop : Z := 3.
Definition BGPPathAttrTypeMultiExitDisc : Z := 4.
Definition BGPPathAttrTypeLocalPref : Z := 5.
Definition BGPPathAttrTypeAtomicAggregate : Z := 6.
Definition BGPPathAttrTypeAggregator : Z := 7.
Definition BGPPathAttrTypeOriginatorId : Z := 9.
Definition BGPPathAttrTypeClusterList : Z := 10.
Definition BGPPathAttrTypeMPReachNLRI : Z := 14.
Definition BGPPathAttrTypeMPUnreachNLRI : Z := 15.
Definition BGPPathAttrTypeAS4Path : Z := 17.
Definition BGPPathAttrTypeAS4Aggregator : Z := 18.
Definition BGPPathAttrTypeUnknown : Z := 19.
Definition BGPPathAttrOriginMax : Z := 3.
Definition BGPASPathSegmentSet : Z := 1.
Definition BGPASPathSegmentSequence : Z := 2.

(** What a peer announced in its OPEN. *)
Record BGPPeerAttrs := mkPeerAttrs { pa_ASSize : Z; AddPathsRxActual : bool }.

(** ** Prefixes *)

Record IPPrefix := mkIPPrefix { ip_Length : Z; ip_Prefix : list Z }.

Inductive NLRI :=
| NLRIPrefix (ip : IPPrefix)
| ExtNLRI (ip : IPPrefix) (PathId : Z).

(** The octets of a prefix of [length] bits, in [uint8] arithmetic. *)
Definition prefix_bytes (length : Z) : Z := u8 (length + 7) / 8.

Definition IPPrefix_Len (ip : IPPrefix) : Z := u8 (prefix_bytes (ip_Length ip) + 1).

Definition IPPrefix_Encode (afi : Z) (ip : IPPrefix) : exec (list Z) :=
  let pkt := make (IPPrefix_Len ip) in
  let! pkt := put_at pkt 0 [ip_Length ip] in
  let ipLen := if afi =? AfiIP6 then 16 else 4 in
  let ipBytesStart := u8 (len (ip_Prefix ip) - ipLen) in
  let! bytes := slice (ip_Prefix ip) ipBytesStart (u8 (ipBytesStart + prefix_bytes (ip_Length ip))) in
  copy_at pkt 1 bytes.

Definition AFINextHopLenMap (afi : Z) : option Z :=
  if afi =? AfiIP then Some 4 else if afi =? AfiIP6 then Some 16 else None.

Definition IPPrefix_Decode (afi : Z) (pkt : list Z) : exec (result IPPrefix) :=
  if len pkt <? 1 then fail BGPUpdateMsgError BGPInvalidNetworkField [] else
  let! length := index pkt 0 in
  if match AFINextHopLenMap afi with Some n => n * 8 <? length | None => false end
  then fail BGPUpdateMsgError BGPInvalidNetworkField [] else
  let bytes := prefix_bytes length in
  if len pkt <? bytes + 1 then fail BGPUpdateMsgError BGPInvalidNetworkField [] else
  let ipLen := if (afi =? AfiIP6) || (4 <? bytes) then 16 else 4 in
  let! src := slice pkt 1 (bytes + 1) in
  let prefix := copy_make ipLen src in
  if (0 <? bytes) && (0 <? length mod 8) then
    let! b := index prefix (bytes - 1) in
    let! prefix := store prefix (bytes - 1) (Z.land b (255 - Z.shiftr 255 (length mod 8))) in
    val (mkIPPrefix length prefix)
  else val (mkIPPrefix length prefix).

Definition nlri_prefix (n : NLRI) : IPPrefix := match n with NLRIPrefix ip | ExtNLRI ip _ => ip end.

Definition NLRI_Len (n : NLRI) : Z :=
  match n with
  | NLRIPrefix ip => IPPrefix_Len ip
  | ExtNLRI ip _ => u32 (IPPrefix_Len ip + 4)
  end.

Definition NLRI_Encode (afi : Z) (n : NLRI) : exec (list Z) :=
  match n with
  | NLRIPrefix ip => IPPrefix_Encode afi ip
  | ExtNLRI ip pathId =>
      let! ipBytes := IPPrefix_Encode afi ip in
      Ok (PutUint32 pathId ++ ipBytes)
  end.

Definition ExtNLRI_Decode (afi : Z) (pkt : list Z) : exec (result NLRI) :=
  if len pkt <? 5 then fail BGPUpdateMsgError BGPInvalidNetworkField [] else
  let! pathId := uint32_at pkt 0 in
  let! rest := slice_from pkt 4 in
  let? ip := IPPrefix_Decode afi rest in
  val (ExtNLRI ip pathId).

Definition NLRI_Decode (addPaths : bool) (afi : Z) (pkt : list Z) : exec (result NLRI) :=
  if addPaths then ExtNLRI_Decode afi pkt
  else let? ip := IPPrefix_Decode afi pkt in val (NLRIPrefix ip).

(** A prefix has at least one octet, so [length] bounds the turns. *)
Fixpoint nlri_loop (fuel : nat) (addPaths : bool) (afi : Z) (pkt : list Z) (ptr length : Z) (ipPrefix : list NLRI)
  : exec (result (Z * list NLRI)) :=
  match fuel with
  | O => Hang
  | S fuel =>
      if ptr <? length then
        let! rest := slice_from pkt ptr in
        let? ip := NLRI_Decode addPaths afi rest in
        nlri_loop fuel addPaths afi pkt (u32 (ptr + NLRI_Len ip)) length (ipPrefix ++ [ip])
      else val (ptr, ipPrefix)
  end.

Definition decodeNLRI (pkt : list Z) (length afi : Z) (data : BGPPeerAttrs) : exec (result (Z * list NLRI)) :=
  if len pkt <? length then fail BGPUpdateMsgError BGPMalformedAttrList [] else
  let? (ptr, ipPrefix) := nlri_loop (S (Z.to_nat length)) (AddPathsRxActual data) afi pkt 0 length [] in
  if negb (ptr =? length) then fail BGPUpdateMsgError BGPAttrLenError pkt
  else val (ptr, ipPrefix).

(** ** The head of an attribute *)

Record BGPPathAttrBase := mkAttrBase {
  Flags : Z;
  Code : Z;
  a_Length : Z;
  BGPPathAttrLen : Z
}.

Definition BGPPathAttrBase_TotalLen (pa : BGPPathAttrBase) : Z := u32 (a_Length pa + BGPPathAttrLen pa).

Definition has_flag (flags flag : Z) : bool := negb (Z.land flags flag =? 0).

Definition BGPPathAttrBase_Encode (pa : BGPPathAttrBase) : exec (list Z) :=
  let pkt := make (BGPPathAttrBase_TotalLen pa) in
  let! pkt := put_at pkt 0 [Flags pa; Code pa] in
  if has_flag (Flags pa) BGPPathAttrFlagExtendedLen then put_at pkt 2 (PutUint16 (a_Length pa))
  else put_at pkt 2 [u8 (a_Length pa)].

(** The data of most errors is the attribute, [pkt[:pa.TotalLen()]]. *)
Definition attr_error {A} (pa : BGPPathAttrBase) (pkt : list Z) (sub : Z) : exec (result A) :=
  let! data := slice_to pkt (BGPPathAttrBase_TotalLen pa) in
  fail BGPUpdateMsgError sub data.

Definition checkFlags (pa : BGPPathAttrBase) (pkt : list Z) : exec (result unit) :=
  let optional := has_flag (Flags pa) BGPPathAttrFlagOptional in
  let transitive := has_flag (Flags pa) BGPPathAttrFlagTransitive in
  if negb optional && negb transitive then attr_error pa pkt BGPAttrFlagsError
  else if has_flag (Flags pa) BGPPathAttrFlagPartial then
    if negb optional then attr_error pa pkt BGPAttrFlagsError
    else if optional && negb transitive then attr_error pa pkt BGPAttrFlagsError
    else val tt
  else val tt.

Definition BGPPathAttrTypeFlagsMap (code : Z) : option (Z * Z) :=
  let mask := BGPPathAttrFlagAllMinusExtendedLen in
  if code =? BGPPathAttrTypeOrigin then Some (BGPPathAttrFlagTransitive, mask)
  else if code =? BGPPathAttrTypeASPath then Some (BGPPathAttrFlagTransitive, mask)
  else if code =? BGPPathAttrTypeNextHop then Some (BGPPathAttrFlagTransitive, mask)
  else if code =? BGPPathAttrTypeMultiExitDisc then Some (BGPPathAttrFlagOptional, mask)
  else if code =? BGPPathAttrTypeLocalPref then Some (BGPPathAttrFlagTransitive, mask)
  else if code =? BGPPathAttrTypeAtomicAggregate then Some (BGPPathAttrFlagTransitive, mask)
  else if code =? BGPPathAttrTypeAggregator then Some (Z.lor BGPPathAttrFlagOptional BGPPathAttrFlagTransitive, mask)
  else if code =? BGPPathAttrTypeOriginatorId then Some (BGPPathAttrFlagOptional, mask)
  else if code =? BGPPathAttrTypeClusterList then Some (BGPPathAttrFlagOptional, mask)
  else if code =? BGPPathAttrTypeMPReachNLRI then Some (BGPPathAttrFlagOptional, mask)
  else if code =? BGPPathAttrTypeMPUnreachNLRI then Some (BGPPathAttrFlagOptional, mask)
  else if code =? BGPPathAttrTypeAS4Path then Some (Z.lor BGPPathAttrFlagOptional BGPPathAttrFlagTransitive, mask)
  else if code =? BGPPathAttrTypeAS4Aggregator then Some (Z.lor BGPPathAttrFlagOptional BGPPathAttrFlagTransitive, mask)
  else None.

Definition BGPPathAttrTypeLenMap (code : Z) : option Z :=
  if code =? BGPPathAttrTypeOrigin then Some 1
  else if code =? BGPPathAttrTypeNextHop then Some 4
  else if code =? BGPPathAttrTypeMultiExitDisc then Some 4
  else if code =? BGPPathAttrTypeLocalPref then Some 4
  else if code =? BGPPathAttrTypeAtomicAggregate then Some 0
  else if code =? BGPPathAttrTypeAS4Aggregator then Some 8
  else None.

(** The sum in the length check is a [uint16] and wraps. *)
Definition BGPPathAttrBase_Decode (pkt : list Z) : exec (result BGPPathAttrBase) :=
  if len pkt <? 3 then fail BGPUpdateMsgError BGPMalformedAttrList [] else
  let! flags := index pkt 0 in
  let! code := index pkt 1 in
  let? pa :=
    (if has_flag flags BGPPathAttrFlagExtendedLen then
       if len pkt <? 4 then fail BGPUpdateMsgError BGPMalformedAttrList []
       else let! length := uint16_at pkt 2 in val (mkAttrBase flags code length 4)
     else let! length := index pkt 2 in val (mkAttrBase flags code length 3)) in
  if len pkt <? u16 (a_Length pa + BGPPathAttrLen pa) then fail BGPUpdateMsgError BGPMalformedAttrList pkt else
  if match BGPPathAttrTypeFlagsMap code with
     | Some (v, mask) => negb (Z.land (Z.lxor v flags) mask =? 0)
     | None => false
     end then attr_error pa pkt BGPAttrFlagsError else
  let? _ := checkFlags pa pkt in
  if match BGPPathAttrTypeLenMap code with Some length => negb (length =? a_Length pa) | None => false end
  then attr_error pa pkt BGPAttrLenError else
  if negb (has_flag flags BGPPathAttrFlagOptional) && (BGPPathAttrTypeUnknown <=? code)
  then attr_error pa pkt BGPUnrecognizedWellKnownAttr
  else val pa.

(** ** AS paths *)

Record BGPASPathSegmentBase := mkSegBase { s_Type : Z; s_Length : Z; BGPASPathSegmentLen : Z }.

Inductive BGPASPathSegment :=
| BGPAS2PathSegment (base : BGPASPathSegmentBase) (AS : list Z)
| BGPAS4PathSegment (base : BGPASPathSegmentBase) (AS : list Z).

Definition seg_base (s : BGPASPathSegment) : BGPASPathSegmentBase :=
  match s with BGPAS2PathSegment b _ | BGPAS4PathSegment b _ => b end.
Definition seg_AS (s : BGPASPathSegment) : list Z :=
  match s with BGPAS2PathSegment _ a | BGPAS4PathSegment _ a => a end.

Definition Segment_TotalLen (s : BGPASPathSegment) : Z := BGPASPathSegmentLen (seg_base s).

Definition BGPASPathSegmentBase_Decode (pkt : list Z) : exec (result (Z * Z)) :=
  if len pkt <=? 2 then fail BGPUpdateMsgError BGPMalformedAttrList [] else
  let! type := index pkt 0 in
  let! length := index pkt 1 in
  val (type, length).

(** The AS numbers from position [off] on. *)
Fixpoint read_AS2 (n : nat) (pkt : list Z) (off : Z) : exec (list Z) :=
  match n with
  | O => Ok []
  | S n => let! x := uint16_at pkt off in let! xs := read_AS2 n pkt (off + 2) in Ok (x :: xs)
  end.
Fixpoint read_AS4 (n : nat) (pkt : list Z) (off : Z) : exec (list Z) :=
  match n with
  | O => Ok []
  | S n => let! x := uint32_at pkt off in let! xs := read_AS4 n pkt (off + 4) in Ok (x :: xs)
  end.

(** The length in octets is computed in [uint8] arithmetic. *)
Definition BGPAS2PathSegment_Decode (pkt : list Z) : exec (result BGPASPathSegment) :=
  let? (type, length) := BGPASPathSegmentBase_Decode pkt in
  if len pkt - 2 <? length * 2 then fail BGPUpdateMsgError BGPMalformedAttrList [] else
  let! as_ := read_AS2 (Z.to_nat length) pkt 2 in
  val (BGPAS2PathSegment (mkSegBase type length (u8 (length * 2 + 2))) as_).

Definition BGPAS4PathSegment_Decode (pkt : list Z) : exec (result BGPASPathSegment) :=
  let? (type, length) := BGPASPathSegmentBase_Decode pkt in
  if len pkt - 2 <? length * 4 then fail BGPUpdateMsgError BGPMalformedAttrList [] else
  let! as_ := read_AS4 (Z.to_nat length) pkt 2 in
  val (BGPAS4PathSegment (mkSegBase type length (u8 (length * 4 + 2))) as_).

(** Each number is written at its place behind the two octets of the base. *)
Fixpoint write_AS (width : Z) (put : Z -> list Z) (pkt : list Z) (off : Z) (as_ : list Z) : exec (list Z) :=
  match as_ with
  | [] => Ok pkt
  | x :: as_ => let! pkt := put_at pkt off (put x) in write_AS width put pkt (off + width) as_
  end.

(** [Encode] of a segment into the buffer from [off] on. *)
Definition BGPASPathSegmentBase_Encode (pkt : list Z) (off : Z) (ps : BGPASPathSegmentBase) : exec (list Z) :=
  let! _ := slice_from pkt off in
  put_at pkt off [s_Type ps; s_Length ps].

Definition BGPAS2PathSegment_Encode (pkt : list Z) (off : Z) (ps : BGPASPathSegmentBase) (as_ : list Z) : exec (list Z) :=
  let! pkt := BGPASPathSegmentBase_Encode pkt off ps in
  write_AS 2 PutUint16 pkt (off + 2) as_.

Definition BGPAS4PathSegment_Encode (pkt : list Z) (off : Z) (ps : BGPASPathSegmentBase) (as_ : list Z) : exec (list Z) :=
  let! pkt := BGPASPathSegmentBase_Encode pkt off ps in
  write_AS 4 PutUint32 pkt (off + 2) as_.

Definition Segment_Encode (pkt : list Z) (off : Z) (s : BGPASPathSegment) : exec (list Z) :=
  match s with
  | BGPAS2PathSegment b as_ => BGPAS2PathSegment_Encode pkt off b as_
  | BGPAS4PathSegment b as_ => BGPAS4PathSegment_Encode pkt off b as_
  end.

(** ** Attributes *)

Inductive BGPAggregatorAS :=
| BGPAggregator2ByteAS (AS : Z)
| BGPAggregator4ByteAS (AS : Z).

Definition AggregatorAS_GetLen (a : BGPAggregatorAS) : Z :=
  match a with BGPAggregator2ByteAS _ => 2 | BGPAggregator4ByteAS _ => 4 end.
Definition AggregatorAS_GetAS (a : BGPAggregatorAS) : Z :=
  match a with BGPAggregator2ByteAS v | BGPAggregator4ByteAS v => v end.

Inductive MPNextHop :=
| MPNextHopIP (Length : Z) (Value : list Z)
| MPNextHopIP6 (Length : Z) (Value : list Z) (LinkLocal : option (list Z))
| MPNextHopUnknown (Length : Z) (Value : list Z).

Inductive BGPPathAttr :=
| BGPPathAttrOrigin (base : BGPPathAttrBase) (Value : Z)
| BGPPathAttrASPath (base : BGPPathAttrBase) (Value : list BGPASPathSegment) (ASSize : Z)
| BGPPathAttrNextHop (base : BGPPathAttrBase) (Value : list Z)
| BGPPathAttrMultiExitDisc (base : BGPPathAttrBase) (Value : Z)
| BGPPathAttrLocalPref (base : BGPPathAttrBase) (Value : Z)
| BGPPathAttrAtomicAggregate (base : BGPPathAttrBase)
| BGPPathAttrAggregator (base : BGPPathAttrBase) (AS : BGPAggregatorAS) (IP : list Z)
| BGPPathAttrOriginatorId (base : BGPPathAttrBase) (Value : list Z)
| BGPPathAttrClusterList (base : BGPPathAttrBase) (Value : list Z)
| BGPPathAttrMPReachNLRI (base : BGPPathAttrBase) (AFI SAFI : Z) (NextHop : MPNextHop) (Reserved : Z) (nlri : list NLRI)
| BGPPathAttrMPUnreachNLRI (base : BGPPathAttrBase) (AFI SAFI : Z) (nlri : list NLRI)
| BGPPathAttrAS4Path (base : BGPPathAttrBase) (Value : list BGPASPathSegment)
| BGPPathAttrAS4Aggregator (base : BGPPathAttrBase) (AS : Z) (IP : list Z)
| BGPPathAttrUnknown (base : BGPPathAttrBase) (Value : list Z).

Definition attr_base (pa : BGPPathAttr) : BGPPathAttrBase :=
  match pa with
  | BGPPathAttrOrigin b _ | BGPPathAttrASPath b _ _ | BGPPathAttrNextHop b _ | BGPPathAttrMultiExitDisc b _
  | BGPPathAttrLocalPref b _ | BGPPathAttrAtomicAggregate b | BGPPathAttrAggregator b _ _
  | BGPPathAttrOriginatorId b _ | BGPPathAttrClusterList b _ | BGPPathAttrMPReachNLRI b _ _ _ _ _
  | BGPPathAttrMPUnreachNLRI b _ _ _ | BGPPathAttrAS4Path b _ | BGPPathAttrAS4Aggregator b _ _
  | BGPPathAttrUnknown b _ => b
  end.

Definition PathAttr_TotalLen (pa : BGPPathAttr) : Z := BGPPathAttrBase_TotalLen (attr_base pa).
Definition GetCode (pa : BGPPathAttr) : Z := Code (attr_base pa).

(** ** Decoders

    [pkt] is the rest of the message from the attribute on. *)

(** [pkt[BGPPathAttrLen:BGPPathAttrLen+Length]], with bounds in [uint16]. *)
Definition attr_value (base : BGPPathAttrBase) (pkt : list Z) : exec (list Z) :=
  slice pkt (BGPPathAttrLen base) (u16 (BGPPathAttrLen base + a_Length base)).

Definition BGPPathAttrOrigin_Decode (pkt : list Z) : exec (result BGPPathAttr) :=
  let? base := BGPPathAttrBase_Decode pkt in
  let! value := index pkt (BGPPathAttrLen base) in
  if BGPPathAttrOriginMax <=? value then attr_error base pkt BGPMalformedAttrList
  else val (BGPPathAttrOrigin base value).

(** The loop over the segments.  A segment that does not decode ends it
    without an error; one whose length in octets wraps to zero makes no
    progress. *)
Fixpoint segments_decode (fuel : nat) (as4 : bool) (pkt : list Z) (ptr stop : Z) (value : list BGPASPathSegment)
  : exec (result (list BGPASPathSegment)) :=
  match fuel with
  | O => Hang
  | S fuel =>
      if ptr <? stop then
        let! rest := slice_from pkt ptr in
        let! r := (if as4 then BGPAS4PathSegment_Decode rest else BGPAS2PathSegment_Decode rest) in
        match r with
        | Err _ => val value
        | Val seg =>
            let ptr := u32 (ptr + Segment_TotalLen seg) in
            if stop <? ptr then fail BGPUpdateMsgError BGPAttrLenError pkt
            else segments_decode fuel as4 pkt ptr stop (value ++ [seg])
        end
      else if negb (ptr =? stop) then fail BGPUpdateMsgError BGPAttrLenError pkt
      else val value
  end.

Definition BGPPathAttrASPath_Decode (fuel : nat) (pkt : list Z) (data : BGPPeerAttrs) : exec (result BGPPathAttr) :=
  let? base := BGPPathAttrBase_Decode pkt in
  let? value := segments_decode fuel (pa_ASSize data =? 4) pkt (BGPPathAttrLen base)
                  (BGPPathAttrBase_TotalLen base) [] in
  val (BGPPathAttrASPath base value (pa_ASSize data)).

Definition BGPPathAttrAS4Path_Decode (fuel : nat) (pkt : list Z) : exec (result BGPPathAttr) :=
  let? base := BGPPathAttrBase_Decode pkt in
  let? value := segments_decode fuel true pkt (BGPPathAttrLen base) (BGPPathAttrBase_TotalLen base) [] in
  val (BGPPathAttrAS4Path base value).

Definition BGPPathAttrNextHop_Decode (pkt : list Z) : exec (result BGPPathAttr) :=
  let? base := BGPPathAttrBase_Decode pkt in
  let! value := attr_value base pkt in
  val (BGPPathAttrNextHop base (copy_make (a_Length base) value)).

Definition BGPPathAttrMultiExitDisc_Decode (pkt : list Z) : exec (result BGPPathAttr) :=
  let? base := BGPPathAttrBase_Decode pkt in
  let! value := attr_value base pkt in
  let! x := uint32_at value 0 in
  val (BGPPathAttrMultiExitDisc base x).

Definition BGPPathAttrLocalPref_Decode (pkt : list Z) : exec (result BGPPathAttr) :=
  let? base := BGPPathAttrBase_Decode pkt in
  let! value := attr_value base pkt in
  let! x := uint32_at value 0 in
  val (BGPPathAttrLocalPref base x).

Definition BGPPathAttrAtomicAggregate_Decode (pkt : list Z) : exec (result BGPPathAttr) :=
  let? base := BGPPathAttrBase_Decode pkt in
  val (BGPPathAttrAtomicAggregate base).

Definition BGPAggregator4ByteAS_Decode (pkt : list Z) : exec Z := uint32_at pkt 0.

Definition AggregatorAS_Decode (asSize : Z) (pkt : list Z) : exec (result BGPAggregatorAS) :=
  if asSize =? 2 then
    if len pkt <? 2 then fail BGPUpdateMsgError BGPAttrLenError []
    else let! x := uint16_at pkt 0 in val (BGPAggregator2ByteAS x)
  else let! x := BGPAggregator4ByteAS_Decode pkt in val (BGPAggregator4ByteAS x).

Definition BGPPathAttrAggregator_Decode (pkt : list Z) (data : BGPPeerAttrs) : exec (result BGPPathAttr) :=
  let? base := BGPPathAttrBase_Decode pkt in
  let asSize := pa_ASSize data in
  if a_Length base <? u8 (asSize + 4) then attr_error base pkt BGPAttrLenError else
  let! rest := slice_from pkt (BGPPathAttrLen base) in
  let? aggAS := AggregatorAS_Decode asSize rest in
  let! rest := slice_from pkt (u16 (BGPPathAttrLen base + AggregatorAS_GetLen aggAS)) in
  val (BGPPathAttrAggregator base aggAS (copy_make 4 rest)).

Definition BGPPathAttrAS4Aggregator_Decode (pkt : list Z) : exec (result BGPPathAttr) :=
  let? base := BGPPathAttrBase_Decode pkt in
  let! rest := slice_from pkt (BGPPathAttrLen base) in
  let! as_ := BGPAggregator4ByteAS_Decode rest in
  let! rest := slice_from pkt (u16 (BGPPathAttrLen base + 4)) in
  val (BGPPathAttrAS4Aggregator base as_ (copy_make 4 rest)).

Definition BGPPathAttrOriginatorId_Decode (pkt : list Z) : exec (result BGPPathAttr) :=
  let? base := BGPPathAttrBase_Decode pkt in
  let! value := attr_value base pkt in
  val (BGPPathAttrOriginatorId base (copy_make (a_Length base) value)).

(** [pkt[hdr+4*i : hdr+4*i+4]] for each of the [n] identifiers, from [off] on. *)
Fixpoint read_ids (n : nat) (pkt : list Z) (off : Z) : exec (list Z) :=
  match n with
  | O => Ok []
  | S n =>
      let! s := slice pkt (u16 off) (u16 (off + 4)) in
      let! x := uint32_at s 0 in
      let! xs := read_ids n pkt (off + 4) in
      Ok (x :: xs)
  end.

Definition BGPPathAttrClusterList_Decode (pkt : list Z) : exec (result BGPPathAttr) :=
  let? base := BGPPathAttrBase_Decode pkt in
  let! value := read_ids (Z.to_nat (a_Length base / 4)) pkt (BGPPathAttrLen base) in
  val (BGPPathAttrClusterList base value).

Definition BGPPathAttrUnknown_Decode (pkt : list Z) : exec (result BGPPathAttr) :=
  let? base := BGPPathAttrBase_Decode pkt in
  let! value := attr_value base pkt in
  val (BGPPathAttrUnknown base (copy_make (a_Length base) value)).

(** *** Multiprotocol attributes *)

Definition MPNextHop_Length (n : MPNextHop) : Z :=
  match n with MPNextHopIP l _ | MPNextHopIP6 l _ _ | MPNextHopUnknown l _ => l end.
Definition MPNextHop_Len (n : MPNextHop) : Z := u8 (MPNextHop_Length n + 1).

Definition next_hop_length_ok (l : Z) : bool := (l =? 4) || (l =? 16) || (l =? 32).

(** The error for a wrong length is dropped by the caller; the value then
    stays nil. *)
Definition MPNextHopIP_Decode (pkt : list Z) : exec MPNextHop :=
  let! length := index pkt 0 in
  if negb (next_hop_length_ok length) then Ok (MPNextHopIP length [])
  else if length =? 4 then
    let! b1 := index pkt 1 in
    let! b2 := index pkt 2 in
    let! b3 := index pkt 3 in
    let! b4 := index pkt 4 in
    Ok (MPNextHopIP length (v4InV6Prefix ++ [b1; b2; b3; b4]))
  else
    let! rest := slice_from pkt 1 in
    Ok (MPNextHopIP length (copy_make 16 rest)).

Definition MPNextHopUnknown_Decode (pkt : list Z) : exec MPNextHop :=
  let! length := index pkt 0 in
  let! rest := slice_from pkt 1 in
  Ok (MPNextHopUnknown length (copy_make length rest)).

(** [BGPGetMPNextHop] and the [Decode] of what it returns: the structure for
    IPv6 makes one for IPv4. *)
Definition MPNextHop_Decode (afi : Z) (pkt : list Z) : exec MPNextHop :=
  if (afi =? AfiIP) || (afi =? AfiIP6) then MPNextHopIP_Decode pkt else MPNextHopUnknown_Decode pkt.

Definition BGPPathAttrMPReachNLRI_Decode (pkt : list Z) (data : BGPPeerAttrs) : exec (result BGPPathAttr) :=
  let? base := BGPPathAttrBase_Decode pkt in
  let idx := BGPPathAttrLen base in
  let! s := slice pkt idx (idx + 2) in
  let! afi := uint16_at s 0 in
  let! safi := index pkt (idx + 2) in
  let idx := idx + 3 in
  let! rest := slice_from pkt idx in
  let! nextHop := MPNextHop_Decode afi rest in
  let idx := idx + MPNextHop_Len nextHop in
  let! reserved := index pkt idx in
  let idx := idx + 1 in
  let length := u32 (a_Length base - 4 - MPNextHop_Len nextHop) in
  let! rest := slice_from pkt idx in
  let? (_, nlri) := decodeNLRI rest length afi data in
  val (BGPPathAttrMPReachNLRI base afi safi nextHop reserved nlri).

Definition BGPPathAttrMPUnreachNLRI_Decode (pkt : list Z) (data : BGPPeerAttrs) : exec (result BGPPathAttr) :=
  let? base := BGPPathAttrBase_Decode pkt in
  let idx := BGPPathAttrLen base in
  let! s := slice pkt idx (idx + 2) in
  let! afi := uint16_at s 0 in
  let! safi := index pkt (idx + 2) in
  let idx := idx + 3 in
  let length := u32 (a_Length base - 3) in
  let! rest := slice_from pkt idx in
  let? (_, nlri) := decodeNLRI rest length afi data in
  val (BGPPathAttrMPUnreachNLRI base afi safi nlri).

(** [BGPGetPathAttr] and [Decode] of what it returns. *)
Definition PathAttr_Decode (fuel : nat) (pkt : list Z) (data : BGPPeerAttrs) : exec (result BGPPathAttr) :=
  let! typeCode := index pkt 1 in
  if typeCode =? BGPPathAttrTypeOrigin then BGPPathAttrOrigin_Decode pkt
  else if typeCode =? BGPPathAttrTypeASPath then BGPPathAttrASPath_Decode fuel pkt data
  else if typeCode =? BGPPathAttrTypeNextHop then BGPPathAttrNextHop_Decode pkt
  else if typeCode =? BGPPathAttrTypeMultiExitDisc then BGPPathAttrMultiExitDisc_Decode pkt
  else if typeCode =? BGPPathAttrTypeLocalPref then BGPPathAttrLocalPref_Decode pkt
  else if typeCode =? BGPPathAttrTypeAtomicAggregate then BGPPathAttrAtomicAggregate_Decode pkt
  else if typeCode =? BGPPathAttrTypeAggregator then BGPPathAttrAggregator_Decode pkt data
  else if typeCode =? BGPPathAttrTypeOriginatorId then BGPPathAttrOriginatorId_Decode pkt
  else if typeCode =? BGPPathAttrTypeClusterList then BGPPathAttrClusterList_Decode pkt
  else if typeCode =? BGPPathAttrTypeMPReachNLRI then BGPPathAttrMPReachNLRI_Decode pkt data
  else if typeCode =? BGPPathAttrTypeMPUnreachNLRI then BGPPathAttrMPUnreachNLRI_Decode pkt data
  else if typeCode =? BGPPathAttrTypeAS4Path then BGPPathAttrAS4Path_Decode fuel pkt
  else if typeCode =? BGPPathAttrTypeAS4Aggregator then BGPPathAttrAS4Aggregator_Decode pkt
  else BGPPathAttrUnknown_Decode pkt.

(** ** Encoders

    [None] is an error. *)

Fixpoint segments_encode (pkt : list Z) (length : Z) (value : list BGPASPathSegment) : exec (list Z) :=
  match value with
  | [] => Ok pkt
  | s :: value =>
      let! pkt := Segment_Encode pkt length s in
      segments_encode pkt (u16 (length + Segment_TotalLen s)) value
  end.

Fixpoint write_ids (pkt : list Z) (off : Z) (ids : list Z) : exec (list Z) :=
  match ids with
  | [] => Ok pkt
  | x :: ids => let! pkt := put_at pkt (u16 off) (PutUint32 x) in write_ids pkt (off + 4) ids
  end.

Definition AggregatorAS_Encode (a : BGPAggregatorAS) : list Z :=
  match a with BGPAggregator2ByteAS v => PutUint16 v | BGPAggregator4ByteAS v => PutUint32 v end.

(** [Encode] of a next hop into the buffer from [idx] on. *)
Definition MPNextHopIP_Encode (pkt : list Z) (idx length : Z) (value : list Z) : exec (option (list Z)) :=
  let! pkt := put_at pkt idx [length] in
  if negb (next_hop_length_ok length) then Ok None else
  let ipLen := if (length =? 16) || (length =? 32) then 16 else 4 in
  let! bytes := slice_from value (len value - ipLen) in
  to_exec (copy_at pkt (idx + 1) bytes).

Definition MPNextHopIP6_Encode (pkt : list Z) (idx length : Z) (value : list Z) (linkLocal : option (list Z))
  : exec (option (list Z)) :=
  let^ pkt := MPNextHopIP_Encode pkt idx length value in
  match linkLocal with
  | None => Ok (Some pkt)
  | Some ll =>
      let! bytes := slice_from ll (len ll - 16) in
      to_exec (copy_at pkt (idx + 17) bytes)
  end.

Definition MPNextHopUnknown_Encode (pkt : list Z) (idx length : Z) (value : list Z) : exec (option (list Z)) :=
  let! pkt := put_at pkt idx [length] in
  to_exec (copy_at pkt (idx + 1) value).

Definition MPNextHop_Encode (pkt : list Z) (idx : Z) (n : MPNextHop) : exec (option (list Z)) :=
  match n with
  | MPNextHopIP length value => MPNextHopIP_Encode pkt idx length value
  | MPNextHopIP6 length value linkLocal => MPNextHopIP6_Encode pkt idx length value linkLocal
  | MPNextHopUnknown length value => MPNextHopUnknown_Encode pkt idx length value
  end.

Fixpoint nlri_write (afi : Z) (pkt : list Z) (idx : Z) (nlri : list NLRI) : exec (list Z) :=
  match nlri with
  | [] => Ok pkt
  | n :: nlri =>
      let! bytes := NLRI_Encode afi n in
      let! pkt := copy_at pkt idx bytes in
      nlri_write afi pkt (idx + len bytes) nlri
  end.

(** Each encoder makes the buffer with the header of the attribute first. *)
Definition BGPPathAttrOrigin_Encode (base : BGPPathAttrBase) (value : Z) : exec (option (list Z)) :=
  let! pkt := BGPPathAttrBase_Encode base in
  to_exec (put_at pkt (BGPPathAttrLen base) [value]).

Definition BGPPathAttrASPath_Encode (base : BGPPathAttrBase) (value : list BGPASPathSegment) : exec (option (list Z)) :=
  let! pkt := BGPPathAttrBase_Encode base in
  to_exec (segments_encode pkt (BGPPathAttrLen base) value).

Definition BGPPathAttrAS4Path_Encode (base : BGPPathAttrBase) (value : list BGPASPathSegment) : exec (option (list Z)) :=
  let! pkt := BGPPathAttrBase_Encode base in
  to_exec (segments_encode pkt (BGPPathAttrLen base) value).

Definition BGPPathAttrNextHop_Encode (base : BGPPathAttrBase) (value : list Z) : exec (option (list Z)) :=
  let! pkt := BGPPathAttrBase_Encode base in
  let! bytes := slice_from value (len value - a_Length base) in
  to_exec (copy_at pkt (BGPPathAttrLen base) bytes).

Definition BGPPathAttrMultiExitDisc_Encode (base : BGPPathAttrBase) (value : Z) : exec (option (list Z)) :=
  let! pkt := BGPPathAttrBase_Encode base in
  to_exec (put_at pkt (BGPPathAttrLen base) (PutUint32 value)).

Definition BGPPathAttrLocalPref_Encode (base : BGPPathAttrBase) (value : Z) : exec (option (list Z)) :=
  let! pkt := BGPPathAttrBase_Encode base in
  to_exec (put_at pkt (BGPPathAttrLen base) (PutUint32 value)).

Definition BGPPathAttrAggregator_Encode (base : BGPPathAttrBase) (as_ : BGPAggregatorAS) (ip : list Z) : exec (option (list Z)) :=
  let! pkt := BGPPathAttrBase_Encode base in
  let! pkt := put_at pkt (BGPPathAttrLen base) (AggregatorAS_Encode as_) in
  to_exec (copy_at pkt (u16 (BGPPathAttrLen base + AggregatorAS_GetLen as_)) ip).

Definition BGPPathAttrAS4Aggregator_Encode (base : BGPPathAttrBase) (as_ : Z) (ip : list Z) : exec (option (list Z)) :=
  let! pkt := BGPPathAttrBase_Encode base in
  let! pkt := put_at pkt (BGPPathAttrLen base) (PutUint32 as_) in
  to_exec (copy_at pkt (u16 (BGPPathAttrLen base + 4)) ip).

Definition BGPPathAttrOriginatorId_Encode (base : BGPPathAttrBase) (value : list Z) : exec (option (list Z)) :=
  let! pkt := BGPPathAttrBase_Encode base in
  to_exec (copy_at pkt (BGPPathAttrLen base) value).

Definition BGPPathAttrClusterList_Encode (base : BGPPathAttrBase) (value : list Z) : exec (option (list Z)) :=
  let! pkt := BGPPathAttrBase_Encode base in
  to_exec (write_ids pkt (BGPPathAttrLen base) value).

Definition BGPPathAttrUnknown_Encode (base : BGPPathAttrBase) (value : list Z) : exec (option (list Z)) :=
  let! pkt := BGPPathAttrBase_Encode base in
  to_exec (copy_at pkt (BGPPathAttrLen base) value).

Definition BGPPathAttrMPReachNLRI_Encode (base : BGPPathAttrBase) (afi safi : Z) (nextHop : MPNextHop) (nlri : list NLRI)
  : exec (option (list Z)) :=
  let! pkt := BGPPathAttrBase_Encode base in
  let hdr := BGPPathAttrLen base in
  let! pkt := put_at pkt hdr (PutUint16 afi) in
  let! pkt := put_at pkt (hdr + 2) [safi] in
  let^ pkt := MPNextHop_Encode pkt (hdr + 3) nextHop in
  let idx := hdr + 3 + MPNextHop_Len nextHop in
  let! pkt := put_at pkt idx [0] in
  to_exec (nlri_write afi pkt (idx + 1) nlri).

Definition BGPPathAttrMPUnreachNLRI_Encode (base : BGPPathAttrBase) (afi safi : Z) (nlri : list NLRI) : exec (option (list Z)) :=
  let! pkt := BGPPathAttrBase_Encode base in
  let hdr := BGPPathAttrLen base in
  let! pkt := put_at pkt hdr (PutUint16 afi) in
  let! pkt := put_at pkt (hdr + 2) [safi] in
  to_exec (nlri_write afi pkt (hdr + 3) nlri).

(** The method of the interface. *)
Definition PathAttr_Encode (pa : BGPPathAttr) : exec (option (list Z)) :=
  match pa with
  | BGPPathAttrOrigin base value => BGPPathAttrOrigin_Encode base value
  | BGPPathAttrASPath base value _ => BGPPathAttrASPath_Encode base value
  | BGPPathAttrAS4Path base value => BGPPathAttrAS4Path_Encode base value
  | BGPPathAttrNextHop base value => BGPPathAttrNextHop_Encode base value
  | BGPPathAttrMultiExitDisc base value => BGPPathAttrMultiExitDisc_Encode base value
  | BGPPathAttrLocalPref base value => BGPPathAttrLocalPref_Encode base value
  | BGPPathAttrAtomicAggregate base => to_exec (BGPPathAttrBase_Encode base)
  | BGPPathAttrAggregator base as_ ip => BGPPathAttrAggregator_Encode base as_ ip
  | BGPPathAttrAS4Aggregator base as_ ip => BGPPathAttrAS4Aggregator_Encode base as_ ip
  | BGPPathAttrOriginatorId base value => BGPPathAttrOriginatorId_Encode base value
  | BGPPathAttrClusterList base value => BGPPathAttrClusterList_Encode base value
  | BGPPathAttrUnknown base value => BGPPathAttrUnknown_Encode base value
  | BGPPathAttrMPReachNLRI base afi safi nextHop _ nlri => BGPPathAttrMPReachNLRI_Encode base afi safi nextHop nlri
  | BGPPathAttrMPUnreachNLRI base afi safi nlri => BGPPathAttrMPUnreachNLRI_Encode base afi safi nlri
  end.
