(* ===== verification/BgpAttrProofs.v ===== *)
(** * The path attribute codec

    The octets of a prefix, of an AS path segment and of a path attribute as
    the protocol lays them out, and the proof that the encoders write them and
    the decoders read them back. *)

From S2P Require Import Prelude BgpWire BgpOpen BgpAttr.

Lemma copy_at_make pre n bs k :
  k = len pre -> len bs <= n -> copy_at (pre ++ make n) k bs = Ok (pre ++ bs ++ make (n - len bs)).
Proof.
  intros -> Hn. pose proof (len_nonneg bs). pose proof (len_nonneg pre). unfold copy_at.
  rewrite len_app, len_make by lia. rewrite !(proj2 (Z.leb_le _ _)) by lia. cbn [andb].
  rewrite take_ge; [by apply put_at_make|].
  unfold len, make in *. rewrite length_app, length_replicate. lia.
Qed.

Lemma copy_make_exact n bs rest : n = len bs -> copy_make n (bs ++ rest) = bs.
Proof.
  intros ->. unfold copy_make, len. rewrite Nat2Z.id, take_app_length, length_app.
  replace (length bs - (length bs + length rest))%nat with 0%nat by lia. apply app_nil_r.
Qed.

Lemma len_take {A} (l : list A) n : 0 <= n <= len l -> len (take (Z.to_nat n) l) = n.
Proof. intros. unfold len in *. rewrite length_take. lia. Qed.

(** ** Prefixes *)

Lemma IPPrefix_eta ip : mkIPPrefix (ip_Length ip) (ip_Prefix ip) = ip.
Proof. by destruct ip. Qed.

Definition addr_len (afi : Z) : Z := if afi =? AfiIP6 then 16 else 4.

(** A prefix of an address of its family whose bits beyond the length are
    zero: the octets behind the last one that is sent, and the low bits of that
    one. *)
Record wf_prefix (afi : Z) (ip : IPPrefix) : Prop := {
  wp_afi : afi = AfiIP \/ afi = AfiIP6;
  wp_length : 0 <= ip_Length ip <= 8 * addr_len afi;
  wp_addr : len (ip_Prefix ip) = addr_len afi;
  wp_zero : drop (Z.to_nat (prefix_bytes (ip_Length ip))) (ip_Prefix ip) =
            make (addr_len afi - prefix_bytes (ip_Length ip));
  wp_mask : forall b, 0 < ip_Length ip mod 8 ->
            ip_Prefix ip !! Z.to_nat (prefix_bytes (ip_Length ip) - 1) = Some b ->
            Z.land b (255 - Z.shiftr 255 (ip_Length ip mod 8)) = b
}.

Definition prefix_wire (ip : IPPrefix) : list Z :=
  ip_Length ip :: take (Z.to_nat (prefix_bytes (ip_Length ip))) (ip_Prefix ip).

Section Prefix.
Context (afi : Z) (ip : IPPrefix) (Hwf : wf_prefix afi ip).

Lemma addr_len_cases : addr_len afi = 4 \/ addr_len afi = 16.
Proof using. clear. unfold addr_len. case_match; lia. Qed.

Lemma prefix_bytes_value : prefix_bytes (ip_Length ip) = (ip_Length ip + 7) / 8 /\
  0 <= prefix_bytes (ip_Length ip) <= addr_len afi.
Proof using Hwf.
  destruct Hwf as [_ Hl _ _ _]. destruct addr_len_cases as [E|E]; rewrite E in *;
    unfold prefix_bytes; rewrite u8_small by (unfold is_u8; lia); split; try done; Z.div_mod_to_equations; lia.
Qed.

Lemma prefix_len : IPPrefix_Len ip = len (prefix_wire ip) /\ 1 <= len (prefix_wire ip) <= 17.
Proof using Hwf.
  destruct prefix_bytes_value as [_ Hb]. pose proof (wp_addr _ _ Hwf) as Ha.
  unfold IPPrefix_Len, prefix_wire. rewrite len_cons, len_take by lia.
  destruct addr_len_cases; rewrite u8_small by (unfold is_u8; lia); lia.
Qed.

Lemma prefix_encode : IPPrefix_Encode afi ip = Ok (prefix_wire ip).
Proof using Hwf.
  destruct prefix_bytes_value as [_ Hb]. destruct prefix_len as [El Hl]. pose proof (wp_addr _ _ Hwf) as Ha.
  unfold IPPrefix_Encode. rewrite El. fold (addr_len afi). cbv zeta.
  change (make (len (prefix_wire ip))) with ([] ++ make (len (prefix_wire ip))).
  rewrite put_at_make; [|done|len_lia]. cbn [exec_bind].
  rewrite Ha, Z.sub_diag. change (u8 0) with 0. rewrite Z.add_0_l.
  rewrite (u8_small (prefix_bytes _)) by (destruct addr_len_cases; unfold is_u8; lia).
  set (n := prefix_bytes (ip_Length ip)) in *.
  assert (Es : slice (ip_Prefix ip) 0 n = Ok (take (Z.to_nat n) (ip_Prefix ip))).
  { rewrite <- (take_drop (Z.to_nat n) (ip_Prefix ip)) at 1.
    apply (slice_mid [] _ _); [done|]. rewrite len_take by lia. done. }
  rewrite Es. cbn [exec_bind app].
  assert (Ew : len (prefix_wire ip) = 1 + n) by (unfold prefix_wire; rewrite len_cons, len_take by lia; done).
  change (ip_Length ip :: make (len (prefix_wire ip) - len [ip_Length ip])) with
    ([ip_Length ip] ++ make (len (prefix_wire ip) - len [ip_Length ip])).
  change (len [ip_Length ip]) with 1. rewrite Ew.
  rewrite copy_at_make; [|done|rewrite len_take by lia; lia].
  rewrite len_take by lia. by rewrite (make_0 (1 + n - 1 - n)), app_nil_r by lia.
Qed.

Lemma prefix_restored :
  copy_make (addr_len afi) (take (Z.to_nat (prefix_bytes (ip_Length ip))) (ip_Prefix ip)) = ip_Prefix ip.
Proof using Hwf.
  destruct prefix_bytes_value as [_ Hb]. pose proof (wp_addr _ _ Hwf) as Ha. pose proof (wp_zero _ _ Hwf) as Hz.
  set (n := prefix_bytes (ip_Length ip)) in *. unfold copy_make.
  rewrite take_ge by (rewrite length_take; lia).
  rewrite <- (take_drop (Z.to_nat n) (ip_Prefix ip)) at 3. f_equal. rewrite Hz. unfold make. f_equal.
  unfold len in *. rewrite length_take. lia.
Qed.

Lemma prefix_decode rest : IPPrefix_Decode afi (prefix_wire ip ++ rest) = val ip.
Proof using Hwf.
  destruct prefix_bytes_value as [En Hb]. pose proof Hwf as [Hafi Hl Ha _ Hm].
  pose proof prefix_restored as Er. unfold IPPrefix_Decode.
  set (n := prefix_bytes (ip_Length ip)) in *. pose proof (len_nonneg rest).
  assert (Ew : len (prefix_wire ip ++ rest) = 1 + n + len rest).
  { rewrite len_app. unfold prefix_wire. rewrite len_cons, len_take by (unfold n in *; lia). done. }
  rewrite Ew, (proj2 (Z.ltb_ge _ _)) by lia. unfold prefix_wire at 1. cbn [app]. rewrite index_hd. cbn [exec_bind].
  assert (Emap : match AFINextHopLenMap afi with Some m => m * 8 <? ip_Length ip | None => false end = false).
  { destruct Hafi as [-> | ->]; cbn in *; apply Z.ltb_ge; lia. }
  rewrite Emap. fold n. rewrite (proj2 (Z.ltb_ge _ _)) by lia.
  assert (Eip : (if (afi =? AfiIP6) || (4 <? n) then 16 else 4) = addr_len afi).
  { unfold addr_len in *. destruct (afi =? AfiIP6); [done|]. cbn. by rewrite (proj2 (Z.ltb_ge _ _)) by lia. }
  rewrite Eip. assert (Es : slice (prefix_wire ip ++ rest) 1 (n + 1) = Ok (take (Z.to_nat n) (ip_Prefix ip))).
  { apply (slice_mid [ip_Length ip]); [done|]. rewrite len_take by lia. change (len [ip_Length ip]) with 1. lia. }
  rewrite Es. cbn [exec_bind]. rewrite Er. destruct ((0 <? n) && _) eqn:Eb; [|by rewrite IPPrefix_eta].
  apply andb_true_iff in Eb as [Eb%Z.ltb_lt Em%Z.ltb_lt].
  destruct (lookup_lt_is_Some_2 (ip_Prefix ip) (Z.to_nat (n - 1))) as [b Hlk]; [unfold len in Ha; lia|].
  rewrite (index_at _ _ b) by (done || lia). cbn [exec_bind]. rewrite Hm by done.
  rewrite store_at by lia. cbn [exec_bind]. by rewrite list_insert_id, IPPrefix_eta by done.
Qed.
End Prefix.

Definition nlri_wire (n : NLRI) : list Z :=
  match n with
  | NLRIPrefix ip => prefix_wire ip
  | ExtNLRI ip pathId => PutUint32 pathId ++ prefix_wire ip
  end.

Definition nlris_wire (ns : list NLRI) : list Z := concat (map nlri_wire ns).

(** A path identifier comes with a prefix when the peer sends several paths. *)
Definition wf_nlri (addPaths : bool) (afi : Z) (n : NLRI) : Prop :=
  wf_prefix afi (nlri_prefix n) /\
  match n with
  | NLRIPrefix _ => addPaths = false
  | ExtNLRI _ pathId => addPaths = true /\ is_u32 pathId
  end.

Section Nlri.
Context (addPaths : bool) (afi : Z).

Lemma nlri_len n : wf_nlri addPaths afi n -> NLRI_Len n = len (nlri_wire n) /\ 1 <= len (nlri_wire n) <= 21.
Proof.
  intros [Hp Hn]. destruct (prefix_len _ _ Hp) as [El Hl]. destruct n as [ip|ip id]; cbn [nlri_prefix NLRI_Len nlri_wire] in *; [lia|].
  rewrite len_app, len_PutUint32, El, u32_small by (unfold is_u32; lia). lia.
Qed.

Lemma nlri_encode n : wf_nlri addPaths afi n -> NLRI_Encode afi n = Ok (nlri_wire n).
Proof. intros [Hp _]. destruct n; cbn [nlri_prefix NLRI_Encode] in *; by rewrite (prefix_encode _ _ Hp). Qed.

Lemma nlri_decode n rest : wf_nlri addPaths afi n -> NLRI_Decode addPaths afi (nlri_wire n ++ rest) = val n.
Proof.
  intros [Hp Hn]. destruct n as [ip|ip id]; cbn [nlri_prefix nlri_wire] in *.
  - subst. unfold NLRI_Decode. by rewrite prefix_decode.
  - destruct Hn as [-> Hid]. unfold NLRI_Decode, ExtNLRI_Decode. destruct (prefix_len _ _ Hp) as [_ Hl].
    pose proof (len_nonneg rest). rewrite (proj2 (Z.ltb_ge _ _)) by len_lia.
    rewrite <- app_assoc, uint32_hd by done. cbn [exec_bind].
    rewrite slice_from_app by done. cbn [exec_bind]. by rewrite prefix_decode.
Qed.

Lemma nlris_cons n ns : nlris_wire (n :: ns) = nlri_wire n ++ nlris_wire ns.
Proof. done. Qed.

Lemma nlri_loop_spec ns fuel pre rest acc stop :
  Forall (wf_nlri addPaths afi) ns -> (length ns < fuel)%nat ->
  stop = len pre + len (nlris_wire ns) -> is_u32 stop ->
  nlri_loop fuel addPaths afi (pre ++ nlris_wire ns ++ rest) (len pre) stop acc = val (stop, acc ++ ns).
Proof.
  intros Hns. revert fuel pre acc. induction Hns as [|n ns Hn Hns IH]; intros fuel pre acc Hf Hs H32;
    (destruct fuel as [|fuel]; [cbn in Hf; lia|]); cbn [nlri_loop].
  - change (len (nlris_wire [])) with 0 in Hs. rewrite (proj2 (Z.ltb_ge _ _)) by lia. rewrite app_nil_r. by rewrite Hs, Z.add_0_r.
  - rewrite nlris_cons in *. destruct (nlri_len n Hn) as [El Hl]. pose proof (len_nonneg (nlris_wire ns)).
    pose proof (len_nonneg pre). rewrite len_app in Hs.
    rewrite (proj2 (Z.ltb_lt _ _)) by lia. rewrite slice_from_app by done. cbn [exec_bind].
    rewrite <- (app_assoc (nlri_wire n)), nlri_decode by done. cbn [result_bind].
    rewrite El, u32_small by (unfold is_u32 in *; lia).
    replace (len pre + len (nlri_wire n)) with (len (pre ++ nlri_wire n)) by (by rewrite len_app).
    rewrite app_assoc. rewrite IH; [by rewrite <- app_assoc | cbn in Hf; lia | rewrite len_app; lia | done].
Qed.

Lemma nlris_length ns : Forall (wf_nlri addPaths afi) ns -> len ns <= len (nlris_wire ns).
Proof.
  induction 1 as [|n ns Hn _ IH]; [done|]. rewrite nlris_cons, len_app, len_cons.
  destruct (nlri_len n Hn) as [_ Hl]. lia.
Qed.

Lemma decodeNLRI_spec data ns rest length :
  AddPathsRxActual data = addPaths -> Forall (wf_nlri addPaths afi) ns ->
  length = len (nlris_wire ns) -> is_u32 length ->
  decodeNLRI (nlris_wire ns ++ rest) length afi data = val (length, ns).
Proof.
  intros Hd Hns Hl H32. unfold decodeNLRI. pose proof (nlris_length ns Hns) as Hn.
  rewrite len_app. pose proof (len_nonneg rest). rewrite (proj2 (Z.ltb_ge _ _)) by lia. rewrite Hd.
  rewrite (nlri_loop_spec ns _ [] rest) by (done || unfold len in *; lia).
  cbn. by rewrite Z.eqb_refl.
Qed.
End Nlri.

(** ** AS path segments *)

Definition as_width (as4 : bool) : Z := if as4 then 4 else 2.
Definition PutAS (as4 : bool) : Z -> list Z := if as4 then PutUint32 else PutUint16.
Definition is_AS (as4 : bool) : Z -> Prop := if as4 then is_u32 else is_u16.

Definition seg_as4 (s : BGPASPathSegment) : bool :=
  match s with BGPAS2PathSegment _ _ => false | BGPAS4PathSegment _ _ => true end.

Definition AS_wire (as4 : bool) (as_ : list Z) : list Z := concat (map (PutAS as4) as_).

Definition seg_wire (s : BGPASPathSegment) : list Z :=
  [s_Type (seg_base s); s_Length (seg_base s)] ++ AS_wire (seg_as4 s) (seg_AS s).

Definition segs_wire (ss : list BGPASPathSegment) : list Z := concat (map seg_wire ss).

(** A segment has at least one number, and at most as many as keep its length
    in octets below 256: 126 of two octets, 63 of four. *)
Record wf_seg (as4 : bool) (s : BGPASPathSegment) : Prop := {
  ws_kind : seg_as4 s = as4;
  ws_count : s_Length (seg_base s) = len (seg_AS s);
  ws_some : 0 < len (seg_AS s);
  ws_len : BGPASPathSegmentLen (seg_base s) = 2 + as_width as4 * len (seg_AS s);
  ws_fits : 2 + as_width as4 * len (seg_AS s) < 256;
  ws_AS : Forall (is_AS as4) (seg_AS s)
}.

Lemma len_PutAS as4 x : len (PutAS as4 x) = as_width as4.
Proof. by destruct as4. Qed.

Lemma AS_wire_cons as4 x as_ : AS_wire as4 (x :: as_) = PutAS as4 x ++ AS_wire as4 as_.
Proof. done. Qed.

Lemma len_AS_wire as4 as_ : len (AS_wire as4 as_) = as_width as4 * len as_.
Proof.
  induction as_ as [|x as_ IH]; [by destruct as4|].
  rewrite AS_wire_cons, len_app, IH, len_PutAS, len_cons. lia.
Qed.

Lemma as_width_cases as4 : as_width as4 = 2 \/ as_width as4 = 4.
Proof. destruct as4; [by right | by left]. Qed.

Lemma len_seg_wire s : len (seg_wire s) = 2 + as_width (seg_as4 s) * len (seg_AS s).
Proof. unfold seg_wire. rewrite len_app, len_AS_wire. done. Qed.

Lemma seg_total as4 s : wf_seg as4 s -> Segment_TotalLen s = len (seg_wire s) /\ 4 <= len (seg_wire s) < 256.
Proof.
  intros [Hk _ Hs Hl Hf _]. unfold Segment_TotalLen. rewrite Hl, len_seg_wire, Hk.
  destruct (as_width_cases as4) as [E|E]; rewrite E in *; lia.
Qed.

Lemma write_AS_spec as4 as_ pre n :
  as_width as4 * len as_ <= n ->
  write_AS (as_width as4) (PutAS as4) (pre ++ make n) (len pre) as_ =
  Ok (pre ++ AS_wire as4 as_ ++ make (n - as_width as4 * len as_)).
Proof.
  revert pre n. induction as_ as [|x as_ IH]; intros pre n Hn; cbn [write_AS].
  { change (len (@nil Z)) with 0. by rewrite Z.mul_0_r, Z.sub_0_r. }
  rewrite len_cons in *. pose proof (len_nonneg as_). pose proof (as_width_cases as4).
  rewrite put_at_make; [|done|rewrite len_PutAS; lia]. cbn [exec_bind]. rewrite len_PutAS, app_assoc.
  replace (len pre + as_width as4) with (len (pre ++ PutAS as4 x)) by (by rewrite len_app, len_PutAS).
  rewrite IH by lia. rewrite <- app_assoc. rewrite AS_wire_cons, <- app_assoc. do 5 f_equal. lia.
Qed.

Lemma seg_encode s pre n :
  len (seg_wire s) <= n ->
  Segment_Encode (pre ++ make n) (len pre) s = Ok (pre ++ seg_wire s ++ make (n - len (seg_wire s))).
Proof.
  intros Hn. rewrite len_seg_wire in *. pose proof (len_nonneg (seg_AS s)). pose proof (as_width_cases (seg_as4 s)).
  assert (Eb : BGPASPathSegmentBase_Encode (pre ++ make n) (len pre) (seg_base s) =
               Ok (pre ++ [s_Type (seg_base s); s_Length (seg_base s)] ++ make (n - 2))).
  { unfold BGPASPathSegmentBase_Encode. rewrite slice_from_app by done. cbn [exec_bind].
    rewrite put_at_make; [done|done|autorewrite with go_len; nia]. }
  assert (Es : Segment_Encode (pre ++ make n) (len pre) s =
    let! pkt := BGPASPathSegmentBase_Encode (pre ++ make n) (len pre) (seg_base s) in
    write_AS (as_width (seg_as4 s)) (PutAS (seg_as4 s)) pkt (len pre + 2) (seg_AS s)) by (by destruct s).
  rewrite Es, Eb. cbn [exec_bind]. clear Es Eb.
  set (hd := [s_Type (seg_base s); s_Length (seg_base s)]). change (len hd) with 2.
  replace (len pre + 2) with (len (pre ++ hd)) by (by rewrite len_app). rewrite app_assoc.
  assert (E : forall l, pre ++ seg_wire s ++ l = (pre ++ hd) ++ AS_wire (seg_as4 s) (seg_AS s) ++ l).
  { intros. unfold seg_wire. fold hd. by rewrite <- !app_assoc. }
  rewrite E. replace (n - (2 + as_width (seg_as4 s) * len (seg_AS s)))
    with (n - 2 - as_width (seg_as4 s) * len (seg_AS s)) by lia.
  apply write_AS_spec. lia.
Qed.

Lemma segs_cons s ss : segs_wire (s :: ss) = seg_wire s ++ segs_wire ss.
Proof. done. Qed.

Lemma segs_encode as4 ss pre n :
  Forall (wf_seg as4) ss -> len (segs_wire ss) <= n -> len pre + len (segs_wire ss) < 2 ^ 16 ->
  segments_encode (pre ++ make n) (len pre) ss = Ok (pre ++ segs_wire ss ++ make (n - len (segs_wire ss))).
Proof.
  intros Hss. revert pre n. induction Hss as [|s ss Hs _ IH]; intros pre n Hn Hp; cbn [segments_encode].
  { change (segs_wire []) with (@nil Z). change (len (@nil Z)) with 0. by rewrite Z.sub_0_r. }
  rewrite segs_cons, len_app in *. destruct (seg_total as4 s Hs) as [Et Hl].
  pose proof (len_nonneg (segs_wire ss)). pose proof (len_nonneg pre).
  rewrite seg_encode by lia. cbn [exec_bind]. rewrite Et, u16_small by (unfold is_u16; lia).
  replace (len pre + len (seg_wire s)) with (len (pre ++ seg_wire s)) by (by rewrite len_app).
  rewrite app_assoc, IH by (rewrite ?len_app; lia). rewrite <- !app_assoc. do 5 f_equal. lia.
Qed.

Lemma read_AS_spec as4 as_ pre rest :
  Forall (is_AS as4) as_ ->
  (if as4 then read_AS4 else read_AS2) (length as_) (pre ++ AS_wire as4 as_ ++ rest) (len pre) = Ok as_.
Proof.
  intros Ha. revert pre. induction Ha as [|x as_ Hx _ IH]; intros pre; [by destruct as4|].
  rewrite AS_wire_cons, <- app_assoc. specialize (IH (pre ++ PutAS as4 x)).
  rewrite len_app, len_PutAS, <- app_assoc in IH.
  destruct as4; cbn [length read_AS4 read_AS2 PutAS as_width] in *;
    [rewrite uint32_at_put by done | rewrite uint16_at_put by done]; cbn [exec_bind]; by rewrite IH.
Qed.

Lemma seg_eta s : s = if seg_as4 s then BGPAS4PathSegment (seg_base s) (seg_AS s) else BGPAS2PathSegment (seg_base s) (seg_AS s).
Proof. by destruct s. Qed.

Lemma seg_decode as4 s rest :
  wf_seg as4 s ->
  (if as4 then BGPAS4PathSegment_Decode (seg_wire s ++ rest) else BGPAS2PathSegment_Decode (seg_wire s ++ rest)) = val s.
Proof.
  intros Hs. destruct (seg_total as4 s Hs) as [_ Hlen]. destruct Hs as [Hk Hc Hs Hl Hf Ha].
  pose proof (len_nonneg rest) as Hr. pose proof (len_seg_wire s) as Hw. rewrite Hk in Hw.
  pose proof (read_AS_spec as4 (seg_AS s) [s_Type (seg_base s); s_Length (seg_base s)] rest Ha) as Hread.
  change (len [s_Type (seg_base s); s_Length (seg_base s)]) with 2 in Hread.
  assert (Hb : BGPASPathSegmentBase_Decode (seg_wire s ++ rest) = val (s_Type (seg_base s), s_Length (seg_base s))).
  { unfold BGPASPathSegmentBase_Decode. rewrite len_app, (proj2 (Z.leb_gt _ _)) by lia. done. }
  assert (Hn : Z.to_nat (s_Length (seg_base s)) = length (seg_AS s)) by (rewrite Hc; unfold len; lia).
  assert (Hbase : mkSegBase (s_Type (seg_base s)) (s_Length (seg_base s)) (2 + as_width as4 * len (seg_AS s)) = seg_base s).
  { rewrite <- Hl. by destruct (seg_base s). }
  rewrite (seg_eta s) at 3. rewrite Hk. rewrite app_assoc in Hread.
  assert (Hwire : [s_Type (seg_base s); s_Length (seg_base s)] ++ AS_wire as4 (seg_AS s) = seg_wire s).
  { unfold seg_wire. by rewrite Hk. }
  rewrite Hwire in Hread. rewrite <- Hbase, Hc.
  destruct as4; cbn [as_width] in *; unfold BGPAS4PathSegment_Decode, BGPAS2PathSegment_Decode; rewrite Hb;
    cbn [result_bind]; rewrite len_app, Hw, Hc, (proj2 (Z.ltb_ge _ _)) by lia; rewrite <- Hc, Hn, Hread;
    cbn [exec_bind]; rewrite Hc, u8_small by (unfold is_u8; lia); by rewrite Z.add_comm, (Z.mul_comm (len _)).
Qed.

Lemma segs_decode as4 ss fuel pre rest acc stop :
  Forall (wf_seg as4) ss -> (length ss < fuel)%nat -> stop = len pre + len (segs_wire ss) -> is_u32 stop ->
  segments_decode fuel as4 (pre ++ segs_wire ss ++ rest) (len pre) stop acc = val (acc ++ ss).
Proof.
  intros Hss. revert fuel pre acc. induction Hss as [|s ss Hs Hss IH]; intros fuel pre acc Hf Hstop H32;
    (destruct fuel as [|fuel]; [cbn in Hf; lia|]); cbn [segments_decode].
  - change (len (segs_wire [])) with 0 in Hstop. rewrite (proj2 (Z.ltb_ge _ _)) by lia.
    rewrite Hstop, Z.add_0_r, Z.eqb_refl. cbn. by rewrite app_nil_r.
  - rewrite segs_cons in *. destruct (seg_total as4 s Hs) as [Et Hl]. rewrite len_app in Hstop.
    pose proof (len_nonneg (segs_wire ss)). pose proof (len_nonneg pre).
    rewrite (proj2 (Z.ltb_lt _ _)) by lia. rewrite slice_from_app by done. cbn [exec_bind].
    rewrite <- (app_assoc (seg_wire s)), seg_decode by done. cbn [exec_bind]. cbv zeta.
    rewrite Et, u32_small by (unfold is_u32 in *; lia). rewrite (proj2 (Z.ltb_ge _ _)) by lia.
    replace (len pre + len (seg_wire s)) with (len (pre ++ seg_wire s)) by (by rewrite len_app).
    rewrite app_assoc, IH; [by rewrite <- app_assoc | cbn in Hf; lia | rewrite len_app; lia | done].
Qed.

(** ** The head of an attribute *)

Definition extended (b : BGPPathAttrBase) : bool := has_flag (Flags b) BGPPathAttrFlagExtendedLen.

Definition attr_head (b : BGPPathAttrBase) : list Z :=
  [Flags b; Code b] ++ (if extended b then PutUint16 (a_Length b) else [a_Length b]).

(** The flags and the length that an attribute with this code may have. *)
Definition flags_ok (b : BGPPathAttrBase) : bool :=
  match BGPPathAttrTypeFlagsMap (Code b) with
  | Some (v, mask) => Z.land (Z.lxor v (Flags b)) mask =? 0
  | None => true
  end &&
  (let optional := has_flag (Flags b) BGPPathAttrFlagOptional in
   let transitive := has_flag (Flags b) BGPPathAttrFlagTransitive in
   (optional || transitive) &&
   (negb (has_flag (Flags b) BGPPathAttrFlagPartial) || (optional && transitive)) &&
   (optional || (Code b <? BGPPathAttrTypeUnknown))).

Definition length_ok (b : BGPPathAttrBase) : bool :=
  match BGPPathAttrTypeLenMap (Code b) with Some n => n =? a_Length b | None => true end.

Record wf_base (b : BGPPathAttrBase) : Prop := {
  wb_hdr : BGPPathAttrLen b = len (attr_head b);
  wb_length : 0 <= a_Length b;
  wb_fits : if extended b then a_Length b + 4 < 2 ^ 16 else a_Length b < 256;
  wb_flags : flags_ok b = true;
  wb_len_ok : length_ok b = true
}.

Lemma len_attr_head b : len (attr_head b) = if extended b then 4 else 3.
Proof. unfold attr_head. by destruct (extended b). Qed.

Lemma wf_base_bounds b : wf_base b ->
  3 <= BGPPathAttrLen b <= 4 /\ 0 <= a_Length b /\ BGPPathAttrLen b + a_Length b < 2 ^ 16.
Proof. intros [Hh Hl Hf _ _]. rewrite Hh, len_attr_head. destruct (extended b); lia. Qed.

Lemma base_total b : wf_base b -> BGPPathAttrBase_TotalLen b = BGPPathAttrLen b + a_Length b.
Proof.
  intros Hb. apply wf_base_bounds in Hb. unfold BGPPathAttrBase_TotalLen. rewrite u32_small by (unfold is_u32; lia). lia.
Qed.

Lemma attr_base_encode b : wf_base b -> BGPPathAttrBase_Encode b = Ok (attr_head b ++ make (a_Length b)).
Proof.
  intros Hb. pose proof (wf_base_bounds b Hb) as Hbd. unfold BGPPathAttrBase_Encode. rewrite base_total by done.
  destruct Hb as [Hh _ Hf _ _]. rewrite len_attr_head in Hh. change (make (BGPPathAttrLen b + a_Length b))
    with ([] ++ make (BGPPathAttrLen b + a_Length b)).
  rewrite put_at_make; [|done|len_lia]. cbn [exec_bind]. change (len [Flags b; Code b]) with 2. cbn [app].
  change (Flags b :: Code b :: ?l) with ([Flags b; Code b] ++ l). unfold attr_head.
  fold (extended b). destruct (extended b).
  - rewrite put_at_make; [|done|rewrite len_PutUint16; lia]. rewrite len_PutUint16, <- app_assoc. do 4 f_equal. f_equal. lia.
  - rewrite put_at_make; [|done|len_lia]. rewrite u8_small by (unfold is_u8; lia).
    change (len [a_Length b]) with 1. rewrite <- app_assoc. do 4 f_equal. f_equal. lia.
Qed.

Lemma check_flags b pkt : flags_ok b = true -> checkFlags b pkt = val tt.
Proof.
  unfold flags_ok, checkFlags. cbv zeta.
  destruct (has_flag _ BGPPathAttrFlagOptional), (has_flag _ BGPPathAttrFlagTransitive), (has_flag _ BGPPathAttrFlagPartial);
    intros H; rewrite ?andb_false_r in H; done.
Qed.

Lemma head_fields b body :
  wf_base b ->
  (if extended b then
     if len (attr_head b ++ body) <? 4 then fail BGPUpdateMsgError BGPMalformedAttrList []
     else let! length := uint16_at (attr_head b ++ body) 2 in val (mkAttrBase (Flags b) (Code b) length 4)
   else let! length := index (attr_head b ++ body) 2 in val (mkAttrBase (Flags b) (Code b) length 3)) = val b.
Proof.
  intros Hb. pose proof (len_nonneg body). rewrite len_app, len_attr_head. destruct Hb as [Hh Hl Hf _ _].
  rewrite len_attr_head in Hh. unfold attr_head. destruct (extended b).
  - rewrite (proj2 (Z.ltb_ge _ _)) by lia. rewrite <- app_assoc, (uint16_at_put [_; _]) by (done || unfold is_u16; lia).
    cbn [exec_bind]. rewrite <- Hh. by destruct b.
  - cbn. rewrite <- Hh. by destruct b.
Qed.

Lemma attr_base_decode b body :
  wf_base b -> a_Length b <= len body -> BGPPathAttrBase_Decode (attr_head b ++ body) = val b.
Proof.
  intros Hb Hlen. pose proof (head_fields b body Hb) as Hfields. pose proof (wf_base_bounds b Hb) as Hbd.
  destruct Hb as [Hh _ _ Hfl Hlk]. unfold BGPPathAttrBase_Decode.
  assert (El : len (attr_head b ++ body) = BGPPathAttrLen b + len body) by (by rewrite len_app, Hh).
  pose proof (check_flags b (attr_head b ++ body) Hfl) as Hcheck.
  rewrite El at 1. rewrite (proj2 (Z.ltb_ge _ _)) by lia.
  assert (Ef : index (attr_head b ++ body) 0 = Ok (Flags b)) by done.
  assert (Ec : index (attr_head b ++ body) 1 = Ok (Code b)) by done.
  rewrite Ef, Ec. cbn [exec_bind]. fold (extended b). rewrite Hfields. cbn [result_bind].
  rewrite El, u16_small by (unfold is_u16; lia). rewrite (proj2 (Z.ltb_ge _ _)) by lia.
  unfold flags_ok in Hfl. apply andb_true_iff in Hfl as [H1 H2]. cbv zeta in H2.
  apply andb_true_iff in H2 as [_ H2].
  assert (Em : match BGPPathAttrTypeFlagsMap (Code b) with
               | Some (v, mask) => negb (Z.land (Z.lxor v (Flags b)) mask =? 0) | None => false end = false).
  { destruct (BGPPathAttrTypeFlagsMap (Code b)) as [[v mask]|]; [by rewrite H1 | done]. }
  rewrite Em, Hcheck. cbn [result_bind]. unfold length_ok in Hlk.
  assert (En : match BGPPathAttrTypeLenMap (Code b) with Some n => negb (n =? a_Length b) | None => false end = false).
  { destruct (BGPPathAttrTypeLenMap (Code b)); [by rewrite Hlk | done]. }
  rewrite En. destruct (has_flag (Flags b) BGPPathAttrFlagOptional); [done|]. cbn in H2 |- *.
  apply Z.ltb_lt in H2. by rewrite (proj2 (Z.leb_gt _ _)).
Qed.

(** ** Attributes *)

Definition next_hop_wire (n : MPNextHop) : list Z :=
  match n with
  | MPNextHopIP l v => l :: (if l =? 4 then drop 12 v else v)
  | MPNextHopIP6 l v _ | MPNextHopUnknown l v => l :: v
  end.

Definition attr_body (pa : BGPPathAttr) : list Z :=
  match pa with
  | BGPPathAttrOrigin _ v => [v]
  | BGPPathAttrASPath _ v _ | BGPPathAttrAS4Path _ v => segs_wire v
  | BGPPathAttrNextHop _ v | BGPPathAttrOriginatorId _ v | BGPPathAttrUnknown _ v => v
  | BGPPathAttrMultiExitDisc _ v | BGPPathAttrLocalPref _ v => PutUint32 v
  | BGPPathAttrAtomicAggregate _ => []
  | BGPPathAttrAggregator _ as_ ip => AggregatorAS_Encode as_ ++ ip
  | BGPPathAttrAS4Aggregator _ as_ ip => PutUint32 as_ ++ ip
  | BGPPathAttrClusterList _ v => AS_wire true v
  | BGPPathAttrMPReachNLRI _ afi safi nh _ ns => PutUint16 afi ++ [safi] ++ next_hop_wire nh ++ [0] ++ nlris_wire ns
  | BGPPathAttrMPUnreachNLRI _ afi safi ns => PutUint16 afi ++ [safi] ++ nlris_wire ns
  end.

Definition attr_wire (pa : BGPPathAttr) : list Z := attr_head (attr_base pa) ++ attr_body pa.

(** A next hop of four octets is held as a mapped address; one of 32 octets
    (with a link-local address) is not kept whole and is left out. *)
Definition wf_next_hop (n : MPNextHop) : Prop :=
  match n with
  | MPNextHopIP l v =>
      (l = 4 /\ exists a b c d, v = v4InV6Prefix ++ [a; b; c; d]) \/ (l = 16 /\ len v = 16)
  | _ => False
  end.

Definition known_codes : list Z := [1; 2; 3; 4; 5; 6; 7; 9; 10; 14; 15; 17; 18].

(** The code names the structure, and the value has its type. *)
Definition wf_value (data : BGPPeerAttrs) (pa : BGPPathAttr) : Prop :=
  let code := GetCode pa in
  match pa with
  | BGPPathAttrOrigin _ v => code = BGPPathAttrTypeOrigin /\ 0 <= v < BGPPathAttrOriginMax
  | BGPPathAttrASPath _ v size =>
      code = BGPPathAttrTypeASPath /\ size = pa_ASSize data /\ Forall (wf_seg (size =? 4)) v
  | BGPPathAttrNextHop _ v => code = BGPPathAttrTypeNextHop
  | BGPPathAttrMultiExitDisc _ v => code = BGPPathAttrTypeMultiExitDisc /\ is_u32 v
  | BGPPathAttrLocalPref _ v => code = BGPPathAttrTypeLocalPref /\ is_u32 v
  | BGPPathAttrAtomicAggregate _ => code = BGPPathAttrTypeAtomicAggregate
  | BGPPathAttrAggregator _ as_ ip =>
      code = BGPPathAttrTypeAggregator /\ len ip = 4 /\
      match as_ with
      | BGPAggregator2ByteAS v => pa_ASSize data = 2 /\ is_u16 v
      | BGPAggregator4ByteAS v => pa_ASSize data = 4 /\ is_u32 v
      end
  | BGPPathAttrOriginatorId _ v => code = BGPPathAttrTypeOriginatorId
  | BGPPathAttrClusterList _ v => code = BGPPathAttrTypeClusterList /\ Forall is_u32 v
  | BGPPathAttrMPReachNLRI _ afi safi nh res ns =>
      code = BGPPathAttrTypeMPReachNLRI /\ (afi = AfiIP \/ afi = AfiIP6) /\ wf_next_hop nh /\ res = 0 /\
      Forall (wf_nlri (AddPathsRxActual data) afi) ns
  | BGPPathAttrMPUnreachNLRI _ afi safi ns =>
      code = BGPPathAttrTypeMPUnreachNLRI /\ (afi = AfiIP \/ afi = AfiIP6) /\
      Forall (wf_nlri (AddPathsRxActual data) afi) ns
  | BGPPathAttrAS4Path _ v => code = BGPPathAttrTypeAS4Path /\ Forall (wf_seg true) v
  | BGPPathAttrAS4Aggregator _ as_ ip => code = BGPPathAttrTypeAS4Aggregator /\ len ip = 4 /\ is_u32 as_
  | BGPPathAttrUnknown _ v => code ∉ known_codes
  end.

Record wf_attr (data : BGPPeerAttrs) (pa : BGPPathAttr) : Prop := {
  wa_base : wf_base (attr_base pa);
  wa_length : a_Length (attr_base pa) = len (attr_body pa);
  wa_value : wf_value data pa
}.

Lemma len_next_hop n : wf_next_hop n -> len (next_hop_wire n) = MPNextHop_Len n /\ MPNextHop_Len n <= 17.
Proof.
  destruct n as [l v| |]; [|done|done]. intros [[-> (a & b & c & d & ->)] | [-> Hv]]; [done|].
  change (next_hop_wire (MPNextHopIP 16 v)) with (16 :: v). rewrite len_cons, Hv. done.
Qed.

Lemma next_hop_encode n pre k :
  wf_next_hop n -> len (next_hop_wire n) <= k ->
  MPNextHop_Encode (pre ++ make k) (len pre) n = Ok (Some (pre ++ next_hop_wire n ++ make (k - len (next_hop_wire n)))).
Proof.
  intros Hn Hk. destruct n as [l v| |]; [|done|done]. unfold MPNextHop_Encode, MPNextHopIP_Encode.
  set (bs := if l =? 4 then drop 12 v else v). assert (Ew : next_hop_wire (MPNextHopIP l v) = [l] ++ bs) by done.
  rewrite Ew in *. rewrite len_app in *. change (len [l]) with 1 in *. pose proof (len_nonneg bs).
  rewrite put_at_make; [|done|len_lia]. cbn [exec_bind]. change (len [l]) with 1.
  assert (Es : next_hop_length_ok l = true /\
               slice_from v (len v - (if (l =? 16) || (l =? 32) then 16 else 4)) = Ok bs).
  { destruct Hn as [[-> (a & b & c & d & ->)] | [-> Hv]]; [done|]. split; [done|].
    cbn. by apply (slice_from_app [] v); rewrite Hv. }
  destruct Es as [-> ->]. cbn [negb exec_bind]. rewrite app_assoc.
  rewrite copy_at_make by (rewrite ?len_app; done || lia). unfold to_exec. cbn [exec_bind]. rewrite <- !app_assoc.
  do 6 f_equal. lia.
Qed.

Lemma next_hop_decode n afi rest :
  wf_next_hop n -> (afi = AfiIP \/ afi = AfiIP6) -> MPNextHop_Decode afi (next_hop_wire n ++ rest) = Ok n.
Proof.
  intros Hn Hafi. destruct n as [l v| |]; [|done|done]. unfold MPNextHop_Decode.
  assert (Ea : (afi =? AfiIP) || (afi =? AfiIP6) = true) by (by destruct Hafi as [-> | ->]). rewrite Ea. unfold MPNextHopIP_Decode.
  destruct Hn as [[-> (a & b & c & d & ->)] | [-> Hv]]; [done|].
  change (next_hop_wire (MPNextHopIP 16 v) ++ rest) with ([16] ++ v ++ rest).
  change (index ([16] ++ v ++ rest) 0) with (Ok 16). cbn [exec_bind next_hop_length_ok negb orb Z.eqb Pos.eqb].
  rewrite slice_from_app by done. cbn [exec_bind]. by rewrite copy_make_exact.
Qed.

Lemma nlris_encode addPaths afi ns pre n :
  Forall (wf_nlri addPaths afi) ns -> len (nlris_wire ns) <= n ->
  nlri_write afi (pre ++ make n) (len pre) ns = Ok (pre ++ nlris_wire ns ++ make (n - len (nlris_wire ns))).
Proof.
  intros Hns. revert pre n. induction Hns as [|r ns Hr _ IH]; intros pre n Hn; cbn [nlri_write].
  { change (nlris_wire []) with (@nil Z). change (len (@nil Z)) with 0. by rewrite Z.sub_0_r. }
  rewrite nlris_cons, len_app in *. pose proof (len_nonneg (nlris_wire ns)).
  rewrite (nlri_encode addPaths) by done. cbn [exec_bind]. rewrite copy_at_make by (done || lia). cbn [exec_bind].
  rewrite app_assoc. replace (len pre + len (nlri_wire r)) with (len (pre ++ nlri_wire r)) by (by rewrite len_app).
  rewrite IH by lia. rewrite <- !app_assoc. do 5 f_equal. lia.
Qed.

Lemma ids_encode ids pre n :
  len (AS_wire true ids) <= n -> len pre + len (AS_wire true ids) < 2 ^ 16 ->
  write_ids (pre ++ make n) (len pre) ids = Ok (pre ++ AS_wire true ids ++ make (n - len (AS_wire true ids))).
Proof.
  revert pre n. induction ids as [|x ids IH]; intros pre n Hn Hp; cbn [write_ids].
  { change (len (AS_wire true [])) with 0. by rewrite Z.sub_0_r. }
  rewrite AS_wire_cons, len_app, len_PutAS in *. cbn [as_width PutAS] in *.
  pose proof (len_nonneg (AS_wire true ids)). pose proof (len_nonneg pre).
  rewrite u16_small by (unfold is_u16; lia). rewrite put_at_make; [|done|rewrite len_PutUint32; lia].
  cbn [exec_bind]. rewrite len_PutUint32, app_assoc.
  replace (len pre + 4) with (len (pre ++ PutUint32 x)) by (by rewrite len_app).
  rewrite IH by (rewrite ?len_app, ?len_PutUint32; lia). rewrite <- !app_assoc. do 5 f_equal. lia.
Qed.

Lemma ids_decode ids pre rest :
  Forall is_u32 ids -> len pre + len (AS_wire true ids) < 2 ^ 16 ->
  read_ids (length ids) (pre ++ AS_wire true ids ++ rest) (len pre) = Ok ids.
Proof.
  intros Hids. revert pre. induction Hids as [|x ids Hx _ IH]; intros pre Hp; [done|].
  rewrite AS_wire_cons, len_app, len_PutAS in *. cbn [as_width PutAS length read_ids] in *.
  pose proof (len_nonneg (AS_wire true ids)). pose proof (len_nonneg pre).
  rewrite !u16_small by (unfold is_u16; lia). rewrite <- app_assoc, slice_mid by done. cbn [exec_bind].
  rewrite <- (app_nil_r (PutUint32 x)) at 1. rewrite uint32_hd by done. cbn [exec_bind].
  specialize (IH (pre ++ PutUint32 x)). rewrite len_app, len_PutUint32, <- app_assoc in IH. by rewrite IH by lia.
Qed.

(** Writing the whole of the value at once. *)
Lemma fill_put hd body : put_at (hd ++ make (len body)) (len hd) body = Ok (hd ++ body).
Proof. rewrite put_at_make by (done || lia). by rewrite Z.sub_diag, app_nil_r. Qed.
Lemma fill_copy hd body : copy_at (hd ++ make (len body)) (len hd) body = Ok (hd ++ body).
Proof. rewrite copy_at_make by (done || lia). by rewrite Z.sub_diag, app_nil_r. Qed.

Lemma make_diag n : make (n - n) = [].
Proof. by rewrite Z.sub_diag. Qed.

Lemma aggregator_encode hd bs ip w :
  w = len bs -> len hd + w < 2 ^ 16 ->
  (let! pkt := put_at (hd ++ make (len (bs ++ ip))) (len hd) bs in to_exec (copy_at pkt (u16 (len hd + w)) ip)) =
  Ok (Some (hd ++ bs ++ ip)).
Proof.
  intros -> Hw. rewrite len_app. pose proof (len_nonneg ip). pose proof (len_nonneg bs). pose proof (len_nonneg hd).
  rewrite put_at_make by (done || lia). cbn [exec_bind]. rewrite u16_small by (unfold is_u16; lia).
  replace (len bs + len ip - len bs) with (len ip) by lia. rewrite app_assoc.
  unfold to_exec. rewrite <- len_app, fill_copy. cbn. by rewrite <- app_assoc.
Qed.

(** The family in front of a multiprotocol attribute. *)
Lemma mp_head_encode {A} hd afi safi n (k : list Z -> exec A) :
  3 <= n ->
  (let! pkt := put_at (hd ++ make n) (len hd) (PutUint16 afi) in let! pkt := put_at pkt (len hd + 2) [safi] in k pkt) =
  k ((hd ++ PutUint16 afi ++ [safi]) ++ make (n - 3)).
Proof.
  intros Hn. rewrite put_at_make; [|done|rewrite len_PutUint16; lia]. cbn [exec_bind].
  rewrite len_PutUint16, app_assoc.
  rewrite put_at_make; [|by rewrite len_app|change (len [safi]) with 1; lia]. cbn [exec_bind].
  change (len [safi]) with 1. rewrite <- !app_assoc. by replace (n - 2 - 1) with (n - 3) by lia.
Qed.

Lemma mp_head_len hd afi (safi : Z) : len hd + 3 = len (hd ++ PutUint16 afi ++ [safi]).
Proof. by rewrite !len_app. Qed.

Lemma put_len pre (x : Z) : len pre + 1 = len (pre ++ [x]).
Proof. by rewrite len_app. Qed.

Ltac unfold_encoders :=
  unfold BGPPathAttrOrigin_Encode, BGPPathAttrASPath_Encode, BGPPathAttrAS4Path_Encode, BGPPathAttrNextHop_Encode,
    BGPPathAttrMultiExitDisc_Encode, BGPPathAttrLocalPref_Encode, BGPPathAttrAggregator_Encode,
    BGPPathAttrAS4Aggregator_Encode, BGPPathAttrOriginatorId_Encode, BGPPathAttrClusterList_Encode,
    BGPPathAttrUnknown_Encode, BGPPathAttrMPReachNLRI_Encode, BGPPathAttrMPUnreachNLRI_Encode.

Lemma attr_encode data pa : wf_attr data pa -> PathAttr_Encode pa = Ok (Some (attr_wire pa)).
Proof.
  intros [Hb Hl Hv]. pose proof (attr_base_encode _ Hb) as Eb. unfold attr_wire.
  pose proof (wf_base_bounds _ Hb) as Hbd. pose proof (wb_hdr _ Hb) as Eh. rewrite Hl in *.
  destruct pa; cbn [attr_base attr_body PathAttr_Encode] in *; unfold_encoders; unfold to_exec at 1; rewrite Eb, ?Hl; cbn [exec_bind];
    rewrite ?Eh in *; clear Eb; unfold wf_value in Hv; rewrite <- ?len_PutUint32 in *;
    unfold to_exec; rewrite ?fill_put, ?fill_copy; try done.
  - destruct Hv as (_ & _ & Hs). rewrite (segs_encode _ Value _ _ Hs) by lia. cbn. by rewrite make_diag, app_nil_r.
  - rewrite Z.sub_diag, (slice_from_app [] Value) by done. cbn [exec_bind]. by rewrite fill_copy.
  - destruct Hv as (_ & _ & Has). apply (aggregator_encode _ (AggregatorAS_Encode AS)); [by destruct AS|].
    rewrite len_app in Hbd. pose proof (len_nonneg IP). destruct AS; cbn [AggregatorAS_GetLen AggregatorAS_Encode] in *; len_lia.
  - rewrite ids_encode by lia. cbn. by rewrite make_diag, app_nil_r.
  - destruct Hv as (_ & Hafi & Hn & _ & Hns). destruct (len_next_hop _ Hn) as [En _].
    pose proof (len_nonneg (next_hop_wire NextHop)). pose proof (len_nonneg (nlris_wire nlri)).
    rewrite mp_head_encode, (mp_head_len _ AFI SAFI) by len_lia. rewrite next_hop_encode by (done || len_lia). cbn [encode_bind].
    rewrite <- En, app_assoc, <- len_app. rewrite put_at_make by (done || len_lia). cbn [exec_bind].
    rewrite app_assoc, (put_len _ 0). rewrite (nlris_encode _ _ _ _ _ Hns) by len_lia. cbn [exec_bind].
    rewrite make_0, app_nil_r by len_lia. by rewrite <- !app_assoc.
  - destruct Hv as (_ & Hafi & Hns). pose proof (len_nonneg (nlris_wire nlri)).
    rewrite mp_head_encode, (mp_head_len _ AFI SAFI) by len_lia. rewrite (nlris_encode _ _ _ _ _ Hns) by len_lia. cbn [exec_bind].
    rewrite make_0, app_nil_r by len_lia. by rewrite <- !app_assoc.
  - destruct Hv as (_ & Hs). rewrite (segs_encode _ Value _ _ Hs) by lia. cbn. by rewrite make_diag, app_nil_r.
  - apply (aggregator_encode _ (PutUint32 AS)); [done|]. rewrite len_app in Hbd. pose proof (len_nonneg IP). len_lia.
Qed.

Lemma attr_value_spec b body rest :
  wf_base b -> a_Length b = len body -> attr_value b (attr_head b ++ body ++ rest) = Ok body.
Proof.
  intros Hb Hl. pose proof (wf_base_bounds b Hb) as Hbd. unfold attr_value.
  rewrite u16_small by (unfold is_u16; lia). rewrite (wb_hdr _ Hb), Hl. by apply slice_mid.
Qed.

Lemma uint32_whole x : is_u32 x -> uint32_at (PutUint32 x) 0 = Ok x.
Proof. intros. rewrite <- (app_nil_r (PutUint32 x)). by apply uint32_hd. Qed.

Lemma aggregator_decode hd bs ip rest w :
  w = len bs -> len ip = 4 -> len hd + w < 2 ^ 16 ->
  (let! rest := slice_from (hd ++ (bs ++ ip) ++ rest) (u16 (len hd + w)) in Ok (copy_make 4 rest)) = Ok ip.
Proof.
  intros -> Hip Hw. pose proof (len_nonneg bs). pose proof (len_nonneg hd).
  rewrite u16_small by (unfold is_u16; lia). rewrite <- app_assoc, app_assoc, slice_from_app by (by rewrite len_app).
  cbn [exec_bind]. by rewrite copy_make_exact.
Qed.

(** Reading the family of a multiprotocol attribute. *)
Lemma mp_head_decode {A} hd afi safi l (k : Z -> Z -> exec A) :
  is_u16 afi ->
  (let! s := slice (hd ++ PutUint16 afi ++ [safi] ++ l) (len hd) (len hd + 2) in
   let! x := uint16_at s 0 in
   let! y := index (hd ++ PutUint16 afi ++ [safi] ++ l) (len hd + 2) in
   k x y) = k afi safi.
Proof.
  intros Ha. rewrite slice_mid by done. cbn [exec_bind]. rewrite <- (app_nil_r (PutUint16 afi)) at 1.
  rewrite uint16_hd by done. cbn [exec_bind].
  rewrite app_assoc, (index_app_r _ _ _ 0) by (rewrite ?len_app, ?len_PutUint16; lia). done.
Qed.

Lemma attr_total data pa : wf_attr data pa ->
  PathAttr_TotalLen pa = len (attr_wire pa) /\ 3 <= len (attr_wire pa) < 2 ^ 16.
Proof.
  intros [Hb Hl _]. pose proof (wf_base_bounds _ Hb). unfold PathAttr_TotalLen, attr_wire.
  rewrite base_total, len_app, (wb_hdr _ Hb), Hl by done. rewrite (wb_hdr _ Hb), Hl in *. lia.
Qed.

Lemma segs_length as4 ss : Forall (wf_seg as4) ss -> (length ss <= length (segs_wire ss))%nat.
Proof.
  induction 1 as [|s ss Hs _ IH]; [done|]. rewrite segs_cons, length_app. cbn [length].
  destruct (seg_total _ _ Hs) as [_ Hl]. unfold len in Hl. lia.
Qed.

Section Decode.
Context (base : BGPPathAttrBase) (body rest : list Z) (data : BGPPeerAttrs) (fuel : nat).
Hypothesis Hb : wf_base base.
Hypothesis Hl : a_Length base = len body.

Notation pkt := (attr_head base ++ body ++ rest).

Lemma base_decoded : BGPPathAttrBase_Decode pkt = val base.
Proof using Hb Hl. apply attr_base_decode; [done|]. rewrite len_app. pose proof (len_nonneg rest). lia. Qed.

Lemma value_decoded : attr_value base pkt = Ok body.
Proof using Hb Hl. by apply attr_value_spec. Qed.

Lemma value_copied : copy_make (a_Length base) body = body.
Proof using Hl. rewrite <- (app_nil_r body) at 1. by apply copy_make_exact. Qed.

Lemma origin_decode v :
  body = [v] -> 0 <= v < BGPPathAttrOriginMax -> BGPPathAttrOrigin_Decode pkt = val (BGPPathAttrOrigin base v).
Proof using Hb Hl.
  intros E Hv. unfold BGPPathAttrOrigin_Decode. rewrite base_decoded. cbn [result_bind].
  rewrite (wb_hdr _ Hb), (index_app_r _ _ _ 0) by lia. rewrite E. change (index ([v] ++ rest) 0) with (Ok v).
  cbn [exec_bind]. by rewrite (proj2 (Z.leb_gt _ _)) by lia.
Qed.

Lemma path_decode as4 ss :
  body = segs_wire ss -> Forall (wf_seg as4) ss -> (length ss < fuel)%nat ->
  segments_decode fuel as4 pkt (BGPPathAttrLen base) (BGPPathAttrBase_TotalLen base) [] = val ss.
Proof using Hb Hl.
  intros E Hs Hf. pose proof (wf_base_bounds _ Hb) as Hbd. rewrite base_total, Hl, (wb_hdr _ Hb) in * by done. rewrite E in *.
  rewrite segs_decode; [done | done | done | done | unfold is_u32; lia].
Qed.

Lemma as_path_decode ss :
  body = segs_wire ss -> Forall (wf_seg (pa_ASSize data =? 4)) ss -> (length ss < fuel)%nat ->
  BGPPathAttrASPath_Decode fuel pkt data = val (BGPPathAttrASPath base ss (pa_ASSize data)).
Proof using Hb Hl.
  intros E Hs Hf. unfold BGPPathAttrASPath_Decode. rewrite base_decoded. cbn [result_bind].
  by rewrite (path_decode _ ss).
Qed.

Lemma as4_path_decode ss :
  body = segs_wire ss -> Forall (wf_seg true) ss -> (length ss < fuel)%nat ->
  BGPPathAttrAS4Path_Decode fuel pkt = val (BGPPathAttrAS4Path base ss).
Proof using Hb Hl.
  intros E Hs Hf. unfold BGPPathAttrAS4Path_Decode. rewrite base_decoded. cbn [result_bind].
  by rewrite (path_decode _ ss).
Qed.

Lemma next_hop_attr_decode : BGPPathAttrNextHop_Decode pkt = val (BGPPathAttrNextHop base body).
Proof using Hb Hl.
  unfold BGPPathAttrNextHop_Decode. rewrite base_decoded. cbn [result_bind]. rewrite value_decoded. cbn. by rewrite value_copied.
Qed.

Lemma originator_decode : BGPPathAttrOriginatorId_Decode pkt = val (BGPPathAttrOriginatorId base body).
Proof using Hb Hl.
  unfold BGPPathAttrOriginatorId_Decode. rewrite base_decoded. cbn [result_bind]. rewrite value_decoded. cbn. by rewrite value_copied.
Qed.

Lemma unknown_decode : BGPPathAttrUnknown_Decode pkt = val (BGPPathAttrUnknown base body).
Proof using Hb Hl.
  unfold BGPPathAttrUnknown_Decode. rewrite base_decoded. cbn [result_bind]. rewrite value_decoded. cbn. by rewrite value_copied.
Qed.

Lemma med_decode v : body = PutUint32 v -> is_u32 v ->
  BGPPathAttrMultiExitDisc_Decode pkt = val (BGPPathAttrMultiExitDisc base v) /\
  BGPPathAttrLocalPref_Decode pkt = val (BGPPathAttrLocalPref base v).
Proof using Hb Hl.
  intros E Hv. unfold BGPPathAttrMultiExitDisc_Decode, BGPPathAttrLocalPref_Decode. rewrite base_decoded.
  cbn [result_bind]. rewrite value_decoded, E. cbn [exec_bind]. by rewrite uint32_whole.
Qed.

Lemma atomic_decode : BGPPathAttrAtomicAggregate_Decode pkt = val (BGPPathAttrAtomicAggregate base).
Proof using Hb Hl. unfold BGPPathAttrAtomicAggregate_Decode. by rewrite base_decoded. Qed.

Lemma aggregator_attr_decode as_ ip :
  body = AggregatorAS_Encode as_ ++ ip -> len ip = 4 ->
  match as_ with
  | BGPAggregator2ByteAS v => pa_ASSize data = 2 /\ is_u16 v
  | BGPAggregator4ByteAS v => pa_ASSize data = 4 /\ is_u32 v
  end ->
  BGPPathAttrAggregator_Decode pkt data = val (BGPPathAttrAggregator base as_ ip).
Proof using Hb Hl.
  intros E Hip Has. unfold BGPPathAttrAggregator_Decode. rewrite base_decoded. cbn [result_bind].
  pose proof (wf_base_bounds _ Hb) as Hbd. pose proof (wb_hdr _ Hb) as Eh. pose proof (len_nonneg rest).
  assert (Elen : a_Length base = AggregatorAS_GetLen as_ + 4 /\ u8 (pa_ASSize data + 4) = AggregatorAS_GetLen as_ + 4).
  { rewrite Hl, E, len_app, Hip. by destruct as_; destruct Has as [-> _]. }
  destruct Elen as [-> ->]. rewrite Z.ltb_irrefl. rewrite Eh, slice_from_app by done. cbn [exec_bind].
  assert (Ed : AggregatorAS_Decode (pa_ASSize data) (body ++ rest) = val as_).
  { unfold AggregatorAS_Decode, BGPAggregator4ByteAS_Decode. rewrite E, <- app_assoc.
    destruct as_ as [v|v]; destruct Has as [-> Hv]; cbn [Z.eqb Pos.eqb AggregatorAS_Encode].
    - rewrite (proj2 (Z.ltb_ge _ _)) by (pose proof (len_nonneg ip); len_lia). by rewrite uint16_hd.
    - by rewrite uint32_hd. }
  rewrite Ed. cbn [result_bind].
  assert (Ha := aggregator_decode (attr_head base) (AggregatorAS_Encode as_) ip rest (AggregatorAS_GetLen as_)).
  rewrite <- E in Ha. ospecialize (Ha _ Hip _); [by destruct as_ | destruct as_; cbn [AggregatorAS_GetLen]; lia |].
  destruct (slice_from pkt _); [|done|done]. cbn in Ha |- *. by injection Ha as ->.
Qed.

Lemma as4_aggregator_decode as_ ip :
  body = PutUint32 as_ ++ ip -> len ip = 4 -> is_u32 as_ ->
  BGPPathAttrAS4Aggregator_Decode pkt = val (BGPPathAttrAS4Aggregator base as_ ip).
Proof using Hb Hl.
  intros E Hip Has. unfold BGPPathAttrAS4Aggregator_Decode. rewrite base_decoded. cbn [result_bind].
  pose proof (wf_base_bounds _ Hb) as Hbd. rewrite (wb_hdr _ Hb) in *. rewrite slice_from_app by done. cbn [exec_bind].
  assert (Ha := aggregator_decode (attr_head base) (PutUint32 as_) ip rest 4).
  rewrite <- E in Ha. ospecialize (Ha _ Hip _); [done | lia |].
  unfold BGPAggregator4ByteAS_Decode. rewrite E at 1. rewrite <- app_assoc, uint32_hd by done. cbn [exec_bind].
  destruct (slice_from pkt _); [|done|done]. cbn in Ha |- *. by injection Ha as ->.
Qed.

Lemma cluster_decode ids :
  body = AS_wire true ids -> Forall is_u32 ids -> BGPPathAttrClusterList_Decode pkt = val (BGPPathAttrClusterList base ids).
Proof using Hb Hl.
  intros E Hids. unfold BGPPathAttrClusterList_Decode. rewrite base_decoded. cbn [result_bind].
  pose proof (wf_base_bounds _ Hb) as Hbd. rewrite Hl, (wb_hdr _ Hb), E in *.
  assert (En : Z.to_nat (len (AS_wire true ids) / 4) = length ids).
  { rewrite len_AS_wire. cbn [as_width]. rewrite Z.mul_comm, Z.div_mul by lia. unfold len. lia. }
  rewrite En, ids_decode by (done || lia). done.
Qed.

Lemma mp_reach_decode afi safi nh ns :
  body = PutUint16 afi ++ [safi] ++ next_hop_wire nh ++ [0] ++ nlris_wire ns ->
  (afi = AfiIP \/ afi = AfiIP6) -> wf_next_hop nh -> Forall (wf_nlri (AddPathsRxActual data) afi) ns ->
  BGPPathAttrMPReachNLRI_Decode pkt data = val (BGPPathAttrMPReachNLRI base afi safi nh 0 ns).
Proof using Hb Hl.
  intros E Hafi Hnh Hns. unfold BGPPathAttrMPReachNLRI_Decode. rewrite base_decoded. cbn [result_bind].
  pose proof (wf_base_bounds _ Hb) as Hbd. rewrite (wb_hdr _ Hb), Hl in *. cbv zeta.
  assert (Hu : is_u16 afi) by (by destruct Hafi as [-> | ->]). destruct (len_next_hop _ Hnh) as [En Hn].
  pose proof (len_nonneg (nlris_wire ns)). pose proof (len_nonneg (next_hop_wire nh)).
  assert (Elen : len body - 4 - MPNextHop_Len nh = len (nlris_wire ns)) by (rewrite E, <- En; len_lia).
  assert (Epkt : pkt = attr_head base ++ PutUint16 afi ++ [safi] ++ next_hop_wire nh ++ [0] ++ nlris_wire ns ++ rest).
  { rewrite E. by rewrite <- !app_assoc. }
  rewrite Epkt, mp_head_decode by done. rewrite (mp_head_len _ afi safi).
  set (hd := attr_head base ++ PutUint16 afi ++ [safi]).
  assert (Eh : forall l, attr_head base ++ PutUint16 afi ++ [safi] ++ l = hd ++ l) by (intros; unfold hd; by rewrite <- !app_assoc).
  rewrite !Eh, slice_from_app by done. cbn [exec_bind]. rewrite next_hop_decode by done. cbn [exec_bind].
  rewrite Elen, u32_small, <- En, <- len_app, app_assoc, (index_app_r _ _ _ 0) by (unfold is_u32; lia).
  change (index ([0] ++ ?l) 0) with (Ok 0). cbn [exec_bind].
  rewrite (put_len _ 0), app_assoc, slice_from_app by done. cbn [exec_bind].
  rewrite (decodeNLRI_spec _ _ _ _ _ _ eq_refl Hns) by (done || unfold is_u32; lia). done.
Qed.

Lemma mp_unreach_decode afi safi ns :
  body = PutUint16 afi ++ [safi] ++ nlris_wire ns ->
  (afi = AfiIP \/ afi = AfiIP6) -> Forall (wf_nlri (AddPathsRxActual data) afi) ns ->
  BGPPathAttrMPUnreachNLRI_Decode pkt data = val (BGPPathAttrMPUnreachNLRI base afi safi ns).
Proof using Hb Hl.
  intros E Hafi Hns. unfold BGPPathAttrMPUnreachNLRI_Decode. rewrite base_decoded. cbn [result_bind].
  pose proof (wf_base_bounds _ Hb) as Hbd. rewrite (wb_hdr _ Hb), Hl in *. cbv zeta.
  assert (Hu : is_u16 afi) by (by destruct Hafi as [-> | ->]). pose proof (len_nonneg (nlris_wire ns)).
  assert (Elen : len body - 3 = len (nlris_wire ns)) by (rewrite E; len_lia).
  assert (Epkt : pkt = attr_head base ++ PutUint16 afi ++ [safi] ++ nlris_wire ns ++ rest).
  { rewrite E. by rewrite <- !app_assoc. }
  rewrite Epkt, mp_head_decode by done. rewrite (mp_head_len _ afi safi), Elen, u32_small by (unfold is_u32; lia).
  set (hd := attr_head base ++ PutUint16 afi ++ [safi]).
  assert (Eh : forall l, attr_head base ++ PutUint16 afi ++ [safi] ++ l = hd ++ l) by (intros; unfold hd; by rewrite <- !app_assoc).
  rewrite Eh, slice_from_app by done. cbn [exec_bind].
  rewrite (decodeNLRI_spec _ _ _ _ _ _ eq_refl Hns) by (done || unfold is_u32; lia). done.
Qed.
End Decode.

Lemma unknown_code data fuel pkt code :
  index pkt 1 = Ok code -> code ∉ known_codes -> PathAttr_Decode fuel pkt data = BGPPathAttrUnknown_Decode pkt.
Proof.
  intros E Hc. unfold PathAttr_Decode. rewrite E. cbn [exec_bind].
  repeat (rewrite (proj2 (Z.eqb_neq code _))
            by (intros ->; apply Hc; apply (bool_decide_unpack _); vm_compute; exact I)).
  done.
Qed.

Lemma attr_decode data pa fuel rest :
  wf_attr data pa -> (length (attr_wire pa) <= fuel)%nat ->
  PathAttr_Decode fuel (attr_wire pa ++ rest) data = val pa.
Proof.
  intros [Hb Hl Hv] Hf. unfold attr_wire in *. rewrite <- app_assoc.
  assert (Ec : index (attr_head (attr_base pa) ++ attr_body pa ++ rest) 1 = Ok (GetCode pa)) by done.
  assert (Hf' : (3 + length (attr_body pa) <= fuel)%nat).
  { rewrite length_app in Hf. pose proof (len_attr_head (attr_base pa)) as Hh. unfold len in Hh.
    destruct (extended _); lia. }
  destruct pa; cbn [attr_base attr_body] in *; unfold wf_value in Hv; cbv zeta in Hv.
  14: { rewrite (unknown_code _ _ _ _ Ec Hv). by apply unknown_decode. }
  all: unfold PathAttr_Decode; rewrite Ec; cbn [exec_bind].
  - destruct Hv as [-> Hv]. by apply origin_decode.
  - destruct Hv as (-> & -> & Hs). pose proof (segs_length _ _ Hs). apply as_path_decode; done || lia.
  - rewrite Hv. by apply next_hop_attr_decode.
  - destruct Hv as [-> Hv]. by apply med_decode.
  - destruct Hv as [-> Hv]. by apply med_decode.
  - rewrite Hv. by apply atomic_decode.
  - destruct Hv as (-> & Hip & Has). by apply aggregator_attr_decode.
  - rewrite Hv. by apply originator_decode.
  - destruct Hv as [-> Hv]. by apply cluster_decode.
  - destruct Hv as (-> & Hafi & Hnh & -> & Hns). by apply mp_reach_decode.
  - destruct Hv as (-> & Hafi & Hns). by apply mp_unreach_decode.
  - destruct Hv as (-> & Hs). pose proof (segs_length _ _ Hs). apply as4_path_decode; done || lia.
  - destruct Hv as (-> & Hip & Has). by apply as4_aggregator_decode.
Qed.
