(* ===== verification/BgpUpdate.v ===== *)
(** * BGP UPDATE messages

    The UPDATE message and the message envelope of [l3/bgp/packet/bgp.go], and
    the functions of [helpers.go] that a received UPDATE passes through: the
    reconciliation of two- and four-octet AS paths and the check for loops. *)

From S2P Require Import Prelude BgpWire BgpOpen BgpAttr.

Record BGPUpdate := mkUpdate {
  WithdrawnRoutesLen : Z;
  WithdrawnRoutes : list NLRI;
  TotalPathAttrLen : Z;
  PathAttributes : list BGPPathAttr;
  u_NLRI : list NLRI
}.
#[export] Instance BGPUpdate_settable : Settable BGPUpdate :=
  fun u => mkUpdate (WithdrawnRoutesLen u) (WithdrawnRoutes u) (TotalPathAttrLen u) (PathAttributes u) (u_NLRI u).

Fixpoint routes_encode (routes : list NLRI) : exec (list Z) :=
  match routes with
  | [] => Ok []
  | r :: routes =>
      let! bytes := NLRI_Encode AfiIP r in
      let! rest := routes_encode routes in
      Ok (bytes ++ rest)
  end.

Fixpoint attrs_encode (attrs : list BGPPathAttr) : exec (option (list Z)) :=
  match attrs with
  | [] => Ok (Some [])
  | pa :: attrs =>
      let^ bytes := PathAttr_Encode pa in
      let^ rest := attrs_encode attrs in
      Ok (Some (bytes ++ rest))
  end.

(** The two lengths are written when the octets they count are there. *)
Definition BGPUpdate_Encode (msg : BGPUpdate) : exec (option (list Z)) :=
  let! withdrawn := routes_encode (WithdrawnRoutes msg) in
  let^ attrs := attrs_encode (PathAttributes msg) in
  let! nlri := routes_encode (u_NLRI msg) in
  Ok (Some (PutUint16 (u16 (len withdrawn)) ++ withdrawn ++ PutUint16 (u16 (len attrs)) ++ attrs ++ nlri)).

(** An attribute has at least three octets, so [length] bounds the turns;
    [fuel] is for the loops inside the attributes. *)
Fixpoint attrs_decode (n fuel : nat) (pkt : list Z) (ptr length : Z) (data : BGPPeerAttrs) (attrs : list BGPPathAttr)
  : exec (result (Z * Z * list BGPPathAttr)) :=
  match n with
  | O => Hang
  | S n =>
      if 0 <? length then
        let! rest := slice_from pkt ptr in
        let? pa := PathAttr_Decode fuel rest data in
        attrs_decode n fuel pkt (u32 (ptr + PathAttr_TotalLen pa)) (length - PathAttr_TotalLen pa) data (attrs ++ [pa])
      else val (ptr, length, attrs)
  end.

(** The error of the withdrawn routes is replaced by another. *)
Definition BGPUpdate_Decode (fuel : nat) (header : BGPHeader) (pkt : list Z) (data : BGPPeerAttrs)
  : exec (result BGPUpdate) :=
  let! withdrawnRoutesLen := uint16_at pkt 0 in
  if BGPHeader_Len header <? withdrawnRoutesLen + 23 then fail BGPUpdateMsgError BGPMalformedAttrList [] else
  let! rest := slice_from pkt 2 in
  let! r := decodeNLRI rest withdrawnRoutesLen AfiIP data in
  let? (ipLen, withdrawnRoutes) :=
    match r with Val v => val v | Err _ => fail BGPUpdateMsgError BGPMalformedAttrList [] end in
  let ptr := 2 + ipLen in
  let! s := slice pkt ptr (ptr + 2) in
  let! totalPathAttrLen := uint16_at s 0 in
  let ptr := ptr + 2 in
  if BGPHeader_Len header <? totalPathAttrLen + withdrawnRoutesLen + 23
  then fail BGPUpdateMsgError BGPMalformedAttrList [] else
  let? (ptr, length, pathAttributes) :=
    attrs_decode (S (Z.to_nat totalPathAttrLen)) fuel pkt ptr totalPathAttrLen data [] in
  if length <? 0 then fail BGPUpdateMsgError BGPMalformedAttrList [] else
  let length := BGPHeader_Len header - 23 - withdrawnRoutesLen - totalPathAttrLen in
  let! rest := slice_from pkt ptr in
  let? (_, nlri) := decodeNLRI rest (u32 length) AfiIP data in
  val (mkUpdate withdrawnRoutesLen withdrawnRoutes totalPathAttrLen pathAttributes nlri).

(** ** Lists of attributes *)

(** [removeTypeFromPathAttrs]: the first attribute with the code goes. *)
Fixpoint removeTypeFromPathAttrs (code : Z) (attrs : list BGPPathAttr) : list BGPPathAttr :=
  match attrs with
  | [] => []
  | pa :: attrs => if GetCode pa =? code then attrs else pa :: removeTypeFromPathAttrs code attrs
  end.

Fixpoint getTypeFromPathAttrs (attrs : list BGPPathAttr) (code : Z) : option BGPPathAttr :=
  match attrs with
  | [] => None
  | pa :: attrs => if GetCode pa =? code then Some pa else getTypeFromPathAttrs attrs code
  end.

(** The index of the last attribute with a larger code. *)
Definition add_index (code : Z) (attrs : list BGPPathAttr) : nat :=
  snd (fold_left (fun '(i, addIdx) pa => (S i, if code <? GetCode pa then i else addIdx)) attrs (0%nat, length attrs)).

Definition AddPathAttrToPathAttrsByCode (attrs : list BGPPathAttr) (code : Z) (attr : BGPPathAttr) : list BGPPathAttr :=
  let i := add_index code attrs in
  take i attrs ++ attr :: drop i attrs.

(** ** AS paths of two and of four octets *)

Definition NewBGPPathAttrASPath : BGPPathAttr :=
  BGPPathAttrASPath (mkAttrBase 80 BGPPathAttrTypeASPath 0 4) [] 0.

Definition add_length (base : BGPPathAttrBase) (n : Z) : BGPPathAttrBase :=
  mkAttrBase (Flags base) (Code base) (u16 (a_Length base + n)) (BGPPathAttrLen base).

Definition AppendASPathSegment (pa : BGPPathAttr) (seg : BGPASPathSegment) : BGPPathAttr :=
  match pa with
  | BGPPathAttrASPath base value size =>
      BGPPathAttrASPath (add_length base (Segment_TotalLen seg)) (value ++ [seg]) size
  | _ => pa
  end.

(** A four-octet copy of a two-octet segment: a type assertion on a segment
    that already has four octets panics. *)
Definition widen (seg : BGPASPathSegment) : exec BGPASPathSegment :=
  match seg with
  | BGPAS2PathSegment b as_ =>
      if s_Length b <? len as_ then Panic else
      Ok (BGPAS4PathSegment (mkSegBase (s_Type b) (s_Length b) (u16 (2 + s_Length b * 4)))
            (as_ ++ make (s_Length b - len as_)))
  | BGPAS4PathSegment _ _ => Panic
  end.

Fixpoint ConvertAS2ToAS4 (attrs : list BGPPathAttr) : exec (list BGPPathAttr) :=
  match attrs with
  | [] => Ok []
  | pa :: attrs =>
      if GetCode pa =? BGPPathAttrTypeASPath then
        match pa with
        | BGPPathAttrASPath _ value _ =>
            let! newASPath := for_each (fun seg p => let! s := widen seg in Ok (AppendASPathSegment p s))
                                value NewBGPPathAttrASPath in
            Ok (newASPath :: attrs)
        | _ => Panic
        end
      else let! attrs := ConvertAS2ToAS4 attrs in Ok (pa :: attrs)
  end.

(** The AS path is counted whichever type is asked for. *)
Definition GetNumASesByASType (attrs : list BGPPathAttr) (asType : Z) : exec Z :=
  if negb (asType =? BGPPathAttrTypeASPath) && negb (asType =? BGPPathAttrTypeAS4Path) then Ok 0 else
  match getTypeFromPathAttrs attrs BGPPathAttrTypeASPath with
  | None => Ok 0
  | Some (BGPPathAttrASPath _ value _) =>
      Ok (fold_left (fun total s =>
            if s_Type (seg_base s) =? BGPASPathSegmentSet then u32 (total + 1)
            else if s_Type (seg_base s) =? BGPASPathSegmentSequence then u32 (total + s_Length (seg_base s))
            else total) value 0)
  | Some _ => Panic
  end.

Definition Segment_GetNumASes (s : BGPASPathSegment) : Z :=
  if s_Type (seg_base s) =? BGPASPathSegmentSet then 1 else u8 (len (seg_AS s)).

(** The first loop of [ConstructASPathFromAS4Path]: the index it stops at, the
    numbers passed over, the new path. *)
Fixpoint skip_segments (value : list BGPASPathSegment) (segIdx : nat) (asNum skip : Z) (newASPath : BGPPathAttr)
  : exec (nat * Z * BGPPathAttr) :=
  match value with
  | [] => Ok ((segIdx - 1)%nat, asNum, newASPath)
  | segment :: value =>
      if skip <? u16 (Segment_GetNumASes segment + asNum) then Ok (segIdx, asNum, newASPath) else
      match segment with
      | BGPAS2PathSegment b as_ =>
          match as_ with
          | [] =>
              let newSeg := BGPAS4PathSegment (mkSegBase (s_Type b) (s_Length b) (u16 (2 + s_Length b * 4))) [] in
              skip_segments value (S segIdx) (u16 (asNum + Segment_GetNumASes segment)) skip
                (AppendASPathSegment newASPath newSeg)
          | _ :: _ => Panic
          end
      | BGPAS4PathSegment _ _ => Panic
      end
  end.

(** The loop that prepends the numbers left over does not count them, so it
    ends only when there are none. *)
Definition ConstructASPathFromAS4Path (asPath as4Path : list BGPASPathSegment) (skip : Z) : exec BGPPathAttr :=
  let! (segIdx, asNum, newASPath) := skip_segments asPath 0 0 skip NewBGPPathAttrASPath in
  match as4Path with
  | [] => Ok newASPath
  | _ :: _ =>
      match asPath !! segIdx with
      | Some (BGPAS2PathSegment _ as_) =>
          if asNum <? skip then
            match index as_ (skip - asNum - 1) with Panic => Panic | _ => Hang end
          else Ok (fold_left AppendASPathSegment as4Path newASPath)
      | _ => Panic
      end
  end.

(** The last attribute of each kind; an attribute whose code is not that of
    its type fails the assertion. *)
Record as_attrs := mkAsAttrs {
  f_asPath : option (list BGPASPathSegment * Z);
  f_as4Path : option (list BGPASPathSegment);
  f_asAggregator : option BGPAggregatorAS;
  f_as4Aggregator : bool
}.
#[export] Instance as_attrs_settable : Settable as_attrs :=
  fun a => mkAsAttrs (f_asPath a) (f_as4Path a) (f_asAggregator a) (f_as4Aggregator a).

Definition note_attr (pa : BGPPathAttr) (a : as_attrs) : exec as_attrs :=
  if GetCode pa =? BGPPathAttrTypeASPath then
    match pa with BGPPathAttrASPath _ value size => Ok (a <| f_asPath := Some (value, size) |>) | _ => Panic end
  else if GetCode pa =? BGPPathAttrTypeAS4Path then
    match pa with BGPPathAttrAS4Path _ value => Ok (a <| f_as4Path := Some value |>) | _ => Panic end
  else if GetCode pa =? BGPPathAttrTypeAggregator then
    match pa with BGPPathAttrAggregator _ as_ _ => Ok (a <| f_asAggregator := Some as_ |>) | _ => Panic end
  else if GetCode pa =? BGPPathAttrTypeAS4Aggregator then
    match pa with BGPPathAttrAS4Aggregator _ _ _ => Ok (a <| f_as4Aggregator := true |>) | _ => Panic end
  else Ok a.

Definition NormalizeASPath (msg : BGPUpdate) : exec BGPUpdate :=
  if TotalPathAttrLen msg =? 0 then Ok msg else
  let attrs := PathAttributes msg in
  let! found := for_each note_attr attrs (mkAsAttrs None None None false) in
  match f_asPath found with
  | None => Ok msg
  | Some (asPath, asSize) =>
      if asSize =? 2 then
        if match f_asAggregator found with
           | Some as_ => f_as4Aggregator found && negb (u16 (AggregatorAS_GetAS as_) =? BGPASTrans)
           | None => false
           end
        then Ok (msg <| PathAttributes :=
                   removeTypeFromPathAttrs BGPPathAttrTypeAS4Path
                     (removeTypeFromPathAttrs BGPPathAttrTypeAS4Aggregator attrs) |>)
        else
          let! attrs := ConvertAS2ToAS4 attrs in
          match f_as4Path found with
          | None => Ok (msg <| PathAttributes := attrs |>)
          | Some as4Path =>
              let! numASes := GetNumASesByASType attrs BGPPathAttrTypeASPath in
              let! numAS4es := GetNumASesByASType attrs BGPPathAttrTypeAS4Path in
              if numAS4es <=? numASes then
                let! newASPath := ConstructASPathFromAS4Path asPath as4Path (u16 (numASes - numAS4es)) in
                let attrs := removeTypeFromPathAttrs BGPPathAttrTypeASPath
                               (removeTypeFromPathAttrs BGPPathAttrTypeAS4Path attrs) in
                Ok (msg <| PathAttributes := AddPathAttrToPathAttrsByCode attrs BGPPathAttrTypeASPath newASPath |>)
              else Ok (msg <| PathAttributes := attrs |>)
          end
      else if asSize =? 4 then
        let attrs := if f_as4Aggregator found then removeTypeFromPathAttrs BGPPathAttrTypeAS4Aggregator attrs else attrs in
        let attrs := match f_as4Path found with
                     | Some _ => removeTypeFromPathAttrs BGPPathAttrTypeAS4Path attrs
                     | None => attrs
                     end in
        Ok (msg <| PathAttributes := attrs |>)
      else Ok msg
  end.

(** A path whose [ASSize] is 4 must have segments of four octets, any other
    path segments of two. *)
Fixpoint segments_loop (as4 : bool) (localAS : Z) (value : list BGPASPathSegment) : exec bool :=
  match value with
  | [] => Ok false
  | seg :: value =>
      match seg, as4 with
      | BGPAS4PathSegment _ as_, true =>
          if existsb (Z.eqb localAS) as_ then Ok true else segments_loop as4 localAS value
      | BGPAS2PathSegment _ as_, false =>
          if existsb (Z.eqb (u16 localAS)) as_ then Ok true else segments_loop as4 localAS value
      | _, _ => Panic
      end
  end.

Definition HasASLoop (attrs : list BGPPathAttr) (localAS : Z) : exec bool :=
  match getTypeFromPathAttrs attrs BGPPathAttrTypeASPath with
  | None => Ok false
  | Some (BGPPathAttrASPath _ value size) => segments_loop (size =? 4) localAS value
  | Some _ => Panic
  end.

(** ** Messages *)

Inductive BGPBody :=
| OpenBody (o : BGPOpen)
| UpdateBody (u : BGPUpdate)
| NotificationBody (n : BGPNotification)
| KeepAliveBody.

Record BGPMessage := mkMessage { Header : BGPHeader; Body : option BGPBody }.

Definition BGPBody_Encode (b : BGPBody) : exec (option (list Z)) :=
  match b with
  | OpenBody o => to_exec (BGPOpen_Encode o)
  | UpdateBody u => BGPUpdate_Encode u
  | NotificationBody n => Ok (Some (BGPNotification_Encode n))
  | KeepAliveBody => Ok (Some [])
  end.

(** A length of zero in the header is filled in; the encoder of a message
    without a body dereferences nil. *)
Definition BGPMessage_Encode (msg : BGPMessage) : exec (option (list Z)) :=
  match Body msg with
  | None => Panic
  | Some b =>
      let^ body := BGPBody_Encode b in
      if (h_Length (Header msg) =? 0) && (BGPMsgMaxLen <? BGPMsgHeaderLen + len body) then Ok None else
      let length := if h_Length (Header msg) =? 0 then u16 (BGPMsgHeaderLen + len body) else h_Length (Header msg) in
      let! header := BGPHeader_Encode (mkHeader length (h_Type (Header msg))) in
      Ok (Some (header ++ body))
  end.

Definition BGPMessage_Decode (fuel : nat) (header : BGPHeader) (pkt : list Z) (data : BGPPeerAttrs)
  : exec (result BGPMessage) :=
  if h_Type header =? BGPMsgTypeOpen then
    let? o := BGPOpen_Decode fuel pkt in val (mkMessage header (Some (OpenBody o)))
  else if h_Type header =? BGPMsgTypeKeepAlive then val (mkMessage header (Some KeepAliveBody))
  else if h_Type header =? BGPMsgTypeUpdate then
    let? u := BGPUpdate_Decode fuel header pkt data in
    let! u := NormalizeASPath u in
    val (mkMessage header (Some (UpdateBody u)))
  else if h_Type header =? BGPMsgTypeNotification then
    let? n := BGPNotification_Decode pkt in val (mkMessage header (Some (NotificationBody n)))
  else val (mkMessage header None).

Definition NewBGPKeepAliveMessage : BGPMessage := mkMessage (mkHeader 19 BGPMsgTypeKeepAlive) (Some KeepAliveBody).

Definition NewBGPNotificationMessage (errorCode errorSubCode : Z) (data : list Z) : BGPMessage :=
  mkMessage (mkHeader (u16 (21 + u16 (len data))) BGPMsgTypeNotification)
    (Some (NotificationBody (mkNotification errorCode errorSubCode data))).

Definition NewBGPUpdateMessage (wdRoutes : list NLRI) (pa : list BGPPathAttr) (nlri : list NLRI) : BGPMessage :=
  mkMessage (mkHeader 0 BGPMsgTypeUpdate) (Some (UpdateBody (mkUpdate 0 wdRoutes 0 pa nlri))).
