(* ===== verification/BgpUpdateProofs.v ===== *)
(** * UPDATE messages and the message envelope

    Round trips of UPDATE messages and of whole messages, the check for AS
    loops, and the UPDATE messages that crash or hang the speaker. *)

From S2P Require Import Prelude BgpWire BgpOpen BgpOpenProofs BgpAttr BgpAttrProofs BgpUpdate.

(** ** Round trip *)

Definition attrs_wire (attrs : list BGPPathAttr) : list Z := concat (map attr_wire attrs).

Definition update_wire (u : BGPUpdate) : list Z :=
  PutUint16 (len (nlris_wire (WithdrawnRoutes u))) ++ nlris_wire (WithdrawnRoutes u) ++
  PutUint16 (len (attrs_wire (PathAttributes u))) ++ attrs_wire (PathAttributes u) ++ nlris_wire (u_NLRI u).

Record wf_update (data : BGPPeerAttrs) (u : BGPUpdate) : Prop := {
  wu_withdrawn : Forall (wf_nlri (AddPathsRxActual data) AfiIP) (WithdrawnRoutes u);
  wu_attrs : Forall (wf_attr data) (PathAttributes u);
  wu_nlri : Forall (wf_nlri (AddPathsRxActual data) AfiIP) (u_NLRI u);
  wu_wlen : WithdrawnRoutesLen u = len (nlris_wire (WithdrawnRoutes u));
  wu_alen : TotalPathAttrLen u = len (attrs_wire (PathAttributes u));
  wu_short : BGPMsgHeaderLen + len (update_wire u) <= BGPMsgMaxLen
}.

Lemma routes_encode_spec addPaths ns :
  Forall (wf_nlri addPaths AfiIP) ns -> routes_encode ns = Ok (nlris_wire ns).
Proof.
  induction 1 as [|n ns Hn _ IH]; [done|]. cbn [routes_encode]. rewrite (nlri_encode addPaths) by done.
  cbn [exec_bind]. by rewrite IH.
Qed.

Lemma attrs_cons pa attrs : attrs_wire (pa :: attrs) = attr_wire pa ++ attrs_wire attrs.
Proof. done. Qed.

Lemma attrs_encode_spec data attrs : Forall (wf_attr data) attrs -> attrs_encode attrs = Ok (Some (attrs_wire attrs)).
Proof.
  induction 1 as [|pa attrs Hpa _ IH]; [done|]. cbn [attrs_encode]. rewrite (attr_encode data) by done.
  cbn [encode_bind]. by rewrite IH.
Qed.

Lemma attrs_decode_spec data attrs n fuel pre rest acc :
  Forall (wf_attr data) attrs -> (length attrs < n)%nat -> (length (attrs_wire attrs) <= fuel)%nat ->
  is_u32 (len pre + len (attrs_wire attrs)) ->
  attrs_decode n fuel (pre ++ attrs_wire attrs ++ rest) (len pre) (len (attrs_wire attrs)) data acc =
  val (len pre + len (attrs_wire attrs), 0, acc ++ attrs).
Proof.
  intros Ha. revert n pre acc. induction Ha as [|pa attrs Hpa _ IH]; intros n pre acc Hn Hf H32;
    (destruct n as [|n]; [cbn in Hn; lia|]); cbn [attrs_decode].
  - change (len (attrs_wire [])) with 0. by rewrite app_nil_r, Z.add_0_r.
  - rewrite attrs_cons in *. destruct (attr_total data pa Hpa) as [Et Hl]. rewrite length_app in Hf.
    pose proof (len_nonneg (attrs_wire attrs)). pose proof (len_nonneg pre). rewrite len_app in *.
    rewrite (proj2 (Z.ltb_lt _ _)) by lia. rewrite slice_from_app by done. cbn [exec_bind].
    rewrite <- (app_assoc (attr_wire pa)), attr_decode by (done || lia). cbn [result_bind].
    rewrite Et, u32_small by (unfold is_u32 in *; lia).
    replace (len pre + len (attr_wire pa)) with (len (pre ++ attr_wire pa)) by (by rewrite len_app).
    replace (len (attr_wire pa) + len (attrs_wire attrs) - len (attr_wire pa)) with (len (attrs_wire attrs)) by lia.
    rewrite app_assoc. cbn in Hn. rewrite IH by (rewrite ?len_app; done || lia || (unfold is_u32 in *; lia)).
    by rewrite <- !app_assoc, len_app, Z.add_assoc.
Qed.

Lemma attrs_length data attrs : Forall (wf_attr data) attrs -> len attrs <= len (attrs_wire attrs).
Proof.
  induction 1 as [|pa attrs Hpa _ IH]; [done|]. rewrite attrs_cons, len_app, len_cons.
  destruct (attr_total data pa Hpa) as [_ Hl]. lia.
Qed.

(** The lengths are computed, whatever the structure says. *)
Lemma update_encode_parts data u :
  Forall (wf_nlri (AddPathsRxActual data) AfiIP) (WithdrawnRoutes u) -> Forall (wf_attr data) (PathAttributes u) ->
  Forall (wf_nlri (AddPathsRxActual data) AfiIP) (u_NLRI u) -> BGPMsgHeaderLen + len (update_wire u) <= BGPMsgMaxLen ->
  BGPUpdate_Encode u = Ok (Some (update_wire u)).
Proof.
  intros Hw Ha Hn Hs. unfold BGPUpdate_Encode.
  rewrite (routes_encode_spec _ _ Hw), (routes_encode_spec _ _ Hn), (attrs_encode_spec _ _ Ha). cbn [exec_bind encode_bind].
  unfold update_wire, BGPMsgHeaderLen, BGPMsgMaxLen in *.
  pose proof (len_nonneg (nlris_wire (WithdrawnRoutes u))). pose proof (len_nonneg (attrs_wire (PathAttributes u))).
  pose proof (len_nonneg (nlris_wire (u_NLRI u))).
  by rewrite !u16_small by (autorewrite with go_len in *; unfold is_u16; lia).
Qed.

Lemma update_encode data u : wf_update data u -> BGPUpdate_Encode u = Ok (Some (update_wire u)).
Proof. intros [Hw Ha Hn _ _ Hs]. by apply (update_encode_parts data). Qed.

Lemma update_decode data u fuel h :
  wf_update data u -> (length (update_wire u) <= fuel)%nat -> h_Length h = BGPMsgHeaderLen + len (update_wire u) ->
  BGPUpdate_Decode fuel h (update_wire u) data = val u.
Proof.
  intros [Hw Ha Hn Ewl Eal Hs] Hf Hh. unfold BGPUpdate_Decode, BGPHeader_Len. rewrite Hh.
  unfold update_wire, BGPMsgHeaderLen, BGPMsgMaxLen in *.
  set (W := nlris_wire (WithdrawnRoutes u)) in *. set (A := attrs_wire (PathAttributes u)) in *.
  set (N := nlris_wire (u_NLRI u)) in *.
  pose proof (len_nonneg W). pose proof (len_nonneg A). pose proof (len_nonneg N). pose proof (attrs_length _ _ Ha) as Hal. fold A in Hal.
  rewrite !len_app, !len_PutUint16 in *. rewrite uint16_hd by (unfold is_u16; lia). cbn [exec_bind].
  rewrite (proj2 (Z.ltb_ge _ _)) by lia. rewrite slice_from_app by done. cbn [exec_bind].
  rewrite (decodeNLRI_spec _ _ data _ _ _ eq_refl Hw) by (done || unfold is_u32; lia). cbn [exec_bind result_bind].
  set (pre := PutUint16 (len W) ++ W). assert (Epre : 2 + len W = len pre) by (unfold pre; by rewrite len_app).
  replace (PutUint16 (len W) ++ W ++ PutUint16 (len A) ++ A ++ N) with (pre ++ PutUint16 (len A) ++ A ++ N)
    by (unfold pre; by rewrite <- app_assoc).
  rewrite Epre, slice_mid by done. cbn [exec_bind]. rewrite <- (app_nil_r (PutUint16 (len A))) at 1.
  rewrite uint16_hd by (unfold is_u16; lia). cbn [exec_bind].
  rewrite (proj2 (Z.ltb_ge _ _)) by lia.
  replace (len pre + 2) with (len (pre ++ PutUint16 (len A))) by (by rewrite len_app). rewrite app_assoc.
  rewrite (attrs_decode_spec data (PathAttributes u)); [| done | clear - Hal; unfold len in *; lia
    | fold A; clear - Hf; rewrite !length_app in Hf; lia | fold A; rewrite len_app, len_PutUint16; unfold is_u32; lia].
  cbn [result_bind]. fold A. rewrite app_assoc, slice_from_app by (by rewrite !len_app).
  cbn [Z.ltb Z.compare exec_bind app].
  replace (19 + (2 + (len W + (2 + (len A + len N)))) - 23 - len W - len A) with (len N) by lia.
  rewrite u32_small by (unfold is_u32; lia). rewrite <- (app_nil_r N) at 1.
  rewrite (decodeNLRI_spec _ _ data _ _ _ eq_refl Hn) by (fold N; done || (unfold is_u32; lia)).
  cbn [result_bind]. rewrite <- Ewl, <- Eal. by destruct u.
Qed.

(** Decoding the octets of a well-formed UPDATE gives it back: the withdrawn
    routes, every path attribute and the prefixes. *)
Theorem update_roundtrip data u fuel :
  wf_update data u -> (4096 <= fuel)%nat ->
  exists pkt, BGPUpdate_Encode u = Ok (Some pkt) /\
    BGPUpdate_Decode fuel (mkHeader (BGPMsgHeaderLen + len pkt) BGPMsgTypeUpdate) pkt data = val u.
Proof.
  intros Hu Hf. exists (update_wire u). split; [by apply (update_encode data)|].
  apply update_decode; [done | | done]. apply wu_short in Hu. unfold len, BGPMsgHeaderLen, BGPMsgMaxLen in Hu. lia.
Qed.

(** ** Whole messages *)

Definition has_code (code : Z) (attrs : list BGPPathAttr) : bool := existsb (fun pa => GetCode pa =? code) attrs.

(** The structure of an attribute is the one its code names. *)
Definition kind_ok (pa : BGPPathAttr) : Prop :=
  match pa with
  | BGPPathAttrASPath _ _ _ => GetCode pa = BGPPathAttrTypeASPath
  | BGPPathAttrAS4Path _ _ => GetCode pa = BGPPathAttrTypeAS4Path
  | BGPPathAttrAggregator _ _ _ => GetCode pa = BGPPathAttrTypeAggregator
  | BGPPathAttrAS4Aggregator _ _ _ => GetCode pa = BGPPathAttrTypeAS4Aggregator
  | _ => GetCode pa <> BGPPathAttrTypeASPath /\ GetCode pa <> BGPPathAttrTypeAS4Path /\
         GetCode pa <> BGPPathAttrTypeAggregator /\ GetCode pa <> BGPPathAttrTypeAS4Aggregator
  end.

Lemma wf_kind data pa : wf_attr data pa -> kind_ok pa.
Proof.
  intros [_ _ Hv]. destruct pa; unfold wf_value in Hv; cbv zeta in Hv; unfold kind_ok;
    try (destruct Hv as [-> _]; done); try (rewrite Hv; done).
  repeat split; intros E; apply Hv; rewrite E; apply (bool_decide_unpack _); vm_compute; exact I.
Qed.

Lemma wf_kinds data attrs : Forall (wf_attr data) attrs -> Forall kind_ok attrs.
Proof. induction 1; constructor; [by eapply wf_kind | done]. Qed.

Lemma as_path_kind pa : kind_ok pa -> GetCode pa = BGPPathAttrTypeASPath -> exists b v size, pa = BGPPathAttrASPath b v size.
Proof.
  intros H E. destruct pa; unfold kind_ok in H; rewrite E in H; try discriminate H; try (by destruct H).
  by repeat eexists.
Qed.
Lemma aggregator_kind pa :
  kind_ok pa -> GetCode pa = BGPPathAttrTypeAggregator -> exists b as_ ip, pa = BGPPathAttrAggregator b as_ ip.
Proof.
  intros H E. destruct pa; unfold kind_ok in H; rewrite E in H; try discriminate H; try (by destruct H as (_ & _ & H & _)).
  by repeat eexists.
Qed.

(** What the scan for AS attributes finds, when there are no AS4 ones. *)
Lemma note_attrs attrs a :
  Forall kind_ok attrs -> has_code BGPPathAttrTypeAS4Path attrs = false -> has_code BGPPathAttrTypeAS4Aggregator attrs = false ->
  exists found, for_each note_attr attrs a = Ok found /\
    f_as4Path found = f_as4Path a /\ f_as4Aggregator found = f_as4Aggregator a /\
    ((f_asPath found = f_asPath a /\ getTypeFromPathAttrs attrs BGPPathAttrTypeASPath = None) \/
     exists b v size, f_asPath found = Some (v, size) /\ BGPPathAttrASPath b v size ∈ attrs).
Proof.
  intros Hk. revert a. induction Hk as [|pa attrs Hpa _ IH]; intros a H17 H18.
  { exists a. by repeat split; [left]. }
  cbn in H17, H18. apply orb_false_iff in H17 as [E17 H17], H18 as [E18 H18].
  cbn [for_each getTypeFromPathAttrs]. unfold note_attr at 1. rewrite E17, E18.
  destruct (GetCode pa =? BGPPathAttrTypeASPath) eqn:E2.
  - apply Z.eqb_eq in E2. destruct (as_path_kind pa Hpa E2) as (b & v & size & ->). cbn [exec_bind].
    destruct (IH (a <| f_asPath := Some (v, size) |>) H17 H18) as (f & Ef & E4 & Eg & Hp).
    exists f. split; [done|]. split; [done|]. split; [done|]. right. destruct Hp as [[Hp _] | (b' & v' & s' & Hp & Hin)].
    + exists b, v, size. split; [done | left].
    + exists b', v', s'. split; [done | by right].
  - destruct (GetCode pa =? BGPPathAttrTypeAggregator) eqn:E7.
    + apply Z.eqb_eq in E7. destruct (aggregator_kind pa Hpa E7) as (b & as_ & ip & ->). cbn [exec_bind].
      destruct (IH (a <| f_asAggregator := Some as_ |>) H17 H18) as (f & Ef & E4 & Eg & Hp).
      exists f. do 3 (split; [done|]). destruct Hp as [Hp | (b' & v' & s' & Hp & Hin)]; [by left | right].
      exists b', v', s'. split; [done | by right].
    + destruct (IH a H17 H18) as (f & Ef & E4 & Eg & Hp). exists f. do 3 (split; [done|]).
      destruct Hp as [Hp | (b' & v' & s' & Hp & Hin)]; [by left | right]. exists b', v', s'. split; [done | by right].
Qed.

Lemma normalize_four data u :
  pa_ASSize data = 4 -> Forall (wf_attr data) (PathAttributes u) ->
  has_code BGPPathAttrTypeAS4Path (PathAttributes u) = false ->
  has_code BGPPathAttrTypeAS4Aggregator (PathAttributes u) = false ->
  NormalizeASPath u = Ok u.
Proof.
  intros H4 Ha H17 H18. unfold NormalizeASPath. destruct (TotalPathAttrLen u =? 0); [done|]. cbv zeta.
  assert (Hk : Forall kind_ok (PathAttributes u)) by (by eapply wf_kinds).
  destruct (note_attrs _ (mkAsAttrs None None None false) Hk H17 H18) as (f & -> & E4 & Eg & Hp). cbn [exec_bind].
  destruct Hp as [[-> _] | (b & v & size & -> & Hin)]; [done|].
  rewrite list.Forall_forall in Ha. apply Ha in Hin as [_ _ Hv]. destruct Hv as (_ & -> & _). rewrite H4. cbn.
  rewrite Eg, E4. by destruct u.
Qed.

Definition body_type (b : BGPBody) : Z :=
  match b with
  | OpenBody _ => BGPMsgTypeOpen
  | UpdateBody _ => BGPMsgTypeUpdate
  | NotificationBody _ => BGPMsgTypeNotification
  | KeepAliveBody => BGPMsgTypeKeepAlive
  end.

(** An UPDATE of a peer with four-octet AS numbers has no AS4 attributes. *)
Definition wf_body (data : BGPPeerAttrs) (b : BGPBody) : Prop :=
  match b with
  | OpenBody o => wf_open o
  | UpdateBody u =>
      wf_update data u /\ pa_ASSize data = 4 /\
      has_code BGPPathAttrTypeAS4Path (PathAttributes u) = false /\
      has_code BGPPathAttrTypeAS4Aggregator (PathAttributes u) = false
  | NotificationBody n => 21 + len (n_Data n) <= BGPMsgMaxLen
  | KeepAliveBody => True
  end.

Definition body_wire (b : BGPBody) : list Z :=
  match b with
  | OpenBody o => open_bytes o
  | UpdateBody u => update_wire u
  | NotificationBody n => BGPNotification_Encode n
  | KeepAliveBody => []
  end.

Lemma body_encode data b : wf_body data b -> BGPBody_Encode b = Ok (Some (body_wire b)).
Proof.
  destruct b as [o|u|n|]; cbn [wf_body BGPBody_Encode body_wire]; intros H; try done.
  - unfold to_exec. by rewrite open_encode.
  - apply (update_encode data). tauto.
Qed.

Lemma len_open_bytes o : wf_open o -> len (open_bytes o) < 266.
Proof.
  intros [? ? ? ? ? ? ? Hs]. unfold open_bytes. rewrite len_app, len_fixed by done. lia.
Qed.

Lemma body_short data b : wf_body data b -> BGPMsgHeaderLen + len (body_wire b) <= BGPMsgMaxLen.
Proof.
  destruct b as [o|u|n|]; cbn [wf_body body_wire]; intros H; unfold BGPMsgHeaderLen, BGPMsgMaxLen in *.
  - apply len_open_bytes in H. lia.
  - apply H.
  - unfold BGPNotification_Encode. len_lia.
  - done.
Qed.

Lemma notification_decode n : BGPNotification_Decode (BGPNotification_Encode n) = val n.
Proof.
  destruct n as [c s d]. unfold BGPNotification_Decode, BGPNotification_Encode. cbn [ErrorCode ErrorSubcode n_Data].
  change (index ([c; s] ++ d) 0) with (Ok c). change (index ([c; s] ++ d) 1) with (Ok s). cbn [exec_bind].
  destruct (2 <? len ([c; s] ++ d)) eqn:E; [by rewrite slice_from_app|].
  apply Z.ltb_ge in E. rewrite len_app in E. change (len [c; s]) with 2 in E.
  destruct d as [|x d]; [done|]. rewrite len_cons in E. pose proof (len_nonneg d). lia.
Qed.

Lemma header_encode l t : BGPHeader_Encode (mkHeader l t) = Ok (replicate 16 255 ++ PutUint16 l ++ [t]).
Proof. done. Qed.

Lemma header_decode l t : is_u16 l -> BGPHeader_Decode (replicate 16 255 ++ PutUint16 l ++ [t]) = val (mkHeader l t).
Proof.
  intros Hl. unfold BGPHeader_Decode. rewrite uint16_at_put by done. done.
Qed.

Lemma params_count ps : 2 * len ps <= len (params_bytes ps).
Proof.
  induction ps as [|p ps IH]; [done|]. rewrite len_params_cons, len_cons. pose proof (param_bytes_pos p). lia.
Qed.

Lemma message_decode data b fuel l :
  wf_body data b -> (4096 <= fuel)%nat -> l = BGPMsgHeaderLen + len (body_wire b) ->
  BGPMessage_Decode fuel (mkHeader l (body_type b)) (body_wire b) data = val (mkMessage (mkHeader l (body_type b)) (Some b)).
Proof.
  intros Hb Hf Hl. unfold BGPMessage_Decode. destruct b as [o|u|n|]; cbn [body_type h_Type body_wire] in *.
  - pose proof (params_count (OptParams o)) as Hc. cbn in Hb. pose proof (wo_short _ Hb) as Hs.
    cbn [Z.eqb Pos.eqb BGPMsgTypeOpen]. rewrite open_decode; [done | done | unfold len in *; lia].
  - pose proof (body_short data (UpdateBody u) Hb) as Hs. destruct Hb as (Hu & H4 & H17 & H18).
    cbn [Z.eqb Pos.eqb BGPMsgTypeOpen BGPMsgTypeUpdate BGPMsgTypeKeepAlive].
    rewrite update_decode; [| done | cbn [body_wire] in Hs; clear - Hs Hf; unfold BGPMsgHeaderLen, BGPMsgMaxLen, len in *; lia | done].
    cbn [result_bind]. by rewrite (normalize_four data u H4 (wu_attrs _ _ Hu) H17 H18).
  - cbn [Z.eqb Pos.eqb BGPMsgTypeOpen BGPMsgTypeUpdate BGPMsgTypeKeepAlive BGPMsgTypeNotification].
    by rewrite notification_decode.
  - done.
Qed.

(** C6: Every well-formed message of the protocol is understood: the octets are a
    header of 19 octets that carries the type and the length of the whole
    message, and the body; decoding the header and then the body gives the
    message back. *)
Theorem message_roundtrip data b fuel :
  wf_body data b -> (4096 <= fuel)%nat ->
  exists hdr body h,
    BGPMessage_Encode (mkMessage (mkHeader 0 (body_type b)) (Some b)) = Ok (Some (hdr ++ body)) /\
    len hdr = BGPMsgHeaderLen /\ BGPHeader_Decode hdr = val h /\
    h_Length h = len (hdr ++ body) /\ h_Length h <= BGPMsgMaxLen /\ h_Type h = body_type b /\
    BGPMessage_Decode fuel h body data = val (mkMessage h (Some b)).
Proof.
  intros Hb Hf. pose proof (body_short data b Hb) as Hs. pose proof (len_nonneg (body_wire b)).
  set (l := BGPMsgHeaderLen + len (body_wire b)) in *.
  assert (Hu : is_u16 l) by (unfold is_u16, l, BGPMsgHeaderLen, BGPMsgMaxLen in *; lia).
  exists (replicate 16 255 ++ PutUint16 l ++ [body_type b]), (body_wire b), (mkHeader l (body_type b)).
  split.
  { unfold BGPMessage_Encode. cbn [Body Header h_Length h_Type]. rewrite (body_encode data) by done. cbn [encode_bind].
    fold l. rewrite (proj2 (Z.ltb_ge BGPMsgMaxLen l)) by lia. cbn [Z.eqb andb]. rewrite u16_small, header_encode by done. done. }
  split; [done|]. split; [by apply header_decode|]. split; [by rewrite len_app|]. split; [done|]. split; [done|].
  by apply message_decode.
Qed.

(** ** AS loops *)

(** The AS numbers of the AS path. *)
Definition path_numbers (attrs : list BGPPathAttr) : list Z :=
  match getTypeFromPathAttrs attrs BGPPathAttrTypeASPath with
  | Some (BGPPathAttrASPath _ value _) => concat (map seg_AS value)
  | _ => []
  end.

Lemma existsb_elem (x : Z) l : existsb (Z.eqb x) l = bool_decide (x ∈ l).
Proof.
  induction l as [|y l IH]; [done|]. cbn [existsb]. rewrite IH. destruct (Z.eqb_spec x y) as [->|Hne]; cbn [orb].
  - symmetry. apply bool_decide_true. left.
  - apply bool_decide_ext. rewrite elem_of_cons. tauto.
Qed.

Lemma segments_loop_four localAS value :
  Forall (wf_seg true) value -> segments_loop true localAS value = Ok (bool_decide (localAS ∈ concat (map seg_AS value))).
Proof.
  induction 1 as [|s value Hs _ IH]; [done|]. apply ws_kind in Hs. destruct s as [|b as_]; [done|].
  cbn [segments_loop map concat seg_AS]. rewrite existsb_elem, IH.
  destruct (decide (localAS ∈ as_)) as [Hin|Hin]; [rewrite bool_decide_true by done | rewrite bool_decide_false by done].
  - f_equal. symmetry. apply bool_decide_true. apply elem_of_app. by left.
  - f_equal. apply bool_decide_ext. rewrite elem_of_app. tauto.
Qed.

Lemma first_wf data attrs code pa :
  Forall (wf_attr data) attrs -> getTypeFromPathAttrs attrs code = Some pa -> wf_attr data pa /\ GetCode pa = code.
Proof.
  induction 1 as [|x attrs Hx _ IH]; [done|]. cbn [getTypeFromPathAttrs].
  destruct (Z.eqb_spec (GetCode x) code) as [E|E]; [|done]. by intros [= <-].
Qed.

Lemma loop_check data attrs localAS :
  Forall (wf_attr data) attrs -> pa_ASSize data = 4 ->
  HasASLoop attrs localAS = Ok (bool_decide (localAS ∈ path_numbers attrs)).
Proof.
  intros Ha H4. unfold HasASLoop, path_numbers.
  destruct (getTypeFromPathAttrs attrs BGPPathAttrTypeASPath) as [pa|] eqn:Ep; [|done].
  destruct (first_wf _ _ _ _ Ha Ep) as [Hw Hc]. destruct (as_path_kind pa (wf_kind _ _ Hw) Hc) as (b & v & size & ->).
  destruct Hw as [_ _ Hv]. destruct Hv as (_ & -> & Hs). rewrite H4 in *. by apply segments_loop_four.
Qed.

Definition widened (s : BGPASPathSegment) : BGPASPathSegment :=
  BGPAS4PathSegment (mkSegBase (s_Type (seg_base s)) (s_Length (seg_base s)) (u16 (2 + s_Length (seg_base s) * 4))) (seg_AS s).

Lemma widen_spec s : wf_seg false s -> widen s = Ok (widened s).
Proof.
  intros [Hk Hc _ _ _ _]. destruct s as [b as_|]; [|done]. cbn in *. rewrite Hc, Z.ltb_irrefl, make_0, app_nil_r by lia.
  unfold widened. cbn. by rewrite Hc.
Qed.

Lemma widen_path value b acc :
  Forall (wf_seg false) value ->
  exists b', for_each (fun seg p => let! s := widen seg in Ok (AppendASPathSegment p s)) value (BGPPathAttrASPath b acc 0) =
             Ok (BGPPathAttrASPath b' (acc ++ map widened value) 0) /\ Code b' = Code b.
Proof.
  intros Hs. revert b acc. induction Hs as [|s value Hs _ IH]; intros b acc.
  { exists b. cbn. by rewrite app_nil_r. }
  cbn [for_each]. rewrite widen_spec by done. cbn [exec_bind AppendASPathSegment].
  destruct (IH (add_length b (Segment_TotalLen (widened s))) (acc ++ [widened s])) as (b' & -> & Hc).
  exists b'. by rewrite <- app_assoc.
Qed.

(** The AS path of a peer with two-octet AS numbers, rewritten with four. *)
Lemma convert_spec data attrs :
  Forall (wf_attr data) attrs -> pa_ASSize data = 2 ->
  exists attrs', ConvertAS2ToAS4 attrs = Ok attrs' /\
    match getTypeFromPathAttrs attrs BGPPathAttrTypeASPath with
    | Some (BGPPathAttrASPath _ v _) =>
        exists b', getTypeFromPathAttrs attrs' BGPPathAttrTypeASPath = Some (BGPPathAttrASPath b' (map widened v) 0)
    | _ => attrs' = attrs
    end.
Proof.
  intros Ha H2. induction Ha as [|pa attrs Hpa _ IH]; [by exists []|]. cbn [ConvertAS2ToAS4 getTypeFromPathAttrs].
  destruct (Z.eqb_spec (GetCode pa) BGPPathAttrTypeASPath) as [E|E].
  - destruct (as_path_kind pa (wf_kind _ _ Hpa) E) as (b & v & size & ->). apply wa_value in Hpa. destruct Hpa as (_ & -> & Hs).
    rewrite H2 in Hs. unfold NewBGPPathAttrASPath.
    destruct (widen_path v (mkAttrBase 80 BGPPathAttrTypeASPath 0 4) [] Hs) as (b' & -> & Hc). eexists. split; [done|].
    exists b'. cbn [getTypeFromPathAttrs]. unfold GetCode. cbn [attr_base]. by rewrite Hc.
  - destruct IH as (attrs' & -> & Hp). exists (pa :: attrs'). split; [done|]. cbn [getTypeFromPathAttrs].
    rewrite (proj2 (Z.eqb_neq _ _)) by done.
    destruct (getTypeFromPathAttrs attrs BGPPathAttrTypeASPath) as [[]|]; try done; by rewrite Hp.
Qed.

Lemma normalize_two data u :
  pa_ASSize data = 2 -> Forall (wf_attr data) (PathAttributes u) -> TotalPathAttrLen u <> 0 ->
  has_code BGPPathAttrTypeAS4Path (PathAttributes u) = false ->
  has_code BGPPathAttrTypeAS4Aggregator (PathAttributes u) = false ->
  getTypeFromPathAttrs (PathAttributes u) BGPPathAttrTypeASPath <> None ->
  exists attrs', ConvertAS2ToAS4 (PathAttributes u) = Ok attrs' /\ NormalizeASPath u = Ok (u <| PathAttributes := attrs' |>).
Proof.
  intros H2 Ha Ht H17 H18 Hpath. destruct (convert_spec data _ Ha H2) as (attrs' & Ec & _). exists attrs'. split; [done|].
  unfold NormalizeASPath. rewrite (proj2 (Z.eqb_neq _ _)) by done. cbv zeta. rewrite Ec.
  destruct (note_attrs _ (mkAsAttrs None None None false) (wf_kinds _ _ Ha) H17 H18) as (f & -> & E4 & Eg & Hp).
  cbn [exec_bind]. destruct Hp as [[_ Hnone] | (b & v & size & -> & Hin)]; [done|].
  rewrite list.Forall_forall in Ha. apply Ha, wa_value in Hin. destruct Hin as (_ & -> & _).
  rewrite H2, Eg, E4. by destruct (f_asAggregator f).
Qed.

(** C34: An UPDATE of a peer with two-octet AS numbers and a path that is not empty
    decodes, with the same AS numbers in its path; but the check for loops, the
    first thing done with it, panics: the rewritten path has four-octet segments
    and is not marked so. *)
Theorem as_loop_check_crashes data u fuel localAS :
  wf_update data u -> pa_ASSize data = 2 -> (4096 <= fuel)%nat ->
  has_code BGPPathAttrTypeAS4Path (PathAttributes u) = false ->
  has_code BGPPathAttrTypeAS4Aggregator (PathAttributes u) = false ->
  path_numbers (PathAttributes u) <> [] ->
  exists pkt h u', BGPUpdate_Encode u = Ok (Some pkt) /\
    BGPMessage_Decode fuel h pkt data = val (mkMessage h (Some (UpdateBody u'))) /\
    path_numbers (PathAttributes u') = path_numbers (PathAttributes u) /\
    HasASLoop (PathAttributes u') localAS = Panic.
Proof.
  intros Hu H2 Hf H17 H18 Hpath. pose proof (wu_attrs _ _ Hu) as Ha. pose proof (wu_short _ _ Hu) as Hs.
  unfold path_numbers in Hpath.
  destruct (getTypeFromPathAttrs (PathAttributes u) BGPPathAttrTypeASPath) as [pa|] eqn:Ep; [|done].
  destruct (first_wf _ _ _ _ Ha Ep) as [Hw Hc]. destruct (as_path_kind pa (wf_kind _ _ Hw) Hc) as (b & v & size & ->).
  assert (Ht : TotalPathAttrLen u <> 0).
  { rewrite (wu_alen _ _ Hu). pose proof (attrs_length _ _ Ha) as Hl. destruct (PathAttributes u) as [|x l]; [done|].
    rewrite len_cons in Hl. pose proof (len_nonneg l). lia. }
  destruct (normalize_two data u H2 Ha Ht H17 H18) as (attrs' & Ec & En); [by rewrite Ep|].
  destruct (convert_spec data _ Ha H2) as (attrs2 & Ec2 & Hconv). rewrite Ec in Ec2. injection Ec2 as <-.
  rewrite Ep in Hconv. destruct Hconv as (b' & Eb').
  exists (update_wire u), (mkHeader (BGPMsgHeaderLen + len (update_wire u)) BGPMsgTypeUpdate), (u <| PathAttributes := attrs' |>).
  split; [by apply (update_encode data)|]. split.
  { unfold BGPMessage_Decode. cbn [h_Type Z.eqb Pos.eqb BGPMsgTypeOpen BGPMsgTypeUpdate BGPMsgTypeKeepAlive].
    rewrite update_decode; [| done | clear - Hs Hf; unfold BGPMsgHeaderLen, BGPMsgMaxLen, len in *; lia | done].
    cbn [result_bind]. by rewrite En. }
  simpl_get. unfold path_numbers, HasASLoop. rewrite Eb', Ep. split.
  - clear. induction v as [|s v IH]; [done|]. cbn [map concat]. by rewrite IH.
  - destruct v as [|s v]; done.
Qed.

(** ** AS4_PATH *)

(** Attributes that have no part in the reconciliation of AS paths. *)
Definition plain (pa : BGPPathAttr) : bool :=
  negb (GetCode pa =? BGPPathAttrTypeASPath) && negb (GetCode pa =? BGPPathAttrTypeAS4Path) &&
  negb (GetCode pa =? BGPPathAttrTypeAggregator) && negb (GetCode pa =? BGPPathAttrTypeAS4Aggregator).

Lemma plain_codes pa : plain pa = true ->
  (GetCode pa =? BGPPathAttrTypeASPath) = false /\ (GetCode pa =? BGPPathAttrTypeAS4Path) = false /\
  (GetCode pa =? BGPPathAttrTypeAggregator) = false /\ (GetCode pa =? BGPPathAttrTypeAS4Aggregator) = false.
Proof. unfold plain. rewrite !andb_true_iff, !negb_true_iff. tauto. Qed.

Lemma note_plain l a : Forall (fun pa => plain pa = true) l -> for_each note_attr l a = Ok a.
Proof.
  induction 1 as [|pa l Hpa _ IH]; [done|]. cbn [for_each]. unfold note_attr at 1.
  destruct (plain_codes pa Hpa) as (-> & -> & -> & ->). exact IH.
Qed.

Lemma remove_first code l1 pa l2 :
  Forall (fun x => (GetCode x =? code) = false) l1 -> GetCode pa = code ->
  removeTypeFromPathAttrs code (l1 ++ pa :: l2) = l1 ++ l2.
Proof.
  intros Hl Hpa. induction Hl as [|x l1 Hx _ IH]; cbn [app removeTypeFromPathAttrs].
  - by rewrite Hpa, Z.eqb_refl.
  - by rewrite Hx, IH.
Qed.

Lemma type_first code l1 pa l2 :
  Forall (fun x => (GetCode x =? code) = false) l1 -> GetCode pa = code ->
  getTypeFromPathAttrs (l1 ++ pa :: l2) code = Some pa.
Proof.
  intros Hl Hpa. induction Hl as [|x l1 Hx _ IH]; cbn [app getTypeFromPathAttrs].
  - by rewrite Hpa, Z.eqb_refl.
  - by rewrite Hx.
Qed.

Lemma convert_first l1 b v size l2 :
  Forall (fun x => (GetCode x =? BGPPathAttrTypeASPath) = false) l1 -> Code b = BGPPathAttrTypeASPath ->
  Forall (wf_seg false) v ->
  exists b', ConvertAS2ToAS4 (l1 ++ BGPPathAttrASPath b v size :: l2) =
             Ok (l1 ++ BGPPathAttrASPath b' (map widened v) 0 :: l2) /\ Code b' = BGPPathAttrTypeASPath.
Proof.
  intros Hl Hc Hv. destruct (widen_path v (mkAttrBase 80 BGPPathAttrTypeASPath 0 4) [] Hv) as (b' & Ew & Hc').
  exists b'. split; [|done]. induction Hl as [|x l1 Hx _ IH]; cbn [app ConvertAS2ToAS4].
  - unfold GetCode. cbn [attr_base]. rewrite Hc, Z.eqb_refl. unfold NewBGPPathAttrASPath. by rewrite Ew.
  - by rewrite Hx, IH.
Qed.

Lemma append_all vs b acc size :
  exists b', fold_left AppendASPathSegment vs (BGPPathAttrASPath b acc size) = BGPPathAttrASPath b' (acc ++ vs) size /\
             Code b' = Code b.
Proof.
  revert b acc. induction vs as [|s vs IH]; intros b acc; cbn [fold_left AppendASPathSegment].
  - exists b. by rewrite app_nil_r.
  - destruct (IH (add_length b (Segment_TotalLen s)) (acc ++ [s])) as (b' & -> & Hc). exists b'. by rewrite <- app_assoc.
Qed.

(** The numbers asked for differ in type only, and the type is ignored. *)
Lemma same_count attrs : GetNumASesByASType attrs BGPPathAttrTypeASPath = GetNumASesByASType attrs BGPPathAttrTypeAS4Path.
Proof. done. Qed.

Lemma construct_spec asPath as4Path s rest :
  asPath = s :: rest -> wf_seg false s -> as4Path <> [] ->
  exists b, ConstructASPathFromAS4Path asPath as4Path 0 = Ok (BGPPathAttrASPath b as4Path 0) /\ Code b = BGPPathAttrTypeASPath.
Proof.
  intros -> [Hk _ Hs Hl Hf _] H4. destruct s as [b as_|]; [|done]. cbn [seg_AS] in *.
  unfold ConstructASPathFromAS4Path. cbn [skip_segments].
  assert (Hn : (0 <? u16 (Segment_GetNumASes (BGPAS2PathSegment b as_) + 0)) = true).
  { unfold Segment_GetNumASes. cbn [seg_AS seg_base]. destruct (_ =? _); [done|]. cbn [as_width] in Hf.
    rewrite u8_small, u16_small by (unfold is_u8, is_u16; lia). apply Z.ltb_lt. lia. }
  rewrite Hn. cbn [exec_bind]. destruct as4Path as [|s4 as4]; [done|]. cbn [lookup list_lookup Z.ltb Z.compare].
  destruct (append_all (s4 :: as4) (mkAttrBase 80 BGPPathAttrTypeASPath 0 4) [] 0) as (b' & E & Hc).
  exists b'. split; [|done]. unfold NewBGPPathAttrASPath. by rewrite E.
Qed.

Lemma plain_not_path l : Forall (fun pa => plain pa = true) l -> Forall (fun pa => (GetCode pa =? BGPPathAttrTypeASPath) = false) l.
Proof. induction 1 as [|pa l Hpa _ IH]; constructor; [by apply plain_codes | done]. Qed.
Lemma plain_not_path4 l : Forall (fun pa => plain pa = true) l -> Forall (fun pa => (GetCode pa =? BGPPathAttrTypeAS4Path) = false) l.
Proof. induction 1 as [|pa l Hpa _ IH]; constructor; [by apply plain_codes | done]. Qed.

(** When a peer with two-octet AS numbers sends an AS4_PATH, the path that
    the UPDATE is left with is the AS4_PATH alone: the numbers of the AS path
    that come before it are lost, however many there are. *)
Theorem as4_path_drops_ases u l1 b s v l2 b4 v4 l3 :
  PathAttributes u = l1 ++ BGPPathAttrASPath b (s :: v) 2 :: l2 ++ BGPPathAttrAS4Path b4 v4 :: l3 ->
  Forall (fun pa => plain pa = true) (l1 ++ l2 ++ l3) ->
  Code b = BGPPathAttrTypeASPath -> Code b4 = BGPPathAttrTypeAS4Path ->
  Forall (wf_seg false) (s :: v) -> v4 <> [] -> TotalPathAttrLen u <> 0 ->
  exists u', NormalizeASPath u = Ok u' /\ path_numbers (PathAttributes u') = concat (map seg_AS v4).
Proof.
  intros Ea Hp Hc Hc4 Hv H4 Ht. apply Forall_app in Hp as [Hp1 [Hp2 Hp3]%Forall_app].
  pose proof (plain_not_path _ Hp1) as Hn1. pose proof (plain_not_path4 _ Hp1) as Hm1.
  pose proof (plain_not_path _ Hp2) as Hn2. pose proof (plain_not_path4 _ Hp2) as Hm2. pose proof (plain_not_path _ Hp3) as Hn3.
  unfold NormalizeASPath. rewrite (proj2 (Z.eqb_neq _ _)) by done. rewrite Ea. cbv zeta.
  assert (Enote : for_each note_attr (l1 ++ BGPPathAttrASPath b (s :: v) 2 :: l2 ++ BGPPathAttrAS4Path b4 v4 :: l3)
                    (mkAsAttrs None None None false) = Ok (mkAsAttrs (Some (s :: v, 2)) (Some v4) None false)).
  { rewrite for_each_app, note_plain by done. cbn [exec_bind for_each]. unfold note_attr at 1, GetCode. cbn [attr_base].
    rewrite Hc. cbn [Z.eqb Pos.eqb BGPPathAttrTypeASPath exec_bind]. rewrite for_each_app, note_plain by done.
    cbn [exec_bind for_each]. unfold note_attr at 1, GetCode. cbn [attr_base]. rewrite Hc4.
    cbn [Z.eqb Pos.eqb BGPPathAttrTypeASPath BGPPathAttrTypeAS4Path exec_bind]. by rewrite note_plain. }
  rewrite Enote. cbn [exec_bind f_asPath f_asAggregator f_as4Path Z.eqb Pos.eqb].
  destruct (convert_first l1 b (s :: v) 2 (l2 ++ BGPPathAttrAS4Path b4 v4 :: l3) Hn1 Hc Hv) as (b' & -> & Hc').
  cbn [exec_bind]. rewrite <- same_count.
  destruct (GetNumASesByASType _ _) as [n| |] eqn:En; cbn [exec_bind].
  2-3: unfold GetNumASesByASType in En; rewrite type_first in En by done; done.
  rewrite Z.leb_refl, Z.sub_diag. change (u16 0) with 0. inversion_clear Hv as [|? ? Hs _].
  destruct (construct_spec (s :: v) v4 s v eq_refl Hs H4) as (b'' & -> & Hc''). cbn [exec_bind].
  rewrite app_comm_cons, app_assoc, remove_first; [|apply Forall_app; split; [done | constructor; [|done]] | done].
  2: { unfold GetCode. cbn [attr_base]. by rewrite Hc'. }
  rewrite <- app_assoc, <- app_comm_cons, remove_first by done. eexists. split; [done|]. simpl_get.
  unfold path_numbers, AddPathAttrToPathAttrsByCode. set (i := add_index _ _).
  rewrite type_first; [done | | done]. apply Forall_take. apply Forall_app. split; [done|]. by apply Forall_app.
Qed.

(** ** Messages that break the decoder *)

Section Endless.
Context (type : Z) (as_ : list Z) (rest : list Z) (pre : list Z).
Hypothesis Has : len as_ = 127.
Hypothesis H16 : Forall is_u16 as_.

Definition wrapped : list Z := [type; 127] ++ AS_wire false as_.

Lemma wrapped_decode :
  BGPAS2PathSegment_Decode (wrapped ++ rest) = val (BGPAS2PathSegment (mkSegBase type 127 0) as_).
Proof using Has H16.
  pose proof (len_nonneg rest). pose proof (len_AS_wire false as_) as Hl. rewrite Has in Hl. cbn in Hl.
  unfold BGPAS2PathSegment_Decode, BGPASPathSegmentBase_Decode, wrapped. rewrite !len_app, Hl.
  change (len [type; 127]) with 2. rewrite (proj2 (Z.leb_gt _ _)) by lia. rewrite <- app_assoc.
  change (index ([type; 127] ++ ?l) 0) with (Ok type). change (index ([type; 127] ++ ?l) 1) with (Ok 127).
  cbn [exec_bind result_bind]. rewrite (proj2 (Z.ltb_ge _ _)) by lia.
  pose proof (read_AS_spec false as_ [type; 127] rest H16) as Hr. cbn beta iota in Hr.
  assert (En : Z.to_nat 127 = length as_) by (unfold len in Has; lia). rewrite En.
  change (len [type; 127]) with 2 in Hr. rewrite Hr. done.
Qed.

Lemma wrapped_hang fuel stop acc :
  len pre < stop -> is_u32 stop ->
  segments_decode fuel false (pre ++ wrapped ++ rest) (len pre) stop acc = Hang.
Proof using Has H16.
  intros Hs H32. pose proof (len_nonneg pre). revert acc. induction fuel as [|fuel IH]; intros acc; [done|].
  cbn [segments_decode]. rewrite (proj2 (Z.ltb_lt _ _)) by lia. rewrite slice_from_app by done. cbn [exec_bind].
  rewrite wrapped_decode. cbn [exec_bind]. unfold Segment_TotalLen. cbn [seg_base BGPASPathSegmentLen].
  rewrite Z.add_0_r, u32_small by (unfold is_u32 in *; lia). rewrite (proj2 (Z.ltb_ge _ _)) by lia. apply IH.
Qed.
End Endless.

(** The head of an AS path of 256 octets. *)
Definition wrapped_base : BGPPathAttrBase := mkAttrBase 80 BGPPathAttrTypeASPath 256 4.

Lemma wrapped_base_wf : wf_base wrapped_base.
Proof. by split. Qed.

(** C33: An UPDATE with an AS path of one segment of 127 two-octet numbers is
    decoded for ever: the length of the segment, 256, wraps to zero in eight
    bits, so the loop reads it again and again and appends it each time. *)
Theorem update_decode_never_ends type as_ data fuel l :
  len as_ = 127 -> Forall is_u16 as_ -> pa_ASSize data = 2 -> 283 <= l ->
  BGPUpdate_Decode fuel (mkHeader l BGPMsgTypeUpdate)
    (PutUint16 0 ++ PutUint16 260 ++ attr_head wrapped_base ++ wrapped type as_) data = Hang.
Proof.
  intros Has H16 H2 Hl. unfold BGPUpdate_Decode, BGPHeader_Len. cbn [h_Length].
  rewrite uint16_hd by done. cbn [exec_bind]. rewrite (proj2 (Z.ltb_ge _ _)) by lia. rewrite slice_from_app by done.
  cbn [exec_bind]. assert (Ed : forall pkt, decodeNLRI pkt 0 AfiIP data = val (0, [])).
  { intros pkt. unfold decodeNLRI. pose proof (len_nonneg pkt). by rewrite (proj2 (Z.ltb_ge _ _)) by lia. }
  rewrite Ed. cbn [exec_bind result_bind]. rewrite slice_mid by done. cbn [exec_bind].
  rewrite <- (app_nil_r (PutUint16 260)) at 1. rewrite uint16_hd by done. cbn [exec_bind].
  rewrite (proj2 (Z.ltb_ge _ _)) by lia. change (2 + 0 + 2) with (len (PutUint16 0 ++ PutUint16 260)).
  rewrite app_assoc. cbn [attrs_decode]. change (0 <? 260) with true. cbn iota. rewrite slice_from_app by done. cbn [exec_bind].
  assert (Ep : PathAttr_Decode fuel (attr_head wrapped_base ++ wrapped type as_) data = Hang); [|by rewrite Ep].
  unfold PathAttr_Decode. change (index (attr_head wrapped_base ++ ?x) 1) with (Ok BGPPathAttrTypeASPath).
  cbn [exec_bind Z.eqb Pos.eqb BGPPathAttrTypeASPath BGPPathAttrTypeOrigin]. unfold BGPPathAttrASPath_Decode.
  rewrite attr_base_decode; [| exact wrapped_base_wf |].
  2: { unfold wrapped. rewrite len_app, len_AS_wire, Has. done. }
  cbn [result_bind]. rewrite H2. change (2 =? 4) with false. rewrite <- (app_nil_r (wrapped type as_)).
  change (BGPPathAttrLen wrapped_base) with (len (attr_head wrapped_base)). by rewrite wrapped_hang.
Qed.

(** An UPDATE whose body has fewer than two octets, and one with an
    MP_REACH_NLRI attribute without a value, crash the decoder. *)
Theorem update_decode_crashes fuel h data :
  (forall pkt, len pkt < 2 -> BGPUpdate_Decode fuel h pkt data = Panic) /\
  (26 <= h_Length h -> BGPUpdate_Decode fuel h [0; 0; 0; 3; 128; 14; 0] data = Panic).
Proof.
  split.
  - intros pkt Hp. unfold BGPUpdate_Decode, uint16_at.
    destruct pkt as [|x [|y pkt]]; [done | done |]. autorewrite with go_len in Hp. pose proof (len_nonneg pkt). lia.
  - intros Hh. unfold BGPUpdate_Decode, BGPHeader_Len.
    change (uint16_at [0; 0; 0; 3; 128; 14; 0] 0) with (Ok 0). cbn [exec_bind]. rewrite (proj2 (Z.ltb_ge _ _)) by lia.
    change (slice_from [0; 0; 0; 3; 128; 14; 0] 2) with (Ok [0; 3; 128; 14; 0]). cbn [exec_bind].
    change (decodeNLRI [0; 3; 128; 14; 0] 0 AfiIP data) with (@Ok (result (Z * list NLRI)) (Val (0, []))).
    cbn [exec_bind result_bind]. change (slice [0; 0; 0; 3; 128; 14; 0] (2 + 0) (2 + 0 + 2)) with (Ok [0; 3]).
    cbn [exec_bind]. change (uint16_at [0; 3] 0) with (Ok 3). cbn [exec_bind]. rewrite (proj2 (Z.ltb_ge _ _)) by lia. done.
Qed.

(** ** Examples *)

Definition demo_peer (size : Z) : BGPPeerAttrs := mkPeerAttrs size false.

Definition demo_route : NLRI := NLRIPrefix (mkIPPrefix 20 [10; 1; 16; 0]).

Definition demo_seg (as4 : bool) : BGPASPathSegment :=
  if as4 then BGPAS4PathSegment (mkSegBase BGPASPathSegmentSequence 2 10) [65001; 70000]
  else BGPAS2PathSegment (mkSegBase BGPASPathSegmentSequence 2 6) [65001; 65002].

Definition demo_attrs (as4 : bool) : list BGPPathAttr :=
  [BGPPathAttrOrigin (mkAttrBase 64 1 1 3) 0;
   BGPPathAttrASPath (mkAttrBase 80 2 (if as4 then 10 else 6) 4) [demo_seg as4] (as_width as4);
   BGPPathAttrNextHop (mkAttrBase 64 3 4 3) [10; 0; 0; 1];
   BGPPathAttrMPUnreachNLRI (mkAttrBase 128 15 8 3) AfiIP6 1 [NLRIPrefix (mkIPPrefix 32 (32 :: 1 :: 13 :: 184 :: make 12))]].

Definition demo_update (as4 : bool) : BGPUpdate :=
  mkUpdate 4 [demo_route] (if as4 then 36 else 32) (demo_attrs as4) [demo_route].

Lemma demo_route_wf : wf_nlri false AfiIP demo_route.
Proof.
  split; [|done]. split; [by left | done | done | done |]. intros b _ Hb. cbn in Hb. by injection Hb as <-.
Qed.

Lemma demo_seg_wf as4 : wf_seg as4 (demo_seg as4).
Proof. by destruct as4; split; try done; constructor; [done | constructor; [done | constructor] | done | constructor; [done | constructor]]. Qed.

Lemma demo_attrs_wf as4 : Forall (wf_attr (demo_peer (as_width as4))) (demo_attrs as4).
Proof.
  constructor; [|constructor; [|constructor; [|constructor; [|constructor]]]].
  - by split; [split | |].
  - split; [by destruct as4; split | by destruct as4 |]. split; [done|]. split; [done|].
    constructor; [|constructor]. destruct as4; [apply (demo_seg_wf true) | apply (demo_seg_wf false)].
  - by split; [split | |].
  - split; [by split | done |]. split; [done|]. split; [by right|]. constructor; [|constructor].
    split; [|done]. split; [by right | done | done | done |]. done.
Qed.

Lemma demo_update_wf as4 : wf_update (demo_peer (as_width as4)) (demo_update as4).
Proof.
  split; [| apply demo_attrs_wf | | done | by destruct as4 | by destruct as4];
    (constructor; [apply demo_route_wf | constructor]).
Qed.

Lemma update_roundtrip_witness :
  wf_update (demo_peer 2) (demo_update false) /\
  exists pkt, BGPUpdate_Encode (demo_update false) = Ok (Some pkt) /\
    BGPUpdate_Decode 4096 (mkHeader (BGPMsgHeaderLen + len pkt) BGPMsgTypeUpdate) pkt (demo_peer 2) = val (demo_update false).
Proof.
  split; [exact (demo_update_wf false)|]. apply (update_roundtrip (demo_peer 2) (demo_update false) 4096);
    [exact (demo_update_wf false) | apply le_n].
Defined.

Lemma demo_body_wf : wf_body (demo_peer 4) (UpdateBody (demo_update true)).
Proof. split; [exact (demo_update_wf true) | done]. Qed.

Lemma message_roundtrip_witness :
  wf_body (demo_peer 4) (UpdateBody (demo_update true)) /\
  exists hdr body h,
    BGPMessage_Encode (mkMessage (mkHeader 0 BGPMsgTypeUpdate) (Some (UpdateBody (demo_update true)))) = Ok (Some (hdr ++ body)) /\
    len hdr = BGPMsgHeaderLen /\ BGPHeader_Decode hdr = val h /\
    h_Length h = len (hdr ++ body) /\ h_Length h <= BGPMsgMaxLen /\ h_Type h = BGPMsgTypeUpdate /\
    BGPMessage_Decode 4096 h body (demo_peer 4) = val (mkMessage h (Some (UpdateBody (demo_update true)))).
Proof.
  split; [exact demo_body_wf|]. apply (message_roundtrip (demo_peer 4) (UpdateBody (demo_update true)) 4096);
    [exact demo_body_wf | apply le_n].
Defined.

Lemma as_loop_check_crashes_witness :
  path_numbers (demo_attrs false) = [65001; 65002] /\
  exists pkt h u', BGPUpdate_Encode (demo_update false) = Ok (Some pkt) /\
    BGPMessage_Decode 4096 h pkt (demo_peer 2) = val (mkMessage h (Some (UpdateBody u'))) /\
    path_numbers (PathAttributes u') = [65001; 65002] /\
    HasASLoop (PathAttributes u') 65000 = Panic.
Proof.
  split; [reflexivity|]. apply (as_loop_check_crashes (demo_peer 2) (demo_update false) 4096 65000);
    [exact (demo_update_wf false) | reflexivity | apply le_n | reflexivity | reflexivity | discriminate].
Defined.

(** An old speaker, 65001, has passed on a path whose numbers it could not
    write. *)
Definition demo_as4 : BGPUpdate :=
  mkUpdate 0 [] 24
    [BGPPathAttrASPath (mkAttrBase 80 2 6 4) [BGPAS2PathSegment (mkSegBase 2 2 6) [65001; BGPASTrans]] 2;
     BGPPathAttrAS4Path (mkAttrBase 208 17 6 4) [BGPAS4PathSegment (mkSegBase 2 1 6) [70000]]] [].

Lemma as4_path_drops_ases_witness :
  path_numbers (PathAttributes demo_as4) = [65001; BGPASTrans] /\
  exists u', NormalizeASPath demo_as4 = Ok u' /\ path_numbers (PathAttributes u') = [70000].
Proof.
  split; [reflexivity|].
  apply (as4_path_drops_ases demo_as4 [] (mkAttrBase 80 2 6 4) (BGPAS2PathSegment (mkSegBase 2 2 6) [65001; BGPASTrans]) [] []
           (mkAttrBase 208 17 6 4) [BGPAS4PathSegment (mkSegBase 2 1 6) [70000]] []);
    [reflexivity | constructor | reflexivity | reflexivity | | discriminate | discriminate].
  constructor; [|constructor]. split; [reflexivity | reflexivity | reflexivity | reflexivity | reflexivity |].
  constructor; [done | constructor; [done | constructor]].
Defined.

Lemma update_decode_never_ends_witness :
  len (replicate 127 65001) = 127 /\
  BGPUpdate_Decode 1000 (mkHeader 283 BGPMsgTypeUpdate)
    (PutUint16 0 ++ PutUint16 260 ++ attr_head wrapped_base ++ wrapped 2 (replicate 127 65001)) (demo_peer 2) = Hang.
Proof.
  split; [reflexivity|]. apply (update_decode_never_ends 2 (replicate 127 65001) (demo_peer 2) 1000 283);
    [reflexivity | apply Forall_replicate; done | reflexivity | done].
Defined.

Lemma update_decode_crashes_witness :
  BGPUpdate_Decode 0 (mkHeader 26 BGPMsgTypeUpdate) [0] (demo_peer 4) = Panic.
Proof.
  destruct (update_decode_crashes 0 (mkHeader 26 BGPMsgTypeUpdate) (demo_peer 4)) as [H _]. by apply H.
Defined.
