(* ===== verification/BgpSplit.v ===== *)
(** * Splitting an UPDATE into packets

    [ConstructMaxSizedUpdatePackets] of [l3/bgp/packet/helpers.go]: the routes
    of an UPDATE are spread over messages of at most 4096 octets.  A chunk
    [routes[startIdx:lastIdx]] is the list of the routes that have been passed
    and not yet sent.  The function removes the multiprotocol attributes from
    the message it is given; the list of attributes it works on is threaded
    through, and is [s_own] once the announced routes are passed: an attribute
    that is appended to that slice is written into its array while there is
    room behind it, which is what [room] counts. *)

From S2P Require Import Prelude BgpWire BgpOpen BgpAttr BgpUpdate.

Record split := mkSplit {
  s_msgs : list BGPMessage;
  s_pktLen : Z;
  s_withdrawn : list NLRI;
  s_attrs : list BGPPathAttr;
  s_own : list BGPPathAttr;
  s_mpFound : bool
}.
#[export] Instance split_settable : Settable split :=
  fun s => mkSplit (s_msgs s) (s_pktLen s) (s_withdrawn s) (s_attrs s) (s_own s) (s_mpFound s).

(** [addPathAttrToPathAttrs]. *)
Definition addPathAttrToPathAttrs (attrs : list BGPPathAttr) (attr : BGPPathAttr) : list BGPPathAttr :=
  AddPathAttrToPathAttrsByCode attrs (GetCode attr) attr.

Definition AddMPReachNLRIToPathAttrs (attrs : list BGPPathAttr) (mpReach : BGPPathAttr) : list BGPPathAttr :=
  AddPathAttrToPathAttrsByCode attrs BGPPathAttrTypeMPReachNLRI mpReach.

Definition HasMPAttrs (attrs : list BGPPathAttr) : bool :=
  existsb (fun pa => (GetCode pa =? BGPPathAttrTypeMPReachNLRI) || (GetCode pa =? BGPPathAttrTypeMPUnreachNLRI)) attrs.

(** [NewBGPPathAttrMPUnreachNLRI] and [AddNLRIList]: the length counts each
    prefix. *)
Definition add_lengths (start : Z) (nlri : list NLRI) : Z :=
  fold_left (fun n r => u16 (n + u16 (NLRI_Len r))) nlri start.

Definition ConstructMPUnreachNLRI (afi safi : Z) (nlri : list NLRI) : BGPPathAttr :=
  BGPPathAttrMPUnreachNLRI (mkAttrBase 144 BGPPathAttrTypeMPUnreachNLRI (add_lengths 3 nlri) 4) afi safi nlri.

Definition CloneMPReachNLRIWithNewNLRI (afi safi : Z) (nextHop : MPNextHop) (nlri : list NLRI) : BGPPathAttr :=
  BGPPathAttrMPReachNLRI (mkAttrBase 144 BGPPathAttrTypeMPReachNLRI (add_lengths (4 + MPNextHop_Len nextHop) nlri) 4)
    afi safi nextHop 0 nlri.

Definition total_len (attrs : list BGPPathAttr) : Z := fold_left (fun n pa => u32 (n + PathAttr_TotalLen pa)) attrs 0.

(** The loop over routes: one that does not fit ends the chunk.  [emit] makes
    the message; it is told whether the index is zero. *)
Fixpoint split_loop (extra : Z) (emit : bool -> list NLRI -> split -> split)
  (routes pending : list NLRI) (first : bool) (s : split) : list NLRI * split :=
  match routes with
  | [] => (pending, s)
  | r :: routes =>
      let '(pending, s) :=
        if BGPMsgMaxLen <? u32 (NLRI_Len r + s_pktLen s + extra)
        then ([], (emit first pending s) <| s_pktLen := BGPUpdateMsgMinLen |>)
        else (pending, s) in
      split_loop extra emit routes (pending ++ [r]) false (s <| s_pktLen := u32 (s_pktLen s + NLRI_Len r) |>)
  end.

Definition send (s : split) (withdrawn : list NLRI) (attrs : list BGPPathAttr) (nlri : list NLRI) : split :=
  s <| s_msgs := s_msgs s ++ [NewBGPUpdateMessage withdrawn attrs nlri] |>.

Definition emit_withdrawn (first : bool) (pending : list NLRI) (s : split) : split := send s pending [] [].

Definition emit_unreach (afi safi : Z) (first : bool) (pending : list NLRI) (s : split) : split :=
  send s (s_withdrawn s) (if first then [] else [ConstructMPUnreachNLRI afi safi pending]) [] <| s_withdrawn := [] |>.

Definition emit_reach (afi safi : Z) (nextHop : MPNextHop) (otherPAs : list BGPPathAttr)
  (first : bool) (pending : list NLRI) (s : split) : split :=
  let pa := if first then []
            else AddMPReachNLRIToPathAttrs otherPAs (CloneMPReachNLRIWithNewNLRI afi safi nextHop pending) in
  send s (s_withdrawn s) (fold_left addPathAttrToPathAttrs (s_attrs s) pa) [] <| s_attrs := [] |> <| s_withdrawn := [] |>.

(** What a slice shows after attributes have been added to a copy of it: the
    first ones have gone into the array that both share. *)
Definition overwritten (room : nat) (attrs added : list BGPPathAttr) : list BGPPathAttr :=
  take (length attrs) (fold_left addPathAttrToPathAttrs (take room added) attrs).

Definition emit_nlri (room : nat) (first : bool) (pending : list NLRI) (s : split) : split :=
  send s (s_withdrawn s) (fold_left addPathAttrToPathAttrs (s_attrs s) (s_own s)) pending
    <| s_own := overwritten room (s_own s) (s_attrs s) |> <| s_attrs := [] |> <| s_withdrawn := [] |> <| s_mpFound := false |>.

(** The withdrawn prefixes of other families.  When the attribute alone fits,
    the loop is skipped and its prefixes are not put into any message. *)
Definition split_unreach (attrs : list BGPPathAttr) (mpUnreach : option BGPPathAttr) (s : split)
  : list BGPPathAttr * split :=
  match mpUnreach with
  | Some (BGPPathAttrMPUnreachNLRI base afi safi nlri as pa) =>
      let attrs := removeTypeFromPathAttrs BGPPathAttrTypeMPUnreachNLRI attrs in
      let baseLen := BGPPathAttrLen base + 3 in
      let '(pending, s) :=
        if (0 <? len nlri) && (BGPMsgMaxLen <? u32 (s_pktLen s + PathAttr_TotalLen pa))
        then split_loop baseLen (emit_unreach afi safi) nlri [] true s
        else ([], s) in
      match pending with
      | [] => (attrs, s)
      | _ :: _ => (attrs, s <| s_attrs := s_attrs s ++ [ConstructMPUnreachNLRI afi safi pending] |>
                            <| s_pktLen := u32 (s_pktLen s + baseLen) |>)
      end
  | _ => (attrs, s)
  end.

Definition split_reach (attrs : list BGPPathAttr) (mpReach : option BGPPathAttr) (s : split)
  : list BGPPathAttr * split :=
  match mpReach with
  | Some (BGPPathAttrMPReachNLRI base afi safi nextHop _ nlri as pa) =>
      let attrs := removeTypeFromPathAttrs BGPPathAttrTypeMPReachNLRI attrs in
      let otherPAsLen := total_len attrs in
      let baseLen := u32 (BGPPathAttrLen base + 4 + MPNextHop_Len nextHop + otherPAsLen) in
      let '(pending, s) :=
        if (0 <? len nlri) && (BGPMsgMaxLen <? u32 (s_pktLen s + otherPAsLen + PathAttr_TotalLen pa))
        then split_loop baseLen (emit_reach afi safi nextHop attrs) nlri [] true s
        else ([], s) in
      match pending with
      | [] => (attrs, s)
      | _ :: _ =>
          (attrs, s <| s_attrs := AddMPReachNLRIToPathAttrs (s_attrs s) (CloneMPReachNLRIWithNewNLRI afi safi nextHop pending) |>
                    <| s_pktLen := u32 (s_pktLen s + BGPPathAttrLen base + 4 + MPNextHop_Len nextHop) |>)
      end
  | _ => (attrs, s)
  end.

(** [GetMPAttrs]: an attribute with one of the two codes and another
    structure fails the type assertion. *)
Definition GetMPAttrs (attrs : list BGPPathAttr) : exec (option BGPPathAttr * option BGPPathAttr) :=
  let reach := getTypeFromPathAttrs attrs BGPPathAttrTypeMPReachNLRI in
  let unreach := getTypeFromPathAttrs attrs BGPPathAttrTypeMPUnreachNLRI in
  match reach with
  | None | Some (BGPPathAttrMPReachNLRI _ _ _ _ _ _) =>
      match unreach with
      | None | Some (BGPPathAttrMPUnreachNLRI _ _ _ _) => Ok (reach, unreach)
      | Some _ => Panic
      end
  | Some _ => Panic
  end.

Definition ConstructMaxSizedUpdatePackets (room : nat) (updateMsg : BGPUpdate) : exec (list BGPMessage) :=
  let '(withdrawn, s) :=
    split_loop 0 emit_withdrawn (WithdrawnRoutes updateMsg) [] true (mkSplit [] BGPUpdateMsgMinLen [] [] [] false) in
  let s := s <| s_withdrawn := withdrawn |> in
  let attrs := PathAttributes updateMsg in
  let! (attrs, s) :=
    (if BGPMsgMaxLen <? u32 (s_pktLen s + total_len attrs) then
       let! (mpReach, mpUnreach) := GetMPAttrs attrs in
       let '(attrs, s) := split_unreach attrs mpUnreach s in
       Ok (split_reach attrs mpReach s)
     else Ok (attrs, s)) in
  let paLen := total_len attrs in
  let s :=
    if BGPMsgMaxLen <? u32 (s_pktLen s + paLen) then
      let otherPAs := match getTypeFromPathAttrs (s_attrs s) BGPPathAttrTypeMPReachNLRI with Some _ => attrs | None => [] end in
      send s (s_withdrawn s) (fold_left addPathAttrToPathAttrs (s_attrs s) otherPAs) []
        <| s_attrs := [] |> <| s_withdrawn := [] |> <| s_pktLen := BGPUpdateMsgMinLen |>
    else s in
  let '(pending, s) := split_loop paLen (emit_nlri (room + (length (PathAttributes updateMsg) - length attrs))) (u_NLRI updateMsg) [] true
                         (s <| s_mpFound := HasMPAttrs attrs |> <| s_own := attrs |>) in
  match s_withdrawn s, pending, s_attrs s, s_mpFound s with
  | [], [], [], false => Ok (s_msgs s)
  | _, _, _, _ =>
      Ok (s_msgs (send s (s_withdrawn s) (fold_left addPathAttrToPathAttrs (s_attrs s) (s_own s)) pending))
  end.
