(* ===== verification/BgpSplitProofs.v ===== *)
(** * Splitting an UPDATE into packets: nothing lost, nothing too long *)

From S2P Require Import Prelude BgpWire BgpOpen BgpAttr BgpAttrProofs BgpUpdate BgpUpdateProofs BgpSplit.

(** A property of the routes passed, the chunk and the state that holds after
    each turn. *)
Lemma split_loop_inv (P : list NLRI -> list NLRI -> split -> Prop) extra emit routes done pending first s :
  P done pending s ->
  (forall done pending first s r, r ∈ routes -> P done pending s ->
     let '(pending', s') :=
       if BGPMsgMaxLen <? u32 (NLRI_Len r + s_pktLen s + extra)
       then ([], (emit first pending s) <| s_pktLen := BGPUpdateMsgMinLen |>) else (pending, s) in
     P (done ++ [r]) (pending' ++ [r]) (s' <| s_pktLen := u32 (s_pktLen s' + NLRI_Len r) |>)) ->
  let '(pending', s') := split_loop extra emit routes pending first s in P (done ++ routes) pending' s'.
Proof.
  revert done pending first s. induction routes as [|r routes IH]; intros done pending first s HP Hstep; cbn [split_loop].
  { by rewrite app_nil_r. }
  pose proof (Hstep done pending first s r) as Hr. specialize (Hr ltac:(left) HP). rewrite (cons_middle r), app_assoc.
  destruct (if BGPMsgMaxLen <? _ then _ else _) as [pending' s']. apply IH; [done|].
  intros d p f t r' Hin. apply Hstep. by right.
Qed.

Definition update_message (u : BGPUpdate) : BGPMessage := mkMessage (mkHeader 0 BGPMsgTypeUpdate) (Some (UpdateBody u)).

Definition chunk (withdrawn : list NLRI) (attrs : list BGPPathAttr) (nlri : list NLRI) : BGPUpdate :=
  mkUpdate 0 withdrawn 0 attrs nlri.

Definition update_size (u : BGPUpdate) : Z :=
  BGPUpdateMsgMinLen + len (nlris_wire (WithdrawnRoutes u)) + len (attrs_wire (PathAttributes u)) + len (nlris_wire (u_NLRI u)).

Lemma update_wire_size u : BGPMsgHeaderLen + len (update_wire u) = update_size u.
Proof. unfold update_wire, update_size, BGPMsgHeaderLen, BGPUpdateMsgMinLen. rewrite !len_app, !len_PutUint16. lia. Qed.

Lemma nlris_app l1 l2 : nlris_wire (l1 ++ l2) = nlris_wire l1 ++ nlris_wire l2.
Proof. unfold nlris_wire. by rewrite map_app, concat_app. Qed.

Lemma len_nlris_snoc l r : len (nlris_wire (l ++ [r])) = len (nlris_wire l) + len (nlri_wire r).
Proof. rewrite nlris_app, len_app. unfold nlris_wire at 2. cbn [map concat]. by rewrite app_nil_r. Qed.

Lemma total_len_from data attrs n :
  Forall (wf_attr data) attrs -> 0 <= n -> n + len (attrs_wire attrs) < 2 ^ 32 ->
  fold_left (fun n pa => u32 (n + PathAttr_TotalLen pa)) attrs n = n + len (attrs_wire attrs).
Proof.
  intros Ha. revert n. induction Ha as [|pa l Hpa _ IH]; intros n Hn Hb; cbn [fold_left].
  - change (len (attrs_wire [])) with 0. lia.
  - rewrite attrs_cons, len_app in *. destruct (attr_total data pa Hpa) as [-> Hl]. pose proof (len_nonneg (attrs_wire l)).
    rewrite u32_small by (unfold is_u32; lia). rewrite IH by lia. lia.
Qed.

Lemma total_len_spec data attrs :
  Forall (wf_attr data) attrs -> len (attrs_wire attrs) < 2 ^ 32 -> total_len attrs = len (attrs_wire attrs).
Proof. intros Ha Hb. unfold total_len. by rewrite (total_len_from data) by (done || lia). Qed.

Section Split.
Context (data : BGPPeerAttrs) (room : nat) (u : BGPUpdate).
Hypothesis Hw : Forall (wf_nlri (AddPathsRxActual data) AfiIP) (WithdrawnRoutes u).
Hypothesis Hn : Forall (wf_nlri (AddPathsRxActual data) AfiIP) (u_NLRI u).
Hypothesis Ha : Forall (wf_attr data) (PathAttributes u).
Hypothesis Hmp : HasMPAttrs (PathAttributes u) = false.
Hypothesis Hfit : BGPUpdateMsgMinLen + len (attrs_wire (PathAttributes u)) + 21 <= BGPMsgMaxLen.

Notation paLen := (len (attrs_wire (PathAttributes u))).

(** A message of the result: it has the attributes when it has routes. *)
Definition good (x : BGPUpdate) : Prop :=
  update_size x <= BGPMsgMaxLen /\ Forall (wf_nlri (AddPathsRxActual data) AfiIP) (WithdrawnRoutes x ++ u_NLRI x) /\
  (PathAttributes x = PathAttributes u \/ (PathAttributes x = [] /\ u_NLRI x = [])).

Lemma total_len_value : total_len (PathAttributes u) = paLen.
Proof using Ha Hfit.
  apply (total_len_spec data); [done|]. unfold BGPUpdateMsgMinLen, BGPMsgMaxLen in Hfit. lia.
Qed.

Definition routes_of (us : list BGPUpdate) : list NLRI := concat (map WithdrawnRoutes us).
Definition nlri_of (us : list BGPUpdate) : list NLRI := concat (map u_NLRI us).

Lemma routes_of_snoc us x : routes_of (us ++ [x]) = routes_of us ++ WithdrawnRoutes x.
Proof using. clear. unfold routes_of. rewrite map_app, concat_app. cbn. by rewrite app_nil_r. Qed.
Lemma nlri_of_snoc us x : nlri_of (us ++ [x]) = nlri_of us ++ u_NLRI x.
Proof using. clear. unfold nlri_of. rewrite map_app, concat_app. cbn. by rewrite app_nil_r. Qed.

(** While the withdrawn routes are passed. *)
Definition inv_withdrawn (done pending : list NLRI) (s : split) : Prop :=
  s_withdrawn s = [] /\ s_attrs s = [] /\
  s_pktLen s = BGPUpdateMsgMinLen + len (nlris_wire pending) /\ s_pktLen s <= BGPMsgMaxLen /\
  Forall (wf_nlri (AddPathsRxActual data) AfiIP) pending /\
  exists us, s_msgs s = map update_message us /\ routes_of us ++ pending = done /\ nlri_of us = [] /\ Forall good us.

Lemma withdrawn_step done pending first s r :
  r ∈ WithdrawnRoutes u -> inv_withdrawn done pending s ->
  let '(pending', s') :=
    if BGPMsgMaxLen <? u32 (NLRI_Len r + s_pktLen s + 0)
    then ([], (emit_withdrawn first pending s) <| s_pktLen := BGPUpdateMsgMinLen |>) else (pending, s) in
  inv_withdrawn (done ++ [r]) (pending' ++ [r]) (s' <| s_pktLen := u32 (s_pktLen s' + NLRI_Len r) |>).
Proof using Hw.
  intros Hin (Ew & Ea & El & Hl & Hwf & us & Em & Er & En & Hg).
  rewrite list.Forall_forall in Hw. apply Hw in Hin. destruct (nlri_len _ _ r Hin) as [-> Hr].
  pose proof (len_nonneg (nlris_wire pending)). unfold BGPUpdateMsgMinLen, BGPMsgMaxLen in *.
  rewrite Z.add_0_r, u32_small by (unfold is_u32; lia). destruct (Z.ltb_spec 4096 (len (nlri_wire r) + s_pktLen s)) as [H1|H1].
  - unfold inv_withdrawn, emit_withdrawn, send. simpl_get. split; [done|]. split; [done|]. unfold BGPUpdateMsgMinLen, BGPMsgMaxLen.
    rewrite len_nlris_snoc. change (len (nlris_wire [])) with 0. rewrite u32_small by (unfold is_u32; lia).
    split; [lia|]. split; [lia|]. split; [by apply Forall_singleton|].
    exists (us ++ [chunk pending [] []]). rewrite map_app, <- Em, routes_of_snoc, nlri_of_snoc. split; [done|]. cbn [chunk WithdrawnRoutes u_NLRI app].
    split; [by rewrite Er|]. split; [by rewrite En|]. apply Forall_app. split; [done|]. apply Forall_singleton.
    split; [|split; [by rewrite app_nil_r | by right]]. unfold update_size, chunk. cbn [WithdrawnRoutes PathAttributes u_NLRI].
    change (len (attrs_wire [])) with 0. change (len (nlris_wire [])) with 0. unfold BGPUpdateMsgMinLen, BGPMsgMaxLen. lia.
  - unfold inv_withdrawn. simpl_get. split; [done|]. split; [done|]. unfold BGPUpdateMsgMinLen, BGPMsgMaxLen.
    rewrite len_nlris_snoc, u32_small by (unfold is_u32; lia). split; [lia|]. split; [lia|].
    split; [apply Forall_app; split; [done | by apply Forall_singleton]|].
    exists us. split; [done|]. split; [by rewrite app_assoc, Er | done].
Qed.

(** While the announced routes are passed; [W] is what the messages withdraw
    altogether. *)
Definition inv_nlri (W : list NLRI) (done pending : list NLRI) (s : split) : Prop :=
  (s_attrs s = [] /\ s_own s = PathAttributes u) /\ s_mpFound s = false /\
  s_pktLen s = BGPUpdateMsgMinLen + len (nlris_wire (s_withdrawn s)) + len (nlris_wire pending) /\
  s_pktLen s + paLen <= BGPMsgMaxLen /\
  Forall (wf_nlri (AddPathsRxActual data) AfiIP) (s_withdrawn s ++ pending) /\
  exists us, s_msgs s = map update_message us /\ routes_of us ++ s_withdrawn s = W /\
    nlri_of us ++ pending = done /\ Forall good us.

Lemma overwritten_nil r attrs : overwritten r attrs [] = attrs.
Proof using. clear. unfold overwritten. rewrite take_nil. cbn [fold_left]. by apply take_ge. Qed.

Lemma nlri_step W done pending first s r :
  r ∈ u_NLRI u -> inv_nlri W done pending s ->
  let '(pending', s') :=
    if BGPMsgMaxLen <? u32 (NLRI_Len r + s_pktLen s + paLen)
    then ([], (emit_nlri room first pending s) <| s_pktLen := BGPUpdateMsgMinLen |>) else (pending, s) in
  inv_nlri W (done ++ [r]) (pending' ++ [r]) (s' <| s_pktLen := u32 (s_pktLen s' + NLRI_Len r) |>).
Proof using Hn Hfit.
  intros Hin ([Ea Eo] & Ef & El & Hl & Hwf & us & Em & Er & En & Hg).
  rewrite list.Forall_forall in Hn. apply Hn in Hin. destruct (nlri_len _ _ r Hin) as [-> Hr].
  pose proof (len_nonneg (nlris_wire pending)). pose proof (len_nonneg (nlris_wire (s_withdrawn s))).
  pose proof (len_nonneg (attrs_wire (PathAttributes u))). unfold BGPUpdateMsgMinLen, BGPMsgMaxLen in *.
  rewrite u32_small by (unfold is_u32; lia). destruct (Z.ltb_spec 4096 (len (nlri_wire r) + s_pktLen s + paLen)) as [H2|H2].
  - unfold inv_nlri, emit_nlri, send. simpl_get. rewrite Ea, Eo, overwritten_nil. cbn [fold_left]. split; [done|]. split; [done|].
    unfold BGPUpdateMsgMinLen, BGPMsgMaxLen. rewrite len_nlris_snoc. change (len (nlris_wire [])) with 0.
    rewrite u32_small by (unfold is_u32; lia). split; [lia|]. split; [lia|]. split; [by apply Forall_singleton|].
    exists (us ++ [chunk (s_withdrawn s) (PathAttributes u) pending]).
    rewrite map_app, <- Em, routes_of_snoc, nlri_of_snoc, app_nil_r. split; [done|]. cbn [chunk WithdrawnRoutes u_NLRI].
    split; [done|]. split; [by rewrite En|]. apply Forall_app. split; [done|]. apply Forall_singleton.
    split; [|split; [done | by left]]. unfold update_size, chunk. cbn [WithdrawnRoutes PathAttributes u_NLRI].
    unfold BGPUpdateMsgMinLen, BGPMsgMaxLen. lia.
  - unfold inv_nlri. simpl_get. split; [done|]. split; [done|]. unfold BGPUpdateMsgMinLen, BGPMsgMaxLen.
    rewrite len_nlris_snoc, u32_small by (unfold is_u32; lia). split; [lia|]. split; [lia|].
    split; [rewrite app_assoc; apply Forall_app; split; [done | by apply Forall_singleton]|].
    exists us. split; [done|]. split; [done|]. split; [by rewrite app_assoc, En | done].
Qed.

(** The withdrawn routes go ahead alone when the attributes do not fit behind
    them. *)
Lemma middle_inv s :
  inv_withdrawn (WithdrawnRoutes u) (s_withdrawn s) (s <| s_withdrawn := [] |>) ->
  let s' := if BGPMsgMaxLen <? u32 (s_pktLen s + paLen) then
              send s (s_withdrawn s) [] [] <| s_attrs := [] |> <| s_withdrawn := [] |> <| s_pktLen := BGPUpdateMsgMinLen |>
            else s in
  inv_nlri (WithdrawnRoutes u) [] [] (s' <| s_mpFound := false |> <| s_own := PathAttributes u |>).
Proof using Hfit.
  unfold inv_withdrawn. simpl_get. intros (_ & Ea & El & Hl & Hwf & us & Em & Er & En & Hg).
  pose proof (len_nonneg (nlris_wire (s_withdrawn s))). pose proof (len_nonneg (attrs_wire (PathAttributes u))).
  unfold BGPUpdateMsgMinLen, BGPMsgMaxLen in *. rewrite u32_small by (unfold is_u32; lia).
  destruct (Z.ltb_spec 4096 (s_pktLen s + paLen)) as [H2|H2]; unfold inv_nlri, send; simpl_get;
    unfold BGPUpdateMsgMinLen, BGPMsgMaxLen; change (len (nlris_wire [])) with 0.
  - split; [done|]. split; [done|]. split; [done|]. split; [lia|]. split; [constructor|].
    exists (us ++ [chunk (s_withdrawn s) [] []]). rewrite map_app, <- Em, routes_of_snoc, nlri_of_snoc. split; [done|].
    cbn [chunk WithdrawnRoutes u_NLRI]. rewrite !app_nil_r. split; [done|]. split; [done|].
    apply Forall_app. split; [done|]. apply Forall_singleton. split; [|split; [by rewrite app_nil_r | by right]].
    unfold update_size. cbn [chunk WithdrawnRoutes PathAttributes u_NLRI]. unfold BGPUpdateMsgMinLen, BGPMsgMaxLen.
    change (len (attrs_wire [])) with 0. change (len (nlris_wire [])) with 0. lia.
  - split; [done|]. split; [done|]. split; [lia|]. split; [lia|]. split; [by rewrite app_nil_r|].
    exists us. rewrite app_nil_r. done.
Qed.

Lemma good_chunk s pending W done :
  inv_nlri W done pending s -> good (chunk (s_withdrawn s) (PathAttributes u) pending).
Proof using.
  intros (_ & _ & El & Hl & Hwf & _). split; [|split; [done | by left]].
  unfold update_size. cbn [chunk WithdrawnRoutes PathAttributes u_NLRI]. lia.
Qed.

Lemma no_mp code : code = BGPPathAttrTypeMPReachNLRI \/ code = BGPPathAttrTypeMPUnreachNLRI ->
  getTypeFromPathAttrs (PathAttributes u) code = None.
Proof using Hmp.
  intros Hc. clear - Hmp Hc. induction (PathAttributes u) as [|pa l IH]; [done|]. cbn in Hmp |- *.
  apply orb_false_iff in Hmp as [[H1 H2]%orb_false_iff H3]. destruct Hc as [-> | ->]; [rewrite H1 | rewrite H2]; auto.
Qed.

Lemma split_spec :
  exists us, ConstructMaxSizedUpdatePackets room u = Ok (map update_message us) /\
    routes_of us = WithdrawnRoutes u /\ nlri_of us = u_NLRI u /\ Forall good us.
Proof using Hw Hn Ha Hmp Hfit.
  unfold ConstructMaxSizedUpdatePackets.
  pose proof (split_loop_inv inv_withdrawn 0 emit_withdrawn (WithdrawnRoutes u) [] [] true
    (mkSplit [] BGPUpdateMsgMinLen [] [] [] false)) as H1.
  destruct (split_loop _ _ _ _ _ _) as [withdrawn s1]. ospecialize (H1 _ _).
  { do 4 (split; [done|]). split; [constructor|]. by exists []. }
  { intros d p f s r Hin Hi. by apply withdrawn_step. }
  cbv zeta. set (s2 := s1 <| s_withdrawn := withdrawn |>).
  assert (Hi : inv_withdrawn (WithdrawnRoutes u) (s_withdrawn s2) (s2 <| s_withdrawn := [] |>)).
  { destruct H1 as (Ew & H1). split; [done|]. exact H1. }
  unfold GetMPAttrs. rewrite (no_mp BGPPathAttrTypeMPReachNLRI), (no_mp BGPPathAttrTypeMPUnreachNLRI) by tauto.
  cbn [exec_bind split_unreach split_reach]. rewrite total_len_value.
  assert (Emp : (if BGPMsgMaxLen <? u32 (s_pktLen s2 + paLen) then Ok (PathAttributes u, s2) else Ok (PathAttributes u, s2)) =
                Ok (PathAttributes u, s2)) by (by destruct (_ <? _)).
  rewrite Emp. cbn [exec_bind]. rewrite total_len_value, Hmp, Nat.sub_diag, Nat.add_0_r.
  assert (Eattrs : s_attrs s2 = []) by (by destruct Hi as (_ & E & _)). rewrite Eattrs. cbn [getTypeFromPathAttrs fold_left].
  pose proof (middle_inv s2 Hi) as Hm. cbv zeta in Hm.
  pose proof (split_loop_inv (inv_nlri (WithdrawnRoutes u)) paLen (emit_nlri room) (u_NLRI u) [] [] true
    _ Hm) as H3.
  destruct (split_loop _ _ _ _ _ _) as [pending s4]. ospecialize (H3 _).
  { intros d p f s r Hin Hi'. by apply nlri_step. }
  pose proof (good_chunk _ _ _ _ H3) as Hg. destruct H3 as ([Ea Eo] & Ef & _ & _ & _ & us & Em & Er & En & Hgs). rewrite Ea, Ef, Eo.
  assert (Hlast : exists us', Ok (s_msgs (send s4 (s_withdrawn s4) (PathAttributes u) pending)) = Ok (map update_message us') /\
    routes_of us' = WithdrawnRoutes u /\ nlri_of us' = u_NLRI u /\ Forall good us').
  { exists (us ++ [chunk (s_withdrawn s4) (PathAttributes u) pending]). unfold send. simpl_get.
    rewrite map_app, <- Em, routes_of_snoc, nlri_of_snoc. split; [done|]. split; [done|]. split; [done|].
    apply Forall_app. split; [done | by apply Forall_singleton]. }
  cbn [fold_left]. destruct (s_withdrawn s4) eqn:E4; [|exact Hlast]. destruct pending; [|exact Hlast].
  exists us. rewrite app_nil_r in Er, En. by rewrite Em.
Qed.
End Split.

Lemma good_encode data u x :
  Forall (wf_attr data) (PathAttributes u) -> good data u x ->
  exists pkt, BGPMessage_Encode (update_message x) = Ok (Some pkt) /\ len pkt <= BGPMsgMaxLen.
Proof.
  intros Ha (Hs & [Hw Hn]%Forall_app & Hattrs). rewrite <- update_wire_size in Hs.
  assert (Hx : Forall (wf_attr data) (PathAttributes x)) by (by destruct Hattrs as [-> | [-> _]]).
  unfold BGPMessage_Encode, update_message. cbn [Body Header BGPBody_Encode h_Length h_Type].
  rewrite (update_encode_parts data) by done. cbn [encode_bind]. rewrite (proj2 (Z.ltb_ge BGPMsgMaxLen _)) by done.
  cbn [Z.eqb andb]. rewrite header_encode. cbn [exec_bind]. eexists. split; [done|]. rewrite len_app.
  exact Hs.
Qed.

(** C11: An UPDATE without multiprotocol attributes, whose attributes leave room
    for a route, is sent in messages that
    together withdraw and announce its routes, in order and each once; a message
    that announces routes has the attributes, and every message encodes to at
    most 4096 octets. *)
Theorem split_update data room u :
  Forall (wf_nlri (AddPathsRxActual data) AfiIP) (WithdrawnRoutes u) ->
  Forall (wf_nlri (AddPathsRxActual data) AfiIP) (u_NLRI u) ->
  Forall (wf_attr data) (PathAttributes u) -> HasMPAttrs (PathAttributes u) = false ->
  BGPUpdateMsgMinLen + len (attrs_wire (PathAttributes u)) + 21 <= BGPMsgMaxLen ->
  exists us, ConstructMaxSizedUpdatePackets room u = Ok (map update_message us) /\
    concat (map WithdrawnRoutes us) = WithdrawnRoutes u /\ concat (map u_NLRI us) = u_NLRI u /\
    Forall (fun x => (u_NLRI x <> [] -> PathAttributes x = PathAttributes u) /\
      exists pkt, BGPMessage_Encode (update_message x) = Ok (Some pkt) /\ len pkt <= BGPMsgMaxLen) us.
Proof.
  intros Hw Hn Ha Hmp Hfit. destruct (split_spec data room u Hw Hn Ha Hmp Hfit) as (us & Eu & Er & En & Hg).
  exists us. split; [done|]. split; [done|]. split; [done|]. clear Eu Er En.
  induction Hg as [|x us Hx _ IH]; constructor; [|exact IH]. split; [|by eapply good_encode].
  destruct Hx as (_ & _ & [-> | [_ ->]]); done.
Qed.

(** ** Multiprotocol routes *)

Lemma type_app attrs l code :
  HasMPAttrs attrs = false -> code = BGPPathAttrTypeMPReachNLRI \/ code = BGPPathAttrTypeMPUnreachNLRI ->
  getTypeFromPathAttrs (attrs ++ l) code = getTypeFromPathAttrs l code.
Proof.
  intros Hmp Hc. induction attrs as [|pa attrs IH]; [done|]. cbn in Hmp |- *.
  apply orb_false_iff in Hmp as [[H1 H2]%orb_false_iff H3]. destruct Hc as [-> | ->]; [rewrite H1 | rewrite H2]; auto.
Qed.

Lemma not_mp attrs code :
  HasMPAttrs attrs = false -> code = BGPPathAttrTypeMPReachNLRI \/ code = BGPPathAttrTypeMPUnreachNLRI ->
  Forall (fun x => (GetCode x =? code) = false) attrs.
Proof.
  intros Hmp Hc. induction attrs as [|pa attrs IH]; constructor; cbn in Hmp;
    apply orb_false_iff in Hmp as [[H1 H2]%orb_false_iff H3]; [by destruct Hc as [-> | ->] | auto].
Qed.

Lemma TotalLen_nonneg pa : 0 <= PathAttr_TotalLen pa.
Proof. unfold PathAttr_TotalLen, BGPPathAttrBase_TotalLen. pose proof (u32_range (a_Length (attr_base pa) + BGPPathAttrLen (attr_base pa))) as H. apply H. Qed.

Lemma total_len_nonneg attrs : 0 <= total_len attrs.
Proof.
  unfold total_len. assert (H : 0 <= 0) by lia. revert H. generalize 0 at 2 4. induction attrs as [|pa attrs IH]; intros n Hn; [done|].
  cbn [fold_left]. apply IH. pose proof (u32_range (n + PathAttr_TotalLen pa)) as Hr. apply Hr.
Qed.

(** ** Splitting looks at the sizes of the attributes only *)

Section MapAttrs.
Context (g : BGPPathAttr -> BGPPathAttr).
Hypothesis Hbase : forall pa, attr_base (g pa) = attr_base pa.

Definition map_attrs (u : BGPUpdate) : BGPUpdate := u <| PathAttributes := map g (PathAttributes u) |>.

Definition map_message (m : BGPMessage) : BGPMessage :=
  match Body m with
  | Some (UpdateBody u) => mkMessage (Header m) (Some (UpdateBody (map_attrs u)))
  | _ => m
  end.

Definition map_split (s : split) : split :=
  mkSplit (map map_message (s_msgs s)) (s_pktLen s) (s_withdrawn s) (map g (s_attrs s)) (map g (s_own s)) (s_mpFound s).

Lemma map_code pa : GetCode (g pa) = GetCode pa.
Proof using Hbase. unfold GetCode. by rewrite Hbase. Qed.

Lemma map_total attrs : total_len (map g attrs) = total_len attrs.
Proof using Hbase.
  unfold total_len. generalize 0. induction attrs as [|pa attrs IH]; intros n; [done|]. cbn [map fold_left].
  rewrite IH. unfold PathAttr_TotalLen. by rewrite Hbase.
Qed.

Lemma map_has_mp attrs : HasMPAttrs (map g attrs) = HasMPAttrs attrs.
Proof using Hbase. unfold HasMPAttrs. induction attrs as [|pa attrs IH]; [done|]. cbn [map existsb]. by rewrite IH, map_code. Qed.

Lemma map_add attrs pa : addPathAttrToPathAttrs (map g attrs) (g pa) = map g (addPathAttrToPathAttrs attrs pa).
Proof using Hbase.
  unfold addPathAttrToPathAttrs, AddPathAttrToPathAttrsByCode. rewrite map_code.
  assert (E : add_index (GetCode pa) (map g attrs) = add_index (GetCode pa) attrs).
  { unfold add_index. rewrite length_map. f_equal. generalize (0%nat, length attrs).
    induction attrs as [|x attrs IH]; intros [i k]; [done|]. cbn [map fold_left]. by rewrite IH, map_code. }
  by rewrite E, map_app, firstn_map, map_cons, skipn_map.
Qed.

Lemma map_adds added attrs :
  fold_left addPathAttrToPathAttrs (map g added) (map g attrs) = map g (fold_left addPathAttrToPathAttrs added attrs).
Proof using Hbase. revert attrs. induction added as [|pa added IH]; intros attrs; [done|]. cbn [map fold_left]. by rewrite map_add, IH. Qed.

Lemma map_send s withdrawn attrs nlri : send (map_split s) withdrawn (map g attrs) nlri = map_split (send s withdrawn attrs nlri).
Proof using. clear. unfold send, map_split. simpl_get. by rewrite map_app. Qed.

Lemma map_loop extra emit routes pending first s :
  (forall first pending s, emit first pending (map_split s) = map_split (emit first pending s)) ->
  split_loop extra emit routes pending first (map_split s) =
  let '(p, s) := split_loop extra emit routes pending first s in (p, map_split s).
Proof using.
  clear. intros He. revert pending first s. induction routes as [|r routes IH]; intros pending first s; [done|]. cbn [split_loop].
  change (s_pktLen (map_split s)) with (s_pktLen s). rewrite He. destruct (BGPMsgMaxLen <? _).
  - by rewrite <- IH.
  - by rewrite <- IH.
Qed.

Lemma map_emit_withdrawn first pending s : emit_withdrawn first pending (map_split s) = map_split (emit_withdrawn first pending s).
Proof using. clear. apply (map_send s pending [] []). Qed.

Lemma map_emit_nlri room first pending s : emit_nlri room first pending (map_split s) = map_split (emit_nlri room first pending s).
Proof using Hbase.
  unfold emit_nlri. change (s_withdrawn (map_split s)) with (s_withdrawn s).
  change (s_attrs (map_split s)) with (map g (s_attrs s)). change (s_own (map_split s)) with (map g (s_own s)).
  rewrite map_adds, map_send. unfold overwritten. by rewrite firstn_map, map_adds, length_map, firstn_map.
Qed.

Lemma map_no_mp attrs : HasMPAttrs attrs = false -> GetMPAttrs attrs = Ok (None, None).
Proof using.
  clear. intros Hmp. unfold GetMPAttrs. pose proof (type_app attrs [] BGPPathAttrTypeMPReachNLRI Hmp) as E1.
  pose proof (type_app attrs [] BGPPathAttrTypeMPUnreachNLRI Hmp) as E2. rewrite app_nil_r in E1, E2.
  by rewrite E1, E2 by tauto.
Qed.

Lemma map_type attrs code : getTypeFromPathAttrs (map g attrs) code = option_map g (getTypeFromPathAttrs attrs code).
Proof using Hbase. induction attrs as [|pa attrs IH]; [done|]. cbn [map getTypeFromPathAttrs]. rewrite map_code. by destruct (_ =? _). Qed.

(** The message that goes ahead of the announced routes. *)
Lemma map_ahead attrs s :
  let ahead attrs s :=
    send s (s_withdrawn s) (fold_left addPathAttrToPathAttrs (s_attrs s)
      match getTypeFromPathAttrs (s_attrs s) BGPPathAttrTypeMPReachNLRI with Some _ => attrs | None => [] end) []
      <| s_attrs := [] |> <| s_withdrawn := [] |> <| s_pktLen := BGPUpdateMsgMinLen |> in
  ahead (map g attrs) (map_split s) = map_split (ahead attrs s).
Proof using Hbase.
  cbv beta zeta. change (s_attrs (map_split s)) with (map g (s_attrs s)). change (s_withdrawn (map_split s)) with (s_withdrawn s).
  rewrite map_type. assert (E : match option_map g (getTypeFromPathAttrs (s_attrs s) BGPPathAttrTypeMPReachNLRI) with
      Some _ => map g attrs | None => [] end =
    map g match getTypeFromPathAttrs (s_attrs s) BGPPathAttrTypeMPReachNLRI with Some _ => attrs | None => [] end).
  { by destruct (getTypeFromPathAttrs _ _). }
  by rewrite E, map_adds, map_send.
Qed.

(** What is left at the end. *)
Lemma map_last s pending :
  let last s :=
    match s_withdrawn s, pending, s_attrs s, s_mpFound s with
    | [], [], [], false => Ok (s_msgs s)
    | _, _, _, _ => Ok (s_msgs (send s (s_withdrawn s) (fold_left addPathAttrToPathAttrs (s_attrs s) (s_own s)) pending))
    end in
  last (map_split s) = let! ms := last s in Ok (map map_message ms).
Proof using Hbase.
  cbv beta zeta. change (s_attrs (map_split s)) with (map g (s_attrs s)). change (s_withdrawn (map_split s)) with (s_withdrawn s).
  change (s_own (map_split s)) with (map g (s_own s)). change (s_mpFound (map_split s)) with (s_mpFound s).
  rewrite map_adds, map_send. by destruct (s_withdrawn s), pending, (s_attrs s), (s_mpFound s).
Qed.

Lemma map_construct room u :
  HasMPAttrs (PathAttributes u) = false ->
  ConstructMaxSizedUpdatePackets room (map_attrs u) =
  let! ms := ConstructMaxSizedUpdatePackets room u in Ok (map map_message ms).
Proof using Hbase.
  intros Hmp. unfold ConstructMaxSizedUpdatePackets, map_attrs. simpl_get. cbn [WithdrawnRoutes PathAttributes u_NLRI].
  change (mkSplit [] BGPUpdateMsgMinLen [] [] [] false) with (map_split (mkSplit [] BGPUpdateMsgMinLen [] [] [] false)) at 1.
  rewrite map_loop by apply map_emit_withdrawn. destruct (split_loop _ _ _ _ _ _) as [withdrawn s].
  set (s2 := s <| s_withdrawn := withdrawn |>). change (map_split s <| s_withdrawn := withdrawn |>) with (map_split s2).
  rewrite map_total, (map_no_mp (map g _)), (map_no_mp (PathAttributes u)) by (rewrite ?map_has_mp; done).
  change (s_pktLen (map_split s2)) with (s_pktLen s2). cbn [exec_bind split_unreach split_reach].
  pose proof (map_ahead (PathAttributes u) s2) as Eahead. cbv beta zeta in Eahead.
  destruct (BGPMsgMaxLen <? u32 (s_pktLen s2 + total_len (PathAttributes u))) eqn:Eb; cbn [exec_bind];
    rewrite map_total, map_has_mp, length_map; change (s_pktLen (map_split s2)) with (s_pktLen s2); rewrite Eb, ?Eahead;
    match goal with |- context [split_loop _ _ _ _ _ ((map_split ?t) <| s_mpFound := ?b |> <| s_own := map g ?o |>)] =>
      change ((map_split t) <| s_mpFound := b |> <| s_own := map g o |>) with (map_split (t <| s_mpFound := b |> <| s_own := o |>)) end;
    rewrite map_loop by apply map_emit_nlri; destruct (split_loop _ _ _ _ _ _) as [pending t];
    exact (map_last t pending).
Qed.
End MapAttrs.

(** An UPDATE whose multiprotocol attributes fit into a message one at a time
    but not together is not sent at all: both attributes are taken out of the
    message, and neither the prefixes that become reachable nor those that become
    unreachable are put into another one. *)
Theorem mp_routes_dropped room u others b1 afi1 safi1 nh res nlri1 b2 afi2 safi2 nlri2 :
  let reach := BGPPathAttrMPReachNLRI b1 afi1 safi1 nh res nlri1 in
  let unreach := BGPPathAttrMPUnreachNLRI b2 afi2 safi2 nlri2 in
  WithdrawnRoutes u = [] -> u_NLRI u = [] -> PathAttributes u = others ++ [reach; unreach] ->
  HasMPAttrs others = false -> Code b1 = BGPPathAttrTypeMPReachNLRI -> Code b2 = BGPPathAttrTypeMPUnreachNLRI ->
  BGPMsgMaxLen < BGPUpdateMsgMinLen + total_len (PathAttributes u) < 2 ^ 32 ->
  BGPUpdateMsgMinLen + PathAttr_TotalLen unreach <= BGPMsgMaxLen ->
  BGPUpdateMsgMinLen + total_len others + PathAttr_TotalLen reach <= BGPMsgMaxLen ->
  ConstructMaxSizedUpdatePackets room u = Ok [].
Proof.
  intros reach unreach Ew En Ea Hmp Hc1 Hc2 Htot Hun Hre.
  pose proof (total_len_nonneg others). pose proof (TotalLen_nonneg reach). pose proof (TotalLen_nonneg unreach).
  unfold ConstructMaxSizedUpdatePackets. rewrite Ew, En. cbn [split_loop]. simpl_get. cbn [s_pktLen].
  unfold BGPMsgMaxLen, BGPUpdateMsgMinLen in *. rewrite u32_small by (unfold is_u32; lia).
  rewrite (proj2 (Z.ltb_lt _ _)) by lia. rewrite Ea.
  assert (Eg : GetMPAttrs (others ++ [reach; unreach]) = Ok (Some reach, Some unreach)).
  { unfold GetMPAttrs. rewrite !type_app by (done || tauto). unfold reach, unreach. cbn [getTypeFromPathAttrs].
    unfold GetCode. cbn [attr_base]. rewrite Hc1, Hc2. done. }
  rewrite Eg. cbn [exec_bind]. unfold split_unreach, unreach at 1. cbn beta iota.
  assert (E1 : removeTypeFromPathAttrs BGPPathAttrTypeMPUnreachNLRI (others ++ [reach; unreach]) = others ++ [reach]).
  { change [reach; unreach] with ([reach] ++ [unreach]). rewrite app_assoc, remove_first; [by rewrite app_nil_r | | exact Hc2].
    apply Forall_app. split; [apply not_mp; [done | by right]|]. apply Forall_singleton. unfold GetCode, reach. cbn [attr_base]. by rewrite Hc1. }
  fold unreach. rewrite E1. unfold BGPMsgMaxLen. simpl_get. cbn [s_pktLen]. rewrite (u32_small (23 + PathAttr_TotalLen unreach)) by (unfold is_u32; lia).
  rewrite (proj2 (Z.ltb_ge _ (23 + PathAttr_TotalLen unreach))) by lia. rewrite andb_false_r.
  unfold split_reach, reach at 1. cbn beta iota. fold reach.
  assert (E2 : removeTypeFromPathAttrs BGPPathAttrTypeMPReachNLRI (others ++ [reach]) = others).
  { rewrite remove_first; [by rewrite app_nil_r | apply not_mp; [done | by left] | exact Hc1]. }
  rewrite E2. simpl_get. cbn [s_pktLen]. unfold BGPMsgMaxLen. rewrite (u32_small (23 + total_len others + PathAttr_TotalLen reach)) by (unfold is_u32; lia).
  rewrite (proj2 (Z.ltb_ge _ (23 + total_len others + PathAttr_TotalLen reach))) by lia. rewrite andb_false_r.
  cbn [exec_bind]. simpl_get. cbn [s_pktLen]. rewrite u32_small by (unfold is_u32; lia). rewrite (proj2 (Z.ltb_ge _ _)) by lia.
  cbn [split_loop]. simpl_get. by rewrite Hmp.
Qed.

(** ** Examples *)

Definition demo_plain_attrs : list BGPPathAttr :=
  [BGPPathAttrOrigin (mkAttrBase 64 1 1 3) 0;
   BGPPathAttrASPath (mkAttrBase 80 2 10 4) [demo_seg true] 4;
   BGPPathAttrNextHop (mkAttrBase 64 3 4 3) [10; 0; 0; 1]].

Definition demo_big : BGPUpdate := mkUpdate 0 (replicate 1100 demo_route) 0 demo_plain_attrs (replicate 1100 demo_route).

Lemma demo_plain_wf : Forall (wf_attr (demo_peer 4)) demo_plain_attrs.
Proof. pose proof (demo_attrs_wf true) as H. by apply (Forall_take _ 3) in H. Qed.

Lemma split_update_witness :
  exists us, ConstructMaxSizedUpdatePackets 0 demo_big = Ok (map update_message us) /\
    concat (map WithdrawnRoutes us) = replicate 1100 demo_route /\ concat (map u_NLRI us) = replicate 1100 demo_route /\
    Forall (fun x => (u_NLRI x <> [] -> PathAttributes x = demo_plain_attrs) /\
      exists pkt, BGPMessage_Encode (update_message x) = Ok (Some pkt) /\ len pkt <= BGPMsgMaxLen) us.
Proof.
  assert (Hr : Forall (wf_nlri false AfiIP) (replicate 1100 demo_route)) by (apply Forall_replicate; exact demo_route_wf).
  apply (split_update (demo_peer 4) 0 demo_big); [exact Hr | exact Hr | exact demo_plain_wf | reflexivity | ].
  vm_compute. discriminate.
Defined.

(** A hundred and thirty prefixes become reachable, as many unreachable. *)
Definition demo_prefixes : list NLRI := replicate 130 (NLRIPrefix (mkIPPrefix 120 (32 :: 1 :: 13 :: 184 :: make 12))).
Definition demo_hop : MPNextHop := MPNextHopIP 16 (32 :: 1 :: 13 :: 184 :: make 12).
Definition demo_mp : BGPUpdate :=
  mkUpdate 0 [] 0 (demo_plain_attrs ++
    [BGPPathAttrMPReachNLRI (mkAttrBase 144 14 2101 4) AfiIP6 1 demo_hop 0 demo_prefixes;
     BGPPathAttrMPUnreachNLRI (mkAttrBase 144 15 2083 4) AfiIP6 1 demo_prefixes]) [].

Lemma mp_routes_dropped_witness : ConstructMaxSizedUpdatePackets 0 demo_mp = Ok [].
Proof.
  apply (mp_routes_dropped 0 demo_mp demo_plain_attrs (mkAttrBase 144 14 2101 4) AfiIP6 1 demo_hop 0 demo_prefixes
           (mkAttrBase 144 15 2083 4) AfiIP6 1 demo_prefixes);
    [reflexivity | reflexivity | reflexivity | reflexivity | reflexivity | reflexivity | | | ];
    vm_compute; try (split; reflexivity); discriminate.
Defined.
