(* ===== verification/BgpFsm.v ===== *)
(** * The BGP finite state machine

    [l3/bgp/fsm/fsm.go]: the six states with their [processEvent], [enter] and
    [leave], the timers, the connection to the peer and the messages that are
    written to it, and the branches of the [select] of [StartFSM].  A timer is
    the time it was started with, or [None] when it is stopped; like the object
    of the code it keeps its time when it fires.  A call of the manager and a
    write to the peer are actions, kept in the order in which they happen; that
    a write of an OPEN, KEEPALIVE or NOTIFICATION fails is only logged by the
    code and is not distinguished here, the result of the write of an UPDATE is
    an argument; what [receivedBGPOpenMessage] of the manager answers is an argument
    of the step.  Left out: logging, and the message counters of the neighbour. *)

From S2P Require Import Prelude BgpWire BgpOpen BgpAttr BgpUpdate BgpSplit.

Inductive BGPFSMEvent :=
| EventNone
| BGPEventManualStart
| BGPEventManualStop
| BGPEventAutoStart
| BGPEventManualStartPassTcpEst
| BGPEventAutoStartPassTcpEst
| BGPEventAutoStartDampPeerOscl
| BGPEventAutoStartDampPeerOsclPassTcpEst
| BGPEventAutoStop
| BGPEventConnRetryTimerExp
| BGPEventHoldTimerExp
| BGPEventKeepAliveTimerExp
| BGPEventDelayOpenTimerExp
| BGPEventIdleHoldTimerExp
| BGPEventTcpConnValid
| BGPEventTcpCrInvalid
| BGPEventTcpCrAcked
| BGPEventTcpConnConfirmed
| BGPEventTcpConnFails
| BGPEventBGPOpen
| BGPEventBGPOpenDelayOpenTimer
| BGPEventHeaderErr
| BGPEventOpenMsgErr
| BGPEventOpenCollisionDump
| BGPEventNotifMsgVerErr
| BGPEventNotifMsg
| BGPEventKeepAliveMsg
| BGPEventUpdateMsg
| BGPEventUpdateMsgErr.

Inductive BaseState :=
| IdleState (passive : bool)
| ConnectState
| ActiveState
| OpenSentState
| OpenConfirmState
| EstablishedState.

(** [config.BGPFSMState]. *)
Definition state (st : BaseState) : Z :=
  match st with
  | IdleState _ => 1
  | ConnectState => 2
  | ActiveState => 3
  | OpenSentState => 4
  | OpenConfirmState => 5
  | EstablishedState => 6
  end.

Inductive ConnDir := ConnDirOut | ConnDirIn.
#[export] Instance ConnDir_eq : EqDecision ConnDir.
Proof. solve_decision. Defined.

Record PeerConn := mkPeerConn { pc_dir : ConnDir; pc_id : Z; pc_attrs : BGPPeerAttrs }.

Inductive action :=
| Write (msg : BGPMessage) (pkt : list Z)
| AcceptPeerConn (accept : bool)
| ConnectToPeer
| StopConn
| StartReading
| StopReading
| ConnEstablished
| ConnBroken
| StateChange (st : Z)
| NewConn (dir : ConnDir)
| TcpConnFail
| BGPPktSrc (msg : BGPMessage).

(** The configuration of the neighbour: [c_BfdDown] is that BFD is used and
    reports the neighbour down, [c_UnknownAddress] that its address is
    255.255.255.255. *)
Record NeighborConf := mkConf {
  c_HoldTime : Z;
  c_KeepaliveTime : Z;
  c_ConnectRetryTime : Z;
  c_LocalAS : Z;
  c_AS : Z;
  c_RouterId : list Z;
  c_AfiSafiMap : list Z;
  c_AddPathsRx : bool;
  c_AddPathsMaxTx : Z;
  c_MaxPrefixesRestartTimer : Z;
  c_BfdDown : bool;
  c_UnknownAddress : bool
}.

Record FSM := mkFSM {
  f_State : BaseState;
  f_peerInternal : bool;
  f_peerConn : option PeerConn;
  f_outTCPConn : bool;
  f_connId : Z;
  f_connectRetryCounter : Z;
  f_connectRetryTime : Z;
  f_connectRetryTimer : option Z;
  f_holdTime : Z;
  f_holdTimer : option Z;
  f_keepAliveTime : Z;
  f_keepAliveTimer : option Z;
  f_restartTime : Z;
  f_restartTimer : option Z;
  f_passiveTcpEst : bool;
  f_dampPeerOscl : bool;
  f_idleHoldTime : Z;
  f_idleHoldTimer : option Z;
  f_afiSafiMap : gset Z;
  f_close : bool;
  f_out : list action
}.
#[export] Instance FSM_settable : Settable FSM :=
  fun s => mkFSM (f_State s) (f_peerInternal s) (f_peerConn s) (f_outTCPConn s) (f_connId s)
    (f_connectRetryCounter s) (f_connectRetryTime s) (f_connectRetryTimer s) (f_holdTime s) (f_holdTimer s)
    (f_keepAliveTime s) (f_keepAliveTimer s) (f_restartTime s) (f_restartTimer s) (f_passiveTcpEst s)
    (f_dampPeerOscl s) (f_idleHoldTime s) (f_idleHoldTimer s) (f_afiSafiMap s) (f_close s) (f_out s).

(** An operation of the machine, and a sequence of them. *)
Definition op := FSM -> exec FSM.

Fixpoint run (ops : list op) : op :=
  match ops with
  | [] => fun s => Ok s
  | o :: ops => fun s => let! s := o s in run ops s
  end.

Definition act (a : action) : op := fun s => Ok (s <| f_out := f_out s ++ [a] |>).

(** ** Timers and counters *)

Definition BGPIdleHoldTimeDefault : Z := 5.
Definition BGPRestartTimeDefault : Z := 1.

(** [IdleHoldTimeInterval]; zero for a key that is not there. *)
Definition IdleHoldTimeInterval (t : Z) : Z :=
  if t =? 5 then 10 else if t =? 10 then 30 else if t =? 60 then 120 else if t =? 120 then 180
  else if t =? 180 then 300 else if t =? 300 then 500 else 0.

Definition StartRestartTimer : op := fun s => Ok (s <| f_restartTimer := Some (f_restartTime s) |>).
Definition ApplyAutomaticStart : op := StartRestartTimer.
Definition SetPassiveTcpEstablishment (flag : bool) : op := fun s => Ok (s <| f_passiveTcpEst := flag |>).
Definition StopConnectRetryTimer : op := fun s => Ok (s <| f_connectRetryTimer := None |>).
Definition StartConnectRetryTimer : op := fun s => Ok (s <| f_connectRetryTimer := Some (f_connectRetryTime s) |>).

Definition SetHoldTime (holdTime keepaliveTime : Z) : op := fun s =>
  if (0 <? holdTime) && (holdTime <? 3) then Ok s
  else Ok (s <| f_holdTime := holdTime |> <| f_keepAliveTime := keepaliveTime |>).

Definition StopHoldTimer : op := fun s => Ok (s <| f_holdTimer := None |>).
Definition StartHoldTimer : op := fun s =>
  Ok (s <| f_holdTimer := if f_holdTime s =? 0 then None else Some (f_holdTime s) |>).
Definition StopKeepAliveTimer : op := fun s => Ok (s <| f_keepAliveTimer := None |>).
Definition StartKeepAliveTimer : op := fun s =>
  Ok (s <| f_keepAliveTimer := if f_keepAliveTime s =? 0 then None else Some (f_keepAliveTime s) |>).
Definition SetConnectRetryCounter (value : Z) : op := fun s => Ok (s <| f_connectRetryCounter := value |>).
Definition IncrConnectRetryCounter : op := fun s => Ok (s <| f_connectRetryCounter := f_connectRetryCounter s + 1 |>).
Definition SetIdleHoldTime (seconds : Z) : op := fun s => Ok (s <| f_idleHoldTime := seconds |>).
Definition StopIdleHoldTimer : op := fun s => Ok (s <| f_idleHoldTimer := None |>).
Definition StartIdleHoldTimer : op := fun s =>
  Ok (s <| f_idleHoldTimer := if (0 <? f_idleHoldTime s) && (f_idleHoldTime s <=? 300) then Some (f_idleHoldTime s) else None |>).

(** ** Messages *)

(** A write to [fsm.peerConn.conn]: without a connection, a nil
    dereference.  An encoding error is ignored and nothing is written. *)
Definition write (msg : BGPMessage) : op := fun s =>
  let! pkt := BGPMessage_Encode msg in
  match f_peerConn s with
  | None => Panic
  | Some _ => act (Write msg (match pkt with Some p => p | None => [] end)) s
  end.

Definition open_message (conf : NeighborConf) (holdTime : Z) : BGPMessage :=
  mkMessage (mkHeader 0 BGPMsgTypeOpen)
    (Some (OpenBody (NewBGPOpenMessage (c_LocalAS conf) (u16 holdTime) (c_RouterId conf)
       (ConstructOptParams (c_LocalAS conf) (c_AfiSafiMap conf) (c_AddPathsRx conf) (c_AddPathsMaxTx conf))))).

Definition sendOpenMessage (conf : NeighborConf) : op := fun s => write (open_message conf (f_holdTime s)) s.

Definition sendKeepAliveMessage : op := run [write NewBGPKeepAliveMessage; StartKeepAliveTimer].

Definition SendNotificationMessage (code subCode : Z) (data : list Z) : op :=
  write (NewBGPNotificationMessage code subCode data).

(** [writes] says which of the writes succeed; the first that fails ends the
    loop.  A message that does not encode is skipped. *)
Fixpoint send_updates (updateMsgs : list BGPMessage) (writes : list bool) : op := fun s =>
  match updateMsgs with
  | [] => Ok s
  | m :: updateMsgs =>
      let! pkt := BGPMessage_Encode m in
      match pkt with
      | None => send_updates updateMsgs writes s
      | Some p =>
          match f_peerConn s with
          | None => Panic
          | Some _ =>
              let ok := match writes with b :: _ => b | [] => true end in
              let! s := act (Write m p) s in
              if ok then run [StartKeepAliveTimer; send_updates updateMsgs (tail writes)] s else Ok s
          end
      end
  end.

Definition sendUpdateMessage (room : nat) (msg : BGPUpdate) (writes : list bool) : op := fun s =>
  let! updateMsgs := ConstructMaxSizedUpdatePackets room msg in
  send_updates updateMsgs writes s.

(** ** The connection *)

(** The two numbers are drawn from a random source. *)
Record PeerConnDir := mkConnDir { cd_dir : ConnDir; cd_draw1 : Z; cd_draw2 : Z }.

Definition NewPeerConn (dir : ConnDir) (id : Z) : PeerConn := mkPeerConn dir id (mkPeerAttrs 2 false).

Definition SetPeerConn (data : PeerConnDir) : op := fun s =>
  match f_peerConn s with
  | Some _ => Ok s
  | None =>
      let connId := if cd_draw1 data =? f_connId s then u32 (f_connId s + 1) else cd_draw2 data in
      act StartReading (s <| f_connId := connId |> <| f_peerConn := Some (NewPeerConn (cd_dir data) connId) |>)
  end.

Definition ClearPeerConn : op := fun s =>
  match f_peerConn s with
  | None => Ok s
  | Some _ =>
      run [StopKeepAliveTimer; StopHoldTimer; fun s => Ok (s <| f_connId := 0 |>); act StopReading;
           fun s => Ok (s <| f_peerConn := None |>)] s
  end.

Definition InitiateConnToPeer (conf : NeighborConf) : op := fun s =>
  if c_UnknownAddress conf then Ok s
  else if f_outTCPConn s then Ok s
  else act ConnectToPeer (s <| f_outTCPConn := true |>).

Definition StopConnToPeer : op := fun s =>
  if f_outTCPConn s then act StopConn (s <| f_outTCPConn := false |>) else Ok s.

Definition HandleAnotherConnection (data : PeerConnDir) : op := act (NewConn (cd_dir data)).

(** ** Reading *)

(** [DecodeMessage] of [conn.go]: an OPEN tells how the messages behind it are
    to be read.  A message that is an error or a notification ends the reading. *)
Definition DecodeMessage (fuel : nat) (conf : NeighborConf) (p : PeerConn) (header : BGPHeader) (buf : list Z)
  : exec (PeerConn * (BGPMessage + BGPMessageError) * bool) :=
  let! r := BGPMessage_Decode fuel header buf (pc_attrs p) in
  match r with
  | Err e => Ok (p, inr e, false)
  | Val msg =>
      let msgOk := negb (h_Type header =? BGPMsgTypeNotification) in
      if h_Type header =? BGPMsgTypeOpen then
        match Body msg with
        | Some (OpenBody o) =>
            let rx := if IsAddPathsTxEnabledForIPv4 (GetAddPathFamily o) && c_AddPathsRx conf then true
                      else AddPathsRxActual (pc_attrs p) in
            Ok (mkPeerConn (pc_dir p) (pc_id p) (mkPeerAttrs (GetASSize o) rx), inl msg, msgOk)
        | _ => Panic
        end
      else Ok (p, inl msg, msgOk)
  end.

(** One turn of [ReadPkt]: the header, and the body of the length it gives. *)
Definition read_message (fuel : nat) (conf : NeighborConf) (p : PeerConn) (pkt : list Z)
  : exec (PeerConn * (BGPMessage + BGPMessageError) * bool) :=
  let! hdr := slice_to pkt BGPMsgHeaderLen in
  let! r := BGPHeader_Decode hdr in
  match r with
  | Err e => Ok (p, inr e, false)
  | Val header =>
      let! buf := (if BGPMsgHeaderLen <? BGPHeader_Len header
                   then slice pkt BGPMsgHeaderLen (BGPHeader_Len header) else Ok []) in
      DecodeMessage fuel conf p header buf
  end.

(** ** Changing state *)

(** [fsm.Manager.fsmEstablished(fsm.id, fsm.peerConn.conn)]. *)
Definition conn_established : op := fun s =>
  match f_peerConn s with None => Panic | Some _ => act ConnEstablished s end.

Definition leave (conf : NeighborConf) : op := fun s =>
  match f_State s with
  | IdleState _ => StopIdleHoldTimer s
  | OpenConfirmState | EstablishedState => SetHoldTime (c_HoldTime conf) (c_KeepaliveTime conf) s
  | _ => Ok s
  end.

Definition is_established (st : BaseState) : bool := state st =? 6.

(** The part of [ChangeState] behind [enter]. *)
Definition entered (old : BaseState) : op := fun s =>
  run [(if is_established old && negb (is_established (f_State s)) then act ConnBroken
        else if negb (is_established old) && is_established (f_State s) then conn_established
        else fun s => Ok s);
       act (StateChange (state (f_State s)))] s.

Definition enter_other (st : BaseState) : op :=
  match st with
  | IdleState _ => run [StopKeepAliveTimer; StopHoldTimer; act (AcceptPeerConn false); ApplyAutomaticStart]
  | ActiveState => act (AcceptPeerConn true)
  | EstablishedState => SetIdleHoldTime BGPIdleHoldTimeDefault
  | _ => fun s => Ok s
  end.

(** [ChangeState] to a state whose [enter] does not change it again. *)
Definition change_to (conf : NeighborConf) (st : BaseState) : op := fun s =>
  if f_close s then Ok s else
  run [leave conf; fun s => Ok (s <| f_State := st |>); enter_other st; entered (f_State s)] s.

(** [enter] of the Connect state goes on to Active when BFD is down. *)
Definition enter (conf : NeighborConf) (st : BaseState) : op :=
  match st with
  | ConnectState =>
      if c_BfdDown conf then change_to conf ActiveState
      else run [act (AcceptPeerConn true); InitiateConnToPeer conf]
  | _ => enter_other st
  end.

Definition ChangeState (conf : NeighborConf) (st : BaseState) : op := fun s =>
  if f_close s then Ok s else
  run [leave conf; fun s => Ok (s <| f_State := st |>); enter conf st; entered (f_State s)] s.

(** ** Events *)

(** What comes with an event. *)
Inductive event_data :=
| NoData
| ConnData (c : PeerConnDir)
| MsgData (msg : BGPMessage)
| ErrData (e : BGPMessageError).

(** The type assertions on the data. *)
Definition with_conn (data : event_data) (k : PeerConnDir -> op) : op := fun s =>
  match data with ConnData c => k c s | _ => Panic end.
Definition with_msg (data : event_data) (k : BGPMessage -> op) : op := fun s =>
  match data with MsgData m => k m s | _ => Panic end.
Definition with_err (data : event_data) (k : BGPMessageError -> op) : op := fun s =>
  match data with ErrData e => k e s | _ => Panic end.

Section Events.
Context (conf : NeighborConf).

(** [receivedBGPOpenMessage] answered [openOk]; [fsm.peerConn.dir] is an
    argument of the call. *)
Definition ProcessOpenMessage (openOk : bool) (pkt : BGPMessage) (s : FSM) : exec (bool * FSM) :=
  match Body pkt with
  | Some (OpenBody body) =>
      let! s := (if HoldTime body <? f_holdTime s then SetHoldTime (HoldTime body) (HoldTime body / 3) s else Ok s) in
      let s := s <| f_peerInternal := MyAS body =? c_AS conf |> in
      let s := s <| f_afiSafiMap := f_afiSafiMap s ∪ (GetProtocolFromOpenMsg body ∩ list_to_set (c_AfiSafiMap conf)) |> in
      match f_peerConn s with None => Panic | Some _ => Ok (openOk, s) end
  | _ => Panic
  end.

Definition ProcessUpdateMessage (pkt : BGPMessage) : op := fun s =>
  match Body pkt with
  | Some (UpdateBody _) => act (BGPPktSrc pkt) s
  | _ => Panic
  end.

Definition notify (err : BGPMessageError) : op := SendNotificationMessage (TypeCode err) (SubTypeCode err) (Data err).

(** The end of most branches. *)
Definition drop_peer : list op := [StopConnectRetryTimer; ClearPeerConn; StopConnToPeer; IncrConnectRetryCounter;
                                   ChangeState conf (IdleState false)].

Definition set_passive (passive : bool) : op := fun s => Ok (s <| f_State := IdleState passive |>).

Definition Idle_processEvent (passive : bool) (event : BGPFSMEvent) (data : event_data) : op :=
  match event with
  | BGPEventManualStart | BGPEventAutoStart =>
      run [SetConnectRetryCounter 0; StartConnectRetryTimer; ChangeState conf ConnectState]
  | BGPEventManualStartPassTcpEst | BGPEventAutoStartPassTcpEst =>
      run [SetConnectRetryCounter 0; StartConnectRetryTimer; ChangeState conf ActiveState]
  | BGPEventAutoStartDampPeerOscl =>
      run [(fun s => SetIdleHoldTime (IdleHoldTimeInterval (f_idleHoldTime s)) s); StartIdleHoldTimer; set_passive false]
  | BGPEventAutoStartDampPeerOsclPassTcpEst =>
      run [(fun s => SetIdleHoldTime (IdleHoldTimeInterval (f_idleHoldTime s)) s); StartIdleHoldTimer; set_passive true]
  | BGPEventIdleHoldTimerExp =>
      run [StartConnectRetryTimer; ChangeState conf (if passive then ActiveState else ConnectState)]
  | _ => fun s => Ok s
  end.

(** What Connect and Active do with a new connection. *)
Definition peer_connected (data : event_data) : op :=
  run [StopConnectRetryTimer; with_conn data SetPeerConn; sendOpenMessage conf;
       SetHoldTime (c_HoldTime conf) (c_KeepaliveTime conf); StartHoldTimer; ChangeState conf OpenSentState].

Definition Connect_processEvent (event : BGPFSMEvent) (data : event_data) : op :=
  match event with
  | BGPEventManualStop =>
      run [StopConnToPeer; SetConnectRetryCounter 0; StopConnectRetryTimer; ChangeState conf (IdleState false)]
  | BGPEventConnRetryTimerExp => run [StopConnToPeer; StartConnectRetryTimer; InitiateConnToPeer conf]
  | BGPEventTcpCrAcked | BGPEventTcpConnConfirmed => peer_connected data
  | BGPEventTcpConnFails => run [StopConnectRetryTimer; StopConnToPeer; ChangeState conf (IdleState false)]
  | BGPEventHeaderErr | BGPEventOpenMsgErr | BGPEventNotifMsgVerErr
  | BGPEventAutoStop | BGPEventHoldTimerExp | BGPEventKeepAliveTimerExp | BGPEventIdleHoldTimerExp
  | BGPEventBGPOpen | BGPEventOpenCollisionDump | BGPEventNotifMsg | BGPEventKeepAliveMsg
  | BGPEventUpdateMsg | BGPEventUpdateMsgErr =>
      run [StopConnectRetryTimer; StopConnToPeer; IncrConnectRetryCounter; ChangeState conf (IdleState false)]
  | _ => fun s => Ok s
  end.

Definition Active_processEvent (event : BGPFSMEvent) (data : event_data) : op :=
  match event with
  | BGPEventManualStop =>
      run [StopConnToPeer; SetConnectRetryCounter 0; StopConnectRetryTimer; ChangeState conf (IdleState false)]
  | BGPEventConnRetryTimerExp => run [StartConnectRetryTimer; ChangeState conf ConnectState]
  | BGPEventTcpCrAcked | BGPEventTcpConnConfirmed => peer_connected data
  | BGPEventTcpConnFails =>
      run [StartConnectRetryTimer; StopConnToPeer; ClearPeerConn; IncrConnectRetryCounter; ChangeState conf (IdleState false)]
  | BGPEventHeaderErr | BGPEventOpenMsgErr | BGPEventNotifMsgVerErr
  | BGPEventAutoStop | BGPEventHoldTimerExp | BGPEventKeepAliveTimerExp | BGPEventIdleHoldTimerExp
  | BGPEventBGPOpen | BGPEventOpenCollisionDump | BGPEventNotifMsg | BGPEventKeepAliveMsg
  | BGPEventUpdateMsg | BGPEventUpdateMsgErr => run drop_peer
  | _ => fun s => Ok s
  end.

Definition OpenSent_processEvent (openOk : bool) (event : BGPFSMEvent) (data : event_data) : op :=
  match event with
  | BGPEventManualStop =>
      run [SendNotificationMessage BGPCease 0 []; StopConnectRetryTimer; ClearPeerConn; StopConnToPeer;
           SetConnectRetryCounter 0; ChangeState conf (IdleState false)]
  | BGPEventAutoStop | BGPEventOpenCollisionDump => run (SendNotificationMessage BGPCease 0 [] :: drop_peer)
  | BGPEventHoldTimerExp => run (SendNotificationMessage BGPHoldTimerExpired 0 [] :: drop_peer)
  | BGPEventTcpCrAcked | BGPEventTcpConnConfirmed => with_conn data HandleAnotherConnection
  | BGPEventTcpConnFails => run [ClearPeerConn; StopConnToPeer; StartConnectRetryTimer; ChangeState conf ActiveState]
  | BGPEventBGPOpen =>
      run [StopConnectRetryTimer;
           with_msg data (fun bgpMsg s =>
             let! (ok, s) := ProcessOpenMessage openOk bgpMsg s in
             if ok then run [sendKeepAliveMessage; StartHoldTimer; ChangeState conf OpenConfirmState] s else Ok s)]
  | BGPEventHeaderErr | BGPEventOpenMsgErr => with_err data (fun err => run (notify err :: drop_peer))
  | BGPEventNotifMsgVerErr =>
      run [StopConnectRetryTimer; ClearPeerConn; StopConnToPeer; ChangeState conf (IdleState false)]
  | BGPEventConnRetryTimerExp | BGPEventKeepAliveTimerExp | BGPEventDelayOpenTimerExp
  | BGPEventIdleHoldTimerExp | BGPEventBGPOpenDelayOpenTimer | BGPEventNotifMsg
  | BGPEventKeepAliveMsg | BGPEventUpdateMsg | BGPEventUpdateMsgErr =>
      run (SendNotificationMessage BGPFSMError 0 [] :: drop_peer)
  | _ => fun s => Ok s
  end.

Definition OpenConfirm_processEvent (event : BGPFSMEvent) (data : event_data) : op :=
  match event with
  | BGPEventManualStop =>
      run [SendNotificationMessage BGPCease 0 []; ClearPeerConn; StopConnToPeer; StopConnectRetryTimer;
           SetConnectRetryCounter 0; ChangeState conf (IdleState false)]
  | BGPEventAutoStop | BGPEventOpenCollisionDump => run (SendNotificationMessage BGPCease 0 [] :: drop_peer)
  | BGPEventHoldTimerExp => run (SendNotificationMessage BGPHoldTimerExpired 0 [] :: drop_peer)
  | BGPEventKeepAliveTimerExp => sendKeepAliveMessage
  | BGPEventTcpCrAcked | BGPEventTcpConnConfirmed => with_conn data HandleAnotherConnection
  | BGPEventTcpConnFails | BGPEventNotifMsg => run drop_peer
  | BGPEventHeaderErr | BGPEventOpenMsgErr => with_err data (fun err => run (notify err :: drop_peer))
  | BGPEventNotifMsgVerErr =>
      run [StopConnectRetryTimer; ClearPeerConn; StopConnToPeer; ChangeState conf (IdleState false)]
  | BGPEventKeepAliveMsg => run [StartHoldTimer; ChangeState conf EstablishedState]
  | BGPEventConnRetryTimerExp | BGPEventDelayOpenTimerExp | BGPEventIdleHoldTimerExp
  | BGPEventBGPOpenDelayOpenTimer | BGPEventUpdateMsg | BGPEventUpdateMsgErr =>
      run (SendNotificationMessage BGPCease 0 [] :: drop_peer)
  | _ => fun s => Ok s
  end.

Definition Established_processEvent (event : BGPFSMEvent) (data : event_data) : op :=
  match event with
  | BGPEventManualStop =>
      run [SendNotificationMessage BGPCease 0 []; StopConnectRetryTimer; ClearPeerConn; StopConnToPeer;
           SetConnectRetryCounter 0; ChangeState conf (IdleState false)]
  | BGPEventAutoStop | BGPEventOpenCollisionDump => run (SendNotificationMessage BGPCease 0 [] :: drop_peer)
  | BGPEventHoldTimerExp => run (SendNotificationMessage BGPHoldTimerExpired 0 [] :: drop_peer)
  | BGPEventKeepAliveTimerExp => sendKeepAliveMessage
  | BGPEventTcpCrAcked | BGPEventTcpConnConfirmed => with_conn data HandleAnotherConnection
  | BGPEventTcpConnFails | BGPEventNotifMsgVerErr | BGPEventNotifMsg => run drop_peer
  | BGPEventKeepAliveMsg => StartHoldTimer
  | BGPEventUpdateMsg => run [StartHoldTimer; with_msg data ProcessUpdateMessage]
  | BGPEventUpdateMsgErr => with_err data (fun err => run (notify err :: drop_peer))
  | BGPEventConnRetryTimerExp | BGPEventDelayOpenTimerExp | BGPEventIdleHoldTimerExp
  | BGPEventOpenMsgErr | BGPEventBGPOpenDelayOpenTimer | BGPEventHeaderErr =>
      run (SendNotificationMessage BGPFSMError 0 [] :: drop_peer)
  | _ => fun s => Ok s
  end.

Definition ProcessEvent (openOk : bool) (event : BGPFSMEvent) (data : event_data) : op := fun s =>
  match f_State s with
  | IdleState passive => Idle_processEvent passive event data s
  | ConnectState => Connect_processEvent event data s
  | ActiveState => Active_processEvent event data s
  | OpenSentState => OpenSent_processEvent openOk event data s
  | OpenConfirmState => OpenConfirm_processEvent event data s
  | EstablishedState => Established_processEvent event data s
  end.

(** A notification whose body is not one fails its type assertion. *)
Definition ProcessPacket (openOk : bool) (pkt : BGPMessage + BGPMessageError) : op := fun s =>
  match pkt with
  | inr e =>
      ProcessEvent openOk (if TypeCode e =? BGPMsgHeaderError then BGPEventHeaderErr
                           else if TypeCode e =? BGPOpenMsgError then BGPEventOpenMsgErr
                           else if TypeCode e =? BGPUpdateMsgError then BGPEventUpdateMsgErr
                           else EventNone) (ErrData e) s
  | inl m =>
      let t := h_Type (Header m) in
      if t =? BGPMsgTypeNotification then
        match Body m with
        | Some (NotificationBody _) => ProcessEvent openOk BGPEventNotifMsg (MsgData m) s
        | _ => Panic
        end
      else ProcessEvent openOk (if t =? BGPMsgTypeOpen then BGPEventBGPOpen
                                else if t =? BGPMsgTypeUpdate then BGPEventUpdateMsg
                                else if t =? BGPMsgTypeKeepAlive then BGPEventKeepAliveMsg
                                else EventNone) (MsgData m) s
  end.

Definition sendAutoStartEvent (openOk : bool) : op := fun s =>
  let event := if f_passiveTcpEst s then
                 if f_dampPeerOscl s then BGPEventAutoStartDampPeerOsclPassTcpEst else BGPEventAutoStartPassTcpEst
               else if f_dampPeerOscl s then BGPEventAutoStartDampPeerOscl else BGPEventAutoStart in
  ProcessEvent openOk event NoData s.

(** ** The loop of [StartFSM] *)

(** What a turn of the loop receives; a command comes with an event and says
    whether the maximum of prefixes was exceeded. *)
Inductive input :=
| OutConn (draw1 draw2 : Z)
| OutConnErr (id : Z)
| InConn (draw1 draw2 : Z)
| Close
| PassiveTcpEst (flag : bool)
| PktTx (room : nat) (msg : BGPUpdate) (writes : list bool)
| PktRx (pkt : BGPMessage + BGPMessageError) (openOk : bool)
| EventRx (event : BGPFSMEvent) (maxPrefix : bool)
| BfdStatus (up : bool)
| ConnectRetryTimerExp
| HoldTimerExp
| KeepAliveTimerExp
| IdleHoldTimerExp
| RestartTimerExp.

Definition no_open : bool := false.

Definition step (i : input) : op := fun s =>
  match i with
  | OutConn d1 d2 =>
      if negb (f_outTCPConn s) then Ok s
      else run [StopConnToPeer; ProcessEvent no_open BGPEventTcpCrAcked (ConnData (mkConnDir ConnDirOut d1 d2))] s
  | OutConnErr id =>
      let! s := StopConnToPeer s in
      if negb (id =? 0) && negb (id =? f_connId s) then Ok s
      else run [ProcessEvent no_open BGPEventTcpConnFails NoData;
                fun s => if f_close s then Ok s else act TcpConnFail s] s
  | InConn d1 d2 => ProcessEvent no_open BGPEventTcpConnConfirmed (ConnData (mkConnDir ConnDirIn d1 d2)) s
  | Close => run [(fun s => Ok (s <| f_close := true |>)); ProcessEvent no_open BGPEventManualStop NoData] s
  | PassiveTcpEst flag => SetPassiveTcpEstablishment flag s
  | PktTx room msg writes => if is_established (f_State s) then sendUpdateMessage room msg writes s else Ok s
  | PktRx pkt openOk => ProcessPacket openOk pkt s
  | EventRx event maxPrefix =>
      run [(fun s => Ok (if maxPrefix then s <| f_restartTime := c_MaxPrefixesRestartTimer conf |> else s));
           ProcessEvent no_open event NoData;
           (fun s => Ok (s <| f_restartTime := BGPRestartTimeDefault |>));
           ProcessEvent no_open BGPEventAutoStart NoData] s
  | BfdStatus up =>
      run [(if negb up || (state (f_State s) <? 4) then ProcessEvent no_open BGPEventAutoStop NoData else fun s => Ok s);
           ProcessEvent no_open BGPEventAutoStart NoData] s
  | ConnectRetryTimerExp => ProcessEvent no_open BGPEventConnRetryTimerExp NoData s
  | HoldTimerExp => ProcessEvent no_open BGPEventHoldTimerExp NoData s
  | KeepAliveTimerExp => ProcessEvent no_open BGPEventKeepAliveTimerExp NoData s
  | IdleHoldTimerExp => ProcessEvent no_open BGPEventIdleHoldTimerExp NoData s
  | RestartTimerExp => sendAutoStartEvent no_open s
  end.

Definition NewFSM : FSM :=
  mkFSM (IdleState false) false None false 0 0 (c_ConnectRetryTime conf) None (c_HoldTime conf) None
    (c_KeepaliveTime conf) None BGPRestartTimeDefault None false false BGPIdleHoldTimeDefault None ∅ false [].

(** [Init] with a state, and [StartFSM] up to the loop. *)
Definition StartFSM (st : BaseState) : exec FSM :=
  run [enter conf st; ProcessEvent no_open BGPEventAutoStart NoData] (NewFSM <| f_State := st |>).
End Events.
