(* ===== verification/BgpFsmProofs.v ===== *)
(** * The BGP state machine: transitions, invariant, timers *)

From S2P Require Import Prelude BgpWire BgpOpen BgpOpenProofs BgpAttr BgpAttrProofs BgpUpdate BgpUpdateProofs BgpSplit BgpSplitProofs BgpFsm.

(** ** The transition table *)

(** Connect, or Active while BFD reports the neighbour down. *)
Definition dial (conf : NeighborConf) : BaseState := if c_BfdDown conf then ActiveState else ConnectState.

Definition next_state (conf : NeighborConf) (openOk : bool) (st : BaseState) (event : BGPFSMEvent) : BaseState :=
  match st with
  | IdleState passive =>
      match event with
      | BGPEventManualStart | BGPEventAutoStart => dial conf
      | BGPEventManualStartPassTcpEst | BGPEventAutoStartPassTcpEst => ActiveState
      | BGPEventAutoStartDampPeerOscl => IdleState false
      | BGPEventAutoStartDampPeerOsclPassTcpEst => IdleState true
      | BGPEventIdleHoldTimerExp => if passive then ActiveState else dial conf
      | _ => st
      end
  | ConnectState | ActiveState =>
      match event with
      | BGPEventConnRetryTimerExp => match st with ActiveState => dial conf | _ => ConnectState end
      | BGPEventTcpCrAcked | BGPEventTcpConnConfirmed => OpenSentState
      | EventNone | BGPEventManualStart | BGPEventAutoStart | BGPEventManualStartPassTcpEst | BGPEventAutoStartPassTcpEst
      | BGPEventAutoStartDampPeerOscl | BGPEventAutoStartDampPeerOsclPassTcpEst | BGPEventDelayOpenTimerExp
      | BGPEventTcpConnValid | BGPEventTcpCrInvalid | BGPEventBGPOpenDelayOpenTimer => st
      | _ => IdleState false
      end
  | OpenSentState =>
      match event with
      | BGPEventBGPOpen => if openOk then OpenConfirmState else st
      | BGPEventTcpConnFails => ActiveState
      | EventNone | BGPEventManualStart | BGPEventAutoStart | BGPEventManualStartPassTcpEst | BGPEventAutoStartPassTcpEst
      | BGPEventAutoStartDampPeerOscl | BGPEventAutoStartDampPeerOsclPassTcpEst
      | BGPEventTcpConnValid | BGPEventTcpCrInvalid | BGPEventTcpCrAcked | BGPEventTcpConnConfirmed => st
      | _ => IdleState false
      end
  | OpenConfirmState =>
      match event with
      | BGPEventKeepAliveMsg => EstablishedState
      | EventNone | BGPEventManualStart | BGPEventAutoStart | BGPEventManualStartPassTcpEst | BGPEventAutoStartPassTcpEst
      | BGPEventAutoStartDampPeerOscl | BGPEventAutoStartDampPeerOsclPassTcpEst
      | BGPEventTcpConnValid | BGPEventTcpCrInvalid | BGPEventTcpCrAcked | BGPEventTcpConnConfirmed
      | BGPEventBGPOpen | BGPEventKeepAliveTimerExp => st
      | _ => IdleState false
      end
  | EstablishedState =>
      match event with
      | EventNone | BGPEventManualStart | BGPEventAutoStart | BGPEventManualStartPassTcpEst | BGPEventAutoStartPassTcpEst
      | BGPEventAutoStartDampPeerOscl | BGPEventAutoStartDampPeerOsclPassTcpEst
      | BGPEventTcpConnValid | BGPEventTcpCrInvalid | BGPEventTcpCrAcked | BGPEventTcpConnConfirmed
      | BGPEventBGPOpen | BGPEventKeepAliveTimerExp | BGPEventKeepAliveMsg | BGPEventUpdateMsg => st
      | _ => IdleState false
      end
  end.

Definition notification (code sub : Z) (data : list Z) : list BGPMessage := [NewBGPNotificationMessage code sub data].

Definition error_notification (data : event_data) : list BGPMessage :=
  match data with ErrData e => notification (TypeCode e) (SubTypeCode e) (Data e) | _ => [] end.

(** The messages that a transition writes. *)
Definition sent (conf : NeighborConf) (openOk : bool) (holdTime : Z) (st : BaseState) (event : BGPFSMEvent) (data : event_data)
  : list BGPMessage :=
  match st with
  | IdleState _ => []
  | ConnectState | ActiveState =>
      match event with
      | BGPEventTcpCrAcked | BGPEventTcpConnConfirmed => [open_message conf holdTime]
      | _ => []
      end
  | OpenSentState =>
      match event with
      | BGPEventBGPOpen => if openOk then [NewBGPKeepAliveMessage] else []
      | BGPEventManualStop | BGPEventAutoStop | BGPEventOpenCollisionDump => notification BGPCease 0 []
      | BGPEventHoldTimerExp => notification BGPHoldTimerExpired 0 []
      | BGPEventHeaderErr | BGPEventOpenMsgErr => error_notification data
      | BGPEventConnRetryTimerExp | BGPEventKeepAliveTimerExp | BGPEventDelayOpenTimerExp | BGPEventIdleHoldTimerExp
      | BGPEventBGPOpenDelayOpenTimer | BGPEventNotifMsg | BGPEventKeepAliveMsg | BGPEventUpdateMsg
      | BGPEventUpdateMsgErr => notification BGPFSMError 0 []
      | _ => []
      end
  | OpenConfirmState =>
      match event with
      | BGPEventKeepAliveTimerExp => [NewBGPKeepAliveMessage]
      | BGPEventHoldTimerExp => notification BGPHoldTimerExpired 0 []
      | BGPEventHeaderErr | BGPEventOpenMsgErr => error_notification data
      | BGPEventManualStop | BGPEventAutoStop | BGPEventOpenCollisionDump | BGPEventConnRetryTimerExp
      | BGPEventDelayOpenTimerExp | BGPEventIdleHoldTimerExp | BGPEventBGPOpenDelayOpenTimer | BGPEventUpdateMsg
      | BGPEventUpdateMsgErr => notification BGPCease 0 []
      | _ => []
      end
  | EstablishedState =>
      match event with
      | BGPEventKeepAliveTimerExp => [NewBGPKeepAliveMessage]
      | BGPEventManualStop | BGPEventAutoStop | BGPEventOpenCollisionDump => notification BGPCease 0 []
      | BGPEventHoldTimerExp => notification BGPHoldTimerExpired 0 []
      | BGPEventUpdateMsgErr => error_notification data
      | BGPEventConnRetryTimerExp | BGPEventDelayOpenTimerExp | BGPEventIdleHoldTimerExp
      | BGPEventOpenMsgErr | BGPEventBGPOpenDelayOpenTimer | BGPEventHeaderErr => notification BGPFSMError 0 []
      | _ => []
      end
  end.

Definition messages (out : list action) : list BGPMessage :=
  omap (fun a => match a with Write m _ => Some m | _ => None end) out.

(** ** Views

    What the proofs follow of a machine: an operation is described by the view
    it leaves. *)

Record view := mkView {
  v_st : BaseState;
  v_conn : bool;
  v_hold : option Z;
  v_keep : option Z;
  v_restart : bool;
  v_holdTime : Z;
  v_keepTime : Z;
  v_passive : bool;
  v_damp : bool;
  v_close : bool;
  v_msgs : list BGPMessage
}.

#[export] Instance view_settable : Settable view :=
  fun v => mkView (v_st v) (v_conn v) (v_hold v) (v_keep v) (v_restart v) (v_holdTime v) (v_keepTime v) (v_passive v)
             (v_damp v) (v_close v) (v_msgs v).

Definition view_of (s : FSM) : view :=
  mkView (f_State s) (match f_peerConn s with Some _ => true | None => false end) (f_holdTimer s) (f_keepAliveTimer s)
    (match f_restartTimer s with Some _ => true | None => false end) (f_holdTime s) (f_keepAliveTime s) (f_passiveTcpEst s) (f_dampPeerOscl s) (f_close s) (messages (f_out s)).

Definition steps (o : op) (s : FSM) (v : view) : Prop := exists s', o s = Ok s' /\ view_of s' = v.

Lemma steps_nil s v : view_of s = v -> steps (run []) s v.
Proof. intros <-. by exists s. Qed.

Lemma steps_cons o ops s v w :
  steps o s v -> (forall s1, view_of s1 = v -> steps (run ops) s1 w) -> steps (run (o :: ops)) s w.
Proof. intros (s1 & E & Hv) Hk. destruct (Hk s1 Hv) as (s2 & E2 & Hw). exists s2. cbn [run]. by rewrite E. Qed.

Lemma steps_run o ops s v w :
  steps o s v -> (forall s1, view_of s1 = v -> steps (run ops) s1 w) ->
  exists s', (let! s1 := o s in run ops s1) = Ok s' /\ view_of s' = w.
Proof. intros H1 H2. by apply (steps_cons o ops s v w). Qed.

Lemma messages_act out a :
  messages (out ++ [a]) = messages out ++ match a with Write m _ => [m] | _ => [] end.
Proof. unfold messages. rewrite omap_app. by destruct a. Qed.

(** Operations that leave the view as it is. *)
Lemma StopConnectRetryTimer_steps s v : view_of s = v -> steps StopConnectRetryTimer s v.
Proof. intros <-. by eexists. Qed.
Lemma StartConnectRetryTimer_steps s v : view_of s = v -> steps StartConnectRetryTimer s v.
Proof. intros <-. by eexists. Qed.
Lemma SetConnectRetryCounter_steps n s v : view_of s = v -> steps (SetConnectRetryCounter n) s v.
Proof. intros <-. by eexists. Qed.
Lemma IncrConnectRetryCounter_steps s v : view_of s = v -> steps IncrConnectRetryCounter s v.
Proof. intros <-. by eexists. Qed.
Lemma SetIdleHoldTime_steps n s v : view_of s = v -> steps (SetIdleHoldTime n) s v.
Proof. intros <-. by eexists. Qed.
Lemma StopIdleHoldTimer_steps s v : view_of s = v -> steps StopIdleHoldTimer s v.
Proof. intros <-. by eexists. Qed.
Lemma StartIdleHoldTimer_steps s v : view_of s = v -> steps StartIdleHoldTimer s v.
Proof. intros <-. by eexists. Qed.

Lemma act_steps a s v : match a with Write _ _ => False | _ => True end -> view_of s = v -> steps (act a) s v.
Proof.
  intros Ha <-. eexists. split; [reflexivity|]. unfold view_of. simpl_get. rewrite messages_act.
  destruct a; try done; by rewrite app_nil_r.
Qed.

Lemma StopConnToPeer_steps s v : view_of s = v -> steps StopConnToPeer s v.
Proof.
  intros Hs. unfold steps, StopConnToPeer. destruct (f_outTCPConn s); [|by exists s]. by apply act_steps.
Qed.
Lemma InitiateConnToPeer_steps conf s v : view_of s = v -> steps (InitiateConnToPeer conf) s v.
Proof.
  intros Hs. unfold steps, InitiateConnToPeer. destruct (c_UnknownAddress conf), (f_outTCPConn s); try (by exists s). by apply act_steps.
Qed.
Lemma HandleAnotherConnection_steps c s v : view_of s = v -> steps (HandleAnotherConnection c) s v.
Proof. intros Hs. by apply act_steps. Qed.

(** Operations on the timers and the connection. *)
Lemma StopHoldTimer_steps s v : view_of s = v -> steps StopHoldTimer s (v <| v_hold := None |>).
Proof. intros <-. by eexists. Qed.
Lemma StartHoldTimer_steps s v :
  view_of s = v -> steps StartHoldTimer s (v <| v_hold := if v_holdTime v =? 0 then None else Some (v_holdTime v) |>).
Proof. intros <-. by eexists. Qed.
Lemma StopKeepAliveTimer_steps s v : view_of s = v -> steps StopKeepAliveTimer s (v <| v_keep := None |>).
Proof. intros <-. by eexists. Qed.
Lemma StartKeepAliveTimer_steps s v :
  view_of s = v -> steps StartKeepAliveTimer s (v <| v_keep := if v_keepTime v =? 0 then None else Some (v_keepTime v) |>).
Proof. intros <-. by eexists. Qed.

(** The times that [SetHoldTime] leaves. *)
Definition set_times (h k : Z) (v : view) : view :=
  if (0 <? h) && (h <? 3) then v else v <| v_holdTime := h |> <| v_keepTime := k |>.

Lemma SetHoldTime_steps h k s v : view_of s = v -> steps (SetHoldTime h k) s (set_times h k v).
Proof. intros <-. unfold steps, SetHoldTime, set_times. destruct (_ && _); by eexists. Qed.

Lemma set_times_other h k v :
  v_st (set_times h k v) = v_st v /\ v_conn (set_times h k v) = v_conn v /\ v_hold (set_times h k v) = v_hold v /\
  v_keep (set_times h k v) = v_keep v /\ v_restart (set_times h k v) = v_restart v /\
  v_passive (set_times h k v) = v_passive v /\ v_damp (set_times h k v) = v_damp v /\
  v_close (set_times h k v) = v_close v /\ v_msgs (set_times h k v) = v_msgs v.
Proof. unfold set_times. by destruct (_ && _). Qed.

Lemma SetPeerConn_steps c s v : view_of s = v -> steps (SetPeerConn c) s (v <| v_conn := true |>).
Proof.
  intros <-. unfold steps, SetPeerConn. destruct (f_peerConn s) eqn:E.
  - exists s. split; [done|]. unfold view_of. simpl_get. by rewrite E.
  - eexists. split; [reflexivity|]. unfold view_of. simpl_get. by rewrite messages_act, app_nil_r.
Qed.

Lemma ClearPeerConn_steps s v :
  view_of s = v -> steps ClearPeerConn s (if v_conn v then v <| v_conn := false |> <| v_hold := None |> <| v_keep := None |> else v).
Proof.
  intros <-. unfold steps, ClearPeerConn. destruct (f_peerConn s) eqn:E.
  - eexists. split; [reflexivity|]. unfold view_of. simpl_get. rewrite E. simpl_get. by rewrite messages_act, app_nil_r.
  - exists s. split; [done|]. unfold view_of. simpl_get. by rewrite E.
Qed.

Lemma write_steps m s v :
  (exists pkt, BGPMessage_Encode m = Ok pkt) -> view_of s = v -> v_conn v = true -> steps (write m) s (v <| v_msgs := v_msgs v ++ [m] |>).
Proof.
  intros [pkt E] <- Hc. unfold steps, write. rewrite E. cbn [exec_bind]. cbn [view_of v_conn] in Hc.
  destruct (f_peerConn s) eqn:Ep; [|done]. eexists. split; [reflexivity|]. unfold view_of. simpl_get. by rewrite Ep, messages_act.
Qed.

(** ** Changing state *)

Definition leave_view (conf : NeighborConf) (v : view) : view :=
  match v_st v with
  | OpenConfirmState | EstablishedState => set_times (c_HoldTime conf) (c_KeepaliveTime conf) v
  | _ => v
  end.

Definition enter_view (v : view) : view :=
  match v_st v with
  | IdleState _ => v <| v_keep := None |> <| v_hold := None |> <| v_restart := true |>
  | _ => v
  end.

Definition settled (conf : NeighborConf) (st : BaseState) : BaseState :=
  match st with ConnectState => dial conf | _ => st end.

Definition changed (conf : NeighborConf) (st : BaseState) (v : view) : view :=
  enter_view (leave_view conf v <| v_st := settled conf st |>).

Lemma leave_steps conf s v : view_of s = v -> steps (leave conf) s (leave_view conf v).
Proof.
  intros Hs. unfold steps, leave, leave_view. assert (E : f_State s = v_st v) by (by rewrite <- Hs). rewrite E.
  destruct (v_st v); try (by exists s); [by apply StopIdleHoldTimer_steps | by apply SetHoldTime_steps | by apply SetHoldTime_steps].
Qed.

Lemma set_state_steps st s v : view_of s = v -> steps (fun s => Ok (s <| f_State := st |>)) s (v <| v_st := st |>).
Proof. intros <-. by eexists. Qed.

Lemma enter_other_steps st s v : view_of s = v -> v_st v = st -> steps (enter_other st) s (enter_view v).
Proof.
  intros Hs Hst. unfold enter_view. rewrite Hst. destruct st; cbn [enter_other]; try (by exists s).
  - eapply steps_cons; [by apply StopKeepAliveTimer_steps | intros s1 H1].
    eapply steps_cons; [by apply StopHoldTimer_steps | intros s2 H2].
    eapply steps_cons; [by apply act_steps | intros s3 H3]. subst v. rewrite <- H3.
    eapply steps_cons; [by eexists | intros s4 H4]. by apply steps_nil.
  - by apply act_steps.
  - by apply SetIdleHoldTime_steps.
Qed.

Lemma entered_steps old s v :
  view_of s = v -> (is_established (v_st v) = true -> v_conn v = true) -> steps (entered old) s v.
Proof.
  intros Hs Hc. unfold steps, entered. assert (E : f_State s = v_st v) by (by rewrite <- Hs). rewrite E.
  eapply steps_run; [|intros s1 H1; eapply steps_cons; [by apply act_steps | intros s2 H2; by apply steps_nil]].
  destruct (is_established old); cbn [negb andb].
  - destruct (is_established (v_st v)); cbn [negb]; [by exists s | by apply act_steps].
  - destruct (is_established (v_st v)) eqn:Ee; cbn [negb]; [|by exists s].
    unfold steps, conn_established. specialize (Hc eq_refl). rewrite <- Hs in Hc. cbn in Hc.
    destruct (f_peerConn s); [by apply act_steps | done].
Qed.

Lemma change_to_steps conf st s v :
  view_of s = v -> v_close v = false -> (st = EstablishedState -> v_conn v = true) -> st <> ConnectState ->
  steps (change_to conf st) s (enter_view (leave_view conf v <| v_st := st |>)).
Proof.
  intros Hs Hcl Hc Hst. unfold steps, change_to. assert (E : f_close s = false) by (by rewrite <- Hcl, <- Hs). rewrite E.
  eapply steps_run; [by apply leave_steps | intros s1 H1].
  eapply steps_cons; [by apply set_state_steps | intros s2 H2].
  eapply steps_cons; [by apply enter_other_steps | intros s3 H3].
  eapply steps_cons; [apply entered_steps; [done|] | intros s4 H4; by apply steps_nil].
  unfold enter_view, leave_view. simpl_get. destruct st; try done. intros _. simpl_get.
  destruct (v_st v); try (by apply Hc); destruct (set_times_other (c_HoldTime conf) (c_KeepaliveTime conf) v) as (_ & -> & _); by apply Hc.
Qed.

Lemma ChangeState_steps conf st s v :
  view_of s = v -> v_close v = false -> (st = EstablishedState -> v_conn v = true) ->
  steps (ChangeState conf st) s (changed conf st v).
Proof.
  intros Hs Hcl Hc. assert (Hother : st <> ConnectState -> steps (ChangeState conf st) s (changed conf st v)).
  { intros Hne. pose proof (change_to_steps conf st s v Hs Hcl Hc Hne) as Hct. unfold steps, changed, change_to, ChangeState, enter, settled in *.
    by destruct st. }
  destruct st; try (by apply Hother). clear Hother. unfold steps, ChangeState, changed. cbn [settled].
  assert (E : f_close s = false) by (by rewrite <- Hcl, <- Hs). rewrite E.
  eapply steps_run; [by apply leave_steps | intros s1 H1].
  eapply steps_cons; [by apply set_state_steps | intros s2 H2]. set (v2 := leave_view conf v <| v_st := ConnectState |>) in *.
  assert (Hcl2 : v_close v2 = false).
  { unfold v2, leave_view. simpl_get. destruct (v_st v); try done;
      destruct (set_times_other (c_HoldTime conf) (c_KeepaliveTime conf) v) as (_ & _ & _ & _ & _ & _ & _ & -> & _); done. }
  unfold enter, dial. destruct (c_BfdDown conf).
  - eapply steps_cons; [by apply (change_to_steps conf ActiveState s2 v2) | intros s3 H3].
    eapply steps_cons; [apply entered_steps; [exact H3 | done] | intros s4 H4]. by apply steps_nil.
  - eapply (steps_cons _ _ _ v2); [|intros s3 H3; eapply steps_cons; [by apply entered_steps | intros s4 H4; by apply steps_nil]].
    eapply steps_cons; [by apply act_steps | intros s3 H3].
    eapply steps_cons; [by apply InitiateConnToPeer_steps | intros s4 H4]. by apply steps_nil.
Qed.

(** ** The invariant *)

Definition connected (st : BaseState) : bool := 4 <=? state st.

(** There is a connection to the peer exactly in OpenSent, OpenConfirm and
    Established; without one, neither the hold nor the keepalive timer runs; in
    Idle the restart timer has been started. *)
Record view_inv (v : view) : Prop := {
  vi_conn : v_conn v = connected (v_st v);
  vi_timers : connected (v_st v) = false -> v_hold v = None /\ v_keep v = None;
  vi_restart : state (v_st v) = 1 -> v_restart v = true;
  vi_damp : v_damp v = false;
  vi_close : v_close v = false
}.

Definition fsm_inv (s : FSM) : Prop := view_inv (view_of s).

(** The operation ends, in a state that satisfies the invariant. *)
Definition reaches (o : op) (s : FSM) (st : BaseState) (msgs : list BGPMessage) : Prop :=
  exists s', o s = Ok s' /\ f_State s' = st /\ messages (f_out s') = msgs /\ fsm_inv s'.

Lemma reaches_intro o s w : steps o s w -> view_inv w -> reaches o s (v_st w) (v_msgs w).
Proof. intros (s' & E & <-) Hw. by exists s'. Qed.

Lemma reaches_by o s w st msgs : steps o s w -> view_inv w -> v_st w = st -> v_msgs w = msgs -> reaches o s st msgs.
Proof. intros Ho Hw <- <-. by apply reaches_intro. Qed.

Lemma reaches_cons o ops s v st msgs :
  steps o s v -> (forall s1, view_of s1 = v -> reaches (run ops) s1 st msgs) -> reaches (run (o :: ops)) s st msgs.
Proof. intros (s1 & E & Hv) Hk. destruct (Hk s1 Hv) as (s2 & E2 & H2). exists s2. cbn [run]. by rewrite E. Qed.

Lemma reaches_one o s st msgs : reaches o s st msgs -> reaches (run [o]) s st msgs.
Proof. intros (s' & E & H). exists s'. cbn [run]. by rewrite E. Qed.

Section Table.
Context (conf : NeighborConf).

Lemma stay s v : view_of s = v -> view_inv v -> reaches (fun s => Ok s) s (v_st v) (v_msgs v).
Proof using. clear. intros <- Hv. by exists s. Qed.

Lemma leave_view_other v :
  v_conn (leave_view conf v) = v_conn v /\ v_hold (leave_view conf v) = v_hold v /\ v_keep (leave_view conf v) = v_keep v /\
  v_restart (leave_view conf v) = v_restart v /\ v_damp (leave_view conf v) = v_damp v /\
  v_close (leave_view conf v) = v_close v /\ v_msgs (leave_view conf v) = v_msgs v.
Proof using.
  destruct (set_times_other (c_HoldTime conf) (c_KeepaliveTime conf) v) as (H1 & H2 & H3 & H4 & H5 & H6 & H7 & H8 & H9).
  unfold leave_view. by destruct (v_st v).
Qed.

(** Into a state with or without a connection. *)
Lemma change_reaches st s v :
  view_of s = v -> v_damp v = false -> v_close v = false -> v_conn v = connected st ->
  (st = ConnectState \/ st = ActiveState -> v_hold v = None /\ v_keep v = None) ->
  reaches (run [ChangeState conf st]) s (settled conf st) (v_msgs v).
Proof using.
  intros Hs Hd Hcl Hc Ht. apply reaches_one. destruct (leave_view_other v) as (H1 & H2 & H3 & H4 & H5 & H6 & H7).
  assert (Ew : v_st (changed conf st v) = settled conf st /\ v_msgs (changed conf st v) = v_msgs v).
  { unfold changed, enter_view. simpl_get. by destruct (settled conf st). }
  destruct Ew as [<- <-]. apply reaches_intro.
  { apply ChangeState_steps; [done | done |]. by intros ->. }
  unfold changed, enter_view. simpl_get. unfold settled, dial in *.
  destruct st; try destruct (c_BfdDown conf); simpl_get;
    (split; simpl_get; [by rewrite H1, Hc | intros Hn; try done | intros Hn; try done | by rewrite H5 | by rewrite H6]);
    rewrite H2, H3; auto.
Qed.

Lemma to_idle s v :
  view_of s = v -> v_damp v = false -> v_close v = false -> v_conn v = false ->
  reaches (run [ChangeState conf (IdleState false)]) s (IdleState false) (v_msgs v).
Proof using. intros Hs Hd Hcl Hc. apply (change_reaches (IdleState false)); try done. by intros [|]. Qed.

Lemma drop_reaches s v :
  view_of s = v -> v_damp v = false -> v_close v = false -> reaches (run (drop_peer conf)) s (IdleState false) (v_msgs v).
Proof using.
  intros Hs Hd Hcl. unfold drop_peer.
  eapply reaches_cons; [by apply StopConnectRetryTimer_steps | intros s1 H1].
  eapply reaches_cons; [by apply ClearPeerConn_steps | intros s2 H2].
  eapply reaches_cons; [by apply StopConnToPeer_steps | intros s3 H3].
  eapply reaches_cons; [by apply IncrConnectRetryCounter_steps | intros s4 H4].
  destruct (v_conn v) eqn:Ec; [|by apply to_idle]. by apply (to_idle s4 _ H4).
Qed.

Lemma notify_reaches m s v :
  (exists pkt, BGPMessage_Encode m = Ok pkt) -> view_of s = v -> view_inv v -> v_conn v = true ->
  reaches (run (write m :: drop_peer conf)) s (IdleState false) (v_msgs v ++ [m]).
Proof using.
  intros Hm Hs [_ _ _ Hd Hcl] Hc. eapply reaches_cons; [by apply write_steps | intros s1 H1].
  by apply (drop_reaches s1 _ H1).
Qed.

(** Manual stop in a state with a connection: the counter is cleared. *)
Lemma stop_reaches m s v :
  (exists pkt, BGPMessage_Encode m = Ok pkt) -> view_of s = v -> view_inv v -> v_conn v = true ->
  reaches (run [write m; StopConnectRetryTimer; ClearPeerConn; StopConnToPeer; SetConnectRetryCounter 0; ChangeState conf (IdleState false)])
    s (IdleState false) (v_msgs v ++ [m]) /\
  reaches (run [write m; ClearPeerConn; StopConnToPeer; StopConnectRetryTimer; SetConnectRetryCounter 0; ChangeState conf (IdleState false)])
    s (IdleState false) (v_msgs v ++ [m]) /\
  reaches (run [StopConnectRetryTimer; ClearPeerConn; StopConnToPeer; ChangeState conf (IdleState false)]) s (IdleState false) (v_msgs v).
Proof using.
  intros Hm Hs [_ _ _ Hd Hcl] Hc.
  assert (Hclear : forall m0, v_conn (v <| v_msgs := m0 |>) = true) by done.
  split; [|split].
  - eapply reaches_cons; [by apply write_steps | intros s1 H1].
    eapply reaches_cons; [by apply StopConnectRetryTimer_steps | intros s2 H2].
    eapply reaches_cons; [by apply ClearPeerConn_steps | intros s3 H3]. rewrite Hclear in H3.
    eapply reaches_cons; [by apply StopConnToPeer_steps | intros s4 H4].
    eapply reaches_cons; [by apply SetConnectRetryCounter_steps | intros s5 H5]. by apply (to_idle s5 _ H5).
  - eapply reaches_cons; [by apply write_steps | intros s1 H1].
    eapply reaches_cons; [by apply ClearPeerConn_steps | intros s3 H3]. rewrite Hclear in H3.
    eapply reaches_cons; [by apply StopConnToPeer_steps | intros s4 H4].
    eapply reaches_cons; [by apply StopConnectRetryTimer_steps | intros s2 H2].
    eapply reaches_cons; [by apply SetConnectRetryCounter_steps | intros s5 H5]. by apply (to_idle s5 _ H5).
  - eapply reaches_cons; [by apply StopConnectRetryTimer_steps | intros s2 H2].
    eapply reaches_cons; [by apply ClearPeerConn_steps | intros s3 H3]. rewrite Hc in H3.
    eapply reaches_cons; [by apply StopConnToPeer_steps | intros s4 H4]. by apply (to_idle s4 _ H4).
Qed.

(** The data that comes with an event. *)
Definition data_ok (event : BGPFSMEvent) (data : event_data) : Prop :=
  match event with
  | BGPEventTcpCrAcked | BGPEventTcpConnConfirmed => exists c, data = ConnData c
  | BGPEventHeaderErr | BGPEventOpenMsgErr | BGPEventUpdateMsgErr => exists e, data = ErrData e
  | BGPEventBGPOpen => exists h o, data = MsgData (mkMessage h (Some (OpenBody o)))
  | BGPEventUpdateMsg => exists h u, data = MsgData (mkMessage h (Some (UpdateBody u)))
  | _ => True
  end.

(** The OPEN message of the configuration can be encoded. *)
Definition conf_ok : Prop := forall holdTime, exists pkt, BGPMessage_Encode (open_message conf holdTime) = Ok pkt.

Lemma notification_encodes code sub data : exists pkt, BGPMessage_Encode (NewBGPNotificationMessage code sub data) = Ok pkt.
Proof using.
  unfold BGPMessage_Encode, NewBGPNotificationMessage. cbn [Body Header BGPBody_Encode h_Length h_Type encode_bind].
  destruct (_ && _); [by eexists|]. rewrite header_encode. by eexists.
Qed.

Lemma idle_table passive openOk event data s v :
  view_of s = v -> view_inv v -> v_st v = IdleState passive ->
  reaches (Idle_processEvent conf passive event data) s (next_state conf openOk (v_st v) event) (v_msgs v).
Proof using.
  intros Hs Hv Hst. pose proof (stay s v Hs Hv) as Hstay. destruct Hv as [Hc Ht Hr Hd Hcl]. rewrite Hst in *.
  specialize (Ht eq_refl).
  destruct event; try exact Hstay; cbn [Idle_processEvent next_state].
  1-4: (eapply reaches_cons; [by apply SetConnectRetryCounter_steps | intros s1 H1];
        eapply reaches_cons; [by apply StartConnectRetryTimer_steps | intros s2 H2]).
  1-2: (apply (change_reaches ConnectState s2 v); done || by intros _).
  1-2: (apply (change_reaches ActiveState s2 v); done || by intros _).
  1-2: (eapply reaches_cons; [by apply SetIdleHoldTime_steps | intros s1 H1];
        eapply reaches_cons; [by apply StartIdleHoldTimer_steps | intros s2 H2]; apply reaches_one;
        match goal with |- reaches (set_passive ?b) _ _ _ =>
          apply (reaches_by _ _ (v <| v_st := IdleState b |>)); [by apply set_state_steps | by split; simpl_get | done | done] end).
  eapply reaches_cons; [by apply StartConnectRetryTimer_steps | intros s2 H2].
  destruct passive; [apply (change_reaches ActiveState s2 v) | apply (change_reaches ConnectState s2 v)]; done || by intros _.
Qed.

Lemma connected_reaches data s v :
  conf_ok -> view_of s = v -> view_inv v -> v_conn v = false -> (exists c, data = ConnData c) ->
  reaches (peer_connected conf data) s OpenSentState (v_msgs v ++ [open_message conf (v_holdTime v)]).
Proof using.
  intros Hok Hs [_ _ _ Hd Hcl] Hc [c ->]. unfold peer_connected.
  eapply reaches_cons; [by apply StopConnectRetryTimer_steps | intros s1 H1].
  eapply reaches_cons; [exact (SetPeerConn_steps c s1 v H1) | intros s2 H2].
  eapply reaches_cons; [| intros s3 H3].
  { unfold sendOpenMessage. assert (E : f_holdTime s2 = v_holdTime v) by (change (f_holdTime s2) with (v_holdTime (view_of s2)); by rewrite H2).
    pose proof (write_steps (open_message conf (v_holdTime v)) s2 _ (Hok _) H2 eq_refl) as Hw. unfold steps in *. rewrite E. exact Hw. }
  eapply reaches_cons; [by apply SetHoldTime_steps | intros s4 H4].
  eapply reaches_cons; [by apply StartHoldTimer_steps | intros s5 H5].
  destruct (set_times_other (c_HoldTime conf) (c_KeepaliveTime conf)
    (v <| v_conn := true |> <| v_msgs := v_msgs v ++ [open_message conf (v_holdTime v)] |>))
    as (E1 & E2 & E3 & E4 & E5 & E6 & E7 & E8 & E9).
  pose proof (change_reaches OpenSentState s5 _ H5) as Hr. simpl_rec in Hr. simpl_rec in *.
  rewrite E2, E7, E8, E9 in Hr. apply Hr; try done. by intros [|].
Qed.

Lemma connect_table openOk event data s v :
  conf_ok -> view_of s = v -> view_inv v -> v_st v = ConnectState -> data_ok event data ->
  reaches (Connect_processEvent conf event data) s (next_state conf openOk (v_st v) event)
    (v_msgs v ++ sent conf openOk (v_holdTime v) (v_st v) event data).
Proof using.
  intros Hok Hs Hv Hst Hdata. pose proof (stay s v Hs Hv) as Hstay. pose proof (connected_reaches data s v Hok Hs Hv) as Hconn.
  destruct Hv as [Hc Ht Hr Hd Hcl]. rewrite Hst in *. specialize (Hconn Hc).
  assert (Hstop : reaches (run [StopConnectRetryTimer; StopConnToPeer; IncrConnectRetryCounter; ChangeState conf (IdleState false)])
                    s (IdleState false) (v_msgs v ++ [])).
  { rewrite app_nil_r. eapply reaches_cons; [by apply StopConnectRetryTimer_steps | intros s1 H1].
    eapply reaches_cons; [by apply StopConnToPeer_steps | intros s2 H2].
    eapply reaches_cons; [by apply IncrConnectRetryCounter_steps | intros s3 H3]. by apply to_idle. }
  destruct event; cbn [Connect_processEvent next_state sent]; try exact Hstop; try (by rewrite app_nil_r);
    try (by apply Hconn); rewrite app_nil_r.
  - eapply reaches_cons; [by apply StopConnToPeer_steps | intros s1 H1].
    eapply reaches_cons; [by apply SetConnectRetryCounter_steps | intros s2 H2].
    eapply reaches_cons; [by apply StopConnectRetryTimer_steps | intros s3 H3]. by apply to_idle.
  - apply (reaches_by _ _ v); [|by split; rewrite ?Hst | done | done].
    eapply steps_cons; [by apply StopConnToPeer_steps | intros s1 H1].
    eapply steps_cons; [by apply StartConnectRetryTimer_steps | intros s2 H2].
    eapply steps_cons; [by apply InitiateConnToPeer_steps | intros s3 H3]. by apply steps_nil.
  - eapply reaches_cons; [by apply StopConnectRetryTimer_steps | intros s1 H1].
    eapply reaches_cons; [by apply StopConnToPeer_steps | intros s2 H2]. by apply to_idle.
Qed.

Lemma active_table openOk event data s v :
  conf_ok -> view_of s = v -> view_inv v -> v_st v = ActiveState -> data_ok event data ->
  reaches (Active_processEvent conf event data) s (next_state conf openOk (v_st v) event)
    (v_msgs v ++ sent conf openOk (v_holdTime v) (v_st v) event data).
Proof using.
  intros Hok Hs Hv Hst Hdata. pose proof (stay s v Hs Hv) as Hstay. pose proof (connected_reaches data s v Hok Hs Hv) as Hconn.
  destruct Hv as [Hc Ht Hr Hd Hcl]. rewrite Hst in *. specialize (Hconn Hc). specialize (Ht eq_refl).
  pose proof (drop_reaches s v Hs Hd Hcl) as Hdrop.
  destruct event; cbn [Active_processEvent next_state sent]; try (by apply Hconn); rewrite app_nil_r; try exact Hstay; try exact Hdrop.
  - eapply reaches_cons; [by apply StopConnToPeer_steps | intros s1 H1].
    eapply reaches_cons; [by apply SetConnectRetryCounter_steps | intros s2 H2].
    eapply reaches_cons; [by apply StopConnectRetryTimer_steps | intros s3 H3]. by apply to_idle.
  - eapply reaches_cons; [by apply StartConnectRetryTimer_steps | intros s1 H1].
    by apply (change_reaches ConnectState s1 v).
  - eapply reaches_cons; [by apply StartConnectRetryTimer_steps | intros s1 H1].
    eapply reaches_cons; [by apply StopConnToPeer_steps | intros s2 H2].
    eapply reaches_cons; [by apply ClearPeerConn_steps | intros s3 H3]. rewrite Hc in H3.
    eapply reaches_cons; [by apply IncrConnectRetryCounter_steps | intros s4 H4]. by apply to_idle.
Qed.

(** The times after an OPEN: the smaller hold time. *)
Definition open_view (o : BGPOpen) (v : view) : view :=
  if HoldTime o <? v_holdTime v then set_times (HoldTime o) (HoldTime o / 3) v else v.

Lemma open_view_other o v :
  v_st (open_view o v) = v_st v /\ v_conn (open_view o v) = v_conn v /\ v_restart (open_view o v) = v_restart v /\
  v_damp (open_view o v) = v_damp v /\ v_close (open_view o v) = v_close v /\ v_msgs (open_view o v) = v_msgs v.
Proof using.
  unfold open_view. destruct (set_times_other (HoldTime o) (HoldTime o / 3) v) as (H1 & H2 & H3 & H4 & H5 & H6 & H7 & H8 & H9).
  by destruct (_ <? _).
Qed.

Lemma process_open_steps openOk h o s v :
  view_of s = v -> v_conn v = true ->
  exists s', ProcessOpenMessage conf openOk (mkMessage h (Some (OpenBody o))) s = Ok (openOk, s') /\ view_of s' = open_view o v.
Proof using.
  intros Hs Hc. unfold ProcessOpenMessage, open_view. cbn [Body].
  assert (Eh : f_holdTime s = v_holdTime v) by (by rewrite <- Hs). rewrite Eh.
  assert (Ht : steps (fun s => if HoldTime o <? v_holdTime v then SetHoldTime (HoldTime o) (HoldTime o / 3) s else Ok s) s
                 (if HoldTime o <? v_holdTime v then set_times (HoldTime o) (HoldTime o / 3) v else v)).
  { unfold steps. destruct (_ <? _); [by apply SetHoldTime_steps | by exists s]. }
  destruct Ht as (s1 & -> & H1). cbn [exec_bind]. simpl_get.
  assert (Hc1 : v_conn (view_of s1) = true).
  { rewrite H1. destruct (set_times_other (HoldTime o) (HoldTime o / 3) v) as (_ & E & _). by destruct (_ <? _); rewrite ?E. }
  cbn in Hc1. destruct (f_peerConn s1) eqn:Ep; [|done]. eexists. split; [done|]. rewrite <- H1. unfold view_of. simpl_get. by rewrite Ep.
Qed.

Lemma keepalive_steps s v :
  view_of s = v -> v_conn v = true ->
  steps sendKeepAliveMessage s (v <| v_msgs := v_msgs v ++ [NewBGPKeepAliveMessage] |>
                                  <| v_keep := if v_keepTime v =? 0 then None else Some (v_keepTime v) |>).
Proof using.
  intros Hs Hc. eapply steps_cons; [apply write_steps; [by eexists | done | done] | intros s1 H1].
  eapply steps_cons; [by apply StartKeepAliveTimer_steps | intros s2 H2]. by apply steps_nil.
Qed.

Lemma opensent_open openOk h o s v :
  view_of s = v -> view_inv v -> v_st v = OpenSentState ->
  reaches (OpenSent_processEvent conf openOk BGPEventBGPOpen (MsgData (mkMessage h (Some (OpenBody o))))) s
    (if openOk then OpenConfirmState else OpenSentState)
    (v_msgs v ++ if openOk then [NewBGPKeepAliveMessage] else []).
Proof using.
  intros Hs [Hc Ht Hr Hd Hcl] Hst. rewrite Hst in *. cbn [OpenSent_processEvent].
  eapply reaches_cons; [by apply StopConnectRetryTimer_steps | intros s1 H1]. apply reaches_one.
  destruct (process_open_steps openOk h o s1 v H1 Hc) as (s2 & E2 & H2).
  destruct (open_view_other o v) as (O1 & O2 & O3 & O4 & O5 & O6). unfold reaches, with_msg. rewrite E2. cbn [exec_bind].
  destruct openOk.
  - eapply reaches_cons; [apply keepalive_steps; [exact H2 | by rewrite O2] | intros s3 H3].
    eapply reaches_cons; [by apply StartHoldTimer_steps | intros s4 H4].
    rewrite <- O6. apply (change_reaches OpenConfirmState s4 _ H4); simpl_get;
      [by rewrite O4 | by rewrite O5 | by rewrite O2 | by intros [|]].
  - rewrite app_nil_r. eexists. split; [done|]. unfold fsm_inv. rewrite H2. split; [|split].
    + change (f_State s2) with (v_st (view_of s2)). rewrite H2. congruence.
    + change (messages (f_out s2)) with (v_msgs (view_of s2)). rewrite H2. congruence.
    + split; rewrite ?O1, ?O2, ?O3, ?O4, ?O5, ?Hst; done.
Qed.

Lemma opensent_table openOk event data s v :
  view_of s = v -> view_inv v -> v_st v = OpenSentState -> data_ok event data ->
  reaches (OpenSent_processEvent conf openOk event data) s (next_state conf openOk (v_st v) event)
    (v_msgs v ++ sent conf openOk (v_holdTime v) (v_st v) event data).
Proof using.
  intros Hs Hv Hst Hdata. pose proof (stay s v Hs Hv) as Hstay. pose proof (vi_conn _ Hv) as Hc. rewrite Hst in *.
  assert (Hn : forall code sub d, reaches (run (SendNotificationMessage code sub d :: drop_peer conf)) s (IdleState false)
                 (v_msgs v ++ notification code sub d)).
  { intros. apply notify_reaches; [apply notification_encodes | done | done | done]. }
  destruct event; cbn [OpenSent_processEvent next_state sent]; try apply Hn; try (by rewrite app_nil_r).
  - apply stop_reaches; [apply notification_encodes | done | done | done].
  - destruct Hdata as [c ->]. rewrite app_nil_r. apply (reaches_by _ _ v); [by apply HandleAnotherConnection_steps | done | done | done].
  - destruct Hdata as [c ->]. rewrite app_nil_r. apply (reaches_by _ _ v); [by apply HandleAnotherConnection_steps | done | done | done].
  - rewrite app_nil_r. destruct Hv as [_ Ht Hr Hd Hcl].
    eapply reaches_cons; [by apply ClearPeerConn_steps | intros s1 H1]. rewrite Hc in H1. cbn in H1.
    eapply reaches_cons; [by apply StopConnToPeer_steps | intros s2 H2].
    eapply reaches_cons; [by apply StartConnectRetryTimer_steps | intros s3 H3].
    by apply (change_reaches ActiveState s3 _ H3).
  - destruct Hdata as (h & o & ->). by apply opensent_open.
  - destruct Hdata as [e ->]. apply Hn.
  - destruct Hdata as [e ->]. apply Hn.
  - rewrite app_nil_r. apply (stop_reaches NewBGPKeepAliveMessage); [by eexists | done | done | done].
Qed.

Lemma openconfirm_table openOk event data s v :
  view_of s = v -> view_inv v -> v_st v = OpenConfirmState -> data_ok event data ->
  reaches (OpenConfirm_processEvent conf event data) s (next_state conf openOk (v_st v) event)
    (v_msgs v ++ sent conf openOk (v_holdTime v) (v_st v) event data).
Proof using.
  intros Hs Hv Hst Hdata. pose proof (stay s v Hs Hv) as Hstay. pose proof (vi_conn _ Hv) as Hc. rewrite Hst in *.
  assert (Hn : forall code sub d, reaches (run (SendNotificationMessage code sub d :: drop_peer conf)) s (IdleState false)
                 (v_msgs v ++ notification code sub d)).
  { intros. apply notify_reaches; [apply notification_encodes | done | done | done]. }
  pose proof Hv as [_ Ht Hr Hd Hcl]. pose proof (drop_reaches s v Hs Hd Hcl) as Hdrop.
  destruct event; cbn [OpenConfirm_processEvent next_state sent]; try apply Hn; try (by rewrite app_nil_r).
  - apply stop_reaches; [apply notification_encodes | done | done | done].
  - eapply reaches_by; [by apply keepalive_steps | by split; simpl_get; rewrite ?Hst | done | done].
  - destruct Hdata as [c ->]. rewrite app_nil_r. apply (reaches_by _ _ v); [by apply HandleAnotherConnection_steps | done | done | done].
  - destruct Hdata as [c ->]. rewrite app_nil_r. apply (reaches_by _ _ v); [by apply HandleAnotherConnection_steps | done | done | done].
  - destruct Hdata as [e ->]. apply Hn.
  - destruct Hdata as [e ->]. apply Hn.
  - rewrite app_nil_r. apply (stop_reaches NewBGPKeepAliveMessage); [by eexists | done | done | done].
  - rewrite app_nil_r. eapply reaches_cons; [by apply StartHoldTimer_steps | intros s1 H1].
    apply (change_reaches EstablishedState s1 _ H1); try done. by intros [|].
Qed.

Lemma established_table openOk event data s v :
  view_of s = v -> view_inv v -> v_st v = EstablishedState -> data_ok event data ->
  reaches (Established_processEvent conf event data) s (next_state conf openOk (v_st v) event)
    (v_msgs v ++ sent conf openOk (v_holdTime v) (v_st v) event data).
Proof using.
  intros Hs Hv Hst Hdata. pose proof (stay s v Hs Hv) as Hstay. pose proof (vi_conn _ Hv) as Hc. rewrite Hst in *.
  assert (Hn : forall code sub d, reaches (run (SendNotificationMessage code sub d :: drop_peer conf)) s (IdleState false)
                 (v_msgs v ++ notification code sub d)).
  { intros. apply notify_reaches; [apply notification_encodes | done | done | done]. }
  pose proof Hv as [_ Ht Hr Hd Hcl]. pose proof (drop_reaches s v Hs Hd Hcl) as Hdrop.
  destruct event; cbn [Established_processEvent next_state sent]; try apply Hn; try (by rewrite app_nil_r).
  - apply stop_reaches; [apply notification_encodes | done | done | done].
  - eapply reaches_by; [by apply keepalive_steps | by split; simpl_get; rewrite ?Hst | done | done].
  - destruct Hdata as [c ->]. rewrite app_nil_r. apply (reaches_by _ _ v); [by apply HandleAnotherConnection_steps | done | done | done].
  - destruct Hdata as [c ->]. rewrite app_nil_r. apply (reaches_by _ _ v); [by apply HandleAnotherConnection_steps | done | done | done].
  - rewrite app_nil_r. eapply reaches_by; [by apply StartHoldTimer_steps | by split; simpl_get; rewrite ?Hst | done | done].
  - rewrite app_nil_r. destruct Hdata as (h & u & ->). eapply reaches_cons; [by apply StartHoldTimer_steps | intros s1 H1].
    apply reaches_one. eapply reaches_by; [by apply act_steps | by split; simpl_get; rewrite ?Hst | done | done].
  - destruct Hdata as [e ->]. apply Hn.
Qed.

(** Every event in every state, with the data that belongs to it, is handled
    without a crash; it leads to the state of the table, writes the messages of
    the table, and keeps the invariant. *)
Lemma event_table openOk event data s :
  conf_ok -> fsm_inv s -> data_ok event data ->
  reaches (ProcessEvent conf openOk event data) s (next_state conf openOk (f_State s) event)
    (messages (f_out s) ++ sent conf openOk (f_holdTime s) (f_State s) event data).
Proof using.
  intros Hok Hi Hdata. unfold reaches, ProcessEvent. destruct (f_State s) as [passive| | | | |] eqn:Est.
  - replace (sent conf openOk (f_holdTime s) (IdleState passive) event data) with (@nil BGPMessage) by done.
    rewrite app_nil_r. rewrite <- Est. by apply (idle_table passive openOk event data s (view_of s)).
  - rewrite <- Est. by apply (connect_table openOk event data s (view_of s)).
  - rewrite <- Est. by apply (active_table openOk event data s (view_of s)).
  - rewrite <- Est. by apply (opensent_table openOk event data s (view_of s)).
  - rewrite <- Est. by apply (openconfirm_table openOk event data s (view_of s)).
  - rewrite <- Est. by apply (established_table openOk event data s (view_of s)).
Qed.
End Table.
