(* ===== verification/BgpFsmRuns.v ===== *)
(** * Runs of the BGP state machine

    What the machine does over sequences of inputs: it never crashes and keeps
    its invariant, follows the transition table, leaves Idle, reaches
    Established, and what happens to the hold time that was negotiated. *)

From S2P Require Import Prelude BgpWire BgpOpen BgpOpenProofs BgpAttr BgpAttrProofs BgpUpdate BgpUpdateProofs BgpSplit BgpSplitProofs BgpFsm BgpFsmProofs.

(** ** Configurations and inputs *)

Definition wf_conf (conf : NeighborConf) : Prop :=
  is_u32 (c_LocalAS conf) /\ is_Some (To4 (c_RouterId conf)) /\ Forall is_u16 (c_AfiSafiMap conf) /\
  len (c_AfiSafiMap conf) <= 24.

Lemma wf_conf_ok conf : wf_conf conf -> conf_ok conf.
Proof.
  intros (Has & [id Hid] & Hfam & Hn) holdTime. unfold BGPMessage_Encode, open_message. cbn [Body Header BGPBody_Encode h_Length h_Type].
  destruct (sent_open_spec (c_LocalAS conf) (u16 holdTime) (c_AddPathsRx conf) (c_AddPathsMaxTx conf) (c_AfiSafiMap conf) _ _
    Has (u16_range _) Hid Hfam Hn) as (o & Hwf & He & _).
  unfold to_exec. rewrite He. cbn [exec_bind encode_bind]. destruct (_ && _); [by eexists|]. rewrite header_encode. by eexists.
Qed.

(** A message of the reader: its body is the one that its type names. *)
Definition msg_ok (m : BGPMessage) : Prop :=
  match Body m with
  | Some b => h_Type (Header m) = body_type b
  | None => ~ (1 <= h_Type (Header m) <= 4)
  end.

(** An UPDATE that the server sends has attributes that leave room for a
    route. *)
Definition tx_ok (u : BGPUpdate) : Prop :=
  exists data, Forall (wf_nlri (AddPathsRxActual data) AfiIP) (WithdrawnRoutes u) /\
    Forall (wf_nlri (AddPathsRxActual data) AfiIP) (u_NLRI u) /\ Forall (wf_attr data) (PathAttributes u) /\
    HasMPAttrs (PathAttributes u) = false /\
    BGPUpdateMsgMinLen + len (attrs_wire (PathAttributes u)) + 21 <= BGPMsgMaxLen.

(** The events that the manager sends. *)
Definition command (event : BGPFSMEvent) : bool :=
  match event with
  | BGPEventManualStart | BGPEventManualStop | BGPEventAutoStop | BGPEventManualStartPassTcpEst | BGPEventTcpConnFails => true
  | _ => false
  end.

Definition input_ok (i : input) : Prop :=
  match i with
  | Close => False
  | PktTx _ u _ => tx_ok u
  | PktRx (inl m) _ => msg_ok m
  | EventRx event _ => command event = true
  | _ => True
  end.

Definition run_inputs (conf : NeighborConf) (inputs : list input) : op := run (map (step conf) inputs).

(** ** Safety *)

(** The operation ends and keeps the invariant. *)
Definition keeps (o : op) (s : FSM) : Prop := exists s', o s = Ok s' /\ fsm_inv s'.

Lemma reaches_keeps o s st msgs : reaches o s st msgs -> keeps o s.
Proof. intros (s' & E & _ & _ & Hi). by exists s'. Qed.

Lemma steps_keeps o s : steps o s (view_of s) -> fsm_inv s -> keeps o s.
Proof. intros (s' & E & Ev) Hi. exists s'. split; [done|]. unfold fsm_inv. by rewrite Ev. Qed.

Lemma keeps_cons o ops s : keeps o s -> (forall s1, fsm_inv s1 -> keeps (run ops) s1) -> keeps (run (o :: ops)) s.
Proof. intros (s1 & E & Hi) Hk. destruct (Hk s1 Hi) as (s2 & E2 & H2). exists s2. cbn [run]. by rewrite E. Qed.

Lemma keeps_nil s : fsm_inv s -> keeps (run []) s.
Proof. intros Hi. by exists s. Qed.

Section Runs.
Context (conf : NeighborConf) (Hconf : conf_ok conf).

Lemma event_keeps openOk event data s : fsm_inv s -> data_ok event data -> keeps (ProcessEvent conf openOk event data) s.
Proof using Hconf. intros Hi Hd. eapply reaches_keeps. by apply event_table. Qed.

Lemma packet_keeps openOk pkt s :
  fsm_inv s -> match pkt with inl m => msg_ok m | inr _ => True end -> keeps (ProcessPacket conf openOk pkt) s.
Proof using Hconf.
  intros Hi Hp. unfold keeps, ProcessPacket. destruct pkt as [m|e].
  - destruct m as [[l t] [b|]]; unfold msg_ok in Hp; cbn [Body Header h_Type] in *.
    + subst t. destruct b; cbn [body_type]; apply event_keeps; try done; by repeat eexists.
    + unfold BGPMsgTypeNotification, BGPMsgTypeOpen, BGPMsgTypeUpdate, BGPMsgTypeKeepAlive.
      rewrite !(proj2 (Z.eqb_neq _ _)) by lia. by apply event_keeps.
  - apply event_keeps; [done|]. repeat case_match; try done; by eexists.
Qed.

Lemma updates_keep us writes s :
  fsm_inv s -> v_conn (view_of s) = true ->
  Forall (fun x => exists pkt, BGPMessage_Encode (update_message x) = Ok (Some pkt) /\ len pkt <= BGPMsgMaxLen) us ->
  keeps (send_updates (map update_message us) writes) s.
Proof using.
  clear. intros Hi Hc Hus. revert writes s Hi Hc. induction Hus as [|x us (pkt & Ex & _) _ IH]; intros writes s Hi Hc; [by exists s|].
  unfold keeps. cbn [map send_updates]. rewrite Ex. cbn [exec_bind]. cbn in Hc. destruct (f_peerConn s) eqn:Ep; [|done].
  assert (Hw : exists s1, act (Write (update_message x) pkt) s = Ok s1 /\ fsm_inv s1 /\ v_conn (view_of s1) = true).
  { eexists. split; [reflexivity|]. unfold fsm_inv, view_of. simpl_get. rewrite Ep.
    destruct Hi as [I1 I2 I3 I4 I5]. split; [split|]; cbn in *; rewrite ?Ep in *; done. }
  destruct Hw as (s1 & -> & Hi1 & Hc1). cbn [exec_bind].
  destruct (match writes with b :: _ => b | [] => true end); [|by exists s1].
  destruct (StartKeepAliveTimer_steps s1 _ eq_refl) as (s2 & E2 & Ev2). cbn [run]. rewrite E2. cbn [exec_bind].
  assert (Hi2 : fsm_inv s2 /\ v_conn (view_of s2) = true).
  { destruct Hi1 as [I1 I2 I3 I4 I5]. unfold fsm_inv. rewrite Ev2. split; [|done].
    split; simpl_get; try done. intros Hn. rewrite Hc1 in I1. congruence. }
  destruct (IH (tail writes) s2 (proj1 Hi2) (proj2 Hi2)) as (s3 & E3 & Hi3). exists s3. by rewrite E3.
Qed.

Lemma tx_keeps room u writes s : fsm_inv s -> tx_ok u -> is_established (f_State s) = true -> keeps (sendUpdateMessage room u writes) s.
Proof using.
  clear Hconf. intros Hi (data & Hw & Hn & Ha & Hmp & Hfit) He. unfold keeps, sendUpdateMessage.
  destruct (split_spec data room u Hw Hn Ha Hmp Hfit) as (us & -> & _ & _ & Hg). cbn [exec_bind]. apply updates_keep; [done | |].
  - rewrite (vi_conn _ Hi). change (v_st (view_of s)) with (f_State s). unfold connected, is_established in *.
    apply Z.eqb_eq in He. by rewrite He.
  - clear - Hg Ha. induction Hg; constructor; [by eapply good_encode | done].
Qed.

Lemma step_keeps i s : fsm_inv s -> input_ok i -> keeps (step conf i) s.
Proof using Hconf.
  intros Hi Hok. destruct i; cbn [input_ok] in Hok; unfold keeps; cbn [step].
  - destruct (f_outTCPConn s); cbn [negb]; [|by exists s].
    apply keeps_cons; [by apply steps_keeps, Hi; apply StopConnToPeer_steps | intros s1 H1].
    apply keeps_cons; [apply event_keeps; [done | by eexists] | by apply keeps_nil].
  - destruct (StopConnToPeer_steps s _ eq_refl) as (s1 & -> & Ev). cbn [exec_bind].
    assert (Hi1 : fsm_inv s1) by (unfold fsm_inv; by rewrite Ev). destruct (_ && _); [by exists s1|].
    apply keeps_cons; [by apply event_keeps | intros s2 H2]. apply keeps_cons; [|by apply keeps_nil].
    unfold keeps. destruct (f_close s2); [by exists s2 | by apply steps_keeps; [apply act_steps|]].
  - apply event_keeps; [done | by eexists].
  - done.
  - eexists. split; [reflexivity|]. destruct Hi as [I1 I2 I3 I4 I5]. by split.
  - destruct (is_established (f_State s)) eqn:He; [by apply tx_keeps | by exists s].
  - apply packet_keeps; [done|]. by destruct pkt.
  - apply keeps_cons; [|intros s1 H1; apply keeps_cons; [apply event_keeps; [done | by destruct event]|
      intros s2 H2; apply keeps_cons; [by eexists | intros s3 H3; apply keeps_cons; [by apply event_keeps | by apply keeps_nil]]]].
    unfold keeps. destruct maxPrefix; by eexists.
  - apply keeps_cons; [|intros s2 H2; apply keeps_cons; [by apply event_keeps | by apply keeps_nil]].
    unfold keeps. destruct (_ || _); [by apply event_keeps | by exists s].
  - by apply event_keeps.
  - by apply event_keeps.
  - by apply event_keeps.
  - by apply event_keeps.
  - unfold sendAutoStartEvent. apply event_keeps; [done|]. by destruct (f_passiveTcpEst s), (f_dampPeerOscl s).
Qed.

Lemma inputs_keep inputs s : fsm_inv s -> Forall input_ok inputs -> keeps (run_inputs conf inputs) s.
Proof using Hconf.
  intros Hi His. revert s Hi. induction His as [|i inputs Hi' _ IH]; intros s Hi; [by exists s|].
  apply keeps_cons; [by apply step_keeps | intros s1 H1]. by apply IH.
Qed.

(** The states in which the manager starts a machine. *)
Definition start_state (st : BaseState) : Prop := st = IdleState false \/ st = ConnectState \/ st = ActiveState.

Lemma start_keeps st : start_state st -> exists s, StartFSM conf st = Ok s /\ fsm_inv s.
Proof using Hconf.
  intros Hst. unfold StartFSM. set (s0 := NewFSM conf <| f_State := st |>).
  assert (Hv : view_of s0 = mkView st false None None false (c_HoldTime conf) (c_KeepaliveTime conf) false false false []) by done.
  apply keeps_cons; [|intros s1 H1; apply keeps_cons; [by apply event_keeps | by apply keeps_nil]].
  assert (Hother : st <> ConnectState \/ c_BfdDown conf = false -> keeps (enter conf st) s0).
  { intros Hne. assert (Hs : steps (enter conf st) s0 (enter_view (view_of s0))).
    { unfold enter. destruct st; try (by apply enter_other_steps). destruct Hne as [|Hb]; [done|]. rewrite Hb.
      eapply steps_cons; [by apply act_steps | intros s1 H1].
      eapply steps_cons; [by apply InitiateConnToPeer_steps | intros s2 H2]. by apply steps_nil. }
    destruct Hs as (s1 & E1 & Ev). exists s1. split; [done|]. unfold fsm_inv. rewrite Ev, Hv.
    destruct Hst as [-> | [-> | ->]]; by split. }
  destruct st; try (by apply Hother; left); [|by destruct Hst as [|[|]]..]. destruct (c_BfdDown conf) eqn:Eb; [|by apply Hother; right].
  unfold enter. rewrite Eb. destruct (change_to_steps conf ActiveState s0 _ Hv) as (s1 & E1 & Ev); try done.
  exists s1. split; [done|]. unfold fsm_inv. rewrite Ev. by split.
Qed.
End Runs.

(** C1: From its start, through any connections, packets, timers, commands, BFD
    changes and IPv4 updates to send, until it is closed, the machine never
    dereferences a missing connection; it has a connection exactly in OpenSent,
    OpenConfirm and Established, runs the hold and keepalive timers only with one,
    and an idle machine has a restart pending. *)
Theorem fsm_runs_safely conf st inputs :
  wf_conf conf -> start_state st -> Forall input_ok inputs ->
  exists s0 s, StartFSM conf st = Ok s0 /\ run_inputs conf inputs s0 = Ok s /\
    (f_peerConn s <> None <-> 4 <= state (f_State s)) /\
    (state (f_State s) < 4 -> f_holdTimer s = None /\ f_keepAliveTimer s = None) /\
    (state (f_State s) = 1 -> f_restartTimer s <> None).
Proof.
  intros Hc%wf_conf_ok Hst Hin. destruct (start_keeps conf Hc st Hst) as (s0 & E0 & H0).
  destruct (inputs_keep conf Hc inputs s0 H0 Hin) as (s & Es & [I1 I2 I3 I4 I5]). exists s0, s. split; [done|]. split; [done|].
  cbn in *. unfold connected in *. split; [|split].
  - destruct (f_peerConn s); symmetry in I1; [apply Z.leb_le in I1 | apply Z.leb_gt in I1]; split; try done; lia.
  - intros Hl. apply I2, Z.leb_gt. done.
  - intros Hl. specialize (I3 Hl). by destruct (f_restartTimer s).
Qed.

(** C4: Every event in every state, with the data that belongs to it, is handled
    without a crash, leads to the state of the table and writes the messages of
    the table. *)
Theorem fsm_follows_table conf openOk event data s :
  wf_conf conf -> fsm_inv s -> data_ok event data ->
  exists s', ProcessEvent conf openOk event data s = Ok s' /\ fsm_inv s' /\
    f_State s' = next_state conf openOk (f_State s) event /\
    messages (f_out s') = messages (f_out s) ++ sent conf openOk (f_holdTime s) (f_State s) event data.
Proof.
  intros Hc%wf_conf_ok Hi Hd. destruct (event_table conf openOk event data s Hc Hi Hd) as (s' & E & Est & Em & Hi').
  by exists s'.
Qed.

(** ** Idle *)

Lemma auto_start_leaves conf openOk st : state (next_state conf openOk st BGPEventAutoStart) <> 1.
Proof. destruct st; cbn; unfold dial; try destruct (c_BfdDown conf); done. Qed.

(** An idle machine does not stay idle: a restart is pending, and when it is
    due the machine connects or listens. *)
Theorem idle_is_left conf s :
  wf_conf conf -> fsm_inv s -> state (f_State s) = 1 ->
  f_restartTimer s <> None /\
  exists s', step conf RestartTimerExp s = Ok s' /\ (f_State s' = ConnectState \/ f_State s' = ActiveState).
Proof.
  intros Hc%wf_conf_ok Hi Hst. pose proof Hi as [_ _ I3 I4 _]. cbn in I3, I4. split.
  { specialize (I3 Hst). by destruct (f_restartTimer s). }
  cbn [step]. unfold sendAutoStartEvent. rewrite I4. destruct (f_State s) eqn:E; try done.
  destruct (f_passiveTcpEst s).
  - destruct (event_table conf no_open BGPEventAutoStartPassTcpEst NoData s Hc Hi I) as (s' & -> & Est & _).
    exists s'. split; [done|]. rewrite Est, E. by right.
  - destruct (event_table conf no_open BGPEventAutoStart NoData s Hc Hi I) as (s' & -> & Est & _).
    exists s'. split; [done|]. rewrite Est, E. cbn. unfold dial. destruct (c_BfdDown conf); [by right | by left].
Qed.

(** A command of the manager never leaves the machine idle, not even the
    command to stop: the start that follows it at once does not wait for the
    restart timer. *)
Theorem stop_command_restarts conf event maxPrefix s :
  wf_conf conf -> fsm_inv s -> command event = true ->
  exists s', step conf (EventRx event maxPrefix) s = Ok s' /\ state (f_State s') <> 1.
Proof.
  intros Hc%wf_conf_ok Hi Hcmd. cbn [step run].
  set (s1 := if maxPrefix then s <| f_restartTime := c_MaxPrefixesRestartTimer conf |> else s). cbn [exec_bind].
  assert (Hi1 : fsm_inv s1) by (by destruct maxPrefix).
  destruct (event_table conf no_open event NoData s1 Hc Hi1) as (s2 & -> & _ & _ & Hi2); [by destruct event|]. cbn [exec_bind].
  set (s3 := s2 <| f_restartTime := BGPRestartTimeDefault |>). assert (Hi3 : fsm_inv s3) by done.
  destruct (event_table conf no_open BGPEventAutoStart NoData s3 Hc Hi3 I) as (s4 & -> & Est & _). cbn [exec_bind].
  exists s4. split; [done|]. rewrite Est. apply auto_start_leaves.
Qed.

(** ** The hold time *)

Lemma open_times conf openOk h o s v :
  view_of s = v -> view_inv v -> v_st v = OpenSentState -> openOk = true ->
  exists s', ProcessEvent conf openOk BGPEventBGPOpen (MsgData (mkMessage h (Some (OpenBody o)))) s = Ok s' /\
    let w := open_view o v in
    view_of s' = w <| v_st := OpenConfirmState |> <| v_msgs := v_msgs v ++ [NewBGPKeepAliveMessage] |>
                   <| v_keep := if v_keepTime w =? 0 then None else Some (v_keepTime w) |>
                   <| v_hold := if v_holdTime w =? 0 then None else Some (v_holdTime w) |>.
Proof.
  intros Hs [Hc _ _ Hd Hcl] Hst ->. assert (Est : f_State s = OpenSentState) by (by rewrite <- Hst, <- Hs).
  unfold ProcessEvent. rewrite Est. cbn [OpenSent_processEvent run]. rewrite Hst in Hc.
  destruct (StopConnectRetryTimer_steps s v Hs) as (s1 & -> & H1). cbn [exec_bind with_msg].
  destruct (process_open_steps conf true h o s1 v H1 Hc) as (s2 & -> & H2). cbn [exec_bind].
  destruct (open_view_other o v) as (O1 & O2 & O3 & O4 & O5 & O6).
  destruct (keepalive_steps s2 _ H2) as (s3 & -> & H3); [by rewrite O2|]. cbn [exec_bind].
  destruct (StartHoldTimer_steps s3 _ H3) as (s4 & -> & H4). cbn [exec_bind].
  destruct (ChangeState_steps conf OpenConfirmState s4 _ H4) as (s5 & -> & H5); [by simpl_get; rewrite O5 | done |].
  cbn [exec_bind]. exists s5. split; [done|]. rewrite H5. unfold changed, enter_view, leave_view. simpl_get. cbn [settled].
  rewrite O1, Hst, O6. done.
Qed.

Lemma keepalive_times conf b s v :
  view_of s = v -> view_inv v -> v_st v = OpenConfirmState ->
  exists s', ProcessEvent conf b BGPEventKeepAliveMsg (MsgData NewBGPKeepAliveMessage) s = Ok s' /\
    f_State s' = EstablishedState /\
    view_of s' = set_times (c_HoldTime conf) (c_KeepaliveTime conf)
                   (v <| v_hold := if v_holdTime v =? 0 then None else Some (v_holdTime v) |>) <| v_st := EstablishedState |>.
Proof.
  intros Hs [Hc _ _ Hd Hcl] Hst. assert (Est : f_State s = OpenConfirmState) by (by rewrite <- Hst, <- Hs).
  unfold ProcessEvent. rewrite Est. cbn [OpenConfirm_processEvent run]. rewrite Hst in Hc.
  destruct (StartHoldTimer_steps s v Hs) as (s1 & -> & H1). cbn [exec_bind].
  destruct (ChangeState_steps conf EstablishedState s1 _ H1) as (s2 & -> & H2); [done | done |]. cbn [exec_bind].
  exists s2. split; [done|]. change (f_State s2) with (v_st (view_of s2)). rewrite H2.
  unfold changed, enter_view, leave_view. simpl_get. rewrite Hst. done.
Qed.

Lemma fsm_times s v : view_of s = v ->
  f_State s = v_st v /\ f_holdTime s = v_holdTime v /\ f_keepAliveTime s = v_keepTime v /\
  f_holdTimer s = v_hold v /\ f_keepAliveTimer s = v_keep v.
Proof. by intros <-. Qed.

(** C36: The peer offers a shorter hold time and the machine takes it, with a third
    of it between keepalives; but when the session is established the times are
    again those of the configuration: the next keepalive timer and the next hold
    timer are started with them. *)
Theorem negotiated_times_forgotten conf h o b1 b2 s :
  wf_conf conf -> fsm_inv s -> f_State s = OpenSentState -> h_Type h = BGPMsgTypeOpen ->
  3 <= HoldTime o < f_holdTime s -> 3 <= c_HoldTime conf -> 0 < c_KeepaliveTime conf ->
  exists s1 s2 s3 s4,
    step conf (PktRx (inl (mkMessage h (Some (OpenBody o)))) true) s = Ok s1 /\
    f_holdTimer s1 = Some (HoldTime o) /\ f_keepAliveTimer s1 = Some (HoldTime o / 3) /\
    step conf (PktRx (inl NewBGPKeepAliveMessage) b1) s1 = Ok s2 /\ f_State s2 = EstablishedState /\
    step conf KeepAliveTimerExp s2 = Ok s3 /\ f_keepAliveTimer s3 = Some (c_KeepaliveTime conf) /\
    step conf (PktRx (inl NewBGPKeepAliveMessage) b2) s2 = Ok s4 /\ f_holdTimer s4 = Some (c_HoldTime conf).
Proof.
  intros Hc%wf_conf_ok Hi Hst Hh Ho Hch Hck. cbn [step]. unfold ProcessPacket. cbn [Header Body h_Type NewBGPKeepAliveMessage].
  rewrite Hh. cbn [Z.eqb Pos.eqb BGPMsgTypeNotification BGPMsgTypeOpen BGPMsgTypeUpdate BGPMsgTypeKeepAlive].
  destruct (open_times conf true h o s (view_of s) eq_refl Hi Hst eq_refl) as (s1 & E1 & H1).
  destruct (event_table conf true BGPEventBGPOpen (MsgData (mkMessage h (Some (OpenBody o)))) s Hc Hi) as (s1' & E1' & _ & _ & Hi1);
    [by repeat eexists|]. rewrite E1 in E1'. injection E1' as <-.
  set (w := open_view o (view_of s)) in *. cbv zeta in H1.
  assert (Hw : v_holdTime w = HoldTime o /\ v_keepTime w = HoldTime o / 3).
  { unfold w, open_view, set_times. change (v_holdTime (view_of s)) with (f_holdTime s). rewrite (proj2 (Z.ltb_lt _ _)) by lia.
    by rewrite (proj2 (Z.ltb_ge (HoldTime o) 3)), andb_false_r by lia. }
  destruct Hw as [Hwh Hwk]. rewrite Hwh, Hwk in H1.
  destruct (fsm_times s1 _ H1) as (_ & T1 & T2 & T3 & T4).
  destruct (keepalive_times conf b1 s1 (view_of s1) eq_refl Hi1) as (s2 & E2 & Est2 & H2); [by rewrite H1|].
  assert (Hi2 : fsm_inv s2).
  { destruct (event_table conf b1 BGPEventKeepAliveMsg (MsgData NewBGPKeepAliveMessage) s1 Hc Hi1 I) as (s2' & E2' & _ & _ & Hi2).
    rewrite E2 in E2'. by injection E2' as <-. }
  assert (Htimes : v_holdTime (view_of s2) = c_HoldTime conf /\ v_keepTime (view_of s2) = c_KeepaliveTime conf).
  { rewrite H2. simpl_get. unfold set_times. by rewrite (proj2 (Z.ltb_ge (c_HoldTime conf) 3)), andb_false_r by lia. }
  destruct Htimes as [Hth Htk].
  destruct (keepalive_steps s2 _ eq_refl) as (s3 & E3 & H3); [by rewrite (vi_conn _ Hi2); cbn; rewrite Est2|].
  destruct (StartHoldTimer_steps s2 _ eq_refl) as (s4 & E4 & H4).
  exists s1, s2, s3, s4. split; [done|]. split; [rewrite T3; simpl_get; by rewrite (proj2 (Z.eqb_neq _ _)) by lia|].
  split; [rewrite T4; simpl_get; rewrite (proj2 (Z.eqb_neq _ _)); [done | Z.div_mod_to_equations; lia]|].
  split; [done|]. split; [done|]. unfold ProcessEvent. rewrite Est2. cbn [Established_processEvent].
  split; [done|]. destruct (fsm_times s3 _ H3) as (_ & _ & _ & _ & ->). destruct (fsm_times s4 _ H4) as (_ & _ & _ & -> & _).
  simpl_get. rewrite Hth, Htk, !(proj2 (Z.eqb_neq _ _)) by lia. done.
Qed.

(** ** Two speakers *)

(** The octets of an encoded message are read as a message. *)
Definition read_as (fuel : nat) (conf : NeighborConf) (p : PeerConn) (m : BGPMessage) (p' : PeerConn) (m' : BGPMessage) : Prop :=
  exists pkt, BGPMessage_Encode m = Ok (Some pkt) /\ read_message fuel conf p pkt = Ok (p', inl m', true).

Lemma read_header fuel conf p l t body :
  is_u16 l -> l = 19 + len body ->
  read_message fuel conf p ((replicate 16 255 ++ PutUint16 l ++ [t]) ++ body) = DecodeMessage fuel conf p (mkHeader l t) body.
Proof.
  intros Hl El. unfold read_message. rewrite slice_to_app by done. cbn [exec_bind]. rewrite header_decode by done.
  cbn [exec_bind]. unfold BGPHeader_Len. cbn [h_Length]. unfold BGPMsgHeaderLen. pose proof (len_nonneg body).
  destruct (Z.ltb_spec 19 l) as [H1|H1].
  - rewrite <- (app_nil_r body) at 1. rewrite slice_mid; [done | done | by rewrite El].
  - assert (Eb : body = []) by (destruct body; [done | rewrite len_cons in *; pose proof (len_nonneg body); lia]). by rewrite Eb.
Qed.

Lemma read_open fuel conf peer p holdTime :
  wf_conf peer -> (4096 <= fuel)%nat ->
  exists h o p', read_as fuel conf p (open_message peer holdTime) p' (mkMessage h (Some (OpenBody o))) /\
    h_Type h = BGPMsgTypeOpen /\ HoldTime o = u16 holdTime /\ GetProtocolFromOpenMsg o = list_to_set (c_AfiSafiMap peer) /\
    pa_ASSize (pc_attrs p') = 4 /\
    AddPathsRxActual (pc_attrs p') = c_AddPathsRx conf && (0 <? c_AddPathsMaxTx peer) &&
      negb (bool_decide (c_AfiSafiMap peer = [])) || AddPathsRxActual (pc_attrs p).
Proof.
  intros (Has & [id Hid] & Hfam & Hn) Hfuel.
  destruct (sent_open_spec (c_LocalAS peer) (u16 holdTime) (c_AddPathsRx peer) (c_AddPathsMaxTx peer) (c_AfiSafiMap peer) _ _
    Has (u16_range _) Hid Hfam Hn) as (o & Hwf & He & Hone & _ & _ & Hh & _ & Hsz & Hf & Hap).
  pose proof (len_open_bytes o Hwf) as Hlen. pose proof (len_nonneg (open_bytes o)).
  set (l := 19 + len (open_bytes o)). assert (Hl : is_u16 l) by (unfold is_u16, l; lia).
  exists (mkHeader l BGPMsgTypeOpen), o. eexists. split; [|split; [done|]; split; [done|]; split; [done|]; split].
  - exists ((replicate 16 255 ++ PutUint16 l ++ [BGPMsgTypeOpen]) ++ open_bytes o). split.
    + unfold BGPMessage_Encode, open_message. cbn [Body Header BGPBody_Encode h_Length h_Type]. unfold to_exec. rewrite He.
      cbn [exec_bind encode_bind]. fold l. unfold BGPMsgHeaderLen, BGPMsgMaxLen. fold l.
      rewrite (proj2 (Z.ltb_ge 4096 l)) by (unfold l; lia). cbn [Z.eqb andb]. by rewrite u16_small, header_encode by done.
    + rewrite read_header by done. unfold DecodeMessage, BGPMessage_Decode. cbn [h_Type Z.eqb Pos.eqb BGPMsgTypeOpen].
      rewrite open_decode; [|done|unfold len in Hone; lia]. cbn [result_bind exec_bind Body]. reflexivity.
  - done.
  - cbn [pc_attrs AddPathsRxActual]. rewrite Hap. by destruct (c_AddPathsRx conf), (0 <? c_AddPathsMaxTx peer), (bool_decide _).
Qed.

Lemma read_keepalive fuel conf p : exists m, read_as fuel conf p NewBGPKeepAliveMessage p m /\ m = NewBGPKeepAliveMessage.
Proof.
  eexists. split; [|reflexivity]. exists ((replicate 16 255 ++ PutUint16 19 ++ [BGPMsgTypeKeepAlive]) ++ []). split; [done|].
  by rewrite (read_header fuel conf p 19 BGPMsgTypeKeepAlive []).
Qed.

(** C12: A speaker that waits for a connection and reads what another speaker sends
    becomes established with it: it sends its OPEN, reads the OPEN of the peer,
    sends a KEEPALIVE, and reads the KEEPALIVE of the peer; from the OPEN on it
    reads four-octet AS numbers. *)
Theorem speaker_establishes conf peer s d1 d2 id holdTime fuel :
  wf_conf conf -> wf_conf peer -> fsm_inv s -> f_State s = ConnectState \/ f_State s = ActiveState -> (4096 <= fuel)%nat ->
  exists o k p,
    read_as fuel conf (NewPeerConn ConnDirIn id) (open_message peer holdTime) p o /\ pa_ASSize (pc_attrs p) = 4 /\
    read_as fuel conf p NewBGPKeepAliveMessage p k /\
    exists s', run_inputs conf [InConn d1 d2; PktRx (inl o) true; PktRx (inl k) true] s = Ok s' /\
      f_State s' = EstablishedState /\ fsm_inv s' /\
      messages (f_out s') = messages (f_out s) ++ [open_message conf (f_holdTime s); NewBGPKeepAliveMessage].
Proof.
  intros Hc%wf_conf_ok Hp Hi Hst Hf.
  destruct (read_open fuel conf peer (NewPeerConn ConnDirIn id) holdTime Hp Hf) as (h & o & p & Hro & Hh & _ & _ & Hsz & _).
  destruct (read_keepalive fuel conf p) as (k & Hrk & ->).
  exists (mkMessage h (Some (OpenBody o))), NewBGPKeepAliveMessage, p. split; [done|]. split; [done|]. split; [done|].
  cbn [run_inputs map run step]. set (c := mkConnDir ConnDirIn d1 d2).
  destruct (event_table conf no_open BGPEventTcpConnConfirmed (ConnData c) s Hc Hi) as (s1 & -> & E1 & M1 & Hi1); [by eexists|].
  assert (E1' : f_State s1 = OpenSentState) by (rewrite E1; by destruct Hst as [-> | ->]).
  assert (M1' : messages (f_out s1) = messages (f_out s) ++ [open_message conf (f_holdTime s)]).
  { rewrite M1. by destruct Hst as [-> | ->]. }
  cbn [exec_bind]. unfold ProcessPacket. cbn [Header Body h_Type NewBGPKeepAliveMessage]. rewrite Hh.
  cbn [Z.eqb Pos.eqb BGPMsgTypeNotification BGPMsgTypeOpen BGPMsgTypeUpdate BGPMsgTypeKeepAlive].
  destruct (event_table conf true BGPEventBGPOpen (MsgData (mkMessage h (Some (OpenBody o)))) s1 Hc Hi1) as (s2 & -> & E2 & M2 & Hi2);
    [by repeat eexists|]. rewrite E1' in E2, M2. cbn [exec_bind].
  destruct (event_table conf true BGPEventKeepAliveMsg (MsgData NewBGPKeepAliveMessage) s2 Hc Hi2 I) as (s3 & E3' & E3 & M3 & Hi3).
  rewrite E2 in E3, M3. exists s3. change (mkMessage (mkHeader 19 4) (Some KeepAliveBody)) with NewBGPKeepAliveMessage.
  rewrite E3'. split; [done|]. split; [done|]. split; [done|]. rewrite M3, M2, M1'. cbn [sent next_state]. by rewrite app_nil_r, <- app_assoc.
Qed.

(** ** Examples *)

Definition demo_conf : NeighborConf := mkConf 90 30 60 65001 65001 [10; 0; 0; 1] [257] false 0 240 false false.

Lemma demo_conf_wf : wf_conf demo_conf.
Proof.
  split; [done|]. split; [by eexists|]. split; [constructor; [done | constructor] | done].
Qed.

Definition demo_idle : FSM := NewFSM demo_conf <| f_restartTimer := Some 1 |>.
Definition demo_active : FSM := NewFSM demo_conf <| f_State := ActiveState |>.
Definition demo_opensent : FSM :=
  NewFSM demo_conf <| f_State := OpenSentState |> <| f_peerConn := Some (NewPeerConn ConnDirOut 7) |>.

Lemma demo_idle_inv : fsm_inv demo_idle.
Proof. by split. Qed.
Lemma demo_active_inv : fsm_inv demo_active.
Proof. by split. Qed.
Lemma demo_opensent_inv : fsm_inv demo_opensent.
Proof. by split. Qed.

Lemma fsm_runs_safely_witness :
  exists s0 s, StartFSM demo_conf (IdleState false) = Ok s0 /\ run_inputs demo_conf [InConn 1 2; HoldTimerExp; BfdStatus false] s0 = Ok s /\
    (f_peerConn s <> None <-> 4 <= state (f_State s)) /\
    (state (f_State s) < 4 -> f_holdTimer s = None /\ f_keepAliveTimer s = None) /\
    (state (f_State s) = 1 -> f_restartTimer s <> None).
Proof.
  apply (fsm_runs_safely demo_conf (IdleState false) [InConn 1 2; HoldTimerExp; BfdStatus false]);
    [exact demo_conf_wf | by left | repeat constructor].
Defined.

Lemma fsm_follows_table_witness :
  fsm_inv demo_opensent /\
  exists s', ProcessEvent demo_conf true BGPEventHoldTimerExp NoData demo_opensent = Ok s' /\ fsm_inv s' /\
    f_State s' = IdleState false /\
    messages (f_out s') = messages (f_out demo_opensent) ++ [NewBGPNotificationMessage BGPHoldTimerExpired 0 []].
Proof.
  split; [exact demo_opensent_inv|].
  apply (fsm_follows_table demo_conf true BGPEventHoldTimerExp NoData demo_opensent);
    [exact demo_conf_wf | exact demo_opensent_inv | exact I].
Defined.

Lemma idle_is_left_witness :
  f_restartTimer demo_idle <> None /\
  exists s', step demo_conf RestartTimerExp demo_idle = Ok s' /\ (f_State s' = ConnectState \/ f_State s' = ActiveState).
Proof.
  apply (idle_is_left demo_conf demo_idle); [exact demo_conf_wf | exact demo_idle_inv | reflexivity].
Defined.

Lemma stop_command_restarts_witness :
  exists s', step demo_conf (EventRx BGPEventManualStop false) demo_opensent = Ok s' /\ state (f_State s') <> 1.
Proof.
  apply (stop_command_restarts demo_conf BGPEventManualStop false demo_opensent);
    [exact demo_conf_wf | exact demo_opensent_inv | reflexivity].
Defined.

(** The peer offers nine seconds. *)
Definition demo_offer : BGPOpen := mkOpen 4 65002 9 [10; 0; 0; 2] 0 [].

Lemma negotiated_times_forgotten_witness :
  HoldTime demo_offer = 9 /\ c_HoldTime demo_conf = 90 /\
  exists s1 s2 s3 s4,
    step demo_conf (PktRx (inl (mkMessage (mkHeader 29 BGPMsgTypeOpen) (Some (OpenBody demo_offer)))) true) demo_opensent = Ok s1 /\
    f_holdTimer s1 = Some 9 /\ f_keepAliveTimer s1 = Some 3 /\
    step demo_conf (PktRx (inl NewBGPKeepAliveMessage) false) s1 = Ok s2 /\ f_State s2 = EstablishedState /\
    step demo_conf KeepAliveTimerExp s2 = Ok s3 /\ f_keepAliveTimer s3 = Some 30 /\
    step demo_conf (PktRx (inl NewBGPKeepAliveMessage) false) s2 = Ok s4 /\ f_holdTimer s4 = Some 90.
Proof.
  split; [reflexivity|]. split; [reflexivity|].
  apply (negotiated_times_forgotten demo_conf (mkHeader 29 BGPMsgTypeOpen) demo_offer false false demo_opensent);
    [exact demo_conf_wf | exact demo_opensent_inv | reflexivity | reflexivity | cbn; lia | cbn; lia | cbn; lia].
Defined.

Lemma speaker_establishes_witness :
  exists o k p,
    read_as 4096 demo_conf (NewPeerConn ConnDirIn 7) (open_message demo_conf 90) p o /\ pa_ASSize (pc_attrs p) = 4 /\
    read_as 4096 demo_conf p NewBGPKeepAliveMessage p k /\
    exists s', run_inputs demo_conf [InConn 1 2; PktRx (inl o) true; PktRx (inl k) true] demo_active = Ok s' /\
      f_State s' = EstablishedState /\ fsm_inv s' /\
      messages (f_out s') = [open_message demo_conf 90; NewBGPKeepAliveMessage].
Proof.
  apply (speaker_establishes demo_conf demo_conf demo_active 1 2 7 90 4096);
    [exact demo_conf_wf | exact demo_conf_wf | exact demo_active_inv | by right | apply le_n].
Defined.
