(* ===== verification/BgpManager.v ===== *)
(** * The manager of a neighbour's state machines

    [l3/bgp/fsm/fsm_manager.go]: a neighbour has one machine, and two while two
    connections collide.  The manager knows which of them is established, opens
    and closes them and decides a collision.  What is sent to a machine, to the
    server and to the neighbour's configuration is kept as actions.  The mutex
    is a flag, and locking it twice never returns.

    The channels are the ones of [NewFSM] and of [NewBGPServer], with their
    capacities: the manager waits at a full one, and at one without buffer until
    the machine is back at its [select].  A machine that waits for the manager's
    mutex does not come back while the mutex is held, so that such a wait is
    [Hang]; the server, which takes from [fsmConnCh], is not waited for either.
    [mgr_step] is a turn of the loop of [Init], or a call by a machine or by the
    peer; in between, the machines and the server move on by themselves. *)

From S2P Require Import Prelude BgpWire BgpOpen BgpAttr BgpUpdate BgpSplit BgpFsm.

Definition ConnDirInvalid : Z := 2.

Inductive mgr_action :=
| ToFSM (id : Z) (i : input)
| PeerFSMConn (established : bool)
| FSMStateChange (st : Z)
| SetPeerAttrs (bgpId : list Z) (asSize holdTime keepaliveTime : Z)
| CloseConn.

(** ** The channels of a machine *)

Inductive fsm_chan : Set := outConnCh | inConnCh | closeCh | passiveTcpEstCh | pktTxCh | eventRxCh | bfdStatusCh.

Definition capacity (c : fsm_chan) : nat :=
  match c with
  | outConnCh => 3
  | closeCh | passiveTcpEstCh => 2
  | eventRxCh | bfdStatusCh => 5
  | inConnCh | pktTxCh => 0
  end.

(** What waits in them, and whether the machine gets back to its [select]
    without the manager's mutex. *)
Record Mailbox := mkMailbox { mb_count : fsm_chan -> nat; mb_select : bool }.

Definition new_mailbox : Mailbox := mkMailbox (fun _ => 0%nat) true.

#[export] Instance fsm_chan_eq_dec : EqDecision fsm_chan.
Proof. solve_decision. Defined.

Definition fsmConnCh_capacity : nat := 50.

Record FSMManager := mkManager {
  m_fsms : gmap Z FSM;
  m_mail : gmap Z Mailbox;
  m_acceptConn : bool;
  m_activeFSM : Z;
  m_locked : bool;
  m_connCh : nat;          (* the messages that wait in [fsmConnCh] *)
  m_out : list mgr_action
}.
#[export] Instance FSMManager_settable : Settable FSMManager :=
  fun m => mkManager (m_fsms m) (m_mail m) (m_acceptConn m) (m_activeFSM m) (m_locked m) (m_connCh m) (m_out m).

Definition mgr_act (a : mgr_action) (m : FSMManager) : FSMManager := m <| m_out := m_out m ++ [a] |>.

Definition mailbox (id : Z) (m : FSMManager) : Mailbox := default new_mailbox (m_mail m !! id).

(** [fsm.c <- i] *)
Definition can_take (c : fsm_chan) (mb : Mailbox) : bool := mb_select mb || (mb_count mb c <? capacity c)%nat.

Definition put_in (c : fsm_chan) (mb : Mailbox) : Mailbox :=
  mkMailbox (fun c' => if decide (c' = c) then Nat.min (S (mb_count mb c)) (capacity c) else mb_count mb c') (mb_select mb).

Definition send_fsm (c : fsm_chan) (id : Z) (i : input) (m : FSMManager) : exec FSMManager :=
  if can_take c (mailbox id m)
  then Ok (mgr_act (ToFSM id i) (m <| m_mail ::= <[id := put_in c (mailbox id m)]> |>))
  else Hang.

(** [mgr.fsmConnCh <- PeerFSMConn{...}] *)
Definition send_conn (established : bool) (m : FSMManager) : exec FSMManager :=
  if (m_connCh m <? fsmConnCh_capacity)%nat
  then Ok (mgr_act (PeerFSMConn established) (m <| m_connCh ::= S |>))
  else Hang.

(** [Lock] and the deferred [Unlock]. *)
Definition with_lock {A} (k : FSMManager -> exec (A * FSMManager)) (m : FSMManager) : exec (A * FSMManager) :=
  if m_locked m then Hang
  else let! (a, m) := k (m <| m_locked := true |>) in Ok (a, m <| m_locked := false |>).

Definition locked_update (k : FSMManager -> exec FSMManager) (m : FSMManager) : exec FSMManager :=
  let! (_, m) := with_lock (fun m => let! m := k m in Ok (tt, m)) m in Ok m.

Definition mgr_AcceptPeerConn (m : FSMManager) : FSMManager := m <| m_acceptConn := true |>.
Definition mgr_RejectPeerConn (m : FSMManager) : FSMManager := m <| m_acceptConn := false |>.

Definition fsmEstablished (id : Z) (m : FSMManager) : exec FSMManager :=
  match m_fsms m !! id with
  | Some _ => send_conn true (m <| m_activeFSM := id |>)
  | None => Ok m
  end.

Definition fsmBroken (id : Z) (m : FSMManager) : exec FSMManager :=
  if m_activeFSM m =? id then send_conn false (m <| m_activeFSM := ConnDirInvalid |>) else Ok m.

Definition fsmStateChange (id st : Z) (m : FSMManager) : exec FSMManager :=
  locked_update (fun m =>
    Ok (if (m_activeFSM m =? id) || (m_activeFSM m =? ConnDirInvalid) then mgr_act (FSMStateChange st) m else m)) m.

Definition fsmClose (id : Z) (m : FSMManager) : exec FSMManager :=
  match m_fsms m !! id with
  | Some _ =>
      let! m := send_fsm closeCh id Close m in
      let! m := fsmBroken id m in
      Ok (m <| m_fsms ::= delete id |>)
  | None => Ok m
  end.

Definition fsmTcpConnFailed (id : Z) (m : FSMManager) : exec FSMManager :=
  locked_update (fun m =>
    if negb (size (m_fsms m) =? 1)%nat && negb (m_activeFSM m =? id) then fsmClose id m else Ok m) m.

(** The identifiers of the machines, in the order of the loops. *)
Definition fsm_ids (m : FSMManager) : list Z := map fst (map_to_list (m_fsms m)).

Definition handleBfdStatusChange (status : bool) (m : FSMManager) : exec FSMManager :=
  locked_update (fun m => for_each (fun id => send_fsm bfdStatusCh id (BfdStatus status)) (fsm_ids m) m) m.

(** The mutex is held while the message is handed over. *)
Definition SendUpdateMsg (room : nat) (msg : BGPUpdate) (writes : list bool) (m : FSMManager) : exec FSMManager :=
  locked_update (fun m =>
    if m_activeFSM m =? ConnDirInvalid then Ok m
    else match m_fsms m !! m_activeFSM m with
         | Some _ => send_fsm pktTxCh (m_activeFSM m) (PktTx room msg writes) m
         | None => Panic
         end) m.

(** The mutex is held when [fsmStateChange] asks for it again. *)
Definition Cleanup (m : FSMManager) : exec FSMManager :=
  locked_update (fun m =>
    for_each (fun id m =>
      let! m := send_fsm closeCh id Close m in
      let! m := fsmBroken id m in
      let! m := fsmStateChange id 1 m in
      Ok (m <| m_fsms ::= delete id |>)) (fsm_ids m) m) m.

Definition StopFSM (m : FSMManager) : exec FSMManager :=
  locked_update (fun m =>
    for_each (fun id m =>
      let! m := send_fsm eventRxCh id (EventRx BGPEventTcpConnFails false) m in
      fsmBroken id m) (fsm_ids m) m) m.

(** The commands that [Init] passes on. *)
Definition send_command (event : BGPFSMEvent) (maxPrefix : bool) (m : FSMManager) : exec FSMManager :=
  match event with
  | BGPEventManualStart | BGPEventManualStop | BGPEventAutoStop | BGPEventManualStartPassTcpEst =>
      for_each (fun id => send_fsm eventRxCh id (EventRx event maxPrefix)) (fsm_ids m) m
  | _ => Ok m
  end.

Definition getNewId (id : Z) : Z := u8 (id + 1) mod 2.

(** A machine for a second connection starts in the state that waits for it. *)
Definition createFSMForNewConnection (conf : NeighborConf) (id : Z) (connDir : ConnDir) (m : FSMManager)
  : exec (bool * FSMManager) :=
  with_lock (fun m =>
    match m_fsms m !! id with
    | Some _ => Ok (false, m)
    | None =>
        let st := match connDir with ConnDirOut => ConnectState | ConnDirIn => ActiveState end in
        Ok (true, m <| m_fsms ::= <[id := NewFSM conf <| f_State := st |>]> |> <| m_mail ::= <[id := new_mailbox]> |>)
    end) m.

(** The new machine is started and handed the connection. *)
Definition handleAnotherConnection (conf : NeighborConf) (id : Z) (connDir : ConnDir) (draw1 draw2 : Z) (m : FSMManager)
  : exec FSMManager :=
  let! (created, m) := createFSMForNewConnection conf id connDir m in
  if (created : bool) then
    let! m := send_fsm passiveTcpEstCh id (PassiveTcpEst true) m in
    match connDir with
    | ConnDirOut => send_fsm outConnCh id (OutConn draw1 draw2) m
    | ConnDirIn => send_fsm inConnCh id (InConn draw1 draw2) m
    end
  else Ok m.

Definition has_dir (dir : ConnDir) (s : FSM) : bool :=
  match f_peerConn s with Some c => bool_decide (pc_dir c = dir) | None => false end.

Definition getFSMIdByDir (connDir : ConnDir) (m : FSMManager) : Z :=
  match List.find (fun e => has_dir connDir (snd e)) (map_to_list (m_fsms m)) with
  | Some (id, _) => id
  | None => ConnDirInvalid
  end.

(** The two shifts in the middle are shifts of an octet. *)
Definition ConvertIPBytesToUint (bytes : list Z) : exec Z :=
  let! b0 := index bytes 0 in
  let! b1 := index bytes 1 in
  let! b2 := index bytes 2 in
  let! b3 := index bytes 3 in
  Ok (Z.lor (Z.lor (Z.lor (Z.shiftl b0 24) (u8 (Z.shiftl b1 16))) (u8 (Z.shiftl b2 8))) b3).

Definition bgp_id (ip : list Z) : exec Z := match To4 ip with Some b => ConvertIPBytesToUint b | None => Panic end.

(** The loop over the other machines: the direction of the connection that is
    closed, if one is. *)
Definition close_other (id : Z) (connDir : ConnDir) (localBGPId bgpIdInt : Z) (fsmId : Z) (st : option ConnDir * FSMManager)
  : exec (option ConnDir * FSMManager) :=
  let '(closeConnDir, m) := st in
  match m_fsms m !! fsmId with
  | Some s =>
      if negb (fsmId =? id) && (4 <=? state (f_State s)) then
        let dir := if state (f_State s) =? 6 then connDir
                   else if bgpIdInt <? localBGPId then ConnDirIn else ConnDirOut in
        let! m := fsmClose (getFSMIdByDir dir m) m in
        Ok (Some dir, m)
      else Ok st
  | None => Ok st
  end.

(** A variable of the same name inside the loop hides [closeFSMId], so that
    the attributes are set whenever the machine is still there. *)
Definition receivedBGPOpenMessage (conf : NeighborConf) (id : Z) (connDir : ConnDir) (openMsg : BGPOpen) (m : FSMManager)
  : exec (bool * FSMManager) :=
  with_lock (fun m =>
    let! localBGPId := bgp_id (c_RouterId conf) in
    let! bgpIdInt := bgp_id (BGPId openMsg) in
    let! (closeConnDir, m) :=
      for_each (close_other id connDir localBGPId bgpIdInt) (fsm_ids m) (None, m) in
    let m := match m_fsms m !! id with
             | Some s => mgr_act (SetPeerAttrs (BGPId openMsg) (GetASSize openMsg) (f_holdTime s) (f_keepAliveTime s)) m
             | None => m
             end in
    Ok (negb (bool_decide (closeConnDir = Some connDir)), m)) m.

(** ** The loop of [Init] *)

(** A connection that the peer opened goes to the first machine, unless one is
    not wanted or there is one already. *)
Definition accept_connection (draw1 draw2 : Z) (m : FSMManager) : exec FSMManager :=
  if negb (m_acceptConn m) then Ok (mgr_act CloseConn m)
  else if existsb (fun e => has_dir ConnDirIn (snd e)) (map_to_list (m_fsms m)) then Ok (mgr_act CloseConn m)
  else match fsm_ids m with
       | id :: _ => send_fsm inConnCh id (InConn draw1 draw2) m
       | [] => Ok m
       end.

Inductive mgr_input :=
| AcceptCh (draw1 draw2 : Z)
| TcpConnFailCh (id : Z)
| NewConnCh (id : Z) (connDir : ConnDir) (draw1 draw2 : Z)
| StopFSMCh
| CloseCh
| CommandCh (event : BGPFSMEvent) (maxPrefix : bool)
| BfdStatusCh (status : bool)
| CallAccept (accept : bool)
| CallEstablished (id : Z)
| CallBroken (id : Z)
| CallStateChange (id st : Z)
| CallReceivedOpen (id : Z) (connDir : ConnDir) (openMsg : BGPOpen)
| CallSendUpdate (room : nat) (msg : BGPUpdate) (writes : list bool)
| MachineMoved (id : Z) (s : FSM) (mb : Mailbox)
| ServerMoved (pending : nat).

(** [MachineMoved] is a machine that went on by itself, taking from its
    channels; [ServerMoved] is the server, and the other managers, at
    [fsmConnCh]. *)
Definition mgr_step (conf : NeighborConf) (i : mgr_input) (m : FSMManager) : exec FSMManager :=
  match i with
  | AcceptCh d1 d2 => accept_connection d1 d2 m
  | TcpConnFailCh id => fsmTcpConnFailed id m
  | NewConnCh id connDir d1 d2 => handleAnotherConnection conf (getNewId id) connDir d1 d2 m
  | StopFSMCh => StopFSM m
  | CloseCh => Cleanup m
  | CommandCh event maxPrefix => send_command event maxPrefix m
  | BfdStatusCh status => handleBfdStatusChange status m
  | CallAccept accept => Ok (if accept then mgr_AcceptPeerConn m else mgr_RejectPeerConn m)
  | CallEstablished id => fsmEstablished id m
  | CallBroken id => fsmBroken id m
  | CallStateChange id st => fsmStateChange id st m
  | CallReceivedOpen id connDir openMsg =>
      let! (_, m) := receivedBGPOpenMessage conf id connDir openMsg m in Ok m
  | CallSendUpdate room msg writes => SendUpdateMsg room msg writes m
  | MachineMoved id s mb => Ok (m <| m_fsms ::= alter (fun _ => s) id |> <| m_mail ::= <[id := mb]> |>)
  | ServerMoved n => Ok (m <| m_connCh := n |>)
  end.

(** [NewFSMManager], and [Init] up to the loop. *)
Definition NewFSMManager : FSMManager := mkManager ∅ ∅ false ConnDirInvalid false 0 [].

Definition mgr_Init (conf : NeighborConf) : exec FSMManager :=
  send_fsm passiveTcpEstCh 0 (PassiveTcpEst true)
    (NewFSMManager <| m_fsms ::= <[0 := NewFSM conf]> |> <| m_mail ::= <[0 := new_mailbox]> |>).
