(* ===== verification/BgpManagerProofs.v ===== *)
(** * Collisions of connections, and closing a neighbour *)

From S2P Require Import Prelude BgpWire BgpOpen BgpAttr BgpUpdate BgpSplit BgpFsm BgpManager.

(** ** Closing a neighbour *)

Lemma locked_hang k m : m_locked m = true -> locked_update k m = Hang.
Proof. intros H. unfold locked_update, with_lock. by rewrite H. Qed.

(** What a send leaves as it was. *)
Record same_machines (m m' : FSMManager) : Prop := {
  sm_fsms : m_fsms m' = m_fsms m;
  sm_locked : m_locked m' = m_locked m;
  sm_accept : m_acceptConn m' = m_acceptConn m
}.

#[export] Instance same_machines_preorder : PreOrder same_machines.
Proof. split; [by split|]. intros m1 m2 m3 [] []. split; congruence. Qed.

Lemma send_fsm_same c id i m m' :
  send_fsm c id i m = Ok m' -> same_machines m m' /\ m_activeFSM m' = m_activeFSM m /\ m_connCh m' = m_connCh m.
Proof. unfold send_fsm. destruct (can_take _ _); [|done]. intros E. injection E as <-. by split. Qed.

Lemma broken_same id m m' : fsmBroken id m = Ok m' -> same_machines m m'.
Proof.
  unfold fsmBroken, send_conn. destruct (_ =? _); [|by intros E; injection E as <-].
  destruct (Nat.ltb _ _); [|done]. intros E. by injection E as <-.
Qed.

(** C35: Closing a neighbour that has a machine never returns: the manager holds
    its mutex and asks for it again to report the change of state. *)
Theorem cleanup_deadlocks m : m_fsms m <> ∅ -> Cleanup m = Hang.
Proof.
  intros Hne. unfold Cleanup, locked_update, with_lock. destruct (m_locked m); [done|].
  set (m1 := m <| m_locked := true |>). unfold fsm_ids. change (m_fsms m1) with (m_fsms m).
  destruct (map_to_list (m_fsms m)) as [|[id s] l] eqn:El; [by apply map_to_list_empty_iff in El|].
  cbn [map fst for_each]. destruct (send_fsm closeCh id Close m1) as [m2| |] eqn:E2; cbn [exec_bind]; [| |done].
  - destruct (send_fsm_same _ _ _ _ _ E2) as [[_ L2 _] _].
    destruct (fsmBroken id m2) as [m3| |] eqn:E3; cbn [exec_bind]; [| |done].
    + destruct (broken_same _ _ _ E3) as [_ L3 _]. unfold fsmStateChange. rewrite locked_hang; [done|].
      by rewrite L3, L2.
    + unfold fsmBroken, send_conn in E3. destruct (_ =? _); [|done]. by destruct (Nat.ltb _ _).
  - unfold send_fsm in E2. by destruct (can_take _ _).
Qed.

Lemma cleanup_deadlocks_witness :
  Cleanup (mkManager {[0 := NewFSM (mkConf 90 30 60 1 1 [] [] false 0 0 false false)]} ∅ false 2 false 0 []) = Hang.
Proof. apply cleanup_deadlocks. cbn. apply insert_non_empty. Defined.

(** An update for an established machine that, before it is back at its
    [select], asks for the manager's mutex never gets through: the sender keeps
    the mutex while it waits for the machine. *)
Theorem update_deadlocks room msg writes m s :
  m_activeFSM m <> ConnDirInvalid -> m_fsms m !! m_activeFSM m = Some s ->
  mb_select (mailbox (m_activeFSM m) m) = false ->
  SendUpdateMsg room msg writes m = Hang.
Proof.
  intros Hv Hs Hb. unfold SendUpdateMsg, locked_update, with_lock. destruct (m_locked m); [done|].
  set (m1 := m <| m_locked := true |>). change (m_activeFSM m1) with (m_activeFSM m).
  rewrite (proj2 (Z.eqb_neq _ _)) by done. change (m_fsms m1) with (m_fsms m). rewrite Hs.
  unfold send_fsm, can_take. change (mailbox (m_activeFSM m) m1) with (mailbox (m_activeFSM m) m).
  by rewrite Hb.
Qed.

(** ** Runs of the manager *)

(** What the server was told last. *)
Definition announced (out : list mgr_action) : bool :=
  fold_left (fun b a => match a with PeerFSMConn e => e | _ => b end) out false.

(** The active machine is one of at most two, and the server knows whether
    there is one. *)
Record mgr_inv (m : FSMManager) : Prop := {
  mi_ids : forall id, is_Some (m_fsms m !! id) -> id = 0 \/ id = 1;
  mi_active : m_activeFSM m = ConnDirInvalid \/ is_Some (m_fsms m !! m_activeFSM m);
  mi_told : announced (m_out m) = negb (m_activeFSM m =? ConnDirInvalid)
}.

Lemma announced_snoc out a :
  announced (out ++ [a]) = match a with PeerFSMConn e => e | _ => announced out end.
Proof. unfold announced. by rewrite fold_left_app. Qed.

Opaque announced.



Lemma lock_inv b m : mgr_inv m -> mgr_inv (m <| m_locked := b |>).
Proof. by intros [H1 H2 H3]. Qed.


Lemma delete_inv id m :
  (m_activeFSM m = ConnDirInvalid \/ m_activeFSM m <> id) -> mgr_inv m -> mgr_inv (m <| m_fsms ::= delete id |>).
Proof.
  intros Hid [H1 H2 H3]. split; cbn; [| |exact H3].
  - intros id' [x [_ Hx]%lookup_delete_Some]. apply H1. by eexists.
  - destruct Hid as [Hid|Hid]; [by left|]. rewrite lookup_delete_ne by done. exact H2.
Qed.



(** ** Sends that do not wait for ever *)

Definition takes (c : fsm_chan) (id : Z) (m : FSMManager) : Prop := can_take c (mailbox id m) = true.

Definition all_take (c : fsm_chan) (m : FSMManager) : Prop :=
  forall id, is_Some (m_fsms m !! id) -> takes c id m.

(** The server can be told that the active machine is gone. *)
Definition can_tell (m : FSMManager) : Prop :=
  m_activeFSM m = ConnDirInvalid \/ (m_connCh m < fsmConnCh_capacity)%nat.

Lemma send_fsm_inv c id i m :
  takes c id m -> mgr_inv m -> returns (send_fsm c id i m) (fun m' => mgr_inv m' /\ same_machines m m'
    /\ m_activeFSM m' = m_activeFSM m /\ m_connCh m' = m_connCh m
    /\ forall id', id' <> id -> mailbox id' m' = mailbox id' m).
Proof.
  intros Ht [H1 H2 H3]. unfold send_fsm. rewrite Ht. eexists. split; [reflexivity|]. split; [|split_and!; try done].
  - split; cbn; [exact H1 | exact H2|]. by rewrite announced_snoc.
  - intros id' Hne. unfold mailbox. cbn. by rewrite lookup_insert_ne.
Qed.

Lemma broken_inv id m :
  id <> ConnDirInvalid -> can_tell m -> mgr_inv m ->
  returns (fsmBroken id m) (fun m' => mgr_inv m' /\ same_machines m m' /\ can_tell m' /\ m_mail m' = m_mail m
    /\ (m_activeFSM m' = ConnDirInvalid \/ m_activeFSM m' <> id)).
Proof.
  intros Hid Ht Hm. unfold fsmBroken. destruct (Z.eqb_spec (m_activeFSM m) id) as [E|E].
  - destruct Ht as [Ht|Ht]; [congruence|]. unfold send_conn. cbn [m_connCh].
    change (m_connCh (m <| m_activeFSM := ConnDirInvalid |>)) with (m_connCh m).
    rewrite (proj2 (Nat.ltb_lt _ _)) by done. destruct Hm as [H1 H2 H3].
    eexists. split; [reflexivity|]. split_and!; [|done|by left|done|by left].
    split; cbn; [exact H1 | by left | by rewrite announced_snoc].
  - eexists. split; [reflexivity|]. split_and!; try done. by right.
Qed.


Lemma machine_id id m : mgr_inv m -> is_Some (m_fsms m !! id) -> id <> ConnDirInvalid.
Proof. intros Hm H. by destruct (mi_ids m Hm id H) as [-> | ->]. Qed.

(** Closing a machine leaves the others able to hear. *)
Lemma close_inv id m :
  takes closeCh id m -> can_tell m -> mgr_inv m ->
  returns (fsmClose id m) (fun m' => mgr_inv m' /\ can_tell m' /\ (all_take closeCh m -> all_take closeCh m')).
Proof.
  intros Ht Hc Hm. unfold fsmClose. destruct (m_fsms m !! id) eqn:E; [|by exists m].
  pose proof (machine_id id m Hm (mk_is_Some _ _ E)) as Hid.
  destruct (send_fsm_inv closeCh id Close m Ht Hm) as (m1 & -> & H1 & [F1 _ _] & A1 & C1 & M1). cbn [exec_bind].
  destruct (broken_inv id m1 Hid) as (m2 & -> & H2 & [F2 _ _] & C2 & M2 & A2).
  { unfold can_tell. by rewrite A1, C1. }
  { done. }
  cbn [exec_bind]. eexists. split; [reflexivity|]. split; [by apply delete_inv|]. split; [done|].
  intros Hall id' [x Hx]. cbn in Hx. apply lookup_delete_Some in Hx as [Hne Hx].
  unfold takes, mailbox. cbn. rewrite M2. change (default new_mailbox (m_mail m1 !! id')) with (mailbox id' m1).
  rewrite M1 by done. apply Hall. rewrite <- F1, <- F2. by eexists.
Qed.








Transparent announced.














(** ** Collisions *)

Lemma ids_of_two (m : FSMManager) id id' s s' :
  id <> id' -> m_fsms m = <[id := s]> {[id' := s']} ->
  map_to_list (m_fsms m) = [(id, s); (id', s')] \/ map_to_list (m_fsms m) = [(id', s'); (id, s)].
Proof.
  intros Hne Em. assert (Hp : map_to_list (m_fsms m) ≡ₚ [(id, s); (id', s')]).
  { rewrite Em, map_to_list_insert by (by rewrite lookup_singleton_ne). by rewrite map_to_list_singleton. }
  symmetry in Hp. apply Permutation_length_2_inv in Hp as [-> | ->]; [by left | by right].
Qed.

Lemma id_by_dir m id id' s s' dir :
  id <> id' -> m_fsms m = <[id := s]> {[id' := s']} -> has_dir dir s = negb (has_dir dir s') ->
  getFSMIdByDir dir m = if has_dir dir s then id else id'.
Proof.
  intros Hne Em Hd. unfold getFSMIdByDir.
  destruct (ids_of_two m id id' s s' Hne Em) as [-> | ->]; cbn [List.find snd];
    destruct (has_dir dir s'); cbn in Hd; rewrite Hd; done.
Qed.

(** What the loop over the machines does when there are two. *)
Lemma close_two id id' s s' connDir l r m m' :
  id <> id' -> m_fsms m = <[id := s]> {[id' := s']} -> 4 <= state (f_State s') < 6 ->
  let dir := if r <? l then ConnDirIn else ConnDirOut in
  fsmClose (getFSMIdByDir dir m) m = Ok m' ->
  for_each (close_other id connDir l r) (fsm_ids m) (None, m) = Ok (Some dir, m').
Proof.
  intros Hne Em Hst dir Ecl.
  assert (Eself : forall st, close_other id connDir l r id st = Ok st).
  { intros [c m0]. unfold close_other. destruct (m_fsms m0 !! id); [|done]. by rewrite Z.eqb_refl. }
  assert (Eother : close_other id connDir l r id' (None, m) = Ok (Some dir, m')).
  { unfold close_other. rewrite Em, lookup_insert_ne, lookup_singleton_eq by done.
    rewrite (proj2 (Z.eqb_neq id' id)) by done. rewrite (proj2 (Z.leb_le _ _)) by lia. rewrite (proj2 (Z.eqb_neq _ 6)) by lia.
    cbn [negb andb]. fold dir. by rewrite Ecl. }
  unfold fsm_ids. destruct (ids_of_two m id id' s s' Hne Em) as [-> | ->]; cbn [map fst for_each];
    rewrite ?Eself, ?Eother; cbn [exec_bind]; rewrite ?Eself, ?Eother; done.
Qed.

Lemma fsmClose_fsms id m m' :
  fsmClose id m = Ok m' -> m_fsms m' = delete id (m_fsms m) /\ m_locked m' = m_locked m.
Proof.
  unfold fsmClose. destruct (m_fsms m !! id) eqn:E.
  - destruct (send_fsm closeCh id Close m) as [m1| |] eqn:E1; cbn [exec_bind]; try done.
    destruct (send_fsm_same _ _ _ _ _ E1) as [[F1 L1 _] _].
    destruct (fsmBroken id m1) as [m2| |] eqn:E2; cbn [exec_bind]; try done.
    destruct (broken_same _ _ _ E2) as [F2 L2 _]. intros E3. injection E3 as <-. cbn.
    by rewrite F2, F1, L2, L1.
  - intros E1. injection E1 as <-. by rewrite delete_id.
Qed.

(** The machines can be told to close. *)
Record closable (m : FSMManager) : Prop := {
  cl_inv : mgr_inv m;
  cl_take : all_take closeCh m;
  cl_tell : can_tell m
}.

Lemma closable_close id m : closable m -> exists m', fsmClose id m = Ok m'.
Proof.
  intros [Hm Ha Hc]. destruct (m_fsms m !! id) eqn:E; [|unfold fsmClose; rewrite E; by eexists].
  destruct (close_inv id m) as (m' & E' & _); [apply Ha; by eexists | done | done | by exists m'].
Qed.

Section Collision.
Context (conf : NeighborConf) (id id' : Z) (s s' : FSM) (c c' : PeerConn) (o : BGPOpen) (m : FSMManager) (l r : Z).
Hypothesis Hlock : m_locked m = false.
Hypothesis Hclose : closable m.
Hypothesis Hne : id <> id'.
Hypothesis Hm : m_fsms m = <[id := s]> {[id' := s']}.
Hypothesis Hc : f_peerConn s = Some c.
Hypothesis Hc' : f_peerConn s' = Some c'.
Hypothesis Hdir : pc_dir c' <> pc_dir c.
Hypothesis Hst : 4 <= state (f_State s') < 6.
Hypothesis Hl : bgp_id (c_RouterId conf) = Ok l.
Hypothesis Hr : bgp_id (BGPId o) = Ok r.

Lemma collision_spec :
  let closed := if r <? l then ConnDirIn else ConnDirOut in
  exists m', receivedBGPOpenMessage conf id (pc_dir c) o m = Ok (negb (bool_decide (closed = pc_dir c)), m') /\
    m_locked m' = false /\ m_fsms m' = if decide (closed = pc_dir c) then {[id' := s']} else {[id := s]}.
Proof using Hlock Hclose Hne Hm Hc Hc' Hdir Hst Hl Hr.
  intros closed. unfold receivedBGPOpenMessage, with_lock. rewrite Hlock, Hl, Hr. cbn [exec_bind].
  set (m1 := m <| m_locked := true |>). assert (Hm1 : m_fsms m1 = <[id := s]> {[id' := s']}) by exact Hm.
  assert (closable m1) as Hcl by (destruct Hclose as [H1 H2 H3]; split; [by apply lock_inv | exact H2 | exact H3]).
  destruct (closable_close (getFSMIdByDir closed m1) m1 Hcl) as [m2 E2].
  rewrite (close_two id id' s s' (pc_dir c) l r m1 m2 Hne Hm1 Hst E2). fold closed. cbn [exec_bind].
  assert (Hd : has_dir closed s = bool_decide (pc_dir c = closed) /\ has_dir closed s = negb (has_dir closed s')).
  { unfold has_dir. rewrite Hc, Hc'. split; [done|]. by destruct (pc_dir c), (pc_dir c'), closed. }
  destruct Hd as [Hd1 Hd2]. rewrite (id_by_dir m1 id id' s s' closed Hne Hm1 Hd2), Hd1 in E2.
  set (gone := if bool_decide (pc_dir c = closed) then id else id') in E2. destruct (fsmClose_fsms gone m1 m2 E2) as [Ef Ek].
  assert (Esome : bool_decide (Some closed = Some (pc_dir c)) = bool_decide (closed = pc_dir c)) by (apply bool_decide_ext; split; [by intros [= ->] | by intros ->]).
  rewrite Esome.
  assert (Efs : delete gone (m_fsms m1) = if decide (closed = pc_dir c) then {[id' := s']} else {[id := s]}).
  { unfold gone. rewrite Hm1. destruct (decide (closed = pc_dir c)) as [E|E].
    - rewrite bool_decide_true by done. rewrite delete_insert_eq, delete_id; [done|]. by rewrite lookup_singleton_ne.
    - rewrite bool_decide_false by (by intros E'). rewrite delete_insert_ne by done. by rewrite delete_singleton_eq. }
  eexists. split; [done|]. unfold mgr_act. rewrite <- Efs, <- Ef.
  destruct (m_fsms m2 !! id); by split.
Qed.
End Collision.

(** ** Both ends of a collision *)

(** The end of a speaker at a collision: one machine for the connection that
    it opened and one for the connection that its peer opened, both past
    OpenSent and not established. *)
Record colliding (m : FSMManager) (out_id in_id : Z) (so si : FSM) : Prop := {
  co_lock : m_locked m = false;
  co_close : closable m;
  co_ids : out_id <> in_id;
  co_fsms : m_fsms m = <[out_id := so]> {[in_id := si]};
  co_out : exists c, f_peerConn so = Some c /\ pc_dir c = ConnDirOut;
  co_in : exists c, f_peerConn si = Some c /\ pc_dir c = ConnDirIn;
  co_so : 4 <= state (f_State so) < 6;
  co_si : 4 <= state (f_State si) < 6
}.

(** The OPEN arrives on either connection. *)
Lemma colliding_spec conf m out_id in_id so si o l r dir :
  colliding m out_id in_id so si -> bgp_id (c_RouterId conf) = Ok l -> bgp_id (BGPId o) = Ok r ->
  let id := match dir with ConnDirOut => out_id | ConnDirIn => in_id end in
  exists m', receivedBGPOpenMessage conf id dir o m = Ok (bool_decide (dir = if r <? l then ConnDirOut else ConnDirIn), m') /\
    m_fsms m' = if r <? l then {[out_id := so]} else {[in_id := si]}.
Proof.
  intros [Hk Hcl Hne Hm (co & Hco & Hdo) (ci & Hci & Hdi) Hso Hsi] Hl Hr id. destruct dir; cbn in id.
  - destruct (collision_spec conf out_id in_id so si co ci o m l r) as (m' & E & _ & Ef); try done; [congruence|].
    exists m'. rewrite Hdo in *. rewrite Ef. destruct (r <? l); done.
  - destruct (collision_spec conf in_id out_id si so ci co o m l r) as (m' & E & _ & Ef); try done; [|congruence|].
    { rewrite Hm, <- !insert_empty. by apply insert_insert_ne. }
    exists m'. rewrite Hdi in *. rewrite Ef. destruct (r <? l); done.
Qed.

(** C13: When two connections between the speakers [a] and [b] collide, the speaker
    with the larger number keeps the machine of the connection it opened and the
    other one that of the connection its peer opened: both keep the connection
    that the larger one opened, and an end accepts the OPEN exactly when it came
    on that connection. *)
Theorem collision_keeps_one confA confB mA mB outA inA outB inB soA siA soB siB oA oB dA dB a b :
  colliding mA outA inA soA siA -> colliding mB outB inB soB siB ->
  bgp_id (c_RouterId confA) = Ok a -> bgp_id (c_RouterId confB) = Ok b ->
  bgp_id (BGPId oB) = Ok b -> bgp_id (BGPId oA) = Ok a -> a <> b ->
  exists okA okB mA' mB',
    receivedBGPOpenMessage confA (match dA with ConnDirOut => outA | ConnDirIn => inA end) dA oB mA = Ok (okA, mA') /\
    receivedBGPOpenMessage confB (match dB with ConnDirOut => outB | ConnDirIn => inB end) dB oA mB = Ok (okB, mB') /\
    (b < a -> m_fsms mA' = {[outA := soA]} /\ m_fsms mB' = {[inB := siB]} /\
              okA = bool_decide (dA = ConnDirOut) /\ okB = bool_decide (dB = ConnDirIn)) /\
    (a < b -> m_fsms mA' = {[inA := siA]} /\ m_fsms mB' = {[outB := soB]} /\
              okA = bool_decide (dA = ConnDirIn) /\ okB = bool_decide (dB = ConnDirOut)).
Proof.
  intros HA HB Ha Hb Hob Hoa Hab.
  destruct (colliding_spec confA mA outA inA soA siA oB a b dA HA Ha Hob) as (mA' & EA & FA).
  destruct (colliding_spec confB mB outB inB soB siB oA b a dB HB Hb Hoa) as (mB' & EB & FB).
  eexists _, _, mA', mB'. split; [exact EA|]. split; [exact EB|].
  destruct (Z.ltb_spec b a), (Z.ltb_spec a b); try lia; (split; intros; [try lia | try lia]; done).
Qed.

(** The numbers are compared without their two octets in the middle. *)
Lemma middle_octets b0 b1 b2 b3 b1' b2' : ConvertIPBytesToUint [b0; b1; b2; b3] = ConvertIPBytesToUint [b0; b1'; b2'; b3].
Proof.
  assert (E : forall x n, 8 <= n -> u8 (Z.shiftl x n) = 0).
  { intros x n Hn. unfold u8. rewrite Z.shiftl_mul_pow2 by lia. replace n with (n - 8 + 8) by lia.
    rewrite Z.pow_add_r, Z.mul_assoc by lia. apply Z_mod_mult. }
  unfold ConvertIPBytesToUint. eval_index. cbn -[Z.shiftl u8 Z.lor]. by rewrite !E by lia.
Qed.

(** Two speakers whose identifiers differ in the two octets in the middle only
    both close the connection that they opened: each keeps a connection that the
    other one closes. *)
Theorem collision_closes_both confA confB mA mB outA inA outB inB soA siA soB siB oA oB dA dB b0 b1 b2 b3 b1' b2' :
  colliding mA outA inA soA siA -> colliding mB outB inB soB siB ->
  c_RouterId confA = [b0; b1; b2; b3] -> c_RouterId confB = [b0; b1'; b2'; b3] ->
  BGPId oA = [b0; b1; b2; b3] -> BGPId oB = [b0; b1'; b2'; b3] ->
  exists okA okB mA' mB',
    receivedBGPOpenMessage confA (match dA with ConnDirOut => outA | ConnDirIn => inA end) dA oB mA = Ok (okA, mA') /\
    receivedBGPOpenMessage confB (match dB with ConnDirOut => outB | ConnDirIn => inB end) dB oA mB = Ok (okB, mB') /\
    m_fsms mA' = {[inA := siA]} /\ m_fsms mB' = {[inB := siB]}.
Proof.
  intros HA HB Ea Eb Eoa Eob. destruct (ConvertIPBytesToUint [b0; b1; b2; b3]) as [x| |] eqn:Ex; [|done|done].
  pose proof (middle_octets b0 b1 b2 b3 b1' b2') as Em. rewrite Ex in Em.
  assert (Ha : bgp_id [b0; b1; b2; b3] = Ok x) by done. assert (Hb : bgp_id [b0; b1'; b2'; b3] = Ok x) by done.
  rewrite <- Ea in Ha at 1. rewrite <- Eb in Hb at 1.
  destruct (colliding_spec confA mA outA inA soA siA oB x x dA HA Ha) as (mA' & EA & FA); [by rewrite Eob|].
  destruct (colliding_spec confB mB outB inB soB siB oA x x dB HB Hb) as (mB' & EB & FB); [by rewrite Eoa|].
  rewrite Z.ltb_irrefl in FA, FB. by exists (bool_decide (dA = if x <? x then ConnDirOut else ConnDirIn)),
    (bool_decide (dB = if x <? x then ConnDirOut else ConnDirIn)), mA', mB'.
Qed.

(** ** Examples *)

Definition router (id : list Z) : NeighborConf := mkConf 90 30 60 65001 65001 id [257] false 0 240 false false.
Definition router_open (id : list Z) : BGPOpen := mkOpen 4 65001 90 id 0 [].

Definition demo_fsm (id : list Z) (dir : ConnDir) : FSM :=
  NewFSM (router id) <| f_State := OpenSentState |> <| f_peerConn := Some (NewPeerConn dir 7) |>.

Definition demo_manager (id : list Z) : FSMManager :=
  mkManager (<[0 := demo_fsm id ConnDirOut]> {[1 := demo_fsm id ConnDirIn]}) ∅ true ConnDirInvalid false 0 [].

Lemma demo_colliding id : colliding (demo_manager id) 0 1 (demo_fsm id ConnDirOut) (demo_fsm id ConnDirIn).
Proof.
  split; try done; try by eexists. split; [split; [|by left | done] | intros i _; reflexivity | by left].
  cbn. intros i [x [[<- _] | [_ [<- _]%lookup_singleton_Some]]%lookup_insert_Some]; [by left | by right].
Qed.

Lemma collision_keeps_one_witness :
  let a := [10; 0; 0; 2] in let b := [10; 0; 0; 1] in
  exists okA okB mA' mB',
    receivedBGPOpenMessage (router a) 0 ConnDirOut (router_open b) (demo_manager a) = Ok (okA, mA') /\
    receivedBGPOpenMessage (router b) 1 ConnDirIn (router_open a) (demo_manager b) = Ok (okB, mB') /\
    m_fsms mA' = {[0 := demo_fsm a ConnDirOut]} /\ m_fsms mB' = {[1 := demo_fsm b ConnDirIn]} /\
    okA = true /\ okB = true.
Proof.
  intros a b. destruct (collision_keeps_one (router a) (router b) (demo_manager a) (demo_manager b) 0 1 0 1
    _ _ _ _ (router_open a) (router_open b) ConnDirOut ConnDirIn 167772162 167772161 (demo_colliding a) (demo_colliding b))
    as (okA & okB & mA' & mB' & EA & EB & Hgt & _);
    [reflexivity | reflexivity | reflexivity | reflexivity | discriminate|].
  exists okA, okB, mA', mB'. split; [exact EA|]. split; [exact EB|]. apply Hgt. reflexivity.
Defined.

Lemma collision_closes_both_witness :
  let a := [10; 1; 0; 1] in let b := [10; 2; 0; 1] in
  exists okA okB mA' mB',
    receivedBGPOpenMessage (router a) 0 ConnDirOut (router_open b) (demo_manager a) = Ok (okA, mA') /\
    receivedBGPOpenMessage (router b) 1 ConnDirIn (router_open a) (demo_manager b) = Ok (okB, mB') /\
    m_fsms mA' = {[1 := demo_fsm a ConnDirIn]} /\ m_fsms mB' = {[1 := demo_fsm b ConnDirIn]}.
Proof.
  intros a b. apply (collision_closes_both (router a) (router b) (demo_manager a) (demo_manager b) 0 1 0 1
    _ _ _ _ (router_open a) (router_open b) ConnDirOut ConnDirIn 10 1 0 1 2 0 (demo_colliding a) (demo_colliding b));
    reflexivity.
Defined.

(** A neighbour whose second machine is established. *)
Definition demo_conf : NeighborConf := router [10; 0; 0; 1].

Definition run_all (inputs : list mgr_input) : FSMManager :=
  match (let! m := mgr_Init demo_conf in for_each (mgr_step demo_conf) inputs m) with
  | Ok m => m | _ => NewFSMManager end.

Definition demo_established : FSMManager := run_all [NewConnCh 0 ConnDirIn 5 6; CallEstablished 1].



(** The same update while that machine waits for the mutex. *)
Lemma update_deadlocks_witness :
  let m := demo_established <| m_mail ::= <[1 := mkMailbox (fun _ => 0%nat) false]> |> in
  SendUpdateMsg 0 (mkUpdate 0 [] 0 [] []) [] m = Hang.
Proof.
  intros m. eapply (update_deadlocks 0 (mkUpdate 0 [] 0 [] []) [] m);
    [vm_compute; discriminate | vm_compute; reflexivity | vm_compute; reflexivity].
Defined.
