(* ===== verification/BgpExport.v ===== *)
(** * The attributes of an UPDATE on its way to a peer

    [sendUpdateMsg], [updatePathAttrs] and [isAdvertisable] of
    [l3/bgp/server/peer.go] and the functions of [l3/bgp/packet/helpers.go] they
    call: the local AS number is prepended, the next hop, the preference and the
    attributes of route reflection are set or removed, and the path is rewritten
    for a peer with two-octet AS numbers.  The attributes of a message are
    objects that the message owns; an attribute whose code is not that of its
    type fails the type assertion that the code makes. *)

From S2P Require Import Prelude BgpWire BgpOpen BgpAttr BgpUpdate BgpSplit.

(** ** Segments *)

Definition NewBGPAS2PathSegment (segType : Z) : BGPASPathSegment := BGPAS2PathSegment (mkSegBase segType 0 2) [].
Definition NewBGPAS4PathSegment (segType : Z) : BGPASPathSegment := BGPAS4PathSegment (mkSegBase segType 0 2) [].

(** A full segment is left as it is. *)
Definition Segment_PrependAS (as_ : Z) (s : BGPASPathSegment) : BGPASPathSegment :=
  if 255 <=? s_Length (seg_base s) then s else
  match s with
  | BGPAS2PathSegment b l =>
      BGPAS2PathSegment (mkSegBase (s_Type b) (u8 (s_Length b + 1)) (u16 (BGPASPathSegmentLen b + 2))) (u16 as_ :: l)
  | BGPAS4PathSegment b l =>
      BGPAS4PathSegment (mkSegBase (s_Type b) (u8 (s_Length b + 1)) (u16 (BGPASPathSegmentLen b + 4))) (as_ :: l)
  end.

(** The flag says that every number fits into two octets. *)
Definition CloneAsAS2PathSegment (s : BGPASPathSegment) : exec (BGPASPathSegment * bool) :=
  match s with
  | BGPAS2PathSegment _ _ => Panic
  | BGPAS4PathSegment b l =>
      Ok (BGPAS2PathSegment (mkSegBase (s_Type b) (s_Length b) (u16 (2 + u16 (u8 (s_Length b * 2)))))
            (map (fun x => if 65535 <? x then BGPASTrans else x) l),
          forallb (fun x => x <=? 65535) l)
  end.

(** The new attribute has the code of an AS path. *)
Definition CloneAsAS4Path (base : BGPPathAttrBase) (value : list BGPASPathSegment) : exec BGPPathAttr :=
  if forallb (fun s => match s with BGPAS4PathSegment _ _ => true | BGPAS2PathSegment _ _ => false end) value
  then Ok (BGPPathAttrAS4Path (mkAttrBase 192 BGPPathAttrTypeASPath (a_Length base) (u16 (4 + u16 (len value * 4)))) value)
  else Panic.

(** ** The AS path *)

Definition needs_segment (value : list BGPASPathSegment) : bool :=
  match value with
  | [] => true
  | s :: _ => (s_Type (seg_base s) =? BGPASPathSegmentSet) || (255 <=? s_Length (seg_base s))
  end.

Definition PrependASPathSegment (seg : BGPASPathSegment) (base : BGPPathAttrBase) (value : list BGPASPathSegment)
  : BGPPathAttrBase * list BGPASPathSegment :=
  (add_length base (Segment_TotalLen seg), seg :: value).

(** One turn of [PrependAS], with the number to be prepended: a number that
    was replaced stays so for the attributes behind.  For an AS4_PATH the last
    statement asserts the type of an AS path. *)
Definition prepend_attr (asSize : Z) (pa : BGPPathAttr) (as_ : Z) : exec (BGPPathAttr * Z) :=
  if GetCode pa =? BGPPathAttrTypeASPath then
    match pa with
    | BGPPathAttrASPath base value size =>
        let new := needs_segment value in
        let as_ := if new && (asSize =? 2) && (65535 <? as_) then BGPASTrans else as_ in
        let '(base, value) :=
          if new then
            PrependASPathSegment (if asSize =? 4 then NewBGPAS4PathSegment BGPASPathSegmentSequence
                                  else NewBGPAS2PathSegment BGPASPathSegmentSequence) base value
          else (base, value) in
        match value with
        | [] => Panic
        | s :: value => Ok (BGPPathAttrASPath (add_length base asSize) (Segment_PrependAS as_ s :: value) size, as_)
        end
    | _ => Panic
    end
  else if GetCode pa =? BGPPathAttrTypeAS4Path then Panic
  else Ok (pa, as_).

Fixpoint PrependAS (as_ asSize : Z) (attrs : list BGPPathAttr) : exec (list BGPPathAttr) :=
  match attrs with
  | [] => Ok []
  | pa :: attrs =>
      let! (pa, as_) := prepend_attr asSize pa as_ in
      let! attrs := PrependAS as_ asSize attrs in
      Ok (pa :: attrs)
  end.

Fixpoint narrow (value : list BGPASPathSegment) (path : BGPPathAttr) (mappable : bool) : exec (BGPPathAttr * bool) :=
  match value with
  | [] => Ok (path, mappable)
  | s :: value =>
      let! (s, ok) := CloneAsAS2PathSegment s in
      narrow value (AppendASPathSegment path s) (mappable && ok)
  end.

(** The attributes, and the AS4_PATH to be added to them. *)
Fixpoint narrow_first (attrs : list BGPPathAttr) : exec (list BGPPathAttr * option BGPPathAttr) :=
  match attrs with
  | [] => Ok ([], None)
  | pa :: attrs =>
      if GetCode pa =? BGPPathAttrTypeASPath then
        match pa with
        | BGPPathAttrASPath base value _ =>
            let! newAS4Path := CloneAsAS4Path base value in
            let! (newAS2Path, mappable) := narrow value NewBGPPathAttrASPath true in
            Ok (newAS2Path :: attrs, if mappable then None else Some newAS4Path)
        | _ => Panic
        end
      else let! (attrs, as4) := narrow_first attrs in Ok (pa :: attrs, as4)
  end.

Definition Convert4ByteTo2ByteASPath (attrs : list BGPPathAttr) : exec (list BGPPathAttr) :=
  let! (attrs, as4) := narrow_first attrs in
  Ok (match as4 with Some pa => AddPathAttrToPathAttrsByCode attrs BGPPathAttrTypeAS4Path pa | None => attrs end).

(** ** Other attributes *)

Definition RemoveMultiExitDisc := removeTypeFromPathAttrs BGPPathAttrTypeMultiExitDisc.
Definition RemoveLocalPref := removeTypeFromPathAttrs BGPPathAttrTypeLocalPref.
Definition RemoveNextHop := removeTypeFromPathAttrs BGPPathAttrTypeNextHop.
Definition RemoveOriginatorId := removeTypeFromPathAttrs BGPPathAttrTypeOriginatorId.
Definition RemoveClusterList := removeTypeFromPathAttrs BGPPathAttrTypeClusterList.

Definition HasMPReachNLRI (attrs : list BGPPathAttr) : bool :=
  existsb (fun pa => GetCode pa =? BGPPathAttrTypeMPReachNLRI) attrs.

(** Where the attributes with a larger code start. *)
Fixpoint first_above (code : Z) (attrs : list BGPPathAttr) : nat :=
  match attrs with
  | [] => 0
  | pa :: attrs => if code <? GetCode pa then 0 else S (first_above code attrs)
  end.

Definition NewBGPPathAttrLocalPref (value : Z) : BGPPathAttr :=
  BGPPathAttrLocalPref (mkAttrBase BGPPathAttrFlagTransitive BGPPathAttrTypeLocalPref 4 3) value.

Fixpoint set_local_pref (pref : Z) (attrs : list BGPPathAttr) : exec (list BGPPathAttr) :=
  match attrs with
  | [] => Ok []
  | pa :: attrs =>
      if GetCode pa =? BGPPathAttrTypeLocalPref then
        match pa with BGPPathAttrLocalPref base _ => Ok (BGPPathAttrLocalPref base pref :: attrs) | _ => Panic end
      else let! attrs := set_local_pref pref attrs in Ok (pa :: attrs)
  end.

(** A message without attributes gets none. *)
Definition SetLocalPref (pref : Z) (attrs : list BGPPathAttr) : exec (list BGPPathAttr) :=
  match getTypeFromPathAttrs attrs BGPPathAttrTypeLocalPref, attrs with
  | Some _, _ => set_local_pref pref attrs
  | None, [] => Ok []
  | None, _ :: _ =>
      let idx := first_above BGPPathAttrTypeLocalPref attrs in
      Ok (take idx attrs ++ NewBGPPathAttrLocalPref pref :: drop idx attrs)
  end.

Fixpoint SetNextHopPathAttrs (nextHopIP : list Z) (attrs : list BGPPathAttr) : exec (list BGPPathAttr) :=
  match attrs with
  | [] => Ok []
  | pa :: attrs =>
      let! pa := (if GetCode pa =? BGPPathAttrTypeNextHop then
                    match pa with BGPPathAttrNextHop base _ => Ok (BGPPathAttrNextHop base nextHopIP) | _ => Panic end
                  else Ok pa) in
      let! attrs := SetNextHopPathAttrs nextHopIP attrs in
      Ok (pa :: attrs)
  end.

Definition NewBGPPathAttrOriginatorId (id : list Z) : BGPPathAttr :=
  BGPPathAttrOriginatorId (mkAttrBase BGPPathAttrFlagOptional BGPPathAttrTypeOriginatorId 4 3) id.

(** [append(body.PathAttributes[:idx], ...)] ends the slice behind the new
    attribute. *)
Definition AddOriginatorId (id : list Z) (attrs : list BGPPathAttr) : list BGPPathAttr :=
  match getTypeFromPathAttrs attrs BGPPathAttrTypeOriginatorId, attrs with
  | Some _, _ => attrs
  | None, [] => []
  | None, _ :: _ => take (first_above BGPPathAttrTypeOriginatorId attrs) attrs ++ [NewBGPPathAttrOriginatorId id]
  end.

Definition NewBGPPathAttrClusterList : BGPPathAttr :=
  BGPPathAttrClusterList (mkAttrBase BGPPathAttrFlagOptional BGPPathAttrTypeClusterList 0 3) [].

Definition PrependId (id : Z) (pa : BGPPathAttr) : exec BGPPathAttr :=
  match pa with
  | BGPPathAttrClusterList base value => Ok (BGPPathAttrClusterList (add_length base 4) (id :: value))
  | _ => Panic
  end.

Fixpoint prepend_cluster (id : Z) (attrs : list BGPPathAttr) : exec (list BGPPathAttr) :=
  match attrs with
  | [] => Ok []
  | pa :: attrs =>
      if GetCode pa =? BGPPathAttrTypeClusterList then let! pa := PrependId id pa in Ok (pa :: attrs)
      else let! attrs := prepend_cluster id attrs in Ok (pa :: attrs)
  end.

Definition AddClusterId (id : Z) (attrs : list BGPPathAttr) : exec (list BGPPathAttr) :=
  match getTypeFromPathAttrs attrs BGPPathAttrTypeClusterList, attrs with
  | Some _, _ => prepend_cluster id attrs
  | None, [] => Ok []
  | None, _ :: _ =>
      let! pa := PrependId id NewBGPPathAttrClusterList in
      Ok (take (first_above BGPPathAttrTypeClusterList attrs) attrs ++ [pa])
  end.

(** ** The peer *)

(** What the peer and the source of the path are configured with: the two AS
    numbers, whether the neighbour is a client of the route reflector, its
    address, and what its OPEN said. *)
Record PeerConf := mkPeerConf {
  p_LocalAS : Z;
  p_PeerAS : Z;
  p_ASSize : Z;
  p_RouteReflectorClient : bool;
  p_NextHopSelf : bool;
  p_NeighborAddress : list Z;
  p_BGPId : list Z;
  p_RouteReflectorClusterId : Z
}.

Definition IsInternal (n : PeerConf) : bool := p_PeerAS n =? p_LocalAS n.
Definition IsRouteReflectorClient (n : PeerConf) : bool := p_RouteReflectorClient n.

(** [path.NeighborConf], nil for a local route, and [path.GetPreference()]. *)
Record Path := mkPath { path_NeighborConf : option PeerConf; path_preference : Z }.

Definition internal_attrs (n : PeerConf) (localAddress : list Z) (path : Path) (attrs : list BGPPathAttr)
  : exec (bool * list BGPPathAttr) :=
  let! (removeRRPathAttrs, attrs) :=
    match path_NeighborConf path with
    | Some from =>
        if IsRouteReflectorClient from || IsRouteReflectorClient n then
          let! attrs := AddClusterId (p_RouteReflectorClusterId from) (AddOriginatorId (p_BGPId from) attrs) in
          Ok (false, attrs)
        else let! attrs := SetLocalPref (path_preference path) attrs in Ok (true, attrs)
    | None => let! attrs := SetLocalPref (path_preference path) attrs in Ok (true, attrs)
    end in
  if p_NextHopSelf n then let! attrs := SetNextHopPathAttrs localAddress attrs in Ok (removeRRPathAttrs, attrs)
  else Ok (removeRRPathAttrs, attrs).

Definition external_attrs (n : PeerConf) (localAddress : list Z) (path : Path) (nlri : list NLRI) (attrs : list BGPPathAttr)
  : exec (list BGPPathAttr) :=
  let attrs := match path_NeighborConf path with Some _ => RemoveMultiExitDisc attrs | None => attrs end in
  let! attrs := PrependAS (p_LocalAS n) (p_ASSize n) attrs in
  let! attrs :=
    match nlri with
    | _ :: _ => SetNextHopPathAttrs localAddress attrs
    | [] => Ok (RemoveNextHop attrs)
    end in
  Ok (RemoveLocalPref attrs).

(** [None] is that nothing is sent.  The message is a clone, so that its
    slices are not nil and are shared with nobody; [localAddress] is nil until the
    session is established, and a message that only withdraws has no path. *)
Definition updatePathAttrs (n : PeerConf) (localAddress : option (list Z)) (path : option Path) (u : BGPUpdate)
  : exec (option BGPUpdate) :=
  match localAddress with
  | None => Ok None
  | Some localAddress =>
      let attrs := PathAttributes u in
      if (len (u_NLRI u) =? 0) && negb (HasMPReachNLRI attrs) then Ok (Some u) else
      let! attrs := (if p_ASSize n =? 2 then Convert4ByteTo2ByteASPath attrs else Ok attrs) in
      let! path := of_option path in
      let! (removeRRPathAttrs, attrs) :=
        (if IsInternal n then internal_attrs n localAddress path attrs
         else let! attrs := external_attrs n localAddress path (u_NLRI u) attrs in Ok (true, attrs)) in
      Ok (Some (u <| PathAttributes := if removeRRPathAttrs then RemoveClusterList (RemoveOriginatorId attrs) else attrs |>))
  end.

(** Addresses are compared as text: [net.IP.String] prints an IPv4-mapped
    address as the IPv4 address, and otherwise tells addresses apart. *)
Definition same_address (a b : list Z) : bool := bool_decide (default a (To4 a) = default b (To4 b)).

(** A path that came from inside is not passed on inside without a reflector,
    and none goes back to where it came from. *)
Definition passes (n from : PeerConf) : bool :=
  negb (IsInternal from && IsInternal n && negb (IsRouteReflectorClient from) && negb (IsRouteReflectorClient n)) &&
  negb (same_address (p_NeighborAddress n) (p_NeighborAddress from)).

Definition isAdvertisable (n : PeerConf) (path : option Path) (pathAttrs : list BGPPathAttr) : exec bool :=
  match path ≫= path_NeighborConf with
  | None => Ok true
  | Some from =>
      if passes n from then let! loop := HasASLoop pathAttrs (p_PeerAS n) in Ok (negb loop) else Ok false
  end.

(** What is handed to [SendUpdateMsg] of the manager. *)
Definition sendUpdateMsg (n : PeerConf) (localAddress : option (list Z)) (path : option Path) (u : BGPUpdate)
  : exec (option BGPUpdate) :=
  match path ≫= path_NeighborConf with
  | Some from => if passes n from then updatePathAttrs n localAddress path u else Ok None
  | None => updatePathAttrs n localAddress path u
  end.
