(* ===== verification/BgpExportProofs.v ===== *)
(** * The attributes of an UPDATE on its way to a peer: what is sent

    Towards an external peer with four-octet AS numbers the attributes are
    rewritten as the protocol asks for and can still be encoded; route
    reflection and peers with two-octet AS numbers lose attributes or crash. *)

From S2P Require Import Prelude BgpWire BgpOpen BgpAttr BgpAttrProofs BgpUpdate BgpUpdateProofs BgpSplit BgpExport.

(** ** Lists of attributes *)

Definition codes (attrs : list BGPPathAttr) : list Z := map GetCode attrs.

Lemma filter_all (P : Z -> Prop) `{forall c, Decision (P c)} (l : list Z) : (forall c, c ∈ l -> P c) -> filter P l = l.
Proof.
  induction l as [|c l IH]; intros Hp; [done|]. rewrite filter_cons, decide_True by (apply Hp; left).
  f_equal. apply IH. intros x Hx. apply Hp. by right.
Qed.

Lemma remove_codes code attrs :
  NoDup (codes attrs) -> codes (removeTypeFromPathAttrs code attrs) = filter (fun c => c <> code) (codes attrs).
Proof.
  induction attrs as [|pa attrs IH]; [done|]. cbn [codes map removeTypeFromPathAttrs]. intros [Hn Hd]%list.NoDup_cons.
  rewrite filter_cons. destruct (Z.eqb_spec (GetCode pa) code) as [<-|Hne].
  - rewrite decide_False by tauto. symmetry. apply filter_all. intros c Hc ->. done.
  - rewrite decide_True by done. cbn [map]. f_equal. by apply IH.
Qed.

Lemma remove_subset code attrs pa : pa ∈ removeTypeFromPathAttrs code attrs -> pa ∈ attrs.
Proof.
  induction attrs as [|x attrs IH]; [done|]. cbn [removeTypeFromPathAttrs]. destruct (_ =? _); rewrite ?elem_of_cons; tauto.
Qed.

Lemma remove_forall (P : BGPPathAttr -> Prop) code attrs : Forall P attrs -> Forall P (removeTypeFromPathAttrs code attrs).
Proof. rewrite !list.Forall_forall. intros H pa Hin. apply H. by eapply remove_subset. Qed.

Lemma remove_other code code' attrs :
  code <> code' -> getTypeFromPathAttrs (removeTypeFromPathAttrs code attrs) code' = getTypeFromPathAttrs attrs code'.
Proof.
  intros Hne. induction attrs as [|pa attrs IH]; [done|]. cbn [removeTypeFromPathAttrs getTypeFromPathAttrs].
  destruct (Z.eqb_spec (GetCode pa) code) as [E|E].
  - by rewrite (proj2 (Z.eqb_neq (GetCode pa) code')) by congruence.
  - cbn [getTypeFromPathAttrs]. by rewrite IH.
Qed.

Lemma remove_nodup code attrs : NoDup (codes attrs) -> NoDup (codes (removeTypeFromPathAttrs code attrs)).
Proof. intros H. rewrite remove_codes by done. by apply list.NoDup_filter. Qed.

Lemma remove_gone code attrs :
  NoDup (codes attrs) -> getTypeFromPathAttrs (removeTypeFromPathAttrs code attrs) code = None.
Proof.
  induction attrs as [|pa attrs IH]; [done|]. cbn [codes map removeTypeFromPathAttrs]. intros [Hn Hd]%list.NoDup_cons.
  destruct (Z.eqb_spec (GetCode pa) code) as [E|E].
  - clear IH Hd. induction attrs as [|x attrs IH]; [done|]. cbn [codes map getTypeFromPathAttrs] in *.
    rewrite not_elem_of_cons in Hn. destruct Hn as [Hx Hn]. rewrite (proj2 (Z.eqb_neq _ _)) by congruence. by apply IH.
  - cbn [getTypeFromPathAttrs]. rewrite (proj2 (Z.eqb_neq _ _)) by done. by apply IH.
Qed.

Lemma type_in attrs code pa : getTypeFromPathAttrs attrs code = Some pa -> pa ∈ attrs.
Proof.
  induction attrs as [|x attrs IH]; [done|]. cbn [getTypeFromPathAttrs]. destruct (_ =? _); [intros [= ->]; left | right; auto].
Qed.

Lemma type_none attrs code : getTypeFromPathAttrs attrs code = None <-> has_code code attrs = false.
Proof.
  induction attrs as [|x attrs IH]; [done|]. cbn [getTypeFromPathAttrs has_code existsb]. by destruct (_ =? _).
Qed.

Lemma type_map (f : BGPPathAttr -> BGPPathAttr) attrs code :
  (forall pa, GetCode (f pa) = GetCode pa) ->
  getTypeFromPathAttrs (map f attrs) code = option_map f (getTypeFromPathAttrs attrs code).
Proof.
  intros Hf. induction attrs as [|pa attrs IH]; [done|]. cbn [map getTypeFromPathAttrs]. rewrite Hf, IH. by destruct (_ =? _).
Qed.

Lemma codes_map (f : BGPPathAttr -> BGPPathAttr) attrs :
  (forall pa, GetCode (f pa) = GetCode pa) -> codes (map f attrs) = codes attrs.
Proof. intros Hf. unfold codes. rewrite map_map. by apply map_ext. Qed.

(** ** Prepending the AS number *)

Definition prepended (as_ : Z) (pa : BGPPathAttr) : BGPPathAttr :=
  match pa with
  | BGPPathAttrASPath base value size =>
      if needs_segment value then
        BGPPathAttrASPath (add_length (add_length base 2) 4)
          (Segment_PrependAS as_ (NewBGPAS4PathSegment BGPASPathSegmentSequence) :: value) size
      else
        match value with
        | s :: value => BGPPathAttrASPath (add_length base 4) (Segment_PrependAS as_ s :: value) size
        | [] => pa
        end
  | _ => pa
  end.

Lemma prepended_code as_ pa : GetCode (prepended as_ pa) = GetCode pa.
Proof. destruct pa; try done. cbn [prepended]. destruct (needs_segment Value); [done|]. by destruct Value. Qed.

Lemma prepend_spec data as_ attrs :
  Forall (wf_attr data) attrs -> has_code BGPPathAttrTypeAS4Path attrs = false ->
  PrependAS as_ 4 attrs = Ok (map (prepended as_) attrs).
Proof.
  induction 1 as [|pa attrs Hpa _ IH]; [done|]. cbn [has_code existsb]. intros [H1 H2]%orb_false_iff.
  cbn [PrependAS map]. assert (E : prepend_attr 4 pa as_ = Ok (prepended as_ pa, as_)).
  { unfold prepend_attr. rewrite H1. destruct (Z.eqb_spec (GetCode pa) BGPPathAttrTypeASPath) as [Ec|Ec].
    - destruct (as_path_kind pa (wf_kind _ _ Hpa) Ec) as (b & v & size & ->). cbn [prepended andb Z.eqb Pos.eqb]. rewrite andb_false_r.
      destruct (needs_segment v) eqn:En; cbn [andb]; [done|]. by destruct v.
    - destruct pa; try done. exfalso. apply Ec. apply Hpa. }
  rewrite E. cbn [exec_bind]. by rewrite IH.
Qed.

(** The AS path has room for one more number: in the field for its length, and
    in its first segment unless that is a set. *)
Definition path_room (pa : BGPPathAttr) : Prop :=
  match pa with
  | BGPPathAttrASPath b v _ =>
      (if extended b then a_Length b + 10 < 2 ^ 16 else a_Length b + 6 < 256) /\
      match v with s :: _ => s_Type (seg_base s) = BGPASPathSegmentSet \/ len (seg_AS s) <= 62 | [] => True end
  | _ => True
  end.

Lemma add_length_wf b k :
  wf_base b -> BGPPathAttrTypeLenMap (Code b) = None -> 0 <= k ->
  (if extended b then a_Length b + k + 4 < 2 ^ 16 else a_Length b + k < 256) ->
  wf_base (add_length b k) /\ a_Length (add_length b k) = a_Length b + k.
Proof.
  intros [Hh Hl Hf Hfl Hlo] Hc Hk Hr.
  assert (E : a_Length (add_length b k) = a_Length b + k).
  { cbn. apply u16_small. unfold is_u16. destruct (extended b); lia. }
  split; [|exact E]. split; [rewrite len_attr_head in *; exact Hh | lia | rewrite E; exact Hr | exact Hfl |].
  unfold length_ok. cbn [Code add_length]. by rewrite Hc.
Qed.

Lemma seg_prepend_wf as_ s :
  is_u32 as_ -> wf_seg true s -> len (seg_AS s) <= 62 ->
  wf_seg true (Segment_PrependAS as_ s) /\ seg_AS (Segment_PrependAS as_ s) = as_ :: seg_AS s /\
  len (seg_wire (Segment_PrependAS as_ s)) = len (seg_wire s) + 4.
Proof.
  intros Ha [Hk Hc Hs Hl Hf Has] Hn. destruct s as [|b l]; [done|]. cbn [seg_base seg_AS as_width] in *.
  unfold Segment_PrependAS. cbn [seg_base]. rewrite (proj2 (Z.leb_gt 255 _)) by lia.
  split; [|split; [done|]].
  - split; cbn [seg_as4 seg_base seg_AS s_Length BGPASPathSegmentLen as_width]; rewrite ?len_cons; [done | | lia | | lia | by constructor].
    + rewrite u8_small by (unfold is_u8; lia). lia.
    + rewrite u16_small by (unfold is_u16; lia). lia.
  - rewrite !len_seg_wire. cbn [seg_as4 seg_AS as_width]. rewrite len_cons. lia.
Qed.

Lemma prepended_wf data as_ pa :
  pa_ASSize data = 4 -> is_u32 as_ -> wf_attr data pa -> path_room pa -> wf_attr data (prepended as_ pa).
Proof.
  intros Hd Ha Hpa Hr. destruct pa as [|b v size| | | | | | | | | | | |]; try done. destruct Hpa as [Hb Hlen (Hc & -> & Hv)].
  cbn [attr_base attr_body] in *. destruct Hr as [Hroom Hfirst].
  assert (Hmap : forall k, BGPPathAttrTypeLenMap (Code (add_length b k)) = None) by (intros k; cbn; unfold GetCode in Hc; cbn in Hc; by rewrite Hc).
  assert (Hmap0 : BGPPathAttrTypeLenMap (Code b) = None) by (apply (Hmap 0)).
  pose proof (wb_length _ Hb) as Hpos. rewrite Hd in *. cbn [prepended]. destruct (needs_segment v) eqn:En.
  - destruct (add_length_wf b 2 Hb Hmap0) as [Hb1 E1]; [lia | destruct (extended b); lia |].
    destruct (add_length_wf (add_length b 2) 4 Hb1 (Hmap 2)) as [Hb2 E2];
      [lia | change (extended (add_length b 2)) with (extended b); destruct (extended b); lia |].
    split; cbn [attr_base attr_body]; [exact Hb2 | |].
    + rewrite E2, E1, Hlen, segs_cons, len_app. change (len (seg_wire _)) with 6. lia.
    + split; [exact Hc|]. split; [done|]. constructor; [|exact Hv]. split; try done. by constructor.
  - destruct v as [|s v]; [done|]. apply Forall_cons_1 in Hv as [Hs Hv].
    cbn [needs_segment] in En. apply orb_false_iff in En as [En1 En2]. apply Z.eqb_neq in En1.
    destruct Hfirst as [Hfirst|Hfirst]; [done|]. destruct (seg_prepend_wf as_ s Ha Hs Hfirst) as (Hs' & _ & El).
    destruct (add_length_wf b 4 Hb Hmap0) as [Hb1 E1]; [lia | destruct (extended b); lia |].
    split; cbn [attr_base attr_body]; [exact Hb1 | |].
    + rewrite E1, Hlen, !segs_cons, !len_app, El. lia.
    + split; [exact Hc|]. split; [done|]. by constructor.
Qed.

Lemma prepended_numbers data as_ b v size :
  is_u32 as_ -> pa_ASSize data = 4 -> wf_attr data (BGPPathAttrASPath b v size) -> path_room (BGPPathAttrASPath b v size) ->
  exists b' v', prepended as_ (BGPPathAttrASPath b v size) = BGPPathAttrASPath b' v' size /\
    concat (map seg_AS v') = as_ :: concat (map seg_AS v).
Proof.
  intros Ha Hd [_ _ (_ & Es & Hv)] [_ Hfirst]. rewrite Es, Hd in Hv. cbn [prepended]. destruct (needs_segment v) eqn:En.
  { eexists _, _. split; [reflexivity|]. done. }
  destruct v as [|s v]; [done|]. apply Forall_cons_1 in Hv as [Hs Hv].
  cbn [needs_segment] in En. apply orb_false_iff in En as [En1 _]. apply Z.eqb_neq in En1.
  destruct Hfirst as [Hfirst|Hfirst]; [done|]. destruct (seg_prepend_wf as_ s Ha Hs Hfirst) as (_ & E & _).
  eexists _, _. split; [reflexivity|]. cbn [map concat]. by rewrite E.
Qed.

(** ** The next hop *)

Definition with_hop (ip : list Z) (pa : BGPPathAttr) : BGPPathAttr :=
  match pa with BGPPathAttrNextHop base _ => BGPPathAttrNextHop base ip | _ => pa end.

Lemma with_hop_code ip pa : GetCode (with_hop ip pa) = GetCode pa.
Proof. by destruct pa. Qed.

Lemma next_hop_kind data pa :
  wf_attr data pa -> GetCode pa = BGPPathAttrTypeNextHop -> exists b v, pa = BGPPathAttrNextHop b v.
Proof.
  intros [_ _ Hv] Hc. destruct pa; cbn [wf_value] in Hv; rewrite ?Hc in Hv; try (by destruct Hv); try done; [by eexists _, _|].
  exfalso. apply Hv. apply (bool_decide_unpack _). vm_compute. exact I.
Qed.

Lemma set_next_hop_spec data ip attrs :
  Forall (wf_attr data) attrs -> SetNextHopPathAttrs ip attrs = Ok (map (with_hop ip) attrs).
Proof.
  induction 1 as [|pa attrs Hpa _ IH]; [done|]. cbn [SetNextHopPathAttrs map].
  assert (E : (if GetCode pa =? BGPPathAttrTypeNextHop then
                 match pa with BGPPathAttrNextHop base _ => Ok (BGPPathAttrNextHop base ip) | _ => Panic end
               else Ok pa) = Ok (with_hop ip pa)).
  { destruct (Z.eqb_spec (GetCode pa) BGPPathAttrTypeNextHop) as [Ec|Ec].
    - by destruct (next_hop_kind _ _ Hpa Ec) as (b & v & ->).
    - destruct pa; try done. exfalso. apply Ec. apply Hpa. }
  rewrite E. cbn [exec_bind]. by rewrite IH.
Qed.

Lemma with_hop_wf data ip pa : len ip = 4 -> wf_attr data pa -> wf_attr data (with_hop ip pa).
Proof.
  intros Hip Hpa. destruct pa; try done. destruct Hpa as [Hb Hl Hv]. split; [exact Hb | | exact Hv].
  cbn [with_hop attr_base attr_body]. apply wb_len_ok in Hb. unfold length_ok in Hb. cbn in Hv.
  unfold GetCode in Hv. cbn [attr_base] in *. rewrite Hv in Hb. apply Z.eqb_eq in Hb. by rewrite <- Hb, Hip.
Qed.

(** ** External peers *)

(** The attributes that do not leave the AS: the preference and the attributes
    of route reflection, and the discriminator of a path that was learned. *)
Definition stays_inside (path : Path) (code : Z) : bool :=
  bool_decide (code ∈ [BGPPathAttrTypeLocalPref; BGPPathAttrTypeOriginatorId; BGPPathAttrTypeClusterList]) ||
  (bool_decide (is_Some (path_NeighborConf path)) && (code =? BGPPathAttrTypeMultiExitDisc)).

Section External.
Context (data : BGPPeerAttrs) (n : PeerConf) (ip : list Z) (path : Path).
Hypothesis Hdata : pa_ASSize data = 4.
Hypothesis Has : is_u32 (p_LocalAS n).
Hypothesis Hip : len ip = 4.

(** The attributes that are left before the rewriting of those that stay. *)
Definition kept_med (attrs : list BGPPathAttr) : list BGPPathAttr :=
  match path_NeighborConf path with Some _ => RemoveMultiExitDisc attrs | None => attrs end.

Definition exported (attrs : list BGPPathAttr) : list BGPPathAttr :=
  RemoveClusterList (RemoveOriginatorId (RemoveLocalPref
    (map (with_hop ip) (map (prepended (p_LocalAS n)) (kept_med attrs))))).

Lemma kept_forall P attrs : Forall P attrs -> Forall P (kept_med attrs).
Proof using. intros H. unfold kept_med. destruct (path_NeighborConf path); [by apply remove_forall | done]. Qed.

Lemma kept_type attrs code :
  code <> BGPPathAttrTypeMultiExitDisc -> getTypeFromPathAttrs (kept_med attrs) code = getTypeFromPathAttrs attrs code.
Proof using. intros Hc. unfold kept_med. destruct (path_NeighborConf path); [by apply remove_other | done]. Qed.

Lemma exported_type attrs code :
  code ∉ [BGPPathAttrTypeMultiExitDisc; BGPPathAttrTypeLocalPref; BGPPathAttrTypeOriginatorId; BGPPathAttrTypeClusterList] ->
  getTypeFromPathAttrs (exported attrs) code =
  option_map (with_hop ip) (option_map (prepended (p_LocalAS n)) (getTypeFromPathAttrs attrs code)).
Proof using.
  rewrite !not_elem_of_cons. intros (H1 & H2 & H3 & H4 & _). unfold exported, RemoveClusterList, RemoveOriginatorId, RemoveLocalPref.
  rewrite !remove_other by congruence. rewrite type_map by apply with_hop_code. rewrite type_map by apply prepended_code.
  by rewrite kept_type.
Qed.

(** An attribute other than the AS path and the next hop is passed on as it is. *)
Lemma exported_other attrs code :
  Forall (wf_attr data) attrs -> stays_inside path code = false ->
  code <> BGPPathAttrTypeASPath -> code <> BGPPathAttrTypeNextHop ->
  getTypeFromPathAttrs (exported attrs) code = getTypeFromPathAttrs attrs code.
Proof using.
  intros Ha Hs Hp Hh. unfold stays_inside in Hs. rewrite orb_false_iff, bool_decide_eq_false, !not_elem_of_cons in Hs.
  destruct Hs as [(H1 & H2 & H3 & _) Hmed].
  assert (Hk : getTypeFromPathAttrs (kept_med attrs) code = getTypeFromPathAttrs attrs code).
  { unfold kept_med. destruct (path_NeighborConf path); [|done]. apply remove_other. intros <-. by rewrite bool_decide_true in Hmed. }
  unfold exported, RemoveClusterList, RemoveOriginatorId, RemoveLocalPref. rewrite !remove_other by congruence.
  rewrite type_map by apply with_hop_code. rewrite type_map by apply prepended_code. rewrite Hk.
  destruct (getTypeFromPathAttrs attrs code) as [pa|] eqn:Et; [|done]. cbn [option_map]. f_equal.
  destruct (first_wf data attrs code pa Ha Et) as [[_ _ Hv] Ec].
  destruct pa; try done; cbn [wf_value] in Hv; destruct Hv; congruence.
Qed.

Lemma exported_wf attrs :
  Forall (wf_attr data) attrs -> Forall path_room attrs -> Forall (wf_attr data) (exported attrs).
Proof using Hdata Has Hip.
  intros Ha Hr. unfold exported. do 3 apply remove_forall. apply kept_forall in Ha, Hr.
  rewrite !Forall_map. rewrite list.Forall_forall in *. intros pa Hin.
  apply with_hop_wf; [done|]. apply prepended_wf; auto.
Qed.

Lemma exported_hop attrs b v : BGPPathAttrNextHop b v ∈ exported attrs -> v = ip.
Proof using.
  intros Hin. unfold exported in Hin. do 3 apply remove_subset in Hin.
  apply list_elem_of_fmap in Hin as (pa & E & _). destruct pa; try done. by injection E.
Qed.

Lemma exported_codes attrs :
  NoDup (codes attrs) -> codes (exported attrs) = filter (fun c => stays_inside path c = false) (codes attrs).
Proof using.
  intros Hd. assert (Hk : NoDup (codes (kept_med attrs)) /\ codes (kept_med attrs) =
    filter (fun c => bool_decide (is_Some (path_NeighborConf path)) && (c =? BGPPathAttrTypeMultiExitDisc) = false) (codes attrs)).
  { unfold kept_med. destruct (path_NeighborConf path); cbn [andb].
    - split; [by apply remove_nodup|]. unfold RemoveMultiExitDisc. rewrite remove_codes by done. apply list_filter_iff.
      intros c. rewrite bool_decide_true by done. cbn [andb]. by rewrite Z.eqb_neq.
    - split; [done|]. symmetry. by apply filter_all. }
  destruct Hk as [Hk Ek]. unfold exported, RemoveClusterList, RemoveOriginatorId, RemoveLocalPref.
  assert (Em : codes (map (with_hop ip) (map (prepended (p_LocalAS n)) (kept_med attrs))) = codes (kept_med attrs)).
  { rewrite codes_map by apply with_hop_code. by rewrite codes_map by apply prepended_code. }
  rewrite <- Em in Hk. rewrite !remove_codes by (repeat apply remove_nodup; done). rewrite Em, Ek.
  rewrite !list_filter_filter. apply list_filter_iff. intros c. unfold stays_inside.
  rewrite orb_false_iff, bool_decide_eq_false, !not_elem_of_cons. pose proof (not_elem_of_nil c). tauto.
Qed.

Lemma exported_numbers attrs :
  Forall (wf_attr data) attrs -> Forall path_room attrs -> has_code BGPPathAttrTypeASPath attrs = true ->
  path_numbers (exported attrs) = p_LocalAS n :: path_numbers attrs.
Proof using Hdata Has.
  intros Ha Hr Hc. unfold path_numbers. rewrite exported_type by (apply (bool_decide_unpack _); vm_compute; exact I).
  destruct (getTypeFromPathAttrs attrs BGPPathAttrTypeASPath) as [pa|] eqn:Et.
  - destruct (first_wf data attrs _ pa Ha Et) as [Hpa Ec].
    assert (Hroom : path_room pa) by (eapply list.Forall_forall; [exact Hr | by eapply type_in]).
    destruct (as_path_kind pa (wf_kind _ _ Hpa) Ec) as (b & v & size & ->). cbn [option_map].
    destruct (prepended_numbers data (p_LocalAS n) b v size Has Hdata Hpa Hroom) as (b' & v' & -> & E). exact E.
  - exfalso. by apply type_none in Et; rewrite Et in Hc.
Qed.
End External.

Lemma export_spec data n ip path u :
  pa_ASSize data = 4 -> is_u32 (p_LocalAS n) -> p_ASSize n = 4 -> IsInternal n = false ->
  u_NLRI u <> [] -> Forall (wf_attr data) (PathAttributes u) -> Forall path_room (PathAttributes u) ->
  has_code BGPPathAttrTypeAS4Path (PathAttributes u) = false ->
  updatePathAttrs n (Some ip) (Some path) u = Ok (Some (u <| PathAttributes := exported n ip path (PathAttributes u) |>)).
Proof.
  intros Hd Has Hsize Hext Hn Ha Hr H4. set (attrs := PathAttributes u) in *.
  unfold updatePathAttrs. fold attrs. rewrite Hsize, Hext. destruct (u_NLRI u) as [|r ns] eqn:En; [done|].
  rewrite len_cons. pose proof (len_nonneg ns). rewrite (proj2 (Z.eqb_neq _ 0)) by lia. cbn [andb exec_bind of_option Z.eqb Pos.eqb].
  unfold external_attrs. fold (kept_med path attrs). rewrite Hsize.
  rewrite (prepend_spec data); [| by apply kept_forall | apply type_none; rewrite kept_type by done; by apply type_none].
  cbn [exec_bind]. rewrite (set_next_hop_spec data); [done|].
  apply kept_forall with (path := path) in Ha, Hr. rewrite Forall_map. rewrite list.Forall_forall in *.
  intros pa Hin. apply prepended_wf; auto.
Qed.

Lemma announces_routes u :
  u_NLRI u <> [] \/ HasMPReachNLRI (PathAttributes u) = true ->
  (len (u_NLRI u) =? 0) && negb (HasMPReachNLRI (PathAttributes u)) = false.
Proof.
  intros [Hn | ->]; [|by rewrite andb_false_r]. destruct (u_NLRI u) as [|r ns]; [done|].
  rewrite len_cons. pose proof (len_nonneg ns). by rewrite (proj2 (Z.eqb_neq _ 0)) by lia.
Qed.

(** ** Which paths a peer is sent *)

(** The path may go to the peer: it did not come from there, nor from inside to
    inside without a reflector. *)
Definition may_pass (n : PeerConf) (path : Path) : Prop :=
  forall from, path_NeighborConf path = Some from ->
    ~ (IsInternal from = true /\ IsInternal n = true /\ IsRouteReflectorClient from = false /\ IsRouteReflectorClient n = false) /\
    same_address (p_NeighborAddress n) (p_NeighborAddress from) = false.

Lemma passes_spec n from :
  passes n from = true <->
  ~ (IsInternal from = true /\ IsInternal n = true /\ IsRouteReflectorClient from = false /\ IsRouteReflectorClient n = false) /\
  same_address (p_NeighborAddress n) (p_NeighborAddress from) = false.
Proof.
  unfold passes. destruct (IsInternal from), (IsInternal n), (IsRouteReflectorClient from), (IsRouteReflectorClient n),
    (same_address _ _); cbn; intuition congruence.
Qed.

Lemma may_pass_from n path from : path_NeighborConf path = Some from -> may_pass n path <-> passes n from = true.
Proof. intros E. rewrite passes_spec. split; [by intros H; apply H | intros H from' E'; congruence]. Qed.

Lemma send_passes n ip path u : may_pass n path -> sendUpdateMsg n ip (Some path) u = updatePathAttrs n ip (Some path) u.
Proof.
  intros Hp. unfold sendUpdateMsg. cbn. destruct (path_NeighborConf path) as [from|] eqn:E; [|done].
  by rewrite (proj1 (may_pass_from n path from E) Hp).
Qed.

Lemma external_passes n path :
  IsInternal n = false ->
  (forall from, path_NeighborConf path = Some from -> same_address (p_NeighborAddress n) (p_NeighborAddress from) = false) ->
  may_pass n path.
Proof. intros Hn Ha from E. split; [|by apply Ha]. rewrite Hn. by intros (_ & ? & _). Qed.

(** C37: For attributes with four-octet AS numbers, [isAdvertisable] answers yes
    exactly when the path is local, or did not come from the peer, nor from
    inside to inside without a route reflector, and the number of the peer is
    not in its AS path.  [sendUpdateMsg] makes the first two of these checks and
    not the one for the AS path: an update that came from the peer, or goes
    from inside to inside without a reflector, is not sent, and any other one is
    rewritten and handed on, local paths included. *)
Theorem advertised_exactly data n ip path attrs u :
  Forall (wf_attr data) attrs -> pa_ASSize data = 4 ->
  exists b, isAdvertisable n (Some path) attrs = Ok b /\
    (b = true <-> may_pass n path /\ (path_NeighborConf path = None \/ p_PeerAS n ∉ path_numbers attrs)) /\
    (may_pass n path -> sendUpdateMsg n ip (Some path) u = updatePathAttrs n ip (Some path) u) /\
    (~ may_pass n path -> sendUpdateMsg n ip (Some path) u = Ok None).
Proof.
  intros Ha H4. unfold isAdvertisable. cbn. destruct (path_NeighborConf path) as [from|] eqn:E.
  - pose proof (may_pass_from n path from E) as Em. destruct (passes n from) eqn:Ep.
    + rewrite (loop_check data) by done. cbn [exec_bind]. eexists. split; [done|].
      rewrite negb_true_iff, bool_decide_eq_false. split; [intuition congruence|]. split; [apply send_passes | tauto].
    + exists false. split; [done|]. split; [intuition congruence|]. split; [apply send_passes|]. intros _.
      unfold sendUpdateMsg. cbn. by rewrite E, Ep.
  - assert (Hm : may_pass n path) by (intros from; by rewrite E).
    exists true. split; [done|]. split; [tauto|]. split; [apply send_passes | done].
Qed.

(** ** Internal peers *)

Lemma type_append l1 l2 code :
  getTypeFromPathAttrs (l1 ++ l2) code =
  match getTypeFromPathAttrs l1 code with Some pa => Some pa | None => getTypeFromPathAttrs l2 code end.
Proof. induction l1 as [|pa l1 IH]; [done|]. cbn [app getTypeFromPathAttrs]. by destruct (_ =? _). Qed.

Lemma type_insert i l x code :
  getTypeFromPathAttrs (take i l ++ x :: drop i l) code =
  match getTypeFromPathAttrs (take i l) code with
  | Some pa => Some pa
  | None => if GetCode x =? code then Some x else getTypeFromPathAttrs (drop i l) code
  end.
Proof. by rewrite type_append. Qed.

Lemma type_split i l code :
  getTypeFromPathAttrs l code =
  match getTypeFromPathAttrs (take i l) code with Some pa => Some pa | None => getTypeFromPathAttrs (drop i l) code end.
Proof. rewrite <- (take_drop i l) at 1. apply type_append. Qed.

Lemma local_pref_kind data pa :
  wf_attr data pa -> GetCode pa = BGPPathAttrTypeLocalPref -> exists b v, pa = BGPPathAttrLocalPref b v.
Proof.
  intros [_ _ Hv] Hc. destruct pa; cbn [wf_value] in Hv; rewrite ?Hc in Hv; try (by destruct Hv); try done; [by eexists _, _|].
  exfalso. apply Hv. apply (bool_decide_unpack _). vm_compute. exact I.
Qed.

Lemma replace_pref data pref attrs pa :
  Forall (wf_attr data) attrs -> getTypeFromPathAttrs attrs BGPPathAttrTypeLocalPref = Some pa ->
  exists b attrs', set_local_pref pref attrs = Ok attrs' /\
    getTypeFromPathAttrs attrs' BGPPathAttrTypeLocalPref = Some (BGPPathAttrLocalPref b pref) /\
    (forall code, code <> BGPPathAttrTypeLocalPref -> getTypeFromPathAttrs attrs' code = getTypeFromPathAttrs attrs code) /\
    codes attrs' = codes attrs.
Proof.
  induction 1 as [|x attrs Hx _ IH]; [done|]. cbn [getTypeFromPathAttrs set_local_pref].
  destruct (Z.eqb_spec (GetCode x) BGPPathAttrTypeLocalPref) as [E|E].
  - intros _. destruct (local_pref_kind data x Hx E) as (b & v & ->). eexists b, _. split; [reflexivity|].
    unfold GetCode in *. cbn [attr_base getTypeFromPathAttrs] in *. unfold GetCode. cbn [attr_base]. split; [by rewrite E|]. split; [|done].
    intros code Hc. by rewrite (proj2 (Z.eqb_neq _ _)) by congruence.
  - intros Hpa. destruct (IH Hpa) as (b & attrs' & -> & H1 & H2 & H3). exists b, (x :: attrs'). split; [done|].
    cbn [getTypeFromPathAttrs]. rewrite (proj2 (Z.eqb_neq _ _)) by done. split; [done|]. split; [|cbn [codes map]; by f_equal].
    intros code Hc. destruct (GetCode x =? code); [done | by apply H2].
Qed.

Lemma set_pref_spec data pref attrs :
  Forall (wf_attr data) attrs -> attrs <> [] ->
  exists b attrs', SetLocalPref pref attrs = Ok attrs' /\
    getTypeFromPathAttrs attrs' BGPPathAttrTypeLocalPref = Some (BGPPathAttrLocalPref b pref) /\
    (forall code, code <> BGPPathAttrTypeLocalPref -> getTypeFromPathAttrs attrs' code = getTypeFromPathAttrs attrs code) /\
    (NoDup (codes attrs) -> NoDup (codes attrs')).
Proof.
  intros Ha Hne. unfold SetLocalPref. destruct (getTypeFromPathAttrs attrs BGPPathAttrTypeLocalPref) as [pa|] eqn:Et.
  { destruct (replace_pref data pref attrs pa Ha Et) as (b & attrs' & ? & ? & ? & E). exists b, attrs'. by rewrite E. }
  destruct attrs as [|x l]; [done|]. set (l' := x :: l) in *. set (i := first_above BGPPathAttrTypeLocalPref l').
  eexists _, _. split; [reflexivity|]. assert (Hn5 : BGPPathAttrTypeLocalPref ∉ codes l').
  { intros Hin. apply type_none in Et. apply not_true_iff_false in Et. apply Et, existsb_exists.
    apply list_elem_of_fmap in Hin as (pa & E & Hin). exists pa. rewrite <- E, Z.eqb_refl. split; [by apply list_elem_of_In | done]. }
  rewrite (type_split i) in Et. split; [|split].
  - rewrite type_insert. by destruct (getTypeFromPathAttrs (take i l') _).
  - intros code Hc. rewrite type_insert, (type_split i l' code).
    change (GetCode (NewBGPPathAttrLocalPref pref)) with BGPPathAttrTypeLocalPref. by rewrite (proj2 (Z.eqb_neq _ code)) by done.
  - intros Hnd. assert (codes (take i l' ++ NewBGPPathAttrLocalPref pref :: drop i l') ≡ₚ BGPPathAttrTypeLocalPref :: codes l') as ->.
    { unfold codes. rewrite <- Permutation_middle. cbn [map]. by rewrite take_drop. }
    by apply NoDup_cons_2.
Qed.

(** C38: To a peer inside the AS with four-octet AS numbers, without route
    reflection and without next-hop-self, an announcement that is local or came
    from outside, and has no attribute twice, is sent with the preference of its
    path and without the two attributes of route reflection; its AS path, next
    hop and every other attribute is left as it was. *)
Theorem internal_export data n ip path u :
  IsInternal n = true -> p_ASSize n = 4 -> p_NextHopSelf n = false ->
  match path_NeighborConf path with
  | Some from => IsRouteReflectorClient from || IsRouteReflectorClient n = false
  | None => True
  end -> may_pass n path ->
  u_NLRI u <> [] \/ HasMPReachNLRI (PathAttributes u) = true ->
  Forall (wf_attr data) (PathAttributes u) -> PathAttributes u <> [] -> NoDup (codes (PathAttributes u)) ->
  exists b attrs, sendUpdateMsg n (Some ip) (Some path) u = Ok (Some (u <| PathAttributes := attrs |>)) /\
    getTypeFromPathAttrs attrs BGPPathAttrTypeLocalPref = Some (BGPPathAttrLocalPref b (path_preference path)) /\
    getTypeFromPathAttrs attrs BGPPathAttrTypeOriginatorId = None /\
    getTypeFromPathAttrs attrs BGPPathAttrTypeClusterList = None /\
    (forall code, code ∉ [BGPPathAttrTypeLocalPref; BGPPathAttrTypeOriginatorId; BGPPathAttrTypeClusterList] ->
       getTypeFromPathAttrs attrs code = getTypeFromPathAttrs (PathAttributes u) code).
Proof.
  intros Hint Hsize Hself Hrr Hpass Hroutes Ha Hne Hnd. rewrite (send_passes _ _ _ _ Hpass).
  destruct (set_pref_spec data (path_preference path) (PathAttributes u) Ha Hne) as (b & attrs' & Es & Hp & Ho & Hnd').
  exists b, (RemoveClusterList (RemoveOriginatorId attrs')). unfold RemoveClusterList, RemoveOriginatorId. split; [|split; [|split; [|split]]].
  - unfold updatePathAttrs. rewrite (announces_routes u Hroutes), Hsize, Hint. cbn [exec_bind of_option Z.eqb Pos.eqb].
    unfold internal_attrs. rewrite Es, Hself. cbn [exec_bind]. destruct (path_NeighborConf path) as [from|]; [by rewrite Hrr | done].
  - by rewrite !remove_other.
  - rewrite remove_other by done. by apply remove_gone, Hnd'.
  - by apply remove_gone, remove_nodup, Hnd'.
  - intros code. rewrite !not_elem_of_cons. intros (H5 & H9 & H10 & _).
    rewrite !remove_other by congruence. by apply Ho.
Qed.

(** ** Route reflection *)

Lemma first_above_app code l1 pa l2 :
  Forall (fun x => GetCode x < code) l1 -> code < GetCode pa -> first_above code (l1 ++ pa :: l2) = length l1.
Proof.
  intros H1 Hpa. induction H1 as [|x l1 Hx _ IH]; cbn [first_above app length].
  - by rewrite (proj2 (Z.ltb_lt _ _)).
  - rewrite (proj2 (Z.ltb_ge _ _)) by lia. by rewrite IH.
Qed.

Lemma first_above_all code l : Forall (fun x => GetCode x < code) l -> first_above code l = length l.
Proof.
  induction 1 as [|x l Hx _ IH]; [done|]. cbn [first_above length]. rewrite (proj2 (Z.ltb_ge _ _)) by lia. by rewrite IH.
Qed.

Lemma below_has code code' l : Forall (fun x => GetCode x < code) l -> code <= code' -> has_code code' l = false.
Proof.
  intros H Hc. induction H as [|x l Hx _ IH]; [done|]. cbn [has_code existsb]. rewrite (proj2 (Z.eqb_neq _ _)) by lia. exact IH.
Qed.

(** C39: A route reflector adds its two attributes in the middle of the others and
    cuts off what comes behind: an attribute with a larger code, such as the one
    that carries the routes of another family, is not sent. *)
Theorem reflection_drops_attributes n ip path from u l1 pa l2 :
  IsInternal n = true -> p_ASSize n <> 2 -> p_NextHopSelf n = false ->
  path_NeighborConf path = Some from -> IsRouteReflectorClient from || IsRouteReflectorClient n = true -> may_pass n path ->
  PathAttributes u = l1 ++ pa :: l2 -> Forall (fun x => GetCode x < BGPPathAttrTypeOriginatorId) l1 ->
  BGPPathAttrTypeOriginatorId < GetCode pa -> has_code BGPPathAttrTypeOriginatorId l2 = false ->
  u_NLRI u <> [] \/ HasMPReachNLRI (PathAttributes u) = true ->
  sendUpdateMsg n (Some ip) (Some path) u = Ok (Some (u <| PathAttributes := l1 ++
    [BGPPathAttrOriginatorId (mkAttrBase 128 9 4 3) (p_BGPId from);
     BGPPathAttrClusterList (mkAttrBase 128 10 4 3) [p_RouteReflectorClusterId from]] |>)).
Proof.
  intros Hint Hsize Hself Hfrom Hrr Hpass Ea H1 Hpa H2 Hroutes. rewrite (send_passes _ _ _ _ Hpass).
  assert (Hn9 : getTypeFromPathAttrs (l1 ++ pa :: l2) BGPPathAttrTypeOriginatorId = None).
  { apply type_none. unfold has_code. rewrite existsb_app. cbn [existsb].
    rewrite (proj2 (Z.eqb_neq (GetCode pa) _)) by lia. fold (has_code BGPPathAttrTypeOriginatorId l1).
    fold (has_code BGPPathAttrTypeOriginatorId l2). by rewrite H2, (below_has _ _ _ H1) by lia. }
  assert (Eo : AddOriginatorId (p_BGPId from) (l1 ++ pa :: l2) = l1 ++ [NewBGPPathAttrOriginatorId (p_BGPId from)]).
  { unfold AddOriginatorId. rewrite Hn9, first_above_app, take_app_length by done. by destruct l1. }
  assert (H10 : Forall (fun x => GetCode x < BGPPathAttrTypeClusterList) (l1 ++ [NewBGPPathAttrOriginatorId (p_BGPId from)])).
  { apply Forall_app. split; [|by repeat constructor]. eapply list.Forall_impl; [exact H1|]. cbn. intros x.
    unfold BGPPathAttrTypeOriginatorId, BGPPathAttrTypeClusterList. lia. }
  assert (Ec : AddClusterId (p_RouteReflectorClusterId from) (l1 ++ [NewBGPPathAttrOriginatorId (p_BGPId from)]) =
    Ok (l1 ++ [NewBGPPathAttrOriginatorId (p_BGPId from);
               BGPPathAttrClusterList (mkAttrBase 128 10 4 3) [p_RouteReflectorClusterId from]])).
  { unfold AddClusterId. rewrite (proj2 (type_none _ _)) by (by apply (below_has _ _ _ H10)).
    rewrite first_above_all, take_ge by done. cbn [PrependId NewBGPPathAttrClusterList exec_bind]. rewrite <- app_assoc. by destruct l1. }
  unfold updatePathAttrs. rewrite (announces_routes u Hroutes), Ea.
  rewrite (proj2 (Z.eqb_neq (p_ASSize n) 2)) by done. cbn [exec_bind of_option]. rewrite Hint. unfold internal_attrs.
  by rewrite Hfrom, Hrr, Eo, Ec, Hself.
Qed.

(** ** Peers with two-octet AS numbers *)

Lemma remove_keeps code attrs pa : pa ∈ attrs -> GetCode pa <> code -> pa ∈ removeTypeFromPathAttrs code attrs.
Proof.
  intros Hin Hc. induction attrs as [|x attrs IH]; [by apply not_elem_of_nil in Hin|].
  cbn [removeTypeFromPathAttrs]. apply elem_of_cons in Hin as [<-|Hin].
  - rewrite (proj2 (Z.eqb_neq _ _)) by done. left.
  - destruct (_ =? _); [done | right; by apply IH].
Qed.

Lemma prepend_panics asSize attrs base value as_ :
  BGPPathAttrAS4Path base value ∈ attrs -> Code base = BGPPathAttrTypeASPath -> PrependAS as_ asSize attrs = Panic.
Proof.
  intros Hin Hc. revert as_. induction attrs as [|x attrs IH]; intros as_; [by apply not_elem_of_nil in Hin|].
  cbn [PrependAS]. apply elem_of_cons in Hin as [<-|Hin].
  - unfold prepend_attr, GetCode. cbn [attr_base]. by rewrite Hc.
  - destruct (prepend_attr asSize x as_) as [[y as']| |] eqn:E; cbn [exec_bind]; [by rewrite IH | done |].
    exfalso. unfold prepend_attr in E. repeat case_match; done.
Qed.

Lemma narrow_ends v path m :
  Forall (fun s => seg_as4 s = true) v ->
  exists path', narrow v path m = Ok (path', m && forallb (fun x => x <=? 65535) (concat (map seg_AS v))).
Proof.
  intros Hv. revert path m. induction Hv as [|s v Hs _ IH]; intros path m.
  { exists path. cbn. by rewrite andb_true_r. }
  destruct s as [|b l]; [done|]. cbn [narrow CloneAsAS2PathSegment exec_bind]. destruct (IH (AppendASPathSegment path
    (BGPAS2PathSegment (mkSegBase (s_Type b) (s_Length b) (u16 (2 + u16 (u8 (s_Length b * 2)))))
       (map (fun x => if 65535 <? x then BGPASTrans else x) l))) (m && forallb (fun x => x <=? 65535) l)) as [p Ep].
  exists p. rewrite Ep. cbn [map concat seg_AS]. by rewrite forallb_app, andb_assoc.
Qed.

Lemma narrow_first_spec l1 b v size l2 :
  has_code BGPPathAttrTypeASPath l1 = false -> Code b = BGPPathAttrTypeASPath -> Forall (fun s => seg_as4 s = true) v ->
  forallb (fun x => x <=? 65535) (concat (map seg_AS v)) = false ->
  exists attrs b', narrow_first (l1 ++ BGPPathAttrASPath b v size :: l2) = Ok (attrs, Some (BGPPathAttrAS4Path b' v)) /\
    Code b' = BGPPathAttrTypeASPath.
Proof.
  intros H1 Hc Hv Hbig. induction l1 as [|x l1 IH]; cbn [app narrow_first].
  - unfold GetCode. cbn [attr_base]. rewrite Hc. cbn [Z.eqb Pos.eqb BGPPathAttrTypeASPath]. unfold CloneAsAS4Path.
    rewrite (proj2 (forallb_forall _ v)).
    + cbn [exec_bind]. destruct (narrow_ends v NewBGPPathAttrASPath true Hv) as [p ->]. cbn [exec_bind]. rewrite Hbig. by eexists _, _.
    + intros s Hs. rewrite list.Forall_forall in Hv. apply list_elem_of_In in Hs. apply Hv in Hs. by destruct s.
  - cbn [has_code existsb] in H1. apply orb_false_iff in H1 as [Hx H1]. rewrite Hx.
    destruct (IH H1) as (attrs & b' & -> & Hb'). cbn [exec_bind]. by eexists _, _.
Qed.

(** C40: An announcement whose AS path has a number that needs four octets crashes
    the speaker when it is sent to an external peer with two-octet AS numbers:
    the AS4_PATH that is added has the code of an AS path, and the local number
    is then prepended to it as to one. *)
Theorem two_octet_export_crashes n ip path u l1 b v size l2 as_ :
  p_ASSize n = 2 -> IsInternal n = false -> may_pass n path -> u_NLRI u <> [] ->
  PathAttributes u = l1 ++ BGPPathAttrASPath b v size :: l2 -> has_code BGPPathAttrTypeASPath l1 = false ->
  Code b = BGPPathAttrTypeASPath -> Forall (fun s => seg_as4 s = true) v ->
  as_ ∈ path_numbers (PathAttributes u) -> 65535 < as_ ->
  sendUpdateMsg n (Some ip) (Some path) u = Panic.
Proof.
  intros Hsize Hext Hpass Hn Ea H1 Hc Hv Hin Hbig. rewrite (send_passes _ _ _ _ Hpass).
  assert (Hnum : path_numbers (PathAttributes u) = concat (map seg_AS v)).
  { unfold path_numbers. rewrite Ea, type_first; [done | | done]. apply list.Forall_forall. intros x Hx.
    apply not_true_is_false. intros Ex. apply not_true_iff_false in H1. apply H1. apply existsb_exists. exists x.
    split; [by apply list_elem_of_In | done]. }
  rewrite Hnum in Hin. assert (Hf : forallb (fun x => x <=? 65535) (concat (map seg_AS v)) = false).
  { apply not_true_is_false. rewrite forallb_forall. intros Hall. apply list_elem_of_In, Hall in Hin.
    apply Z.leb_le in Hin. lia. }
  destruct (narrow_first_spec l1 b v size l2 H1 Hc Hv Hf) as (attrs & b' & En & Hb').
  unfold updatePathAttrs. rewrite Hsize, Hext, Ea. destruct (u_NLRI u) as [|r ns]; [done|].
  rewrite len_cons. pose proof (len_nonneg ns). rewrite (proj2 (Z.eqb_neq _ 0)) by lia. cbn [andb Z.eqb Pos.eqb].
  unfold Convert4ByteTo2ByteASPath. rewrite En. cbn [exec_bind of_option]. unfold external_attrs.
  rewrite (prepend_panics _ _ b' v); [done | | exact Hb']. unfold AddPathAttrToPathAttrsByCode.
  assert (Hm : forall l i, BGPPathAttrAS4Path b' v ∈ take i l ++ BGPPathAttrAS4Path b' v :: drop i l).
  { intros l i. apply elem_of_app. right. left. }
  destruct (path_NeighborConf path); [|apply Hm]. apply remove_keeps; [apply Hm|]. unfold GetCode. cbn [attr_base]. by rewrite Hb'.
Qed.

(** ** Examples *)

Definition demo_neighbor : PeerConf := mkPeerConf 65010 65020 4 false false [10; 0; 0; 2] [10; 0; 0; 2] 1.
Definition demo_client : PeerConf := mkPeerConf 65010 65010 4 true false [10; 0; 0; 3] [10; 0; 0; 3] 1.
Definition demo_old : PeerConf := mkPeerConf 65010 65020 2 false false [10; 0; 0; 4] [10; 0; 0; 4] 1.
Definition demo_path : Path := mkPath (Some demo_client) 100.

Lemma demo_codes_nodup : NoDup (codes (demo_attrs true)).
Proof. apply (bool_decide_unpack _). vm_compute. exact I. Qed.

Lemma demo_room : Forall path_room (demo_attrs true).
Proof. constructor; [done|]. constructor; [split; [done | by right]|]. by repeat constructor. Qed.

(** [demo_path] was learned from [demo_client]. *)
Lemma demo_may_pass n : passes n demo_client = true -> may_pass n demo_path.
Proof. by rewrite (may_pass_from n demo_path demo_client). Qed.

Lemma advertised_exactly_witness :
  exists b, isAdvertisable demo_neighbor (Some demo_path) (demo_attrs true) = Ok b /\
    (b = true <-> may_pass demo_neighbor demo_path /\
       (path_NeighborConf demo_path = None \/ p_PeerAS demo_neighbor ∉ path_numbers (demo_attrs true))) /\
    (may_pass demo_neighbor demo_path -> sendUpdateMsg demo_neighbor None (Some demo_path) (demo_update true) =
       updatePathAttrs demo_neighbor None (Some demo_path) (demo_update true)) /\
    (~ may_pass demo_neighbor demo_path -> sendUpdateMsg demo_neighbor None (Some demo_path) (demo_update true) = Ok None).
Proof.
  apply (advertised_exactly (demo_peer 4) demo_neighbor None demo_path (demo_attrs true) (demo_update true));
    [exact (demo_attrs_wf true) | reflexivity].
Defined.

Lemma reflection_drops_attributes_witness :
  let n := mkPeerConf 65010 65010 4 true false [10; 0; 0; 6] [10; 0; 0; 6] 1 in
  sendUpdateMsg n (Some [10; 0; 0; 9]) (Some demo_path) (demo_update true) =
  Ok (Some (demo_update true <| PathAttributes := take 3 (demo_attrs true) ++
    [BGPPathAttrOriginatorId (mkAttrBase 128 9 4 3) [10; 0; 0; 3]; BGPPathAttrClusterList (mkAttrBase 128 10 4 3) [1]] |>)).
Proof.
  intros n. apply (reflection_drops_attributes n [10; 0; 0; 9] demo_path demo_client (demo_update true) (take 3 (demo_attrs true))
    (BGPPathAttrMPUnreachNLRI (mkAttrBase 128 15 8 3) AfiIP6 1 [NLRIPrefix (mkIPPrefix 32 (32 :: 1 :: 13 :: 184 :: make 12))]) []);
    [reflexivity | discriminate | reflexivity | reflexivity | reflexivity | by apply demo_may_pass | reflexivity | | reflexivity |
     reflexivity | by left].
  do 3 (constructor; [done|]). constructor.
Defined.

Lemma two_octet_export_crashes_witness :
  sendUpdateMsg demo_old (Some [10; 0; 0; 9]) (Some demo_path) (demo_update true) = Panic.
Proof.
  apply (two_octet_export_crashes demo_old [10; 0; 0; 9] demo_path (demo_update true) (take 1 (demo_attrs true))
    (mkAttrBase 80 2 10 4) [demo_seg true] 4 (drop 2 (demo_attrs true)) 70000);
    [reflexivity | reflexivity | by apply demo_may_pass | discriminate | reflexivity | reflexivity | reflexivity | | | done].
  - constructor; [reflexivity | constructor].
  - apply (bool_decide_unpack _). vm_compute. exact I.
Defined.

Lemma internal_export_witness :
  let n := mkPeerConf 65010 65010 4 false false [10; 0; 0; 5] [10; 0; 0; 5] 1 in
  let path := mkPath (Some demo_neighbor) 200 in
  exists b attrs, sendUpdateMsg n (Some [10; 0; 0; 9]) (Some path) (demo_update true) =
      Ok (Some (demo_update true <| PathAttributes := attrs |>)) /\
    getTypeFromPathAttrs attrs BGPPathAttrTypeLocalPref = Some (BGPPathAttrLocalPref b 200) /\
    getTypeFromPathAttrs attrs BGPPathAttrTypeOriginatorId = None /\
    getTypeFromPathAttrs attrs BGPPathAttrTypeClusterList = None /\
    (forall code, code ∉ [BGPPathAttrTypeLocalPref; BGPPathAttrTypeOriginatorId; BGPPathAttrTypeClusterList] ->
       getTypeFromPathAttrs attrs code = getTypeFromPathAttrs (demo_attrs true) code).
Proof.
  intros n path. apply (internal_export (demo_peer 4) n [10; 0; 0; 9] path (demo_update true));
    [reflexivity | reflexivity | reflexivity | reflexivity | by apply (may_pass_from n path demo_neighbor) | by left |
     exact (demo_attrs_wf true) | discriminate | exact demo_codes_nodup].
Defined.
