(* ===== verification/BgpAnnounce.v ===== *)
(** * An announcement on its way from one speaker to the next

    The rewriting of the attributes ([BgpExport]), the splitting into messages
    ([BgpSplit]), the encoder and the decoder of the peer ([BgpUpdate]) put
    together: what the peer reads is what the speaker meant to announce. *)

From S2P Require Import Prelude BgpWire BgpOpen BgpAttr BgpAttrProofs BgpUpdate BgpUpdateProofs BgpSplit BgpSplitProofs BgpExport BgpExportProofs.

(** ** One message *)

(** The peer decodes the header and then the body of the message, as [u]. *)
Definition received (fuel : nat) (data : BGPPeerAttrs) (m : BGPMessage) (u : BGPUpdate) : Prop :=
  exists hdr body h,
    BGPMessage_Encode m = Ok (Some (hdr ++ body)) /\ len hdr = BGPMsgHeaderLen /\ len (hdr ++ body) <= BGPMsgMaxLen /\
    BGPHeader_Decode hdr = val h /\ h_Length h = len (hdr ++ body) /\
    BGPMessage_Decode fuel h body data = val (mkMessage h (Some (UpdateBody u))).

Definition with_lengths (x : BGPUpdate) : BGPUpdate :=
  mkUpdate (len (nlris_wire (WithdrawnRoutes x))) (WithdrawnRoutes x)
    (len (attrs_wire (PathAttributes x))) (PathAttributes x) (u_NLRI x).

Lemma chunk_received fuel data x :
  Forall (wf_nlri (AddPathsRxActual data) AfiIP) (WithdrawnRoutes x) -> Forall (wf_attr data) (PathAttributes x) ->
  Forall (wf_nlri (AddPathsRxActual data) AfiIP) (u_NLRI x) -> update_size x <= BGPMsgMaxLen ->
  pa_ASSize data = 4 -> has_code BGPPathAttrTypeAS4Path (PathAttributes x) = false ->
  has_code BGPPathAttrTypeAS4Aggregator (PathAttributes x) = false -> (4096 <= fuel)%nat ->
  received fuel data (update_message x) (with_lengths x).
Proof.
  intros Hw Ha Hn Hs H4 H17 H18 Hf. rewrite <- update_wire_size in Hs. set (l := BGPMsgHeaderLen + len (update_wire x)) in *.
  assert (Hb : wf_body data (UpdateBody (with_lengths x))) by (split; [by split | by split]).
  assert (Hl : is_u16 l).
  { pose proof (len_nonneg (update_wire x)). unfold is_u16, l, BGPMsgHeaderLen, BGPMsgMaxLen in *. lia. }
  exists (replicate 16 255 ++ PutUint16 l ++ [BGPMsgTypeUpdate]), (update_wire x), (mkHeader l BGPMsgTypeUpdate).
  split; [|split; [done|]].
  { unfold BGPMessage_Encode, update_message. cbn [Body Header h_Length h_Type BGPBody_Encode].
    rewrite (update_encode_parts data) by done. cbn [encode_bind]. fold l. rewrite (proj2 (Z.ltb_ge BGPMsgMaxLen l)) by lia.
    cbn [Z.eqb andb]. by rewrite u16_small, header_encode. }
  split; [by rewrite len_app|]. split; [by apply header_decode|]. split; [by rewrite len_app|].
  by apply (message_decode data (UpdateBody (with_lengths x)) fuel l).
Qed.

(** ** The size of the attributes *)

Lemma len_attr_wire data pa : wf_attr data pa -> len (attr_wire pa) = (if extended (attr_base pa) then 4 else 3) + a_Length (attr_base pa).
Proof. intros [_ Hl _]. unfold attr_wire. by rewrite len_app, len_attr_head, Hl. Qed.

Lemma remove_shorter code attrs : len (attrs_wire (removeTypeFromPathAttrs code attrs)) <= len (attrs_wire attrs).
Proof.
  induction attrs as [|pa attrs IH]; [done|]. cbn [removeTypeFromPathAttrs]. rewrite attrs_cons, len_app.
  pose proof (len_nonneg (attr_wire pa)). destruct (_ =? _); [lia|]. rewrite attrs_cons, len_app. lia.
Qed.

Lemma with_hop_length data ip attrs :
  len ip = 4 -> Forall (wf_attr data) attrs -> len (attrs_wire (map (with_hop ip) attrs)) = len (attrs_wire attrs).
Proof.
  intros Hip. induction 1 as [|pa attrs Hpa _ IH]; [done|]. cbn [map]. rewrite !attrs_cons, !len_app, IH. f_equal.
  rewrite (len_attr_wire data _ Hpa), (len_attr_wire data _ (with_hop_wf data ip pa Hip Hpa)). by destruct pa.
Qed.

Lemma add_length_le b k : 0 <= a_Length b -> 0 <= k -> a_Length (add_length b k) <= a_Length b + k.
Proof. intros Hb Hk. cbn. apply Z.mod_le; lia. Qed.

Lemma prepended_length as_ pa :
  0 <= a_Length (attr_base pa) ->
  extended (attr_base (prepended as_ pa)) = extended (attr_base pa) /\
  a_Length (attr_base (prepended as_ pa)) <= a_Length (attr_base pa) + 6.
Proof.
  intros Hb. destruct pa; try (split; [done | cbn in *; lia]). cbn [prepended attr_base] in *. destruct (needs_segment Value).
  - split; [done|]. cbn [attr_base]. pose proof (add_length_le base 2 Hb).
    assert (H0 : 0 <= a_Length (add_length base 2)) by (pose proof (u16_range (a_Length base + 2)) as H0; apply H0).
    pose proof (add_length_le (add_length base 2) 4 H0). lia.
  - destruct Value; [cbn [attr_base]; split; [done | lia]|]. split; [done|]. cbn [attr_base].
    pose proof (add_length_le base 4 Hb). lia.
Qed.

Lemma not_path_prepended data as_ attrs :
  Forall (wf_attr data) attrs -> BGPPathAttrTypeASPath ∉ codes attrs -> map (prepended as_) attrs = attrs.
Proof.
  induction 1 as [|pa attrs Hpa _ IH]; [done|]. cbn [codes map]. rewrite not_elem_of_cons. intros [Hc Hn]. f_equal; [|by apply IH].
  destruct pa; try done. destruct Hpa as [_ _ (E & _)]. by rewrite E in Hc.
Qed.

Lemma prepend_longer data as_ attrs :
  pa_ASSize data = 4 -> is_u32 as_ -> Forall (wf_attr data) attrs -> Forall path_room attrs -> NoDup (codes attrs) ->
  len (attrs_wire (map (prepended as_) attrs)) <= len (attrs_wire attrs) + 6.
Proof.
  intros Hd Has Ha Hr. induction Ha as [|pa attrs Hpa Ha IH]; [done|]. apply Forall_cons_1 in Hr as [Hr1 Hr].
  cbn [codes map]. intros [Hn Hnd]%list.NoDup_cons. rewrite !attrs_cons, !len_app.
  rewrite (len_attr_wire data _ Hpa), (len_attr_wire data _ (prepended_wf data as_ pa Hd Has Hpa Hr1)).
  pose proof (wb_length _ (wa_base _ _ Hpa)) as Hl. destruct (prepended_length as_ pa Hl) as [-> Hle].
  destruct (decide (GetCode pa = BGPPathAttrTypeASPath)) as [E|E].
  - rewrite E in Hn. rewrite (not_path_prepended data) by done. lia.
  - assert (Ep : prepended as_ pa = pa) by (destruct pa; try done; destruct Hpa as [_ _ (E' & _)]; done).
    rewrite Ep. specialize (IH Hr Hnd). lia.
Qed.

Lemma exported_size data n ip path attrs :
  pa_ASSize data = 4 -> is_u32 (p_LocalAS n) -> len ip = 4 -> Forall (wf_attr data) attrs -> Forall path_room attrs ->
  NoDup (codes attrs) -> len (attrs_wire (exported n ip path attrs)) <= len (attrs_wire attrs) + 6.
Proof.
  intros Hd Has Hip Ha Hr Hnd. unfold exported, RemoveClusterList, RemoveOriginatorId, RemoveLocalPref.
  assert (Hk : len (attrs_wire (kept_med path attrs)) <= len (attrs_wire attrs) /\ NoDup (codes (kept_med path attrs))).
  { unfold kept_med. destruct (path_NeighborConf path); [|done]. split; [apply remove_shorter | by apply remove_nodup]. }
  destruct Hk as [Hk1 Hk2]. apply kept_forall with (path := path) in Ha, Hr.
  assert (Hp : Forall (wf_attr data) (map (prepended (p_LocalAS n)) (kept_med path attrs))).
  { rewrite Forall_map. rewrite list.Forall_forall in *. intros pa Hin. apply prepended_wf; auto. }
  pose proof (prepend_longer data (p_LocalAS n) _ Hd Has Ha Hr Hk2). rewrite <- (with_hop_length data ip _ Hip Hp) in H.
  eapply Z.le_trans; [apply remove_shorter|]. eapply Z.le_trans; [apply remove_shorter|].
  eapply Z.le_trans; [apply remove_shorter|]. lia.
Qed.

(** ** Attributes that are not there *)

Lemma exported_has n ip path attrs code :
  code ∉ [BGPPathAttrTypeMultiExitDisc; BGPPathAttrTypeLocalPref; BGPPathAttrTypeOriginatorId; BGPPathAttrTypeClusterList] ->
  has_code code attrs = false -> has_code code (exported n ip path attrs) = false.
Proof. intros Hc Hn. apply type_none. rewrite exported_type by done. apply type_none in Hn. by rewrite Hn. Qed.

Lemma no_mp_has attrs :
  HasMPAttrs attrs = false <->
  has_code BGPPathAttrTypeMPReachNLRI attrs = false /\ has_code BGPPathAttrTypeMPUnreachNLRI attrs = false.
Proof.
  induction attrs as [|pa attrs IH]; [done|]. cbn [HasMPAttrs has_code existsb]. rewrite !orb_false_iff. fold (HasMPAttrs attrs).
  fold (has_code BGPPathAttrTypeMPReachNLRI attrs). fold (has_code BGPPathAttrTypeMPUnreachNLRI attrs). tauto.
Qed.

(** ** The next hop

    The address of the speaker has sixteen octets, as [net.ParseIP] returns it;
    the last four of them are sent. *)

Definition hop4 (ip : list Z) : list Z := drop (length ip - 4) ip.

Lemma len_hop4 ip : 4 <= len ip -> len (hop4 ip) = 4.
Proof. unfold hop4, len. rewrite length_drop. lia. Qed.

Lemma with_hop_base ip pa : attr_base (with_hop ip pa) = attr_base pa.
Proof. by destruct pa. Qed.

Lemma with_hop_encode data ip pa :
  4 <= len ip -> wf_attr data pa -> (forall b v, pa = BGPPathAttrNextHop b v -> v = hop4 ip) ->
  PathAttr_Encode (with_hop ip pa) = PathAttr_Encode pa.
Proof.
  intros Hip Hpa Hv. destruct pa; try done. cbn [with_hop PathAttr_Encode]. rewrite (Hv _ _ eq_refl) in *.
  assert (El : a_Length base = 4) by (destruct Hpa as [_ El _]; cbn in El; by rewrite len_hop4 in El).
  unfold BGPPathAttrNextHop_Encode. rewrite El, len_hop4 by done. unfold slice_from.
  assert (E : drop (Z.to_nat (len ip - 4)) ip = drop (Z.to_nat (4 - 4)) (hop4 ip)).
  { unfold hop4. rewrite drop_drop. f_equal. unfold len. lia. }
  rewrite E, !len_hop4 by done. by rewrite (proj2 (andb_true_iff _ _)) by (split; apply Z.leb_le; lia).
Qed.

Lemma exported_rehop n ip ip' path attrs : exported n ip path attrs = map (with_hop ip) (exported n ip' path attrs).
Proof.
  unfold exported. assert (Er : forall code l, map (with_hop ip) (removeTypeFromPathAttrs code l) =
    removeTypeFromPathAttrs code (map (with_hop ip) l)).
  { intros code l. induction l as [|pa l IH]; [done|]. cbn [removeTypeFromPathAttrs map]. rewrite with_hop_code.
    destruct (_ =? _); [done|]. cbn [map]. by rewrite IH. }
  unfold RemoveClusterList, RemoveOriginatorId, RemoveLocalPref. rewrite !Er. do 3 f_equal. rewrite (map_map (with_hop ip')).
  apply map_ext. by intros [].
Qed.

Lemma rehop_received fuel data ip x y :
  4 <= len ip -> Forall (wf_attr data) (PathAttributes x) ->
  (forall b v, BGPPathAttrNextHop b v ∈ PathAttributes x -> v = hop4 ip) ->
  received fuel data (update_message x) y -> received fuel data (update_message (map_attrs (with_hop ip) x)) y.
Proof.
  intros Hip Ha Hh (hdr & body & h & E & H). exists hdr, body, h. split; [|exact H]. rewrite <- E.
  assert (Ee : attrs_encode (map (with_hop ip) (PathAttributes x)) = attrs_encode (PathAttributes x)).
  { clear E. induction Ha as [|pa l Hpa Ha IH]; [done|]. cbn [map attrs_encode].
    rewrite (with_hop_encode data) by (done || (intros b v ->; apply (Hh b); left)).
    rewrite IH by (intros b v Hin; apply (Hh b); by right). done. }
  unfold BGPMessage_Encode, update_message. cbn [Body Header BGPBody_Encode]. unfold BGPUpdate_Encode, map_attrs. simpl_get.
  cbn [WithdrawnRoutes PathAttributes u_NLRI]. by rewrite Ee.
Qed.

(** ** The whole way *)

Lemma announced_plain data n ip path room u fuel :
  pa_ASSize data = 4 -> is_u32 (p_LocalAS n) -> len ip = 4 ->
  Forall (wf_nlri (AddPathsRxActual data) AfiIP) (WithdrawnRoutes u) ->
  Forall (wf_nlri (AddPathsRxActual data) AfiIP) (u_NLRI u) ->
  Forall (wf_attr data) (PathAttributes u) -> Forall path_room (PathAttributes u) -> NoDup (codes (PathAttributes u)) ->
  HasMPAttrs (PathAttributes u) = false -> has_code BGPPathAttrTypeAS4Path (PathAttributes u) = false ->
  has_code BGPPathAttrTypeAS4Aggregator (PathAttributes u) = false ->
  len (attrs_wire (PathAttributes u)) + 50 <= BGPMsgMaxLen -> (4096 <= fuel)%nat ->
  let u' := u <| PathAttributes := exported n ip path (PathAttributes u) |> in
  HasMPAttrs (PathAttributes u') = false /\
  exists us, ConstructMaxSizedUpdatePackets room u' = Ok (map update_message us) /\
    concat (map WithdrawnRoutes us) = WithdrawnRoutes u /\ concat (map u_NLRI us) = u_NLRI u /\
    Forall (fun x => Forall (wf_attr data) (PathAttributes x) /\ received fuel data (update_message x) (with_lengths x) /\
      (PathAttributes x = PathAttributes u' \/ (PathAttributes x = [] /\ u_NLRI x = []))) us.
Proof.
  intros Hd Has Hip Hw Hnl Ha Hr Hnd Hmp H17 H18 Hfit Hf u'.
  assert (Ha' : Forall (wf_attr data) (PathAttributes u')) by (by apply exported_wf).
  assert (Hmp' : HasMPAttrs (PathAttributes u') = false).
  { apply no_mp_has in Hmp as [H14 H15]. apply no_mp_has.
    split; (apply exported_has; [apply (bool_decide_unpack _); vm_compute; exact I | done]). }
  assert (Hfit' : BGPUpdateMsgMinLen + len (attrs_wire (PathAttributes u')) + 21 <= BGPMsgMaxLen).
  { pose proof (exported_size data n ip path _ Hd Has Hip Ha Hr Hnd) as Hs. change (PathAttributes u') with (exported n ip path (PathAttributes u)).
    unfold BGPUpdateMsgMinLen. lia. }
  destruct (split_spec data room u' Hw Hnl Ha' Hmp' Hfit') as (us & Eu & Er & En & Hg). split; [done|].
  exists us. split; [done|]. split; [done|]. split; [done|]. eapply list.Forall_impl; [exact Hg|].
  intros x (Hs & [Hxw Hxn]%Forall_app & Hx). assert (Hxa : Forall (wf_attr data) (PathAttributes x)).
  { by destruct Hx as [-> | [-> _]]. }
  split; [done|]. split; [|done].
  destruct Hx as [Hx | [Hx _]]; apply chunk_received; rewrite ?Hx; try done;
    (apply exported_has; [apply (bool_decide_unpack _); vm_compute; exact I | done]).
Qed.

(** C7: An announcement of IPv4 routes, without multiprotocol attributes and with
    attributes that leave room in a message and in the AS path, reaches an
    external peer that uses four-octet AS numbers: the messages that go out
    carry the routes in order and each once, the peer decodes every one of them,
    and reads with the routes an AS path that has the number of the speaker in
    front of the path announced, the address of the speaker as next hop, and
    exactly the other attributes that leave the AS, in order and with the values
    they had. *)
Theorem announcement_reaches_peer data n ip path room u fuel :
  pa_ASSize data = 4 -> is_u32 (p_LocalAS n) -> 4 <= len ip -> p_ASSize n = 4 -> IsInternal n = false -> may_pass n path ->
  u_NLRI u <> [] -> Forall (wf_nlri (AddPathsRxActual data) AfiIP) (WithdrawnRoutes u) ->
  Forall (wf_nlri (AddPathsRxActual data) AfiIP) (u_NLRI u) ->
  Forall (wf_attr data) (PathAttributes u) -> Forall path_room (PathAttributes u) -> NoDup (codes (PathAttributes u)) ->
  HasMPAttrs (PathAttributes u) = false -> has_code BGPPathAttrTypeAS4Path (PathAttributes u) = false ->
  has_code BGPPathAttrTypeAS4Aggregator (PathAttributes u) = false ->
  has_code BGPPathAttrTypeASPath (PathAttributes u) = true ->
  len (attrs_wire (PathAttributes u)) + 50 <= BGPMsgMaxLen -> (4096 <= fuel)%nat ->
  exists u' ms us, sendUpdateMsg n (Some ip) (Some path) u = Ok (Some u') /\
    ConstructMaxSizedUpdatePackets room u' = Ok ms /\ Forall2 (received fuel data) ms us /\
    concat (map WithdrawnRoutes us) = WithdrawnRoutes u /\ concat (map u_NLRI us) = u_NLRI u /\
    Forall (fun x => u_NLRI x <> [] ->
      path_numbers (PathAttributes x) = p_LocalAS n :: path_numbers (PathAttributes u) /\
      (forall b v, BGPPathAttrNextHop b v ∈ PathAttributes x -> v = hop4 ip) /\
      codes (PathAttributes x) = filter (fun c => stays_inside path c = false) (codes (PathAttributes u)) /\
      (forall code, stays_inside path code = false -> code <> BGPPathAttrTypeASPath -> code <> BGPPathAttrTypeNextHop ->
         getTypeFromPathAttrs (PathAttributes x) code = getTypeFromPathAttrs (PathAttributes u) code)) us.
Proof.
  intros Hd Has Hip Hsize Hext Hpass Hn Hw Hnl Ha Hr Hnd Hmp H17 H18 H2 Hfit Hf.
  destruct (announced_plain data n (hop4 ip) path room u fuel Hd Has (len_hop4 ip Hip) Hw Hnl Ha Hr Hnd Hmp H17 H18 Hfit Hf)
    as (Hmp' & us & Eu & Er & En & Hg).
  set (u4 := u <| PathAttributes := exported n (hop4 ip) path (PathAttributes u) |>) in *.
  exists (map_attrs (with_hop ip) u4), (map update_message (map (map_attrs (with_hop ip)) us)), (map with_lengths us).
  split; [|split; [|split; [|split; [|split]]]].
  - rewrite (send_passes _ _ _ _ Hpass), (export_spec data) by done. unfold map_attrs, u4. simpl_get. by rewrite <- exported_rehop.
  - rewrite (map_construct _ (with_hop_base ip) room u4 Hmp'), Eu. cbn [exec_bind]. by rewrite !map_map.
  - clear Eu Er En. induction Hg as [|x us (Hxa & Hx & Hxe) _ IH]; cbn [map]; constructor; [|exact IH].
    apply rehop_received; [done | done | | done]. intros b v Hin.
    destruct Hxe as [E | [E _]]; rewrite E in Hin; [|by apply not_elem_of_nil in Hin].
    exact (exported_hop n (hop4 ip) path (PathAttributes u) b v Hin).
  - rewrite map_map. exact Er.
  - rewrite map_map. exact En.
  - rewrite Forall_map. eapply list.Forall_impl; [exact Hg|]. intros x (_ & _ & Hx) Hne. cbn in Hne.
    destruct Hx as [Hx | [_ Hx]]; [|done]. cbn [PathAttributes with_lengths]. rewrite Hx.
    split; [by eapply exported_numbers|].
    split; [|split; [by apply exported_codes | intros code; by apply (exported_other data)]].
    intros b v Hin. exact (exported_hop n (hop4 ip) path (PathAttributes u) b v Hin).
Qed.

(** ** Example *)

Definition demo_announcement : BGPUpdate := mkUpdate 0 [] 0 demo_plain_attrs (replicate 1100 demo_route).
Definition demo_address : list Z := replicate 10 0 ++ [255; 255; 10; 0; 0; 9].

Lemma announcement_reaches_peer_witness :
  exists u' ms us, sendUpdateMsg demo_neighbor (Some demo_address) (Some demo_path) demo_announcement = Ok (Some u') /\
    ConstructMaxSizedUpdatePackets 0 u' = Ok ms /\ Forall2 (received 4096 (demo_peer 4)) ms us /\
    concat (map WithdrawnRoutes us) = [] /\ concat (map u_NLRI us) = replicate 1100 demo_route /\
    Forall (fun x => u_NLRI x <> [] ->
      path_numbers (PathAttributes x) = [65010; 65001; 70000] /\
      (forall b v, BGPPathAttrNextHop b v ∈ PathAttributes x -> v = [10; 0; 0; 9]) /\
      codes (PathAttributes x) = [1; 2; 3] /\
      (forall code, stays_inside demo_path code = false -> code <> BGPPathAttrTypeASPath -> code <> BGPPathAttrTypeNextHop ->
         getTypeFromPathAttrs (PathAttributes x) code = getTypeFromPathAttrs demo_plain_attrs code)) us.
Proof.
  apply (announcement_reaches_peer (demo_peer 4) demo_neighbor demo_address demo_path 0 demo_announcement 4096);
    [reflexivity | done | done | reflexivity | reflexivity | by apply demo_may_pass | discriminate | constructor | | | | |
     reflexivity | reflexivity | reflexivity | reflexivity | vm_compute; discriminate | done].
  - apply Forall_replicate. exact demo_route_wf.
  - exact demo_plain_wf.
  - exact (Forall_take _ 3 _ demo_room).
  - apply (bool_decide_unpack _). vm_compute. exact I.
Defined.
